(* ===== verification/_CoqProject ===== *)
-Q . S2P
Prelude.v
Memory.v
MemoryInv.v
MemoryOps.v
MemoryFault.v
MemoryInit.v
MemoryFork.v
Malloc.v
MallocInv.v
MallocSpec.v
Task.v
Sched.v
SchedSpec.v
Fork.v
ForkSpec.v
TaskLemmas.v
Exit.v
Signal.v
SignalSpec.v
ExitSpec.v
Sys.v
SysSpec.v
Console.v
ConsoleCells.v
Term.v
ConsoleSpec.v
ConsoleCsi.v
Tty.v
TtySpec.v
ConWrite.v
ConWriteSpec.v
Serial.v
SerialSpec.v
Mktime.v
Traps.v
TrapsSpec.v
Vsprintf.v
VsprintfSpec.v
FsDefs.v
BlkReq.v
BlkReqSpec.v
Hd.v
HdSpec.v
Floppy.v
Ramdisk.v
RamdiskSpec.v
FloppySpec.v
Buffer.v
Bitmap.v
Inode.v
Pipe.v
FileIo.v
Namei.v
NameOps.v
Open.v
Setup.v
FsLemmas.v
PipeSpec.v
DList.v
BufferSpec.v
GetblkSpec.v
BitmapSpec.v
InodeSpec.v
Exec.v
ExecArgs.v
ExecStack.v
ExecSpec.v
ExecLoad.v
ExecDemo.v
DirSpec.v
DirAdd.v
