(* ===== verification/Prelude.v ===== *)
(** * A verification of the Linux 0.11 kernel

    The repository keeps four source trees for reading: the annotated Linux 0.11 kernel
    ([src/linux-0.11]) and three third-party packages (glibc, coreutils, lua).  This
    development models the kernel's own C code and proves what makes it correct.

    ** The parts and how they interact

    The kernel has a memory manager (frames, page tables, copy on write), a process part
    (scheduling, fork, exit, signals, ids), a file system (buffers, bitmaps, inodes,
    directories, files, pipes) over a queue of block requests and
    the drivers of the hard disk, the floppy disk and the ram disk, an allocator of small
    objects, start-up routines that fill the interrupt table and set the clock, the handlers
    of processor exceptions, terminals (character queues and the line discipline) and the console behind them (the
    screen and its escape sequences).  [fork] and [exit] call the memory manager; [exit] closes
    files; the file system sleeps and is woken through the scheduler; page faults read
    executables through the file system; [execve] reads a program's header, moves the argument
    pages into the new image and resets the task; the console's driver is called by the line
    discipline and, for one answer, calls it back.

    A routine is a function of the monad [M S A = S -> outcome A * S]: it returns, panics,
    ends the task, does something that C leaves undefined (a null pointer, an index out of an
    array) or runs out of the model's fuel; the state that was reached is kept.  Integers are
    [Z] with every conversion of width written out ([u8], [u16], [u32], [s32]).  Pointers to
    table entries are indices, null pointers are [None].

    ** Files

    - [Prelude]: the monad, record update, integers, shared lemmas and tactics.
    - [Memory] ([mm/memory.c]): the machine's memory as words, [mem_map], page directories
      and tables at their physical addresses.  [MemoryInv] states the invariant [wf] (every
      count is the number of references), [MemoryOps], [MemoryFault], [MemoryInit] and
      [MemoryFork] prove the operations against it.
    - [Malloc] ([lib/malloc.c]): bucket descriptors and the free chains inside pages;
      [MallocInv] states the invariant [heap_ok] of the buckets and proves the steps that
      take and put back an object, [MallocSpec] proves [malloc] and [free_s].
    - [Task] (task structure, user memory, [include/linux/sched.h], [asm/segment.h]), [Sched]
      ([kernel/sched.c]) with [SchedSpec], [Fork] ([kernel/fork.c]) with [ForkSpec],
      [Exit] ([kernel/exit.c]) with [ExitSpec], [Signal] ([kernel/signal.c]) with
      [SignalSpec], [Sys] ([kernel/sys.c]) with [SysSpec]; [TaskLemmas] holds the lemmas and
      the rewrite database [kstep] that run system calls symbolically.
    - [Tty] ([kernel/chr_drv/tty_io.c], [tty_ioctl.c], [include/linux/tty.h],
      [include/termios.h]): the three queues of a terminal, the line discipline, reading,
      writing and the control calls, over the drivers as a class; [TtySpec] has the queue
      lemmas, the line editor [cook] on lists of characters and the theorems.
    - [Console] (the screen of [kernel/chr_drv/console.c]: scrolling, erasing, the cursor and the
      escape sequences on the video memory) and [ConWrite] ([con_write], [con_init], the beep).
      [Term] is the abstract terminal, a grid of cells with a cursor; [ConsoleCells] has the
      string instructions, [ConsoleSpec] the invariant [screen_ok], the relation [shows] and the
      refinement of the screen's operations, [ConsoleCsi] that of the escape sequences and
      [ConWriteSpec] the theorems on the driver.
    - [Traps] ([kernel/traps.c], the gates of [include/asm/system.h], [setup_idt] of
      [boot/head.s], [sched_init] and the routines that print task states, [time_init] and the
      memory limits of [init/main.c]) with [TrapsSpec].
    - [Mktime] ([kernel/mktime.c]) and [Vsprintf] ([kernel/vsprintf.c]) with
      [VsprintfSpec].
    - [Serial] ([kernel/chr_drv/serial.c] and the interrupt routines of [rs_io.s]) with
      [SerialSpec], whose instance [serial_driver] discharges the class [TtyDriver] that the line
      discipline is proved against.
    - [BlkReq] ([kernel/blk_drv/ll_rw_blk.c], [blk.h]) with [BlkReqSpec].
    - [Hd] ([kernel/blk_drv/hd.c]) with [HdSpec]: the controller is given by what a read returns
      after a history of port accesses, and the class [AtDisk] states what the driver relies on;
      a simple controller is an instance.  [Ramdisk] ([kernel/blk_drv/ramdisk.c]) with
      [RamdiskSpec].  [Floppy] ([kernel/blk_drv/floppy.c], [include/linux/fdreg.h]) with
      [FloppySpec]: the class [Fdc] states what the controller does, the head is where the bytes
      sent have moved it ([head_at]), a simple controller is an instance, and two levels of nested calls between the driver's routines are enough.
      [Setup] has [sys_setup] and [rd_load], which work over the buffer cache.
    - [FsDefs] (the data of [include/linux/fs.h] and the file system's state), [Buffer]
      ([fs/buffer.c]), [Bitmap] ([fs/bitmap.c]), [Inode] ([fs/inode.c], [fs/truncate.c],
      [fs/super.c]), [Pipe] ([fs/pipe.c]), [FileIo] ([fs/file_dev.c], [fs/block_dev.c],
      [fs/char_dev.c], [fs/read_write.c], [fs/fcntl.c], [fs/ioctl.c]), [Namei] and
      [NameOps] ([fs/namei.c]), [Open] ([fs/open.c], [fs/stat.c], mounting).
    - [Exec] ([fs/exec.c]): arguments, scripts, the new image, over the state of the memory, the
      task and the file system together.  [ExecArgs] is about the bytes in the argument pages
      and one pass of [copy_strings], [ExecSpec] about the copy as a whole and its errors,
      [ExecStack] about the tables on the new stack, [ExecLoad] about the step that commits to
      the new image and [ExecDemo] runs programs and scripts on concrete states.
    - [FsLemmas] runs the file system's table accesses symbolically and holds the quiet
      environment of the concrete runs.  [PipeSpec] is about pipes; [DList] is a small theory
      of doubly linked lists and rings, on which [BufferSpec] builds the invariant [queues] of
      the buffer cache and [GetblkSpec] the theorems on [buffer_init] and [getblk];
      [BitmapSpec] is about the bit maps and [new_block], [InodeSpec] about inodes on disk.
      [DirSpec] and [DirAdd] view a directory as an association list of names.

    ** What the theorems show

    - Memory: page counts equal references across every operation, copy on write is private
      and invisible to other mappings, freeing never panics, [fork]'s copy is complete or
      undone.
    - Processes: the scheduler always chooses a runnable task of largest counter, no wake-up
      is lost under any interleaving, [fork] either makes a full child or gives everything
      back, [waitpid] and [kill] do what they promise on each branch, signal frames and
      actions round trip, ids cannot be forged.
    - Allocator: the objects in use never overlap and keep their contents, a request gets an
      object of at least its size, freeing gives it back and an empty page is returned.
    - Terminals: [copy_to_cooked] refines the line editor [cook] (erase, kill, end of file,
      case and newline mapping) and keeps the count of lines, the stop flag and the signals to
      the process group; the echo may overflow the write queue.  [tty_read] on a line that was begun loops without sleeping.
    - Console: [con_write] refines the abstract terminal for every sequence of characters that
      asks no question: scrolling by moving the origin of the picture, by copying it back to the
      start of the video memory and by moving lines looks the same, no access leaves the video
      memory, and the registers of the display agree with the variables.  The answer to a
      question re-enters the driver and breaks its queue.
    - Program loading: the argument and environment strings arrive on the new stack with the
      tables that [main] expects, the old image is given back, every page taken is given back
      on errors; arguments that are too long run out of the array of pages.
    - Printing: digits and padding; a printed number reads back; every format ends, inside
      its string, the percent sign at the end included.
    - Block requests: the elevator's order, the room kept for reads and the request that a
      transfer takes.
    - Disks: a request for the hard disk becomes one command whose cylinder, head and sector name
      the right block, and the interrupts that follow move exactly its sectors between the disk
      and the buffer; the ram disk serves its whole queue in order.
      A request for the floppy disk becomes the command bytes for its track, head and sector,
      sent when the head is on that track, with the transfer set up through the bounce buffer where the data lie too high.
    - Start-up: the interrupt table has a gate for every vector, programs can call only
      vectors 3, 4, 5 and 0x80, and the time read from the clock is one that the clock showed.
    - Serial lines: the interrupts of the transmitter send a write queue in order and once.
    - Buffer cache: the free list is a ring of all buffers, each hash queue a doubly linked
      list of the buffers whose block hashes there, and no block is in two buffers;
      [buffer_init] establishes this with as many blocks as fit around the hole below 1 MB, [getblk] keeps it and returns the right buffer.
    - Disk: the search of a bit map finds the first clear bit, setting and clearing undo each
      other, a new block is marked, zeroed and in range; an inode that was written is read
      back.
    - Directories: [find_entry] is the search of the association list, with [..] in the
      task's root read as [.], and a name that [add_entry] added is found.
    - Pipes: a pipe refines a queue of bytes, for writers and for readers.
    - Theorems named in the findings show where the code departs from its comments.

    ** Bounds and fuel

    Loops bounded by the data ([for] loops, name comparison, digits) recurse on that data.
    A loop that may wait for others (sleeping on a lock, [getblk]'s retries) takes its number
    of rounds from a fuel argument or the class field [fuel]; theorems that promise a result
    show that the fuel suffices.  What other tasks do while a task sleeps is the arbitrary
    function [env].

    ** Not modelled

    Boot code (but for [setup_idt]) and the assembly entry points, which switch stacks and
    registers and have no C text; the keyboard's assembly routines; [printk] and [panic] as
    routines (their effect is a log entry and an outcome; the formatting they use is
    [Vsprintf]); the stub of the mathematics coprocessor; the first user program in
    [init/main.c] and the library stubs it links; the tool that builds the boot image, which
    runs on another system; glibc, coreutils and lua, which are third-party sources kept for
    reading.

    ** Limits

    The directory theorems are about directories whose blocks are direct and cached.  The
    sharing of inodes under [iget] and [iput] and the bytes that [tty_read] and [tty_write]
    move are modelled, without theorems of their own. *)
(** Shared prelude: machine-width integers, the kernel monad, functional record
    update, bounded loops, and the list and arithmetic lemmas that the component
    files use. *)

From stdpp Require Export base numbers list gmap strings.
From Stdlib Require Export ZArith Lia.

#[export] Set Warnings "-notation-overridden".
Global Open Scope Z_scope.

(** ** C integers

    An unsigned w-bit quantity is a [Z] in [0, 2^w); a signed one is a [Z] in
    [-2^(w-1), 2^(w-1)).  Every C conversion that can change a value is written
    with one of these functions. *)

Definition u8 (x : Z) : Z := x mod 256.
Definition u16 (x : Z) : Z := x mod 65536.
Definition u32 (x : Z) : Z := x mod 4294967296.

Definition s32 (x : Z) : Z :=
  let y := x mod 4294967296 in if y <? 2147483648 then y else y - 4294967296.

Definition b2z (b : bool) : Z := if b then 1 else 0.

(** C's truth value of an integer. *)
Definition istrue (x : Z) : bool := negb (x =? 0).

Lemma u8_range x : 0 <= u8 x < 256.
Proof. apply Z.mod_pos_bound. lia. Qed.

Lemma u32_range x : 0 <= u32 x < 4294967296.
Proof. apply Z.mod_pos_bound. lia. Qed.

Lemma u8_small x : 0 <= x < 256 -> u8 x = x.
Proof. apply Z.mod_small. Qed.

Lemma u32_small x : 0 <= x < 4294967296 -> u32 x = x.
Proof. apply Z.mod_small. Qed.

Lemma u16_small x : 0 <= x < 65536 -> u16 x = x.
Proof. apply Z.mod_small. Qed.

Lemma s32_small x : -2147483648 <= x < 2147483648 -> s32 x = x.
Proof.
  intros H. unfold s32. destruct (Z.ltb_spec (x mod 4294967296) 2147483648);
  destruct (decide (0 <= x)).
  - rewrite Z.mod_small; lia.
  - rewrite <- (Z_mod_plus_full x 1), Z.mod_small in H0; lia.
  - rewrite Z.mod_small in H0 by lia. lia.
  - rewrite <- (Z_mod_plus_full x 1), Z.mod_small by lia. lia.
Qed.

(** ** The kernel monad

    A kernel routine runs on a state and ends in one of five ways: it returns,
    it calls [panic] (which never returns), it ends the current task through
    [do_exit] (modelled in full by [Exit.v]), it performs an access the C code leaves undefined (an index out
    of an array), or the model's fuel for an unbounded loop runs out.  The state
    reached is kept in every case. *)

Inductive outcome (A : Type) : Type :=
| Ret (a : A)
| Panic (msg : string)
| Exit (code : Z)
| Undef (what : string)
| NoFuel.

Arguments Ret {A} _.
Arguments Panic {A} _.
Arguments Exit {A} _.
Arguments Undef {A} _.
Arguments NoFuel {A}.

Definition M (S A : Type) : Type := S -> outcome A * S.

#[global] Instance M_ret S : MRet (M S) := fun A a s => (Ret a, s).

#[global] Instance M_bind S : MBind (M S) := fun A B k m s =>
  match m s with
  | (Ret a, s') => k a s'
  | (Panic e, s') => (Panic e, s')
  | (Exit c, s') => (Exit c, s')
  | (Undef w, s') => (Undef w, s')
  | (NoFuel, s') => (NoFuel, s')
  end.

Definition get {S} : M S S := fun s => (Ret s, s).
Definition gets {S A} (f : S -> A) : M S A := fun s => (Ret (f s), s).
Definition put {S} (s : S) : M S unit := fun _ => (Ret tt, s).
Definition modify {S} (f : S -> S) : M S unit := fun s => (Ret tt, f s).
Definition panic {S A} (msg : string) : M S A := fun s => (Panic msg, s).
Definition exit_task {S A} (code : Z) : M S A := fun s => (Exit code, s).
Definition undef {S A} (what : string) : M S A := fun s => (Undef what, s).
Definition nofuel {S A} : M S A := fun s => (NoFuel, s).
Definition when {S} (b : bool) (m : M S unit) : M S unit :=
  if b then m else mret tt.

(** Reading an array cell; an index out of range is undefined in C. *)
Definition of_option {S A} (what : string) (o : option A) : M S A :=
  match o with Some a => mret a | None => undef what end.

(** A loop over a fixed list of indices. *)
Fixpoint for_each {S A} (l : list A) (body : A -> M S unit) : M S unit :=
  match l with
  | [] => mret tt
  | x :: l' => body x ;; for_each l' body
  end.

Lemma bind_ret {S A B} (a : A) (k : A -> M S B) s :
  (mret a ≫= k) s = k a s.
Proof. reflexivity. Qed.

Lemma bind_Ret {S A B} (m : M S A) (k : A -> M S B) s a s' :
  m s = (Ret a, s') -> (m ≫= k) s = k a s'.
Proof. intros H. unfold mbind, M_bind. by rewrite H. Qed.

Lemma bind_inv {S A B} (m : M S A) (k : A -> M S B) s b s' :
  (m ≫= k) s = (Ret b, s') ->
  exists a s1, m s = (Ret a, s1) /\ k a s1 = (Ret b, s').
Proof.
  unfold mbind, M_bind. destruct (m s) as [[a| | | |] s1]; naive_solver.
Qed.

Lemma bind_get {S B} (k : S -> M S B) s : (get ≫= k) s = k s s.
Proof. reflexivity. Qed.

Lemma bind_gets {S A B} (f : S -> A) (k : A -> M S B) s :
  (gets f ≫= k) s = k (f s) s.
Proof. reflexivity. Qed.

Lemma bind_modify {S B} (f : S -> S) (k : unit -> M S B) s :
  (modify f ≫= k) s = k tt (f s).
Proof. reflexivity. Qed.

Lemma bind_assoc {S A B C} (m : M S A) (k : A -> M S B) (k' : B -> M S C) s :
  ((m ≫= k) ≫= k') s = (m ≫= (fun x => k x ≫= k')) s.
Proof. unfold mbind, M_bind. by destruct (m s) as [[] ?]. Qed.

Lemma bind_ext {S A B} (m : M S A) (k k' : A -> M S B) s :
  (forall a s', k a s' = k' a s') -> (m ≫= k) s = (m ≫= k') s.
Proof. intros Hk. unfold mbind, M_bind. destruct (m s) as [[] ?]; auto. Qed.

(** Run the next step of a computation whose result is known. *)
Ltac mrun H := rewrite (bind_Ret _ _ _ _ _ H).

(** Linear arithmetic after beta reduction. *)
Ltac blia := cbv beta in *; lia.

(** ** Functional record update

    [Eta R] gives a record's eta expansion; from it the update of any field is
    derived by abstracting that field's projection. *)

Class Eta (R : Type) := eta : R -> R.
Class Upd {R T : Type} (p : R -> T) := upd : (T -> T) -> R -> R.

Ltac derive_upd p :=
  lazymatch type of p with
  | ?R -> ?T =>
    let e := constr:(_ : Eta R) in
    let f := fresh "f" in
    let r := fresh "r" in
    unfold Upd; intros f r;
    let body := eval hnf in (@eta R e r) in
    let abs := eval pattern (p r) in body in
    lazymatch abs with
    | ?g _ => let t := eval cbv beta in (g (f (p r))) in exact t
    end
  end.

#[export] Hint Extern 0 (Upd ?p) => (derive_upd p) : typeclass_instances.

Declare Scope upd_scope.
Delimit Scope upd_scope with upd.
Global Open Scope upd_scope.

Notation "r <| p := v |>" := (upd (p := p) (fun _ => v) r)
  (at level 1, left associativity, p at level 0, v at level 200) : upd_scope.
Notation "r <| p ::= f |>" := (upd (p := p) f r)
  (at level 1, left associativity, p at level 0, f at level 200) : upd_scope.

(** ** Finite sums over index lists *)

Definition sumZ {A} (g : A -> Z) (l : list A) : Z := foldr (fun x a => g x + a) 0 l.

Lemma sumZ_ext {A} (g h : A -> Z) l :
  (forall x, x ∈ l -> g x = h x) -> sumZ g l = sumZ h l.
Proof.
  induction l as [|x l IH]; simpl; intros Hx; [done|].
  rewrite (Hx x) by set_solver. rewrite IH; set_solver.
Qed.

Lemma sumZ_nonneg {A} (g : A -> Z) l :
  (forall x, x ∈ l -> 0 <= g x) -> 0 <= sumZ g l.
Proof.
  induction l as [|x l IH]; simpl; intros Hx; [done|].
  pose proof (Hx x ltac:(set_solver)). pose proof (IH ltac:(set_solver)). lia.
Qed.

Lemma sumZ_le {A} (g h : A -> Z) l : (forall x, x ∈ l -> g x <= h x) -> sumZ g l <= sumZ h l.
Proof.
  induction l as [|x l IH]; simpl; intros Hx; [done|].
  pose proof (Hx x ltac:(set_solver)). pose proof (IH ltac:(set_solver)). lia.
Qed.

Lemma sumZ_upd {A} (g h : A -> Z) l x :
  NoDup l -> x ∈ l -> (forall y, y ∈ l -> y <> x -> g y = h y) ->
  sumZ g l = sumZ h l - h x + g x.
Proof.
  induction l as [|z l IH]; simpl; intros Hnd Hx Hy; [set_solver|].
  apply NoDup_cons in Hnd as [Hz Hnd].
  apply elem_of_cons in Hx as [->|Hx].
  - rewrite (sumZ_ext g h l); [lia|]. intros y Hyl. apply Hy; set_solver.
  - rewrite IH by set_solver. rewrite (Hy z) by set_solver. lia.
Qed.

Lemma sumZ_elem {A} (g : A -> Z) l x :
  (forall y, y ∈ l -> 0 <= g y) -> x ∈ l -> g x <= sumZ g l.
Proof.
  induction l as [|z l IH]; simpl; intros Hnn Hx; [set_solver|].
  apply elem_of_cons in Hx as [->|Hx].
  - pose proof (sumZ_nonneg g l ltac:(set_solver)). lia.
  - pose proof (IH ltac:(set_solver) Hx). pose proof (Hnn z ltac:(set_solver)). lia.
Qed.

Lemma sumZ_elem2 {A} (g : A -> Z) l x y :
  NoDup l -> (forall y, y ∈ l -> 0 <= g y) -> x ∈ l -> y ∈ l -> x <> y ->
  g x + g y <= sumZ g l.
Proof.
  induction l as [|z l IH]; simpl; intros Hnd Hnn Hx Hy Hne; [set_solver|].
  apply NoDup_cons in Hnd as [Hz Hnd].
  apply elem_of_cons in Hx as [->|Hx]; apply elem_of_cons in Hy as [->|Hy].
  - done.
  - pose proof (sumZ_elem g l y ltac:(set_solver) Hy). lia.
  - pose proof (sumZ_elem g l x ltac:(set_solver) Hx). lia.
  - pose proof (IH Hnd ltac:(set_solver) Hx Hy Hne).
    pose proof (Hnn z ltac:(set_solver)). lia.
Qed.

Lemma sumZ_zero {A} (g : A -> Z) l :
  (forall x, x ∈ l -> g x = 0) -> sumZ g l = 0.
Proof.
  intros Hx. rewrite (sumZ_ext g (fun _ => 0)) by done.
  induction l; simpl; [done|]. rewrite IHl; set_solver.
Qed.

Lemma sumZ_app {A} (g : A -> Z) l l' : sumZ g (l ++ l') = sumZ g l + sumZ g l'.
Proof. induction l; simpl; [done|]. lia. Qed.

Lemma b2z_range b : 0 <= b2z b <= 1.
Proof. destruct b; simpl; lia. Qed.

(** ** Bits *)

Lemma land_mask_mod (x n : Z) : 0 <= n -> Z.land x (2 ^ n - 1) = x mod 2 ^ n.
Proof. intros. rewrite <- Z.land_ones by done. by rewrite Z.ones_equiv, <- Z.sub_1_r. Qed.

Lemma land_1_odd x : istrue (Z.land 1 x) = Z.odd x.
Proof.
  unfold istrue. rewrite Z.land_comm.
  change 1 with (2 ^ 1 - 1). rewrite land_mask_mod by lia.
  change (2 ^ 1) with 2. rewrite Zmod_odd. by destruct (Z.odd x).
Qed.

Lemma land_1_odd' x : istrue (Z.land x 1) = Z.odd x.
Proof. rewrite Z.land_comm. apply land_1_odd. Qed.

Lemma lor_add_disjoint x k c :
  0 <= k -> 0 <= c < 2 ^ k -> x mod 2 ^ k = 0 -> Z.lor x c = x + c.
Proof.
  intros Hk Hc Hx.
  enough (Z.land x c = 0) as H0 by (by rewrite Z.add_nocarry_lxor, Z.lxor_lor).
  apply Z.bits_inj'. intros n Hn. rewrite Z.land_spec, Z.bits_0.
  destruct (decide (n < k)).
  - replace x with (x / 2 ^ k * 2 ^ k) by (pose proof (Z_div_mod_eq_full x (2^k)); lia).
    rewrite Z.mul_pow2_bits_low by lia. done.
  - destruct (decide (c = 0)) as [->|]; [by rewrite Z.bits_0, andb_false_r|].
    rewrite (Z.bits_above_log2 c), andb_false_r; [done|lia|].
    apply Z.log2_lt_pow2; [lia|]. eapply Z.lt_le_trans; [apply Hc|].
    apply Z.pow_le_mono_r; lia.
Qed.

(** A point update of a function on [Z]. *)
Definition bump (own : Z -> Z) (f d : Z) : Z -> Z :=
  fun g => if g =? f then own g + d else own g.

Lemma elem_of_seqZ_iff m n i : i ∈ seqZ m n <-> m <= i < m + n.
Proof. apply elem_of_seqZ. Qed.
