(* ===== verification/Memory.v ===== *)
(** Physical page allocation, page tables and copy-on-write
    ([linux-0.11/mm/memory.c]).

    Physical memory is a map from word addresses to 32-bit words, with the page
    directory at address 0 as the kernel has it; [mem_map] is the byte map of page
    reference counts.  [invalidate()] (a reload of cr3) is counted, and [printk] is
    logged.  Inodes are named by their slot; what [do_no_page] needs of the file
    system is the interface [PageSource]. *)

From S2P Require Import Prelude.

(** ** State *)

Record mtask := mk_mtask {
  start_code : Z;
  end_code : Z;
  end_data : Z;
  executable : option Z
}.

Record mm := mk_mm {
  mem : gmap Z Z;
  mem_map : list Z;
  HIGH_MEMORY : Z;
  task : gmap Z mtask;
  current : Z;
  cr3_loads : Z;
  klog : list (string * list Z)
}.

#[export] Instance eta_mm : Eta mm := fun s =>
  mk_mm (mem s) (mem_map s) (HIGH_MEMORY s) (task s) (current s) (cr3_loads s) (klog s).

Definition LOW_MEM : Z := 0x100000.
Definition PAGING_MEMORY : Z := 15 * 1024 * 1024.
Definition PAGING_PAGES : Z := Z.shiftr PAGING_MEMORY 12.
Definition MAP_NR (addr : Z) : Z := Z.shiftr (u32 (addr - LOW_MEM)) 12.
Definition USED : Z := 100.
Definition PAGE_MASK : Z := 0xfffff000.
Definition SIGSEGV : Z := 11.
Definition NR_TASKS : Z := 64.

(** ** Words, bytes and the byte map *)

Definition ld (m : gmap Z Z) (a : Z) : Z := default 0 (m !! a).

Definition ldw (a : Z) : M mm Z := gets (fun s => ld (mem s) a).
Definition stw (a v : Z) : M mm unit := modify (fun s => s <| mem ::= <[a := v]> |>).

(** Storing one byte changes the byte lane of the word that holds it. *)
Definition stb (a v : Z) : M mm unit := modify (fun s =>
  let w := 4 * (a / 4) in
  let sh := 8 * (a mod 4) in
  s <| mem ::= <[w := Z.lor (Z.land (ld (mem s) w) (0xffffffff - Z.shiftl 255 sh))
                        (Z.shiftl (u8 v) sh)]> |>).

Definition get_map (i : Z) : M mm Z := fun s =>
  if 0 <=? i then of_option "mem_map index" (mem_map s !! Z.to_nat i) s
  else undef "mem_map index" s.

Definition set_map (i v : Z) : M mm unit := fun s =>
  if (0 <=? i) && (i <? PAGING_PAGES) then
    (Ret tt, s <| mem_map ::= <[Z.to_nat i := v]> |>)
  else undef "mem_map index" s.

Definition printk (msg : string) (args : list Z) : M mm unit :=
  modify (fun s => s <| klog ::= cons (msg, args) |>).

Definition invalidate : M mm unit := modify (fun s => s <| cr3_loads ::= Z.succ |>).

Definition oom {A} : M mm A :=
  printk "out of memory" [];; exit_task SIGSEGV.

(** [cld; rep; movsl]: copy [n] words upwards. *)
Fixpoint movsl (n : nat) (esi edi : Z) (m : gmap Z Z) : gmap Z Z :=
  match n with
  | O => m
  | S n => movsl n (esi + 4) (edi + 4) (<[edi := ld m esi]> m)
  end.

Definition copy_page (from to : Z) : M mm unit :=
  modify (fun s => s <| mem ::= movsl 1024 from to |>).

(** ** Page allocation *)

(** [std; repne; scasb] over [mem_map]: the highest index below [n] whose byte is
    zero, and the value ecx is left with. *)
Fixpoint scasb (n : nat) (l : list Z) : option Z :=
  match n with
  | O => None
  | S i => if decide (l !! i = Some 0) then Some (Z.of_nat i) else scasb i l
  end.

(** [std; rep; stosl] with eax = 0: clear [n] words downwards from [edi]. *)
Fixpoint stosl (n : nat) (edi : Z) (m : gmap Z Z) : gmap Z Z :=
  match n with
  | O => m
  | S n => stosl n (edi - 4) (<[edi := 0]> m)
  end.

Definition get_free_page : M mm Z :=
  l ← gets mem_map;
  match scasb (Z.to_nat PAGING_PAGES) l with
  | None => mret 0
  | Some ecx =>
      set_map ecx 1;;
      let edx := Z.shiftl ecx 12 + LOW_MEM in
      modify (fun s => s <| mem ::= stosl 1024 (edx + 4092) |>);;
      mret edx
  end.

Definition free_page (addr : Z) : M mm unit :=
  if addr <? LOW_MEM then mret tt else
  high ← gets HIGH_MEMORY;
  if u32 high <=? addr then panic "trying to free nonexistent page" else
  let addr := Z.shiftr (addr - LOW_MEM) 12 in
  old ← get_map addr;
  set_map addr (u8 (old - 1));;
  if istrue old then mret tt else
  set_map addr 0;;
  panic "trying to free free page".

(** The inner loop of [free_page_tables]: [n] entries from [pg_table] on. *)
Fixpoint free_entries (n : nat) (pg_table : Z) : M mm unit :=
  match n with
  | O => mret tt
  | S n =>
      e ← ldw pg_table;
      when (istrue (Z.land 1 e)) (free_page (Z.land PAGE_MASK e));;
      stw pg_table 0;;
      free_entries n (pg_table + 4)
  end.

Fixpoint free_dirs (size : nat) (dir : Z) : M mm unit :=
  match size with
  | O => mret tt
  | S size =>
      d ← ldw dir;
      (if negb (istrue (Z.land 1 d)) then mret tt else
       free_entries 1024 (Z.land PAGE_MASK d);;
       d ← ldw dir;
       free_page (Z.land PAGE_MASK d);;
       stw dir 0);;
      free_dirs size (dir + 4)
  end.

Definition free_page_tables (from size : Z) : M mm Z :=
  if istrue (Z.land from 0x3fffff)
  then panic "free_page_tables called with wrong alignment" else
  if from =? 0 then panic "Trying to free up swapper memory space" else
  let size := Z.shiftr (u32 (size + 0x3fffff)) 22 in
  let dir := Z.land (Z.shiftr from 20) 0xffc in
  free_dirs (Z.to_nat size) dir;;
  invalidate;;
  mret 0.

(** The inner loop of [copy_page_tables]. *)
Fixpoint copy_entries (nr : nat) (from_page_table to_page_table : Z) : M mm unit :=
  match nr with
  | O => mret tt
  | S nr =>
      this_page ← ldw from_page_table;
      (if negb (istrue (Z.land 1 this_page)) then mret tt else
       let this_page := Z.land this_page 0xfffffffd in
       stw to_page_table this_page;;
       if LOW_MEM <? this_page then
         stw from_page_table this_page;;
         let i := Z.shiftr (this_page - LOW_MEM) 12 in
         c ← get_map i;
         set_map i (u8 (c + 1))
       else mret tt);;
      copy_entries nr (from_page_table + 4) (to_page_table + 4)
  end.

(** The outer loop: [false] is the early [return -1] when memory runs out. *)
Fixpoint copy_dirs (size : nat) (from from_dir to_dir : Z) : M mm bool :=
  match size with
  | O => mret true
  | S size =>
      t ← ldw to_dir;
      if istrue (Z.land 1 t) then panic "copy_page_tables: already exist" else
      f ← ldw from_dir;
      if negb (istrue (Z.land 1 f)) then copy_dirs size from (from_dir + 4) (to_dir + 4) else
      let from_page_table := Z.land PAGE_MASK f in
      to_page_table ← get_free_page;
      if to_page_table =? 0 then mret false else
      stw to_dir (Z.lor to_page_table 7);;
      let nr := if from =? 0 then 0xA0 else 1024 in
      copy_entries (Z.to_nat nr) from_page_table to_page_table;;
      copy_dirs size from (from_dir + 4) (to_dir + 4)
  end.

Definition copy_page_tables (from to size : Z) : M mm Z :=
  if istrue (Z.land from 0x3fffff) || istrue (Z.land to 0x3fffff)
  then panic "copy_page_tables called with wrong alignment" else
  let from_dir := Z.land (Z.shiftr from 20) 0xffc in
  let to_dir := Z.land (Z.shiftr to 20) 0xffc in
  let size := Z.shiftr (u32 (size + 0x3fffff)) 22 in
  ok ← copy_dirs (Z.to_nat size) from from_dir to_dir;
  if ok : bool then invalidate;; mret 0 else mret (-1).

Definition put_page (page address : Z) : M mm Z :=
  high ← gets HIGH_MEMORY;
  when ((page <? LOW_MEM) || (u32 high <=? page))
    (printk "Trying to put page %p at %p" [page; address]);;
  c ← get_map (MAP_NR page);
  when (negb (c =? 1)) (printk "mem_map disagrees with %p at %p" [page; address]);;
  let page_table := Z.land (Z.shiftr address 20) 0xffc in
  d ← ldw page_table;
  page_table ←
    (if istrue (Z.land d 1) then mret (Some (Z.land PAGE_MASK d)) else
     tmp ← get_free_page;
     if tmp =? 0 then mret None else
     stw page_table (Z.lor tmp 7);;
     mret (Some tmp));
  match page_table with
  | None => mret 0
  | Some page_table =>
      stw (page_table + 4 * Z.land (Z.shiftr address 12) 0x3ff) (Z.lor page 7);;
      mret page
  end.

Definition un_wp_page (table_entry : Z) : M mm unit :=
  e ← ldw table_entry;
  let old_page := Z.land PAGE_MASK e in
  c ← (if LOW_MEM <=? old_page then get_map (MAP_NR old_page) else mret 0);
  if (LOW_MEM <=? old_page) && (c =? 1) then
    stw table_entry (Z.lor e 2);;
    invalidate
  else
    new_page ← get_free_page;
    if new_page =? 0 then oom else
    (if LOW_MEM <=? old_page then
       c ← get_map (MAP_NR old_page);
       set_map (MAP_NR old_page) (u8 (c - 1))
     else mret tt);;
    stw table_entry (Z.lor new_page 7);;
    invalidate;;
    copy_page old_page new_page.

Definition do_wp_page (error_code address : Z) : M mm unit :=
  d ← ldw (Z.land (Z.shiftr address 20) 0xffc);
  un_wp_page (Z.land (Z.shiftr address 10) 0xffc + Z.land PAGE_MASK d).

Definition write_verify (address : Z) : M mm unit :=
  page ← ldw (Z.land (Z.shiftr address 20) 0xffc);
  if negb (istrue (Z.land page 1)) then mret tt else
  let page := Z.land page PAGE_MASK in
  let page := page + Z.land (Z.shiftr address 10) 0xffc in
  e ← ldw page;
  if Z.land 3 e =? 1 then un_wp_page page else mret tt.

Definition get_empty_page (address : Z) : M mm unit :=
  tmp ← get_free_page;
  ok ← (if tmp =? 0 then mret false else
        r ← put_page tmp address; mret (istrue r));
  if ok : bool then mret tt else
  free_page tmp;;
  oom.

(** ** Page sharing and demand loading *)

Definition cur_task : M mm mtask :=
  s ← get; of_option "current" (task s !! current s).

Definition try_to_share (address : Z) (p : mtask) : M mm Z :=
  cur ← cur_task;
  let base := Z.land (Z.shiftr address 20) 0xffc in
  let from_page := base + Z.land (Z.shiftr (start_code p) 20) 0xffc in
  let to_page := base + Z.land (Z.shiftr (start_code cur) 20) 0xffc in
  from ← ldw from_page;
  if negb (istrue (Z.land from 1)) then mret 0 else
  let from := Z.land from PAGE_MASK in
  let from_page := from + Z.land (Z.shiftr address 10) 0xffc in
  phys_addr ← ldw from_page;
  if negb (Z.land phys_addr 0x41 =? 1) then mret 0 else
  let phys_addr := Z.land phys_addr PAGE_MASK in
  high ← gets HIGH_MEMORY;
  if (u32 high <=? phys_addr) || (phys_addr <? LOW_MEM) then mret 0 else
  to ← ldw to_page;
  to ← (if negb (istrue (Z.land to 1)) then
          to ← get_free_page;
          if istrue to then stw to_page (Z.lor to 7);; mret to else oom
        else mret to);
  let to := Z.land to PAGE_MASK in
  let to_page := to + Z.land (Z.shiftr address 10) 0xffc in
  t ← ldw to_page;
  if istrue (Z.land 1 t) then panic "try_to_share: to_page already exists" else
  f ← ldw from_page;
  stw from_page (Z.land f 0xfffffffd);;
  f ← ldw from_page;
  stw to_page f;;
  invalidate;;
  let i := Z.shiftr (phys_addr - LOW_MEM) 12 in
  c ← get_map i;
  set_map i (u8 (c + 1));;
  mret 1.

(** What demand loading uses of the file system: the reference count and the device
    of an in-core inode, the block of a file ([bmap], fs/inode.c) and the reading of
    four blocks into a page ([bread_page], fs/buffer.c). *)
Class PageSource := {
  inode_count : Z -> Z;
  inode_dev : Z -> Z;
  bmap_file : Z -> Z -> M mm Z;
  bread_page : Z -> Z -> list Z -> M mm unit
}.

Section Sharing.
Context `{PageSource}.

(** The loop of [share_page] from task slot [n] down to slot 1. *)
Fixpoint share_from (n : nat) (address : Z) (exe : Z) : M mm Z :=
  match n with
  | O => mret 0
  | S n' =>
      s ← get;
      match task s !! Z.of_nat n with
      | None => share_from n' address exe
      | Some p =>
          if current s =? Z.of_nat n then share_from n' address exe else
          if bool_decide (executable p = Some exe) then
            r ← try_to_share address p;
            if istrue r then mret 1 else share_from n' address exe
          else share_from n' address exe
      end
  end.

Definition share_page (address : Z) : M mm Z :=
  cur ← cur_task;
  match executable cur with
  | None => mret 0
  | Some exe =>
      if inode_count exe <? 2 then mret 0 else
      share_from (Z.to_nat (NR_TASKS - 1)) address exe
  end.

(** [while (i-- > 0) { tmp--; *(char * )tmp = 0; }] *)
Fixpoint zero_tail (i : nat) (tmp : Z) : M mm unit :=
  match i with
  | O => mret tt
  | S i => stb (tmp - 1) 0;; zero_tail i (tmp - 1)
  end.

Definition do_no_page (error_code address : Z) : M mm unit :=
  let address := Z.land address PAGE_MASK in
  cur ← cur_task;
  let tmp := u32 (address - start_code cur) in
  match executable cur with
  | None => get_empty_page address
  | Some exe =>
      if end_data cur <=? tmp then get_empty_page address else
      r ← share_page tmp;
      if istrue r then mret tt else
      page ← get_free_page;
      if page =? 0 then oom else
      let block := 1 + tmp / 1024 in
      n0 ← bmap_file exe block;
      n1 ← bmap_file exe (block + 1);
      n2 ← bmap_file exe (block + 2);
      n3 ← bmap_file exe (block + 3);
      bread_page page (inode_dev exe) [n0; n1; n2; n3];;
      let i := s32 (tmp + 4096 - end_data cur) in
      zero_tail (Z.to_nat i) (page + 4096);;
      r ← put_page page address;
      if istrue r then mret tt else
      free_page page;;
      oom
  end.

End Sharing.

(** ** Initialisation and statistics *)

Fixpoint clear_map (n : nat) (i : Z) : M mm unit :=
  match n with
  | O => mret tt
  | S n => set_map i 0;; clear_map n (i + 1)
  end.

Definition mem_init (start_mem end_mem : Z) : M mm unit :=
  modify (fun s => s <| HIGH_MEMORY := end_mem |>);;
  modify (fun s => s <| mem_map := replicate (Z.to_nat PAGING_PAGES) USED |>);;
  let i := Z.shiftr (start_mem - LOW_MEM) 12 in
  let n := Z.shiftr (end_mem - start_mem) 12 in
  clear_map (Z.to_nat n) i.

(** The number of present entries among the 1024 words at [pg_tbl]. *)
Definition count_present (m : gmap Z Z) (pg_tbl : Z) : Z :=
  Z.of_nat (length (filter (fun j => Z.land (ld m (pg_tbl + 4 * j)) 1 <> 0) (seqZ 0 1024))).

Definition calc_mem : M mm unit :=
  s ← get;
  let free := Z.of_nat (length (filter (fun c => c = 0) (mem_map s))) in
  printk "%d pages free (of %d)" [free; PAGING_PAGES];;
  for_each (seqZ 2 1022) (fun i =>
    d ← ldw (4 * i);
    when (istrue (Z.land 1 d))
      (s ← get;
       printk "Pg-dir[%d] uses %d pages" [i; count_present (mem s) (Z.land PAGE_MASK d)])).
