(* ===== verification/MemoryInv.v ===== *)
(** The page reference-count invariant of [mm/memory.c] and its preservation.

    [refs] counts how often a page frame is named by the page tables of the user
    address spaces (page-directory slots 16 to 1023; the lower slots are task 0 and
    the kernel's identity map).  [wf own s] says that [mem_map] of every main-memory
    frame is that count plus [own], the references kernel code itself holds (a page
    just allocated, a task structure, a pipe buffer, the buffer cache's USED mark). *)

From S2P Require Import Prelude Memory.

#[global] Arguments sumZ : simpl never.
#[global] Arguments seqZ : simpl never.

(** ** Page-table entries *)

Definition frame (e : Z) : Z := Z.land PAGE_MASK e.

Lemma frame_eq e : frame e = 4096 * ((e / 4096) mod 1048576).
Proof.
  unfold frame, PAGE_MASK.
  change 4294963200 with (Z.shiftl (Z.ones 20) 12).
  rewrite <- (Z.land_ones _ 20) by lia.
  rewrite Z.mul_comm. change 4096 with (2 ^ 12) at 2.
  rewrite <- Z.shiftl_mul_pow2 by lia. change 4096 with (2 ^ 12).
  rewrite <- Z.shiftr_div_pow2 by lia.
  apply Z.bits_inj'. intros n Hn.
  rewrite Z.land_spec, !Z.shiftl_spec, Z.land_spec by lia.
  destruct (decide (n < 12)).
  - rewrite !(Z.testbit_neg_r _ (n - 12)) by lia. done.
  - rewrite Z.shiftr_spec by lia. replace (n - 12 + 12) with n by lia.
    apply andb_comm.
Qed.

Lemma frame_aligned e : frame e mod 4096 = 0.
Proof. rewrite frame_eq. rewrite Z.mul_comm. apply Z_mod_mult. Qed.

Lemma frame_range e : 0 <= frame e < 4294967296.
Proof. rewrite frame_eq. pose proof (Z.mod_pos_bound (e / 4096) 1048576). lia. Qed.

Lemma frame_page p c :
  p mod 4096 = 0 -> 0 <= p < 4294967296 -> 0 <= c < 4096 -> frame (p + c) = p.
Proof.
  intros Hp Hr Hc. rewrite frame_eq.
  assert (p = p / 4096 * 4096) as Hq by (pose proof (Z_div_mod_eq_full p 4096); lia).
  rewrite Hq, Z.add_comm, Z.div_add, (Z.div_small c) by lia.
  rewrite Z.mod_small; lia.
Qed.

Lemma lor_page p c :
  p mod 4096 = 0 -> 0 <= c < 4096 -> Z.lor p c = p + c.
Proof. intros. apply (lor_add_disjoint p 12); [lia|done|done]. Qed.

Lemma frame_lor p c :
  p mod 4096 = 0 -> 0 <= p < 4294967296 -> 0 <= c < 4096 -> frame (Z.lor p c) = p.
Proof. intros. rewrite lor_page by done. by apply frame_page. Qed.

Lemma odd_lor_7 p : Z.odd (Z.lor p 7) = true.
Proof. rewrite <- Z.bit0_odd, Z.lor_spec. apply orb_true_r. Qed.

Lemma odd_land_rw e : Z.odd (Z.land e 0xfffffffd) = Z.odd e.
Proof. rewrite <- !Z.bit0_odd, Z.land_spec. apply andb_true_r. Qed.

Lemma frame_land_rw e : frame (Z.land e 0xfffffffd) = frame e.
Proof.
  unfold frame. rewrite (Z.land_comm e), Z.land_assoc.
  by change (Z.land PAGE_MASK 0xfffffffd) with PAGE_MASK.
Qed.

Lemma frame_lor_2 e : frame (Z.lor e 2) = frame e.
Proof.
  unfold frame. rewrite Z.land_lor_distr_r.
  change (Z.land PAGE_MASK 2) with 0. apply Z.lor_0_r.
Qed.

Lemma odd_lor_2 e : Z.odd (Z.lor e 2) = Z.odd e.
Proof. rewrite <- !Z.bit0_odd, Z.lor_spec. apply orb_false_r. Qed.

Lemma frame_land_mask e : Z.land e PAGE_MASK = frame e.
Proof. apply Z.land_comm. Qed.

(** The page-directory slot and page-table slot of a linear address. *)
Definition dir_ix (address : Z) : Z := address / 4194304.
Definition tbl_ix (address : Z) : Z := (address / 4096) mod 1024.

Lemma land_ffc x : Z.land x 0xffc = 4 * ((x / 4) mod 1024).
Proof.
  transitivity (Z.shiftl (Z.land (Z.shiftr x 2) (Z.ones 10)) 2); last first.
  { rewrite Z.shiftl_mul_pow2, Z.shiftr_div_pow2, Z.land_ones by lia. apply Z.mul_comm. }
  change 0xffc with (Z.shiftl (Z.ones 10) 2).
  apply Z.bits_inj'. intros n Hn.
  rewrite Z.land_spec, !Z.shiftl_spec, Z.land_spec by lia.
  destruct (decide (n < 2)).
  - rewrite !(Z.testbit_neg_r _ (n - 2)) by lia. by rewrite andb_false_r.
  - rewrite Z.shiftr_spec by lia. by replace (n - 2 + 2) with n by lia.
Qed.

Lemma dir_addr a : 0 <= a < 4294967296 -> Z.land (Z.shiftr a 20) 0xffc = 4 * dir_ix a.
Proof.
  intros. rewrite land_ffc, Z.shiftr_div_pow2 by lia. unfold dir_ix.
  change (2 ^ 20) with 1048576. rewrite Z.div_div by lia.
  change (1048576 * 4) with 4194304. rewrite Z.mod_small; [done|].
  split; [apply Z.div_pos; lia|]. apply Z.div_lt_upper_bound; lia.
Qed.

Lemma tbl_addr a : Z.land (Z.shiftr a 10) 0xffc = 4 * tbl_ix a.
Proof.
  rewrite land_ffc, Z.shiftr_div_pow2 by lia. unfold tbl_ix.
  change (2 ^ 10) with 1024. rewrite Z.div_div by lia. done.
Qed.

Lemma tbl_slot a : Z.land (Z.shiftr a 12) 0x3ff = tbl_ix a.
Proof.
  unfold tbl_ix. change 0x3ff with (2 ^ 10 - 1).
  rewrite land_mask_mod, Z.shiftr_div_pow2 by lia. done.
Qed.

Lemma tbl_ix_range a : 0 <= tbl_ix a < 1024.
Proof. apply Z.mod_pos_bound. lia. Qed.

(** ** Reference counts *)

Definition FIRST_USER_DIR : Z := 16.
Definition user_dirs : list Z := seqZ FIRST_USER_DIR (1024 - FIRST_USER_DIR).
Definition user_dir (i : Z) : Prop := FIRST_USER_DIR <= i < 1024.

Definition dirent (m : gmap Z Z) (i : Z) : Z := ld m (4 * i).
Definition pte_addr (m : gmap Z Z) (i j : Z) : Z := frame (dirent m i) + 4 * j.
Definition pte (m : gmap Z Z) (i j : Z) : Z := ld m (pte_addr m i j).

(** Does the entry [e] name the frame [f]? *)
Definition names (f e : Z) : Z := b2z (Z.odd e && (frame e =? f)).

Definition table_refs (m : gmap Z Z) (f i : Z) : Z :=
  if Z.odd (dirent m i)
  then names f (dirent m i) + sumZ (fun j => names f (pte m i j)) (seqZ 0 1024)
  else 0.

Definition refs (m : gmap Z Z) (f : Z) : Z := sumZ (table_refs m f) user_dirs.

(** A frame of main memory, and its byte in [mem_map]. *)
Definition main (s : mm) (f : Z) : Prop :=
  f mod 4096 = 0 /\ LOW_MEM <= f < HIGH_MEMORY s.

Definition cnt (s : mm) (f : Z) : Z := default 0 (mem_map s !! Z.to_nat ((f - LOW_MEM) / 4096)).

Record wf (own : Z -> Z) (s : mm) : Prop := {
  wf_len : length (mem_map s) = 3840%nat;
  wf_high : LOW_MEM < HIGH_MEMORY s <= 0x1000000;
  wf_high_al : HIGH_MEMORY s mod 4096 = 0;
  wf_byte : Forall (fun c => 0 <= c < 256) (mem_map s);
  wf_top : forall k : nat, (HIGH_MEMORY s - LOW_MEM) / 4096 <= Z.of_nat k ->
             mem_map s !! k <> Some 0;
  wf_dir : forall i, user_dir i -> Z.odd (dirent (mem s) i) = true ->
             main s (frame (dirent (mem s) i)) /\ cnt s (frame (dirent (mem s) i)) = 1;
  wf_pte : forall i j, user_dir i -> Z.odd (dirent (mem s) i) = true -> 0 <= j < 1024 ->
             Z.odd (pte (mem s) i j) = true -> frame (pte (mem s) i j) < HIGH_MEMORY s;
  wf_own : forall f, 0 <= own f;
  wf_cnt : forall f, main s f -> cnt s f = refs (mem s) f + own f
}.

Lemma names_range f e : 0 <= names f e <= 1.
Proof. apply b2z_range. Qed.

Lemma table_refs_nonneg m f i : 0 <= table_refs m f i.
Proof.
  unfold table_refs. destruct (Z.odd _); [|lia].
  pose proof (names_range f (dirent m i)).
  pose proof (sumZ_nonneg (fun j => names f (pte m i j)) (seqZ 0 1024)
    ltac:(intros; apply names_range)). lia.
Qed.

Lemma refs_nonneg m f : 0 <= refs m f.
Proof. apply sumZ_nonneg. intros. apply table_refs_nonneg. Qed.

Lemma elem_user i : user_dir i <-> i ∈ user_dirs.
Proof. unfold user_dirs, user_dir. rewrite elem_of_seqZ_iff. lia. Qed.

Lemma refs_ge m f i : user_dir i -> table_refs m f i <= refs m f.
Proof.
  intros. apply (sumZ_elem (table_refs m f)); [intros; apply table_refs_nonneg|].
  by apply elem_user.
Qed.

Lemma names_self e : Z.odd e = true -> names (frame e) e = 1.
Proof. intros H. unfold names. by rewrite H, Z.eqb_refl. Qed.

Lemma table_refs_self m i :
  Z.odd (dirent m i) = true -> 1 <= table_refs m (frame (dirent m i)) i.
Proof.
  intros Ho. unfold table_refs. rewrite Ho, names_self by done.
  pose proof (sumZ_nonneg (fun j => names (frame (dirent m i)) (pte m i j)) (seqZ 0 1024)
    ltac:(intros; apply names_range)). lia.
Qed.

Lemma table_refs_pte m i j :
  Z.odd (dirent m i) = true -> 0 <= j < 1024 -> Z.odd (pte m i j) = true ->
  1 + names (frame (pte m i j)) (dirent m i) <= table_refs m (frame (pte m i j)) i.
Proof.
  intros Ho Hj Hp. unfold table_refs. rewrite Ho.
  pose proof (sumZ_elem (fun j' => names (frame (pte m i j)) (pte m i j')) (seqZ 0 1024) j
    ltac:(intros; apply names_range) ltac:(apply elem_of_seqZ_iff; lia)) as Hs.
  cbv beta in Hs. rewrite names_self in Hs by done. lia.
Qed.

(** Distinct present directory slots use distinct page tables, and a page table is
    never mapped as a page: its count is 1. *)
Lemma wf_table_inj own s i i' :
  wf own s -> user_dir i -> user_dir i' ->
  Z.odd (dirent (mem s) i) = true -> Z.odd (dirent (mem s) i') = true ->
  frame (dirent (mem s) i) = frame (dirent (mem s) i') -> i = i'.
Proof.
  intros W Hi Hi' Ho Ho' Heq. destruct (decide (i = i')) as [|Hne]; [done|exfalso].
  destruct (wf_dir own s W i Hi Ho) as [Hm Hc].
  pose proof (wf_cnt own s W _ Hm). pose proof (wf_own own s W (frame (dirent (mem s) i))).
  pose proof (table_refs_self (mem s) i Ho).
  pose proof (table_refs_self (mem s) i' Ho') as H3. rewrite <- Heq in H3.
  pose proof (sumZ_elem2 (table_refs (mem s) (frame (dirent (mem s) i))) user_dirs i i'
    (NoDup_seqZ _ _) ltac:(intros; apply table_refs_nonneg)
    (proj1 (elem_user _) Hi) (proj1 (elem_user _) Hi') Hne).
  unfold refs in *. lia.
Qed.

Lemma wf_own_table own s i :
  wf own s -> user_dir i -> Z.odd (dirent (mem s) i) = true ->
  own (frame (dirent (mem s) i)) = 0.
Proof.
  intros W Hi Ho. destruct (wf_dir own s W i Hi Ho) as [Hm Hc].
  pose proof (wf_cnt own s W _ Hm). pose proof (wf_own own s W (frame (dirent (mem s) i))).
  pose proof (table_refs_self (mem s) i Ho). pose proof (refs_ge (mem s) (frame (dirent (mem s) i)) i Hi).
  lia.
Qed.

(** A frame that some page-table entry maps has a positive count and is no table. *)
Lemma wf_pte_cnt own s i j :
  wf own s -> user_dir i -> Z.odd (dirent (mem s) i) = true -> 0 <= j < 1024 ->
  Z.odd (pte (mem s) i j) = true -> LOW_MEM <= frame (pte (mem s) i j) ->
  main s (frame (pte (mem s) i j)) /\ 1 <= cnt s (frame (pte (mem s) i j)).
Proof.
  intros W Hi Ho Hj Hp Hlow.
  assert (main s (frame (pte (mem s) i j))) as Hm.
  { split; [apply frame_aligned|]. split; [done|]. by eapply wf_pte. }
  split; [done|]. rewrite (wf_cnt own s W _ Hm).
  pose proof (wf_own own s W (frame (pte (mem s) i j))).
  pose proof (table_refs_pte (mem s) i j Ho Hj Hp).
  pose proof (names_range (frame (pte (mem s) i j)) (dirent (mem s) i)).
  pose proof (refs_ge (mem s) (frame (pte (mem s) i j)) i Hi). lia.
Qed.

Lemma wf_pte_not_table own s i j i' :
  wf own s -> user_dir i -> Z.odd (dirent (mem s) i) = true -> 0 <= j < 1024 ->
  Z.odd (pte (mem s) i j) = true ->
  user_dir i' -> Z.odd (dirent (mem s) i') = true ->
  frame (pte (mem s) i j) <> frame (dirent (mem s) i').
Proof.
  intros W Hi Ho Hj Hp Hi' Ho' Heq.
  destruct (wf_dir own s W i' Hi' Ho') as [Hm Hc].
  pose proof (wf_cnt own s W _ Hm). pose proof (wf_own own s W (frame (dirent (mem s) i'))).
  pose proof (table_refs_pte (mem s) i j Ho Hj Hp) as H2. rewrite Heq in H2.
  pose proof (names_range (frame (dirent (mem s) i')) (dirent (mem s) i)).
  destruct (decide (i = i')) as [->|Hne].
  - rewrite names_self in H2 by done.
    pose proof (refs_ge (mem s) (frame (dirent (mem s) i')) i' Hi'). lia.
  - pose proof (table_refs_self (mem s) i' Ho').
    pose proof (sumZ_elem2 (table_refs (mem s) (frame (dirent (mem s) i'))) user_dirs i i'
      (NoDup_seqZ _ _) ltac:(intros; apply table_refs_nonneg)
      (proj1 (elem_user _) Hi) (proj1 (elem_user _) Hi') Hne).
    unfold refs in *. lia.
Qed.

(** ** How writes change the counts *)

Lemma ld_insert m a v b : ld (<[a := v]> m) b = if decide (a = b) then v else ld m b.
Proof. unfold ld. rewrite lookup_insert. by case_decide. Qed.

Lemma ld_insert_eq m a v : ld (<[a := v]> m) a = v.
Proof. rewrite ld_insert. by rewrite decide_True. Qed.

Lemma ld_insert_ne m a v b : a <> b -> ld (<[a := v]> m) b = ld m b.
Proof. intros. rewrite ld_insert. by rewrite decide_False. Qed.

(** Two memories agree on the page directory and on every page table in use. *)
Definition same_tables (m m' : gmap Z Z) : Prop :=
  (forall i, user_dir i -> dirent m' i = dirent m i) /\
  (forall i j, user_dir i -> Z.odd (dirent m i) = true -> 0 <= j < 1024 ->
     ld m' (pte_addr m i j) = pte m i j).

Lemma same_tables_pte m m' i j :
  same_tables m m' -> user_dir i -> Z.odd (dirent m i) = true -> 0 <= j < 1024 ->
  pte m' i j = pte m i j.
Proof.
  intros [Hd Hp] Hi Ho Hj. unfold pte at 1. unfold pte_addr. rewrite Hd by done.
  by apply Hp.
Qed.

Lemma table_refs_ext m m' f i :
  dirent m' i = dirent m i ->
  (Z.odd (dirent m i) = true -> forall j, 0 <= j < 1024 -> pte m' i j = pte m i j) ->
  table_refs m' f i = table_refs m f i.
Proof.
  intros Hd Hp. unfold table_refs. rewrite Hd. destruct (Z.odd (dirent m i)); [|done].
  f_equal. apply sumZ_ext. intros j Hj%elem_of_seqZ_iff. by rewrite Hp by (done || lia).
Qed.

Lemma refs_same m m' f : same_tables m m' -> refs m' f = refs m f.
Proof.
  intros Hs. apply sumZ_ext. intros i Hi%elem_user. apply table_refs_ext.
  - by apply Hs.
  - intros. by apply same_tables_pte.
Qed.

(** Writing the entry [j] of table [i] changes the count of [f] by the old and the
    new entry's naming of [f]. *)
Lemma refs_write_pte own s i j v f :
  wf own s -> user_dir i -> Z.odd (dirent (mem s) i) = true -> 0 <= j < 1024 ->
  refs (<[pte_addr (mem s) i j := v]> (mem s)) f =
  refs (mem s) f - names f (pte (mem s) i j) + names f v.
Proof.
  intros W Hi Ho Hj. set (m := mem s) in *. set (m' := <[_ := v]> m).
  destruct (wf_dir own s W i Hi Ho) as [[_ [Hlow _]] _]. unfold LOW_MEM in Hlow.
  assert (forall k, user_dir k -> dirent m' k = dirent m k) as Hd.
  { intros k Hk. apply ld_insert_ne. unfold pte_addr, user_dir in *. fold m in Hlow. lia. }
  assert (forall k l, user_dir k -> Z.odd (dirent m k) = true -> 0 <= l < 1024 ->
    pte m' k l = if decide (k = i /\ l = j) then v else pte m k l) as Hp.
  { intros k l Hk Hok Hl. unfold pte at 1, pte_addr at 1. rewrite Hd by done.
    case_decide as Hdec.
    - destruct Hdec as [-> ->]. apply ld_insert_eq.
    - apply ld_insert_ne. unfold pte_addr. intros Heq. apply Hdec.
      pose proof (frame_aligned (dirent m i)). pose proof (frame_aligned (dirent m k)).
      assert (frame (dirent m i) = frame (dirent m k)) as He.
      { pose proof (Z_div_mod_eq_full (frame (dirent m i)) 4096).
        pose proof (Z_div_mod_eq_full (frame (dirent m k)) 4096). lia. }
      split; [|lia]. symmetry. by eapply wf_table_inj. }
  unfold refs. rewrite (sumZ_upd (table_refs m' f) (table_refs m f) user_dirs i).
  - unfold table_refs. rewrite !Hd, Ho by done.
    rewrite (sumZ_upd (fun l => names f (pte m' i l)) (fun l => names f (pte m i l)) _ j).
    + rewrite Hp by done. rewrite decide_True by done. lia.
    + apply NoDup_seqZ.
    + apply elem_of_seqZ_iff. lia.
    + intros l Hl%elem_of_seqZ_iff Hne. rewrite Hp by (done || lia).
      rewrite decide_False; [done|]. by intros [_ ?].
  - apply NoDup_seqZ.
  - by apply elem_user.
  - intros k Hk%elem_user Hne. apply table_refs_ext; [by apply Hd|].
    intros Hok l Hl. rewrite Hp by done. rewrite decide_False; [done|]. by intros [? _].
Qed.

Lemma refs_write_dir own s i v f :
  wf own s -> user_dir i ->
  refs (<[4 * i := v]> (mem s)) f =
  refs (mem s) f - table_refs (mem s) f i + table_refs (<[4 * i := v]> (mem s)) f i.
Proof.
  intros W Hi. set (m := mem s) in *. set (m' := <[_ := v]> m).
  apply (sumZ_upd (table_refs m' f) (table_refs m f)); [apply NoDup_seqZ|by apply elem_user|].
  intros k Hk%elem_user Hne.
  assert (dirent m' k = dirent m k) as Hd by (apply ld_insert_ne; lia).
  apply table_refs_ext; [done|]. intros Hok l Hl.
  unfold pte, pte_addr. rewrite Hd. apply ld_insert_ne.
  destruct (wf_dir own s W k Hk Hok) as [[_ [Hlow _]] _]. unfold LOW_MEM, user_dir in *.
  fold m in Hlow. lia.
Qed.

Lemma table_refs_zero_page m f i :
  (forall j, 0 <= j < 1024 -> Z.odd (pte m i j) = false) ->
  table_refs m f i = names f (dirent m i).
Proof.
  intros Hz. unfold table_refs. destruct (Z.odd (dirent m i)) eqn:Ho.
  - rewrite sumZ_zero; [lia|]. intros j Hj%elem_of_seqZ_iff.
    unfold names. rewrite Hz by lia. done.
  - unfold names. by rewrite Ho.
Qed.

(** ** Page contents *)

Lemma stosl_out n edi m a :
  (forall k, 0 <= k < Z.of_nat n -> a <> edi - 4 * k) -> ld (stosl n edi m) a = ld m a.
Proof.
  revert edi m. induction n as [|n IH]; intros edi m Ha; cbn [stosl]; [done|].
  rewrite IH.
  - apply ld_insert_ne. specialize (Ha 0). lia.
  - intros k Hk. specialize (Ha (k + 1)). lia.
Qed.

Lemma stosl_in n edi m k : 0 <= k < Z.of_nat n -> ld (stosl n edi m) (edi - 4 * k) = 0.
Proof.
  revert edi m k. induction n as [|n IH]; intros edi m k Hk; cbn [stosl]; [lia|].
  destruct (decide (k = 0)) as [->|].
  - rewrite stosl_out by (intros; lia). rewrite ld_insert. by rewrite decide_True by lia.
  - replace (edi - 4 * k) with (edi - 4 - 4 * (k - 1)) by lia. apply IH. lia.
Qed.

Lemma stosl_page_zero p j m : 0 <= j < 1024 -> ld (stosl 1024 (p + 4092) m) (p + 4 * j) = 0.
Proof.
  intros. replace (p + 4 * j) with (p + 4092 - 4 * (1023 - j)) by lia. apply stosl_in. lia.
Qed.

Lemma stosl_page_other p a m :
  ~ (p <= a < p + 4096) -> ld (stosl 1024 (p + 4092) m) a = ld m a.
Proof. intros H. apply stosl_out. intros k Hk. lia. Qed.

Lemma movsl_out n esi edi m a :
  (forall k, 0 <= k < Z.of_nat n -> a <> edi + 4 * k) -> ld (movsl n esi edi m) a = ld m a.
Proof.
  revert esi edi m. induction n as [|n IH]; intros esi edi m Ha; cbn [movsl]; [done|].
  rewrite IH.
  - apply ld_insert_ne. specialize (Ha 0). lia.
  - intros k Hk. specialize (Ha (k + 1)). lia.
Qed.

Lemma movsl_in n esi edi m k :
  (esi + 4 * Z.of_nat n <= edi \/ edi + 4 * Z.of_nat n <= esi) ->
  0 <= k < Z.of_nat n -> ld (movsl n esi edi m) (edi + 4 * k) = ld m (esi + 4 * k).
Proof.
  revert esi edi m k. induction n as [|n IH]; intros esi edi m k Hd Hk; cbn [movsl]; [lia|].
  destruct (decide (k = 0)) as [->|].
  - rewrite movsl_out by (intros; lia). rewrite ld_insert, decide_True by lia. f_equal. lia.
  - replace (edi + 4 * k) with (edi + 4 + 4 * (k - 1)) by lia. rewrite IH by lia.
    rewrite ld_insert_ne by lia. f_equal. lia.
Qed.

#[global] Opaque stosl movsl.

(** Writing inside a main-memory frame that is no page table leaves the tables alone. *)
Lemma same_tables_outside own s m' p :
  wf own s -> main s p ->
  (forall i, user_dir i -> Z.odd (dirent (mem s) i) = true -> frame (dirent (mem s) i) <> p) ->
  (forall a, ~ (p <= a < p + 4096) -> ld m' a = ld (mem s) a) ->
  same_tables (mem s) m'.
Proof.
  intros W [Hal [Hlow Hhi]] Hnt Hout. split.
  - intros i Hi. apply Hout. unfold LOW_MEM, user_dir in *. lia.
  - intros i j Hi Ho Hj. apply Hout. unfold pte_addr.
    specialize (Hnt i Hi Ho). pose proof (frame_aligned (dirent (mem s) i)).
    pose proof (Z_div_mod_eq_full (frame (dirent (mem s) i)) 4096).
    pose proof (Z_div_mod_eq_full p 4096). lia.
Qed.

(** ** The byte map *)

Lemma main_index own s f :
  wf own s -> main s f -> 0 <= (f - LOW_MEM) / 4096 < 3840.
Proof.
  intros W [Hal Hr]. pose proof (wf_high own s W). unfold LOW_MEM in *.
  split; [apply Z.div_pos; lia|]. apply Z.div_lt_upper_bound; lia.
Qed.

Lemma main_inj s f g :
  main s f -> main s g ->
  Z.to_nat ((f - LOW_MEM) / 4096) = Z.to_nat ((g - LOW_MEM) / 4096) -> f = g.
Proof.
  intros [Hf [Hf1 _]] [Hg [Hg1 _]] Heq. unfold LOW_MEM in *.
  assert (0 <= (f - 0x100000) / 4096) by (apply Z.div_pos; lia).
  assert (0 <= (g - 0x100000) / 4096) by (apply Z.div_pos; lia).
  pose proof (Z_div_mod_eq_full (f - 0x100000) 4096).
  pose proof (Z_div_mod_eq_full (g - 0x100000) 4096).
  replace (f - 0x100000) with (f + (-256) * 4096) in * by lia.
  replace (g - 0x100000) with (g + (-256) * 4096) in * by lia.
  rewrite Z_mod_plus_full in *. lia.
Qed.

Lemma cnt_lookup own s f :
  wf own s -> main s f -> mem_map s !! Z.to_nat ((f - LOW_MEM) / 4096) = Some (cnt s f).
Proof.
  intros W Hm. pose proof (main_index own s f W Hm). unfold cnt.
  destruct (lookup_lt_is_Some_2 (mem_map s) (Z.to_nat ((f - LOW_MEM) / 4096))) as [c ->]; [|done].
  rewrite (wf_len own s W). lia.
Qed.

Lemma cnt_byte own s f : wf own s -> main s f -> 0 <= cnt s f < 256.
Proof.
  intros W Hm. pose proof (cnt_lookup own s f W Hm) as Hl.
  by apply (Forall_lookup_1 _ _ _ _ (wf_byte own s W)) in Hl.
Qed.

Definition idx (f : Z) : nat := Z.to_nat ((f - LOW_MEM) / 4096).

Lemma cnt_insert own s s' f v g :
  wf own s -> main s f -> main s g -> mem_map s' = <[idx f := v]> (mem_map s) ->
  cnt s' g = if decide (g = f) then v else cnt s g.
Proof.
  intros W Hf Hg Hs. pose proof (main_index own s f W Hf). unfold cnt. rewrite Hs.
  unfold idx. case_decide as Hd.
  - subst g. rewrite list_lookup_insert_eq; [done|]. rewrite (wf_len own s W). lia.
  - rewrite list_lookup_insert_ne; [done|]. intros Heq. apply Hd.
    symmetry. by eapply main_inj.
Qed.
