(* ===== verification/MemoryOps.v ===== *)
(** The operations of [mm/memory.c] against the reference-count invariant: allocation
    and release of pages, mapping a page, copy-on-write, and the copying and freeing
    of address spaces. *)

From S2P Require Import Prelude Memory MemoryInv.

(** Restoring the invariant after a step that leaves the page tables alone. *)
Lemma wf_same_tables own own' s s' :
  wf own s ->
  HIGH_MEMORY s' = HIGH_MEMORY s ->
  length (mem_map s') = length (mem_map s) ->
  Forall (fun c => 0 <= c < 256) (mem_map s') ->
  (forall k : nat, (HIGH_MEMORY s - LOW_MEM) / 4096 <= Z.of_nat k -> mem_map s' !! k <> Some 0) ->
  same_tables (mem s) (mem s') ->
  (forall i, user_dir i -> Z.odd (dirent (mem s) i) = true ->
     cnt s' (frame (dirent (mem s) i)) = 1) ->
  (forall f, 0 <= own' f) ->
  (forall f, main s f -> cnt s' f = refs (mem s) f + own' f) ->
  wf own' s'.
Proof.
  intros W Hh Hl Hb Ht Hs Hd Ho Hc. destruct (wf_high own s W).
  split; rewrite ?Hh.
  - rewrite Hl. apply (wf_len own s W).
  - apply (wf_high own s W).
  - apply (wf_high_al own s W).
  - done.
  - done.
  - intros i Hi Hod. rewrite (proj1 Hs) in * by done.
    split; [|by apply Hd]. unfold main. rewrite Hh. by eapply wf_dir.
  - intros i j Hi Hod Hj Hp. rewrite (proj1 Hs) in Hod by done.
    rewrite (same_tables_pte (mem s)) in * by done. by eapply wf_pte.
  - done.
  - intros f Hm. unfold main in Hm. rewrite Hh in Hm.
    rewrite (refs_same (mem s)) by done. by apply Hc.
Qed.

Lemma map_update own s f v :
  wf own s -> main s f -> 0 <= v < 256 ->
  length (<[idx f := v]> (mem_map s)) = length (mem_map s) /\
  Forall (fun c => 0 <= c < 256) (<[idx f := v]> (mem_map s)) /\
  (forall k : nat, (HIGH_MEMORY s - LOW_MEM) / 4096 <= Z.of_nat k ->
     <[idx f := v]> (mem_map s) !! k <> Some 0).
Proof.
  intros W Hm Hv. split; [apply length_insert|]. split.
  - apply Forall_insert; [apply (wf_byte own s W)|done].
  - intros k Hk. rewrite list_lookup_insert_ne; [by apply (wf_top own s W)|].
    intros <-. destruct Hm as [Hal [Hlo Hhi]]. pose proof (wf_high_al own s W).
    assert (0 <= (f - LOW_MEM) / 4096) by (apply Z.div_pos; lia).
    unfold idx in Hk. rewrite Z2Nat.id in Hk by done.
    assert ((f - LOW_MEM) / 4096 < (HIGH_MEMORY s - LOW_MEM) / 4096); [|lia].
    unfold LOW_MEM in *.
    pose proof (Z_div_mod_eq_full f 4096). pose proof (Z_div_mod_eq_full (HIGH_MEMORY s) 4096).
    replace (f - 0x100000) with (f / 4096 * 4096 + (-256) * 4096) by lia.
    replace (HIGH_MEMORY s - 0x100000) with (HIGH_MEMORY s / 4096 * 4096 + (-256) * 4096) by lia.
    rewrite !Z.div_add, !Z.div_mul by lia. lia.
Qed.

(** Reading and writing the count of a main-memory frame, in any state [s'] with the
    byte map of a well-formed state [s]. *)
Lemma get_map_main own s s' f :
  wf own s -> main s f -> mem_map s' = mem_map s ->
  get_map ((f - LOW_MEM) / 4096) s' = (Ret (cnt s f), s').
Proof.
  intros W Hm Hs. unfold get_map. pose proof (main_index own s f W Hm).
  rewrite (proj2 (Z.leb_le _ _)) by lia.
  by rewrite Hs, (cnt_lookup own s f W Hm).
Qed.

Lemma set_map_main own s s' f v :
  wf own s -> main s f ->
  set_map ((f - LOW_MEM) / 4096) v s' = (Ret tt, s' <| mem_map ::= <[idx f := v]> |>).
Proof.
  intros W Hm. unfold set_map. pose proof (main_index own s f W Hm).
  rewrite (proj2 (Z.leb_le _ _)), (proj2 (Z.ltb_lt _ _)); [done| |lia].
  change PAGING_PAGES with 3840. lia.
Qed.

Lemma map_nr_main own s f :
  wf own s -> main s f -> MAP_NR f = (f - LOW_MEM) / 4096.
Proof.
  intros W [_ Hm]. pose proof (wf_high own s W). unfold MAP_NR.
  rewrite u32_small by (unfold LOW_MEM in *; lia).
  by rewrite Z.shiftr_div_pow2 by lia.
Qed.

(** ** Allocation *)

Lemma scasb_some n l k :
  scasb n l = Some k ->
  0 <= k < Z.of_nat n /\ l !! Z.to_nat k = Some 0 /\
  forall k' : nat, k < Z.of_nat k' < Z.of_nat n -> l !! k' <> Some 0.
Proof.
  induction n as [|n IH]; cbn [scasb]; [done|]. case_decide as Hd.
  - intros [= <-]. rewrite Nat2Z.id. split; [lia|]. split; [done|]. lia.
  - intros (Hr & Hk & Ha)%IH. split; [lia|]. split; [done|]. intros k' Hk'.
    destruct (decide (k' = n)) as [->|]; [done|]. apply Ha. lia.
Qed.

Lemma scasb_none n l :
  scasb n l = None -> forall k : nat, (k < n)%nat -> l !! k <> Some 0.
Proof.
  induction n as [|n IH]; cbn [scasb]; [lia|]. case_decide as Hd; [done|].
  intros H k Hk. destruct (decide (k = n)) as [->|]; [done|]. apply IH; [done|lia].
Qed.

Definition alloc_state (s : mm) (p : Z) : mm :=
  s <| mem_map ::= <[idx p := 1]> |> <| mem ::= stosl 1024 (p + 4092) |>.

Lemma cnt_free_no_refs own s p :
  wf own s -> main s p -> cnt s p = 0 -> refs (mem s) p = 0 /\ own p = 0.
Proof.
  intros W Hm Hc. pose proof (wf_cnt own s W p Hm). pose proof (refs_nonneg (mem s) p).
  pose proof (wf_own own s W p). lia.
Qed.

Lemma not_table own s p :
  wf own s -> main s p -> (cnt s p <> 1 \/ own p <> 0) ->
  forall i, user_dir i -> Z.odd (dirent (mem s) i) = true -> frame (dirent (mem s) i) <> p.
Proof.
  intros W Hm Hc i Hi Ho Heq. destruct (wf_dir own s W i Hi Ho) as [_ H1].
  pose proof (wf_own_table own s i W Hi Ho). rewrite Heq in *. lia.
Qed.

Lemma alloc_wf own s p :
  wf own s -> main s p -> cnt s p = 0 -> wf (bump own p 1) (alloc_state s p).
Proof.
  intros W Hm Hc. destruct (map_update own s p 1 W Hm ltac:(lia)) as (Hl & Hb & Ht).
  destruct (cnt_free_no_refs own s p W Hm Hc) as [Hr Ho].
  assert (forall i, user_dir i -> Z.odd (dirent (mem s) i) = true -> frame (dirent (mem s) i) <> p)
    as Hnt by (apply (not_table own); auto with lia).
  apply (wf_same_tables own _ s); [done..| | | |].
  - apply (same_tables_outside own _ _ p); [done..|]. intros a Ha. apply (stosl_page_other p a (mem s) Ha).
  - intros i Hi Hod. destruct (wf_dir own s W i Hi Hod) as [Hmi Hci].
    rewrite (cnt_insert own s _ p 1) by done.
    rewrite decide_False by (by apply Hnt). done.
  - intros f. unfold bump. pose proof (wf_own own s W f). destruct (f =? p); lia.
  - intros f Hf. rewrite (cnt_insert own s _ p 1) by done. unfold bump.
    case_decide as Hd.
    + subst f. rewrite Z.eqb_refl. lia.
    + rewrite (proj2 (Z.eqb_neq _ _)) by done. by apply wf_cnt.
Qed.

Lemma get_free_page_cases own s :
  wf own s ->
  (get_free_page s = (Ret 0, s) /\ forall f, main s f -> cnt s f <> 0) \/
  (exists p, get_free_page s = (Ret p, alloc_state s p) /\
     main s p /\ cnt s p = 0 /\ (forall f, main s f -> p < f -> cnt s f <> 0)).
Proof.
  intros W. unfold get_free_page.
  change (Z.to_nat PAGING_PAGES) with 3840%nat. rewrite (bind_Ret (gets mem_map) _ s (mem_map s) s eq_refl).
  pose proof (wf_high own s W) as Hhi. pose proof (wf_high_al own s W) as Hal.
  destruct (scasb 3840 (mem_map s)) as [k|] eqn:Es.
  - right. destruct (scasb_some _ _ _ Es) as (Hk & H0 & Hmax).
    assert (k < (HIGH_MEMORY s - LOW_MEM) / 4096) as Hkh.
    { destruct (Z.lt_ge_cases k ((HIGH_MEMORY s - LOW_MEM) / 4096)) as [|Hge]; [done|].
      exfalso. eapply (wf_top own s W (Z.to_nat k)); [lia|done]. }
    exists (k * 4096 + LOW_MEM).
    assert ((k * 4096 + LOW_MEM - LOW_MEM) / 4096 = k) as Hix
      by (rewrite Z.add_simpl_r; apply Z.div_mul; lia).
    assert (main s (k * 4096 + LOW_MEM)) as Hm.
    { split; [unfold LOW_MEM; change 0x100000 with (256 * 4096);
        rewrite Z_mod_plus_full; apply Z_mod_mult|].
      pose proof (Z.mul_div_le (HIGH_MEMORY s - LOW_MEM) 4096). lia. }
    split.
    + rewrite <- Hix at 1. rewrite (bind_Ret _ _ _ _ _ (set_map_main own s s _ 1 W Hm)).
      rewrite Z.shiftl_mul_pow2 by lia. done.
    + split; [done|]. split; [unfold cnt; rewrite Hix, H0; done|].
      intros f Hf Hlt Hc. pose proof (cnt_lookup own s f W Hf) as Hl. rewrite Hc in Hl.
      pose proof (main_index own s f W Hf).
      refine (Hmax (Z.to_nat ((f - LOW_MEM) / 4096)) _ Hl). rewrite Z2Nat.id by lia.
      split; [|lia]. destruct Hf as [Hfa _]. pose proof (Z_div_mod_eq_full f 4096).
      assert (k + 1 <= (f - LOW_MEM) / 4096); [|lia]. apply Z.div_le_lower_bound; [lia|].
      unfold LOW_MEM in *. lia.
  - left. split; [done|]. intros f Hf Hc. pose proof (cnt_lookup own s f W Hf) as Hl.
    rewrite Hc in Hl. pose proof (main_index own s f W Hf).
    eapply (scasb_none _ _ Es); [|done]. lia.
Qed.

(** ** Writing a page-table entry *)

Lemma bind_ldw {B} a (k : Z -> M mm B) s : (ldw a ≫= k) s = k (ld (mem s) a) s.
Proof. reflexivity. Qed.

Lemma bind_stw {B} a v (k : unit -> M mm B) s :
  (stw a v ≫= k) s = k tt (s <| mem ::= <[a := v]> |>).
Proof. reflexivity. Qed.

(** The page-table entries of a memory after one entry was overwritten. *)
Lemma write_pte_dirent own s i j v k :
  wf own s -> user_dir i -> Z.odd (dirent (mem s) i) = true -> 0 <= j < 1024 -> user_dir k ->
  dirent (<[pte_addr (mem s) i j := v]> (mem s)) k = dirent (mem s) k.
Proof.
  intros W Hi Ho Hj Hk. apply ld_insert_ne.
  destruct (wf_dir own s W i Hi Ho) as [[_ [Hlow _]] _]. unfold pte_addr, LOW_MEM, user_dir in *. lia.
Qed.

Lemma write_pte_pte own s i j v k l :
  wf own s -> user_dir i -> Z.odd (dirent (mem s) i) = true -> 0 <= j < 1024 ->
  user_dir k -> Z.odd (dirent (mem s) k) = true -> 0 <= l < 1024 ->
  pte (<[pte_addr (mem s) i j := v]> (mem s)) k l =
  if decide (k = i /\ l = j) then v else pte (mem s) k l.
Proof.
  intros W Hi Ho Hj Hk Hok Hl. set (m' := <[pte_addr (mem s) i j := v]> (mem s)).
  change (pte m' k l) with (ld m' (frame (dirent m' k) + 4 * l)). unfold m'.
  rewrite (write_pte_dirent own) by done. case_decide as Hdec.
  - destruct Hdec as [-> ->]. apply ld_insert_eq.
  - apply ld_insert_ne. unfold pte_addr. intros Heq. apply Hdec.
    pose proof (frame_aligned (dirent (mem s) i)). pose proof (frame_aligned (dirent (mem s) k)).
    assert (frame (dirent (mem s) i) = frame (dirent (mem s) k)) as He.
    { pose proof (Z_div_mod_eq_full (frame (dirent (mem s) i)) 4096).
      pose proof (Z_div_mod_eq_full (frame (dirent (mem s) k)) 4096). lia. }
    split; [|lia]. symmetry. by eapply wf_table_inj.
Qed.

Lemma wf_write_pte own own' s s' i j v :
  wf own s -> user_dir i -> Z.odd (dirent (mem s) i) = true -> 0 <= j < 1024 ->
  mem s' = <[pte_addr (mem s) i j := v]> (mem s) ->
  HIGH_MEMORY s' = HIGH_MEMORY s ->
  length (mem_map s') = length (mem_map s) ->
  Forall (fun c => 0 <= c < 256) (mem_map s') ->
  (forall k : nat, (HIGH_MEMORY s - LOW_MEM) / 4096 <= Z.of_nat k -> mem_map s' !! k <> Some 0) ->
  (Z.odd v = true -> frame v < HIGH_MEMORY s) ->
  (forall k, user_dir k -> Z.odd (dirent (mem s) k) = true ->
     cnt s' (frame (dirent (mem s) k)) = 1) ->
  (forall f, 0 <= own' f) ->
  (forall f, main s f ->
     cnt s' f = cnt s f - names f (pte (mem s) i j) + names f v - own f + own' f) ->
  wf own' s'.
Proof.
  intros W Hi Ho Hj Hmem Hh Hl Hb Ht Hv Hd Hown Hc.
  split; rewrite ?Hh, ?Hmem.
  - rewrite Hl. apply (wf_len own s W).
  - apply (wf_high own s W).
  - apply (wf_high_al own s W).
  - done.
  - done.
  - intros k Hk. rewrite (write_pte_dirent own) by done. intros Hok.
    split; [|by apply Hd]. unfold main. rewrite Hh. by eapply wf_dir.
  - intros k l Hk. rewrite (write_pte_dirent own) by done. intros Hok Hl'.
    rewrite (write_pte_pte own) by done. case_decide; [done|]. intros. by eapply wf_pte.
  - done.
  - intros f Hm. unfold main in Hm. rewrite Hh in Hm.
    rewrite (refs_write_pte own) by done. rewrite Hc by done.
    rewrite (wf_cnt own s W f Hm). lia.
Qed.

(** Only the flag bits of a present entry change. *)
Lemma wf_pte_flags own s i j v :
  wf own s -> user_dir i -> Z.odd (dirent (mem s) i) = true -> 0 <= j < 1024 ->
  Z.odd v = Z.odd (pte (mem s) i j) -> frame v = frame (pte (mem s) i j) ->
  wf own (s <| mem ::= <[pte_addr (mem s) i j := v]> |>).
Proof.
  intros W Hi Ho Hj Hov Hfv.
  apply (wf_write_pte own own s _ i j v); try done.
  - apply (wf_byte own s W).
  - apply (wf_top own s W).
  - rewrite Hov, Hfv. intros. by eapply wf_pte.
  - intros k Hk Hok. exact (proj2 (wf_dir own s W k Hk Hok)).
  - apply (wf_own own s W).
  - intros f Hf. unfold names. rewrite Hov, Hfv. unfold cnt; simpl. lia.
Qed.

(** A present page-table entry never names a page table. *)
Lemma names_table own s i j k :
  wf own s -> user_dir i -> Z.odd (dirent (mem s) i) = true -> 0 <= j < 1024 ->
  user_dir k -> Z.odd (dirent (mem s) k) = true ->
  names (frame (dirent (mem s) k)) (pte (mem s) i j) = 0.
Proof.
  intros W Hi Ho Hj Hk Hok. unfold names.
  destruct (Z.odd (pte (mem s) i j)) eqn:Hp; [|done]. simpl.
  rewrite (proj2 (Z.eqb_neq _ _)); [done|]. by eapply wf_pte_not_table.
Qed.

Lemma names_eq f e : Z.odd e = true -> names f e = b2z (frame e =? f).
Proof. intros H. unfold names. by rewrite H. Qed.

Lemma names_even f e : Z.odd e = false -> names f e = 0.
Proof. intros H. unfold names. by rewrite H. Qed.

(** ** Releasing a page *)

Lemma free_page_low s f : f < LOW_MEM -> free_page f s = (Ret tt, s).
Proof. intros. unfold free_page. by rewrite (proj2 (Z.ltb_lt _ _)). Qed.

Lemma free_page_main own s f :
  wf own s -> main s f -> 1 <= cnt s f ->
  free_page f s = (Ret tt, s <| mem_map ::= <[idx f := cnt s f - 1]> |>).
Proof.
  intros W Hm Hc. pose proof (wf_high own s W) as Hh. pose proof Hm as [_ [Hlo Hhi]].
  unfold free_page. rewrite (proj2 (Z.ltb_ge _ _)) by lia.
  rewrite bind_gets. rewrite u32_small by (unfold LOW_MEM in *; lia).
  rewrite (proj2 (Z.leb_gt _ _)) by lia.
  rewrite Z.shiftr_div_pow2 by lia. change (2 ^ 12) with 4096.
  mrun (get_map_main own s s f W Hm eq_refl). pose proof (cnt_byte own s f W Hm).
  rewrite u8_small by lia. mrun (set_map_main own s s f (cnt s f - 1) W Hm).
  unfold istrue. rewrite (proj2 (Z.eqb_neq _ _)) by lia. done.
Qed.

(** Giving back a page the kernel holds. *)
Lemma free_page_held own s f :
  wf own s -> main s f -> 1 <= own f ->
  free_page f s = (Ret tt, s <| mem_map ::= <[idx f := cnt s f - 1]> |>) /\
  wf (bump own f (-1)) (s <| mem_map ::= <[idx f := cnt s f - 1]> |>).
Proof.
  intros W Hm Hown. pose proof (wf_cnt own s W f Hm). pose proof (refs_nonneg (mem s) f).
  pose proof (cnt_byte own s f W Hm). split; [apply (free_page_main own); (done || lia)|].
  destruct (map_update own s f (cnt s f - 1) W Hm ltac:(lia)) as (Hl & Hb & Ht).
  apply (wf_same_tables own _ s); try done.
  - intros i Hi Ho. destruct (wf_dir own s W i Hi Ho) as [Hmi Hci].
    rewrite (cnt_insert own s _ f (cnt s f - 1)) by done.
    rewrite decide_False; [done|]. apply (not_table own s f W Hm); (done || lia).
  - intros g. unfold bump. pose proof (wf_own own s W g). destruct (Z.eqb_spec g f) as [->|]; lia.
  - intros g Hg. rewrite (cnt_insert own s _ f (cnt s f - 1)) by done. unfold bump.
    pose proof (wf_cnt own s W g Hg). case_decide as Hd.
    + subst g. rewrite Z.eqb_refl. lia.
    + rewrite (proj2 (Z.eqb_neq g f)) by done. lia.
Qed.

(** Clearing a page-table entry and releasing the frame it names. *)
Lemma wf_drop_pte own s i j :
  wf own s -> user_dir i -> Z.odd (dirent (mem s) i) = true -> 0 <= j < 1024 ->
  Z.odd (pte (mem s) i j) = true ->
  exists s1, free_page (frame (pte (mem s) i j)) s = (Ret tt, s1) /\ mem s1 = mem s /\
    HIGH_MEMORY s1 = HIGH_MEMORY s /\
    wf own (s1 <| mem ::= <[pte_addr (mem s) i j := 0]> |>).
Proof.
  intros W Hi Ho Hj Hp. set (f := frame (pte (mem s) i j)).
  destruct (Z.lt_ge_cases f LOW_MEM) as [Hlow|Hlow].
  - exists s. rewrite free_page_low by done. split; [done|]. split; [done|]. split; [done|].
    apply (wf_write_pte own own s _ i j 0); try done.
    + apply (wf_byte own s W).
    + apply (wf_top own s W).
    + intros k Hk Hok. exact (proj2 (wf_dir own s W k Hk Hok)).
    + apply (wf_own own s W).
    + intros g Hg. rewrite names_eq by done. fold f.
      rewrite (proj2 (Z.eqb_neq f g)) by (destruct Hg; lia).
      rewrite names_even by done. unfold cnt; simpl. lia.
  - destruct (wf_pte_cnt own s i j W Hi Ho Hj Hp Hlow) as [Hm Hc]. fold f in Hm, Hc.
    eexists. split; [by apply (free_page_main own)|]. split; [done|]. split; [done|].
    pose proof (cnt_byte own s f W Hm).
    destruct (map_update own s f (cnt s f - 1) W Hm ltac:(lia)) as (Hl & Hb & Ht).
    apply (wf_write_pte own own s _ i j 0); try done.
    + intros k Hk Hok. destruct (wf_dir own s W k Hk Hok) as [Hmk Hck].
      rewrite (cnt_insert own s _ f (cnt s f - 1)) by done.
      rewrite decide_False; [done|]. symmetry. by eapply wf_pte_not_table.
    + apply (wf_own own s W).
    + intros g Hg. rewrite (cnt_insert own s _ f (cnt s f - 1)) by done.
      rewrite (names_eq _ (pte (mem s) i j)) by done. rewrite names_even by done. fold f.
      case_decide as Hd; [subst g; rewrite Z.eqb_refl; simpl; lia|].
      rewrite (proj2 (Z.eqb_neq f g)) by done. simpl. lia.
Qed.

(** ** Freeing an address space *)

(** The entry of table [i] at slot [l] after the slots from [j] on were cleared. *)
Definition cleared_from (m m' : gmap Z Z) (i j : Z) : Prop :=
  (forall k, user_dir k -> dirent m' k = dirent m k) /\
  (forall k l, user_dir k -> Z.odd (dirent m k) = true -> 0 <= l < 1024 ->
     pte m' k l = if decide (k = i /\ j <= l) then 0 else pte m k l).

Lemma free_entries_ok own n j s i :
  wf own s -> user_dir i -> Z.odd (dirent (mem s) i) = true -> 0 <= j ->
  j + Z.of_nat n = 1024 ->
  exists s', free_entries n (pte_addr (mem s) i j) s = (Ret tt, s') /\ wf own s' /\
    HIGH_MEMORY s' = HIGH_MEMORY s /\ cleared_from (mem s) (mem s') i j.
Proof.
  revert j s. induction n as [|n IH]; intros j s W Hi Ho Hj Hn; cbn [free_entries].
  { exists s. split; [done|]. split; [done|]. split; [done|]. split; [done|].
    intros k l ???. rewrite decide_False; [done|]. lia. }
  rewrite bind_ldw. fold (pte (mem s) i j).
  assert (exists s1, when (istrue (Z.land 1 (pte (mem s) i j)))
            (free_page (Z.land PAGE_MASK (pte (mem s) i j))) s = (Ret tt, s1) /\
            mem s1 = mem s /\ HIGH_MEMORY s1 = HIGH_MEMORY s /\
            wf own (s1 <| mem ::= <[pte_addr (mem s) i j := 0]> |>)) as (s1 & Hrun & Hm1 & Hh1 & W1).
  { rewrite land_1_odd. destruct (Z.odd (pte (mem s) i j)) eqn:Hp; simpl.
    - apply wf_drop_pte; try done. lia.
    - exists s. split; [done|]. split; [done|]. split; [done|].
      apply (wf_write_pte own own s _ i j 0); try done; try lia.
      + apply (wf_byte own s W).
      + apply (wf_top own s W).
      + intros k Hk Hok. exact (proj2 (wf_dir own s W k Hk Hok)).
      + apply (wf_own own s W).
      + intros g Hg. rewrite !names_even by done. unfold cnt; simpl. lia. }
  mrun Hrun. rewrite bind_stw.
  set (s2 := s1 <| mem ::= <[pte_addr (mem s) i j := 0]> |>) in *.
  assert (mem s2 = <[pte_addr (mem s) i j := 0]> (mem s)) as Hm2 by (unfold s2; simpl; by rewrite Hm1).
  assert (forall k, user_dir k -> dirent (mem s2) k = dirent (mem s) k) as Hd2.
  { intros k Hk. rewrite Hm2. apply (write_pte_dirent own); done || lia. }
  replace (pte_addr (mem s) i j + 4) with (pte_addr (mem s2) i (j + 1)); last first.
  { unfold pte_addr. rewrite Hd2 by done. lia. }
  destruct (IH (j + 1) s2 W1 Hi) as (s' & Hr & W' & Hh' & Hd' & Hp'); [by rewrite Hd2|lia|lia|].
  exists s'. split; [done|]. split; [done|]. split; [by rewrite Hh'|]. split.
  - intros k Hk. by rewrite Hd', Hd2.
  - intros k l Hk Hok Hl. rewrite Hp' by (done || by rewrite Hd2).
    rewrite Hm2, (write_pte_pte own) by (done || lia).
    repeat case_decide; try done; lia.
Qed.

(** Releasing the frame of an empty page table and clearing its directory slot. *)
Lemma wf_drop_dir own s i :
  wf own s -> user_dir i -> Z.odd (dirent (mem s) i) = true ->
  (forall j, 0 <= j < 1024 -> Z.odd (pte (mem s) i j) = false) ->
  exists s1, free_page (frame (dirent (mem s) i)) s = (Ret tt, s1) /\ mem s1 = mem s /\
    HIGH_MEMORY s1 = HIGH_MEMORY s /\
    wf own (s1 <| mem ::= <[4 * i := 0]> |>).
Proof.
  intros W Hi Ho Hz. set (f := frame (dirent (mem s) i)).
  destruct (wf_dir own s W i Hi Ho) as [Hm Hc]. fold f in Hm, Hc.
  eexists. split; [apply (free_page_main own); (done || lia)|]. split; [done|]. split; [done|].
  destruct (map_update own s f (cnt s f - 1) W Hm ltac:(lia)) as (Hl & Hb & Ht).
  set (m' := <[4 * i := 0]> (mem s)).
  assert (forall k, user_dir k -> dirent m' k = if decide (k = i) then 0 else dirent (mem s) k) as Hd.
  { intros k Hk. unfold m', dirent at 1. rewrite ld_insert. repeat case_decide; try done; lia. }
  assert (forall k l, user_dir k -> k <> i -> Z.odd (dirent (mem s) k) = true -> 0 <= l < 1024 ->
    pte m' k l = pte (mem s) k l) as Hp.
  { intros k l Hk Hne Hok Hl'. unfold pte, pte_addr. rewrite Hd, decide_False by done.
    apply ld_insert_ne. destruct (wf_dir own s W k Hk Hok) as [[_ [? _]] _].
    unfold LOW_MEM, user_dir in *. lia. }
  split; simpl.
  - rewrite Hl. apply (wf_len own s W).
  - apply (wf_high own s W).
  - apply (wf_high_al own s W).
  - done.
  - done.
  - fold m'. intros k Hk. rewrite Hd by done. case_decide as Hki; [done|]. intros Hok.
    destruct (wf_dir own s W k Hk Hok) as [Hmk Hck]. split; [done|].
    rewrite (cnt_insert own s _ f (cnt s f - 1)) by done.
    rewrite decide_False; [done|]. intros Heq. apply Hki. by eapply wf_table_inj.
  - fold m'. intros k l Hk. rewrite Hd by done. case_decide as Hki; [done|]. intros Hok Hl'.
    rewrite Hp by done. by eapply wf_pte.
  - apply (wf_own own s W).
  - fold m'. intros g Hg. unfold m'. rewrite (refs_write_dir own) by done. fold m'.
    rewrite (table_refs_zero_page (mem s)) by done.
    assert (table_refs m' g i = 0) as ->.
    { unfold table_refs. rewrite Hd, decide_True by done. done. }
    rewrite (cnt_insert own s _ f (cnt s f - 1)) by done.
    pose proof (wf_cnt own s W g Hg). rewrite names_eq by done. fold f.
    case_decide as Hgf; [subst g; rewrite Z.eqb_refl; simpl; lia|].
    rewrite (proj2 (Z.eqb_neq f g)) by done. simpl. lia.
Qed.

(** The address spaces outside the slots [i, i + n) are as before. *)
Definition untouched (m m' : gmap Z Z) (P : Z -> Prop) : Prop :=
  forall k, user_dir k -> ~ P k ->
    dirent m' k = dirent m k /\
    (Z.odd (dirent m k) = true -> forall l, 0 <= l < 1024 -> pte m' k l = pte m k l).

Lemma free_one_dir own s i :
  wf own s -> user_dir i -> Z.odd (dirent (mem s) i) = true ->
  exists s', (free_entries 1024 (Z.land PAGE_MASK (dirent (mem s) i));;
       d ← ldw (4 * i);
       free_page (Z.land PAGE_MASK d);;
       stw (4 * i) 0) s = (Ret tt, s') /\ wf own s' /\ HIGH_MEMORY s' = HIGH_MEMORY s /\
    dirent (mem s') i = 0 /\ untouched (mem s) (mem s') (fun k => k = i).
Proof.
  intros W Hi Ho.
  destruct (free_entries_ok own 1024 0 s i W Hi Ho) as (s1 & Hr1 & W1 & Hh1 & Hd1 & Hp1); [lia|lia|].
  unfold pte_addr in Hr1. rewrite Z.mul_0_r, Z.add_0_r in Hr1. mrun Hr1.
  rewrite bind_ldw. fold (dirent (mem s1) i).
  destruct (wf_drop_dir own s1 i W1 Hi) as (s2 & Hr2 & Hm2 & Hh2 & W2).
  { by rewrite Hd1. }
  { intros j Hj. rewrite Hp1, decide_True by (done || lia). done. }
  mrun Hr2. eexists. split; [reflexivity|]. split; [done|]. split; [simpl; congruence|]. simpl.
  rewrite Hm2. split; [apply ld_insert_eq|].
  intros k Hk Hne. assert (dirent (<[4 * i := 0]> (mem s1)) k = dirent (mem s) k) as Hdk.
  { rewrite <- Hd1 by done. apply ld_insert_ne. lia. }
  split; [done|]. intros Hok l Hl.
  assert (pte (mem s1) k l = pte (mem s) k l) as <-.
  { rewrite Hp1, decide_False by (done || lia). done. }
  unfold pte, pte_addr. rewrite Hdk, Hd1 by done. apply ld_insert_ne.
  destruct (wf_dir own s W k Hk Hok) as [[_ [? _]] _]. unfold LOW_MEM, user_dir in *. lia.
Qed.

Lemma free_dirs_ok own n i s :
  wf own s -> FIRST_USER_DIR <= i -> i + Z.of_nat n <= 1024 ->
  exists s', free_dirs n (4 * i) s = (Ret tt, s') /\ wf own s' /\
    HIGH_MEMORY s' = HIGH_MEMORY s /\
    (forall k, i <= k < i + Z.of_nat n -> Z.odd (dirent (mem s') k) = false) /\
    untouched (mem s) (mem s') (fun k => i <= k < i + Z.of_nat n).
Proof.
  revert i s. induction n as [|n IH]; intros i s W Hi Hn; cbn [free_dirs].
  { exists s. split; [done|]. split; [done|]. split; [done|]. split; [lia|]. by intros k Hk Hne. }
  rewrite bind_ldw. fold (dirent (mem s) i). rewrite land_1_odd.
  assert (user_dir i) as Hu by (unfold user_dir; lia).
  match goal with |- context [(?c ≫= _) s] => assert (exists s1, c s = (Ret tt, s1) /\ wf own s1 /\
    HIGH_MEMORY s1 = HIGH_MEMORY s /\ Z.odd (dirent (mem s1) i) = false /\
    untouched (mem s) (mem s1) (fun k => k = i)) as (s1 & Hr1 & W1 & Hh1 & Hz1 & Hun1) end.
  { destruct (Z.odd (dirent (mem s) i)) eqn:Ho; cbn [negb].
    - destruct (free_one_dir own s i W Hu Ho) as (s1 & Hr & ? & ? & Hz & ?).
      exists s1. rewrite Hz. auto.
    - exists s. split; [done|]. split; [done|]. split; [done|]. split; [done|]. by intros k Hk Hne. }
  mrun Hr1. replace (4 * i + 4) with (4 * (i + 1)) by lia.
  destruct (IH (i + 1) s1 W1) as (s' & Hr & W' & Hh' & Hz' & Hun'); [lia|lia|].
  exists s'. split; [done|]. split; [done|]. split; [congruence|]. split.
  - intros k Hk. destruct (decide (k = i)) as [->|]; [|apply Hz'; lia].
    rewrite (proj1 (Hun' i Hu ltac:(cbv beta; lia))). done.
  - intros k Hk Hne. destruct (Hun1 k Hk ltac:(cbv beta in *; lia)) as [Hd1 Hp1].
    destruct (Hun' k Hk ltac:(cbv beta in *; lia)) as [Hd2 Hp2]. split; [congruence|].
    intros Hok l Hl. rewrite Hp2 by (congruence || done). by apply Hp1.
Qed.

(** How many directory slots a size in bytes spans. *)
Definition nr_dirs (size : Z) : Z := Z.shiftr (u32 (size + 0x3fffff)) 22.

Lemma nr_dirs_nonneg size : 0 <= nr_dirs size.
Proof. apply Z.shiftr_nonneg. apply u32_range. Qed.

Lemma aligned_4M a : a mod 4194304 = 0 -> istrue (Z.land a 0x3fffff) = false.
Proof.
  intros Ha. change 0x3fffff with (2 ^ 22 - 1). rewrite land_mask_mod by lia.
  change (2 ^ 22) with 4194304. by rewrite Ha.
Qed.

(** Freeing the page tables of a user address range always succeeds: [free_page_tables]
    never panics, leaves the counts right, empties every directory slot of the range and
    changes no other address space. *)
Lemma free_page_tables_cases own s from size :
  wf own s -> 0 <= from < 4294967296 -> from mod 4194304 = 0 ->
  FIRST_USER_DIR <= dir_ix from -> dir_ix from + nr_dirs size <= 1024 ->
  exists s', free_page_tables from size s = (Ret 0, s') /\ wf own s' /\
    HIGH_MEMORY s' = HIGH_MEMORY s /\
    (forall k, dir_ix from <= k < dir_ix from + nr_dirs size ->
       Z.odd (dirent (mem s') k) = false) /\
    untouched (mem s) (mem s') (fun k => dir_ix from <= k < dir_ix from + nr_dirs size).
Proof.
  intros W Hr Hal Hlo Hhi. unfold free_page_tables.
  rewrite aligned_4M by done. pose proof (nr_dirs_nonneg size).
  rewrite (proj2 (Z.eqb_neq from 0)); last first.
  { intros ->. change (dir_ix 0) with 0 in Hlo. unfold FIRST_USER_DIR in Hlo. lia. }
  fold (nr_dirs size). rewrite dir_addr by done.
  destruct (free_dirs_ok own (Z.to_nat (nr_dirs size)) (dir_ix from) s W Hlo)
    as (s' & Hrun & W' & Hh & Hz & Hun); [lia|].
  rewrite Z2Nat.id in * by done. mrun Hrun.
  eexists. split; [reflexivity|]. split; [|done].
  destruct W'. by split.
Qed.

(** ** Copying an address space *)

(** What a present entry becomes in the child, and in the parent: write protected,
    except that the parent keeps its entries for frames below 1 MB. *)
Definition child_entry (e : Z) : Z := if Z.odd e then Z.land e 0xfffffffd else 0.
Definition parent_entry (e : Z) : Z :=
  if Z.odd e && (LOW_MEM <? Z.land e 0xfffffffd) then Z.land e 0xfffffffd else e.

Lemma land_rw_range e : 0 <= Z.land e 0xfffffffd < 4294967296.
Proof.
  split; [apply Z.land_nonneg; right; lia|].
  enough (Z.land e 0xfffffffd = Z.land e 0xfffffffd mod 2 ^ 32) as ->
    by (apply Z.mod_pos_bound; lia).
  rewrite <- Z.land_ones, <- Z.land_assoc by lia. done.
Qed.

Lemma frame_le v : 0 <= v < 4294967296 -> frame v <= v < frame v + 4096.
Proof.
  intros Hv. rewrite frame_eq, Z.mod_small.
  - pose proof (Z_div_mod_eq_full v 4096). pose proof (Z.mod_pos_bound v 4096). lia.
  - split; [apply Z.div_pos; lia|apply Z.div_lt_upper_bound; lia].
Qed.

Lemma entry_above_low v :
  0 <= v < 4294967296 -> Z.odd v = true -> (LOW_MEM <? v) = (LOW_MEM <=? frame v).
Proof.
  intros Hr Ho. pose proof (frame_le v Hr). pose proof (frame_aligned v).
  pose proof (Z_div_mod_eq_full (frame v) 4096). unfold LOW_MEM.
  assert (v <> 0x100000) by (intros ->; done).
  destruct (Z.ltb_spec 0x100000 v), (Z.leb_spec 0x100000 (frame v)); try done; lia.
Qed.

Lemma entry_index v :
  0 <= v < 4294967296 -> LOW_MEM <= frame v ->
  Z.shiftr (v - LOW_MEM) 12 = (frame v - LOW_MEM) / 4096.
Proof.
  intros Hr Hl. rewrite Z.shiftr_div_pow2 by lia. change (2 ^ 12) with 4096.
  pose proof (frame_le v Hr). pose proof (frame_aligned v).
  pose proof (Z_div_mod_eq_full (frame v) 4096).
  set (q := frame v / 4096) in *. unfold LOW_MEM.
  replace (v - 0x100000) with (v - frame v + (q - 256) * 4096) by lia.
  replace (frame v - 0x100000) with (0 + (q - 256) * 4096) by lia.
  rewrite !Z.div_add, !Z.div_small by lia. done.
Qed.

(** Entering a second reference to a mapped frame into an empty slot. *)
Lemma wf_share own s i j v :
  wf own s -> user_dir i -> Z.odd (dirent (mem s) i) = true -> 0 <= j < 1024 ->
  Z.odd (pte (mem s) i j) = false -> Z.odd v = true -> main s (frame v) ->
  cnt s (frame v) < 255 ->
  (forall k, user_dir k -> Z.odd (dirent (mem s) k) = true -> frame (dirent (mem s) k) <> frame v) ->
  wf own (s <| mem ::= <[pte_addr (mem s) i j := v]> |>
            <| mem_map ::= <[idx (frame v) := cnt s (frame v) + 1]> |>).
Proof.
  intros W Hi Ho Hj Hp Hv Hm Hc Hnt. pose proof (cnt_byte own s _ W Hm).
  destruct (map_update own s (frame v) (cnt s (frame v) + 1) W Hm ltac:(lia)) as (Hl & Hb & Ht).
  apply (wf_write_pte own own s _ i j v); try done.
  - intros _. apply Hm.
  - intros k Hk Hok. destruct (wf_dir own s W k Hk Hok) as [Hmk Hck].
    rewrite (cnt_insert own s _ (frame v) (cnt s (frame v) + 1)) by done.
    rewrite decide_False by (by apply Hnt). done.
  - apply (wf_own own s W).
  - intros g Hg. rewrite (cnt_insert own s _ (frame v) (cnt s (frame v) + 1)) by done.
    rewrite (names_even _ (pte (mem s) i j)), names_eq by done.
    case_decide as Hd; [subst g; rewrite Z.eqb_refl; simpl; lia|].
    rewrite (proj2 (Z.eqb_neq (frame v) g)) by done. simpl. lia.
Qed.

(** Entering a reference to a frame below main memory into an empty slot. *)
Lemma wf_share_low own s i j v :
  wf own s -> user_dir i -> Z.odd (dirent (mem s) i) = true -> 0 <= j < 1024 ->
  Z.odd (pte (mem s) i j) = false -> frame v < LOW_MEM ->
  wf own (s <| mem ::= <[pte_addr (mem s) i j := v]> |>).
Proof.
  intros W Hi Ho Hj Hp Hl. pose proof (wf_high own s W).
  apply (wf_write_pte own own s _ i j v); try done.
  - apply (wf_byte own s W).
  - apply (wf_top own s W).
  - lia.
  - intros k Hk Hok. exact (proj2 (wf_dir own s W k Hk Hok)).
  - apply (wf_own own s W).
  - intros g [Hg1 Hg2]. rewrite (names_even _ (pte (mem s) i j)) by done. unfold names.
    rewrite (proj2 (Z.eqb_neq (frame v) g)), andb_false_r by lia. unfold cnt; simpl. lia.
Qed.

(** The effect of copying entry [j] of table [i] to table [k]. *)
Definition copied_entry (s s' : mm) (i k j : Z) : Prop :=
  HIGH_MEMORY s' = HIGH_MEMORY s /\
  (forall t, user_dir t -> dirent (mem s') t = dirent (mem s) t) /\
  (forall t l, user_dir t -> Z.odd (dirent (mem s) t) = true -> 0 <= l < 1024 ->
     pte (mem s') t l =
       if decide (t = k /\ l = j /\ Z.odd (pte (mem s) i j) = true) then child_entry (pte (mem s) i j)
       else if decide (t = i /\ l = j) then parent_entry (pte (mem s) i j)
       else pte (mem s) t l) /\
  (forall f, main s f -> cnt s' f = cnt s f + names f (pte (mem s) i j)).

Lemma parent_entry_odd e : Z.odd (parent_entry e) = Z.odd e.
Proof. unfold parent_entry. case_match; [apply odd_land_rw|done]. Qed.

Lemma parent_entry_frame e : frame (parent_entry e) = frame e.
Proof. unfold parent_entry. case_match; [apply frame_land_rw|done]. Qed.

Lemma names_parent f e : names f (parent_entry e) = names f e.
Proof. unfold names. by rewrite parent_entry_odd, parent_entry_frame. Qed.

Lemma copied_entry_refl s i k j :
  Z.odd (pte (mem s) i j) = false -> copied_entry s s i k j.
Proof.
  intros Hp. split; [done|]. split; [done|]. split.
  - intros t l _ _ _. rewrite decide_False by (rewrite Hp; naive_solver).
    case_decide as Hd; [|done]. destruct Hd as [-> ->].
    unfold parent_entry. by rewrite Hp.
  - intros f Hf. rewrite names_even by done. lia.
Qed.

(** The body of the inner loop of [copy_page_tables], for entry address [fa] holding
    [e] and target address [ta]. *)
Definition copy_entry (e fa ta : Z) : M mm unit :=
  if negb (istrue (Z.land 1 e)) then mret tt else
  let this_page := Z.land e 0xfffffffd in
  stw ta this_page;;
  if LOW_MEM <? this_page then
    stw fa this_page;;
    let i := Z.shiftr (this_page - LOW_MEM) 12 in
    c ← get_map i;
    set_map i (u8 (c + 1))
  else mret tt.

Lemma copy_entries_S n fa ta s :
  copy_entries (S n) fa ta s =
  (copy_entry (ld (mem s) fa) fa ta;; copy_entries n (fa + 4) (ta + 4)) s.
Proof. reflexivity. Qed.

(** Copying an entry for a frame of main memory. *)
Lemma copy_entry_main own s i k j (v := Z.land (pte (mem s) i j) 0xfffffffd) :
  wf own s -> user_dir i -> user_dir k -> i <> k ->
  Z.odd (dirent (mem s) i) = true -> Z.odd (dirent (mem s) k) = true -> 0 <= j < 1024 ->
  Z.odd (pte (mem s) k j) = false -> Z.odd (pte (mem s) i j) = true ->
  main s (frame v) -> cnt s (frame v) < 255 ->
  let s' := s <| mem ::= <[pte_addr (mem s) k j := v]> |>
              <| mem ::= <[pte_addr (mem s) i j := v]> |>
              <| mem_map ::= <[idx (frame v) := cnt s (frame v) + 1]> |> in
  wf own s' /\ copied_entry s s' i k j.
Proof.
  intros W Hi Hk Hne Hoi Hok Hj Hpk Hoe Hm Hc s'. set (e := pte (mem s) i j) in *.
  assert (Z.odd v = true) as Hov by (unfold v; by rewrite odd_land_rw).
  assert (frame v = frame e) as Hfv by apply frame_land_rw.
  assert (child_entry e = v) as Hce by (unfold child_entry; by rewrite Hoe).
  assert (parent_entry e = v) as Hpe.
  { unfold parent_entry. rewrite Hoe. fold v. rewrite entry_above_low by (done || apply land_rw_range).
    rewrite (proj2 (Z.leb_le _ _)); [done|apply Hm]. }
  assert (forall t, user_dir t -> Z.odd (dirent (mem s) t) = true ->
    frame (dirent (mem s) t) <> frame v) as Hnt.
  { intros t Ht Hot. rewrite Hfv. symmetry. by eapply wf_pte_not_table. }
  pose proof (wf_share own s k j v W Hk Hok Hj Hpk Hov Hm Hc Hnt) as Wa.
  set (sa := s <| mem ::= <[pte_addr (mem s) k j := v]> |>
               <| mem_map ::= <[idx (frame v) := cnt s (frame v) + 1]> |>) in *.
  assert (forall t, user_dir t -> dirent (mem sa) t = dirent (mem s) t) as Hda
    by (intros t Ht; by apply (write_pte_dirent own)).
  assert (pte_addr (mem sa) i j = pte_addr (mem s) i j) as Hpa
    by (unfold pte_addr; by rewrite Hda).
  assert (pte (mem sa) i j = e) as Hea.
  { unfold sa; simpl. rewrite (write_pte_pte own) by done. by rewrite decide_False by naive_solver. }
  pose proof (wf_pte_flags own sa i j v Wa Hi ltac:(by rewrite Hda) Hj
    ltac:(by rewrite Hea, Hoe) ltac:(by rewrite Hea)) as Wb.
  rewrite Hpa in Wb. split; [exact Wb|]. split; [done|].
  change (mem s') with (<[pte_addr (mem s) i j := v]> (mem sa)). rewrite <- Hpa. split; [|split].
  - intros t Ht. rewrite (write_pte_dirent own sa i j) by (done || by rewrite Hda). by apply Hda.
  - intros t l Ht Hot Hl. rewrite (write_pte_pte own sa i j) by (done || by rewrite Hda).
    change (mem sa) with (<[pte_addr (mem s) k j := v]> (mem s)).
    rewrite (write_pte_pte own) by done. fold e. rewrite Hce, Hpe.
    repeat case_decide; try done; naive_solver.
  - intros f Hf. rewrite (cnt_insert own s s' (frame v) (cnt s (frame v) + 1)) by done.
    fold e. rewrite names_eq by done. rewrite Hfv.
    case_decide as Hd; [subst f; rewrite Z.eqb_refl; simpl; lia|].
    rewrite (proj2 (Z.eqb_neq (frame e) f)) by done. simpl. lia.
Qed.

(** Copying an entry for a frame below main memory. *)
Lemma copy_entry_low own s i k j (v := Z.land (pte (mem s) i j) 0xfffffffd) :
  wf own s -> user_dir i -> user_dir k -> i <> k ->
  Z.odd (dirent (mem s) i) = true -> Z.odd (dirent (mem s) k) = true -> 0 <= j < 1024 ->
  Z.odd (pte (mem s) k j) = false -> Z.odd (pte (mem s) i j) = true ->
  frame v < LOW_MEM ->
  let s' := s <| mem ::= <[pte_addr (mem s) k j := v]> |> in
  wf own s' /\ copied_entry s s' i k j.
Proof.
  intros W Hi Hk Hne Hoi Hok Hj Hpk Hoe Hlow s'. split; [by apply wf_share_low|].
  split; [done|]. split; [intros t Ht; by apply (write_pte_dirent own)|]. split.
  - intros t l Ht Hot Hl. simpl. rewrite (write_pte_pte own) by done.
    unfold parent_entry, child_entry. rewrite Hoe. fold v.
    rewrite entry_above_low by (apply land_rw_range || by unfold v; rewrite odd_land_rw).
    rewrite (proj2 (Z.leb_gt _ _)) by done. simpl.
    repeat case_decide; try done; naive_solver.
  - intros f [Hf1 Hf2]. rewrite names_eq by done. rewrite <- frame_land_rw. fold v.
    rewrite (proj2 (Z.eqb_neq (frame v) f)) by lia. unfold cnt; simpl. lia.
Qed.

Lemma copy_entry_ok own s i k j :
  wf own s -> user_dir i -> user_dir k -> i <> k ->
  Z.odd (dirent (mem s) i) = true -> Z.odd (dirent (mem s) k) = true -> 0 <= j < 1024 ->
  Z.odd (pte (mem s) k j) = false ->
  (forall f, main s f -> cnt s f + names f (pte (mem s) i j) <= 255) ->
  exists s', copy_entry (pte (mem s) i j) (pte_addr (mem s) i j) (pte_addr (mem s) k j) s
      = (Ret tt, s') /\ wf own s' /\ copied_entry s s' i k j.
Proof.
  intros W Hi Hk Hne Hoi Hok Hj Hpk Hnw. unfold copy_entry. rewrite land_1_odd.
  destruct (Z.odd (pte (mem s) i j)) eqn:Hoe; cbn [negb]; last first.
  { exists s. split; [done|]. split; [done|]. by apply copied_entry_refl. }
  set (v := Z.land (pte (mem s) i j) 0xfffffffd).
  rewrite bind_stw, entry_above_low by (apply land_rw_range || by unfold v; rewrite odd_land_rw).
  destruct (Z.leb_spec LOW_MEM (frame v)) as [Hlow|Hlow]; last first.
  { eexists. split; [reflexivity|]. by apply copy_entry_low. }
  rewrite bind_stw, entry_index by (done || apply land_rw_range).
  assert (frame v = frame (pte (mem s) i j)) as Hfv by apply frame_land_rw.
  assert (main s (frame v) /\ 1 <= cnt s (frame v)) as [Hm Hc1]
    by (rewrite Hfv in *; by apply (wf_pte_cnt own)).
  pose proof (Hnw (frame v) Hm) as Hnw'. rewrite names_eq, Hfv, Z.eqb_refl in Hnw' by done.
  rewrite <- Hfv in Hnw'. cbn [b2z] in Hnw'. pose proof (cnt_byte own s _ W Hm).
  match goal with |- context [(get_map _ ≫= _) ?st] =>
    mrun (get_map_main own s st (frame v) W Hm eq_refl) end.
  rewrite u8_small by lia.
  match goal with |- context [set_map _ ?c ?st] =>
    rewrite (set_map_main own s st (frame v) c W Hm) end.
  eexists. split; [reflexivity|]. apply copy_entry_main; try done. fold v. lia.
Qed.

(** The effect of copying the entries [j, j + n) of table [i] to table [k]. *)
Definition copied_range (s s' : mm) (i k j n : Z) : Prop :=
  HIGH_MEMORY s' = HIGH_MEMORY s /\
  (forall t, user_dir t -> dirent (mem s') t = dirent (mem s) t) /\
  (forall t l, user_dir t -> Z.odd (dirent (mem s) t) = true -> 0 <= l < 1024 ->
     pte (mem s') t l =
       if decide (t = k /\ j <= l < j + n /\ Z.odd (pte (mem s) i l) = true)
       then child_entry (pte (mem s) i l)
       else if decide (t = i /\ j <= l < j + n) then parent_entry (pte (mem s) i l)
       else pte (mem s) t l) /\
  (forall f, main s f ->
     cnt s' f = cnt s f + sumZ (fun l => names f (pte (mem s) i l)) (seqZ j n)).

Lemma sumZ_cons {A} (g : A -> Z) x l : sumZ g (x :: l) = g x + sumZ g l.
Proof. reflexivity. Qed.

Lemma sumZ_seqZ_S (g : Z -> Z) j n :
  0 <= n -> sumZ g (seqZ j (n + 1)) = g j + sumZ g (seqZ (j + 1) n).
Proof.
  intros. rewrite seqZ_cons by lia. rewrite sumZ_cons.
  replace (Z.succ j) with (j + 1) by lia. by replace (Z.pred (n + 1)) with n by lia.
Qed.

Lemma copy_entries_ok own n j s i k :
  wf own s -> user_dir i -> user_dir k -> i <> k ->
  Z.odd (dirent (mem s) i) = true -> Z.odd (dirent (mem s) k) = true ->
  0 <= j -> j + Z.of_nat n <= 1024 ->
  (forall l, j <= l < j + Z.of_nat n -> Z.odd (pte (mem s) k l) = false) ->
  (forall f, main s f ->
     cnt s f + sumZ (fun l => names f (pte (mem s) i l)) (seqZ j (Z.of_nat n)) <= 255) ->
  exists s', copy_entries n (pte_addr (mem s) i j) (pte_addr (mem s) k j) s = (Ret tt, s') /\
    wf own s' /\ copied_range s s' i k j (Z.of_nat n).
Proof.
  revert j s. induction n as [|n IH]; intros j s W Hi Hk Hne Hoi Hok Hj Hn Hz Hnw.
  { exists s. split; [done|]. split; [done|]. split; [done|]. split; [done|]. split.
    - intros. rewrite !decide_False by lia. done.
    - intros. change (seqZ j (Z.of_nat 0)) with (@nil Z). unfold sumZ; simpl. lia. }
  replace (Z.of_nat (S n)) with (Z.of_nat n + 1) in * by lia.
  rewrite copy_entries_S.
  assert (forall f, 0 <= sumZ (fun l => names f (pte (mem s) i l)) (seqZ (j + 1) (Z.of_nat n))) as Hnn
    by (intros; apply sumZ_nonneg; intros; apply names_range).
  destruct (copy_entry_ok own s i k j) as (s1 & Hr1 & W1 & Hh1 & Hd1 & Hp1 & Hc1);
    try done; [lia|apply Hz; lia| |].
  { intros f Hf. specialize (Hnw f Hf). rewrite sumZ_seqZ_S in Hnw by lia.
    specialize (Hnn f). lia. }
  mrun Hr1.
  assert (forall l, j < l < 1024 -> pte (mem s1) i l = pte (mem s) i l) as Hi1.
  { intros l Hl. rewrite Hp1 by (done || lia). by rewrite !decide_False by lia. }
  assert (forall f, sumZ (fun l => names f (pte (mem s1) i l)) (seqZ (j + 1) (Z.of_nat n)) =
    sumZ (fun l => names f (pte (mem s) i l)) (seqZ (j + 1) (Z.of_nat n))) as Hsum.
  { intros f. apply sumZ_ext. intros l Hl%elem_of_seqZ_iff. by rewrite Hi1 by lia. }
  replace (pte_addr (mem s) i j + 4) with (pte_addr (mem s1) i (j + 1))
    by (unfold pte_addr; rewrite Hd1 by done; lia).
  replace (pte_addr (mem s) k j + 4) with (pte_addr (mem s1) k (j + 1))
    by (unfold pte_addr; rewrite Hd1 by done; lia).
  destruct (IH (j + 1) s1) as (s' & Hr & W' & Hh' & Hd' & Hp' & Hc'); try done; try lia.
  { by rewrite Hd1. }
  { by rewrite Hd1. }
  { intros l Hl. rewrite Hp1 by (done || lia). rewrite !decide_False by lia. apply Hz. lia. }
  { intros f Hf. unfold main in Hf. rewrite Hh1 in Hf.
    rewrite Hsum, Hc1 by done. specialize (Hnw f Hf). rewrite sumZ_seqZ_S in Hnw by lia. lia. }
  exists s'. split; [done|]. split; [done|]. split; [congruence|]. split; [|split].
  - intros t Ht. by rewrite Hd', Hd1.
  - intros t l Ht Hot Hl. rewrite Hp' by (done || by rewrite Hd1).
    destruct (decide (l = j)) as [->|Hlj].
    + rewrite !(decide_False (P := _ /\ j + 1 <= _ < _ /\ _)) by lia.
      rewrite (decide_False (P := _ /\ j + 1 <= _ < _)) by lia.
      rewrite Hp1 by done. repeat case_decide; try done; naive_solver lia.
    + rewrite (Hp1 t l), !(decide_False (P := _ /\ l = j /\ _)), (decide_False (P := _ /\ l = j))
        by (done || tauto).
      destruct (decide (j < l)) as [Hlt|].
      * rewrite Hi1 by lia. repeat case_decide; try done; exfalso; naive_solver lia.
      * rewrite !decide_False by lia. done.
  - intros f Hf. rewrite Hc' by (unfold main; by rewrite Hh1). rewrite Hsum, Hc1 by done.
    rewrite sumZ_seqZ_S by lia. lia.
Qed.

(** ** Linking a fresh page table *)

Lemma wf_ext own own' s : (forall f, own f = own' f) -> wf own s -> wf own' s.
Proof.
  intros He W. destruct W. split; try done.
  - intros f. by rewrite <- He.
  - intros f Hf. rewrite <- He. auto.
Qed.

Lemma wf_link own s k p v :
  wf own s -> user_dir k -> Z.odd (dirent (mem s) k) = false ->
  main s p -> cnt s p = 1 -> own p = 1 -> Z.odd v = true -> frame v = p ->
  (forall j, 0 <= j < 1024 -> ld (mem s) (p + 4 * j) = 0) ->
  wf (bump own p (-1)) (s <| mem ::= <[4 * k := v]> |>) /\
  (forall j, 0 <= j < 1024 -> pte (<[4 * k := v]> (mem s)) k j = 0) /\
  untouched (mem s) (<[4 * k := v]> (mem s)) (fun t => t = k).
Proof.
  intros W Hk Hok Hm Hc Hown Hv Hf Hz. set (m' := <[4 * k := v]> (mem s)).
  assert (forall a, LOW_MEM <= a -> ld m' a = ld (mem s) a) as Hhigh.
  { intros a Ha. apply ld_insert_ne. unfold LOW_MEM, user_dir in *. lia. }
  assert (dirent m' k = v) as Hdk by apply ld_insert_eq.
  assert (forall t, user_dir t -> t <> k -> dirent m' t = dirent (mem s) t) as Hd
    by (intros t Ht Hne; apply ld_insert_ne; lia).
  assert (forall j, 0 <= j < 1024 -> pte m' k j = 0) as Hpk.
  { intros j Hj. unfold pte, pte_addr. rewrite Hdk, Hf.
    rewrite Hhigh by (destruct Hm; lia). by apply Hz. }
  assert (forall t l, user_dir t -> t <> k -> Z.odd (dirent (mem s) t) = true -> 0 <= l < 1024 ->
    pte m' t l = pte (mem s) t l) as Hp.
  { intros t l Ht Hne Hot Hl. unfold pte, pte_addr. rewrite Hd by done. apply Hhigh.
    destruct (wf_dir own s W t Ht Hot) as [[_ [? _]] _]. lia. }
  split; [|split; [done|]]; last first.
  { intros t Ht Hne. split; [by apply Hd|]. intros. by apply Hp. }
  split; try apply W.
  - intros t Ht. simpl. fold m'. destruct (decide (t = k)) as [->|Hne].
    + rewrite Hdk, Hf. intros _. by split.
    + rewrite Hd by done. intros Hot. exact (wf_dir own s W t Ht Hot).
  - intros t l Ht. simpl. fold m'. destruct (decide (t = k)) as [->|Hne].
    + intros _ Hl. rewrite Hpk by done. done.
    + rewrite Hd by done. intros Hot Hl. rewrite Hp by done. by eapply wf_pte.
  - intros f. unfold bump. pose proof (wf_own own s W f). destruct (Z.eqb_spec f p) as [->|]; lia.
  - intros f Hf'. simpl. unfold m'. rewrite (refs_write_dir own) by done. fold m'.
    rewrite (table_refs_zero_page m' f k) by (intros j Hj; by rewrite Hpk).
    unfold table_refs at 1. rewrite Hok, Hdk, names_eq, Hf by done.
    pose proof (wf_cnt own s W f Hf'). unfold bump. unfold cnt in *; simpl.
    rewrite (Z.eqb_sym p f). destruct (f =? p); simpl; lia.
Qed.

Lemma untouched_trans m1 m2 m3 (P Q : Z -> Prop) :
  untouched m1 m2 P -> untouched m2 m3 Q -> untouched m1 m3 (fun k => P k \/ Q k).
Proof.
  intros H1 H2 k Hk Hn. destruct (H1 k Hk) as [Hd1 Hp1]; [tauto|].
  destruct (H2 k Hk) as [Hd2 Hp2]; [tauto|]. split; [congruence|].
  intros Ho l Hl. rewrite Hp2 by (congruence || done). by apply Hp1.
Qed.

Lemma untouched_mono m m' (P Q : Z -> Prop) :
  (forall k, P k -> Q k) -> untouched m m' P -> untouched m m' Q.
Proof. intros HPQ H k Hk Hn. apply H; naive_solver. Qed.

Lemma alloc_untouched own s p :
  wf own s -> main s p -> cnt s p = 0 -> untouched (mem s) (mem (alloc_state s p)) (fun _ => False).
Proof.
  intros W Hm Hc. assert (same_tables (mem s) (mem (alloc_state s p))) as Hs.
  { apply (same_tables_outside own _ _ p); [done..| |].
    - apply (not_table own); auto with lia.
    - intros a Ha. apply (stosl_page_other p a (mem s) Ha). }
  intros k Hk _. split; [by apply Hs|]. intros. by apply same_tables_pte.
Qed.

(** Allocating a page table and entering it in an empty directory slot. *)
Lemma alloc_link own s k p
    (s2 := (alloc_state s p) <| mem ::= <[4 * k := Z.lor p 7]> |>) :
  wf own s -> user_dir k -> Z.odd (dirent (mem s) k) = false -> main s p -> cnt s p = 0 ->
  wf own s2 /\ dirent (mem s2) k = Z.lor p 7 /\ frame (Z.lor p 7) = p /\
  (forall j, 0 <= j < 1024 -> pte (mem s2) k j = 0) /\
  untouched (mem s) (mem s2) (fun t => t = k) /\
  (forall f, main s f -> cnt s2 f = if decide (f = p) then 1 else cnt s f).
Proof.
  intros W Hk Hok Hm Hc. pose proof (alloc_wf own s p W Hm Hc) as Wa.
  pose proof (alloc_untouched own s p W Hm Hc) as Hua.
  destruct (cnt_free_no_refs own s p W Hm Hc) as [_ Ho]. destruct (Hua k Hk) as [Hdk _]; [tauto|].
  assert (frame (Z.lor p 7) = p) as Hf.
  { apply frame_lor; [apply Hm| |lia]. pose proof (wf_high own s W). destruct Hm. unfold LOW_MEM in *. lia. }
  destruct (wf_link (bump own p 1) (alloc_state s p) k p (Z.lor p 7)) as (W2 & Hz & Hu2).
  - exact Wa.
  - done.
  - by rewrite Hdk.
  - exact Hm.
  - rewrite (cnt_insert own s _ p 1) by done. by rewrite decide_True.
  - unfold bump. rewrite Z.eqb_refl. lia.
  - apply odd_lor_7.
  - exact Hf.
  - intros j Hj. exact (stosl_page_zero p j (mem s) Hj).
  - split; [|split; [|split; [done|split; [done|split]]]].
    + eapply wf_ext; [|exact W2]. intros f. unfold bump. destruct (f =? p); lia.
    + apply ld_insert_eq.
    + eapply untouched_mono; [|exact (untouched_trans _ _ _ _ _ Hua Hu2)]. cbv beta. tauto.
    + intros f Hf'. by apply (cnt_insert own s).
Qed.

(** ** Copying page tables *)

Definition table_sum (m : gmap Z Z) (f i : Z) : Z :=
  if Z.odd (dirent m i) then sumZ (fun l => names f (pte m i l)) (seqZ 0 1024) else 0.

Lemma table_sum_le m f i : 0 <= table_sum m f i <= table_refs m f i.
Proof.
  unfold table_sum, table_refs. destruct (Z.odd _); [|lia].
  pose proof (names_range f (dirent m i)).
  pose proof (sumZ_nonneg (fun l => names f (pte m i l)) (seqZ 0 1024)
    ltac:(intros; apply names_range)). lia.
Qed.

Lemma table_sum_zero m f i : user_dir i -> refs m f = 0 -> table_sum m f i = 0.
Proof.
  intros Hi Hr. pose proof (table_sum_le m f i). pose proof (refs_ge m f i Hi). lia.
Qed.

Lemma table_sum_untouched m m' f i (P : Z -> Prop) :
  untouched m m' P -> user_dir i -> ~ P i -> table_sum m' f i = table_sum m f i.
Proof.
  intros Hu Hi Hn. destruct (Hu i Hi Hn) as [Hd Hp]. unfold table_sum. rewrite Hd.
  destruct (Z.odd (dirent m i)); [|done]. apply sumZ_ext. intros l Hl%elem_of_seqZ_iff.
  by rewrite Hp by (done || lia).
Qed.

(** How the parent's slot [i] and the child's slot [k] of [m'] relate to [m]. *)
Definition copied_dir (m m' : gmap Z Z) (i k : Z) : Prop :=
  dirent m' i = dirent m i /\
  if Z.odd (dirent m i) then
    Z.odd (dirent m' k) = true /\
    forall l, 0 <= l < 1024 ->
      pte m' k l = child_entry (pte m i l) /\ pte m' i l = parent_entry (pte m i l)
  else dirent m' k = dirent m k.

Lemma copied_dir_later m m1 m' i k (P : Z -> Prop) :
  user_dir i -> user_dir k -> copied_dir m m1 i k -> untouched m1 m' P -> ~ P i -> ~ P k ->
  copied_dir m m' i k.
Proof.
  intros Hi Hk [Hd Hc] Hu Hni Hnk. destruct (Hu i Hi Hni) as [Hdi Hpi].
  destruct (Hu k Hk Hnk) as [Hdk Hpk]. split; [congruence|].
  destruct (Z.odd (dirent m i)) eqn:Ho; [|congruence].
  destruct Hc as [Hok Hc]. split; [congruence|]. intros l Hl.
  rewrite Hpk, Hpi by (done || congruence). by apply Hc.
Qed.

(** One iteration of the outer loop, when a page table could be allocated. *)
Lemma copy_one_dir own s i k p
    (s2 := (alloc_state s p) <| mem ::= <[4 * k := Z.lor p 7]> |>) :
  wf own s -> user_dir i -> user_dir k -> i <> k ->
  Z.odd (dirent (mem s) i) = true -> Z.odd (dirent (mem s) k) = false ->
  main s p -> cnt s p = 0 ->
  (forall f, main s f -> cnt s f + table_sum (mem s) f i <= 255) ->
  exists s', copy_entries 1024 (frame (dirent (mem s) i)) p s2 = (Ret tt, s') /\ wf own s' /\
    HIGH_MEMORY s' = HIGH_MEMORY s /\ copied_dir (mem s) (mem s') i k /\
    untouched (mem s) (mem s') (fun t => t = i \/ t = k) /\
    (forall f, main s f ->
       cnt s' f = (if decide (f = p) then 1 else cnt s f) + table_sum (mem s) f i).
Proof.
  intros W Hi Hk Hne Hoi Hok Hm Hc Hnw.
  destruct (alloc_link own s k p W Hk Hok Hm Hc) as (W2 & Hdk2 & Hfk & Hz2 & Hu2 & Hc2).
  fold s2 in W2, Hdk2, Hz2, Hu2, Hc2. destruct (Hu2 i Hi Hne) as [Hdi2 Hpi2].
  assert (HIGH_MEMORY s2 = HIGH_MEMORY s) as Hh2 by done.
  assert (forall f, main s f <-> main s2 f) as Hmain by done. clearbody s2.
  destruct (cnt_free_no_refs own s p W Hm Hc) as [Hr _].
  assert (forall f, table_sum (mem s2) f i = table_sum (mem s) f i) as Hts
    by (intros f; exact (table_sum_untouched _ _ _ _ _ Hu2 Hi Hne)).
  assert (forall f, sumZ (fun l => names f (pte (mem s2) i l)) (seqZ 0 1024) = table_sum (mem s) f i) as Hts'.
  { intros f. rewrite <- Hts. unfold table_sum. by rewrite Hdi2, Hoi. }
  destruct (copy_entries_ok own 1024 0 s2 i k W2 Hi Hk Hne)
    as (s' & Hrun & W' & Hh' & Hd' & Hp' & Hc').
  - by rewrite Hdi2.
  - rewrite Hdk2. apply odd_lor_7.
  - lia.
  - lia.
  - intros l Hl. by rewrite Hz2 by lia.
  - intros f Hf%Hmain. change (Z.of_nat 1024) with 1024. rewrite Hts', Hc2 by done. case_decide as Hd.
    + subst f. rewrite table_sum_zero by done. lia.
    + by apply Hnw.
  - change (Z.of_nat 1024) with 1024 in *.
    exists s'. unfold pte_addr in Hrun. rewrite Hdi2, Hdk2, Hfk, !Z.add_0_r in Hrun.
    split; [done|]. split; [done|]. split; [congruence|]. split; [|split].
    + split; [by rewrite Hd', Hdi2|]. rewrite Hoi. rewrite Hd', Hdk2 by done.
      split; [apply odd_lor_7|]. intros l Hl.
      rewrite !Hp', Hpi2 by (done || lia || (rewrite ?Hdk2, ?Hdi2; apply odd_lor_7 || done)).
      rewrite (decide_False (P := i = k /\ _)), (decide_True (P := i = i /\ _)) by lia.
      split; [|done]. unfold child_entry. case_decide as Hx; [done|].
      rewrite decide_False, Hz2 by lia. destruct (Z.odd (pte (mem s) i l)); [|done].
      exfalso. apply Hx. lia.
    + intros t Ht Hn. destruct (Hu2 t Ht) as [Hdt Hpt]; [tauto|]. split; [by rewrite Hd'|].
      intros Hot l Hl. rewrite Hp' by (done || congruence).
      rewrite !decide_False by tauto. by apply Hpt.
    + intros f Hf. rewrite Hc', Hts', Hc2 by (done || by apply Hmain). done.
Qed.

(** The parent's page tables keep every mapping; only write permission may be lost. *)
Definition parent_kept (m m' : gmap Z Z) (i : Z) : Prop :=
  dirent m' i = dirent m i /\
  (Z.odd (dirent m i) = true -> forall l, 0 <= l < 1024 ->
     pte m' i l = pte m i l \/ pte m' i l = parent_entry (pte m i l)).

Lemma copied_parent_kept m m' i k :
  copied_dir m m' i k -> Z.odd (dirent m i) = true -> parent_kept m m' i.
Proof.
  intros [Hd Hc] Ho. split; [done|]. rewrite Ho in Hc. intros _ l Hl. right. by apply Hc.
Qed.

Lemma untouched_parent_kept m m' i P : untouched m m' P -> user_dir i -> ~ P i -> parent_kept m m' i.
Proof.
  intros Hu Hi Hn. destruct (Hu i Hi Hn) as [Hd Hp]. split; [done|]. intros. left. by apply Hp.
Qed.

Lemma parent_kept_later m m1 m' i (P : Z -> Prop) :
  user_dir i -> parent_kept m m1 i -> untouched m1 m' P -> ~ P i -> parent_kept m m' i.
Proof.
  intros Hi [Hd Hp] Hu Hn. destruct (Hu i Hi Hn) as [Hd1 Hp1]. split; [congruence|].
  intros Ho l Hl. rewrite Hp1 by (done || congruence). by apply Hp.
Qed.

Definition no_wrap (s : mm) (i n : Z) : Prop :=
  forall f, main s f -> cnt s f + sumZ (table_sum (mem s) f) (seqZ i n) <= 255.

(** The result of copying the slots [i, i + n) to [k, k + n). *)
Definition dirs_copied (own : Z -> Z) (s s' : mm) (ok : bool) (i k n : Z) : Prop :=
  wf own s' /\ HIGH_MEMORY s' = HIGH_MEMORY s /\
  untouched (mem s) (mem s') (fun t => i <= t < i + n \/ k <= t < k + n) /\
  (forall t, 0 <= t < n -> parent_kept (mem s) (mem s') (i + t)) /\
  (ok = true -> forall t, 0 <= t < n -> copied_dir (mem s) (mem s') (i + t) (k + t)).

Lemma sumZ_table_sum_nonneg m f l : 0 <= sumZ (table_sum m f) l.
Proof. apply sumZ_nonneg. intros. apply table_sum_le. Qed.

(** The step of the induction over the slots: the first slot was copied, [s1], and the
    rest of the range from there. *)
Lemma dirs_copied_step own s s1 s' ok i k n :
  0 <= n -> user_dir i -> user_dir k -> (i + n < k \/ k + n < i) ->
  i + n < 1024 -> k + n < 1024 ->
  HIGH_MEMORY s1 = HIGH_MEMORY s ->
  untouched (mem s) (mem s1) (fun t => t = i \/ t = k) ->
  copied_dir (mem s) (mem s1) i k -> parent_kept (mem s) (mem s1) i ->
  dirs_copied own s1 s' ok (i + 1) (k + 1) n ->
  dirs_copied own s s' ok i k (n + 1).
Proof.
  intros Hn Hi Hk Hdis Hi' Hk' Hh1 Hu1 Hcd Hpk (W' & Hh' & Hu' & Hpk' & Hok').
  split; [done|]. split; [congruence|]. split; [|split].
  - eapply untouched_mono; [|exact (untouched_trans _ _ _ _ _ Hu1 Hu')]. cbv beta. lia.
  - intros t Ht. destruct (decide (t = 0)) as [->|].
    + rewrite Z.add_0_r. eapply parent_kept_later; [done|done|exact Hu'|blia].
    + replace (i + t) with (i + 1 + (t - 1)) by lia. destruct (Hpk' (t - 1)) as [Hd Hp]; [lia|].
      destruct (Hu1 (i + 1 + (t - 1))) as [Hd1 Hp1]; [unfold user_dir in *; lia|blia|].
      split; [congruence|]. intros Ho l Hl. rewrite <- !(Hp1 Ho l Hl). apply Hp; [congruence|done].
  - intros Hok t Ht. destruct (decide (t = 0)) as [->|].
    + rewrite !Z.add_0_r. eapply copied_dir_later; [done|done|done|exact Hu'|blia|blia].
    + replace (i + t) with (i + 1 + (t - 1)) by lia. replace (k + t) with (k + 1 + (t - 1)) by lia.
      destruct (Hok' Hok (t - 1)) as [Hd Hp]; [lia|].
      destruct (Hu1 (i + 1 + (t - 1))) as [Hd1 Hp1]; [unfold user_dir in *; lia|blia|].
      destruct (Hu1 (k + 1 + (t - 1))) as [Hd2 Hp2]; [unfold user_dir in *; lia|blia|].
      split; [congruence|]. rewrite Hd1 in Hp.
      destruct (Z.odd (dirent (mem s) (i + 1 + (t - 1)))) eqn:Ho; [|congruence].
      destruct Hp as [? Hp]. split; [done|]. intros l Hl. rewrite <- !(Hp1 eq_refl l Hl).
      by apply Hp.
Qed.

Lemma copy_dirs_ok own n i k s from :
  wf own s -> from <> 0 -> FIRST_USER_DIR <= i -> FIRST_USER_DIR <= k ->
  i + Z.of_nat n <= 1024 -> k + Z.of_nat n <= 1024 ->
  (i + Z.of_nat n <= k \/ k + Z.of_nat n <= i) ->
  (forall t, k <= t < k + Z.of_nat n -> Z.odd (dirent (mem s) t) = false) ->
  no_wrap s i (Z.of_nat n) ->
  exists ok s', copy_dirs n from (4 * i) (4 * k) s = (Ret ok, s') /\
    dirs_copied own s s' ok i k (Z.of_nat n).
Proof.
  revert i k s. induction n as [|n IH]; intros i k s W Hfr Hi Hk Hin Hkn Hdis Habs Hnw; cbn [copy_dirs].
  { exists true, s. split; [done|]. split; [done|]. split; [done|]. split; [by intros t Ht _|].
    split; intros; lia. }
  replace (Z.of_nat (S n)) with (Z.of_nat n + 1) in * by lia.
  assert (user_dir i) as Hui by (unfold user_dir; lia).
  assert (user_dir k) as Huk by (unfold user_dir; lia).
  assert (Z.odd (dirent (mem s) k) = false) as Hok by (apply Habs; lia).
  rewrite bind_ldw. fold (dirent (mem s) k). rewrite land_1_odd, Hok.
  rewrite bind_ldw. fold (dirent (mem s) i). rewrite land_1_odd.
  replace (4 * i + 4) with (4 * (i + 1)) by lia. replace (4 * k + 4) with (4 * (k + 1)) by lia.
  rewrite (proj2 (Z.eqb_neq from 0)) by done. change (Z.to_nat 1024) with 1024%nat.
  assert (forall f, main s f -> cnt s f + table_sum (mem s) f i +
    sumZ (table_sum (mem s) f) (seqZ (i + 1) (Z.of_nat n)) <= 255) as Hnw'.
  { intros f Hf. specialize (Hnw f Hf). rewrite sumZ_seqZ_S in Hnw by lia. lia. }
  destruct (Z.odd (dirent (mem s) i)) eqn:Hoi; cbn [negb]; last first.
  { destruct (IH (i + 1) (k + 1) s) as (ok & s' & Hrun & Hres); try done; try lia.
    - intros t Ht. apply Habs. lia.
    - intros f Hf. specialize (Hnw' f Hf). pose proof (table_sum_le (mem s) f i). lia.
    - exists ok, s'. split; [done|]. eapply (dirs_copied_step own s s); try done; try lia.
      + split; [done|]. by rewrite Hoi.
      + split; [done|]. by rewrite Hoi. }
  destruct (get_free_page_cases own s W) as [[Hg _]|(p & Hg & Hm & Hc & _)].
  { mrun Hg. exists false, s. split; [done|]. split; [done|]. split; [done|].
    split; [by intros t _ _|]. split; [|done]. intros t Ht. split; [done|]. intros. by left. }
  mrun Hg. rewrite (proj2 (Z.eqb_neq p 0)) by (destruct Hm; unfold LOW_MEM in *; lia).
  rewrite bind_stw.
  destruct (copy_one_dir own s i k p W Hui Huk ltac:(lia) Hoi Hok Hm Hc)
    as (s1 & Hr1 & W1 & Hh1 & Hcd & Hu1 & Hc1).
  { intros f Hf. specialize (Hnw' f Hf).
    pose proof (sumZ_table_sum_nonneg (mem s) f (seqZ (i + 1) (Z.of_nat n))). lia. }
  mrun Hr1. clear Hr1 Hg.
  assert (forall f, sumZ (table_sum (mem s1) f) (seqZ (i + 1) (Z.of_nat n)) =
    sumZ (table_sum (mem s) f) (seqZ (i + 1) (Z.of_nat n))) as Hts.
  { intros f. apply sumZ_ext. intros t Ht%elem_of_seqZ_iff.
    eapply table_sum_untouched; [exact Hu1|unfold user_dir; lia|blia]. }
  destruct (IH (i + 1) (k + 1) s1) as (ok & s' & Hrun & Hres); try done; try lia.
  - intros t Ht. destruct (Hu1 t) as [Hd _]; [unfold user_dir in *; lia|blia|].
    rewrite Hd. apply Habs. lia.
  - intros f Hf. unfold main in Hf. rewrite Hh1 in Hf. rewrite Hts, Hc1 by done.
    case_decide as Hd; [|by apply Hnw']. subst f.
    destruct (cnt_free_no_refs own s p W Hm Hc) as [Hr _].
    rewrite table_sum_zero by done. rewrite sumZ_zero; [lia|].
    intros t Ht%elem_of_seqZ_iff. apply table_sum_zero; [unfold user_dir; lia|done].
  - exists ok, s'. split; [done|]. eapply (dirs_copied_step own s s1); try done; try lia.
    by apply (copied_parent_kept _ _ i k).
Qed.

(** Copying the page tables of a user address range keeps every page count right,
    whether it succeeds or runs out of memory half way. *)
Lemma copy_page_tables_cases own s from to size (n := nr_dirs size) :
  wf own s -> 0 <= from < 4294967296 -> 0 <= to < 4294967296 ->
  from mod 4194304 = 0 -> to mod 4194304 = 0 ->
  FIRST_USER_DIR <= dir_ix from -> FIRST_USER_DIR <= dir_ix to ->
  dir_ix from + n <= 1024 -> dir_ix to + n <= 1024 ->
  (dir_ix from + n <= dir_ix to \/ dir_ix to + n <= dir_ix from) ->
  (forall t, dir_ix to <= t < dir_ix to + n -> Z.odd (dirent (mem s) t) = false) ->
  no_wrap s (dir_ix from) n ->
  exists r s', copy_page_tables from to size s = (Ret r, s') /\ (r = 0 \/ r = -1) /\
    dirs_copied own s s' (r =? 0) (dir_ix from) (dir_ix to) n.
Proof.
  intros W Hf Ht Hfa Hta Hfl Htl Hfn Htn Hdis Habs Hnw. unfold copy_page_tables.
  rewrite !aligned_4M by done. cbn [orb]. fold (nr_dirs size). fold n.
  pose proof (nr_dirs_nonneg size) as Hnn. fold n in Hnn. rewrite !dir_addr by done.
  destruct (copy_dirs_ok own (Z.to_nat n) (dir_ix from) (dir_ix to) s from)
    as (ok & s' & Hrun & Hres); rewrite ?Z2Nat.id by done; try done.
  { intros ->. change (dir_ix 0) with 0 in Hfl. unfold FIRST_USER_DIR in Hfl. lia. }
  rewrite Z2Nat.id in Hres by done. mrun Hrun. destruct ok.
  - eexists 0, _. split; [reflexivity|]. split; [by left|].
    destruct Hres as ([] & Hrest). split; [by split|done].
  - exists (-1), s'. split; [done|]. split; [by right|done].
Qed.

(** [get_free_page] returns the highest frame whose count is 0, with its count set
    to 1 and its contents cleared, or 0 when no frame of main memory is free. *)
Lemma get_free_page_spec own s :
  wf own s ->
  exists p s', get_free_page s = (Ret p, s') /\
    ((p = 0 /\ s' = s /\ forall f, main s f -> cnt s f <> 0) \/
     (main s p /\ cnt s p = 0 /\ (forall f, main s f -> p < f -> cnt s f <> 0) /\
      cnt s' p = 1 /\ (forall j, 0 <= j < 1024 -> ld (mem s') (p + 4 * j) = 0) /\
      (forall a, ~ (p <= a < p + 4096) -> ld (mem s') a = ld (mem s) a) /\
      (forall f, main s f -> f <> p -> cnt s' f = cnt s f) /\
      wf (bump own p 1) s')).
Proof.
  intros W. destruct (get_free_page_cases own s W) as [[Hg Hn]|(p & Hg & Hm & Hc & Hmax)].
  - exists 0, s. auto.
  - exists p, (alloc_state s p). split; [done|]. right. clear Hg.
    split; [done|]. split; [done|]. split; [done|].
    assert (forall f, main s f -> cnt (alloc_state s p) f = if decide (f = p) then 1 else cnt s f)
      as Hcnt by (intros f Hf; by apply (cnt_insert own s)).
    split; [by rewrite Hcnt, decide_True|].
    split; [intros j Hj; exact (stosl_page_zero p j (mem s) Hj)|].
    split; [intros a Ha; exact (stosl_page_other p a (mem s) Ha)|].
    split; [intros f Hf Hne; by rewrite Hcnt, decide_False|].
    by apply alloc_wf.
Qed.
