(* ===== verification/MemoryFault.v ===== *)
(** Mapping a page and the page-fault handlers of [mm/memory.c]: [put_page],
    [get_empty_page], [un_wp_page], [do_wp_page], [write_verify] and [mem_init]. *)

From S2P Require Import Prelude Memory MemoryInv MemoryOps.

(** The page-table entry a linear address translates through, if it is present. *)
Definition xlate (m : gmap Z Z) (a : Z) : option Z :=
  if Z.odd (dirent m (dir_ix a)) && Z.odd (pte m (dir_ix a) (tbl_ix a))
  then Some (pte m (dir_ix a) (tbl_ix a)) else None.

(** A linear address of a user address space. *)
Definition user_addr (a : Z) : Prop := 0 <= a < 4294967296 /\ user_dir (dir_ix a).

Definition same_slot (a b : Z) : Prop := dir_ix a = dir_ix b /\ tbl_ix a = tbl_ix b.

Lemma xlate_untouched m m' (P : Z -> Prop) b :
  untouched m m' P -> user_addr b -> ~ P (dir_ix b) -> xlate m' b = xlate m b.
Proof.
  intros Hu [_ Hb] Hn. destruct (Hu _ Hb Hn) as [Hd Hp]. unfold xlate. rewrite Hd.
  destruct (Z.odd (dirent m (dir_ix b))) eqn:Ho; [|done]. simpl.
  by rewrite Hp by (done || apply tbl_ix_range).
Qed.

(** Translation after one page-table entry was overwritten. *)
Lemma xlate_write_pte own s a v b :
  wf own s -> user_addr a -> user_addr b -> Z.odd (dirent (mem s) (dir_ix a)) = true ->
  Z.odd v = true ->
  (same_slot a b -> xlate (<[pte_addr (mem s) (dir_ix a) (tbl_ix a) := v]> (mem s)) b = Some v) /\
  (~ same_slot a b -> xlate (<[pte_addr (mem s) (dir_ix a) (tbl_ix a) := v]> (mem s)) b = xlate (mem s) b).
Proof.
  intros W [_ Ha] [_ Hb] Ho Hv. pose proof (tbl_ix_range a). pose proof (tbl_ix_range b).
  unfold same_slot, xlate. rewrite (write_pte_dirent own) by done. split.
  - intros [<- <-]. rewrite Ho, (write_pte_pte own), decide_True by done. by rewrite Hv.
  - intros Hne. destruct (Z.odd (dirent (mem s) (dir_ix b))) eqn:Hob; [|done].
    rewrite (write_pte_pte own), decide_False by (done || intros [??]; apply Hne; auto). done.
Qed.

(** ** put_page *)

(** Entering a page the caller holds into an empty slot. *)
Lemma wf_put_pte own s i j page :
  wf own s -> user_dir i -> Z.odd (dirent (mem s) i) = true -> 0 <= j < 1024 ->
  Z.odd (pte (mem s) i j) = false -> main s page -> 1 <= own page ->
  wf (bump own page (-1)) (s <| mem ::= <[pte_addr (mem s) i j := Z.lor page 7]> |>).
Proof.
  intros W Hi Ho Hj Hp Hm Hown. pose proof (wf_high own s W).
  assert (frame (Z.lor page 7) = page) as Hf.
  { apply frame_lor; [apply Hm| |lia]. destruct Hm. unfold LOW_MEM in *. lia. }
  apply (wf_write_pte own _ s _ i j (Z.lor page 7)); try done.
  - apply (wf_byte own s W).
  - apply (wf_top own s W).
  - rewrite Hf. intros _. apply Hm.
  - intros k Hk Hok. exact (proj2 (wf_dir own s W k Hk Hok)).
  - intros f. unfold bump. pose proof (wf_own own s W f). destruct (Z.eqb_spec f page) as [->|]; lia.
  - intros f Hf'. rewrite (names_even _ (pte (mem s) i j)), names_eq, Hf by (done || apply odd_lor_7).
    unfold bump, cnt; simpl. rewrite (Z.eqb_sym page f). destruct (f =? page); simpl; lia.
Qed.

(** The words of a page the kernel holds are in no page table. *)
Lemma outside_table own s i j page :
  wf own s -> user_dir i -> Z.odd (dirent (mem s) i) = true -> 0 <= j < 1024 ->
  main s page -> own page <> 0 ->
  pte_addr (mem s) i j < page \/ page + 4096 <= pte_addr (mem s) i j.
Proof.
  intros W Hi Ho Hj [Hal Hr] Hown. pose proof (wf_own_table own s i W Hi Ho) as H0.
  assert (frame (dirent (mem s) i) <> page) by (intros He; rewrite He in H0; lia).
  unfold pte_addr. pose proof (frame_aligned (dirent (mem s) i)).
  pose proof (Z_div_mod_eq_full (frame (dirent (mem s) i)) 4096).
  pose proof (Z_div_mod_eq_full page 4096). lia.
Qed.

Lemma alloc_link_page s k p page x :
  main s p -> main s page -> p <> page -> user_dir k -> page <= x < page + 4096 ->
  ld (mem ((alloc_state s p) <| mem ::= <[4 * k := Z.lor p 7]> |>)) x = ld (mem s) x.
Proof.
  intros [Ha Hp] [Ha' Hpg] Hne Hk Hx. pose proof (Z_div_mod_eq_full p 4096).
  pose proof (Z_div_mod_eq_full page 4096). unfold LOW_MEM, user_dir in *.
  transitivity (ld (mem (alloc_state s p)) x); [apply ld_insert_ne; lia|].
  apply (stosl_page_other p x (mem s)). lia.
Qed.

(** The page table that [put_page] finds or allocates. *)
Lemma put_page_run own s page a :
  wf own s -> user_addr a -> main s page -> cnt s page = 1 ->
  put_page page a s =
  if Z.odd (dirent (mem s) (dir_ix a)) then
    (Ret page, s <| mem ::= <[pte_addr (mem s) (dir_ix a) (tbl_ix a) := Z.lor page 7]> |>)
  else match get_free_page s with
       | (Ret p, s1) =>
           if p =? 0 then (Ret 0, s1) else
           (Ret page, s1 <| mem ::= <[4 * dir_ix a := Z.lor p 7]> |>
                         <| mem ::= <[p + 4 * tbl_ix a := Z.lor page 7]> |>)
       | (Panic e, s1) => (Panic e, s1)
       | (Exit c, s1) => (Exit c, s1)
       | (Undef w, s1) => (Undef w, s1)
       | (NoFuel, s1) => (NoFuel, s1)
       end.
Proof.
  intros W [Har Ha] Hm Hc. pose proof (wf_high own s W). pose proof Hm as [_ [Hlo Hhi]].
  unfold put_page. rewrite bind_gets. rewrite u32_small by (unfold LOW_MEM in *; lia).
  rewrite (proj2 (Z.ltb_ge _ _)), (proj2 (Z.leb_gt _ _)) by done.
  cbn [orb when]. rewrite bind_ret. rewrite (map_nr_main own s page W Hm).
  mrun (get_map_main own s s page W Hm eq_refl). rewrite Hc. cbn [Z.eqb Pos.eqb negb when].
  rewrite bind_ret, dir_addr, bind_ldw by done. fold (dirent (mem s) (dir_ix a)).
  rewrite land_1_odd', tbl_slot. destruct (Z.odd (dirent (mem s) (dir_ix a))); [done|].
  rewrite bind_assoc. unfold mbind at 1, M_bind at 1.
  destruct (get_free_page s) as [[p| | | |] s1]; try done. by destruct (p =? 0).
Qed.

(** [put_page] maps a page its caller holds at an unmapped user address: the address
    then translates to that page, writable, with its contents; every other address
    translates as before; the caller's reference has become the page table's.  It fails
    (returning 0) only if no frame is free for a page table, and then changes nothing. *)
Lemma put_page_cases own s page a :
  wf own s -> user_addr a -> main s page -> cnt s page = 1 -> own page = 1 ->
  xlate (mem s) a = None ->
  exists r s', put_page page a s = (Ret r, s') /\
    ((r = 0 /\ s' = s /\ forall f, main s f -> cnt s f <> 0) \/
     (r = page /\ wf (bump own page (-1)) s' /\
      xlate (mem s') a = Some (Z.lor page 7) /\ HIGH_MEMORY s' = HIGH_MEMORY s /\
      (forall x, page <= x < page + 4096 -> ld (mem s') x = ld (mem s) x) /\
      forall b, user_addr b -> ~ same_slot a b -> xlate (mem s') b = xlate (mem s) b)).
Proof.
  intros W Ha Hm Hc Hown Hx. rewrite (put_page_run own) by done.
  pose proof (tbl_ix_range a) as Hj. pose proof Ha as [_ Hui].
  destruct (Z.odd (dirent (mem s) (dir_ix a))) eqn:Ho.
  - eexists page, _. split; [reflexivity|]. right. split; [done|].
    assert (Z.odd (pte (mem s) (dir_ix a) (tbl_ix a)) = false) as Hp.
    { unfold xlate in Hx. rewrite Ho in Hx. by destruct (Z.odd (pte _ _ _)). }
    split; [apply wf_put_pte; done || lia|]. simpl. split; [|split; [done|split]].
    + by apply (xlate_write_pte own s a (Z.lor page 7) a W Ha Ha Ho (odd_lor_7 _)).
    + intros x Hx'. apply ld_insert_ne.
      pose proof (outside_table own s (dir_ix a) (tbl_ix a) page W Hui Ho Hj Hm ltac:(lia)). lia.
    + intros b Hb Hne.
      by apply (xlate_write_pte own s a (Z.lor page 7) b W Ha Hb Ho (odd_lor_7 _)).
  - destruct (get_free_page_cases own s W) as [[Hg Hn]|(p & Hg & Hpm & Hpc & _)]; rewrite Hg.
    { exists 0, s. auto. }
    rewrite (proj2 (Z.eqb_neq p 0)) by (destruct Hpm; unfold LOW_MEM in *; lia). clear Hg.
    eexists page, _. split; [reflexivity|]. right. split; [done|].
    destruct (alloc_link own s (dir_ix a) p W Hui Ho Hpm Hpc) as (W2 & Hd2 & Hf2 & Hz2 & Hu2 & Hc2).
    set (s2 := (alloc_state s p) <| mem ::= <[4 * dir_ix a := Z.lor p 7]> |>) in *.
    assert (forall f, main s f <-> main s2 f) as Hmain by done.
    assert (HIGH_MEMORY s2 = HIGH_MEMORY s) as Hh2 by done.
    assert (forall x, page <= x < page + 4096 -> ld (mem s2) x = ld (mem s) x) as Hpg.
    { intros x Hx'. refine (alloc_link_page s (dir_ix a) p page x Hpm Hm _ Hui Hx'). intros ->. lia. }
    clearbody s2.
    assert (p + 4 * tbl_ix a = pte_addr (mem s2) (dir_ix a) (tbl_ix a)) as ->
      by (unfold pte_addr; by rewrite Hd2, Hf2).
    assert (Z.odd (dirent (mem s2) (dir_ix a)) = true) as Ho2 by (rewrite Hd2; apply odd_lor_7).
    split; [apply wf_put_pte; try done; [by rewrite Hz2|by apply Hmain|lia]|]. simpl. split; [|split; [done|split]].
    + by apply (xlate_write_pte own s2 a (Z.lor page 7) a W2 Ha Ha Ho2 (odd_lor_7 _)).
    + intros x Hx'. rewrite ld_insert_ne; [by apply Hpg|].
      pose proof (outside_table own s2 (dir_ix a) (tbl_ix a) page W2 Hui Ho2 Hj
        (proj1 (Hmain page) Hm) ltac:(lia)). lia.
    + intros b Hb Hne.
      rewrite (proj2 (xlate_write_pte own s2 a (Z.lor page 7) b W2 Ha Hb Ho2 (odd_lor_7 _)) Hne).
      destruct (decide (dir_ix b = dir_ix a)) as [He|Hd].
      * unfold xlate. rewrite He, Ho, Hz2, andb_false_r by apply tbl_ix_range. done.
      * by apply (xlate_untouched _ _ (fun t => t = dir_ix a)).
Qed.

(** ** Copy on write *)

(** [mem_map[MAP_NR(old)]--] for a frame of main memory, nothing for a lower one. *)
Definition drop_count (s : mm) (old : Z) : mm :=
  if LOW_MEM <=? old then s <| mem_map ::= <[idx old := cnt s old - 1]> |> else s.

(** A present entry is replaced by one for the page [p] its caller holds, and the old
    frame loses a reference. *)
Lemma wf_replace own s i j p (old := frame (pte (mem s) i j)) :
  wf own s -> user_dir i -> Z.odd (dirent (mem s) i) = true -> 0 <= j < 1024 ->
  Z.odd (pte (mem s) i j) = true -> main s p -> 1 <= own p -> old <> p ->
  wf (bump own p (-1)) ((drop_count s old) <| mem ::= <[pte_addr (mem s) i j := Z.lor p 7]> |>).
Proof.
  intros W Hi Ho Hj Hp Hm Hown Hop.
  assert (frame (Z.lor p 7) = p) as Hfp.
  { apply frame_lor; [apply Hm| |lia]. pose proof (wf_high own s W). destruct Hm. unfold LOW_MEM in *. lia. }
  assert (forall f, main s f -> cnt (drop_count s old) f =
    if decide (f = old) then cnt s old - 1 else cnt s f) as Hcr.
  { intros f Hf. unfold drop_count. destruct (Z.leb_spec LOW_MEM old) as [Hl|Hl].
    - destruct (wf_pte_cnt own s i j W Hi Ho Hj Hp Hl) as [Hmo _]. by apply (cnt_insert own s).
    - rewrite decide_False by (destruct Hf; lia). done. }
  assert (length (mem_map (drop_count s old)) = length (mem_map s) /\
    Forall (fun c => 0 <= c < 256) (mem_map (drop_count s old)) /\
    (forall k : nat, (HIGH_MEMORY s - LOW_MEM) / 4096 <= Z.of_nat k ->
       mem_map (drop_count s old) !! k <> Some 0)) as (Hl & Hb & Ht).
  { unfold drop_count. destruct (Z.leb_spec LOW_MEM old) as [Hl|Hl].
    - destruct (wf_pte_cnt own s i j W Hi Ho Hj Hp Hl) as [Hmo Hco].
      pose proof (cnt_byte own s old W Hmo). apply (map_update own s old _ W Hmo). fold old in Hco. lia.
    - split; [done|]. split; [apply (wf_byte own s W)|apply (wf_top own s W)]. }
  assert (HIGH_MEMORY (drop_count s old) = HIGH_MEMORY s) as Hh
    by (unfold drop_count; by case_match).
  apply (wf_write_pte own _ s _ i j (Z.lor p 7)); try done.
  - unfold drop_count. by case_match.
  - rewrite Hfp. intros _. apply Hm.
  - intros k Hk Hok. destruct (wf_dir _ s W k Hk Hok) as [Hmk Hck].
    transitivity (cnt (drop_count s old) (frame (dirent (mem s) k))); [done|].
    rewrite Hcr, decide_False; [done| |done]. symmetry. by eapply wf_pte_not_table.
  - intros f. unfold bump. pose proof (wf_own own s W f). destruct (Z.eqb_spec f p) as [->|]; lia.
  - intros f Hf. transitivity (cnt (drop_count s old) f); [done|].
    rewrite Hcr, names_eq, names_eq, Hfp by (done || apply odd_lor_7). fold old. unfold bump.
    rewrite (Z.eqb_sym p f). destruct (decide (f = old)) as [->|].
    + rewrite Z.eqb_refl, (proj2 (Z.eqb_neq old p)) by done. simpl. lia.
    + rewrite (proj2 (Z.eqb_neq old f)) by done. destruct (f =? p); simpl; lia.
Qed.

(** Copying a page into a mapped frame that is no page table. *)
Lemma wf_copy_page own s i j from (p := frame (pte (mem s) i j)) :
  wf own s -> user_dir i -> Z.odd (dirent (mem s) i) = true -> 0 <= j < 1024 ->
  Z.odd (pte (mem s) i j) = true -> main s p ->
  wf own (s <| mem ::= movsl 1024 from p |>) /\
  untouched (mem s) (movsl 1024 from p (mem s)) (fun _ => False).
Proof.
  intros W Hi Ho Hj Hp Hm.
  assert (same_tables (mem s) (movsl 1024 from p (mem s))) as Hs.
  { apply (same_tables_outside own s _ p W Hm).
    - intros k Hk Hok Heq. eapply (wf_pte_not_table own s i j k); try done.
    - intros a Ha. apply movsl_out. intros k Hk. lia. }
  split.
  - apply (wf_same_tables own own s); try done; try apply W.
  - intros k Hk _. split; [by apply Hs|]. intros. by apply same_tables_pte.
Qed.

Section UnWpPage.
Context (own : Z -> Z) (s : mm) (i j : Z).
Hypothesis W : wf own s.
Hypothesis Hi : user_dir i.
Hypothesis Ho : Z.odd (dirent (mem s) i) = true.
Hypothesis Hj : 0 <= j < 1024.
Hypothesis Hp : Z.odd (pte (mem s) i j) = true.

Let ea := pte_addr (mem s) i j.
Let old := frame (pte (mem s) i j).

(** The result of [un_wp_page] on the entry at [ea]. *)
Definition unshared (s' : mm) : Prop :=
  exists e', wf own s' /\
    (forall t, user_dir t -> dirent (mem s') t = dirent (mem s) t) /\
    (forall t l, user_dir t -> Z.odd (dirent (mem s) t) = true -> 0 <= l < 1024 ->
       pte (mem s') t l = if decide (t = i /\ l = j) then e' else pte (mem s) t l) /\
    Z.odd e' = true /\ Z.testbit e' 1 = true /\ main s' (frame e') /\ cnt s' (frame e') = 1 /\
    (forall w, 0 <= w < 1024 -> ld (mem s') (frame e' + 4 * w) = ld (mem s) (old + 4 * w)) /\
    (forall a, a <> ea -> ~ (frame e' <= a < frame e' + 4096) -> ld (mem s') a = ld (mem s) a).

Lemma testbit_lor_2 e : Z.testbit (Z.lor e 2) 1 = true.
Proof. rewrite Z.lor_spec. apply orb_true_r. Qed.

Lemma testbit_lor_7 e : Z.testbit (Z.lor e 7) 1 = true.
Proof. rewrite Z.lor_spec. apply orb_true_r. Qed.

Lemma not_in_table w : 0 <= w < 1024 -> old + 4 * w <> ea.
Proof.
  intros Hw. unfold ea, pte_addr.
  assert (old <> frame (dirent (mem s) i)) by (by eapply wf_pte_not_table).
  pose proof (frame_aligned (dirent (mem s) i)). pose proof (frame_aligned (pte (mem s) i j)) as Hal.
  change (frame (pte (mem s) i j)) with old in Hal.
  pose proof (Z_div_mod_eq_full (frame (dirent (mem s) i)) 4096).
  pose proof (Z_div_mod_eq_full old 4096). lia.
Qed.

(** Sole owner: the entry is made writable in place. *)
Lemma unshare_sole :
  main s old -> cnt s old = 1 -> unshared (s <| mem ::= <[ea := Z.lor (pte (mem s) i j) 2]> |>).
Proof.
  intros Hm Hc. exists (Z.lor (pte (mem s) i j) 2).
  rewrite frame_lor_2. fold old. split; [|split; [|split; [|split; [|split; [|split; [|split; [|split]]]]]]].
  - apply wf_pte_flags; try done; [apply odd_lor_2|apply frame_lor_2].
  - intros t Ht. by apply (write_pte_dirent own).
  - intros. by apply (write_pte_pte own).
  - by rewrite odd_lor_2.
  - apply testbit_lor_2.
  - done.
  - done.
  - intros w Hw. apply ld_insert_ne. symmetry. by apply not_in_table.
  - intros a Ha _. by apply ld_insert_ne.
Qed.

(** The last step of the copying case: the entry names the fresh page [p] and the old
    page is copied into it. *)
Lemma unshare_finish p sr :
  wf own sr -> main sr p -> cnt sr p = 1 -> old <> p ->
  (forall t, user_dir t -> dirent (mem sr) t = dirent (mem s) t) ->
  (forall t l, user_dir t -> Z.odd (dirent (mem s) t) = true -> 0 <= l < 1024 ->
     pte (mem sr) t l = if decide (t = i /\ l = j) then Z.lor p 7 else pte (mem s) t l) ->
  (forall a, a <> ea -> ~ (p <= a < p + 4096) -> ld (mem sr) a = ld (mem s) a) ->
  unshared (sr <| cr3_loads ::= Z.succ |> <| mem ::= movsl 1024 old p |>).
Proof.
  intros Wr Hm Hc Hop Hd Hpt Hld. pose proof (wf_high own sr Wr). exists (Z.lor p 7).
  assert (frame (Z.lor p 7) = p) as Hfp.
  { apply frame_lor; [apply Hm| |lia]. destruct Hm. unfold LOW_MEM in *. lia. }
  assert (pte (mem sr) i j = Z.lor p 7) as Hpij by (by rewrite Hpt, decide_True).
  assert (wf own (sr <| cr3_loads ::= Z.succ |>)) as Wc by (destruct Wr; by split).
  destruct (wf_copy_page own (sr <| cr3_loads ::= Z.succ |>) i j old Wc Hi) as [W' Hu]; simpl in *.
  1-4: rewrite ?Hpij, ?Hfp, ?Hd by done; done || apply odd_lor_7.
  rewrite Hpij, Hfp in *. clear Wc.
  assert (old mod 4096 = 0) as Hal by apply frame_aligned. pose proof Hm as [Hal' _].
  pose proof (Z_div_mod_eq_full old 4096). pose proof (Z_div_mod_eq_full p 4096).
  split; [exact W'|]. split; [|split; [|split; [|split; [|split; [|split; [|split]]]]]].
  - intros t Ht. rewrite <- Hd by done. exact (proj1 (Hu t Ht (fun f => f))).
  - intros t l Ht Hot Hl. rewrite <- Hpt by done. apply (Hu t Ht (fun f => f)); [by rewrite Hd|done].
  - apply odd_lor_7.
  - apply testbit_lor_7.
  - done.
  - done.
  - intros w Hw. simpl. rewrite movsl_in by lia.
    apply Hld; [by apply not_in_table|]. lia.
  - intros a Ha Hna. simpl. rewrite movsl_out by (intros; lia). by apply Hld.
Qed.

(** Shared, or below main memory: the page is copied into a fresh frame. *)
Lemma unshare_copy p
    (s2 := (drop_count (alloc_state s p) old) <| mem ::= <[ea := Z.lor p 7]> |>) :
  main s p -> cnt s p = 0 ->
  unshared (s2 <| cr3_loads ::= Z.succ |> <| mem ::= movsl 1024 old p |>).
Proof.
  intros Hm Hc. pose proof (alloc_wf own s p W Hm Hc) as Wa.
  destruct (cnt_free_no_refs own s p W Hm Hc) as [_ Hown].
  pose proof (alloc_untouched own s p W Hm Hc) as Hua.
  assert (forall a, ~ (p <= a < p + 4096) -> ld (mem (alloc_state s p)) a = ld (mem s) a) as Hout
    by (intros a Ha; exact (stosl_page_other p a (mem s) Ha)).
  assert (forall f, main s f -> cnt (alloc_state s p) f = if decide (f = p) then 1 else cnt s f) as Hca
    by (intros f Hf; by apply (cnt_insert own s)).
  assert (forall f, main s f <-> main (alloc_state s p) f) as Hmain by done.
  unfold s2. clear s2. set (sa := alloc_state s p) in *. clearbody sa.
  assert (forall t, user_dir t -> dirent (mem sa) t = dirent (mem s) t) as Hda
    by (intros t Ht; exact (proj1 (Hua t Ht (fun f => f)))).
  assert (forall t l, user_dir t -> Z.odd (dirent (mem s) t) = true -> 0 <= l < 1024 ->
    pte (mem sa) t l = pte (mem s) t l) as Hpa
    by (intros t l Ht Hot Hl; exact (proj2 (Hua t Ht (fun f => f)) Hot l Hl)).
  assert (ea = pte_addr (mem sa) i j) as Hea by (unfold ea, pte_addr; by rewrite Hda).
  assert (old <> p) as Hop.
  { intros Heq. assert (LOW_MEM <= old) as Hl by (rewrite Heq; apply Hm).
    destruct (wf_pte_cnt own s i j W Hi Ho Hj Hp Hl) as [_ H1].
    change (frame (pte (mem s) i j)) with old in H1. rewrite Heq in H1. lia. }
  pose proof (wf_replace (bump own p 1) sa i j p Wa Hi) as Wr.
  rewrite Hda, Hpa in Wr by done. fold old in Wr. rewrite <- Hea in Wr.
  specialize (Wr Ho Hj Hp (proj1 (Hmain p) Hm) ltac:(unfold bump; rewrite Z.eqb_refl; lia) Hop).
  apply (wf_ext _ own) in Wr; [|intros f; unfold bump; destruct (f =? p); lia].
  assert (mem (drop_count sa old) = mem sa) as Hmd by (unfold drop_count; by case_match).
  assert (cnt (drop_count sa old) p = 1) as Hcp.
  { transitivity (cnt sa p); [|by rewrite Hca, decide_True]. unfold drop_count.
    destruct (Z.leb_spec LOW_MEM old) as [Hl|Hl]; [|done].
    destruct (wf_pte_cnt own s i j W Hi Ho Hj Hp Hl) as [Hmo _].
    erewrite (cnt_insert (bump own p 1) sa _ old (cnt sa old - 1) p Wa (proj1 (Hmain old) Hmo)
      (proj1 (Hmain p) Hm)); [|reflexivity]. rewrite decide_False by (symmetry; done). done. }
  assert (main (drop_count sa old) p) as Hmp by (unfold drop_count; case_match; by apply Hmain).
  apply unshare_finish; try done; simpl; rewrite Hmd, Hea.
  - intros t Ht. rewrite (write_pte_dirent _ _ _ _ _ _ Wa) by (done || by rewrite Hda). by apply Hda.
  - intros t l Ht Hot Hl.
    rewrite (write_pte_pte _ _ _ _ _ _ _ Wa) by (done || by rewrite Hda).
    by rewrite Hpa.
  - intros a Ha Hna. rewrite ld_insert_ne by done. by apply Hout.
Qed.
End UnWpPage.

Lemma drop_count_run own s i j :
  wf own s -> user_dir i -> Z.odd (dirent (mem s) i) = true -> 0 <= j < 1024 ->
  Z.odd (pte (mem s) i j) = true ->
  (if LOW_MEM <=? frame (pte (mem s) i j) then
     c ← get_map (MAP_NR (frame (pte (mem s) i j)));
     set_map (MAP_NR (frame (pte (mem s) i j))) (u8 (c - 1))
   else mret tt) s = (Ret tt, drop_count s (frame (pte (mem s) i j))).
Proof.
  intros W Hi Ho Hj Hp. unfold drop_count. destruct (Z.leb_spec LOW_MEM (frame (pte (mem s) i j))) as [Hl|]; [|done].
  destruct (wf_pte_cnt own s i j W Hi Ho Hj Hp Hl) as [Hm Hc].
  rewrite (map_nr_main own s _ W Hm). mrun (get_map_main own s s _ W Hm eq_refl).
  pose proof (cnt_byte own s _ W Hm). rewrite u8_small by lia.
  by rewrite (set_map_main own s s _ _ W Hm).
Qed.

Lemma un_wp_page_ok own s i j :
  wf own s -> user_dir i -> Z.odd (dirent (mem s) i) = true -> 0 <= j < 1024 ->
  Z.odd (pte (mem s) i j) = true ->
  (exists s', un_wp_page (pte_addr (mem s) i j) s = (Ret tt, s') /\ unshared own s i j s') \/
  (exists s', un_wp_page (pte_addr (mem s) i j) s = (Exit SIGSEGV, s') /\
     mem s' = mem s /\ mem_map s' = mem_map s /\ forall f, main s f -> cnt s f <> 0).
Proof.
  intros W Hi Ho Hj Hp. unfold un_wp_page. rewrite bind_ldw. fold (pte (mem s) i j).
  fold (frame (pte (mem s) i j)). set (old := frame (pte (mem s) i j)).
  assert ((if LOW_MEM <=? old then get_map (MAP_NR old) else mret 0) s =
    (Ret (if LOW_MEM <=? old then cnt s old else 0), s)) as Hg.
  { destruct (Z.leb_spec LOW_MEM old) as [Hl|]; [|done].
    destruct (wf_pte_cnt own s i j W Hi Ho Hj Hp Hl) as [Hm Hc]. fold old in Hm.
    rewrite (map_nr_main own s old W Hm). by apply (get_map_main own). }
  mrun Hg. clear Hg. destruct ((LOW_MEM <=? old) && _) eqn:Hb.
  { apply andb_true_iff in Hb as [Hl%Z.leb_le H1]. rewrite (proj2 (Z.leb_le _ _) Hl) in H1.
    apply Z.eqb_eq in H1. left. eexists. split; [reflexivity|].
    destruct (wf_pte_cnt own s i j W Hi Ho Hj Hp Hl) as [Hm _].
    destruct (unshare_sole own s i j W Hi Ho Hj Hp Hm H1) as (e' & Wu & Hu). exists e'.
    split; [by destruct Wu|exact Hu]. }
  destruct (get_free_page_cases own s W) as [[Hf Hn]|(p & Hf & Hpm & Hpc & _)]; mrun Hf.
  { right. eexists. split; [reflexivity|]. auto. }
  clear Hf. rewrite (proj2 (Z.eqb_neq p 0)) by (destruct Hpm; unfold LOW_MEM in *; lia). left.
  destruct (alloc_untouched own s p W Hpm Hpc i Hi) as [Hda Hpa]; [tauto|].
  pose proof (drop_count_run (bump own p 1) (alloc_state s p) i j (alloc_wf own s p W Hpm Hpc) Hi) as Hd.
  rewrite Hda, (Hpa Ho j Hj) in Hd. fold old in Hd. specialize (Hd Ho Hj Hp). mrun Hd.
  eexists. split; [reflexivity|]. by apply unshare_copy.
Qed.

(** C3: Copy on write.  A write fault at a mapped user address either ends the task for
    lack of memory, changing no page table, or returns with the address mapped to a
    frame nobody else references, writable and with the old contents; every other
    address keeps its mapping, and no word outside that frame and that entry changes,
    so no other task sees a difference. *)
Theorem do_wp_page_ok own s code a e :
  wf own s -> user_addr a -> xlate (mem s) a = Some e ->
  (exists s' e', do_wp_page code a s = (Ret tt, s') /\ wf own s' /\
     xlate (mem s') a = Some e' /\ Z.testbit e' 1 = true /\ cnt s' (frame e') = 1 /\
     (forall w, 0 <= w < 1024 -> ld (mem s') (frame e' + 4 * w) = ld (mem s) (frame e + 4 * w)) /\
     (forall b, user_addr b -> ~ same_slot a b -> xlate (mem s') b = xlate (mem s) b) /\
     (forall x, x <> pte_addr (mem s) (dir_ix a) (tbl_ix a) ->
        ~ (frame e' <= x < frame e' + 4096) -> ld (mem s') x = ld (mem s) x)) \/
  (exists s', do_wp_page code a s = (Exit SIGSEGV, s') /\
     mem s' = mem s /\ mem_map s' = mem_map s /\ forall f, main s f -> cnt s f <> 0).
Proof.
  intros W [Har Hu] Hx. pose proof (tbl_ix_range a) as Hj. unfold xlate in Hx.
  destruct (Z.odd (dirent (mem s) (dir_ix a))) eqn:Ho; [|done].
  destruct (Z.odd (pte (mem s) (dir_ix a) (tbl_ix a))) eqn:Hp; [|done].
  cbn [andb] in Hx. injection Hx as <-.
  unfold do_wp_page. rewrite dir_addr, bind_ldw, tbl_addr by done.
  fold (dirent (mem s) (dir_ix a)). fold (frame (dirent (mem s) (dir_ix a))). rewrite Z.add_comm.
  destruct (un_wp_page_ok own s (dir_ix a) (tbl_ix a) W Hu Ho Hj Hp)
    as [(s' & Hrun & e' & W' & Hd & Hpt & Hoe & Hw & Hm & Hc & Hcopy & Hout)|Hex]; [left|by right].
  exists s', e'. split; [done|]. split; [done|].
  split; [unfold xlate; by rewrite Hd, Ho, Hpt, decide_True, Hoe by done|].
  split; [done|]. split; [done|]. split; [done|]. split; [|done].
  intros b [_ Hb] Hne. unfold xlate. rewrite Hd by done.
  destruct (Z.odd (dirent (mem s) (dir_ix b))) eqn:Hob; [|done].
  rewrite Hpt, decide_False by (done || apply tbl_ix_range || unfold same_slot in Hne; naive_solver).
  done.
Qed.
