(* ===== verification/MemoryInit.v ===== *)
(** [mem_init] establishes the page-count invariant, [get_empty_page] maps a cleared
    page, and a booted machine with one mapped page on which the theorems of
    [MemoryOps] and [MemoryFault] apply. *)

From S2P Require Import Prelude Memory MemoryInv MemoryOps MemoryFault.

(** ** mem_init *)

Lemma clear_map_run n i s :
  0 <= i -> i + Z.of_nat n <= 3840 ->
  exists l, clear_map n i s = (Ret tt, s <| mem_map := l |>) /\
    length l = length (mem_map s) /\
    forall k : nat, l !! k = if decide (i <= Z.of_nat k < i + Z.of_nat n /\ (k < length (mem_map s))%nat)
                             then Some 0 else mem_map s !! k.
Proof.
  revert i s. induction n as [|n IH]; intros i s Hi Hn; cbn [clear_map].
  { exists (mem_map s). split; [by destruct s|]. split; [done|]. intros k.
    rewrite decide_False by lia. done. }
  assert (set_map i 0 s = (Ret tt, s <| mem_map ::= <[Z.to_nat i := 0]> |>)) as Hs.
  { unfold set_map. change PAGING_PAGES with 3840.
    by rewrite (proj2 (Z.leb_le _ _)), (proj2 (Z.ltb_lt _ _)) by lia. }
  mrun Hs. destruct (IH (i + 1) (s <| mem_map ::= <[Z.to_nat i := 0]> |>)) as (l & Hr & Hl & Hk); [lia|lia|].
  exists l. split; [done|]. simpl in Hl, Hk. rewrite length_insert in Hl, Hk. split; [done|]. intros k.
  rewrite Hk. destruct (decide (Z.of_nat k = i)) as [He|Hne].
  - rewrite (decide_False (P := i + 1 <= _ < _ /\ _)) by lia.
    replace (Z.to_nat i) with k by lia. case_decide.
    + apply list_lookup_insert_eq. lia.
    + rewrite list_insert_ge by lia. done.
  - rewrite list_lookup_insert_ne by lia. repeat case_decide; try done; lia.
Qed.

(** The buffer cache's share of main memory, which [mem_init] marks USED. *)
Definition boot_own (start_mem : Z) (f : Z) : Z := if f <? start_mem then USED else 0.

Lemma mem_init_wf s start_mem end_mem :
  LOW_MEM <= start_mem -> start_mem <= end_mem -> LOW_MEM < end_mem <= 0x1000000 ->
  start_mem mod 4096 = 0 -> end_mem mod 4096 = 0 ->
  (forall i, user_dir i -> Z.odd (dirent (mem s) i) = false) ->
  exists s', mem_init start_mem end_mem s = (Ret tt, s') /\ mem s' = mem s /\
    wf (boot_own start_mem) s'.
Proof.
  intros Hs Hse He Hsa Hea Hnodir. unfold mem_init. rewrite !bind_modify.
  rewrite !Z.shiftr_div_pow2 by lia. change (2 ^ 12) with 4096.
  set (q1 := start_mem / 4096). set (q2 := end_mem / 4096).
  pose proof (Z_div_mod_eq_full start_mem 4096). pose proof (Z_div_mod_eq_full end_mem 4096).
  assert ((start_mem - LOW_MEM) / 4096 = q1 - 256) as ->.
  { unfold LOW_MEM. replace (start_mem - 0x100000) with ((q1 - 256) * 4096) by lia. apply Z.div_mul. lia. }
  assert ((end_mem - start_mem) / 4096 = q2 - q1) as ->.
  { replace (end_mem - start_mem) with ((q2 - q1) * 4096) by lia. apply Z.div_mul. lia. }
  unfold LOW_MEM in *.
  match goal with |- context [clear_map ?n ?i ?st] =>
    destruct (clear_map_run n i st) as (l & Hr & Hl & Hk); [lia|lia|] end.
  change (mem_map _) with (replicate 3840 USED) in Hl, Hk. rewrite length_replicate in Hl, Hk.
  rewrite Z2Nat.id in Hk by lia. rewrite Hr. eexists. split; [reflexivity|]. split; [done|].
  assert (forall f, f mod 4096 = 0 -> 0x100000 <= f < end_mem ->
    l !! Z.to_nat ((f - 0x100000) / 4096) = Some (if f <? start_mem then USED else 0)) as Hcnt.
  { intros f Hfa Hf. pose proof (Z_div_mod_eq_full f 4096). set (q := f / 4096) in *.
    replace ((f - 0x100000) / 4096) with (q - 256); last first.
    { replace (f - 0x100000) with ((q - 256) * 4096) by lia. by rewrite Z.div_mul. }
    rewrite Hk. destruct (Z.ltb_spec f start_mem).
    - rewrite decide_False by lia. apply lookup_replicate_2. lia.
    - rewrite decide_True by lia. done. }
  split; simpl.
  - done.
  - unfold LOW_MEM. lia.
  - done.
  - apply Forall_lookup. intros k c. rewrite Hk. case_decide; [intros [= <-]; lia|].
    intros [-> _]%lookup_replicate. unfold USED. lia.
  - intros k. unfold LOW_MEM. replace (end_mem - 0x100000) with ((q2 - 256) * 4096) by lia.
    rewrite Z.div_mul by lia. intros Hk2. rewrite Hk, decide_False by lia.
    intros [? _]%lookup_replicate. done.
  - intros i Hi Hodd. by rewrite Hnodir in Hodd.
  - intros i j Hi Hodd. by rewrite Hnodir in Hodd.
  - intros f. unfold boot_own, USED. destruct (f <? start_mem); lia.
  - intros f [Hfa Hf]. unfold cnt. simpl in *. unfold LOW_MEM in *. rewrite Hcnt by done.
    unfold refs. rewrite sumZ_zero; [done|]. intros i Hi%elem_user.
    unfold table_refs. by rewrite Hnodir.
Qed.

(** ** get_empty_page *)

(** C7: A fault at an unmapped user address outside the executable: [get_empty_page]
    either ends the task for lack of memory, with the counts right, or maps the address,
    writable, to a frame that nobody else references and that holds only zeros; other
    addresses keep their mapping and the counts stay right. *)
Theorem get_empty_page_ok own s a :
  wf own s -> user_addr a -> xlate (mem s) a = None ->
  (exists s' p, get_empty_page a s = (Ret tt, s') /\ wf own s' /\ main s' p /\ cnt s p = 0 /\
     xlate (mem s') a = Some (Z.lor p 7) /\
     (forall w, 0 <= w < 1024 -> ld (mem s') (p + 4 * w) = 0) /\
     forall b, user_addr b -> ~ same_slot a b -> xlate (mem s') b = xlate (mem s) b) \/
  (exists s', get_empty_page a s = (Exit SIGSEGV, s') /\ wf own s' /\
     forall b, user_addr b -> xlate (mem s') b = xlate (mem s) b).
Proof.
  intros W Ha Hx. unfold get_empty_page.
  destruct (get_free_page_cases own s W) as [[Hg Hn]|(p & Hg & Hm & Hc & _)]; mrun Hg.
  { right. eexists. split; [reflexivity|]. split; [|done]. destruct W. by split. }
  clear Hg. pose proof (alloc_wf own s p W Hm Hc) as Wa.
  pose proof (alloc_untouched own s p W Hm Hc) as Hua.
  destruct (cnt_free_no_refs own s p W Hm Hc) as [_ Hown].
  assert (cnt (alloc_state s p) p = 1) as Hc1
    by (rewrite (cnt_insert own s _ p 1) by done; by rewrite decide_True).
  assert (forall b, user_addr b -> xlate (mem (alloc_state s p)) b = xlate (mem s) b) as Hxa
    by (intros b Hb; eapply xlate_untouched; [exact Hua|done|tauto]).
  assert (main (alloc_state s p) p) as Hma by done.
  assert (forall w, 0 <= w < 1024 -> ld (mem (alloc_state s p)) (p + 4 * w) = 0) as Hz
    by (intros w Hw; exact (stosl_page_zero p w (mem s) Hw)).
  set (sa := alloc_state s p) in *. clearbody sa.
  assert (p <> 0) as Hp0 by (destruct Hm; unfold LOW_MEM in *; lia).
  rewrite (proj2 (Z.eqb_neq p 0)) by done. rewrite bind_assoc.
  destruct (put_page_cases (bump own p 1) sa p a Wa Ha Hma Hc1) as (r & s' & Hrun & Hres).
  { unfold bump. rewrite Z.eqb_refl. lia. }
  { by rewrite Hxa. }
  mrun Hrun. rewrite bind_ret. destruct Hres as [(-> & -> & _)|(-> & W' & Hx' & Hh & Hpg & Hb)].
  - right. cbn [istrue Z.eqb negb]. destruct (free_page_held _ sa p Wa Hma) as [Hfr Wf].
    { unfold bump. rewrite Z.eqb_refl. lia. }
    mrun Hfr. eexists. split; [reflexivity|]. split; [|done].
    apply (wf_ext _ own) in Wf; [by destruct Wf|]. intros f. unfold bump. destruct (f =? p); lia.
  - left. exists s', p. unfold istrue. rewrite (proj2 (Z.eqb_neq p 0)) by done. cbn [negb].
    split; [done|]. split; [|split; [|split; [done|split; [done|split]]]].
    + eapply wf_ext; [|exact W']. intros f. unfold bump. destruct (f =? p); lia.
    + destruct Hma as [??]. split; [done|lia].
    + intros w Hw. rewrite Hpg by lia. by apply Hz.
    + intros b Hub Hne. rewrite <- Hxa by done. by apply Hb.
Qed.

(** ** A booted machine *)

(** A machine with 16 MB of memory whose last four frames are main memory, no user page
    tables, and task 1 current. *)
Definition START : Z := 0xffc000.
Definition reset : mm := mk_mm ∅ [] 0 {[ 1 := mk_mtask 0x4000000 0 0 None ]} 1 0 [].
Definition boot : mm := snd (mem_init START 0x1000000 reset).

(** The same machine after one page was mapped at linear address 0x4000000. *)
Definition TABLE : Z := 0xfff000.
Definition PAGE : Z := 0xffe000.
Definition linked : mm := (alloc_state boot TABLE) <| mem ::= <[4 * 16 := Z.lor TABLE 7]> |>.
Definition held : mm := alloc_state linked PAGE.
Definition mapped : mm := held <| mem ::= <[pte_addr (mem held) 16 0 := Z.lor PAGE 7]> |>.

Lemma boot_wf : wf (boot_own START) boot.
Proof.
  destruct (mem_init_wf reset START 0x1000000) as (s' & Hr & _ & W).
  1-5: vm_compute; intuition congruence.
  - intros i Hi. change (mem reset) with (∅ : gmap Z Z). unfold dirent, ld. by rewrite lookup_empty.
  - unfold boot. rewrite Hr. exact W.
Qed.

Lemma user_dir_16 : user_dir 16.
Proof. vm_compute. intuition congruence. Qed.

Lemma user_addr_64M : user_addr 0x4000000.
Proof. split; [vm_compute; intuition congruence|apply user_dir_16]. Qed.

Lemma linked_wf : wf (boot_own START) linked.
Proof.
  apply (alloc_link _ boot 16 TABLE boot_wf user_dir_16); vm_compute; intuition congruence.
Qed.

Lemma mapped_wf : wf (boot_own START) mapped.
Proof.
  pose proof (alloc_wf _ linked PAGE linked_wf ltac:(vm_compute; intuition congruence)
    ltac:(vm_compute; reflexivity)) as W. fold held in W.
  eapply wf_ext; last (apply (wf_put_pte _ held 16 0 PAGE W user_dir_16);
    vm_compute; intuition congruence).
  intros f. unfold bump. destruct (f =? PAGE); lia.
Qed.

(** The facts about these machines that the witnesses below use. *)
Lemma boot_alloc : fst (get_free_page boot) = Ret TABLE.
Proof. vm_compute. reflexivity. Qed.

Lemma mapped_xlate : xlate (mem mapped) 0x4000000 = Some (Z.lor PAGE 7).
Proof. vm_compute. reflexivity. Qed.

Lemma small_bytes l : forallb (fun c => c <=? 127) l = true -> Forall (fun c => c <= 127) l.
Proof.
  intros H. apply Forall_forall. intros c Hc. rewrite forallb_forall in H.
  by apply Z.leb_le, H, list_elem_of_In.
Qed.

Lemma mapped_small : Forall (fun c => c <= 127) (mem_map mapped).
Proof. apply small_bytes. vm_compute. reflexivity. Qed.

(** Counts below 128 cannot wrap when one address space is copied. *)
Lemma no_wrap_small own s i n :
  wf own s -> FIRST_USER_DIR <= i -> i + n <= 1024 -> 0 <= n ->
  Forall (fun c => c <= 127) (mem_map s) -> no_wrap s i n.
Proof.
  intros W Hi Hn H0 Hf f Hm.
  assert (cnt s f <= 127).
  { pose proof (cnt_lookup own s f W Hm) as Hl. by apply (Forall_lookup_1 _ _ _ _ Hf) in Hl. }
  enough (sumZ (table_sum (mem s) f) (seqZ i n) <= refs (mem s) f).
  { pose proof (wf_cnt own s W f Hm). pose proof (wf_own own s W f). lia. }
  assert (user_dirs = seqZ 16 (i - 16) ++ seqZ i n ++ seqZ (i + n) (1024 - i - n)) as Hu.
  { unfold user_dirs, FIRST_USER_DIR in *. rewrite <- seqZ_app by lia.
    replace (seqZ i (n + (1024 - i - n))) with (seqZ (16 + (i - 16)) (n + (1024 - i - n))) by (f_equal; lia).
    rewrite <- seqZ_app by lia. f_equal; lia. }
  unfold refs. rewrite Hu, !sumZ_app.
  pose proof (sumZ_nonneg (table_refs (mem s) f) (seqZ 16 (i - 16)) ltac:(intros; apply table_refs_nonneg)).
  pose proof (sumZ_nonneg (table_refs (mem s) f) (seqZ (i + n) (1024 - i - n)) ltac:(intros; apply table_refs_nonneg)).
  assert (forall l, sumZ (table_sum (mem s) f) l <= sumZ (table_refs (mem s) f) l) as Hle.
  { induction l as [|x l IH]; [done|]. rewrite !sumZ_cons. pose proof (table_sum_le (mem s) f x). lia. }
  specialize (Hle (seqZ i n)). lia.
Qed.

Lemma get_free_page_spec_witness :
  exists p s', get_free_page boot = (Ret p, s') /\ p = TABLE /\ cnt s' TABLE = 1.
Proof.
  destruct (get_free_page_spec (boot_own START) boot boot_wf) as (p & s' & Hr & Hres).
  exists p, s'. split; [exact Hr|].
  assert (p = TABLE) as -> by (pose proof boot_alloc as Hb; rewrite Hr in Hb; by injection Hb).
  split; [reflexivity|]. destruct Hres as [(H & _)|(_ & _ & _ & H & _)]; [discriminate H|exact H].
Defined.

Lemma do_wp_page_ok_witness :
  exists s', (do_wp_page 0 0x4000000 mapped = (Ret tt, s') \/
              do_wp_page 0 0x4000000 mapped = (Exit SIGSEGV, s')).
Proof.
  destruct (do_wp_page_ok (boot_own START) mapped 0 0x4000000 (Z.lor PAGE 7)
    mapped_wf user_addr_64M mapped_xlate) as [(s' & e' & Hr & _)|(s' & Hr & _)].
  - exists s'. left. exact Hr.
  - exists s'. right. exact Hr.
Defined.

Lemma get_empty_page_ok_witness :
  exists s', (get_empty_page 0x4000000 boot = (Ret tt, s') \/
              get_empty_page 0x4000000 boot = (Exit SIGSEGV, s')) /\ wf (boot_own START) s'.
Proof.
  destruct (get_empty_page_ok (boot_own START) boot 0x4000000 boot_wf user_addr_64M)
    as [(s' & p & Hr & W & _)|(s' & Hr & W & _)].
  - vm_compute. reflexivity.
  - exists s'. split; [left; exact Hr|exact W].
  - exists s'. split; [right; exact Hr|exact W].
Defined.
