(* ===== verification/MemoryFork.v ===== *)
(** Copying and freeing whole address spaces, in terms of address translation: the
    properties of [copy_page_tables] and [free_page_tables] that [fork] and [exit] use. *)

From S2P Require Import Prelude Memory MemoryInv MemoryOps MemoryFault MemoryInit.

Lemma dir_ix_add base off :
  base mod 4194304 = 0 -> dir_ix (base + off) = dir_ix base + off / 4194304.
Proof.
  intros H. unfold dir_ix. pose proof (Z_div_mod_eq_full base 4194304).
  replace (base + off) with (off + base / 4194304 * 4194304) by lia.
  rewrite Z.div_add by lia. lia.
Qed.

Lemma tbl_ix_add base off :
  base mod 4194304 = 0 -> tbl_ix (base + off) = tbl_ix off.
Proof.
  intros H. unfold tbl_ix. pose proof (Z_div_mod_eq_full base 4194304).
  replace (base + off) with (off + base / 4194304 * 1024 * 4096) by lia.
  rewrite Z.div_add by lia. apply Z_mod_plus_full.
Qed.

Lemma off_dir off n : 0 <= off < n * 4194304 -> 0 <= off / 4194304 < n.
Proof. intros. split; [apply Z.div_pos; lia|apply Z.div_lt_upper_bound; lia]. Qed.

(** A copied directory slot, seen through translation. *)
Lemma xlate_copied m m' from to off :
  from mod 4194304 = 0 -> to mod 4194304 = 0 ->
  Z.odd (dirent m (dir_ix (to + off))) = false ->
  copied_dir m m' (dir_ix (from + off)) (dir_ix (to + off)) ->
  xlate m' (to + off) = (fun e => Z.land e 0xfffffffd) <$> xlate m (from + off) /\
  xlate m' (from + off) = parent_entry <$> xlate m (from + off).
Proof.
  intros Hf Ht Hno [Hd Hc]. unfold xlate. rewrite Hd.
  rewrite !(tbl_ix_add _ off) by done. pose proof (tbl_ix_range off) as Hr.
  destruct (Z.odd (dirent m (dir_ix (from + off)))) eqn:Ho.
  - destruct Hc as [Hok Hp]. destruct (Hp (tbl_ix off) Hr) as [-> ->]. rewrite Hok. cbn [andb].
    rewrite parent_entry_odd. unfold child_entry.
    destruct (Z.odd (pte m (dir_ix (from + off)) (tbl_ix off))) eqn:Hp'; [|done].
    by rewrite odd_land_rw, Hp'.
  - cbn [andb]. by rewrite Hc, Hno.
Qed.

(** C2: Copying the page tables of a user address range (what [fork] does) keeps every
    page count equal to the number of references, whether it succeeds or runs out of
    memory half way, and changes no address outside the two ranges.  On success each
    address of the child translates to the parent's frame without write permission, and
    the parent keeps its frames, losing write permission to those in main memory. *)
Theorem copy_page_tables_ok own s from to size (n := nr_dirs size) :
  wf own s -> 0 <= from < 4294967296 -> 0 <= to < 4294967296 ->
  from mod 4194304 = 0 -> to mod 4194304 = 0 ->
  FIRST_USER_DIR <= dir_ix from -> FIRST_USER_DIR <= dir_ix to ->
  dir_ix from + n <= 1024 -> dir_ix to + n <= 1024 ->
  (dir_ix from + n <= dir_ix to \/ dir_ix to + n <= dir_ix from) ->
  (forall t, dir_ix to <= t < dir_ix to + n -> Z.odd (dirent (mem s) t) = false) ->
  no_wrap s (dir_ix from) n ->
  exists r s', copy_page_tables from to size s = (Ret r, s') /\ (r = 0 \/ r = -1) /\ wf own s' /\
    (r = 0 -> forall off, 0 <= off < n * 4194304 ->
       xlate (mem s') (to + off) = (fun e => Z.land e 0xfffffffd) <$> xlate (mem s) (from + off) /\
       xlate (mem s') (from + off) = parent_entry <$> xlate (mem s) (from + off)) /\
    (forall b, user_addr b ->
       ~ (dir_ix from <= dir_ix b < dir_ix from + n \/ dir_ix to <= dir_ix b < dir_ix to + n) ->
       xlate (mem s') b = xlate (mem s) b).
Proof.
  intros W Hf Ht Hfa Hta Hfl Htl Hfn Htn Hdis Habs Hnw.
  destruct (copy_page_tables_cases own s from to size W Hf Ht Hfa Hta Hfl Htl Hfn Htn Hdis Habs Hnw)
    as (r & s' & Hrun & Hr & W' & _ & Hun & _ & Hok). fold n in Hun, Hok.
  exists r, s'. split; [done|]. split; [done|]. split; [done|]. split.
  - intros -> off Hoff. pose proof (off_dir off n Hoff).
    apply xlate_copied; [done|done| |].
    + apply Habs. rewrite dir_ix_add by done. fold n. lia.
    + rewrite !dir_ix_add by done. apply (Hok eq_refl). lia.
  - intros b Hb Hnb. eapply xlate_untouched; [exact Hun|done|exact Hnb].
Qed.

(** C6: Freeing the page tables of a user address range (what [exit] and [exec] do) always
    succeeds: on a state whose page counts are right, [free_page_tables] never panics,
    leaves the counts right, unmaps every address of the range and no other. *)
Theorem free_page_tables_ok own s from size (n := nr_dirs size) :
  wf own s -> 0 <= from < 4294967296 -> from mod 4194304 = 0 ->
  FIRST_USER_DIR <= dir_ix from -> dir_ix from + n <= 1024 ->
  exists s', free_page_tables from size s = (Ret 0, s') /\ wf own s' /\
    (forall off, 0 <= off < n * 4194304 -> xlate (mem s') (from + off) = None) /\
    (forall b, user_addr b -> ~ (dir_ix from <= dir_ix b < dir_ix from + n) ->
       xlate (mem s') b = xlate (mem s) b).
Proof.
  intros W Hf Hfa Hfl Hfn.
  destruct (free_page_tables_cases own s from size W Hf Hfa Hfl Hfn) as (s' & Hrun & W' & _ & Hz & Hun).
  fold n in Hz, Hun. exists s'. split; [done|]. split; [done|]. split.
  - intros off Hoff. pose proof (off_dir off n Hoff). unfold xlate.
    by rewrite Hz by (rewrite dir_ix_add by done; lia).
  - intros b Hb Hnb. eapply xlate_untouched; [exact Hun|done|exact Hnb].
Qed.

Lemma free_page_tables_ok_witness :
  exists s', free_page_tables 0x4000000 0x400000 mapped = (Ret 0, s') /\ wf (boot_own START) s'.
Proof.
  destruct (free_page_tables_ok (boot_own START) mapped 0x4000000 0x400000 mapped_wf)
    as (s' & Hr & W & _).
  1-4: vm_compute; intuition congruence.
  exists s'. split; [exact Hr|exact W].
Defined.

Lemma copy_page_tables_ok_witness :
  exists r s', copy_page_tables 0x4000000 0x8000000 0x400000 mapped = (Ret r, s') /\
    wf (boot_own START) s'.
Proof.
  destruct (copy_page_tables_ok (boot_own START) mapped 0x4000000 0x8000000 0x400000 mapped_wf)
    as (r & s' & Hr & _ & W & _).
  1-8: vm_compute; intuition congruence.
  - left. vm_compute. intuition congruence.
  - intros t Ht. assert (t = 32) as -> by (change (nr_dirs 0x400000) with 1 in Ht; change (dir_ix 0x8000000) with 32 in Ht; lia).
    vm_compute. reflexivity.
  - apply (no_wrap_small (boot_own START)); [exact mapped_wf| | | |exact mapped_small];
      vm_compute; intuition congruence.
  - exists r, s'. split; [exact Hr|exact W].
Defined.

