(* ===== verification/Malloc.v ===== *)
(** The kernel's allocator ([linux-0.11/lib/malloc.c]).

    Each page, a bucket, holds objects of one size.  Bucket descriptors of 16 bytes are in
    pages of their own, at the addresses the code gives them: the words of a descriptor at [b]
    are [page] at [b], [next] at [b + 4], [freeptr] at [b + 8], and [refcnt] and [bucket_size]
    as the halves of the word at [b + 12].  A free object's first word links to the next one.
    The state is the memory manager's with [bucket_dir] and [free_bucket_desc]; interrupts are
    off ([cli]) while it changes.

    The searches of a chain are bounded by the number of frames: each descriptor of a chain has
    a page of its own. *)

From S2P Require Import Prelude Memory.

Record heap := mk_heap {
  h_mm : mm;
  bucket_dir : list (Z * Z);
  free_bucket_desc : Z
}.

#[export] Instance eta_heap : Eta heap := fun s => mk_heap (h_mm s) (bucket_dir s) (free_bucket_desc s).

(** [bucket_dir] and [free_bucket_desc] as they are initialised. *)
Definition init_heap (m : mm) : heap :=
  mk_heap m [(16, 0); (32, 0); (64, 0); (128, 0); (256, 0); (512, 0); (1024, 0); (2048, 0); (4096, 0); (0, 0)] 0.

Definition PAGE_SIZE : Z := 4096.
Definition SIZEOF_DESC : Z := 16.
Definition MAX_CHAIN : nat := 3841.

Definition lift {A} (m : M mm A) : M heap A := fun s => let '(r, m') := m (h_mm s) in (r, s <| h_mm := m' |>).

(** ** Descriptors *)

Definition bd_page (b : Z) : M heap Z := lift (ldw b).
Definition bd_next (b : Z) : M heap Z := lift (ldw (b + 4)).
Definition bd_freeptr (b : Z) : M heap Z := lift (ldw (b + 8)).
Definition bd_refcnt (b : Z) : M heap Z := w ← lift (ldw (b + 12)); mret (u16 w).
Definition set_bd_page (b v : Z) : M heap unit := lift (stw b v).
Definition set_bd_next (b v : Z) : M heap unit := lift (stw (b + 4) v).
Definition set_bd_freeptr (b v : Z) : M heap unit := lift (stw (b + 8) v).
Definition set_bd_refcnt (b v : Z) : M heap unit :=
  w ← lift (ldw (b + 12)); lift (stw (b + 12) (65536 * Z.shiftr w 16 + u16 v)).
Definition set_bd_size (b v : Z) : M heap unit :=
  w ← lift (ldw (b + 12)); lift (stw (b + 12) (u16 w + 65536 * u16 v)).

(** An entry of [bucket_dir]. *)
Definition dir (i : nat) : M heap (Z * Z) := s ← get; of_option "bucket_dir" (bucket_dir s !! i).
Definition set_chain (i : nat) (c : Z) : M heap unit :=
  e ← dir i; modify (fun s => s <| bucket_dir ::= <[i := (fst e, c)]> |>).

(** ** Descriptor pages *)

(** The loop of [init_bucket_desc]; the result is the last descriptor. *)
Fixpoint link_descs (n : nat) (bdesc : Z) : M heap Z :=
  match n with
  | O => mret bdesc
  | S n => set_bd_next bdesc (bdesc + SIZEOF_DESC);; link_descs n (bdesc + SIZEOF_DESC)
  end.

Definition init_bucket_desc : M heap unit :=
  first ← lift get_free_page;
  if first =? 0 then panic "Out of memory in init_bucket_desc()" else
  bdesc ← link_descs (Z.to_nat (PAGE_SIZE / SIZEOF_DESC - 1)) first;
  s ← get;
  set_bd_next bdesc (free_bucket_desc s);;
  modify (fun s => s <| free_bucket_desc := first |>).

(** ** malloc *)

(** The entry of [bucket_dir] for a request of [len] bytes, or the end marker. *)
Fixpoint find_dir (l : list (Z * Z)) (i : nat) (len : Z) : nat :=
  match l with
  | [] => i
  | (size, _) :: l => if size =? 0 then i else if len <=? size then i else find_dir l (S i) len
  end.

(** The first descriptor of a chain that has a free object. *)
Fixpoint find_free (n : nat) (bdesc : Z) : M heap Z :=
  match n with
  | O => nofuel
  | S n =>
      if bdesc =? 0 then mret 0 else
      f ← bd_freeptr bdesc;
      if istrue f then mret bdesc else
      next ← bd_next bdesc;
      find_free n next
  end.

(** The chain of the free objects of a new page. *)
Fixpoint link_objects (n : nat) (cp size : Z) : M heap unit :=
  match n with
  | O => lift (stw cp 0)
  | S n => lift (stw cp (cp + size));; link_objects n (cp + size) size
  end.

(** A new bucket at the head of the chain of [bucket_dir[i]]. *)
Definition new_bucket (i : nat) : M heap Z :=
  s ← get;
  when (free_bucket_desc s =? 0) init_bucket_desc;;
  s ← get;
  let bdesc := free_bucket_desc s in
  next ← bd_next bdesc;
  modify (fun s => s <| free_bucket_desc := next |>);;
  set_bd_refcnt bdesc 0;;
  e ← dir i;
  set_bd_size bdesc (fst e);;
  cp ← lift get_free_page;
  set_bd_freeptr bdesc cp;;
  set_bd_page bdesc cp;;
  if cp =? 0 then panic "Out of memory in kernel malloc()" else
  link_objects (Z.to_nat (PAGE_SIZE / fst e - 1)) cp (fst e);;
  e ← dir i;
  set_bd_next bdesc (snd e);;
  set_chain i bdesc;;
  mret bdesc.

(** The first free object of a bucket is taken. *)
Definition take_object (bdesc : Z) : M heap Z :=
  retval ← bd_freeptr bdesc;
  next ← lift (ldw retval);
  set_bd_freeptr bdesc next;;
  r ← bd_refcnt bdesc;
  set_bd_refcnt bdesc (r + 1);;
  mret retval.

Definition malloc (len : Z) : M heap Z :=
  s ← get;
  let i := find_dir (bucket_dir s) 0 len in
  e ← dir i;
  if fst e =? 0 then
    lift (printk "malloc called with impossibly large argument" [len]);;
    panic "malloc: bad arg"
  else
  bdesc ← find_free MAX_CHAIN (snd e);
  bdesc ← (if bdesc =? 0 then new_bucket i else mret bdesc);
  take_object bdesc.

(** ** free *)

(** The descriptor of [page] in a chain, and the one before it. *)
Fixpoint find_page (n : nat) (bdesc prev page : Z) : M heap (option (Z * Z)) :=
  match n with
  | O => nofuel
  | S n =>
      if bdesc =? 0 then mret None else
      p ← bd_page bdesc;
      if p =? page then mret (Some (bdesc, prev)) else
      next ← bd_next bdesc;
      find_page n next bdesc page
  end.

(** The loop over [bucket_dir]: the entry, the descriptor and the one before it. *)
Fixpoint find_bucket (l : list (Z * Z)) (i : nat) (size page : Z) : M heap (option (nat * Z * Z)) :=
  match l with
  | [] => mret None
  | (bsize, chain) :: l =>
      if bsize =? 0 then mret None else
      if bsize <? size then find_bucket l (S i) size page else
      r ← find_page MAX_CHAIN chain 0 page;
      match r with
      | Some (bdesc, prev) => mret (Some (i, bdesc, prev))
      | None => find_bucket l (S i) size page
      end
  end.

(** [for (prev = bdir->chain; prev; prev = prev->next) if (prev->next == bdesc) break;] *)
Fixpoint find_prev (n : nat) (prev bdesc : Z) : M heap Z :=
  match n with
  | O => nofuel
  | S n =>
      if prev =? 0 then mret 0 else
      next ← bd_next prev;
      if next =? bdesc then mret prev else find_prev n next bdesc
  end.

(** A bucket without objects in use is taken out of its chain and its page is given back. *)
Definition drop_bucket (i : nat) (bdesc prev : Z) : M heap unit :=
  e ← dir i;
  stale ← (if istrue prev then next ← bd_next prev; mret (negb (next =? bdesc))
           else mret (negb (snd e =? bdesc)));
  prev ← (if (stale : bool) then find_prev MAX_CHAIN (snd e) bdesc else mret prev);
  next ← bd_next bdesc;
  (if istrue prev then set_bd_next prev next else
   if negb (snd e =? bdesc) then panic "malloc bucket chains corrupted" else
   set_chain i next);;
  page ← bd_page bdesc;
  lift (free_page page);;
  s ← get;
  set_bd_next bdesc (free_bucket_desc s);;
  modify (fun s => s <| free_bucket_desc := bdesc |>).

(** An object goes back to its bucket. *)
Definition put_object (obj bdesc : Z) : M heap unit :=
  f ← bd_freeptr bdesc;
  lift (stw obj f);;
  set_bd_freeptr bdesc obj;;
  r ← bd_refcnt bdesc;
  set_bd_refcnt bdesc (r - 1).

Definition free_s (obj size : Z) : M heap unit :=
  let page := Z.land obj 0xfffff000 in
  s ← get;
  r ← find_bucket (bucket_dir s) 0 size page;
  match r with
  | None => panic "Bad address passed to kernel free_s()"
  | Some (i, bdesc, prev) =>
      put_object obj bdesc;;
      r ← bd_refcnt bdesc;
      when (r =? 0) (drop_bucket i bdesc prev)
  end.

(** Two objects of ten bytes, and their return. *)
Definition demo_mm : mm := mk_mm ∅ (replicate 3840 0) 0x1000000 ∅ 0 0 [].
Example malloc_demo :
  fst ((a ← malloc 10; b ← malloc 10; free_s a 0;; c ← malloc 16; free_s b 10;; free_s c 0;; mret (a, b, c))
    (init_heap demo_mm)) = Ret (0xffe000, 0xffe010, 0xffe000).
Proof. vm_compute. reflexivity. Qed.
