(* ===== verification/MallocInv.v ===== *)
(** The kernel's allocator: the invariant of its heap, and what taking or returning one object
    does to it.

    A [view] of the heap lists the buckets of each chain with their free objects, the spare
    descriptors and the pages that hold descriptors; [heap_ok] says that memory holds just
    that.  The pages are held by the allocator in the sense of [wf]: their counts are right
    whatever else the memory manager does. *)

From S2P Require Import Prelude Memory MemoryInv MemoryOps Malloc.

(** ** Memory words *)

Definition hmem (s : heap) : gmap Z Z := mem (h_mm s).
Definition poke (a v : Z) (s : heap) : heap := s <| h_mm ::= fun m => m <| mem ::= <[a := v]> |> |>.

Lemma lift_ldw a s : lift (ldw a) s = (Ret (ld (hmem s) a), s).
Proof. by destruct s. Qed.

Lemma lift_stw a v s : lift (stw a v) s = (Ret tt, poke a v s).
Proof. reflexivity. Qed.

Lemma refcnt_run b s : bd_refcnt b s = (Ret (u16 (ld (hmem s) (b + 12))), s).
Proof. unfold bd_refcnt. by mrun (lift_ldw (b + 12) s). Qed.

Lemma set_refcnt_run b v s :
  set_bd_refcnt b v s = (Ret tt, poke (b + 12) (65536 * Z.shiftr (ld (hmem s) (b + 12)) 16 + u16 v) s).
Proof. unfold set_bd_refcnt. by mrun (lift_ldw (b + 12) s). Qed.

Lemma set_size_run b v s :
  set_bd_size b v s = (Ret tt, poke (b + 12) (u16 (ld (hmem s) (b + 12)) + 65536 * u16 v) s).
Proof. unfold set_bd_size. by mrun (lift_ldw (b + 12) s). Qed.

Lemma dir_run i e s : bucket_dir s !! i = Some e -> dir i s = (Ret e, s).
Proof. intros He. unfold dir. by rewrite bind_get, He. Qed.

(** The halves of the word that holds [refcnt] and [bucket_size]. *)
Lemma halves r z : 0 <= r < 65536 -> 0 <= z < 65536 -> u16 (r + 65536 * z) = r /\ Z.shiftr (r + 65536 * z) 16 = z.
Proof.
  intros Hr Hz. unfold u16. rewrite Z.shiftr_div_pow2 by lia. change (2 ^ 16) with 65536.
  rewrite (Z.mul_comm 65536), Z_mod_plus_full, Z.mod_small, Z.div_add, Z.div_small by lia. lia.
Qed.

(** ** Linked lists in memory *)

(** From [x] on, through the word at offset [off], to the null pointer. *)
Fixpoint seg (off : Z) (m : gmap Z Z) (x : Z) (l : list Z) : Prop :=
  match l with
  | [] => x = 0
  | a :: l => x = a /\ seg off m (ld m (a + off)) l
  end.

Lemma seg_ext off m m' x l :
  (forall a, a ∈ l -> ld m' (a + off) = ld m (a + off)) -> seg off m x l -> seg off m' x l.
Proof.
  revert x. induction l as [|a l IH]; intros x Ha; [done|]. intros [-> Hs]. split; [done|].
  rewrite Ha by set_solver. apply IH; [set_solver|done].
Qed.

Lemma seg_head off m x l : seg off m x l -> x = default 0 (head l).
Proof. destruct l; [done|]. by intros [-> _]. Qed.

(** ** The view *)

Record bucket := mk_bucket { bk_desc : Z; bk_page : Z; bk_free : list Z }.
Record view := mk_view { v_chains : list (list bucket); v_spare : list Z; v_dpages : list Z }.

#[export] Instance bucket_eq_dec : EqDecision bucket.
Proof. solve_decision. Defined.
#[export] Instance eta_bucket : Eta bucket := fun b => mk_bucket (bk_desc b) (bk_page b) (bk_free b).
#[export] Instance eta_view : Eta view := fun v => mk_view (v_chains v) (v_spare v) (v_dpages v).

Definition sizes : list Z := [16; 32; 64; 128; 256; 512; 1024; 2048; 4096].

(** The objects of size [sz] on page [p]. *)
Definition object (sz p o : Z) : Prop := exists k, 0 <= k < 4096 / sz /\ o = p + k * sz.

Record bucket_ok (m : gmap Z Z) (sz : Z) (b : bucket) : Prop := {
  bo_page : ld m (bk_desc b) = bk_page b;
  bo_count : ld m (bk_desc b + 12) = 4096 / sz - Z.of_nat (length (bk_free b)) + 65536 * sz;
  bo_free : seg 0 m (ld m (bk_desc b + 8)) (bk_free b);
  bo_nodup : NoDup (bk_free b);
  bo_in : Forall (object sz (bk_page b)) (bk_free b)
}.

Definition chain_head (l : list bucket) : Z := default 0 (head (bk_desc <$> l)).
Definition buckets (V : view) : list bucket := concat (v_chains V).
Definition descs (V : view) : list Z := (bk_desc <$> buckets V) ++ v_spare V.
Definition pages (V : view) : list Z := (bk_page <$> buckets V) ++ v_dpages V.

Record heap_ok (own : Z -> Z) (s : heap) (V : view) : Prop := {
  ho_wf : wf own (h_mm s);
  ho_len : length (bucket_dir s) = 10%nat /\ length (v_chains V) = 9%nat;
  ho_end : bucket_dir s !! 9%nat = Some (0, 0);
  ho_dir : forall i sz l, sizes !! i = Some sz -> v_chains V !! i = Some l -> bucket_dir s !! i = Some (sz, chain_head l);
  ho_chain : forall i l, v_chains V !! i = Some l -> seg 4 (hmem s) (chain_head l) (bk_desc <$> l);
  ho_bucket : forall i sz l b, sizes !! i = Some sz -> v_chains V !! i = Some l -> b ∈ l -> bucket_ok (hmem s) sz b;
  ho_spare : seg 4 (hmem s) (free_bucket_desc s) (v_spare V);
  ho_descs : NoDup (descs V) /\ forall d, d ∈ descs V -> exists p k, p ∈ v_dpages V /\ 0 <= k < 256 /\ d = p + 16 * k;
  ho_pages : NoDup (pages V) /\ forall p, p ∈ pages V -> main (h_mm s) p /\ 1 <= own p
}.

(** Each bucket has an object in use: a bucket without is given back. *)
Definition busy (V : view) : Prop :=
  forall i sz l b, sizes !! i = Some sz -> v_chains V !! i = Some l -> b ∈ l -> Z.of_nat (length (bk_free b)) < 4096 / sz.

(** The object of [n] bytes at [o] is in use. *)
Definition live (V : view) (o n : Z) : Prop :=
  exists i l b, sizes !! i = Some n /\ v_chains V !! i = Some l /\ b ∈ l /\ object n (bk_page b) o /\ o ∉ bk_free b.

(** ** Sizes, places and addresses *)

Lemma size_facts i sz :
  sizes !! i = Some sz -> (i < 9)%nat /\ 16 <= sz <= 4096 /\ sz mod 16 = 0 /\ 4096 = 4096 / sz * sz /\ 1 <= 4096 / sz <= 256.
Proof. intros Hi. do 9 (destruct i as [|i]; [injection Hi as <-; repeat split; first [lia|done]|]). done. Qed.

Lemma NoDup_fmap_inj {A B} (f : A -> B) l x y : NoDup (f <$> l) -> x ∈ l -> y ∈ l -> f x = f y -> x = y.
Proof.
  intros Hd [i Hx]%list_elem_of_lookup_1 [j Hy]%list_elem_of_lookup_1 E.
  assert (i = j) as ->; [|congruence].
  apply (NoDup_lookup (f <$> l) i j (f x)); [done|by rewrite list_lookup_fmap, Hx|by rewrite list_lookup_fmap, Hy, E].
Qed.

Lemma in_buckets V b : b ∈ buckets V <-> exists i l, v_chains V !! i = Some l /\ b ∈ l.
Proof.
  unfold buckets. induction (v_chains V) as [|l0 L IH]; cbn [concat].
  - split; [by intros ?%not_elem_of_nil|by intros (i & l & Hi & _)].
  - rewrite elem_of_app, IH. split.
    + intros [Hb|(i & l & Hi & Hb)]; [by exists 0%nat, l0|by exists (S i), l].
    + intros ([|i] & l & Hi & Hb); [left; by injection Hi as ->|right; by exists i, l].
Qed.

Lemma object_range i sz p o : sizes !! i = Some sz -> object sz p o -> p <= o /\ o + sz <= p + 4096.
Proof. intros (_ & Hs & _ & E & _)%size_facts (k & Hk & ->). nia. Qed.

Lemma object_apart i sz p o o' :
  sizes !! i = Some sz -> object sz p o -> object sz p o' -> o <> o' -> o + sz <= o' \/ o' + sz <= o.
Proof. intros (_ & Hs & _)%size_facts (k & Hk & ->) (k' & Hk' & ->) Hne. destruct (Z.lt_trichotomy k k') as [|[->|]]; [nia|done|nia]. Qed.

Lemma page_apart p q a : p mod 4096 = 0 -> q mod 4096 = 0 -> p <= a < p + 4096 -> q <= a < q + 4096 -> p = q.
Proof. intros Hp Hq. pose proof (Z.div_mod p 4096 ltac:(lia)). pose proof (Z.div_mod q 4096 ltac:(lia)). lia. Qed.

Lemma object_page i sz p o : sizes !! i = Some sz -> p mod 4096 = 0 -> 0 <= p < 4294967296 -> object sz p o -> Z.land o 0xfffff000 = p.
Proof.
  intros Hi Hp Hr Ho. destruct (object_range i sz p o Hi Ho). pose proof (size_facts i sz Hi).
  rewrite Z.land_comm. change (frame o = p). replace o with (p + (o - p)) by lia. apply frame_page; lia.
Qed.

Lemma dpage_in V p : p ∈ v_dpages V -> p ∈ pages V.
Proof. unfold pages. set_solver. Qed.

Lemma bpage_in V b : b ∈ buckets V -> bk_page b ∈ pages V.
Proof. unfold pages. intros Hb. apply elem_of_app. left. by apply list_elem_of_fmap_2. Qed.

Lemma bdesc_in V b : b ∈ buckets V -> bk_desc b ∈ descs V.
Proof. unfold descs. intros Hb. apply elem_of_app. left. by apply list_elem_of_fmap_2. Qed.

Lemma spare_in V d : d ∈ v_spare V -> d ∈ descs V.
Proof. unfold descs. set_solver. Qed.

Section Places.
Context (own : Z -> Z) (s : heap) (V : view) (H : heap_ok own s V).

Lemma desc_place d : d ∈ descs V -> d mod 16 = 0 /\ exists p, p ∈ v_dpages V /\ p <= d /\ d + 16 <= p + 4096.
Proof.
  intros Hd. destruct (ho_descs _ _ _ H) as [_ Hp]. destruct (Hp d Hd) as (p & k & Hin & Hk & ->).
  split; [|by exists p; split; [|lia]].
  destruct (ho_pages _ _ _ H) as [_ Hm]. destruct (Hm p) as [[Hal _] _]; [unfold pages; set_solver|].
  pose proof (Z.div_mod p 4096 ltac:(lia)) as E. rewrite Hal in E. rewrite E.
  replace (4096 * (p / 4096) + 0 + 16 * k) with ((256 * (p / 4096) + k) * 16) by lia. apply Z_mod_mult.
Qed.

Lemma page_main p : p ∈ pages V -> p mod 4096 = 0 /\ LOW_MEM <= p < 0x1000000 /\ main (h_mm s) p /\ 1 <= own p.
Proof.
  intros Hp. destruct (ho_pages _ _ _ H) as [_ Hm]. destruct (Hm p Hp) as [[Hal Hr] Ho].
  pose proof (wf_high _ _ (ho_wf _ _ _ H)). split; [done|]. split; [lia|]. by split.
Qed.

Lemma desc_nonzero d : d ∈ descs V -> d <> 0 /\ LOW_MEM <= d.
Proof.
  intros Hd. destruct (desc_place d Hd) as (_ & p & Hp & Hr & _). apply dpage_in, page_main in Hp as (_ & Hl & _).
  unfold LOW_MEM in *. lia.
Qed.

(** Words of descriptors differ unless they are the same word of the same descriptor. *)
Lemma desc_word d d' c c' : d ∈ descs V -> d' ∈ descs V -> 0 <= c < 16 -> 0 <= c' < 16 -> d + c = d' + c' -> d = d' /\ c = c'.
Proof.
  intros [Hd _]%desc_place [Hd' _]%desc_place Hc Hc' E.
  pose proof (Z.div_mod d 16 ltac:(lia)). pose proof (Z.div_mod d' 16 ltac:(lia)). lia.
Qed.

Lemma dpage_bucket p b : p ∈ v_dpages V -> b ∈ buckets V -> p <> bk_page b.
Proof.
  intros Hp Hb ->. destruct (ho_pages _ _ _ H) as [Hd _]. apply NoDup_app in Hd as (_ & Hd & _).
  apply (Hd (bk_page b)); [by apply list_elem_of_fmap_2|done].
Qed.

(** No word of a descriptor is on the page of a bucket. *)
Lemma desc_off_page d b c : d ∈ descs V -> b ∈ buckets V -> 0 <= c < 16 -> ~ (bk_page b <= d + c < bk_page b + 4096).
Proof.
  intros Hd Hb Hc Hr. destruct (desc_place d Hd) as (_ & p & Hp & Hpr). apply (dpage_bucket p b Hp Hb).
  destruct (page_main p (dpage_in V p Hp)) as [Ap _]. destruct (page_main _ (bpage_in V b Hb)) as [Ab _].
  apply (page_apart p (bk_page b) (d + c)); [done|done|lia|done].
Qed.

Lemma bucket_same_page b b' a :
  b ∈ buckets V -> b' ∈ buckets V -> bk_page b <= a < bk_page b + 4096 -> bk_page b' <= a < bk_page b' + 4096 -> b = b'.
Proof.
  intros Hb Hb' Ha Ha'. destruct (ho_pages _ _ _ H) as [Hd _]. apply NoDup_app in Hd as (Hd & _ & _).
  apply (NoDup_fmap_inj bk_page _ _ _ Hd Hb Hb').
  destruct (page_main _ (bpage_in V b Hb)) as [Ab _]. destruct (page_main _ (bpage_in V b' Hb')) as [Ab' _].
  by apply (page_apart _ _ a).
Qed.

Lemma bucket_same_desc b b' : b ∈ buckets V -> b' ∈ buckets V -> bk_desc b = bk_desc b' -> b = b'.
Proof.
  intros Hb Hb' E. destruct (ho_descs _ _ _ H) as [Hd _]. apply NoDup_app in Hd as (Hd & _ & _).
  by apply (NoDup_fmap_inj bk_desc _ _ _ Hd Hb Hb').
Qed.
End Places.

(** ** Frame properties *)

Lemma bucket_frame m m' sz b :
  (forall c, c = 0 \/ c = 8 \/ c = 12 -> ld m' (bk_desc b + c) = ld m (bk_desc b + c)) ->
  (forall a, bk_page b <= a < bk_page b + 4096 -> ld m' a = ld m a) ->
  16 <= sz -> (forall o, object sz (bk_page b) o -> o + sz <= bk_page b + 4096) ->
  bucket_ok m sz b -> bucket_ok m' sz b.
Proof.
  intros Hd Hp Hsz Hobj [Bp Bc Bf Bn Bi]. split.
  - rewrite <- Bp. replace (bk_desc b) with (bk_desc b + 0) by lia. auto.
  - rewrite <- Bc. auto.
  - rewrite Hd by auto. apply (seg_ext _ m); [|done]. intros o Ho. apply Hp.
    pose proof (proj1 (Forall_forall _ _) Bi o Ho) as Hin. pose proof (Hobj o Hin). destruct Hin as (k & Hk & ->). nia.
  - done.
  - done.
Qed.

(** Buckets keep their contents when only words of other buckets' descriptors and pages change. *)
Lemma bucket_kept own s V m' i sz l b :
  heap_ok own s V -> sizes !! i = Some sz -> v_chains V !! i = Some l -> b ∈ l ->
  (forall c, c = 0 \/ c = 8 \/ c = 12 -> ld m' (bk_desc b + c) = ld (hmem s) (bk_desc b + c)) ->
  (forall a, bk_page b <= a < bk_page b + 4096 -> ld m' a = ld (hmem s) a) -> bucket_ok m' sz b.
Proof.
  intros H Hi Hl Hb Hd Hp. apply (bucket_frame (hmem s)); [done|done| | |by apply (ho_bucket _ _ _ H i sz l)].
  - apply size_facts in Hi as (_ & [? _] & _). done.
  - intros o Ho. by apply (object_range i sz (bk_page b) o Hi Ho).
Qed.

(** The words of a page the kernel holds may change. *)
Lemma wf_page own s m' p :
  wf own s -> main s p -> 1 <= own p -> (forall a, ~ (p <= a < p + 4096) -> ld m' a = ld (mem s) a) ->
  wf own (s <| mem := m' |>).
Proof.
  intros W Hm Ho Ha. apply (wf_same_tables own own s).
  - done.
  - done.
  - done.
  - apply (wf_byte own s W).
  - apply (wf_top own s W).
  - exact (same_tables_outside own s m' p W Hm (not_table own s p W Hm ltac:(lia)) Ha).
  - intros i Hi Hod. by destruct (wf_dir own s W i Hi Hod).
  - apply (wf_own own s W).
  - apply (wf_cnt own s W).
Qed.

(** A descriptor's word may be written, and a word of a bucket's page. *)
Lemma wf_poke_page own s V own1 s1 p a v :
  heap_ok own s V -> p ∈ pages V -> p <= a < p + 4096 -> HIGH_MEMORY (h_mm s1) = HIGH_MEMORY (h_mm s) ->
  (1 <= own p -> 1 <= own1 p) -> wf own1 (h_mm s1) -> wf own1 (h_mm (poke a v s1)).
Proof.
  intros H Hp Ha E Hle W. destruct (page_main own s V H p Hp) as (_ & _ & [Hal Hr] & Ho).
  apply (wf_page own1 (h_mm s1) _ p W); [split; [done|by rewrite E]|by apply Hle|].
  intros x Hx. apply ld_insert_ne. by intros ->.
Qed.

Lemma wf_poke_desc own s V own1 s1 d c v :
  heap_ok own s V -> d ∈ descs V -> 0 <= c < 16 -> HIGH_MEMORY (h_mm s1) = HIGH_MEMORY (h_mm s) ->
  (forall q, q ∈ v_dpages V -> 1 <= own q -> 1 <= own1 q) -> wf own1 (h_mm s1) -> wf own1 (h_mm (poke (d + c) v s1)).
Proof.
  intros H Hd Hc E Hle. destruct (desc_place own s V H d Hd) as (_ & p & Hp & Hr).
  apply (wf_poke_page own s V own1 s1 p); [done|by apply dpage_in|lia|done|by apply Hle].
Qed.

(** ** Replacing a bucket of a chain *)

Lemma concat_insert {A} (L : list (list A)) i l l' :
  L !! i = Some l -> concat (<[i := l']> L) = concat (take i L) ++ l' ++ concat (drop (S i) L) /\
  concat L = concat (take i L) ++ l ++ concat (drop (S i) L).
Proof.
  intros Hi. split.
  - rewrite insert_take_drop by (by eapply lookup_lt_Some). by rewrite concat_app.
  - rewrite <- (take_drop_middle L i l Hi) at 1. by rewrite concat_app.
Qed.

Lemma fmap_replace {A B} (f : A -> B) (L : list (list A)) i l1 b b' l2 :
  L !! i = Some (l1 ++ b :: l2) -> f b' = f b -> f <$> concat (<[i := l1 ++ b' :: l2]> L) = f <$> concat L.
Proof.
  intros Hi E. destruct (concat_insert L i _ (l1 ++ b' :: l2) Hi) as [-> ->].
  by rewrite !fmap_app, !fmap_cons, E.
Qed.

Lemma lookup_chain V i l l' j l0 :
  v_chains V !! i = Some l -> v_chains (V <| v_chains ::= <[i := l']> |>) !! j = Some l0 ->
  (j = i /\ l0 = l') \/ (j <> i /\ v_chains V !! j = Some l0).
Proof.
  intros Hi. cbn. destruct (decide (j = i)) as [->|].
  - rewrite list_lookup_insert_eq by (by eapply lookup_lt_Some). naive_solver.
  - rewrite list_lookup_insert_ne by done. auto.
Qed.

Lemma mid_in {A} (l1 : list A) b l2 : b ∈ l1 ++ b :: l2.
Proof. apply elem_of_app. right. apply list_elem_of_here. Qed.

Lemma in_chain V i l b : v_chains V !! i = Some l -> b ∈ l -> b ∈ buckets V.
Proof. intros Hi Hb. apply in_buckets. eauto. Qed.

Lemma NoDup_concat {A} (L : list (list A)) i j l l' x :
  NoDup (concat L) -> L !! i = Some l -> L !! j = Some l' -> x ∈ l -> x ∈ l' -> i = j /\ NoDup l.
Proof.
  revert i j. induction L as [|l0 L IH]; intros i j Hd Hi Hj Hx Hx'; [done|].
  cbn in Hd. apply NoDup_app in Hd as (Hd0 & Hsep & Hd).
  assert (forall k l1, L !! k = Some l1 -> x ∈ l1 -> x ∈ concat L) as Hin.
  { intros k l1 Hk Hx1. destruct (concat_insert L k l1 [] Hk) as [_ ->]. set_solver. }
  destruct i as [|i], j as [|j]; cbn in Hi, Hj.
  - by injection Hi as ->.
  - injection Hi as ->. by destruct (Hsep x Hx (Hin j l' Hj Hx')).
  - injection Hj as ->. by destruct (Hsep x Hx' (Hin i l Hi Hx)).
  - by destruct (IH i j Hd Hi Hj Hx Hx') as [-> ?].
Qed.

Lemma NoDup_buckets own s V : heap_ok own s V -> NoDup (buckets V).
Proof. intros H. destruct (ho_descs _ _ _ H) as [Hd _]. apply NoDup_app in Hd as (Hd & _ & _). by apply NoDup_fmap_1 in Hd. Qed.

(** A bucket of the changed view is the new one or one of the others. *)
Lemma other_bucket own s V i l1 b b' l2 j l b0 :
  heap_ok own s V -> v_chains V !! i = Some (l1 ++ b :: l2) ->
  v_chains (V <| v_chains ::= <[i := l1 ++ b' ++ l2]> |>) !! j = Some l -> b0 ∈ l ->
  (j = i /\ b0 ∈ b') \/ (exists l0, v_chains V !! j = Some l0 /\ b0 ∈ l0 /\ b0 <> b).
Proof.
  intros H Hl Hj Hb0. pose proof (NoDup_buckets own s V H) as Hnd.
  destruct (lookup_chain V i _ _ j l Hl Hj) as [[-> ->]|[Hne Hlj]].
  - destruct (NoDup_concat _ i i _ _ b Hnd Hl Hl) as [_ Hn]; [set_solver..|].
    apply NoDup_app in Hn as (_ & H1 & [H2 _]%NoDup_cons).
    apply elem_of_app in Hb0 as [Hin|[Hin|Hin]%elem_of_app]; [|by left|].
    + right. exists (l1 ++ b :: l2). split; [done|]. split; [set_solver|]. intros ->. by apply (H1 b Hin), list_elem_of_here.
    + right. exists (l1 ++ b :: l2). split; [done|]. split; [set_solver|]. by intros ->.
  - right. exists l. split; [done|]. split; [done|]. intros ->.
    destruct (NoDup_concat _ j i _ _ b Hnd Hlj Hl Hb0) as [-> _]; [set_solver|done].
Qed.

(** What a change of memory keeps: it is confined to the descriptor of [b] (not its [next]) and
    to the page of [b]. *)
Definition confined (b : bucket) (m m' : gmap Z Z) : Prop :=
  forall a, a <> bk_desc b -> a <> bk_desc b + 8 -> a <> bk_desc b + 12 -> ~ (bk_page b <= a < bk_page b + 4096) -> ld m' a = ld m a.

Section Confined.
Context (own : Z -> Z) (s : heap) (V : view) (H : heap_ok own s V) (b : bucket) (Hb : b ∈ buckets V) (m' : gmap Z Z).
Context (Hm : confined b (hmem s) m').

Lemma confined_desc d c :
  d ∈ descs V -> c = 4 \/ d <> bk_desc b /\ 0 <= c < 16 -> ld m' (d + c) = ld (hmem s) (d + c).
Proof.
  intros Hd Hc. assert (forall c', 0 <= c' < 16 -> c' <> 4 -> d + c <> bk_desc b + c') as Hw.
  { intros c' Hc' Hn E. apply (desc_word own s V H d (bk_desc b)) in E as [-> ->]; [lia|done|by apply bdesc_in|lia|done]. }
  apply Hm; [specialize (Hw 0); lia|by apply Hw|by apply Hw|apply (desc_off_page own s V H d b c Hd Hb); lia].
Qed.

Lemma confined_next j l : v_chains V !! j = Some l -> seg 4 m' (chain_head l) (bk_desc <$> l).
Proof.
  intros Hj. apply (seg_ext _ (hmem s)); [|by apply (ho_chain _ _ _ H j)].
  intros d (b0 & -> & Hb0)%list_elem_of_fmap_1. apply confined_desc; [|by left]. by apply bdesc_in, (in_chain V j l).
Qed.

Lemma confined_spare : seg 4 m' (free_bucket_desc s) (v_spare V).
Proof.
  apply (seg_ext _ (hmem s)); [|apply (ho_spare _ _ _ H)]. intros d Hd. apply confined_desc; [by apply spare_in|by left].
Qed.

Lemma confined_bucket j z l b0 :
  sizes !! j = Some z -> v_chains V !! j = Some l -> b0 ∈ l -> b0 <> b -> bucket_ok m' z b0.
Proof.
  intros Hj Hl Hb0 Hne. pose proof (in_chain V j l b0 Hl Hb0) as Hin. apply (bucket_kept own s V _ j z l b0 H Hj Hl Hb0).
  - intros c Hc. apply confined_desc; [by apply bdesc_in|]. right. split; [|lia]. intros E.
    by apply Hne, (bucket_same_desc own s V H).
  - intros a Ha.
    assert (forall c, 0 <= c < 16 -> a <> bk_desc b + c) as Hw
      by (intros c Hc ->; by apply (desc_off_page own s V H (bk_desc b) b0 c); [apply bdesc_in|..]).
    apply Hm; [specialize (Hw 0); lia|by apply Hw|by apply Hw|].
    intros Ha'. by apply Hne, (bucket_same_page own s V H b0 b a).
Qed.
End Confined.

Lemma update_bucket own s s' V i sz l1 b b' l2 :
  heap_ok own s V -> sizes !! i = Some sz -> v_chains V !! i = Some (l1 ++ b :: l2) ->
  bk_desc b' = bk_desc b -> bk_page b' = bk_page b -> bucket_ok (hmem s') sz b' -> confined b (hmem s) (hmem s') ->
  wf own (h_mm s') -> HIGH_MEMORY (h_mm s') = HIGH_MEMORY (h_mm s) -> bucket_dir s' = bucket_dir s ->
  free_bucket_desc s' = free_bucket_desc s ->
  heap_ok own s' (V <| v_chains ::= <[i := l1 ++ b' :: l2]> |>).
Proof.
  intros H Hi Hl Ed Ep Hb' Hm W Eh Edir Espare. set (V' := V <| v_chains ::= _ |>).
  assert (b ∈ buckets V) as Hb by by apply (in_chain V i _ b Hl), mid_in.
  assert (bk_desc <$> buckets V' = bk_desc <$> buckets V) as Edescs by by apply (fmap_replace bk_desc _ _ _ b).
  assert (bk_page <$> buckets V' = bk_page <$> buckets V) as Epages by by apply (fmap_replace bk_page _ _ _ b).
  assert (forall j l, v_chains V' !! j = Some l -> exists l0, v_chains V !! j = Some l0 /\ bk_desc <$> l = bk_desc <$> l0) as Hold.
  { intros j l Hlj. destruct (lookup_chain V i _ _ j l Hl Hlj) as [[-> ->]|[_ Hlj']]; [|eauto].
    exists (l1 ++ b :: l2). by rewrite !fmap_app, !fmap_cons, Ed. }
  split.
  - done.
  - rewrite Edir. cbn. rewrite length_insert. apply (ho_len _ _ _ H).
  - rewrite Edir. apply (ho_end _ _ _ H).
  - intros j z l Hj (l0 & Hl0 & E0)%Hold. rewrite Edir. unfold chain_head. rewrite E0. exact (ho_dir _ _ _ H j z l0 Hj Hl0).
  - intros j l (l0 & Hl0 & E0)%Hold. unfold chain_head. rewrite E0. exact (confined_next own s V H b Hb _ Hm j l0 Hl0).
  - intros j z l b0 Hj Hlj Hb0.
    destruct (other_bucket own s V i l1 b [b'] l2 j l b0 H Hl Hlj Hb0) as [[-> ->%list_elem_of_singleton]|(l0 & Hl0 & Hin & Hne)].
    + congruence.
    + by apply (confined_bucket own s V H b Hb _ Hm j z l0).
  - rewrite Espare. by apply (confined_spare own s V H b).
  - unfold descs. rewrite Edescs. apply (ho_descs _ _ _ H).
  - unfold pages. rewrite Epages. destruct (ho_pages _ _ _ H) as [Hnd Hp]. split; [done|].
    intros p Hpp. unfold main. rewrite Eh. by apply Hp.
Qed.

(** ** Taking and returning an object *)

(** The free objects of a bucket are fewer than the objects, and not null. *)
Lemma object_count i sz p l : sizes !! i = Some sz -> NoDup l -> Forall (object sz p) l -> Z.of_nat (length l) <= 4096 / sz.
Proof.
  intros Hi Hnd Hin. destruct (size_facts i sz Hi) as (_ & Hs & _ & _ & Hn).
  assert (l ⊆ (fun k => p + k * sz) <$> seqZ 0 (4096 / sz)) as Hsub.
  { intros o Ho. destruct (proj1 (Forall_forall _ _) Hin o Ho) as (k & Hk & ->).
    apply (list_elem_of_fmap_2 (fun k => p + k * sz)), elem_of_seqZ_iff. lia. }
  pose proof (NoDup_submseteq _ _ Hnd Hsub) as Hsm. apply submseteq_length in Hsm. rewrite length_fmap, length_seqZ in Hsm. lia.
Qed.

Lemma free_count m i sz b : sizes !! i = Some sz -> bucket_ok m sz b -> Z.of_nat (length (bk_free b)) <= 4096 / sz.
Proof. intros Hi [_ _ _ Hnd Hin]. by apply (object_count i sz (bk_page b)). Qed.

Lemma count_word m i sz b :
  sizes !! i = Some sz -> bucket_ok m sz b ->
  u16 (ld m (bk_desc b + 12)) = 4096 / sz - Z.of_nat (length (bk_free b)) /\ Z.shiftr (ld m (bk_desc b + 12)) 16 = sz.
Proof.
  intros Hi Hb. pose proof (free_count m i sz b Hi Hb). rewrite (bo_count _ _ _ Hb).
  destruct (size_facts i sz Hi) as (_ & Hs & _ & _ & Hn). apply halves; lia.
Qed.

Lemma ld_poke_ne a v s x : a <> x -> ld (hmem (poke a v s)) x = ld (hmem s) x.
Proof. apply ld_insert_ne. Qed.

Lemma ld_poke_eq a v s : ld (hmem (poke a v s)) a = v.
Proof. apply ld_insert_eq. Qed.

Lemma take_object_ok own s V i sz l1 b o fl l2 :
  heap_ok own s V -> sizes !! i = Some sz -> v_chains V !! i = Some (l1 ++ b :: l2) -> bk_free b = o :: fl ->
  exists s', take_object (bk_desc b) s = (Ret o, s') /\
    heap_ok own s' (V <| v_chains ::= <[i := l1 ++ b <| bk_free := fl |> :: l2]> |>) /\
    (forall a, a <> bk_desc b + 8 -> a <> bk_desc b + 12 -> ld (hmem s') a = ld (hmem s) a) /\
    mem_map (h_mm s') = mem_map (h_mm s) /\ HIGH_MEMORY (h_mm s') = HIGH_MEMORY (h_mm s).
Proof.
  intros H Hi Hl Ef. assert (b ∈ buckets V) as Hb by by apply (in_chain V i _ b Hl), mid_in.
  pose proof (ho_bucket _ _ _ H i sz _ b Hi Hl (mid_in l1 b l2)) as Hbk.
  destruct (count_word _ i sz b Hi Hbk) as [Ecnt Esz]. pose proof (free_count _ i sz b Hi Hbk) as Hcnt.
  destruct (size_facts i sz Hi) as (_ & Hs & _ & _ & Hn).
  pose proof Hbk as [Bp Bc Bf Bn Bi]. rewrite Ef in *. destruct Bf as [E8 Bf]. rewrite Z.add_0_r in Bf. cbn [length] in *.
  apply NoDup_cons in Bn as [Bno Bn]. apply Forall_cons in Bi as [Bio Bi].
  pose proof (object_range i sz _ o Hi Bio) as Ho. set (d := bk_desc b) in *.
  assert (forall c a, 0 <= c < 16 -> bk_page b <= a < bk_page b + 4096 -> d + c <> a) as Hoff.
  { intros c a Hc Ha E. apply (desc_off_page own s V H d b c (bdesc_in V b Hb) Hb Hc). by rewrite E. }
  unfold take_object, bd_freeptr, set_bd_freeptr. mrun (lift_ldw (d + 8) s). rewrite E8. mrun (lift_ldw o s).
  mrun (lift_stw (d + 8) (ld (hmem s) o) s). set (s1 := poke _ _ s). mrun (refcnt_run d s1). mrun (set_refcnt_run d (u16 (ld (hmem s1) (d + 12)) + 1) s1).
  assert (ld (hmem s1) (d + 12) = ld (hmem s) (d + 12)) as E12 by (apply ld_poke_ne; lia). rewrite E12, Ecnt, Esz.
  set (s2 := poke _ _ s1). exists s2.
  assert (forall a, a <> d + 8 -> a <> d + 12 -> ld (hmem s2) a = ld (hmem s) a) as Hm
    by (intros a H8 H12; unfold s2, s1; by rewrite !ld_poke_ne).
  split; [done|]. split; [|done].
  apply (update_bucket own s s2 V i sz l1 b _ l2 H Hi Hl); [done|done| | | |done..].
  - set (b' := b <| bk_free := fl |>). split; change (bk_desc b') with d; change (bk_page b') with (bk_page b); change (bk_free b') with fl.
    + rewrite Hm by lia. done.
    + unfold s2. rewrite ld_poke_eq, u16_small by lia. lia.
    + replace (ld (hmem s2) (d + 8)) with (ld (hmem s) o) by (unfold s2, s1; by rewrite ld_poke_ne, ld_poke_eq by lia).
      apply (seg_ext _ (hmem s)); [|done].
      intros x Hx. pose proof (object_range i sz _ x Hi (proj1 (Forall_forall _ _) Bi x Hx)).
      apply Hm; intros E; symmetry in E; revert E; apply Hoff; lia.
    + done.
    + done.
  - intros a _ H8 H12 _. by apply Hm.
  - apply (wf_poke_desc own s V own s1 d 12); [done|by apply bdesc_in|lia|done|done|].
    apply (wf_poke_desc own s V own s d 8); [done|by apply bdesc_in|lia|done|done|apply (ho_wf _ _ _ H)].
Qed.

Lemma put_object_ok own s V i sz l1 b o l2 :
  heap_ok own s V -> sizes !! i = Some sz -> v_chains V !! i = Some (l1 ++ b :: l2) ->
  object sz (bk_page b) o -> o ∉ bk_free b ->
  exists s', put_object o (bk_desc b) s = (Ret tt, s') /\
    heap_ok own s' (V <| v_chains ::= <[i := l1 ++ b <| bk_free ::= cons o |> :: l2]> |>) /\
    (forall a, a <> bk_desc b + 8 -> a <> bk_desc b + 12 -> a <> o -> ld (hmem s') a = ld (hmem s) a) /\
    mem_map (h_mm s') = mem_map (h_mm s) /\ HIGH_MEMORY (h_mm s') = HIGH_MEMORY (h_mm s).
Proof.
  intros H Hi Hl Hobj Hno. assert (b ∈ buckets V) as Hb by by apply (in_chain V i _ b Hl), mid_in.
  pose proof (ho_bucket _ _ _ H i sz _ b Hi Hl (mid_in l1 b l2)) as Hbk.
  destruct (count_word _ i sz b Hi Hbk) as [Ecnt Esz]. destruct (size_facts i sz Hi) as (_ & Hs & _ & _ & Hn).
  pose proof Hbk as [Bp Bc Bf Bn Bi].
  assert (NoDup (o :: bk_free b)) as Bn' by by apply NoDup_cons. assert (Forall (object sz (bk_page b)) (o :: bk_free b)) as Bi' by by apply Forall_cons.
  pose proof (object_count i sz _ _ Hi Bn' Bi') as Hcnt. cbn [length] in Hcnt.
  pose proof (object_range i sz _ o Hi Hobj) as Ho. set (d := bk_desc b) in *.
  assert (forall c a, 0 <= c < 16 -> bk_page b <= a < bk_page b + 4096 -> a <> d + c) as Hoff.
  { intros c a Hc Ha ->. by apply (desc_off_page own s V H d b c (bdesc_in V b Hb) Hb Hc). }
  unfold put_object, bd_freeptr, set_bd_freeptr. mrun (lift_ldw (d + 8) s). set (f := ld (hmem s) (d + 8)) in *.
  mrun (lift_stw o f s). set (s1 := poke o f s). mrun (lift_stw (d + 8) o s1). set (s2 := poke (d + 8) o s1).
  mrun (refcnt_run d s2). rewrite (set_refcnt_run d (u16 (ld (hmem s2) (d + 12)) - 1) s2).
  assert (ld (hmem s2) (d + 12) = ld (hmem s) (d + 12)) as E12 by (unfold s2, s1; rewrite !ld_poke_ne; [done|apply Hoff; lia|lia]).
  rewrite E12, Ecnt, Esz. set (s3 := poke _ _ s2). exists s3.
  assert (forall a, a <> d + 8 -> a <> d + 12 -> a <> o -> ld (hmem s3) a = ld (hmem s) a) as Hm
    by (intros a H8 H12 H0; unfold s3, s2, s1; by rewrite !ld_poke_ne).
  split; [done|]. split; [|done].
  apply (update_bucket own s s3 V i sz l1 b _ l2 H Hi Hl); [done|done| | | |done..].
  - set (b' := b <| bk_free ::= cons o |>).
    split; change (bk_desc b') with d; change (bk_page b') with (bk_page b); change (bk_free b') with (o :: bk_free b).
    + rewrite Hm; [done|lia|lia|]. pose proof (Hoff 0 o). lia.
    + unfold s3. rewrite ld_poke_eq, u16_small by lia. cbn [length]. lia.
    + replace (ld (hmem s3) (d + 8)) with o by (unfold s3, s2; by rewrite ld_poke_ne, ld_poke_eq by lia). split; [done|].
      rewrite Z.add_0_r. replace (ld (hmem s3) o) with f.
      2: { unfold s3, s2, s1. pose proof (Hoff 8 o). pose proof (Hoff 12 o). rewrite !ld_poke_ne, ld_poke_eq by lia. done. }
      apply (seg_ext _ (hmem s)); [|done].
      intros x Hx. pose proof (object_range i sz _ x Hi (proj1 (Forall_forall _ _) Bi x Hx)). rewrite Z.add_0_r.
      apply Hm; [apply Hoff; lia|apply Hoff; lia|by intros ->].
    + done.
    + done.
  - intros a _ H8 H12 Hp. apply Hm; [done|done|]. intros ->. apply Hp. lia.
  - apply (wf_poke_desc own s V own s2 d 12); [done|by apply bdesc_in|lia|done|done|].
    apply (wf_poke_desc own s V own s1 d 8); [done|by apply bdesc_in|lia|done|done|].
    apply (wf_poke_page own s V own s (bk_page b)); [done|by apply bpage_in|lia|done|done|apply (ho_wf _ _ _ H)].
Qed.
