(* ===== verification/MallocSpec.v ===== *)
(** The kernel's allocator: [malloc] returns memory that nothing else uses and [free_s] gives it
    back.  New pages of descriptors and of objects, the searches of the chains, and the
    theorems on the two operations. *)

From S2P Require Import Prelude Memory MemoryInv MemoryOps MemoryInit Malloc MallocInv.

(** ** New pages *)

(** [n] addresses from [d] on, [st] apart. *)
Fixpoint spaced (d st : Z) (n : nat) : list Z :=
  match n with O => [] | S n => d :: spaced (d + st) st n end.

Lemma in_spaced d st n x : x ∈ spaced d st n <-> exists k, 0 <= k < Z.of_nat n /\ x = d + k * st.
Proof.
  revert d. induction n as [|n IH]; intros d; cbn [spaced].
  - split; [by intros ?%not_elem_of_nil|intros (k & Hk & _); lia].
  - rewrite elem_of_cons, IH. split.
    + intros [->|(k & Hk & ->)]; [exists 0; lia|exists (k + 1); lia].
    + intros (k & Hk & ->). destruct (decide (k = 0)) as [->|]; [left; lia|right; exists (k - 1); lia].
Qed.

Lemma NoDup_spaced d st n : 0 < st -> NoDup (spaced d st n).
Proof.
  intros Hst. revert d. induction n as [|n IH]; intros d; [constructor|]. apply NoDup_cons. split; [|apply IH].
  intros (k & Hk & E)%in_spaced. nia.
Qed.

Lemma length_spaced d st n : length (spaced d st n) = n.
Proof. revert d. induction n as [|n IH]; intros d; [done|]. cbn. by rewrite IH. Qed.

(** Memory after the loops that link [n] of them to the next. *)
Fixpoint links (off st : Z) (n : nat) (d : Z) (m : gmap Z Z) : gmap Z Z :=
  match n with O => m | S n => links off st n (d + st) (<[d + off := d + st]> m) end.

Lemma links_out off st n d m a :
  (forall k, 0 <= k < Z.of_nat n -> a <> d + k * st + off) -> ld (links off st n d m) a = ld m a.
Proof.
  revert d m. induction n as [|n IH]; intros d m Ha; [done|]. cbn [links]. rewrite IH.
  - apply ld_insert_ne. intros E. apply (Ha 0); lia.
  - intros k Hk E. apply (Ha (k + 1)); lia.
Qed.

Lemma links_in off st n d m k :
  0 < st -> 0 <= k < Z.of_nat n -> ld (links off st n d m) (d + k * st + off) = d + (k + 1) * st.
Proof.
  intros Hst. revert d m k. induction n as [|n IH]; intros d m k Hk; [lia|]. cbn [links].
  destruct (decide (k = 0)) as [->|].
  - rewrite links_out by (intros k Hk'; nia). replace (d + 0 * st + off) with (d + off) by lia. rewrite ld_insert_eq. lia.
  - replace (d + k * st + off) with (d + st + (k - 1) * st + off) by lia. rewrite IH by lia. lia.
Qed.

Lemma seg_spaced off st n d m x rest :
  (forall k, 0 <= k < Z.of_nat n -> ld m (d + k * st + off) = d + (k + 1) * st) ->
  ld m (d + Z.of_nat n * st + off) = x -> seg off m x rest -> seg off m d (spaced d st (S n) ++ rest).
Proof.
  revert d. induction n as [|n IH]; intros d Hk Hx Hr.
  - cbn. split; [done|]. replace (d + off) with (d + Z.of_nat 0 * st + off) by lia. by rewrite Hx.
  - change (spaced d st (S (S n))) with (d :: spaced (d + st) st (S n)). split; [done|].
    replace (ld m (d + off)) with (d + st).
    + replace (d + Z.of_nat (S n) * st + off) with (d + st + Z.of_nat n * st + off) in Hx by lia.
      apply IH; [|done|done]. intros k Hk'. specialize (Hk (k + 1)).
      replace (d + st + k * st + off) with (d + (k + 1) * st + off) by lia. rewrite Hk by lia. lia.
    + specialize (Hk 0). replace (d + off) with (d + 0 * st + off) by lia. rewrite Hk by lia. lia.
Qed.

Definition with_mem (m : gmap Z Z) (s : heap) : heap := s <| h_mm ::= fun x => x <| mem := m |> |>.

Lemma link_descs_run n d s :
  link_descs n d s = (Ret (d + 16 * Z.of_nat n), with_mem (links 4 16 n d (hmem s)) s).
Proof.
  revert d s. induction n as [|n IH]; intros d s.
  - cbn [link_descs links]. replace (d + 16 * Z.of_nat 0) with d by lia. by destruct s as [[]].
  - cbn [link_descs]. unfold set_bd_next. mrun (lift_stw (d + 4) (d + SIZEOF_DESC) s). rewrite IH. change SIZEOF_DESC with 16.
    by replace (d + 16 + 16 * Z.of_nat n) with (d + 16 * Z.of_nat (S n)) by lia.
Qed.

Lemma link_objects_run n d sz s :
  link_objects n d sz s = (Ret tt, with_mem (<[d + Z.of_nat n * sz := 0]> (links 0 sz n d (hmem s))) s).
Proof.
  revert d s. induction n as [|n IH]; intros d s.
  - cbn [link_objects]. rewrite lift_stw. cbn [links]. by replace (d + Z.of_nat 0 * sz) with d by lia.
  - cbn [link_objects]. mrun (lift_stw d (d + sz) s). rewrite IH. cbn [links].
    replace (d + sz + Z.of_nat n * sz) with (d + Z.of_nat (S n) * sz) by lia. by rewrite Z.add_0_r.
Qed.

Lemma fresh_page own s V p : heap_ok own s V -> main (h_mm s) p -> cnt (h_mm s) p = 0 -> p ∉ pages V.
Proof.
  intros H Hm Hc Hp. destruct (page_main own s V H p Hp) as (_ & _ & _ & Ho).
  pose proof (wf_cnt _ _ (ho_wf _ _ _ H) p Hm). pose proof (refs_nonneg (mem (h_mm s)) p). lia.
Qed.

(** A page that the allocator does not hold is apart from its descriptors and buckets. *)
Lemma fresh_apart own s V p d c :
  heap_ok own s V -> p mod 4096 = 0 -> p ∉ pages V -> d ∈ descs V -> 0 <= c < 16 -> ~ (p <= d + c < p + 4096).
Proof.
  intros H Hal Hno Hd Hc Ha. apply Hno. destruct (desc_place own s V H d Hd) as (_ & q & Hq & Hr).
  pose proof (dpage_in V q Hq) as Hqp. destruct (page_main own s V H q Hqp) as [Hqal _].
  by rewrite (page_apart p q (d + c)) by (done || lia).
Qed.

Lemma fresh_apart_page own s V p b a :
  heap_ok own s V -> p mod 4096 = 0 -> p ∉ pages V -> b ∈ buckets V -> bk_page b <= a < bk_page b + 4096 -> ~ (p <= a < p + 4096).
Proof.
  intros H Hal Hno Hb Ha Ha'. apply Hno. destruct (page_main own s V H _ (bpage_in V b Hb)) as [Hbal _].
  rewrite (page_apart p (bk_page b) a) by done. by apply bpage_in.
Qed.

(** [get_free_page] for the allocator: no frame is free, or a fresh one is returned. *)
Definition full (s : heap) : Prop := forall f, main (h_mm s) f -> cnt (h_mm s) f <> 0.
Definition allocated (p : Z) (s : heap) : heap := s <| h_mm ::= (fun m => alloc_state m p) |>.

Lemma page_run own s :
  wf own (h_mm s) ->
  (lift get_free_page s = (Ret 0, s) /\ full s) \/
  (exists p, lift get_free_page s = (Ret p, allocated p s) /\ main (h_mm s) p /\ cnt (h_mm s) p = 0 /\ p <> 0 /\
     wf (bump own p 1) (h_mm (allocated p s)) /\
     forall a, ~ (p <= a < p + 4096) -> ld (hmem (allocated p s)) a = ld (hmem s) a).
Proof.
  intros W. unfold lift. destruct (get_free_page_cases own _ W) as [[-> Hn]|(p & -> & Hm & Hc & _)].
  - left. by destruct s.
  - right. exists p. split; [done|]. split; [done|]. split; [done|]. split; [destruct Hm as [_ [Hl _]]; unfold LOW_MEM in Hl; lia|].
    split; [by apply alloc_wf|]. intros a Ha. exact (stosl_page_other p a (hmem s) Ha).
Qed.

(** What a change of memory outside of the allocator's pages keeps. *)
Lemma outside_page own s V m' p :
  heap_ok own s V -> p mod 4096 = 0 -> p ∉ pages V -> (forall a, ~ (p <= a < p + 4096) -> ld m' a = ld (hmem s) a) ->
  (forall d c, d ∈ descs V -> 0 <= c < 16 -> ld m' (d + c) = ld (hmem s) (d + c)) /\
  (forall b a, b ∈ buckets V -> bk_page b <= a < bk_page b + 4096 -> ld m' a = ld (hmem s) a).
Proof.
  intros H Hp Hno Hm. split.
  - intros d c Hd Hc. by apply Hm, (fresh_apart own s V p d c H).
  - intros b a Hb Ha. by apply Hm, (fresh_apart_page own s V p b a H).
Qed.

Lemma bump_ge own p q : 1 <= own q -> 1 <= bump own p 1 q.
Proof. unfold bump. destruct (q =? p); lia. Qed.

(** A new page of spare descriptors. *)
Lemma add_dpage own s V p s' n :
  heap_ok own s V -> main (h_mm s) p -> cnt (h_mm s) p = 0 -> Z.of_nat n <= 256 ->
  (forall a, ~ (p <= a < p + 4096) -> ld (hmem s') a = ld (hmem s) a) ->
  seg 4 (hmem s') (free_bucket_desc s') (spaced p 16 n ++ v_spare V) ->
  wf (bump own p 1) (h_mm s') -> HIGH_MEMORY (h_mm s') = HIGH_MEMORY (h_mm s) -> bucket_dir s' = bucket_dir s ->
  heap_ok (bump own p 1) s' (V <| v_spare ::= app (spaced p 16 n) |> <| v_dpages ::= cons p |>).
Proof.
  intros H Hp Hc Hn Hm Hs W Eh Edir. pose proof (fresh_page own s V p H Hp Hc) as Hno.
  destruct (outside_page own s V _ p H (proj1 Hp) Hno Hm) as [Hdesc Hpage].
  set (V' := V <| v_spare ::= _ |> <| v_dpages ::= _ |>). split.
  - done.
  - rewrite Edir. apply (ho_len _ _ _ H).
  - rewrite Edir. apply (ho_end _ _ _ H).
  - rewrite Edir. apply (ho_dir _ _ _ H).
  - intros j l Hj. apply (seg_ext _ (hmem s)); [|by apply (ho_chain _ _ _ H j)].
    intros d (b & -> & Hb)%list_elem_of_fmap_1. apply Hdesc; [|lia]. by apply bdesc_in, (in_chain V j l).
  - intros j z l b Hj Hl Hb. pose proof (in_chain V j l b Hl Hb) as Hin. apply (bucket_kept own s V _ j z l b H Hj Hl Hb).
    + intros c Hc'. apply Hdesc; [by apply bdesc_in|lia].
    + intros a. by apply Hpage.
  - done.
  - destruct (ho_descs _ _ _ H) as [Hnd Hin].
    assert (forall d, d ∈ descs V -> d ∉ spaced p 16 n) as Hdis.
    { intros d Hd (k & Hk & E)%in_spaced. destruct (Hin d Hd) as (q & k' & Hq & Hk' & E'). apply Hno.
      pose proof (dpage_in V q Hq) as Hqp. destruct (page_main own s V H q Hqp) as [Hqal _].
      destruct Hp as [Hpal _]. by rewrite (page_apart p q d) by (done || lia). }
    split.
    + change (NoDup ((bk_desc <$> buckets V) ++ spaced p 16 n ++ v_spare V)). unfold descs in *.
      rewrite (Permutation_app_swap_app (bk_desc <$> buckets V)). apply NoDup_app. split; [by apply NoDup_spaced|].
      split; [|done]. intros x Hx Hx'. by apply (Hdis x).
    + intros d Hd. change (d ∈ (bk_desc <$> buckets V) ++ spaced p 16 n ++ v_spare V) in Hd. rewrite !elem_of_app in Hd.
      assert (d ∈ spaced p 16 n \/ d ∈ descs V) as [(k & Hk & ->)%in_spaced|(q & k & Hq & Hk & ->)%Hin].
      { unfold descs. rewrite elem_of_app. tauto. }
      * exists p, k. split; [apply list_elem_of_here|lia].
      * exists q, k. split; [by apply list_elem_of_further|lia].
  - destruct (ho_pages _ _ _ H) as [Hnd Hin]. split.
    + change (NoDup ((bk_page <$> buckets V) ++ p :: v_dpages V)). rewrite <- Permutation_middle. by apply NoDup_cons.
    + intros q Hq. change (q ∈ (bk_page <$> buckets V) ++ p :: v_dpages V) in Hq. unfold main. rewrite Eh.
      rewrite <- Permutation_middle in Hq. apply elem_of_cons in Hq as [->|Hq].
      * split; [done|]. unfold bump. rewrite Z.eqb_refl. pose proof (wf_own _ _ (ho_wf _ _ _ H) p). lia.
      * destruct (Hin q Hq). split; [done|]. by apply bump_ge.
Qed.

Definition DESCS : nat := 256.

Lemma init_bucket_desc_ok own s V :
  heap_ok own s V ->
  (init_bucket_desc s = (Panic "Out of memory in init_bucket_desc()", s) /\ full s) \/
  (exists p s', init_bucket_desc s = (Ret tt, s') /\ main (h_mm s) p /\ cnt (h_mm s) p = 0 /\
     heap_ok (bump own p 1) s' (V <| v_spare ::= app (spaced p 16 DESCS) |> <| v_dpages ::= cons p |>) /\
     (forall a, ~ (p <= a < p + 4096) -> ld (hmem s') a = ld (hmem s) a) /\ HIGH_MEMORY (h_mm s') = HIGH_MEMORY (h_mm s)).
Proof.
  intros H. unfold init_bucket_desc.
  destruct (page_run own s (ho_wf _ _ _ H)) as [[E Hfull]|(p & E & Hp & Hc & Hp0 & W & Hout)]; mrun E.
  { by left. }
  right. rewrite (proj2 (Z.eqb_neq _ _) Hp0). set (s1 := allocated p s) in *.
  mrun (link_descs_run (Z.to_nat (PAGE_SIZE / SIZEOF_DESC - 1)) p s1).
  assert (exists n, Z.to_nat (PAGE_SIZE / SIZEOF_DESC - 1) = n /\ DESCS = S n /\ Z.of_nat n = 255) as (n & -> & -> & Hn) by by exists 255%nat.
  set (s2 := with_mem _ s1). rewrite bind_get. unfold set_bd_next.
  mrun (lift_stw (p + 16 * Z.of_nat n + 4) (free_bucket_desc s2) s2). set (s3 := poke _ _ s2).
  set (s4 := s3 <| free_bucket_desc := p |>). exists p, s4. split; [done|]. split; [done|]. split; [done|].
  assert (hmem s4 = <[p + 16 * Z.of_nat n + 4 := free_bucket_desc s]> (links 4 16 n p (hmem s1))) as E4 by done.
  assert (forall a, ~ (p <= a < p + 4096) -> ld (hmem s4) a = ld (hmem s1) a) as Hm1.
  { intros a Ha. rewrite E4, ld_insert_ne, links_out by (intros; lia). done. }
  assert (forall a, ~ (p <= a < p + 4096) -> ld (hmem s4) a = ld (hmem s) a) as Hm by (intros a Ha; by rewrite Hm1, Hout).
  split; [|by split]. apply (add_dpage own s); [done|done|done|lia|done| | |done|done].
  - change (free_bucket_desc s4) with p. apply (seg_spaced 4 16 n p _ (free_bucket_desc s)).
    + intros k Hk. rewrite E4, ld_insert_ne by lia. apply links_in; lia.
    + rewrite E4. replace (p + Z.of_nat n * 16 + 4) with (p + 16 * Z.of_nat n + 4) by lia. apply ld_insert_eq.
    + apply (seg_ext _ (hmem s)); [|apply (ho_spare _ _ _ H)]. intros d Hd. destruct Hp as [Hal Hr].
      destruct (outside_page own s V _ p H Hal (fresh_page own s V p H (conj Hal Hr) Hc) Hm) as [Hdesc _].
      apply Hdesc; [by apply spare_in|lia].
  - apply (wf_page (bump own p 1) (h_mm s1) (hmem s4) p W); [done| |done].
    unfold bump. rewrite Z.eqb_refl. pose proof (wf_own _ _ (ho_wf _ _ _ H) p). lia.
Qed.

(** A bucket at the head of a chain, or one less in it. *)
Lemma concat_cons {A B} (f : A -> B) (L : list (list A)) i l1 b l2 :
  L !! i = Some (l1 ++ l2) -> f <$> concat (<[i := l1 ++ b :: l2]> L) ≡ₚ f b :: (f <$> concat L).
Proof.
  intros Hi. destruct (concat_insert L i _ (l1 ++ b :: l2) Hi) as [-> ->].
  rewrite <- fmap_cons. apply fmap_Permutation. rewrite <- !app_assoc. cbn [app].
  rewrite (app_assoc (concat (take i L))), <- Permutation_middle. by rewrite <- app_assoc.
Qed.

Section AddBucket.
Context (own : Z -> Z) (s s' : heap) (V : view) (d p sz : Z) (sp : list Z) (i n : nat) (l : list bucket).
Context (H : heap_ok own s V) (Hsp : v_spare V = d :: sp) (Hp : main (h_mm s) p) (Hc : cnt (h_mm s) p = 0).
Context (Hi : sizes !! i = Some sz) (Hl : v_chains V !! i = Some l) (Hn : Z.of_nat n = 4096 / sz).
Context (Hm : forall a, ~ (d <= a < d + 16) -> ~ (p <= a < p + 4096) -> ld (hmem s') a = ld (hmem s) a).
Context (Hd0 : ld (hmem s') d = p) (Hd4 : ld (hmem s') (d + 4) = chain_head l) (Hd8 : ld (hmem s') (d + 8) = p).
Context (Hd12 : ld (hmem s') (d + 12) = 65536 * sz) (Hseg : seg 0 (hmem s') p (spaced p sz n)).
Context (W : wf (bump own p 1) (h_mm s')) (Eh : HIGH_MEMORY (h_mm s') = HIGH_MEMORY (h_mm s)).
Context (Edir : bucket_dir s' = <[i := (sz, d)]> (bucket_dir s)) (Espare : free_bucket_desc s' = ld (hmem s) (d + 4)).

Let nb := mk_bucket d p (spaced p sz n).
Let V' := V <| v_chains ::= <[i := nb :: l]> |> <| v_spare := sp |>.

Lemma add_spare : d ∈ v_spare V.
Proof. rewrite Hsp. apply list_elem_of_here. Qed.

Lemma add_desc d' c : d' ∈ descs V -> d' <> d -> 0 <= c < 16 -> ld (hmem s') (d' + c) = ld (hmem s) (d' + c).
Proof.
  intros Hd' Hne Hc'. apply Hm.
  - intros Hr. destruct (desc_word own s V H d' d c (d' + c - d) Hd' (spare_in V d add_spare)); [lia..|done].
  - by apply (fresh_apart own s V p d' c H (proj1 Hp) (fresh_page own s V p H Hp Hc)).
Qed.

Lemma add_page b a : b ∈ buckets V -> bk_page b <= a < bk_page b + 4096 -> ld (hmem s') a = ld (hmem s) a.
Proof.
  intros Hb Ha. apply Hm.
  - intros Hr. apply (desc_off_page own s V H d b (a - d) (spare_in V d add_spare) Hb); lia.
  - by apply (fresh_apart_page own s V p b a H (proj1 Hp) (fresh_page own s V p H Hp Hc)).
Qed.

Lemma add_other b : b ∈ buckets V -> bk_desc b <> d.
Proof.
  intros Hb E. destruct (ho_descs _ _ _ H) as [Hnd _]. unfold descs in Hnd. apply NoDup_app in Hnd as (_ & Hnd & _).
  apply (Hnd (bk_desc b)); [by apply list_elem_of_fmap_2|]. rewrite E. apply add_spare.
Qed.

Lemma add_chain j l0 : v_chains V !! j = Some l0 -> seg 4 (hmem s') (chain_head l0) (bk_desc <$> l0).
Proof.
  intros Hj. apply (seg_ext _ (hmem s)); [|by apply (ho_chain _ _ _ H j)].
  intros x (b & -> & Hb)%list_elem_of_fmap_1. pose proof (in_chain V j l0 b Hj Hb). apply add_desc; [by apply bdesc_in|by apply add_other|lia].
Qed.

Lemma add_bucket : heap_ok (bump own p 1) s' V'.
Proof.
  pose proof (lookup_lt_Some _ _ _ Hl) as Hlt. destruct (ho_len _ _ _ H) as [Hlen Hlen'].
  destruct (size_facts i sz Hi) as (Hi9 & Hsz & _ & E4096 & _).
  assert (forall j l0, v_chains V' !! j = Some l0 -> (j = i /\ l0 = nb :: l) \/ (j <> i /\ v_chains V !! j = Some l0)) as Hcase
    by exact (fun j l0 Hj => lookup_chain V i l (nb :: l) j l0 Hl Hj).
  split.
  - done.
  - rewrite Edir. cbn. by rewrite !length_insert.
  - rewrite Edir, list_lookup_insert_ne by lia. apply (ho_end _ _ _ H).
  - intros j z l0 Hj [[-> ->]|[Hne Hl0]]%Hcase; rewrite Edir.
    + rewrite list_lookup_insert_eq by lia. cbn. congruence.
    + rewrite list_lookup_insert_ne by done. by apply (ho_dir _ _ _ H).
  - intros j l0 [[-> ->]|[Hne Hl0]]%Hcase; [|by apply (add_chain j)]. split; [done|]. cbn [nb bk_desc]. rewrite Hd4. by apply (add_chain i).
  - intros j z l0 b Hj Hl0 Hb.
    assert ((j = i /\ b = nb) \/ exists l1, v_chains V !! j = Some l1 /\ b ∈ l1) as [[-> ->]|(l1 & Hl1 & Hb1)].
    { destruct (Hcase j l0 Hl0) as [[-> ->]|[_ Hl0']]; [|eauto]. apply elem_of_cons in Hb as [->|Hb]; eauto. }
    + assert (z = sz) as -> by congruence. split; cbn [nb bk_desc bk_page bk_free].
      * done.
      * rewrite Hd12, length_spaced. lia.
      * by rewrite Hd8.
      * apply NoDup_spaced. lia.
      * apply Forall_forall. intros o (k & Hk & ->)%in_spaced. exists k. split; [lia|done].
    + pose proof (in_chain V j l1 b Hl1 Hb1) as Hin. apply (bucket_kept own s V _ j z l1 b H Hj Hl1 Hb1).
      * intros c Hc'. apply add_desc; [by apply bdesc_in|by apply add_other|lia].
      * intros a. by apply add_page.
  - rewrite Espare. pose proof (ho_spare _ _ _ H) as Hs. rewrite Hsp in Hs. destruct Hs as [_ Hs].
    destruct (ho_descs _ _ _ H) as [Hnd _]. unfold descs in Hnd. rewrite Hsp in Hnd.
    apply NoDup_app in Hnd as (_ & _ & [Hd _]%NoDup_cons).
    apply (seg_ext _ (hmem s)); [|done]. intros x Hx. apply add_desc; [|by intros ->|lia].
    apply spare_in. rewrite Hsp. by apply list_elem_of_further.
  - assert (descs V' ≡ₚ descs V) as E.
    { unfold descs. rewrite Hsp, <- Permutation_middle. cbn. change (nb :: l) with ([] ++ nb :: l).
      by rewrite (concat_cons bk_desc (v_chains V) i [] nb l Hl). }
    destruct (ho_descs _ _ _ H) as [Hnd Hin]. split; [by rewrite E|]. intros x. rewrite E. apply Hin.
  - assert (pages V' ≡ₚ p :: pages V) as E.
    { unfold pages. change (buckets V') with (concat (<[i := [] ++ nb :: l]> (v_chains V))).
      by rewrite (concat_cons bk_page (v_chains V) i [] nb l Hl). }
    destruct (ho_pages _ _ _ H) as [Hnd Hin]. split.
    + rewrite E. apply NoDup_cons. split; [|done]. by apply (fresh_page own s V p H).
    + intros q. rewrite E, elem_of_cons. unfold main. rewrite Eh. intros [->|Hq].
      * split; [done|]. unfold bump. rewrite Z.eqb_refl. pose proof (wf_own _ _ (ho_wf _ _ _ H) p). lia.
      * destruct (Hin q Hq). split; [done|]. by apply bump_ge.
Qed.
End AddBucket.

(** A spare descriptor, if need be from a new page. *)
Lemma spare_ok own s V :
  heap_ok own s V ->
  (exists s', when (free_bucket_desc s =? 0) init_bucket_desc s = (Panic "Out of memory in init_bucket_desc()", s') /\ full s') \/
  (exists own' s' V' d sp, when (free_bucket_desc s =? 0) init_bucket_desc s = (Ret tt, s') /\ heap_ok own' s' V' /\
     v_spare V' = d :: sp /\ v_chains V' = v_chains V /\ (forall p, p ∈ pages V -> p ∈ pages V') /\
     (forall b a, b ∈ buckets V -> bk_page b <= a < bk_page b + 4096 -> ld (hmem s') a = ld (hmem s) a)).
Proof.
  intros H. pose proof (ho_spare _ _ _ H) as Hs. destruct (v_spare V) as [|d sp] eqn:Esp.
  - cbn in Hs. rewrite Hs. cbn [Z.eqb when].
    destruct (init_bucket_desc_ok own s V H) as [[E Hf]|(p & s' & E & Hp & Hc & H' & Hm & _)]; [left; eauto|right].
    eexists _, s', _, p, (spaced (p + 16) 16 255). split; [done|]. split; [exact H'|]. split; [cbn [v_spare upd]; rewrite Esp; by rewrite app_nil_r|].
    split; [done|]. split.
    + intros q Hq. unfold pages in *. rewrite elem_of_app in *. destruct Hq; [by left|right; by apply list_elem_of_further].
    + by destruct (outside_page own s V _ p H (proj1 Hp) (fresh_page own s V p H Hp Hc) Hm) as [_ Hpage].
  - destruct Hs as [Ed _]. right. exists own, s, V, d, sp. rewrite Ed.
    destruct (desc_nonzero own s V H d) as [Hd _]; [apply spare_in; rewrite Esp; apply list_elem_of_here|].
    rewrite (proj2 (Z.eqb_neq _ _) Hd). done.
Qed.

(** The page of a new bucket is cut into objects. *)
Lemma cut_page p sz n m :
  0 < sz ->
  (let m' := <[p + Z.of_nat n * sz := 0]> (links 0 sz n p m) in
   seg 0 m' p (spaced p sz (S n)) /\ (forall a, ~ (p <= a < p + Z.of_nat (S n) * sz) -> ld m' a = ld m a)).
Proof.
  intros Hsz m'. split.
  - rewrite <- (app_nil_r (spaced p sz (S n))). apply (seg_spaced 0 sz n p m' 0 []); [| |done].
    + intros k Hk. unfold m'. rewrite ld_insert_ne by nia. by apply links_in.
    + unfold m'. rewrite Z.add_0_r. apply ld_insert_eq.
  - intros a Ha. unfold m'. rewrite ld_insert_ne, links_out; [done| |]; intros; nia.
Qed.

Lemma set_chain_run i e c s :
  bucket_dir s !! i = Some e -> set_chain i c s = (Ret tt, s <| bucket_dir ::= <[i := (fst e, c)]> |>).
Proof. intros He. unfold set_chain. by mrun (dir_run i e s He). Qed.

(** The descriptor [d] of a new bucket, before its page is known, and the bucket with page [p]
    of [S n] objects at the head of a chain. *)
Definition opened (d sz next : Z) (s : heap) : heap :=
  let s1 := s <| free_bucket_desc := next |> in
  let s2 := poke (d + 12) (65536 * Z.shiftr (ld (hmem s1) (d + 12)) 16 + u16 0) s1 in
  poke (d + 12) (u16 (ld (hmem s2) (d + 12)) + 65536 * u16 sz) s2.

Definition filled (d p sz : Z) (n : nat) (c : Z) (s : heap) : heap :=
  let s1 := poke d p (poke (d + 8) p s) in
  poke (d + 4) c (with_mem (<[p + Z.of_nat n * sz := 0]> (links 0 sz n p (hmem s1))) s1).

Lemma opened_words d sz next s :
  0 <= sz < 65536 -> ld (hmem (opened d sz next s)) (d + 12) = 65536 * sz /\
  (forall a, a <> d + 12 -> ld (hmem (opened d sz next s)) a = ld (hmem s) a).
Proof.
  intros Hsz. unfold opened. split.
  - rewrite !ld_poke_eq, (u16_small sz) by lia. change (u16 0) with 0. unfold u16. by rewrite Z.add_0_r, Z.mul_comm, Z_mod_mult.
  - intros a Ha. by rewrite !ld_poke_ne by done.
Qed.

Lemma filled_words d p sz n c s :
  0 < sz -> Z.of_nat (S n) * sz = 4096 -> (forall k, 0 <= k < 16 -> ~ (p <= d + k < p + 4096)) ->
  let m := hmem (filled d p sz n c s) in
  ld m d = p /\ ld m (d + 4) = c /\ ld m (d + 8) = p /\ seg 0 m p (spaced p sz (S n)) /\
  (forall a, ~ (p <= a < p + 4096) -> a <> d + 4 -> a <> d -> a <> d + 8 -> ld m a = ld (hmem s) a).
Proof.
  intros Hsz En Hdp m. set (s1 := poke d p (poke (d + 8) p s)).
  destruct (cut_page p sz n (hmem s1) Hsz) as [Hcut Hcut']. rewrite En in Hcut'. set (m1 := <[_ := 0]> _) in *.
  assert (m = <[d + 4 := c]> m1) as -> by done. clearbody m1.
  pose proof (Hdp 0 ltac:(lia)) as Hdp0. rewrite Z.add_0_r in Hdp0.
  split; [|split; [apply ld_insert_eq|split; [|split]]].
  - rewrite ld_insert_ne, Hcut' by (done || lia). apply ld_poke_eq.
  - rewrite ld_insert_ne, Hcut' by first [apply Hdp; lia|lia]. unfold s1. rewrite ld_poke_ne by lia. apply ld_poke_eq.
  - apply (seg_ext _ m1); [|done]. intros o (k & Hk & ->)%in_spaced. rewrite Z.add_0_r. apply ld_insert_ne.
    intros Eo. apply (Hdp 4); [lia|]. rewrite Eo. nia.
  - intros a Ha H4 H0 H8. rewrite ld_insert_ne, Hcut' by done. unfold s1. by rewrite !ld_poke_ne.
Qed.

Lemma filled_wf own s V d p sz n c s1 :
  heap_ok own s V -> d ∈ descs V -> main (h_mm s) p -> 0 < sz -> Z.of_nat (S n) * sz = 4096 ->
  HIGH_MEMORY (h_mm s1) = HIGH_MEMORY (h_mm s) -> wf (bump own p 1) (h_mm s1) ->
  wf (bump own p 1) (h_mm (filled d p sz n c s1)).
Proof.
  intros H Hd Hp Hsz En Eh W. unfold filled. set (s2 := poke (d + 8) p s1). set (s3 := poke d p s2).
  assert (forall q, q ∈ v_dpages V -> 1 <= own q -> 1 <= bump own p 1 q) as Hle by (intros q _; apply bump_ge).
  apply (wf_poke_desc own s V _ _ d 4); [done|done|lia|done|done|].
  apply (wf_page _ (h_mm s3) _ p); [|unfold main; by change (HIGH_MEMORY (h_mm s3)) with (HIGH_MEMORY (h_mm s1)); rewrite Eh| |].
  - unfold s3. rewrite <- (Z.add_0_r d). apply (wf_poke_desc own s V _ s2 d 0); [done|done|lia|done|done|].
    by apply (wf_poke_desc own s V _ s1 d 8); [| |lia|..].
  - unfold bump. rewrite Z.eqb_refl. pose proof (wf_own _ _ (ho_wf _ _ _ H) p). lia.
  - destruct (cut_page p sz n (hmem s3) Hsz) as [_ Hcut]. rewrite En in Hcut. exact Hcut.
Qed.

Lemma new_bucket_ok own s V i sz l :
  heap_ok own s V -> sizes !! i = Some sz -> v_chains V !! i = Some l ->
  (exists msg s', new_bucket i s = (Panic msg, s') /\ full s') \/
  (exists own' s' V' b, new_bucket i s = (Ret (bk_desc b), s') /\ heap_ok own' s' V' /\
     v_chains V' = <[i := b :: l]> (v_chains V) /\ bk_free b = spaced (bk_page b) sz (Z.to_nat (4096 / sz)) /\
     (bk_page b ∉ pages V) /\
     (forall b a, b ∈ buckets V -> bk_page b <= a < bk_page b + 4096 -> ld (hmem s') a = ld (hmem s) a)).
Proof.
  intros H Hi Hl. unfold new_bucket. rewrite bind_get.
  destruct (spare_ok own s V H) as [(s' & E & Hf)|(own1 & s1 & V1 & d & sp & E & H1 & Esp & Ech & Hpg & Hm1)].
  { left. eexists _, s'. split; [|done]. unfold mbind, M_bind. by rewrite E. }
  mrun E. clear E. rewrite bind_get. rewrite <- Ech in Hl. destruct (size_facts i sz Hi) as (_ & Hsz & _ & E4096 & Hn).
  assert (d ∈ v_spare V1) as Hd by (rewrite Esp; apply list_elem_of_here).
  pose proof (ho_spare _ _ _ H1) as Hs. rewrite Esp in Hs. destruct Hs as [-> Hs].
  unfold bd_next. mrun (lift_ldw (d + 4) s1). rewrite bind_modify. set (s2 := s1 <| free_bucket_desc := _ |>).
  mrun (set_refcnt_run d 0 s2). set (s3 := poke _ _ s2).
  assert (bucket_dir s3 !! i = Some (sz, chain_head l)) as Edir by exact (ho_dir _ _ _ H1 i sz l Hi Hl).
  mrun (dir_run i _ s3 Edir). cbn [fst]. mrun (set_size_run d sz s3).
  destruct (opened_words d sz (ld (hmem s1) (d + 4)) s1 ltac:(lia)) as [E12 Hm4].
  assert (wf own1 (h_mm (opened d sz (ld (hmem s1) (d + 4)) s1))) as W4.
  { apply (wf_poke_desc own1 s1 V1 own1 s3 d 12); [done|by apply spare_in|lia|done|done|].
    apply (wf_poke_desc own1 s1 V1 own1 s2 d 12); [done|by apply spare_in|lia|done|done|exact (ho_wf _ _ _ H1)]. }
  set (s4 := poke _ _ s3). change (opened d sz (ld (hmem s1) (d + 4)) s1) with s4 in *.
  unfold set_bd_freeptr, set_bd_page, set_bd_next.
  destruct (page_run own1 s4 W4) as [[E Hfull]|(p & E & Hp & Hc & Hp0 & W5 & Hout)]; mrun E; clear E.
  { mrun (lift_stw (d + 8) 0 s4). mrun (lift_stw d 0 (poke (d + 8) 0 s4)). left. by eexists _, _. }
  right. set (s5 := allocated p s4) in *. mrun (lift_stw (d + 8) p s5). set (s6 := poke _ _ s5).
  mrun (lift_stw d p s6). set (s7 := poke _ _ s6). rewrite (proj2 (Z.eqb_neq _ _) Hp0).
  mrun (link_objects_run (Z.to_nat (PAGE_SIZE / sz - 1)) p sz s7).
  assert (exists n, Z.to_nat (PAGE_SIZE / sz - 1) = n /\ Z.to_nat (4096 / sz) = S n /\ Z.of_nat (S n) = 4096 / sz) as (n & -> & -> & Hn').
  { exists (Z.to_nat (4096 / sz - 1)). change PAGE_SIZE with 4096. lia. }
  set (s8 := with_mem _ s7). mrun (dir_run i _ s8 Edir). cbn [snd].
  mrun (lift_stw (d + 4) (chain_head l) s8). set (s9 := poke _ _ s8). mrun (set_chain_run i _ d s9 Edir). cbn [fst].
  set (s10 := s9 <| bucket_dir ::= _ |>).
  assert (p ∉ pages V1) as Hno by (by apply (fresh_page own1 s1 V1 p H1)).
  assert (forall c, 0 <= c < 16 -> ~ (p <= d + c < p + 4096)) as Hdp
    by (intros c; by apply (fresh_apart own1 s1 V1 p d c H1 (proj1 Hp) Hno (spare_in V1 d Hd))).
  destruct (filled_words d p sz n (chain_head l) s5) as (F0 & F4 & F8 & Fseg & Fm); [lia|lia|done|].
  assert (hmem s10 = hmem (filled d p sz n (chain_head l) s5)) as E10 by done. rewrite <- E10 in *.
  assert (forall a, ~ (p <= a < p + 4096) -> a <> d + 4 -> a <> d -> a <> d + 8 -> ld (hmem s10) a = ld (hmem s4) a) as Hm10
    by (intros a Ha H4 H0 H8; rewrite Fm by done; by apply Hout).
  exists (bump own1 p 1), s10, (V1 <| v_chains ::= <[i := mk_bucket d p (spaced p sz (S n)) :: l]> |> <| v_spare := sp |>),
    (mk_bucket d p (spaced p sz (S n))).
  split; [done|]. split; [|split; [cbn; by rewrite Ech|split; [done|split]]].
  - apply (add_bucket own1 s1 s10 V1 d p sz sp i (S n) l); try done.
    + intros a Hda Hpa. rewrite Hm10 by (done || lia). apply Hm4. lia.
    + rewrite Hm10 by first [apply Hdp; lia|lia]. done.
    + apply (filled_wf own1 s1 V1 d p sz n (chain_head l) s5); (by apply spare_in) || done || lia.
  - intros Hpp. by apply Hno, Hpg.
  - intros b a Hb Ha. rewrite <- (Hm1 b a Hb Ha). assert (b ∈ buckets V1) as Hb1 by (unfold buckets; by rewrite Ech).
    assert (forall c, 0 <= c < 16 -> a <> d + c) as Hac
      by (intros c Hc' ->; by apply (desc_off_page own1 s1 V1 H1 d b c (spare_in V1 d Hd) Hb1)).
    rewrite Hm10; [apply Hm4; apply Hac; lia| |apply Hac; lia|pose proof (Hac 0); lia|apply Hac; lia].
    by apply (fresh_apart_page own1 s1 V1 p b a H1 (proj1 Hp) Hno Hb1).
Qed.

(** ** Searching *)

#[local] Opaque MAX_CHAIN.

Lemma dir_zip own s V : heap_ok own s V -> bucket_dir s = zip sizes (chain_head <$> v_chains V) ++ [(0, 0)].
Proof.
  intros H. destruct (ho_len _ _ _ H) as [Hl Hc]. apply list_eq_same_length with 10%nat; [|done|].
  { rewrite length_app, length_zip_with, length_fmap, Hc. done. }
  intros i x y Hi Hx Hy. destruct (decide (i = 9%nat)) as [->|].
  - rewrite (ho_end _ _ _ H) in Hx. injection Hx as <-.
    rewrite lookup_app_r, length_zip_with, length_fmap, Hc in Hy by (rewrite length_zip_with, length_fmap, Hc; done).
    by injection Hy as <-.
  - rewrite lookup_app_l in Hy by (rewrite length_zip_with, length_fmap, Hc; cbn; lia).
    apply lookup_zip_with_Some in Hy as (sz & c & -> & Hsz & (l & -> & Hlk)%list_lookup_fmap_Some).
    rewrite (ho_dir _ _ _ H i sz l Hsz Hlk) in Hx. by injection Hx as <-.
Qed.

Lemma find_dir_zip zs cs i len :
  Forall (fun z => 0 < z) zs -> length cs = length zs ->
  (exists k z, zs !! k = Some z /\ len <= z /\ find_dir (zip zs cs ++ [(0, 0)]) i len = (i + k)%nat) \/
  (Forall (fun z => z < len) zs /\ find_dir (zip zs cs ++ [(0, 0)]) i len = (i + length zs)%nat).
Proof.
  intros Hz. revert cs i. induction Hz as [|z zs Hz0 Hz IH]; intros cs i Hl.
  - right. cbn. split; [constructor|]. by rewrite Nat.add_0_r.
  - destruct cs as [|c cs]; [done|]. cbn. rewrite (proj2 (Z.eqb_neq z 0)) by lia. destruct (Z.leb_spec len z).
    + left. exists 0%nat, z. split; [done|]. split; [done|]. by rewrite Nat.add_0_r.
    + destruct (IH cs (S i)) as [(k & z' & Hk & Hle & E)|[Hall E]]; [by injection Hl| |].
      * left. exists (S k), z'. split; [done|]. split; [done|]. rewrite E. lia.
      * right. split; [by constructor|]. rewrite E. cbn. lia.
Qed.

Lemma find_dir_ok own s V len :
  heap_ok own s V ->
  (len <= 4096 -> exists i sz, find_dir (bucket_dir s) 0 len = i /\ sizes !! i = Some sz /\ len <= sz) /\
  (4096 < len -> find_dir (bucket_dir s) 0 len = 9%nat).
Proof.
  intros H. rewrite (dir_zip own s V H). destruct (ho_len _ _ _ H) as [_ Hc].
  destruct (find_dir_zip sizes (chain_head <$> v_chains V) 0 len) as [(k & z & Hk & Hle & E)|[Hall E]];
    [by repeat constructor|by rewrite length_fmap, Hc| |]; rewrite E.
  - split; [intros; exists k, z; done|]. apply size_facts in Hk. lia.
  - split; [|done]. intros Hlen. assert (4096 < len); [|lia]. apply (proj1 (Forall_forall _ _) Hall 4096). vm_compute. set_solver.
Qed.

(** A chain has no more buckets than there are frames. *)
Lemma NoDup_fmap_sub {A B} (f : A -> B) l1 l l2 : NoDup (f <$> (l1 ++ l ++ l2)) -> NoDup (f <$> l).
Proof. rewrite !fmap_app. intros (_ & _ & (Hd & _ & _)%NoDup_app)%NoDup_app. done. Qed.

Lemma chain_length own s V i l : heap_ok own s V -> v_chains V !! i = Some l -> (length l < MAX_CHAIN)%nat.
Proof.
  intros H Hi. destruct (ho_pages _ _ _ H) as [Hnd _]. unfold pages in Hnd. apply NoDup_app in Hnd as (Hnd & _ & _).
  unfold buckets in Hnd. destruct (concat_insert _ i l [] Hi) as [_ E]. rewrite E in Hnd. apply NoDup_fmap_sub in Hnd.
  assert ((bk_page <$> l) ⊆ spaced LOW_MEM 4096 3840) as Hsub.
  { intros p (b & -> & Hb)%list_elem_of_fmap_1.
    destruct (page_main own s V H _ (bpage_in V b (in_chain V i l b Hi Hb))) as (Hal & Hr & _). apply in_spaced.
    exists ((bk_page b - LOW_MEM) / 4096). unfold LOW_MEM in *. pose proof (Z.div_mod (bk_page b) 4096 ltac:(lia)) as Ed.
    replace (bk_page b - 0x100000) with ((bk_page b / 4096 - 256) * 4096) by lia. rewrite Z.div_mul by lia. lia. }
  pose proof (submseteq_length _ _ (NoDup_submseteq _ _ Hnd Hsub)) as Hle. rewrite length_fmap, length_spaced in Hle.
  change MAX_CHAIN with 3841%nat. lia.
Qed.

Section Search.
Context (own : Z -> Z) (s : heap) (V : view) (H : heap_ok own s V).

Lemma freeptr_word i sz l b :
  sizes !! i = Some sz -> v_chains V !! i = Some l -> b ∈ l -> istrue (ld (hmem s) (bk_desc b + 8)) = bool_decide (bk_free b <> []).
Proof.
  intros Hi Hl Hb. destruct (ho_bucket _ _ _ H i sz l b Hi Hl Hb) as [_ _ Bf _ Bi].
  destruct (bk_free b) as [|o fl]; cbn in Bf; [by rewrite Bf|]. destruct Bf as [-> _]. apply Forall_cons in Bi as [Ho _].
  destruct (page_main own s V H _ (bpage_in V b (in_chain V i l b Hl Hb))) as (_ & Hr & _).
  pose proof (object_range i sz _ o Hi Ho). unfold istrue, LOW_MEM in *. rewrite (proj2 (Z.eqb_neq o 0)) by lia. done.
Qed.

Lemma find_free_run n l :
  (length l < n)%nat -> (forall b, b ∈ l -> bk_desc b <> 0 /\ istrue (ld (hmem s) (bk_desc b + 8)) = bool_decide (bk_free b <> [])) ->
  seg 4 (hmem s) (chain_head l) (bk_desc <$> l) ->
  (Forall (fun b => bk_free b = []) l /\ find_free n (chain_head l) s = (Ret 0, s)) \/
  (exists l1 b l2, l = l1 ++ b :: l2 /\ bk_free b <> [] /\ find_free n (chain_head l) s = (Ret (bk_desc b), s)).
Proof.
  revert l. induction n as [|n IH]; intros l Hn Hl Hs; [lia|]. destruct l as [|b l].
  - left. split; [constructor|done].
  - destruct (Hl b) as [Hb Hw]; [apply list_elem_of_here|]. cbn [find_free]. destruct Hs as [_ Hs].
    change (chain_head (b :: l)) with (bk_desc b). rewrite (proj2 (Z.eqb_neq _ _) Hb). unfold bd_freeptr. mrun (lift_ldw (bk_desc b + 8) s).
    rewrite Hw. case_bool_decide as Hf.
    + right. by exists [], b, l.
    + assert (bk_free b = []) as Ef by (by destruct (bk_free b)). unfold bd_next. mrun (lift_ldw (bk_desc b + 4) s).
      assert (ld (hmem s) (bk_desc b + 4) = chain_head l) as E4 by (by apply seg_head in Hs).
      rewrite E4 in Hs |- *. destruct (IH l) as [[Hall E]|(l1 & b' & l2 & -> & Hne & E)]; [cbn in Hn; lia| |done| |].
      * intros b' Hb'. apply Hl. by apply list_elem_of_further.
      * left. split; [by constructor|done].
      * right. by exists (b :: l1), b', l2.
Qed.
End Search.

(** ** The objects in use *)

(** Those outside of the bucket [b]. *)
Definition live_others (V : view) (b : bucket) (x n : Z) : Prop :=
  exists j l b0, sizes !! j = Some n /\ v_chains V !! j = Some l /\ b0 ∈ l /\ b0 <> b /\ object n (bk_page b0) x /\ x ∉ bk_free b0.

Lemma live_replace own s V i sz l1 b b' l2 x n :
  heap_ok own s V -> sizes !! i = Some sz -> v_chains V !! i = Some (l1 ++ b :: l2) -> bk_page b' = bk_page b ->
  live (V <| v_chains ::= <[i := l1 ++ b' :: l2]> |>) x n <->
  (n = sz /\ object sz (bk_page b) x /\ x ∉ bk_free b') \/ live_others V b x n.
Proof.
  intros H Hi Hl Ep. pose proof (lookup_lt_Some _ _ _ Hl) as Hlt. set (V' := V <| v_chains ::= _ |>).
  assert (v_chains V' !! i = Some (l1 ++ b' :: l2)) as Hl' by (by apply list_lookup_insert_eq). split.
  - intros (j & l & b0 & Hj & Hlj & Hb0 & Ho & Hf).
    destruct (other_bucket own s V i l1 b [b'] l2 j l b0 H Hl Hlj Hb0) as [[-> ->%list_elem_of_singleton]|(l0 & Hl0 & Hin & Hne)].
    + left. rewrite <- Ep. split; [congruence|]. by assert (n = sz) as -> by congruence.
    + right. by exists j, l0, b0.
  - intros [(-> & Ho & Hf)|(j & l & b0 & Hj & Hlj & Hb0 & Hne & Ho & Hf)].
    + exists i, (l1 ++ b' :: l2), b'. rewrite Ep. split; [done|]. split; [done|]. split; [set_solver|done].
    + destruct (decide (j = i)) as [->|Hji].
      * rewrite Hl in Hlj. injection Hlj as <-. exists i, (l1 ++ b' :: l2), b0. split; [done|]. split; [done|]. split; [set_solver|done].
      * exists j, l, b0. split; [done|]. split; [cbn; by rewrite list_lookup_insert_ne|done].
Qed.

Lemma live_split own s V i sz l1 b l2 x n :
  heap_ok own s V -> sizes !! i = Some sz -> v_chains V !! i = Some (l1 ++ b :: l2) ->
  live V x n <-> (n = sz /\ object sz (bk_page b) x /\ x ∉ bk_free b) \/ live_others V b x n.
Proof.
  intros H Hi Hl. rewrite <- (live_replace own s V i sz l1 b b l2 x n H Hi Hl eq_refl).
  unfold live. cbn. by rewrite list_insert_id.
Qed.

Lemma live_in own s V x n :
  heap_ok own s V -> live V x n ->
  exists b, b ∈ buckets V /\ bk_page b <= x /\ x + n <= bk_page b + 4096 /\ 16 <= n.
Proof.
  intros H (i & l & b & Hi & Hl & Hb & Ho & _). exists b. split; [by apply (in_chain V i l)|].
  pose proof (object_range i n _ x Hi Ho). apply size_facts in Hi. lia.
Qed.

(** Objects in use do not overlap. *)
Lemma live_apart own s V x n y m :
  heap_ok own s V -> live V x n -> live V y m -> x <> y -> x + n <= y \/ y + m <= x.
Proof.
  intros H (i & l & b & Hi & Hl & Hb & Ho & _) (j & l' & b' & Hj & Hl' & Hb' & Ho' & _) Hne.
  pose proof (object_range i n _ x Hi Ho). pose proof (object_range j m _ y Hj Ho').
  destruct (size_facts i n Hi) as (_ & Hn & _). destruct (size_facts j m Hj) as (_ & Hm & _).
  destruct (decide (b = b')) as [<-|Hbb].
  - destruct (NoDup_concat _ i j _ _ b (NoDup_buckets own s V H) Hl Hl' Hb Hb') as [-> _].
    assert (n = m) as -> by congruence. by apply (object_apart j m (bk_page b)).
  - pose proof (in_chain V i l b Hl Hb) as Hin. pose proof (in_chain V j l' b' Hl' Hb') as Hin'.
    destruct (page_main own s V H _ (bpage_in V b Hin)) as [A _]. destruct (page_main own s V H _ (bpage_in V b' Hin')) as [A' _].
    assert (bk_page b <> bk_page b') as Hp.
    { intros E. apply Hbb, (bucket_same_page own s V H b b' (bk_page b) Hin Hin'); lia. }
    pose proof (Z.div_mod (bk_page b) 4096 ltac:(lia)). pose proof (Z.div_mod (bk_page b') 4096 ltac:(lia)). lia.
Qed.

Lemma others_off own s V b x n :
  heap_ok own s V -> b ∈ buckets V -> live_others V b x n -> ~ (bk_page b <= x < bk_page b + 4096).
Proof.
  intros H Hb (j & l & b0 & Hj & Hl & Hb0 & Hne & Ho & _) Hx. apply Hne.
  pose proof (object_range j n _ x Hj Ho). destruct (size_facts j n Hj) as (_ & Hn & _).
  apply (bucket_same_page own s V H b0 b x); [by apply (in_chain V j l)|done|lia|done].
Qed.

Definition busy_others (V : view) (b : bucket) : Prop :=
  forall j z l b0, sizes !! j = Some z -> v_chains V !! j = Some l -> b0 ∈ l -> b0 <> b -> Z.of_nat (length (bk_free b0)) < 4096 / z.

Lemma busy_replace own s V i sz l1 b b' l2 :
  heap_ok own s V -> sizes !! i = Some sz -> v_chains V !! i = Some (l1 ++ b :: l2) -> busy_others V b ->
  Z.of_nat (length (bk_free b')) < 4096 / sz -> busy (V <| v_chains ::= <[i := l1 ++ b' :: l2]> |>).
Proof.
  intros H Hi Hl Hbo Hlen j z l b0 Hj Hlj Hb0.
  destruct (other_bucket own s V i l1 b [b'] l2 j l b0 H Hl Hlj Hb0) as [[-> ->%list_elem_of_singleton]|(l0 & Hl0 & Hin & Hne)].
  - by assert (z = sz) as -> by congruence.
  - by apply (Hbo j z l0).
Qed.

(** ** malloc *)

(** What taking the first free object of a bucket does to the objects in use. *)
Lemma take_view own s V i sz l1 b o fl l2 :
  heap_ok own s V -> sizes !! i = Some sz -> v_chains V !! i = Some (l1 ++ b :: l2) -> bk_free b = o :: fl -> busy_others V b ->
  let V' := V <| v_chains ::= <[i := l1 ++ b <| bk_free := fl |> :: l2]> |> in
  busy V' /\ (forall x n, live V' x n <-> live V x n \/ (x = o /\ n = sz)) /\ (forall n, ~ live V o n).
Proof.
  intros H Hi Hl Ef Hbo V'. pose proof (ho_bucket _ _ _ H i sz _ b Hi Hl (mid_in l1 b l2)) as Hbk.
  pose proof (free_count _ i sz b Hi Hbk) as Hcnt. destruct Hbk as [_ _ _ Bn Bi]. rewrite Ef in *.
  apply NoDup_cons in Bn as [Bno _]. apply Forall_cons in Bi as [Bo _]. cbn [length] in Hcnt.
  assert (b ∈ buckets V) as Hb by by apply (in_chain V i _ b Hl), mid_in.
  pose proof (object_range i sz _ o Hi Bo) as Hr. destruct (size_facts i sz Hi) as (_ & Hsz & _).
  split; [|split].
  - apply (busy_replace own s V i sz l1 b _ l2 H Hi Hl Hbo). change (bk_free (b <| bk_free := fl |>)) with fl. lia.
  - intros x n. unfold V'. rewrite (live_replace own s V i sz l1 b _ l2 x n H Hi Hl), (live_split own s V i sz l1 b l2 x n H Hi Hl) by done.
    change (bk_free (b <| bk_free := fl |>)) with fl. rewrite Ef, not_elem_of_cons. split.
    + intros [(-> & Hx & Hf)|Ho]; [|by left; right]. destruct (decide (x = o)) as [->|]; [by right|]. by left; left.
    + intros [[(-> & Hx & _ & Hf)|Ho]|[-> ->]]; [by left|by right|by left].
  - intros n. rewrite (live_split own s V i sz l1 b l2 o n H Hi Hl). rewrite Ef. intros [(_ & _ & Hf)|Ho]; [set_solver|].
    apply (others_off own s V b o n H Hb Ho). lia.
Qed.

(** What [malloc] promises. *)
Definition malloc_result (s : heap) (V : view) (len o : Z) (s' : heap) : Prop :=
  exists own' V' sz, heap_ok own' s' V' /\ busy V' /\ len <= sz /\
    (forall x n, live V' x n <-> live V x n \/ (x = o /\ n = sz)) /\
    (forall x n, live V x n -> x + n <= o \/ o + sz <= x) /\
    (forall x n a, live V x n -> x <= a < x + n -> ld (hmem s') a = ld (hmem s) a).

(** [malloc] from the point where a bucket [b] with free objects is known. *)
Lemma malloc_take own s V own1 s1 V1 i sz l1 b l2 len :
  heap_ok own s V -> heap_ok own1 s1 V1 -> sizes !! i = Some sz -> len <= sz -> v_chains V1 !! i = Some (l1 ++ b :: l2) ->
  bk_free b <> [] -> busy_others V1 b -> (forall x n, live V1 x n <-> live V x n) ->
  (forall b a, b ∈ buckets V -> bk_page b <= a < bk_page b + 4096 -> ld (hmem s1) a = ld (hmem s) a) ->
  exists o s', take_object (bk_desc b) s1 = (Ret o, s') /\ malloc_result s V len o s'.
Proof.
  intros H H1 Hi Hlen Hl Hf Hbo Hlive Hmem. destruct (bk_free b) as [|o fl] eqn:Ef; [done|].
  destruct (take_object_ok own1 s1 V1 i sz l1 b o fl l2 H1 Hi Hl Ef) as (s' & E & H' & Hm & _).
  destruct (take_view own1 s1 V1 i sz l1 b o fl l2 H1 Hi Hl Ef Hbo) as (Hb' & Hlive' & Hno).
  assert (b ∈ buckets V1) as Hb by by apply (in_chain V1 i _ b Hl), mid_in.
  exists o, s'. split; [done|]. exists own1, (V1 <| v_chains ::= <[i := l1 ++ b <| bk_free := fl |> :: l2]> |>), sz.
  assert (forall x n, live (V1 <| v_chains ::= <[i := l1 ++ b <| bk_free := fl |> :: l2]> |>) x n <-> live V x n \/ x = o /\ n = sz) as Hl2
    by (intros x n; by rewrite Hlive', Hlive).
  split; [done|]. split; [done|]. split; [done|]. split; [done|]. split.
  - intros x n Hx. apply (live_apart own1 s' _ x n o sz H'); [apply Hl2; by left|apply Hl2; by right|].
    intros ->. by apply (Hno n), Hlive.
  - intros x n a Hx Ha. destruct (live_in own s V x n H Hx) as (b0 & Hb0 & Hr).
    rewrite <- (Hmem b0 a Hb0) by lia. destruct (live_in own1 s1 V1 x n H1 (proj2 (Hlive x n) Hx)) as (b1 & Hb1 & Hr1).
    apply Hm; intros ->; [apply (desc_off_page own1 s1 V1 H1 (bk_desc b) b1 8)|apply (desc_off_page own1 s1 V1 H1 (bk_desc b) b1 12)];
      (by apply bdesc_in) || lia || done.
Qed.

(** A new bucket has no object in use. *)
Lemma added_view V V' i sz b l :
  sizes !! i = Some sz -> v_chains V !! i = Some l -> v_chains V' = <[i := b :: l]> (v_chains V) ->
  bk_free b = spaced (bk_page b) sz (Z.to_nat (4096 / sz)) -> busy V ->
  busy_others V' b /\ forall x n, live V' x n <-> live V x n.
Proof.
  intros Hi Hl Ev Ef Hbusy. pose proof (lookup_lt_Some _ _ _ Hl) as Hlt.
  assert (forall j l0 b0, v_chains V' !! j = Some l0 -> b0 ∈ l0 -> (j = i /\ b0 = b) \/ exists l1, v_chains V !! j = Some l1 /\ b0 ∈ l1) as Hcase.
  { intros j l0 b0 Hj Hb0. rewrite Ev in Hj. destruct (decide (j = i)) as [->|].
    - rewrite list_lookup_insert_eq in Hj by done. injection Hj as <-. apply elem_of_cons in Hb0 as [->|]; eauto.
    - rewrite list_lookup_insert_ne in Hj by done. eauto. }
  split.
  - intros j z l0 b0 Hj Hl0 Hb0 Hne. destruct (Hcase j l0 b0 Hl0 Hb0) as [[_ ->]|(l1 & Hl1 & Hb1)]; [done|]. by apply (Hbusy j z l1).
  - intros x n. split.
    + intros (j & l0 & b0 & Hj & Hl0 & Hb0 & Ho & Hf). destruct (Hcase j l0 b0 Hl0 Hb0) as [[-> ->]|(l1 & Hl1 & Hb1)].
      * exfalso. apply Hf. rewrite Ef. destruct Ho as (k & Hk & ->). assert (n = sz) as -> by congruence.
        apply in_spaced. exists k. split; [lia|done].
      * by exists j, l1, b0.
    + intros (j & l0 & b0 & Hj & Hl0 & Hb0 & Ho & Hf). destruct (decide (j = i)) as [->|].
      * exists i, (b :: l), b0. split; [done|]. split; [rewrite Ev; by apply list_lookup_insert_eq|].
        split; [|done]. apply list_elem_of_further. congruence.
      * exists j, l0, b0. split; [done|]. split; [by rewrite Ev, list_lookup_insert_ne|done].
Qed.

(** C18: [malloc] returns memory that nothing else uses.  In every state of the heap in which the
    chains, descriptors and free lists are as the code keeps them, a request of up to a page
    always ends: it returns an object at least as large as asked for, which overlaps no object
    in use, becomes the only new object in use and leaves the contents of all others as they
    were, and the heap is consistent again, its pages counted by the memory manager; or no frame
    of main memory is free and it panics.  A larger request panics. *)
Theorem malloc_ok own s V len :
  heap_ok own s V -> busy V ->
  (len <= 4096 ->
    (exists o s', malloc len s = (Ret o, s') /\ malloc_result s V len o s') \/
    (exists msg s', malloc len s = (Panic msg, s') /\ full s')) /\
  (4096 < len -> exists s', malloc len s = (Panic "malloc: bad arg", s')).
Proof.
  intros H Hbusy. unfold malloc. rewrite bind_get. destruct (find_dir_ok own s V len H) as [Hfit Hbig]. split; intros Hlen.
  - destruct (Hfit Hlen) as (i & sz & -> & Hi & Hle). destruct (size_facts i sz Hi) as (Hi9 & Hsz & _ & _ & Hn).
    destruct (lookup_lt_is_Some_2 (v_chains V) i) as [l Hl]; [by rewrite (proj2 (ho_len _ _ _ H))|].
    mrun (dir_run i _ s (ho_dir _ _ _ H i sz l Hi Hl)). cbn [fst snd]. rewrite (proj2 (Z.eqb_neq sz 0)) by lia.
    destruct (find_free_run s MAX_CHAIN l) as [[Hall E]|(l1 & b & l2 & -> & Hf & E)].
    { by apply (chain_length own s V i). }
    { intros b Hb. split; [|by apply (freeptr_word own s V H i sz l)].
      by apply (desc_nonzero own s V H), bdesc_in, (in_chain V i l). }
    { by apply (ho_chain _ _ _ H i). }
    + mrun E. cbn [Z.eqb]. destruct (new_bucket_ok own s V i sz l H Hi Hl) as [(msg & s' & E' & Hfull)|Hnew].
      { right. exists msg, s'. split; [|done]. unfold mbind, M_bind. by rewrite E'. }
      destruct Hnew as (own' & s' & V' & b & E' & H' & Ev & Ef & Hno & Hmem). left. mrun E'.
      destruct (added_view V V' i sz b l Hi Hl Ev Ef Hbusy) as [Hbo Hlive]. pose proof (lookup_lt_Some _ _ _ Hl).
      apply (malloc_take own s V own' s' V' i sz [] b l); try done; [rewrite Ev; by apply list_lookup_insert_eq|].
      rewrite Ef. intros E0. pose proof (length_spaced (bk_page b) sz (Z.to_nat (4096 / sz))) as El. rewrite E0 in El. cbn in El. lia.
    + mrun E. destruct (desc_nonzero own s V H (bk_desc b)) as [Hd _]; [by apply bdesc_in, (in_chain V i _ b Hl), mid_in|].
      rewrite (proj2 (Z.eqb_neq _ _) Hd), bind_ret. left.
      apply (malloc_take own s V own s V i sz l1 b l2); try done. intros j z l0 b0 Hj Hl0 Hb0 _. by apply (Hbusy j z l0).
  - rewrite (Hbig Hlen). mrun (dir_run 9 _ s (ho_end _ _ _ H)). cbn. eauto.
Qed.

(** ** free *)

Lemma seg_next off m x l1 a d l2 : seg off m x (l1 ++ a :: d :: l2) -> ld m (a + off) = d.
Proof. revert x. induction l1 as [|y l1 IH]; intros x; [by intros (-> & -> & _)|]. intros [_ Hs]. by apply IH in Hs. Qed.

Lemma seg_rest off m x l1 d l2 : seg off m x (l1 ++ d :: l2) -> ld m (d + off) = default 0 (head l2) /\ seg off m (ld m (d + off)) l2.
Proof.
  revert x. induction l1 as [|y l1 IH]; intros x.
  - intros [-> Hs]. split; [by apply seg_head in Hs|done].
  - intros [_ Hs]. by apply IH in Hs.
Qed.

(** Taking an element out by changing the link before it. *)
Lemma seg_unlink off m m' x l1 a d l2 :
  NoDup (l1 ++ a :: d :: l2) -> ld m' (a + off) = ld m (d + off) ->
  (forall y, y ∈ l1 ++ l2 -> ld m' (y + off) = ld m (y + off)) ->
  seg off m x (l1 ++ a :: d :: l2) -> seg off m' x (l1 ++ a :: l2).
Proof.
  intros Hnd Ha. revert x. induction l1 as [|y l1 IH]; intros x Hy.
  - intros (-> & _ & Hs). split; [done|]. rewrite Ha. apply (seg_ext _ m); [|done]. intros z Hz. by apply Hy.
  - intros [-> Hs]. split; [done|]. rewrite Hy by apply list_elem_of_here. apply NoDup_cons in Hnd as [_ Hnd].
    apply IH; [done| |done]. intros z Hz. apply Hy. by apply list_elem_of_further.
Qed.

Section RemoveBucket.
Context (own : Z -> Z) (s s' : heap) (V : view) (sz : Z) (i : nat) (l1 l2 : list bucket) (b : bucket).
Context (H : heap_ok own s V) (Hi : sizes !! i = Some sz) (Hl : v_chains V !! i = Some (l1 ++ b :: l2)).
Context (Hm : forall a, (forall d, d ∈ descs V -> a <> d + 4) -> ld (hmem s') a = ld (hmem s) a).
Context (Hnext : forall d, d ∈ descs V -> d <> bk_desc b -> d ∉ bk_desc <$> l1 -> ld (hmem s') (d + 4) = ld (hmem s) (d + 4)).
Context (Hchain : seg 4 (hmem s') (chain_head (l1 ++ l2)) (bk_desc <$> (l1 ++ l2))).
Context (Hd : ld (hmem s') (bk_desc b + 4) = free_bucket_desc s) (Hfree : free_bucket_desc s' = bk_desc b).
Context (W : wf (bump own (bk_page b) (-1)) (h_mm s')) (Eh : HIGH_MEMORY (h_mm s') = HIGH_MEMORY (h_mm s)).
Context (Edir : bucket_dir s' = <[i := (sz, chain_head (l1 ++ l2))]> (bucket_dir s)).

Let V' := V <| v_chains ::= <[i := l1 ++ l2]> |> <| v_spare ::= cons (bk_desc b) |>.

Lemma remove_in : b ∈ buckets V.
Proof. exact (in_chain V i _ b Hl (mid_in l1 b l2)). Qed.

(** The removed bucket is the only one with its descriptor, and its chain has no other twice. *)
Lemma remove_perm {B} (f : bucket -> B) : f <$> buckets V ≡ₚ f b :: (f <$> buckets V').
Proof.
  destruct (concat_insert (v_chains V) i _ (l1 ++ l2) Hl) as [E1 E2]. unfold buckets at 1. rewrite E2.
  change (buckets V') with (concat (<[i := l1 ++ l2]> (v_chains V))). rewrite E1. rewrite <- fmap_cons. apply fmap_Permutation.
  rewrite <- !app_assoc. cbn [app]. rewrite (app_assoc (concat (take i _)) l1), <- Permutation_middle. by rewrite <- app_assoc.
Qed.

Lemma remove_word d c : d ∈ descs V -> 0 <= c < 16 -> c <> 4 -> ld (hmem s') (d + c) = ld (hmem s) (d + c).
Proof.
  intros Hdd Hc Hne. apply Hm. intros d' Hd' E. apply Hne. by apply (desc_word own s V H d d' c 4) in E as [_ ?].
Qed.

Lemma remove_page b0 a : b0 ∈ buckets V -> bk_page b0 <= a < bk_page b0 + 4096 -> ld (hmem s') a = ld (hmem s) a.
Proof. intros Hb Ha. apply Hm. intros d Hdd ->. by apply (desc_off_page own s V H d b0 4). Qed.

(** Another chain, or the list of spare descriptors, is not touched. *)
Lemma remove_seg x l :
  (forall d, d ∈ l -> d ∈ descs V /\ d <> bk_desc b /\ d ∉ bk_desc <$> l1) -> seg 4 (hmem s) x l -> seg 4 (hmem s') x l.
Proof. intros Hl0. apply seg_ext. intros d Hdd. by apply Hnext; apply Hl0. Qed.

Lemma remove_other_chain j l d :
  v_chains V !! j = Some l -> j <> i -> d ∈ bk_desc <$> l -> d ∉ bk_desc <$> (l1 ++ b :: l2).
Proof.
  intros Hj Hji (b1 & -> & Hb1)%list_elem_of_fmap_1 (b2 & E & Hb2)%list_elem_of_fmap_1. apply Hji.
  assert (b1 = b2) as <- by (by apply (bucket_same_desc own s V H); [apply (in_chain V j l)|apply (in_chain V i _ b2 Hl)|]).
  by apply (NoDup_concat _ j i _ _ b1 (NoDup_buckets own s V H) Hj Hl).
Qed.

Lemma remove_bucket : heap_ok (bump own (bk_page b) (-1)) s' V'.
Proof.
  pose proof (lookup_lt_Some _ _ _ Hl) as Hlt. destruct (ho_len _ _ _ H) as [Hlen Hlen'].
  destruct (size_facts i sz Hi) as (Hi9 & _).
  assert (forall j l0, v_chains V' !! j = Some l0 -> (j = i /\ l0 = l1 ++ l2) \/ (j <> i /\ v_chains V !! j = Some l0)) as Hcase
    by exact (fun j l0 Hj => lookup_chain V i _ (l1 ++ l2) j l0 Hl Hj).
  assert (forall x, x ∈ bk_desc <$> (l1 ++ b :: l2) <-> x ∈ bk_desc <$> l1 \/ x = bk_desc b \/ x ∈ bk_desc <$> l2) as Hmem
    by (intros x; by rewrite fmap_app, fmap_cons, elem_of_app, elem_of_cons).
  destruct (ho_descs _ _ _ H) as [Hnd Hplace]. destruct (ho_pages _ _ _ H) as [Hndp Hmain]. split.
  - done.
  - rewrite Edir. cbn. by rewrite !length_insert.
  - rewrite Edir, list_lookup_insert_ne by lia. apply (ho_end _ _ _ H).
  - intros j z l0 Hj [[-> ->]|[Hne Hl0]]%Hcase; rewrite Edir.
    + rewrite list_lookup_insert_eq by lia. congruence.
    + rewrite list_lookup_insert_ne by done. by apply (ho_dir _ _ _ H).
  - intros j l0 [[-> ->]|[Hne Hl0]]%Hcase; [done|]. apply remove_seg; [|by apply (ho_chain _ _ _ H j)].
    intros d Hdd. pose proof (remove_other_chain j l0 d Hl0 Hne Hdd) as Hn. rewrite Hmem in Hn. split; [|split; [tauto|tauto]].
    apply list_elem_of_fmap_1 in Hdd as (b1 & -> & Hb1). by apply bdesc_in, (in_chain V j l0).
  - intros j z l0 b0 Hj Hl0 Hb0.
    destruct (other_bucket own s V i l1 b [] l2 j l0 b0 H Hl Hl0 Hb0) as [[_ ?%not_elem_of_nil]|(l3 & Hl3 & Hin & Hne)]; [done|].
    apply (bucket_kept own s V _ j z l3 b0 H Hj Hl3 Hin).
    + intros c Hc. apply remove_word; [by apply bdesc_in, (in_chain V j l3)|lia|lia].
    + intros a. apply remove_page. by apply (in_chain V j l3).
  - rewrite Hfree. split; [done|]. rewrite Hd. apply remove_seg; [|apply (ho_spare _ _ _ H)].
    intros d Hdd. split; [by apply spare_in|]. unfold descs in Hnd. apply NoDup_app in Hnd as (_ & Hsep & _).
    assert (d ∉ bk_desc <$> (l1 ++ b :: l2)) as Hn.
    { intros (b1 & -> & Hb1)%list_elem_of_fmap_1. apply (Hsep (bk_desc b1)); [|done]. by apply list_elem_of_fmap_2, (in_chain V i _ b1 Hl). }
    rewrite Hmem in Hn. tauto.
  - assert (descs V' ≡ₚ descs V) as E.
    { unfold descs. rewrite (remove_perm bk_desc). cbn [app]. rewrite Permutation_middle. done. }
    split; [by rewrite E|]. intros x. rewrite E. apply Hplace.
  - assert (pages V ≡ₚ bk_page b :: pages V') as E by (unfold pages; by rewrite (remove_perm bk_page)).
    rewrite E in Hndp. apply NoDup_cons in Hndp as [Hno Hndp]. split; [done|]. intros q Hq.
    destruct (Hmain q) as [Hq1 Hq2]; [rewrite E; by apply list_elem_of_further|]. unfold main. rewrite Eh. split; [done|].
    unfold bump. rewrite (proj2 (Z.eqb_neq q (bk_page b))); [done|]. by intros ->.
Qed.
End RemoveBucket.

(** The descriptor before a bucket, or null. *)
Definition prev_of (l : list bucket) : Z := default 0 (last (bk_desc <$> l)).

(** [drop_bucket] once the bucket is out of its chain. *)
Definition given_back (p : Z) (m : mm) : mm := m <| mem_map ::= <[idx p := cnt m p - 1]> |>.
Definition dropped (d p : Z) (s : heap) : heap :=
  (poke (d + 4) (free_bucket_desc s) (s <| h_mm ::= given_back p |>)) <| free_bucket_desc := d |>.

Lemma drop_tail own s d p :
  wf own (h_mm s) -> main (h_mm s) p -> 1 <= own p -> ld (hmem s) d = p ->
  (page ← bd_page d; lift (free_page page);; s ← get; set_bd_next d (free_bucket_desc s);;
   modify (fun s => s <| free_bucket_desc := d |>)) s = (Ret tt, dropped d p s) /\
  wf (bump own p (-1)) (given_back p (h_mm s)).
Proof.
  intros W Hp Ho Hd. destruct (free_page_held own (h_mm s) p W Hp Ho) as [E W']. split; [|done].
  unfold bd_page. mrun (lift_ldw d s). rewrite Hd.
  assert (lift (free_page p) s = (Ret tt, s <| h_mm ::= given_back p |>)) as E' by (unfold lift; by rewrite E).
  mrun E'. rewrite bind_get. unfold set_bd_next. by rewrite (bind_Ret _ _ _ _ _ (lift_stw _ _ _)).
Qed.

(** The links that [drop_bucket] changes. *)
Definition bypassed (i : nat) (sz : Z) (l1 l2 : list bucket) (s : heap) : heap :=
  match last l1 with
  | Some a => poke (bk_desc a + 4) (chain_head l2) s
  | None => s <| bucket_dir ::= <[i := (sz, chain_head l2)]> |>
  end.

Lemma drop_bucket_run own s V i sz l1 b l2 :
  heap_ok own s V -> sizes !! i = Some sz -> v_chains V !! i = Some (l1 ++ b :: l2) ->
  drop_bucket i (bk_desc b) (prev_of l1) s =
    (Ret tt, dropped (bk_desc b) (bk_page b) (bypassed i sz l1 l2 s)).
Proof.
  intros H Hi Hl. pose proof (ho_dir _ _ _ H i sz _ Hi Hl) as Edir. pose proof (ho_chain _ _ _ H i _ Hl) as Hs.
  rewrite fmap_app, fmap_cons in Hs. destruct (seg_rest _ _ _ _ _ _ Hs) as [Enext _].
  change (default 0 (head (bk_desc <$> l2))) with (chain_head l2) in Enext.
  pose proof (ho_bucket _ _ _ H i sz _ b Hi Hl (mid_in l1 b l2)) as [Bp _ _ _ _].
  assert (b ∈ buckets V) as Hb by by apply (in_chain V i _ b Hl), mid_in.
  destruct (page_main own s V H _ (bpage_in V b Hb)) as (_ & _ & Hmain & Hown).
  unfold drop_bucket. mrun (dir_run i _ s Edir). cbn [snd]. unfold prev_of, bypassed.
  destruct l1 as [|a l0 _] using rev_ind.
  - cbn [fmap list_fmap last default]. change (istrue 0) with false. cbv iota.
    change (chain_head ([] ++ b :: l2)) with (bk_desc b). rewrite Z.eqb_refl. cbn [negb]. rewrite !bind_ret.
    unfold bd_next. mrun (lift_ldw (bk_desc b + 4) s). rewrite Enext.
    mrun (set_chain_run i _ (chain_head l2) s Edir). set (s1 := s <| bucket_dir ::= _ |>).
    exact (proj1 (drop_tail own s1 _ _ (ho_wf _ _ _ H) Hmain Hown Bp)).
  - assert (a ∈ buckets V) as Ha by (apply (in_chain V i _ a Hl); rewrite <- app_assoc; apply mid_in).
    destruct (desc_nonzero own s V H (bk_desc a) (bdesc_in V a Ha)) as [Ha0 _].
    rewrite fmap_app. change (bk_desc <$> [a]) with [bk_desc a]. rewrite !last_snoc.
    change (default 0 (Some (bk_desc a))) with (bk_desc a).
    assert (istrue (bk_desc a) = true) as Et by (unfold istrue; by rewrite (proj2 (Z.eqb_neq _ _) Ha0)). rewrite Et.
    rewrite fmap_app in Hs. change (bk_desc <$> [a]) with [bk_desc a] in Hs.
    rewrite <- !app_assoc in Hs. cbn [app] in Hs. pose proof (seg_next _ _ _ _ _ _ _ Hs) as Eprev.
    unfold bd_next. rewrite bind_assoc. mrun (lift_ldw (bk_desc a + 4) s). rewrite Eprev, Z.eqb_refl. cbn [negb]. rewrite !bind_ret.
    mrun (lift_ldw (bk_desc b + 4) s). rewrite Enext, Et.
    unfold set_bd_next at 1. mrun (lift_stw (bk_desc a + 4) (chain_head l2) s). set (s1 := poke _ _ s).
    refine (proj1 (drop_tail own s1 _ _ _ Hmain Hown _)).
    + apply (wf_poke_desc own s V own s (bk_desc a) 4); [done|by apply bdesc_in|lia|done|done|apply (ho_wf _ _ _ H)].
    + unfold s1. rewrite ld_poke_ne; [done|]. intros E. rewrite <- (Z.add_0_r (bk_desc b)) in E.
      apply (desc_word own s V H) in E as [_ E]; [lia|by apply bdesc_in|by apply bdesc_in|lia|lia].
Qed.

Lemma NoDup_chain own s V i l : heap_ok own s V -> v_chains V !! i = Some l -> NoDup (bk_desc <$> l).
Proof.
  intros H Hl. destruct (ho_descs _ _ _ H) as [Hnd _]. unfold descs in Hnd. apply NoDup_app in Hnd as (Hnd & _ & _).
  unfold buckets in Hnd. destruct (concat_insert _ i l [] Hl) as [_ E]. rewrite E in Hnd. by apply NoDup_fmap_sub in Hnd.
Qed.

(** The chain after the bucket was bypassed. *)
Lemma bypassed_ok own s V i sz l1 b l2 :
  heap_ok own s V -> sizes !! i = Some sz -> v_chains V !! i = Some (l1 ++ b :: l2) ->
  let s1 := bypassed i sz l1 l2 s in
  seg 4 (hmem s1) (chain_head (l1 ++ l2)) (bk_desc <$> (l1 ++ l2)) /\
  bucket_dir s1 = <[i := (sz, chain_head (l1 ++ l2))]> (bucket_dir s) /\
  (forall a, (forall d, d ∈ bk_desc <$> l1 -> a <> d + 4) -> ld (hmem s1) a = ld (hmem s) a) /\
  wf own (h_mm s1) /\ mem_map (h_mm s1) = mem_map (h_mm s) /\ HIGH_MEMORY (h_mm s1) = HIGH_MEMORY (h_mm s) /\
  free_bucket_desc s1 = free_bucket_desc s.
Proof.
  intros H Hi Hl s1. pose proof (ho_chain _ _ _ H i _ Hl) as Hs. pose proof (NoDup_chain own s V i _ H Hl) as Hnd.
  pose proof (ho_dir _ _ _ H i sz _ Hi Hl) as Edir. unfold s1, bypassed. destruct l1 as [|a l0 _] using rev_ind.
  - cbn [last app] in *. destruct (seg_rest 4 (hmem s) _ [] (bk_desc b) (fmap (M := list) bk_desc l2) Hs) as [E Hr]. split; [|split; [done|split; [done|split; [apply (ho_wf _ _ _ H)|done]]]].
    change (chain_head l2) with (default 0 (head (bk_desc <$> l2))). rewrite <- E. exact Hr.
  - rewrite last_snoc. rewrite <- !app_assoc in *. cbn [app] in *. rewrite fmap_app in Hs, Hnd. cbn [fmap list_fmap] in Hs, Hnd.
    assert (ld (hmem s) (bk_desc b + 4) = chain_head l2) as E.
    { change (bk_desc a :: bk_desc b :: ?l) with ([bk_desc a] ++ bk_desc b :: l) in Hs. rewrite app_assoc in Hs.
      exact (proj1 (seg_rest _ _ _ _ _ _ Hs)). }
    assert (forall x, x ∈ (bk_desc <$> l0) ++ (bk_desc <$> l2) -> x <> bk_desc a) as Hne.
    { apply NoDup_app in Hnd as (_ & Hsep & [Hna _]%NoDup_cons). intros x [Hx|Hx]%elem_of_app ->.
      - by apply (Hsep _ Hx), list_elem_of_here.
      - apply Hna. by apply list_elem_of_further. }
    assert (chain_head (l0 ++ a :: l2) = chain_head (l0 ++ a :: b :: l2)) as Eh by (by destruct l0).
    split; [|split; [|split; [|split; [|done]]]].
    + rewrite Eh, fmap_app. cbn [fmap list_fmap]. apply (seg_unlink 4 (hmem s) _ _ _ _ (bk_desc b)); [done| | |done].
      * rewrite ld_poke_eq, E. done.
      * intros y Hy. apply ld_poke_ne. pose proof (Hne y Hy). lia.
    + rewrite Eh. by rewrite list_insert_id.
    + intros x Hx. apply ld_poke_ne. intros <-. apply (Hx (bk_desc a)); [|done]. rewrite fmap_app. apply elem_of_app. right. apply list_elem_of_here.
    + apply (wf_poke_desc own s V own s (bk_desc a) 4); [done| |lia|done|done|apply (ho_wf _ _ _ H)].
      by apply bdesc_in, (in_chain V i _ a Hl), mid_in.
Qed.

Lemma drop_bucket_ok own s V i sz l1 b l2 :
  heap_ok own s V -> sizes !! i = Some sz -> v_chains V !! i = Some (l1 ++ b :: l2) ->
  exists s', drop_bucket i (bk_desc b) (prev_of l1) s = (Ret tt, s') /\
    heap_ok (bump own (bk_page b) (-1)) s' (V <| v_chains ::= <[i := l1 ++ l2]> |> <| v_spare ::= cons (bk_desc b) |>) /\
    (forall a, (forall d, d ∈ descs V -> a <> d + 4) -> ld (hmem s') a = ld (hmem s) a).
Proof.
  intros H Hi Hl. rewrite (drop_bucket_run own s V i sz l1 b l2 H Hi Hl). eexists. split; [reflexivity|].
  destruct (bypassed_ok own s V i sz l1 b l2 H Hi Hl) as (Hs & Edir & Hm & W & Emap & Ehigh & Efree).
  set (s1 := bypassed i sz l1 l2 s) in *. clearbody s1. set (d := bk_desc b). set (p := bk_page b).
  assert (b ∈ buckets V) as Hb by by apply (in_chain V i _ b Hl), mid_in.
  pose proof (bdesc_in V b Hb) as Hd. destruct (page_main own s V H _ (bpage_in V b Hb)) as (_ & _ & Hmain & Hown).
  assert (forall x, x ∈ bk_desc <$> l1 -> x ∈ descs V) as Hl1.
  { intros x (b1 & -> & Hb1)%list_elem_of_fmap_1. apply bdesc_in, (in_chain V i _ b1 Hl). apply elem_of_app. by left. }
  assert (hmem (dropped d p s1) = <[d + 4 := free_bucket_desc s1]> (hmem s1)) as Em by done.
  assert (forall a, (forall x, x ∈ descs V -> a <> x + 4) -> ld (hmem (dropped d p s1)) a = ld (hmem s) a) as Hall.
  { intros a Ha. rewrite Em, ld_insert_ne by (intros E; by apply (Ha d Hd)). apply Hm. intros x Hx. by apply Ha, Hl1. }
  split; [|done].
  assert (main (h_mm s1) p) as Hmain1 by (unfold main; by rewrite Ehigh).
  destruct (free_page_held own (h_mm s1) p W Hmain1 Hown) as [_ W'].
  pose proof (NoDup_chain own s V i _ H Hl) as Hnd. rewrite fmap_app, fmap_cons in Hnd.
  assert (d ∉ (bk_desc <$> l1) ++ (bk_desc <$> l2)) as Hdn.
  { apply NoDup_app in Hnd as (_ & Hsep & [Hn _]%NoDup_cons). intros [Hx|Hx]%elem_of_app; [by apply (Hsep _ Hx), list_elem_of_here|done]. }
  apply (remove_bucket own s _ V sz i l1 l2 b H Hi Hl Hall).
  - intros x Hx Hxd Hx1. rewrite Em, ld_insert_ne by (fold d in Hxd; lia). apply Hm. intros y Hy E. apply Hx1. by assert (x = y) as -> by lia.
  - rewrite Em. apply (seg_ext _ (hmem s1)); [|done]. intros y Hy. apply ld_insert_ne. intros E.
    apply Hdn. assert (d = y) as -> by lia. by rewrite fmap_app in Hy.
  - rewrite Em, ld_insert_eq. done.
  - done.
  - apply (wf_poke_desc own s V _ (s1 <| h_mm ::= given_back p |>) d 4); [done|done|lia|done| |done].
    intros q Hq Hq1. unfold bump. rewrite (proj2 (Z.eqb_neq q (bk_page b))); [done|]. by apply (dpage_bucket own s V H).
  - done.
  - done.
Qed.

Lemma NoDup_split_eq {A} (x : A) l1 l2 k1 k2 : NoDup (l1 ++ x :: l2) -> l1 ++ x :: l2 = k1 ++ x :: k2 -> l1 = k1 /\ l2 = k2.
Proof.
  revert k1. induction l1 as [|y l1 IH]; intros [|z k1] Hnd E; cbn in *.
  - by injection E as ->.
  - injection E as <- E. apply NoDup_cons in Hnd as [Hn _]. destruct Hn. rewrite E. apply mid_in.
  - injection E as -> E. apply NoDup_cons in Hnd as [Hn _]. destruct Hn. apply mid_in.
  - injection E as -> E. apply NoDup_cons in Hnd as [_ Hnd]. by destruct (IH k1 Hnd E) as [-> ->].
Qed.

Lemma find_page_run s n l prev page :
  (length l < n)%nat -> (forall b, b ∈ l -> bk_desc b <> 0 /\ ld (hmem s) (bk_desc b) = bk_page b) ->
  seg 4 (hmem s) (chain_head l) (bk_desc <$> l) ->
  (exists l1 b l2, l = l1 ++ b :: l2 /\ bk_page b = page /\
     find_page n (chain_head l) prev page s = (Ret (Some (bk_desc b, default prev (last (bk_desc <$> l1)))), s)) \/
  (Forall (fun b => bk_page b <> page) l /\ find_page n (chain_head l) prev page s = (Ret None, s)).
Proof.
  revert l prev. induction n as [|n IH]; intros l prev Hn Hl Hs; [lia|]. destruct l as [|b l].
  - right. split; [constructor|done].
  - destruct (Hl b) as [Hb Hw]; [apply list_elem_of_here|]. cbn [find_page]. destruct Hs as [_ Hs].
    change (chain_head (b :: l)) with (bk_desc b). rewrite (proj2 (Z.eqb_neq _ _) Hb). unfold bd_page. mrun (lift_ldw (bk_desc b) s).
    rewrite Hw. destruct (Z.eqb_spec (bk_page b) page) as [Ep|Ep].
    + left. by exists [], b, l.
    + unfold bd_next. mrun (lift_ldw (bk_desc b + 4) s).
      assert (ld (hmem s) (bk_desc b + 4) = chain_head l) as E4 by (by apply seg_head in Hs).
      rewrite E4 in Hs |- *. destruct (IH l (bk_desc b)) as [(l1 & b' & l2 & -> & Ep' & E)|[Hall E]]; [cbn in Hn; lia| |done| |].
      * intros b' Hb'. apply Hl. by apply list_elem_of_further.
      * left. exists (b :: l1), b', l2. split; [done|]. split; [done|]. rewrite E. do 4 f_equal. rewrite fmap_cons, last_cons. by destruct (last _).
      * right. split; [by constructor|done].
Qed.

Lemma chain_find own s V j z l page :
  heap_ok own s V -> sizes !! j = Some z -> v_chains V !! j = Some l ->
  (exists k1 b k2, l = k1 ++ b :: k2 /\ bk_page b = page /\
     find_page MAX_CHAIN (chain_head l) 0 page s = (Ret (Some (bk_desc b, prev_of k1)), s)) \/
  (Forall (fun b => bk_page b <> page) l /\ find_page MAX_CHAIN (chain_head l) 0 page s = (Ret None, s)).
Proof.
  intros H Hj Hlj. apply find_page_run; [by apply (chain_length own s V j)| |by apply (ho_chain _ _ _ H j)].
  intros b0 Hb0. split; [|by destruct (ho_bucket _ _ _ H j z l b0 Hj Hlj Hb0)].
  by apply (desc_nonzero own s V H), bdesc_in, (in_chain V j l).
Qed.

(** The bucket of an object is found, whatever chains come before it. *)
Lemma find_bucket_run own s V i sz l1 b l2 size :
  heap_ok own s V -> sizes !! i = Some sz -> v_chains V !! i = Some (l1 ++ b :: l2) -> size <= sz ->
  find_bucket (bucket_dir s) 0 size (bk_page b) s = (Ret (Some (i, bk_desc b, prev_of l1)), s).
Proof.
  intros H Hi Hl Hsz. assert (b ∈ buckets V) as Hb by by apply (in_chain V i _ b Hl), mid_in.
  destruct (size_facts i sz Hi) as (Hi9 & _). destruct (ho_len _ _ _ H) as [Hlen Hlen'].
  pose proof (fun j z l => chain_find own s V j z l (bk_page b) H) as Hfind.
  assert (forall b0, b0 ∈ buckets V -> bk_page b0 = bk_page b -> b0 = b) as Huniq.
  { intros b0 Hb0 E. apply (bucket_same_page own s V H b0 b (bk_page b) Hb0 Hb); lia. }
  assert (forall k, (k <= i)%nat ->
    find_bucket (drop (i - k) (bucket_dir s)) (i - k) size (bk_page b) s = (Ret (Some (i, bk_desc b, prev_of l1)), s)) as Hgo.
  { induction k as [|k IH]; intros Hk.
    - rewrite Nat.sub_0_r. rewrite (drop_S _ _ _ (ho_dir _ _ _ H i sz _ Hi Hl)). cbn [find_bucket].
      destruct (size_facts i sz Hi) as (_ & Hr & _). rewrite (proj2 (Z.eqb_neq sz 0)), (proj2 (Z.ltb_ge sz size)) by lia.
      destruct (Hfind i sz _ Hi Hl) as [(k1 & b0 & k2 & E & Ep & E')|[Hall _]].
      + assert (b0 = b) as -> by (apply Huniq; [apply (in_chain V i _ b0 Hl); rewrite E; apply mid_in|done]).
        pose proof (NoDup_chain own s V i _ H Hl) as Hnd. apply NoDup_fmap_1 in Hnd.
        assert (k1 = l1) as -> by (by destruct (NoDup_split_eq b l1 l2 k1 k2)).
        by mrun E'.
      + exfalso. by apply (proj1 (Forall_forall _ _) Hall b (mid_in l1 b l2)).
    - assert (i - k = S (i - S k))%nat as Ek by lia. rewrite Ek in IH.
      destruct (lookup_lt_is_Some_2 sizes (i - S k)) as [z Hz]; [cbn; lia|].
      destruct (lookup_lt_is_Some_2 (v_chains V) (i - S k)) as [l Hlj]; [lia|].
      rewrite (drop_S _ _ _ (ho_dir _ _ _ H (i - S k) z l Hz Hlj)). cbn [find_bucket].
      destruct (size_facts _ z Hz) as (_ & Hr & _). rewrite (proj2 (Z.eqb_neq z 0)) by lia.
      destruct (z <? size); [apply IH; lia|].
      destruct (Hfind _ z l Hz Hlj) as [(k1 & b0 & k2 & E & Ep & _)|[_ E']]; [|mrun E'; apply IH; lia].
      exfalso. assert (b0 ∈ l) as Hb0 by (rewrite E; apply mid_in).
      assert (b0 = b) as -> by (apply Huniq; [by apply (in_chain V (i - S k) l)|done]).
      destruct (NoDup_concat _ _ _ _ _ b (NoDup_buckets own s V H) Hlj Hl Hb0 (mid_in l1 b l2)) as [Ei _]. lia. }
  specialize (Hgo i). rewrite Nat.sub_diag in Hgo. by apply Hgo.
Qed.

(** A bucket whose free list is as long as its page has objects has none in use; another has. *)
Lemma free_full i sz p l :
  sizes !! i = Some sz -> NoDup l -> Forall (object sz p) l ->
  (Z.of_nat (length l) = 4096 / sz -> forall x, object sz p x -> x ∈ l) /\
  (Z.of_nat (length l) < 4096 / sz -> exists x, object sz p x /\ x ∉ l).
Proof.
  intros Hi Hnd Hin. destruct (size_facts i sz Hi) as (_ & Hsz & _ & _ & Hn). set (n := Z.to_nat (4096 / sz)).
  assert (forall x, object sz p x <-> x ∈ spaced p sz n) as Hobj.
  { intros x. rewrite in_spaced. unfold object, n. rewrite Z2Nat.id by lia. done. }
  assert (l ⊆ spaced p sz n) as Hsub by (intros x Hx; apply Hobj; by apply (proj1 (Forall_forall _ _) Hin)).
  pose proof (NoDup_submseteq _ _ Hnd Hsub) as Hsm. pose proof (length_spaced p sz n) as El. split.
  - intros Hl x Hx%Hobj. assert (l ≡ₚ spaced p sz n) as ->; [|done]. apply submseteq_length_Permutation; [done|]. lia.
  - intros Hl. destruct (decide (Forall (fun x => x ∈ l) (spaced p sz n))) as [Hall|Hall].
    + pose proof (submseteq_length _ _ (NoDup_submseteq _ l (NoDup_spaced p sz n ltac:(lia)) (proj1 (Forall_forall _ _) Hall))). lia.
    + apply not_Forall_Exists in Hall; [|apply _]. apply Exists_exists in Hall as (x & Hx & Hn'). exists x. by rewrite Hobj.
Qed.

(** What returning an object does to the objects in use. *)
Lemma put_view own s V i sz l1 b o l2 :
  heap_ok own s V -> sizes !! i = Some sz -> v_chains V !! i = Some (l1 ++ b :: l2) -> object sz (bk_page b) o -> o ∉ bk_free b ->
  let V' := V <| v_chains ::= <[i := l1 ++ b <| bk_free ::= cons o |> :: l2]> |> in
  forall x n, live V' x n <-> live V x n /\ x <> o.
Proof.
  intros H Hi Hl Ho Hf V' x n. assert (b ∈ buckets V) as Hb by by apply (in_chain V i _ b Hl), mid_in.
  pose proof (object_range i sz _ o Hi Ho). destruct (size_facts i sz Hi) as (_ & Hsz & _). unfold V'.
  rewrite (live_replace own s V i sz l1 b _ l2 x n H Hi Hl), (live_split own s V i sz l1 b l2 x n H Hi Hl) by done.
  change (bk_free (b <| bk_free ::= cons o |>)) with (o :: bk_free b). rewrite not_elem_of_cons.
  split; [intros [(-> & Hx & Hne & Hx')|Hx]|intros [[(-> & Hx & Hx')|Hx] Hne]]; [split; [by left|done]| |by left|by right].
  split; [by right|]. intros ->. apply (others_off own s V b o n H Hb Hx). lia.
Qed.

(** ... and giving the page of a bucket back, none of whose objects is in use. *)
Lemma drop_view own s V i sz l1 b l2 x n :
  heap_ok own s V -> sizes !! i = Some sz -> v_chains V !! i = Some (l1 ++ b :: l2) ->
  (forall y, object sz (bk_page b) y -> y ∈ bk_free b) ->
  live (V <| v_chains ::= <[i := l1 ++ l2]> |> <| v_spare ::= cons (bk_desc b) |>) x n <-> live V x n.
Proof.
  intros H Hi Hl Hall. rewrite (live_split own s V i sz l1 b l2 x n H Hi Hl). pose proof (lookup_lt_Some _ _ _ Hl) as Hlt. split.
  - intros (j & l & b0 & Hj & Hlj & Hb0 & Ho & Hf). right.
    destruct (other_bucket own s V i l1 b [] l2 j l b0 H Hl Hlj Hb0) as [[_ ?%not_elem_of_nil]|(l0 & Hl0 & Hin & Hne)]; [done|].
    by exists j, l0, b0.
  - intros [(-> & Hx & Hf)|(j & l & b0 & Hj & Hlj & Hb0 & Hne & Ho & Hf)]; [destruct Hf; by apply Hall|].
    destruct (decide (j = i)) as [->|Hji].
    + rewrite Hl in Hlj. injection Hlj as <-. exists i, (l1 ++ l2), b0. split; [done|].
      split; [cbn; by apply list_lookup_insert_eq|]. split; [set_solver|done].
    + exists j, l, b0. split; [done|]. split; [cbn; by rewrite list_lookup_insert_ne|done].
Qed.

Lemma drop_busy own s V i sz l1 b l2 :
  heap_ok own s V -> sizes !! i = Some sz -> v_chains V !! i = Some (l1 ++ b :: l2) -> busy_others V b ->
  busy (V <| v_chains ::= <[i := l1 ++ l2]> |> <| v_spare ::= cons (bk_desc b) |>).
Proof.
  intros H Hi Hl Hbo j z l b0 Hj Hlj Hb0.
  destruct (other_bucket own s V i l1 b [] l2 j l b0 H Hl Hlj Hb0) as [[_ ?%not_elem_of_nil]|(l0 & Hl0 & Hin & Hne)]; [done|].
  by apply (Hbo j z l0).
Qed.

Lemma live_frame own s V x n :
  heap_ok own s V -> live V x n -> exists b, b ∈ buckets V /\ frame x = bk_page b /\ bk_page b <= x < bk_page b + 4096.
Proof.
  intros H Hx. destruct (live_in own s V x n H Hx) as (b & Hb & Hr). exists b. split; [done|].
  destruct (page_main own s V H _ (bpage_in V b Hb)) as (Hal & Hp & _). unfold LOW_MEM in Hp. split; [|lia].
  replace x with (bk_page b + (x - bk_page b)) by lia. apply frame_page; lia.
Qed.

(** The other objects keep their contents when descriptors and [o] are written. *)
Lemma live_kept own s V o n x m a :
  heap_ok own s V -> live V o n -> live V x m -> x <> o -> x <= a < x + m -> a <> o /\ forall d c, d ∈ descs V -> 0 <= c < 16 -> a <> d + c.
Proof.
  intros H Ho Hx Hne Ha. destruct (live_in own s V o n H Ho) as (_ & _ & _ & _ & Hn). split.
  - destruct (live_apart own s V x m o n H Hx Ho Hne); lia.
  - intros d c Hd Hc ->. destruct (live_in own s V x m H Hx) as (b & Hb & Hr). apply (desc_off_page own s V H d b c Hd Hb Hc). lia.
Qed.

(** Dropping a bucket without objects in use. *)
Lemma drop_last own s V i sz l1 b l2 :
  heap_ok own s V -> sizes !! i = Some sz -> v_chains V !! i = Some (l1 ++ b :: l2) ->
  (forall y, object sz (bk_page b) y -> y ∈ bk_free b) -> busy_others V b ->
  exists s' V', drop_bucket i (bk_desc b) (prev_of l1) s = (Ret tt, s') /\
    heap_ok (bump own (bk_page b) (-1)) s' V' /\ busy V' /\ (forall x n, live V' x n <-> live V x n) /\
    (forall x n a, live V x n -> x <= a < x + n -> ld (hmem s') a = ld (hmem s) a) /\
    (forall x n, live V' x n -> frame x <> bk_page b).
Proof.
  intros H Hi Hl Hall Hbo. destruct (drop_bucket_ok own s V i sz l1 b l2 H Hi Hl) as (s' & E & H' & Hm).
  pose proof (fun x n => drop_view own s V i sz l1 b l2 x n H Hi Hl Hall) as Hlive.
  pose proof (drop_busy own s V i sz l1 b l2 H Hi Hl Hbo) as Hb'. set (V' := V <| v_chains ::= _ |> <| v_spare ::= _ |>) in *.
  exists s', V'. split; [done|]. split; [done|]. split; [done|]. split; [done|]. split.
  - intros x n a Hx Ha. apply Hm. intros d Hd ->. destruct (live_in own s V x n H Hx) as (b0 & Hb0 & Hr).
    apply (desc_off_page own s V H d b0 4 Hd Hb0); lia.
  - intros x n Hx E0. destruct (live_frame _ s' V' x n H' Hx) as (b0 & _ & Ef & Hr).
    apply Hlive, (live_split own s V i sz l1 b l2 x n H Hi Hl) in Hx as [(_ & Hox & Hnf)|Hx]; [by apply Hnf, Hall|].
    apply (others_off own s V b x n H); [by apply (in_chain V i _ b Hl), mid_in|done|]. rewrite <- E0, Ef. done.
Qed.

(** C19: [free_s] gives an object back.  An object in use, freed with its size, a smaller size or 0,
    is always found; afterwards it is the only object that is no longer in use, the contents of
    the others are as they were, and the heap is consistent.  When no other object of its page is
    in use the page goes back to the memory manager, otherwise it is kept. *)
Theorem free_s_ok own s V o n size :
  heap_ok own s V -> busy V -> live V o n -> size <= n ->
  exists own' s' V', free_s o size s = (Ret tt, s') /\ heap_ok own' s' V' /\ busy V' /\
    (forall x m, live V' x m <-> live V x m /\ x <> o) /\
    (forall x m a, live V x m -> x <> o -> x <= a < x + m -> ld (hmem s') a = ld (hmem s) a) /\
    ((own' = own /\ exists x m, live V' x m /\ frame x = frame o) \/
     (own' = bump own (frame o) (-1) /\ forall x m, live V' x m -> frame x <> frame o)).
Proof.
  intros H Hbusy Hlo Hsize. pose proof Hlo as (i & l & b & Hi & Hl & Hb & Ho & Hf). apply list_elem_of_split in Hb as (l1 & l2 & ->).
  assert (b ∈ buckets V) as Hb by by apply (in_chain V i _ b Hl), mid_in.
  destruct (page_main own s V H _ (bpage_in V b Hb)) as (Hal & Hr & _). unfold LOW_MEM in Hr.
  pose proof (object_page i n _ o Hi Hal ltac:(lia) Ho) as Epage.
  assert (frame o = bk_page b) as -> by (rewrite <- Epage; apply Z.land_comm).
  unfold free_s. rewrite bind_get, Epage. mrun (find_bucket_run own s V i n l1 b l2 size H Hi Hl Hsize).
  destruct (put_object_ok own s V i n l1 b o l2 H Hi Hl Ho Hf) as (s1 & E1 & H1 & Hm1 & _). mrun E1.
  pose proof (put_view own s V i n l1 b o l2 H Hi Hl Ho Hf) as Hlive. cbv zeta in Hlive.
  assert (busy_others V b) as Hbo by (intros j z l b0 Hj Hlj Hb0 _; by apply (Hbusy j z l)).
  assert (forall x m a, live V x m -> x <> o -> x <= a < x + m -> ld (hmem s1) a = ld (hmem s) a) as Hkeep.
  { intros x m a Hx Hne Ha. destruct (live_kept own s V o n x m a H Hlo Hx Hne Ha) as [Hao Had].
    by apply Hm1; [apply Had; [by apply bdesc_in|lia]..|]. }
  set (b1 := b <| bk_free ::= cons o |>) in *.
  pose proof (fun Hlen => busy_replace own s V i n l1 b b1 l2 H Hi Hl Hbo Hlen) as Hbusy1.
  set (V1 := V <| v_chains ::= _ |>) in *.
  assert (v_chains V1 !! i = Some (l1 ++ b1 :: l2)) as Hl1 by (by apply list_lookup_insert_eq, (lookup_lt_Some _ _ _ Hl)).
  pose proof (ho_bucket _ _ _ H1 i n _ b1 Hi Hl1 (mid_in l1 b1 l2)) as Hbk.
  destruct (count_word _ i n b1 Hi Hbk) as [Ecnt _]. pose proof (free_count _ i n b1 Hi Hbk) as Hcnt.
  mrun (refcnt_run (bk_desc b) s1). change (bk_desc b1) with (bk_desc b) in Ecnt. rewrite Ecnt.
  destruct Hbk as [_ _ _ Bn Bi]. destruct (free_full i n _ _ Hi Bn Bi) as [Hfull Hopen].
  destruct (Z.eqb_spec (4096 / n - Z.of_nat (length (bk_free b1))) 0) as [Ez|Ez]; cbn [when].
  - destruct (drop_last own s1 V1 i n l1 b1 l2 H1 Hi Hl1) as (s2 & V2 & E2 & H2 & Hb2 & Hlive2 & Hm2 & Hgone).
    { apply Hfull. lia. }
    { intros j z l b0 Hj Hlj Hb0 Hne.
      destruct (other_bucket own s V i l1 b [b1] l2 j l b0 H Hl Hlj Hb0) as [[_ ->%list_elem_of_singleton]|(l0 & Hl0 & Hin & _)]; [done|].
      by apply (Hbusy j z l0). }
    exists (bump own (bk_page b) (-1)), s2, V2. split; [done|]. split; [done|]. split; [done|].
    split; [intros x m; by rewrite Hlive2, Hlive|]. split; [|by right].
    intros x m a Hx Hne Ha. rewrite <- (Hkeep x m a Hx Hne Ha). apply (Hm2 x m); [by apply Hlive|done].
  - exists own, s1, V1. split; [done|]. split; [done|]. split; [apply Hbusy1; lia|]. split; [done|]. split; [done|]. left.
    split; [done|]. destruct Hopen as (x & Hx & Hfx); [lia|]. exists x, n.
    assert (live V1 x n) as Hlx by (exists i, (l1 ++ b1 :: l2), b1; split; [done|]; split; [done|]; split; [apply mid_in|done]).
    split; [done|]. rewrite <- (object_page i n (bk_page b) x Hi Hal ltac:(lia) Hx). apply Z.land_comm.
Qed.

(** ** The first heap, and witnesses *)

Definition empty_view : view := mk_view (replicate 9 []) [] [].

Lemma init_heap_ok own m : wf own m -> heap_ok own (init_heap m) empty_view /\ busy empty_view /\ forall x n, ~ live empty_view x n.
Proof.
  intros W. assert (forall i l, v_chains empty_view !! i = Some l -> l = []) as Hnil.
  { intros i l Hi. by apply lookup_replicate in Hi as [-> _]. }
  split; [|split].
  - split.
    + done.
    + done.
    + done.
    + intros i sz l Hi ->%Hnil. do 9 (destruct i as [|i]; [by injection Hi as <-|]). done.
    + by intros i l ->%Hnil.
    + by intros i sz l b Hi ->%Hnil ?%not_elem_of_nil.
    + done.
    + split; [constructor|by intros d ?%not_elem_of_nil].
    + split; [constructor|by intros d ?%not_elem_of_nil].
  - by intros i sz l b Hi ->%Hnil ?%not_elem_of_nil.
  - by intros x n (i & l & b & Hi & ->%Hnil & ?%not_elem_of_nil & _).
Qed.

#[local] Opaque DESCS.

Lemma malloc_ok_witness :
  exists o s', malloc 100 (init_heap boot) = (Ret o, s') /\ malloc_result (init_heap boot) empty_view 100 o s'.
Proof.
  destruct (init_heap_ok _ boot boot_wf) as (H & Hb & _).
  destruct (malloc_ok _ _ _ 100 H Hb) as [[Hok|(msg & s' & E & _)] _]; [done|exact Hok|].
  exfalso. assert (fst (malloc 100 (init_heap boot)) = Ret 0xffe000) as E' by (vm_compute; reflexivity).
  rewrite E in E'. discriminate.
Defined.

Lemma free_s_ok_witness :
  exists d s0 o s1 s2, new_bucket 0 (init_heap boot) = (Ret d, s0) /\ take_object d s0 = (Ret o, s1) /\ free_s o 0 s1 = (Ret tt, s2).
Proof.
  destruct (init_heap_ok _ boot boot_wf) as (H & Hb & Hlive).
  pose proof (new_bucket_ok _ _ _ 0 16 [] H eq_refl eq_refl) as Hnew. destruct Hnew as [(msg & s' & E & _)|Hnew].
  { exfalso. assert (fst (new_bucket 0 (init_heap boot)) = Ret 0xfff000) as E' by (vm_compute; reflexivity).
    rewrite E in E'. discriminate. }
  destruct Hnew as (own' & s0 & V' & b & E0 & H' & Ev & Ef & _ & Hmem).
  destruct (added_view empty_view V' 0 16 b [] eq_refl eq_refl Ev Ef Hb) as [Hbo Hl0].
  destruct (malloc_take _ _ _ own' s0 V' 0 16 [] b [] 10 H H') as (o & s1 & E1 & R); [done|lia|by rewrite Ev| |done|done|done|].
  { rewrite Ef. done. }
  destruct R as (own1 & V1 & sz & H1 & Hb1 & Hsz & Hl1 & _).
  destruct (free_s_ok own1 s1 V1 o sz 0 H1 Hb1) as (own2 & s2 & V2 & E2 & _); [exact (proj2 (Hl1 o sz) (or_intror (conj eq_refl eq_refl)))|clear - Hsz; lia|].
  exists (bk_desc b), s0, o, s1, s2. exact (conj E0 (conj E1 E2)).
Defined.
