(* ===== verification/Task.v ===== *)
(** Tasks and the kernel state that the process-management files share
    ([include/linux/sched.h], [include/signal.h] and the globals of [kernel/sched.c]).

    A task is named by its slot in [task[]]; the map [tasks] has no entry for an empty
    slot.  The bytes that a system call reads or writes in the data segment of the task
    that made it ([get_fs_long], [put_fs_byte], ...) are the map [umem], indexed by user
    address.
    Wait queues, inodes and open files are named by numbers; [i_count] and [f_count]
    are their reference counts.  [task_page] is the address of the page that holds a
    task's structure, the value of the pointer [task[nr]]. *)

From S2P Require Import Prelude Memory.

(** ** Constants *)

Definition HZ : Z := 100.
Definition NR_OPEN : Z := 20.
Definition PAGE_SIZE : Z := 4096.

Definition TASK_RUNNING : Z := 0.
Definition TASK_INTERRUPTIBLE : Z := 1.
Definition TASK_UNINTERRUPTIBLE : Z := 2.
Definition TASK_ZOMBIE : Z := 3.
Definition TASK_STOPPED : Z := 4.

Definition SIGHUP : Z := 1.
Definition SIGKILL : Z := 9.
Definition SIGALRM : Z := 14.
Definition SIGCHLD : Z := 17.
Definition SIGSTOP : Z := 19.

Definition SA_NOMASK : Z := 0x40000000.
Definition SA_ONESHOT : Z := 0x80000000.

Definition EPERM : Z := 1.
Definition ESRCH : Z := 3.
Definition EINTR : Z := 4.
Definition ECHILD : Z := 10.
Definition EAGAIN : Z := 11.
Definition ENOMEM : Z := 12.
Definition EINVAL : Z := 22.
Definition ENOSYS : Z := 38.
Definition ERROR : Z := 99.

Definition WNOHANG : Z := 1.
Definition WUNTRACED : Z := 2.

(** ** Data *)

Record sigaction := mk_sigaction {
  sa_handler : Z;
  sa_mask : Z;
  sa_flags : Z;
  sa_restorer : Z
}.

#[export] Instance eta_sigaction : Eta sigaction := fun s =>
  mk_sigaction (sa_handler s) (sa_mask s) (sa_flags s) (sa_restorer s).

Record tss_struct := mk_tss {
  back_link : Z; esp0 : Z; ss0 : Z; tss_eip : Z; tss_eflags : Z;
  tss_eax : Z; tss_ecx : Z; tss_edx : Z; tss_ebx : Z; tss_esp : Z; tss_ebp : Z;
  tss_esi : Z; tss_edi : Z; tss_es : Z; tss_cs : Z; tss_ss : Z; tss_ds : Z;
  tss_fs : Z; tss_gs : Z; tss_ldt : Z; trace_bitmap : Z; i387 : Z
}.

#[export] Instance eta_tss : Eta tss_struct := fun t =>
  mk_tss (back_link t) (esp0 t) (ss0 t) (tss_eip t) (tss_eflags t)
    (tss_eax t) (tss_ecx t) (tss_edx t) (tss_ebx t) (tss_esp t) (tss_ebp t)
    (tss_esi t) (tss_edi t) (tss_es t) (tss_cs t) (tss_ss t) (tss_ds t)
    (tss_fs t) (tss_gs t) (tss_ldt t) (trace_bitmap t) (i387 t).

(** A segment descriptor of the local descriptor table: base address and length. *)
Record desc := mk_desc { d_base : Z; d_limit : Z }.

Record task_struct := mk_task {
  t_state : Z; t_counter : Z; t_priority : Z; t_signal : Z;
  t_sigaction : list sigaction; t_blocked : Z;
  t_exit_code : Z;
  t_start_code : Z; t_end_code : Z; t_end_data : Z; t_brk : Z; t_start_stack : Z;
  t_pid : Z; t_father : Z; t_pgrp : Z; t_session : Z; t_leader : Z;
  t_uid : Z; t_euid : Z; t_suid : Z; t_gid : Z; t_egid : Z; t_sgid : Z;
  t_alarm : Z; t_utime : Z; t_stime : Z; t_cutime : Z; t_cstime : Z; t_start_time : Z;
  t_used_math : Z;
  t_tty : Z; t_umask : Z;
  t_pwd : option Z; t_root : option Z; t_executable : option Z;
  t_close_on_exec : Z;
  t_filp : list (option Z);
  t_ldt : desc * desc * desc;
  t_tss : tss_struct
}.

#[export] Instance eta_task : Eta task_struct := fun t =>
  mk_task (t_state t) (t_counter t) (t_priority t) (t_signal t)
    (t_sigaction t) (t_blocked t) (t_exit_code t)
    (t_start_code t) (t_end_code t) (t_end_data t) (t_brk t) (t_start_stack t)
    (t_pid t) (t_father t) (t_pgrp t) (t_session t) (t_leader t)
    (t_uid t) (t_euid t) (t_suid t) (t_gid t) (t_egid t) (t_sgid t)
    (t_alarm t) (t_utime t) (t_stime t) (t_cutime t) (t_cstime t) (t_start_time t)
    (t_used_math t) (t_tty t) (t_umask t)
    (t_pwd t) (t_root t) (t_executable t) (t_close_on_exec t) (t_filp t)
    (t_ldt t) (t_tss t).

(** One element of the timer array: [fn] is 0 when the element is free, [next] an index. *)
Record timer := mk_timer { tl_jiffies : Z; tl_fn : Z; tl_next : option nat }.

#[export] Instance eta_timer : Eta timer := fun t =>
  mk_timer (tl_jiffies t) (tl_fn t) (tl_next t).

(** The floppy motor state kept by [kernel/sched.c]. *)
Record motor := mk_motor {
  mon_timer : list Z;
  moff_timer : list Z;
  current_DOR : Z;
  selected : Z
}.

#[export] Instance eta_motor : Eta motor := fun m =>
  mk_motor (mon_timer m) (moff_timer m) (current_DOR m) (selected m).

Record kst := mk_kst {
  kmm : mm;
  tasks : gmap Z task_struct;
  cur : Z;
  jiffies : Z;
  startup_time : Z;
  last_pid : Z;
  last_task_used_math : option Z;
  wait_queue : gmap Z Z;
  timer_list : list timer;
  next_timer : option nat;
  fired : list Z;
  beepcount : Z;
  floppy : motor;
  ports : list (Z * Z);
  umem : gmap Z Z;
  i_count : gmap Z Z;
  f_count : gmap Z Z;
  gdt : gmap Z Z;
  tty_pgrp : gmap Z Z;
  task_page : gmap Z Z
}.

#[export] Instance eta_kst : Eta kst := fun s =>
  mk_kst (kmm s) (tasks s) (cur s) (jiffies s) (startup_time s) (last_pid s)
    (last_task_used_math s) (wait_queue s) (timer_list s) (next_timer s) (fired s)
    (beepcount s) (floppy s) (ports s) (umem s) (i_count s) (f_count s) (gdt s) (tty_pgrp s)
    (task_page s).

(** ** Access *)

(** [*p] for a task pointer: an empty slot is a dangling pointer. *)
Definition get_task (p : Z) : M kst task_struct :=
  s ← get; of_option "task pointer" (tasks s !! p).

Definition upd_task (p : Z) (f : task_struct -> task_struct) : M kst unit :=
  t ← get_task p;
  modify (fun s => s <| tasks ::= <[p := f t]> |>).

Definition current_task : M kst task_struct := s ← get; get_task (cur s).

Definition upd_current (f : task_struct -> task_struct) : M kst unit :=
  s ← get; upd_task (cur s) f.

(** What the memory manager sees of the task table. *)
Definition mm_view (s : kst) : mm :=
  (kmm s) <| Memory.task := (fun t => mk_mtask (t_start_code t) (t_end_code t) (t_end_data t)
                                        (t_executable t)) <$> tasks s |>
          <| Memory.current := cur s |>.

(** Running an operation of the memory manager on its part of the state. *)
Definition on_mm {A} (m : M mm A) : M kst A := fun s =>
  let '(r, m') := m (mm_view s) in (r, s <| kmm := m' |>).

(** *** User memory ([include/asm/segment.h]), little endian *)

Definition ld_byte (m : gmap Z Z) (a : Z) : Z := default 0 (m !! a).

Definition st_long (v a : Z) (m : gmap Z Z) : gmap Z Z :=
  <[a + 3 := u8 (Z.shiftr v 24)]> (<[a + 2 := u8 (Z.shiftr v 16)]>
    (<[a + 1 := u8 (Z.shiftr v 8)]> (<[a := u8 v]> m))).

Definition ld_long (m : gmap Z Z) (a : Z) : Z :=
  ld_byte m a + 256 * ld_byte m (a + 1) + 65536 * ld_byte m (a + 2) + 16777216 * ld_byte m (a + 3).

Definition put_fs_byte (v addr : Z) : M kst unit :=
  modify (fun s => s <| umem ::= <[addr := u8 v]> |>).
Definition get_fs_byte (addr : Z) : M kst Z :=
  gets (fun s => ld_byte (umem s) addr).
Definition put_fs_word (v addr : Z) : M kst unit :=
  modify (fun s => s <| umem ::= fun m => <[addr + 1 := u8 (Z.shiftr v 8)]> (<[addr := u8 v]> m) |>).
Definition get_fs_word (addr : Z) : M kst Z :=
  gets (fun s => ld_byte (umem s) addr + 256 * ld_byte (umem s) (addr + 1)).
Definition put_fs_long (v addr : Z) : M kst unit :=
  modify (fun s => s <| umem ::= st_long v addr |>).
Definition get_fs_long (addr : Z) : M kst Z :=
  gets (fun s => ld_long (umem s) addr).

Definition outb (v port : Z) : M kst unit :=
  modify (fun s => s <| ports ::= cons (v, port) |>).

(** [suser()] of include/linux/kernel.h. *)
Definition suser : M kst bool := t ← current_task; mret (t_euid t =? 0).

(** [(1 << (nr - 1))] *)
Definition sig_bit (nr : Z) : Z := s32 (Z.shiftl 1 (nr - 1)).

(** The task slots from the last to slot 1, as the kernel scans them. *)
Definition slots_down : list Z := reverse (seqZ 1 (NR_TASKS - 1)).

Lemma elem_of_slots_down i : i ∈ slots_down <-> 1 <= i < NR_TASKS.
Proof. unfold slots_down. rewrite elem_of_reverse, elem_of_seqZ. unfold NR_TASKS. lia. Qed.

Lemma slots_down_NoDup : NoDup slots_down.
Proof. unfold slots_down. rewrite reverse_Permutation. apply NoDup_seqZ. Qed.

Lemma slots_down_split p :
  1 <= p < NR_TASKS ->
  exists l1 l2, slots_down = l1 ++ p :: l2 /\ forall q, q ∈ l1 <-> p < q < NR_TASKS.
Proof.
  unfold NR_TASKS. intros Hp. exists (reverse (seqZ (p + 1) (63 - p))), (reverse (seqZ 1 (p - 1))). split.
  - unfold slots_down, NR_TASKS. replace (64 - 1) with (p - 1 + (64 - p)) by lia.
    rewrite seqZ_app, reverse_app by lia. replace (1 + (p - 1)) with p by lia.
    rewrite (seqZ_cons p) by lia. rewrite reverse_cons, <- app_assoc.
    by replace (Z.pred (64 - p)) with (63 - p) by lia.
  - intros q. rewrite elem_of_reverse, elem_of_seqZ. lia.
Qed.

#[global] Opaque slots_down.

Lemma ld_byte_insert m a b v : ld_byte (<[a := v]> m) b = if decide (a = b) then v else ld_byte m b.
Proof.
  unfold ld_byte. case_decide as H; [subst; by rewrite lookup_insert_eq|by rewrite lookup_insert_ne].
Qed.

(** The four bytes of a long make it up again. *)
Lemma bytes_of_long v :
  0 <= v < 4294967296 ->
  u8 v + 256 * u8 (Z.shiftr v 8) + 65536 * u8 (Z.shiftr v 16) + 16777216 * u8 (Z.shiftr v 24) = v.
Proof.
  intros Hv. unfold u8. rewrite !Z.shiftr_div_pow2 by lia.
  change (2 ^ 8) with 256. change (2 ^ 16) with 65536. change (2 ^ 24) with 16777216.
  pose proof (Z_div_mod_eq_full v 256). pose proof (Z_div_mod_eq_full (v / 256) 256).
  pose proof (Z_div_mod_eq_full (v / 65536) 256).
  assert (v / 256 / 256 = v / 65536) by (rewrite Z.div_div by lia; done).
  assert (v / 65536 / 256 = v / 16777216) by (rewrite Z.div_div by lia; done).
  assert (0 <= v / 16777216 < 256) by (split; [apply Z.div_pos; lia|apply Z.div_lt_upper_bound; lia]).
  rewrite (Z.mod_small (v / 16777216)) by lia. lia.
Qed.

Lemma ld_st_long v a m : 0 <= v < 4294967296 -> ld_long (st_long v a m) a = v.
Proof.
  intros Hv. unfold ld_long, st_long. rewrite !ld_byte_insert.
  repeat case_decide; try lia. by apply bytes_of_long.
Qed.

Lemma ld_st_long_ne v a b m : b + 4 <= a \/ a + 4 <= b -> ld_long (st_long v a m) b = ld_long m b.
Proof.
  intros Hab. unfold ld_long, st_long. rewrite !ld_byte_insert. repeat case_decide; lia.
Qed.
