(* ===== verification/Sched.v ===== *)
(** The scheduler ([linux-0.11/kernel/sched.c]): task selection, sleeping and waking,
    kernel timers, the clock interrupt and the small system calls of that file. *)

From S2P Require Import Prelude Memory Task.

(** ** schedule *)

Definition _S (nr : Z) : Z := Z.shiftl 1 (nr - 1).
Definition _BLOCKABLE : Z := Z.lnot (Z.lor (_S SIGKILL) (_S SIGSTOP)).

(** The first loop of [schedule] on one task: the alarm, then waking a task that has an
    unblocked signal. *)
Definition check_signal (now : Z) (t : task_struct) : task_struct :=
  let t := if istrue (t_alarm t) && (t_alarm t <? now)
           then t <| t_signal := Z.lor (t_signal t) (Z.shiftl 1 (SIGALRM - 1)) |> <| t_alarm := 0 |>
           else t in
  if istrue (Z.land (t_signal t) (Z.lnot (Z.land _BLOCKABLE (t_blocked t)))) &&
     (t_state t =? TASK_INTERRUPTIBLE)
  then t <| t_state := TASK_RUNNING |> else t.

Definition check_signals : M kst unit :=
  for_each slots_down (fun p =>
    s ← get;
    match tasks s !! p with
    | None => mret tt
    | Some t => upd_task p (check_signal (jiffies s))
    end).

(** The inner [while (--i)] loop: the scan from the last slot down to slot 1 with the
    best counter [c] and its slot [next]. *)
Fixpoint scan (ts : gmap Z task_struct) (l : list Z) (c next : Z) : Z * Z :=
  match l with
  | [] => (c, next)
  | i :: l =>
      match ts !! i with
      | None => scan ts l c next
      | Some t =>
          if (t_state t =? TASK_RUNNING) && (c <? t_counter t)
          then scan ts l (t_counter t) i else scan ts l c next
      end
  end.

(** [counter = (counter >> 1) + priority] for every task but task 0, in a [long]. *)
Definition recalc : M kst unit :=
  for_each slots_down (fun p =>
    s ← get;
    match tasks s !! p with
    | None => mret tt
    | Some _ => upd_task p (fun t => t <| t_counter := s32 (Z.shiftr (t_counter t) 1 + t_priority t) |>)
    end).

(** The [while (1)] loop, at most [fuel] rounds. *)
Fixpoint pick_next (fuel : nat) : M kst Z :=
  match fuel with
  | O => nofuel
  | S fuel =>
      s ← get;
      let '(c, next) := scan (tasks s) slots_down (-1) 0 in
      if istrue c then mret next else
      recalc;;
      pick_next fuel
  end.

Definition switch_to (n : Z) : M kst unit := modify (fun s => s <| cur := n |>).

(** Two rounds always suffice when every priority is positive ([schedule_ok]). *)
Definition schedule : M kst unit :=
  check_signals;;
  next ← pick_next 2;
  switch_to next.

(** ** Sleeping and waking

    [schedule] returns to its caller when that task is switched to again; what other
    tasks and interrupts do in between is the parameter [others].  The wait queue
    variable is [q]; a caller never passes a null [p]. *)

Section Sleep.
Context (others : kst -> kst).

(** [schedule()] seen by the task that calls it. *)
Definition schedule_and_wait : M kst unit :=
  me ← gets cur;
  schedule;;
  modify others;;
  modify (fun s => s <| cur := me |>).

Definition sys_pause : M kst Z :=
  upd_current (fun t => t <| t_state := TASK_INTERRUPTIBLE |>);;
  schedule_and_wait;;
  mret 0.

Definition set_running (tmp : option Z) : M kst unit :=
  match tmp with
  | None => mret tt
  | Some t => upd_task t (fun t => t <| t_state := 0 |>)
  end.

(** [sleep_on] up to its call of [schedule]; the result is the local variable [tmp]. *)
Definition sleep_enter (q : Z) : M kst (option Z) :=
  s ← get;
  if cur s =? 0 then panic "task[0] trying to sleep" else
  let tmp := wait_queue s !! q in
  modify (fun s => s <| wait_queue ::= <[q := cur s]> |>);;
  upd_current (fun t => t <| t_state := TASK_UNINTERRUPTIBLE |>);;
  mret tmp.

Definition sleep_on (q : Z) : M kst unit :=
  tmp ← sleep_enter q;
  schedule_and_wait;;
  set_running tmp.

(** The [repeat:] loop of [interruptible_sleep_on], at most [fuel] rounds. *)
Fixpoint int_sleep_loop (fuel : nat) (q : Z) : M kst unit :=
  match fuel with
  | O => nofuel
  | S fuel =>
      upd_current (fun t => t <| t_state := TASK_INTERRUPTIBLE |>);;
      schedule_and_wait;;
      s ← get;
      match wait_queue s !! q with
      | Some h =>
          if h =? cur s then mret tt else
          upd_task h (fun t => t <| t_state := 0 |>);;
          int_sleep_loop fuel q
      | None => mret tt
      end
  end.

Definition interruptible_sleep_on (fuel : nat) (q : Z) : M kst unit :=
  s ← get;
  if cur s =? 0 then panic "task[0] trying to sleep" else
  let tmp := wait_queue s !! q in
  modify (fun s => s <| wait_queue ::= <[q := cur s]> |>);;
  int_sleep_loop fuel q;;
  modify (fun s => s <| wait_queue ::= delete q |>);;
  set_running tmp.

End Sleep.

Definition wake_up (q : Z) : M kst unit :=
  s ← get;
  match wait_queue s !! q with
  | None => mret tt
  | Some h =>
      upd_task h (fun t => t <| t_state := 0 |>);;
      modify (fun s => s <| wait_queue ::= delete q |>)
  end.

(** ** Floppy motor timers *)

Definition FD_DOR : Z := 0x3f2.

(** The wait queues of the four motors. *)
Definition wait_motor (nr : Z) : Z := 1000 + nr.

Definition nthZ (l : list Z) (i : Z) : Z := default 0 (l !! Z.to_nat i).
Definition setZ (l : list Z) (i v : Z) : list Z := <[Z.to_nat i := v]> l.

Definition upd_floppy (f : motor -> motor) : M kst unit :=
  modify (fun s => s <| floppy ::= f |>).

Definition ticks_to_floppy_on (nr : Z) : M kst Z :=
  if 3 <? nr then panic "floppy_on: nr>3" else
  upd_floppy (fun m => m <| moff_timer ::= fun l => setZ l nr 10000 |>);;
  m ← gets floppy;
  let mask := u8 (Z.lor (u8 (Z.shiftl 0x10 nr)) (current_DOR m)) in
  let mask := if selected m =? 0 then Z.lor (Z.land mask 0xFC) nr else mask in
  (if mask =? current_DOR m then mret tt else
   outb mask FD_DOR;;
   (if istrue (Z.land (Z.lxor mask (current_DOR m)) 0xf0)
    then upd_floppy (fun m => m <| mon_timer ::= fun l => setZ l nr (HZ / 2) |>)
    else if nthZ (mon_timer m) nr <? 2
    then upd_floppy (fun m => m <| mon_timer ::= fun l => setZ l nr 2 |>)
    else mret tt);;
   upd_floppy (fun m => m <| current_DOR := mask |>));;
  m ← gets floppy;
  mret (nthZ (mon_timer m) nr).

Fixpoint floppy_on (others : kst -> kst) (fuel : nat) (nr : Z) : M kst unit :=
  match fuel with
  | O => nofuel
  | S fuel =>
      t ← ticks_to_floppy_on nr;
      if istrue t then sleep_on others (wait_motor nr);; floppy_on others fuel nr
      else mret tt
  end.

Definition floppy_off (nr : Z) : M kst unit :=
  upd_floppy (fun m => m <| moff_timer ::= fun l => setZ l nr (3 * HZ) |>).

Definition do_floppy_timer : M kst unit :=
  for_each (seqZ 0 4) (fun i =>
    m ← gets floppy;
    let mask := u8 (Z.shiftl 0x10 i) in
    if Z.land mask (current_DOR m) =? 0 then mret tt else
    if istrue (nthZ (mon_timer m) i) then
      let v := nthZ (mon_timer m) i - 1 in
      upd_floppy (fun m => m <| mon_timer ::= fun l => setZ l i v |>);;
      when (v =? 0) (wake_up (wait_motor i))
    else if nthZ (moff_timer m) i =? 0 then
      upd_floppy (fun m => m <| current_DOR := Z.land (current_DOR m) (255 - mask) |>);;
      m ← gets floppy;
      outb (current_DOR m) FD_DOR
    else upd_floppy (fun m => m <| moff_timer ::= fun l => setZ l i (nthZ l i - 1) |>)).

(** ** Timers *)

Definition TIME_REQUESTS : nat := 64.

Definition get_timer (i : nat) : M kst timer :=
  s ← get; of_option "timer_list index" (timer_list s !! i).

Definition upd_timer (i : nat) (f : timer -> timer) : M kst unit :=
  t ← get_timer i;
  modify (fun s => s <| timer_list ::= <[i := f t]> |>).

(** Calling a timer function is recorded. *)
Definition call_fn (fn : Z) : M kst unit := modify (fun s => s <| fired ::= fun l => l ++ [fn] |>).

(** The first free element of the array. *)
Fixpoint free_timer (l : list timer) : option nat :=
  match l with
  | [] => None
  | t :: l => if tl_fn t =? 0 then Some O else S <$> free_timer l
  end.

(** The [while] loop of [add_timer]: the new element's contents move down the chain
    past the elements that expire before it. *)
Fixpoint sift (fuel : nat) (p : nat) : M kst unit :=
  match fuel with
  | O => nofuel
  | S fuel =>
      t ← get_timer p;
      match tl_next t with
      | None => mret tt
      | Some n =>
          u ← get_timer n;
          if tl_jiffies u <? tl_jiffies t then
            upd_timer p (fun t => t <| tl_jiffies := tl_jiffies u |> <| tl_fn := tl_fn u |>);;
            upd_timer n (fun u' => u' <| tl_jiffies := tl_jiffies t - tl_jiffies u |>
                                      <| tl_fn := tl_fn t |>);;
            sift fuel n
          else mret tt
      end
  end.

Definition add_timer (jiffies : Z) (fn : Z) : M kst unit :=
  if fn =? 0 then mret tt else
  if jiffies <=? 0 then call_fn fn else
  s ← get;
  match free_timer (timer_list s) with
  | None => panic "No more time requests free"
  | Some p =>
      upd_timer p (fun _ => mk_timer jiffies fn (next_timer s));;
      modify (fun s => s <| next_timer := Some p |>);;
      sift (S TIME_REQUESTS) p
  end.

(** The [while] loop of [do_timer]: run and release the timers that are due. *)
Fixpoint run_timers (fuel : nat) : M kst unit :=
  match fuel with
  | O => nofuel
  | S fuel =>
      s ← get;
      match next_timer s with
      | None => mret tt
      | Some p =>
          t ← get_timer p;
          if tl_jiffies t <=? 0 then
            upd_timer p (fun t => t <| tl_fn := 0 |>);;
            modify (fun s => s <| next_timer := tl_next t |>);;
            call_fn (tl_fn t);;
            run_timers fuel
          else mret tt
      end
  end.

(** [sysbeepstop()] of the console driver, as a recorded call. *)
Definition SYSBEEPSTOP : Z := -1.

Definition do_timer (cpl : Z) : M kst unit :=
  s ← get;
  (if istrue (beepcount s) then
     modify (fun s => s <| beepcount ::= Z.pred |>);;
     when (beepcount s - 1 =? 0) (call_fn SYSBEEPSTOP)
   else mret tt);;
  (if istrue cpl then upd_current (fun t => t <| t_utime ::= Z.succ |>)
   else upd_current (fun t => t <| t_stime ::= Z.succ |>));;
  (s ← get;
   match next_timer s with
   | None => mret tt
   | Some p =>
       upd_timer p (fun t => t <| tl_jiffies ::= Z.pred |>);;
       run_timers (S TIME_REQUESTS)
   end);;
  (m ← gets floppy;
   when (istrue (Z.land (current_DOR m) 0xf0)) do_floppy_timer);;
  upd_current (fun t => t <| t_counter ::= Z.pred |>);;
  t ← current_task;
  if 0 <? t_counter t then mret tt else
  upd_current (fun t => t <| t_counter := 0 |>);;
  if cpl =? 0 then mret tt else
  schedule.

(** ** System calls of sched.c *)

Definition sys_alarm (seconds : Z) : M kst Z :=
  t ← current_task;
  s ← get;
  let old := if istrue (t_alarm t) then Z.quot (s32 (t_alarm t - jiffies s)) HZ else t_alarm t in
  upd_current (fun t => t <| t_alarm := if 0 <? seconds then s32 (jiffies s + s32 (HZ * seconds)) else 0 |>);;
  mret old.

Definition sys_getpid : M kst Z := t ← current_task; mret (t_pid t).
Definition sys_getppid : M kst Z := t ← current_task; mret (t_father t).
Definition sys_getuid : M kst Z := t ← current_task; mret (t_uid t).
Definition sys_geteuid : M kst Z := t ← current_task; mret (t_euid t).
Definition sys_getgid : M kst Z := t ← current_task; mret (t_gid t).
Definition sys_getegid : M kst Z := t ← current_task; mret (t_egid t).

Definition sys_nice (increment : Z) : M kst Z :=
  t ← current_task;
  when (0 <? t_priority t - increment)
    (upd_current (fun t => t <| t_priority := t_priority t - increment |>));;
  mret 0.

(** The FPU hand-over; saving and restoring copies the state word [fpu] of the
    coprocessor, whose reset value is [fpu_init]. *)
Definition math_state_restore (fpu fpu_init : Z) : M kst Z :=
  s ← get;
  if bool_decide (last_task_used_math s = Some (cur s)) then mret fpu else
  (match last_task_used_math s with
   | Some p => upd_task p (fun t => t <| t_tss ::= fun x => x <| i387 := fpu |> |>)
   | None => mret tt
   end);;
  modify (fun s => s <| last_task_used_math := Some (cur s) |>);;
  t ← current_task;
  if istrue (t_used_math t) then mret (i387 (t_tss t)) else
  upd_current (fun t => t <| t_used_math := 1 |>);;
  mret fpu_init.
