(* ===== verification/SchedSpec.v ===== *)
(** Properties of the scheduler: task selection terminates and picks a runnable task
    with the largest counter, timers, and waking. *)

From S2P Require Import Prelude Memory Task Sched.

(** ** Updating every task of a list of slots *)

Definition each_task (now : Z) (f : Z -> task_struct -> task_struct) (ts ts' : gmap Z task_struct)
    (l : list Z) : Prop :=
  forall p, ts' !! p = if decide (p ∈ l) then f now <$> ts !! p else ts !! p.

Lemma upd_task_run p f s t :
  tasks s !! p = Some t -> upd_task p f s = (Ret tt, s <| tasks ::= <[p := f t]> |>).
Proof.
  intros H. unfold upd_task, get_task. rewrite bind_assoc.
  rewrite bind_get. by rewrite H.
Qed.

Lemma for_each_tasks f l s :
  NoDup l ->
  exists ts', for_each l (fun p => s ← get;
      match tasks s !! p with None => mret tt | Some _ => upd_task p (f (jiffies s)) end) s
    = (Ret tt, s <| tasks := ts' |>) /\ each_task (jiffies s) f (tasks s) ts' l.
Proof.
  revert s. induction l as [|p l IH]; intros s Hnd; cbn [for_each].
  { exists (tasks s). split; [by destruct s|]. intros p. by rewrite decide_False by set_solver. }
  apply NoDup_cons in Hnd as [Hp Hnd].
  assert (exists ts1, (s ← get; match tasks s !! p with None => mret tt
      | Some _ => upd_task p (f (jiffies s)) end) s = (Ret tt, s <| tasks := ts1 |>) /\
      forall q, ts1 !! q = if decide (q = p) then f (jiffies s) <$> tasks s !! q else tasks s !! q)
    as (ts1 & Hr & H1).
  { rewrite bind_get. destruct (tasks s !! p) as [t|] eqn:Et.
    - exists (<[p := f (jiffies s) t]> (tasks s)). rewrite (upd_task_run p _ s t Et).
      split; [done|]. intros q. case_decide; subst; [by rewrite lookup_insert_eq, Et|].
      by rewrite lookup_insert_ne.
    - exists (tasks s). split; [by destruct s|]. intros q. case_decide; [subst; by rewrite Et|done]. }
  mrun Hr. destruct (IH (s <| tasks := ts1 |>) Hnd) as (ts' & Hr' & H').
  exists ts'. split; [done|]. intros q. rewrite H'. simpl. rewrite H1.
  destruct (decide (q = p)) as [->|Hq].
  - rewrite decide_False by done. by rewrite decide_True by set_solver.
  - destruct (decide (q ∈ l)); [by rewrite decide_True by set_solver|].
    by rewrite decide_False by set_solver.
Qed.

Lemma check_signals_run s :
  exists ts', check_signals s = (Ret tt, s <| tasks := ts' |>) /\
    each_task (jiffies s) check_signal (tasks s) ts' slots_down.
Proof. apply for_each_tasks, slots_down_NoDup. Qed.

Definition recalc_task (t : task_struct) : task_struct :=
  t <| t_counter := s32 (Z.shiftr (t_counter t) 1 + t_priority t) |>.

Lemma recalc_run s :
  exists ts', recalc s = (Ret tt, s <| tasks := ts' |>) /\
    each_task (jiffies s) (fun _ => recalc_task) (tasks s) ts' slots_down.
Proof. apply (for_each_tasks (fun _ => recalc_task)), slots_down_NoDup. Qed.

(** ** Selection *)

Definition runnable (ts : gmap Z task_struct) (i : Z) (t : task_struct) : Prop :=
  ts !! i = Some t /\ t_state t = TASK_RUNNING.

(** The scan keeps the best counter so far; among the tasks of [l] and the start value. *)
Lemma scan_spec ts l c next c' n' :
  scan ts l c next = (c', n') ->
  c <= c' /\
  (forall i t, i ∈ l -> runnable ts i t -> t_counter t <= c') /\
  ((c' = c /\ n' = next) \/ (c < c' /\ n' ∈ l /\ exists t, runnable ts n' t /\ t_counter t = c')).
Proof.
  revert c next. induction l as [|i l IH]; intros c next; cbn [scan].
  { intros [= <- <-]. split; [lia|]. split; [set_solver|]. by left. }
  destruct (ts !! i) as [t|] eqn:Et.
  - destruct (Z.eqb_spec (t_state t) TASK_RUNNING) as [Hs|Hs]; cbn [andb].
    + destruct (Z.ltb_spec c (t_counter t)) as [Hc|Hc]; intros H; apply IH in H as (H1 & H2 & H3).
      * split; [lia|]. split.
        -- intros j u [->|Hj]%elem_of_cons [Hu1 Hu2]; [|by eapply H2].
           rewrite Et in Hu1. injection Hu1 as <-. lia.
        -- right. destruct H3 as [[-> ->]|(Hlt & Hn & Hex)].
           ++ split; [done|]. split; [set_solver|]. by exists t.
           ++ split; [lia|]. split; [set_solver|done].
      * split; [lia|]. split.
        -- intros j u [->|Hj]%elem_of_cons [Hu1 Hu2]; [|by eapply H2].
           rewrite Et in Hu1. injection Hu1 as <-. lia.
        -- destruct H3 as [?|(? & ? & ?)]; [by left|right; set_solver].
    + intros H; apply IH in H as (H1 & H2 & H3). split; [lia|]. split.
      * intros j u [->|Hj]%elem_of_cons Hu; [|by eapply H2]. destruct Hu. congruence.
      * destruct H3 as [?|(? & ? & ?)]; [by left|right; set_solver].
  - intros H; apply IH in H as (H1 & H2 & H3). split; [lia|]. split.
    + intros j u [->|Hj]%elem_of_cons Hu; [|by eapply H2]. destruct Hu. congruence.
    + destruct H3 as [?|(? & ? & ?)]; [by left|right; set_solver].
Qed.

(** Every task has a positive priority and no negative counter; with a priority of at most 2^30
    the next counter is a [long] for every counter that is one. *)
Definition sched_inv (ts : gmap Z task_struct) : Prop :=
  forall i t, 1 <= i < NR_TASKS -> ts !! i = Some t -> 0 < t_priority t <= 1073741824 /\ 0 <= t_counter t < 2147483648.

(** What [schedule] may choose among the tasks [ts]: task 0 when nothing else can run,
    and otherwise a runnable task with time left and the largest counter. *)
Definition chosen (ts : gmap Z task_struct) (n : Z) : Prop :=
  (n = 0 /\ forall i t, 1 <= i < NR_TASKS -> ~ runnable ts i t) \/
  (1 <= n < NR_TASKS /\ exists t, runnable ts n t /\ 0 < t_counter t /\
     forall i u, 1 <= i < NR_TASKS -> runnable ts i u -> t_counter u <= t_counter t).

Lemma scan_chosen ts c n :
  sched_inv ts -> scan ts slots_down (-1) 0 = (c, n) -> c <> 0 -> chosen ts n.
Proof.
  intros Hinv Hs Hc. apply scan_spec in Hs as (H1 & H2 & H3).
  destruct H3 as [[-> ->]|(Hlt & Hn%elem_of_slots_down & t & Ht & Htc)].
  - left. split; [done|]. intros i t Hi Hr.
    pose proof (H2 i t (proj2 (elem_of_slots_down i) Hi) Hr).
    destruct Hr as [Hr _]. destruct (Hinv i t Hi Hr). lia.
  - right. split; [done|]. exists t. split; [done|].
    destruct (Hinv n t Hn (proj1 Ht)). split; [lia|].
    intros i u Hi Hu. rewrite Htc. apply (H2 i u); [by apply elem_of_slots_down|done].
Qed.

Lemma recalc_value t :
  0 < t_priority t <= 1073741824 -> 0 <= t_counter t < 2147483648 ->
  t_counter (recalc_task t) = Z.shiftr (t_counter t) 1 + t_priority t /\ 0 < t_counter (recalc_task t) < 2147483648.
Proof.
  intros Hp Hc. cbn. rewrite Z.shiftr_div_pow2 by lia. change (2 ^ 1) with 2.
  pose proof (Z.div_lt_upper_bound (t_counter t) 2 1073741824 ltac:(lia)). pose proof (Z.div_pos (t_counter t) 2).
  rewrite s32_small; lia.
Qed.

Lemma recalc_inv ts ts' now :
  sched_inv ts -> each_task now (fun _ => recalc_task) ts ts' slots_down -> sched_inv ts'.
Proof.
  intros Hinv He i t Hi. rewrite He, decide_True by (by apply elem_of_slots_down).
  destruct (ts !! i) as [u|] eqn:Eu; [|done]. intros [= <-]. destruct (Hinv i u Hi Eu).
  split; [done|]. pose proof (recalc_value u). lia.
Qed.

(** After a recalculation a runnable task has time left. *)
Lemma recalc_progress ts ts' now c n :
  sched_inv ts -> each_task now (fun _ => recalc_task) ts ts' slots_down ->
  scan ts' slots_down (-1) 0 = (c, n) -> c <> 0.
Proof.
  intros Hinv He Hs ->. apply scan_spec in Hs as (_ & _ & [[Hc _]|(_ & Hn & t & [Ht1 _] & Htc)]); [lia|].
  rewrite He, decide_True in Ht1 by done. destruct (ts !! n) as [u|] eqn:Eu; [|done].
  injection Ht1 as <-. apply elem_of_slots_down in Hn. destruct (Hinv n u Hn Eu).
  pose proof (recalc_value u). lia.
Qed.

Lemma check_signal_sched now t :
  t_priority (check_signal now t) = t_priority t /\ t_counter (check_signal now t) = t_counter t.
Proof. unfold check_signal. repeat (case_match; simpl); done. Qed.

Lemma check_inv ts ts' now :
  sched_inv ts -> each_task now check_signal ts ts' slots_down -> sched_inv ts'.
Proof.
  intros Hinv He i t Hi. rewrite He, decide_True by (by apply elem_of_slots_down).
  destruct (ts !! i) as [u|] eqn:Eu; [|done]. intros [= <-].
  destruct (check_signal_sched now u) as [-> ->]. by apply (Hinv i).
Qed.

(** What [schedule] may do to a task: nothing but its counter, its alarm, a pending alarm
    signal, and waking it from an interruptible sleep. *)
Definition sched_step (t t' : task_struct) : Prop :=
  t' = t <| t_state := t_state t' |> <| t_counter := t_counter t' |>
         <| t_signal := t_signal t' |> <| t_alarm := t_alarm t' |> /\
  (t_state t <> TASK_INTERRUPTIBLE -> t_state t' = t_state t) /\
  (t_signal t' = t_signal t \/ t_signal t' = Z.lor (t_signal t) (Z.shiftl 1 (SIGALRM - 1))).

Definition sched_steps (ts ts' : gmap Z task_struct) : Prop :=
  forall i, option_Forall2 sched_step (ts !! i) (ts' !! i).

Lemma check_signal_step now t : sched_step t (check_signal now t).
Proof.
  unfold check_signal, sched_step. destruct t. cbn.
  repeat (case_match; cbn in * ); (split; [reflexivity|]); (split; [|auto]); intros Hs; try done.
  all: exfalso; apply Hs; apply andb_true_iff in H as [_ H] || apply andb_true_iff in H0 as [_ H0]; lia.
Qed.

Lemma recalc_step t : sched_step t (recalc_task t).
Proof. unfold sched_step. destruct t. cbn. auto. Qed.

Lemma sched_step_refl t : sched_step t t.
Proof. split; [by destruct t|]. auto. Qed.

Lemma each_task_steps now f ts ts' l :
  (forall t, sched_step t (f now t)) -> each_task now f ts ts' l -> sched_steps ts ts'.
Proof.
  intros Hf He i. rewrite (He i). destruct (ts !! i) as [t|]; case_decide; cbn; constructor;
    (apply Hf || apply sched_step_refl).
Qed.

Lemma sched_recalc t t' : sched_step t t' -> sched_step t (recalc_task t').
Proof. intros (H1 & H2 & H3). split; [rewrite H1; by destruct t|]. split; [exact H2|exact H3]. Qed.

(** [schedule] ends within two rounds; what it does to the tasks, and its choice. *)
Lemma schedule_cases s :
  sched_inv (tasks s) ->
  exists ts' n, schedule s = (Ret tt, s <| tasks := ts' |> <| cur := n |>) /\
    chosen ts' n /\ sched_inv ts' /\ sched_steps (tasks s) ts'.
Proof.
  intros Hinv. unfold schedule. destruct (check_signals_run s) as (ts1 & Hr1 & He1).
  mrun Hr1. pose proof (check_inv _ _ _ Hinv He1) as Hinv1. cbn [pick_next].
  pose proof (each_task_steps _ _ _ _ _ (check_signal_step (jiffies s)) He1) as Hst.
  rewrite bind_assoc, bind_get. change (tasks (s <| tasks := ts1 |>)) with ts1.
  destruct (scan ts1 slots_down (-1) 0) as [c n] eqn:Es. destruct (Z.eqb_spec c 0) as [Hc|Hc].
  - subst c. cbn [istrue Z.eqb negb]. rewrite bind_assoc.
    destruct (recalc_run (s <| tasks := ts1 |>)) as (ts2 & Hr2 & He2). simpl in He2.
    mrun Hr2. rewrite bind_assoc, bind_get. change (tasks _) with ts2 at 1.
    pose proof (recalc_inv _ _ _ Hinv1 He2) as Hinv2.
    destruct (scan ts2 slots_down (-1) 0) as [c2 n2] eqn:Es2.
    pose proof (recalc_progress _ _ _ _ _ Hinv1 He2 Es2) as Hc2.
    unfold istrue. rewrite (proj2 (Z.eqb_neq c2 0)) by done. cbn [negb].
    exists ts2, n2. split; [done|]. split; [by eapply scan_chosen|]. split; [done|].
    intros i. rewrite (He2 i). pose proof (Hst i) as Hi.
    case_decide; [|done]. destruct Hi; cbn; constructor. by apply sched_recalc.
  - unfold istrue. rewrite (proj2 (Z.eqb_neq c 0)) by done. cbn [negb].
    exists ts1, n. split; [done|]. split; [by eapply scan_chosen|done].
Qed.

(** C4: The scheduler always makes a choice: when every task has a positive priority
    (of at most 2^30, so that no counter overflows), [schedule] ends within two rounds of its loop and switches to a runnable task that
    has time left and the largest counter of all runnable tasks, or to the idle task 0
    when no other task is runnable; priorities stay positive and counters non-negative [long]s,
    and no task changes in anything but its counter, its alarm and being woken by a signal. *)
Theorem schedule_ok s :
  sched_inv (tasks s) ->
  exists ts' n, schedule s = (Ret tt, s <| tasks := ts' |> <| cur := n |>) /\
    chosen ts' n /\ sched_inv ts' /\ sched_steps (tasks s) ts'.
Proof. apply schedule_cases. Qed.

(** ** Timers

    The pending timers are the chain of array elements from [next_timer]; each holds the
    ticks after its predecessor's expiry. *)

Fixpoint chain (tl : list timer) (p : option nat) (ix : list nat) : Prop :=
  match ix with
  | [] => p = None
  | i :: ix => p = Some i /\ exists t, tl !! i = Some t /\ tl_fn t <> 0 /\ chain tl (tl_next t) ix
  end.

Definition content (tl : list timer) (i : nat) : Z * Z :=
  match tl !! i with Some t => (tl_jiffies t, tl_fn t) | None => (0, 0) end.

Definition contents (tl : list timer) (ix : list nat) : list (Z * Z) := content tl <$> ix.

(** Insertion into the list of (ticks, function) pairs, as [add_timer] does it. *)
Fixpoint insert_timer (j fn : Z) (l : list (Z * Z)) : list (Z * Z) :=
  match l with
  | [] => [(j, fn)]
  | (k, g) :: l' => if k <? j then (k, g) :: insert_timer (j - k) fn l' else (j, fn) :: l
  end.

Lemma upd_timer_run i f s t :
  timer_list s !! i = Some t ->
  upd_timer i f s = (Ret tt, s <| timer_list ::= <[i := f t]> |>).
Proof.
  intros H. unfold upd_timer, get_timer. rewrite bind_assoc, bind_get. by rewrite H.
Qed.

Lemma get_timer_run i s t : timer_list s !! i = Some t -> get_timer i s = (Ret t, s).
Proof. intros H. unfold get_timer. rewrite bind_get. by rewrite H. Qed.

(** Writing an element outside a chain leaves the chain and its contents alone. *)
Lemma chain_insert_out tl p ix i t :
  i ∉ ix -> chain tl p ix -> chain (<[i := t]> tl) p ix.
Proof.
  revert p. induction ix as [|k ix IH]; intros p Hi; cbn [chain]; [done|].
  intros (-> & u & Hu & Hf & Hc). split; [done|]. exists u.
  rewrite list_lookup_insert_ne by set_solver. split; [done|]. split; [done|]. apply IH; set_solver.
Qed.

Lemma contents_insert_out tl ix i t :
  i ∉ ix -> contents (<[i := t]> tl) ix = contents tl ix.
Proof.
  intros Hi. unfold contents. apply list_fmap_ext. intros n k Hk.
  unfold content. rewrite list_lookup_insert_ne; [done|]. intros ->.
  apply Hi. by eapply list_elem_of_lookup_2.
Qed.

Lemma chain_tail tl t p ix : chain tl (Some p) (p :: ix) -> tl !! p = Some t -> chain tl (tl_next t) ix.
Proof. intros (_ & u & Hu & _ & Hc) Ht. rewrite Hu in Ht. by injection Ht as <-. Qed.

(** The sift loop implements [insert_timer] on the contents of the chain. *)
Lemma sift_ok fuel ix p s t :
  (length ix < fuel)%nat -> NoDup (p :: ix) ->
  timer_list s !! p = Some t -> tl_fn t <> 0 -> chain (timer_list s) (tl_next t) ix ->
  exists tl', sift fuel p s = (Ret tt, s <| timer_list := tl' |>) /\
    length tl' = length (timer_list s) /\ chain tl' (Some p) (p :: ix) /\
    contents tl' (p :: ix) = insert_timer (tl_jiffies t) (tl_fn t) (contents (timer_list s) ix) /\
    (forall i, i ∉ p :: ix -> tl' !! i = timer_list s !! i).
Proof.
  revert ix p s t. induction fuel as [|fuel IH]; intros ix p s t Hf Hnd Ht Hfn Hc; [lia|].
  cbn [sift]. mrun (get_timer_run p s t Ht). destruct ix as [|n ix]; cbn [chain] in Hc.
  - rewrite Hc. exists (timer_list s). split; [by destruct s|]. split; [done|].
    unfold contents, content. cbn. rewrite Ht. split; [|done]. split; [done|]. by exists t.
  - destruct Hc as (Hnx & u & Hu & Hufn & Hc). rewrite Hnx. mrun (get_timer_run n s u Hu).
    apply NoDup_cons in Hnd as [Hpn Hnd]. assert (p <> n) as Hne by set_solver.
    change (contents (timer_list s) (n :: ix))
      with (content (timer_list s) n :: contents (timer_list s) ix).
    unfold content at 1. rewrite Hu. cbn [insert_timer].
    destruct (Z.ltb_spec (tl_jiffies u) (tl_jiffies t)) as [Hlt|Hge].
    + rewrite (bind_Ret _ _ _ _ _ (upd_timer_run p _ s t Ht)).
      set (t1 := t <| tl_jiffies := tl_jiffies u |> <| tl_fn := tl_fn u |>).
      set (u1 := u <| tl_jiffies := tl_jiffies t - tl_jiffies u |> <| tl_fn := tl_fn t |>).
      set (s1 := s <| timer_list ::= <[p := t1]> |>).
      assert (timer_list s1 !! n = Some u) as Hu1
        by (change (timer_list s1) with (<[p := t1]> (timer_list s)); by rewrite list_lookup_insert_ne).
      rewrite (bind_Ret _ _ _ _ _ (upd_timer_run n _ s1 u Hu1)). fold u1.
      set (s2 := s1 <| timer_list ::= <[n := u1]> |>).
      assert (timer_list s2 = <[n := u1]> (<[p := t1]> (timer_list s))) as Htl2 by done.
      pose proof (lookup_lt_Some _ _ _ Ht). pose proof (lookup_lt_Some _ _ _ Hu).
      destruct (IH ix n s2 u1) as (tl' & Hr & Hl' & Hc' & Hco' & Ho').
      * simpl in Hf. lia.
      * done.
      * rewrite Htl2. apply list_lookup_insert_eq. rewrite length_insert. lia.
      * done.
      * rewrite Htl2. apply NoDup_cons in Hnd as [? _].
        apply chain_insert_out; [done|]. apply chain_insert_out; [set_solver|done].
      * exists tl'. rewrite Htl2, !length_insert in Hl'. split; [done|]. split; [done|].
        assert (tl' !! p = Some t1) as Hp'.
        { rewrite Ho' by set_solver. rewrite Htl2, list_lookup_insert_ne by done.
          apply list_lookup_insert_eq. lia. }
        split; [|split].
        -- split; [done|]. exists t1. split; [done|]. split; [done|].
           change (tl_next t1) with (tl_next t). by rewrite Hnx.
        -- change (contents tl' (p :: n :: ix)) with (content tl' p :: contents tl' (n :: ix)).
           apply NoDup_cons in Hnd as [? _].
           rewrite Hco', Htl2, !contents_insert_out by set_solver. unfold content at 1. by rewrite Hp'.
        -- intros i Hi. rewrite Ho', Htl2 by set_solver.
           rewrite !list_lookup_insert_ne by set_solver. done.
    + exists (timer_list s). split; [by destruct s|]. split; [done|]. split; [|split; [|done]].
      * split; [done|]. exists t. split; [done|]. split; [done|]. split; [|by exists u].
        done.
      * change (contents (timer_list s) (p :: n :: ix))
          with (content (timer_list s) p :: content (timer_list s) n :: contents (timer_list s) ix).
        unfold content at 1 2. by rewrite Ht, Hu.
Qed.

(** [l] lists the pending timers: the chain from [next_timer] holds exactly the elements
    in use. *)
Definition pending (s : kst) (l : list (Z * Z)) : Prop :=
  exists ix, length (timer_list s) = TIME_REQUESTS /\ NoDup ix /\
    chain (timer_list s) (next_timer s) ix /\
    (forall i t, timer_list s !! i = Some t -> i ∉ ix -> tl_fn t = 0) /\
    l = contents (timer_list s) ix.

Lemma free_timer_some l p :
  free_timer l = Some p -> exists t, l !! p = Some t /\ tl_fn t = 0.
Proof.
  revert p. induction l as [|t l IH]; intros p; cbn [free_timer]; [done|].
  destruct (Z.eqb_spec (tl_fn t) 0); [intros [= <-]; by exists t|].
  destruct (free_timer l) as [q|]; [|done]. intros [= <-]. by apply IH.
Qed.

Lemma free_timer_none l i t : free_timer l = None -> l !! i = Some t -> tl_fn t <> 0.
Proof.
  revert i. induction l as [|u l IH]; intros i; cbn [free_timer]; [done|].
  destruct (Z.eqb_spec (tl_fn u) 0); [done|].
  destruct (free_timer l); [done|]. intros _. destruct i as [|i]; simpl; [congruence|by apply IH].
Qed.

Lemma chain_in_use tl p ix i t : chain tl p ix -> i ∈ ix -> tl !! i = Some t -> tl_fn t <> 0.
Proof.
  revert p. induction ix as [|k ix IH]; intros p; cbn [chain]; [set_solver|].
  intros (-> & u & Hu & Hf & Hc) [->|Hi]%elem_of_cons Ht; [congruence|by eapply IH].
Qed.

Lemma chain_lookup tl p ix i : chain tl p ix -> i ∈ ix -> (i < length tl)%nat.
Proof.
  revert p. induction ix as [|k ix IH]; intros p; cbn [chain]; [set_solver|].
  intros (-> & u & Hu & Hf & Hc) [->|Hi]%elem_of_cons; [by eapply lookup_lt_Some|by eapply IH].
Qed.

Lemma length_chain tl p ix : chain tl p ix -> NoDup ix -> (length ix <= length tl)%nat.
Proof.
  intros Hc Hnd. rewrite <- (length_seq (length tl) 0).
  apply submseteq_length, NoDup_submseteq; [done|]. intros i Hi.
  apply elem_of_seq. pose proof (chain_lookup tl p ix i Hc Hi). lia.
Qed.

Lemma pending_full s l :
  pending s l -> free_timer (timer_list s) = None -> length l = TIME_REQUESTS.
Proof.
  intros (ix & Hlen & Hnd & Hc & Hfree & ->) Hf. unfold contents. rewrite length_fmap.
  pose proof (length_chain _ _ _ Hc Hnd). apply Nat.le_antisymm; [lia|].
  rewrite <- Hlen, <- (length_seq (length (timer_list s)) 0).
  apply submseteq_length, NoDup_submseteq; [apply NoDup_seq|]. intros i Hi%elem_of_seq.
  destruct (lookup_lt_is_Some_2 (timer_list s) i) as [t Ht]; [lia|].
  destruct (decide (i ∈ ix)); [done|]. exfalso.
  eapply free_timer_none; [done|done|]. by eapply Hfree.
Qed.

(** While fewer than 64 timers are pending, [add_timer] succeeds and inserts the new
    timer into the pending list; with 64 pending it panics. *)
Lemma add_timer_ok s l j fn :
  pending s l -> fn <> 0 -> 0 < j ->
  if decide (length l = TIME_REQUESTS)
  then add_timer j fn s = (Panic "No more time requests free", s)
  else exists s', add_timer j fn s = (Ret tt, s') /\ pending s' (insert_timer j fn l) /\
         fired s' = fired s.
Proof.
  intros Hp Hfn Hj. unfold add_timer. rewrite (proj2 (Z.eqb_neq fn 0)), (proj2 (Z.leb_gt j 0)) by done.
  rewrite bind_get. destruct (free_timer (timer_list s)) as [p|] eqn:Ef; last first.
  { by rewrite decide_True by (by eapply pending_full). }
  destruct Hp as (ix & Hlen & Hnd & Hc & Hfree & ->).
  destruct (free_timer_some _ _ Ef) as (t & Ht & Htf).
  pose proof (lookup_lt_Some _ _ _ Ht) as Hplt.
  assert (p ∉ ix) as Hpix by (intros Hin; by eapply chain_in_use).
  assert (length ix < TIME_REQUESTS)%nat as Hlt.
  { assert (chain (<[p := mk_timer j fn (next_timer s)]> (timer_list s)) (Some p) (p :: ix)) as Hc2.
    { split; [done|]. exists (mk_timer j fn (next_timer s)).
      split; [by apply list_lookup_insert_eq|]. split; [done|]. by apply chain_insert_out. }
    apply length_chain in Hc2; [|by constructor]. rewrite length_insert, Hlen in Hc2. simpl in Hc2. lia. }
  rewrite decide_False by (unfold contents; rewrite length_fmap; lia).
  rewrite (bind_Ret _ _ _ _ _ (upd_timer_run p _ s t Ht)), bind_modify.
  match goal with |- context [sift _ p ?st] => set (s1 := st) end.
  assert (timer_list s1 = <[p := mk_timer j fn (next_timer s)]> (timer_list s)) as Htl by done.
  destruct (sift_ok (S TIME_REQUESTS) ix p s1 (mk_timer j fn (next_timer s)))
    as (tl' & Hr & Hl' & Hc' & Hco' & Ho').
  - lia.
  - by constructor.
  - rewrite Htl. by apply list_lookup_insert_eq.
  - done.
  - rewrite Htl. by apply chain_insert_out.
  - exists (s1 <| timer_list := tl' |>). split; [done|]. split; [|done].
    exists (p :: ix). rewrite Htl, length_insert in Hl'.
    split; [by rewrite <- Hlen|]. split; [by constructor|]. split; [done|]. split.
    + intros i u Hu Hi. change (tl' !! i = Some u) in Hu. rewrite Ho', Htl in Hu by done.
      apply not_elem_of_cons in Hi as [Hip Hi].
      rewrite list_lookup_insert_ne in Hu by (intros ->; done). exact (Hfree i u Hu Hi).
    + change (insert_timer j fn (contents (timer_list s) ix) = contents tl' (p :: ix)).
      rewrite Hco', Htl. by rewrite contents_insert_out.
Qed.

(** When each pending timer will run, counted in ticks from now. *)
Fixpoint expiries (base : Z) (l : list (Z * Z)) : list (Z * Z) :=
  match l with
  | [] => []
  | (k, g) :: l => (base + k, g) :: expiries (base + k) l
  end.

Lemma expiries_shift d base l :
  expiries (base + d) l = (fun x => (x.1 + d, x.2)) <$> expiries base l.
Proof.
  revert base. induction l as [|[k g] l IH]; intros base; [done|]. cbn [expiries].
  rewrite fmap_cons. f_equal; [simpl; f_equal; lia|].
  rewrite <- IH. f_equal. lia.
Qed.

(** [add_timer] gives the new timer the expiry it asks for and keeps the timers that
    expire before it, but it postpones every timer that expires later by the ticks
    between the new timer and its predecessor: the successor's count is not reduced. *)
Lemma add_timer_postpones base j fn l :
  0 < j ->
  exists before after d,
    0 < d /\ expiries base l = before ++ after /\
    expiries base (insert_timer j fn l) =
      before ++ (base + j, fn) :: ((fun x => (x.1 + d, x.2)) <$> after).
Proof.
  revert base j. induction l as [|[k g] l IH]; intros base j Hj; cbn [insert_timer].
  { exists [], [], j. split; [lia|]. done. }
  destruct (Z.ltb_spec k j) as [Hk|Hk].
  - destruct (IH (base + k) (j - k)) as (A & B & d & Hd & HA & HB); [lia|].
    exists ((base + k, g) :: A), B, d. split; [done|]. cbn [expiries]. rewrite HA, HB.
    split; [done|]. cbn [app]. do 4 f_equal. lia.
  - exists [], (expiries base ((k, g) :: l)), j. split; [lia|]. split; [done|].
    cbn [app expiries fmap list_fmap]. f_equal. simpl. f_equal; [f_equal; lia|].
    rewrite <- expiries_shift. f_equal. lia.
Qed.

(** ** Running the timers that are due *)

(** The timers due at a tick, and those that stay. *)
Fixpoint due (l : list (Z * Z)) : list Z * list (Z * Z) :=
  match l with
  | [] => ([], [])
  | (k, g) :: l' => if k <=? 0 then let '(a, b) := due l' in (g :: a, b) else ([], l)
  end.

Lemma run_timers_ok fuel s l :
  (length l < fuel)%nat -> pending s l ->
  exists s', run_timers fuel s = (Ret tt, s') /\ pending s' (snd (due l)) /\
    fired s' = fired s ++ fst (due l) /\ tasks s' = tasks s /\ cur s' = cur s /\ floppy s' = floppy s.
Proof.
  revert s l. induction fuel as [|fuel IH]; intros s l Hf Hp; [lia|].
  pose proof Hp as (ix & Hlen & Hnd & Hc & Hfree & ->). cbn [run_timers]. rewrite bind_get.
  destruct ix as [|i ix]; cbn [chain] in Hc.
  { rewrite Hc. exists s. split; [done|]. split; [done|]. cbn. by rewrite app_nil_r. }
  destruct Hc as (Hnx & t & Ht & Htf & Hc). rewrite Hnx. mrun (get_timer_run i s t Ht).
  assert (contents (timer_list s) (i :: ix) = (tl_jiffies t, tl_fn t) :: contents (timer_list s) ix) as Hco
    by (unfold contents, content; cbn; by rewrite Ht).
  rewrite Hco in *. cbn [due]. destruct (tl_jiffies t <=? 0).
  - rewrite (bind_Ret _ _ _ _ _ (upd_timer_run i _ s t Ht)), bind_modify. unfold call_fn. rewrite bind_modify.
    apply NoDup_cons in Hnd as [Hi Hnd].
    match goal with |- context [run_timers fuel ?st] => set (s1 := st) end.
    destruct (IH s1 (contents (timer_list s) ix)) as (s' & Hr & Hp' & Hfi & Hrest).
    + simpl in Hf. lia.
    + exists ix. change (timer_list s1) with (<[i := t <| tl_fn := 0 |>]> (timer_list s)).
      change (next_timer s1) with (tl_next t). rewrite length_insert.
      split; [done|]. split; [done|]. split; [by apply chain_insert_out|]. split.
      * intros k u Hu Hk. destruct (decide (k = i)) as [->|Hki].
        -- rewrite list_lookup_insert_eq in Hu by (by eapply lookup_lt_Some). by injection Hu as <-.
        -- rewrite list_lookup_insert_ne in Hu by done. apply (Hfree k u Hu).
           by apply not_elem_of_cons.
      * by rewrite contents_insert_out.
    + exists s'. split; [done|]. destruct (due (contents (timer_list s) ix)) as [a b].
      split; [done|]. split; [|done]. rewrite Hfi. change (fired s1) with (fired s ++ [tl_fn t]).
      by rewrite <- app_assoc.
  - exists s. split; [done|]. split; [done|]. cbn. by rewrite app_nil_r.
Qed.

(** ** No wake-up is lost

    One wait queue [q], the kernel state, and for each task asleep in [sleep_on] the
    value of its local variable [tmp].  [W_other] is everything the rest of the system
    does that leaves the queue variable and the states of its sleepers alone. *)

Definition running (s : kst) (i : Z) : Prop :=
  exists t, tasks s !! i = Some t /\ t_state t = TASK_RUNNING.

Inductive wstep (q : Z) : kst * gmap Z (option Z) -> kst * gmap Z (option Z) -> Prop :=
| W_sleep s f tmp s' :
    f !! cur s = None -> sleep_enter q s = (Ret tmp, s') ->
    wstep q (s, f) (s', <[cur s := tmp]> f)
| W_wake s f s' :
    wake_up q s = (Ret tt, s') -> wstep q (s, f) (s', f)
| W_resume s f tmp s' :
    f !! cur s = Some tmp -> running s (cur s) -> set_running tmp s = (Ret tt, s') ->
    wstep q (s, f) (s', delete (cur s) f)
| W_other s f s' :
    wait_queue s' !! q = wait_queue s !! q ->
    (forall i, is_Some (f !! i) -> (running s' i <-> running s i)) ->
    wstep q (s, f) (s', f).

(** The tasks that a wake-up will reach: the queue's head, and whoever a reached or a
    woken sleeper remembers as its [tmp]. *)
Inductive reached (q : Z) (s : kst) (f : gmap Z (option Z)) : Z -> Prop :=
| R_head i : wait_queue s !! q = Some i -> reached q s f i
| R_woken j i : f !! j = Some (Some i) -> running s j -> reached q s f i
| R_next j i : f !! j = Some (Some i) -> reached q s f j -> reached q s f i.

Definition all_reached (q : Z) (c : kst * gmap Z (option Z)) : Prop :=
  forall i, is_Some (c.2 !! i) -> ~ running c.1 i -> reached q c.1 c.2 i.

Lemma upd_task_inv p g s s' :
  upd_task p g s = (Ret tt, s') ->
  exists t, tasks s !! p = Some t /\ s' = s <| tasks ::= <[p := g t]> |>.
Proof.
  unfold upd_task, get_task. rewrite bind_assoc, bind_get.
  destruct (tasks s !! p) as [t|]; [|done]. intros [= <-]. by exists t.
Qed.

Lemma sleep_enter_inv q s tmp s' :
  sleep_enter q s = (Ret tmp, s') ->
  tmp = wait_queue s !! q /\ wait_queue s' !! q = Some (cur s) /\
  ~ running s' (cur s) /\ forall i, i <> cur s -> (running s' i <-> running s i).
Proof.
  unfold sleep_enter. rewrite bind_get. destruct (cur s =? 0); [done|]. rewrite bind_modify.
  intros H. apply bind_inv in H as ([] & s1 & H1 & [= <- <-]).
  unfold upd_current in H1. rewrite bind_get in H1. apply upd_task_inv in H1 as (t & Ht & ->).
  split; [done|]. split; [apply lookup_insert_eq|]. split.
  - intros (u & Hu & Hs). simpl in Hu. rewrite lookup_insert_eq in Hu. by injection Hu as <-.
  - intros i Hi. unfold running. simpl. by rewrite lookup_insert_ne.
Qed.

Lemma set_running_inv tmp s s' :
  set_running tmp s = (Ret tt, s') ->
  wait_queue s' = wait_queue s /\
  (forall i, tmp = Some i -> running s' i) /\ (forall i, running s i -> running s' i).
Proof.
  destruct tmp as [p|]; cbn [set_running].
  - intros (t & Ht & ->)%upd_task_inv. split; [done|]. unfold running. simpl. split.
    + intros i [= ->]. rewrite lookup_insert_eq. by eexists.
    + intros i Hi. destruct (decide (i = p)) as [->|]; [rewrite lookup_insert_eq; by eexists|].
      by rewrite lookup_insert_ne.
  - intros [= ->]. split; [done|]. split; [done|]. done.
Qed.

Lemma wake_up_inv q s s' :
  wake_up q s = (Ret tt, s') ->
  wait_queue s' !! q = None /\ (forall i, wait_queue s !! q = Some i -> running s' i) /\
  (forall i, running s i -> running s' i).
Proof.
  unfold wake_up. rewrite bind_get. destruct (wait_queue s !! q) as [h|] eqn:Eh.
  - intros H. apply bind_inv in H as ([] & s1 & H1 & [= <-]).
    destruct (set_running_inv (Some h) s s1 H1) as (Hw & H2 & H3). split; [apply lookup_delete_eq|].
    split; [intros i [= <-]; by apply H2|done].
  - intros [= <-]. done.
Qed.

Lemma wstep_reached q c c' : wstep q c c' -> all_reached q c -> all_reached q c'.
Proof.
  intros Hstep Hall. inversion Hstep as [s f tmp s' Hn Hs|s f s' Hw|s f tmp s' Hc Hr Hs|s f s' Hq Hr];
    subst; intros i Hi Hni; simpl in *.
  - destruct (sleep_enter_inv q s tmp s' Hs) as (-> & Hh & Hnr & Hoth).
    destruct (decide (i = cur s)) as [->|Hne]; [by apply R_head|].
    rewrite lookup_insert_ne in Hi by done. rewrite Hoth in Hni by done.
    specialize (Hall i Hi Hni). simpl in Hall. clear Hi Hni Hne.
    induction Hall as [i Hwq|j i Hj Hrun|j i Hj _ IH].
    + eapply R_next; [|by apply R_head]. by rewrite lookup_insert_eq, Hwq.
    + assert (j <> cur s) by (intros ->; congruence).
      eapply R_woken; [by rewrite lookup_insert_ne|by apply Hoth].
    + assert (j <> cur s) by (intros ->; congruence).
      eapply R_next; [by rewrite lookup_insert_ne|done].
  - destruct (wake_up_inv q s s' Hw) as (_ & Hh & Hmono).
    assert (~ running s i) as Hni0 by auto.
    assert (forall k, reached q s f k -> running s' k \/ reached q s' f k) as Hk.
    { intros k. induction 1 as [k Hwq|j k Hj Hrun|j k Hj _ [IH|IH]].
      - left. by apply Hh.
      - right. eapply R_woken; [done|by apply Hmono].
      - right. by eapply R_woken.
      - right. by eapply R_next. }
    destruct (Hk i (Hall i Hi Hni0)); [done|done].
  - destruct (set_running_inv tmp s s' Hs) as (Hw & Ht & Hmono).
    assert (~ running s i) as Hni0 by auto.
    assert (i <> cur s) as Hic by (intros ->; done).
    rewrite lookup_delete_ne in Hi by done.
    assert (forall k, reached q s f k -> running s' k \/ reached q s' (delete (cur s) f) k) as Hk.
    { intros k. induction 1 as [k Hwq|j k Hj Hrun|j k Hj _ [IH|IH]].
      - right. apply R_head. by rewrite Hw.
      - destruct (decide (j = cur s)) as [->|]; [left; apply Ht; congruence|].
        right. eapply R_woken; [by rewrite lookup_delete_ne|by apply Hmono].
      - destruct (decide (j = cur s)) as [->|]; [left; apply Ht; congruence|].
        right. eapply R_woken; [by rewrite lookup_delete_ne|done].
      - destruct (decide (j = cur s)) as [->|]; [left; apply Ht; congruence|].
        right. eapply R_next; [by rewrite lookup_delete_ne|done]. }
    destruct (Hk i (Hall i Hi Hni0)); [done|done].
  - rewrite Hr in Hni by done. specialize (Hall i Hi Hni). simpl in Hall. clear Hi Hni.
    induction Hall as [k Hwq|j k Hj Hrun|j k Hj _ IH].
    + apply R_head. by rewrite Hq.
    + eapply R_woken; [done|]. by apply Hr; [eexists|].
    + by eapply R_next.
Qed.

(** C5: No wake-up is lost.  From a queue nobody sleeps on, whatever sequence of
    [sleep_on], [wake_up] and resumptions follows: once the queue variable is empty and
    every task that was made runnable has resumed, no task is still asleep on it. *)
Theorem no_lost_wakeup q s0 s f :
  rtc (wstep q) (s0, ∅) (s, f) ->
  wait_queue s !! q = None -> (forall i, is_Some (f !! i) -> ~ running s i) ->
  f = ∅.
Proof.
  intros Hsteps Hq Hnr.
  assert (all_reached q (s, f)) as Hall.
  { assert (all_reached q (s0, ∅)) as H0 by (intros i [x Hx]; done).
    revert H0. clear Hq Hnr. induction Hsteps as [|c1 c2 c3 Hs _ IH]; [done|].
    intros H0. apply IH. by eapply wstep_reached. }
  apply map_empty. intros i. destruct (f !! i) as [tmp|] eqn:Ef; [exfalso|done].
  assert (forall k, reached q s f k -> False) as Hno.
  { intros k. induction 1 as [k Hwq|j k Hj Hrun|j k Hj _ IH]; [congruence| |done].
    apply (Hnr j); [by eexists|done]. }
  apply (Hno i). apply (Hall i); [by eexists|]. apply Hnr. by eexists.
Qed.

(** ** A small system

    Task 0 idle, tasks 1 and 2 runnable with different counters, no timer pending. *)

Definition demo_tss : tss_struct := mk_tss 0 0 0 0 0 0 0 0 0 0 0 0 0 0 0 0 0 0 0 0 0 0.

Definition demo_task (pid father counter : Z) : task_struct :=
  mk_task TASK_RUNNING counter 15 0 (replicate 32 (mk_sigaction 0 0 0 0)) 0 0
    0 0 0 0 0 pid father 0 0 0 0 0 0 0 0 0 0 0 0 0 0 0 0 (-1) 18 None None None 0
    (replicate 20 None) (mk_desc 0 0, mk_desc 0 0, mk_desc 0 0) demo_tss.

Definition demo_mm : mm := mk_mm ∅ [] 0 ∅ 0 0 [].

Definition demo : kst :=
  mk_kst demo_mm {[ 0 := demo_task 0 (-1) 15; 1 := demo_task 1 0 3; 2 := demo_task 2 1 9 ]} 1
    1000 0 2 None ∅ (replicate 64 (mk_timer 0 0 None)) None [] 0
    (mk_motor [0; 0; 0; 0] [0; 0; 0; 0] 12 0) [] ∅ ∅ ∅ ∅ ∅ ∅.

Lemma demo_sched_inv : sched_inv (tasks demo).
Proof.
  intros i t Hi Ht. unfold demo in Ht; simpl in Ht.
  repeat (apply lookup_insert_Some in Ht as [[<- <-]|[_ Ht]]; [simpl; lia|]).
  apply lookup_singleton_Some in Ht as [_ <-]. simpl. lia.
Qed.

Lemma demo_pending : pending demo [].
Proof.
  exists []. split; [reflexivity|]. split; [constructor|]. split; [reflexivity|]. split; [|reflexivity].
  intros i t Ht _. change (timer_list demo) with (replicate 64 (mk_timer 0 0 None)) in Ht.
  by apply lookup_replicate in Ht as [-> _].
Qed.

Lemma schedule_ok_witness :
  exists ts' n, schedule demo = (Ret tt, demo <| tasks := ts' |> <| cur := n |>) /\ chosen ts' n.
Proof.
  destruct (schedule_ok demo demo_sched_inv) as (ts' & n & Hr & Hc & _).
  exists ts', n. split; [exact Hr|exact Hc].
Defined.

Example schedule_demo : cur (snd (schedule demo)) = 2.
Proof. vm_compute. reflexivity. Qed.

Lemma add_timer_ok_witness :
  exists s', add_timer 5 77 demo = (Ret tt, s') /\ pending s' [(5, 77)].
Proof.
  destruct (add_timer_ok demo [] 5 77 demo_pending ltac:(discriminate) ltac:(reflexivity))
    as (s' & Hr & Hp & _).
  exists s'. split; [exact Hr|exact Hp].
Defined.

(** A timer due in 10 ticks expires after 15 once a timer of 5 ticks is added. *)
Lemma add_timer_postpones_witness :
  expiries 0 [(10, 1)] = [(10, 1)] /\ expiries 0 (insert_timer 5 2 [(10, 1)]) = [(5, 2); (15, 1)].
Proof.
  destruct (add_timer_postpones 0 5 2 [(10, 1)] ltac:(reflexivity)) as (A & B & d & _ & H1 & _).
  split; reflexivity.
Defined.

Definition asleep : kst := snd (sleep_enter 7 demo).
Definition woken : kst := snd (wake_up 7 asleep).

Lemma no_lost_wakeup_witness :
  delete 1 (<[1 := wait_queue demo !! 7]> (∅ : gmap Z (option Z))) = ∅.
Proof.
  apply (no_lost_wakeup 7 demo woken).
  - eapply rtc_l; [apply (W_sleep 7 demo ∅ None asleep); vm_compute; reflexivity|].
    eapply rtc_l; [apply (W_wake 7 asleep _ woken); vm_compute; reflexivity|].
    eapply rtc_l; [apply (W_resume 7 woken _ None woken)|apply rtc_refl].
    + reflexivity.
    + eexists. split; vm_compute; reflexivity.
    + reflexivity.
  - vm_compute. reflexivity.
  - intros i [x Hx]. exfalso. apply lookup_delete_Some in Hx as [Hne Hx].
    rewrite lookup_insert_ne in Hx by done. done.
Defined.
