(* ===== verification/Fork.v ===== *)
(** Process creation ([linux-0.11/kernel/fork.c]). *)

From S2P Require Import Prelude Memory Task Sched.

(** ** Segments of the current task *)

Definition ldt1 (t : task_struct) : desc := t.(t_ldt).1.2.
Definition ldt2 (t : task_struct) : desc := t.(t_ldt).2.

Definition set_base1 (b : Z) (t : task_struct) : task_struct :=
  t <| t_ldt ::= fun '(d0, d1, d2) => (d0, mk_desc b (d_limit d1), d2) |>.
Definition set_base2 (b : Z) (t : task_struct) : task_struct :=
  t <| t_ldt ::= fun '(d0, d1, d2) => (d0, d1, mk_desc b (d_limit d2)) |>.

(** ** verify_area *)

(** The [while (size > 0)] loop. *)
Fixpoint verify_pages (n : nat) (start : Z) : M kst unit :=
  match n with
  | O => mret tt
  | S n => on_mm (write_verify start);; verify_pages n (u32 (start + 4096))
  end.

(** The number of rounds for a size: one for each started page. *)
Definition pages_of (size : Z) : nat := Z.to_nat ((size + 4095) / 4096).

Definition verify_area (addr size : Z) : M kst unit :=
  let size := size + Z.land addr 0xfff in
  let start := Z.land addr 0xfffff000 in
  t ← current_task;
  verify_pages (pages_of size) (u32 (start + d_base (ldt2 t))).

(** ** copy_mem *)

(** [copy_mem(nr, p)], where [p] is the new task, already in slot [nr]. *)
Definition copy_mem (nr : Z) : M kst Z :=
  c ← current_task;
  let code_limit := d_limit (ldt1 c) in
  let data_limit := d_limit (ldt2 c) in
  let old_code_base := d_base (ldt1 c) in
  let old_data_base := d_base (ldt2 c) in
  if negb (old_data_base =? old_code_base) then panic "We don't support separate I&D" else
  if data_limit <? code_limit then panic "Bad data_limit" else
  let new_base := u32 (nr * 0x4000000) in
  upd_task nr (fun p => p <| t_start_code := new_base |>);;
  upd_task nr (set_base1 new_base);;
  upd_task nr (set_base2 new_base);;
  r ← on_mm (copy_page_tables old_data_base new_base data_limit);
  if istrue r then
    on_mm (free_page_tables new_base data_limit);;
    mret (- ENOMEM)
  else mret 0.

(** ** copy_process *)

(** The registers that the system call entry passes on. *)
Record regs := mk_regs {
  r_ebp : Z; r_edi : Z; r_esi : Z; r_gs : Z; r_none : Z; r_ebx : Z; r_ecx : Z; r_edx : Z;
  r_fs : Z; r_es : Z; r_ds : Z; r_eip : Z; r_cs : Z; r_eflags : Z; r_esp : Z; r_ss : Z
}.

Definition FIRST_TSS_ENTRY : Z := 4.
Definition FIRST_LDT_ENTRY : Z := FIRST_TSS_ENTRY + 1.
Definition _LDT (n : Z) : Z := Z.shiftl n 4 + Z.shiftl FIRST_LDT_ENTRY 3.

(** The child's task structure before its memory is set up. *)
Definition child_task (nr p pid now : Z) (r : regs) (c : task_struct) : task_struct :=
  c <| t_state := TASK_UNINTERRUPTIBLE |>
    <| t_pid := pid |>
    <| t_father := t_pid c |>
    <| t_counter := t_priority c |>
    <| t_signal := 0 |>
    <| t_alarm := 0 |>
    <| t_leader := 0 |>
    <| t_utime := 0 |> <| t_stime := 0 |>
    <| t_cutime := 0 |> <| t_cstime := 0 |>
    <| t_start_time := now |>
    <| t_tss ::= fun x =>
         x <| back_link := 0 |>
           <| esp0 := PAGE_SIZE + p |>
           <| ss0 := 0x10 |>
           <| tss_eip := r_eip r |>
           <| tss_eflags := r_eflags r |>
           <| tss_eax := 0 |>
           <| tss_ecx := r_ecx r |>
           <| tss_edx := r_edx r |>
           <| tss_ebx := r_ebx r |>
           <| tss_esp := r_esp r |>
           <| tss_ebp := r_ebp r |>
           <| tss_esi := r_esi r |>
           <| tss_edi := r_edi r |>
           <| tss_es := Z.land (r_es r) 0xffff |>
           <| tss_cs := Z.land (r_cs r) 0xffff |>
           <| tss_ss := Z.land (r_ss r) 0xffff |>
           <| tss_ds := Z.land (r_ds r) 0xffff |>
           <| tss_fs := Z.land (r_fs r) 0xffff |>
           <| tss_gs := Z.land (r_gs r) 0xffff |>
           <| tss_ldt := _LDT nr |>
           <| trace_bitmap := 0x80000000 |> |>.

(** [f->f_count++] and [inode->i_count++], on unsigned short counters. *)
Definition inc (m : gmap Z Z) (k : Z) : gmap Z Z := <[k := u16 (default 0 (m !! k) + 1)]> m.
Definition inc_opt (m : gmap Z Z) (o : option Z) : gmap Z Z :=
  match o with Some k => inc m k | None => m end.

(** The end of [copy_process], once the memory is copied: [c] is the current task. *)
Definition fork_finish (nr : Z) (c : task_struct) : M kst Z :=
  child ← get_task nr;
  modify (fun s => s <| f_count := foldl inc_opt (f_count s) (t_filp child) |>);;
  modify (fun s => s <| i_count := inc_opt (i_count s) (t_pwd c) |>);;
  modify (fun s => s <| i_count := inc_opt (i_count s) (t_root c) |>);;
  modify (fun s => s <| i_count := inc_opt (i_count s) (t_executable c) |>);;
  modify (fun s => s <| gdt ::= <[Z.shiftl nr 1 + FIRST_TSS_ENTRY := nr]> |>
                     <| gdt ::= <[Z.shiftl nr 1 + FIRST_LDT_ENTRY := nr]> |>);;
  upd_task nr (fun t => t <| t_state := TASK_RUNNING |>);;
  gets last_pid.

(** The end of [copy_process] when the memory cannot be copied. *)
Definition fork_undo (nr p : Z) : M kst Z :=
  modify (fun s => s <| tasks ::= delete nr |> <| task_page ::= delete nr |>);;
  on_mm (free_page p);;
  mret (- EAGAIN).

(** [copy_process] from the point where the page [p] for the new structure is taken;
    [fpu] is the coprocessor's state, saved when the parent owns it. *)
Definition fork_into (fpu nr : Z) (r : regs) (p : Z) : M kst Z :=
  c ← current_task;
  s ← get;
  modify (fun s => s <| tasks ::= <[nr := child_task nr p (last_pid s) (jiffies s) r c]> |>
                     <| task_page ::= <[nr := p]> |>);;
  when (bool_decide (last_task_used_math s = Some (cur s)))
    (upd_task nr (fun t => t <| t_tss ::= fun x => x <| i387 := fpu |> |>));;
  e ← copy_mem nr;
  if istrue e then fork_undo nr p else fork_finish nr c.

Definition copy_process (fpu nr : Z) (r : regs) : M kst Z :=
  p ← on_mm get_free_page;
  if p =? 0 then mret (- EAGAIN) else fork_into fpu nr r p.

(** ** find_empty_process *)

Definition next_pid (p : Z) : Z := let q := s32 (p + 1) in if q <? 0 then 1 else q.

Definition pid_in_use (ts : gmap Z task_struct) (pid : Z) : bool :=
  existsb (fun i => match ts !! i with Some t => t_pid t =? pid | None => false end)
    (seqZ 0 NR_TASKS).

(** The [repeat:] loop. *)
Fixpoint new_pid (fuel : nat) : M kst unit :=
  match fuel with
  | O => nofuel
  | S fuel =>
      modify (fun s => s <| last_pid ::= next_pid |>);;
      s ← get;
      if pid_in_use (tasks s) (last_pid s) then new_pid fuel else mret tt
  end.

(** 65 rounds suffice: there are at most 64 tasks ([find_empty_process_ok]). *)
Definition find_empty_process : M kst Z :=
  new_pid 65;;
  s ← get;
  match list_find (fun i => tasks s !! i = None) (seqZ 1 (NR_TASKS - 1)) with
  | Some (_, i) => mret i
  | None => mret (- EAGAIN)
  end.
