(* ===== verification/ForkSpec.v ===== *)
(** Properties of process creation: fresh process numbers, and the page counts over a
    fork that succeeds or fails. *)

From S2P Require Import Prelude Memory MemoryInv MemoryOps MemoryFault MemoryInit MemoryFork Task Sched SchedSpec Fork.

(** ** Process numbers *)

Definition MAX_PID : Z := 2147483647.

Lemma next_pid_eq p : 0 <= p <= MAX_PID -> next_pid p = if decide (p = MAX_PID) then 1 else p + 1.
Proof.
  unfold MAX_PID, next_pid. intros Hp. case_decide as Hd.
  - subst p. reflexivity.
  - rewrite s32_small by lia. by rewrite (proj2 (Z.ltb_ge _ _)) by lia.
Qed.

(** The [k]th process number tried. *)
Definition nth_pid (p k : Z) : Z := if decide (p + k <= MAX_PID) then p + k else p + k - MAX_PID.

Lemma nth_pid_next p k :
  0 <= p <= MAX_PID -> 0 <= k < 1000 -> next_pid (nth_pid p k) = nth_pid p (k + 1).
Proof.
  intros Hp Hk. unfold nth_pid. assert (MAX_PID = 2147483647) by done.
  repeat case_decide; try (exfalso; lia); rewrite next_pid_eq by lia; case_decide; lia.
Qed.

Definition used_pids (ts : gmap Z task_struct) : list Z :=
  omap (fun i => t_pid <$> ts !! i) (seqZ 0 NR_TASKS).

Lemma pid_in_use_elem ts pid : pid_in_use ts pid = true <-> pid ∈ used_pids ts.
Proof.
  unfold pid_in_use, used_pids. rewrite existsb_exists, list_elem_of_omap. split.
  - intros (i & Hi & Ht). exists i. split; [by apply list_elem_of_In|].
    destruct (ts !! i) as [t|]; [|done]. simpl. f_equal. lia.
  - intros (i & Hi & Ht). exists i. split; [by apply list_elem_of_In|].
    destruct (ts !! i) as [t|]; [|done]. simpl in Ht. injection Ht as <-. apply Z.eqb_refl.
Qed.

Lemma used_pids_length ts : (length (used_pids ts) <= 64)%nat.
Proof.
  unfold used_pids. change 64%nat with (length (seqZ 0 NR_TASKS)).
  induction (seqZ 0 NR_TASKS) as [|i l IH]; [done|].
  cbn [omap list_omap length]. destruct (t_pid <$> ts !! i); cbn [length]; lia.
Qed.

(** The loop stops at the first free number, if there is one within the fuel. *)
Lemma new_pid_run fuel k p s :
  last_pid s = nth_pid p k -> 0 <= p <= MAX_PID -> 0 <= k -> k + Z.of_nat fuel < 1000 ->
  (exists pid, new_pid fuel s = (Ret tt, s <| last_pid := pid |>) /\ 
     (pid ∉ used_pids (tasks s)) /\ exists j, k < j <= k + Z.of_nat fuel /\ pid = nth_pid p j) \/
  (forall j, k < j <= k + Z.of_nat fuel -> nth_pid p j ∈ used_pids (tasks s)).
Proof.
  revert k s. induction fuel as [|fuel IH]; intros k s Hl Hp Hk Hf; [right; lia|].
  cbn [new_pid]. rewrite bind_modify, bind_get.
  set (s1 := s <| last_pid ::= next_pid |>).
  assert (last_pid s1 = nth_pid p (k + 1)) as Hl1.
  { change (last_pid s1) with (next_pid (last_pid s)). rewrite Hl. apply nth_pid_next; lia. }
  change (tasks s1) with (tasks s). rewrite Hl1.
  destruct (pid_in_use (tasks s) (nth_pid p (k + 1))) eqn:Hu.
  - destruct (IH (k + 1) s1 Hl1 Hp) as [(pid & Hr & Hn & j & Hj & Hpj)|Hall]; [lia|lia| |].
    + left. exists pid. split; [done|]. split; [done|]. exists j. split; [lia|done].
    + right. intros j Hj. destruct (decide (j = k + 1)) as [->|]; [by apply pid_in_use_elem|].
      apply Hall. lia.
  - left. exists (nth_pid p (k + 1)). split; [unfold s1; rewrite <- Hl1; by destruct s|].
    split; [rewrite <- pid_in_use_elem; congruence|]. exists (k + 1). split; [lia|done].
Qed.

Lemma nth_pid_inj p j k :
  0 <= p <= MAX_PID -> 0 <= j < 1000 -> 0 <= k < 1000 -> nth_pid p j = nth_pid p k -> j = k.
Proof. unfold nth_pid, MAX_PID. intros. repeat case_decide; lia. Qed.

(** Of 65 consecutive numbers one is free. *)
Lemma some_pid_free p ts :
  0 <= p <= MAX_PID -> ~ (forall j, 0 < j <= 65 -> nth_pid p j ∈ used_pids ts).
Proof.
  intros Hp Hall.
  assert (length (nth_pid p <$> seqZ 1 65) <= length (used_pids ts))%nat as Hlen.
  { apply submseteq_length, NoDup_submseteq.
    - apply NoDup_fmap_2_strong; [|apply NoDup_seqZ].
      intros x y Hx%elem_of_seqZ Hy%elem_of_seqZ He. apply (nth_pid_inj p); (done || lia).
    - intros x (k & -> & Hk%elem_of_seqZ)%list_elem_of_fmap. apply Hall. lia. }
  rewrite length_fmap, length_seqZ in Hlen. pose proof (used_pids_length ts). lia.
Qed.

Lemma new_pid_ok s :
  0 <= last_pid s <= MAX_PID ->
  exists pid, new_pid 65 s = (Ret tt, s <| last_pid := pid |>) /\
    1 <= pid <= MAX_PID /\ (pid ∉ used_pids (tasks s)).
Proof.
  intros Hp. assert (last_pid s = nth_pid (last_pid s) 0) as H0.
  { unfold nth_pid. rewrite decide_True by lia. lia. }
  destruct (new_pid_run 65 0 (last_pid s) s H0 Hp ltac:(lia) ltac:(lia))
    as [(pid & Hr & Hn & j & Hj & Hpj)|Hall].
  - exists pid. split; [exact Hr|]. split; [|exact Hn]. clear Hr. rewrite Hpj.
    assert (0 < j <= 65) by lia. clear - Hp H. unfold nth_pid, MAX_PID in *. case_decide; lia.
  - destruct (some_pid_free _ (tasks s) Hp). intros j Hj. apply Hall. lia.
Qed.

(** The first empty slot of a scan. *)
Lemma first_empty (ts : gmap Z task_struct) m n :
  match list_find (fun i => ts !! i = None) (seqZ m n) with
  | Some (_, i) => m <= i < m + n /\ ts !! i = None /\ forall j, m <= j < i -> is_Some (ts !! j)
  | None => forall j, m <= j < m + n -> is_Some (ts !! j)
  end.
Proof.
  destruct (list_find _ _) as [[k i]|] eqn:Ef.
  - apply list_find_Some in Ef as (Hk & Hi & Hmin). apply lookup_seqZ in Hk as [-> Hk].
    split; [lia|]. split; [exact Hi|]. intros j Hj.
    apply not_eq_None_Some, (Hmin (Z.to_nat (j - m))); [apply lookup_seqZ; lia|lia].
  - apply list_find_None in Ef. rewrite Forall_forall in Ef.
    intros j Hj. apply not_eq_None_Some, Ef, elem_of_seqZ. lia.
Qed.

(** [find_empty_process] ends and sets [last_pid] to a positive number that no
    task has; it returns the lowest empty slot, or -EAGAIN when all 63 are taken. *)
Lemma find_empty_process_ok s :
  0 <= last_pid s <= MAX_PID ->
  exists r pid, find_empty_process s = (Ret r, s <| last_pid := pid |>) /\
    1 <= pid <= MAX_PID /\ (pid ∉ used_pids (tasks s)) /\
    ((1 <= r < NR_TASKS /\ tasks s !! r = None /\
        forall i, 1 <= i < r -> is_Some (tasks s !! i)) \/
     (r = - EAGAIN /\ forall i, 1 <= i < NR_TASKS -> is_Some (tasks s !! i))).
Proof.
  intros Hp. destruct (new_pid_ok s Hp) as (pid & Hr & Hpid & Hn). unfold find_empty_process.
  mrun Hr. clear Hr. rewrite bind_get. change (tasks (s <| last_pid := pid |>)) with (tasks s).
  pose proof (first_empty (tasks s) 1 (NR_TASKS - 1)) as Hf.
  destruct (list_find _ _) as [[k i]|]; unfold NR_TASKS in *.
  - exists i, pid. split; [reflexivity|]. split; [exact Hpid|]. split; [exact Hn|]. left. intuition lia.
  - exists (- EAGAIN), pid. split; [reflexivity|]. split; [exact Hpid|]. split; [exact Hn|].
    right. split; [reflexivity|]. intros j Hj. apply Hf. lia.
Qed.

(** ** The child's memory *)

(** The memory manager's invariant depends only on the memory, the counts and the size. *)
Lemma wf_same own s s' :
  mem s' = mem s -> mem_map s' = mem_map s -> HIGH_MEMORY s' = HIGH_MEMORY s ->
  wf own s -> wf own s'.
Proof.
  destruct s, s'; cbn. intros -> -> -> W. destruct W. constructor; assumption.
Qed.

Lemma wf_view own s : wf own (kmm s) -> wf own (mm_view s).
Proof. apply wf_same; reflexivity. Qed.

Lemma wf_own_ext own own' s : (forall f, own' f = own f) -> wf own s -> wf own' s.
Proof.
  intros He W. destruct W. constructor; try assumption; intros; rewrite He; auto.
Qed.

Lemma on_mm_run {A} (m : M mm A) s r m' :
  m (mm_view s) = (r, m') -> on_mm m s = (r, s <| kmm := m' |>).
Proof. intros H. unfold on_mm. by rewrite H. Qed.

(** The parent [c] and the free slot [nr] as [fork] finds them: code and data share one
    segment of whole 4 MB units in a 64 MB region of the parent's own, and nothing is
    mapped in the child's region. *)
Record fork_ready (m : mm) (nr : Z) (c : task_struct) : Prop := {
  fr_nr : 1 <= nr < NR_TASKS;
  fr_same : d_base (ldt2 c) = d_base (ldt1 c);
  fr_limit : d_limit (ldt1 c) <= d_limit (ldt2 c);
  fr_size : 0 <= d_limit (ldt2 c) <= 0x4000000;
  fr_base : exists k, 1 <= k < NR_TASKS /\ k <> nr /\ d_base (ldt2 c) = k * 0x4000000;
  fr_free : forall t, 16 * nr <= t < 16 * nr + 16 -> Z.odd (dirent (mem m) t) = false;
  fr_small : Forall (fun x => x <= 127) (mem_map m)
}.

Lemma nr_dirs_region size : 0 <= size <= 0x4000000 -> nr_dirs size <= 16.
Proof.
  intros H. unfold nr_dirs, u32. rewrite Z.mod_small, Z.shiftr_div_pow2 by lia.
  change (2 ^ 22) with 4194304. apply Z.lt_succ_r, Z.div_lt_upper_bound; lia.
Qed.

Lemma region_dir k : dir_ix (k * 0x4000000) = 16 * k.
Proof. unfold dir_ix. replace (k * 0x4000000) with (16 * k * 4194304) by lia. apply Z.div_mul. lia. Qed.

Lemma region_mod k : (k * 0x4000000) mod 4194304 = 0.
Proof. replace (k * 0x4000000) with (16 * k * 4194304) by lia. apply Z.mod_mul. lia. Qed.

(** [copy_page_tables] between two regions, and the clean-up when it fails. *)
Lemma copy_region own m nr c :
  wf own m -> fork_ready m nr c ->
  exists r m1, copy_page_tables (d_base (ldt2 c)) (nr * 0x4000000) (d_limit (ldt2 c)) m = (Ret r, m1) /\
    (r = 0 \/ r = -1) /\
    dirs_copied own m m1 (r =? 0) (dir_ix (d_base (ldt2 c))) (16 * nr) (nr_dirs (d_limit (ldt2 c))).
Proof.
  intros W [Hnr _ _ Hsz (k & Hk & Hne & Hb) Hfr Hsm]. pose proof (nr_dirs_region _ Hsz) as Hd.
  pose proof (nr_dirs_nonneg (d_limit (ldt2 c))). unfold NR_TASKS in *.
  rewrite <- (region_dir nr). rewrite Hb.
  apply copy_page_tables_cases; rewrite ?region_dir; try apply region_mod;
    unfold FIRST_USER_DIR in *; try done; try lia.
  - intros t Ht. apply Hfr. lia.
  - apply (no_wrap_small own); unfold FIRST_USER_DIR; (done || lia).
Qed.

Lemma free_region own m nr size :
  wf own m -> 1 <= nr < NR_TASKS -> 0 <= size <= 0x4000000 ->
  exists m1, free_page_tables (nr * 0x4000000) size m = (Ret 0, m1) /\ wf own m1 /\
    HIGH_MEMORY m1 = HIGH_MEMORY m /\
    (forall k, 16 * nr <= k < 16 * nr + nr_dirs size -> Z.odd (dirent (mem m1) k) = false) /\
    untouched (mem m) (mem m1) (fun k => 16 * nr <= k < 16 * nr + nr_dirs size).
Proof.
  intros W Hnr Hsz. pose proof (nr_dirs_region _ Hsz). unfold NR_TASKS in *.
  destruct (free_page_tables_cases own m (nr * 0x4000000) size W) as (m1 & Hr & W1 & Hh & Hz & Hu);
    rewrite ?region_dir in *; try apply region_mod; unfold FIRST_USER_DIR in *; try lia.
  by exists m1.
Qed.

(** ** What a failed copy leaves behind *)

(** The same tables are present, and in the slots [i, i + n) entries may have lost their write
    permission. *)
Definition tables_kept (m m' : gmap Z Z) (i n : Z) : Prop :=
  forall k, user_dir k ->
    Z.odd (dirent m' k) = Z.odd (dirent m k) /\
    (Z.odd (dirent m k) = true -> dirent m' k = dirent m k /\
       forall l, 0 <= l < 1024 -> pte m' k l = pte m k l \/ (i <= k < i + n /\ pte m' k l = parent_entry (pte m k l))).

Lemma tables_kept_untouched m m1 m' i n :
  untouched m m1 (fun _ => False) -> tables_kept m1 m' i n -> tables_kept m m' i n.
Proof.
  intros Hu Hk k Hku. destruct (Hu k Hku (fun x => x)) as [Hd Hp]. destruct (Hk k Hku) as [Ho He]. rewrite Hd in *.
  split; [exact Ho|]. intros Hok. destruct (He Hok) as [Hd' Hl]. split; [exact Hd'|]. intros l Hr.
  rewrite <- (Hp Hok l Hr). by apply Hl.
Qed.

Lemma tables_kept_refs m m' i n f : tables_kept m m' i n -> refs m' f = refs m f.
Proof.
  intros Hk. apply sumZ_ext. intros k Hu%elem_user. destruct (Hk k Hu) as [Ho He]. unfold table_refs. rewrite Ho.
  destruct (Z.odd (dirent m k)); [|reflexivity]. destruct (He eq_refl) as [-> Hl]. f_equal. apply sumZ_ext.
  intros l Hr%elem_of_seqZ_iff. destruct (Hl l ltac:(lia)) as [->|[_ ->]]; [reflexivity|apply names_parent].
Qed.

Lemma tables_kept_cnt own s s' i n f :
  wf own s -> wf own s' -> HIGH_MEMORY s' = HIGH_MEMORY s -> tables_kept (mem s) (mem s') i n ->
  main s f -> cnt s' f = cnt s f.
Proof.
  intros W W' Hh Hk Hm. rewrite (wf_cnt own s W f Hm), (wf_cnt own s' W' f), (tables_kept_refs _ _ _ _ f Hk); [reflexivity|].
  unfold main. by rewrite Hh.
Qed.

Lemma tables_kept_xlate m m' i n b :
  tables_kept m m' i n -> user_addr b ->
  xlate m' b = xlate m b \/ (i <= dir_ix b < i + n /\ xlate m' b = parent_entry <$> xlate m b).
Proof.
  intros Hk [_ Hb]. destruct (Hk _ Hb) as [Ho He]. unfold xlate. rewrite Ho.
  destruct (Z.odd (dirent m (dir_ix b))); [|by left]. destruct (He eq_refl) as [_ Hl].
  destruct (Hl (tbl_ix b) (tbl_ix_range b)) as [->|[Hi ->]]; [by left|]. right. split; [exact Hi|].
  cbn [andb]. rewrite parent_entry_odd. destruct (Z.odd (pte m (dir_ix b) (tbl_ix b))); reflexivity.
Qed.

(** A copy that stopped half way, with the child's tables freed again. *)
Lemma copy_freed own m m1 m2 i nr n :
  0 <= n <= 16 -> 1 <= nr < NR_TASKS -> (i + n <= 16 * nr \/ 16 * nr + n <= i) ->
  (forall t, 16 * nr <= t < 16 * nr + 16 -> Z.odd (dirent (mem m) t) = false) ->
  dirs_copied own m m1 false i (16 * nr) n ->
  (forall k, 16 * nr <= k < 16 * nr + n -> Z.odd (dirent (mem m2) k) = false) ->
  untouched (mem m1) (mem m2) (fun k => 16 * nr <= k < 16 * nr + n) ->
  tables_kept (mem m) (mem m2) i n.
Proof.
  intros Hn Hnr Hdis Hfr (_ & _ & Hu1 & Hpk & _) Hz Hu2 k Hk.
  destruct (decide (16 * nr <= k < 16 * nr + n)) as [Hc|Hc].
  { rewrite Hz, Hfr by lia. by split. }
  destruct (Hu2 k Hk Hc) as [Hd2 Hp2]. destruct (decide (i <= k < i + n)) as [Hp|Hp].
  - destruct (Hpk (k - i) ltac:(lia)) as [Hd1 Hp1]. replace (i + (k - i)) with k in * by lia.
    rewrite Hd2, Hd1. split; [reflexivity|]. intros Ho. split; [reflexivity|]. intros l Hl.
    rewrite Hp2 by (done || congruence). destruct (Hp1 Ho l Hl) as [->| ->]; auto.
  - destruct (Hu1 k Hk ltac:(cbv beta; lia)) as [Hd1 Hp1]. rewrite Hd2, Hd1. split; [reflexivity|]. intros Ho.
    split; [reflexivity|]. intros l Hl. left. rewrite Hp2 by (done || congruence). by apply Hp1.
Qed.

Definition child_mem (nr : Z) (t : task_struct) : task_struct :=
  set_base2 (nr * 0x4000000) (set_base1 (nr * 0x4000000) (t <| t_start_code := nr * 0x4000000 |>)).

Lemma upd_task_again p g s t :
  upd_task p g (s <| tasks ::= <[p := t]> |>) = (Ret tt, s <| tasks ::= <[p := g t]> |>).
Proof.
  rewrite (upd_task_run p g _ t) by apply lookup_insert_eq.
  f_equal. unfold upd. f_equal. apply insert_insert_eq.
Qed.

Lemma copy_mem_cases own s nr c t :
  wf own (kmm s) -> fork_ready (kmm s) nr c ->
  tasks s !! cur s = Some c -> tasks s !! nr = Some t -> nr <> cur s ->
  exists r m1, copy_mem nr s = (Ret r, s <| tasks ::= <[nr := child_mem nr t]> |> <| kmm := m1 |>) /\
    wf own m1 /\ HIGH_MEMORY m1 = HIGH_MEMORY (kmm s) /\
    ((r = 0 /\ dirs_copied own (kmm s) m1 true (dir_ix (d_base (ldt2 c))) (16 * nr)
                 (nr_dirs (d_limit (ldt2 c)))) \/
     (r = - ENOMEM /\ tables_kept (mem (kmm s)) (mem m1) (dir_ix (d_base (ldt2 c))) (nr_dirs (d_limit (ldt2 c))))).
Proof.
  intros W F Hc Ht Hne. pose proof (fr_nr _ _ _ F) as Hnr. unfold NR_TASKS in Hnr.
  unfold copy_mem, current_task. rewrite bind_assoc, bind_get.
  assert (get_task (cur s) s = (Ret c, s)) as Hg by (unfold get_task; rewrite bind_get, Hc; reflexivity).
  mrun Hg. rewrite (fr_same _ _ _ F), Z.eqb_refl. cbn [negb].
  rewrite (proj2 (Z.ltb_ge _ _) (fr_limit _ _ _ F)). rewrite u32_small by lia.
  set (s1 := s <| tasks ::= <[nr := child_mem nr t]> |>).
  rewrite (bind_Ret _ _ _ _ _ (upd_task_run nr _ s t Ht)).
  mrun (upd_task_again nr (set_base1 (nr * 0x4000000)) s (t <| t_start_code := nr * 0x4000000 |>)).
  mrun (upd_task_again nr (set_base2 (nr * 0x4000000)) s
          (set_base1 (nr * 0x4000000) (t <| t_start_code := nr * 0x4000000 |>))).
  fold (child_mem nr t). fold s1.
  rewrite <- (fr_same _ _ _ F).
  assert (fork_ready (mm_view s1) nr c) as F1 by (destruct F; constructor; assumption).
  destruct (copy_region own (mm_view s1) nr c (wf_view own s1 W) F1) as (r & m1 & Hr & Hr01 & Hd).
  pose proof (proj1 Hd) as W1. mrun (on_mm_run _ s1 _ _ Hr). clear Hr. destruct Hr01 as [->| ->].
  - exists 0, m1. split; [reflexivity|]. split; [exact W1|]. split; [apply Hd|].
    left. split; [reflexivity|]. exact Hd.
  - set (s2 := s1 <| kmm := m1 |>).
    destruct (free_region own (mm_view s2) nr (d_limit (ldt2 c)) (wf_view own s2 W1)
      (fr_nr _ _ _ F) (fr_size _ _ _ F)) as (m2 & Hr2 & W2 & Hh2 & Hz2 & Hu2).
    change (istrue (-1)) with true. cbv iota. mrun (on_mm_run _ s2 _ _ Hr2). clear Hr2.
    exists (- ENOMEM), m2. split; [reflexivity|]. split; [exact W2|].
    split; [etrans; [exact Hh2|apply Hd]|]. right. split; [reflexivity|].
    pose proof (nr_dirs_region _ (fr_size _ _ _ F)). destruct (fr_base _ _ _ F) as (k & Hk & Hkn & Hb).
    apply (copy_freed own (mm_view s1) m1 m2 _ nr); try done.
    + split; [apply nr_dirs_nonneg|done].
    + rewrite Hb, region_dir. lia.
    + apply (fr_free _ _ _ F).
Qed.

(** ** The whole of [fork] *)

Lemma alloc_dirent own m p i :
  wf own m -> main m p -> 0 <= i < 1024 -> dirent (mem (alloc_state m p)) i = dirent (mem m) i.
Proof.
  intros W Hm Hi. unfold dirent. apply (stosl_page_other p (4 * i) (mem m)).
  destruct Hm as [_ Hm]. unfold LOW_MEM in *. lia.
Qed.

Lemma alloc_ready own m p nr c :
  wf own m -> main m p -> fork_ready m nr c -> fork_ready (alloc_state m p) nr c.
Proof.
  intros W Hm [Hnr H1 H2 H3 H4 Hfr Hsm]. unfold NR_TASKS in *. constructor; try assumption.
  - intros t Ht. rewrite (alloc_dirent own) by (done || lia). by apply Hfr.
  - apply (Forall_insert _ (mem_map m) (idx p) 1 Hsm). lia.
Qed.

(** The child's structure when its memory is copied, before its bases are set. *)
Definition fork_task (fpu nr p : Z) (s : kst) (r : regs) (c : task_struct) : task_struct :=
  let t := child_task nr p (last_pid s) (jiffies s) r c in
  if bool_decide (last_task_used_math s = Some (cur s))
  then t <| t_tss ::= fun x => x <| i387 := fpu |> |> else t.

Lemma fork_fpu fpu nr p s r c :
  when (bool_decide (last_task_used_math s = Some (cur s)))
    (upd_task nr (fun t => t <| t_tss ::= fun x => x <| i387 := fpu |> |>))
    (s <| tasks ::= <[nr := child_task nr p (last_pid s) (jiffies s) r c]> |>
       <| task_page ::= <[nr := p]> |>)
  = (Ret tt, s <| tasks ::= <[nr := fork_task fpu nr p s r c]> |> <| task_page ::= <[nr := p]> |>).
Proof.
  unfold fork_task. destruct (bool_decide _); [|reflexivity]. cbn [when].
  exact (upd_task_again nr (fun t => t <| t_tss ::= fun x => x <| i387 := fpu |> |>)
           (s <| task_page ::= <[nr := p]> |>) (child_task nr p (last_pid s) (jiffies s) r c)).
Qed.

(** The state after a successful [fork]. *)
Definition forked (s : kst) (nr p : Z) (m1 : mm) (c child : task_struct) : kst :=
  s <| tasks ::= <[nr := child]> |>
    <| task_page ::= <[nr := p]> |> <| kmm := m1 |>
    <| f_count := foldl inc_opt (f_count s) (t_filp c) |>
    <| i_count := inc_opt (inc_opt (inc_opt (i_count s) (t_pwd c)) (t_root c)) (t_executable c) |>
    <| gdt ::= fun g => <[Z.shiftl nr 1 + FIRST_LDT_ENTRY := nr]>
                          (<[Z.shiftl nr 1 + FIRST_TSS_ENTRY := nr]> g) |>.

Lemma fork_task_filp fpu nr p s r c : t_filp (child_mem nr (fork_task fpu nr p s r c)) = t_filp c.
Proof. unfold fork_task. by destruct (bool_decide _), (t_ldt c) as [[? ?] ?]. Qed.

(** The last part of [copy_process], from the successful copy of the memory on. *)
Lemma fork_finish_run s nr p m1 c t :
  t_filp t = t_filp c ->
  fork_finish nr c (s <| tasks ::= <[nr := t]> |> <| task_page ::= <[nr := p]> |> <| kmm := m1 |>)
  = (Ret (last_pid s), forked s nr p m1 c (t <| t_state := TASK_RUNNING |>)).
Proof.
  intros Hf. unfold fork_finish, get_task. rewrite bind_assoc, bind_get.
  change (tasks (_ <| kmm := m1 |>)) with (<[nr := t]> (tasks s)).
  rewrite lookup_insert_eq. cbn [of_option]. rewrite bind_ret, !bind_modify, Hf.
  mrun (upd_task_again nr (fun t => t <| t_state := TASK_RUNNING |>)
         ((forked s nr p m1 c t) <| tasks := tasks s |>) t).
  reflexivity.
Qed.

(** The child: what it has of its own, the registers of the system call with 0 as its result, and
    what it has from its parent [c]. *)
Record child_of (s : kst) (nr p : Z) (r : regs) (c child : task_struct) : Prop := {
  co_state : t_state child = TASK_RUNNING /\ t_counter child = t_priority c;
  co_ids : t_pid child = last_pid s /\ t_father child = t_pid c /\ t_leader child = 0;
  co_signals : t_signal child = 0 /\ t_alarm child = 0;
  co_times : t_utime child = 0 /\ t_stime child = 0 /\ t_cutime child = 0 /\ t_cstime child = 0 /\
    t_start_time child = jiffies s;
  co_segments : t_start_code child = nr * 0x4000000 /\
    ldt1 child = mk_desc (nr * 0x4000000) (d_limit (ldt1 c)) /\ ldt2 child = mk_desc (nr * 0x4000000) (d_limit (ldt2 c));
  co_kernel : esp0 (t_tss child) = p + PAGE_SIZE /\ ss0 (t_tss child) = 0x10 /\ tss_ldt (t_tss child) = _LDT nr;
  co_entry : tss_eip (t_tss child) = r_eip r /\ tss_cs (t_tss child) = Z.land (r_cs r) 0xffff /\
    tss_esp (t_tss child) = r_esp r /\ tss_ss (t_tss child) = Z.land (r_ss r) 0xffff /\ tss_eflags (t_tss child) = r_eflags r;
  co_regs : tss_eax (t_tss child) = 0 /\ tss_ebx (t_tss child) = r_ebx r /\ tss_ecx (t_tss child) = r_ecx r /\
    tss_edx (t_tss child) = r_edx r /\ tss_esi (t_tss child) = r_esi r /\ tss_edi (t_tss child) = r_edi r /\
    tss_ebp (t_tss child) = r_ebp r /\ tss_ds (t_tss child) = Z.land (r_ds r) 0xffff /\
    tss_es (t_tss child) = Z.land (r_es r) 0xffff /\ tss_fs (t_tss child) = Z.land (r_fs r) 0xffff /\
    tss_gs (t_tss child) = Z.land (r_gs r) 0xffff;
  co_files : t_filp child = t_filp c /\ t_close_on_exec child = t_close_on_exec c /\ t_pwd child = t_pwd c /\
    t_root child = t_root c /\ t_executable child = t_executable c /\ t_umask child = t_umask c;
  co_owner : t_uid child = t_uid c /\ t_euid child = t_euid c /\ t_suid child = t_suid c /\ t_gid child = t_gid c /\
    t_egid child = t_egid c /\ t_sgid child = t_sgid c /\ t_pgrp child = t_pgrp c /\ t_session child = t_session c /\
    t_tty child = t_tty c;
  co_actions : t_sigaction child = t_sigaction c /\ t_blocked child = t_blocked c
}.

Lemma fork_task_child fpu nr p s r c :
  child_of s nr p r c ((child_mem nr (fork_task fpu nr p s r c)) <| t_state := TASK_RUNNING |>).
Proof.
  unfold fork_task. destruct c as []. match goal with l : desc * desc * desc |- _ => destruct l as [[? ?] ?] end.
  destruct (bool_decide _); constructor; repeat split; apply Z.add_comm.
Qed.

(** The unsuccessful end of [copy_process]: the slot and the structure's page are given back. *)
Lemma fork_undo_run own s nr p m1 t :
  wf (bump own p 1) m1 -> main m1 p -> (forall f, 0 <= own f) ->
  tasks s !! nr = None -> task_page s !! nr = None ->
  exists m2,
    fork_undo nr p (s <| tasks ::= <[nr := t]> |> <| task_page ::= <[nr := p]> |> <| kmm := m1 |>)
    = (Ret (- EAGAIN), s <| kmm := m2 |>) /\ wf own m2 /\ mem m2 = mem m1 /\ HIGH_MEMORY m2 = HIGH_MEMORY m1.
Proof.
  intros W Hm Hown Ht Hp. unfold fork_undo. rewrite bind_modify.
  assert (s <| tasks ::= <[nr := t]> |> <| task_page ::= <[nr := p]> |> <| kmm := m1 |>
            <| tasks ::= delete nr |> <| task_page ::= delete nr |> = s <| kmm := m1 |>) as ->.
  { pose proof (delete_insert_id (tasks s) nr t Ht) as E1.
    pose proof (delete_insert_id (task_page s) nr p Hp) as E2.
    transitivity (s <| kmm := m1 |> <| tasks := delete nr (<[nr := t]> (tasks s)) |>
                    <| task_page := delete nr (<[nr := p]> (task_page s)) |>); [reflexivity|].
    rewrite E1, E2. reflexivity. }
  destruct (free_page_held (bump own p 1) (mm_view (s <| kmm := m1 |>)) p) as [Hr W2].
  - by apply wf_view.
  - exact Hm.
  - unfold bump. rewrite Z.eqb_refl. specialize (Hown p). lia.
  - mrun (on_mm_run _ _ _ _ Hr). eexists. split; [reflexivity|]. split; [|by split].
    eapply wf_own_ext; [|exact W2]. intros f. unfold bump. destruct (f =? p); lia.
Qed.

(** [copy_process] once the page [p] for the structure is taken, memory [m0]. *)
Lemma fork_body own s fpu nr p r c m0 (s0 := s <| kmm := m0 |>) :
  tasks s !! cur s = Some c -> tasks s !! nr = None -> task_page s !! nr = None ->
  (forall f, 0 <= own f) -> wf (bump own p 1) m0 -> fork_ready m0 nr c -> main m0 p ->
  exists e s', fork_into fpu nr r p s0 = (Ret e, s') /\
    ((e = - EAGAIN /\ wf own (kmm s') /\ s' = s <| kmm := kmm s' |> /\ HIGH_MEMORY (kmm s') = HIGH_MEMORY m0 /\
        tables_kept (mem m0) (mem (kmm s')) (dir_ix (d_base (ldt2 c))) (nr_dirs (d_limit (ldt2 c)))) \/
     (e = last_pid s /\ exists child,
        s' = forked s nr p (kmm s') c child /\ child_of s nr p r c child /\ wf (bump own p 1) (kmm s') /\
        dirs_copied (bump own p 1) m0 (kmm s') true (dir_ix (d_base (ldt2 c))) (16 * nr)
          (nr_dirs (d_limit (ldt2 c))))).
Proof.
  intros Hc Hn Hnp Hown W F Hm.
  assert (current_task s0 = (Ret c, s0)) as Hg.
  { unfold current_task, get_task. rewrite !bind_get. change (tasks s0 !! cur s0) with (tasks s !! cur s).
    by rewrite Hc. }
  unfold fork_into. mrun Hg. rewrite bind_get, bind_modify. mrun (fork_fpu fpu nr p s0 r c).
  assert (nr <> cur s) as Hne by congruence.
  set (t := fork_task fpu nr p s0 r c).
  set (s1 := s0 <| tasks ::= <[nr := t]> |> <| task_page ::= <[nr := p]> |>).
  assert (tasks s1 !! nr = Some t) as Hst by apply (lookup_insert_eq (tasks s)).
  assert (tasks s1 !! cur s1 = Some c) as Hsc by (etrans; [apply (lookup_insert_ne (tasks s)); done|done]).
  destruct (copy_mem_cases (bump own p 1) s1 nr c t W F Hsc Hst Hne) as (e & m1 & Hr & W1 & Hh & Hcase).
  mrun Hr. clear Hr.
  assert (s1 <| tasks ::= <[nr := child_mem nr t]> |> <| kmm := m1 |>
          = s <| tasks ::= <[nr := child_mem nr t]> |> <| task_page ::= <[nr := p]> |> <| kmm := m1 |>) as ->.
  { pose proof (insert_insert_eq (tasks s) nr (child_mem nr t) t) as E1.
    transitivity (s <| tasks := <[nr := child_mem nr t]> (<[nr := t]> (tasks s)) |>
                    <| task_page ::= <[nr := p]> |> <| kmm := m1 |>); [reflexivity|].
    rewrite E1. reflexivity. }
  destruct Hcase as [[-> Hd]|[-> Hd]].
  - change (istrue 0) with false. cbv iota. rewrite (fork_finish_run s nr p m1 c (child_mem nr t) (fork_task_filp fpu nr p s0 r c)).
    eexists _, _. split; [reflexivity|]. right. split; [reflexivity|]. eexists. split; [reflexivity|].
    split; [destruct (fork_task_child fpu nr p s0 r c); constructor; assumption|]. split; [exact W1|exact Hd].
  - assert (main m1 p) as Hm1.
    { split; [apply Hm|]. rewrite Hh. apply Hm. }
    destruct (fork_undo_run own s nr p m1 (child_mem nr t) W1 Hm1 Hown Hn Hnp) as (m2 & Hr & W2 & Em & Eh).
    change (istrue (- ENOMEM)) with true. cbv iota.
    eexists _, _. split; [exact Hr|]. left. split; [reflexivity|]. split; [exact W2|]. split; [reflexivity|].
    split; [etrans; [exact Eh|exact Hh]|]. change (kmm (s <| kmm := m2 |>)) with m2. rewrite Em. exact Hd.
Qed.

(** The state after a [fork] that failed: only page tables differ, every count is as before, and
    every address translates as before, but for write permission in the parent's region. *)
Definition undone (own : Z -> Z) (s s' : kst) (c : task_struct) : Prop :=
  s' = s <| kmm := kmm s' |> /\ wf own (kmm s') /\
  (forall f, main (kmm s) f -> cnt (kmm s') f = cnt (kmm s) f) /\
  (forall b, user_addr b -> xlate (mem (kmm s')) b = xlate (mem (kmm s)) b \/
     (dir_ix (d_base (ldt2 c)) <= dir_ix b < dir_ix (d_base (ldt2 c)) + nr_dirs (d_limit (ldt2 c)) /\
      xlate (mem (kmm s')) b = parent_entry <$> xlate (mem (kmm s)) b)).

Lemma undone_tables own s s' c :
  wf own (kmm s) -> wf own (kmm s') -> s' = s <| kmm := kmm s' |> -> HIGH_MEMORY (kmm s') = HIGH_MEMORY (kmm s) ->
  tables_kept (mem (kmm s)) (mem (kmm s')) (dir_ix (d_base (ldt2 c))) (nr_dirs (d_limit (ldt2 c))) ->
  undone own s s' c.
Proof.
  intros W W' Hs Hh Hk. split; [exact Hs|]. split; [exact W'|]. split.
  - intros f Hf. exact (tables_kept_cnt own _ _ _ _ f W W' Hh Hk Hf).
  - intros b Hb. exact (tables_kept_xlate _ _ _ _ b Hk Hb).
Qed.

Lemma tables_kept_refl m i n : tables_kept m m i n.
Proof. intros k _. split; [reflexivity|]. intros _. split; [reflexivity|]. by left. Qed.

(** The two regions of a successful [fork], seen through translation. *)
Definition memory_copied (m m' : gmap Z Z) (base nr n : Z) : Prop :=
  (forall off, 0 <= off < n * 4194304 ->
     xlate m' (nr * 0x4000000 + off) = (fun e => Z.land e 0xfffffffd) <$> xlate m (base + off) /\
     xlate m' (base + off) = parent_entry <$> xlate m (base + off)) /\
  (forall b, user_addr b -> ~ (dir_ix base <= dir_ix b < dir_ix base + n \/ 16 * nr <= dir_ix b < 16 * nr + n) ->
     xlate m' b = xlate m b).

Lemma memory_copied_dirs own m m0 m' nr c :
  untouched (mem m) (mem m0) (fun _ => False) -> fork_ready m0 nr c ->
  dirs_copied own m0 m' true (dir_ix (d_base (ldt2 c))) (16 * nr) (nr_dirs (d_limit (ldt2 c))) ->
  memory_copied (mem m) (mem m') (d_base (ldt2 c)) nr (nr_dirs (d_limit (ldt2 c))).
Proof.
  intros Hun F (_ & _ & Hu & _ & Hd). destruct (fr_base _ _ _ F) as (k & Hk & _ & Hb). pose proof (fr_nr _ _ _ F) as Hnr.
  pose proof (nr_dirs_region _ (fr_size _ _ _ F)). unfold NR_TASKS in *. rewrite Hb in *. split.
  - intros off Hoff. pose proof (off_dir off _ Hoff) as Ho.
    rewrite <- (xlate_untouched _ _ _ (k * 0x4000000 + off) Hun).
    + apply (xlate_copied (mem m0)); [apply region_mod..| |]; rewrite !dir_ix_add, !region_dir by apply region_mod.
      * apply (fr_free _ _ _ F). lia.
      * specialize (Hd eq_refl (off / 4194304) Ho). by rewrite region_dir in Hd.
    + split; [lia|]. rewrite dir_ix_add, region_dir by apply region_mod. unfold user_dir, FIRST_USER_DIR. lia.
    + exact (fun f => f).
  - intros b Hub Hn. rewrite (xlate_untouched _ _ _ b Hu Hub Hn). exact (xlate_untouched _ _ _ b Hun Hub (fun f => f)).
Qed.


(** ** Examples *)

Lemma find_empty_process_ok_witness :
  exists r pid, find_empty_process demo = (Ret r, demo <| last_pid := pid |>) /\ 1 <= pid.
Proof.
  destruct (find_empty_process_ok demo) as (r & pid & Hr & [Hp _] & _);
    [vm_compute; intuition congruence|].
  exists r, pid. split; [exact Hr|exact Hp].
Defined.

Example find_empty_process_demo : fst (find_empty_process demo) = Ret 3.
Proof. vm_compute. reflexivity. Qed.

(** Task 1 with one page mapped in its region, about to fork into slot 2: there are two free
    frames, one for the structure and one for the child's page table. *)
Definition parent : task_struct :=
  (demo_task 1 0 3) <| t_ldt := (mk_desc 0 0, mk_desc 0x4000000 0x1000, mk_desc 0x4000000 0x400000) |>.
Definition forking : kst := demo <| kmm := mapped |> <| tasks := {[ 1 := parent ]} |>.

(** The same task with two page tables: the memory runs out when the second is copied. *)
Definition parent2 : task_struct :=
  (demo_task 1 0 3) <| t_ldt := (mk_desc 0 0, mk_desc 0x4000000 0x1000, mk_desc 0x4000000 0x800000) |>.
Definition linked2 : mm := (alloc_state linked PAGE) <| mem ::= <[4 * 17 := Z.lor PAGE 7]> |>.
Definition forking2 : kst := demo <| kmm := linked2 |> <| tasks := {[ 1 := parent2 ]} |>.

Lemma linked2_wf : wf (boot_own START) linked2.
Proof. apply (alloc_link _ linked 17 PAGE linked_wf); vm_compute; intuition congruence. Qed.

Lemma slots_free m : forallb (fun t => negb (Z.odd (dirent m t))) (seqZ 32 16) = true ->
  forall t, 32 <= t < 48 -> Z.odd (dirent m t) = false.
Proof.
  intros H t Ht. rewrite forallb_forall in H. assert (In t (seqZ 32 16)) as Hin by (apply list_elem_of_In, elem_of_seqZ; lia).
  specialize (H t Hin). cbv beta in H. by apply negb_true_iff in H.
Qed.

Lemma forking_ready : fork_ready (kmm forking) 2 parent.
Proof.
  constructor.
  1-4: vm_compute; intuition congruence.
  3: exact mapped_small.
  - exists 1. vm_compute. intuition congruence.
  - apply slots_free. vm_compute. reflexivity.
Qed.

Lemma forking2_ready : fork_ready (kmm forking2) 2 parent2.
Proof.
  constructor.
  1-4: vm_compute; intuition congruence.
  - exists 1. vm_compute. intuition congruence.
  - apply slots_free. vm_compute. reflexivity.
  - apply small_bytes. vm_compute. reflexivity.
Qed.

Definition demo_regs : regs := mk_regs 1 2 3 0x17 0 5 6 7 0x17 0x17 0x17 0x100 0xf 0x202 0x3fffff0 0x17.

