(* ===== verification/TaskLemmas.v ===== *)
(** Running operations on the current task symbolically.

    A system call that only works on the current task is a function of that task's
    structure: with the state written [set_cur s c], the rewrite database [kstep] runs
    it step by step. *)

From S2P Require Import Prelude Memory Task Sched Fork.

(** The state [s] with [c] as the current task's structure. *)
Definition set_cur (s : kst) (c : task_struct) : kst := s <| tasks ::= <[cur s := c]> |>.

Lemma set_cur_id s c : tasks s !! cur s = Some c -> s = set_cur s c.
Proof.
  intros H. pose proof (insert_id _ _ _ H) as E. symmetry.
  transitivity (s <| tasks := <[cur s := c]> (tasks s) |>); [reflexivity|].
  rewrite E. by destruct s.
Qed.

Lemma set_cur_again s c c' : set_cur (set_cur s c) c' = set_cur s c'.
Proof.
  unfold set_cur. pose proof (insert_insert_eq (tasks s) (cur s) c' c) as E.
  transitivity (s <| tasks := <[cur s := c']> (<[cur s := c]> (tasks s)) |>); [reflexivity|].
  rewrite E. reflexivity.
Qed.

Lemma tasks_set_cur s c : tasks (set_cur s c) = <[cur s := c]> (tasks s).
Proof. reflexivity. Qed.

Lemma lookup_set_cur s c : tasks (set_cur s c) !! cur s = Some c.
Proof. apply lookup_insert_eq. Qed.

Lemma current_of_set s c : tasks (set_cur s c) !! cur (set_cur s c) = Some c.
Proof. exact (lookup_set_cur s c). Qed.

Lemma get_task_run p s t : tasks s !! p = Some t -> get_task p s = (Ret t, s).
Proof. intros H. unfold get_task. by rewrite bind_get, H. Qed.

Lemma current_run s c : tasks s !! cur s = Some c -> current_task s = (Ret c, s).
Proof. intros H. unfold current_task. rewrite bind_get. by apply get_task_run. Qed.

Lemma current_set s c : current_task (set_cur s c) = (Ret c, set_cur s c).
Proof. apply (current_run (set_cur s c) c). exact (lookup_set_cur s c). Qed.

Lemma upd_current_set f s c : upd_current f (set_cur s c) = (Ret tt, set_cur s (f c)).
Proof.
  unfold upd_current. rewrite bind_get. change (cur (set_cur s c)) with (cur s).
  unfold upd_task. rewrite (bind_Ret _ _ _ _ _ (get_task_run _ _ _ (lookup_set_cur s c))).
  unfold modify. f_equal. apply set_cur_again.
Qed.

Lemma suser_set s c : suser (set_cur s c) = (Ret (t_euid c =? 0), set_cur s c).
Proof. unfold suser. by rewrite (bind_Ret _ _ _ _ _ (current_set s c)). Qed.

(** The same at the head of a computation. *)
Lemma bind_current_set {B} (k : task_struct -> M kst B) s c :
  (current_task ≫= k) (set_cur s c) = k c (set_cur s c).
Proof. apply bind_Ret, current_set. Qed.

Lemma bind_upd_current_set {B} f (k : unit -> M kst B) s c :
  (upd_current f ≫= k) (set_cur s c) = k tt (set_cur s (f c)).
Proof. apply bind_Ret, upd_current_set. Qed.

Lemma bind_suser_set {B} (k : bool -> M kst B) s c :
  (suser ≫= k) (set_cur s c) = k (t_euid c =? 0) (set_cur s c).
Proof. apply bind_Ret, suser_set. Qed.

Lemma bind_when_true {B} (m : M kst unit) (k : unit -> M kst B) s :
  (when true m ≫= k) s = (m ≫= k) s.
Proof. reflexivity. Qed.

Lemma bind_when_false {B} (m : M kst unit) (k : unit -> M kst B) s :
  (when false m ≫= k) s = k tt s.
Proof. reflexivity. Qed.

Create Rewrite HintDb kstep.
#[export] Hint Rewrite @bind_current_set @bind_upd_current_set @bind_suser_set @bind_when_true
  @bind_when_false @bind_assoc @bind_ret @bind_get @bind_gets @bind_modify current_set
  upd_current_set suser_set : kstep.

(** Symbolic execution: rewrite with [kstep]. *)
Ltac krun := autorewrite with kstep.

(** A state whose current task exists is of the form that [krun] runs. *)
Ltac to_set_cur H :=
  lazymatch type of H with
  | _ !! cur ?s = Some ?c => pattern s at 1; refine (eq_ind_r _ _ (set_cur_id s c H)); cbv beta
  end.

(** Case analysis on the conditions of a program, running it between them. *)
Ltac kcases :=
  repeat (cbn [negb orb andb]; krun;
    match goal with
    | |- context [if ?b then _ else _] => destruct b eqn:?
    | |- context [when ?b _] => destruct b eqn:?
    end); cbn [negb orb andb]; krun.

(** The boolean facts of a branch as equations and inequalities. *)
Ltac bprop := rewrite ?negb_true_iff, ?negb_false_iff, ?andb_true_iff, ?andb_false_iff, ?orb_true_iff,
  ?orb_false_iff, ?Z.eqb_eq, ?Z.eqb_neq, ?Z.ltb_lt, ?Z.ltb_ge, ?Z.leb_le, ?Z.leb_gt in *.

(** ** verify_area changes only page tables *)

Lemma on_mm_frame {A} (m : M mm A) s r s' :
  on_mm m s = (r, s') -> s' = s <| kmm := kmm s' |>.
Proof. unfold on_mm. destruct (m (mm_view s)) as [r1 m1]. intros [= <- <-]. reflexivity. Qed.

Lemma verify_pages_frame n start s s' :
  verify_pages n start s = (Ret tt, s') -> s' = s <| kmm := kmm s' |>.
Proof.
  revert start s. induction n as [|n IH]; intros start s; cbn [verify_pages].
  - intros [= <-]. by destruct s.
  - intros ([] & s1 & H1 & H2)%bind_inv. apply on_mm_frame in H1. apply IH in H2.
    rewrite H2, H1. reflexivity.
Qed.

Lemma verify_area_frame addr size s s' :
  verify_area addr size s = (Ret tt, s') -> s' = s <| kmm := kmm s' |>.
Proof.
  unfold verify_area. intros (c & s1 & H1 & H2)%bind_inv. apply verify_pages_frame in H2.
  unfold current_task, get_task in H1. rewrite !bind_get in H1.
  destruct (tasks s !! cur s) as [t|]; [|discriminate]. injection H1 as <- <-. exact H2.
Qed.
