(* ===== verification/Exit.v ===== *)
(** Process termination, signals between processes and waiting
    ([linux-0.11/kernel/exit.c]).

    [do_exit] gives files and inodes back through [sys_close] ([fs/open.c]) and [iput]
    ([fs/inode.c]); they enter through the interface [FsOps].  As in [Sched.v], the
    parameter [others] is what the rest of the system does while a caller of [schedule]
    is not running. *)

From S2P Require Import Prelude Memory Task Sched Fork.

(** What process termination uses of the file system. *)
Class FsOps := {
  sys_close : Z -> M kst Z;
  iput : option Z -> M kst unit
}.

(** [task[i]], a null pointer when the slot is empty. *)
Definition task_ptr (s : kst) (i : Z) : option Z :=
  match tasks s !! i with Some _ => Some i | None => None end.

Section Exit.
Context (others : kst -> kst).

(** [release(p)]; a task that releases itself is never scheduled again. *)
Definition release (p : option Z) : M kst unit :=
  match p with
  | None => mret tt
  | Some p =>
      s ← get;
      match list_find (fun i => task_ptr s i = Some p) (seqZ 1 (NR_TASKS - 1)) with
      | Some (_, i) =>
          page ← of_option "task pointer" (task_page s !! i);
          modify (fun s => s <| tasks ::= delete i |> <| task_page ::= delete i |>);;
          on_mm (free_page page);;
          if p =? cur s then schedule;; exit_task 0 else schedule_and_wait others
      | None => panic "trying to release non-existent task"
      end
  end.

Definition send_sig (sig : Z) (p : option Z) (priv : Z) : M kst Z :=
  match p with
  | None => mret (- EINVAL)
  | Some p =>
      if (sig <? 1) || (32 <? sig) then mret (- EINVAL) else
      c ← current_task;
      t ← get_task p;
      super ← suser;
      if istrue priv || (t_euid c =? t_euid t) || super then
        upd_task p (fun t => t <| t_signal ::= fun x => Z.lor x (sig_bit sig) |>);;
        mret 0
      else mret (- EPERM)
  end.

Definition kill_session : M kst unit :=
  for_each slots_down (fun p =>
    s ← get;
    match tasks s !! p with
    | None => mret tt
    | Some t =>
        c ← current_task;
        when (t_session t =? t_session c)
          (upd_task p (fun t => t <| t_signal ::= fun x => Z.lor x (sig_bit SIGHUP) |>))
    end).

(** [while (--p > &FIRST_TASK) if ( *p && sel( *p)) if (err = send_sig(sig, *p, priv))
    retval = err;] over the slots that are left. *)
Fixpoint kill_loop (sig : Z) (sel : task_struct -> task_struct -> bool) (priv : Z)
    (l : list Z) (retval : Z) : M kst Z :=
  match l with
  | [] => mret retval
  | p :: l =>
      s ← get;
      match tasks s !! p with
      | None => kill_loop sig sel priv l retval
      | Some t =>
          c ← current_task;
          if sel c t then
            err ← send_sig sig (Some p) priv;
            kill_loop sig sel priv l (if istrue err then err else retval)
          else kill_loop sig sel priv l retval
      end
  end.

(** The branch [pid == -1].  The [else] that follows its loop belongs to the [if] inside
    the loop: the first signal that is sent continues with the process group loop. *)
Fixpoint kill_all (sig pid : Z) (l : list Z) (retval : Z) : M kst Z :=
  match l with
  | [] => mret retval
  | p :: l =>
      s ← get;
      err ← send_sig sig (task_ptr s p) 0;
      if istrue err then kill_all sig pid l err
      else kill_loop sig (fun _ t => t_pgrp t =? - pid) 0 l retval
  end.

Definition sys_kill (pid sig : Z) : M kst Z :=
  if pid =? 0 then kill_loop sig (fun c t => t_pgrp t =? t_pid c) 1 slots_down 0
  else if 0 <? pid then kill_loop sig (fun _ t => t_pid t =? pid) 0 slots_down 0
  else if pid =? -1 then kill_all sig pid slots_down 0
  else mret 0.

Definition tell_father (pid : Z) : M kst unit :=
  s ← get;
  let found := if istrue pid
               then list_find (fun i => t_pid <$> tasks s !! i = Some pid) (seqZ 0 NR_TASKS)
               else None in
  match found with
  | Some (_, i) => upd_task i (fun t => t <| t_signal ::= fun x => Z.lor x (sig_bit SIGCHLD) |>)
  | None =>
      on_mm (printk "BAD BAD - no father found" []);;
      release (Some (cur s))
  end.

Section DoExit.
Context `{FsOps}.

(** The children of a dying task become children of task 1. *)
Definition adopt (i : Z) : M kst unit :=
  s ← get;
  match tasks s !! i with
  | None => mret tt
  | Some t =>
      c ← current_task;
      when (t_father t =? t_pid c) (
        upd_task i (fun t => t <| t_father := 1 |>);;
        when (t_state t =? TASK_ZOMBIE) (
          send_sig SIGCHLD (task_ptr s 1) 1;; mret tt))
  end.

Definition close_files : M kst unit :=
  for_each (seqZ 0 NR_OPEN) (fun i =>
    c ← current_task;
    match t_filp c !! Z.to_nat i with
    | Some (Some _) => sys_close i;; mret tt
    | _ => mret tt
    end).

Definition put_inodes : M kst unit :=
  c ← current_task; iput (t_pwd c);;
  upd_current (fun t => t <| t_pwd := None |>);;
  c ← current_task; iput (t_root c);;
  upd_current (fun t => t <| t_root := None |>);;
  c ← current_task; iput (t_executable c);;
  upd_current (fun t => t <| t_executable := None |>).

Definition do_exit {A} (code : Z) : M kst A :=
  c ← current_task;
  on_mm (free_page_tables (d_base (ldt1 c)) (d_limit (ldt1 c)));;
  on_mm (free_page_tables (d_base (ldt2 c)) (d_limit (ldt2 c)));;
  for_each (seqZ 0 NR_TASKS) adopt;;
  close_files;;
  put_inodes;;
  c ← current_task;
  when (istrue (t_leader c) && (0 <=? t_tty c))
    (modify (fun s => s <| tty_pgrp ::= <[t_tty c := 0]> |>));;
  s ← get;
  when (bool_decide (last_task_used_math s = Some (cur s)))
    (modify (fun s => s <| last_task_used_math := None |>));;
  when (istrue (t_leader c)) kill_session;;
  upd_current (fun t => t <| t_state := TASK_ZOMBIE |>);;
  upd_current (fun t => t <| t_exit_code := code |>);;
  tell_father (t_father c);;
  schedule;;
  exit_task code.

Definition sys_exit {A} (error_code : Z) : M kst A :=
  do_exit (Z.shiftl (Z.land error_code 0xff) 8).
End DoExit.

(** ** waitpid *)

(** Does [pid] select the child [t] of [c]? *)
Definition wait_selects (pid : Z) (c t : task_struct) : bool :=
  if 0 <? pid then t_pid t =? pid
  else if pid =? 0 then t_pgrp t =? t_pgrp c
  else if negb (pid =? -1) then t_pgrp t =? - pid
  else true.

(** The [for] loop over the slots that are left: [inl] a value that [sys_waitpid]
    returns, or [inr] the flag at the end of the loop. *)
Fixpoint wait_scan (pid stat_addr options : Z) (l : list Z) (flag : Z) : M kst (Z + Z) :=
  match l with
  | [] => mret (inr flag)
  | p :: l =>
      s ← get;
      match tasks s !! p with
      | None => wait_scan pid stat_addr options l flag
      | Some t =>
          c ← current_task;
          if p =? cur s then wait_scan pid stat_addr options l flag else
          if negb (t_father t =? t_pid c) then wait_scan pid stat_addr options l flag else
          if negb (wait_selects pid c t) then wait_scan pid stat_addr options l flag else
          if t_state t =? TASK_STOPPED then
            if negb (istrue (Z.land options WUNTRACED)) then wait_scan pid stat_addr options l flag else
            put_fs_long 0x7f stat_addr;;
            mret (inl (t_pid t))
          else if t_state t =? TASK_ZOMBIE then
            upd_current (fun c => c <| t_cutime ::= fun x => s32 (x + t_utime t) |>);;
            upd_current (fun c => c <| t_cstime ::= fun x => s32 (x + t_stime t) |>);;
            release (Some p);;
            put_fs_long (t_exit_code t) stat_addr;;
            mret (inl (t_pid t))
          else wait_scan pid stat_addr options l 1
      end
  end.

(** From the label [repeat:], at most [fuel] rounds. *)
Fixpoint wait_loop (fuel : nat) (pid stat_addr options : Z) : M kst Z :=
  match fuel with
  | O => nofuel
  | S fuel =>
      r ← wait_scan pid stat_addr options slots_down 0;
      match r with
      | inl v => mret v
      | inr flag =>
          if istrue flag then
            if istrue (Z.land options WNOHANG) then mret 0 else
            upd_current (fun c => c <| t_state := TASK_INTERRUPTIBLE |>);;
            schedule_and_wait others;;
            upd_current (fun c => c <| t_signal ::= fun x => Z.land x (Z.lnot (sig_bit SIGCHLD)) |>);;
            c ← current_task;
            if negb (istrue (t_signal c)) then wait_loop fuel pid stat_addr options
            else mret (- EINTR)
          else mret (- ECHILD)
      end
  end.

Definition sys_waitpid (fuel : nat) (pid stat_addr options : Z) : M kst Z :=
  verify_area stat_addr 4;;
  wait_loop fuel pid stat_addr options.

End Exit.
