(* ===== verification/Signal.v ===== *)
(** Signal actions and signal delivery ([linux-0.11/kernel/signal.c]). *)

From S2P Require Import Prelude Memory Task Sched Fork Exit.

Definition sys_sgetmask : M kst Z := c ← current_task; mret (t_blocked c).

Definition sys_ssetmask (newmask : Z) : M kst Z :=
  c ← current_task;
  upd_current (fun t => t <| t_blocked := Z.land newmask (Z.lnot (sig_bit SIGKILL)) |>);;
  mret (t_blocked c).

(** ** Copying a [struct sigaction] byte by byte *)

Definition long_bytes (v : Z) : list Z :=
  [u8 v; u8 (Z.shiftr v 8); u8 (Z.shiftr v 16); u8 (Z.shiftr v 24)].

Definition sigaction_bytes (sa : sigaction) : list Z :=
  long_bytes (sa_handler sa) ++ long_bytes (sa_mask sa) ++
  long_bytes (sa_flags sa) ++ long_bytes (sa_restorer sa).

(** The long at byte offset [i] of a buffer. *)
Definition long_at (b : list Z) (i : nat) : Z :=
  nth i b 0 + 256 * nth (i + 1) b 0 + 65536 * nth (i + 2) b 0 + 16777216 * nth (i + 3) b 0.

Definition sigaction_of_bytes (b : list Z) : sigaction :=
  mk_sigaction (long_at b 0) (long_at b 4) (s32 (long_at b 8)) (long_at b 12).

Definition SIZEOF_SIGACTION : Z := 16.

Fixpoint put_bytes (from : list Z) (to : Z) : M kst unit :=
  match from with
  | [] => mret tt
  | b :: from => put_fs_byte b to;; put_bytes from (to + 1)
  end.

Fixpoint get_bytes (n : nat) (from : Z) : M kst (list Z) :=
  match n with
  | O => mret []
  | S n => b ← get_fs_byte from; l ← get_bytes n (from + 1); mret (b :: l)
  end.

Definition save_old (from : sigaction) (to : Z) : M kst unit :=
  verify_area to SIZEOF_SIGACTION;;
  put_bytes (sigaction_bytes from) to.

Definition get_new (from : Z) : M kst sigaction :=
  b ← get_bytes (Z.to_nat SIZEOF_SIGACTION) from; mret (sigaction_of_bytes b).

(** ** System calls *)

(** [current->sigaction[signum-1]] *)
Definition get_action (signum : Z) : M kst sigaction :=
  c ← current_task;
  of_option "sigaction" (t_sigaction c !! Z.to_nat (signum - 1)).

Definition set_action (signum : Z) (sa : sigaction) : M kst unit :=
  upd_current (fun t => t <| t_sigaction ::= <[Z.to_nat (signum - 1) := sa]> |>).

Definition sys_signal (signum handler restorer : Z) : M kst Z :=
  if (signum <? 1) || (32 <? signum) || (signum =? SIGKILL) then mret (-1) else
  let tmp := mk_sigaction handler 0 (s32 (Z.lor SA_ONESHOT SA_NOMASK)) restorer in
  old ← get_action signum;
  set_action signum tmp;;
  mret (sa_handler old).

Definition sys_sigaction (signum action oldaction : Z) : M kst Z :=
  if (signum <? 1) || (32 <? signum) || (signum =? SIGKILL) then mret (-1) else
  tmp ← get_action signum;
  new ← get_new action;
  set_action signum new;;
  when (istrue oldaction) (save_old tmp oldaction);;
  sa ← get_action signum;
  (if istrue (Z.land (sa_flags sa) SA_NOMASK) then
     set_action signum (sa <| sa_mask := 0 |>)
   else
     set_action signum (sa <| sa_mask ::= fun m => Z.lor m (u32 (sig_bit signum)) |>));;
  mret 0.

(** ** Delivery *)

Fixpoint put_longs (l : list Z) (to : Z) : M kst unit :=
  match l with
  | [] => mret tt
  | v :: l => put_fs_long v to;; put_longs l (to + 4)
  end.

Section Delivery.
Context `{FsOps} (others : kst -> kst).

(** [do_signal]; the result is what it leaves in the frame of the interrupted task,
    [eip] and [esp].  The arguments that it does not use are left out. *)
Definition do_signal (signr eax ecx edx eip eflags esp : Z) : M kst (Z * Z) :=
  let old_eip := eip in
  sa ← get_action signr;
  let h := sa_handler sa in
  if h =? 1 then mret (eip, esp) else
  if h =? 0 then
    if signr =? SIGCHLD then mret (eip, esp) else do_exit others (sig_bit signr)
  else
  when (istrue (Z.land (sa_flags sa) SA_ONESHOT)) (set_action signr (sa <| sa_handler := 0 |>));;
  let nomask := istrue (Z.land (sa_flags sa) SA_NOMASK) in
  let longs := if nomask then 7 else 8 in
  let esp := u32 (esp - 4 * longs) in
  verify_area esp (longs * 4);;
  c ← current_task;
  put_longs ([sa_restorer sa; signr] ++ (if nomask then [] else [t_blocked c]) ++
             [eax; ecx; edx; eflags; old_eip]) esp;;
  upd_current (fun t => t <| t_blocked ::= fun b => Z.lor b (s32 (sa_mask sa)) |>);;
  mret (h, esp).
End Delivery.
