(* ===== verification/SignalSpec.v ===== *)
(** Properties of [kernel/signal.c]: the actions that [sigaction] stores and gives back,
    the protection of SIGKILL, and the stack frame of a signal handler. *)

From S2P Require Import Prelude Memory Task Sched SchedSpec Fork TaskLemmas Exit Signal.

(** ** Bytes in user memory *)

Fixpoint st_bytes (l : list Z) (a : Z) (m : gmap Z Z) : gmap Z Z :=
  match l with [] => m | b :: l => st_bytes l (a + 1) (<[a := u8 b]> m) end.

Fixpoint ld_bytes (m : gmap Z Z) (n : nat) (a : Z) : list Z :=
  match n with O => [] | S n => ld_byte m a :: ld_bytes m n (a + 1) end.

Lemma put_bytes_run l a s : put_bytes l a s = (Ret tt, s <| umem ::= st_bytes l a |>).
Proof.
  revert a s. induction l as [|b l IH]; intros a s; cbn [put_bytes st_bytes]; [by destruct s|].
  unfold put_fs_byte. rewrite bind_modify, IH. reflexivity.
Qed.

Lemma get_bytes_run n a s : get_bytes n a s = (Ret (ld_bytes (umem s) n a), s).
Proof.
  revert a. induction n as [|n IH]; intros a; cbn [get_bytes ld_bytes]; [done|].
  unfold get_fs_byte. rewrite bind_gets. by rewrite (bind_Ret _ _ _ _ _ (IH (a + 1))).
Qed.

Lemma ld_byte_st_bytes_low l a b m : b < a -> ld_byte (st_bytes l a m) b = ld_byte m b.
Proof.
  revert a m. induction l as [|x l IH]; intros a m H; cbn [st_bytes]; [done|].
  rewrite IH, ld_byte_insert by lia. by rewrite decide_False by lia.
Qed.

Lemma ld_st_bytes l a m : ld_bytes (st_bytes l a m) (length l) a = u8 <$> l.
Proof.
  revert a m. induction l as [|x l IH]; intros a m; cbn [st_bytes ld_bytes length fmap list_fmap]; [done|].
  f_equal; [|apply IH]. rewrite ld_byte_st_bytes_low, ld_byte_insert by lia. by rewrite decide_True by done.
Qed.

(** ** Actions in user memory *)

Definition action_at (m : gmap Z Z) (a : Z) : sigaction := sigaction_of_bytes (ld_bytes m 16 a).

Definition action_range (sa : sigaction) : Prop :=
  0 <= sa_handler sa < 4294967296 /\ 0 <= sa_mask sa < 4294967296 /\
  -2147483648 <= sa_flags sa < 2147483648 /\ 0 <= sa_restorer sa < 4294967296.

Lemma u8_u8 x : u8 (u8 x) = u8 x.
Proof. apply u8_small, u8_range. Qed.

(** The bytes of a long depend only on its residue. *)
Lemma long_bytes_u32 v :
  u8 v + 256 * u8 (Z.shiftr v 8) + 65536 * u8 (Z.shiftr v 16) + 16777216 * u8 (Z.shiftr v 24) = u32 v.
Proof.
  rewrite <- (bytes_of_long (u32 v) (u32_range v)).
  assert (forall k, 0 <= k <= 24 -> u8 (Z.shiftr v k) = u8 (Z.shiftr (u32 v) k)) as Hk.
  { intros k Hk. unfold u8, u32. apply Z.bits_inj'. intros n Hn.
    change 256 with (2 ^ 8). change 4294967296 with (2 ^ 32).
    destruct (decide (n < 8)).
    - rewrite !Z.mod_pow2_bits_low, !Z.shiftr_spec, Z.mod_pow2_bits_low by lia. done.
    - rewrite !Z.mod_pow2_bits_high by lia. done. }
  rewrite <- (Z.shiftr_0_r v) at 1. rewrite <- (Z.shiftr_0_r (u32 v)) at 1.
  rewrite !Hk by lia. done.
Qed.

Lemma s32_u32 v : -2147483648 <= v < 2147483648 -> s32 (u32 v) = v.
Proof.
  intros Hv. rewrite <- (s32_small v Hv) at 2. unfold s32, u32. by rewrite Zmod_mod.
Qed.

Lemma action_bytes_roundtrip sa :
  action_range sa -> sigaction_of_bytes (u8 <$> sigaction_bytes sa) = sa.
Proof.
  destruct sa as [h m f r]. intros (Hh & Hm & Hf & Hr). cbn in Hh, Hm, Hf, Hr.
  unfold sigaction_of_bytes, sigaction_bytes, long_bytes, long_at. cbn [sa_handler sa_mask sa_flags sa_restorer].
  cbn [app fmap list_fmap nth Nat.add]. rewrite !u8_u8, !long_bytes_u32, s32_u32 by done.
  by rewrite !u32_small.
Qed.

Lemma action_at_saved sa a m : action_range sa -> action_at (st_bytes (sigaction_bytes sa) a m) a = sa.
Proof.
  intros H. unfold action_at. change 16%nat with (length (sigaction_bytes sa)).
  rewrite ld_st_bytes. by apply action_bytes_roundtrip.
Qed.

(** ** Running [sigaction] *)

Definition with_action (n : Z) (sa : sigaction) (c : task_struct) : task_struct :=
  c <| t_sigaction ::= <[Z.to_nat (n - 1) := sa]> |>.

Definition fix_mask (n : Z) (sa : sigaction) : sigaction :=
  if istrue (Z.land (sa_flags sa) SA_NOMASK) then sa <| sa_mask := 0 |>
  else sa <| sa_mask ::= fun m => Z.lor m (u32 (sig_bit n)) |>.

Lemma bind_get_action {B} (k : sigaction -> M kst B) n s c sa :
  t_sigaction c !! Z.to_nat (n - 1) = Some sa ->
  (get_action n ≫= k) (set_cur s c) = k sa (set_cur s c).
Proof. intros H. unfold get_action. krun. by rewrite H. Qed.

Lemma bind_set_action {B} (k : unit -> M kst B) n sa s c :
  (set_action n sa ≫= k) (set_cur s c) = k tt (set_cur s (with_action n sa c)).
Proof. apply bind_upd_current_set. Qed.

Lemma bind_get_new {B} (k : sigaction -> M kst B) a s c :
  (get_new a ≫= k) (set_cur s c) = k (action_at (umem s) a) (set_cur s c).
Proof. unfold get_new. rewrite bind_assoc. by rewrite (bind_Ret _ _ _ _ _ (get_bytes_run _ _ _)). Qed.

Lemma with_action_lookup n sa old c :
  t_sigaction c !! Z.to_nat (n - 1) = Some old ->
  t_sigaction (with_action n sa c) !! Z.to_nat (n - 1) = Some sa.
Proof. intros H. apply list_lookup_insert_eq. by eapply lookup_lt_Some. Qed.

Lemma with_action_again n sa sb c : with_action n sb (with_action n sa c) = with_action n sb c.
Proof.
  unfold with_action. set (k := Z.to_nat (n - 1)).
  transitivity (c <| t_sigaction := <[k := sb]> (<[k := sa]> (t_sigaction c)) |>); [reflexivity|].
  rewrite list_insert_insert_eq. reflexivity.
Qed.

Lemma save_old_run sa o s c s1 :
  save_old sa o (set_cur s c) = (Ret tt, s1) ->
  exists m, s1 = set_cur (s <| kmm := m |> <| umem ::= st_bytes (sigaction_bytes sa) o |>) c.
Proof.
  unfold save_old. intros ([] & s2 & H1 & H2)%bind_inv. apply verify_area_frame in H1.
  rewrite put_bytes_run in H2. injection H2 as <-. rewrite H1. eexists. reflexivity.
Qed.

(** A valid signal number for the two calls. *)
Definition settable (n : Z) : Prop := 1 <= n <= 32 /\ n <> SIGKILL.

Lemma settable_guard n :
  settable n -> (n <? 1) || (32 <? n) || (n =? SIGKILL) = false.
Proof. intros [H1 H2]. bprop. unfold SIGKILL in *. lia. Qed.

Lemma guard_settable n : (n <? 1) || (32 <? n) || (n =? SIGKILL) = false -> settable n.
Proof. intros H. bprop. unfold settable, SIGKILL in *. lia. Qed.

(** The effect of a [sigaction] that returns 0. *)
Lemma sigaction_run n a o s c old r s1 :
  settable n -> t_sigaction c !! Z.to_nat (n - 1) = Some old ->
  sys_sigaction n a o (set_cur s c) = (Ret r, s1) ->
  r = 0 /\ exists m u,
    s1 = set_cur (s <| kmm := m |> <| umem := u |>)
           (with_action n (fix_mask n (action_at (umem s) a)) c) /\
    u = if istrue o then st_bytes (sigaction_bytes old) o (umem s) else umem s.
Proof.
  intros Hn Hold. unfold sys_sigaction. rewrite settable_guard by done.
  rewrite (bind_get_action _ _ _ _ old) by done. rewrite bind_get_new, bind_set_action.
  set (new := action_at (umem s) a). set (c1 := with_action n new c).
  assert (t_sigaction c1 !! Z.to_nat (n - 1) = Some new) as Hnew by (by eapply with_action_lookup).
  intros ([] & s2 & H1 & H2)%bind_inv.
  assert (exists m u, s2 = set_cur (s <| kmm := m |> <| umem := u |>) c1 /\
    u = if istrue o then st_bytes (sigaction_bytes old) o (umem s) else umem s) as (m & u & -> & Hu).
  { destruct (istrue o); cbn [when] in H1.
    - apply save_old_run in H1 as (m & ->). by eexists _, _.
    - injection H1 as <-. exists (kmm s), (umem s). split; [by destruct s|done]. }
  rewrite (bind_get_action _ _ _ _ new) in H2 by done.
  assert (r = 0 /\ s1 = set_cur (s <| kmm := m |> <| umem := u |>) (with_action n (fix_mask n new) c)) as [-> ->].
  { unfold fix_mask. destruct (istrue _); rewrite bind_set_action in H2;
      injection H2 as <- <-; unfold c1; by rewrite with_action_again. }
  split; [done|]. by exists m, u.
Qed.

(** An action as the kernel keeps it: its mask as [sigaction] leaves it. *)
Definition kept (n : Z) (sa : sigaction) : Prop := action_range sa /\ fix_mask n sa = sa.

(** Saving the old action and installing it again restores it: after a [sigaction]
    that stored the old action at [o], a [sigaction] that reads its new action from [o]
    puts the old one back, every field of it. *)
Lemma sigaction_restores n a o s c old s1 :
  tasks s !! cur s = Some c -> settable n -> t_sigaction c !! Z.to_nat (n - 1) = Some old ->
  kept n old -> o <> 0 -> sys_sigaction n a o s = (Ret 0, s1) ->
  exists s2 c2, sys_sigaction n o 0 s1 = (Ret 0, s2) /\ tasks s2 !! cur s2 = Some c2 /\
    t_sigaction c2 = t_sigaction c.
Proof.
  intros Hc Hn Hold [Hr Hk] Ho. rewrite (set_cur_id s c Hc) at 1. intros Hrun.
  apply (sigaction_run _ _ _ _ _ old) in Hrun as (_ & m & u & -> & Hu); [|done..].
  unfold istrue in Hu. rewrite (proj2 (Z.eqb_neq o 0) Ho) in Hu. cbn [negb] in Hu.
  set (new := fix_mask n _). pose proof (with_action_lookup n new _ _ Hold) as Hc1.
  set (c1 := with_action n new c) in *. set (s1 := s <| kmm := m |> <| umem := u |>).
  assert (exists r s2, sys_sigaction n o 0 (set_cur s1 c1) = (Ret r, s2)) as (r & s2 & Hrun).
  { unfold sys_sigaction. rewrite settable_guard by done.
    rewrite (bind_get_action _ _ _ _ _ Hc1), bind_get_new, bind_set_action.
    change (istrue 0) with false. krun.
    rewrite (bind_get_action _ _ _ _ _ (with_action_lookup _ _ _ _ Hc1)).
    destruct (istrue _); rewrite bind_set_action; eexists _, _; reflexivity. }
  pose proof Hrun as Hrun'. apply (sigaction_run _ _ _ _ _ _ _ _ Hn Hc1)
    in Hrun' as (-> & m' & u' & -> & _).
  eexists _, _. split; [exact Hrun|]. split; [apply current_of_set|].
  change (umem s1) with u. rewrite Hu, action_at_saved, Hk by done. unfold c1.
  rewrite with_action_again. by apply list_insert_id.
Qed.

(** ** SIGKILL *)

(** The default action of SIGKILL and its place in the mask of blocked signals. *)
Definition killable (c : task_struct) : Prop :=
  t_sigaction c !! Z.to_nat (SIGKILL - 1) = Some (mk_sigaction 0 0 0 0) /\
  Z.testbit (t_blocked c) (SIGKILL - 1) = false.

Lemma with_action_killable n sa c : settable n -> killable c -> killable (with_action n sa c).
Proof.
  intros [H1 H2] [Ha Hb]. split; [|done]. cbn. rewrite list_lookup_insert_ne; [done|].
  unfold SIGKILL in *. lia.
Qed.

(** No argument to [signal], [sigaction] or [ssetmask] catches, ignores or blocks
    SIGKILL: when the call returns the current task is as killable as it was. *)
Lemma sigkill_kept s c n h restorer a o mask :
  tasks s !! cur s = Some c -> killable c ->
  (forall r s', sys_signal n h restorer s = (Ret r, s') -> exists c', tasks s' !! cur s' = Some c' /\ killable c') /\
  (forall r s', sys_sigaction n a o s = (Ret r, s') -> exists c', tasks s' !! cur s' = Some c' /\ killable c') /\
  (exists c', sys_ssetmask mask s = (Ret (t_blocked c), set_cur s c') /\ killable c').
Proof.
  intros Hc Hk. split; [|split].
  - intros r s' Hrun. rewrite (set_cur_id s c Hc) in Hrun. revert Hrun.
    unfold sys_signal. destruct (_ || _) eqn:Hg.
    { intros [= <- <-]. exists c. split; [apply current_of_set|done]. }
    apply guard_settable in Hg. unfold get_action. krun.
    destruct (t_sigaction c !! _); [|discriminate]. cbn [of_option]. krun.
    rewrite bind_set_action. intros [= <- <-]. eexists. split; [apply current_of_set|].
    by apply with_action_killable.
  - intros r s' Hrun. rewrite (set_cur_id s c Hc) in Hrun. revert Hrun.
    destruct ((n <? 1) || (32 <? n) || (n =? SIGKILL)) eqn:Hg.
    { unfold sys_sigaction. rewrite Hg. intros [= <- <-]. exists c. split; [apply current_of_set|done]. }
    apply guard_settable in Hg. destruct (t_sigaction c !! Z.to_nat (n - 1)) as [old|] eqn:Hold.
    + intros Hrun. apply (sigaction_run _ _ _ _ _ old) in Hrun as (_ & m & u & -> & _); [|done..].
      eexists. split; [apply current_of_set|]. by apply with_action_killable.
    + unfold sys_sigaction. rewrite settable_guard by done. unfold get_action. krun.
      rewrite Hold. discriminate.
  - to_set_cur Hc. unfold sys_ssetmask. krun. eexists. split; [reflexivity|].
    destruct Hk as [Ha Hb]. split; [exact Ha|].
    change (t_blocked (c <| t_blocked := ?x |>)) with x. change (SIGKILL - 1) with 8.
    rewrite Z.land_spec, Z.lnot_spec by lia. apply andb_false_r.
Qed.

(** ** Delivery *)

(** The words that the handler finds on its stack. *)
Definition frame_words (sa : sigaction) (signr blocked eax ecx edx eflags eip : Z) : list Z :=
  [sa_restorer sa; signr] ++
  (if istrue (Z.land (sa_flags sa) SA_NOMASK) then [] else [blocked]) ++
  [eax; ecx; edx; eflags; eip].

Fixpoint st_longs (l : list Z) (a : Z) (m : gmap Z Z) : gmap Z Z :=
  match l with [] => m | v :: l => st_longs l (a + 4) (st_long v a m) end.

Lemma put_longs_run l a s : put_longs l a s = (Ret tt, s <| umem ::= st_longs l a |>).
Proof.
  revert a s. induction l as [|v l IH]; intros a s; cbn [put_longs st_longs]; [by destruct s|].
  unfold put_fs_long. rewrite bind_modify, IH. reflexivity.
Qed.

Lemma ld_st_longs_low l a b m : b + 4 <= a -> ld_long (st_longs l a m) b = ld_long m b.
Proof.
  revert a m. induction l as [|v l IH]; intros a m H; cbn [st_longs]; [done|].
  rewrite IH by lia. apply ld_st_long_ne. lia.
Qed.

Lemma st_long_u32 v a m : st_long v a m = st_long (u32 v) a m.
Proof.
  unfold st_long, u8, u32.
  assert (forall k, 0 <= k <= 24 -> Z.shiftr v k mod 256 = Z.shiftr (v mod 4294967296) k mod 256) as Hk.
  { intros k Hk. apply Z.bits_inj'. intros n Hn.
    change 256 with (2 ^ 8). change 4294967296 with (2 ^ 32).
    destruct (decide (n < 8)).
    - rewrite !Z.mod_pow2_bits_low, !Z.shiftr_spec, Z.mod_pow2_bits_low by lia. done.
    - rewrite !Z.mod_pow2_bits_high by lia. done. }
  rewrite !Hk by lia. specialize (Hk 0 ltac:(lia)). rewrite !Z.shiftr_0_r in Hk. by rewrite Hk.
Qed.

Lemma ld_st_longs l a m i v :
  l !! i = Some v -> ld_long (st_longs l a m) (a + 4 * Z.of_nat i) = u32 v.
Proof.
  revert a m i. induction l as [|w l IH]; intros a m i Hi; [done|]. cbn [st_longs].
  destruct i as [|i]; cbn in Hi.
  - injection Hi as ->. rewrite ld_st_longs_low by lia.
    replace (a + 4 * Z.of_nat 0) with a by lia. rewrite st_long_u32. apply ld_st_long, u32_range.
  - replace (a + 4 * Z.of_nat (S i)) with (a + 4 + 4 * Z.of_nat i) by lia. by apply IH.
Qed.

(** C33: Delivering a caught signal makes the task continue at its handler with a stack
    whose words are, from the top, the restorer, the signal number, the blocked mask
    (unless the action says not to mask), and the registers to come back to; the
    action is reset exactly when it is one-shot, and its mask is added to the
    blocked signals. *)
Theorem do_signal_frame `{FsOps} others signr eax ecx edx eip eflags esp s c sa
    (longs := if istrue (Z.land (sa_flags sa) SA_NOMASK) then 7 else 8)
    (esp' := u32 (esp - 4 * longs))
    (c1 := if istrue (Z.land (sa_flags sa) SA_ONESHOT)
           then with_action signr (sa <| sa_handler := 0 |>) c else c) m1 :
  tasks s !! cur s = Some c -> t_sigaction c !! Z.to_nat (signr - 1) = Some sa ->
  sa_handler sa <> 0 -> sa_handler sa <> 1 ->
  verify_area esp' (longs * 4) (set_cur s c1) = (Ret tt, (set_cur s c1) <| kmm := m1 |>) ->
  exists s', do_signal others signr eax ecx edx eip eflags esp s = (Ret (sa_handler sa, esp'), s') /\
    tasks s' !! cur s' = Some (c1 <| t_blocked ::= fun b => Z.lor b (s32 (sa_mask sa)) |>) /\
    forall i v, frame_words sa signr (t_blocked c) eax ecx edx eflags eip !! i = Some v ->
      ld_long (umem s') (esp' + 4 * Z.of_nat i) = u32 v.
Proof.
  intros Hc Hsa H0 H1 Hv. to_set_cur Hc. unfold do_signal.
  rewrite (bind_get_action _ _ _ _ sa Hsa).
  rewrite (proj2 (Z.eqb_neq _ _) H0), (proj2 (Z.eqb_neq _ _) H1).
  assert (forall k : unit -> M kst (Z * Z),
    (when (istrue (Z.land (sa_flags sa) SA_ONESHOT)) (set_action signr (sa <| sa_handler := 0 |>)) ≫= k)
      (set_cur s c) = k tt (set_cur s c1)) as Hw.
  { intros k. unfold c1. destruct (istrue (Z.land (sa_flags sa) SA_ONESHOT)); krun;
      [apply bind_set_action|reflexivity]. }
  rewrite Hw. fold longs. fold esp'. mrun Hv.
  change ((set_cur s c1) <| kmm := m1 |>) with (set_cur (s <| kmm := m1 |>) c1). krun.
  assert (t_blocked c1 = t_blocked c) as -> by (unfold c1; by destruct (istrue (Z.land (sa_flags sa) SA_ONESHOT))).
  fold (frame_words sa signr (t_blocked c) eax ecx edx eflags eip).
  rewrite (bind_Ret _ _ _ _ _ (put_longs_run _ _ _)).
  match goal with |- context [set_cur ?x c1] =>
    change ((set_cur x c1) <| umem ::= ?f |>) with (set_cur (x <| umem ::= f |>) c1) end.
  krun. eexists. split; [reflexivity|]. split; [apply current_of_set|].
  intros i v Hi. by apply ld_st_longs.
Qed.

(** ** Examples *)

(** A file system for the examples: a task without files or directories. *)
Definition no_fs : FsOps := {| sys_close := fun _ => mret 0; iput := fun _ => mret tt |}.

(** An action that blocks every signal while its handler runs, at user address 8192. *)
Definition greedy : sigaction := mk_sigaction 4096 0xffffffff 0 0.
Definition sig_state : kst := demo <| umem := st_bytes (sigaction_bytes greedy) 8192 ∅ |>.

(** SIGKILL can be blocked all the same: [sigaction] does not take it out of the mask of
    an action, and delivering that signal adds the mask to the blocked signals, so a task
    that was killable is not while its handler runs. *)
Lemma sigkill_blockable (fs : FsOps) others :
  exists c s1 s2 c2,
    tasks sig_state !! cur sig_state = Some c /\ killable c /\
    sys_sigaction 10 8192 0 sig_state = (Ret 0, s1) /\
    do_signal others 10 0 0 0 0 0 0x100000 s1 = (Ret (4096, 0x100000 - 32), s2) /\
    tasks s2 !! cur s2 = Some c2 /\ ~ killable c2.
Proof.
  do 4 eexists. split; [vm_compute; reflexivity|]. split; [split; vm_compute; reflexivity|].
  split; [vm_compute; reflexivity|]. split; [vm_compute; reflexivity|].
  split; [vm_compute; reflexivity|]. intros [_ H]. vm_compute in H. discriminate.
Qed.

Definition acting : task_struct :=
  (demo_task 1 0 3) <| t_sigaction := replicate 32 (mk_sigaction 0 512 0 0) |>.
Definition acting_state : kst := set_cur sig_state acting.

Lemma sigaction_restores_witness :
  exists s2 c2, sys_sigaction 10 4 0 (snd (sys_sigaction 10 8192 4 acting_state)) = (Ret 0, s2) /\
    tasks s2 !! cur s2 = Some c2 /\ t_sigaction c2 = t_sigaction acting.
Proof.
  destruct (sigaction_restores 10 8192 4 acting_state acting (mk_sigaction 0 512 0 0)
    (snd (sys_sigaction 10 8192 4 acting_state))) as (s2 & c2 & Hr & Hc & Ha).
  1-6: vm_compute; intuition congruence.
  exists s2, c2. split; [exact Hr|]. split; [exact Hc|exact Ha].
Defined.

Lemma sigkill_kept_witness :
  exists c', sys_ssetmask (-1) demo = (Ret 0, set_cur demo c') /\ killable c'.
Proof.
  destruct (sigkill_kept demo (demo_task 1 0 3) 10 0 0 0 0 (-1) eq_refl) as (_ & _ & c' & Hr & Hk).
  { split; vm_compute; reflexivity. }
  exists c'. split; [exact Hr|exact Hk].
Defined.

(** A task that catches signal 10 at address 4096. *)
Definition catcher : task_struct :=
  (demo_task 1 0 3) <| t_sigaction := <[9%nat := greedy]> (replicate 32 (mk_sigaction 0 0 0 0)) |>.

Lemma do_signal_frame_witness :
  exists s', do_signal (H := no_fs) (fun s => s) 10 1 2 3 77 5 0x100000 (set_cur demo catcher)
    = (Ret (4096, 0x100000 - 32), s') /\ ld_long (umem s') (0x100000 - 4) = 77.
Proof.
  destruct (do_signal_frame (H := no_fs) (fun s => s) 10 1 2 3 77 5 0x100000 (set_cur demo catcher) catcher
    greedy (kmm (snd (verify_area (0x100000 - 32) 32 (set_cur demo catcher)))))
    as (s' & Hr & _ & Hw).
  1-4: vm_compute; congruence.
  { vm_compute. reflexivity. }
  exists s'. split; [exact Hr|]. exact (Hw 7%nat 77 eq_refl).
Defined.
