(* ===== verification/ExitSpec.v ===== *)
(** Properties of [kernel/exit.c]: which tasks a [kill] reaches, what [waitpid] collects,
    and the end of a task. *)

From S2P Require Import Prelude Memory MemoryInv MemoryOps MemoryFault MemoryInit MemoryFork.
From S2P Require Import Task Sched SchedSpec Fork ForkSpec TaskLemmas Exit Signal SignalSpec.

(** ** Sending signals *)

Definition signalled (sig : Z) (t : task_struct) : task_struct :=
  t <| t_signal ::= fun x => Z.lor x (sig_bit sig) |>.

(** May [c] signal [t]? *)
Definition permitted (priv : Z) (c t : task_struct) : bool :=
  istrue priv || (t_euid c =? t_euid t) || (t_euid c =? 0).

Lemma send_sig_run sig p priv s c t :
  1 <= sig <= 32 -> tasks s !! cur s = Some c -> tasks s !! p = Some t ->
  send_sig sig (Some p) priv s =
    if permitted priv c t then (Ret 0, s <| tasks ::= <[p := signalled sig t]> |>)
    else (Ret (- EPERM), s).
Proof.
  intros Hs Hc Ht. unfold send_sig.
  assert ((sig <? 1) || (32 <? sig) = false) as -> by (bprop; lia).
  mrun (current_run s c Hc). mrun (get_task_run p s t Ht).
  unfold suser. rewrite bind_assoc. mrun (current_run s c Hc). rewrite bind_ret.
  fold (permitted priv c t). destruct (permitted priv c t); [|reflexivity].
  mrun (upd_task_run p (signalled sig) s t Ht). reflexivity.
Qed.

(** The tasks that a loop over the slots [l] selects but may not signal. *)
Definition denied (sel : task_struct -> task_struct -> bool) (priv : Z) (ts : gmap Z task_struct)
    (c : task_struct) (l : list Z) : Prop :=
  exists i t, i ∈ l /\ ts !! i = Some t /\ sel c t = true /\ permitted priv c t = false.

Definition kill_task (sig : Z) (sel : task_struct -> task_struct -> bool) (priv : Z)
    (c t : task_struct) : task_struct :=
  if sel c t && permitted priv c t then signalled sig t else t.

(** A selection that does not look at pending signals. *)
Definition blind (sel : task_struct -> task_struct -> bool) : Prop :=
  forall sig c t, sel (signalled sig c) t = sel c t.

Lemma permitted_signalled priv sig c t : permitted priv (signalled sig c) t = permitted priv c t.
Proof. reflexivity. Qed.

(** The current task before and after it may have been signalled itself. *)
Definition same_sender (sig : Z) (c c1 : task_struct) : Prop := c1 = c \/ c1 = signalled sig c.

Section KillLoop.
Context (sig priv : Z) (sel : task_struct -> task_struct -> bool) (Hblind : blind sel).

Definition after_kill (l : list Z) (c : task_struct) (ts ts' : gmap Z task_struct) : Prop :=
  forall i, ts' !! i = if decide (i ∈ l) then kill_task sig sel priv c <$> ts !! i else ts !! i.

Lemma kill_task_sender c c1 t : same_sender sig c c1 -> kill_task sig sel priv c1 t = kill_task sig sel priv c t.
Proof. intros [-> | ->]; [done|]. unfold kill_task. by rewrite Hblind. Qed.

Lemma after_kill_cons p l ts ts1 ts' c c1 :
  p ∉ l -> same_sender sig c c1 -> ts1 !! p = kill_task sig sel priv c <$> ts !! p ->
  (forall i, i <> p -> ts1 !! i = ts !! i) -> after_kill l c1 ts1 ts' -> after_kill (p :: l) c ts ts'.
Proof.
  intros Hp Hs H1 H2 H3 i. rewrite H3. destruct (decide (i = p)) as [->|Hi].
  - rewrite decide_False by done. by rewrite decide_True by (by left).
  - rewrite H2 by done. destruct (decide (i ∈ l)) as [Hl|Hl].
    + rewrite decide_True by (by right). destruct (ts !! i); [|done]. cbn. by rewrite (kill_task_sender c c1).
    + rewrite decide_False; [done|]. by intros [?|?]%elem_of_cons.
Qed.

Lemma denied_cons p l ts c :
  denied sel priv ts c (p :: l) <->
  (exists t, ts !! p = Some t /\ sel c t = true /\ permitted priv c t = false) \/ denied sel priv ts c l.
Proof.
  split.
  - intros (i & t & [->|Hi]%elem_of_cons & H); [left|right; exists i, t]; eauto.
  - intros [(t & H)|(i & t & Hi & H)]; [exists p, t|exists i, t]; (split; [by (left || right)|done]).
Qed.

Lemma denied_later p l ts ts1 c c1 :
  p ∉ l -> same_sender sig c c1 -> (forall i, i <> p -> ts1 !! i = ts !! i) ->
  denied sel priv ts1 c1 l <-> denied sel priv ts c l.
Proof.
  intros Hp Hs H. unfold denied.
  assert (forall t, sel c1 t = sel c t /\ permitted priv c1 t = permitted priv c t) as He.
  { intros t. destruct Hs as [-> | ->]; [done|]. by rewrite Hblind. }
  split; intros (i & t & Hi & Ht & H1 & H2); exists i, t; destruct (He t) as [E1 E2];
    (rewrite H in * by congruence || rewrite <- H by congruence); rewrite E1, E2 in * || rewrite <- E1, <- E2 in *; eauto.
Qed.

Lemma kill_loop_ok l s c r0 :
  1 <= sig <= 32 -> NoDup l -> tasks s !! cur s = Some c ->
  exists r ts', kill_loop sig sel priv l r0 s = (Ret r, s <| tasks := ts' |>) /\
    after_kill l c (tasks s) ts' /\
    ((r = r0 /\ ~ denied sel priv (tasks s) c l) \/ (r = - EPERM /\ denied sel priv (tasks s) c l)).
Proof.
  intros Hsig. revert s c r0. induction l as [|p l IH]; intros s c r0 Hnd Hc; cbn [kill_loop].
  { exists r0, (tasks s). split; [by destruct s|]. split; [intros i; by rewrite decide_False by apply not_elem_of_nil|].
    left. split; [done|]. by intros (i & t & Hi%elem_of_nil & _). }
  apply NoDup_cons in Hnd as [Hp Hnd]. rewrite bind_get.
  assert (forall s1 c1 r1,
    tasks s1 !! cur s1 = Some c1 -> same_sender sig c c1 -> (forall ts, s1 <| tasks := ts |> = s <| tasks := ts |>) ->
    tasks s1 !! p = kill_task sig sel priv c <$> tasks s !! p ->
    (forall i, i <> p -> tasks s1 !! i = tasks s !! i) ->
    exists r ts', kill_loop sig sel priv l r1 s1 = (Ret r, s <| tasks := ts' |>) /\
      after_kill (p :: l) c (tasks s) ts' /\
      ((r = r1 /\ ~ denied sel priv (tasks s) c l) \/ (r = - EPERM /\ denied sel priv (tasks s) c l))) as Hgo.
  { intros s1 c1 r1 Hc1 Hsc Hs1 H1 H2. destruct (IH s1 c1 r1 Hnd Hc1) as (r & ts' & Hr & Ha & Hd).
    exists r, ts'. rewrite <- Hs1. split; [done|]. split; [by eapply after_kill_cons|].
    by rewrite (denied_later p l (tasks s) (tasks s1) c c1) in Hd. }
  setoid_rewrite denied_cons. destruct (tasks s !! p) as [t|] eqn:Ht.
  2: { destruct (Hgo s c r0) as (r & ts' & Hr & Ha & Hd); [done|by left|done|by rewrite Ht|done|].
       exists r, ts'. split; [done|]. split; [done|]. naive_solver. }
  mrun (current_run s c Hc). destruct (sel c t) eqn:Es.
  2: { destruct (Hgo s c r0) as (r & ts' & Hr & Ha & Hd); [done|by left|done| |done|].
       { rewrite ?Ht. cbn. unfold kill_task. by rewrite Es. }
       exists r, ts'. split; [done|]. split; [done|]. naive_solver congruence. }
  pose proof (send_sig_run sig p priv s c t Hsig Hc Ht) as Hsend.
  destruct (permitted priv c t) eqn:Ep; mrun Hsend; cbn [istrue Z.eqb negb].
  - set (s1 := s <| tasks ::= <[p := signalled sig t]> |>).
    assert (exists c1, tasks s1 !! cur s1 = Some c1 /\ same_sender sig c c1) as (c1 & Hc1 & Hsc).
    { change (tasks s1 !! cur s1) with (<[p := signalled sig t]> (tasks s) !! cur s).
      destruct (decide (p = cur s)) as [->|Hne].
      - rewrite lookup_insert_eq. eexists. split; [done|]. right. congruence.
      - rewrite lookup_insert_ne by done. exists c. by split; [|left]. }
    destruct (Hgo s1 c1 r0) as (r & ts' & Hr & Ha & Hd); [done|done|done| | |].
    + change (tasks s1) with (<[p := signalled sig t]> (tasks s)). rewrite lookup_insert_eq, ?Ht. cbn.
      unfold kill_task. by rewrite Es, Ep.
    + intros i Hi. apply (lookup_insert_ne (tasks s)). done.
    + exists r, ts'. split; [done|]. split; [done|]. naive_solver congruence.
  - destruct (Hgo s c (- EPERM)) as (r & ts' & Hr & Ha & Hd); [done|by left|done| |done|].
    { rewrite ?Ht. cbn. unfold kill_task. by rewrite Es, Ep. }
    exists r, ts'. split; [done|]. split; [done|]. right. split; [naive_solver|]. left. eauto.
Qed.
End KillLoop.

(** Whom [kill] is for when its argument is not negative: the task with that number, or, with 0,
    the tasks whose group has the number of the calling task ([kernel/exit.c:86]).  That is the
    caller's own group when the caller leads it, and only then. *)
Definition kill_sel (pid : Z) (c t : task_struct) : bool :=
  if pid =? 0 then t_pgrp t =? t_pid c else t_pid t =? pid.

(** C32: [kill] with a process number sets the signal in the tasks with that number, and [kill]
    with 0 in the tasks whose group number is the calling task's own process number, the ones
    that the caller may signal; it changes nothing else, and returns -EPERM when one of these
    tasks was out of bounds and 0 otherwise.  (Documents say that 0 stands for the group of the
    caller; the code compares with the caller's process number, see [kill_zero_not_leader].) *)
Theorem sys_kill_ok s c pid sig (priv := b2z (pid =? 0)) :
  tasks s !! cur s = Some c -> 0 <= pid -> 1 <= sig <= 32 ->
  exists r ts', sys_kill pid sig s = (Ret r, s <| tasks := ts' |>) /\
    after_kill sig priv (kill_sel pid) slots_down c (tasks s) ts' /\
    ((r = 0 /\ ~ denied (kill_sel pid) priv (tasks s) c slots_down) \/
     (r = - EPERM /\ denied (kill_sel pid) priv (tasks s) c slots_down)).
Proof.
  intros Hc Hpid Hsig. unfold sys_kill, kill_sel, priv. destruct (Z.eqb_spec pid 0) as [->|Hne].
  - by apply kill_loop_ok; [| |apply slots_down_NoDup|].
  - rewrite (proj2 (Z.ltb_lt 0 pid)) by lia. by apply kill_loop_ok; [| |apply slots_down_NoDup|].
Qed.

(** The group of the caller when the caller leads it. *)
Lemma kill_zero_leader c t : t_pgrp c = t_pid c -> kill_sel 0 c t = (t_pgrp t =? t_pgrp c).
Proof. intros H. unfold kill_sel. cbn. by rewrite H. Qed.

(** A task that leads no group and calls [kill] with 0 reaches nobody, itself and its group
    included. *)
Lemma kill_zero_not_leader s c sig :
  tasks s !! cur s = Some c -> 1 <= sig <= 32 -> (forall i t, tasks s !! i = Some t -> t_pgrp t <> t_pid c) ->
  sys_kill 0 sig s = (Ret 0, s).
Proof.
  intros Hc Hsig Hno.
  assert (forall i t, tasks s !! i = Some t -> (t_pgrp t =? t_pid c) = false) as Hsel by (intros i t Ht; by apply Z.eqb_neq, (Hno i)).
  destruct (kill_loop_ok sig 1 (fun c t => t_pgrp t =? t_pid c) (fun _ _ _ => eq_refl) slots_down s c 0 Hsig slots_down_NoDup Hc) as (r & ts' & E & Ha & Hd).
  assert (ts' = tasks s) as ->.
  { apply map_eq. intros i. rewrite Ha. destruct (decide _); [|done]. destruct (tasks s !! i) as [t|] eqn:Ht; [|done]. cbn. unfold kill_task. by rewrite (Hsel i). }
  unfold sys_kill. change (0 =? 0) with true. cbv iota. rewrite E. destruct Hd as [[-> _]|[_ (i & t & _ & Ht & H & _)]]; [by destruct s|].
  by rewrite (Hsel i) in H.
Qed.

(** [kill] with a process group, a negative number below -1, reaches no task at all and
    returns 0: the loop meant for it is the [else] branch of an [if] inside the loop for
    -1, because the [else] binds to that [if]. *)
Lemma sys_kill_group_lost s pid sig : pid < -1 -> sys_kill pid sig s = (Ret 0, s).
Proof.
  intros H. unfold sys_kill. rewrite (proj2 (Z.eqb_neq pid 0)), (proj2 (Z.ltb_ge 0 pid)),
    (proj2 (Z.eqb_neq pid (-1))) by lia. reflexivity.
Qed.

(** For the same reason [kill] with -1, meant for every task, stops after the first task
    that it signals: with two tasks that the caller may signal only the one in the higher
    slot gets the signal, and the result is an error. *)
Lemma sys_kill_all_stops :
  exists s' t1 t2, sys_kill (-1) 15 demo = (Ret (- EINVAL), s') /\
    tasks s' !! 1 = Some t1 /\ t_signal t1 = 0 /\
    tasks s' !! 2 = Some t2 /\ t_signal t2 = sig_bit 15.
Proof. do 3 eexists. repeat split; vm_compute; reflexivity. Qed.

(** ** Releasing a task *)

(** [release] of another task gives its slot and its page back and lets another task run. *)
Lemma release_ok own others s p pg t :
  wf own (kmm s) -> sched_inv (tasks s) -> 1 <= p < NR_TASKS -> p <> cur s ->
  tasks s !! p = Some t -> task_page s !! p = Some pg -> main (kmm s) pg -> 1 <= own pg ->
  exists s1, release others (Some p) s = (Ret tt, (others s1) <| cur := cur s |>) /\
    wf (bump own pg (-1)) (kmm s1) /\ tasks s1 !! p = None /\ task_page s1 !! p = None /\
    sched_steps (delete p (tasks s)) (tasks s1) /\ umem s1 = umem s.
Proof.
  intros W Hinv Hp Hne Ht Hpg Hm Hown. unfold release. rewrite bind_get.
  assert (exists k, list_find (fun i => task_ptr s i = Some p) (seqZ 1 (NR_TASKS - 1)) = Some (k, p)) as (k & ->).
  { exists (Z.to_nat (p - 1)). apply list_find_Some. unfold task_ptr, NR_TASKS in *. split; [|split].
    - apply lookup_seqZ. lia.
    - by rewrite Ht.
    - intros j y Hj Hlt. apply lookup_seqZ in Hj as [-> _]. intros Hy. case_match; [|done].
      injection Hy as Hy. lia. }
  rewrite Hpg. cbn [of_option]. rewrite bind_ret, bind_modify.
  set (s0 := s <| tasks ::= delete p |> <| task_page ::= delete p |>).
  destruct (free_page_held own (mm_view s0) pg) as [Hr W1]; [exact (wf_view own s0 W)|exact Hm|exact Hown|].
  mrun (on_mm_run _ s0 _ _ Hr). clear Hr.
  rewrite (proj2 (Z.eqb_neq _ _) Hne). unfold schedule_and_wait. rewrite bind_gets.
  set (m1 := (mm_view s0) <| mem_map ::= _ |>) in *. clearbody m1.
  assert (sched_inv (tasks (s0 <| kmm := m1 |>))) as Hinv1.
  { intros i u Hi Hu. apply (Hinv i u Hi).
    change (delete p (tasks s) !! i = Some u) in Hu. apply lookup_delete_Some in Hu. apply Hu. }
  destruct (schedule_cases _ Hinv1) as (ts' & n & Hr & _ & _ & Hst). mrun Hr. rewrite bind_modify.
  eexists. split; [reflexivity|]. split; [exact W1|].
  assert (delete p (tasks s) !! p = None) as Hd by apply lookup_delete_eq.
  split; [|split; [apply lookup_delete_eq|split; [exact Hst|reflexivity]]].
  pose proof (Hst p) as Hx. change (tasks (s0 <| kmm := m1 |>)) with (delete p (tasks s)) in Hx.
  rewrite Hd in Hx. inversion Hx. done.
Qed.

(** ** waitpid *)

(** A child of the current task [c] that [pid] selects. *)
Definition waits_for (s : kst) (c : task_struct) (pid q : Z) (t : task_struct) : Prop :=
  tasks s !! q = Some t /\ q <> cur s /\ t_father t = t_pid c /\ wait_selects pid c t = true.

(** Has the child something to report? *)
Definition reports (options : Z) (t : task_struct) : Prop :=
  t_state t = TASK_ZOMBIE \/ (t_state t = TASK_STOPPED /\ Z.land options WUNTRACED <> 0).

(** The loop passes over slots whose task has nothing to report; a live child sets the flag. *)
Lemma wait_scan_quiet others pid sa options l1 l2 flag s c :
  tasks s !! cur s = Some c ->
  (forall q t, q ∈ l1 -> waits_for s c pid q t -> ~ reports options t) ->
  exists flag', wait_scan others pid sa options (l1 ++ l2) flag s = wait_scan others pid sa options l2 flag' s /\
    ((flag' = 1 /\ exists q t, q ∈ l1 /\ waits_for s c pid q t /\ t_state t <> TASK_STOPPED) \/
     (flag' = flag /\ forall q t, q ∈ l1 -> waits_for s c pid q t -> t_state t = TASK_STOPPED)).
Proof.
  intros Hc. revert flag. induction l1 as [|q l1 IH]; intros flag Hq.
  { exists flag. split; [done|]. right. split; [done|]. by intros ? ? ?%elem_of_nil. }
  assert (forall flag,
    exists flag', wait_scan others pid sa options (l1 ++ l2) flag s = wait_scan others pid sa options l2 flag' s /\
    ((flag' = 1 /\ exists q t, q ∈ l1 /\ waits_for s c pid q t /\ t_state t <> TASK_STOPPED) \/
     (flag' = flag /\ forall q t, q ∈ l1 -> waits_for s c pid q t -> t_state t = TASK_STOPPED))) as IH'.
  { intros fl. apply IH. intros q' t Hin. apply Hq. by right. }
  cbn [app wait_scan]. rewrite bind_get.
  assert ((forall t, waits_for s c pid q t -> t_state t = TASK_STOPPED) ->
    exists flag', wait_scan others pid sa options (l1 ++ l2) flag s = wait_scan others pid sa options l2 flag' s /\
    ((flag' = 1 /\ exists q' t, q' ∈ q :: l1 /\ waits_for s c pid q' t /\ t_state t <> TASK_STOPPED) \/
     (flag' = flag /\ forall q' t, q' ∈ q :: l1 -> waits_for s c pid q' t -> t_state t = TASK_STOPPED))) as Hskip.
  { intros Hsk. destruct (IH' flag) as (f & Hr & [(-> & q' & t & Hin & Hw)|[-> Hall]]); eexists; (split; [exact Hr|]).
    - left. split; [done|]. exists q', t. split; [by right|done].
    - right. split; [done|]. intros q' t [->|Hin]%elem_of_cons; eauto. }
  unfold waits_for in Hskip at 1. destruct (tasks s !! q) as [t|] eqn:Ht; [|apply Hskip; intros ? [? _]; congruence].
  mrun (current_run s c Hc).
  destruct (Z.eqb_spec q (cur s)) as [Hcur|Hcur]; [apply Hskip; tauto|].
  destruct (Z.eqb_spec (t_father t) (t_pid c)) as [Hf|Hf]; cbn [negb]; [|apply Hskip; intros ? ([= ->] & ?); tauto].
  destruct (wait_selects pid c t) eqn:Hsel; cbn [negb]; [|apply Hskip; intros ? ([= ->] & ?); intuition congruence].
  pose proof (Hq q t ltac:(by left) ltac:(by repeat split)) as Hn. unfold reports in Hn.
  destruct (Z.eqb_spec (t_state t) TASK_STOPPED) as [Hst|Hst].
  - destruct (Z.eqb_spec (Z.land options WUNTRACED) 0) as [Ho|Ho]; [|tauto].
    rewrite Ho. cbn [istrue Z.eqb negb]. apply Hskip. intros ? ([= ->] & _). done.
  - rewrite (proj2 (Z.eqb_neq (t_state t) TASK_ZOMBIE)) by tauto.
    destruct (IH' 1) as (f & Hr & Hcase). exists f. split; [exact Hr|]. left.
    split; [by destruct Hcase as [[? _]|[? _]]|]. exists q, t. split; [by left|]. by repeat split.
Qed.

(** The loop at a slot whose task is a zombie that the caller waits for. *)
Lemma wait_scan_zombie own others pid sa options l flag s c p z pg :
  wf own (kmm s) -> sched_inv (tasks s) -> 1 <= p < NR_TASKS -> tasks s !! cur s = Some c ->
  waits_for s c pid p z -> t_state z = TASK_ZOMBIE ->
  task_page s !! p = Some pg -> main (kmm s) pg -> 1 <= own pg ->
  exists s1 c1, wait_scan others pid sa options (p :: l) flag s =
      (Ret (inl (t_pid z)), (others s1) <| cur := cur s |> <| umem ::= st_long (t_exit_code z) sa |>) /\
    wf (bump own pg (-1)) (kmm s1) /\ tasks s1 !! p = None /\
    tasks s1 !! cur s = Some c1 /\
    t_cutime c1 = s32 (t_cutime c + t_utime z) /\ t_cstime c1 = s32 (t_cstime c + t_stime z).
Proof.
  intros W Hinv Hp Hc (Hz & Hne & Hf & Hsel) Hst Hpg Hm Hown. cbn [wait_scan]. rewrite bind_get, Hz.
  mrun (current_run s c Hc). rewrite (proj2 (Z.eqb_neq _ _) Hne), Hf, Z.eqb_refl, Hsel, Hst. cbn [negb].
  change (TASK_ZOMBIE =? TASK_STOPPED) with false. change (TASK_ZOMBIE =? TASK_ZOMBIE) with true. cbv iota.
  set (c' := c <| t_cutime ::= fun x => s32 (x + t_utime z) |> <| t_cstime ::= fun x => s32 (x + t_stime z) |>).
  assert (forall B (k : unit -> M kst B),
    (upd_current (fun c => c <| t_cutime ::= fun x => s32 (x + t_utime z) |>);;
     (upd_current (fun c => c <| t_cstime ::= fun x => s32 (x + t_stime z) |>) ≫= k)) s = k tt (set_cur s c')) as Hu.
  { intros B k'. rewrite (set_cur_id s c Hc) at 1. by krun. }
  rewrite Hu.
  assert (sched_inv (tasks (set_cur s c'))) as Hinv'.
  { intros i t Hi. rewrite tasks_set_cur. intros [[<- <-]|[_ Ht]]%lookup_insert_Some; [|by apply (Hinv i)].
    exact (Hinv _ c Hi Hc). }
  assert (tasks (set_cur s c') !! p = Some z) as Hz'.
  { rewrite tasks_set_cur, lookup_insert_ne by done. done. }
  destruct (release_ok own others (set_cur s c') p pg z W Hinv' Hp Hne Hz' Hpg Hm Hown)
    as (s1 & Hr & W1 & Hn & _ & Hst1 & _).
  mrun Hr. clear Hr Hu. unfold put_fs_long. rewrite bind_modify.
  specialize (Hst1 (cur s)). rewrite lookup_delete_ne, tasks_set_cur, lookup_insert_eq in Hst1 by done.
  inversion Hst1 as [t c1 (Hc1 & _) E1 E2|]; subst.
  exists s1, c1. split; [reflexivity|]. split; [exact W1|]. split; [exact Hn|].
  split; [done|]. rewrite Hc1. split; reflexivity.
Qed.

(** C31: [waitpid] collects a zombie: when a child that it waits for is a zombie, and no
    child in a higher slot has anything to report, it returns that child's process number
    and stores its exit code at the given address, without waiting; the child's slot and
    the page of its structure are free again, and its times are added to the caller's. *)
Theorem waitpid_collects own others fuel s c pid sa options p z pg m :
  tasks s !! cur s = Some c -> verify_area sa 4 s = (Ret tt, s <| kmm := m |>) ->
  wf own m -> sched_inv (tasks s) -> 1 <= p < NR_TASKS ->
  waits_for s c pid p z -> t_state z = TASK_ZOMBIE ->
  (forall q t, p < q < NR_TASKS -> waits_for s c pid q t -> ~ reports options t) ->
  task_page s !! p = Some pg -> main m pg -> 1 <= own pg ->
  exists s1 s' c1, sys_waitpid others (S fuel) pid sa options s = (Ret (t_pid z), s') /\
    ld_long (umem s') sa = u32 (t_exit_code z) /\
    s' = (others s1) <| cur := cur s |> <| umem ::= st_long (t_exit_code z) sa |> /\
    wf (bump own pg (-1)) (kmm s1) /\ tasks s1 !! p = None /\ tasks s1 !! cur s = Some c1 /\
    t_cutime c1 = s32 (t_cutime c + t_utime z) /\ t_cstime c1 = s32 (t_cstime c + t_stime z).
Proof.
  intros Hc Hv W Hinv Hp Hw Hz Hq Hpg Hm Hown. unfold sys_waitpid. mrun Hv. clear Hv.
  set (s0 := s <| kmm := m |>). destruct (slots_down_split p Hp) as (l1 & l2 & Hl & Hl1).
  cbn [wait_loop]. rewrite Hl.
  destruct (wait_scan_quiet others pid sa options l1 (p :: l2) 0 s0 c Hc) as (flag & Hr & _).
  { intros q t Hin. by apply Hq, Hl1. }
  destruct (wait_scan_zombie own others pid sa options l2 flag s0 c p z pg W Hinv Hp Hc Hw Hz Hpg Hm Hown)
    as (s1 & c1 & Hr1 & H1).
  rewrite Hr1 in Hr. mrun Hr. eexists s1, _, c1. split; [reflexivity|].
  split; [|split; [reflexivity|exact H1]].
  change (ld_long (st_long (t_exit_code z) sa (umem (others s1))) sa = u32 (t_exit_code z)).
  rewrite st_long_u32. apply ld_st_long, u32_range.
Qed.

(** When no child has anything to report [waitpid] returns without changing anything but
    page permissions: -ECHILD if it has no child to wait for (one that is not stopped),
    and 0 if it has one and was told not to hang. *)
Lemma waitpid_no_report others fuel s c pid sa options m :
  tasks s !! cur s = Some c -> verify_area sa 4 s = (Ret tt, s <| kmm := m |>) ->
  (forall q t, 1 <= q < NR_TASKS -> waits_for s c pid q t -> ~ reports options t) ->
  let live := exists q t, 1 <= q < NR_TASKS /\ waits_for s c pid q t /\ t_state t <> TASK_STOPPED in
  (~ live -> sys_waitpid others (S fuel) pid sa options s = (Ret (- ECHILD), s <| kmm := m |>)) /\
  (live -> Z.land options WNOHANG <> 0 ->
     sys_waitpid others (S fuel) pid sa options s = (Ret 0, s <| kmm := m |>)).
Proof.
  intros Hc Hv Hq live. unfold sys_waitpid. mrun Hv. clear Hv. set (s0 := s <| kmm := m |>).
  cbn [wait_loop]. rewrite <- (app_nil_r slots_down).
  destruct (wait_scan_quiet others pid sa options slots_down [] 0 s0 c Hc) as (flag & Hr & Hflag).
  { intros q t Hin. by apply Hq, elem_of_slots_down. }
  change (wait_scan others pid sa options [] flag s0) with (Ret (inr flag : Z + Z), s0) in Hr. mrun Hr.
  destruct Hflag as [(-> & q & t & Hin%elem_of_slots_down & Hw & Hs)|[-> Hall]].
  - split; [intros []; by exists q, t|]. intros _ Hopt. change (istrue 1) with true. cbv iota.
    unfold istrue. by rewrite (proj2 (Z.eqb_neq _ _) Hopt).
  - split; [done|]. intros (q & t & Hin%elem_of_slots_down & Hw & Hs). destruct Hs. by apply (Hall q).
Qed.

(** ** Examples *)

Lemma sys_kill_ok_witness :
  exists r ts', sys_kill 2 15 demo = (Ret r, demo <| tasks := ts' |>) /\
    after_kill 15 0 (kill_sel 2) slots_down (demo_task 1 0 3) (tasks demo) ts'.
Proof.
  destruct (sys_kill_ok demo (demo_task 1 0 3) 2 15) as (r & ts' & Hr & Ha & _).
  1-3: vm_compute; intuition congruence.
  exists r, ts'. split; [exact Hr|exact Ha].
Defined.

Lemma sys_kill_group_lost_witness : sys_kill (-5) 15 demo = (Ret 0, demo).
Proof. apply (sys_kill_group_lost demo (-5) 15). reflexivity. Defined.

(** Task 1 waits for its child in slot 2, a zombie with exit code 512. *)
Definition zombie : task_struct :=
  (demo_task 2 1 9) <| t_state := TASK_ZOMBIE |> <| t_exit_code := 512 |>.
Definition waiting : kst :=
  demo <| kmm := boot |> <| tasks := {[ 1 := demo_task 1 0 3; 2 := zombie ]} |>
       <| task_page := {[ 2 := 0x200000 ]} |>.

Lemma waiting_lookup i t :
  tasks waiting !! i = Some t -> (i = 1 /\ t = demo_task 1 0 3) \/ (i = 2 /\ t = zombie).
Proof.
  change (tasks waiting) with ({[ 1 := demo_task 1 0 3; 2 := zombie ]} : gmap Z task_struct).
  intros [[<- <-]|[_ H]]%lookup_insert_Some; [by left|].
  apply lookup_singleton_Some in H as [<- <-]. by right.
Qed.

Lemma waiting_verify : verify_area 4096 4 waiting = (Ret tt, waiting <| kmm := mm_view waiting |>).
Proof. vm_compute. reflexivity. Qed.

Lemma waiting_inv : sched_inv (tasks waiting).
Proof. intros i t _ [[_ ->]|[_ ->]]%waiting_lookup; vm_compute; intuition congruence. Qed.

Lemma waitpid_collects_witness :
  exists s', sys_waitpid (fun s => s) 1 (-1) 4096 0 waiting = (Ret 2, s') /\ ld_long (umem s') 4096 = 512.
Proof.
  destruct (waitpid_collects (boot_own START) (fun s => s) 0 waiting (demo_task 1 0 3) (-1) 4096 0 2 zombie
    0x200000 (mm_view waiting) eq_refl waiting_verify (wf_view _ waiting boot_wf) waiting_inv)
    as (s1 & s' & c1 & Hr & Hu & _).
  - split; reflexivity || discriminate.
  - repeat split; discriminate.
  - reflexivity.
  - intros q t Hq [Ht _] _. apply waiting_lookup in Ht as [[-> _]|[-> _]]; destruct Hq; discriminate.
  - reflexivity.
  - split; [reflexivity|]. vm_compute. split; [discriminate|reflexivity].
  - vm_compute. discriminate.
  - exists s'. split; [exact Hr|exact Hu].
Defined.

Lemma demo_verify : verify_area 4096 4 demo = (Ret tt, demo <| kmm := mm_view demo |>).
Proof. vm_compute. reflexivity. Qed.

Lemma waitpid_no_report_witness :
  sys_waitpid (fun s => s) 1 7 4096 WNOHANG demo = (Ret (- ECHILD), demo <| kmm := mm_view demo |>).
Proof.
  assert (forall q t, waits_for demo (demo_task 1 0 3) 7 q t -> False) as Hno.
  { intros q t (Ht & _ & _ & Hs).
    change (tasks demo) with ({[ 0 := demo_task 0 (-1) 15; 1 := demo_task 1 0 3; 2 := demo_task 2 1 9 ]}
      : gmap Z task_struct) in Ht.
    apply lookup_insert_Some in Ht as [[_ <-]|[_ Ht]]; [discriminate|].
    apply lookup_insert_Some in Ht as [[_ <-]|[_ Ht]]; [discriminate|].
    apply lookup_singleton_Some in Ht as [_ <-]. discriminate. }
  destruct (waitpid_no_report (fun s => s) 0 demo (demo_task 1 0 3) 7 4096 WNOHANG (mm_view demo)
    eq_refl demo_verify) as [H _].
  - intros q t _ Hw. destruct (Hno q t Hw).
  - apply H. intros (q & t & _ & Hw & _). exact (Hno q t Hw).
Defined.
