(* ===== verification/Sys.v ===== *)
(** User and group identities, times, the break, process groups and sessions
    ([linux-0.11/kernel/sys.c]). *)

From S2P Require Import Prelude Memory Task Sched Fork Signal.

(** ** Calls that are not implemented *)

Definition sys_ftime : M kst Z := mret (- ENOSYS).
Definition sys_break : M kst Z := mret (- ENOSYS).
Definition sys_ptrace : M kst Z := mret (- ENOSYS).
Definition sys_stty : M kst Z := mret (- ENOSYS).
Definition sys_gtty : M kst Z := mret (- ENOSYS).
Definition sys_rename : M kst Z := mret (- ENOSYS).
Definition sys_prof : M kst Z := mret (- ENOSYS).
Definition sys_acct : M kst Z := mret (- ENOSYS).
Definition sys_phys : M kst Z := mret (- ENOSYS).
Definition sys_lock : M kst Z := mret (- ENOSYS).
Definition sys_mpx : M kst Z := mret (- ENOSYS).
Definition sys_ulimit : M kst Z := mret (- ENOSYS).

(** ** Identities; the fields are unsigned shorts *)

Definition sys_setregid (rgid egid : Z) : M kst Z :=
  c ← current_task;
  super ← suser;
  if (0 <? rgid) && negb ((t_gid c =? rgid) || super) then mret (- EPERM) else
  when (0 <? rgid) (upd_current (fun t => t <| t_gid := u16 rgid |>));;
  if 0 <? egid then
    c ← current_task;
    super ← suser;
    if (t_gid c =? egid) || (t_egid c =? egid) || (t_sgid c =? egid) || super then
      upd_current (fun t => t <| t_egid := u16 egid |>);;
      mret 0
    else mret (- EPERM)
  else mret 0.

Definition sys_setgid (gid : Z) : M kst Z := sys_setregid gid gid.

Definition sys_setreuid (ruid euid : Z) : M kst Z :=
  c ← current_task;
  let old_ruid := t_uid c in
  super ← suser;
  if (0 <? ruid) && negb ((t_euid c =? ruid) || (old_ruid =? ruid) || super) then mret (- EPERM) else
  when (0 <? ruid) (upd_current (fun t => t <| t_uid := u16 ruid |>));;
  if 0 <? euid then
    c ← current_task;
    super ← suser;
    if (old_ruid =? euid) || (t_euid c =? euid) || super then
      upd_current (fun t => t <| t_euid := u16 euid |>);;
      mret 0
    else
      upd_current (fun t => t <| t_uid := u16 old_ruid |>);;
      mret (- EPERM)
  else mret 0.

Definition sys_setuid (uid : Z) : M kst Z := sys_setreuid uid uid.

(** ** Times *)

Definition CURRENT_TIME (s : kst) : Z := s32 (startup_time s + Z.quot (jiffies s) HZ).

Definition sys_time (tloc : Z) : M kst Z :=
  i ← gets CURRENT_TIME;
  when (istrue tloc) (verify_area tloc 4;; put_fs_long i tloc);;
  mret i.

Definition sys_stime (tptr : Z) : M kst Z :=
  super ← suser;
  if negb super then mret (- EPERM) else
  v ← get_fs_long tptr;
  modify (fun s => s <| startup_time := s32 (v - Z.quot (jiffies s) HZ) |>);;
  mret 0.

Definition sys_times (tbuf : Z) : M kst Z :=
  when (istrue tbuf) (
    verify_area tbuf 16;;
    c ← current_task;
    put_fs_long (t_utime c) tbuf;;
    put_fs_long (t_stime c) (tbuf + 4);;
    put_fs_long (t_cutime c) (tbuf + 8);;
    put_fs_long (t_cstime c) (tbuf + 12));;
  gets jiffies.

(** ** The break *)

Definition sys_brk (end_data_seg : Z) : M kst Z :=
  c ← current_task;
  when ((t_end_code c <=? end_data_seg) && (end_data_seg <? u32 (t_start_stack c - 16384)))
    (upd_current (fun t => t <| t_brk := end_data_seg |>));;
  c ← current_task;
  mret (t_brk c).

(** ** Process groups and sessions *)

Definition sys_setpgid (pid pgid : Z) : M kst Z :=
  c ← current_task;
  let pid := if pid =? 0 then t_pid c else pid in
  let pgid := if pgid =? 0 then t_pid c else pgid in
  s ← get;
  match list_find (fun i => t_pid <$> tasks s !! i = Some pid) (seqZ 0 NR_TASKS) with
  | None => mret (- ESRCH)
  | Some (_, i) =>
      t ← get_task i;
      if istrue (t_leader t) then mret (- EPERM) else
      if negb (t_session t =? t_session c) then mret (- EPERM) else
      upd_task i (fun t => t <| t_pgrp := pgid |>);;
      mret 0
  end.

Definition sys_getpgrp : M kst Z := c ← current_task; mret (t_pgrp c).

Definition sys_setsid : M kst Z :=
  c ← current_task;
  super ← suser;
  if istrue (t_leader c) && negb super then mret (- EPERM) else
  upd_current (fun t => t <| t_leader := 1 |>);;
  upd_current (fun t => t <| t_pgrp := t_pid t |>);;
  upd_current (fun t => t <| t_session := t_pgrp t |>);;
  upd_current (fun t => t <| t_tty := -1 |>);;
  c ← current_task;
  mret (t_pgrp c).

(** ** uname and umask *)

(** The nine-byte fields of [thisname]. *)
Definition thisname : list Z :=
  map (fun a => Z.of_N (Ascii.N_of_ascii a)) (String.list_ascii_of_string "linux .0") ++ [0] ++
  map (fun a => Z.of_N (Ascii.N_of_ascii a)) (String.list_ascii_of_string "nodename") ++ [0] ++
  map (fun a => Z.of_N (Ascii.N_of_ascii a)) (String.list_ascii_of_string "release ") ++ [0] ++
  map (fun a => Z.of_N (Ascii.N_of_ascii a)) (String.list_ascii_of_string "version ") ++ [0] ++
  map (fun a => Z.of_N (Ascii.N_of_ascii a)) (String.list_ascii_of_string "machine ") ++ [0].

Definition sys_uname (name : Z) : M kst Z :=
  if name =? 0 then mret (- ERROR) else
  verify_area name 45;;
  put_bytes thisname name;;
  mret 0.

Definition sys_umask (mask : Z) : M kst Z :=
  c ← current_task;
  upd_current (fun t => t <| t_umask := Z.land mask 511 |>);;
  mret (t_umask c).
