(* ===== verification/SysSpec.v ===== *)
(** Properties of [kernel/sys.c]: identities, the break, sessions and process groups. *)

From S2P Require Import Prelude Memory Task Sched SchedSpec Fork TaskLemmas Signal Sys.

(** ** Identities *)

(** A task without privilege can give itself only the real and effective user ids that it
    already has, in either order, and a refused [setreuid] changes nothing. *)
Lemma setreuid_confined s c ruid euid :
  tasks s !! cur s = Some c -> t_euid c <> 0 ->
  0 <= t_uid c < 65536 -> 0 <= t_euid c < 65536 ->
  exists r c', sys_setreuid ruid euid s = (Ret r, set_cur s c') /\
    (t_uid c' = t_uid c \/ t_uid c' = t_euid c) /\ (t_euid c' = t_uid c \/ t_euid c' = t_euid c) /\
    (r = 0 \/ (r = - EPERM /\ c' = c)).
Proof.
  intros Hc Hsu Hu He. to_set_cur Hc. unfold sys_setreuid. krun.
  rewrite (proj2 (Z.eqb_neq (t_euid c) 0) Hsu), !orb_false_r.
  assert (u16 (t_uid c) = t_uid c) as Eu by (by apply u16_small).
  assert (u16 (t_euid c) = t_euid c) as Ee by (by apply u16_small).
  kcases; (eexists _, _; split; [reflexivity|]); cbn in *; bprop; rewrite ?Eu.
  all: repeat match goal with H : _ \/ _ |- _ => destruct H end; subst; rewrite ?Eu, ?Ee; try lia.
  all: destruct c; cbn in *; auto 10.
Qed.

(** The same for groups: without privilege the real group id stays, the effective one
    becomes the real, effective or saved one, and a refused [setregid] changes nothing. *)
Lemma setregid_confined s c rgid egid :
  tasks s !! cur s = Some c -> t_euid c <> 0 ->
  0 <= t_gid c < 65536 -> 0 <= t_egid c < 65536 -> 0 <= t_sgid c < 65536 ->
  exists r c', sys_setregid rgid egid s = (Ret r, set_cur s c') /\
    t_gid c' = t_gid c /\
    (t_egid c' = t_gid c \/ t_egid c' = t_egid c \/ t_egid c' = t_sgid c) /\
    (r = 0 \/ (r = - EPERM /\ c' = c)).
Proof.
  intros Hc Hsu Hu He Hs. to_set_cur Hc. unfold sys_setregid. krun.
  rewrite (proj2 (Z.eqb_neq (t_euid c) 0) Hsu), !orb_false_r.
  assert (u16 (t_gid c) = t_gid c) as Eu by (by apply u16_small).
  assert (u16 (t_egid c) = t_egid c) as Ee by (by apply u16_small).
  assert (u16 (t_sgid c) = t_sgid c) as Es by (by apply u16_small).
  kcases; (eexists _, _; split; [reflexivity|]); cbn in *; bprop; rewrite ?Eu.
  all: repeat match goal with H : _ \/ _ |- _ => destruct H end; subst; rewrite ?Eu, ?Ee, ?Es; try lia.
  all: destruct c; cbn in *; auto 10; lia.
Qed.

(** ** The break *)

Definition brk_in (t : task_struct) : Prop :=
  t_end_code t <= t_brk t < u32 (t_start_stack t - 16384).

(** [sys_brk] moves the break exactly when the new one lies between the end of the
    code and 16 KB below the stack, returns the break then in force, and so never takes
    the break out of that range. *)
Lemma sys_brk_ok s c e :
  tasks s !! cur s = Some c ->
  exists c', sys_brk e s = (Ret (t_brk c'), set_cur s c') /\
    c' = c <| t_brk := t_brk c' |> /\
    (brk_in (c <| t_brk := e |>) -> t_brk c' = e) /\
    (~ brk_in (c <| t_brk := e |>) -> t_brk c' = t_brk c) /\
    (brk_in c -> brk_in c').
Proof.
  intros Hc. to_set_cur Hc. unfold sys_brk, brk_in.
  kcases; (eexists; split; [reflexivity|]); cbn in *; bprop; destruct c; cbn in *; intuition lia.
Qed.

(** ** Sessions *)

(** A session leader leads its session and its process group. *)
Definition leaders_ok (ts : gmap Z task_struct) : Prop :=
  forall i t, ts !! i = Some t -> t_leader t <> 0 -> t_session t = t_pid t /\ t_pgrp t = t_pid t.

Lemma leaders_ok_insert ts i t :
  leaders_ok ts -> (t_leader t <> 0 -> t_session t = t_pid t /\ t_pgrp t = t_pid t) ->
  leaders_ok (<[i := t]> ts).
Proof. intros H Ht j u [[<- <-]|[_ Hu]]%lookup_insert_Some; eauto. Qed.

(** C34: [setsid] and [setpgid], whatever they return, keep every session leader at the
    head of its own session and process group. *)
Theorem sessions_ok s c pid pgid :
  tasks s !! cur s = Some c -> leaders_ok (tasks s) ->
  (exists r s', sys_setsid s = (Ret r, s') /\ leaders_ok (tasks s') /\
     (r = t_pid c \/ (r = - EPERM /\ s' = s))) /\
  (exists r s', sys_setpgid pid pgid s = (Ret r, s') /\ leaders_ok (tasks s') /\
     (r = 0 \/ ((r = - EPERM \/ r = - ESRCH) /\ s' = s))).
Proof.
  intros Hc Hl. split.
  - to_set_cur Hc. unfold sys_setsid. kcases; (eexists _, _; split; [reflexivity|]).
    + split; [|right; split; [done|by rewrite <- (set_cur_id s c Hc)]].
      rewrite tasks_set_cur. apply leaders_ok_insert; eauto.
    + cbn. split; [|by left]. apply leaders_ok_insert; [done|]. by destruct c.
  - unfold sys_setpgid. rewrite (bind_Ret _ _ _ _ _ (current_run s c Hc)), bind_get.
    destruct (list_find _ _) as [[k i]|] eqn:Ef; [|eexists _, _; split; [reflexivity|auto 6]].
    apply list_find_Some in Ef as (_ & Hi & _). destruct (tasks s !! i) as [t|] eqn:Ht; [|done].
    rewrite (bind_Ret _ _ _ _ _ (get_task_run i s t Ht)).
    destruct (istrue (t_leader t)) eqn:El; [eexists _, _; split; [reflexivity|auto 6]|].
    destruct (negb _); [eexists _, _; split; [reflexivity|auto 6]|].
    rewrite (bind_Ret _ _ _ _ _ (upd_task_run i _ s t Ht)).
    eexists _, _. split; [reflexivity|]. split; [|by left].
    apply leaders_ok_insert; [done|]. intros Hn. exfalso.
    unfold istrue in El. bprop. apply Hn. by destruct t.
Qed.

(** ** Examples *)

Definition user : task_struct := (demo_task 7 1 3) <| t_uid := 5 |> <| t_euid := 6 |>.
Definition user_state : kst := demo <| tasks := {[ 1 := user ]} |>.

Lemma setreuid_confined_witness :
  exists r c', sys_setreuid 6 5 user_state = (Ret r, set_cur user_state c') /\ t_euid c' <> 0.
Proof.
  destruct (setreuid_confined user_state user 6 5 eq_refl) as (r & c' & Hr & _ & He & _).
  1-3: vm_compute; intuition congruence.
  exists r, c'. split; [exact Hr|]. destruct He as [-> | ->]; discriminate.
Defined.

Lemma setregid_confined_witness :
  exists r c', sys_setregid 0 0 user_state = (Ret r, set_cur user_state c') /\ t_gid c' = 0.
Proof.
  destruct (setregid_confined user_state user 0 0 eq_refl) as (r & c' & Hr & He & _).
  1-4: vm_compute; intuition congruence.
  exists r, c'. split; [exact Hr|exact He].
Defined.

Lemma sys_brk_ok_witness :
  exists c', sys_brk 4096 user_state = (Ret (t_brk c'), set_cur user_state c').
Proof.
  destruct (sys_brk_ok user_state user 4096 eq_refl) as (c' & Hr & _).
  exists c'. exact Hr.
Defined.

Lemma sessions_ok_witness :
  exists r s', sys_setsid user_state = (Ret r, s') /\ leaders_ok (tasks s').
Proof.
  destruct (sessions_ok user_state user 0 0 eq_refl) as [(r & s' & Hr & Hl & _) _].
  - intros i t Ht Hn. change (tasks user_state) with ({[ 1 := user ]} : gmap Z task_struct) in Ht.
    apply lookup_singleton_Some in Ht as [_ <-]. destruct (Hn eq_refl).
  - exists r, s'. split; [exact Hr|exact Hl].
Defined.
