(* ===== verification/Console.v ===== *)
(** The screen of the console ([linux-0.11/kernel/chr_drv/console.c]): scrolling, erasing,
    inserting and deleting, cursor motion and the escape sequences, on the variables of the
    file as one record.

    The video memory is a map from even addresses to cells of 16 bits, a character and its
    attribute; an access outside [video_mem_start, video_mem_end) or at an odd address is
    undefined, since it would hit other memory.  The string instructions ([rep movsl],
    [rep stosw], upwards and downwards) are loops over cells, two for each long.  [c_ports] logs
    the writes to the ports of the display.  What the input controls (parameters and the
    arguments of [gotoxy]) wraps around at 32 bits; sums of positions are written plainly, the
    invariant of [ConsoleSpec] bounds them. *)

From S2P Require Import Prelude.

Definition VIDEO_TYPE_MDA : Z := 0x10.
Definition VIDEO_TYPE_CGA : Z := 0x11.
Definition VIDEO_TYPE_EGAM : Z := 0x20.
Definition VIDEO_TYPE_EGAC : Z := 0x21.
Definition NPAR : Z := 16.

Record con := mk_con {
  video_type : Z; video_num_columns : Z; video_size_row : Z; video_num_lines : Z; video_page : Z;
  video_mem_start : Z; video_mem_end : Z; video_port_reg : Z; video_port_val : Z; video_erase_char : Z;
  origin : Z; scr_end : Z; c_pos : Z; c_x : Z; c_y : Z; c_top : Z; c_bottom : Z;
  c_state : Z; npar : Z; par : list Z; ques : Z; c_attr : Z; saved_x : Z; saved_y : Z;
  vram : gmap Z Z; c_ports : list (Z * Z)
}.

#[export] Instance eta_con : Eta con := fun s =>
  mk_con (video_type s) (video_num_columns s) (video_size_row s) (video_num_lines s) (video_page s)
    (video_mem_start s) (video_mem_end s) (video_port_reg s) (video_port_val s) (video_erase_char s)
    (origin s) (scr_end s) (c_pos s) (c_x s) (c_y s) (c_top s) (c_bottom s)
    (c_state s) (npar s) (par s) (ques s) (c_attr s) (saved_x s) (saved_y s)
    (vram s) (c_ports s).

(** ** Video memory *)

Definition in_video (s : con) (a : Z) : bool :=
  (video_mem_start s <=? a) && (a <? video_mem_end s) && Z.even a.

Definition ld_cell (a : Z) : M con Z := fun s =>
  if in_video s a then (Ret (default 0 (vram s !! a)), s) else undef "video memory" s.

Definition st_cell (a v : Z) : M con unit := fun s =>
  if in_video s a then (Ret tt, s <| vram ::= <[a := v]> |>) else undef "video memory" s.

(** [cld; rep; stosw] and [std; rep; stosw]; the last address comes back. *)
Fixpoint stosw (n : nat) (v edi : Z) : M con unit :=
  match n with O => mret tt | S n => st_cell edi v;; stosw n v (edi + 2) end.
Fixpoint stosw_down (n : nat) (v edi : Z) : M con unit :=
  match n with O => mret tt | S n => st_cell edi v;; stosw_down n v (edi - 2) end.

Definition movs_long (esi edi : Z) : M con unit :=
  a ← ld_cell esi; b ← ld_cell (esi + 2); st_cell edi a;; st_cell (edi + 2) b.

(** [cld; rep; movsl] and [std; rep; movsl]: the value that edi is left with. *)
Fixpoint movsl_up (n : nat) (esi edi : Z) : M con Z :=
  match n with O => mret edi | S n => movs_long esi edi;; movsl_up n (esi + 4) (edi + 4) end.
Fixpoint movsl_down (n : nat) (esi edi : Z) : M con Z :=
  match n with O => mret edi | S n => movs_long esi edi;; movsl_down n (esi - 4) (edi - 4) end.

Definition outb_p (v port : Z) : M con unit := modify (fun s => s <| c_ports ::= cons (v, port) |>).

(** ** Moving and scrolling *)

Definition gotoxy (new_x new_y : Z) : M con unit :=
  s ← get;
  if (video_num_columns s <? new_x) || (video_num_lines s <=? new_y) then mret tt else
  modify (fun s => s <| c_x := new_x |> <| c_y := new_y |>
                     <| c_pos := origin s + new_y * video_size_row s + Z.shiftl new_x 1 |>).

Definition set_origin : M con unit :=
  s ← get;
  outb_p 12 (video_port_reg s);;
  outb_p (Z.land 0xff (Z.shiftr (origin s - video_mem_start s) 9)) (video_port_val s);;
  outb_p 13 (video_port_reg s);;
  outb_p (Z.land 0xff (Z.shiftr (origin s - video_mem_start s) 1)) (video_port_val s).

Definition is_ega (s : con) : bool := (video_type s =? VIDEO_TYPE_EGAC) || (video_type s =? VIDEO_TYPE_EGAM).

(** Moving the lines of the region in memory. *)
Definition scrup_region : M con unit :=
  s ← get;
  edi ← movsl_up (Z.to_nat (Z.shiftr ((c_bottom s - c_top s - 1) * video_num_columns s) 1))
          (origin s + video_size_row s * (c_top s + 1)) (origin s + video_size_row s * c_top s);
  stosw (Z.to_nat (video_num_columns s)) (video_erase_char s) edi.

(** Moving the whole screen: the display starts one line later in the video memory, until its
    end is reached. *)
Definition scrup_origin : M con unit :=
  modify (fun s => s <| origin ::= Z.add (video_size_row s) |> <| c_pos ::= Z.add (video_size_row s) |>
                     <| scr_end ::= Z.add (video_size_row s) |>);;
  s ← get;
  (if video_mem_end s <? scr_end s then
     edi ← movsl_up (Z.to_nat (Z.shiftr ((video_num_lines s - 1) * video_num_columns s) 1)) (origin s) (video_mem_start s);
     stosw (Z.to_nat (video_num_columns s)) (video_erase_char s) edi;;
     modify (fun s => let d := origin s - video_mem_start s in
       s <| scr_end := scr_end s - d |> <| c_pos := c_pos s - d |> <| origin := video_mem_start s |>)
   else stosw (Z.to_nat (video_num_columns s)) (video_erase_char s) (scr_end s - video_size_row s));;
  set_origin.

Definition scrup : M con unit :=
  s ← get;
  if is_ega s then
    (if (c_top s =? 0) && (c_bottom s =? video_num_lines s) then scrup_origin else scrup_region)
  else scrup_region.

(** Both branches of the source on the type of display are the same instructions. *)
Definition scrdown : M con unit :=
  s ← get;
  edi ← movsl_down (Z.to_nat (Z.shiftr ((c_bottom s - c_top s - 1) * video_num_columns s) 1))
          (origin s + video_size_row s * (c_bottom s - 1) - 4) (origin s + video_size_row s * c_bottom s - 4);
  stosw_down (Z.to_nat (video_num_columns s)) (video_erase_char s) (edi + 2).

Definition lf : M con unit :=
  s ← get;
  if c_y s + 1 <? c_bottom s then
    modify (fun s => s <| c_y ::= Z.succ |> <| c_pos ::= Z.add (video_size_row s) |>)
  else scrup.

Definition ri : M con unit :=
  s ← get;
  if c_top s <? c_y s then
    modify (fun s => s <| c_y ::= Z.pred |> <| c_pos := c_pos s - video_size_row s |>)
  else scrdown.

Definition cr : M con unit := modify (fun s => s <| c_pos := c_pos s - Z.shiftl (c_x s) 1 |> <| c_x := 0 |>).

Definition del : M con unit :=
  s ← get;
  when (istrue (c_x s))
    (modify (fun s => s <| c_pos := c_pos s - 2 |> <| c_x ::= Z.pred |>);;
     s ← get; st_cell (c_pos s) (video_erase_char s)).

(** ** Erasing *)

Definition csi_J (p : Z) : M con unit :=
  s ← get;
  let erase count start := stosw (Z.to_nat count) (video_erase_char s) start in
  if p =? 0 then erase (Z.shiftr (scr_end s - c_pos s) 1) (c_pos s)
  else if p =? 1 then erase (Z.shiftr (c_pos s - origin s) 1) (origin s)
  else if p =? 2 then erase (video_num_columns s * video_num_lines s) (origin s)
  else mret tt.

Definition csi_K (p : Z) : M con unit :=
  s ← get;
  let erase count start := stosw (Z.to_nat count) (video_erase_char s) start in
  if p =? 0 then
    (if video_num_columns s <=? c_x s then mret tt else erase (video_num_columns s - c_x s) (c_pos s))
  else if p =? 1 then
    erase (if c_x s <? video_num_columns s then c_x s else video_num_columns s) (c_pos s - Z.shiftl (c_x s) 1)
  else if p =? 2 then erase (video_num_columns s) (c_pos s - Z.shiftl (c_x s) 1)
  else mret tt.

(** ** Attributes and the cursor *)

Definition attr_of (p old : Z) : Z :=
  if p =? 0 then 0x07 else if p =? 1 then 0x0f else if p =? 4 then 0x0f else
  if p =? 7 then 0x70 else if p =? 27 then 0x07 else old.

(** [par[i]] *)
Definition get_par (i : Z) : M con Z := s ← get; of_option "par" (if i <? 0 then None else par s !! Z.to_nat i).
Definition set_par (i v : Z) : M con unit :=
  get_par i;; modify (fun s => s <| par ::= <[Z.to_nat i := v]> |>).

Definition csi_m : M con unit :=
  s ← get;
  for_each (seqZ 0 (npar s + 1)) (fun i => p ← get_par i; modify (fun s => s <| c_attr ::= attr_of p |>)).

Definition set_cursor : M con unit :=
  s ← get;
  outb_p 14 (video_port_reg s);;
  outb_p (Z.land 0xff (Z.shiftr (c_pos s - video_mem_start s) 9)) (video_port_val s);;
  outb_p 15 (video_port_reg s);;
  outb_p (Z.land 0xff (Z.shiftr (c_pos s - video_mem_start s) 1)) (video_port_val s).

(** ** Inserting and deleting *)

(** [while (i++ < video_num_columns) ...] for [n] cells from [p] on. *)
Fixpoint shift_right (n : nat) (p old : Z) : M con unit :=
  match n with
  | O => mret tt
  | S n => tmp ← ld_cell p; st_cell p old;; shift_right n (p + 2) tmp
  end.

Definition insert_char : M con unit :=
  s ← get; shift_right (Z.to_nat (video_num_columns s - c_x s)) (c_pos s) (video_erase_char s).

(** [while (++i < video_num_columns) ...]: [n] cells are moved, the place after them is left. *)
Fixpoint shift_left (n : nat) (p : Z) : M con Z :=
  match n with
  | O => mret p
  | S n => c ← ld_cell (p + 2); st_cell p c;; shift_left n (p + 2)
  end.

Definition delete_char : M con unit :=
  s ← get;
  if video_num_columns s <=? c_x s then mret tt else
  p ← shift_left (Z.to_nat (video_num_columns s - c_x s - 1)) (c_pos s);
  st_cell p (video_erase_char s).

(** Scrolling the part of the screen from the cursor's line on. *)
Definition with_region (scroll : M con unit) : M con unit :=
  s ← get;
  modify (fun s => s <| c_top := c_y s |> <| c_bottom := video_num_lines s |>);;
  scroll;;
  modify (fun s' => s' <| c_top := c_top s |> <| c_bottom := c_bottom s |>).

Definition insert_line : M con unit := with_region scrdown.
Definition delete_line : M con unit := with_region scrup.

Fixpoint times (n : nat) (m : M con unit) : M con unit :=
  match n with O => mret tt | S n => m;; times n m end.

(** [if (nr > max) nr = max; else if (!nr) nr = 1;] *)
Definition clamp (nr max : Z) : Z := if max <? nr then max else if nr =? 0 then 1 else nr.

Definition csi_at (nr : Z) : M con unit := s ← get; times (Z.to_nat (clamp nr (video_num_columns s))) insert_char.
Definition csi_L (nr : Z) : M con unit := s ← get; times (Z.to_nat (clamp nr (video_num_lines s))) insert_line.
Definition csi_P (nr : Z) : M con unit := s ← get; times (Z.to_nat (clamp nr (video_num_columns s))) delete_char.
Definition csi_M (nr : Z) : M con unit := s ← get; times (Z.to_nat (clamp nr (video_num_lines s))) delete_line.

Definition save_cur : M con unit := modify (fun s => s <| saved_x := c_x s |> <| saved_y := c_y s |>).
Definition restore_cur : M con unit := s ← get; gotoxy (saved_x s) (saved_y s).

(** ** Characters *)

(** The cursor is past the last column: go to the next line. *)
Definition wrap : M con unit :=
  modify (fun s => s <| c_x := c_x s - video_num_columns s |> <| c_pos := c_pos s - video_size_row s |>);;
  lf.

(** A printable character. *)
Definition put_char (c : Z) : M con unit :=
  s ← get;
  when (video_num_columns s <=? c_x s) wrap;;
  s ← get;
  st_cell (c_pos s) (Z.lor (Z.shiftl (c_attr s) 8) c);;
  modify (fun s => s <| c_pos ::= Z.add 2 |> <| c_x ::= Z.succ |>).

Definition backspace : M con unit :=
  s ← get;
  when (istrue (c_x s)) (modify (fun s => s <| c_x ::= Z.pred |> <| c_pos := c_pos s - 2 |>)).

Definition tab : M con unit :=
  s ← get;
  let c := 8 - Z.land (c_x s) 7 in
  modify (fun s => s <| c_x ::= Z.add c |> <| c_pos ::= Z.add (Z.shiftl c 1) |>);;
  s ← get;
  when (video_num_columns s <? c_x s) wrap.

(** [state] 2: the parameters are cleared. *)
Definition clear_par : M con unit :=
  modify (fun s => s <| par := replicate (Z.to_nat NPAR) 0 |> <| npar := 0 |>).

(** [if (par[i]) par[i]--;] and [if (!par[i]) par[i]++;] *)
Definition dec_par (i : Z) : M con Z := p ← get_par i; set_par i (if p =? 0 then 0 else p - 1);; get_par i.
Definition inc_par (i : Z) : M con Z := p ← get_par i; set_par i (if p =? 0 then 1 else p);; get_par i.

(** [top] and [bottom] *)
Definition csi_r : M con unit :=
  p0 ← dec_par 0;
  s ← get;
  p1 ← get_par 1;
  when (p1 =? 0) (set_par 1 (video_num_lines s));;
  p1 ← get_par 1;
  when ((p0 <? p1) && (p1 <=? video_num_lines s)) (modify (fun s => s <| c_top := p0 |> <| c_bottom := p1 |>)).

(** [state] 4: the character that ends a sequence. *)
Definition final_char (c : Z) : M con unit :=
  s ← get;
  let x := c_x s in
  let y := c_y s in
  if (c =? 71) || (c =? 96) then p ← dec_par 0; gotoxy p y
  else if c =? 65 then p ← inc_par 0; gotoxy x (u32 (y - p))
  else if (c =? 66) || (c =? 101) then p ← inc_par 0; gotoxy x (u32 (y + p))
  else if (c =? 67) || (c =? 97) then p ← inc_par 0; gotoxy (u32 (x + p)) y
  else if c =? 68 then p ← inc_par 0; gotoxy (u32 (x - p)) y
  else if c =? 69 then p ← inc_par 0; gotoxy 0 (u32 (y + p))
  else if c =? 70 then p ← inc_par 0; gotoxy 0 (u32 (y - p))
  else if c =? 100 then p ← dec_par 0; gotoxy x p
  else if (c =? 72) || (c =? 102) then p ← dec_par 0; q ← dec_par 1; gotoxy q p
  else if c =? 74 then p ← get_par 0; csi_J p
  else if c =? 75 then p ← get_par 0; csi_K p
  else if c =? 76 then p ← get_par 0; csi_L p
  else if c =? 77 then p ← get_par 0; csi_M p
  else if c =? 80 then p ← get_par 0; csi_P p
  else if c =? 64 then p ← get_par 0; csi_at p
  else if c =? 109 then csi_m
  else if c =? 114 then csi_r
  else if c =? 115 then save_cur
  else if c =? 117 then restore_cur
  else mret tt.

(** [state] 3, which falls through to 4. *)
Definition param_char (c : Z) : M con unit :=
  s ← get;
  if (c =? 59) && (npar s <? NPAR - 1) then modify (fun s => s <| npar ::= Z.succ |>)
  else if (48 <=? c) && (c <=? 57) then
    p ← get_par (npar s); set_par (npar s) (u32 (10 * p + c - 48))
  else
    modify (fun s => s <| c_state := 4 |>);;
    modify (fun s => s <| c_state := 0 |>);;
    final_char c.

(** [state] 2, which falls through to 3 unless a question mark follows. *)
Definition bracket_char (c : Z) : M con unit :=
  clear_par;;
  modify (fun s => s <| c_state := 3 |> <| ques := b2z (c =? 63) |>);;
  if c =? 63 then mret tt else param_char c.

(** The variables as the image holds them, before [con_init]. *)
Definition con_static : con :=
  mk_con 0 0 0 0 0 0 0 0 0 0 0 0 0 0 0 0 0 0 0 (replicate (Z.to_nat NPAR) 0) 0 0x07 0 0 ∅ [].
