(* ===== verification/ConsoleCells.v ===== *)
(** The string instructions and loops of the console on the cells of the video memory:
    [rewritten m m' lo hi f] says that [m'] holds [f] in [lo, hi) and is [m] elsewhere. *)

From S2P Require Import Prelude Console.

(** ** Cells of video memory *)

Definition cellv (m : gmap Z Z) (a : Z) : Z := default 0 (m !! a).

Lemma cellv_insert m a v b : cellv (<[a := v]> m) b = if decide (a = b) then v else cellv m b.
Proof. unfold cellv. case_decide as E; [subst; by rewrite lookup_insert_eq|by rewrite lookup_insert_ne]. Qed.

Lemma even_add2 a k : Z.even a = true -> Z.even (a + 2 * k) = true.
Proof. intros Ha. by rewrite Z.even_add_mul_2. Qed.

Lemma even_sub2 a : Z.even a = true -> Z.even (a - 2) = true.
Proof. intros Ha. replace (a - 2) with (a + 2 * (-1)) by lia. by apply even_add2. Qed.

Lemma even_plus2 a : Z.even a = true -> Z.even (a + 2) = true.
Proof. exact (even_add2 a 1). Qed.

(** Two even addresses are at least two apart. *)
Lemma even_apart a b : Z.even a = true -> Z.even b = true -> a < b -> a + 2 <= b.
Proof. intros [x ->]%Z.even_spec [y ->]%Z.even_spec. lia. Qed.

Create HintDb cells.
#[export] Hint Resolve even_add2 even_sub2 even_plus2 : cells.

(** [lo, hi) is a part of the video memory. *)
Definition inside (s : con) (lo hi : Z) : Prop := video_mem_start s <= lo /\ hi <= video_mem_end s.

Lemma in_video_true s lo hi a :
  inside s lo hi -> lo <= a < hi -> Z.even a = true -> in_video s a = true.
Proof. intros [Hl Hh] Ha He. unfold in_video. rewrite He. lia. Qed.

Lemma ld_cell_run s lo hi a :
  inside s lo hi -> lo <= a < hi -> Z.even a = true -> ld_cell a s = (Ret (cellv (vram s) a), s).
Proof. intros Hi Ha He. unfold ld_cell. by rewrite (in_video_true s lo hi a Hi Ha He). Qed.

(** The state with other cells. *)
Definition with_cells (s : con) (m : gmap Z Z) : con := s <| vram := m |>.

Lemma with_cells_id s : with_cells s (vram s) = s.
Proof. by destruct s. Qed.

Lemma st_cell_run s lo hi a v :
  inside s lo hi -> lo <= a < hi -> Z.even a = true -> st_cell a v s = (Ret tt, with_cells s (<[a := v]> (vram s))).
Proof. intros Hi Ha He. unfold st_cell. by rewrite (in_video_true s lo hi a Hi Ha He). Qed.

(** [m'] holds [f a] at the even addresses of [lo, hi) and is [m] elsewhere. *)
Definition rewritten (m m' : gmap Z Z) (lo hi : Z) (f : Z -> Z) : Prop :=
  forall b, Z.even b = true -> cellv m' b = if decide (lo <= b < hi) then f b else cellv m b.

Lemma stosw_ok n : forall v a s,
  inside s a (a + 2 * Z.of_nat n) -> Z.even a = true ->
  exists m, stosw n v a s = (Ret tt, with_cells s m) /\ rewritten (vram s) m a (a + 2 * Z.of_nat n) (fun _ => v).
Proof.
  induction n as [|n IH]; intros v a s Hin He.
  { exists (vram s). split; [by rewrite with_cells_id|]. intros b _. rewrite decide_False by lia. done. }
  cbn [stosw]. mrun (st_cell_run s _ _ a v Hin ltac:(lia) He).
  destruct (IH v (a + 2) (with_cells s (<[a := v]> (vram s)))) as (m & Hr & Hm); [destruct Hin; split; cbn; lia|auto with cells|].
  exists m. split; [exact Hr|]. intros b Hb. rewrite (Hm b Hb). cbn. rewrite cellv_insert.
  destruct (decide (a < b)) as [Hab|Hab]; [pose proof (even_apart a b He Hb Hab)|];
    repeat case_decide; try done; lia.
Qed.

Lemma stosw_down_ok n : forall v a s,
  inside s (a + 2 - 2 * Z.of_nat n) (a + 2) -> Z.even a = true ->
  exists m, stosw_down n v a s = (Ret tt, with_cells s m) /\
    rewritten (vram s) m (a + 2 - 2 * Z.of_nat n) (a + 2) (fun _ => v).
Proof.
  induction n as [|n IH]; intros v a s Hin He.
  { exists (vram s). split; [by rewrite with_cells_id|]. intros b _. rewrite decide_False by lia. done. }
  cbn [stosw_down]. mrun (st_cell_run s _ _ a v Hin ltac:(lia) He).
  destruct (IH v (a - 2) (with_cells s (<[a := v]> (vram s)))) as (m & Hr & Hm); [destruct Hin; split; cbn; lia|auto with cells|].
  exists m. split; [exact Hr|]. intros b Hb. rewrite (Hm b Hb). cbn. rewrite cellv_insert.
  destruct (decide (b < a)) as [Hab|Hab]; [pose proof (even_apart b a Hb He Hab)|];
    [|destruct (decide (a < b)) as [Hab'|Hab']; [pose proof (even_apart a b He Hb Hab')|]];
    repeat case_decide; try done; lia.
Qed.

(** One long: both cells are read before they are written. *)
Lemma movs_long_run s lo hi esi edi :
  inside s lo hi -> lo <= esi -> esi + 4 <= hi -> lo <= edi -> edi + 4 <= hi -> Z.even esi = true -> Z.even edi = true ->
  movs_long esi edi s = (Ret tt, with_cells s (<[edi + 2 := cellv (vram s) (esi + 2)]> (<[edi := cellv (vram s) esi]> (vram s)))).
Proof.
  intros Hin H1 H2 H3 H4 He He'. unfold movs_long.
  mrun (ld_cell_run s lo hi esi Hin ltac:(lia) He). mrun (ld_cell_run s lo hi (esi + 2) Hin ltac:(lia) (even_plus2 _ He)).
  mrun (st_cell_run s lo hi edi (cellv (vram s) esi) Hin ltac:(lia) He').
  exact (st_cell_run (with_cells s (<[edi := cellv (vram s) esi]> (vram s))) lo hi (edi + 2) (cellv (vram s) (esi + 2)) Hin ltac:(lia) (even_plus2 _ He')).
Qed.

(** What one long moved by [d] does to the cells. *)
Lemma pair_moved m esi edi : Z.even esi = true -> Z.even edi = true ->
  rewritten m (<[edi + 2 := cellv m (esi + 2)]> (<[edi := cellv m esi]> m)) edi (edi + 4) (fun b => cellv m (b + (esi - edi))).
Proof.
  intros He He' b Hb. rewrite !cellv_insert.
  destruct (decide (edi < b)) as [Hab|Hab]; [pose proof (even_apart _ _ He' Hb Hab)|];
    [destruct (decide (edi + 2 < b)) as [Hc|Hc]; [pose proof (even_apart (edi + 2) b (even_plus2 _ He') Hb Hc)|]|];
    repeat case_decide; try lia; try done; f_equal; lia.
Qed.

Lemma movsl_up_ok n lo hi : forall esi edi s,
  inside s lo hi -> lo <= edi <= esi -> esi + 4 * Z.of_nat n <= hi -> Z.even esi = true -> Z.even edi = true ->
  exists m, movsl_up n esi edi s = (Ret (edi + 4 * Z.of_nat n), with_cells s m) /\
    rewritten (vram s) m edi (edi + 4 * Z.of_nat n) (fun b => cellv (vram s) (b + (esi - edi))).
Proof.
  induction n as [|n IH]; intros esi edi s Hin Hlo Hhi He He'.
  { exists (vram s). split; [cbn; by rewrite with_cells_id, Z.add_0_r|]. intros b _. rewrite decide_False by lia. done. }
  cbn [movsl_up]. mrun (movs_long_run s lo hi esi edi Hin ltac:(lia) ltac:(lia) ltac:(lia) ltac:(lia) He He').
  pose proof (pair_moved (vram s) esi edi He He') as H1. set (m1 := <[_ := _]> _) in *. clearbody m1.
  destruct (IH (esi + 4) (edi + 4) (with_cells s m1)) as (m & Hr & Hm); [done|lia|lia|exact (even_add2 esi 2 He)|exact (even_add2 edi 2 He')|].
  exists m. split.
  { rewrite Hr. replace (edi + 4 + 4 * Z.of_nat n) with (edi + 4 * Z.of_nat (S n)) by lia. done. }
  intros b Hb. rewrite (Hm b Hb). change (vram (with_cells s m1)) with m1.
  replace (esi + 4 - (edi + 4)) with (esi - edi) by lia.
  assert (Z.even (b + (esi - edi)) = true) as Hbs by (rewrite Z.even_add, Z.even_sub, Hb, He, He'; done).
  rewrite !H1 by done. repeat case_decide; try lia; done.
Qed.

Lemma movsl_down_ok n lo hi : forall esi edi s,
  inside s lo hi -> esi <= edi -> edi + 4 <= hi -> (n = 0%nat \/ lo <= esi + 4 - 4 * Z.of_nat n) -> Z.even esi = true -> Z.even edi = true ->
  exists m, movsl_down n esi edi s = (Ret (edi - 4 * Z.of_nat n), with_cells s m) /\
    rewritten (vram s) m (edi + 4 - 4 * Z.of_nat n) (edi + 4) (fun b => cellv (vram s) (b + (esi - edi))).
Proof.
  induction n as [|n IH]; intros esi edi s Hin Hlo Hhi Hn He He'.
  { exists (vram s). split; [cbn; by rewrite with_cells_id, Z.sub_0_r|]. intros b _. rewrite decide_False by lia. done. }
  cbn [movsl_down]. mrun (movs_long_run s lo hi esi edi Hin ltac:(lia) ltac:(lia) ltac:(lia) ltac:(lia) He He').
  pose proof (pair_moved (vram s) esi edi He He') as H1. set (m1 := <[_ := _]> _) in *. clearbody m1.
  destruct (IH (esi - 4) (edi - 4) (with_cells s m1)) as (m & Hr & Hm); [done|lia|lia|lia|exact (even_add2 esi (-2) He)|exact (even_add2 edi (-2) He')|].
  exists m. split.
  { rewrite Hr. replace (edi - 4 - 4 * Z.of_nat n) with (edi - 4 * Z.of_nat (S n)) by lia. done. }
  intros b Hb. rewrite (Hm b Hb). change (vram (with_cells s m1)) with m1.
  replace (esi - 4 - (edi - 4)) with (esi - edi) by lia.
  assert (Z.even (b + (esi - edi)) = true) as Hbs by (rewrite Z.even_add, Z.even_sub, Hb, He, He'; done).
  rewrite !H1 by done. repeat case_decide; try lia; done.
Qed.

(** Inserting: each cell takes the value of the one before it. *)
Lemma shift_right_ok n : forall p old s,
  inside s p (p + 2 * Z.of_nat n) -> Z.even p = true ->
  exists m, shift_right n p old s = (Ret tt, with_cells s m) /\
    rewritten (vram s) m p (p + 2 * Z.of_nat n) (fun b => if decide (b = p) then old else cellv (vram s) (b - 2)).
Proof.
  induction n as [|n IH]; intros p old s Hin He.
  { exists (vram s). split; [by rewrite with_cells_id|]. intros b _. rewrite decide_False by lia. done. }
  cbn [shift_right]. mrun (ld_cell_run s _ _ p Hin ltac:(lia) He). mrun (st_cell_run s _ _ p old Hin ltac:(lia) He).
  destruct (IH (p + 2) (cellv (vram s) p) (with_cells s (<[p := old]> (vram s)))) as (m & Hr & Hm);
    [destruct Hin; split; cbn; lia|auto with cells|].
  exists m. split; [exact Hr|]. intros b Hb. rewrite (Hm b Hb). cbn. rewrite !cellv_insert.
  destruct (decide (p < b)) as [Hab|Hab]; [pose proof (even_apart p b He Hb Hab)|];
    repeat case_decide; try done; try lia; f_equal; lia.
Qed.

(** Deleting: each cell takes the value of the one after it. *)
Lemma shift_left_ok n : forall p s,
  inside s p (p + 2 * Z.of_nat n + 2) -> Z.even p = true ->
  exists m, shift_left n p s = (Ret (p + 2 * Z.of_nat n), with_cells s m) /\
    rewritten (vram s) m p (p + 2 * Z.of_nat n) (fun b => cellv (vram s) (b + 2)).
Proof.
  induction n as [|n IH]; intros p s Hin He.
  { exists (vram s). split; [cbn; by rewrite with_cells_id, Z.add_0_r|]. intros b _. rewrite decide_False by lia. done. }
  cbn [shift_left]. mrun (ld_cell_run s _ _ (p + 2) Hin ltac:(lia) (even_plus2 _ He)).
  mrun (st_cell_run s _ _ p (cellv (vram s) (p + 2)) Hin ltac:(lia) He).
  destruct (IH (p + 2) (with_cells s (<[p := cellv (vram s) (p + 2)]> (vram s)))) as (m & Hr & Hm);
    [destruct Hin; split; cbn; lia|auto with cells|].
  exists m. split; [rewrite Hr; replace (p + 2 + 2 * Z.of_nat n) with (p + 2 * Z.of_nat (S n)) by lia; done|].
  intros b Hb. rewrite (Hm b Hb). cbn. rewrite !cellv_insert.
  destruct (decide (p < b)) as [Hab|Hab]; [pose proof (even_apart p b He Hb Hab)|];
    repeat case_decide; try done; try lia; subst; try done; f_equal; lia.
Qed.
