(* ===== verification/Term.v ===== *)
(** The terminal that a program on the console sees: a grid of cells with a cursor, a scrolling
    region and the state of an escape sequence.  There are no addresses, no moving origin and no
    registers here; [ConsoleSpec] shows that the code of [console.c] implements this machine.

    A sequence is [ESC \[], parameters separated by semicolons, and a command.  A parameter that is
    missing or 0 counts as 1 where it is a distance, and as the first line or column where it is
    a place. *)

From S2P Require Import Prelude.

(** Where the input is: in text, after [ESC], after [ESC \[], or in the parameters. *)
Inductive parse := Ground | Escape | Bracket | Params (ps : list Z).

Record term := mk_term {
  tm_cols : Z; tm_lines : Z; tm_erase : Z;
  tm_x : Z; tm_y : Z; tm_top : Z; tm_bottom : Z; tm_attr : Z; tm_sx : Z; tm_sy : Z;
  tm_parse : parse; tm_cell : Z -> Z -> Z
}.

#[export] Instance eta_term : Eta term := fun t =>
  mk_term (tm_cols t) (tm_lines t) (tm_erase t) (tm_x t) (tm_y t) (tm_top t) (tm_bottom t) (tm_attr t)
    (tm_sx t) (tm_sy t) (tm_parse t) (tm_cell t).

(** ** The grid *)

(** The cells from the place [lo] to before [hi], counted line by line, are erased. *)
Definition blank_out (lo hi : Z) (t : term) : term :=
  t <| tm_cell := fun r c => if decide (lo <= r * tm_cols t + c < hi) then tm_erase t else tm_cell t r c |>.

Definition scroll_up (lo hi : Z) (t : term) : term :=
  t <| tm_cell := fun r c =>
    if decide (lo <= r < hi - 1) then tm_cell t (r + 1) c else if decide (r = hi - 1) then tm_erase t else tm_cell t r c |>.

Definition scroll_down (lo hi : Z) (t : term) : term :=
  t <| tm_cell := fun r c =>
    if decide (lo < r < hi) then tm_cell t (r - 1) c else if decide (r = lo) then tm_erase t else tm_cell t r c |>.

(** In the cursor's line, from the cursor on. *)
Definition insert_blank (t : term) : term :=
  t <| tm_cell := fun r c =>
    if decide (r = tm_y t /\ tm_x t <= c) then if decide (c = tm_x t) then tm_erase t else tm_cell t r (c - 1) else tm_cell t r c |>.

Definition delete_cell (t : term) : term :=
  t <| tm_cell := fun r c =>
    if decide (r = tm_y t /\ tm_x t <= c) then if decide (c = tm_cols t - 1) then tm_erase t else tm_cell t r (c + 1) else tm_cell t r c |>.

Definition put_cell (v : Z) (t : term) : term :=
  t <| tm_cell := fun r c => if decide (r = tm_y t /\ c = tm_x t) then v else tm_cell t r c |>.

(** ** The cursor *)

(** A place outside the screen is ignored; the column after the last one is inside. *)
Definition move (x y : Z) (t : term) : term :=
  if (tm_cols t <? x) || (tm_lines t <=? y) then t else t <| tm_x := x |> <| tm_y := y |>.

Definition line_feed (t : term) : term :=
  if tm_y t + 1 <? tm_bottom t then t <| tm_y ::= Z.succ |> else scroll_up (tm_top t) (tm_bottom t) t.

Definition line_back (t : term) : term :=
  if tm_top t <? tm_y t then t <| tm_y ::= Z.pred |> else scroll_down (tm_top t) (tm_bottom t) t.

Definition carriage_return (t : term) : term := t <| tm_x := 0 |>.

Definition back (t : term) : term := if tm_x t =? 0 then t else t <| tm_x ::= Z.pred |>.

Definition rub_cell (t : term) : term := if tm_x t =? 0 then t else put_cell (tm_erase t) (back t).

Definition next_line (t : term) : term := line_feed (t <| tm_x := tm_x t - tm_cols t |>).

Definition print (c : Z) (t : term) : term :=
  let t := if tm_cols t <=? tm_x t then next_line t else t in
  (put_cell (tm_attr t * 256 + c) t) <| tm_x ::= Z.succ |>.

(** To the next multiple of 8, or as far into the next line as it lies past the end of this one. *)
Definition next_stop (t : term) : term :=
  let t := t <| tm_x := 8 * (tm_x t / 8 + 1) |> in
  if tm_cols t <? tm_x t then next_line t else t.

Definition save (t : term) : term := t <| tm_sx := tm_x t |> <| tm_sy := tm_y t |>.
Definition restore (t : term) : term := move (tm_sx t) (tm_sy t) t.

(** ** Commands *)

Definition arg (i : nat) (ps : list Z) : Z := nth i ps 0.
Definition place (p : Z) : Z := if p =? 0 then 0 else p - 1.
Definition distance (p : Z) : Z := if p =? 0 then 1 else p.
(** A count of cells or lines. *)
Definition count_to (max p : Z) : nat := Z.to_nat (Z.min max (distance p)).

Definition erase_display (p : Z) (t : term) : term :=
  let here := tm_y t * tm_cols t + tm_x t in
  let all := tm_lines t * tm_cols t in
  if p =? 0 then blank_out here all t else if p =? 1 then blank_out 0 here t else if p =? 2 then blank_out 0 all t else t.

Definition erase_line (p : Z) (t : term) : term :=
  let first := tm_y t * tm_cols t in
  let here := first + tm_x t in
  let last := first + tm_cols t in
  if p =? 0 then blank_out here last t else if p =? 1 then blank_out first here t else if p =? 2 then blank_out first last t else t.

Definition rendition (old p : Z) : Z :=
  if (p =? 0) || (p =? 27) then 0x07 else if (p =? 1) || (p =? 4) then 0x0f else if p =? 7 then 0x70 else old.

Definition set_region (ps : list Z) (t : term) : term :=
  let top := place (arg 0 ps) in
  let bottom := if arg 1 ps =? 0 then tm_lines t else arg 1 ps in
  if (top <? bottom) && (bottom <=? tm_lines t) then t <| tm_top := top |> <| tm_bottom := bottom |> else t.

(** A distance is taken modulo 2^32, the width of a parameter. *)
Definition command (c : Z) (ps : list Z) (t : term) : term :=
  let x := tm_x t in
  let y := tm_y t in
  let d := distance (arg 0 ps) in
  if (c =? 71) || (c =? 96) then move (place (arg 0 ps)) y t
  else if c =? 65 then move x (u32 (y - d)) t
  else if (c =? 66) || (c =? 101) then move x (u32 (y + d)) t
  else if (c =? 67) || (c =? 97) then move (u32 (x + d)) y t
  else if c =? 68 then move (u32 (x - d)) y t
  else if c =? 69 then move 0 (u32 (y + d)) t
  else if c =? 70 then move 0 (u32 (y - d)) t
  else if c =? 100 then move x (place (arg 0 ps)) t
  else if (c =? 72) || (c =? 102) then move (place (arg 1 ps)) (place (arg 0 ps)) t
  else if c =? 74 then erase_display (arg 0 ps) t
  else if c =? 75 then erase_line (arg 0 ps) t
  else if c =? 76 then Nat.iter (count_to (tm_lines t) (arg 0 ps)) (scroll_down y (tm_lines t)) t
  else if c =? 77 then Nat.iter (count_to (tm_lines t) (arg 0 ps)) (scroll_up y (tm_lines t)) t
  else if c =? 80 then if tm_cols t <=? x then t else Nat.iter (count_to (tm_cols t) (arg 0 ps)) delete_cell t
  else if c =? 64 then Nat.iter (count_to (tm_cols t) (arg 0 ps)) insert_blank t
  else if c =? 109 then t <| tm_attr := foldl rendition (tm_attr t) ps |>
  else if c =? 114 then set_region ps t
  else if c =? 115 then save t
  else if c =? 117 then restore t
  else t.

(** ** Characters *)

(** The digit [c] is added to the last parameter. *)
Definition digit (c : Z) (ps : list Z) : list Z :=
  removelast ps ++ [u32 (10 * List.last ps 0 + (c - 48))].

(** A character among the parameters; at most 16 are kept. *)
Definition term_param (c : Z) (ps : list Z) (t : term) : term :=
  if (c =? 59) && (length ps <? 16)%nat then t <| tm_parse := Params (ps ++ [0]) |>
  else if (48 <=? c) && (c <=? 57) then t <| tm_parse := Params (digit c ps) |>
  else command c ps (t <| tm_parse := Ground |>).

(** A character in text; [erase] is the terminal's character that rubs out. *)
Definition term_text (erase c : Z) (t : term) : term :=
  if (31 <? c) && (c <? 127) then print c t
  else if c =? 27 then t <| tm_parse := Escape |>
  else if (c =? 10) || (c =? 11) || (c =? 12) then line_feed t
  else if c =? 13 then carriage_return t
  else if c =? erase then rub_cell t
  else if c =? 8 then back t
  else if c =? 9 then next_stop t
  else t.

(** The character after [ESC].  The cursor is saved and restored when it is in column 55 or 56,
    whatever the character: the code compares the column with '7' and '8'. *)
Definition term_escape (c : Z) (t : term) : term :=
  let t := t <| tm_parse := Ground |> in
  if c =? 91 then t <| tm_parse := Bracket |>
  else if c =? 69 then move 0 (tm_y t + 1) t
  else if c =? 77 then line_back t
  else if c =? 68 then line_feed t
  else if tm_x t =? 55 then save t
  else if tm_x t =? 56 then restore t
  else t.

Definition term_char (erase : Z) (t : term) (c : Z) : term :=
  match tm_parse t with
  | Ground => term_text erase c t
  | Escape => term_escape c t
  | Bracket => if c =? 63 then t <| tm_parse := Params [0] |> else term_param c [0] t
  | Params ps => term_param c ps t
  end.
