(* ===== verification/ConsoleSpec.v ===== *)
(** The screen of [Console] implements the terminal of [Term].

    [screen_ok] is the invariant: the address of the cursor belongs to its line and column, the
    screen lies inside the video memory, and the display controller, whose registers [crtc]
    reads off the log of port writes, starts the picture at [origin].  [shows s t] says that the
    cells of the screen and the cursor of [s] are those of [t]; [refines m f] says that [m]
    returns, keeps the invariant and does to the screen what [f] does to the terminal. *)

From S2P Require Import Prelude Console ConsoleCells Term.

(** ** The invariant *)

(** The value last written to register [i] of the controller: the newest pair of writes that
    selects [i] and then gives a value.  The log has the newest first. *)
Fixpoint crtc (reg val i : Z) (log : list (Z * Z)) : Z :=
  match log with
  | [] => 0
  | (v, p) :: log =>
      match log with
      | (j, q) :: _ => if (p =? val) && (q =? reg) && (j =? i) then v else crtc reg val i log
      | [] => 0
      end
  end.

(** A register pair, the high byte first, as a place in cells from the start of the memory. *)
Definition crtc_pair (s : con) (i : Z) : Z :=
  256 * crtc (video_port_reg s) (video_port_val s) i (c_ports s) +
  crtc (video_port_reg s) (video_port_val s) (i + 1) (c_ports s).

Record geom_ok (s : con) : Prop := {
  go_row : video_size_row s = 2 * video_num_columns s;
  go_cols : 8 <= video_num_columns s /\ Z.even (video_num_columns s) = true;
  go_mem : 0 <= video_mem_start s /\ video_mem_end s <= 0x100000 /\ video_mem_end s - video_mem_start s <= 0x8000;
  go_start : Z.even (video_mem_start s) = true;
  go_origin : video_mem_start s <= origin s /\ Z.even (origin s) = true;
  go_end : scr_end s = origin s + video_num_lines s * video_size_row s /\ scr_end s <= video_mem_end s;
  go_pos : c_pos s = origin s + c_y s * video_size_row s + 2 * c_x s;
  go_x : 0 <= c_x s <= video_num_columns s;
  go_y : 0 <= c_y s < video_num_lines s;
  go_region : 0 <= c_top s < c_bottom s /\ c_bottom s <= video_num_lines s;
  go_saved : 0 <= saved_x s /\ 0 <= saved_y s;
  go_par : length (par s) = 16%nat /\ Forall (Z.le 0) (par s);
  go_ports : video_port_reg s <> video_port_val s
}.

(** The picture starts at [origin]: registers 12 and 13. *)
Definition display_ok (s : con) : Prop := origin s = video_mem_start s + 2 * crtc_pair s 12.

Definition screen_ok (s : con) : Prop := geom_ok s /\ display_ok s.

(** ** The terminal on the screen *)

Definition addr (s : con) (r c : Z) : Z := origin s + 2 * (r * video_num_columns s + c).

Definition on_screen (s : con) (r c : Z) : Prop := 0 <= r < video_num_lines s /\ 0 <= c < video_num_columns s.

Definition agrees (s : con) (g : Z -> Z -> Z) : Prop :=
  forall r c, on_screen s r c -> g r c = cellv (vram s) (addr s r c).

(** The variables hold the parameters of a sequence only while one is read. *)
Definition parsing (s : con) (p : parse) : Prop :=
  match p with
  | Ground => c_state s = 0
  | Escape => c_state s = 1
  | Bracket => c_state s = 2
  | Params ps => c_state s = 3 /\ (1 <= length ps <= 16)%nat /\ npar s = Z.of_nat (length ps) - 1 /\
      par s = ps ++ replicate (16 - length ps) 0
  end.

Definition view (s : con) (p : parse) (g : Z -> Z -> Z) : term :=
  mk_term (video_num_columns s) (video_num_lines s) (video_erase_char s) (c_x s) (c_y s) (c_top s) (c_bottom s)
    (c_attr s) (saved_x s) (saved_y s) p g.

Definition shows (s : con) (t : term) : Prop := exists p g, t = view s p g /\ parsing s p /\ agrees s g.

Definition runs_to (m : M con unit) (s : con) (t : term) : Prop :=
  exists s', m s = (Ret tt, s') /\ screen_ok s' /\ shows s' t.

Definition refines (m : M con unit) (f : term -> term) : Prop :=
  forall s t, screen_ok s -> shows s t -> runs_to m s (f t).

(** ** Composition *)

Lemma runs_seq m m' f s t : runs_to m s t -> refines m' f -> runs_to (m;; m') s (f t).
Proof. intros (s1 & E & Hok & Hs) Hm'. destruct (Hm' s1 t Hok Hs) as (s2 & E2 & H2). exists s2. split; [by mrun E|done]. Qed.

Lemma refines_times n m f : refines m f -> refines (times n m) (Nat.iter n f).
Proof.
  intros Hm. induction n as [|n IH]; intros s t Hok Hs; [by exists s|]. cbn [times]. rewrite Nat.iter_succ_r.
  destruct (Hm s t Hok Hs) as (s1 & E & Hok1 & Hs1). destruct (IH s1 (f t) Hok1 Hs1) as (s2 & E2 & H2).
  exists s2. split; [by mrun E|done].
Qed.

(** The same grid, in other words. *)
Lemma shows_ext s t t' : shows s t -> t' = t <| tm_cell := tm_cell t' |> ->
  (forall r c, 0 <= r < tm_lines t -> 0 <= c < tm_cols t -> tm_cell t' r c = tm_cell t r c) -> shows s t'.
Proof.
  intros (p & g & -> & Hp & Hg) Et Hc. exists p, (tm_cell t'). split; [exact Et|]. split; [done|].
  intros r c [Hr Hcc]. rewrite (Hc r c Hr Hcc). by apply Hg.
Qed.

Lemma runs_ext m s t t' : runs_to m s t -> t' = t <| tm_cell := tm_cell t' |> ->
  (forall r c, 0 <= r < tm_lines t -> 0 <= c < tm_cols t -> tm_cell t' r c = tm_cell t r c) -> runs_to m s t'.
Proof. intros (s' & E & Hok & Hs) Ht Hc. exists s'. split; [done|]. split; [done|]. by apply (shows_ext s' t). Qed.

(** ** Addresses *)

Lemma rows_le a b c : 0 <= c -> a <= b -> a * c <= b * c.
Proof. intros. by apply Z.mul_le_mono_nonneg_r. Qed.

(** A cell of line [r] lies in the lines from [a] to [b] if [r] does. *)
Lemma row_range cols a b r c : 0 <= c < cols -> a * cols <= r * cols + c < b * cols <-> a <= r < b.
Proof.
  intros Hc. split; intros [H1 H2].
  - pose proof (rows_le (r + 1) a cols). pose proof (rows_le b r cols). lia.
  - pose proof (rows_le a r cols). pose proof (rows_le (r + 1) b cols). lia.
Qed.

Lemma half_even n k : Z.even k = true -> 4 * Z.shiftr (n * k) 1 = 2 * (n * k).
Proof.
  intros [j ->]%Z.even_spec. rewrite Z.shiftr_div_pow2 by lia. change (2 ^ 1) with 2.
  replace (n * (2 * j)) with (n * j * 2) by lia. rewrite Z.div_mul; lia.
Qed.

Lemma geom_cells s m : geom_ok s -> geom_ok (with_cells s m).
Proof. by intros []. Qed.

Lemma screen_cells s m : screen_ok s -> screen_ok (with_cells s m).
Proof. intros [Hg Hd]. split; [by apply geom_cells|exact Hd]. Qed.

Lemma addr_even s r c : geom_ok s -> Z.even (addr s r c) = true.
Proof. intros G. apply even_add2, G. Qed.

(** The screen is inside the memory. *)
Lemma screen_inside s : geom_ok s -> inside s (origin s) (origin s + 2 * (video_num_lines s * video_num_columns s)).
Proof. intros [? ? ? ? [? ?] [? ?] ? ? ? ? ? ? ?]. split; lia. Qed.

Lemma part_inside s lo hi : geom_ok s -> 0 <= lo -> hi <= video_num_lines s * video_num_columns s ->
  inside s (origin s + 2 * lo) (origin s + 2 * hi).
Proof. intros G ? ?. destruct (screen_inside s G). split; lia. Qed.

(** New cells in the places from [lo] to before [hi]. *)
Lemma agrees_rewritten s g g' m lo hi f :
  geom_ok s -> agrees s g -> rewritten (vram s) m (origin s + 2 * lo) (origin s + 2 * hi) f ->
  (forall r c, on_screen s r c ->
    g' r c = if decide (lo <= r * video_num_columns s + c < hi) then f (addr s r c) else g r c) ->
  agrees (with_cells s m) g'.
Proof.
  intros G Hg Hm Hg' r c Hrc. rewrite (Hg' r c Hrc). cbn [vram with_cells].
  change (addr (with_cells s m) r c) with (addr s r c). change (vram (with_cells s m)) with m.
  rewrite (Hm (addr s r c) (addr_even s r c G)).
  assert (addr s r c = origin s + 2 * (r * video_num_columns s + c)) as Ha by done.
  repeat case_decide; try lia. by apply Hg.
Qed.

(** [rep stosw] of the erase character over the places from [lo] to before [hi]. *)
Lemma erase_cells s p g lo hi :
  geom_ok s -> agrees s g -> 0 <= lo <= hi -> hi <= video_num_lines s * video_num_columns s ->
  exists m, stosw (Z.to_nat (hi - lo)) (video_erase_char s) (origin s + 2 * lo) s = (Ret tt, with_cells s m) /\
    agrees (with_cells s m) (tm_cell (blank_out lo hi (view s p g))).
Proof.
  intros G Hg Hlo Hhi. destruct (stosw_ok (Z.to_nat (hi - lo)) (video_erase_char s) (origin s + 2 * lo) s) as (m & E & Hm).
  - replace (origin s + 2 * lo + 2 * Z.of_nat (Z.to_nat (hi - lo))) with (origin s + 2 * hi) by lia. apply part_inside; [done|lia|done].
  - apply even_add2, G.
  - replace (origin s + 2 * lo + 2 * Z.of_nat (Z.to_nat (hi - lo))) with (origin s + 2 * hi) in Hm by lia.
    exists m. split; [done|]. apply (agrees_rewritten s g _ m lo hi _ G Hg Hm). intros r c _. done.
Qed.

Lemma erase_ok s p g lo hi :
  screen_ok s -> parsing s p -> agrees s g -> 0 <= lo <= hi -> hi <= video_num_lines s * video_num_columns s ->
  runs_to (stosw (Z.to_nat (hi - lo)) (video_erase_char s) (origin s + 2 * lo)) s (blank_out lo hi (view s p g)).
Proof.
  intros Hok Hp Hg Hlo Hhi. destruct (erase_cells s p g lo hi (proj1 Hok) Hg Hlo Hhi) as (m & E & Hm).
  exists (with_cells s m). split; [done|]. split; [by apply screen_cells|]. by eexists p, _.
Qed.

(** ** The registers of the display *)

(** The writes of [set_origin] and [set_cursor]: the pair of registers from [i] on. *)
Definition pair_log (s : con) (i d : Z) : list (Z * Z) :=
  (Z.land 0xff (Z.shiftr d 1), video_port_val s) :: (i + 1, video_port_reg s) ::
  (Z.land 0xff (Z.shiftr d 9), video_port_val s) :: (i, video_port_reg s) :: c_ports s.

Definition with_ports (s : con) (log : list (Z * Z)) : con := s <| c_ports := log |>.

(** A pair of bytes written as [set_origin] and [set_cursor] do reads back. *)
Lemma pair_written s i d : video_port_reg s <> video_port_val s -> 0 <= d < 131072 ->
  crtc_pair (with_ports s (pair_log s i d)) i = d / 2.
Proof.
  intros Hne Hd. unfold crtc_pair, with_ports, pair_log. cbn [upd eta_con c_ports video_port_reg video_port_val crtc].
  rewrite !Z.eqb_refl. destruct (Z.eqb_spec (i + 1) i); [lia|]. destruct (Z.eqb_spec (video_port_reg s) (video_port_val s)); [done|]. cbn [andb].
  rewrite !(Z.land_comm 0xff). change 0xff with (2 ^ 8 - 1). rewrite !land_mask_mod, !Z.shiftr_div_pow2 by lia.
  change (2 ^ 9) with (2 * 256). change (2 ^ 1) with 2. change (2 ^ 8) with 256. rewrite <- Z.div_div by lia.
  rewrite (Z.mod_small (d / 2 / 256)); [|split; [|apply Z.div_lt_upper_bound; [|apply Z.div_lt_upper_bound]]; try lia; repeat apply Z.div_pos; lia].
  symmetry. apply Z_div_mod_eq_full.
Qed.

(** Writes to other registers do not count. *)
Lemma pair_skipped s i j d : video_port_reg s <> video_port_val s -> i + 1 < j ->
  crtc_pair (with_ports s (pair_log s j d)) i = crtc_pair s i.
Proof.
  intros Hne Hj. unfold crtc_pair, with_ports, pair_log. cbn [upd eta_con c_ports video_port_reg video_port_val crtc].
  rewrite !Z.eqb_refl. destruct (Z.eqb_spec (video_port_reg s) (video_port_val s)); [done|].
  repeat match goal with |- context [?a =? ?b] => destruct (Z.eqb_spec a b); [lia|] end. cbn [andb].
  by destruct (c_ports s) as [|[] ?].
Qed.

Lemma geom_ports s log : geom_ok s -> geom_ok (with_ports s log).
Proof. by intros []. Qed.

Lemma shows_ports s log t : shows s t -> shows (with_ports s log) t.
Proof. intros (p & g & -> & Hp & Hg). by exists p, g. Qed.

(** A place in the memory survives the way through the registers. *)
Lemma place_bounds s a : geom_ok s -> origin s <= a <= scr_end s -> 0 <= a - video_mem_start s < 131072.
Proof. intros G ?. pose proof (go_origin s G). pose proof (go_mem s G). pose proof (go_end s G). lia. Qed.

Lemma half_place a b : Z.even a = true -> Z.even b = true -> a = b + 2 * ((a - b) / 2).
Proof. intros [x ->]%Z.even_spec [y ->]%Z.even_spec. replace (2 * x - 2 * y) with ((x - y) * 2) by lia. rewrite Z.div_mul; lia. Qed.

Lemma screen_size s : geom_ok s -> 0 <= video_num_lines s * video_size_row s.
Proof. intros G. pose proof (go_row s G). pose proof (go_cols s G). pose proof (go_y s G). apply Z.mul_nonneg_nonneg; lia. Qed.

Lemma set_origin_ok s t : geom_ok s -> shows s t -> runs_to set_origin s t.
Proof.
  intros G Hs. exists (with_ports s (pair_log s 12 (origin s - video_mem_start s))). split; [reflexivity|].
  split; [|by apply shows_ports]. split; [by apply geom_ports|]. unfold display_ok.
  pose proof (screen_size s G). pose proof (go_end s G).
  rewrite pair_written; [apply half_place; apply G|apply G|apply place_bounds; [done|lia]].
Qed.

(** ** Scrolling *)

(** [rep movsl] moves half as many longs as there are cells. *)
Lemma longs n k : 0 <= n -> 0 <= k -> Z.even k = true -> 4 * Z.of_nat (Z.to_nat (Z.shiftr (n * k) 1)) = 2 * (n * k).
Proof.
  intros Hn Hk He. rewrite <- half_even by done. rewrite Z2Nat.id; [done|]. apply Z.shiftr_nonneg. by apply Z.mul_nonneg_nonneg.
Qed.

(** The facts on the geometry that the arithmetic needs. *)
Ltac geom G :=
  pose proof (go_row _ G); pose proof (go_cols _ G) as [? ?]; pose proof (go_end _ G) as [? ?]; pose proof (go_pos _ G);
  pose proof (go_x _ G); pose proof (go_y _ G); pose proof (go_region _ G) as [? ?]; pose proof (go_origin _ G) as [? ?].

Lemma scrup_region_ok s p g : screen_ok s -> parsing s p -> agrees s g ->
  runs_to scrup_region s (scroll_up (c_top s) (c_bottom s) (view s p g)).
Proof.
  intros Hok Hp Hg. pose proof (proj1 Hok) as G. geom G. unfold scrup_region, runs_to. rewrite bind_get.
  set (cols := video_num_columns s) in *. set (top := c_top s) in *. set (bottom := c_bottom s) in *.
  pose proof (longs (bottom - top - 1) cols ltac:(lia) ltac:(lia) ltac:(done)) as En. set (n := Z.to_nat (Z.shiftr _ 1)) in *.
  pose proof (rows_le bottom (video_num_lines s) cols ltac:(lia) ltac:(lia)). pose proof (rows_le 0 top cols ltac:(lia) ltac:(lia)).
  destruct (movsl_up_ok n _ _ (origin s + video_size_row s * (top + 1)) (origin s + video_size_row s * top) s (screen_inside s G))
    as (m & E & Hm); [fold cols; lia|fold cols; lia|..].
  { replace (video_size_row s * (top + 1)) with (2 * (cols * (top + 1))) by lia. by apply even_add2. }
  { replace (video_size_row s * top) with (2 * (cols * top)) by lia. by apply even_add2. }
  mrun E.
  replace (origin s + video_size_row s * top + 4 * Z.of_nat n) with (origin s + 2 * ((bottom - 1) * cols)) in * by lia.
  replace (origin s + video_size_row s * top) with (origin s + 2 * (top * cols)) in Hm by lia.
  set (s1 := with_cells s m). set (g1 := fun r c => if decide (top <= r < bottom - 1) then g (r + 1) c else g r c).
  assert (agrees s1 g1) as Hg1.
  { apply (agrees_rewritten s g g1 m _ _ _ G Hg Hm). intros r c [Hr Hc]. fold cols in Hc |- *. unfold g1.
    pose proof (row_range cols top (bottom - 1) r c Hc). repeat case_decide; try lia; try done.
    rewrite (Hg (r + 1) c) by (split; [lia|done]). f_equal. unfold addr. fold cols. lia. }
  pose proof (erase_ok s1 p g1 ((bottom - 1) * cols) (bottom * cols) (screen_cells s m Hok) Hp Hg1) as He.
  replace (bottom * cols - (bottom - 1) * cols) with cols in He by lia.
  refine (runs_ext _ s1 _ _ (He _ _) _ _); [pose proof (rows_le 0 (bottom - 1) cols); lia|done|reflexivity|].
  intros r c Hr Hc. change (tm_cols _) with cols in Hc. cbn. fold cols. unfold g1.
  pose proof (row_range cols (bottom - 1) bottom r c Hc). repeat case_decide; try lia; done.
Qed.

Lemma scrdown_ok s p g : screen_ok s -> parsing s p -> agrees s g ->
  runs_to scrdown s (scroll_down (c_top s) (c_bottom s) (view s p g)).
Proof.
  intros Hok Hp Hg. pose proof (proj1 Hok) as G. geom G. unfold scrdown, runs_to. rewrite bind_get.
  set (cols := video_num_columns s) in *. set (top := c_top s) in *. set (bottom := c_bottom s) in *.
  pose proof (longs (bottom - top - 1) cols ltac:(lia) ltac:(lia) ltac:(done)) as En. set (n := Z.to_nat (Z.shiftr _ 1)) in *.
  pose proof (rows_le bottom (video_num_lines s) cols ltac:(lia) ltac:(lia)). pose proof (rows_le 0 top cols ltac:(lia) ltac:(lia)).
  destruct (movsl_down_ok n _ _ (origin s + video_size_row s * (bottom - 1) - 4) (origin s + video_size_row s * bottom - 4) s (screen_inside s G))
    as (m & E & Hm); [lia|fold cols; lia|right; lia|..].
  { replace (origin s + video_size_row s * (bottom - 1) - 4) with (origin s + 2 * (cols * (bottom - 1) - 2)) by lia. by apply even_add2. }
  { replace (origin s + video_size_row s * bottom - 4) with (origin s + 2 * (cols * bottom - 2)) by lia. by apply even_add2. }
  mrun E.
  replace (origin s + video_size_row s * bottom - 4 + 4 - 4 * Z.of_nat n) with (origin s + 2 * ((top + 1) * cols)) in Hm by lia.
  replace (origin s + video_size_row s * bottom - 4 + 4) with (origin s + 2 * (bottom * cols)) in Hm by lia.
  replace (origin s + video_size_row s * bottom - 4 - 4 * Z.of_nat n + 2) with (origin s + 2 * ((top + 1) * cols - 1)) by lia.
  set (s1 := with_cells s m). set (g1 := fun r c => if decide (top < r < bottom) then g (r - 1) c else g r c).
  assert (agrees s1 g1) as Hg1.
  { apply (agrees_rewritten s g g1 m _ _ _ G Hg Hm). intros r c [Hr Hc]. fold cols in Hc |- *. unfold g1.
    pose proof (row_range cols (top + 1) bottom r c Hc). repeat case_decide; try lia; try done.
    rewrite (Hg (r - 1) c) by (split; [lia|done]). f_equal. unfold addr. fold cols. lia. }
  destruct (stosw_down_ok (Z.to_nat cols) (video_erase_char s) (origin s + 2 * ((top + 1) * cols - 1)) s1) as (m' & E' & Hm').
  { apply (part_inside s (top * cols) ((top + 1) * cols)) in G as Hin; [|lia|pose proof (rows_le (top + 1) bottom cols); lia].
    destruct Hin. split; cbn; lia. }
  { by apply even_add2. }
  replace (origin s + 2 * ((top + 1) * cols - 1) + 2 - 2 * Z.of_nat (Z.to_nat cols)) with (origin s1 + 2 * (top * cols)) in Hm' by (cbn; lia).
  replace (origin s + 2 * ((top + 1) * cols - 1) + 2) with (origin s1 + 2 * ((top + 1) * cols)) in Hm' by (cbn; lia).
  exists (with_cells s1 m'). split; [exact E'|]. split; [by do 2 apply screen_cells|]. eexists p, _. split; [reflexivity|]. split; [done|].
  apply (agrees_rewritten s1 g1 _ m' _ _ _ (geom_cells s m G) Hg1 Hm'). intros r c [Hr Hc]. change (video_num_columns s1) with cols in Hc |- *.
  pose proof (row_range cols top (top + 1) r c Hc). cbn. unfold g1. repeat case_decide; try lia; done.
Qed.

(** The picture moved by [d] bytes in the video memory. *)
Definition moved (s : con) (d : Z) : con :=
  s <| origin ::= Z.add d |> <| c_pos ::= Z.add d |> <| scr_end ::= Z.add d |>.

(** The whole screen, with room for another line. *)
Lemma scrup_origin_room s p g : screen_ok s -> parsing s p -> scr_end s + video_size_row s <= video_mem_end s -> agrees s g ->
  runs_to scrup_origin s (scroll_up 0 (video_num_lines s) (view s p g)).
Proof.
  intros Hok Hp Hroom Hg. pose proof (proj1 Hok) as G. geom G. unfold scrup_origin, runs_to. rewrite bind_modify, bind_get.
  set (s1 := moved s (video_size_row s)).
  change (s <| origin ::= _ |> <| c_pos ::= _ |> <| scr_end ::= _ |>) with s1.
  assert (geom_ok s1) as G1.
  { destruct G. split; cbn; try done; try lia. split; [lia|]. replace (video_size_row s) with (2 * video_num_columns s) by lia.
    rewrite Z.add_comm. by apply even_add2. }
  set (cols := video_num_columns s) in *. set (lines := video_num_lines s) in *.
  set (g1 := fun r c => cellv (vram s) (addr s1 r c)).
  pose proof (rows_le 0 (lines - 1) cols ltac:(lia) ltac:(lia)).
  destruct (erase_cells s1 p g1 ((lines - 1) * cols) (lines * cols) G1) as (m & E & Hm); [done|lia|cbn; fold cols lines; lia|].
  replace (lines * cols - (lines - 1) * cols) with cols in E by lia.
  replace (origin s1 + 2 * ((lines - 1) * cols)) with (scr_end s1 - video_size_row s1) in E by (cbn; lia).
  change (video_mem_end s1) with (video_mem_end s). replace (video_mem_end s <? scr_end s1) with false by (cbn; lia).
  change (video_num_columns s1) with cols. mrun E.
  refine (runs_ext _ _ (blank_out ((lines - 1) * cols) (lines * cols) (view s1 p g1)) _ (set_origin_ok _ _ (geom_cells s1 m G1) _) _ _);
    [by eexists p, _|reflexivity|].
  intros r c Hr Hc. change (tm_cols _) with cols in Hc. change (tm_lines _) with lines in Hr. cbn. fold cols. unfold g1.
  pose proof (row_range cols (lines - 1) lines r c Hc). repeat case_decide; try lia; try done.
  rewrite (Hg (r + 1) c) by (split; [fold lines; lia|done]). f_equal. unfold addr. cbn. fold cols. lia.
Qed.

(** The same when the end of the memory is reached: the lines go back to its start. *)
Lemma scrup_origin_wrap s p g : screen_ok s -> parsing s p -> video_mem_end s < scr_end s + video_size_row s -> agrees s g ->
  runs_to scrup_origin s (scroll_up 0 (video_num_lines s) (view s p g)).
Proof.
  intros Hok Hp Hroom Hg. pose proof (proj1 Hok) as G. geom G. unfold scrup_origin, runs_to. rewrite bind_modify, bind_get.
  set (s1 := moved s (video_size_row s)).
  change (s <| origin ::= _ |> <| c_pos ::= _ |> <| scr_end ::= _ |>) with s1.
  change (video_mem_end s1) with (video_mem_end s). replace (video_mem_end s <? scr_end s1) with true by (cbn; lia).
  change (video_num_columns s1) with (video_num_columns s). change (video_num_lines s1) with (video_num_lines s).
  change (video_mem_start s1) with (video_mem_start s). change (video_erase_char s1) with (video_erase_char s).
  set (cols := video_num_columns s) in *. set (lines := video_num_lines s) in *. set (start := video_mem_start s) in *.
  pose proof (longs (lines - 1) cols ltac:(lia) ltac:(lia) ltac:(done)) as En. set (n := Z.to_nat (Z.shiftr _ 1)) in *.
  pose proof (rows_le 0 (lines - 1) cols ltac:(lia) ltac:(lia)). rewrite bind_assoc.
  destruct (movsl_up_ok n start (video_mem_end s) (origin s1) start s1) as (m & E & Hm);
    [split; cbn; fold start; lia|cbn; lia|cbn; lia|..].
  { cbn. replace (video_size_row s) with (2 * cols) by lia. rewrite Z.add_comm. by apply even_add2. }
  { apply G. }
  mrun E. rewrite bind_assoc. replace (start + 4 * Z.of_nat n) with (start + 2 * ((lines - 1) * cols)) in * by lia.
  destruct (stosw_ok (Z.to_nat cols) (video_erase_char s) (start + 2 * ((lines - 1) * cols)) (with_cells s1 m)) as (m' & E' & Hm').
  { split; cbn; fold start; lia. }
  { apply even_add2, G. }
  mrun E'. rewrite bind_modify. set (s3 := upd _ _). assert (geom_ok s3) as G3.
  { subst start cols lines. pose proof G as []. split; cbn; try done; try lia. }
  set (g3 := tm_cell (scroll_up 0 lines (view s p g))).
  refine (set_origin_ok s3 _ G3 _). exists p, g3. split; [reflexivity|]. split; [done|]. intros r c [Hr Hc].
  change (video_num_lines s3) with lines in Hr. change (video_num_columns s3) with cols in Hc.
  assert (addr s3 r c = start + 2 * (r * cols + c)) as Ea by done. change (vram s3) with m'.
  rewrite (Hm' (addr s3 r c)) by apply (addr_even s3 r c G3). change (vram (with_cells s1 m)) with m.
  rewrite (Hm (addr s3 r c)) by apply (addr_even s3 r c G3). rewrite Ea. change (vram s1) with (vram s).
  pose proof (row_range cols (lines - 1) lines r c Hc). pose proof (row_range cols 0 (lines - 1) r c Hc). unfold g3. cbn. fold lines.
  rewrite Z2Nat.id by lia. repeat case_decide; try lia; try done.
  rewrite (Hg (r + 1) c) by (split; [fold lines; lia|done]). f_equal. unfold addr. fold cols. cbn. fold cols. lia.
Qed.

Lemma scrup_ok s p g : screen_ok s -> parsing s p -> agrees s g ->
  runs_to scrup s (scroll_up (c_top s) (c_bottom s) (view s p g)).
Proof.
  intros Hok Hp Hg. unfold scrup, runs_to. rewrite bind_get.
  destruct (is_ega s); [|by apply scrup_region_ok].
  destruct (Z.eqb_spec (c_top s) 0) as [Et|]; [|by apply scrup_region_ok].
  destruct (Z.eqb_spec (c_bottom s) (video_num_lines s)) as [Eb|]; [|by apply scrup_region_ok]. cbn [andb]. rewrite Et, Eb.
  destruct (Z.le_gt_cases (scr_end s + video_size_row s) (video_mem_end s)); [by apply scrup_origin_room|by apply scrup_origin_wrap].
Qed.

(** ** The cursor *)

Definition cursor_at (s : con) (x y : Z) : con :=
  s <| c_x := x |> <| c_y := y |> <| c_pos := origin s + y * video_size_row s + 2 * x |>.

Lemma cursor_ok s x y : screen_ok s -> 0 <= x <= video_num_columns s -> 0 <= y < video_num_lines s -> screen_ok (cursor_at s x y).
Proof. intros [[] Hd] Hx Hy. split; [|exact Hd]. by split. Qed.

Lemma cursor_here s : geom_ok s -> cursor_at s (c_x s) (c_y s) = s.
Proof. intros G. unfold cursor_at. rewrite <- (go_pos s G). by destruct s. Qed.

Lemma cursor_runs m s p g x y s' : screen_ok s -> parsing s p -> agrees s g -> m s = (Ret tt, s') -> s' = cursor_at s x y ->
  0 <= x <= video_num_columns s -> 0 <= y < video_num_lines s ->
  runs_to m s ((view s p g) <| tm_x := x |> <| tm_y := y |>).
Proof.
  intros Hok Hp Hg E -> Hx Hy. exists (cursor_at s x y). split; [done|]. split; [by apply cursor_ok|]. by exists p, g.
Qed.

(** Two states with the cursor's variables set are the same if these are. *)
Ltac same_cursor := unfold cursor_at, upd; cbn; f_equal; lia.

Lemma runs_here m s p g : screen_ok s -> parsing s p -> agrees s g -> m s = (Ret tt, s) -> runs_to m s (view s p g).
Proof. intros Hok Hp Hg E. exists s. split; [done|]. split; [done|]. by exists p, g. Qed.

Ltac refine_op Hok Hp Hg G :=
  let p := fresh "p" in let g := fresh "g" in
  intros ? ? Hok (p & g & -> & Hp & Hg); pose proof (proj1 Hok) as G; geom G.

Lemma gotoxy_ok x y : 0 <= x -> 0 <= y -> refines (gotoxy x y) (move x y).
Proof.
  intros Hx Hy. refine_op Hok Hp Hg G. unfold gotoxy, move. cbn [tm_cols tm_lines view].
  destruct (_ || _) eqn:Eb; [by apply runs_here; [..|unfold gotoxy; rewrite bind_get, Eb]|]. apply orb_false_iff in Eb as [E1%Z.ltb_ge E2%Z.leb_gt].
  apply (cursor_runs _ s p g x y (cursor_at s x y) Hok Hp Hg); [|done|lia|lia]. rewrite bind_get.
  destruct (Z.ltb_spec (video_num_columns s) x); [lia|]. destruct (Z.leb_spec (video_num_lines s) y); [lia|]. cbn [orb].
  unfold modify, cursor_at. rewrite Z.shiftl_mul_pow2 by lia. change (2 ^ 1) with 2. by rewrite (Z.mul_comm x 2).
Qed.

Lemma lf_ok : refines lf line_feed.
Proof.
  refine_op Hok Hp Hg G. unfold lf, line_feed, runs_to. rewrite bind_get. cbn [tm_y tm_bottom tm_top view].
  destruct (Z.ltb_spec (c_y s + 1) (c_bottom s)); [|by apply scrup_ok].
  eapply (cursor_runs _ s p g (c_x s) (Z.succ (c_y s))); [done..|reflexivity|same_cursor|lia|lia].
Qed.

Lemma ri_ok : refines ri line_back.
Proof.
  refine_op Hok Hp Hg G. unfold ri, line_back, runs_to. rewrite bind_get. cbn [tm_y tm_bottom tm_top view].
  destruct (Z.ltb_spec (c_top s) (c_y s)); [|by apply scrdown_ok].
  eapply (cursor_runs _ s p g (c_x s) (Z.pred (c_y s))); [done..|reflexivity|same_cursor|lia|lia].
Qed.

Lemma cr_ok : refines cr carriage_return.
Proof.
  refine_op Hok Hp Hg G. eapply (cursor_runs _ s p g 0 (c_y s)); [done..|reflexivity| |lia|lia].
  rewrite Z.shiftl_mul_pow2 by lia. change (2 ^ 1) with 2. same_cursor.
Qed.

Lemma backspace_ok : refines backspace back.
Proof.
  refine_op Hok Hp Hg G. unfold backspace, back, runs_to, istrue. rewrite bind_get. cbn [tm_x view].
  destruct (Z.eqb_spec (c_x s) 0); [by apply runs_here|].
  eapply (cursor_runs _ s p g (Z.pred (c_x s)) (c_y s)); [done..|reflexivity|same_cursor|lia|lia].
Qed.

(** ** One cell *)

(** A place is one cell of one line. *)
Lemma same_place cols y x r c : 0 <= x < cols -> 0 <= c < cols -> r * cols + c = y * cols + x <-> r = y /\ c = x.
Proof.
  intros Hx Hc. split; [|intros [-> ->]; lia]. intros E. assert (y <= r < y + 1) as Hr by (apply (row_range cols y (y + 1) r c Hc); lia).
  assert (r = y) as -> by lia. lia.
Qed.

Lemma put_cell_ok s p g v : geom_ok s -> agrees s g -> c_x s < video_num_columns s ->
  exists m, st_cell (c_pos s) v s = (Ret tt, with_cells s m) /\ agrees (with_cells s m) (tm_cell (put_cell v (view s p g))).
Proof.
  intros G Hg Hx. geom G. pose proof (rows_le (c_y s + 1) (video_num_lines s) (video_num_columns s)).
  pose proof (rows_le 0 (c_y s) (video_num_columns s)).
  assert (c_pos s = addr s (c_y s) (c_x s)) as -> by (unfold addr; lia). set (a := addr s (c_y s) (c_x s)).
  exists (<[a := v]> (vram s)). split.
  { apply (st_cell_run s _ _ a v (screen_inside s G)); [unfold a, addr; lia|by apply addr_even]. }
  apply (agrees_rewritten s g _ _ (c_y s * video_num_columns s + c_x s) (c_y s * video_num_columns s + c_x s + 1) (fun _ => v) G Hg).
  - intros b Hb. rewrite cellv_insert. pose proof (addr_even s (c_y s) (c_x s) G) as He. fold a in He. unfold addr in a.
    destruct (decide (a < b)) as [Hab|Hab]; [pose proof (even_apart a b He Hb Hab)|]; repeat case_decide; try done; lia.
  - intros r c [Hr Hc]. cbn. pose proof (same_place (video_num_columns s) (c_y s) (c_x s) r c).
    repeat case_decide; try done; lia.
Qed.

Lemma del_ok : refines del rub_cell.
Proof.
  refine_op Hok Hp Hg G. unfold del, rub_cell, runs_to, istrue. rewrite bind_get. cbn [tm_x view].
  destruct (Z.eqb_spec (c_x s) 0) as [E|E]; [by apply runs_here|]. cbn [when negb]. rewrite bind_modify, bind_get.
  replace (s <| c_pos := c_pos s - 2 |> <| c_x ::= Z.pred |>) with (cursor_at s (Z.pred (c_x s)) (c_y s)) by (same_cursor).
  set (s1 := cursor_at _ _ _). assert (screen_ok s1) as Hok1 by (apply cursor_ok; [done|lia|lia]).
  destruct (put_cell_ok s1 p g (video_erase_char s1) (proj1 Hok1) Hg) as (m & E' & Hm); [cbn; lia|].
  exists (with_cells s1 m). split; [done|]. split; [by apply screen_cells|]. eexists p, _. split; [|done].
  unfold back. cbn [tm_x view]. destruct (Z.eqb_spec (c_x s) 0); [done|]. reflexivity.
Qed.

(** ** Characters *)

Lemma cursor_again s x y x' pos : pos = origin s + y * video_size_row s + 2 * x' ->
  (cursor_at s x y) <| c_x := x' |> <| c_pos := pos |> = cursor_at s x' y.
Proof. intros ->. by destruct s. Qed.

(** From a column past the end, at most 8 further. *)
Lemma wrap_ok s p g x : screen_ok s -> parsing s p -> agrees s g -> video_num_columns s <= x <= video_num_columns s + 8 ->
  runs_to wrap (cursor_at s x (c_y s)) (next_line ((view s p g) <| tm_x := x |>)).
Proof.
  intros Hok Hp Hg Hx. pose proof (proj1 Hok) as G. geom G. unfold wrap, runs_to. rewrite bind_modify.
  set (x' := x - video_num_columns s). set (s1 := cursor_at s x' (c_y s)).
  assert ((cursor_at s x (c_y s)) <| c_x := c_x (cursor_at s x (c_y s)) - video_num_columns (cursor_at s x (c_y s)) |>
    <| c_pos := c_pos (cursor_at s x (c_y s)) - video_size_row (cursor_at s x (c_y s)) |> = s1) as -> by (apply cursor_again; cbn; unfold x'; lia).
  assert (next_line ((view s p g) <| tm_x := x |>) = line_feed (view s1 p g)) as -> by reflexivity.
  assert (screen_ok s1) as Hok1 by (apply cursor_ok; [done|lia|lia]).
  assert (shows s1 (view s1 p g)) as Hs1 by (by exists p, g). exact (lf_ok s1 _ Hok1 Hs1).
Qed.

(** The cell of a printable character, and the step to the right. *)
Lemma put_step_ok c s t : 0 <= c < 256 -> screen_ok s -> shows s t -> tm_x t < tm_cols t ->
  runs_to (s ← get; st_cell (c_pos s) (Z.lor (Z.shiftl (c_attr s) 8) c);;
           modify (fun s => s <| c_pos ::= Z.add 2 |> <| c_x ::= Z.succ |>)) s
    ((put_cell (tm_attr t * 256 + c) t) <| tm_x ::= Z.succ |>).
Proof.
  intros Hc Hok (p & g & -> & Hp & Hg) Hx. pose proof (proj1 Hok) as G. geom G. unfold runs_to. rewrite bind_get.
  rewrite (lor_add_disjoint _ 8), Z.shiftl_mul_pow2; [|lia|lia|lia|rewrite Z.shiftl_mul_pow2 by lia; apply Z.mod_mul; lia].
  change (2 ^ 8) with 256. cbn [tm_attr view tm_x tm_cols] in *.
  destruct (put_cell_ok s p g (c_attr s * 256 + c) G Hg Hx) as (m & E & Hm). mrun E.
  refine (cursor_runs _ (with_cells s m) p _ (Z.succ (c_x s)) (c_y s) _ _ _ Hm eq_refl _ _ _); [by apply screen_cells|done| |cbn; lia|cbn; lia].
  same_cursor.
Qed.

Lemma next_line_x t : tm_cols t <= tm_x t -> 8 <= tm_cols t -> tm_x t <= tm_cols t + 8 ->
  tm_x (next_line t) = tm_x t - tm_cols t /\ tm_cols (next_line t) = tm_cols t.
Proof. intros. unfold next_line, line_feed. by destruct (_ <? _). Qed.

Lemma put_char_ok c : 0 <= c < 256 -> refines (put_char c) (print c).
Proof.
  intros Hc. refine_op Hok Hp Hg G. unfold put_char, print, runs_to. rewrite bind_get. cbn [tm_cols tm_x view].
  destruct (Z.leb_spec (video_num_columns s) (c_x s)) as [Hx|Hx]; cbn [when].
  - pose proof (wrap_ok s p g (c_x s) Hok Hp Hg ltac:(lia)) as (s1 & E & Hok1 & Hs1). rewrite (cursor_here s G) in E. mrun E.
    change ((view s p g) <| tm_x := c_x s |>) with (view s p g) in Hs1. apply (put_step_ok c s1 _ Hc Hok1 Hs1).
    destruct (next_line_x (view s p g)) as [-> ->]; cbn; lia.
  - rewrite bind_ret. apply (put_step_ok c s _ Hc Hok); [by exists p, g|done].
Qed.

Lemma tab_ok : refines tab next_stop.
Proof.
  refine_op Hok Hp Hg G. unfold tab, next_stop, runs_to. rewrite bind_get. cbv zeta. rewrite bind_modify, bind_get. cbn [tm_cols tm_x view].
  change 7 with (2 ^ 3 - 1). rewrite land_mask_mod by lia. change (2 ^ 3) with 8. rewrite Z.shiftl_mul_pow2 by lia. change (2 ^ 1) with 2.
  pose proof (Z_div_mod_eq_full (c_x s) 8). pose proof (Z.mod_pos_bound (c_x s) 8 ltac:(lia)).
  set (x := 8 * (c_x s / 8 + 1)). replace (upd _ _) with (cursor_at s x (c_y s)) by (unfold x; same_cursor).
  change (tm_cols _ <? tm_x _) with (video_num_columns s <? x).
  change (video_num_columns (cursor_at s x (c_y s))) with (video_num_columns s). change (c_x (cursor_at s x (c_y s))) with x.
  destruct (Z.ltb_spec (video_num_columns s) x); cbn [when]; [apply wrap_ok; [done..|lia]|].
  exists (cursor_at s x (c_y s)). split; [done|]. split; [apply cursor_ok; [done|lia|lia]|]. by exists p, g.
Qed.
