(* ===== verification/ConsoleCsi.v ===== *)
(** The escape sequences of the console: erasing, inserting and deleting, the parameters and the
    commands do what [Term.command] says. *)

From S2P Require Import Prelude Console ConsoleCells Term ConsoleSpec.

(** ** Erasing *)

Lemma half a k : a = 2 * k -> Z.shiftr a 1 = k.
Proof. intros ->. rewrite Z.shiftr_div_pow2, Z.mul_comm by lia. apply Z.div_mul. lia. Qed.

(** [erase_ok] with the count and the address as the code computes them. *)
Lemma erase_at s p g lo hi count start :
  screen_ok s -> parsing s p -> agrees s g -> 0 <= lo <= hi -> hi <= video_num_lines s * video_num_columns s ->
  count = hi - lo -> start = origin s + 2 * lo ->
  runs_to (stosw (Z.to_nat count) (video_erase_char s) start) s (blank_out lo hi (view s p g)).
Proof. intros Hok Hp Hg Hlo Hhi -> ->. by apply erase_ok. Qed.

(** The cursor's line is inside the screen. *)
Lemma line_places s : geom_ok s ->
  0 <= c_y s * video_num_columns s /\ c_y s * video_num_columns s + video_num_columns s <= video_num_lines s * video_num_columns s.
Proof.
  intros G. geom G. pose proof (rows_le 0 (c_y s) (video_num_columns s)).
  pose proof (rows_le (c_y s + 1) (video_num_lines s) (video_num_columns s)). lia.
Qed.

Lemma csi_J_ok q : refines (csi_J q) (erase_display q).
Proof.
  refine_op Hok Hp Hg G. unfold csi_J, erase_display, runs_to. rewrite bind_get. cbv zeta. cbn [tm_cols tm_lines tm_x tm_y view].
  pose proof (line_places s G) as [? ?].
  destruct (q =? 0); [apply erase_at; [done..|lia|lia|apply half; lia|lia]|].
  destruct (q =? 1); [apply erase_at; [done..|lia|lia|apply half; lia|lia]|].
  destruct (q =? 2); [apply erase_at; [done..|lia|lia|lia|lia]|]. by apply runs_here.
Qed.

Lemma csi_K_ok q : refines (csi_K q) (erase_line q).
Proof.
  refine_op Hok Hp Hg G. unfold csi_K, erase_line, runs_to. rewrite bind_get. cbv zeta. cbn [tm_cols tm_lines tm_x tm_y view].
  pose proof (line_places s G) as [? ?]. rewrite Z.shiftl_mul_pow2 by lia. change (2 ^ 1) with 2.
  destruct (q =? 0).
  { destruct (Z.leb_spec (video_num_columns s) (c_x s)); [|apply erase_at; [done..|lia|lia|lia|lia]].
    refine (runs_ext _ s _ _ (runs_here _ s p g Hok Hp Hg eq_refl) eq_refl _). intros r c _ _. cbn. rewrite decide_False by lia. done. }
  destruct (q =? 1); [apply erase_at; [done..|lia|lia|destruct (Z.ltb_spec (c_x s) (video_num_columns s)); lia|lia]|].
  destruct (q =? 2); [apply erase_at; [done..|lia|lia|lia|lia]|]. by apply runs_here.
Qed.

(** ** Inserting and deleting *)

Lemma insert_char_ok : refines insert_char insert_blank.
Proof.
  refine_op Hok Hp Hg G. pose proof (line_places s G) as [? ?]. unfold insert_char, runs_to. rewrite bind_get.
  set (cols := video_num_columns s) in *. set (lo := c_y s * cols + c_x s). replace (c_pos s) with (origin s + 2 * lo) by (unfold lo; lia).
  destruct (shift_right_ok (Z.to_nat (cols - c_x s)) (origin s + 2 * lo) (video_erase_char s) s) as (m & E & Hm).
  { replace (origin s + 2 * lo + 2 * Z.of_nat _) with (origin s + 2 * (c_y s * cols + cols)) by (unfold lo; lia).
    apply part_inside; [done|unfold lo; lia|done]. }
  { by apply even_add2. }
  replace (origin s + 2 * lo + 2 * Z.of_nat _) with (origin s + 2 * (c_y s * cols + cols)) in Hm by (unfold lo; lia).
  exists (with_cells s m). split; [done|]. split; [by apply screen_cells|]. eexists p, _. split; [reflexivity|]. split; [done|].
  apply (agrees_rewritten s g _ m _ _ _ G Hg Hm). intros r c [Hr Hc]. cbn. fold cols in Hc |- *. unfold addr. fold cols.
  pose proof (row_range cols (c_y s) (c_y s + 1) r c Hc). unfold lo.
  destruct (decide (r = c_y s)) as [->|Hne]; repeat case_decide; try done; try lia.
  rewrite (Hg (c_y s) (c - 1)) by (split; [done|fold cols; lia]). f_equal. unfold addr. fold cols. lia.
Qed.

Lemma delete_char_ok s p g : screen_ok s -> parsing s p -> agrees s g ->
  runs_to delete_char s (if video_num_columns s <=? c_x s then view s p g else delete_cell (view s p g)).
Proof.
  intros Hok Hp Hg. pose proof (proj1 Hok) as G. geom G. pose proof (line_places s G) as [? ?]. unfold delete_char, runs_to. rewrite bind_get.
  destruct (Z.leb_spec (video_num_columns s) (c_x s)) as [Hx|Hx]; [by apply runs_here|].
  set (cols := video_num_columns s) in *. set (lo := c_y s * cols + c_x s). replace (c_pos s) with (origin s + 2 * lo) by (unfold lo; lia).
  assert (inside s (origin s + 2 * lo) (origin s + 2 * (c_y s * cols + cols))) as Hin by (apply part_inside; [done|unfold lo; lia|done]).
  destruct (shift_left_ok (Z.to_nat (cols - c_x s - 1)) (origin s + 2 * lo) s) as (m & E & Hm).
  { by replace (origin s + 2 * lo + 2 * Z.of_nat _ + 2) with (origin s + 2 * (c_y s * cols + cols)) by (unfold lo; lia). }
  { by apply even_add2. }
  mrun E. replace (origin s + 2 * lo + 2 * Z.of_nat _) with (origin s + 2 * (c_y s * cols + cols - 1)) in * by (unfold lo; lia).
  set (a := origin s + 2 * (c_y s * cols + cols - 1)) in *. assert (Z.even a = true) as Ha by (by apply even_add2).
  rewrite (st_cell_run (with_cells s m) _ _ a (video_erase_char s) Hin) by (unfold a, lo; (lia || done)).
  exists (with_cells s (<[a := video_erase_char s]> m)). split; [done|]. split; [by apply screen_cells|].
  eexists p, _. split; [reflexivity|]. split; [done|]. intros r c [Hr Hc].
  change (video_num_columns _) with cols in Hc. change (video_num_lines _) with (video_num_lines s) in Hr.
  change (vram (with_cells s (<[a := video_erase_char s]> m))) with (<[a := video_erase_char s]> m).
  change (addr (with_cells s (<[a := video_erase_char s]> m)) r c) with (addr s r c). rewrite cellv_insert, (Hm (addr s r c)) by by apply addr_even.
  assert (addr s r c = origin s + 2 * (r * cols + c)) as Ea by done. rewrite Ea. cbn. fold cols.
  pose proof (row_range cols (c_y s) (c_y s + 1) r c Hc). unfold a, lo.
  destruct (decide (r = c_y s)) as [->|Hne]; repeat case_decide; try done; try lia.
  - rewrite (Hg (c_y s) (c + 1)) by (split; [done|fold cols; lia]). f_equal. unfold addr. fold cols. lia.
  - rewrite <- Ea. by apply Hg.
  - rewrite <- Ea. by apply Hg.
Qed.

(** Scrolling from the cursor's line to the end of the screen; the region comes back. *)
Lemma with_region_ok m f :
  (forall s p g, screen_ok s -> parsing s p -> agrees s g ->
    runs_to m s ((view s p g) <| tm_cell := f (c_top s) (c_bottom s) (view s p g) |>)) ->
  refines (with_region m) (fun t => t <| tm_cell := f (tm_y t) (tm_lines t) (t <| tm_top := tm_y t |> <| tm_bottom := tm_lines t |>) |>).
Proof.
  intros Hm. refine_op Hok Hp Hg G. unfold with_region, runs_to. rewrite bind_get, bind_modify.
  set (s1 := s <| c_top := c_y s |> <| c_bottom := video_num_lines s |>).
  assert (screen_ok s1) as Hok1. { destruct Hok as [[] Hd]. split; [|exact Hd]. split; cbn; try done; try lia. }
  destruct (Hm s1 p g Hok1 Hp Hg) as (s2 & E & Hok2 & p2 & g2 & Ev & Hp2 & Hg2). mrun E.
  exists (s2 <| c_top := c_top s |> <| c_bottom := c_bottom s |>). split; [done|].
  change (view s1 p (f (c_top s1) (c_bottom s1) (view s1 p g)) = view s2 p2 g2) in Ev. unfold view in Ev.
  injection Ev as E1 E2 E3 E4 E5 E6 E7 E8 E9 E10 E11 E12. split.
  - destruct Hok2 as [[] Hd]. split; [|exact Hd]. cbn in E1, E2. split; cbn; try done; try lia.
  - exists p2, g2. split; [|done]. cbn in E1, E2, E3, E4, E5, E8, E9, E10, E11, E12.
    unfold view, upd. cbn. by rewrite <- E1, <- E2, <- E3, <- E4, <- E5, <- E8, <- E9, <- E10, <- E11, <- E12.
Qed.

Lemma insert_line_ok : refines insert_line (fun t => scroll_down (tm_y t) (tm_lines t) t).
Proof. exact (with_region_ok scrdown (fun lo hi t => tm_cell (scroll_down lo hi t)) scrdown_ok). Qed.

Lemma delete_line_ok : refines delete_line (fun t => scroll_up (tm_y t) (tm_lines t) t).
Proof. exact (with_region_ok scrup (fun lo hi t => tm_cell (scroll_up lo hi t)) scrup_ok). Qed.

(** ** Counts *)

Lemma clamp_ok max q : 1 <= max -> 0 <= q -> Z.to_nat (clamp q max) = count_to max q.
Proof.
  intros. unfold clamp, count_to, distance. destruct (Z.ltb_spec max q), (Z.eqb_spec q 0); f_equal; lia.
Qed.

(** Steps that do not move the cursor are iterated with it fixed. *)
Lemma iter_fixed {A} (n : nat) (P : A -> Prop) (f g : A -> A) (x : A) :
  P x -> (forall y, P y -> f y = g y /\ P (f y)) -> Nat.iter n f x = Nat.iter n g x.
Proof.
  intros Hx Hs. assert (Nat.iter n f x = Nat.iter n g x /\ P (Nat.iter n f x)) as [? _]; [|done].
  induction n as [|n [IH HP]]; [done|]. rewrite !Nat.iter_succ. destruct (Hs _ HP) as [E HP']. by rewrite <- IH, E in *.
Qed.

Lemma csi_at_ok q : 0 <= q -> refines (csi_at q) (fun t => Nat.iter (count_to (tm_cols t) q) insert_blank t).
Proof.
  intros Hq. refine_op Hok Hp Hg G. unfold csi_at, runs_to. rewrite bind_get, clamp_ok by lia.
  apply (refines_times _ _ _ insert_char_ok); [done|by exists p, g].
Qed.

(** Inserting and deleting lines: the cursor stays where it is. *)
Lemma lines_ok m f q s p g : refines m (fun t => f (tm_y t) (tm_lines t) t) -> screen_ok s -> parsing s p -> agrees s g ->
  (forall lo hi t, tm_y (f lo hi t) = tm_y t /\ tm_lines (f lo hi t) = tm_lines t) -> 0 <= q ->
  runs_to (times (Z.to_nat (clamp q (video_num_lines s))) m) s
    (Nat.iter (count_to (video_num_lines s) q) (f (c_y s) (video_num_lines s)) (view s p g)).
Proof.
  intros Hm Hok Hp Hg Hf Hq. pose proof (proj1 Hok) as G. geom G. rewrite clamp_ok by lia.
  rewrite (iter_fixed _ (fun t => tm_y t = c_y s /\ tm_lines t = video_num_lines s) _ (fun t => f (tm_y t) (tm_lines t) t) (view s p g)); [|done|].
  - apply (refines_times _ _ _ Hm); [done|by exists p, g].
  - intros t [Ey El]. rewrite Ey, El. split; [done|]. destruct (Hf (c_y s) (video_num_lines s) t) as [-> ->]. done.
Qed.

Lemma csi_L_ok q : 0 <= q -> refines (csi_L q) (fun t => Nat.iter (count_to (tm_lines t) q) (scroll_down (tm_y t) (tm_lines t)) t).
Proof. intros Hq. refine_op Hok Hp Hg G. unfold csi_L, runs_to. rewrite bind_get. by apply (lines_ok insert_line scroll_down q s p g insert_line_ok). Qed.

Lemma csi_M_ok q : 0 <= q -> refines (csi_M q) (fun t => Nat.iter (count_to (tm_lines t) q) (scroll_up (tm_y t) (tm_lines t)) t).
Proof. intros Hq. refine_op Hok Hp Hg G. unfold csi_M, runs_to. rewrite bind_get. by apply (lines_ok delete_line scroll_up q s p g delete_line_ok). Qed.

Lemma csi_P_ok q : 0 <= q ->
  refines (csi_P q) (fun t => if tm_cols t <=? tm_x t then t else Nat.iter (count_to (tm_cols t) q) delete_cell t).
Proof.
  intros Hq. refine_op Hok Hp Hg G. unfold csi_P, runs_to. rewrite bind_get, clamp_ok by lia. cbn [tm_cols tm_x view].
  assert (refines delete_char (fun t => if tm_cols t <=? tm_x t then t else delete_cell t)) as Hd.
  { intros s1 t1 Hok1 (p1 & g1 & -> & Hp1 & Hg1). by apply delete_char_ok. }
  pose proof (refines_times (count_to (video_num_columns s) q) _ _ Hd s (view s p g) Hok ltac:(by exists p, g)) as Hr.
  assert (forall b, (video_num_columns s <=? c_x s) = b ->
    Nat.iter (count_to (video_num_columns s) q) (fun t => if tm_cols t <=? tm_x t then t else delete_cell t) (view s p g)
    = Nat.iter (count_to (video_num_columns s) q) (fun t => if b then t else delete_cell t) (view s p g)) as Hb.
  { intros b Eb. apply (iter_fixed _ (fun t => (tm_cols t <=? tm_x t) = b)); [exact Eb|]. intros t Et. rewrite Et. split; [done|]. by destruct b. }
  rewrite (Hb _ eq_refl) in Hr. destruct (_ <=? _); [|exact Hr].
  replace (Nat.iter _ _ _) with (view s p g) in Hr; [exact Hr|]. generalize (count_to (video_num_columns s) q). by intros n; induction n.
Qed.

(** ** The saved cursor *)

Lemma save_cur_ok : refines save_cur save.
Proof.
  refine_op Hok Hp Hg G. eexists. split; [reflexivity|]. split.
  - destruct Hok as [[] Hd]. split; [|exact Hd]. split; cbn; try done; lia.
  - by exists p, g.
Qed.

Lemma restore_cur_ok : refines restore_cur restore.
Proof.
  refine_op Hok Hp Hg G. unfold restore_cur, restore, runs_to. rewrite bind_get.
  apply gotoxy_ok; [apply G..|done|by exists p, g].
Qed.

(** ** Parameters *)

Definition with_par (s : con) (l : list Z) : con := s <| par := l |>.

Lemma get_par_run s i v : par s !! i = Some v -> get_par (Z.of_nat i) s = (Ret v, s).
Proof. intros H. unfold get_par. rewrite bind_get, Nat2Z.id, H. by destruct (Z.ltb_spec (Z.of_nat i) 0); [lia|]. Qed.

Lemma set_par_run s i v w : par s !! i = Some v -> set_par (Z.of_nat i) w s = (Ret tt, with_par s (<[i := w]> (par s))).
Proof. intros H. unfold set_par. mrun (get_par_run s i v H). by rewrite Nat2Z.id. Qed.

(** A parameter that is changed and read again. *)
Lemma change_par_run s i v w : par s !! i = Some v ->
  (set_par (Z.of_nat i) w;; get_par (Z.of_nat i)) s = (Ret w, with_par s (<[i := w]> (par s))).
Proof.
  intros H. mrun (set_par_run s i v w H). apply get_par_run. cbn. by apply list_lookup_insert_eq, (lookup_lt_Some _ _ _ H).
Qed.

Lemma dec_par_run s i v : par s !! i = Some v -> dec_par (Z.of_nat i) s = (Ret (place v), with_par s (<[i := place v]> (par s))).
Proof. intros H. unfold dec_par. mrun (get_par_run s i v H). exact (change_par_run s i v (place v) H). Qed.

Lemma inc_par_run s i v : par s !! i = Some v -> inc_par (Z.of_nat i) s = (Ret (distance v), with_par s (<[i := distance v]> (par s))).
Proof. intros H. unfold inc_par. mrun (get_par_run s i v H). exact (change_par_run s i v (distance v) H). Qed.

(** Outside a sequence the parameters do not show. *)
Lemma with_par_ok s l t : screen_ok s -> shows s t -> tm_parse t = Ground -> length l = 16%nat -> Forall (Z.le 0) l ->
  screen_ok (with_par s l) /\ shows (with_par s l) t.
Proof.
  intros [[] Hd] (p & g & -> & Hp & Hg) Ep Hl Hn. cbn in Ep. subst p. split; [|by exists Ground, g]. split; [by split|exact Hd].
Qed.

Lemma insert_par_ok s i v t : screen_ok s -> shows s t -> tm_parse t = Ground -> 0 <= v ->
  screen_ok (with_par s (<[i := v]> (par s))) /\ shows (with_par s (<[i := v]> (par s))) t.
Proof.
  intros Hok Hs Ep Hv. destruct (go_par s (proj1 Hok)). apply with_par_ok; [done..|by rewrite length_insert|by apply Forall_insert].
Qed.

(** The variables hold the parameters [ps]. *)
Definition loaded (s : con) (ps : list Z) : Prop := forall i, (i < 16)%nat -> par s !! i = Some (arg i ps).

Lemma loaded_app s ps : (length ps <= 16)%nat -> par s = ps ++ replicate (16 - length ps) 0 -> loaded s ps.
Proof.
  intros Hl E i Hi. rewrite E. unfold arg. destruct (decide (i < length ps)%nat).
  - rewrite lookup_app_l by done. apply lookup_lt_is_Some in l as [v Hv]. rewrite Hv. f_equal. symmetry. by apply nth_lookup_Some.
  - rewrite lookup_app_r, lookup_replicate_2 by lia. f_equal. symmetry. apply nth_overflow. lia.
Qed.

Lemma loaded_nonneg s ps i : screen_ok s -> loaded s ps -> (i < 16)%nat -> 0 <= arg i ps.
Proof. intros Hok Hl Hi. destruct (go_par s (proj1 Hok)) as [_ Hf]. exact (Forall_lookup_1 _ _ _ _ Hf (Hl i Hi)). Qed.

Lemma place_nonneg v : 0 <= v -> 0 <= place v.
Proof. unfold place. destruct (Z.eqb_spec v 0); lia. Qed.

Lemma distance_nonneg v : 0 <= v -> 0 <= distance v.
Proof. unfold distance. destruct (Z.eqb_spec v 0); lia. Qed.

(** Commands that read the first parameter as a place or a distance. *)
Lemma with_place m f s t ps : screen_ok s -> shows s t -> tm_parse t = Ground -> loaded s ps ->
  (forall v, 0 <= v -> refines (m v) (f v)) -> runs_to (p ← dec_par 0; m p) s (f (place (arg 0 ps)) t).
Proof.
  intros Hok Hs Ep Hl Hm. pose proof (place_nonneg _ (loaded_nonneg s ps 0 Hok Hl ltac:(lia))) as Hv. unfold runs_to.
  mrun (dec_par_run s 0 _ (Hl 0%nat ltac:(lia))). destruct (insert_par_ok s 0 _ t Hok Hs Ep Hv). by apply Hm.
Qed.

Lemma with_distance m f s t ps : screen_ok s -> shows s t -> tm_parse t = Ground -> loaded s ps ->
  (forall v, 0 <= v -> refines (m v) (f v)) -> runs_to (p ← inc_par 0; m p) s (f (distance (arg 0 ps)) t).
Proof.
  intros Hok Hs Ep Hl Hm. pose proof (distance_nonneg _ (loaded_nonneg s ps 0 Hok Hl ltac:(lia))) as Hv. unfold runs_to.
  mrun (inc_par_run s 0 _ (Hl 0%nat ltac:(lia))). destruct (insert_par_ok s 0 _ t Hok Hs Ep Hv). by apply Hm.
Qed.

Lemma with_arg m f s t ps : screen_ok s -> shows s t -> loaded s ps ->
  (forall v, 0 <= v -> refines (m v) (f v)) -> runs_to (p ← get_par 0; m p) s (f (arg 0 ps) t).
Proof.
  intros Hok Hs Hl Hm. unfold runs_to. mrun (get_par_run s 0 _ (Hl 0%nat ltac:(lia))).
  apply Hm; [|done..]. by apply (loaded_nonneg s ps 0); [..|lia].
Qed.

(** [ESC \[ line ; column H] *)
Lemma goto_ok s t ps : screen_ok s -> shows s t -> tm_parse t = Ground -> loaded s ps ->
  runs_to (p ← dec_par 0; q ← dec_par 1; gotoxy q p) s (move (place (arg 1 ps)) (place (arg 0 ps)) t).
Proof.
  intros Hok Hs Ep Hl. pose proof (place_nonneg _ (loaded_nonneg s ps 0 Hok Hl ltac:(lia))) as H0.
  pose proof (place_nonneg _ (loaded_nonneg s ps 1 Hok Hl ltac:(lia))) as H1. unfold runs_to.
  mrun (dec_par_run s 0 _ (Hl 0%nat ltac:(lia))). destruct (insert_par_ok s 0 _ t Hok Hs Ep H0) as [Hok1 Hs1].
  set (s1 := with_par s _) in *. assert (par s1 !! 1%nat = Some (arg 1 ps)) as E1.
  { cbn. rewrite list_lookup_insert_ne by done. apply Hl. lia. }
  mrun (dec_par_run s1 1 _ E1). destruct (insert_par_ok s1 1 _ t Hok1 Hs1 Ep H1). by apply gotoxy_ok.
Qed.

Lemma attr_rendition p old : attr_of p old = rendition old p.
Proof.
  unfold attr_of, rendition. destruct (Z.eqb_spec p 0), (Z.eqb_spec p 1), (Z.eqb_spec p 4), (Z.eqb_spec p 7), (Z.eqb_spec p 27); cbn; lia.
Qed.

Lemma attr_loop s ps n : forall k, loaded s ps -> (k + n <= 16)%nat ->
  for_each (seqZ (Z.of_nat k) (Z.of_nat n)) (fun i => p ← get_par i; modify (fun s => s <| c_attr ::= attr_of p |>)) s
  = (Ret tt, s <| c_attr := foldl rendition (c_attr s) (map (fun i => arg i ps) (seq k n)) |>).
Proof.
  revert s; induction n as [|n IH]; intros s k Hl Hk; [by destruct s|].
  rewrite seqZ_cons by lia. cbn [for_each]. rewrite bind_assoc. mrun (get_par_run s k _ (Hl k ltac:(lia))). rewrite bind_modify.
  replace (Z.succ (Z.of_nat k)) with (Z.of_nat (S k)) by lia. replace (Z.pred (Z.of_nat (S n))) with (Z.of_nat n) by lia.
  etransitivity; [apply IH; [exact Hl|lia]|]. cbn. by rewrite attr_rendition.
Qed.

Lemma args_all ps : map (fun i => arg i ps) (seq 0 (length ps)) = ps.
Proof.
  apply (list_eq_same_length _ _ (length ps)); [done|by rewrite length_map, length_seq|].
  intros i x y Hi. rewrite list_lookup_fmap, lookup_seq_lt by done. cbn. intros [= <-] Hy. unfold arg. by apply nth_lookup_Some.
Qed.

Lemma csi_m_ok s t ps : screen_ok s -> shows s t -> loaded s ps -> (length ps <= 16)%nat -> npar s = Z.of_nat (length ps) - 1 ->
  runs_to csi_m s (t <| tm_attr := foldl rendition (tm_attr t) ps |>).
Proof.
  intros Hok (p & g & -> & Hp & Hg) Hl Hlen Hn. unfold csi_m, runs_to. rewrite bind_get.
  replace (npar s + 1) with (Z.of_nat (length ps)) by lia. pose proof (attr_loop s ps (length ps) 0 Hl ltac:(lia)) as E.
  change (Z.of_nat 0) with 0 in E. rewrite E, args_all. eexists. split; [reflexivity|]. split; [|by exists p, g].
  destruct Hok as [[] Hd]. split; [by split|exact Hd].
Qed.

Lemma csi_r_ok s t ps : screen_ok s -> shows s t -> tm_parse t = Ground -> loaded s ps -> runs_to csi_r s (set_region ps t).
Proof.
  intros Hok Hs Ep Hl. pose proof (place_nonneg _ (loaded_nonneg s ps 0 Hok Hl ltac:(lia))) as H0.
  pose proof (loaded_nonneg s ps 1 Hok Hl ltac:(lia)) as H1. unfold csi_r, runs_to. pose proof (go_y s (proj1 Hok)).
  mrun (dec_par_run s 0 _ (Hl 0%nat ltac:(lia))). destruct (insert_par_ok s 0 _ t Hok Hs Ep H0) as [Hok1 Hs1]. rewrite bind_get.
  set (s1 := with_par s _) in *. assert (par s1 !! 1%nat = Some (arg 1 ps)) as E1.
  { cbn. rewrite list_lookup_insert_ne by done. apply Hl. lia. }
  change (video_num_lines s1) with (video_num_lines s). mrun (get_par_run s1 1 _ E1).
  set (bottom := if arg 1 ps =? 0 then video_num_lines s else arg 1 ps).
  assert (exists s2, when (arg 1 ps =? 0) (set_par 1 (video_num_lines s)) s1 = (Ret tt, s2) /\ screen_ok s2 /\ shows s2 t /\
    par s2 !! 1%nat = Some bottom /\ video_num_lines s2 = video_num_lines s) as (s2 & E & Hok2 & (p & g & -> & Hp & Hg) & E2 & El).
  { unfold bottom. destruct (arg 1 ps =? 0); cbn [when]; [|by exists s1].
    pose proof (set_par_run s1 1 _ (video_num_lines s) E1) as Es. change (Z.of_nat 1) with 1 in Es. rewrite Es. destruct (insert_par_ok s1 1 (video_num_lines s) t Hok1 Hs1 Ep ltac:(lia)).
    eexists. split; [done|]. split; [done|]. split; [done|]. split; [|done]. cbn. apply list_lookup_insert_eq. apply (lookup_lt_Some _ _ _ E1). }
  mrun E. mrun (get_par_run s2 1 _ E2). unfold set_region. cbn [tm_lines view]. rewrite El. fold bottom.
  destruct (Z.ltb_spec (place (arg 0 ps)) bottom); [|by apply runs_here].
  destruct (Z.leb_spec bottom (video_num_lines s)); [|by apply runs_here]. cbn [andb when].
  eexists. split; [reflexivity|]. split; [|by exists p, g]. destruct Hok2 as [[] Hd]. split; [|exact Hd]. split; cbn; try done; lia.
Qed.

(** ** Commands *)

Lemma u32_nonneg a : 0 <= u32 a.
Proof. apply u32_range. Qed.

Lemma runs_get (k : con -> M con unit) s t : runs_to (k s) s t -> runs_to (s ← get; k s) s t.
Proof. done. Qed.

(** One branch of the switch on the character. *)
Tactic Notation "branch" tactic3(tac) :=
  match goal with |- runs_to (if ?b then _ else _) _ _ => destruct b; [tac|] end.

(** A motion of the cursor: the lemma reads the parameter, [gotoxy_ok] moves. *)
Ltac motion lem := apply lem; [done..|]; intros v Hv; apply gotoxy_ok; (apply u32_nonneg || lia).

Lemma final_char_ok c s t ps :
  screen_ok s -> shows s t -> tm_parse t = Ground -> loaded s ps -> (length ps <= 16)%nat -> npar s = Z.of_nat (length ps) - 1 ->
  runs_to (final_char c) s (command c ps t).
Proof.
  intros Hok Hs Ep Hl Hlen Hn. pose proof Hs as (p & g & Et & _ & _). pose proof (proj1 Hok) as G. geom G.
  unfold final_char, command. apply runs_get. cbv zeta.
  replace (tm_x t) with (c_x s) by (by rewrite Et). replace (tm_y t) with (c_y s) by (by rewrite Et).
  set (x := c_x s) in *. set (y := c_y s) in *.
  branch (motion (with_place (fun v => gotoxy v y) (fun v => move v y) s t ps)).
  branch (motion (with_distance (fun v => gotoxy x (u32 (y - v))) (fun v => move x (u32 (y - v))) s t ps)).
  branch (motion (with_distance (fun v => gotoxy x (u32 (y + v))) (fun v => move x (u32 (y + v))) s t ps)).
  branch (motion (with_distance (fun v => gotoxy (u32 (x + v)) y) (fun v => move (u32 (x + v)) y) s t ps)).
  branch (motion (with_distance (fun v => gotoxy (u32 (x - v)) y) (fun v => move (u32 (x - v)) y) s t ps)).
  branch (motion (with_distance (fun v => gotoxy 0 (u32 (y + v))) (fun v => move 0 (u32 (y + v))) s t ps)).
  branch (motion (with_distance (fun v => gotoxy 0 (u32 (y - v))) (fun v => move 0 (u32 (y - v))) s t ps)).
  branch (motion (with_place (fun v => gotoxy x v) (fun v => move x v) s t ps)).
  branch (by apply goto_ok).
  branch (apply (with_arg csi_J erase_display); [done..|intros v _; apply csi_J_ok]).
  branch (apply (with_arg csi_K erase_line); [done..|intros v _; apply csi_K_ok]).
  branch (pose proof (with_arg csi_L _ s t ps Hok Hs Hl csi_L_ok) as Hr; cbn beta in Hr; by rewrite Et in Hr |- *).
  branch (pose proof (with_arg csi_M _ s t ps Hok Hs Hl csi_M_ok) as Hr; cbn beta in Hr; by rewrite Et in Hr |- *).
  branch (pose proof (with_arg csi_P _ s t ps Hok Hs Hl csi_P_ok) as Hr; cbn beta in Hr; by rewrite Et in Hr |- *).
  branch (pose proof (with_arg csi_at _ s t ps Hok Hs Hl csi_at_ok) as Hr; exact Hr).
  branch (by apply csi_m_ok).
  branch (by apply csi_r_ok).
  branch (by apply save_cur_ok).
  branch (by apply restore_cur_ok).
  by exists s.
Qed.

(** ** Reading a sequence *)

Lemma digit_par (ps zeros : list Z) v : ps <> [] ->
  (ps ++ zeros) !! (length ps - 1)%nat = Some (List.last ps 0) /\
  <[(length ps - 1)%nat := v]> (ps ++ zeros) = (removelast ps ++ [v]) ++ zeros.
Proof.
  intros Hps. rewrite (app_removelast_last 0 Hps) at 1 2 4 5. rewrite length_app. set (l := removelast ps). set (x := List.last ps 0). cbn [length].
  replace (length l + 1 - 1)%nat with (length l + 0)%nat by lia. rewrite <- !app_assoc. split.
  - by rewrite lookup_app_r, Nat.add_0_r, Nat.sub_diag by lia.
  - by rewrite insert_app_r.
Qed.

Lemma length_digit c ps : ps <> [] -> length (digit c ps) = length ps.
Proof. intros Hps. rewrite (app_removelast_last 0 Hps) at 2. unfold digit. by rewrite !length_app. Qed.

Lemma param_char_ok c s t ps : screen_ok s -> shows s t -> tm_parse t = Params ps -> runs_to (param_char c) s (term_param c ps t).
Proof.
  intros Hok (p & g & -> & Hp & Hg) Ep. cbn in Ep. subst p. pose proof Hp as (Est & Hlen & Hn & Hpar). destruct (go_par s (proj1 Hok)) as [Hl16 Hnn].
  unfold param_char, term_param. apply runs_get. change (NPAR - 1) with 15.
  replace (npar s <? 15) with (length ps <? 16)%nat by (destruct (Nat.ltb_spec (length ps) 16), (Z.ltb_spec (npar s) 15); done || lia).
  destruct ((c =? 59) && _) eqn:E59.
  - apply andb_true_iff in E59 as [_ Hlt%Nat.ltb_lt]. eexists. split; [reflexivity|]. split.
    { destruct Hok as [[] Hd]. split; [by split|exact Hd]. }
    exists (Params (ps ++ [0])), g. split; [done|]. split; [|done]. cbn [parsing]. rewrite length_app. cbn [length]. split; [done|].
    split; [lia|]. split; [cbn; lia|]. cbn. rewrite Hpar, <- app_assoc. f_equal. by replace (16 - length ps)%nat with (S (16 - (length ps + 1)))%nat by lia.
  - destruct ((48 <=? c) && (c <=? 57)) eqn:Ed.
    + assert (ps <> []) as Hps by (destruct ps; [cbn in Hlen; lia|done]).
      set (v := u32 (10 * List.last ps 0 + (c - 48))). destruct (digit_par ps (replicate (16 - length ps) 0) v Hps) as [E1 E2]. rewrite <- Hpar in E1, E2.
      unfold runs_to. replace (npar s) with (Z.of_nat (length ps - 1)) by lia. mrun (get_par_run s _ _ E1).
      replace (u32 (10 * List.last ps 0 + c - 48)) with v by (unfold v; f_equal; lia).
      rewrite (set_par_run s _ _ v E1), E2. eexists. split; [reflexivity|]. split.
      { destruct Hok as [[] Hd]. split; [|exact Hd]. split; try done. change (par (with_par _ ?l)) with l. rewrite <- E2.
        split; [by rewrite length_insert|apply Forall_insert; [done|apply u32_nonneg]]. }
      exists (Params (digit c ps)), g. split; [done|]. split; [|done]. cbn [parsing]. rewrite length_digit by done. done.
    + unfold runs_to. rewrite !bind_modify. set (s1 := upd _ _). apply (final_char_ok c s1 _ ps); [|by exists Ground, g|done| |lia|done].
      * destruct Hok as [[] Hd]. split; [by split|exact Hd].
      * apply loaded_app; [lia|done].
Qed.

Lemma bracket_char_ok c s t : screen_ok s -> shows s t -> tm_parse t = Bracket ->
  runs_to (bracket_char c) s (if c =? 63 then t <| tm_parse := Params [0] |> else term_param c [0] t).
Proof.
  intros Hok (p & g & -> & Hp & Hg) Ep. cbn in Ep. subst p. unfold bracket_char, clear_par, runs_to. rewrite !bind_modify. set (s1 := upd _ _).
  assert (screen_ok s1) as Hok1. { destruct Hok as [[] Hd]. split; [|exact Hd]. split; try done. split; [done|]. by apply Forall_replicate. }
  assert (shows s1 (view s1 (Params [0]) g)) as Hs1 by (exists (Params [0]), g; split; [done|]; split; [|done]; cbn; done || (split; [done|]; split; [lia|done])).
  destruct (c =? 63); [by exists s1|]. exact (param_char_ok c s1 _ [0] Hok1 Hs1 eq_refl).
Qed.
