(* ===== verification/Tty.v ===== *)
(** Terminals ([linux-0.11/kernel/chr_drv/tty_io.c], [tty_ioctl.c], [include/linux/tty.h]).

    The state is the kernel's ([Task.kst]) with [tty_table] and the variables of the console
    ([Console.con]), which only its driver uses; the group of a terminal is in
    [tty_pgrp] of the kernel's state, where [do_exit] finds it too.  A [char] is signed, and a
    queue's buffer holds signed characters.  What the code calls and this file does not model
    is the class [TtyEnv]: the drivers behind the pointer [write] of a terminal ([con_write],
    [rs_write]), what others do while a task sleeps or gives up the processor ([tty_env]), what
    interrupts do before another round of a loop that need not sleep ([tty_irq]), and the byte
    of padding that [get_termio] copies from the stack.  A loop that waits for others, or that a
    driver could keep going, is bounded by the field [tty_fuel]. *)

From S2P Require Import Prelude Memory Task Sched Fork Console.

(** [(signed char) x] *)
Definition s8 (x : Z) : Z := let y := x mod 256 in if y <? 128 then y else y - 256.

(** ** Data *)

Definition TTY_BUF_SIZE : Z := 1024.

Record tty_queue := mk_queue { q_data : Z; q_head : Z; q_tail : Z; q_buf : list Z }.

#[export] Instance eta_queue : Eta tty_queue := fun q => mk_queue (q_data q) (q_head q) (q_tail q) (q_buf q).

(** [c_pad] are the two bytes that fill the structure up to a multiple of four. *)
Record termios := mk_termios {
  c_iflag : Z; c_oflag : Z; c_cflag : Z; c_lflag : Z; c_line : Z; c_cc : list Z; c_pad : list Z
}.

#[export] Instance eta_termios : Eta termios := fun t =>
  mk_termios (c_iflag t) (c_oflag t) (c_cflag t) (c_lflag t) (c_line t) (c_cc t) (c_pad t).

Record tty_struct := mk_tty {
  tty_termios : termios; stopped : Z; read_q : tty_queue; write_q : tty_queue; secondary : tty_queue
}.

#[export] Instance eta_tty : Eta tty_struct := fun t =>
  mk_tty (tty_termios t) (stopped t) (read_q t) (write_q t) (secondary t).

Record tst := mk_tst { t_kst : kst; tty_table : list tty_struct; cr_flag : Z; t_con : con }.

#[export] Instance eta_tst : Eta tst := fun s => mk_tst (t_kst s) (tty_table s) (cr_flag s) (t_con s).

Class TtyEnv := {
  tty_fuel : nat;
  tty_env : tst -> tst;
  tty_irq : tst -> tst;
  tty_driver : Z -> M tst unit;
  stack_byte : Z
}.

(** ** Queues *)

Definition INC (a : Z) : Z := Z.land (a + 1) (TTY_BUF_SIZE - 1).
Definition DEC (a : Z) : Z := Z.land (a - 1) (TTY_BUF_SIZE - 1).
Definition EMPTY (q : tty_queue) : bool := q_head q =? q_tail q.
Definition LEFT (q : tty_queue) : Z := Z.land (q_tail q - q_head q - 1) (TTY_BUF_SIZE - 1).
Definition LAST (q : tty_queue) : option Z := q_buf q !! Z.to_nat (Z.land (TTY_BUF_SIZE - 1) (q_head q - 1)).
Definition FULL (q : tty_queue) : bool := negb (istrue (LEFT q)).
Definition CHARS (q : tty_queue) : Z := Z.land (q_head q - q_tail q) (TTY_BUF_SIZE - 1).

(** The character at the tail, and the queue without it. *)
Definition GETCH (q : tty_queue) : option (Z * tty_queue) :=
  c ← q_buf q !! Z.to_nat (q_tail q); Some (c, q <| q_tail := INC (q_tail q) |>).

Definition PUTCH (c : Z) (q : tty_queue) : option tty_queue :=
  if decide (Z.to_nat (q_head q) < length (q_buf q))%nat
  then Some (q <| q_buf ::= <[Z.to_nat (q_head q) := s8 c]> |> <| q_head := INC (q_head q) |>)
  else None.

(** ** Control characters and flags *)

Definition VINTR : nat := 0.
Definition VQUIT : nat := 1.
Definition VERASE : nat := 2.
Definition VKILL : nat := 3.
Definition VEOF : nat := 4.
Definition VTIME : nat := 5.
Definition VMIN : nat := 6.
Definition VSTART : nat := 8.
Definition VSTOP : nat := 9.

Definition cc (t : tty_struct) (k : nat) : Z := default 0 (c_cc (tty_termios t) !! k).
Definition INTR_CHAR (t : tty_struct) : Z := cc t VINTR.
Definition QUIT_CHAR (t : tty_struct) : Z := cc t VQUIT.
Definition ERASE_CHAR (t : tty_struct) : Z := cc t VERASE.
Definition KILL_CHAR (t : tty_struct) : Z := cc t VKILL.
Definition EOF_CHAR (t : tty_struct) : Z := cc t VEOF.
Definition START_CHAR (t : tty_struct) : Z := cc t VSTART.
Definition STOP_CHAR (t : tty_struct) : Z := cc t VSTOP.

Definition INLCR : Z := 64.
Definition IGNCR : Z := 128.
Definition ICRNL : Z := 256.
Definition IUCLC : Z := 512.
Definition OPOST : Z := 1.
Definition OLCUC : Z := 2.
Definition ONLCR : Z := 4.
Definition OCRNL : Z := 8.
Definition ONLRET : Z := 32.
Definition ISIG : Z := 1.
Definition ICANON : Z := 2.
Definition ECHO : Z := 8.
Definition ECHOCTL : Z := 512.
Definition ECHOKE : Z := 2048.
Definition CBAUD : Z := 15.
Definition B2400 : Z := 11.
Definition CS8 : Z := 48.

Definition _L_FLAG (t : tty_struct) (f : Z) : bool := istrue (Z.land (c_lflag (tty_termios t)) f).
Definition _I_FLAG (t : tty_struct) (f : Z) : bool := istrue (Z.land (c_iflag (tty_termios t)) f).
Definition _O_FLAG (t : tty_struct) (f : Z) : bool := istrue (Z.land (c_oflag (tty_termios t)) f).

Definition L_CANON (t : tty_struct) : bool := _L_FLAG t ICANON.
Definition L_ISIG (t : tty_struct) : bool := _L_FLAG t ISIG.
Definition L_ECHO (t : tty_struct) : bool := _L_FLAG t ECHO.
Definition L_ECHOCTL (t : tty_struct) : bool := _L_FLAG t ECHOCTL.
Definition I_UCLC (t : tty_struct) : bool := _I_FLAG t IUCLC.
Definition I_NLCR (t : tty_struct) : bool := _I_FLAG t INLCR.
Definition I_CRNL (t : tty_struct) : bool := _I_FLAG t ICRNL.
Definition I_NOCR (t : tty_struct) : bool := _I_FLAG t IGNCR.
Definition O_POST (t : tty_struct) : bool := _O_FLAG t OPOST.
Definition O_NLCR (t : tty_struct) : bool := _O_FLAG t ONLCR.
Definition O_CRNL (t : tty_struct) : bool := _O_FLAG t OCRNL.
Definition O_NLRET (t : tty_struct) : bool := _O_FLAG t ONLRET.
Definition O_LCUC (t : tty_struct) : bool := _O_FLAG t OLCUC.

Definition SIGINT : Z := 2.
Definition SIGQUIT : Z := 3.
Definition ALRMMASK : Z := Z.shiftl 1 (SIGALRM - 1).
Definition INTMASK : Z := Z.shiftl 1 (SIGINT - 1).
Definition QUITMASK : Z := Z.shiftl 1 (SIGQUIT - 1).

(** "\003\034\177\025\004\0\1\0\021\023\032\0\022\017\027\026\0" *)
Definition INIT_C_CC : list Z := [3; 28; 127; 21; 4; 0; 1; 0; 17; 19; 26; 0; 18; 15; 23; 22; 0].

Definition empty_queue (data : Z) : tty_queue := mk_queue data 0 0 (replicate 1024 0).
Definition serial (port : Z) : tty_struct :=
  mk_tty (mk_termios 0 0 (Z.lor B2400 CS8) 0 0 INIT_C_CC [0; 0]) 0 (empty_queue port) (empty_queue port) (empty_queue 0).
Definition init_tty_table : list tty_struct :=
  [mk_tty (mk_termios ICRNL (Z.lor OPOST ONLCR) 0 (Z.lor ISIG (Z.lor ICANON (Z.lor ECHO (Z.lor ECHOCTL ECHOKE)))) 0 INIT_C_CC [0; 0])
     0 (empty_queue 0) (empty_queue 0) (empty_queue 0); serial 0x3f8; serial 0x2f8].

(** ** Characters *)

(** [_ctype] has an entry for -1 and for the characters from 0 on. *)
Definition isupper (c : Z) : M tst bool := if c <? -1 then undef "_ctype" else mret ((65 <=? c) && (c <=? 90)).
Definition islower (c : Z) : M tst bool := if c <? -1 then undef "_ctype" else mret ((97 <=? c) && (c <=? 122)).
Definition tolower (c : Z) : M tst Z := b ← isupper c; mret (if (b : bool) then c - (65 - 97) else c).
Definition toupper (c : Z) : M tst Z := b ← islower c; mret (if (b : bool) then c - (97 - 65) else c).

(** ** Access *)

Definition get_tty (n : Z) : M tst tty_struct :=
  s ← get; of_option "tty_table" (if n <? 0 then None else tty_table s !! Z.to_nat n).
Definition upd_tty (n : Z) (f : tty_struct -> tty_struct) : M tst unit :=
  t ← get_tty n; modify (fun s => s <| tty_table ::= <[Z.to_nat n := f t]> |>).

Definition on_k {A} (m : M kst A) : M tst A := fun s => let '(r, k) := m (t_kst s) in (r, s <| t_kst := k |>).

Definition get_read (n : Z) : M tst Z :=
  t ← get_tty n;
  '(c, q) ← of_option "read_q" (GETCH (read_q t));
  upd_tty n (fun t => t <| read_q := q |>);;
  mret c.
Definition get_secondary (n : Z) : M tst Z :=
  t ← get_tty n;
  '(c, q) ← of_option "secondary" (GETCH (secondary t));
  upd_tty n (fun t => t <| secondary := q |>);;
  mret c.
Definition put_secondary (c n : Z) : M tst unit :=
  t ← get_tty n;
  q ← of_option "secondary" (PUTCH c (secondary t));
  upd_tty n (fun t => t <| secondary := q |>).
Definition put_write (c n : Z) : M tst unit :=
  t ← get_tty n;
  q ← of_option "write_q" (PUTCH c (write_q t));
  upd_tty n (fun t => t <| write_q := q |>).

Section Tty.
Context `{TtyEnv}.

(** [interruptible_sleep_on] and [schedule]: others run. *)
Definition tty_sleep : M tst unit := modify tty_env.
Definition tty_write_out (n : Z) : M tst unit := tty_driver n.

(** The wait queues of the terminal's three queues. *)
Definition secondary_list (n : Z) : Z := 2000 + 3 * n + 2.

Definition tty_intr (n mask : Z) : M tst unit :=
  s ← get;
  let pgrp := default 0 (tty_pgrp (t_kst s) !! n) in
  if pgrp <=? 0 then mret tt else
  on_k (for_each (seqZ 0 NR_TASKS) (fun i =>
    k ← get;
    match tasks k !! i with
    | None => mret tt
    | Some t => when (t_pgrp t =? pgrp) (upd_task i (fun t => t <| t_signal ::= Z.lor mask |>))
    end)).

Definition cur_signal : M tst Z := t ← on_k current_task; mret (t_signal t).

Fixpoint sleep_if_empty (fuel : nat) (n : Z) : M tst unit :=
  match fuel with
  | O => nofuel
  | S fuel =>
      t ← get_tty n;
      sig ← cur_signal;
      if (sig =? 0) && EMPTY (secondary t) then tty_sleep;; sleep_if_empty fuel n else mret tt
  end.

(** The loop of [sleep_if_full]. *)
Fixpoint wait_left (fuel : nat) (n : Z) : M tst unit :=
  match fuel with
  | O => nofuel
  | S fuel =>
      t ← get_tty n;
      sig ← cur_signal;
      if (sig =? 0) && (LEFT (write_q t) <? 128) then tty_sleep;; wait_left fuel n else mret tt
  end.

Definition sleep_if_full (n : Z) : M tst unit :=
  t ← get_tty n;
  if negb (FULL (write_q t)) then mret tt else wait_left tty_fuel n.

Definition wait_for_keypress : M tst unit := sleep_if_empty tty_fuel 0.

(** ** The line discipline *)

(** What echoing the removal of [c] writes, and the removal. *)
Definition rub_out (n c : Z) : M tst unit :=
  t ← get_tty n;
  when (L_ECHO t) (
    when (c <? 32) (put_write 127 n);;
    put_write 127 n;;
    tty_write_out n);;
  upd_tty n (fun t => t <| secondary ::= fun q => q <| q_head := DEC (q_head q) |> |>).

(** [EMPTY(tty->secondary) || (c=LAST(tty->secondary))==10 || c==EOF_CHAR(tty)]: no character of
    the line is left, or the last one. *)
Definition last_of_line (n : Z) : M tst (option Z) :=
  t ← get_tty n;
  if EMPTY (secondary t) then mret None else
  c ← of_option "secondary" (LAST (secondary t));
  if (c =? 10) || (c =? EOF_CHAR t) then mret None else mret (Some c).

Fixpoint kill_line (fuel : nat) (n : Z) : M tst unit :=
  match fuel with
  | O => nofuel
  | S fuel =>
      r ← last_of_line n;
      match r with
      | None => mret tt
      | Some c => rub_out n c;; kill_line fuel n
      end
  end.

(** The echo of [c]. *)
Definition echo (n c : Z) : M tst unit :=
  t ← get_tty n;
  when (L_ECHO t) (
    (if c =? 10 then put_write 10 n;; put_write 13 n
     else if c <? 32 then when (L_ECHOCTL t) (put_write 94 n;; put_write (c + 64) n)
     else put_write c n);;
    tty_write_out n).

(** The character after the translations of [c_iflag]; [None] is a carriage return that is
    ignored. *)
Definition translate (n c : Z) : M tst (option Z) :=
  t ← get_tty n;
  let r := if c =? 13 then
             (if I_CRNL t then Some 10 else if I_NOCR t then None else Some c)
           else if (c =? 10) && I_NLCR t then Some 13 else Some c in
  match r with
  | None => mret None
  | Some c => c ← (if I_UCLC t then tolower c else mret c); mret (Some (s8 c))
  end.

(** Does canonical mode take [c] as an editing or flow control character? *)
Definition edit (n c : Z) : M tst bool :=
  t ← get_tty n;
  if negb (L_CANON t) then mret false else
  if c =? KILL_CHAR t then kill_line tty_fuel n;; mret true else
  if c =? ERASE_CHAR t then
    r ← last_of_line n;
    match r with
    | None => mret true
    | Some c => rub_out n c;; mret true
    end
  else
  if c =? STOP_CHAR t then upd_tty n (fun t => t <| stopped := 1 |>);; mret true else
  if c =? START_CHAR t then upd_tty n (fun t => t <| stopped := 0 |>);; mret true else
  mret false.

(** Is [c] a character that sends a signal? *)
Definition signal_char (n c : Z) : M tst bool :=
  t ← get_tty n;
  if negb (L_ISIG t) then mret false else
  if c =? INTR_CHAR t then tty_intr n INTMASK;; mret true else
  if c =? QUIT_CHAR t then tty_intr n QUITMASK;; mret true else
  mret false.

(** One character of the raw queue, from [GETCH] to the end of the loop's body. *)
Definition cook_char (n : Z) : M tst unit :=
  c ← get_read n;
  r ← translate n c;
  match r with
  | None => mret tt
  | Some c =>
      b ← edit n c;
      if (b : bool) then mret tt else
      b ← signal_char n c;
      if (b : bool) then mret tt else
      t ← get_tty n;
      when ((c =? 10) || (c =? EOF_CHAR t))
        (upd_tty n (fun t => t <| secondary ::= fun q => q <| q_data := u32 (q_data q + 1) |> |>));;
      echo n c;;
      put_secondary c n
  end.

Fixpoint cook_loop (fuel : nat) (n : Z) : M tst unit :=
  t ← get_tty n;
  if EMPTY (read_q t) || FULL (secondary t) then mret tt else
  match fuel with
  | O => nofuel
  | S fuel => cook_char n;; cook_loop fuel n
  end.

Definition copy_to_cooked (n : Z) : M tst unit :=
  cook_loop tty_fuel n;;
  on_k (wake_up (secondary_list n)).

Definition do_tty_interrupt (tty : Z) : M tst unit := copy_to_cooked tty.

(** ** Reading *)

Definition set_alarm (v : Z) : M tst unit := on_k (upd_current (fun t => t <| t_alarm := v |>)).

(** [if (flag=(!oldalarm || time+jiffies<oldalarm)) current->alarm = time+jiffies;] *)
Definition start_alarm (time oldalarm : Z) : M tst bool :=
  j ← on_k (gets jiffies);
  let flag := (oldalarm =? 0) || (time + j <? oldalarm) in
  when flag (set_alarm (time + j));;
  mret flag.

(** The [do] loop: the address and count that are left, and whether an end of file ends the
    call.  Each round takes a character, so [nr] rounds are enough. *)
Fixpoint take_chars (fuel : nat) (n b nr : Z) : M tst (Z * Z * bool) :=
  match fuel with
  | O => nofuel
  | S fuel =>
      c ← get_secondary n;
      t ← get_tty n;
      when ((c =? EOF_CHAR t) || (c =? 10))
        (upd_tty n (fun t => t <| secondary ::= fun q => q <| q_data := u32 (q_data q - 1) |> |>));;
      if (c =? EOF_CHAR t) && L_CANON t then mret (b, nr, true) else
      on_k (put_fs_byte c b);;
      let b := b + 1 in
      let nr := nr - 1 in
      if nr =? 0 then mret (b, nr, false) else
      t ← get_tty n;
      if (0 <? nr) && negb (EMPTY (secondary t)) then take_chars fuel n b nr else mret (b, nr, false)
  end.

(** The [while] loop; the result is [b] and whether the call returns at once. *)
Fixpoint read_loop (fuel : nat) (n buf b nr minimum time oldalarm : Z) (flag : bool) : M tst (Z * bool) :=
  if nr <=? 0 then mret (b, false) else
  match fuel with
  | O => nofuel
  | S fuel =>
      sig ← cur_signal;
      if flag && istrue (Z.land sig ALRMMASK) then
        on_k (upd_current (fun t => t <| t_signal ::= Z.land (Z.lnot ALRMMASK) |>));;
        mret (b, false)
      else if istrue sig then mret (b, false) else
      t ← get_tty n;
      if EMPTY (secondary t) || (L_CANON t && (q_data (secondary t) =? 0) && (20 <? LEFT (secondary t))) then
        sleep_if_empty tty_fuel n;;
        modify tty_irq;;
        read_loop fuel n buf b nr minimum time oldalarm flag
      else
      '(b, nr, eof) ← take_chars (Z.to_nat nr) n b nr;
      if (eof : bool) then mret (b, true) else
      t ← get_tty n;
      flag ← (if istrue time && negb (L_CANON t)
              then f ← start_alarm time oldalarm; when (negb f) (set_alarm oldalarm);; mret f
              else mret flag);
      t ← get_tty n;
      if (if L_CANON t then istrue (b - buf) else minimum <=? b - buf) then mret (b, false) else
      read_loop fuel n buf b nr minimum time oldalarm flag
  end.

Definition tty_read (channel buf nr : Z) : M tst Z :=
  if (2 <? u32 channel) || (nr <? 0) then mret (-1) else
  let n := u32 channel in
  c ← on_k current_task;
  t ← get_tty n;
  let oldalarm := t_alarm c in
  let time := 10 * cc t VTIME in
  let minimum := cc t VMIN in
  '(minimum, flag) ← (if istrue time && (minimum =? 0) then f ← start_alarm time oldalarm; mret (1, f) else mret (minimum, false));
  let minimum := if nr <? minimum then nr else minimum in
  '(b, eof) ← read_loop tty_fuel n buf buf nr minimum time oldalarm flag;
  if (eof : bool) then mret (b - buf) else
  set_alarm oldalarm;;
  sig ← cur_signal;
  if istrue sig && (b - buf =? 0) then mret (- EINTR) else mret (b - buf).

(** ** Writing *)

(** The inner loop of [tty_write]: the address and count that are left.  A character takes at
    most two rounds. *)
Fixpoint put_chars (fuel : nat) (n b nr : Z) : M tst (Z * Z) :=
  t ← get_tty n;
  if (nr <=? 0) || FULL (write_q t) then mret (b, nr) else
  match fuel with
  | O => nofuel
  | S fuel =>
      c ← on_k (get_fs_byte b);
      let c := s8 c in
      s ← get;
      let c := if negb (O_POST t) then c else
               if (c =? 13) && O_CRNL t then 10 else
               if (c =? 10) && O_NLRET t then 13 else c in
      if O_POST t && (c =? 10) && (cr_flag s =? 0) && O_NLCR t then
        modify (fun s => s <| cr_flag := 1 |>);;
        put_write 13 n;;
        put_chars fuel n b nr
      else
      c ← (if O_POST t && O_LCUC t then toupper c else mret c);
      modify (fun s => s <| cr_flag := 0 |>);;
      put_write c n;;
      put_chars fuel n (b + 1) (nr - 1)
  end.

Fixpoint write_loop (fuel : nat) (n b nr : Z) : M tst Z :=
  if nr <=? 0 then mret b else
  match fuel with
  | O => nofuel
  | S fuel =>
      sleep_if_full n;;
      sig ← cur_signal;
      if istrue sig then mret b else
      '(b, nr) ← put_chars (2 * Z.to_nat nr) n b nr;
      tty_write_out n;;
      when (0 <? nr) tty_sleep;;
      write_loop fuel n b nr
  end.

Definition tty_write (channel buf nr : Z) : M tst Z :=
  if (2 <? u32 channel) || (nr <? 0) then mret (-1) else
  b ← write_loop tty_fuel (u32 channel) buf nr;
  mret (b - buf).

(** ** Control *)

Definition quotient : list Z := [0; 2304; 1536; 1047; 857; 768; 576; 384; 192; 96; 64; 48; 24; 12; 6; 3].

Definition change_speed (n : Z) : M tst unit :=
  t ← get_tty n;
  let port := u16 (q_data (read_q t)) in
  if port =? 0 then mret tt else
  quot ← of_option "quotient" (quotient !! Z.to_nat (Z.land (c_cflag (tty_termios t)) CBAUD));
  on_k (outb 0x80 (port + 3));;
  on_k (outb (Z.land quot 0xff) port);;
  on_k (outb (Z.shiftr quot 8) (port + 1));;
  on_k (outb 0x03 (port + 3)).

Definition flush_queue (q : tty_queue) : tty_queue := q <| q_head := q_tail q |>.

(** The bytes of a structure in the user's memory. *)
Definition put_bytes (l : list Z) (addr : Z) : M tst unit :=
  for_each (imap (fun i c => (c, addr + Z.of_nat i)) l) (fun '(c, a) => on_k (put_fs_byte c a)).
Definition get_bytes (n : nat) (addr : Z) : M tst (list Z) :=
  gets (fun s => (fun i => ld_byte (umem (t_kst s)) (addr + i)) <$> seqZ 0 (Z.of_nat n)).

Definition le_bytes (n : nat) (v : Z) : list Z := (fun i => u8 (Z.shiftr v (8 * i))) <$> seqZ 0 (Z.of_nat n).
Definition of_le (l : list Z) : Z := foldr (fun b v => u8 b + 256 * v) 0 l.

Definition termios_bytes (t : termios) : list Z :=
  le_bytes 4 (c_iflag t) ++ le_bytes 4 (c_oflag t) ++ le_bytes 4 (c_cflag t) ++ le_bytes 4 (c_lflag t) ++
  [u8 (c_line t)] ++ c_cc t ++ c_pad t.
Definition of_termios_bytes (l : list Z) : termios :=
  mk_termios (of_le (take 4 l)) (of_le (take 4 (drop 4 l))) (of_le (take 4 (drop 8 l))) (of_le (take 4 (drop 12 l)))
    (nth 16 l 0) (take 17 (drop 17 l)) (take 2 (drop 34 l)).

Definition SIZEOF_TERMIOS : Z := 36.
Definition SIZEOF_TERMIO : Z := 18.
Definition NCC : nat := 8.

Definition get_termios (n termios : Z) : M tst Z :=
  on_k (verify_area termios SIZEOF_TERMIOS);;
  t ← get_tty n;
  put_bytes (termios_bytes (tty_termios t)) termios;;
  mret 0.

Definition set_termios (n termios : Z) : M tst Z :=
  l ← get_bytes (Z.to_nat SIZEOF_TERMIOS) termios;
  upd_tty n (fun t => t <| tty_termios := of_termios_bytes l |>);;
  change_speed n;;
  mret 0.

(** [struct termio] has the low halves of the flags, eight characters and a byte of padding. *)
Definition get_termio (n termio : Z) : M tst Z :=
  on_k (verify_area termio SIZEOF_TERMIO);;
  t ← get_tty n;
  let x := tty_termios t in
  put_bytes (le_bytes 2 (c_iflag x) ++ le_bytes 2 (c_oflag x) ++ le_bytes 2 (c_cflag x) ++ le_bytes 2 (c_lflag x) ++
             [u8 (c_line x)] ++ take NCC (c_cc x) ++ [stack_byte]) termio;;
  mret 0.

(** Writing the low half of a flag word. *)
Definition set_low (v w : Z) : Z := 65536 * Z.shiftr w 16 + u16 v.

Definition set_termio (n termio : Z) : M tst Z :=
  l ← get_bytes (Z.to_nat SIZEOF_TERMIO) termio;
  upd_tty n (fun t => t <| tty_termios ::= fun x =>
    x <| c_iflag ::= set_low (of_le (take 2 l)) |> <| c_oflag ::= set_low (of_le (take 2 (drop 2 l))) |>
      <| c_cflag ::= set_low (of_le (take 2 (drop 4 l))) |> <| c_lflag ::= set_low (of_le (take 2 (drop 6 l))) |>
      <| c_line := nth 8 l 0 |> <| c_cc ::= fun cs => take NCC (drop 9 l) ++ drop NCC cs |> |>);;
  change_speed n;;
  mret 0.

Definition TCGETS : Z := 0x5401.
Definition TCSETS : Z := 0x5402.
Definition TCSETSW : Z := 0x5403.
Definition TCSETSF : Z := 0x5404.
Definition TCGETA : Z := 0x5405.
Definition TCSETA : Z := 0x5406.
Definition TCSETAW : Z := 0x5407.
Definition TCSETAF : Z := 0x5408.
Definition TCSBRK : Z := 0x5409.
Definition TCFLSH : Z := 0x540B.
Definition TIOCGPGRP : Z := 0x540F.
Definition TIOCSPGRP : Z := 0x5410.
Definition TIOCOUTQ : Z := 0x5411.
Definition TIOCINQ : Z := 0x541B.

Definition flush_read (n : Z) : M tst unit := upd_tty n (fun t => t <| read_q ::= flush_queue |>).
Definition flush_write (n : Z) : M tst unit := upd_tty n (fun t => t <| write_q ::= flush_queue |>).

Definition tty_ioctl (dev cmd arg : Z) : M tst Z :=
  c ← on_k current_task;
  n ← (if Z.shiftr (u32 dev) 8 =? 5 then
         (if t_tty c <? 0 then panic "tty_ioctl: dev<0" else mret (t_tty c))
       else mret (Z.land dev 0xff));
  if cmd =? TCGETS then get_termios n arg
  else if cmd =? TCSETSF then flush_read n;; set_termios n arg
  else if (cmd =? TCSETSW) || (cmd =? TCSETS) then set_termios n arg
  else if cmd =? TCGETA then get_termio n arg
  else if cmd =? TCSETAF then flush_read n;; set_termio n arg
  else if (cmd =? TCSETAW) || (cmd =? TCSETA) then set_termio n arg
  else if cmd =? TCSBRK then mret 0
  else if cmd =? TCFLSH then
    (if arg =? 0 then flush_read n;; mret 0
     else if arg =? 1 then flush_write n;; mret 0
     else if arg =? 2 then flush_read n;; flush_write n;; mret 0
     else mret (- EINVAL))
  else if cmd =? TIOCGPGRP then
    on_k (verify_area arg 4);;
    _ ← get_tty n;
    s ← get;
    on_k (put_fs_long (default 0 (tty_pgrp (t_kst s) !! n)) arg);;
    mret 0
  else if cmd =? TIOCSPGRP then
    v ← on_k (get_fs_long arg);
    _ ← get_tty n;
    on_k (modify (fun k => k <| tty_pgrp ::= <[n := s32 v]> |>));;
    mret 0
  else if cmd =? TIOCOUTQ then
    on_k (verify_area arg 4);;
    t ← get_tty n;
    on_k (put_fs_long (CHARS (write_q t)) arg);;
    mret 0
  else if cmd =? TIOCINQ then
    on_k (verify_area arg 4);;
    t ← get_tty n;
    on_k (put_fs_long (CHARS (secondary t)) arg);;
    mret 0
  else mret (- EINVAL).
End Tty.
