(* ===== verification/TtySpec.v ===== *)
(** Terminals: the queues are byte queues, and the line discipline refines a function on lists
    of characters.  What a driver promises to the line discipline is the class [TtyDriver]. *)

From S2P Require Import Prelude Memory Task Sched SchedSpec Fork Console Tty.

(** ** Queues *)

Record queue_ok (q : tty_queue) : Prop := {
  qo_head : 0 <= q_head q < 1024;
  qo_tail : 0 <= q_tail q < 1024;
  qo_buf : length (q_buf q) = 1024%nat
}.

(** The characters from the tail to the head. *)
Definition contents (q : tty_queue) : list Z :=
  (fun k => nth (Z.to_nat ((q_tail q + k) mod 1024)) (q_buf q) 0) <$> seqZ 0 ((q_head q - q_tail q) mod 1024).

Lemma land_1023 x : Z.land x (TTY_BUF_SIZE - 1) = x mod 1024.
Proof. exact (land_mask_mod x 10 ltac:(lia)). Qed.

Lemma CHARS_mod q : CHARS q = (q_head q - q_tail q) mod 1024.
Proof. apply land_1023. Qed.

Lemma length_contents q : Z.of_nat (length (contents q)) = CHARS q.
Proof.
  unfold contents. rewrite length_fmap, length_seqZ, CHARS_mod. pose proof (Z.mod_pos_bound (q_head q - q_tail q) 1024). lia.
Qed.

Lemma wrap_cases x y : 0 <= x < 1024 -> 0 <= y < 1024 -> (x - y) mod 1024 = if y <=? x then x - y else x - y + 1024.
Proof.
  intros Hx Hy. destruct (Z.leb_spec y x); [apply Z.mod_small; lia|].
  rewrite <- (Z_mod_plus_full (x - y) 1). apply Z.mod_small. lia.
Qed.

Lemma inc_cases x : 0 <= x < 1024 -> INC x = if x =? 1023 then 0 else x + 1.
Proof.
  intros Hx. unfold INC. rewrite land_1023. destruct (Z.eqb_spec x 1023) as [->|]; [done|]. apply Z.mod_small. lia.
Qed.

Lemma dec_cases x : 0 <= x < 1024 -> DEC x = if x =? 0 then 1023 else x - 1.
Proof.
  intros Hx. unfold DEC. rewrite land_1023. destruct (Z.eqb_spec x 0) as [->|]; [done|]. apply Z.mod_small. lia.
Qed.

Lemma CHARS_cases q :
  queue_ok q -> CHARS q = if q_tail q <=? q_head q then q_head q - q_tail q else q_head q - q_tail q + 1024.
Proof. intros [Hh Ht _]. rewrite CHARS_mod. by apply wrap_cases. Qed.

Lemma EMPTY_ok q : queue_ok q -> EMPTY q = bool_decide (contents q = []).
Proof.
  intros Hq. pose proof (length_contents q) as Hl. rewrite (CHARS_cases q Hq) in Hl. destruct Hq as [Hh Ht _]. unfold EMPTY.
  destruct (Z.eqb_spec (q_head q) (q_tail q)) as [E|E]; case_bool_decide as Hc; try done.
  - rewrite E, Z.leb_refl in Hl. destruct (contents q); [done|]. cbn in Hl. lia.
  - rewrite Hc in Hl. cbn in Hl. destruct (q_tail q <=? q_head q); lia.
Qed.

Lemma LEFT_ok q : queue_ok q -> LEFT q = 1023 - Z.of_nat (length (contents q)).
Proof.
  intros Hq. rewrite length_contents, (CHARS_cases q Hq). destruct Hq as [Hh Ht _]. unfold LEFT. rewrite land_1023.
  destruct (Z.leb_spec (q_tail q) (q_head q)).
  - rewrite <- (Z_mod_plus_full _ 1), Z.mod_small by lia. lia.
  - rewrite Z.mod_small by lia. lia.
Qed.

Lemma FULL_ok q : queue_ok q -> FULL q = (1023 <=? Z.of_nat (length (contents q))).
Proof.
  intros Hq. unfold FULL, istrue. rewrite (LEFT_ok q Hq), negb_involutive.
  assert (Z.of_nat (length (contents q)) < 1024).
  { rewrite length_contents, (CHARS_cases q Hq). destruct Hq as [Hh Ht _]. destruct (Z.leb_spec (q_tail q) (q_head q)); lia. }
  destruct (Z.eqb_spec (1023 - Z.of_nat (length (contents q))) 0), (Z.leb_spec 1023 (Z.of_nat (length (contents q)))); done || lia.
Qed.

(** A queue's characters by position. *)
Lemma contents_lookup q (k : nat) :
  contents q !! k = if decide (Z.of_nat k < CHARS q) then Some (nth (Z.to_nat ((q_tail q + Z.of_nat k) mod 1024)) (q_buf q) 0) else None.
Proof.
  unfold contents. rewrite list_lookup_fmap, <- CHARS_mod. case_decide.
  - rewrite lookup_seqZ_lt by lia. done.
  - rewrite lookup_seqZ_ge by lia. done.
Qed.

Lemma GETCH_ok q c l :
  queue_ok q -> contents q = c :: l -> exists q', GETCH q = Some (c, q') /\ queue_ok q' /\ contents q' = l.
Proof.
  intros Hq Hc. pose proof (length_contents q) as Hl. rewrite Hc in Hl. cbn [length] in Hl.
  pose proof (CHARS_cases q Hq) as Hn. pose proof Hq as [Hh Ht Hb].
  pose proof (contents_lookup q 0) as H0. rewrite Hc, decide_True in H0 by lia. change ((c :: l) !! 0%nat) with (Some c) in H0. rewrite Z.add_0_r in H0.
  rewrite (Z.mod_small (q_tail q)) in H0 by lia. injection H0 as ->. unfold GETCH.
  destruct (lookup_lt_is_Some_2 (q_buf q) (Z.to_nat (q_tail q))) as [c Hc0]; [lia|]. rewrite Hc0. cbn.
  eexists. split; [rewrite nth_lookup, Hc0; done|].
  set (q' := q <| q_tail := INC (q_tail q) |>). pose proof (inc_cases (q_tail q) Ht) as Ei.
  assert (queue_ok q') as Hq' by (split; [done|cbn; rewrite Ei; destruct (Z.eqb_spec (q_tail q) 1023); lia|done]).
  split; [done|]. apply list_eq. intros k. rewrite contents_lookup.
  assert (CHARS q' = CHARS q - 1) as ->.
  { rewrite (CHARS_cases q' Hq'), Hn. cbn. rewrite Ei. destruct (Z.eqb_spec (q_tail q) 1023);
      repeat match goal with |- context [?a <=? ?b] => destruct (Z.leb_spec a b) end; lia. }
  assert (l !! k = contents q !! S k) as -> by (by rewrite Hc). rewrite contents_lookup, Nat2Z.inj_succ. destruct (decide (Z.of_nat k < CHARS q - 1)), (decide (Z.succ (Z.of_nat k) < CHARS q)); try lia; [|done].
  do 3 f_equal. cbn. unfold INC. rewrite land_1023, Zplus_mod_idemp_l. f_equal. lia.
Qed.

Lemma PUTCH_ok c q :
  queue_ok q -> exists q', PUTCH c q = Some q' /\ queue_ok q' /\ q_data q' = q_data q /\
    (FULL q = false -> contents q' = contents q ++ [s8 c]).
Proof.
  intros Hq. pose proof (CHARS_cases q Hq) as Hn. pose proof Hq as [Hh Ht Hb]. unfold PUTCH. rewrite decide_True by lia.
  eexists. split; [reflexivity|]. set (q' := q <| q_buf ::= _ |> <| q_head := _ |>). pose proof (inc_cases (q_head q) Hh) as Ei.
  assert (queue_ok q') as Hq'.
  { split; [cbn; rewrite Ei; destruct (Z.eqb_spec (q_head q) 1023); lia|done|cbn; by rewrite length_insert]. }
  split; [done|]. split; [done|]. rewrite (FULL_ok q Hq). intros Hf%Z.leb_gt. rewrite length_contents in Hf.
  apply list_eq. intros k. rewrite contents_lookup.
  assert (CHARS q' = CHARS q + 1) as ->.
  { rewrite (CHARS_cases q' Hq'), Hn. rewrite Hn in Hf. cbn. rewrite Ei. destruct (Z.eqb_spec (q_head q) 1023);
      repeat match goal with |- context [?a <=? ?b] => destruct (Z.leb_spec a b) | H : context [?a <=? ?b] |- _ => destruct (Z.leb_spec a b) end; lia. }
  change (q_tail q') with (q_tail q). change (q_buf q') with (<[Z.to_nat (q_head q) := s8 c]> (q_buf q)). rewrite !nth_lookup.
  pose proof (length_contents q) as Hl. pose proof (Z.mod_pos_bound (q_tail q + Z.of_nat k) 1024 ltac:(lia)) as Hr.
  assert ((q_tail q + CHARS q) mod 1024 = q_head q) as Ehd.
  { rewrite CHARS_mod, Zplus_mod_idemp_r. replace (q_tail q + (q_head q - q_tail q)) with (q_head q) by lia. apply Z.mod_small. lia. }
  destruct (decide (Z.of_nat k < CHARS q)) as [Hk|Hk].
  - rewrite decide_True by lia. rewrite lookup_app_l by lia. rewrite contents_lookup, decide_True by done. f_equal.
    rewrite list_lookup_insert_ne; [by rewrite nth_lookup|]. intros E.
    assert ((q_tail q + Z.of_nat k) mod 1024 = (q_tail q + CHARS q) mod 1024) as E' by lia.
    pose proof (Z.div_mod (q_tail q + Z.of_nat k) 1024 ltac:(lia)). pose proof (Z.div_mod (q_tail q + CHARS q) 1024 ltac:(lia)). lia.
  - rewrite lookup_app_r by lia. destruct (decide (Z.of_nat k = CHARS q)) as [Ek|Ek].
    + rewrite decide_True, Ek, Ehd, list_lookup_insert_eq by lia. replace (k - length (contents q))%nat with 0%nat by lia. done.
    + rewrite decide_False by lia. symmetry. apply lookup_ge_None_2. cbn. lia.
Qed.

(** The last character, and the queue without it. *)
Lemma LAST_ok q l c :
  queue_ok q -> contents q = l ++ [c] ->
  LAST q = Some c /\ queue_ok (q <| q_head := DEC (q_head q) |>) /\ contents (q <| q_head := DEC (q_head q) |>) = l.
Proof.
  intros Hq Hc. pose proof (CHARS_cases q Hq) as Hn. pose proof (length_contents q) as Hl. rewrite Hc, length_app in Hl. cbn [length] in Hl.
  pose proof Hq as [Hh Ht Hb]. set (q' := q <| q_head := _ |>). pose proof (dec_cases (q_head q) Hh) as Ed.
  assert (queue_ok q') as Hq' by (split; [cbn; rewrite Ed; destruct (Z.eqb_spec (q_head q) 0); lia|done|done]).
  assert (CHARS q' = CHARS q - 1) as Hn'.
  { rewrite (CHARS_cases q' Hq'), Hn. rewrite Hn in Hl. cbn. rewrite Ed. destruct (Z.eqb_spec (q_head q) 0);
      repeat match goal with |- context [?a <=? ?b] => destruct (Z.leb_spec a b) | H : context [?a <=? ?b] |- _ => destruct (Z.leb_spec a b) end; lia. }
  split; [|split; [done|]].
  - pose proof (contents_lookup q (length l)) as Hk. rewrite Hc, decide_True in Hk by lia. rewrite list_lookup_middle in Hk by done.
    injection Hk as ->. unfold LAST. rewrite Z.land_comm, land_1023.
    assert ((q_tail q + Z.of_nat (length l)) mod 1024 = (q_head q - 1) mod 1024) as ->.
    { replace (Z.of_nat (length l)) with (CHARS q - 1) by lia. rewrite CHARS_mod.
      replace (q_tail q + ((q_head q - q_tail q) mod 1024 - 1)) with (q_tail q - 1 + (q_head q - q_tail q) mod 1024) by lia.
      rewrite Zplus_mod_idemp_r. f_equal. lia. }
    pose proof (Z.mod_pos_bound (q_head q - 1) 1024 ltac:(lia)). rewrite nth_lookup.
    by destruct (lookup_lt_is_Some_2 (q_buf q) (Z.to_nat ((q_head q - 1) mod 1024))) as [x ->]; [lia|].
  - apply list_eq. intros k. rewrite contents_lookup, Hn'. case_decide as Hk.
    + pose proof (contents_lookup q k) as Hk'. rewrite Hc, decide_True, lookup_app_l in Hk' by lia. rewrite Hk'. done.
    + symmetry. apply lookup_ge_None_2. lia.
Qed.

Lemma s8_idem x : s8 (s8 x) = s8 x.
Proof.
  unfold s8. pose proof (Z.mod_pos_bound x 256 ltac:(lia)). destruct (Z.ltb_spec (x mod 256) 128).
  - rewrite Z.mod_mod by lia. by rewrite (proj2 (Z.ltb_lt _ _)).
  - rewrite Zminus_mod, Z.mod_mod, Z_mod_same_full, Z.sub_0_r, Z.mod_mod by lia. by rewrite (proj2 (Z.ltb_ge _ _)).
Qed.

(** ** The line discipline as a function *)

(** A line feed or the end-of-file character ends a line. *)
Definition ends_line (t : tty_struct) (c : Z) : bool := (c =? 10) || (c =? EOF_CHAR t).

(** The end of a line, last character first, without the unfinished line or its last character. *)
Fixpoint kill_back (t : tty_struct) (l : list Z) : list Z :=
  match l with [] => [] | c :: l' => if ends_line t c then l else kill_back t l' end.
Definition erase_back (t : tty_struct) (l : list Z) : list Z :=
  match l with [] => [] | c :: l' => if ends_line t c then l else l' end.

(** What becomes of a character of the raw queue; [None] is an ignored carriage return. *)
Definition input_char (t : tty_struct) (c : Z) : option Z :=
  let r := if c =? 13 then (if I_CRNL t then Some 10 else if I_NOCR t then None else Some c)
           else if (c =? 10) && I_NLCR t then Some 13 else Some c in
  (fun c => s8 (if I_UCLC t && (65 <=? c) && (c <=? 90) then c + 32 else c)) <$> r.

(** The cooked characters after one more raw character. *)
Definition cook (t : tty_struct) (l : list Z) (c : Z) : list Z :=
  match input_char t c with
  | None => l
  | Some c =>
      if L_CANON t && (c =? KILL_CHAR t) then reverse (kill_back t (reverse l))
      else if L_CANON t && (c =? ERASE_CHAR t) then reverse (erase_back t (reverse l))
      else if L_CANON t && ((c =? STOP_CHAR t) || (c =? START_CHAR t)) then l
      else if L_ISIG t && ((c =? INTR_CHAR t) || (c =? QUIT_CHAR t)) then l
      else l ++ [c]
  end.

(** What else a character changes: the number of finished lines, whether output is stopped, and
    the process group and pending signals of every task. *)
Record extra := mk_extra { x_lines : Z; x_stopped : Z; x_tasks : gmap Z (Z * Z) }.

#[export] Instance eta_extra : Eta extra := fun x => mk_extra (x_lines x) (x_stopped x) (x_tasks x).

(** The signals [mask] are sent to the tasks of group [g], if the terminal has a group. *)
Definition hit (g mask : Z) (x : Z * Z) : Z * Z := (x.1, if x.1 =? g then Z.lor mask x.2 else x.2).
Definition interrupted (g mask : Z) (m : gmap Z (Z * Z)) : gmap Z (Z * Z) :=
  if g <=? 0 then m else map_imap (fun i x => Some (if decide (0 <= i < NR_TASKS) then hit g mask x else x)) m.

Definition cook_more (t : tty_struct) (g : Z) (x : extra) (c : Z) : extra :=
  match input_char t c with
  | None => x
  | Some c =>
      if L_CANON t && ((c =? KILL_CHAR t) || (c =? ERASE_CHAR t)) then x
      else if L_CANON t && (c =? STOP_CHAR t) then x <| x_stopped := 1 |>
      else if L_CANON t && (c =? START_CHAR t) then x <| x_stopped := 0 |>
      else if L_ISIG t && (c =? INTR_CHAR t) then x <| x_tasks ::= interrupted g INTMASK |>
      else if L_ISIG t && (c =? QUIT_CHAR t) then x <| x_tasks ::= interrupted g QUITMASK |>
      else if ends_line t c then x <| x_lines := u32 (x_lines x + 1) |> else x
  end.

(** ** Drivers *)

(** Sleepers are tasks. *)
Definition sleepers_ok (k : kst) : Prop := forall q h, wait_queue k !! q = Some h -> is_Some (tasks k !! h).

Definition procs (k : kst) : gmap Z (Z * Z) := (fun t => (t_pgrp t, t_signal t)) <$> tasks k.

(** What a driver promises: it always returns, touches its terminal's write queue only and sends
    no signals. *)
Class TtyDriver `{TtyEnv} := driver_ok : forall n s t,
  0 <= n -> tty_table s !! Z.to_nat n = Some t -> queue_ok (write_q t) -> sleepers_ok (t_kst s) ->
  exists s' q, tty_driver n s = (Ret tt, s') /\ tty_table s' = <[Z.to_nat n := t <| write_q := q |>]> (tty_table s) /\
    queue_ok q /\ sleepers_ok (t_kst s') /\ procs (t_kst s') = procs (t_kst s) /\ tty_pgrp (t_kst s') = tty_pgrp (t_kst s).

(** ** Runs *)

(** Terminal [n] has the settings of [t0] and the process group [g]; [inp] is in its raw queue and
    [out] in its cooked one. *)
Record line (t0 : tty_struct) (g : Z) (s : tst) (n : Z) (inp out : list Z) (x : extra) (t : tty_struct) : Prop := {
  ln_tty : 0 <= n /\ tty_table s !! Z.to_nat n = Some t;
  ln_same : tty_termios t = tty_termios t0;
  ln_read : queue_ok (read_q t) /\ contents (read_q t) = inp;
  ln_cooked : queue_ok (secondary t) /\ contents (secondary t) = out;
  ln_write : queue_ok (write_q t);
  ln_sleepers : sleepers_ok (t_kst s);
  ln_extra : x_lines x = q_data (secondary t) /\ x_stopped x = stopped t /\ x_tasks x = procs (t_kst s);
  ln_group : default 0 (tty_pgrp (t_kst s) !! n) = g
}.
#[global] Arguments ln_tty {_ _ _ _ _ _ _ _} _.
#[global] Arguments ln_same {_ _ _ _ _ _ _ _} _.
#[global] Arguments ln_read {_ _ _ _ _ _ _ _} _.
#[global] Arguments ln_cooked {_ _ _ _ _ _ _ _} _.
#[global] Arguments ln_write {_ _ _ _ _ _ _ _} _.
#[global] Arguments ln_extra {_ _ _ _ _ _ _ _} _.

Lemma get_tty_run s n t : 0 <= n -> tty_table s !! Z.to_nat n = Some t -> get_tty n s = (Ret t, s).
Proof. intros Hn Ht. unfold get_tty. rewrite bind_get. destruct (Z.ltb_spec n 0); [lia|]. by rewrite Ht. Qed.

Lemma upd_tty_run s n t f :
  0 <= n -> tty_table s !! Z.to_nat n = Some t -> upd_tty n f s = (Ret tt, s <| tty_table ::= <[Z.to_nat n := f t]> |>).
Proof. intros Hn Ht. unfold upd_tty. by mrun (get_tty_run s n t Hn Ht). Qed.

(** An update of the terminal. *)
Lemma line_upd {t0 g s n inp out x t} f inp' out' x' :
  line t0 g s n inp out x t -> tty_termios (f t) = tty_termios t ->
  queue_ok (read_q (f t)) /\ contents (read_q (f t)) = inp' -> queue_ok (secondary (f t)) /\ contents (secondary (f t)) = out' ->
  queue_ok (write_q (f t)) -> x_lines x' = q_data (secondary (f t)) /\ x_stopped x' = stopped (f t) /\ x_tasks x' = x_tasks x ->
  exists s', upd_tty n f s = (Ret tt, s') /\ line t0 g s' n inp' out' x' (f t).
Proof.
  intros [[Hn Ht] Hs _ _ _ Hk (_ & _ & Hx) Hg] E Hr Ho Hw (Hl & Hst & Hp). rewrite (upd_tty_run s n t f Hn Ht). eexists. split; [reflexivity|].
  split; [split; [done|]|by rewrite E|done|done|done|done|by rewrite Hp|done]. by apply list_lookup_insert_eq, (lookup_lt_Some _ _ _ Ht).
Qed.

Section Line.
Context `{TtyDriver} {t0 : tty_struct} {g n : Z}.

Lemma line_get {s inp out x t} : line t0 g s n inp out x t -> get_tty n s = (Ret t, s).
Proof. intros [[Hn Ht] _ _ _ _ _ _ _]. by apply get_tty_run. Qed.

Lemma get_read_ok {s c inp out x t} :
  line t0 g s n (c :: inp) out x t -> exists s' t', get_read n s = (Ret c, s') /\ line t0 g s' n inp out x t'.
Proof.
  intros L. unfold get_read. mrun (line_get L). destruct (ln_read L) as [Hq Hc].
  destruct (GETCH_ok _ c inp Hq Hc) as (q & -> & Hq' & Hc'). unfold of_option. rewrite bind_ret.
  destruct (line_upd (fun t => t <| read_q := q |>) inp out x L) as (s' & E & L');
    [done|done|exact (ln_cooked L)|exact (ln_write L)|by destruct (ln_extra L) as (? & ? & _)|]. mrun E. eauto.
Qed.

Lemma put_secondary_ok {s inp out x t} c :
  line t0 g s n inp out x t -> Z.of_nat (length out) < 1023 ->
  exists s' t', put_secondary c n s = (Ret tt, s') /\ line t0 g s' n inp (out ++ [s8 c]) x t'.
Proof.
  intros L Hlen. unfold put_secondary. mrun (line_get L). destruct (ln_cooked L) as [Hq Hc].
  destruct (PUTCH_ok c _ Hq) as (q & -> & Hq' & Hd & Hc'). unfold of_option. rewrite bind_ret.
  rewrite (FULL_ok _ Hq), Hc in Hc'. specialize (Hc' (proj2 (Z.leb_gt _ _) Hlen)).
  destruct (line_upd (fun t => t <| secondary := q |>) inp (out ++ [s8 c]) x L) as (s' & E & L');
    [done|exact (ln_read L)|done|exact (ln_write L)| |eauto].
  destruct (ln_extra L) as (El & Es & _). split; [by rewrite El, <- Hd|by split].
Qed.

Lemma put_write_ok {s inp out x t} c :
  line t0 g s n inp out x t -> exists s' t', put_write c n s = (Ret tt, s') /\ line t0 g s' n inp out x t'.
Proof.
  intros L. unfold put_write. mrun (line_get L). destruct (PUTCH_ok c _ (ln_write L)) as (q & -> & Hq' & _).
  unfold of_option. rewrite bind_ret. destruct (line_upd (fun t => t <| write_q := q |>) inp out x L) as (s' & E & L');
    [done|exact (ln_read L)|exact (ln_cooked L)|done|by destruct (ln_extra L) as (? & ? & _)|]. eauto.
Qed.

Lemma write_out_ok {s inp out x t} :
  line t0 g s n inp out x t -> exists s' t', tty_write_out n s = (Ret tt, s') /\ line t0 g s' n inp out x t'.
Proof.
  intros [[Hn Ht] Hs Hr Ho Hw Hk Hx Hg]. destruct (driver_ok n s t Hn Ht Hw Hk) as (s' & q & E & Et & Hq & Hk' & Hp & Hg').
  exists s', (t <| write_q := q |>). split; [done|].
  split; [split; [done|]|done|done|done|done|done|by rewrite Hp|by rewrite Hg'].
  rewrite Et. by apply list_lookup_insert_eq, (lookup_lt_Some _ _ _ Ht).
Qed.
End Line.

(** A step that keeps the line is skipped. *)
Definition keeps_line (t0 : tty_struct) (g n : Z) (m : M tst unit) : Prop :=
  forall s inp out x t, line t0 g s n inp out x t -> exists s' t', m s = (Ret tt, s') /\ line t0 g s' n inp out x t'.

Section Keeps.
Context `{TtyDriver} (t0 : tty_struct) (g n : Z).

Lemma line_keeps_ret : keeps_line t0 g n (mret tt).
Proof. intros s inp out x t L. by exists s, t. Qed.

Lemma keeps_seq m m' : keeps_line t0 g n m -> keeps_line t0 g n m' -> keeps_line t0 g n (m;; m').
Proof.
  intros Hm Hm' s inp out x t L. destruct (Hm s inp out x t L) as (s1 & t1 & E & L1). mrun E. by apply (Hm' s1 inp out x t1).
Qed.

Lemma line_keeps_when b m : keeps_line t0 g n m -> keeps_line t0 g n (when b m).
Proof. destruct b; [done|]. intros _. apply line_keeps_ret. Qed.

Lemma keeps_put c : keeps_line t0 g n (put_write c n).
Proof. intros s inp out x t. apply put_write_ok. Qed.

Lemma keeps_write : keeps_line t0 g n (tty_write_out n).
Proof. intros s inp out x t. apply write_out_ok. Qed.
End Keeps.

Create HintDb line_db.
#[export] Hint Resolve line_keeps_ret keeps_seq line_keeps_when keeps_put keeps_write : line_db.

(** ** Signals *)

Lemma sleepers_upd k i t :
  is_Some (tasks k !! i) -> sleepers_ok k -> sleepers_ok (k <| tasks ::= <[i := t]> |>).
Proof.
  intros Hi Hk q h Hq. cbn. destruct (decide (i = h)) as [->|]; [rewrite lookup_insert_eq; eauto|].
  rewrite lookup_insert_ne by done. by apply (Hk q).
Qed.

Lemma upd_task_ok i f t : forall k, tasks k !! i = Some t -> upd_task i f k = (Ret tt, k <| tasks ::= <[i := f t]> |>).
Proof. intros k Ht. unfold upd_task, get_task. rewrite bind_assoc, bind_get, Ht. done. Qed.

(** The body of the loop of [tty_intr], and the loop. *)
Lemma intr_task_ok g mask i k :
  sleepers_ok k -> exists k', (k ← get; match tasks k !! i with
    | None => mret tt
    | Some t => when (t_pgrp t =? g) (upd_task i (fun t => t <| t_signal ::= Z.lor mask |>))
    end) k = (Ret tt, k') /\ sleepers_ok k' /\ procs k' = alter (hit g mask) i (procs k) /\ tty_pgrp k' = tty_pgrp k.
Proof.
  intros Hk. rewrite bind_get. unfold procs. destruct (tasks k !! i) as [t|] eqn:Et.
  - assert (forall t', (t_pgrp t', t_signal t') = hit g mask (t_pgrp t, t_signal t) ->
      (fun t => (t_pgrp t, t_signal t)) <$> <[i := t']> (tasks k) = alter (hit g mask) i ((fun t => (t_pgrp t, t_signal t)) <$> tasks k)) as Ha.
    { intros t' E. apply map_eq. intros j. rewrite lookup_fmap. destruct (decide (i = j)) as [<-|].
      - rewrite lookup_insert_eq, lookup_alter_eq, lookup_fmap, Et. cbn. by rewrite E.
      - by rewrite lookup_insert_ne, lookup_alter_ne, lookup_fmap by done. }
    destruct (t_pgrp t =? g) eqn:Eg; cbn [when].
    + rewrite (upd_task_ok i _ t k Et). eexists. split; [reflexivity|]. split; [apply sleepers_upd; [eauto|done]|]. split; [|done].
      apply Ha. unfold hit. cbn [fst]. by rewrite Eg.
    + exists k. split; [done|]. split; [done|]. split; [|done].
      rewrite <- (Ha t); [by rewrite insert_id|]. unfold hit. cbn [fst]. by rewrite Eg.
  - exists k. split; [done|]. split; [done|]. split; [|done]. apply map_eq. intros j. destruct (decide (i = j)) as [<-|].
    + by rewrite lookup_alter_eq, lookup_fmap, Et.
    + by rewrite lookup_alter_ne by done.
Qed.

Definition hit_all (g mask : Z) (l : list Z) (m : gmap Z (Z * Z)) : gmap Z (Z * Z) := foldl (fun m i => alter (hit g mask) i m) m l.

Lemma intr_tasks_ok g mask l : forall k, sleepers_ok k ->
  exists k', for_each l (fun i => k ← get; match tasks k !! i with
    | None => mret tt
    | Some t => when (t_pgrp t =? g) (upd_task i (fun t => t <| t_signal ::= Z.lor mask |>))
    end) k = (Ret tt, k') /\ sleepers_ok k' /\ procs k' = hit_all g mask l (procs k) /\ tty_pgrp k' = tty_pgrp k.
Proof.
  induction l as [|i l IH]; intros k Hk; cbn [for_each hit_all foldl]; [by exists k|].
  destruct (intr_task_ok g mask i k Hk) as (k1 & E & Hk1 & Hp1 & Hg1). mrun E.
  destruct (IH k1 Hk1) as (k2 & E2 & Hk2 & Hp2 & Hg2). exists k2. split; [exact E2|]. split; [exact Hk2|].
  split; [by rewrite Hp2, Hp1|congruence].
Qed.

Lemma hit_all_lookup g mask l m i :
  NoDup l -> hit_all g mask l m !! i = if decide (i ∈ l) then hit g mask <$> m !! i else m !! i.
Proof.
  revert m. induction l as [|j l IH]; intros m Hnd; [done|]. apply NoDup_cons in Hnd as [Hj Hnd].
  change (hit_all g mask (j :: l) m) with (hit_all g mask l (alter (hit g mask) j m)). rewrite IH by done.
  destruct (decide (i = j)) as [->|Hne].
  - rewrite decide_False, decide_True by set_solver. by rewrite lookup_alter_eq.
  - rewrite lookup_alter_ne by done. destruct (decide (i ∈ l)), (decide (i ∈ j :: l)); set_solver.
Qed.

Lemma hit_all_interrupted g mask m : (g <=? 0) = false -> hit_all g mask (seqZ 0 NR_TASKS) m = interrupted g mask m.
Proof.
  intros Hg. unfold interrupted. rewrite Hg. apply map_eq. intros i. rewrite hit_all_lookup by apply NoDup_seqZ. rewrite map_lookup_imap.
  destruct (decide (i ∈ seqZ 0 NR_TASKS)) as [Hi|Hi]; rewrite elem_of_seqZ in Hi; destruct (m !! i) as [v|]; cbn; try done.
  - by rewrite decide_True by lia.
  - by rewrite decide_False by lia.
Qed.

Lemma wake_up_ok q k : sleepers_ok k -> exists k', wake_up q k = (Ret tt, k') /\ sleepers_ok k' /\ procs k' = procs k /\ tty_pgrp k' = tty_pgrp k.
Proof.
  intros Hk. unfold wake_up. rewrite bind_get. destruct (wait_queue k !! q) as [h|] eqn:Eh; [|by exists k].
  destruct (Hk q h Eh) as [t Ht]. mrun (upd_task_ok h (fun t => t <| t_state := 0 |>) t k Ht). eexists. split; [reflexivity|]. split; [|split; [|done]].
  - intros q' h' Hq'. cbn in Hq'. apply lookup_delete_Some in Hq' as [_ Hq'].
    apply (sleepers_upd k h _ (mk_is_Some _ _ Ht) Hk q' h' Hq').
  - change ((fun t => (t_pgrp t, t_signal t)) <$> <[h := t <| t_state := 0 |>]> (tasks k) = procs k). rewrite fmap_insert. apply insert_id.
    unfold procs. by rewrite lookup_fmap, Ht.
Qed.

Section Cook.
Context `{TtyDriver} {t0 : tty_struct} {g n : Z}.

Lemma on_k_ok {s inp out x t} m f :
  line t0 g s n inp out x t ->
  (exists k', m (t_kst s) = (Ret tt, k') /\ sleepers_ok k' /\ procs k' = f (procs (t_kst s)) /\ tty_pgrp k' = tty_pgrp (t_kst s)) ->
  exists s' t', on_k m s = (Ret tt, s') /\ line t0 g s' n inp out (x <| x_tasks ::= f |>) t'.
Proof.
  intros [Ht Hs Hr Ho Hw Hk (Hl & Hst & Hp) Hg] (k & E & Hk' & Hp' & Hg'). unfold on_k. rewrite E.
  eexists _, t. split; [reflexivity|]. split; try done.
  - split; [exact Hl|]. split; [exact Hst|]. cbn. by rewrite Hp'; f_equal.
  - cbn. by rewrite Hg'.
Qed.

Lemma wake_line {s inp out x t} q :
  line t0 g s n inp out x t -> exists s' t', on_k (wake_up q) s = (Ret tt, s') /\ line t0 g s' n inp out x t'.
Proof.
  intros L. destruct (on_k_ok (wake_up q) id L) as (s' & t' & E & L').
  - destruct L. by apply wake_up_ok.
  - exists s', t'. split; [exact E|]. by destruct x.
Qed.

Lemma intr_ok {s inp out x t} mask :
  line t0 g s n inp out x t -> exists s' t', tty_intr n mask s = (Ret tt, s') /\ line t0 g s' n inp out (x <| x_tasks ::= interrupted g mask |>) t'.
Proof.
  intros L. unfold tty_intr. rewrite bind_get. pose proof L as [_ _ _ _ _ Hk _ Hg]. rewrite Hg. destruct (g <=? 0) eqn:Eg.
  - exists s, t. split; [done|]. unfold interrupted. rewrite Eg. by destruct x.
  - apply (on_k_ok _ _ L). destruct (intr_tasks_ok g mask (seqZ 0 NR_TASKS) (t_kst s) Hk) as (k' & E & Hk' & Hp & Hg').
    exists k'. split; [exact E|]. split; [exact Hk'|]. split; [|exact Hg']. by rewrite Hp, hit_all_interrupted.
Qed.

Lemma line_flags {s inp out x t} : line t0 g s n inp out x t ->
  L_CANON t = L_CANON t0 /\ L_ISIG t = L_ISIG t0 /\ (forall k, cc t k = cc t0 k) /\
  I_CRNL t = I_CRNL t0 /\ I_NOCR t = I_NOCR t0 /\ I_NLCR t = I_NLCR t0 /\ I_UCLC t = I_UCLC t0.
Proof.
  intros L. pose proof (ln_same L) as E.
  unfold L_CANON, L_ISIG, I_CRNL, I_NOCR, I_NLCR, I_UCLC, cc, _L_FLAG, _I_FLAG. by rewrite E.
Qed.

Lemma keeps_echo c : keeps_line t0 g n (echo n c).
Proof.
  intros s inp out x t L. unfold echo. mrun (line_get L).
  assert (keeps_line t0 g n (when (L_ECHO t) (
    (if c =? 10 then put_write 10 n;; put_write 13 n
     else if c <? 32 then when (L_ECHOCTL t) (put_write 94 n;; put_write (c + 64) n) else put_write c n);;
    tty_write_out n))) as Hk by (destruct (c =? 10), (c <? 32); eauto 12 with line_db).
  by apply (Hk s inp out x t).
Qed.

Lemma rub_out_ok {s inp out c x t} c' :
  line t0 g s n inp (out ++ [c]) x t -> exists s' t', rub_out n c' s = (Ret tt, s') /\ line t0 g s' n inp out x t'.
Proof.
  intros L. unfold rub_out. mrun (line_get L).
  assert (keeps_line t0 g n (when (L_ECHO t) (when (c' <? 32) (put_write 127 n);; put_write 127 n;; tty_write_out n))) as Hk by eauto 12 with line_db.
  destruct (Hk s inp _ x t L) as (s1 & t1 & E & L1). mrun E. destruct (ln_cooked L1) as [Hq Hc].
  destruct (LAST_ok _ _ _ Hq Hc) as (_ & Hq' & Hc').
  destruct (line_upd (fun t => t <| secondary ::= fun q => q <| q_head := DEC (q_head q) |> |>) inp out x L1) as (s2 & E2 & L2);
    [done|exact (ln_read L1)|done|exact (ln_write L1)|by destruct (ln_extra L1) as (? & ? & _)|]. eauto.
Qed.

Lemma last_of_line_ok {s inp out x t} :
  line t0 g s n inp out x t ->
  last_of_line n s = (Ret (match reverse out with [] => None | c :: _ => if ends_line t0 c then None else Some c end), s).
Proof.
  intros L. unfold last_of_line. mrun (line_get L). destruct (ln_cooked L) as [Hq Hc].
  rewrite (EMPTY_ok _ Hq), Hc. destruct out as [|c out _] using rev_ind; [done|].
  rewrite bool_decide_false by (by destruct out). destruct (LAST_ok _ _ _ Hq Hc) as (-> & _). unfold of_option. rewrite bind_ret, reverse_app. cbn [reverse app].
  destruct (line_flags L) as (_ & _ & Hcc & _). unfold ends_line, EOF_CHAR. rewrite Hcc. cbn. by destruct (_ || _).
Qed.

Lemma kill_line_ok fuel s inp out x t :
  line t0 g s n inp out x t -> (length out < fuel)%nat ->
  exists s' t', kill_line fuel n s = (Ret tt, s') /\ line t0 g s' n inp (reverse (kill_back t0 (reverse out))) x t'.
Proof.
  revert s out t. induction fuel as [|fuel IH]; intros s out t L Hf; [lia|]. cbn [kill_line].
  mrun (last_of_line_ok L). destruct out as [|c out _] using rev_ind; [by exists s, t|].
  rewrite reverse_app. cbn [reverse app]. change (reverse [c] ++ reverse out) with (c :: reverse out). cbn [kill_back].
  destruct (ends_line t0 c).
  - exists s, t. split; [done|]. rewrite reverse_cons, reverse_involutive. done.
  - destruct (rub_out_ok c L) as (s1 & t1 & E & L1). mrun E. apply (IH s1 out t1 L1). rewrite length_app in Hf. cbn in Hf. lia.
Qed.
End Cook.

(** [tolower] indexes a table that has nothing below -1. *)
Definition lower_ok (t0 : tty_struct) (c : Z) : Prop := I_UCLC t0 = true -> -1 <= c.

Lemma input_char_s8 t0 c d : input_char t0 c = Some d -> s8 d = d.
Proof.
  unfold input_char. destruct (if c =? 13 then _ else _) as [x|]; [|done]. cbn. intros [= <-]. apply s8_idem.
Qed.

Section Chars.
Context `{TtyDriver} {t0 : tty_struct} {g n : Z}.

Lemma translate_ok {s inp out x t} c :
  line t0 g s n inp out x t -> lower_ok t0 c -> translate n c s = (Ret (input_char t0 c), s).
Proof.
  intros L Hc. unfold translate. mrun (line_get L).
  destruct (line_flags L) as (_ & _ & _ & -> & -> & -> & ->). unfold input_char, lower_ok in *.
  set (r := if c =? 13 then _ else _).
  assert (forall d, r = Some d -> I_UCLC t0 = true -> -1 <= d) as Hr.
  { intros d. unfold r. intros E Hu. specialize (Hc Hu).
    destruct (c =? 13), (I_CRNL t0), (I_NOCR t0), (c =? 10), (I_NLCR t0); cbn in E; first [discriminate|injection E as <-; lia]. }
  destruct r as [d|]; [|done]. cbn [fmap option_fmap option_map]. specialize (Hr d eq_refl). destruct (I_UCLC t0); [|done].
  unfold tolower, isupper. rewrite (proj2 (Z.ltb_ge d (-1))) by (by apply Hr). cbn [andb].
  rewrite bind_assoc, !bind_ret. change (65 - 97) with (-32). by destruct ((65 <=? d) && (d <=? 90)).
Qed.

(** Editing and flow control characters, as [cook] and [cook_more] treat them. *)
Lemma edit_ok {s inp out x t} c :
  line t0 g s n inp out x t -> (1023 < tty_fuel)%nat -> Z.of_nat (length out) <= 1023 ->
  exists s' t', edit n c s = (Ret (L_CANON t0 && ((c =? KILL_CHAR t0) || (c =? ERASE_CHAR t0) || (c =? STOP_CHAR t0) || (c =? START_CHAR t0))), s') /\
    line t0 g s' n inp
      (if L_CANON t0 && (c =? KILL_CHAR t0) then reverse (kill_back t0 (reverse out))
       else if L_CANON t0 && (c =? ERASE_CHAR t0) then reverse (erase_back t0 (reverse out)) else out)
      (if L_CANON t0 && ((c =? KILL_CHAR t0) || (c =? ERASE_CHAR t0)) then x
       else if L_CANON t0 && (c =? STOP_CHAR t0) then x <| x_stopped := 1 |>
       else if L_CANON t0 && (c =? START_CHAR t0) then x <| x_stopped := 0 |> else x) t'.
Proof.
  intros L Hf Hlen. unfold edit. mrun (line_get L).
  destruct (line_flags L) as (-> & _ & Hcc & _). unfold KILL_CHAR, ERASE_CHAR, STOP_CHAR, START_CHAR. rewrite !Hcc.
  destruct (L_CANON t0); cbn [negb andb]; [|by exists s, t].
  destruct (c =? cc t0 VKILL); cbn [orb].
  { destruct (kill_line_ok tty_fuel s inp out x t L) as (s1 & t1 & E & L1); [lia|]. mrun E. by exists s1, t1. }
  destruct (c =? cc t0 VERASE); cbn [orb].
  { mrun (last_of_line_ok L). destruct out as [|y out _] using rev_ind; [by exists s, t|].
    rewrite reverse_app. change (reverse [y] ++ reverse out) with (y :: reverse out). cbn [erase_back].
    destruct (ends_line t0 y).
    - exists s, t. split; [done|]. by rewrite reverse_cons, reverse_involutive.
    - destruct (rub_out_ok y L) as (s1 & t1 & E & L1). mrun E. exists s1, t1. split; [done|].
      by rewrite reverse_involutive. }
  assert (forall v, exists s', upd_tty n (fun t => t <| stopped := v |>) s = (Ret tt, s') /\ line t0 g s' n inp out (x <| x_stopped := v |>) (t <| stopped := v |>)) as Hst.
  { intros v. apply (line_upd (fun t => t <| stopped := v |>) inp out (x <| x_stopped := v |>) L);
      [done|exact (ln_read L)|exact (ln_cooked L)|exact (ln_write L)|]. by destruct (ln_extra L) as (? & _ & _). }
  destruct (c =? cc t0 VSTOP); cbn [orb]; [destruct (Hst 1) as (s1 & E & L1); mrun E; by eexists s1, _|].
  destruct (c =? cc t0 VSTART); [destruct (Hst 0) as (s1 & E & L1); mrun E; by eexists s1, _|]. by exists s, t.
Qed.

Lemma signal_char_ok {s inp out x t} c :
  line t0 g s n inp out x t ->
  exists s' t', signal_char n c s = (Ret (L_ISIG t0 && ((c =? INTR_CHAR t0) || (c =? QUIT_CHAR t0))), s') /\
    line t0 g s' n inp out
      (if L_ISIG t0 && (c =? INTR_CHAR t0) then x <| x_tasks ::= interrupted g INTMASK |>
       else if L_ISIG t0 && (c =? QUIT_CHAR t0) then x <| x_tasks ::= interrupted g QUITMASK |> else x) t'.
Proof.
  intros L. unfold signal_char. mrun (line_get L). destruct (line_flags L) as (_ & -> & Hcc & _).
  unfold INTR_CHAR, QUIT_CHAR. rewrite !Hcc. destruct (L_ISIG t0); cbn [negb andb]; [|by exists s, t].
  destruct (c =? cc t0 VINTR); cbn [orb]; [destruct (intr_ok INTMASK L) as (s1 & t1 & E & L1); mrun E; by exists s1, t1|].
  destruct (c =? cc t0 VQUIT); [destruct (intr_ok QUITMASK L) as (s1 & t1 & E & L1); mrun E; by exists s1, t1|].
  by exists s, t.
Qed.

(** The end of the loop's body: a character that goes into the cooked queue. *)
Lemma append_ok {s inp out x t} d :
  line t0 g s n inp out x t -> Z.of_nat (length out) < 1023 -> s8 d = d ->
  exists s' t', (t ← get_tty n;
      when ((d =? 10) || (d =? EOF_CHAR t))
        (upd_tty n (fun t => t <| secondary ::= fun q => q <| q_data := u32 (q_data q + 1) |> |>));;
      echo n d;;
      put_secondary d n) s = (Ret tt, s') /\
    line t0 g s' n inp (out ++ [d]) (if ends_line t0 d then x <| x_lines := u32 (x_lines x + 1) |> else x) t'.
Proof.
  intros L Hlen E8. mrun (line_get L). destruct (line_flags L) as (_ & _ & Hcc & _). unfold ends_line, EOF_CHAR. rewrite Hcc.
  set (x' := if (d =? 10) || (d =? cc t0 VEOF) then x <| x_lines := u32 (x_lines x + 1) |> else x).
  assert (exists s1 t1, when ((d =? 10) || (d =? cc t0 VEOF))
    (upd_tty n (fun t => t <| secondary ::= fun q => q <| q_data := u32 (q_data q + 1) |> |>)) s = (Ret tt, s1) /\ line t0 g s1 n inp out x' t1)
    as (s1 & t1 & E1 & L1).
  { unfold x'. destruct ((d =? 10) || (d =? cc t0 VEOF)); [|by exists s, t]. destruct (ln_cooked L) as [[? ? ?] Hq].
    destruct (line_upd (fun t => t <| secondary ::= fun q => q <| q_data := u32 (q_data q + 1) |> |>) inp out (x <| x_lines := u32 (x_lines x + 1) |>) L)
      as (s1 & E1 & L1); [done|exact (ln_read L)|by split|exact (ln_write L)| |eauto].
    destruct (ln_extra L) as (El & Es & _). split; [cbn; by rewrite El|by split]. }
  mrun E1. destruct (keeps_echo d s1 inp out x' t1 L1) as (s2 & t2 & E2 & L2). mrun E2.
  destruct (put_secondary_ok d L2 Hlen) as (s3 & t3 & E3 & L3). rewrite E8 in L3. by exists s3, t3.
Qed.

Lemma cook_char_ok s c inp out x t :
  line t0 g s n (c :: inp) out x t -> (1023 < tty_fuel)%nat -> Z.of_nat (length out) < 1023 -> lower_ok t0 c ->
  exists s' t', cook_char n s = (Ret tt, s') /\ line t0 g s' n inp (cook t0 out c) (cook_more t0 g x c) t'.
Proof.
  intros L Hf Hlen Hc. unfold cook_char. destruct (get_read_ok L) as (s1 & t1 & E1 & L1). mrun E1.
  mrun (translate_ok c L1 Hc). unfold cook, cook_more. destruct (input_char t0 c) as [d|] eqn:Ed; [|by exists s1, t1].
  pose proof (input_char_s8 t0 c d Ed) as E8.
  destruct (edit_ok d L1 Hf ltac:(lia)) as (s2 & t2 & E2 & L2). mrun E2. clear E2.
  destruct (L_CANON t0); cbn [andb] in *.
  - destruct (d =? KILL_CHAR t0); cbn [orb] in *; [by exists s2, t2|]. destruct (d =? ERASE_CHAR t0); cbn [orb] in *; [by exists s2, t2|].
    destruct (d =? STOP_CHAR t0); cbn [orb] in *; [by exists s2, t2|]. destruct (d =? START_CHAR t0); [by exists s2, t2|].
    destruct (signal_char_ok d L2) as (s3 & t3 & E3 & L3). mrun E3. clear E3.
    destruct (L_ISIG t0); cbn [andb] in *; [|exact (append_ok d L3 Hlen E8)].
    destruct (d =? INTR_CHAR t0); cbn [orb] in *; [by exists s3, t3|]. destruct (d =? QUIT_CHAR t0); [by exists s3, t3|]. exact (append_ok d L3 Hlen E8).
  - destruct (signal_char_ok d L2) as (s3 & t3 & E3 & L3). mrun E3. clear E3.
    destruct (L_ISIG t0); cbn [andb] in *; [|exact (append_ok d L3 Hlen E8)].
    destruct (d =? INTR_CHAR t0); cbn [orb] in *; [by exists s3, t3|]. destruct (d =? QUIT_CHAR t0); [by exists s3, t3|]. exact (append_ok d L3 Hlen E8).
Qed.
End Chars.

Lemma length_line {t0 g s n inp out x t} :
  line t0 g s n inp out x t -> Z.of_nat (length inp) < 1024 /\ Z.of_nat (length out) < 1024 /\
    FULL (secondary t) = (1023 <=? Z.of_nat (length out)) /\ EMPTY (read_q t) = bool_decide (inp = []).
Proof.
  intros L. destruct (ln_read L) as [Hr <-]. destruct (ln_cooked L) as [Ho <-].
  assert (forall q, Z.of_nat (length (contents q)) < 1024) as Hl.
  { intros q. rewrite length_contents, CHARS_mod. by apply Z.mod_pos_bound. }
  split; [apply Hl|]. split; [apply Hl|]. split; [by apply FULL_ok|by apply EMPTY_ok].
Qed.

Lemma cook_loop_ok `{TtyDriver} t0 g n fuel s inp out x t :
  line t0 g s n inp out x t -> (1023 < tty_fuel)%nat -> (length inp <= fuel)%nat -> Forall (lower_ok t0) inp ->
  exists s' t' used rest, cook_loop fuel n s = (Ret tt, s') /\ inp = used ++ rest /\
    line t0 g s' n rest (foldl (cook t0) out used) (foldl (cook_more t0 g) x used) t' /\
    (rest = [] \/ length (foldl (cook t0) out used) = 1023%nat).
Proof.
  intros L Hf. revert s inp out x t L. induction fuel as [|fuel IH]; intros s inp out x t L Hlen Hlow; cbn [cook_loop];
    mrun (line_get L); destruct (length_line L) as (_ & Hout & -> & ->).
  - destruct inp; [|cbn in Hlen; lia]. exists s, t, [], []. rewrite bool_decide_true by done. split; [done|]. split; [done|]. split; [done|by left].
  - destruct inp as [|c inp].
    { exists s, t, [], []. rewrite bool_decide_true by done. split; [done|]. split; [done|]. split; [done|by left]. }
    rewrite bool_decide_false by done. cbn [orb]. destruct (Z.leb_spec 1023 (Z.of_nat (length out))) as [Hfull|Hfull].
    + exists s, t, [], (c :: inp). split; [done|]. split; [done|]. split; [done|]. right. cbn. lia.
    + apply Forall_cons in Hlow as [Hc Hlow]. destruct (cook_char_ok s c inp out x t L Hf Hfull Hc) as (s1 & t1 & E1 & L1). mrun E1.
      destruct (IH s1 inp (cook t0 out c) (cook_more t0 g x c) t1 L1) as (s2 & t2 & used & rest & E2 & -> & L2 & Hend); [cbn in Hlen; lia|done|].
      exists s2, t2, (c :: used), rest. split; [done|]. split; [done|]. by split.
Qed.

Lemma length_cook t l c : (length (cook t l c) <= S (length l))%nat.
Proof.
  assert (forall l, length (kill_back t l) <= length l)%nat as Hk.
  { clear l. intros l. induction l as [|x l IH]; cbn; [lia|]. destruct (ends_line t x); cbn; lia. }
  assert (forall l, length (erase_back t l) <= length l)%nat as He by (intros [|x k]; cbn; [lia|]; destruct (ends_line t x); cbn; lia).
  unfold cook. pose proof (Hk (reverse l)) as Hk1. pose proof (He (reverse l)) as He1. rewrite length_reverse in Hk1, He1.
  destruct (input_char t c) as [d|]; [|lia]. repeat match goal with |- context [if ?b then _ else _] => destruct b end;
    rewrite ?length_reverse, ?length_app; cbn; lia.
Qed.

Lemma length_cooked t used out : (length (foldl (cook t) out used) <= length out + length used)%nat.
Proof.
  revert out. induction used as [|c used IH]; intros out; cbn [foldl length]; [lia|].
  pose proof (IH (cook t out c)). pose proof (length_cook t out c). lia.
Qed.


(** The echo does not ask whether the write queue has room: one more character in a full queue
    makes it empty, and all that was waiting to be written is lost. *)
Lemma PUTCH_full c q : queue_ok q -> FULL q = true -> exists q', PUTCH c q = Some q' /\ contents q' = [].
Proof.
  intros Hq Hf. pose proof (FULL_ok q Hq) as E. rewrite Hf in E. symmetry in E. apply Z.leb_le in E.
  rewrite length_contents, (CHARS_cases q Hq) in E. pose proof Hq as [Hh Ht Hb].
  unfold PUTCH. rewrite decide_True by lia. eexists. split; [reflexivity|]. set (q' := q <| q_buf ::= _ |> <| q_head := _ |>).
  apply nil_length_inv. apply Nat2Z.inj. rewrite length_contents, CHARS_mod. change (q_head q') with (INC (q_head q)).
  change (q_tail q') with (q_tail q). rewrite (inc_cases _ Hh).
  assert ((if q_head q =? 1023 then 0 else q_head q + 1) = q_tail q) as ->.
  { destruct (Z.leb_spec (q_tail q) (q_head q)), (Z.eqb_spec (q_head q) 1023); lia. }
  by rewrite Z.sub_diag.
Qed.

Lemma echo_overflows `{TtyEnv} s n c t :
  0 <= n -> tty_table s !! Z.to_nat n = Some t -> L_ECHO t = true -> 32 <= c -> queue_ok (write_q t) -> FULL (write_q t) = true ->
  exists q', contents q' = [] /\ echo n c s = tty_write_out n (s <| tty_table ::= <[Z.to_nat n := t <| write_q := q' |>]> |>).
Proof.
  intros Hn Ht He Hc Hq Hf. destruct (PUTCH_full c _ Hq Hf) as (q' & E & Hq'). exists q'. split; [exact Hq'|].
  unfold echo. mrun (get_tty_run s n t Hn Ht). rewrite He. cbn [when].
  rewrite (proj2 (Z.eqb_neq c 10)), (proj2 (Z.ltb_ge c 32)) by lia. unfold put_write. rewrite bind_assoc.
  mrun (get_tty_run s n t Hn Ht). rewrite E. unfold of_option. rewrite bind_assoc, bind_ret.
  by mrun (upd_tty_run s n t (fun t => t <| write_q := q' |>) Hn Ht).
Qed.

(** ** Waiting for a line *)

Lemma cur_signal_run s c : tasks (t_kst s) !! cur (t_kst s) = Some c -> cur_signal s = (Ret (t_signal c), s).
Proof.
  intros Hc. unfold cur_signal. assert (on_k current_task s = (Ret c, s)) as E; [|by mrun E].
  unfold on_k, current_task, get_task. rewrite bind_get, bind_get, Hc. by destruct s.
Qed.

(** A line has been begun and not finished, and no signal is pending. *)
Record unfinished (s : tst) (n : Z) (t : tty_struct) (c : task_struct) : Prop := {
  un_tty : 0 <= n /\ tty_table s !! Z.to_nat n = Some t;
  un_some : EMPTY (secondary t) = false;
  un_line : L_CANON t = true /\ q_data (secondary t) = 0 /\ 20 < LEFT (secondary t);
  un_cur : tasks (t_kst s) !! cur (t_kst s) = Some c /\ t_signal c = 0
}.

Lemma read_loop_spins `{TtyEnv} fuel s n t c buf b nr minimum time oldalarm flag :
  unfinished s n t c -> (0 < tty_fuel)%nat -> tty_irq s = s -> 0 < nr ->
  read_loop fuel n buf b nr minimum time oldalarm flag s = (NoFuel, s).
Proof.
  intros [[Hn Ht] He (Hc & Hd & Hl) [Hcur Hs]] Hf Hirq Hnr. induction fuel as [|fuel IH]; cbn [read_loop];
    rewrite (proj2 (Z.leb_gt nr 0)) by lia; [done|].
  mrun (cur_signal_run s c Hcur). rewrite Hs. change (Z.land 0 ALRMMASK) with 0. change (istrue 0) with false.
  rewrite andb_false_r. mrun (get_tty_run s n t Hn Ht). rewrite He, Hc, Hd, (proj2 (Z.ltb_lt _ _) Hl). cbn [orb andb Z.eqb].
  assert (sleep_if_empty tty_fuel n s = (Ret tt, s)) as E.
  { destruct tty_fuel as [|k]; [lia|]. cbn [sleep_if_empty]. mrun (get_tty_run s n t Hn Ht). mrun (cur_signal_run s c Hcur).
    by rewrite Hs, He. }
  mrun E. rewrite bind_modify, Hirq. exact IH.
Qed.

(** C39: a task that reads a terminal in canonical mode while a line has been begun does not
    sleep.  The test for waiting is that no complete line is there, but [sleep_if_empty] sleeps
    only on an empty queue: [tty_read] goes round its loop for ever, in kernel mode and without
    letting another task run, until an interrupt changes the terminal or a signal arrives. *)
Theorem tty_read_spins `{TtyEnv} s n t c buf nr :
  unfinished s n t c -> n <= 2 -> (0 < tty_fuel)%nat -> tty_irq s = s -> 0 < nr -> cc t VTIME = 0 ->
  tty_read n buf nr s = (NoFuel, s).
Proof.
  intros U Hn2 Hf Hirq Hnr Hv. pose proof U as [[Hn Ht] _ _ [Hcur _]]. unfold tty_read. rewrite u32_small by lia.
  rewrite (proj2 (Z.ltb_ge 2 n)), (proj2 (Z.ltb_ge nr 0)) by lia. cbn [orb].
  assert (on_k current_task s = (Ret c, s)) as E by (unfold on_k, current_task, get_task; rewrite bind_get, bind_get, Hcur; by destruct s).
  mrun E. mrun (get_tty_run s n t Hn Ht). rewrite Hv. change (istrue (10 * 0)) with false. cbn [andb]. rewrite bind_ret.
  unfold mbind, M_bind. by rewrite (read_loop_spins tty_fuel s n t c).
Qed.

(** ** Witnesses *)

(** A driver that sends at once whatever is in the write queue, and nobody else. *)
Definition send (n : Z) : M tst unit := upd_tty n (fun t => t <| write_q ::= flush_queue |>).

#[local] Instance demo_env : TtyEnv := {| tty_fuel := 1024; tty_env := id; tty_irq := id; tty_driver := send; stack_byte := 0 |}.

#[local] Instance demo_driver : TtyDriver.
Proof.
  intros n s t Hn Ht [Hh Htl Hb] Hk. cbn [tty_driver demo_env]. unfold send.
  rewrite (upd_tty_run s n t _ Hn Ht). eexists _, (flush_queue (write_q t)). split; [reflexivity|]. split; [done|]. by split.
Defined.

(** The console after "ab", delete, "c", interrupt and return were typed; its process group is 5, that of task 2. *)
Definition typed : list Z := [97; 98; 127; 99; 3; 13].
Definition console : tty_struct :=
  (default (serial 0) (head init_tty_table)) <| read_q := mk_queue 0 6 0 (typed ++ replicate 1018 0) |>.
Definition demo_kst : kst := demo <| tasks ::= <[2 := (demo_task 2 1 9) <| t_pgrp := 5 |>]> |> <| tty_pgrp := {[ 0 := 5 ]} |>.
Definition demo_tst : tst := mk_tst demo_kst [console] 0 con_static.
Definition demo_extra : extra := mk_extra 0 0 (procs demo_kst).

Lemma console_line : line console 5 demo_tst 0 typed [] demo_extra console.
Proof.
  split; [by split|done| | | | |done|done].
  - split; [split; [cbn; lia|cbn; lia|vm_compute; done]|vm_compute; done].
  - split; [split; [cbn; lia|cbn; lia|vm_compute; done]|vm_compute; done].
  - split; [cbn; lia|cbn; lia|vm_compute; done].
  - intros q h Hq. change ((∅ : gmap Z Z) !! q = Some h) in Hq. by rewrite lookup_empty in Hq.
Qed.


Definition begun : tty_struct := console <| secondary := mk_queue 0 1 0 (97 :: replicate 1023 0) |>.

Lemma tty_read_spins_witness : tty_read 0 4096 10 (mk_tst demo [begun] 0 con_static) = (NoFuel, mk_tst demo [begun] 0 con_static).
Proof.
  apply (tty_read_spins (mk_tst demo [begun] 0 con_static) 0 begun (demo_task 1 0 3)); [|lia|change tty_fuel with 1024%nat; lia|done|lia|done].
  split; [by split|done|by split|by split].
Defined.
