(* ===== verification/ConWrite.v ===== *)
(** The driver of the console ([con_write], [con_init] and the beep of
    [linux-0.11/kernel/chr_drv/console.c]), on the terminals of [Tty] and the screen of
    [Console].

    The answer to [ESC Z] goes to the terminal's input and through [copy_to_cooked], which with
    echo calls the driver again: [con_write] takes the depth of such calls as its fuel, and the
    terminal's driver at depth [k] is [con_write] at depth [k].  The class [ConEnv] gives what a
    read of a port returns and, in [setup_data], what [setup.s] left at 0x90000.  The gate of the
    keyboard interrupt that [con_init] sets is not part of the state. *)

From S2P Require Import Prelude Memory Task Sched Fork Console Tty.

Record setup_data := mk_setup {
  ORIG_X : Z; ORIG_Y : Z; ORIG_VIDEO_PAGE : Z; ORIG_VIDEO_MODE : Z; ORIG_VIDEO_COLS : Z; ORIG_VIDEO_EGA_BX : Z
}.

Definition ORIG_VIDEO_LINES : Z := 25.

Class ConEnv := { inb_p : Z -> tst -> Z }.

Definition on_con {A} (m : M con A) : M tst A := fun s => let '(r, c) := m (t_con s) in (r, s <| t_con := c |>).

(** The same environment with another driver for the console, terminal 0. *)
Definition with_driver (E : TtyEnv) (d : Z -> M tst unit) : TtyEnv :=
  {| tty_fuel := @tty_fuel E; tty_env := @tty_env E; tty_irq := @tty_irq E;
     tty_driver := fun n => if n =? 0 then d n else @tty_driver E n; stack_byte := @stack_byte E |}.

Definition get_write (n : Z) : M tst Z :=
  t ← get_tty n;
  '(c, q) ← of_option "queue" (GETCH (write_q t));
  upd_tty n (fun t => t <| write_q := q |>);;
  mret c.

Definition put_read (c n : Z) : M tst unit :=
  t ← get_tty n;
  q ← of_option "queue" (PUTCH c (read_q t));
  upd_tty n (fun t => t <| read_q := q |>).

(** "\033[?1;2c" *)
Definition RESPONSE : list Z := [27; 91; 63; 49; 59; 50; 99].

Section Driver.
Context `{E : TtyEnv} `{ConEnv}.

Definition respond (d : Z -> M tst unit) (n : Z) : M tst unit :=
  for_each RESPONSE (fun c => put_read c n);;
  @copy_to_cooked (with_driver E d) n.

Definition sysbeepstop : M tst unit := s ← get; on_k (outb (Z.land (inb_p 0x61 s) 0xFC) 0x61).

Definition sysbeep : M tst unit :=
  s ← get;
  on_k (outb (Z.lor (inb_p 0x61 s) 3) 0x61);;
  on_k (outb 0xB6 0x43);;
  on_k (outb 0x37 0x42);;
  on_k (outb 0x06 0x42);;
  on_k (modify (fun k => k <| beepcount := HZ / 8 |>)).

(** [state] 0 *)
Definition normal_char (n c : Z) : M tst unit :=
  t ← get_tty n;
  if (31 <? c) && (c <? 127) then on_con (put_char c)
  else if c =? 27 then on_con (modify (fun s => s <| c_state := 1 |>))
  else if (c =? 10) || (c =? 11) || (c =? 12) then on_con lf
  else if c =? 13 then on_con cr
  else if c =? ERASE_CHAR t then on_con del
  else if c =? 8 then on_con backspace
  else if c =? 9 then on_con tab
  else if c =? 7 then sysbeep
  else mret tt.

(** [state] 1; the last two tests of the source compare the column [x] instead of [c]. *)
Definition escape_char (d : Z -> M tst unit) (n c : Z) : M tst unit :=
  on_con (modify (fun s => s <| c_state := 0 |>));;
  s ← gets t_con;
  if c =? 91 then on_con (modify (fun s => s <| c_state := 2 |>))
  else if c =? 69 then on_con (gotoxy 0 (c_y s + 1))
  else if c =? 77 then on_con ri
  else if c =? 68 then on_con lf
  else if c =? 90 then respond d n
  else if c_x s =? 55 then on_con save_cur
  else if c_x s =? 56 then on_con restore_cur
  else mret tt.

Definition con_char (d : Z -> M tst unit) (n c : Z) : M tst unit :=
  s ← gets t_con;
  if c_state s =? 0 then normal_char n c
  else if c_state s =? 1 then escape_char d n c
  else if c_state s =? 2 then on_con (bracket_char c)
  else if c_state s =? 3 then on_con (param_char c)
  else if c_state s =? 4 then on_con (modify (fun s => s <| c_state := 0 |>));; on_con (final_char c)
  else mret tt.

(** [while (nr--)] *)
Fixpoint con_loop (d : Z -> M tst unit) (nr : nat) (n : Z) : M tst unit :=
  match nr with
  | O => mret tt
  | S nr => c ← get_write n; con_char d n c;; con_loop d nr n
  end.

Fixpoint con_write (depth : nat) (n : Z) : M tst unit :=
  match depth with
  | O => nofuel
  | S depth =>
      t ← get_tty n;
      con_loop (con_write depth) (Z.to_nat (CHARS (write_q t))) n;;
      on_con set_cursor
  end.

(** ** Initialisation *)

(** The type of display, its description, the start and end of its memory and its ports. *)
Definition display (b : setup_data) : Z * list Z * Z * Z * Z * Z :=
  if ORIG_VIDEO_MODE b =? 7 then
    (if negb (Z.land (ORIG_VIDEO_EGA_BX b) 0xff =? 0x10)
     then (VIDEO_TYPE_EGAM, [69; 71; 65; 109], 0xb0000, 0xb8000, 0x3b4, 0x3b5)
     else (VIDEO_TYPE_MDA, [42; 77; 68; 65], 0xb0000, 0xb2000, 0x3b4, 0x3b5))
  else
    (if negb (Z.land (ORIG_VIDEO_EGA_BX b) 0xff =? 0x10)
     then (VIDEO_TYPE_EGAC, [69; 71; 65; 99], 0xb8000, 0xbc000, 0x3d4, 0x3d5)
     else (VIDEO_TYPE_CGA, [42; 67; 71; 65], 0xb8000, 0xba000, 0x3d4, 0x3d5)).

(** [while ( *display_desc) { *display_ptr++ = *display_desc++; display_ptr++; }]: the low bytes
    of cells. *)
Fixpoint show_desc (desc : list Z) (a : Z) : M con unit :=
  match desc with
  | [] => mret tt
  | c :: desc => v ← ld_cell a; st_cell a (Z.lor (Z.land v 0xff00) c);; show_desc desc (a + 2)
  end.

Definition con_init (b : setup_data) : M tst unit :=
  let '(type, desc, mem_start, mem_end, reg, val) := display b in
  on_con (modify (fun s =>
    s <| video_num_columns := ORIG_VIDEO_COLS b |> <| video_size_row := ORIG_VIDEO_COLS b * 2 |>
      <| video_num_lines := ORIG_VIDEO_LINES |> <| video_page := u8 (ORIG_VIDEO_PAGE b) |>
      <| video_erase_char := 0x0720 |>
      <| video_mem_start := mem_start |> <| video_port_reg := reg |> <| video_port_val := val |>
      <| video_type := type |> <| video_mem_end := mem_end |>));;
  on_con (show_desc desc (mem_start + ORIG_VIDEO_COLS b * 2 - 8));;
  on_con (modify (fun s =>
    s <| origin := video_mem_start s |>
      <| scr_end := video_mem_start s + video_num_lines s * video_size_row s |>
      <| c_top := 0 |> <| c_bottom := video_num_lines s |>));;
  on_con (gotoxy (ORIG_X b) (ORIG_Y b));;
  s ← get;
  on_k (outb (Z.land (inb_p 0x21 s) 0xfd) 0x21);;
  s ← get;
  let a := inb_p 0x61 s in
  on_k (outb (Z.lor a 0x80) 0x61);;
  on_k (outb a 0x61).

End Driver.
