(* ===== verification/ConWriteSpec.v ===== *)
(** The driver of the console: [con_write] empties the write queue of its terminal and does to
    the screen what the terminal of [Term] does with the same characters, one after the other;
    [con_init] sets up a screen for which this holds. *)

From S2P Require Import Prelude Memory Task Sched SchedSpec Fork Console ConsoleCells Term ConsoleSpec ConsoleCsi Tty TtySpec ConWrite.

(** ** What a write may change *)

(** Only the beep touches the rest of the kernel. *)
Definition rang (k k' : kst) : Prop := exists b log, k' = k <| beepcount := b |> <| ports := log |>.

#[export] Instance rang_preorder : PreOrder rang.
Proof.
  split.
  - intros k. exists (beepcount k), (ports k). by destruct k.
  - intros k k' k'' (b & log & ->) (b' & log' & ->). exists b', log'. done.
Qed.

(** While terminal [n] is written from [s0] on: [l] is left in its queue and [t] is on the screen. *)
Record writing (s0 : tst) (n : Z) (tty : tty_struct) (l : list Z) (t : term) (s : tst) : Prop := {
  wr_table : exists q, tty_table s = <[Z.to_nat n := tty <| write_q := q |>]> (tty_table s0) /\ queue_ok q /\ contents q = l;
  wr_cr : cr_flag s = cr_flag s0;
  wr_kernel : rang (t_kst s0) (t_kst s);
  wr_screen : screen_ok (t_con s) /\ shows (t_con s) t
}.

(** The question [ESC Z] is answered through the input of the terminal. *)
Definition asks (t : term) (c : Z) : bool := match tm_parse t with Escape => c =? 90 | _ => false end.

Fixpoint silent (erase : Z) (t : term) (l : list Z) : bool :=
  match l with [] => true | c :: l => negb (asks t c) && silent erase (term_char erase t c) l end.

Section Write.
Context `{E : TtyEnv} `{ConEnv} (s0 : tst) (n : Z) (tty : tty_struct).
Hypothesis Hn : 0 <= n.
Hypothesis Htty : tty_table s0 !! Z.to_nat n = Some tty.

Lemma writing_tty l t s : writing s0 n tty l t s ->
  exists q, get_tty n s = (Ret (tty <| write_q := q |>), s) /\ tty_table s !! Z.to_nat n = Some (tty <| write_q := q |>) /\
    queue_ok q /\ contents q = l.
Proof.
  intros [(q & Et & Hq & Hl) _ _ _]. exists q. assert (tty_table s !! Z.to_nat n = Some (tty <| write_q := q |>)) as El.
  { rewrite Et. by apply list_lookup_insert_eq, (lookup_lt_Some _ _ _ Htty). }
  split; [by apply get_tty_run|done].
Qed.

Lemma get_write_ok c l t s : writing s0 n tty (c :: l) t s -> exists s', get_write n s = (Ret c, s') /\ writing s0 n tty l t s'.
Proof.
  intros W. destruct (writing_tty _ _ _ W) as (q & Eg & El & Hq & Hl). unfold get_write. mrun Eg.
  destruct (GETCH_ok q c l Hq Hl) as (q' & Ec & Hq' & Hl'). change (write_q (tty <| write_q := q |>)) with q. rewrite Ec. unfold of_option. rewrite bind_ret.
  mrun (upd_tty_run s n _ (fun t => t <| write_q := q' |>) Hn El). eexists. split; [reflexivity|].
  destruct W as [(q0 & Et & _ & _) Hc Hk Hs]. split; [|done|done|done]. exists q'. split; [|done]. cbn. rewrite Et. by rewrite list_insert_insert_eq.
Qed.

(** A step of the screen. *)
Lemma on_con_ok m l t t' s : writing s0 n tty l t s -> runs_to m (t_con s) t' ->
  exists s', on_con m s = (Ret tt, s') /\ writing s0 n tty l t' s'.
Proof.
  intros [Ht Hc Hk _] (c & Em & Hok & Hs). unfold on_con. rewrite Em. eexists. split; [reflexivity|]. by split.
Qed.

Lemma on_con_refines m f l t s : writing s0 n tty l t s -> refines m f ->
  exists s', on_con m s = (Ret tt, s') /\ writing s0 n tty l (f t) s'.
Proof. intros W Hm. destruct (wr_screen _ _ _ _ _ _ W). eapply on_con_ok; [done|]. by apply Hm. Qed.

(** The beep. *)
Lemma sysbeep_ok l t s : writing s0 n tty l t s -> exists s', sysbeep s = (Ret tt, s') /\ writing s0 n tty l t s'.
Proof.
  intros [Ht Hc Hk Hs]. eexists. split; [reflexivity|]. split; [done|done| |done]. etransitivity; [exact Hk|].
  exists (HZ / 8), ((6, 0x42) :: (0x37, 0x42) :: (0xB6, 0x43) :: (Z.lor (inb_p 0x61 s) 3, 0x61) :: ports (t_kst s)). reflexivity.
Qed.

(** A change of the state of the sequence only. *)
Lemma set_state_ok s t k p : screen_ok s -> shows s t -> parsing (s <| c_state := k |>) p ->
  runs_to (modify (fun s => s <| c_state := k |>)) s (t <| tm_parse := p |>).
Proof.
  intros [[] Hd] (p0 & g & -> & _ & Hg) Hp. eexists. split; [reflexivity|]. split; [split; [by split|exact Hd]|]. by exists p, g.
Qed.

Lemma normal_char_ok c l t s : writing s0 n tty l t s ->
  exists s', normal_char n c s = (Ret tt, s') /\ writing s0 n tty l (term_text (ERASE_CHAR tty) c t) s'.
Proof.
  intros W. destruct (writing_tty _ _ _ W) as (q & Eg & _). destruct (wr_screen _ _ _ _ _ _ W) as [Hok Hs]. unfold normal_char, term_text. mrun Eg.
  destruct ((31 <? c) && (c <? 127)) eqn:Ec; [apply (on_con_refines _ _ _ _ _ W), put_char_ok; lia|].
  destruct (c =? 27); [by apply (on_con_ok _ _ _ _ _ W), set_state_ok|].
  destruct (_ || _ || _); [apply (on_con_refines _ _ _ _ _ W), lf_ok|].
  destruct (c =? 13); [apply (on_con_refines _ _ _ _ _ W), cr_ok|].
  change (ERASE_CHAR (tty <| write_q := q |>)) with (ERASE_CHAR tty).
  destruct (c =? ERASE_CHAR tty); [apply (on_con_refines _ _ _ _ _ W), del_ok|].
  destruct (c =? 8); [apply (on_con_refines _ _ _ _ _ W), backspace_ok|].
  destruct (c =? 9); [apply (on_con_refines _ _ _ _ _ W), tab_ok|].
  destruct (c =? 7); [by apply sysbeep_ok|by exists s].
Qed.

Lemma shows_x s t : shows s t -> c_x s = tm_x t /\ c_y s = tm_y t.
Proof. by intros (p & g & -> & _ & _). Qed.

Lemma escape_char_ok d c l t s : writing s0 n tty l t s -> (c =? 90) = false ->
  exists s', escape_char d n c s = (Ret tt, s') /\ writing s0 n tty l (term_escape c t) s'.
Proof.
  intros W Hc. destruct (wr_screen _ _ _ _ _ _ W) as [Hok Hs]. unfold escape_char.
  destruct (on_con_ok _ _ _ _ _ W (set_state_ok _ _ 0 Ground Hok Hs eq_refl)) as (s1 & E1 & W1). mrun E1. rewrite bind_gets.
  destruct (wr_screen _ _ _ _ _ _ W1) as [Hok1 Hs1]. destruct (shows_x _ _ Hs1) as [-> ->]. unfold term_escape. rewrite Hc. set (t1 := t <| tm_parse := Ground |>) in *.
  destruct (c =? 91); [by apply (on_con_ok _ _ _ _ _ W1), set_state_ok|].
  destruct (c =? 69); [apply (on_con_refines _ _ _ _ _ W1), gotoxy_ok; [lia|]|].
  { destruct Hs1 as (p & g & -> & _). pose proof (go_y _ (proj1 Hok1)). cbn. lia. }
  destruct (c =? 77); [apply (on_con_refines _ _ _ _ _ W1), ri_ok|].
  destruct (c =? 68); [apply (on_con_refines _ _ _ _ _ W1), lf_ok|].
  destruct (tm_x t1 =? 55); [apply (on_con_refines _ _ _ _ _ W1), save_cur_ok|].
  destruct (tm_x t1 =? 56); [apply (on_con_refines _ _ _ _ _ W1), restore_cur_ok|by exists s1].
Qed.

Lemma con_char_ok d c l t s : writing s0 n tty l t s -> asks t c = false ->
  exists s', con_char d n c s = (Ret tt, s') /\ writing s0 n tty l (term_char (ERASE_CHAR tty) t c) s'.
Proof.
  intros W Ha. destruct (wr_screen _ _ _ _ _ _ W) as [Hok Hs]. unfold con_char, term_char. rewrite bind_gets. unfold asks in Ha.
  pose proof Hs as (p & g & Et & Hp & _). assert (tm_parse t = p) as Ep by (by rewrite Et). rewrite Ep in *.
  destruct p as [| | |ps]; cbn [parsing] in Hp; [rewrite Hp..|rewrite (proj1 Hp)]; cbn [Z.eqb Pos.eqb].
  - by apply normal_char_ok.
  - by apply escape_char_ok.
  - apply (on_con_ok _ _ _ _ _ W). by apply bracket_char_ok.
  - apply (on_con_ok _ _ _ _ _ W). by apply param_char_ok.
Qed.

Lemma con_loop_ok d l : forall t s, writing s0 n tty l t s -> silent (ERASE_CHAR tty) t l = true ->
  exists s', con_loop d (length l) n s = (Ret tt, s') /\ writing s0 n tty [] (foldl (term_char (ERASE_CHAR tty)) t l) s'.
Proof.
  induction l as [|c l IH]; intros t s W Hs; [by exists s|]. cbn [silent] in Hs. apply andb_true_iff in Hs as [Ha%negb_true_iff Hs].
  cbn [length con_loop foldl]. destruct (get_write_ok c l t s W) as (s1 & E1 & W1). mrun E1.
  destruct (con_char_ok d c l t s1 W1 Ha) as (s2 & E2 & W2). mrun E2. by apply IH.
Qed.
End Write.

(** The cursor of the display: registers 14 and 15. *)
Lemma set_cursor_ok s t : screen_ok s -> shows s t ->
  exists s', set_cursor s = (Ret tt, s') /\ screen_ok s' /\ shows s' t /\
    video_mem_start s' + 2 * crtc_pair s' 14 = addr s' (tm_y t) (tm_x t).
Proof.
  intros [G Hd] Hs. exists (with_ports s (pair_log s 14 (c_pos s - video_mem_start s))). split; [reflexivity|].
  split; [split; [by apply geom_ports|]|split; [by apply shows_ports|]].
  - unfold display_ok. rewrite pair_skipped by (apply G || lia). exact Hd.
  - destruct (shows_x s t Hs) as [<- <-]. geom G. pose proof (rows_le 0 (c_y s) (video_size_row s)).
    pose proof (rows_le (c_y s + 1) (video_num_lines s) (video_size_row s)).
    rewrite pair_written; [|apply G|apply place_bounds; [done|lia]]. change (video_mem_start (with_ports _ _)) with (video_mem_start s).
    change (addr (with_ports _ _)) with (addr s). replace (addr s (c_y s) (c_x s)) with (c_pos s) by (unfold addr; lia).
    symmetry. apply half_place; [|apply G]. replace (c_pos s) with (origin s + 2 * (c_y s * video_num_columns s + c_x s)) by lia. by apply even_add2.
Qed.

(** C24: writing to the console.  When the characters [l] wait in the write queue and the screen
    shows the terminal [t], [con_write] returns, the queue is empty, and the screen, which lies
    inside the video memory and where the display controller starts its picture, shows the
    terminal after it has taken the characters of [l] in turn; the display's cursor is at the
    terminal's cursor.  Nothing but the beep touches the rest of the kernel, and no other terminal
    changes.  This is for characters that ask no question with [ESC Z], whose answer breaks the
    queue ([con_write_reentered]).  The other question, [ESC [ 0 c], is read like any sequence that
    has no meaning: the terminal takes it and answers nothing ([csi_query_dropped]). *)
Theorem con_write_ok `{TtyEnv} `{ConEnv} depth n s tty t :
  0 <= n -> tty_table s !! Z.to_nat n = Some tty -> queue_ok (write_q tty) ->
  screen_ok (t_con s) -> shows (t_con s) t -> silent (ERASE_CHAR tty) t (contents (write_q tty)) = true ->
  exists s', con_write (S depth) n s = (Ret tt, s') /\
    let t' := foldl (term_char (ERASE_CHAR tty)) t (contents (write_q tty)) in
    writing s n tty [] t' s' /\ video_mem_start (t_con s') + 2 * crtc_pair (t_con s') 14 = addr (t_con s') (tm_y t') (tm_x t').
Proof.
  intros Hn Ht Hq Hok Hs Hl. cbn [con_write]. mrun (get_tty_run s n tty Hn Ht).
  assert (writing s n tty (contents (write_q tty)) t s) as W.
  { split; [|done|done|done]. exists (write_q tty). split; [|done]. rewrite list_insert_id; [done|]. by destruct tty. }
  rewrite <- (length_contents (write_q tty)), Nat2Z.id.
  destruct (con_loop_ok s n tty Hn Ht (con_write depth) _ t s W Hl) as (s1 & E1 & W1). mrun E1. cbv zeta.
  destruct W1 as [Ht1 Hc1 Hk1 [Hok1 Hs1]]. destruct (set_cursor_ok _ _ Hok1 Hs1) as (c & Ec & Hok2 & Hs2 & Hcur).
  unfold on_con. rewrite Ec. eexists. split; [reflexivity|]. by split.
Qed.

(** ** Initialisation *)

(** What [setup.s] may have found: a text mode of 25 lines that fits every display's memory. *)
Record setup_ok (b : setup_data) : Prop := {
  su_cols : 8 <= ORIG_VIDEO_COLS b <= 160 /\ Z.even (ORIG_VIDEO_COLS b) = true;
  su_x : 0 <= ORIG_X b <= ORIG_VIDEO_COLS b;
  su_y : 0 <= ORIG_Y b < ORIG_VIDEO_LINES
}.

(** The description of the display is written over the characters of four cells of the first line. *)
Definition described (desc : list Z) (cols : Z) (old : Z -> Z -> Z) (r c : Z) : Z :=
  if decide (r = 0 /\ cols - 4 <= c) then Z.lor (Z.land (old r c) 0xff00) (nth (Z.to_nat (c - (cols - 4))) desc 0) else old r c.

Lemma show_desc_ok desc : forall a s, inside s a (a + 2 * Z.of_nat (length desc)) -> Z.even a = true ->
  exists m, show_desc desc a s = (Ret tt, with_cells s m) /\
    rewritten (vram s) m a (a + 2 * Z.of_nat (length desc))
      (fun b => Z.lor (Z.land (cellv (vram s) b) 0xff00) (nth (Z.to_nat ((b - a) / 2)) desc 0)).
Proof.
  induction desc as [|c desc IH]; intros a s Hin He.
  { exists (vram s). split; [by rewrite with_cells_id|]. intros b _. rewrite decide_False by (cbn; lia). done. }
  cbn [show_desc length] in *. mrun (ld_cell_run s _ _ a Hin ltac:(lia) He).
  set (v := Z.lor (Z.land (cellv (vram s) a) 0xff00) c). mrun (st_cell_run s _ _ a v Hin ltac:(lia) He).
  destruct (IH (a + 2) (with_cells s (<[a := v]> (vram s)))) as (m & Hr & Hm); [destruct Hin; split; cbn; lia|auto with cells|].
  exists m. split; [exact Hr|]. intros b Hb. rewrite (Hm b Hb). cbn [vram with_cells]. change (vram (with_cells s ?x)) with x. rewrite cellv_insert.
  destruct (decide (a = b)) as [<-|Hne].
  { rewrite decide_False, decide_True by lia. by rewrite Z.sub_diag. }
  destruct (decide (a < b)) as [Hab|Hab]; [pose proof (even_apart a b He Hb Hab)|]; repeat case_decide; try lia; try done.
  f_equal. replace ((b - a) / 2) with (Z.succ ((b - (a + 2)) / 2)); [|rewrite <- Z.add_1_r, <- (Z.div_add _ 1 2) by lia; f_equal; lia].
  rewrite Z2Nat.inj_succ; [done|]. apply Z.div_pos; lia.
Qed.

Lemma display_facts b type desc start stop reg val : display b = (type, desc, start, stop, reg, val) ->
  length desc = 4%nat /\ Z.even start = true /\ 0 <= start /\ stop <= 0x100000 /\ 0x2000 <= stop - start <= 0x8000 /\ reg <> val.
Proof.
  unfold display. intros E. destruct (_ =? 7), (negb _); injection E as <- <- <- <- <- <-;
    (split; [done|]; split; [done|]; lia).
Qed.

Lemma on_con_run {A} (m : M con A) s c r c' : t_con s = c -> m c = (r, c') -> on_con m s = (r, s <| t_con := c' |>).
Proof. intros <- E. unfold on_con. by rewrite E. Qed.

(** The variables after [con_init], with the cells [m]. *)
Definition booted (b : setup_data) (m : gmap Z Z) : con :=
  let '(type, _, start, stop, reg, val) := display b in
  let cols := ORIG_VIDEO_COLS b in
  mk_con type cols (cols * 2) 25 (u8 (ORIG_VIDEO_PAGE b)) start stop reg val 0x0720 start (start + 25 * (cols * 2))
    (start + ORIG_Y b * (cols * 2) + Z.shiftl (ORIG_X b) 1) (ORIG_X b) (ORIG_Y b) 0 25 0 0 (replicate 16 0) 0 0x07 0 0 m [].

Lemma booted_ok b m : setup_ok b -> screen_ok (booted b m).
Proof.
  intros [[Hc He] Hx Hy]. unfold booted. destruct (display b) as [[[[[type desc] start] stop] reg] val] eqn:Ed.
  destruct (display_facts _ _ _ _ _ _ _ Ed) as (_ & Hse & Hs0 & Hs1 & Hsz & Hp). unfold ORIG_VIDEO_LINES in Hy.
  split; [|change (start = start + 2 * 0); lia]. split; cbn [video_size_row video_num_columns video_mem_start video_mem_end origin scr_end
    video_num_lines c_pos c_x c_y c_top c_bottom saved_x saved_y par video_port_reg video_port_val]; try done; try lia.
  - split; [lia|done].
  - split; [done|]. by apply Forall_replicate.
Qed.

(** C25: [con_init] leaves a screen that is well formed, with the cursor where the boot loader left
    it, the whole screen as the scrolling region and the description of the display in the upper
    right corner; the rest of the picture is what was in the video memory. *)
Theorem con_init_ok `{TtyEnv} `{ConEnv} b m s : setup_ok b -> t_con s = with_cells con_static m ->
  exists s', con_init b s = (Ret tt, s') /\ tty_table s' = tty_table s /\ screen_ok (t_con s') /\
    let '(_, desc, start, _, _, _) := display b in
    let cols := ORIG_VIDEO_COLS b in
    shows (t_con s') (mk_term cols 25 0x0720 (ORIG_X b) (ORIG_Y b) 0 25 0x07 0 0 Ground
      (described desc cols (fun r c => cellv m (start + 2 * (r * cols + c))))).
Proof.
  intros Hb Hs. pose proof Hb as [[Hc He] Hx Hy]. pose proof (booted_ok b) as Hok. unfold booted in Hok. unfold con_init.
  destruct (display b) as [[[[[type desc] start] stop] reg] val] eqn:Ed. cbv zeta in *.
  destruct (display_facts _ _ _ _ _ _ _ Ed) as (Hd & Hse & Hs0 & Hs1 & Hsz & Hp). set (cols := ORIG_VIDEO_COLS b) in *. unfold ORIG_VIDEO_LINES in *.
  set (c1 := mk_con type cols (cols * 2) 25 (u8 (ORIG_VIDEO_PAGE b)) start stop reg val 0x0720 0 0 0 0 0 0 0 0 0 (replicate 16 0) 0 0x07 0 0 m []).
  rewrite (bind_Ret _ _ s tt (s <| t_con := c1 |>)) by (apply (on_con_run _ s _ _ _ Hs); reflexivity).
  destruct (show_desc_ok desc (start + cols * 2 - 8) c1) as (m' & E' & Hm').
  { rewrite Hd. split; cbn; lia. }
  { replace (start + cols * 2 - 8) with (start + 2 * (cols - 4)) by lia. by apply even_add2. }
  mrun (on_con_run (show_desc desc (start + cols * 2 - 8)) (s <| t_con := c1 |>) c1 (Ret tt) _ eq_refl E').
  set (c3 := (with_cells c1 m') <| origin := start |> <| scr_end := start + 25 * (cols * 2) |> <| c_top := 0 |> <| c_bottom := 25 |>).
  change (s <| t_con := c1 |> <| t_con := with_cells c1 m' |>) with (s <| t_con := with_cells c1 m' |>).
  rewrite (bind_Ret _ _ (s <| t_con := with_cells c1 m' |>) tt (s <| t_con := c3 |>)) by reflexivity.
  specialize (Hok m' Hb). set (c4 := mk_con _ _ _ _ _ _ _ _ _ _ _ _ _ _ _ _ _ _ _ _ _ _ _ _ _ _) in Hok.
  assert (gotoxy (ORIG_X b) (ORIG_Y b) c3 = (Ret tt, c4)) as E4.
  { unfold gotoxy. rewrite bind_get. change (video_num_columns c3) with cols. change (video_num_lines c3) with 25.
    destruct (Z.ltb_spec cols (ORIG_X b)); [lia|]. destruct (Z.leb_spec 25 (ORIG_Y b)); [lia|]. reflexivity. }
  mrun (on_con_run (gotoxy (ORIG_X b) (ORIG_Y b)) (s <| t_con := c3 |>) c3 (Ret tt) c4 eq_refl E4).
  eexists. split; [reflexivity|]. split; [done|]. split; [exact Hok|].
  exists Ground, (described desc cols (fun r c => cellv m (start + 2 * (r * cols + c)))). split; [reflexivity|]. split; [done|].
  intros r c [Hr Hcc]. change (video_num_lines _) with 25 in Hr. change (video_num_columns _) with cols in Hcc.
  change (addr _ r c) with (start + 2 * (r * cols + c)). change (vram _) with m'. set (a := start + 2 * (r * cols + c)) in *.
  rewrite (Hm' a) by (by apply even_add2). rewrite Hd. unfold described. fold a. change (vram c1) with m.
  destruct (decide (r = 0)) as [->|Hr0].
  - repeat case_decide; try lia. do 3 f_equal. replace (a - (start + cols * 2 - 8)) with ((c - (cols - 4)) * 2) by (unfold a; lia). by rewrite Z.div_mul.
  - pose proof (rows_le 1 r cols ltac:(lia) ltac:(lia)). rewrite decide_False by lia. rewrite decide_False by (unfold a; lia). done.
Qed.

(** ** Concrete runs *)

#[local] Instance quiet_env : TtyEnv :=
  {| tty_fuel := 2048; tty_env := id; tty_irq := id; tty_driver := fun _ => mret tt; stack_byte := 0 |}.
#[local] Instance quiet_ports : ConEnv := {| inb_p := fun _ _ => 0 |}.

(** An EGA colour display of 80 columns. *)
Definition vga : setup_data := mk_setup 0 0 0 3 80 3.

(** The console with characters to write. *)
Definition to_write (l : list Z) : tst :=
  let t := default (serial 0) (head init_tty_table) in
  mk_tst demo [t <| write_q := mk_queue 0 (Z.of_nat (length l)) 0 (l ++ replicate (1024 - length l) 0) |>] 0 (booted vga ∅).

Lemma vga_ok : setup_ok vga.
Proof. split; cbn; unfold ORIG_VIDEO_LINES; (split; [lia|done]) || lia. Qed.

Lemma con_init_ok_witness : exists s', con_init vga (mk_tst demo [] 0 con_static) = (Ret tt, s') /\ screen_ok (t_con s') /\
  cellv (vram (t_con s')) (addr (t_con s') 0 79) = 99.
Proof.
  destruct (con_init_ok vga ∅ (mk_tst demo [] 0 con_static) vga_ok eq_refl) as (s' & E & _ & Hok & p & g & Ev & _ & Hg).
  exists s'. split; [exact E|]. split; [exact Hok|]. unfold view in Ev. injection Ev as E1 E2 _ _ _ _ _ _ _ _ _ Eg.
  rewrite <- (Hg 0 79), <- Eg by (split; [rewrite <- E2|rewrite <- E1]; cbn; lia). vm_compute. reflexivity.
Defined.

(** "Hi", then the cursor to line 2, column 3, and "x". *)
Definition greeting : list Z := [72; 105; 27; 91; 50; 59; 51; 72; 120].

Lemma con_write_ok_witness : exists s', con_write 1 0 (to_write greeting) = (Ret tt, s') /\ screen_ok (t_con s') /\
  c_x (t_con s') = 3 /\ c_y (t_con s') = 1 /\
  cellv (vram (t_con s')) (addr (t_con s') 0 1) = 0x0769 /\ cellv (vram (t_con s')) (addr (t_con s') 1 2) = 0x0778.
Proof.
  destruct (con_write_ok 0 0 (to_write greeting) (default (serial 0) (head (tty_table (to_write greeting))))
    (view (booted vga ∅) Ground (fun r c => cellv ∅ (addr (booted vga ∅) r c)))) as (s' & E & [_ _ _ [Hok (p & g & Ev & _ & Hg)]] & _).
  - lia.
  - reflexivity.
  - split; [cbn; lia|cbn; lia|vm_compute; reflexivity].
  - exact (booted_ok vga ∅ vga_ok).
  - eexists Ground, _. split; [reflexivity|]. split; [reflexivity|]. intros r c _. reflexivity.
  - vm_compute. reflexivity.
  - exists s'. split; [exact E|]. split; [exact Hok|]. set (t' := foldl _ _ _) in Ev.
    pose proof (f_equal tm_x Ev) as Ex. pose proof (f_equal tm_y Ev) as Ey. pose proof (f_equal tm_cols Ev) as Ec. pose proof (f_equal tm_lines Ev) as El.
    pose proof (f_equal tm_cell Ev) as Eg. cbn [view tm_x tm_y tm_cols tm_lines tm_cell] in Ex, Ey, Ec, El, Eg.
    assert (tm_x t' = 3 /\ tm_y t' = 1 /\ tm_cols t' = 80 /\ tm_lines t' = 25 /\ tm_cell t' 0 1 = 0x0769 /\ tm_cell t' 1 2 = 0x0778)
      as (F1 & F2 & F3 & F4 & F5 & F6) by (vm_compute; repeat split).
    split; [rewrite <- Ex; exact F1|]. split; [rewrite <- Ey; exact F2|]. clearbody t'.
    rewrite <- !Hg by (split; [rewrite <- El, F4|rewrite <- Ec, F3]; lia).
    rewrite <- Eg. split; [exact F5|exact F6].
Defined.

(** The characters in terminal 0's write queue after a run that returns. *)
Definition left_over (r : outcome unit * tst) : option Z :=
  match r with (Ret tt, s') => option_map (fun t => CHARS (write_q t)) (tty_table s' !! 0%nat) | _ => None end.

Lemma left_over_inv r k : left_over r = Some k -> exists s' t, r = (Ret tt, s') /\ tty_table s' !! 0%nat = Some t /\ CHARS (write_q t) = k.
Proof.
  destruct r as [[[]| | | |] s']; try discriminate. cbn. destruct (tty_table s' !! 0%nat) as [t|] eqn:Et; [|discriminate].
  intros [= Hk]. by exists s', t.
Qed.

(** The answer to [ESC Z] is echoed, the echo calls [con_write] again from within its loop, and
    the inner call takes the characters that the outer one has counted: the outer loop then reads
    from the empty queue, whose tail overtakes its head, and 1023 characters that nobody wrote are
    in the queue. *)
Lemma con_write_reentered :
  exists s' t, con_write 3 0 (to_write [27; 90; 97]) = (Ret tt, s') /\ tty_table s' !! 0%nat = Some t /\ CHARS (write_q t) = 1023.
Proof. apply left_over_inv. vm_compute. reflexivity. Qed.

(** [ESC [ 0 c] asks what the terminal is; no answer is put into its queues. *)
Lemma csi_query_dropped :
  exists s' t, con_write 3 0 (to_write [27; 91; 48; 99]) = (Ret tt, s') /\ tty_table s' !! 0%nat = Some t /\
    CHARS (write_q t) = 0 /\ CHARS (read_q t) = 0 /\ CHARS (secondary t) = 0.
Proof.
  destruct (left_over_inv (con_write 3 0 (to_write [27; 91; 48; 99])) 0) as (s' & t & E & Ht & Hw); [vm_compute; reflexivity|].
  exists s', t. split; [exact E|]. split; [exact Ht|]. split; [exact Hw|].
  assert ((fun t => (CHARS (read_q t), CHARS (secondary t))) <$> tty_table (snd (con_write 3 0 (to_write [27; 91; 48; 99]))) !! 0%nat = Some (0, 0)) as Eq
    by (vm_compute; reflexivity).
  rewrite E in Eq. cbn [snd] in Eq. rewrite Ht in Eq. injection Eq as -> ->. by split.
Qed.
