(* ===== verification/Serial.v ===== *)
(** The serial lines ([linux-0.11/kernel/chr_drv/serial.c] and the interrupt routines of
    [rs_io.s]), on the terminals of [Tty]; [tty_init] of [tty_io.c] sets up all terminals.

    [data] of a terminal's queues is the base port of its line.  A read of a port is the class
    [ConEnv] of [ConWrite]; the gates that [rs_init] sets are not part of the state.  The loop of
    the interrupt routine goes on while the line reports a reason, so it takes fuel. *)

From S2P Require Import Prelude Memory Task Sched Fork Console Tty ConWrite.

(** The wait queue of a write queue. *)
Definition write_list (n : Z) : Z := 2000 + 3 * n + 1.

(** Characters left in a write queue when its writer is woken. *)
Definition startup : Z := 256.

Section Serial.
Context `{TtyEnv} `{ConEnv}.

Definition inb (port : Z) : M tst Z := gets (fun s => u8 (inb_p port s)).

Definition init (port : Z) : M tst unit :=
  on_k (outb 0x80 (port + 3));;
  on_k (outb 0x30 port);;
  on_k (outb 0x00 (port + 1));;
  on_k (outb 0x03 (port + 3));;
  on_k (outb 0x0b (port + 4));;
  on_k (outb 0x0d (port + 1));;
  inb port;;
  mret tt.

Definition rs_init : M tst unit :=
  t ← get_tty 1;
  init (q_data (read_q t));;
  t ← get_tty 2;
  init (q_data (read_q t));;
  m ← inb 0x21;
  on_k (outb (Z.land m 0xE7) 0x21).

Definition tty_init (b : setup_data) : M tst unit := rs_init;; con_init b.

Definition rs_write (n : Z) : M tst unit :=
  t ← get_tty n;
  if EMPTY (write_q t) then mret tt else
  let port := q_data (write_q t) + 1 in
  v ← inb port;
  on_k (outb (Z.lor v 0x02) port).

(** ** Interrupts *)

(** The task that sleeps on the write queue is made runnable; it stays the queue's head. *)
Definition wake_writer (n : Z) : M tst unit :=
  s ← get;
  match wait_queue (t_kst s) !! write_list n with
  | None => mret tt
  | Some h => on_k (upd_task h (fun t => t <| t_state := 0 |>))
  end.

(** The interrupt of the transmitter is turned off. *)
Definition write_buffer_empty (n port : Z) : M tst unit :=
  wake_writer n;;
  v ← inb (port + 1);
  on_k (outb (Z.land v 0xd) (port + 1)).

Definition write_char (n port : Z) : M tst unit :=
  t ← get_tty n;
  let nr := CHARS (write_q t) in
  if nr =? 0 then write_buffer_empty n port else
  when (nr <=? startup) (wake_writer n);;
  '(c, q) ← of_option "write_q" (GETCH (write_q t));
  on_k (outb (u8 c) port);;
  upd_tty n (fun t => t <| write_q := q |>);;
  if EMPTY q then write_buffer_empty n port else mret tt.

(** The character is stored; the head moves on only if the queue is not full. *)
Definition store_char (c : Z) (q : tty_queue) : option tty_queue :=
  if decide (Z.to_nat (q_head q) < length (q_buf q))%nat then
    let q' := q <| q_buf ::= <[Z.to_nat (q_head q) := s8 c]> |> in
    Some (if INC (q_head q) =? q_tail q then q' else q' <| q_head := INC (q_head q) |>)
  else None.

Definition read_char (n port : Z) : M tst unit :=
  c ← inb port;
  t ← get_tty n;
  q ← of_option "read_q" (store_char c (read_q t));
  upd_tty n (fun t => t <| read_q := q |>);;
  do_tty_interrupt n.

Definition modem_status (port : Z) : M tst unit := inb (port + 6);; mret tt.
Definition line_status (port : Z) : M tst unit := inb (port + 5);; mret tt.

(** [rep_int]: while the line gives a reason for the interrupt. *)
Fixpoint rep_int (fuel : nat) (n port : Z) : M tst unit :=
  match fuel with
  | O => nofuel
  | S fuel =>
      al ← inb (port + 2);
      if Z.odd al || (6 <? al) then mret tt else
      (if al =? 0 then modem_status port
       else if al =? 2 then write_char n port
       else if al =? 4 then read_char n port
       else line_status port);;
      rep_int fuel n port
  end.

(** Line [n], 1 or 2. *)
Definition rs_int (n : Z) : M tst unit :=
  t ← get_tty n;
  rep_int tty_fuel n (q_data (read_q t));;
  on_k (outb 0x20 0x20).

Definition rs1_interrupt : M tst unit := rs_int 1.
Definition rs2_interrupt : M tst unit := rs_int 2.
End Serial.
