(* ===== verification/SerialSpec.v ===== *)
(** The serial lines: [rs_write] keeps the promise that the line discipline asks of a driver, and
    the interrupts of the transmitter send a write queue byte by byte, in order, and then turn
    themselves off. *)

From S2P Require Import Prelude Memory Task Sched SchedSpec Fork Console Tty TtySpec ConWrite Serial.

(** ** The driver *)

(** An environment whose terminals are all serial lines. *)
Definition serial_env (E : TtyEnv) (C : ConEnv) : TtyEnv :=
  {| tty_fuel := @tty_fuel E; tty_env := @tty_env E; tty_irq := @tty_irq E; tty_driver := rs_write; stack_byte := @stack_byte E |}.

#[export] Instance serial_driver (E : TtyEnv) (C : ConEnv) : @TtyDriver (serial_env E C).
Proof.
  intros n s t Hn Ht Hq Hk. cbn [tty_driver serial_env]. unfold rs_write. mrun (get_tty_run s n t Hn Ht).
  assert (<[Z.to_nat n := t <| write_q := write_q t |>]> (tty_table s) = tty_table s) as Eid by (rewrite list_insert_id; [done|by destruct t]).
  destruct (EMPTY (write_q t)); eexists _, (write_q t); (split; [reflexivity|]); rewrite Eid; done.
Qed.

(** ** The transmitter *)

(** While line [n] sends from [s0] on: [l] is left in the write queue, [log] is the log of ports. *)
Record sending (s0 : tst) (n : Z) (tty : tty_struct) (l : list Z) (log : list (Z * Z)) (s : tst) : Prop := {
  sd_table : exists q, tty_table s = <[Z.to_nat n := tty <| write_q := q |>]> (tty_table s0) /\ queue_ok q /\ contents q = l;
  sd_log : ports (t_kst s) = log;
  sd_sleepers : sleepers_ok (t_kst s)
}.

(** Whoever sleeps until there is room in the write queue can run. *)
Definition writer_runs (n : Z) (s : tst) : Prop :=
  forall h t, wait_queue (t_kst s) !! write_list n = Some h -> tasks (t_kst s) !! h = Some t -> t_state t = 0.

(** [k] interrupts of the transmitter. *)
Fixpoint interrupts `{TtyEnv} `{ConEnv} (k : nat) (n port : Z) : M tst unit :=
  match k with O => mret tt | S k => write_char n port;; interrupts k n port end.

Section Send.
Context `{TtyEnv} `{ConEnv} (s0 : tst) (n : Z) (tty : tty_struct) (port : Z).
Hypothesis Hn : 0 <= n.
Hypothesis Htty : tty_table s0 !! Z.to_nat n = Some tty.

Lemma sending_tty l log s : sending s0 n tty l log s ->
  exists q, tty_table s !! Z.to_nat n = Some (tty <| write_q := q |>) /\ queue_ok q /\ contents q = l.
Proof.
  intros [(q & Et & Hq & Hl) _ _]. exists q. split; [|done]. rewrite Et. by apply list_lookup_insert_eq, (lookup_lt_Some _ _ _ Htty).
Qed.

Lemma wake_writer_ok l log s : sending s0 n tty l log s ->
  exists s', wake_writer n s = (Ret tt, s') /\ sending s0 n tty l log s' /\ writer_runs n s'.
Proof.
  intros [Ht Hl Hk]. unfold wake_writer. rewrite bind_get. destruct (wait_queue (t_kst s) !! write_list n) as [h|] eqn:Eh.
  - destruct (Hk _ h Eh) as [t Et]. unfold on_k. rewrite (upd_task_ok h _ t _ Et). eexists. split; [reflexivity|]. split.
    + split; [done|done|]. apply sleepers_upd; [eauto|done].
    + intros h' t' Eh' Et'. cbn in Eh', Et'. rewrite Eh in Eh'. injection Eh' as <-. rewrite lookup_insert_eq in Et'. by injection Et' as <-.
  - exists s. split; [done|]. split; [done|]. intros h t Eh'. by rewrite Eh in Eh'.
Qed.

Lemma out_ok v p l log s : sending s0 n tty l log s -> exists s', on_k (outb v p) s = (Ret tt, s') /\ sending s0 n tty l ((v, p) :: log) s' /\
  (writer_runs n s -> writer_runs n s').
Proof. intros [Ht Hl Hk]. eexists. split; [reflexivity|]. split; [|done]. split; [done| |done]. cbn. by rewrite Hl. Qed.

Lemma write_buffer_empty_ok l log s : sending s0 n tty l log s ->
  exists s' v, write_buffer_empty n port s = (Ret tt, s') /\ sending s0 n tty l ((v, port + 1) :: log) s' /\ Z.testbit v 1 = false /\ writer_runs n s'.
Proof.
  intros S. unfold write_buffer_empty. destruct (wake_writer_ok _ _ _ S) as (s1 & E1 & S1 & W1). mrun E1. unfold inb. rewrite bind_gets.
  destruct (out_ok (Z.land (u8 (inb_p (port + 1) s1)) 0xd) (port + 1) _ _ _ S1) as (s2 & E2 & S2 & W2). rewrite E2.
  eexists _, _. split; [reflexivity|]. split; [exact S2|]. split; [|by apply W2]. rewrite Z.land_spec. by rewrite andb_false_r.
Qed.

(** One character goes out; after the last one the transmitter is quiet. *)
Lemma write_char_ok c l log s : sending s0 n tty (c :: l) log s ->
  exists s' extra, write_char n port s = (Ret tt, s') /\ sending s0 n tty l (extra ++ (u8 c, port) :: log) s' /\
    if decide (l = []) then exists v, extra = [(v, port + 1)] /\ Z.testbit v 1 = false /\ writer_runs n s' else extra = [].
Proof.
  intros S. destruct (sending_tty _ _ _ S) as (q & Et & Hq & Hc). unfold write_char. mrun (get_tty_run s n _ Hn Et). cbv zeta.
  change (write_q (tty <| write_q := q |>)) with q. pose proof (length_contents q) as Hlen. rewrite Hc in Hlen. cbn [length] in Hlen.
  destruct (Z.eqb_spec (CHARS q) 0) as [E0|_]; [lia|].
  assert (exists s1, when (CHARS q <=? startup) (wake_writer n) s = (Ret tt, s1) /\ sending s0 n tty (c :: l) log s1) as (s1 & E1 & S1).
  { destruct (_ <=? startup); cbn [when]; [|by exists s]. destruct (wake_writer_ok _ _ _ S) as (s1 & ? & ? & _). by exists s1. }
  mrun E1. destruct (GETCH_ok q c l Hq Hc) as (q' & Eg & Hq' & Hc'). rewrite Eg. unfold of_option. rewrite bind_ret.
  destruct (out_ok (u8 c) port _ _ _ S1) as (s2 & E2 & S2 & _). mrun E2.
  destruct (sending_tty _ _ _ S2) as (q2 & Et2 & _). mrun (upd_tty_run s2 n _ (fun t => t <| write_q := q' |>) Hn Et2). set (s3 := s2 <| tty_table ::= _ |>).
  assert (sending s0 n tty l ((u8 c, port) :: log) s3) as S3.
  { destruct S2 as [(q0 & Et0 & _) Hl2 Hk2]. split; [|done|done]. exists q'. split; [|done]. cbn. rewrite Et0. by rewrite list_insert_insert_eq. }
  rewrite (EMPTY_ok q' Hq'), Hc'. destruct (decide (l = [])) as [El|El].
  - rewrite bool_decide_eq_true_2 by done. destruct (write_buffer_empty_ok _ _ _ S3) as (s4 & v & E4 & S4 & Hv & W).
    exists s4, [(v, port + 1)]. split; [done|]. split; [done|]. by exists v.
  - rewrite bool_decide_eq_false_2 by done. by exists s3, [].
Qed.

Lemma interrupts_ok l : forall log s, l <> [] -> sending s0 n tty l log s ->
  exists s' v, interrupts (length l) n port s = (Ret tt, s') /\
    sending s0 n tty [] ((v, port + 1) :: rev (map (fun c => (u8 c, port)) l) ++ log) s' /\ Z.testbit v 1 = false /\ writer_runs n s'.
Proof.
  induction l as [|c l IH]; intros log s Hne S; [done|]. cbn [length interrupts].
  destruct (write_char_ok c l log s S) as (s1 & extra & E1 & S1 & He). mrun E1. destruct (decide (l = [])) as [->|Hl].
  - destruct He as (v & -> & Hv & W). by exists s1, v.
  - subst extra. destruct (IH _ s1 Hl S1) as (s2 & v & E2 & S2 & Hv & W). exists s2, v. split; [done|]. split; [|done].
    cbn [map rev]. by rewrite <- app_assoc.
Qed.
End Send.

(** C30: the transmitter of a serial line.  From a write queue that holds [l], as many interrupts as
    there are characters send the bytes of [l] to the line's port, in order and once each; the
    queue is then empty, the transmitter's interrupt is turned off by the last write, and a task
    that waits for room in the queue can run. *)
Theorem rs_transmit_ok `{TtyEnv} `{ConEnv} s n tty port :
  0 <= n -> tty_table s !! Z.to_nat n = Some tty -> queue_ok (write_q tty) -> contents (write_q tty) <> [] -> sleepers_ok (t_kst s) ->
  exists s' v, interrupts (length (contents (write_q tty))) n port s = (Ret tt, s') /\
    sending s n tty [] ((v, port + 1) :: rev (map (fun c => (u8 c, port)) (contents (write_q tty))) ++ ports (t_kst s)) s' /\
    Z.testbit v 1 = false /\ writer_runs n s'.
Proof.
  intros Hn Ht Hq Hne Hk. apply (interrupts_ok s n tty port Hn Ht); [done|]. split; [|done|done].
  exists (write_q tty). split; [|done]. rewrite list_insert_id; [done|]. by destruct tty.
Qed.

(** ** Witness *)

#[local] Instance still_env : TtyEnv :=
  {| tty_fuel := 16; tty_env := id; tty_irq := id; tty_driver := fun _ => mret tt; stack_byte := 0 |}.
#[local] Instance uart : ConEnv := {| inb_p := fun _ _ => 15 |}.

(** "ok" waits on the first line. *)
Definition line_tst : tst :=
  mk_tst demo [serial 0; (serial 0x3f8) <| write_q := mk_queue 0x3f8 2 0 ([111; 107] ++ replicate 1022 0) |>] 0 con_static.

Lemma rs_transmit_ok_witness : exists s' v, interrupts 2 1 0x3f8 line_tst = (Ret tt, s') /\
  ports (t_kst s') = [(v, 0x3f9); (107, 0x3f8); (111, 0x3f8)] ++ ports demo /\ Z.testbit v 1 = false.
Proof.
  destruct (rs_transmit_ok line_tst 1 ((serial 0x3f8) <| write_q := mk_queue 0x3f8 2 0 ([111; 107] ++ replicate 1022 0) |>) 0x3f8)
    as (s' & v & E & S & Hv & _).
  - lia.
  - reflexivity.
  - split; [cbn; lia|cbn; lia|vm_compute; reflexivity].
  - vm_compute. discriminate.
  - intros q h Hq. change ((∅ : gmap Z Z) !! q = Some h) in Hq. by rewrite lookup_empty in Hq.
  - exists s', v. split; [exact E|]. split; [|exact Hv]. rewrite (sd_log _ _ _ _ _ _ S). vm_compute. reflexivity.
Defined.
