(* ===== verification/Mktime.v ===== *)
(** Seconds since 1970 from the clock's fields ([linux-0.11/kernel/mktime.c]), and its
    agreement with the calendar. *)

From S2P Require Import Prelude.

Record tm := mk_tm {
  tm_sec : Z; tm_min : Z; tm_hour : Z; tm_mday : Z; tm_mon : Z; tm_year : Z
}.

Definition MINUTE : Z := 60.
Definition HOUR : Z := 60 * MINUTE.
Definition DAY : Z := 24 * HOUR.
Definition YEAR : Z := 365 * DAY.

(** Seconds before each month, counting February with 29 days. *)
Definition month : list Z :=
  [0;
   DAY * 31;
   DAY * (31+29);
   DAY * (31+29+31);
   DAY * (31+29+31+30);
   DAY * (31+29+31+30+31);
   DAY * (31+29+31+30+31+30);
   DAY * (31+29+31+30+31+30+31);
   DAY * (31+29+31+30+31+30+31+31);
   DAY * (31+29+31+30+31+30+31+31+30);
   DAY * (31+29+31+30+31+30+31+31+30+31);
   DAY * (31+29+31+30+31+30+31+31+30+31+30)].

(** [None] is a month outside of the table. *)
Definition kernel_mktime (t : tm) : option Z :=
  let year := tm_year t - 70 in
  let res := YEAR * year + DAY * Z.quot (year + 1) 4 in
  if decide (tm_mon t < 0) then None else
  match month !! Z.to_nat (tm_mon t) with
  | None => None
  | Some m =>
      let res := res + m in
      let res := if (1 <? tm_mon t) && istrue (Z.rem (year + 2) 4) then res - DAY else res in
      let res := res + DAY * (tm_mday t - 1) in
      let res := res + HOUR * tm_hour t in
      let res := res + MINUTE * tm_min t in
      Some (s32 (res + tm_sec t))
  end.

(** ** The calendar *)

Definition leap (y : Z) : bool :=
  (y mod 4 =? 0) && (negb (y mod 100 =? 0) || (y mod 400 =? 0)).

Definition year_days (y : Z) : Z := if leap y then 366 else 365.

Definition month_days (y m : Z) : Z :=
  if m =? 1 then (if leap y then 29 else 28)
  else if (m =? 3) || (m =? 5) || (m =? 8) || (m =? 10) then 30 else 31.

(** Days from 1 January 1970 to day [d] of month [m] (from 0) of year [y]. *)
Definition days_since_1970 (y m d : Z) : Z :=
  sumZ year_days (seqZ 1970 (y - 1970)) + sumZ (month_days y) (seqZ 0 m) + (d - 1).

Lemma leap_small y : 1970 <= y < 2100 -> leap y = (y mod 4 =? 0).
Proof.
  intros Hy. unfold leap. destruct (Z.eqb_spec (y mod 4) 0) as [H4|]; [|done]. cbn [andb].
  destruct (decide (y = 2000)) as [->|]; [done|].
  assert (y mod 100 <> 0) as H; [|by rewrite (proj2 (Z.eqb_neq _ _) H)].
  intros H. pose proof (Z_div_mod_eq_full y 100). lia.
Qed.

Lemma years_sum k : (k <= 130)%nat ->
  sumZ year_days (seqZ 1970 (Z.of_nat k)) = 365 * Z.of_nat k + (Z.of_nat k + 1) / 4.
Proof.
  induction k as [|k IH]; intros Hle; [done|].
  specialize (IH ltac:(lia)). rewrite Nat2Z.inj_succ, <- Z.add_1_r.
  assert (0 <= Z.of_nat k < 130) as Hn by lia. set (n := Z.of_nat k) in *. clearbody n.
  rewrite seqZ_app by lia. rewrite sumZ_app, IH.
  assert (sumZ year_days (seqZ (1970 + n) 1) = year_days (1970 + n)) as -> by
    (unfold sumZ; rewrite seqZ_cons by lia; change (seqZ _ (Z.pred 1)) with (@nil Z); cbn [foldr]; lia).
  unfold year_days. rewrite leap_small by lia.
  pose proof (Z_div_mod_eq_full (n + 1) 4). pose proof (Z_div_mod_eq_full (n + 1 + 1) 4).
  pose proof (Z_div_mod_eq_full (1970 + n) 4).
  pose proof (Z.mod_pos_bound (n + 1) 4). pose proof (Z.mod_pos_bound (n + 1 + 1) 4).
  pose proof (Z.mod_pos_bound (1970 + n) 4).
  destruct (Z.eqb_spec ((1970 + n) mod 4) 0); lia.
Qed.

(** The table gives the days before a month, one too many after February of a common year. *)
Lemma months_sum y m :
  0 <= m < 12 ->
  exists v, month !! Z.to_nat m = Some v /\
    v = DAY * (sumZ (month_days y) (seqZ 0 m) + (if (1 <? m) && negb (leap y) then 1 else 0)).
Proof.
  intros Hm. unfold month_days.
  assert (m ∈ seqZ 0 12) as Hin by (apply elem_of_seqZ; lia).
  destruct (leap y);
    repeat (apply elem_of_cons in Hin as [->|Hin]; [eexists; split; vm_compute; reflexivity|]);
    by apply elem_of_nil in Hin.
Qed.

(** C38: From 1970 to 2037 [kernel_mktime] counts the seconds of the calendar: the leap
    years of the Gregorian rule, the lengths of the months, and nothing overflows. *)
Theorem kernel_mktime_ok t :
  70 <= tm_year t < 138 -> 0 <= tm_mon t < 12 -> 1 <= tm_mday t <= 31 ->
  0 <= tm_hour t < 24 -> 0 <= tm_min t < 60 -> 0 <= tm_sec t < 60 ->
  kernel_mktime t =
    Some (DAY * days_since_1970 (1900 + tm_year t) (tm_mon t) (tm_mday t) +
          HOUR * tm_hour t + MINUTE * tm_min t + tm_sec t).
Proof.
  intros Hy Hm Hd Hh Hmi Hs. unfold kernel_mktime. rewrite decide_False by lia.
  set (y := 1900 + tm_year t). destruct (months_sum y (tm_mon t) Hm) as (v & -> & ->).
  assert (istrue (Z.rem (tm_year t - 70 + 2) 4) = negb (leap y)) as ->.
  { rewrite leap_small, Z.rem_mod_nonneg by lia. unfold istrue, y. f_equal.
    pose proof (Z_div_mod_eq_full (tm_year t - 70 + 2) 4). pose proof (Z_div_mod_eq_full (1900 + tm_year t) 4).
    pose proof (Z.mod_pos_bound (tm_year t - 70 + 2) 4). pose proof (Z.mod_pos_bound (1900 + tm_year t) 4).
    destruct (Z.eqb_spec ((1900 + tm_year t) mod 4) 0), (Z.eqb_spec ((tm_year t - 70 + 2) mod 4) 0); lia. }
  unfold days_since_1970. replace (y - 1970) with (Z.of_nat (Z.to_nat (tm_year t - 70))) by lia.
  rewrite years_sum, Z2Nat.id by lia. rewrite Z.quot_div_nonneg by lia.
  set (ms := sumZ (month_days y) (seqZ 0 (tm_mon t))).
  assert (0 <= ms <= 335) as Hms.
  { unfold ms, month_days. assert (tm_mon t ∈ seqZ 0 12) as Hin by (apply elem_of_seqZ; lia). destruct (leap y);
    repeat (apply elem_of_cons in Hin as [->|Hin]; [vm_compute; split; discriminate|]);
    by apply elem_of_nil in Hin. }
  f_equal. unfold YEAR, DAY, HOUR, MINUTE. pose proof (Z_div_mod_eq_full (tm_year t - 70 + 1) 4).
  pose proof (Z.mod_pos_bound (tm_year t - 70 + 1) 4).
  destruct ((1 <? tm_mon t) && negb (leap y)); rewrite s32_small; lia.
Qed.

Lemma kernel_mktime_ok_witness :
  kernel_mktime (mk_tm 0 0 0 29 1 92) = Some (DAY * days_since_1970 1992 1 29).
Proof.
  rewrite (kernel_mktime_ok (mk_tm 0 0 0 29 1 92)); [|vm_compute; intuition congruence..].
  reflexivity.
Defined.
