(* ===== verification/Traps.v ===== *)
(** Exceptions and start-up: the interrupt descriptor table ([kernel/traps.c],
    [include/asm/system.h] and [setup_idt] of [boot/head.s]), [sched_init], [show_stat]
    ([kernel/sched.c]) and what [init/main.c] computes before the first task runs.

    A descriptor is its two long words.  The addresses of the handlers, the segments that [die]
    prints and the ports that are read are parameters of the class [TrapEnv]; messages are recorded
    without their control characters. *)

From S2P Require Import Prelude Memory Task Sched Fork Exit Mktime.

(** The routines that gates point to. *)
Inductive handler :=
| ignore_int | divide_error | debug | nmi | int3 | overflow | bounds | invalid_op | device_not_available | double_fault
| coprocessor_segment_overrun | invalid_TSS | segment_not_present | stack_segment | general_protection | page_fault
| reserved | coprocessor_error | irq13 | parallel_interrupt | timer_interrupt | system_call | keyboard_interrupt
| rs1_interrupt | rs2_interrupt | hd_interrupt | floppy_interrupt.

Record trst := mk_trst { tr_k : kst; idt : gmap Z (Z * Z) }.

#[export] Instance eta_trst : Eta trst := fun s => mk_trst (tr_k s) (idt s).

Class TrapEnv := {
  addr_of : handler -> Z;
  tr_inb : Z -> Z;
  (** [get_seg_long], [get_seg_byte], the registers [fs] and [tr], and [get_limit] *)
  seg_long : Z -> Z -> Z;
  seg_byte : Z -> Z -> Z;
  reg_fs : Z;
  reg_tr : Z;
  seg_limit : Z -> Z;
  (** the bytes of a task's page after its structure *)
  kernel_stack : Z -> list Z;
  sizeof_task : Z
}.

Section Traps.
Context `{TrapEnv}.

Definition on_tk {A} (m : M kst A) : M trst A := fun s => let '(r, k) := m (tr_k s) in (r, s <| tr_k := k |>).
Definition tr_printk (fmt : string) (args : list Z) : M trst unit := on_tk (on_mm (printk fmt args)).

(** ** Gates *)

(** [movw %dx,%ax; movw flags,%dx; movl %eax,gate; movl %edx,4+gate] *)
Definition gate_words (type dpl addr : Z) : Z * Z :=
  let flags := u16 (0x8000 + Z.shiftl dpl 13 + Z.shiftl type 8) in
  (Z.lor (Z.land 0x00080000 0xffff0000) (Z.land addr 0xffff), Z.lor (Z.land addr 0xffff0000) flags).

Definition _set_gate (n type dpl : Z) (h : handler) : M trst unit :=
  modify (fun s => s <| idt ::= <[n := gate_words type dpl (addr_of h)]> |>).
Definition set_intr_gate (n : Z) (h : handler) : M trst unit := _set_gate n 14 0 h.
Definition set_trap_gate (n : Z) (h : handler) : M trst unit := _set_gate n 15 0 h.
Definition set_system_gate (n : Z) (h : handler) : M trst unit := _set_gate n 15 3 h.

(** [setup_idt]: 256 interrupt gates, [0x8E00] being type 14, level 0. *)
Definition setup_idt : M trst unit :=
  let addr := addr_of ignore_int in
  let words := (Z.lor 0x00080000 (Z.land addr 0xffff), Z.lor (Z.land addr 0xffff0000) 0x8E00) in
  for_each (seqZ 0 256) (fun n => modify (fun s => s <| idt ::= <[n := words]> |>)).

Definition trap_init : M trst unit :=
  set_trap_gate 0 divide_error;;
  set_trap_gate 1 debug;;
  set_trap_gate 2 nmi;;
  set_system_gate 3 int3;;
  set_system_gate 4 overflow;;
  set_system_gate 5 bounds;;
  set_trap_gate 6 invalid_op;;
  set_trap_gate 7 device_not_available;;
  set_trap_gate 8 double_fault;;
  set_trap_gate 9 coprocessor_segment_overrun;;
  set_trap_gate 10 invalid_TSS;;
  set_trap_gate 11 segment_not_present;;
  set_trap_gate 12 stack_segment;;
  set_trap_gate 13 general_protection;;
  set_trap_gate 14 page_fault;;
  set_trap_gate 15 reserved;;
  set_trap_gate 16 coprocessor_error;;
  for_each (seqZ 17 (48 - 17)) (fun i => set_trap_gate i reserved);;
  set_trap_gate 45 irq13;;
  on_tk (outb (Z.land (tr_inb 0x21) 0xfb) 0x21);;
  on_tk (outb (Z.land (tr_inb 0xA1) 0xdf) 0xA1);;
  set_trap_gate 39 parallel_interrupt.

(** The gates that the drivers set: [con_init], [rs_init], [hd_init] and [floppy_init]. *)
Definition con_gates : M trst unit := set_trap_gate 0x21 keyboard_interrupt.
Definition rs_gates : M trst unit := set_intr_gate 0x24 rs1_interrupt;; set_intr_gate 0x23 rs2_interrupt.
Definition hd_gates : M trst unit := set_intr_gate 0x2E hd_interrupt.
Definition floppy_gates : M trst unit := set_trap_gate 0x26 floppy_interrupt.

(** ** Exceptions *)

(** The longs that the processor and [asm.s] pushed: [eip], [cs], [eflags], [esp], [ss]. *)
Record exc_frame := mk_exc_frame { fr_eip : Z; fr_cs : Z; fr_eflags : Z; fr_esp : Z; fr_ss : Z }.

(** [str(n)]: the number of the task from its segment in the task register. *)
Definition str_task : Z := Z.shiftr (u32 (u16 reg_tr - Z.shiftl FIRST_TSS_ENTRY 3)) 4.

Section Die.
Context (others : kst -> kst) `{FsOps}.

Definition die (str : string) (esp : exc_frame) (nr : Z) : M trst unit :=
  tr_printk (str ++ ": %04x")%string [Z.land nr 0xffff];;
  tr_printk "EIP:%04x:%p EFLAGS:%p ESP:%04x:%p" [fr_cs esp; fr_eip esp; fr_eflags esp; fr_ss esp; fr_esp esp];;
  tr_printk "fs: %04x" [reg_fs];;
  c ← on_tk current_task;
  tr_printk "base: %p, limit: %p" [d_base (ldt1 c); seg_limit 0x17];;
  when (fr_ss esp =? 0x17) (
    tr_printk "Stack: " [];;
    for_each (seqZ 0 4) (fun i => tr_printk "%p " [seg_long 0x17 (fr_esp esp + 4 * i)]);;
    tr_printk "" []);;
  tr_printk "Pid: %d, process nr: %d" [t_pid c; Z.land 0xffff str_task];;
  for_each (seqZ 0 10) (fun i => tr_printk "%02x " [Z.land 0xff (seg_byte (fr_cs esp) (fr_eip esp + i))]);;
  tr_printk "" [];;
  on_tk (do_exit others 11).

Definition do_double_fault := die "double fault".
Definition do_general_protection := die "general protection".
Definition do_divide_error := die "divide error".
Definition do_nmi := die "nmi".
Definition do_debug := die "debug".
Definition do_overflow := die "overflow".
Definition do_bounds := die "bounds".
Definition do_invalid_op := die "invalid operand".
Definition do_device_not_available := die "device not available".
Definition do_coprocessor_segment_overrun := die "coprocessor segment overrun".
Definition do_invalid_TSS := die "invalid TSS".
Definition do_segment_not_present := die "segment not present".
Definition do_stack_segment := die "stack segment".
Definition do_reserved := die "reserved (15,17-47) error".

Definition do_coprocessor_error (esp : exc_frame) (error_code : Z) : M trst unit :=
  s ← get;
  if negb (bool_decide (last_task_used_math (tr_k s) = Some (cur (tr_k s)))) then mret tt else
  die "coprocessor error" esp error_code.
End Die.

Definition do_int3 (esp : exc_frame) (esp_ptr fs es ds ebp esi edi edx ecx ebx eax : Z) : M trst unit :=
  tr_printk "eax ebx ecx edx %8x %8x %8x %8x" [eax; ebx; ecx; edx];;
  tr_printk "esi edi ebp esp %8x %8x %8x %8x" [esi; edi; ebp; esp_ptr];;
  tr_printk "ds es fs tr %4x %4x %4x %4x" [ds; es; fs; u16 reg_tr];;
  tr_printk "EIP: %8x CS: %4x EFLAGS: %8x" [fr_eip esp; fr_cs esp; fr_eflags esp].

(** ** sched.c: printing the tasks and initialisation *)

Fixpoint free_chars (l : list Z) : Z := match l with 0 :: l => 1 + free_chars l | _ => 0 end.

Definition show_task (nr : Z) (p : task_struct) : M trst unit :=
  let j := 4096 - sizeof_task in
  tr_printk "%d: pid=%d, state=%d, " [nr; t_pid p; t_state p];;
  tr_printk "%d (of %d) chars free in kernel stack" [free_chars (take (Z.to_nat j) (kernel_stack nr)); j].

Definition show_stat : M trst unit :=
  for_each (seqZ 0 NR_TASKS) (fun i =>
    s ← get;
    match tasks (tr_k s) !! i with Some p => show_task i p | None => mret tt end).

Definition LATCH : Z := 1193180 / HZ.

(** Descriptors are named by the task they belong to, as in [Fork.v]. *)
Definition sched_init : M trst unit :=
  on_tk (modify (fun s => s <| gdt ::= <[FIRST_TSS_ENTRY := 0]> |> <| gdt ::= <[FIRST_LDT_ENTRY := 0]> |>));;
  for_each (seqZ 1 (NR_TASKS - 1)) (fun i =>
    let p := 2 + FIRST_TSS_ENTRY + 2 * (i - 1) in
    on_tk (modify (fun s => s <| tasks ::= delete i |> <| gdt ::= delete p |> <| gdt ::= delete (p + 1) |>)));;
  on_tk (outb 0x36 0x43);;
  on_tk (outb (Z.land LATCH 0xff) 0x40);;
  on_tk (outb (Z.shiftr LATCH 8) 0x40);;
  set_intr_gate 0x20 timer_interrupt;;
  on_tk (outb (Z.land (tr_inb 0x21) (Z.lnot 0x01)) 0x21);;
  set_system_gate 0x80 system_call.

(** The gates in the order in which [main] has them set. *)
Definition boot_gates : M trst unit :=
  setup_idt;;
  trap_init;;
  rs_gates;;
  con_gates;;
  sched_init;;
  hd_gates;;
  floppy_gates.
End Traps.

(** ** main.c *)

Definition BCD_TO_BIN (val : Z) : Z := Z.land val 15 + Z.shiftr val 4 * 10.

(** The clock's registers, read one after the other; reading them takes time, so what a register
    holds depends on how many were read before. *)
Section Clock.
Context (cmos : nat -> Z -> Z).

Definition MAIN_CMOS_READ (addr : Z) : M nat Z := n ← get; modify S;; mret (cmos n addr).

Fixpoint read_clock (fuel : nat) : M nat tm :=
  match fuel with
  | O => nofuel
  | S fuel =>
      sec ← MAIN_CMOS_READ 0;
      min ← MAIN_CMOS_READ 2;
      hour ← MAIN_CMOS_READ 4;
      mday ← MAIN_CMOS_READ 7;
      mon ← MAIN_CMOS_READ 8;
      year ← MAIN_CMOS_READ 9;
      again ← MAIN_CMOS_READ 0;
      if negb (sec =? again) then read_clock fuel else
      mret (mk_tm sec min hour mday mon year)
  end.

Definition time_init (fuel : nat) : M nat Z :=
  t ← read_clock fuel;
  of_option "month" (kernel_mktime (mk_tm (BCD_TO_BIN (tm_sec t)) (BCD_TO_BIN (tm_min t)) (BCD_TO_BIN (tm_hour t))
    (BCD_TO_BIN (tm_mday t)) (BCD_TO_BIN (tm_mon t) - 1) (BCD_TO_BIN (tm_year t)))).
End Clock.

(** [memory_end] and [buffer_memory_end] for the extended memory that the BIOS reports. *)
Definition memory_end (EXT_MEM_K : Z) : Z :=
  let m := Z.land (Z.shiftl 1 20 + Z.shiftl EXT_MEM_K 10) 0xfffff000 in
  if 16 * 1024 * 1024 <? m then 16 * 1024 * 1024 else m.
Definition buffer_memory_end (memory_end : Z) : Z :=
  if 12 * 1024 * 1024 <? memory_end then 4 * 1024 * 1024
  else if 6 * 1024 * 1024 <? memory_end then 2 * 1024 * 1024
  else 1 * 1024 * 1024.
