(* ===== verification/TrapsSpec.v ===== *)
(** After start-up the interrupt descriptor table is right: every vector leads to its handler, in
    the kernel's code segment, and user programs can call four of them only.  The time that
    [time_init] starts from is one that the clock showed. *)

From S2P Require Import Prelude Memory Task Sched SchedSpec Fork Exit Mktime Traps.

(** ** Reading a gate as the processor does *)

Definition gate_selector (g : Z * Z) : Z := Z.shiftr g.1 16.
Definition gate_offset (g : Z * Z) : Z := Z.lor (Z.land g.2 0xffff0000) (Z.land g.1 0xffff).
Definition gate_type (g : Z * Z) : Z := Z.land (Z.shiftr g.2 8) 0x1f.
Definition gate_dpl (g : Z * Z) : Z := Z.land (Z.shiftr g.2 13) 3.
Definition gate_present (g : Z * Z) : bool := Z.testbit g.2 15.

Lemma land_lor_apart a b m : Z.land b m = 0 -> Z.land (Z.lor a b) m = Z.land a m.
Proof. intros Hb. by rewrite Z.land_lor_distr_l, Hb, Z.lor_0_r. Qed.

Lemma land_hi_lo a : 0 <= a < 4294967296 -> Z.lor (Z.land a 0xffff0000) (Z.land a 0xffff) = a.
Proof.
  intros Ha. rewrite <- Z.land_lor_distr_r. change (Z.lor 0xffff0000 0xffff) with (Z.ones 32). rewrite Z.land_ones by lia. by apply Z.mod_small.
Qed.

Lemma land_land a m k : Z.land (Z.land a m) k = Z.land a (Z.land m k).
Proof. symmetry. apply Z.land_assoc. Qed.

(** A gate holds what it was made from. *)
Lemma gate_words_ok type dpl addr :
  (type = 14 \/ type = 15) -> (dpl = 0 \/ dpl = 3) -> 0 <= addr < 4294967296 ->
  let g := gate_words type dpl addr in
  gate_selector g = 8 /\ gate_offset g = addr /\ gate_type g = type /\ gate_dpl g = dpl /\ gate_present g = true.
Proof.
  intros Ht Hd Ha g. unfold g, gate_words, gate_selector, gate_offset, gate_type, gate_dpl, gate_present. cbn [fst snd].
  set (flags := u16 (0x8000 + Z.shiftl dpl 13 + Z.shiftl type 8)).
  assert (flags = 0x8E00 \/ flags = 0x8F00 \/ flags = 0xEE00 \/ flags = 0xEF00) as Hf by (unfold flags; destruct Ht as [-> | ->], Hd as [-> | ->]; vm_compute; auto).
  assert (Z.land flags 0xffff0000 = 0) as Hf0 by (destruct Hf as [->|[->|[->| ->]]]; reflexivity).
  assert (forall k n, Z.land (Z.land addr 0xffff0000) (Z.shiftl (Z.ones n) k) = 0 -> 0 <= k -> 0 <= n ->
    Z.land (Z.shiftr (Z.lor (Z.land addr 0xffff0000) flags) k) (Z.ones n) = Z.land (Z.shiftr flags k) (Z.ones n)) as Hlow.
  { intros k n Hz Hk Hn. rewrite Z.shiftr_lor, Z.land_lor_distr_l.
    assert (Z.land (Z.shiftr (Z.land addr 0xffff0000) k) (Z.ones n) = 0) as ->; [|by rewrite Z.lor_0_l].
    apply (f_equal (fun x => Z.shiftr x k)) in Hz. rewrite Z.shiftr_land, Z.shiftr_shiftl_l, Z.sub_diag, Z.shiftl_0_r, Z.shiftr_0_l in Hz by lia. exact Hz. }
  split; [|split; [|split; [|split]]].
  - rewrite Z.shiftr_lor, (Z.shiftr_land addr). change (Z.shiftr 0xffff 16) with 0. by rewrite Z.land_0_r.
  - rewrite (land_lor_apart _ flags _ Hf0), land_land. change (Z.land 0xffff0000 0xffff0000) with 0xffff0000.
    rewrite (Z.lor_comm (Z.land _ _) (Z.land addr 0xffff)), (land_lor_apart _ (Z.land 0x80000 0xffff0000) 0xffff eq_refl), land_land.
    by apply land_hi_lo.
  - change 0x1f with (Z.ones 5). rewrite Hlow by (first [lia|rewrite land_land; apply Z.land_0_r]). unfold flags. by destruct Ht as [-> | ->], Hd as [-> | ->].
  - change 3 with (Z.ones 2). rewrite Hlow by (first [lia|rewrite land_land; apply Z.land_0_r]). unfold flags. by destruct Ht as [-> | ->], Hd as [-> | ->].
  - rewrite Z.lor_spec, Z.land_spec. change (Z.testbit 0xffff0000 15) with false. rewrite andb_false_r. by destruct Hf as [->|[->|[->| ->]]].
Qed.

(** ** The table *)

(** The handler of a vector, and the vectors that user programs may call. *)
Definition exceptions : list handler :=
  [divide_error; debug; nmi; int3; overflow; bounds; invalid_op; device_not_available; double_fault; coprocessor_segment_overrun;
   invalid_TSS; segment_not_present; stack_segment; general_protection; page_fault; reserved; coprocessor_error].
Definition vector (n : Z) : handler :=
  if n =? 0x80 then system_call else if 48 <=? n then ignore_int else if n =? 0x20 then timer_interrupt
  else if n =? 0x21 then keyboard_interrupt else if n =? 0x23 then rs2_interrupt else if n =? 0x24 then rs1_interrupt
  else if n =? 0x26 then floppy_interrupt else if n =? 0x27 then parallel_interrupt else if n =? 0x2D then irq13
  else if n =? 0x2E then hd_interrupt else nth (Z.to_nat n) exceptions reserved.
Definition user_callable (n : Z) : bool := (n =? 3) || (n =? 4) || (n =? 5) || (n =? 0x80).
(** Interrupts stay off in these handlers. *)
Definition masked (n : Z) : bool := (n =? 0x20) || (n =? 0x23) || (n =? 0x24) || (n =? 0x2E) || ((48 <=? n) && negb (n =? 0x80)).

(** The gates set, the last one first: vector, type, level, handler. *)
Definition gate : Type := Z * Z * Z * handler.
Definition gates : list gate :=
  [(0x26, 15, 0, floppy_interrupt); (0x2E, 14, 0, hd_interrupt); (0x80, 15, 3, system_call); (0x20, 14, 0, timer_interrupt);
   (0x21, 15, 0, keyboard_interrupt); (0x23, 14, 0, rs2_interrupt); (0x24, 14, 0, rs1_interrupt);
   (39, 15, 0, parallel_interrupt); (45, 15, 0, irq13)] ++
  rev ((fun i => (i, 15, 0, reserved)) <$> seqZ 17 31) ++
  rev (zip_with (fun n h => (n, 15, if (3 <=? n) && (n <=? 5) then 3 else 0, h)) (seqZ 0 17) exceptions) ++
  rev ((fun n => (n, 14, 0, ignore_int)) <$> seqZ 0 256).

Definition put_gate `{TrapEnv} (g : gate) (m : gmap Z (Z * Z)) : gmap Z (Z * Z) :=
  let '(n, t, d, h) := g in <[n := gate_words t d (addr_of h)]> m.

Section Table.
Context `{TrapEnv}.

(** [m] returns and sets these gates. *)
Definition sets (l : list gate) (m : M trst unit) : Prop :=
  forall s, exists s', m s = (Ret tt, s') /\ idt s' = foldr put_gate (idt s) l.

Lemma sets_seq l1 l2 m1 m2 : sets l1 m1 -> sets l2 m2 -> sets (l2 ++ l1) (m1;; m2).
Proof.
  intros H1 H2 s. destruct (H1 s) as (s1 & E1 & I1). destruct (H2 s1) as (s2 & E2 & I2). exists s2. mrun E1. by rewrite E2, I2, I1, foldr_app.
Qed.

Lemma sets_gate n t d h : sets [(n, t, d, h)] (_set_gate n t d h).
Proof. intros s. by eexists. Qed.

Lemma sets_tk (m : M kst unit) : (forall k, exists k', m k = (Ret tt, k')) -> sets [] (on_tk m).
Proof. intros Hm s. destruct (Hm (tr_k s)) as [k' E]. unfold on_tk. rewrite E. by eexists. Qed.

Lemma sets_each (g : Z -> gate) l (body : Z -> M trst unit) : (forall n, sets [g n] (body n)) -> sets (rev (g <$> l)) (for_each l body).
Proof.
  intros Hb. induction l as [|n l IH]; cbn [for_each fmap list_fmap rev]; [by intros s; eexists|]. by apply sets_seq.
Qed.

Lemma sets_each_tk l (body : Z -> M trst unit) : (forall n, sets [] (body n)) -> sets [] (for_each l body).
Proof. intros Hb. induction l as [|n l IH]; cbn [for_each]; [by intros s; eexists|]. exact (sets_seq [] [] _ _ (Hb n) IH). Qed.

Lemma sets_idt : sets (rev ((fun n => (n, 14, 0, ignore_int)) <$> seqZ 0 256)) setup_idt.
Proof. unfold setup_idt. apply sets_each. intros n s. by eexists. Qed.

(** The proof that a routine sets gates follows its text. *)
Ltac sets_tac :=
  repeat match goal with
  | |- sets _ (_ ≫= _) => eapply sets_seq
  | |- sets _ (for_each _ (fun _ => set_trap_gate _ _)) => eapply sets_each; intros ?
  | |- sets _ (for_each _ _) => eapply sets_each_tk; intros ?
  | |- sets _ (on_tk _) => apply sets_tk; intros ?; eexists; reflexivity
  | |- sets _ setup_idt => apply sets_idt
  | |- sets _ (_ _ _) => apply sets_gate
  end.

Lemma sets_eq l l' m : sets l m -> l = l' -> sets l' m.
Proof. by intros H1 <-. Qed.

Lemma sets_sched : sets [(0x80, 15, 3, system_call); (0x20, 14, 0, timer_interrupt)] sched_init.
Proof. eapply sets_eq; [unfold sched_init; sets_tac|reflexivity]. Qed.

Lemma sets_boot : sets gates boot_gates.
Proof.
  eapply sets_eq; [unfold boot_gates, trap_init, rs_gates, con_gates, hd_gates, floppy_gates; sets_tac; apply sets_sched|]. reflexivity.
Qed.

Lemma put_gates_lookup l m n :
  foldr put_gate m l !! n =
    match list_find (fun g : gate => g.1.1.1 = n) l with Some (_, (_, t, d, h)) => Some (gate_words t d (addr_of h)) | None => m !! n end.
Proof.
  induction l as [|[[[k t] d] h] l IH]; [done|]. cbn [foldr put_gate list_find fst]. destruct (decide (k = n)) as [->|Hne].
  - apply lookup_insert_eq.
  - rewrite lookup_insert_ne, IH by done. by destruct (list_find _ l) as [[? [[[? ?] ?] ?]]|].
Qed.
End Table.

(** What the list of gates says of each vector. *)
Definition gate_of (n : Z) : option (Z * Z * handler) :=
  match list_find (fun g : gate => g.1.1.1 = n) gates with Some (_, (_, t, d, h)) => Some (t, d, h) | None => None end.
Definition gate_wanted (n : Z) : Z * Z * handler := (if masked n then 14 else 15, if user_callable n then 3 else 0, vector n).

#[export] Instance handler_eq_dec : EqDecision handler.
Proof. solve_decision. Defined.

Lemma gates_right n : 0 <= n < 256 -> gate_of n = Some (gate_wanted n).
Proof.
  intros Hn. assert (forallb (fun n => bool_decide (gate_of n = Some (gate_wanted n))) (seqZ 0 256) = true) as Hall by (vm_compute; reflexivity).
  rewrite forallb_forall in Hall. specialize (Hall n). rewrite <- list_elem_of_In, elem_of_seqZ in Hall. exact (bool_decide_eq_true_1 _ (Hall ltac:(lia))).
Qed.

(** ** The clock *)

Definition to_bcd (x : Z) : Z := 16 * (x / 10) + x mod 10.

Lemma bcd_roundtrip x : 0 <= x < 100 -> BCD_TO_BIN (to_bcd x) = x.
Proof.
  intros Hx. unfold BCD_TO_BIN, to_bcd. change 15 with (Z.ones 4). rewrite Z.land_ones, Z.shiftr_div_pow2 by lia. change (2 ^ 4) with 16.
  pose proof (Z.mod_pos_bound x 10 ltac:(lia)). pose proof (Z.div_mod x 10 ltac:(lia)).
  rewrite (Z.add_comm (16 * _)), (Z.mul_comm 16), Z_mod_plus_full, Z.div_add, (Z.mod_small (x mod 10)), (Z.div_small (x mod 10)) by lia. lia.
Qed.

(** The register of a field; months count from 1 in the clock. *)
Definition cmos_field (t : tm) (addr : Z) : Z :=
  to_bcd (if addr =? 0 then tm_sec t else if addr =? 2 then tm_min t else if addr =? 4 then tm_hour t else if addr =? 7 then tm_mday t
          else if addr =? 8 then tm_mon t + 1 else tm_year t).
Definition in_range (t : tm) : Prop :=
  0 <= tm_sec t < 100 /\ 0 <= tm_min t < 100 /\ 0 <= tm_hour t < 100 /\ 0 <= tm_mday t < 100 /\ 0 <= tm_mon t + 1 < 100 /\ 0 <= tm_year t < 100.

Section Clock.
(** [shown n] is the time when the register is read for the [n]-th time. *)
Context (shown : nat -> tm).
Hypothesis Hrange : forall n, in_range (shown n).
(** A round of reads takes less than a minute. *)
Hypothesis Hquick : forall n k, tm_sec (shown n) = tm_sec (shown (n + 6)) -> (k <= 6)%nat -> shown (n + k) = shown n.

Definition shown_cmos (n : nat) (addr : Z) : Z := cmos_field (shown n) addr.

Lemma read_clock_ok fuel n t n' :
  read_clock shown_cmos fuel n = (Ret t, n') ->
  exists m, (n <= m)%nat /\ t = mk_tm (cmos_field (shown m) 0) (cmos_field (shown m) 2) (cmos_field (shown m) 4) (cmos_field (shown m) 7)
    (cmos_field (shown m) 8) (cmos_field (shown m) 9).
Proof.
  revert n. induction fuel as [|fuel IH]; intros n; [done|]. cbn [read_clock].
  change (S (S (S (S (S (S n)))))) with (6 + n)%nat. unfold MAIN_CMOS_READ. rewrite !bind_assoc, bind_get, bind_assoc, bind_modify, bind_ret.
  do 6 rewrite bind_assoc, bind_get, bind_assoc, bind_modify, bind_ret. unfold shown_cmos at 1 2.
  destruct (Z.eqb_spec (cmos_field (shown n) 0) (cmos_field (shown (S (S (S (S (S (S n))))))) 0)) as [E|E]; cbn [negb].
  - intros [= <- _]. exists n. split; [lia|]. assert (tm_sec (shown n) = tm_sec (shown (n + 6))) as Hs.
    { apply (f_equal BCD_TO_BIN) in E. unfold cmos_field in E. cbn [Z.eqb] in E. rewrite !bcd_roundtrip in E by apply Hrange.
      by replace (n + 6)%nat with (S (S (S (S (S (S n)))))) by lia. }
    assert (forall k, (k <= 6)%nat -> shown (k + n) = shown n) as Hq by (intros k Hk; rewrite Nat.add_comm; by apply Hquick).
    pose proof (Hq 1%nat ltac:(lia)) as Q1. pose proof (Hq 2%nat ltac:(lia)) as Q2. pose proof (Hq 3%nat ltac:(lia)) as Q3.
    pose proof (Hq 4%nat ltac:(lia)) as Q4. pose proof (Hq 5%nat ltac:(lia)) as Q5. cbn [Nat.add] in Q1, Q2, Q3, Q4, Q5.
    unfold shown_cmos. by rewrite Q1, Q2, Q3, Q4, Q5.
  - intros E'. destruct (IH _ E') as (m & Hm & ->). exists m. split; [lia|done].
Qed.

Lemma time_init_ok fuel n v n' :
  time_init shown_cmos fuel n = (Ret v, n') -> exists m, (n <= m)%nat /\ kernel_mktime (shown m) = Some v.
Proof.
  unfold time_init. intros E. apply bind_inv in E as (t & n1 & Et & E). destruct (read_clock_ok fuel n t n1 Et) as (m & Hm & ->).
  exists m. split; [done|]. cbn [tm_sec tm_min tm_hour tm_mday tm_mon tm_year] in E. unfold cmos_field in E. cbn [Z.eqb Pos.eqb] in E.
  destruct (Hrange m) as (R1 & R2 & R3 & R4 & R5 & R6). rewrite !bcd_roundtrip in E by done.
  replace (tm_mon (shown m) + 1 - 1) with (tm_mon (shown m)) in E by lia.
  destruct (kernel_mktime _) as [x|] eqn:Ek; [|done]. injection E as <- _. rewrite <- Ek. by destruct (shown m).
Qed.

(** It comes to an end with the first round in which the second does not change. *)
Lemma time_init_ends k : forall n fuel,
  (k < fuel)%nat -> tm_sec (shown (n + 7 * k)) = tm_sec (shown (n + 7 * k + 6)) -> exists t n', read_clock shown_cmos fuel n = (Ret t, n').
Proof.
  induction k as [|k IH]; intros n [|fuel] Hk Hs; try lia; cbn [read_clock]; unfold MAIN_CMOS_READ; rewrite !bind_assoc, bind_get, bind_assoc, bind_modify, bind_ret;
    do 6 rewrite bind_assoc, bind_get, bind_assoc, bind_modify, bind_ret; unfold shown_cmos at 1 2;
    destruct (Z.eqb_spec (cmos_field (shown n) 0) (cmos_field (shown (S (S (S (S (S (S n))))))) 0)) as [E|E]; cbn [negb]; try (by eexists _, _).
  - destruct E. unfold cmos_field. cbn [Z.eqb]. f_equal. rewrite Nat.mul_0_r, Nat.add_0_r in Hs. rewrite Hs. do 2 f_equal. lia.
  - apply IH; [lia|]. replace (S (S (S (S (S (S (S n)))))) + 7 * k)%nat with (n + 7 * S k)%nat by lia. exact Hs.
Qed.
End Clock.

(** ** Property *)

(** C35: the interrupt table after start-up.  The routines of [main] that set gates always return,
    and then every one of the 256 vectors has a gate that is present, leads through the kernel's
    code segment to the handler that belongs to the vector (the exceptions, the timer, keyboard,
    serial lines, disks and the system call, the others to the handler of unused vectors), with
    interrupts off in the handlers of timer, serial lines and hard disk; a user program can
    enter the kernel through the vectors 3, 4, 5 and 0x80 and no other. *)
Theorem boot_gates_ok `{TrapEnv} s :
  (forall h, 0 <= addr_of h < 4294967296) ->
  exists s', boot_gates s = (Ret tt, s') /\
    forall n, 0 <= n < 256 -> exists g, idt s' !! n = Some g /\ gate_present g = true /\ gate_selector g = 8 /\
      gate_offset g = addr_of (vector n) /\ gate_type g = (if masked n then 14 else 15) /\
      (gate_dpl g = 3 <-> n = 3 \/ n = 4 \/ n = 5 \/ n = 0x80).
Proof.
  intros Ha. destruct (sets_boot s) as (s' & E & Ei). exists s'. split; [exact E|]. intros n Hn. rewrite Ei, put_gates_lookup.
  pose proof (gates_right n Hn) as Hg. unfold gate_of in Hg. destruct (list_find _ gates) as [[i [[[k t] d] h]]|]; [|done].
  injection Hg as -> -> ->. eexists. split; [reflexivity|].
  assert (gate_dpl (gate_words (if masked n then 14 else 15) (if user_callable n then 3 else 0) (addr_of (vector n))) =
    if user_callable n then 3 else 0) as Hd by (apply gate_words_ok; [destruct (masked n)|destruct (user_callable n)|]; auto).
  destruct (gate_words_ok (if masked n then 14 else 15) (if user_callable n then 3 else 0) (addr_of (vector n))) as (E1 & E2 & E3 & _ & E5);
    [destruct (masked n); auto|destruct (user_callable n); auto|apply Ha|].
  split; [exact E5|]. split; [exact E1|]. split; [exact E2|]. split; [exact E3|]. rewrite Hd. unfold user_callable.
  destruct (Z.eqb_spec n 3), (Z.eqb_spec n 4), (Z.eqb_spec n 5), (Z.eqb_spec n 0x80); cbn [orb]; lia.
Qed.

(** ** Witness *)

Definition demo_addr (h : handler) : Z := match h with system_call => 0x6804 | _ => 0x7010 end.
Definition demo_traps : TrapEnv := {|
  addr_of := demo_addr; tr_inb := fun _ => 0xff; seg_long := fun _ _ => 0; seg_byte := fun _ _ => 0;
  reg_fs := 0x17; reg_tr := 0x20; seg_limit := fun _ => 0; kernel_stack := fun _ => []; sizeof_task := 956
|}.

Definition demo_boot : trst := mk_trst demo ∅.

Lemma boot_gates_ok_witness :
  exists s' g, boot_gates (H := demo_traps) demo_boot = (Ret tt, s') /\ idt s' !! 0x80 = Some g /\ gate_offset g = 0x6804 /\ gate_dpl g = 3.
Proof.
  destruct (boot_gates_ok (H := demo_traps) demo_boot) as (s' & E & Hall); [intros []; cbn; lia|].
  destruct (Hall 0x80 ltac:(lia)) as (g & Hg & _ & _ & Ho & _ & Hd). exists s', g. split; [exact E|]. split; [exact Hg|]. split; [exact Ho|].
  apply Hd. lia.
Defined.
