(* ===== verification/Vsprintf.v ===== *)
(** Formatted output ([linux-0.11/kernel/vsprintf.c]).

    Characters are their codes.  The characters written through [str] are the list [out];
    the arguments are a list of values, a string argument being the characters before its
    NUL; what [%n] stores is the list [stored].  Reading an argument that is not there, or
    of another kind, is undefined.  A pointer into the format is the list of the characters
    from there to the NUL, [[]] when it points at the NUL; moving it past the NUL is
    undefined. *)

From Stdlib Require Import Ascii.
From S2P Require Import Prelude.

Definition ch (a : Ascii.ascii) : Z := Z.of_N (Ascii.N_of_ascii a).
Arguments ch _%_char.

Definition str_codes (s : string) : list Z := map ch (String.list_ascii_of_string s).

Definition is_digit (c : Z) : bool := (ch "0" <=? c) && (c <=? ch "9").

Fixpoint skip_atoi (s : list Z) (i : Z) : Z * list Z :=
  match s with
  | c :: s' => if is_digit c then skip_atoi s' (s32 (i * 10 + c - ch "0")) else (i, s)
  | [] => (i, [])
  end.

Definition ZEROPAD : Z := 1.
Definition SIGN : Z := 2.
Definition PLUS : Z := 4.
Definition SPACE : Z := 8.
Definition LEFT : Z := 16.
Definition SPECIAL : Z := 32.
Definition SMALL : Z := 64.

(** Is one of the flags [m] set in [type]? *)
Definition flag (type m : Z) : bool := istrue (Z.land type m).

(** ** number *)

(** [while (num != 0) tmp[i++] = digits[do_div(num, base)]], an unsigned division; a
    32-bit number has at most 32 digits. *)
Fixpoint div_digits {A} (fuel : nat) (digits : list Z) (num base : Z) : M A (list Z) :=
  if num =? 0 then mret [] else
  match fuel with
  | O => nofuel
  | S fuel =>
      d ← of_option "digits" (digits !! Z.to_nat (num mod base));
      l ← div_digits fuel digits (num / base) base;
      mret (d :: l)
  end.

(** [while (size-- > 0) *str++ = c]: the characters, and [size] afterwards. *)
Definition fill (size c : Z) : list Z * Z := (replicate (Z.to_nat size) c, Z.min size 0 - 1).

(** The characters that [number] writes; [None] for a base that it refuses. *)
Definition number {A} (num base size precision type : Z) : M A (option (list Z)) :=
  let digits := if flag type SMALL then str_codes "0123456789abcdefghijklmnopqrstuvwxyz"
                else str_codes "0123456789ABCDEFGHIJKLMNOPQRSTUVWXYZ" in
  let type := if flag type LEFT then Z.land type (Z.lnot ZEROPAD) else type in
  if (base <? 2) || (36 <? base) then mret None else
  let c := if flag type ZEROPAD then ch "0" else ch " " in
  let '(sign, num) :=
    if flag type SIGN && (num <? 0) then ([ch "-"], s32 (- num))
    else ((if flag type PLUS then [ch "+"] else if flag type SPACE then [ch " "] else []), num) in
  let size := match sign with [] => size | _ => size - 1 end in
  let size := if flag type SPECIAL then
                (if base =? 16 then size - 2 else if base =? 8 then size - 1 else size)
              else size in
  tmp ← (if num =? 0 then mret [ch "0"] else div_digits 32 digits (u32 num) base);
  let i := Z.of_nat (length tmp) in
  let precision := Z.max precision i in
  let size := size - precision in
  let '(s1, size) := if flag type (ZEROPAD + LEFT) then ([], size) else fill size (ch " ") in
  let s2 := if flag type SPECIAL then
              (if base =? 8 then [ch "0"]
               else if base =? 16 then [ch "0"; nth 33 digits 0] else [])
            else [] in
  let '(s3, size) := if flag type LEFT then ([], size) else fill size c in
  let s4 := replicate (Z.to_nat (precision - i)) (ch "0") in
  mret (Some (s1 ++ sign ++ s2 ++ s3 ++ s4 ++ reverse tmp ++ fst (fill size (ch " ")))).

(** ** vsprintf *)

Inductive arg := AInt (v : Z) | AStr (s : list Z) | APtr (p : Z).

Record vs := mk_vs { out : list Z; args : list arg; stored : list (Z * Z) }.

#[export] Instance eta_vs : Eta vs := fun s => mk_vs (out s) (args s) (stored s).

Definition emit (l : list Z) : M vs unit := modify (fun s => s <| out ::= fun o => o ++ l |>).

Definition va_arg : M vs arg :=
  s ← get;
  match args s with
  | [] => undef "va_arg"
  | a :: rest => modify (fun s => s <| args := rest |>);; mret a
  end.

Definition va_int : M vs Z :=
  a ← va_arg; match a with AInt v => mret (s32 v) | _ => undef "va_arg: int" end.
Definition va_string : M vs (list Z) :=
  a ← va_arg; match a with AStr s => mret s | _ => undef "va_arg: char *" end.
Definition va_pointer : M vs Z :=
  a ← va_arg; match a with APtr p => mret p | _ => undef "va_arg: int *" end.

(** The label [repeat:], after the percent sign. *)
Fixpoint read_flags (fmt : list Z) (flags : Z) : Z * list Z :=
  match fmt with
  | c :: fmt' =>
      if c =? ch "-" then read_flags fmt' (Z.lor flags LEFT)
      else if c =? ch "+" then read_flags fmt' (Z.lor flags PLUS)
      else if c =? ch " " then read_flags fmt' (Z.lor flags SPACE)
      else if c =? ch "#" then read_flags fmt' (Z.lor flags SPECIAL)
      else if c =? ch "0" then read_flags fmt' (Z.lor flags ZEROPAD)
      else (flags, fmt)
  | [] => (flags, [])
  end.

(** [*fmt], the NUL at the end. *)
Definition peek (fmt : list Z) : Z := match fmt with c :: _ => c | [] => 0 end.

(** [++fmt] *)
Definition next_char (fmt : list Z) : M vs (list Z) := match fmt with _ :: fmt => mret fmt | [] => undef "fmt" end.

Definition read_width (fmt : list Z) (flags : Z) : M vs (Z * Z * list Z) :=
  if is_digit (peek fmt) then let '(w, fmt) := skip_atoi fmt 0 in mret (w, flags, fmt)
  else if peek fmt =? ch "*" then
    w ← va_int;
    if w <? 0 then mret (s32 (- w), Z.lor flags LEFT, fmt) else mret (w, flags, fmt)
  else mret (-1, flags, fmt).

Definition read_precision (fmt : list Z) : M vs (Z * list Z) :=
  if peek fmt =? ch "." then
    fmt ← next_char fmt;
    '(p, fmt) ← (if is_digit (peek fmt) then mret (skip_atoi fmt 0)
                 else if peek fmt =? ch "*" then p ← va_int; mret (p, fmt)
                 else mret (-1, fmt));
    mret (if p <? 0 then 0 else p, fmt)
  else mret (-1, fmt).

Definition skip_qualifier (fmt : list Z) : M vs (list Z) :=
  if (peek fmt =? ch "h") || (peek fmt =? ch "l") || (peek fmt =? ch "L") then next_char fmt else mret fmt.

(** [str = number(str, va_arg(args, unsigned long), ...)] *)
Definition put_number (base width precision flags : Z) : M vs unit :=
  v ← va_int;
  l ← number v base width precision flags;
  match l with
  | Some l => emit l
  | None => undef "number"
  end.

Definition spaces (n : Z) : list Z := replicate (Z.to_nat n) (ch " ").

(** The [switch ( *fmt)]: the result is where the loop goes on, after its own [++fmt].  At the
    NUL the [--fmt] of the default case and this [++fmt] leave the pointer at the NUL. *)
Definition convert (fmt : list Z) (flags width precision : Z) : M vs (list Z) :=
  let c := peek fmt in
  if c =? ch "c" then
    let '(w, l) := if flag flags LEFT then (width, []) else (Z.min (width - 1) 0, spaces (width - 1)) in
    emit l;;
    v ← va_int;
    emit [u8 v];;
    emit (spaces (w - 1));;
    next_char fmt
  else if c =? ch "s" then
    s ← va_string;
    let len := Z.of_nat (length s) in
    let len := if (0 <=? precision) && (precision <? len) then precision else len in
    let '(w, l) := if flag flags LEFT then (width, []) else (Z.min width len - 1, spaces (width - len)) in
    emit l;;
    emit (take (Z.to_nat len) s);;
    emit (spaces (w - len));;
    next_char fmt
  else if c =? ch "o" then put_number 8 width precision flags;; next_char fmt
  else if c =? ch "p" then
    let '(w, f) := if width =? -1 then (8, Z.lor flags ZEROPAD) else (width, flags) in
    put_number 16 w precision f;; next_char fmt
  else if c =? ch "x" then put_number 16 width precision (Z.lor flags SMALL);; next_char fmt
  else if c =? ch "X" then put_number 16 width precision flags;; next_char fmt
  else if (c =? ch "d") || (c =? ch "i") then
    put_number 10 width precision (Z.lor flags SIGN);; next_char fmt
  else if c =? ch "u" then put_number 10 width precision flags;; next_char fmt
  else if c =? ch "n" then
    ip ← va_pointer;
    modify (fun s => s <| stored ::= cons (ip, Z.of_nat (length (out s))) |>);;
    next_char fmt
  else
    when (negb (c =? ch "%")) (emit [ch "%"]);;
    if istrue c then emit [c];; next_char fmt else mret fmt.

(** One conversion, from the character after the percent sign. *)
Definition conversion (fmt : list Z) : M vs (list Z) :=
  let '(flags, fmt) := read_flags fmt 0 in
  '(width, flags, fmt) ← read_width fmt flags;
  '(precision, fmt) ← read_precision fmt;
  fmt ← skip_qualifier fmt;
  convert fmt flags width precision.

(** The [for] loop; each round consumes a character ([vsprintf_ends]). *)
Fixpoint format (fuel : nat) (fmt : list Z) : M vs unit :=
  match fmt with
  | [] => mret tt
  | c :: rest =>
      match fuel with
      | O => nofuel
      | S fuel =>
          if negb (c =? ch "%") then emit [c];; format fuel rest
          else rest ← conversion rest; format fuel rest
      end
  end.

(** The characters before the final NUL are [out] of the end state. *)
Definition vsprintf (fmt : list Z) : M vs Z :=
  format (length fmt) fmt;;
  s ← get;
  mret (Z.of_nat (length (out s))).
