(* ===== verification/VsprintfSpec.v ===== *)
(** Properties of [kernel/vsprintf.c]: the digits that [number] writes, the round trip of
    decimal output, and the end of the format loop. *)

From Stdlib Require Import Ascii.
From S2P Require Import Prelude Vsprintf.

(** ** Reading digits back *)

Definition digit_val (c : Z) : Z :=
  if is_digit c then c - ch "0" else if c <? ch "a" then c - ch "A" + 10 else c - ch "a" + 10.

(** The value of digits, the most significant first. *)
Definition value (base : Z) (l : list Z) : Z := foldl (fun v c => v * base + digit_val c) 0 l.

Lemma value_snoc base l c : value base (l ++ [c]) = value base l * base + digit_val c.
Proof. unfold value. by rewrite foldl_app. Qed.

(** A table of digits: the character at place [d] reads as [d]. *)
Definition digit_table (digits : list Z) : Prop :=
  forall d, 0 <= d < 36 -> exists c, digits !! Z.to_nat d = Some c /\ digit_val c = d /\ (c = ch "0" -> d = 0).

Lemma digit_table_check digits :
  forallb (fun d => match digits !! Z.to_nat d with
                    | Some c => (digit_val c =? d) && (negb (c =? ch "0") || (d =? 0))
                    | None => false
                    end) (seqZ 0 36) = true ->
  digit_table digits.
Proof.
  intros H d Hd. rewrite forallb_forall in H. specialize (H d ltac:(apply list_elem_of_In, elem_of_seqZ; lia)).
  cbv beta in H. destruct (digits !! Z.to_nat d) as [c|]; [|done]. exists c.
  apply andb_true_iff in H as [H1 H2]. apply Z.eqb_eq in H1. split; [done|]. split; [done|].
  intros ->. apply orb_true_iff in H2 as [H2|H2]; [done|lia].
Qed.

Lemma div_digits_ok digits fuel num base :
  digit_table digits -> 2 <= base <= 36 -> 0 <= num < 2 ^ Z.of_nat fuel ->
  exists ds, div_digits fuel digits num base = (mret ds : M vs _) /\ value base (reverse ds) = num /\
    (length ds <= fuel)%nat /\ (num <> 0 -> ds <> []) /\ last ds <> Some (ch "0") /\
    Forall (fun c => 0 <= digit_val c < base) ds.
Proof.
  intros Ht Hb. revert num. induction fuel as [|fuel IH]; intros num Hn; cbn [div_digits].
  { assert (num = 0) as -> by lia. exists []. cbn. naive_solver. }
  destruct (Z.eqb_spec num 0) as [->|Hn0].
  { exists []. cbn. split; [done|]. split; [done|]. split; [lia|]. split; [done|]. split; [done|constructor]. }
  pose proof (Z.mod_pos_bound num base ltac:(lia)) as Hmod.
  destruct (Ht (num mod base) ltac:(lia)) as (c & -> & Hc & Hc0).
  destruct (IH (num / base)) as (ds & -> & Hv & Hl & Hne & Hlast & Hall).
  { split; [apply Z.div_pos; lia|]. apply Z.div_lt_upper_bound; [lia|].
    replace (2 ^ Z.of_nat (S fuel)) with (2 * 2 ^ Z.of_nat fuel) in Hn by (rewrite Nat2Z.inj_succ, Z.pow_succ_r; lia).
    nia. }
  exists (c :: ds). split; [reflexivity|]. split; [|split; [cbn; lia|split; [done|split]]].
  3: by constructor; [rewrite Hc|].
  - rewrite reverse_cons, value_snoc, Hv, Hc. pose proof (Z_div_mod_eq_full num base). lia.
  - destruct ds as [|d ds]; [|done]. cbn. intros [= ->].
    assert (num / base = 0) as Hz by (by rewrite <- Hv). pose proof (Z_div_mod_eq_full num base).
    specialize (Hc0 eq_refl). lia.
Qed.

Lemma small_digits : digit_table (str_codes "0123456789abcdefghijklmnopqrstuvwxyz").
Proof. apply digit_table_check. vm_compute. reflexivity. Qed.

Lemma big_digits : digit_table (str_codes "0123456789ABCDEFGHIJKLMNOPQRSTUVWXYZ").
Proof. apply digit_table_check. vm_compute. reflexivity. Qed.

(** The magnitude that is printed. *)
Definition magnitude (num type : Z) : Z := if flag type SIGN && (num <? 0) then - num else u32 num.

(** The digits of [number], for either table. *)
Lemma number_digits digits num base :
  digit_table digits -> 2 <= base <= 36 -> 0 <= num < 4294967296 ->
  exists ds, (if num =? 0 then mret [ch "0"] else div_digits 32 digits num base) = (mret ds : M vs _) /\
    value base (reverse ds) = num /\ (1 <= length ds <= 32)%nat /\
    (num <> 0 -> head (reverse ds) <> Some (ch "0")) /\ Forall (fun c => 0 <= digit_val c < base) ds.
Proof.
  intros Ht Hb Hn. destruct (Z.eqb_spec num 0) as [->|Hn0].
  - exists [ch "0"]. split; [done|]. split; [done|]. split; [cbn; lia|]. split; [done|].
    constructor; [|constructor]. change (digit_val (ch "0")) with 0. lia.
  - destruct (div_digits_ok digits 32 num base Ht Hb) as (ds & -> & Hv & Hl & Hne & Hlast & Hall); [cbn; lia|].
    exists ds. split; [done|]. split; [done|]. split.
    + specialize (Hne Hn0). destruct ds; [done|cbn in *; lia].
    + split; [|done]. intros _. by rewrite head_reverse.
Qed.

Lemma flag_left_kept type : flag (Z.land type (Z.lnot ZEROPAD)) LEFT = flag type LEFT.
Proof. unfold flag. by rewrite <- Z.land_assoc. Qed.

Lemma flag_sign_kept type : flag (Z.land type (Z.lnot ZEROPAD)) SIGN = flag type SIGN.
Proof. unfold flag. by rewrite <- Z.land_assoc. Qed.

Lemma s32_neg num : -2147483648 <= num < 0 -> u32 (s32 (- num)) = - num /\ s32 (- num) <> 0.
Proof.
  intros H. destruct (decide (num = -2147483648)) as [->|]; [done|].
  rewrite s32_small, u32_small by lia. lia.
Qed.

Lemma u32_zero num : -2147483648 <= num < 2147483648 -> (num =? 0) = (u32 num =? 0).
Proof.
  intros H. unfold u32. destruct (decide (0 <= num)); [by rewrite Z.mod_small by lia|].
  rewrite <- (Z_mod_plus_full num 1), Z.mod_small by lia.
  rewrite (proj2 (Z.eqb_neq _ _)), (proj2 (Z.eqb_neq _ _)) by lia. done.
Qed.

(** The sign characters and the digits, for both signs. *)
Lemma number_sign digits num base type :
  digit_table digits -> 2 <= base <= 36 -> -2147483648 <= num < 2147483648 ->
  exists sign n ds,
    (if flag type SIGN && (num <? 0) then ([ch "-"], s32 (- num))
     else ((if flag type PLUS then [ch "+"] else if flag type SPACE then [ch " "] else []), num)) = (sign, n) /\
    (if n =? 0 then mret [ch "0"] else div_digits 32 digits (u32 n) base) = (mret ds : M vs _) /\
    value base (reverse ds) = magnitude num type /\ (1 <= length ds <= 32)%nat /\
    (magnitude num type <> 0 -> head (reverse ds) <> Some (ch "0")) /\
    Forall (fun c => 0 <= digit_val c < base) ds.
Proof.
  intros Ht Hb Hn. unfold magnitude. destruct (flag type SIGN && (num <? 0)) eqn:Es.
  - apply andb_true_iff in Es as [_ Es%Z.ltb_lt]. destruct (s32_neg num) as [Hu Hz]; [lia|].
    destruct (number_digits digits (- num) base Ht Hb) as (ds & Hds & H); [lia|].
    eexists _, _, ds. split; [reflexivity|]. rewrite Hu, (proj2 (Z.eqb_neq _ _) Hz).
    rewrite (proj2 (Z.eqb_neq (- num) 0)) in Hds by lia. done.
  - destruct (number_digits digits (u32 num) base Ht Hb (u32_range _)) as (ds & Hds & H).
    eexists _, _, ds. split; [reflexivity|]. by rewrite u32_zero.
Qed.

Lemma length_fill n c : Z.of_nat (length (fst (fill n c))) = Z.max n 0 /\ snd (fill n c) = Z.min n 0 - 1.
Proof. cbn. rewrite length_replicate. lia. Qed.

Lemma ret_bind {S A B} (a : A) (k : A -> M S B) : (mret a ≫= k) = k a.
Proof. reflexivity. Qed.

(** [number] ends and writes its argument: after the padding, the sign and the prefix come the
    digits of the argument's magnitude in the base, without leading zeros other than the
    ones that the precision asks for; they fit the 36 characters of its buffer, the
    result is at least as wide as asked, and nothing follows unless it is left
    justified. *)
Lemma number_ok num base size precision type :
  2 <= base <= 36 -> -2147483648 <= num < 2147483648 ->
  exists left zeros ds right,
    number num base size precision type = (mret (Some (left ++ replicate zeros (ch "0") ++ ds ++ right)) : M vs _) /\
    value base ds = magnitude num type /\ (1 <= length ds <= 32)%nat /\
    (magnitude num type <> 0 -> head ds <> Some (ch "0")) /\
    precision <= Z.of_nat (zeros + length ds) /\
    size <= Z.of_nat (length left + zeros + length ds + length right) /\
    (flag type LEFT = false -> right = []).
Proof.
  intros Hb Hn. unfold number. rewrite (proj2 (Z.ltb_ge _ _)), (proj2 (Z.ltb_ge _ _)) by lia. cbn [orb].
  set (digits := if flag type SMALL then _ else _ : list Z).
  assert (digit_table digits) as Ht by (unfold digits; destruct (flag type SMALL); [exact small_digits|exact big_digits]).
  clearbody digits. set (ty := if flag type LEFT then _ else _ : Z).
  assert (flag ty LEFT = flag type LEFT) as Hleft by (unfold ty; destruct (flag type LEFT) eqn:E; rewrite ?flag_left_kept; done).
  assert (flag ty SIGN = flag type SIGN) as Hsign by (unfold ty; destruct (flag type LEFT); rewrite ?flag_sign_kept; done).
  assert (magnitude num ty = magnitude num type) as Hmag by (unfold magnitude; by rewrite Hsign).
  clearbody ty. destruct (number_sign digits num base ty Ht Hb Hn) as (sign & n & ds & -> & -> & Hv & Hl & Hh & _).
  rewrite ret_bind. cbv beta zeta.
  rewrite Hmag in Hv, Hh. set (sz0 := match sign with [] => size | _ => size - 1 end).
  assert (size <= sz0 + Z.of_nat (length sign)) as Hsz0 by (unfold sz0; destruct sign; cbn [length]; lia).
  set (s2 := if flag ty SPECIAL then _ else [] : list Z). set (sz := if flag ty SPECIAL then _ else sz0).
  assert (sz0 <= sz + Z.of_nat (length s2)) as Hsz.
  { unfold sz, s2. destruct (flag ty SPECIAL); [|cbn; lia].
    destruct (Z.eqb_spec base 16) as [->|]; [cbn; lia|]. destruct (base =? 8); cbn; lia. }
  set (pr := Z.max precision _). set (zs := Z.to_nat (pr - Z.of_nat (length ds))).
  set (c := if flag ty ZEROPAD then _ else _ : Z). clearbody sz0 sz s2 c.
  pose proof (length_fill (sz - pr) (ch " ")) as [L1 L1'].
  destruct (if flag ty (ZEROPAD + LEFT) then _ else _) as [s1 sz1] eqn:E1.
  destruct (if flag ty LEFT then _ else _) as [s3 sz3] eqn:E3.
  exists (s1 ++ sign ++ s2 ++ s3), zs, (reverse ds), (fst (fill sz3 (ch " "))).
  split; [by rewrite !(assoc_L (++))|]. split; [done|]. rewrite length_reverse. split; [done|]. split; [done|].
  split; [unfold zs, pr; lia|].
  assert (Z.of_nat (length s1) + Z.of_nat (length s3) + Z.max sz3 0 >= sz - pr /\
          (flag ty LEFT = false -> sz3 < 0)) as [Htot Hneg].
  { destruct (flag ty (ZEROPAD + LEFT)), (flag ty LEFT); injection E1 as <- <-; injection E3 as <- <-;
      rewrite ?length_replicate; cbn [length]; lia. }
  split.
  - pose proof (length_fill sz3 (ch " ")) as [L3 _]. rewrite !length_app. unfold zs, pr in *. lia.
  - intros Hf. rewrite Hleft in Hneg. specialize (Hneg Hf). unfold fill. cbn.
    by replace (Z.to_nat sz3) with 0%nat by lia.
Qed.

(** ** Decimal output *)

(** The number that a decimal string denotes. *)
Definition read_int (l : list Z) : Z :=
  match l with
  | c :: l' => if c =? ch "-" then - value 10 l' else value 10 l
  | [] => 0
  end.

Lemma read_int_digits ds : Forall (fun c => 0 <= digit_val c < 10) ds -> read_int ds = value 10 ds.
Proof.
  intros H. destruct ds as [|c ds]; [done|]. cbn. apply Forall_cons in H as [H _].
  destruct (Z.eqb_spec c (ch "-")) as [->|]; [|done]. vm_compute in H. by destruct H as [[]].
Qed.

Lemma replicate_nonpos (n c : Z) : n <= 0 -> replicate (Z.to_nat n) c = [].
Proof. intros H. by replace (Z.to_nat n) with 0%nat by lia. Qed.

Lemma number_decimal n :
  -2147483648 <= n < 2147483648 ->
  exists l, number n 10 (-1) (-1) SIGN = (mret (Some l) : M vs _) /\ read_int l = n /\ (1 <= length l <= 33)%nat.
Proof.
  intros Hn. unfold number.
  change (flag SIGN SMALL) with false. change (flag SIGN LEFT) with false. cbv iota.
  change ((10 <? 2) || (36 <? 10)) with false. cbv iota.
  set (digits := str_codes "0123456789ABCDEFGHIJKLMNOPQRSTUVWXYZ").
  destruct (number_digits digits (magnitude n SIGN) 10 big_digits ltac:(lia)) as (ds & Hds & Hv & Hl & _ & Hall).
  { unfold magnitude. change (flag SIGN SIGN) with true. cbn [andb].
    destruct (Z.ltb_spec n 0); [lia|apply u32_range]. }
  unfold magnitude in *. change (flag SIGN SIGN) with true in *. cbn [andb] in *.
  destruct (Z.ltb_spec n 0) as [Hneg|Hpos].
  - destruct (s32_neg n) as [Hu Hz]; [lia|]. rewrite (proj2 (Z.eqb_neq (- n) 0)) in Hds by lia.
    rewrite Hu, (proj2 (Z.eqb_neq _ _) Hz), Hds, ret_bind.
    change (flag SIGN (ZEROPAD + LEFT)) with false. change (flag SIGN SPECIAL) with false.
    change (flag SIGN LEFT) with false. unfold fill. cbv beta iota zeta. cbn [fst].
    rewrite !replicate_nonpos by lia. cbn [app]. rewrite app_nil_r.
    eexists. split; [reflexivity|].
    split; [change (- value 10 (reverse ds) = n); lia|]. cbn [length]. rewrite length_reverse. lia.
  - rewrite u32_small in Hds, Hv by lia. rewrite (u32_small n) by lia. rewrite Hds, ret_bind.
    change (flag SIGN (ZEROPAD + LEFT)) with false. change (flag SIGN SPECIAL) with false.
    change (flag SIGN PLUS) with false. change (flag SIGN SPACE) with false.
    change (flag SIGN LEFT) with false. unfold fill. cbv beta iota zeta. cbn [fst].
    rewrite !replicate_nonpos by lia. cbn [app]. rewrite app_nil_r.
    eexists. split; [reflexivity|].
    split; [by rewrite read_int_digits by (by apply Forall_reverse)|]. rewrite length_reverse. lia.
Qed.

(** C36: Printing an [int] with [%d] and reading the decimal string back gives the number,
    for every 32-bit value, the least one included. *)
Theorem vsprintf_decimal n :
  -2147483648 <= n < 2147483648 ->
  exists l, vsprintf (str_codes "%d") (mk_vs [] [AInt n] []) = (Ret (Z.of_nat (length l)), mk_vs l [] []) /\
    read_int l = n /\ (1 <= length l <= 33)%nat.
Proof.
  intros Hn. destruct (number_decimal n Hn) as (l & Hl & Hr & Hlen). exists l. split; [|done].
  assert (format 2 (str_codes "%d") (mk_vs [] [AInt n] []) = (Ret tt, mk_vs l [] [])) as Hf.
  2: { unfold vsprintf. change (length (str_codes "%d")) with 2%nat. by mrun Hf. }
  assert (conversion (str_codes "d") (mk_vs [] [AInt n] []) = (Ret [], mk_vs l [] [])) as Hc.
  { change (conversion (str_codes "d") (mk_vs [] [AInt n] []))
      with ((put_number 10 (-1) (-1) SIGN;; mret ([] : list Z)) (mk_vs [] [AInt n] [])).
    unfold put_number, va_int, va_arg. rewrite !bind_assoc, bind_get. cbn [args].
    rewrite !bind_assoc, bind_modify, !bind_ret, s32_small, Hl by lia. reflexivity. }
  change (format 2 (str_codes "%d")) with (rest ← conversion (str_codes "d"); format 1 rest).
  by mrun Hc.
Qed.

(** ** The format loop ends

    A step returns, or an argument that it asks for is not there or of another kind.  With
    [ints] the arguments are integers, at least [k] of them: then it returns and has taken at
    most [k]. *)

Definition is_int (a : arg) : bool := match a with AInt _ => true | _ => false end.

Definition supplied (ints : bool) (k : nat) (s : vs) : Prop := ints = true -> Forall is_int (args s) /\ (k <= length (args s))%nat.

Lemma s32_bounds v : -2147483648 <= s32 v < 2147483648.
Proof. unfold s32. pose proof (Z.mod_pos_bound v 4294967296 ltac:(lia)). destruct (Z.ltb_spec (v mod 4294967296) 2147483648); lia. Qed.

Definition runs {A} (ints : bool) (k : nat) (P : A -> Prop) (m : M vs A) : Prop :=
  forall s n, supplied ints (k + n) s ->
  match m s with
  | (Ret a, s') => P a /\ supplied ints n s'
  | (Undef w, _) => ints = false /\ String.prefix "va_arg" w = true
  | _ => False
  end.

Section Runs.
Context (ints : bool).

Lemma runs_bind {A B} j k (P : A -> Prop) (Q : B -> Prop) m f :
  runs ints j P m -> (forall a, P a -> runs ints k Q (f a)) -> runs ints (j + k) Q (m ≫= f).
Proof.
  intros Hm Hf s n Hs. rewrite <- Nat.add_assoc in Hs. specialize (Hm s _ Hs). unfold mbind, M_bind.
  destruct (m s) as [[a| | | |] s']; try done. destruct Hm as [Ha Hs']. exact (Hf a Ha s' n Hs').
Qed.

Lemma runs_weaken {A} j k (P Q : A -> Prop) m : runs ints j P m -> (j <= k)%nat -> (forall a, P a -> Q a) -> runs ints k Q m.
Proof.
  intros Hm Hk HQ s n Hs. specialize (Hm s (k - j + n)%nat). replace (j + (k - j + n))%nat with (k + n)%nat in Hm by lia. specialize (Hm Hs).
  destruct (m s) as [[a| | | |] s']; try done. destruct Hm as [Ha Hs']. split; [by apply HQ|]. intros E. destruct (Hs' E). split; [done|lia].
Qed.

Lemma runs_ret {A} (P : A -> Prop) a : P a -> runs ints 0 P (mret a).
Proof. intros Ha s n Hs. by split. Qed.

Lemma runs_do {B} k (Q : B -> Prop) f m : (forall s, args (f s) = args s) -> runs ints k Q m -> runs ints k Q (modify f;; m).
Proof. intros Hf Hm s n Hs. rewrite bind_modify. apply Hm. unfold supplied. by rewrite Hf. Qed.

Lemma runs_va_int : runs ints 1 (fun v => -2147483648 <= v < 2147483648) va_int.
Proof.
  intros s n Hs. unfold va_int, va_arg. rewrite bind_assoc, bind_get. destruct (args s) as [|a l] eqn:E.
  - destruct ints; [|by split]. destruct (Hs eq_refl) as [_ Hl]. rewrite E in Hl. cbn in Hl. lia.
  - rewrite bind_assoc, bind_modify, bind_ret. destruct a as [v|l'|q].
    + split; [apply s32_bounds|]. intros Hi. destruct (Hs Hi) as [Ha Hl]. rewrite E in *. inversion_clear Ha. split; [done|cbn in *; lia].
    + destruct ints; [|by split]. destruct (Hs eq_refl) as [Ha _]. rewrite E in Ha. by inversion_clear Ha.
    + destruct ints; [|by split]. destruct (Hs eq_refl) as [Ha _]. rewrite E in Ha. by inversion_clear Ha.
Qed.

Lemma runs_put_number base w p f : 2 <= base <= 36 -> runs ints 1 (fun _ => True) (put_number base w p f).
Proof.
  intros Hb. apply (runs_bind 1 0 _ _ _ _ runs_va_int). intros v Hv s n Hs.
  destruct (number_ok v base w p f Hb Hv) as (l1 & z & ds & l2 & -> & _). by split.
Qed.

Lemma runs_inc fmt : fmt <> [] -> runs ints 0 (fun l => l `suffix_of` fmt) (next_char fmt).
Proof. destruct fmt as [|c fmt]; [done|]. intros _. apply runs_ret. by exists [c]. Qed.

End Runs.

Lemma runs_va_string : runs false 0 (fun _ => True) va_string.
Proof. intros s n _. unfold va_string, va_arg. rewrite bind_assoc, bind_get. by destruct (args s) as [|[]]. Qed.

Lemma runs_va_pointer : runs false 0 (fun _ => True) va_pointer.
Proof. intros s n _. unfold va_pointer, va_arg. rewrite bind_assoc, bind_get. by destruct (args s) as [|[]]. Qed.

(** With integers only, no string and no pointer is asked for. *)
Definition plain (ints : bool) (c : Z) : Prop := ints = true -> c <> ch "s" /\ c <> ch "n".

Lemma plain_suffix ints l fmt : l `suffix_of` fmt -> Forall (plain ints) fmt -> Forall (plain ints) l.
Proof. intros [k ->] [_ H]%Forall_app. exact H. Qed.

Lemma peek_cons fmt c : peek fmt = c -> istrue c = true -> fmt <> [].
Proof. intros <- H ->. discriminate H. Qed.

Lemma skip_atoi_suffix fmt i : (skip_atoi fmt i).2 `suffix_of` fmt.
Proof.
  revert i. induction fmt as [|c fmt IH]; intros i; cbn [skip_atoi]; [done|]. destruct (is_digit c); [|done]. by apply suffix_cons_r.
Qed.

Lemma read_flags_suffix fmt f : (read_flags fmt f).2 `suffix_of` fmt.
Proof.
  revert f. induction fmt as [|c fmt IH]; intros f; cbn [read_flags]; [done|]. repeat case_match; first [done|by apply suffix_cons_r].
Qed.

Section Conversion.
Context (ints : bool).

Lemma runs_inc_after {A} (m : M vs A) k fmt c :
  (peek fmt =? c) = true -> istrue c = true -> runs ints k (fun _ => True) m -> runs ints k (fun l => l `suffix_of` fmt) (m;; next_char fmt).
Proof.
  intros Hc%Z.eqb_eq H1 Hm. rewrite <- (Nat.add_0_r k). apply (runs_bind _ _ _ _ _ _ _ Hm). intros _ _. apply runs_inc. by eapply peek_cons.
Qed.

Lemma runs_width fmt f : runs ints 1 (fun x => x.2 `suffix_of` fmt) (read_width fmt f).
Proof.
  unfold read_width. pose proof (skip_atoi_suffix fmt 0) as Hs. destruct (is_digit (peek fmt)).
  - destruct (skip_atoi fmt 0) as [w l]. apply (runs_weaken _ 0 1 (fun x => x.2 `suffix_of` fmt)); [by apply runs_ret|lia|done].
  - destruct (peek fmt =? ch "*").
    + apply (runs_bind _ 1 0 _ _ _ _ (runs_va_int _)). intros w _. by destruct (w <? 0); apply runs_ret.
    + apply (runs_weaken _ 0 1 (fun x => x.2 `suffix_of` fmt)); [by apply runs_ret|lia|done].
Qed.

Lemma runs_precision fmt : runs ints 1 (fun x => x.2 `suffix_of` fmt) (read_precision fmt).
Proof.
  unfold read_precision. destruct (peek fmt =? ch ".") eqn:E.
  2: { apply (runs_weaken _ 0 1 (fun x => x.2 `suffix_of` fmt)); [by apply runs_ret|lia|done]. }
  apply Z.eqb_eq in E. apply (runs_bind _ 0 1 _ _ _ _ (runs_inc _ fmt (peek_cons _ _ E eq_refl))). intros l Hl.
  apply (runs_bind _ 1 0 (fun x => x.2 `suffix_of` fmt)).
  - pose proof (skip_atoi_suffix l 0) as Hs. destruct (is_digit (peek l)).
    + apply (runs_weaken _ 0 1 (fun x => x.2 `suffix_of` fmt)); [apply runs_ret; by etrans|lia|done].
    + destruct (peek l =? ch "*").
      * apply (runs_bind _ 1 0 _ _ _ _ (runs_va_int _)). intros v _. by apply runs_ret.
      * apply (runs_weaken _ 0 1 (fun x => x.2 `suffix_of` fmt)); [by apply runs_ret|lia|done].
  - intros [v l'] Hl'. by apply runs_ret.
Qed.

Lemma runs_qualifier fmt : runs ints 0 (fun l => l `suffix_of` fmt) (skip_qualifier fmt).
Proof.
  unfold skip_qualifier. destruct fmt as [|c fmt]; [by apply runs_ret|]. destruct (_ || _); [by apply runs_inc|by apply runs_ret].
Qed.

End Conversion.

Lemma plain_peek fmt c : Forall (plain true) fmt -> (peek fmt =? c) = true -> c = ch "s" \/ c = ch "n" -> False.
Proof.
  intros Hp E%Z.eqb_eq Hc. destruct fmt as [|x fmt]; [subst c; destruct Hc as [H|H]; discriminate H|].
  cbn in E. subst x. apply Forall_cons in Hp as [Hp _]. specialize (Hp eq_refl). destruct Hp, Hc; done.
Qed.

(** A branch of the switch that prints a number. *)
Lemma runs_number ints fmt c base w p f :
  (peek fmt =? c) = true -> istrue c = true -> 2 <= base <= 36 ->
  runs ints 1 (fun l => l `suffix_of` fmt) (put_number base w p f;; next_char fmt).
Proof. intros Hc H1 Hb. by apply (runs_inc_after _ _ _ _ c), runs_put_number. Qed.

Lemma runs_char ints fmt f w :
  (peek fmt =? ch "c") = true ->
  runs ints 1 (fun l => l `suffix_of` fmt)
    (let '(w, l) := if flag f LEFT then (w, []) else (Z.min (w - 1) 0, spaces (w - 1)) in
     emit l;; v ← va_int; emit [u8 v];; emit (spaces (w - 1));; next_char fmt).
Proof.
  intros E. destruct (if flag f LEFT then _ else _) as [w' l]. apply runs_do; [done|]. apply (runs_bind _ 1 0 _ _ _ _ (runs_va_int _)). intros v _.
  do 2 (apply runs_do; [done|]). apply runs_inc. by apply (peek_cons _ (ch "c")); [apply Z.eqb_eq|].
Qed.

Lemma runs_convert ints fmt f w p : Forall (plain ints) fmt -> runs ints 1 (fun l => l `suffix_of` fmt) (convert fmt f w p).
Proof.
  intros Hp. unfold convert.
  destruct (peek fmt =? ch "c") eqn:E1; [by apply runs_char|].
  destruct (peek fmt =? ch "s") eqn:E2.
  { destruct ints; [destruct (plain_peek fmt _ Hp E2); by left|]. apply (runs_weaken _ 0 1 (fun l => l `suffix_of` fmt)); [|lia|done].
    apply (runs_bind _ 0 0 _ _ _ _ runs_va_string). intros s _. destruct (if flag f LEFT then _ else _) as [w' l].
    do 3 (apply runs_do; [done|]). apply runs_inc. by apply (peek_cons _ (ch "s")); [apply Z.eqb_eq|]. }
  destruct (peek fmt =? ch "o") eqn:E3; [by apply (runs_number _ _ (ch "o"))|].
  destruct (peek fmt =? ch "p") eqn:E4; [destruct (w =? -1); by apply (runs_number _ _ (ch "p"))|].
  destruct (peek fmt =? ch "x") eqn:E5; [by apply (runs_number _ _ (ch "x"))|].
  destruct (peek fmt =? ch "X") eqn:E6; [by apply (runs_number _ _ (ch "X"))|].
  destruct (_ || _) eqn:E7.
  { apply orb_true_iff in E7 as [E7|E7]; [by apply (runs_number _ _ (ch "d"))|by apply (runs_number _ _ (ch "i"))]. }
  destruct (peek fmt =? ch "u") eqn:E8; [by apply (runs_number _ _ (ch "u"))|].
  destruct (peek fmt =? ch "n") eqn:E9.
  { destruct ints; [destruct (plain_peek fmt _ Hp E9); by right|]. apply (runs_weaken _ 0 1 (fun l => l `suffix_of` fmt)); [|lia|done].
    apply (runs_bind _ 0 0 _ _ _ _ runs_va_pointer). intros q _. apply runs_do; [done|]. apply runs_inc. by apply (peek_cons _ (ch "n")); [apply Z.eqb_eq|]. }
  apply (runs_weaken _ 0 1 (fun l => l `suffix_of` fmt)); [|lia|done].
  destruct (negb _); cbn [when]; [apply runs_do; [done|]|rewrite ret_bind].
  all: destruct (istrue (peek fmt)) eqn:E; [apply runs_do; [done|]; apply runs_inc; by apply (peek_cons _ (peek fmt))|by apply runs_ret].
Qed.

Lemma runs_conversion ints fmt : Forall (plain ints) fmt -> runs ints 3 (fun l => l `suffix_of` fmt) (conversion fmt).
Proof.
  intros Hp. unfold conversion. pose proof (read_flags_suffix fmt 0) as Hf. destruct (read_flags fmt 0) as [f l]. cbn [snd] in Hf.
  apply (runs_bind _ 1 2 _ _ _ _ (runs_width _ l f)). intros [[w f'] l1] H1. cbn [snd] in H1.
  apply (runs_bind _ 1 1 _ _ _ _ (runs_precision _ l1)). intros [p l2] H2. cbn [snd] in H2.
  apply (runs_bind _ 0 1 _ _ _ _ (runs_qualifier _ l2)). intros l3 H3.
  assert (l3 `suffix_of` fmt) as H by (do 3 (etrans; [eassumption|]); done).
  apply (runs_weaken _ 1 1 (fun x => x `suffix_of` l3)); [by apply runs_convert; eapply plain_suffix|lia|]. intros l4 H4. by etrans.
Qed.

Lemma runs_format ints fuel fmt :
  Forall (plain ints) fmt -> (length fmt <= fuel)%nat -> runs ints (3 * length fmt) (fun _ => True) (format fuel fmt).
Proof.
  revert fmt. induction fuel as [|fuel IH]; intros [|c fmt] Hp Hl; cbn [length] in Hl; try lia; try by apply runs_ret.
  cbn [format]. apply Forall_cons in Hp as [_ Hp]. destruct (negb (c =? ch "%")).
  - apply runs_do; [done|]. apply (runs_weaken _ (3 * length fmt) _ (fun _ => True)); [apply IH; [done|lia]|cbn [length]; lia|done].
  - replace (3 * length (c :: fmt))%nat with (3 + 3 * length fmt)%nat by (cbn [length]; lia).
    apply (runs_bind _ _ _ _ _ _ _ (runs_conversion _ fmt Hp)). intros l Hs. pose proof (suffix_length _ _ Hs).
    apply (runs_weaken _ (3 * length l) _ (fun _ => True)); [|lia|done]. apply IH; [by eapply plain_suffix|lia].
Qed.

(** Characters that are not the percent sign are copied. *)
Lemma format_text text rest fuel o a st :
  Forall (fun c => c <> ch "%") text ->
  format (length text + fuel) (text ++ rest) (mk_vs o a st) = format fuel rest (mk_vs (o ++ text) a st).
Proof.
  revert o. induction text as [|c text IH]; intros o Ht; [cbn; by rewrite app_nil_r|]. apply Forall_cons in Ht as [Hc Ht].
  cbn [length Nat.add format app]. rewrite (proj2 (Z.eqb_neq _ _) Hc). cbn [negb]. unfold emit. rewrite bind_modify.
  change ((mk_vs o a st) <| out ::= fun o => o ++ [c] |>) with (mk_vs (o ++ [c]) a st). rewrite IH by done. by rewrite <- (assoc_L (++)).
Qed.

(** C37: [vsprintf] ends for every format and never reads past the NUL of the format, the percent
    sign at the end of a format included: it returns, unless an argument that the format asks
    for is missing or of another kind.  So it returns when the format asks for no string and no
    pointer and there are integers enough, three for each character being always enough; a format
    without a percent sign is copied, and a percent sign at the end is printed. *)
Theorem vsprintf_ends fmt s :
  match fst (vsprintf fmt s) with Ret _ => True | Undef w => String.prefix "va_arg" w = true | _ => False end /\
  (Forall (fun c => c <> ch "s" /\ c <> ch "n") fmt -> Forall is_int (args s) -> (3 * length fmt <= length (args s))%nat ->
   exists n s', vsprintf fmt s = (Ret n, s')) /\
  (forall a, Forall (fun c => c <> ch "%") fmt ->
   vsprintf fmt (mk_vs [] a []) = (Ret (Z.of_nat (length fmt)), mk_vs fmt a []) /\
   vsprintf (fmt ++ [ch "%"]) (mk_vs [] a []) = (Ret (Z.of_nat (length fmt) + 1), mk_vs (fmt ++ [ch "%"]) a [])).
Proof.
  unfold vsprintf. split; [|split].
  - pose proof (runs_format false (length fmt) fmt ltac:(by apply Forall_true) (le_n _) s 0%nat ltac:(done)) as H.
    unfold mbind, M_bind. destruct (format _ _ s) as [[a| | | |] s']; try done. by destruct H.
  - intros Hp Ha Hl. assert (Forall (plain true) fmt) as Hp' by (eapply Forall_impl; [exact Hp|by intros c H _]).
    pose proof (runs_format true (length fmt) fmt Hp' (le_n _) s 0%nat ltac:(split; [done|lia])) as H.
    unfold mbind, M_bind. destruct (format _ _ s) as [[a| | | |] s']; try done; [|by destruct H]. by eexists _, _.
  - intros a Ht. pose proof (format_text fmt [] 0 [] a [] Ht) as E1. rewrite app_nil_r, Nat.add_0_r in E1. split; [by mrun E1|].
    pose proof (format_text fmt [ch "%"] 1 [] a [] Ht) as E2. rewrite length_app. cbn [length].
    assert (format 1 [ch "%"] (mk_vs fmt a []) = (Ret tt, mk_vs (fmt ++ [ch "%"]) a [])) as E3 by reflexivity.
    rewrite app_nil_l, E3 in E2. mrun E2. rewrite bind_get. cbn [out]. rewrite length_app, Nat2Z.inj_add. reflexivity.
Qed.

(** ** The star *)

(** A field width given by a star does not work: the star is not skipped, so the
    conversion character is the star itself; the width is taken from the arguments, the
    format is copied to the output and the number is never printed. *)
Lemma star_width_broken w v :
  vsprintf (str_codes "%*d") (mk_vs [] [AInt w; AInt v] []) =
    (Ret 3, mk_vs (str_codes "%*d") [AInt v] []).
Proof.
  unfold vsprintf. change (length (str_codes "%*d")) with 3%nat.
  assert (conversion (str_codes "*d") (mk_vs [] [AInt w; AInt v] [])
    = (Ret (str_codes "d"), mk_vs (str_codes "%*") [AInt v] [])) as Hc.
  { unfold conversion. change (read_flags (str_codes "*d") 0) with (0, str_codes "*d"). cbv beta iota.
    unfold read_width. change (is_digit (peek (str_codes "*d"))) with false.
    change (peek (str_codes "*d") =? ch "*") with true. cbv iota.
    rewrite bind_assoc. unfold va_int, va_arg. rewrite !bind_assoc, bind_get. cbn [args].
    rewrite !bind_assoc, bind_modify, !bind_ret. destruct (s32 w <? 0); reflexivity. }
  assert (format 3 (str_codes "%*d") (mk_vs [] [AInt w; AInt v] []) = (Ret tt, mk_vs (str_codes "%*d") [AInt v] [])) as Hf.
  { change (format 3 (str_codes "%*d")) with (rest ← conversion (str_codes "*d"); format 2 rest). by mrun Hc. }
  by mrun Hf.
Qed.

(** ** Examples *)

Example vsprintf_example :
  out (snd (vsprintf (str_codes "%5d|%-4x|%s%c") (mk_vs [] [AInt (-42); AInt 255; AStr (str_codes "ab"); AInt 33] [])))
  = str_codes "  -42|ff  |ab!".
Proof. vm_compute. reflexivity. Qed.

Lemma number_ok_witness : exists l, number (-255) 16 8 4 (SIGN + SPECIAL) = (mret (Some l) : M vs _) /\ (8 <= length l)%nat.
Proof.
  destruct (number_ok (-255) 16 8 4 (SIGN + SPECIAL)) as (left & zeros & ds & right & Hr & _ & _ & _ & _ & Hw & _).
  1-2: vm_compute; intuition congruence.
  eexists. split; [exact Hr|]. rewrite !length_app, length_replicate. lia.
Defined.

Lemma vsprintf_decimal_witness :
  exists l, fst (vsprintf (str_codes "%d") (mk_vs [] [AInt (-2147483648)] [])) = Ret (Z.of_nat (length l)) /\
    read_int l = -2147483648.
Proof.
  destruct (vsprintf_decimal (-2147483648)) as (l & Hr & Hl & _); [vm_compute; intuition congruence|].
  exists l. rewrite Hr. split; [reflexivity|exact Hl].
Defined.

Lemma vsprintf_ends_witness :
  (exists n s', vsprintf (str_codes "%5d %-8lx%") (mk_vs [] (replicate 60 (AInt 7)) []) = (Ret n, s')) /\
  fst (vsprintf (str_codes "ok%") (mk_vs [] [] [])) = Ret 3.
Proof.
  split.
  - apply (vsprintf_ends (str_codes "%5d %-8lx%") (mk_vs [] (replicate 60 (AInt 7)) [])).
    + vm_compute. repeat constructor; discriminate.
    + by repeat constructor.
    + vm_compute. lia.
  - destruct (vsprintf_ends (str_codes "ok") (mk_vs [] [] [])) as (_ & _ & H). destruct (H []) as [_ E]; [vm_compute; repeat constructor; discriminate|].
    exact (f_equal fst E).
Defined.
