(* ===== verification/FsDefs.v ===== *)
(** Data of the file system ([include/linux/fs.h], [include/sys/stat.h]) and the state
    that its files share.

    Buffer heads, inodes, super blocks and open files are named by their index; a null
    pointer is [None].  The contents of a buffer are the bytes [b_data].  The current
    task's part of its structure that the file system uses is [proc].  [null_prev] is the
    word that a write through a null buffer pointer's field [b_prev] changes, the sixth
    entry of the page directory at address 20. *)

From S2P Require Import Prelude.

(** ** Constants *)

Definition READ : Z := 0.
Definition WRITE : Z := 1.
Definition READA : Z := 2.
Definition WRITEA : Z := 3.

Definition MAJOR (a : Z) : Z := Z.shiftr a 8.
Definition MINOR (a : Z) : Z := Z.land a 0xff.

Definition NAME_LEN : Z := 14.
Definition ROOT_INO : Z := 1.
Definition I_MAP_SLOTS : Z := 8.
Definition Z_MAP_SLOTS : Z := 8.
Definition SUPER_MAGIC : Z := 0x137F.
Definition NR_INODE : Z := 32.
Definition NR_FILE : Z := 64.
Definition NR_SUPER : Z := 8.
Definition NR_HASH : Z := 307.
Definition BLOCK_SIZE : Z := 1024.
Definition INODES_PER_BLOCK : Z := 32.
Definition DIR_ENTRIES_PER_BLOCK : Z := 64.

Definition EPERM : Z := 1.
Definition ENOENT : Z := 2.
Definition EIO : Z := 5.
Definition EBADF : Z := 9.
Definition EACCES : Z := 13.
Definition ENOTBLK : Z := 15.
Definition EBUSY : Z := 16.
Definition EEXIST : Z := 17.
Definition EXDEV : Z := 18.
Definition ENODEV : Z := 19.
Definition ENOTDIR : Z := 20.
Definition EISDIR : Z := 21.
Definition EINVAL : Z := 22.
Definition ENFILE : Z := 23.
Definition EMFILE : Z := 24.
Definition ENOTTY : Z := 25.
Definition ENOSPC : Z := 28.
Definition ESPIPE : Z := 29.
Definition ENOSYS : Z := 38.
Definition ENOTEMPTY : Z := 39.
Definition ERROR : Z := 99.

Definition O_ACCMODE : Z := 3.
Definition O_WRONLY : Z := 1.
Definition O_CREAT : Z := 0x40.
Definition O_EXCL : Z := 0x80.
Definition O_TRUNC : Z := 0x200.
Definition O_APPEND : Z := 0x400.
Definition O_NONBLOCK : Z := 0x800.

Definition NR_OPEN : Z := 20.
Definition PAGE_SIZE : Z := 4096.
Definition SIGPIPE : Z := 13.

Definition S_IFMT : Z := 0xf000.
Definition S_IFREG : Z := 0x8000.
Definition S_IFBLK : Z := 0x6000.
Definition S_IFDIR : Z := 0x4000.
Definition S_IFCHR : Z := 0x2000.
Definition S_IFIFO : Z := 0x1000.
Definition S_ISVTX : Z := 0x200.
Definition S_ISREG (m : Z) : bool := Z.land m S_IFMT =? S_IFREG.
Definition S_ISDIR (m : Z) : bool := Z.land m S_IFMT =? S_IFDIR.
Definition S_ISCHR (m : Z) : bool := Z.land m S_IFMT =? S_IFCHR.
Definition S_ISBLK (m : Z) : bool := Z.land m S_IFMT =? S_IFBLK.
Definition S_ISFIFO (m : Z) : bool := Z.land m S_IFMT =? S_IFIFO.

(** ** Records *)

Record buffer_head := mk_bh {
  b_data : list Z; b_blocknr : Z; b_dev : Z; b_uptodate : Z; b_dirt : Z; b_count : Z; b_lock : Z;
  b_prev : option Z; b_next : option Z; b_prev_free : option Z; b_next_free : option Z
}.

#[export] Instance eta_bh : Eta buffer_head := fun b =>
  mk_bh (b_data b) (b_blocknr b) (b_dev b) (b_uptodate b) (b_dirt b) (b_count b) (b_lock b)
    (b_prev b) (b_next b) (b_prev_free b) (b_next_free b).

(** [struct m_inode]; the first seven fields are those of [struct d_inode]. *)
Record m_inode := mk_inode {
  i_mode : Z; i_uid : Z; i_size : Z; i_mtime : Z; i_gid : Z; i_nlinks : Z; i_zone : list Z;
  i_atime : Z; i_ctime : Z; i_dev : Z; i_num : Z; i_count : Z; i_lock : Z; i_dirt : Z; i_pipe : Z;
  i_mount : Z; i_seek : Z; i_update : Z
}.

#[export] Instance eta_inode : Eta m_inode := fun i =>
  mk_inode (i_mode i) (i_uid i) (i_size i) (i_mtime i) (i_gid i) (i_nlinks i) (i_zone i)
    (i_atime i) (i_ctime i) (i_dev i) (i_num i) (i_count i) (i_lock i) (i_dirt i) (i_pipe i)
    (i_mount i) (i_seek i) (i_update i).

(** [memset(inode, 0, sizeof( *inode))] *)
Definition zero_inode : m_inode := mk_inode 0 0 0 0 0 0 (replicate 9 0) 0 0 0 0 0 0 0 0 0 0 0.

Record file := mk_file { f_mode : Z; f_flags : Z; f_count : Z; f_inode : option Z; f_pos : Z }.

#[export] Instance eta_file : Eta file := fun f =>
  mk_file (f_mode f) (f_flags f) (f_count f) (f_inode f) (f_pos f).

Record super_block := mk_super {
  s_ninodes : Z; s_nzones : Z; s_imap_blocks : Z; s_zmap_blocks : Z; s_firstdatazone : Z;
  s_log_zone_size : Z; s_max_size : Z; s_magic : Z;
  s_imap : list (option Z); s_zmap : list (option Z); s_dev : Z; s_isup : option Z; s_imount : option Z;
  s_time : Z; s_lock : Z; s_rd_only : Z; s_dirt : Z
}.

#[export] Instance eta_super : Eta super_block := fun s =>
  mk_super (s_ninodes s) (s_nzones s) (s_imap_blocks s) (s_zmap_blocks s) (s_firstdatazone s)
    (s_log_zone_size s) (s_max_size s) (s_magic s) (s_imap s) (s_zmap s) (s_dev s) (s_isup s) (s_imount s)
    (s_time s) (s_lock s) (s_rd_only s) (s_dirt s).

(** What the file system reads and writes of the current task. *)
Record proc := mk_proc {
  p_uid : Z; p_euid : Z; p_gid : Z; p_egid : Z; p_umask : Z; p_signal : Z; p_leader : Z; p_tty : Z; p_pgrp : Z;
  p_pwd : option Z; p_root : option Z; p_close_on_exec : Z; p_filp : list (option Z)
}.

#[export] Instance eta_proc : Eta proc := fun p =>
  mk_proc (p_uid p) (p_euid p) (p_gid p) (p_egid p) (p_umask p) (p_signal p) (p_leader p) (p_tty p) (p_pgrp p)
    (p_pwd p) (p_root p) (p_close_on_exec p) (p_filp p).

(** The wait queues that are woken. *)
Inductive fs_queue := QBuffer | QInode (i : Z) | QSuper (s : Z).

Record fs := mk_fs {
  bufs : gmap Z buffer_head;
  block_addr : gmap Z Z;
  nr_buffers : Z;
  hash_table : list (option Z);
  free_list : option Z;
  null_prev : option Z;
  inode_table : list m_inode;
  last_inode : Z;
  supers : list super_block;
  ROOT_DEV : Z;
  file_table : list file;
  current : proc;
  fs_time : Z;
  pages : gmap Z (list Z);
  umem : gmap Z Z;
  disk : gmap (Z * Z) (list Z);
  fs_woken : list fs_queue;
  fs_log : list string
}.

#[export] Instance eta_fs : Eta fs := fun s =>
  mk_fs (bufs s) (block_addr s) (nr_buffers s) (hash_table s) (free_list s) (null_prev s) (inode_table s) (last_inode s)
    (supers s) (ROOT_DEV s) (file_table s) (current s) (fs_time s) (pages s) (umem s) (disk s) (fs_woken s)
    (fs_log s).

(** ** What the file system uses of the rest of the kernel

    [env] is what other tasks and interrupts do while a task sleeps, [fuel] how many rounds
    an unbounded loop is followed, [stat_pad] what the kernel stack holds where [struct stat]
    has padding. *)
Class FsEnv := {
  env : fs -> fs;
  fuel : nat;
  ll_rw_block : Z -> Z -> M fs unit;
  floppy_change : Z -> M fs Z;
  get_free_page : M fs Z;
  free_page : Z -> M fs unit;
  verify_area : Z -> Z -> M fs unit;
  tty_read : Z -> Z -> Z -> M fs Z;
  tty_write : Z -> Z -> Z -> M fs Z;
  tty_ioctl : Z -> Z -> Z -> M fs Z;
  set_tty_pgrp : Z -> Z -> M fs unit;
  stat_pad : list Z;
  inb : Z -> M fs Z;
  outb : Z -> Z -> M fs unit
}.

Definition sleep `{FsEnv} : M fs unit := modify env.
Definition wake_up (q : fs_queue) : M fs unit := modify (fun s => s <| fs_woken ::= cons q |>).
Definition printk (m : string) : M fs unit := modify (fun s => s <| fs_log ::= cons m |>).

(** ** Access *)

Definition get_bh (b : Z) : M fs buffer_head := s ← get; of_option "buffer_head" (bufs s !! b).
Definition upd_bh (b : Z) (f : buffer_head -> buffer_head) : M fs unit :=
  v ← get_bh b; modify (fun s => s <| bufs ::= <[b := f v]> |>).

Definition get_inode (i : Z) : M fs m_inode :=
  s ← get; of_option "inode" (if i <? 0 then None else inode_table s !! Z.to_nat i).
Definition upd_inode (i : Z) (f : m_inode -> m_inode) : M fs unit :=
  v ← get_inode i; modify (fun s => s <| inode_table ::= <[Z.to_nat i := f v]> |>).

Definition get_sb (i : Z) : M fs super_block :=
  s ← get; of_option "super_block" (if i <? 0 then None else supers s !! Z.to_nat i).
Definition upd_sb (i : Z) (f : super_block -> super_block) : M fs unit :=
  v ← get_sb i; modify (fun s => s <| supers ::= <[Z.to_nat i := f v]> |>).

Definition get_file (i : Z) : M fs file :=
  s ← get; of_option "file" (if i <? 0 then None else file_table s !! Z.to_nat i).
Definition upd_file (i : Z) (f : file -> file) : M fs unit :=
  v ← get_file i; modify (fun s => s <| file_table ::= <[Z.to_nat i := f v]> |>).

Definition upd_current (f : proc -> proc) : M fs unit := modify (fun s => s <| current ::= f |>).

(** [i_zone[k]] *)
Definition zone (i : m_inode) (k : Z) : Z := nth (Z.to_nat k) (i_zone i) 0.
Definition set_zone (k v : Z) (i : m_inode) : m_inode := i <| i_zone ::= <[Z.to_nat k := u16 v]> |>.

(** [((unsigned short * ) data)[k]] *)
Definition ld16 (data : list Z) (k : Z) : Z :=
  nth (Z.to_nat (2 * k)) data 0 + 256 * nth (Z.to_nat (2 * k + 1)) data 0.
Definition st16 (k v : Z) (data : list Z) : list Z :=
  <[Z.to_nat (2 * k + 1) := u8 (Z.shiftr v 8)]> (<[Z.to_nat (2 * k) := u8 v]> data).
Definition ld32 (data : list Z) (k : Z) : Z := ld16 data k + 65536 * ld16 data (k + 1).
Definition st32 (k v : Z) (data : list Z) : list Z := st16 (k + 1) (Z.shiftr v 16) (st16 k v data).

(** User memory. *)
Definition put_fs_byte (v addr : Z) : M fs unit := modify (fun s => s <| umem ::= <[addr := u8 v]> |>).
Definition get_fs_byte (addr : Z) : M fs Z := gets (fun s => default 0 (umem s !! addr)).
Definition put_fs_long (v addr : Z) : M fs unit :=
  put_fs_byte v addr;; put_fs_byte (Z.shiftr v 8) (addr + 1);;
  put_fs_byte (Z.shiftr v 16) (addr + 2);; put_fs_byte (Z.shiftr v 24) (addr + 3).

Definition get_fs_long (addr : Z) : M fs Z :=
  a ← get_fs_byte addr; b ← get_fs_byte (addr + 1); c ← get_fs_byte (addr + 2); d ← get_fs_byte (addr + 3);
  mret (a + 256 * b + 65536 * c + 16777216 * d).

(** [while (chars-- > 0) put_fs_byte( *p++, buf++)] and the other way round. *)
Fixpoint put_fs_bytes (l : list Z) (addr : Z) : M fs unit :=
  match l with [] => mret tt | b :: l => put_fs_byte b addr;; put_fs_bytes l (addr + 1) end.
Fixpoint get_fs_bytes (n : nat) (addr : Z) : M fs (list Z) :=
  match n with O => mret [] | S n => b ← get_fs_byte addr; l ← get_fs_bytes n (addr + 1); mret (b :: l) end.

(** [current->filp[fd]] *)
Definition get_filp (fd : Z) : M fs (option Z) :=
  gets (fun s => if fd <? 0 then None else default None (p_filp (current s) !! Z.to_nat fd)).
Definition set_filp (fd : Z) (f : option Z) : M fs unit :=
  upd_current (fun c => c <| p_filp ::= <[Z.to_nat fd := f]> |>).

(** [suser()] *)
Definition suser : M fs bool := gets (fun s => p_euid (current s) =? 0).
