(* ===== verification/BlkReq.v ===== *)
(** Requests to block devices ([linux-0.11/kernel/blk_drv/ll_rw_blk.c] and
    [kernel/blk_drv/blk.h]).

    Requests and buffer heads are named by their index in their arrays.  The device's own
    [request_fn] is a parameter for each major number, and [env] is what the rest of the
    system, the device's interrupts included, does while the caller sleeps.  A [wake_up] is
    recorded in [woken]. *)

From S2P Require Import Prelude FsDefs.

Definition NR_BLK_DEV : Z := 7.
Definition NR_REQUEST : Z := 32.

(** The part of a buffer head that requests work on. *)
Record buffer := mk_buffer {
  b_data : Z; b_blocknr : Z; b_dev : Z; b_uptodate : Z; b_dirt : Z; b_lock : Z
}.

#[export] Instance eta_buffer : Eta buffer := fun b =>
  mk_buffer (b_data b) (b_blocknr b) (b_dev b) (b_uptodate b) (b_dirt b) (b_lock b).

Record request := mk_request {
  r_dev : Z; r_cmd : Z; r_errors : Z; r_sector : Z; r_nr_sectors : Z; r_buffer : Z;
  r_waiting : option Z; r_bh : option Z; r_next : option nat
}.

#[export] Instance eta_request : Eta request := fun r =>
  mk_request (r_dev r) (r_cmd r) (r_errors r) (r_sector r) (r_nr_sectors r) (r_buffer r)
    (r_waiting r) (r_bh r) (r_next r).

(** The wait queues that are woken. *)
Inductive wait_on := WBuffer (bh : Z) | WWaiting (req : nat) | WRequest.

Record blk := mk_blk {
  reqs : list request;
  current_request : gmap Z nat;
  bufs : gmap Z buffer;
  woken : list wait_on;
  messages : list string
}.

#[export] Instance eta_blk : Eta blk := fun s =>
  mk_blk (reqs s) (current_request s) (bufs s) (woken s) (messages s).

(** ** Access *)

Definition get_req (i : nat) : M blk request := s ← get; of_option "request" (reqs s !! i).
Definition upd_req (i : nat) (f : request -> request) : M blk unit :=
  r ← get_req i; modify (fun s => s <| reqs ::= <[i := f r]> |>).
Definition get_buf (b : Z) : M blk buffer := s ← get; of_option "buffer" (bufs s !! b).
Definition upd_buf (b : Z) (f : buffer -> buffer) : M blk unit :=
  v ← get_buf b; modify (fun s => s <| bufs ::= <[b := f v]> |>).
Definition wake (q : wait_on) : M blk unit := modify (fun s => s <| woken ::= cons q |>).
Definition message (m : string) : M blk unit := modify (fun s => s <| messages ::= cons m |>).

(** [IN_ORDER(s1, s2)]: reads before writes, then by device and sector. *)
Definition IN_ORDER (s1 s2 : request) : bool :=
  (r_cmd s1 <? r_cmd s2) ||
  ((r_cmd s1 =? r_cmd s2) &&
   ((r_dev s1 <? r_dev s2) || ((r_dev s1 =? r_dev s2) && (r_sector s1 <? r_sector s2)))).

(** ** The memory of buffers, by bytes *)

Fixpoint store_mem (a : Z) (l : list Z) (m : gmap Z Z) : gmap Z Z :=
  match l with [] => m | b :: l => store_mem (a + 1) l (<[a := b]> m) end.

Definition load_byte (m : gmap Z Z) (a : Z) : Z := default 0 (m !! a).
Section Requests.
Context (request_fn : Z -> option (M blk unit)) (env : blk -> blk).

Fixpoint lock_buffer (fuel : nat) (bh : Z) : M blk unit :=
  match fuel with
  | O => nofuel
  | S fuel =>
      b ← get_buf bh;
      if istrue (b_lock b) then modify env;; lock_buffer fuel bh
      else upd_buf bh (fun b => b <| b_lock := 1 |>)
  end.

Definition unlock_buffer (bh : Z) : M blk unit :=
  b ← get_buf bh;
  when (negb (istrue (b_lock b))) (message "ll_rw_block.c: buffer not locked");;
  upd_buf bh (fun b => b <| b_lock := 0 |>);;
  wake (WBuffer bh).

(** The loop of [add_request] from the request [tmp]: the place after which the new
    request goes.  A queue of distinct requests is never longer than the array. *)
Fixpoint find_place (fuel : nat) (tmp : nat) (req : request) : M blk nat :=
  match fuel with
  | O => nofuel
  | S fuel =>
      t ← get_req tmp;
      match r_next t with
      | None => mret tmp
      | Some n =>
          nx ← get_req n;
          if (IN_ORDER t req || negb (IN_ORDER t nx)) && IN_ORDER req nx then mret tmp
          else find_place fuel n req
      end
  end.

Definition add_request (major : Z) (req : nat) : M blk unit :=
  upd_req req (fun r => r <| r_next := None |>);;
  r ← get_req req;
  (match r_bh r with
   | Some bh => upd_buf bh (fun b => b <| b_dirt := 0 |>)
   | None => mret tt
   end);;
  s ← get;
  match current_request s !! major with
  | None =>
      modify (fun s => s <| current_request ::= <[major := req]> |>);;
      match request_fn major with Some f => f | None => undef "request_fn" end
  | Some head =>
      tmp ← find_place (length (reqs s)) head r;
      t ← get_req tmp;
      upd_req req (fun r => r <| r_next := r_next t |>);;
      upd_req tmp (fun t => t <| r_next := Some req |>)
  end.

(** [while (--req >= request) if (req->dev < 0) break]: the last free request among the
    first [n]. *)
Fixpoint last_free (l : list request) (n : nat) : option nat :=
  match n with
  | O => None
  | S n =>
      match l !! n with
      | Some r => if r_dev r <? 0 then Some n else last_free l n
      | None => last_free l n
      end
  end.

(** From the label [repeat:], at most [fuel] rounds. *)
Fixpoint take_request (fuel : nat) (major rw : Z) (rw_ahead : bool) (bh : Z) : M blk unit :=
  match fuel with
  | O => nofuel
  | S fuel =>
      s ← get;
      let limit := if rw =? READ then NR_REQUEST else Z.quot (NR_REQUEST * 2) 3 in
      match last_free (reqs s) (Z.to_nat limit) with
      | None =>
          if rw_ahead then unlock_buffer bh
          else modify env;; take_request fuel major rw rw_ahead bh
      | Some req =>
          b ← get_buf bh;
          upd_req req (fun _ => mk_request (b_dev b) rw 0 (u32 (Z.shiftl (b_blocknr b) 1)) 2 (b_data b)
                                  None (Some bh) None);;
          add_request major req
      end
  end.

Definition make_request (fuel : nat) (major rw bh : Z) : M blk unit :=
  let rw_ahead := (rw =? READA) || (rw =? WRITEA) in
  b ← get_buf bh;
  if rw_ahead && istrue (b_lock b) then mret tt else
  let rw := if rw_ahead then (if rw =? READA then READ else WRITE) else rw in
  if negb (rw =? READ) && negb (rw =? WRITE) then panic "Bad block dev command, must be R/W/RA/WA" else
  lock_buffer fuel bh;;
  b ← get_buf bh;
  if ((rw =? WRITE) && negb (istrue (b_dirt b))) || ((rw =? READ) && istrue (b_uptodate b)) then
    unlock_buffer bh
  else take_request fuel major rw rw_ahead bh.

Definition ll_rw_block (fuel : nat) (rw bh : Z) : M blk unit :=
  b ← get_buf bh;
  let major := MAJOR (b_dev b) in
  if (NR_BLK_DEV <=? major) || negb (bool_decide (is_Some (request_fn major))) then
    message "Trying to read nonexistent block-device"
  else make_request fuel major rw bh.

(** [end_request] of the driver for a major number, called when its current request is
    done.  Its [DEVICE_OFF] is empty for the hard disk and the ram disk; the floppy driver has it
    in [fd_end_request]. *)
Definition end_request (major uptodate : Z) : M blk unit :=
  s ← get;
  i ← of_option "CURRENT" (current_request s !! major);
  r ← get_req i;
  (match r_bh r with
   | Some bh =>
       upd_buf bh (fun b => b <| b_uptodate := u8 uptodate |>);;
       unlock_buffer bh
   | None => mret tt
   end);;
  when (negb (istrue uptodate))
    (message "I/O error";;
     bh ← of_option "CURRENT->bh" (r_bh r);
     get_buf bh;;
     message "dev, block");;
  wake (WWaiting i);;
  wake WRequest;;
  upd_req i (fun r => r <| r_dev := -1 |>);;
  r ← get_req i;
  modify (fun s => s <| current_request ::= match r_next r with
                                            | Some n => <[major := n]>
                                            | None => delete major
                                            end |>).
End Requests.

(** [INIT_REQUEST] of the driver for a major number, from its label [repeat:] on: [None] when the
    queue is empty, otherwise [CURRENT]. *)
Definition INIT_REQUEST (major : Z) : M blk (option request) :=
  s ← get;
  match current_request s !! major with
  | None => mret None
  | Some i =>
      r ← get_req i;
      if negb (MAJOR (r_dev r) =? major) then panic "request list destroyed" else
      match r_bh r with
      | None => mret (Some r)
      | Some bh =>
          b ← get_buf bh;
          if negb (istrue (b_lock b)) then panic "block not locked" else mret (Some r)
      end
  end.

(** [CURRENT], which must not be null, and a change of it. *)
Definition CURRENT (major : Z) : M blk request :=
  s ← get; i ← of_option "CURRENT" (current_request s !! major); get_req i.
Definition upd_CURRENT (major : Z) (f : request -> request) : M blk unit :=
  s ← get; i ← of_option "CURRENT" (current_request s !! major); upd_req i f.

Definition blk_dev_init : M blk unit :=
  for_each (seq 0 (Z.to_nat NR_REQUEST)) (fun i =>
    upd_req i (fun r => r <| r_dev := -1 |>);;
    upd_req i (fun r => r <| r_next := None |>)).
