(* ===== verification/BlkReqSpec.v ===== *)
(** Properties of the request queues: the elevator keeps a queue in at most two ascending
    runs, and the array code implements the insertion. *)

From Stdlib Require Import Sorted.
From S2P Require Import Prelude FsDefs BlkReq.

(** ** The elevator on lists of requests *)

Section Elevator.
Context (ord : nat -> nat -> bool).

(** Where the loop of [add_request] puts [x] in a queue. *)
Fixpoint elev (x : nat) (l : list nat) : list nat :=
  match l with
  | [] => [x]
  | t :: l' =>
      match l' with
      | [] => [t; x]
      | nx :: _ => if (ord t x || negb (ord t nx)) && ord x nx then t :: x :: l' else t :: elev x l'
      end
  end.

Definition up (i j : nat) : Prop := ord i j = true.

Definition two_runs (l : list nat) : Prop :=
  exists l1 l2, l = l1 ++ l2 /\ Sorted up l1 /\ Sorted up l2.

Ltac sorted := repeat first [assumption | apply Sorted_cons | apply HdRel_cons | apply Sorted_nil | apply HdRel_nil].

Lemma elev_step x t u l :
  elev x (t :: u :: l) = if (ord t x || negb (ord t u)) && ord x u then t :: x :: u :: l else t :: elev x (u :: l).
Proof. reflexivity. Qed.

Lemma elev_cons x t l : exists l', elev x (t :: l) = t :: l'.
Proof. destruct l as [|u l]; cbn; [by eexists|]. destruct (_ && _); by eexists. Qed.

Lemma elev_perm x l : elev x l ≡ₚ x :: l.
Proof.
  induction l as [|t l IH]; [done|]. destruct l as [|u l]; [apply Permutation_swap|]. rewrite elev_step.
  destruct (_ && _); [apply Permutation_swap|]. rewrite IH. apply Permutation_swap.
Qed.

Context (x : nat) (l0 : list nat).
Context (total : forall t, t ∈ l0 -> ord x t = negb (ord t x)).

(** Once the queue has gone past a smaller request the rest stays sorted. *)
Lemma elev_sorted t l : (forall i, i ∈ t :: l -> i ∈ l0) -> Sorted up (t :: l) -> up t x -> Sorted up (elev x (t :: l)).
Proof.
  revert t. induction l as [|u l IH]; intros t Hin Hs Ht; [cbn; sorted|]. rewrite elev_step.
  apply Sorted_inv in Hs as [Hs Htu]. apply HdRel_inv in Htu. rewrite Ht. cbn [orb andb].
  assert (u ∈ l0) as Hu by (apply Hin; right; left).
  destruct (ord x u) eqn:Exu; [sorted; by apply Sorted_inv in Hs as []|].
  assert (up u x) as Hux by (unfold up; pose proof (total u Hu) as E; rewrite Exu in E; by destruct (ord u x)).
  destruct (elev_cons x u l) as (l' & E). constructor.
  - apply IH; [|done|done]. intros i Hi. apply Hin. by right.
  - rewrite E. by constructor.
Qed.

Lemma elev_descent l1 l2 :
  (forall i, i ∈ l1 ++ l2 -> i ∈ l0) -> l1 <> [] -> Sorted up l1 -> Sorted up l2 ->
  (forall t h, last l1 = Some t -> head l2 = Some h -> ord t h = false) ->
  two_runs (elev x (l1 ++ l2)).
Proof.
  revert l2. induction l1 as [|t l1 IH]; intros l2 Hin Hne H1 H2 Hd; [done|]. destruct l1 as [|u l1].
  - destruct l2 as [|h l2]; cbn [app]; [exists [t], [x]; split; [done|split; sorted]|].
    rewrite elev_step, (Hd t h eq_refl eq_refl). cbn [negb]. rewrite orb_true_r. cbn [andb].
    destruct (ord x h) eqn:Exh.
    + exists [t], (x :: h :: l2). split; [done|]. split; sorted.
    + exists [t], (elev x (h :: l2)). split; [done|]. split; [sorted|].
      apply elev_sorted; [intros i Hi; apply Hin; by right|done|].
      unfold up. pose proof (total h (Hin h ltac:(right; left))) as E. rewrite Exh in E. by destruct (ord h x).
  - apply Sorted_inv in H1 as [H1 Htu]. apply HdRel_inv in Htu. cbn [app]. unfold up in Htu. rewrite elev_step, Htu.
    cbn [negb]. rewrite orb_false_r. destruct (ord t x && ord x u) eqn:E.
    + apply andb_true_iff in E as [Etx Exu]. exists (t :: x :: u :: l1), l2. split; [done|]. split; [|done].
      apply Sorted_inv in H1 as [H1 H1']. sorted.
    + destruct (IH l2) as (m1 & m2 & Em & Hm1 & Hm2); [intros i Hi; apply Hin; by right|done|done|done|done|].
      change (u :: l1 ++ l2) with ((u :: l1) ++ l2). rewrite Em.
      destruct (elev_cons x u (l1 ++ l2)) as (l' & El'). change (u :: l1 ++ l2) with ((u :: l1) ++ l2) in El'.
      rewrite Em in El'. destruct m1 as [|u' m1]; cbn in El'.
      * subst m2. exists (t :: u :: l'), []. split; [by rewrite app_nil_r|]. split; [|constructor]. apply Sorted_inv in Hm2 as []. sorted.
      * injection El' as -> _. exists (t :: u :: m1), m2. split; [done|]. split; [|done].
        apply Sorted_inv in Hm1 as []. sorted.
Qed.

Lemma sorted_join l1 l2 :
  Sorted up l1 -> Sorted up l2 ->
  (forall t h, last l1 = Some t -> head l2 = Some h -> ord t h = true) -> Sorted up (l1 ++ l2).
Proof.
  intros H1 H2 Hj. induction l1 as [|t l1 IH]; [done|]. apply Sorted_inv in H1 as [H1 Hh]. cbn [app].
  apply Sorted_cons.
  - apply IH; [done|]. intros t' h Ht'. apply Hj. by destruct l1.
  - destruct l1 as [|u l1]; cbn [app]; [|apply HdRel_inv in Hh; by apply HdRel_cons].
    destruct l2 as [|h l2]; [apply HdRel_nil|]. apply HdRel_cons. by apply Hj.
Qed.

(** The elevator keeps a queue in at most two ascending runs. *)
Lemma elev_two_runs : l0 <> [] -> two_runs l0 -> two_runs (elev x l0).
Proof.
  intros Hne (l1 & l2 & E & H1 & H2).
  assert (Sorted up l0 -> two_runs (elev x l0)) as Hone.
  { intros Hs. rewrite <- (app_nil_r l0) at 1. apply elev_descent; [|done|done|constructor|done].
    intros i. by rewrite app_nil_r. }
  destruct (last l1) as [t|] eqn:El; [|apply last_None in El as ->; subst l0; by apply Hone].
  destruct (head l2) as [h|] eqn:Eh; [|destruct l2; [|done]; rewrite app_nil_r in E; subst l0; by apply Hone].
  destruct (ord t h) eqn:Eth.
  - apply Hone. rewrite E. apply sorted_join; [done..|]. naive_solver.
  - rewrite E. apply elev_descent; [|by intros ->|done|done|naive_solver]. by rewrite <- E.
Qed.
End Elevator.

(** ** Queues in the array *)

(** [ix] are the requests that follow from [p]. *)
Fixpoint queue (rs : list request) (p : option nat) (ix : list nat) : Prop :=
  match ix with
  | [] => p = None
  | i :: ix => p = Some i /\ exists r, rs !! i = Some r /\ queue rs (r_next r) ix
  end.

Definition blank : request := mk_request (-1) 0 0 0 0 0 None None None.

(** The order between two requests of the array. *)
Definition in_order (rs : list request) (i j : nat) : bool :=
  IN_ORDER (default blank (rs !! i)) (default blank (rs !! j)).

(** What [IN_ORDER] looks at. *)
Definition key (r : request) : Z * Z * Z := (r_cmd r, r_dev r, r_sector r).

Lemma in_order_total r1 r2 : key r1 <> key r2 -> IN_ORDER r1 r2 = negb (IN_ORDER r2 r1).
Proof.
  destruct r1, r2. unfold key, IN_ORDER. cbn. intros H.
  repeat match goal with |- context [?a <? ?b] => destruct (Z.ltb_spec a b) end;
  repeat match goal with |- context [?a =? ?b] => destruct (Z.eqb_spec a b) end;
  subst; cbn; try lia; try done; exfalso; apply H; repeat f_equal; lia.
Qed.

Lemma get_req_run i s r : reqs s !! i = Some r -> get_req i s = (Ret r, s).
Proof. intros H. unfold get_req. by rewrite bind_get, H. Qed.

Lemma upd_req_run i f s r :
  reqs s !! i = Some r -> upd_req i f s = (Ret tt, s <| reqs ::= <[i := f r]> |>).
Proof. intros H. unfold upd_req. by rewrite (bind_Ret _ _ _ _ _ (get_req_run i s r H)). Qed.

Lemma upd_buf_run i f s b :
  bufs s !! i = Some b -> upd_buf i f s = (Ret tt, s <| bufs ::= <[i := f b]> |>).
Proof. intros H. unfold upd_buf, get_buf. rewrite bind_assoc, bind_get, H. reflexivity. Qed.

Lemma queue_lookup rs p ix i : queue rs p ix -> i ∈ ix -> exists r, rs !! i = Some r.
Proof.
  revert p. induction ix as [|j ix IH]; intros p Hq Hi; [by apply elem_of_nil in Hi|].
  destruct Hq as (-> & r & Hr & Hq). apply elem_of_cons in Hi as [->|Hi]; eauto.
Qed.

(** The loop stops at the place of the elevator. *)
Lemma find_place_ok fuel ix tmp r x s :
  queue (reqs s) (Some tmp) ix -> (length ix <= fuel)%nat -> reqs s !! x = Some r ->
  exists a p b, find_place fuel tmp r s = (Ret p, s) /\ ix = a ++ p :: b /\
    elev (in_order (reqs s)) x ix = a ++ p :: x :: b.
Proof.
  revert fuel tmp. induction ix as [|t ix IH]; intros fuel tmp Hq Hl Hx; [done|].
  destruct Hq as ([= ->] & rt & Hrt & Hq). destruct fuel as [|fuel]; [cbn in Hl; lia|]. cbn [find_place].
  rewrite (bind_Ret _ _ _ _ _ (get_req_run t s rt Hrt)).
  destruct ix as [|n ix]; [rewrite Hq; exists [], t, []; done|].
  pose proof Hq as (En & rn & Hrn & _). rewrite En, (bind_Ret _ _ _ _ _ (get_req_run n s rn Hrn)).
  rewrite elev_step. unfold in_order at 1 2 3. rewrite Hrt, Hx, Hrn. cbn [default from_option id].
  destruct (_ && _).
  - exists [], t, (n :: ix). done.
  - rewrite En in Hq. destruct (IH fuel n Hq) as (a & p & b & Hr & E1 & E2); [cbn in *; lia|done|].
    exists (t :: a), p, b. split; [exact Hr|]. rewrite E2, E1. done.
Qed.

(** Linking [x] in after [p]. *)
Lemma queue_link rs h a p b x rp rx :
  queue rs h (a ++ p :: b) -> NoDup (a ++ p :: b) -> x ∉ a ++ p :: b ->
  rs !! p = Some rp -> rs !! x = Some rx ->
  queue (<[p := rp <| r_next := Some x |>]> (<[x := rx <| r_next := r_next rp |>]> rs)) h (a ++ p :: x :: b).
Proof.
  intros Hq Hnd Hx Hp Hrx.
  assert (forall c h', (forall i, i ∈ c -> i <> p /\ i <> x) -> queue rs h' c ->
    queue (<[p := rp <| r_next := Some x |>]> (<[x := rx <| r_next := r_next rp |>]> rs)) h' c) as Hframe.
  { induction c as [|i c IH]; intros h' Hc H; [done|]. destruct H as (-> & r & Hr & H). split; [done|].
    destruct (Hc i ltac:(left)) as [? ?]. exists r. rewrite !list_lookup_insert_ne by done. split; [done|].
    apply IH; [|done]. intros j Hj. apply Hc. by right. }
  assert (p <> x) as Hpx by (intros ->; apply Hx, elem_of_app; right; left).
  revert h Hq. induction a as [|i a IH]; intros h Hq.
  - cbn [app] in *. destruct Hq as (-> & r & Hr & Hq). assert (r = rp) as -> by congruence.
    split; [done|]. eexists. rewrite list_lookup_insert_eq by (rewrite length_insert; by eapply lookup_lt_Some).
    split; [done|]. split; [done|]. eexists.
    rewrite list_lookup_insert_ne, list_lookup_insert_eq by (done || by eapply lookup_lt_Some). split; [done|].
    apply Hframe; [|done]. apply NoDup_cons in Hnd as [Hpb _]. intros j Hj.
    split; [congruence|]. intros ->. apply Hx. by right.
  - cbn [app] in *. destruct Hq as (-> & r & Hr & Hq). apply NoDup_cons in Hnd as [Hi Hnd].
    split; [done|]. exists r. rewrite !list_lookup_insert_ne.
    + split; [done|]. apply IH; [done| |done]. intros H. apply Hx. by right.
    + intros <-. apply Hx. left.
    + intros <-. apply Hi, elem_of_app. right. left.
Qed.

(** ** Only the keys matter to the order *)

Definition same_keys (rs rs' : list request) : Prop :=
  forall i, key (default blank (rs' !! i)) = key (default blank (rs !! i)).

Lemma IN_ORDER_key r1 r2 r1' r2' : key r1' = key r1 -> key r2' = key r2 -> IN_ORDER r1' r2' = IN_ORDER r1 r2.
Proof. unfold key, IN_ORDER. intros [= -> -> ->] [= -> -> ->]. done. Qed.

Lemma in_order_same rs rs' i j : same_keys rs rs' -> in_order rs' i j = in_order rs i j.
Proof. intros H. by apply IN_ORDER_key. Qed.

Lemma elev_ext o o' x l : (forall i j, o i j = o' i j) -> elev o x l = elev o' x l.
Proof.
  intros H. induction l as [|t l IH]; [done|]. destruct l as [|u l]; [done|].
  by rewrite !elev_step, IH, !H.
Qed.

Lemma two_runs_ext o o' l : (forall i j, o i j = o' i j) -> two_runs o l -> two_runs o' l.
Proof.
  intros H (l1 & l2 & E & H1 & H2).
  assert (forall l, Sorted (up o) l -> Sorted (up o') l) as Hs.
  { induction 1 as [|a l' Hl IHl Ha]; [constructor|]. apply Sorted_cons; [done|].
    destruct Ha; constructor. unfold up in *. by rewrite <- H. }
  exists l1, l2. auto.
Qed.

Lemma same_keys_insert rs i r r0 : rs !! i = Some r0 -> key r = key r0 -> same_keys rs (<[i := r]> rs).
Proof.
  intros H0 Hk j. destruct (decide (i = j)) as [<-|Hne].
  - rewrite list_lookup_insert_eq by (by eapply lookup_lt_Some). by rewrite H0.
  - by rewrite list_lookup_insert_ne.
Qed.

Lemma same_keys_trans rs1 rs2 rs3 : same_keys rs1 rs2 -> same_keys rs2 rs3 -> same_keys rs1 rs3.
Proof. intros H1 H2 i. by rewrite H2, H1. Qed.

Lemma queue_frame rs rs' h ix : (forall i, i ∈ ix -> rs' !! i = rs !! i) -> queue rs h ix -> queue rs' h ix.
Proof.
  revert h. induction ix as [|i ix IH]; intros h Hf Hq; [done|]. destruct Hq as (-> & r & Hr & Hq).
  split; [done|]. exists r. split; [rewrite Hf; [done|left]|]. apply IH; [|done]. intros j Hj. apply Hf. by right.
Qed.

Lemma queue_length rs h ix : queue rs h ix -> NoDup ix -> (length ix <= length rs)%nat.
Proof.
  intros Hq Hnd. rewrite <- (length_seq (length rs) 0). apply submseteq_length, NoDup_submseteq; [done|].
  intros i Hi. destruct (queue_lookup _ _ _ _ Hq Hi) as (r & Hr). apply elem_of_seq. apply lookup_lt_Some in Hr. lia.
Qed.

(** The part of [add_request] that walks and links the queue. *)
Lemma link_request_ok s x r ix h (r0 := r <| r_next := None |>) :
  queue (reqs s) (Some h) ix -> NoDup ix -> x ∉ ix -> reqs s !! x = Some r0 -> ix <> [] ->
  exists rs', (tmp ← find_place (length (reqs s)) h r0;
    t ← get_req tmp;
    upd_req x (fun r => r <| r_next := r_next t |>);;
    upd_req tmp (fun t => t <| r_next := Some x |>)) s = (Ret tt, s <| reqs := rs' |>) /\
    queue rs' (Some h) (elev (in_order (reqs s)) x ix) /\ same_keys (reqs s) rs'.
Proof.
  intros Hq Hnd Hx Hr Hne.
  destruct (find_place_ok (length (reqs s)) ix h r0 x s Hq (queue_length _ _ _ Hq Hnd) Hr)
    as (a & p & b & Hrun & E1 & E2). mrun Hrun. subst ix.
  destruct (queue_lookup _ _ _ p Hq) as (rp & Hp); [apply elem_of_app; right; left|].
  mrun (get_req_run p s rp Hp). mrun (upd_req_run x (fun r => r <| r_next := r_next rp |>) s r0 Hr).
  assert (p <> x) as Hpx by (intros ->; apply Hx, elem_of_app; right; left).
  set (s1 := s <| reqs ::= <[x := r0 <| r_next := r_next rp |>]> |>).
  assert (reqs s1 !! p = Some rp) as Hp1 by (rewrite <- Hp; by apply list_lookup_insert_ne).
  rewrite (upd_req_run p _ s1 rp Hp1).
  exists (<[p := rp <| r_next := Some x |>]> (<[x := r0 <| r_next := r_next rp |>]> (reqs s))).
  split; [reflexivity|]. split; [rewrite E2; by apply queue_link|].
  apply (same_keys_trans _ (reqs s1)); [by apply (same_keys_insert (reqs s) x _ r0)|].
  by apply (same_keys_insert (reqs s1) p _ rp).
Qed.

(** C8: The elevator: adding a request to a queue that is being served links it in once,
    leaves the other requests in their order and the request that is being served at the
    front, and keeps the queue in at most two ascending runs of reads before writes, by
    device and sector, provided that no two requests are for the same sector. *)
Theorem add_request_ok request_fn s major x r ix h :
  current_request s !! major = Some h -> queue (reqs s) (Some h) ix -> NoDup ix -> x ∉ ix ->
  reqs s !! x = Some r -> (forall bh, r_bh r = Some bh -> is_Some (bufs s !! bh)) ->
  (forall i, i ∈ ix -> key (default blank (reqs s !! i)) <> key r) ->
  exists s' ix', add_request request_fn major x s = (Ret tt, s') /\
    current_request s' = current_request s /\ queue (reqs s') (Some h) ix' /\
    ix' = elev (in_order (reqs s)) x ix /\ ix' ≡ₚ x :: ix /\
    (forall i, key (default blank (reqs s' !! i)) = key (default blank (reqs s !! i))) /\
    (two_runs (in_order (reqs s)) ix -> two_runs (in_order (reqs s')) ix').
Proof.
  intros Hh Hq Hnd Hx Hr Hbh Hk. unfold add_request.
  mrun (upd_req_run x (fun r => r <| r_next := None |>) s r Hr).
  set (r0 := r <| r_next := None |>). set (s1 := s <| reqs ::= <[x := r0]> |>).
  assert (reqs s1 !! x = Some r0) as Hr1 by (apply list_lookup_insert_eq; by eapply lookup_lt_Some).
  mrun (get_req_run x s1 r0 Hr1).
  match goal with |- context [(?c ≫= _) s1] =>
    assert (exists bm, c s1 = (Ret tt, s1 <| bufs := bm |>)) as (bm & Hb) end.
  { change (r_bh r0) with (r_bh r). destruct (r_bh r) as [bh|]; [|by exists (bufs s)].
    destruct (Hbh bh eq_refl) as (b & Hb). rewrite (upd_buf_run bh _ s1 b Hb). eexists. reflexivity. }
  mrun Hb. clear Hb. rewrite bind_get. change (current_request (s1 <| bufs := bm |>) !! major) with (current_request s !! major).
  rewrite Hh. set (s2 := s1 <| bufs := bm |>).
  assert (queue (reqs s2) (Some h) ix) as Hq2.
  { eapply queue_frame; [|exact Hq]. intros i Hi. apply list_lookup_insert_ne. congruence. }
  assert (same_keys (reqs s) (reqs s2)) as Hk2 by (by apply (same_keys_insert (reqs s) x r0 r)).
  destruct (link_request_ok s2 x r ix h Hq2 Hnd Hx Hr1) as (rs' & Hrun & Hq' & Hk').
  { by destruct ix. }
  change (r <| r_next := None |>) with r0 in Hrun. rewrite Hrun. pose proof (same_keys_trans _ _ _ Hk2 Hk') as Hk3.
  assert (elev (in_order (reqs s2)) x ix = elev (in_order (reqs s)) x ix) as Ee.
  { apply elev_ext. intros i j. by apply in_order_same. }
  rewrite Ee in Hq'. eexists _, _. split; [reflexivity|]. split; [done|]. split; [exact Hq'|]. split; [done|].
  split; [apply elev_perm|]. split; [exact Hk3|]. intros H2.
  apply (two_runs_ext (in_order (reqs s))); [intros i j; symmetry; by apply in_order_same|].
  apply elev_two_runs; [|by destruct ix|done]. intros t Ht. unfold in_order. apply in_order_total.
  rewrite Hr. cbn. intros E. by apply (Hk t Ht).
Qed.

(** ** The end of a request *)

(** [b'] is [b] after the request [i], with buffer [bh], has ended. *)
Record ended (major : Z) (b b' : blk) (i : nat) (r : request) (bh uptodate : Z) (v : buffer) : Prop := {
  en_reqs : reqs b' = <[i := r <| r_dev := -1 |>]> (reqs b);
  en_current : current_request b' = match r_next r with
    | Some n => <[major := n]> (current_request b)
    | None => delete major (current_request b)
    end;
  en_bufs : bufs b' = <[bh := v <| b_uptodate := uptodate |> <| b_lock := 0 |>]> (bufs b);
  en_woken : WBuffer bh ∈ woken b'
}.

Lemma get_buf_run bh v b : bufs b !! bh = Some v -> get_buf bh b = (Ret v, b).
Proof. intros Hv. unfold get_buf. by rewrite bind_get, Hv. Qed.

Lemma wake_run q b : wake q b = (Ret tt, b <| woken ::= cons q |>).
Proof. done. Qed.

Lemma message_run m b : message m b = (Ret tt, b <| messages ::= cons m |>).
Proof. done. Qed.

Lemma end_request_run major b i r bh v uptodate :
  current_request b !! major = Some i -> reqs b !! i = Some r -> r_bh r = Some bh -> bufs b !! bh = Some v -> istrue (b_lock v) = true ->
  0 <= uptodate < 256 ->
  exists b', end_request major uptodate b = (Ret tt, b') /\ ended major b b' i r bh uptodate v.
Proof.
  intros Hc Hr Hbh Hv Hlock Hu. unfold end_request. rewrite bind_get, Hc. cbn [of_option]. rewrite bind_ret. mrun (get_req_run _ _ _ Hr). rewrite Hbh.
  rewrite bind_assoc. mrun (upd_buf_run bh (fun b => b <| b_uptodate := u8 uptodate |>) b v Hv). unfold unlock_buffer. rewrite bind_assoc.
  set (b1 := b <| bufs ::= _ |>). set (v1 := v <| b_uptodate := u8 uptodate |>).
  assert (bufs b1 !! bh = Some v1) as H1 by (cbn; by rewrite lookup_insert_eq).
  mrun (get_buf_run bh v1 b1 H1). change (istrue (b_lock v1)) with (istrue (b_lock v)). rewrite Hlock. cbn [negb when]. rewrite bind_assoc, bind_ret, bind_assoc.
  mrun (upd_buf_run bh (fun b => b <| b_lock := 0 |>) b1 v1 H1). mrun (wake_run (WBuffer bh) (b1 <| bufs ::= <[bh := v1 <| b_lock := 0 |>]> |>)). set (b2 := upd _ _).
  assert (exists b3, when (negb (istrue uptodate)) (message "I/O error";; bh ← of_option "CURRENT->bh" (Some bh); get_buf bh;; message "dev, block") b2 = (Ret tt, b3) /\ reqs b3 = reqs b /\ current_request b3 = current_request b /\
    bufs b3 = <[bh := v1 <| b_lock := 0 |>]> (<[bh := v1]> (bufs b)) /\ WBuffer bh ∈ woken b3) as (b3 & E3 & R3 & C3 & B3 & W3).
  { destruct (negb _); cbn [when of_option]; [|eexists; split; [reflexivity|]; repeat split; try done; left].
    set (v2 := v1 <| b_lock := 0 |>). assert (bufs (b2 <| messages ::= cons "I/O error" |>) !! bh = Some v2) as H2 by apply lookup_insert_eq.
    mrun (message_run "I/O error" b2). rewrite bind_ret. mrun (get_buf_run bh v2 _ H2).
    eexists. split; [reflexivity|]. repeat split; try done. left. }
  mrun E3. mrun (wake_run (WWaiting i) b3). mrun (wake_run WRequest (b3 <| woken ::= cons (WWaiting i) |>)). set (b4 := upd _ _).
  assert (reqs b4 !! i = Some r) as Hr4 by (cbn; by rewrite R3). mrun (upd_req_run i (fun r => r <| r_dev := -1 |>) b4 r Hr4). set (b5 := upd _ _).
  assert (reqs b5 !! i = Some (r <| r_dev := -1 |>)) as Hr5. { cbn. rewrite R3. by apply list_lookup_insert_eq, (lookup_lt_Some _ _ _ Hr). }
  mrun (get_req_run _ _ _ Hr5). eexists. split; [reflexivity|]. split.
  - cbn. by rewrite R3.
  - cbn. rewrite C3. by destruct (r_next r).
  - cbn. rewrite B3, insert_insert_eq. unfold v1. by rewrite u8_small.
  - cbn. do 2 right. exact W3.
Qed.

(** ** Memory *)

Lemma load_store a l : forall m b, load_byte (store_mem a l m) b =
  if decide (a <= b < a + Z.of_nat (length l)) then nth (Z.to_nat (b - a)) l 0 else load_byte m b.
Proof.
  revert a. induction l as [|x l IH]; intros a m b; cbn [store_mem length]; [rewrite decide_False by lia; done|]. rewrite IH.
  unfold load_byte at 1. destruct (decide (a = b)) as [<-|Hne].
  - rewrite decide_False, decide_True by lia. by rewrite lookup_insert_eq, Z.sub_diag.
  - rewrite lookup_insert_ne by done. repeat case_decide; try lia; [|done].
    replace (Z.to_nat (b - a)) with (S (Z.to_nat (b - (a + 1)))) by lia. done.
Qed.

(** ** Room for reads *)

(** The last third of the requests is only for reads. *)
Definition reads_room (s : blk) : Prop :=
  forall i r, reqs s !! i = Some r -> 21 <= Z.of_nat i -> 0 <= r_dev r -> r_cmd r = READ.

(** [m] keeps the property, however it ends. *)
Definition keeps {A} (m : M blk A) : Prop := forall s, reads_room s -> reads_room (snd (m s)).

Lemma keeps_bind {A B} (m : M blk A) (k : A -> M blk B) : keeps m -> (forall a, keeps (k a)) -> keeps (m ≫= k).
Proof.
  intros Hm Hk s Hs. specialize (Hm s Hs). unfold mbind, M_bind. destruct (m s) as [[] s']; try done. by apply Hk.
Qed.

Lemma keeps_modify f : (forall s, reads_room s -> reads_room (f s)) -> keeps (modify f).
Proof. intros H s. apply H. Qed.

Lemma keeps_id {A} (m : M blk A) : (forall s, snd (m s) = s) -> keeps m.
Proof. intros H s. by rewrite H. Qed.

Lemma get_req_state i s : snd (get_req i s) = s.
Proof. unfold get_req. rewrite bind_get. by destruct (reqs s !! i). Qed.

Lemma get_buf_state i s : snd (get_buf i s) = s.
Proof. unfold get_buf. rewrite bind_get. by destruct (bufs s !! i). Qed.

(** An update of request [i] that keeps the property at [i]. *)
Lemma keeps_upd_req i f :
  (forall r, (0 <= r_dev r -> r_cmd r = READ) -> 21 <= Z.of_nat i -> 0 <= r_dev (f r) -> r_cmd (f r) = READ) ->
  keeps (upd_req i f).
Proof.
  intros Hf s Hs. unfold upd_req, get_req. rewrite bind_assoc, bind_get.
  destruct (reqs s !! i) as [r|] eqn:Hr; [|done]. intros j r' Hj Hlo.
  change (<[i := f r]> (reqs s) !! j = Some r') in Hj.
  destruct (decide (i = j)) as [->|Hne].
  - rewrite list_lookup_insert_eq in Hj by (by eapply lookup_lt_Some). injection Hj as <-.
    apply (Hf r); [by apply (Hs j)|done].
  - rewrite list_lookup_insert_ne in Hj by done. by apply (Hs j).
Qed.

Lemma keeps_upd_buf b f : keeps (upd_buf b f).
Proof. intros s Hs. unfold upd_buf, get_buf. rewrite bind_assoc, bind_get. by destruct (bufs s !! b). Qed.

Lemma keeps_get_req i : keeps (get_req i).
Proof. apply keeps_id, get_req_state. Qed.

Lemma keeps_get_buf i : keeps (get_buf i).
Proof. apply keeps_id, get_buf_state. Qed.

Lemma keeps_next x n : keeps (upd_req x (fun r => r <| r_next := n |>)).
Proof. apply keeps_upd_req. intros r H _. exact H. Qed.

Lemma keeps_free i : keeps (upd_req i (fun r => r <| r_dev := -1 |>)).
Proof. apply keeps_upd_req. cbn. lia. Qed.

Lemma keeps_ret {A} (a : A) : keeps (mret a).
Proof. by apply keeps_id. Qed.

Lemma keeps_get : keeps get.
Proof. by apply keeps_id. Qed.

Lemma keeps_of_option {A} w (o : option A) : keeps (of_option w o).
Proof. apply keeps_id. by destruct o. Qed.

Lemma keeps_wake q : keeps (wake q).
Proof. by apply keeps_modify. Qed.

Lemma keeps_message m : keeps (message m).
Proof. by apply keeps_modify. Qed.

Lemma keeps_current f : keeps (modify (fun s => s <| current_request ::= f |>)).
Proof. by apply keeps_modify. Qed.

Lemma keeps_undef {A} w : keeps (undef w : M blk A).
Proof. by apply keeps_id. Qed.

Lemma keeps_nofuel {A} : keeps (nofuel : M blk A).
Proof. by apply keeps_id. Qed.

Lemma keeps_panic {A} w : keeps (panic w : M blk A).
Proof. by apply keeps_id. Qed.

Create HintDb room.
#[export] Hint Resolve keeps_upd_buf keeps_get_req keeps_get_buf keeps_next keeps_free keeps_ret keeps_get keeps_of_option
  keeps_wake keeps_message keeps_current keeps_undef keeps_nofuel keeps_panic : room.

Ltac room := repeat (intros; first [solve [eauto with room] | apply keeps_bind | case_match]).

Lemma keeps_when b m : keeps m -> keeps (when b m).
Proof. intros H. destruct b; [exact H|apply keeps_ret]. Qed.
#[export] Hint Resolve keeps_when : room.

Lemma keeps_find_place fuel tmp r : keeps (find_place fuel tmp r).
Proof. revert tmp. induction fuel; intros tmp; cbn [find_place]; room. Qed.
#[export] Hint Resolve keeps_find_place : room.

Lemma keeps_unlock bh : keeps (unlock_buffer bh).
Proof. unfold unlock_buffer. room. Qed.
#[export] Hint Resolve keeps_unlock : room.

Lemma last_free_lt l n i : last_free l n = Some i -> (i < n)%nat.
Proof.
  induction n as [|n IH]; cbn; [done|]. repeat case_match; try (intros [= <-]; lia); intros H'; apply IH in H'; lia.
Qed.

Section Room.
Context (request_fn : Z -> option (M blk unit)) (env : blk -> blk).
Context (Hfn : forall major f, request_fn major = Some f -> keeps f).
Context (Henv : forall s, reads_room s -> reads_room (env s)).

Lemma keeps_lock fuel bh : keeps (lock_buffer env fuel bh).
Proof.
  induction fuel as [|fuel IH]; cbn [lock_buffer]; [room|]. apply keeps_bind; [room|]. intros b.
  destruct (istrue (b_lock b)); [|room]. apply keeps_bind; [by apply keeps_modify|done].
Qed.

Lemma keeps_add_request major x : keeps (add_request request_fn major x).
Proof.
  unfold add_request. apply keeps_bind; [room|]. intros _. apply keeps_bind; [room|]. intros r.
  apply keeps_bind; [room|]. intros _. apply keeps_bind; [room|]. intros s.
  destruct (current_request s !! major); [room|]. apply keeps_bind; [room|]. intros _.
  destruct (request_fn major) eqn:E; [by eapply Hfn|room].
Qed.

Lemma keeps_take fuel major rw ahead bh :
  rw = READ \/ rw = WRITE -> keeps (take_request request_fn env fuel major rw ahead bh).
Proof.
  intros Hrw. induction fuel as [|fuel IH]; cbn [take_request]; [room|]. apply keeps_bind; [room|]. intros s.
  destruct (last_free _ _) as [i|] eqn:El.
  - apply keeps_bind; [room|]. intros b. apply keeps_bind; [|intros; apply keeps_add_request].
    apply keeps_upd_req. cbn. intros r _ Hi _. apply last_free_lt in El.
    destruct Hrw as [-> | ->]; [done|]. change (Z.to_nat (if WRITE =? READ then _ else _)) with 21%nat in El. lia.
  - destruct ahead; [room|]. apply keeps_bind; [by apply keeps_modify|done].
Qed.

Lemma keeps_ll_rw_block fuel rw bh : keeps (ll_rw_block request_fn env fuel rw bh).
Proof.
  unfold ll_rw_block. apply keeps_bind; [room|]. intros b. destruct (_ || _); [room|]. unfold make_request.
  set (ahead := (rw =? READA) || (rw =? WRITEA)).
  apply keeps_bind; [room|]. intros b'. destruct (ahead && istrue (b_lock b')); [room|].
  set (rw' := if ahead then _ else _ : Z). clearbody ahead rw'. destruct (negb (rw' =? READ) && negb (rw' =? WRITE)) eqn:Erw; [room|].
  apply keeps_bind; [apply keeps_lock|]. intros _. apply keeps_bind; [room|]. intros b2.
  destruct (_ || _); [room|]. apply keeps_take.
  apply andb_false_iff in Erw as [E|E]; apply negb_false_iff, Z.eqb_eq in E; auto.
Qed.
End Room.

Lemma keeps_end_request major uptodate : keeps (end_request major uptodate).
Proof. unfold end_request. room. apply keeps_when. room. Qed.

(** *** The request that is taken *)

(** How many requests of the array may serve a read, or a write. *)
Definition room_for (rw : Z) : nat := if rw =? READ then 32 else 21.

(** The buffer has something to transfer and is not in use. *)
Definition transfer (rw : Z) (b : buffer) : Prop :=
  b_lock b = 0 /\ (rw = READ /\ b_uptodate b = 0 \/ rw = WRITE /\ b_dirt b <> 0).

Lemma last_free_at l n i r :
  l !! i = Some r -> r_dev r < 0 -> (i < n)%nat ->
  exists j r', last_free l n = Some j /\ (i <= j < n)%nat /\ l !! j = Some r' /\ r_dev r' < 0.
Proof.
  intros Hi Hr. induction n as [|n IH]; intros Hn; [lia|]. cbn [last_free]. destruct (decide (i = n)) as [->|Hne].
  - rewrite Hi, (proj2 (Z.ltb_lt _ _) Hr). exists n, r. by repeat split; try lia.
  - destruct IH as (j & r' & E & Hj & Hl & Hd); [lia|]. destruct (l !! n) as [x|] eqn:Hx.
    + destruct (Z.ltb_spec (r_dev x) 0); [exists n, x; by repeat split; try lia|]. exists j, r'. by repeat split; try lia.
    + exists j, r'. by repeat split; try lia.
Qed.

Lemma ll_rw_block_takes request_fn env fuel rw bh b i r s (major := MAJOR (b_dev b)) :
  bufs s !! bh = Some b -> transfer rw b -> major < NR_BLK_DEV -> is_Some (request_fn major) -> fuel <> O ->
  reqs s !! i = Some r -> r_dev r < 0 -> (i < room_for rw)%nat ->
  exists j r', (i <= j < room_for rw)%nat /\ reqs s !! j = Some r' /\ r_dev r' < 0 /\
    ll_rw_block request_fn env fuel rw bh s =
    add_request request_fn major j (s <| bufs ::= <[bh := b <| b_lock := 1 |>]> |>
      <| reqs ::= <[j := mk_request (b_dev b) rw 0 (u32 (2 * b_blocknr b)) 2 (b_data b) None (Some bh) None]> |>).
Proof.
  intros Hb [Hl Hrw] Hmaj Hfn Hfuel Hi Hd Hroom. destruct fuel as [|fuel]; [done|].
  destruct (last_free_at _ _ _ _ Hi Hd Hroom) as (j & r' & El & Hj & Hjl & Hjd). exists j, r'. do 3 (split; [done|]).
  unfold ll_rw_block. mrun (get_buf_run bh b s Hb). fold major. rewrite (proj2 (Z.leb_gt _ _) Hmaj), bool_decide_true by done.
  cbn [orb negb]. unfold make_request. mrun (get_buf_run bh b s Hb).
  set (b1 := b <| b_lock := 1 |>). set (s1 := s <| bufs ::= <[bh := b1]> |>).
  assert (lock_buffer env (S fuel) bh s = (Ret tt, s1)) as Elock.
  { cbn [lock_buffer]. mrun (get_buf_run bh b s Hb). unfold istrue. rewrite Hl. cbn [Z.eqb negb]. exact (upd_buf_run bh (fun b => b <| b_lock := 1 |>) s b Hb). }
  assert (bufs s1 !! bh = Some b1) as Hb1 by apply lookup_insert_eq.
  assert (take_request request_fn env (S fuel) major rw false bh s1 = add_request request_fn major j
    (s1 <| reqs ::= <[j := mk_request (b_dev b) rw 0 (u32 (2 * b_blocknr b)) 2 (b_data b) None (Some bh) None]> |>)) as Etake.
  { cbn [take_request]. rewrite bind_get.
    replace (Z.to_nat (if rw =? READ then NR_REQUEST else Z.quot (NR_REQUEST * 2) 3)) with (room_for rw) by (unfold room_for; by destruct (rw =? READ)).
    change (reqs s1) with (reqs s). rewrite El. mrun (get_buf_run bh b1 s1 Hb1). mrun (upd_req_run j (fun _ =>
      mk_request (b_dev b1) rw 0 (u32 (Z.shiftl (b_blocknr b1) 1)) 2 (b_data b1) None (Some bh) None) s1 r' Hjl).
    rewrite Z.shiftl_mul_pow2, (Z.mul_comm _ (2 ^ 1)) by lia. reflexivity. }
  destruct Hrw as [[-> Hu]|[-> Hu]]; cbn [READ WRITE READA WRITEA Z.eqb Pos.eqb orb andb negb]; mrun Elock; mrun (get_buf_run bh b1 s1 Hb1).
  - change (b_uptodate b1) with (b_uptodate b). rewrite Hu. exact Etake.
  - change (b_dirt b1) with (b_dirt b). unfold istrue. rewrite (proj2 (Z.eqb_neq _ _) Hu). exact Etake.
Qed.

(** C9: the last third of the request array is kept for reads.  If the drivers' request routines
    and what happens while the caller sleeps do not break this, then whatever is asked of it,
    and however it ends, [ll_rw_block] never puts a write into one of the last eleven requests,
    and the end of a request keeps it so.  Within its part of the array a transfer is never
    kept waiting: when a request is free there, the transfer takes the last free one, filled
    from the buffer, and adds it to the queue of the device. *)
Theorem ll_rw_block_room request_fn env fuel rw bh major uptodate s :
  (forall major f, request_fn major = Some f -> forall s, reads_room s -> reads_room (snd (f s))) ->
  (forall s, reads_room s -> reads_room (env s)) ->
  reads_room s ->
  reads_room (snd (ll_rw_block request_fn env fuel rw bh s)) /\
  reads_room (snd (end_request major uptodate s)) /\
  (forall b i r, bufs s !! bh = Some b -> transfer rw b ->
     MAJOR (b_dev b) < NR_BLK_DEV -> is_Some (request_fn (MAJOR (b_dev b))) -> fuel <> O ->
     reqs s !! i = Some r -> r_dev r < 0 -> (i < room_for rw)%nat ->
     exists j r', (i <= j < room_for rw)%nat /\ reqs s !! j = Some r' /\ r_dev r' < 0 /\
       ll_rw_block request_fn env fuel rw bh s =
       add_request request_fn (MAJOR (b_dev b)) j (s <| bufs ::= <[bh := b <| b_lock := 1 |>]> |>
         <| reqs ::= <[j := mk_request (b_dev b) rw 0 (u32 (2 * b_blocknr b)) 2 (b_data b) None (Some bh) None]> |>)).
Proof.
  intros Hfn Henv Hs. split; [by apply keeps_ll_rw_block|]. split; [by apply keeps_end_request|].
  intros b i r Hb Ht Hm Hf Hfuel Hi Hd Hr. exact (ll_rw_block_takes request_fn env fuel rw bh b i r s Hb Ht Hm Hf Hfuel Hi Hd Hr).
Qed.

(** ** Examples *)

(** Two requests in the queue of major 3, and a third one to add. *)
Definition req_at (cmd sector : Z) (next : option nat) : request :=
  mk_request 0x301 cmd 0 sector 2 0 None None next.
Definition blk_demo : blk :=
  mk_blk ([req_at 0 10 (Some 1%nat); req_at 1 4 None; req_at 0 20 None] ++ replicate 29 blank) {[ 3 := 0%nat ]} ∅ [] [].

Lemma add_request_ok_witness :
  exists s' ix', add_request (fun _ => None) 3 2 blk_demo = (Ret tt, s') /\ queue (reqs s') (Some 0%nat) ix' /\
    ix' = [0; 2; 1]%nat.
Proof.
  destruct (add_request_ok (fun _ => None) blk_demo 3 2 (req_at 0 20 None) [0; 1]%nat 0) as (s' & ix' & Hr & _ & Hq & He & _).
  - reflexivity.
  - split; [reflexivity|]. eexists. split; [reflexivity|]. split; [reflexivity|]. eexists. split; reflexivity.
  - repeat constructor; rewrite ?elem_of_cons, ?elem_of_nil; intuition congruence.
  - rewrite !elem_of_cons, elem_of_nil. intuition congruence.
  - reflexivity.
  - discriminate.
  - intros i [->|[->|[]%elem_of_nil]%elem_of_cons]%elem_of_cons; discriminate.
  - exists s', ix'. split; [exact Hr|]. split; [exact Hq|exact He].
Defined.

(** Writes fill all of their part of the array; one more is to be written from buffer 7 and a
    block to be read into buffer 8.  The driver of major 3 leaves its requests to the interrupts,
    and an interrupt ends the current request. *)
Definition write_at (i : nat) : request :=
  mk_request 0x301 WRITE 0 (2 * Z.of_nat i) 2 0x9000 None (Some (Z.of_nat i + 100)) (if (i <? 20)%nat then Some (S i) else None).
Definition full_demo : blk :=
  mk_blk ((write_at <$> seq 0 21) ++ replicate 11 blank) {[ 3 := 0%nat ]}
    (<[7 := mk_buffer 0x5000 50 0x301 1 1 0]> (<[8 := mk_buffer 0x6000 60 0x301 0 0 0]>
      (list_to_map ((fun i => (i, mk_buffer 0x9000 i 0x301 1 0 1)) <$> seqZ 100 21)))) [] [].
Definition demo_fn (major : Z) : option (M blk unit) := if major =? 3 then Some (mret tt) else None.
Definition demo_interrupt (s : blk) : blk := snd (end_request 3 1 s).

Lemma full_demo_room : reads_room full_demo.
Proof.
  intros i r Hi Hlo Hd. change (reqs full_demo) with ((write_at <$> seq 0 21) ++ replicate 11 blank) in Hi.
  rewrite lookup_app_r in Hi by (cbn; lia). apply lookup_replicate in Hi as [-> _]. destruct Hd. reflexivity.
Qed.

Lemma demo_fn_keeps major f : demo_fn major = Some f -> forall s, reads_room s -> reads_room (snd (f s)).
Proof. unfold demo_fn. destruct (major =? 3); [|discriminate]. intros [= <-] s Hs. exact Hs. Qed.

Lemma ll_rw_block_room_witness :
  (fst (ll_rw_block demo_fn demo_interrupt 3 WRITE 7 full_demo) = Ret tt /\
   r_sector <$> reqs (snd (ll_rw_block demo_fn demo_interrupt 3 WRITE 7 full_demo)) !! 0%nat = Some 100 /\
   reads_room (snd (ll_rw_block demo_fn demo_interrupt 3 WRITE 7 full_demo))) /\
  (exists j s', (21 <= j < 32)%nat /\ ll_rw_block demo_fn demo_interrupt 3 READ 8 full_demo = add_request demo_fn 3 j s').
Proof.
  split.
  - split; [vm_compute; reflexivity|]. split; [vm_compute; reflexivity|].
    apply (ll_rw_block_room demo_fn demo_interrupt 3 WRITE 7 3 1 full_demo demo_fn_keeps (fun s Hs => keeps_end_request 3 1 s Hs) full_demo_room).
  - destruct (ll_rw_block_room demo_fn demo_interrupt 3 READ 8 3 1 full_demo demo_fn_keeps (fun s Hs => keeps_end_request 3 1 s Hs) full_demo_room)
      as (_ & _ & Htake).
    destruct (Htake (mk_buffer 0x6000 60 0x301 0 0 0) 21%nat blank eq_refl) as (j & r' & Hj & _ & _ & E);
      [split; [reflexivity|by left]|reflexivity|by eexists|done|reflexivity|reflexivity|cbn; lia|].
    eexists j, _. split; [exact Hj|exact E].
Defined.
