(* ===== verification/Hd.v ===== *)
(** The hard disk driver ([linux-0.11/kernel/blk_drv/hd.c], [include/linux/hdreg.h] and the
    interrupt entry of [kernel/system_call.s]).

    The state holds the request queues ([BlkReq.blk]), the bytes of the buffers' memory, the
    variables of the file and the history of the controller's ports, newest first.  The
    controller is not part of the program: the class [HdEnv] gives what a read of a port returns
    after a history, and what words [rep insw] reads from the data register.  The pointer [do_hd]
    is one of the three handlers.  [divl] by zero is a trap.  The jumps to [repeat:] take fuel
    from the class. *)

From S2P Require Import Prelude FsDefs BlkReq.

Definition HD_MAJOR : Z := 3.
Definition MAX_ERRORS : Z := 7.
Definition MAX_HD : Z := 2.

Definition HD_DATA : Z := 0x1f0.
Definition HD_ERROR : Z := 0x1f1.
Definition HD_STATUS : Z := 0x1f7.
Definition HD_CMD : Z := 0x3f6.
Definition ERR_STAT : Z := 0x01.
Definition DRQ_STAT : Z := 0x08.
Definition SEEK_STAT : Z := 0x10.
Definition WRERR_STAT : Z := 0x20.
Definition READY_STAT : Z := 0x40.
Definition BUSY_STAT : Z := 0x80.
Definition WIN_RESTORE : Z := 0x10.
Definition WIN_READ : Z := 0x20.
Definition WIN_WRITE : Z := 0x30.
Definition WIN_SPECIFY : Z := 0x91.

Record hd_i_struct := mk_hd_i { hi_head : Z; hi_sect : Z; hi_cyl : Z; hi_wpcom : Z; hi_lzone : Z; hi_ctl : Z }.
Record hd_struct := mk_hd { start_sect : Z; nr_sects : Z }.

(** What [do_hd] points to. *)
Inductive hd_intr := recal_intr_p | read_intr_p | write_intr_p.

(** Accesses to the ports: a byte read, a byte written, [rep insw] and [rep outsw]. *)
Inductive io := IoIn (port : Z) | IoOut (v port : Z) | IoInWords (n : nat) | IoOutWords (ws : list Z).

Record hst := mk_hst {
  h_blk : blk; h_mem : gmap Z Z; hd_info : list hd_i_struct; NR_HD : Z; hd : list hd_struct;
  recalibrate : Z; reset : Z; do_hd : option hd_intr; h_io : list io
}.

#[export] Instance eta_hst : Eta hst := fun s =>
  mk_hst (h_blk s) (h_mem s) (hd_info s) (NR_HD s) (hd s) (recalibrate s) (reset s) (do_hd s) (h_io s).

Class HdEnv := {
  hd_in : list io -> Z -> Z;
  hd_words : list io -> nat -> list Z;
  hd_fuel : nat
}.

(** ** Memory of buffers *)

(** The bytes of words, low byte first, and words of memory. *)
Definition word_bytes (ws : list Z) : list Z := ws ≫= (fun w => [Z.land w 0xff; Z.land (Z.shiftr w 8) 0xff]).

Definition load_word (m : gmap Z Z) (a : Z) : Z := load_byte m a + 256 * load_byte m (a + 1).
Definition load_words (m : gmap Z Z) (a : Z) (n : nat) : list Z := map (fun k => load_word m (a + 2 * Z.of_nat k)) (seq 0 n).

Section Hd.
Context `{HdEnv}.

Definition on_blk {A} (m : M blk A) : M hst A := fun s => let '(r, b) := m (h_blk s) in (r, s <| h_blk := b |>).

Definition hd_inb (port : Z) : M hst Z :=
  s ← get; modify (fun s => s <| h_io ::= cons (IoIn port) |>);; mret (u8 (hd_in (h_io s) port)).
Definition hd_outb (v port : Z) : M hst unit := modify (fun s => s <| h_io ::= cons (IoOut (u8 v) port) |>).

Definition port_read (buf : Z) (nr : nat) : M hst unit :=
  modify (fun s => s <| h_mem := store_mem buf (word_bytes (hd_words (h_io s) nr)) (h_mem s) |> <| h_io ::= cons (IoInWords nr) |>).
Definition port_write (buf : Z) (nr : nat) : M hst unit :=
  modify (fun s => s <| h_io ::= cons (IoOutWords (load_words (h_mem s) buf nr)) |>).

Definition get_info (drive : Z) : M hst hd_i_struct :=
  s ← get; of_option "hd_info" (if drive <? 0 then None else hd_info s !! Z.to_nat drive).

(** [while (--retries && (inb_p(HD_STATUS)&0xc0)!=0x40); return retries;] *)
Fixpoint ready_loop (retries : nat) : M hst Z :=
  match retries with
  | O | S O => mret 0
  | S r =>
      v ← hd_inb HD_STATUS;
      if Z.land v 0xc0 =? 0x40 then mret (Z.of_nat r) else ready_loop r
  end.

Definition controller_ready : M hst Z := ready_loop (Z.to_nat 10000).

Definition win_result : M hst Z :=
  i ← hd_inb HD_STATUS;
  if Z.land i (Z.lor BUSY_STAT (Z.lor READY_STAT (Z.lor WRERR_STAT (Z.lor SEEK_STAT ERR_STAT)))) =? Z.lor READY_STAT SEEK_STAT
  then mret 0 else
  (if istrue (Z.land i 1) then hd_inb HD_ERROR;; mret tt else mret tt);;
  mret 1.

Definition hd_out (drive nsect sect head cyl cmd : Z) (intr : hd_intr) : M hst unit :=
  if (1 <? drive) || (15 <? head) then panic "Trying to write bad sector" else
  r ← controller_ready;
  if negb (istrue r) then panic "HD controller not ready" else
  modify (fun s => s <| do_hd := Some intr |>);;
  i ← get_info drive;
  hd_outb (hi_ctl i) HD_CMD;;
  hd_outb (Z.shiftr (hi_wpcom i) 2) (HD_DATA + 1);;
  hd_outb nsect (HD_DATA + 2);;
  hd_outb sect (HD_DATA + 3);;
  hd_outb cyl (HD_DATA + 4);;
  hd_outb (Z.shiftr cyl 8) (HD_DATA + 5);;
  hd_outb (Z.lor (Z.lor 0xA0 (Z.shiftl drive 4)) head) (HD_DATA + 6);;
  hd_outb cmd (HD_DATA + 7).

Definition hd_printk (m : string) : M hst unit := on_blk (message m).

Fixpoint busy_loop (n : nat) : M hst unit :=
  match n with
  | O => mret tt
  | S n =>
      v ← hd_inb HD_STATUS;
      if READY_STAT =? Z.land v (Z.lor BUSY_STAT READY_STAT) then mret tt else busy_loop n
  end.

(** The condition of the source is [i == READY_STAT | SEEK_STAT], that is
    [(i == READY_STAT) | SEEK_STAT]. *)
Definition drive_busy : M hst Z :=
  busy_loop (Z.to_nat 10000);;
  i ← hd_inb HD_STATUS;
  let i := Z.land i (Z.lor BUSY_STAT (Z.lor READY_STAT SEEK_STAT)) in
  if istrue (Z.lor (b2z (i =? READY_STAT)) SEEK_STAT) then mret 0 else
  hd_printk "HD controller times out";;
  mret 1.

Definition reset_controller : M hst unit :=
  hd_outb 4 HD_CMD;;
  i ← get_info 0;
  hd_outb (Z.land (hi_ctl i) 0x0f) HD_CMD;;
  b ← drive_busy;
  when (istrue b) (hd_printk "HD-controller still busy");;
  e ← hd_inb HD_ERROR;
  when (negb (e =? 1)) (hd_printk "HD-controller reset failed").

Definition reset_hd (nr : Z) : M hst unit :=
  reset_controller;;
  i ← get_info nr;
  hd_out nr (hi_sect i) (hi_sect i) (u32 (hi_head i - 1)) (hi_cyl i) WIN_SPECIFY recal_intr_p.

Definition unexpected_hd_interrupt : M hst unit := hd_printk "Unexpected HD interrupt".

Definition hd_end_request (uptodate : Z) : M hst unit := on_blk (end_request HD_MAJOR uptodate).
Definition hd_current : M hst request := on_blk (CURRENT HD_MAJOR).
Definition upd_hd_current (f : request -> request) : M hst unit := on_blk (upd_CURRENT HD_MAJOR f).

Definition bad_rw_intr : M hst unit :=
  upd_hd_current (fun r => r <| r_errors ::= Z.succ |>);;
  r ← hd_current;
  when (MAX_ERRORS <=? r_errors r) (hd_end_request 0);;
  r ← hd_current;
  when (Z.quot MAX_ERRORS 2 <? r_errors r) (modify (fun s => s <| reset := 1 |>)).

(** [for(i=0 ; i<3000 && !(r=inb_p(HD_STATUS)&DRQ_STAT) ; i++)]: the last [r]. *)
Fixpoint wait_drq (n : nat) : M hst Z :=
  match n with
  | O => mret 0
  | S n =>
      v ← hd_inb HD_STATUS;
      let r := Z.land v DRQ_STAT in
      if istrue r then mret r else wait_drq n
  end.

(** The sector, head and cylinder of a block, by two [divl]. *)
Definition chs (block : Z) (i : hd_i_struct) : option (Z * Z * Z) :=
  if (hi_sect i =? 0) || (hi_head i =? 0) then None else
  let track := block / hi_sect i in
  Some (block mod hi_sect i + 1, track mod hi_head i, track / hi_head i).

Fixpoint do_hd_loop (fuel : nat) : M hst unit :=
  match fuel with
  | O => nofuel
  | S fuel =>
      c ← on_blk (INIT_REQUEST HD_MAJOR);
      match c with
      | None => mret tt
      | Some r =>
          s ← get;
          let dev := MINOR (r_dev r) in
          let block := r_sector r in
          if 5 * NR_HD s <=? dev then hd_end_request 0;; do_hd_loop fuel else
          part ← of_option "hd" (hd s !! Z.to_nat dev);
          if u32 (nr_sects part) <? u32 (block + 2) then hd_end_request 0;; do_hd_loop fuel else
          let block := u32 (block + start_sect part) in
          let dev := dev / 5 in
          i ← get_info dev;
          '(sec, head, cyl) ← of_option "divide error" (chs block i);
          let nsect := r_nr_sectors r in
          if istrue (reset s) then
            modify (fun s => s <| reset := 0 |> <| recalibrate := 1 |>);;
            reset_hd (MINOR (r_dev r) / 5)
          else if istrue (recalibrate s) then
            modify (fun s => s <| recalibrate := 0 |>);;
            i ← get_info (MINOR (r_dev r) / 5);
            hd_out dev (hi_sect i) 0 0 0 WIN_RESTORE recal_intr_p
          else if r_cmd r =? WRITE then
            hd_out dev nsect sec head cyl WIN_WRITE write_intr_p;;
            q ← wait_drq (Z.to_nat 3000);
            if negb (istrue q) then bad_rw_intr;; do_hd_loop fuel
            else r ← hd_current; port_write (r_buffer r) 256
          else if r_cmd r =? READ then
            hd_out dev nsect sec head cyl WIN_READ read_intr_p
          else panic "unknown hd-command"
      end
  end.

Definition do_hd_request : M hst unit := do_hd_loop hd_fuel.

(** ** Handlers *)

Definition read_intr : M hst unit :=
  w ← win_result;
  if istrue w then bad_rw_intr;; do_hd_request else
  r ← hd_current;
  port_read (r_buffer r) 256;;
  upd_hd_current (fun r => r <| r_errors := 0 |> <| r_buffer ::= Z.add 512 |> <| r_sector ::= Z.succ |> <| r_nr_sectors ::= Z.pred |>);;
  r ← hd_current;
  if istrue (r_nr_sectors r) then modify (fun s => s <| do_hd := Some read_intr_p |>) else
  hd_end_request 1;;
  do_hd_request.

Definition write_intr : M hst unit :=
  w ← win_result;
  if istrue w then bad_rw_intr;; do_hd_request else
  upd_hd_current (fun r => r <| r_nr_sectors ::= Z.pred |>);;
  r ← hd_current;
  if istrue (r_nr_sectors r) then
    upd_hd_current (fun r => r <| r_sector ::= Z.succ |> <| r_buffer ::= Z.add 512 |>);;
    modify (fun s => s <| do_hd := Some write_intr_p |>);;
    r ← hd_current;
    port_write (r_buffer r) 256
  else
    hd_end_request 1;;
    do_hd_request.

Definition recal_intr : M hst unit :=
  w ← win_result;
  when (istrue w) bad_rw_intr;;
  do_hd_request.

(** [_hd_interrupt]: the handler is taken out of [do_hd]; the interrupt controllers are told. *)
Definition hd_interrupt : M hst unit :=
  hd_outb 0x20 0xA0;;
  s ← get;
  modify (fun s => s <| do_hd := None |>);;
  hd_outb 0x20 0x20;;
  match do_hd s with
  | None => unexpected_hd_interrupt
  | Some recal_intr_p => recal_intr
  | Some read_intr_p => read_intr
  | Some write_intr_p => write_intr
  end.

Definition hd_init : M hst unit :=
  m ← hd_inb 0x21;
  hd_outb (Z.land m 0xfb) 0x21;;
  m ← hd_inb 0xA1;
  hd_outb (Z.land m 0xbf) 0xA1.
End Hd.
