(* ===== verification/HdSpec.v ===== *)
(** The hard disk driver moves the right sectors.

    [AtDisk] is what the driver relies on: a controller that does what the AT interface says, with
    the contents of its disks and the transfer it is in the middle of.  Against it, a request is
    turned into one command and as many interrupts as sectors, the sectors of the partition go to
    or come from the request's buffer, and the request ends.  Where the code departs from what it
    means to do is proved at the end. *)

From S2P Require Import Prelude FsDefs BlkReq BlkReqSpec Hd.

(** ** The controller *)

(** What the controller is doing: [n] sectors from [lba] on are still to be moved. *)
Inductive phase := Idle | Reading (drive lba n : Z) | Writing (drive lba n : Z).

(** The writes that give a command, newest first. *)
Definition command_io (ctl wpcom nsect sect cyl head drive cmd : Z) : list io :=
  [IoOut (u8 cmd) 0x1f7; IoOut (u8 (Z.lor (Z.lor 0xA0 (Z.shiftl drive 4)) head)) 0x1f6; IoOut (u8 (Z.shiftr cyl 8)) 0x1f5; IoOut (u8 cyl) 0x1f4;
   IoOut (u8 sect) 0x1f3; IoOut (u8 nsect) 0x1f2; IoOut (u8 wpcom) 0x1f1; IoOut (u8 ctl) 0x3f6].

(** Accesses that do not concern a transfer: reads of the status and the interrupt controllers. *)
Definition aside (e : io) : Prop := match e with IoIn p => p = HD_STATUS | IoOut _ p => p = 0x20 \/ p = 0xA0 | _ => False end.

Class AtDisk `{HdEnv} (heads sects : Z -> Z) := {
  dev : list io -> phase;
  sector : list io -> Z -> Z -> list Z;
  sector_words : forall h d l, length (sector h d l) = 256%nat;
  (** ready, not busy, no error; a write asks for data *)
  dev_status : forall h, Z.land (u8 (hd_in h HD_STATUS)) 0xf1 = 0x50;
  dev_drq : forall h d l n, dev h = Writing d l n -> Z.land (u8 (hd_in h HD_STATUS)) DRQ_STAT = DRQ_STAT;
  dev_aside : forall h e, aside e -> dev (e :: h) = dev h /\ sector (e :: h) = sector h;
  dev_command : forall h ctl wpcom nsect sect cyl head drive cmd,
    dev h = Idle -> 0 <= drive <= 1 -> 1 <= nsect <= 255 -> 1 <= sect <= sects drive -> 0 <= head < heads drive -> 0 <= cyl < 65536 ->
    let h' := command_io ctl wpcom nsect sect cyl head drive cmd ++ h in
    let lba := (cyl * heads drive + head) * sects drive + (sect - 1) in
    sector h' = sector h /\ (cmd = WIN_READ -> dev h' = Reading drive lba nsect) /\ (cmd = WIN_WRITE -> dev h' = Writing drive lba nsect);
  dev_read : forall h d l n, dev h = Reading d l n -> 1 <= n ->
    hd_words h 256 = sector h d l /\ sector (IoInWords 256 :: h) = sector h /\
    dev (IoInWords 256 :: h) = (if n =? 1 then Idle else Reading d (l + 1) (n - 1));
  dev_write : forall h d l n ws, dev h = Writing d l n -> 1 <= n -> length ws = 256%nat ->
    dev (IoOutWords ws :: h) = (if n =? 1 then Idle else Writing d (l + 1) (n - 1)) /\
    forall d' l', sector (IoOutWords ws :: h) d' l' = if decide (d' = d /\ l' = l) then ws else sector h d' l'
}.

(** ** The request being served *)

Definition serving (s : hst) (i : nat) (r : request) : Prop :=
  current_request (h_blk s) !! HD_MAJOR = Some i /\ reqs (h_blk s) !! i = Some r.

(** The same state with another request, another history, other memory. *)
Definition with_req (s : hst) (i : nat) (r : request) : hst := s <| h_blk := (h_blk s) <| reqs := <[i := r]> (reqs (h_blk s)) |> |>.
Definition with_io (s : hst) (h : list io) : hst := s <| h_io := h |>.
Definition with_mem (s : hst) (m : gmap Z Z) : hst := s <| h_mem := m |>.
Definition with_intr (s : hst) (f : option hd_intr) : hst := s <| do_hd := f |>.

Section Steps.
Context `{HdEnv}.

Lemma hd_current_run s i r : serving s i r -> hd_current s = (Ret r, s).
Proof.
  intros [Hc Hr]. unfold hd_current, on_blk, CURRENT. rewrite bind_get, Hc. cbn [of_option]. rewrite bind_ret, (get_req_run _ _ _ Hr). by destruct s.
Qed.

Lemma upd_hd_current_run s i r f : serving s i r -> upd_hd_current f s = (Ret tt, with_req s i (f r)) /\ serving (with_req s i (f r)) i (f r).
Proof.
  intros [Hc Hr]. split.
  - unfold upd_hd_current, on_blk, upd_CURRENT. rewrite bind_get, Hc. cbn [of_option]. rewrite bind_ret, (upd_req_run _ _ _ _ Hr). done.
  - split; [done|]. cbn. by apply list_lookup_insert_eq, (lookup_lt_Some _ _ _ Hr).
Qed.

Lemma get_info_run s d i : 0 <= d -> hd_info s !! Z.to_nat d = Some i -> get_info d s = (Ret i, s).
Proof. intros Hd Hi. unfold get_info. rewrite bind_get. destruct (Z.ltb_spec d 0); [lia|]. by rewrite Hi. Qed.

Lemma hd_inb_run s p : hd_inb p s = (Ret (u8 (hd_in (h_io s) p)), with_io s (IoIn p :: h_io s)).
Proof. done. Qed.

Context {heads sects : Z -> Z} `{!AtDisk heads sects}.

Lemma land_sub a m k : Z.land (Z.land a m) k = Z.land a (Z.land m k).
Proof. symmetry. apply Z.land_assoc. Qed.

(** The controller is ready at the first look. *)
Lemma controller_ready_run s : controller_ready s = (Ret 9999, with_io s (IoIn HD_STATUS :: h_io s)).
Proof.
  unfold controller_ready. replace (Z.to_nat 10000) with (S (S (Z.to_nat 9998))) by lia. cbn [ready_loop]. mrun (hd_inb_run s HD_STATUS).
  assert (Z.land (u8 (hd_in (h_io s) HD_STATUS)) 0xc0 = 0x40) as ->.
  { change 0xc0 with (Z.land 0xf1 0xc0). by rewrite <- land_sub, dev_status. }
  replace (Z.of_nat (S (Z.to_nat 9998))) with 9999 by lia. done.
Qed.

Lemma win_result_run s : win_result s = (Ret 0, with_io s (IoIn HD_STATUS :: h_io s)).
Proof.
  unfold win_result. mrun (hd_inb_run s HD_STATUS).
  change (Z.lor BUSY_STAT (Z.lor READY_STAT (Z.lor WRERR_STAT (Z.lor SEEK_STAT ERR_STAT)))) with 0xf1. by rewrite dev_status.
Qed.

Lemma hd_out_run s drive nsect sect head cyl cmd intr i :
  0 <= drive <= 1 -> 0 <= head <= 15 -> hd_info s !! Z.to_nat drive = Some i ->
  hd_out drive nsect sect head cyl cmd intr s =
    (Ret tt, with_intr (with_io s (command_io (hi_ctl i) (Z.shiftr (hi_wpcom i) 2) nsect sect cyl head drive cmd ++ IoIn HD_STATUS :: h_io s)) (Some intr)).
Proof.
  intros Hd Hh Hi. unfold hd_out. destruct (Z.ltb_spec 1 drive); [lia|]. destruct (Z.ltb_spec 15 head); [lia|]. cbn [orb].
  mrun (controller_ready_run s). change (negb (istrue 9999)) with false. cbn match. rewrite bind_modify. unfold get_info. rewrite bind_assoc, bind_get.
  destruct (Z.ltb_spec drive 0); [lia|]. cbn [hd_info]. change (hd_info _) with (hd_info s) at 1. rewrite Hi. done.
Qed.
End Steps.

(** ** Commands *)

Section Requests.
Context `{HdEnv} {heads sects : Z -> Z} `{!AtDisk heads sects}.

Definition drive_of (r : request) : Z := MINOR (r_dev r) / 5.

(** A request that can be served: for a partition of an existing drive whose geometry the
    controller knows, inside the partition, with a locked buffer; nothing is left to reset. *)
Record wanted (s : hst) (i : nat) (r : request) (bh : Z) (v : buffer) (part : hd_struct) (info : hd_i_struct) : Prop := {
  wa_serving : serving s i r;
  wa_dev : MAJOR (r_dev r) = HD_MAJOR /\ 0 <= MINOR (r_dev r) < 5 * NR_HD s /\ NR_HD s <= MAX_HD;
  wa_part : hd s !! Z.to_nat (MINOR (r_dev r)) = Some part;
  wa_room : 0 <= r_sector r /\ r_sector r + 2 <= nr_sects part /\ nr_sects part < 2147483648;
  wa_start : 0 <= start_sect part /\ start_sect part < 2147483648;
  wa_info : hd_info s !! Z.to_nat (drive_of r) = Some info /\ hi_head info = heads (drive_of r) /\ hi_sect info = sects (drive_of r);
  wa_geometry : 1 <= hi_head info <= 16 /\ 1 <= hi_sect info <= 255 /\ r_sector r + start_sect part < 65536 * hi_head info * hi_sect info;
  wa_buffer : r_bh r = Some bh /\ bufs (h_blk s) !! bh = Some v /\ istrue (b_lock v) = true;
  wa_sectors : 1 <= r_nr_sectors r <= 255;
  wa_steady : reset s = 0 /\ recalibrate s = 0
}.

(** Sector, head and cylinder name the block. *)
Lemma chs_ok block i : 0 <= block -> 1 <= hi_head i <= 16 -> 1 <= hi_sect i <= 255 -> block < 65536 * hi_head i * hi_sect i ->
  exists sec head cyl, chs block i = Some (sec, head, cyl) /\ 1 <= sec <= hi_sect i /\ 0 <= head < hi_head i /\ 0 <= cyl < 65536 /\
    (cyl * hi_head i + head) * hi_sect i + (sec - 1) = block.
Proof.
  intros H0 Hh Hs Hb. unfold chs. destruct (Z.eqb_spec (hi_sect i) 0); [lia|]. destruct (Z.eqb_spec (hi_head i) 0); [lia|]. cbn [orb].
  eexists _, _, _. split; [reflexivity|]. pose proof (Z.mod_pos_bound block (hi_sect i)). pose proof (Z.mod_pos_bound (block / hi_sect i) (hi_head i)).
  pose proof (Z_div_mod_eq_full block (hi_sect i)). pose proof (Z_div_mod_eq_full (block / hi_sect i) (hi_head i)).
  split; [lia|]. split; [lia|]. split; [|lia]. split; [apply Z.div_pos; [apply Z.div_pos|]; lia|].
  apply Z.div_lt_upper_bound; [lia|]. apply Z.div_lt_upper_bound; lia.
Qed.

Lemma init_request_run s i r bh v part info : wanted s i r bh v part info -> on_blk (INIT_REQUEST HD_MAJOR) s = (Ret (Some r), s).
Proof.
  intros [[Hc Hr] [Hm _] _ _ _ _ _ (Hbh & Hv & Hl) _ _]. unfold on_blk, INIT_REQUEST. rewrite bind_get, Hc. mrun (get_req_run _ _ _ Hr).
  rewrite Hm, Z.eqb_refl. cbn [negb]. rewrite Hbh. mrun (get_buf_run _ _ _ Hv). rewrite Hl. by destruct s.
Qed.

(** The way of a valid request to the choice of its command. *)
Lemma do_hd_valid fuel s i r bh v part info : wanted s i r bh v part info ->
  exists sec head cyl, 1 <= sec <= sects (drive_of r) /\ 0 <= head < heads (drive_of r) /\ 0 <= cyl < 65536 /\ 0 <= head <= 15 /\
    (cyl * heads (drive_of r) + head) * sects (drive_of r) + (sec - 1) = r_sector r + start_sect part /\
    do_hd_loop (S fuel) s =
      (if r_cmd r =? WRITE then
         hd_out (drive_of r) (r_nr_sectors r) sec head cyl WIN_WRITE write_intr_p;;
         q ← wait_drq (Z.to_nat 3000);
         if negb (istrue q) then bad_rw_intr;; do_hd_loop fuel else r ← hd_current; port_write (r_buffer r) 256
       else if r_cmd r =? READ then hd_out (drive_of r) (r_nr_sectors r) sec head cyl WIN_READ read_intr_p
       else panic "unknown hd-command") s.
Proof.
  intros W. pose proof (init_request_run _ _ _ _ _ _ _ W) as Hi. destruct W as [Hs (Hm & Hmin & Hmax) Hp Hroom Hst (Hinfo & Eh & Es) (Hh & Hse & Hcap) _ Hn [Hre Hrc]].
  destruct (chs_ok (r_sector r + start_sect part) info ltac:(lia) Hh Hse Hcap) as (sec & head & cyl & Ec & H1 & H2 & H3 & H4).
  rewrite Eh, Es in *. exists sec, head, cyl. do 3 (split; [done|]). split; [lia|]. split; [done|].
  cbn [do_hd_loop]. mrun Hi. cbv zeta. rewrite bind_get. destruct (Z.leb_spec (5 * NR_HD s) (MINOR (r_dev r))); [lia|].
  rewrite Hp. cbn [of_option]. rewrite bind_ret, !u32_small by lia. destruct (Z.ltb_spec (nr_sects part) (r_sector r + 2)); [lia|].
  assert (0 <= drive_of r) as Hd by (apply Z.div_pos; lia). mrun (get_info_run s (drive_of r) info Hd Hinfo). rewrite Ec.
  cbn [of_option]. rewrite bind_ret, Hre, Hrc. reflexivity.
Qed.

Lemma drive_range s i r bh v part info : wanted s i r bh v part info -> 0 <= drive_of r <= 1.
Proof.
  intros [_ (_ & Hmin & Hmax) _ _ _ _ _ _ _ _]. unfold MAX_HD in Hmax. unfold drive_of. split; [apply Z.div_pos; lia|].
  assert (MINOR (r_dev r) / 5 < 2); [apply Z.div_lt_upper_bound; lia|lia].
Qed.

(** [h] differs from the history of [s] by accesses that do not concern the disk's contents. *)
Lemma aside_status h : dev (IoIn HD_STATUS :: h) = dev h /\ sector (IoIn HD_STATUS :: h) = sector h.
Proof. by apply dev_aside. Qed.

(** A valid read becomes a command to the controller. *)
Lemma do_hd_read s i r bh v part info :
  wanted s i r bh v part info -> r_cmd r = READ -> dev (h_io s) = Idle -> hd_fuel <> 0%nat ->
  exists h, do_hd_request s = (Ret tt, with_intr (with_io s h) (Some read_intr_p)) /\ sector h = sector (h_io s) /\
    dev h = Reading (drive_of r) (r_sector r + start_sect part) (r_nr_sectors r).
Proof.
  intros W Hcmd Hidle Hfuel. unfold do_hd_request. destruct hd_fuel as [|fuel]; [done|].
  destruct (do_hd_valid fuel _ _ _ _ _ _ _ W) as (sec & head & cyl & H1 & H2 & H3 & H15 & Hlba & ->). rewrite Hcmd. change (READ =? WRITE) with false.
  change (READ =? READ) with true. cbn match. pose proof (drive_range _ _ _ _ _ _ _ W) as Hd. destruct (aside_status (h_io s)) as [Hd1 Hs1].
  rewrite (hd_out_run s _ _ _ _ _ _ _ info Hd H15 (proj1 (wa_info _ _ _ _ _ _ _ W))). eexists. split; [reflexivity|].
  destruct (dev_command (IoIn HD_STATUS :: h_io s) (hi_ctl info) (Z.shiftr (hi_wpcom info) 2) (r_nr_sectors r) sec cyl head (drive_of r) WIN_READ)
    as (Hsec & Hrd & _); [by rewrite Hd1|done|apply W|done|done|done|]. cbv zeta in *. rewrite Hsec, Hs1. split; [done|]. by rewrite (Hrd eq_refl), Hlba.
Qed.
End Requests.

Arguments wanted heads sects s i r bh v part info : clear implicits.

(** ** Sectors in memory *)

Lemma length_word_bytes ws : length (word_bytes ws) = (2 * length ws)%nat.
Proof. unfold word_bytes. induction ws as [|w ws IH]; [done|]. cbn in *. lia. Qed.

(** [k] sectors of 256 words, from [l] on, are stored from [a] on. *)
Fixpoint fetch (k : nat) (rd : Z -> list Z) (l a : Z) (m : gmap Z Z) : gmap Z Z :=
  match k with O => m | S k => fetch k rd (l + 1) (a + 512) (store_mem a (word_bytes (rd l)) m) end.

Lemma fetch_lookup k rd : (forall l, length (rd l) = 256%nat) -> forall l a m b,
  load_byte (fetch k rd l a m) b =
    if decide (a <= b < a + 512 * Z.of_nat k) then nth (Z.to_nat ((b - a) mod 512)) (word_bytes (rd (l + (b - a) / 512))) 0 else load_byte m b.
Proof.
  intros Hrd. induction k as [|k IH]; intros l a m b; cbn [fetch]; [rewrite decide_False by lia; done|]. rewrite IH, load_store, length_word_bytes, Hrd.
  change (Z.of_nat (2 * 256)) with 512. destruct (decide (a + 512 <= b)).
  - replace (b - a) with (b - (a + 512) + 1 * 512) by lia. rewrite Z.mod_add, Z.div_add by lia.
    replace (l + 1 + (b - (a + 512)) / 512) with (l + ((b - (a + 512)) / 512 + 1)) by lia. repeat case_decide; try lia; done.
  - rewrite decide_False by lia. repeat case_decide; try lia; try done. rewrite Z.mod_small, Z.div_small, Z.add_0_r by lia. done.
Qed.

(** ** Interrupts *)

(** [k] interrupts of the disk. *)
Fixpoint hd_interrupts `{HdEnv} (k : nat) : M hst unit :=
  match k with O => mret tt | S O => hd_interrupt | S k => hd_interrupt;; hd_interrupts k end.

(** [s0] with the request [i] as [r], memory [m], the handler [f] and the history [h]. *)
Definition underway (s0 : hst) (i : nat) (r : request) (m : gmap Z Z) (f : option hd_intr) (h : list io) : hst :=
  mk_hst ((h_blk s0) <| reqs := <[i := r]> (reqs (h_blk s0)) |>) m (hd_info s0) (NR_HD s0) (hd s0) (recalibrate s0) (reset s0) f h.

Lemma underway_id s i r : serving s i r -> underway s i r (h_mem s) (do_hd s) (h_io s) = s.
Proof. intros [_ Hr]. unfold underway. rewrite list_insert_id by done. destruct s as [[] ? ? ? ? ? ? ? ?]. done. Qed.

Lemma underway_req s0 i r m f h r' : with_req (underway s0 i r m f h) i r' = underway s0 i r' m f h.
Proof. unfold with_req, underway. cbn. by rewrite list_insert_insert_eq. Qed.

Lemma serving_underway s0 i r0 r m f h : serving s0 i r0 -> serving (underway s0 i r m f h) i r.
Proof. intros [Hc Hr]. split; [done|]. cbn. by apply list_lookup_insert_eq, (lookup_lt_Some _ _ _ Hr). Qed.

Section Transfers.
Context `{HdEnv} {heads sects : Z -> Z} `{!AtDisk heads sects}.
Context (s0 : hst) (i : nat) (r0 : request).
Hypothesis Hs0 : serving s0 i r0.

Definition acked (h : list io) : list io := IoIn HD_STATUS :: IoOut 0x20 0x20 :: IoOut 0x20 0xA0 :: h.

Lemma acked_ok h : dev (acked h) = dev h /\ sector (acked h) = sector h.
Proof.
  unfold acked. destruct (dev_aside h (IoOut 0x20 0xA0)) as [D1 S1]; [by right|].
  destruct (dev_aside (IoOut 0x20 0xA0 :: h) (IoOut 0x20 0x20)) as [D2 S2]; [by left|].
  destruct (aside_status (IoOut 0x20 0x20 :: IoOut 0x20 0xA0 :: h)) as [D3 S3]. by rewrite D3, D2, D1, S3, S2, S1.
Qed.

Lemma port_read_run r m f h buf nr :
  port_read buf nr (underway s0 i r m f h) = (Ret tt, underway s0 i r (store_mem buf (word_bytes (hd_words h nr)) m) f (IoInWords nr :: h)).
Proof. done. Qed.

Lemma port_write_run r m f h buf nr :
  port_write buf nr (underway s0 i r m f h) = (Ret tt, underway s0 i r m f (IoOutWords (load_words m buf nr) :: h)).
Proof. done. Qed.

(** A sector arrives. *)
Definition got (r : request) : request :=
  r <| r_errors := 0 |> <| r_buffer ::= Z.add 512 |> <| r_sector ::= Z.succ |> <| r_nr_sectors ::= Z.pred |>.

Lemma read_step r m h d l n : dev h = Reading d l n -> r_nr_sectors r = n -> 1 <= n ->
  exists h', sector h' = sector h /\ dev h' = (if n =? 1 then Idle else Reading d (l + 1) (n - 1)) /\
    let m' := store_mem (r_buffer r) (word_bytes (sector h d l)) m in
    hd_interrupt (underway s0 i r m (Some read_intr_p) h) =
      if n =? 1 then (hd_end_request 1;; do_hd_request) (underway s0 i (got r) m' None h')
      else (Ret tt, underway s0 i (got r) m' (Some read_intr_p) h').
Proof.
  intros Hdev Hn H1. destruct (acked_ok h) as [Da Sa]. destruct (dev_read (acked h) d l n) as (Hw & Hs & Hd); [by rewrite Da|done|].
  rewrite Sa in Hw, Hs. exists (IoInWords 256 :: acked h). split; [done|]. split; [done|]. cbv zeta.
  change (hd_interrupt (underway s0 i r m (Some read_intr_p) h)) with (read_intr (underway s0 i r m None (IoOut 0x20 0x20 :: IoOut 0x20 0xA0 :: h))).
  unfold read_intr. mrun (win_result_run (underway s0 i r m None (IoOut 0x20 0x20 :: IoOut 0x20 0xA0 :: h))). change (istrue 0) with false. cbn match.
  change (with_io _ _) with (underway s0 i r m None (acked h)).
  mrun (hd_current_run _ i r (serving_underway s0 i r0 r m None (acked h) Hs0)).
  mrun (port_read_run r m None (acked h) (r_buffer r) 256). rewrite Hw. set (m' := store_mem _ _ m).
  destruct (upd_hd_current_run _ i r got (serving_underway s0 i r0 r m' None (IoInWords 256 :: acked h) Hs0)) as [E Hsv]. rewrite underway_req in E, Hsv.
  mrun E. mrun (hd_current_run _ _ _ Hsv). change (r_nr_sectors (got r)) with (Z.pred (r_nr_sectors r)). rewrite Hn. unfold istrue.
  destruct (Z.eqb_spec n 1), (Z.eqb_spec (Z.pred n) 0); try lia; done.
Qed.

Lemma read_all k : forall r m h d l, dev h = Reading d l (Z.of_nat (S k)) -> r_nr_sectors r = Z.of_nat (S k) ->
  exists h', sector h' = sector h /\ dev h' = Idle /\
    hd_interrupts (S k) (underway s0 i r m (Some read_intr_p) h) =
      (hd_end_request 1;; do_hd_request) (underway s0 i (Nat.iter (S k) got r) (fetch (S k) (sector h d) l (r_buffer r) m) None h').
Proof.
  induction k as [|k IH]; intros r m h d l Hdev Hn.
  - destruct (read_step r m h d l 1 Hdev Hn ltac:(lia)) as (h' & Hs & Hd & E). by exists h'.
  - destruct (read_step r m h d l _ Hdev Hn ltac:(lia)) as (h1 & Hs & Hd & E). cbv zeta in E.
    destruct (Z.eqb_spec (Z.of_nat (S (S k))) 1); [lia|]. replace (Z.of_nat (S (S k)) - 1) with (Z.of_nat (S k)) in Hd by lia.
    cbn [hd_interrupts]. mrun E. destruct (IH (got r) (store_mem (r_buffer r) (word_bytes (sector h d l)) m) h1 d (l + 1) Hd) as (h' & Hs' & Hd' & E').
    { cbn [got r_nr_sectors upd]. change (r_nr_sectors (got r)) with (Z.pred (r_nr_sectors r)). lia. }
    exists h'. split; [by rewrite Hs', Hs|]. split; [done|]. change (hd_interrupts (S k) (underway s0 i (got r) (store_mem (r_buffer r) (word_bytes (sector h d l)) m) (Some read_intr_p) h1) = (hd_end_request 1;; do_hd_request)
      (underway s0 i (Nat.iter (S (S k)) got r) (fetch (S (S k)) (sector h d) l (r_buffer r) m) None h')). rewrite E', Hs.
    rewrite (Nat.iter_succ_r (S k)). change (r_buffer (got r)) with (512 + r_buffer r). by rewrite (Z.add_comm 512).
Qed.

(** A sector is gone, and the next one is sent. *)
Definition sent (r : request) : request := r <| r_nr_sectors ::= Z.pred |>.
Definition moved_on (r : request) : request := r <| r_sector ::= Z.succ |> <| r_buffer ::= Z.add 512 |>.

(** The sectors from [l] to before [l + n] of drive [d] hold the memory from [a] on. *)
Definition written (rd rd' : Z -> Z -> list Z) (d l n : Z) (m : gmap Z Z) (a : Z) : Prop :=
  forall d' l', rd' d' l' = if decide (d' = d /\ l <= l' < l + n) then load_words m (a + 512 * (l' - l)) 256 else rd d' l'.

Lemma length_load_words m a n : length (load_words m a n) = n.
Proof. unfold load_words. by rewrite length_map, length_seq. Qed.

Lemma sector_sent h d l n ws : dev h = Writing d l n -> 1 <= n -> length ws = 256%nat -> forall rd m a, ws = load_words m a 256 -> rd = sector h ->
  written rd (sector (IoOutWords ws :: h)) d l 1 m a.
Proof.
  intros Hd Hn Hl rd m a -> ->. destruct (dev_write h d l n _ Hd Hn Hl) as [_ Hs]. intros d' l'. rewrite Hs.
  repeat case_decide; try lia; try done. replace (a + 512 * (l' - l)) with a by lia. done.
Qed.

Lemma written_join rd rd1 rd2 d l n1 n2 m a : 0 <= n1 -> 0 <= n2 -> written rd rd1 d l n1 m a -> written rd1 rd2 d (l + n1) n2 m (a + 512 * n1) ->
  written rd rd2 d l (n1 + n2) m a.
Proof.
  intros Hn1 Hn2 H1 H2 d' l'. rewrite H2, H1. repeat case_decide; try lia; try done. f_equal. lia.
Qed.

Lemma write_step r m h d l n : dev h = (if n =? 1 then Idle else Writing d (l + 1) (n - 1)) -> r_nr_sectors r = n -> 1 <= n ->
  exists h', (if n =? 1 then sector h' = sector h /\ dev h' = Idle
              else written (sector h) (sector h') d (l + 1) 1 m (r_buffer r + 512) /\ dev h' = (if n - 1 =? 1 then Idle else Writing d (l + 1 + 1) (n - 1 - 1))) /\
    hd_interrupt (underway s0 i r m (Some write_intr_p) h) =
      if n =? 1 then (hd_end_request 1;; do_hd_request) (underway s0 i (sent r) m None h')
      else (Ret tt, underway s0 i (moved_on (sent r)) m (Some write_intr_p) h').
Proof.
  intros Hdev Hn H1. destruct (acked_ok h) as [Da Sa].
  change (hd_interrupt (underway s0 i r m (Some write_intr_p) h)) with (write_intr (underway s0 i r m None (IoOut 0x20 0x20 :: IoOut 0x20 0xA0 :: h))).
  unfold write_intr. rewrite (bind_Ret _ _ _ _ _ (win_result_run (underway s0 i r m None (IoOut 0x20 0x20 :: IoOut 0x20 0xA0 :: h)))).
  change (istrue 0) with false. cbn match. change (with_io _ _) with (underway s0 i r m None (acked h)).
  destruct (upd_hd_current_run _ i r sent (serving_underway s0 i r0 r m None (acked h) Hs0)) as [E Hsv]. rewrite underway_req in E, Hsv.
  rewrite (bind_Ret _ _ _ _ _ E), (bind_Ret _ _ _ _ _ (hd_current_run _ _ _ Hsv)). change (r_nr_sectors (sent r)) with (Z.pred (r_nr_sectors r)). rewrite Hn. unfold istrue.
  destruct (Z.eqb_spec n 1) as [En|Hne].
  { assert ((Z.pred n =? 0) = true) as -> by (apply Z.eqb_eq; lia). exists (acked h). by rewrite Da, Sa. }
  assert ((Z.pred n =? 0) = false) as -> by (apply Z.eqb_neq; lia). cbn [negb].
  destruct (upd_hd_current_run _ i (sent r) moved_on Hsv) as [E2 Hsv2]. rewrite underway_req in E2, Hsv2. rewrite (bind_Ret _ _ _ _ _ E2), bind_modify.
  assert (serving (underway s0 i (moved_on (sent r)) m (Some write_intr_p) (acked h)) i (moved_on (sent r))) as Hsv3 by exact Hsv2.
  set (s3 := underway s0 i (moved_on (sent r)) m (Some write_intr_p) (acked h)) in Hsv3.
  change ((underway s0 i (moved_on (sent r)) m None (acked h)) <| do_hd := Some write_intr_p |>) with s3.
  rewrite (bind_Ret _ _ _ _ _ (hd_current_run _ _ _ Hsv3)). unfold s3. rewrite port_write_run. eexists. split; [|reflexivity].
  change (r_buffer (moved_on (sent r))) with (512 + r_buffer r). rewrite (Z.add_comm 512).
  assert (dev (acked h) = Writing d (l + 1) (n - 1)) as Hd by (by rewrite Da).
  split; [by apply (sector_sent (acked h) d (l + 1) (n - 1)); [..|by rewrite length_load_words| |]; try lia|].
  by apply (dev_write (acked h) d (l + 1) (n - 1)); [|lia|apply length_load_words].
Qed.

Lemma write_all k : forall r m h d l, dev h = (if Z.of_nat (S k) =? 1 then Idle else Writing d (l + 1) (Z.of_nat (S k) - 1)) -> r_nr_sectors r = Z.of_nat (S k) ->
  exists h' r', written (sector h) (sector h') d (l + 1) (Z.of_nat k) m (r_buffer r + 512) /\ dev h' = Idle /\ r_bh r' = r_bh r /\ r_next r' = r_next r /\
    hd_interrupts (S k) (underway s0 i r m (Some write_intr_p) h) = (hd_end_request 1;; do_hd_request) (underway s0 i r' m None h').
Proof.
  induction k as [|k IH]; intros r m h d l Hdev Hn.
  - destruct (write_step r m h d l 1 Hdev Hn ltac:(lia)) as (h' & [Hs Hd] & E). exists h', (sent r). split; [|done].
    intros d' l'. rewrite decide_False by lia. by rewrite Hs.
  - destruct (write_step r m h d l _ Hdev Hn ltac:(lia)) as (h1 & Hst & E). destruct (Z.eqb_spec (Z.of_nat (S (S k))) 1); [lia|].
    destruct Hst as [Hw Hd]. replace (Z.of_nat (S (S k)) - 1) with (Z.of_nat (S k)) in Hd by lia.
    destruct (IH (moved_on (sent r)) m h1 d (l + 1) Hd) as (h' & r' & Hw' & Hd' & Hb & Hx & E').
    { change (r_nr_sectors (moved_on (sent r))) with (Z.pred (r_nr_sectors r)). lia. }
    exists h', r'. split; [|split; [done|split; [done|split; [done|]]]].
    + replace (Z.of_nat (S k)) with (1 + Z.of_nat k) by lia. apply (written_join _ (sector h1)); [lia|lia|done|].
      change (r_buffer (moved_on (sent r))) with (512 + r_buffer r) in Hw'. by replace (r_buffer r + 512 + 512 * 1) with (512 + r_buffer r + 512) by lia.
    + change (hd_interrupts (S (S k)) ?x) with ((hd_interrupt;; hd_interrupts (S k)) x). by mrun E.
Qed.
End Transfers.

(** ** Requests *)

(** [s'] is [s] after its request [i] was served: the buffer is up to date and unlocked, who waits
    for it is woken, the request is free, the next one is current and the disk is at rest. *)
Record served `{HdEnv} {heads sects : Z -> Z} `{!AtDisk heads sects} (s s' : hst) (i : nat) (r : request) (bh : Z) (v : buffer) : Prop := {
  sv_current : current_request (h_blk s') = match r_next r with
    | Some n => <[HD_MAJOR := n]> (current_request (h_blk s))
    | None => delete HD_MAJOR (current_request (h_blk s))
    end;
  sv_buffer : bufs (h_blk s') = <[bh := v <| b_uptodate := 1 |> <| b_lock := 0 |>]> (bufs (h_blk s));
  sv_woken : WBuffer bh ∈ woken (h_blk s');
  sv_free : exists r', reqs (h_blk s') = <[i := r']> (reqs (h_blk s)) /\ r_dev r' = -1;
  sv_tables : hd_info s' = hd_info s /\ NR_HD s' = NR_HD s /\ hd s' = hd s /\ recalibrate s' = recalibrate s /\ reset s' = reset s;
  sv_rest : do_hd s' = None /\ dev (h_io s') = Idle
}.

Section Served.
Context `{HdEnv} {heads sects : Z -> Z} `{!AtDisk heads sects}.

Lemma finish_ok s i r r' bh v m h : serving s i r -> r_bh r' = r_bh r -> r_next r' = r_next r -> r_bh r = Some bh -> bufs (h_blk s) !! bh = Some v ->
  istrue (b_lock v) = true -> dev h = Idle ->
  exists s', (hd_end_request 1;; do_hd_request) (underway s i r' m None h) = do_hd_request s' /\ served s s' i r bh v /\ h_mem s' = m /\ h_io s' = h.
Proof.
  intros Hs Eb En Hbh Hv Hl Hd. destruct (serving_underway s i r r' m None h Hs) as [Hc Hr].
  destruct (end_request_run HD_MAJOR _ i r' bh v 1 Hc Hr ltac:(by rewrite Eb) Hv Hl ltac:(lia)) as (b' & E & [R C B W]).
  assert (hd_end_request 1 (underway s i r' m None h) = (Ret tt, (underway s i r' m None h) <| h_blk := b' |>)) as E' by (unfold hd_end_request, on_blk; by rewrite E).
  rewrite (bind_Ret _ _ _ _ _ E'). eexists. split; [reflexivity|]. split; [|done]. split.
  - cbn. rewrite C, En. done.
  - cbn. by rewrite B.
  - done.
  - exists (r' <| r_dev := -1 |>). split; [|done]. cbn. rewrite R. cbn. by rewrite list_insert_insert_eq.
  - done.
  - done.
Qed.

Lemma iter_got k r : r_bh (Nat.iter k got r) = r_bh r /\ r_next (Nat.iter k got r) = r_next r.
Proof. induction k as [|k [IH1 IH2]]; [done|]. rewrite Nat.iter_succ. by split; [rewrite <- IH1|rewrite <- IH2]. Qed.

Lemma underway_start s i r f h : serving s i r -> with_intr (with_io s h) f = underway s i r (h_mem s) f h.
Proof. intros Hs. rewrite <- (underway_id s i r Hs) at 1. done. Qed.

(** Nothing is left to do. *)
Lemma do_hd_empty s : current_request (h_blk s) !! HD_MAJOR = None -> hd_fuel <> 0%nat -> do_hd_request s = (Ret tt, s).
Proof.
  intros Hc Hf. unfold do_hd_request. destruct hd_fuel as [|fuel]; [done|]. cbn [do_hd_loop].
  assert (on_blk (INIT_REQUEST HD_MAJOR) s = (Ret None, s)) as E by (unfold on_blk, INIT_REQUEST; rewrite bind_get, Hc; by destruct s). by mrun E.
Qed.

(** C26: reading from the hard disk.  A request to read that can be served becomes one command,
    and after as many interrupts as it has sectors the buffer's memory holds these sectors of the
    drive, counted from the start of the partition, no other byte of memory has changed, the
    contents of the disk are what they were, and the driver goes on with the rest of its queue. *)
Theorem hd_read_ok s i r bh v part info :
  wanted heads sects s i r bh v part info -> r_cmd r = READ -> dev (h_io s) = Idle -> hd_fuel <> 0%nat ->
  let lba := r_sector r + start_sect part in
  exists s', (do_hd_request;; hd_interrupts (Z.to_nat (r_nr_sectors r))) s = do_hd_request s' /\ served s s' i r bh v /\
    sector (h_io s') = sector (h_io s) /\
    forall a, load_byte (h_mem s') a =
      if decide (r_buffer r <= a < r_buffer r + 512 * r_nr_sectors r)
      then nth (Z.to_nat ((a - r_buffer r) mod 512)) (word_bytes (sector (h_io s) (drive_of r) (lba + (a - r_buffer r) / 512))) 0
      else load_byte (h_mem s) a.
Proof.
  intros W Hcmd Hidle Hfuel lba. destruct (do_hd_read _ _ _ _ _ _ _ W Hcmd Hidle Hfuel) as (h & E & Hs & Hd).
  pose proof (wa_serving _ _ _ _ _ _ _ W) as Hsv. pose proof (wa_sectors _ _ _ _ _ _ _ W) as Hn. destruct (wa_buffer _ _ _ _ _ _ _ W) as (Hbh & Hv & Hl).
  rewrite (underway_start s i r _ _ Hsv) in E. rewrite (bind_Ret _ _ _ _ _ E). destruct (Z.to_nat (r_nr_sectors r)) as [|k] eqn:Ek; [lia|].
  destruct (read_all s i r Hsv k r (h_mem s) h (drive_of r) lba) as (h' & Hs' & Hd' & E'); [rewrite Hd; f_equal; lia|lia|].
  rewrite E'. destruct (iter_got (S k) r) as [Hb Hx].
  destruct (finish_ok s i r _ bh v (fetch (S k) (sector h (drive_of r)) lba (r_buffer r) (h_mem s)) h' Hsv Hb Hx Hbh Hv Hl Hd') as (s' & E2 & Hsd & Hm & Hio).
  exists s'. split; [exact E2|]. split; [done|]. split; [by rewrite Hio, Hs', Hs|]. intros a. rewrite Hm, fetch_lookup; [|intros; apply sector_words].
  rewrite Hs. replace (512 * r_nr_sectors r) with (512 * Z.of_nat (S k)) by lia. done.
Qed.

(** The data of a write is asked for at the first look. *)
Lemma wait_drq_run s d l n k : dev (h_io s) = Writing d l n -> wait_drq (S k) s = (Ret DRQ_STAT, with_io s (IoIn HD_STATUS :: h_io s)).
Proof. intros Hd. cbn [wait_drq]. mrun (hd_inb_run s HD_STATUS). by rewrite (dev_drq _ _ _ _ Hd). Qed.

Lemma do_hd_write s i r bh v part info (lba := r_sector r + start_sect part) :
  wanted heads sects s i r bh v part info -> r_cmd r = WRITE -> dev (h_io s) = Idle -> hd_fuel <> 0%nat ->
  exists h, do_hd_request s = (Ret tt, underway s i r (h_mem s) (Some write_intr_p) h) /\
    written (sector (h_io s)) (sector h) (drive_of r) lba 1 (h_mem s) (r_buffer r) /\
    dev h = (if r_nr_sectors r =? 1 then Idle else Writing (drive_of r) (lba + 1) (r_nr_sectors r - 1)).
Proof.
  intros W Hcmd Hidle Hfuel. unfold do_hd_request. destruct hd_fuel as [|fuel]; [done|]. pose proof (wa_serving _ _ _ _ _ _ _ W) as Hsv.
  destruct (do_hd_valid fuel _ _ _ _ _ _ _ W) as (sec & head & cyl & H1 & H2 & H3 & H15 & Hlba & ->). rewrite Hcmd. change (WRITE =? WRITE) with true. cbn match.
  pose proof (drive_range _ _ _ _ _ _ _ W) as Hd. destruct (aside_status (h_io s)) as [Hd1 Hs1].
  mrun (hd_out_run s _ (r_nr_sectors r) sec _ cyl WIN_WRITE write_intr_p info Hd H15 (proj1 (wa_info _ _ _ _ _ _ _ W))).
  destruct (dev_command (IoIn HD_STATUS :: h_io s) (hi_ctl info) (Z.shiftr (hi_wpcom info) 2) (r_nr_sectors r) sec cyl head (drive_of r) WIN_WRITE)
    as (Hsec & _ & Hwr); [by rewrite Hd1|done|apply W|done|done|done|]. cbv zeta in *. specialize (Hwr eq_refl). rewrite Hlba in Hwr. rewrite Hs1 in Hsec.
  set (h := command_io _ _ _ _ _ _ _ _ ++ _) in *. rewrite (underway_start s i r _ h Hsv).
  replace (Z.to_nat 3000) with (S (Z.to_nat 2999)) by lia.
  mrun (wait_drq_run (underway s i r (h_mem s) (Some write_intr_p) h) _ _ _ (Z.to_nat 2999) Hwr). change (negb (istrue DRQ_STAT)) with false. cbn match.
  change (with_io _ _) with (underway s i r (h_mem s) (Some write_intr_p) (IoIn HD_STATUS :: h)).
  mrun (hd_current_run _ _ _ (serving_underway s i r r (h_mem s) (Some write_intr_p) (IoIn HD_STATUS :: h) Hsv)). rewrite port_write_run.
  eexists. split; [reflexivity|]. destruct (aside_status h) as [Hd2 Hs2]. pose proof (wa_sectors _ _ _ _ _ _ _ W) as [Hn _].
  assert (dev (IoIn HD_STATUS :: h) = Writing (drive_of r) lba (r_nr_sectors r)) as Hw by (by rewrite Hd2).
  split; [apply (sector_sent _ _ _ _ _ Hw Hn); [apply length_load_words|done|by rewrite Hs2, Hsec]|].
  by apply (dev_write _ _ _ _ _ Hw Hn), length_load_words.
Qed.

(** C27: writing to the hard disk.  After as many interrupts as the request has sectors, these
    sectors of the partition hold the buffer's memory, no other sector of any drive has changed,
    memory is what it was, and the driver goes on with the rest of its queue. *)
Theorem hd_write_ok s i r bh v part info :
  wanted heads sects s i r bh v part info -> r_cmd r = WRITE -> dev (h_io s) = Idle -> hd_fuel <> 0%nat ->
  exists s', (do_hd_request;; hd_interrupts (Z.to_nat (r_nr_sectors r))) s = do_hd_request s' /\ served s s' i r bh v /\ h_mem s' = h_mem s /\
    written (sector (h_io s)) (sector (h_io s')) (drive_of r) (r_sector r + start_sect part) (r_nr_sectors r) (h_mem s) (r_buffer r).
Proof.
  intros W Hcmd Hidle Hfuel. destruct (do_hd_write _ _ _ _ _ _ _ W Hcmd Hidle Hfuel) as (h & E & Hw & Hd).
  pose proof (wa_serving _ _ _ _ _ _ _ W) as Hsv. pose proof (wa_sectors _ _ _ _ _ _ _ W) as Hn. destruct (wa_buffer _ _ _ _ _ _ _ W) as (Hbh & Hv & Hl).
  rewrite (bind_Ret _ _ _ _ _ E). destruct (Z.to_nat (r_nr_sectors r)) as [|k] eqn:Ek; [lia|]. assert (r_nr_sectors r = Z.of_nat (S k)) as Er by lia.
  destruct (write_all s i r Hsv k r (h_mem s) h (drive_of r) (r_sector r + start_sect part)) as (h' & r' & Hw' & Hd' & Hb & Hx & E'); [by rewrite <- Er|done|].
  rewrite E'. destruct (finish_ok s i r r' bh v (h_mem s) h' Hsv Hb Hx Hbh Hv Hl Hd') as (s' & E2 & Hsd & Hm & Hio).
  exists s'. split; [exact E2|]. split; [done|]. split; [done|]. rewrite Hio, Er. replace (Z.of_nat (S k)) with (1 + Z.of_nat k) by lia.
  apply (written_join _ (sector h)); [lia|lia|done|]. by rewrite Z.mul_1_r.
Qed.
End Served.

(** ** Faults *)

Section Faults.
Context `{HdEnv}.

Lemma busy_loop_returns n : forall s, exists s', busy_loop n s = (Ret tt, s').
Proof.
  induction n as [|n IH]; intros s; [by exists s|]. cbn [busy_loop]. mrun (hd_inb_run s HD_STATUS). destruct (_ =? _); [by eexists|]. apply IH.
Qed.

(** The test for a busy drive never fails, whatever the controller says. *)
Lemma drive_busy_never s : exists s', drive_busy s = (Ret 0, s').
Proof.
  unfold drive_busy. destruct (busy_loop_returns (Z.to_nat 10000) s) as (s1 & E). mrun E. mrun (hd_inb_run s1 HD_STATUS). cbv zeta.
  destruct (_ =? READY_STAT); by eexists.
Qed.

(** The seventh error of the last request of the queue: [bad_rw_intr] ends the request, which
    leaves no current one, and then reads the errors of the current request through the null
    pointer. *)
Lemma hd_last_error s i r bh v :
  serving s i r -> r_errors r = 6 -> r_next r = None -> r_bh r = Some bh -> bufs (h_blk s) !! bh = Some v -> istrue (b_lock v) = true ->
  exists s', bad_rw_intr s = (Undef "CURRENT", s') /\ current_request (h_blk s') !! HD_MAJOR = None.
Proof.
  intros Hs He Hx Hbh Hv Hl. unfold bad_rw_intr. destruct (upd_hd_current_run s i r (fun r => r <| r_errors ::= Z.succ |>) Hs) as [E Hs1]. mrun E.
  set (r1 := r <| r_errors ::= Z.succ |>) in *. mrun (hd_current_run _ _ _ Hs1). assert ((MAX_ERRORS <=? r_errors r1) = true) as ->.
  { change (r_errors r1) with (Z.succ (r_errors r)). rewrite He. done. }
  cbn [when]. destruct Hs1 as [Hc1 Hr1]. destruct (end_request_run HD_MAJOR _ i r1 bh v 0 Hc1 Hr1 Hbh Hv Hl ltac:(lia)) as (b' & E1 & [_ C _ _]).
  set (s1 := with_req s i r1) in *. assert (hd_end_request 0 s1 = (Ret tt, s1 <| h_blk := b' |>)) as E2 by (unfold hd_end_request, on_blk; by rewrite E1).
  mrun E2. change (r_next r1) with (r_next r) in C. rewrite Hx in C. assert (current_request b' !! HD_MAJOR = None) as Hn by (rewrite C; apply lookup_delete_eq).
  exists (s1 <| h_blk := b' |>). split; [|exact Hn]. unfold hd_current, on_blk, CURRENT, mbind, M_bind, get. cbn [h_blk]. 
  change (h_blk (s1 <| h_blk := b' |>)) with b'. by rewrite Hn.
Qed.
End Faults.

(** ** A controller *)

(** A controller of two drives with 4 heads and 17 sectors per track that is always ready. *)
Record at_ctl := mk_at { a_phase : phase; a_disk : gmap (Z * Z) (list Z); a_nsect : Z; a_sect : Z; a_lcyl : Z; a_hcyl : Z; a_cur : Z }.

#[export] Instance eta_at : Eta at_ctl := fun a => mk_at (a_phase a) (a_disk a) (a_nsect a) (a_sect a) (a_lcyl a) (a_hcyl a) (a_cur a).

Definition at_drive (a : at_ctl) : Z := Z.land (Z.shiftr (a_cur a) 4) 1.
Definition at_lba (a : at_ctl) : Z := ((a_lcyl a + 256 * a_hcyl a) * 4 + Z.land (a_cur a) 15) * 17 + (a_sect a - 1).

Definition at_out (v p : Z) (a : at_ctl) : at_ctl :=
  if p =? 0x1f2 then a <| a_nsect := v |> else if p =? 0x1f3 then a <| a_sect := v |>
  else if p =? 0x1f4 then a <| a_lcyl := v |> else if p =? 0x1f5 then a <| a_hcyl := v |> else if p =? 0x1f6 then a <| a_cur := v |>
  else if p =? 0x1f7 then
    (if v =? WIN_READ then a <| a_phase := Reading (at_drive a) (at_lba a) (a_nsect a) |>
     else if v =? WIN_WRITE then a <| a_phase := Writing (at_drive a) (at_lba a) (a_nsect a) |> else a)
  else a.

Definition at_step (e : io) (a : at_ctl) : at_ctl :=
  match e, a_phase a with
  | IoOut v p, _ => at_out v p a
  | IoInWords _, Reading d l n => a <| a_phase := if n =? 1 then Idle else Reading d (l + 1) (n - 1) |>
  | IoOutWords ws, Writing d l n =>
      a <| a_phase := if n =? 1 then Idle else Writing d (l + 1) (n - 1) |>
        <| a_disk ::= if decide (length ws = 256%nat) then <[(d, l) := ws]> else id |>
  | _, _ => a
  end.

Section Controller.
Context (disk0 : gmap (Z * Z) (list Z)).

Definition replay : list io -> at_ctl := foldr at_step (mk_at Idle disk0 0 0 0 0 0).

Definition at_sector (h : list io) (d l : Z) : list Z :=
  match a_disk (replay h) !! (d, l) with
  | Some ws => if decide (length ws = 256%nat) then ws else replicate 256 0
  | None => replicate 256 0
  end.

#[local] Instance at_env : HdEnv := {|
  hd_in := fun h p => if p =? HD_STATUS then 0x58 else 0;
  hd_words := fun h n => match a_phase (replay h) with Reading d l _ => at_sector h d l | _ => [] end;
  hd_fuel := 64
|}.

Lemma replay_command h ctl wpcom nsect sect cyl head drive cmd (a := replay h) :
  replay (command_io ctl wpcom nsect sect cyl head drive cmd ++ h) =
    at_out (u8 cmd) 0x1f7 (mk_at (a_phase a) (a_disk a) (u8 nsect) (u8 sect) (u8 cyl) (u8 (Z.shiftr cyl 8)) (u8 (Z.lor (Z.lor 0xA0 (Z.shiftl drive 4)) head))).
Proof. reflexivity. Qed.

Lemma cur_decode drive head : 0 <= drive <= 1 -> 0 <= head < 4 ->
  Z.land (Z.shiftr (u8 (Z.lor (Z.lor 0xA0 (Z.shiftl drive 4)) head)) 4) 1 = drive /\ Z.land (u8 (Z.lor (Z.lor 0xA0 (Z.shiftl drive 4)) head)) 15 = head.
Proof.
  intros Hd Hh. assert (drive = 0 \/ drive = 1) as [-> | ->] by lia; assert (head = 0 \/ head = 1 \/ head = 2 \/ head = 3) as [-> | [-> | [-> | ->]]] by lia; done.
Qed.

Lemma cyl_decode cyl : 0 <= cyl < 65536 -> u8 cyl + 256 * u8 (Z.shiftr cyl 8) = cyl.
Proof.
  intros Hc. unfold u8. rewrite Z.shiftr_div_pow2 by lia. change (2 ^ 8) with 256. rewrite (Z.mod_small (cyl / 256)).
  - pose proof (Z_div_mod_eq_full cyl 256). lia.
  - split; [apply Z.div_pos; lia|apply Z.div_lt_upper_bound; lia].
Qed.

#[local] Instance at_disk : AtDisk (fun _ => 4) (fun _ => 17).
Proof.
  refine {| dev := fun h => a_phase (replay h); sector := at_sector |}.
  - intros h d l. unfold at_sector. destruct (a_disk (replay h) !! (d, l)) as [ws|]; [|apply length_replicate]. case_decide; [done|apply length_replicate].
  - reflexivity.
  - reflexivity.
  - intros h [p|v p|n|ws] He; cbn in He; [done| |done|done]. split; unfold at_sector; cbn [replay foldr at_step]; fold (replay h);
      destruct He as [-> | ->]; destruct (replay h); reflexivity.
  - intros h ctl wpcom nsect sect cyl head drive cmd Hi Hd Hn Hs Hh Hc h' lba. unfold h', at_sector. rewrite replay_command.
    destruct (cur_decode drive head Hd Hh) as [E1 E2]. pose proof (cyl_decode cyl Hc) as E3. split; [|split].
    + unfold at_out. cbn. destruct (u8 cmd =? WIN_READ); [done|]. by destruct (u8 cmd =? WIN_WRITE).
    + intros ->. unfold at_out, at_drive, at_lba. cbn - [u8 Z.land Z.shiftr Z.lor Z.shiftl Z.mul Z.add Z.sub]. rewrite !(u8_small nsect), !(u8_small sect) by lia. by rewrite E1, E2, E3.
    + intros ->. unfold at_out, at_drive, at_lba. cbn - [u8 Z.land Z.shiftr Z.lor Z.shiftl Z.mul Z.add Z.sub]. rewrite !(u8_small nsect), !(u8_small sect) by lia. by rewrite E1, E2, E3.
  - intros h d l n Hd Hn. cbn [hd_words at_env]. rewrite Hd. split; [done|]. unfold at_sector. cbn [replay foldr at_step]. fold (replay h). rewrite Hd. by split.
  - intros h d l n ws Hd Hn Hl. unfold at_sector. cbn [replay foldr at_step]. fold (replay h). rewrite Hd. split; [done|]. intros d' l'. cbn.
    rewrite (decide_True _ _ Hl). destruct (decide (d' = d /\ l' = l)) as [[-> ->]|Hne].
    + rewrite lookup_insert_eq. by rewrite (decide_True _ _ Hl).
    + rewrite lookup_insert_ne by naive_solver. done.
Defined.
End Controller.

(** ** Concrete runs *)

(** Sectors 21 and 22 of the first drive hold ones and twos. *)
Definition disk1 : gmap (Z * Z) (list Z) := {[(0, 21) := replicate 256 1; (0, 22) := replicate 256 2]}.

#[local] Instance env1 : HdEnv := at_env disk1.
#[local] Instance ctl1 : AtDisk (fun _ => 4) (fun _ => 17) := at_disk disk1.

Definition info1 : hd_i_struct := mk_hd_i 4 17 600 0 0 8.
Definition part1 : hd_struct := mk_hd 17 1000.
(** Two sectors from sector 4 of the first partition, for the buffer 7 at 4096. *)
Definition req1 (cmd : Z) : request := mk_request 0x301 cmd 0 4 2 4096 None (Some 7) None.
Definition locked : buffer := mk_buffer 4096 2 0x301 0 0 1.
Definition hd_demo (cmd : Z) : hst :=
  mk_hst (mk_blk [req1 cmd] {[HD_MAJOR := 0%nat]} {[7 := locked]} [] []) (store_mem 4096 [5; 6] ∅) [info1; info1] 1
    (mk_hd 0 40800 :: part1 :: replicate 8 (mk_hd 0 0)) 0 0 None [].

Lemma req1_wanted cmd : wanted (fun _ => 4) (fun _ => 17) (hd_demo cmd) 0 (req1 cmd) 7 locked part1 info1.
Proof.
  split; try (cbn; lia); done.
Qed.

(** The queue is empty after the only request. *)
Lemma demo_last cmd s' : served (hd_demo cmd) s' 0 (req1 cmd) 7 locked -> do_hd_request s' = (Ret tt, s').
Proof.
  intros Hs. apply do_hd_empty; [|discriminate]. rewrite (sv_current _ _ _ _ _ _ Hs). cbn [r_next req1]. apply lookup_delete_eq.
Qed.

Lemma hd_read_ok_witness : exists s', (do_hd_request;; hd_interrupts 2) (hd_demo READ) = (Ret tt, s') /\
  load_byte (h_mem s') 4096 = 1 /\ load_byte (h_mem s') 4608 = 2 /\ do_hd s' = None.
Proof.
  assert (dev (h_io (hd_demo READ)) = Idle) as Hidle by reflexivity.
  destruct (hd_read_ok (hd_demo READ) 0 (req1 READ) 7 locked part1 info1 (req1_wanted READ) eq_refl Hidle ltac:(discriminate)) as (s' & E & Hs & _ & Hm).
  exists s'. split; [exact (eq_trans E (demo_last READ s' Hs))|]. split; [|split; [|apply (sv_rest _ _ _ _ _ _ Hs)]]; rewrite Hm; vm_compute; reflexivity.
Defined.

Lemma hd_write_ok_witness : exists s', (do_hd_request;; hd_interrupts 2) (hd_demo WRITE) = (Ret tt, s') /\
  head (sector (h_io s') 0 21) = Some 1541 /\ sector (h_io s') 0 23 = replicate 256 0.
Proof.
  assert (dev (h_io (hd_demo WRITE)) = Idle) as Hidle by reflexivity.
  destruct (hd_write_ok (hd_demo WRITE) 0 (req1 WRITE) 7 locked part1 info1 (req1_wanted WRITE) eq_refl Hidle ltac:(discriminate)) as (s' & E & Hs & _ & Hw).
  exists s'. split; [exact (eq_trans E (demo_last WRITE s' Hs))|]. split; rewrite Hw; vm_compute; reflexivity.
Defined.

Lemma hd_last_error_witness : exists s', bad_rw_intr (with_req (hd_demo READ) 0 ((req1 READ) <| r_errors := 6 |>)) = (Undef "CURRENT", s').
Proof.
  destruct (hd_last_error (with_req (hd_demo READ) 0 ((req1 READ) <| r_errors := 6 |>)) 0 ((req1 READ) <| r_errors := 6 |>) 7 locked) as (s' & E & _);
    [by split|reflexivity..|]. by exists s'.
Defined.
