(* ===== verification/Floppy.v ===== *)
(** The floppy disk driver ([linux-0.11/kernel/blk_drv/floppy.c], [include/linux/fdreg.h] and the
    interrupt entry of [kernel/system_call.s]).

    The state holds the scheduler's part of the kernel, with the motors and the timers ([f_k]),
    the request queues ([f_blk]), the bytes of memory that transfers use, the variables of the
    file and the history of the ports, newest first; what [sched.c] writes to the ports goes into
    the history too.  The pointer [floppy] is the index of an element of [floppy_type], and
    [do_floppy] one of the four handlers.  The controller is not part of the program: the class
    [FdEnv] says what a read of a port returns after a history.

    [do_fd_request] is called again from the routines that it calls; [fd_depth] bounds how deep,
    and [fd_fuel] the jumps to [repeat:]. *)

From S2P Require Import Prelude Memory Task Sched FsDefs BlkReq.

Definition FD_MAJOR : Z := 2.
Definition TYPE (x : Z) : Z := Z.shiftr x 2.
Definition FD_MAX_ERRORS : Z := 8.
Definition MAX_REPLIES : Z := 7.

Definition FD_STATUS : Z := 0x3f4.
Definition FD_DATA : Z := 0x3f5.
Definition FD_DIR : Z := 0x3f7.
Definition FD_DCR : Z := 0x3f7.
Definition STATUS_BUSY : Z := 0x10.
Definition STATUS_DIR : Z := 0x40.
Definition STATUS_READY : Z := 0x80.
Definition FD_RECALIBRATE : Z := 0x07.
Definition FD_SEEK : Z := 0x0F.
Definition FD_READ : Z := 0xE6.
Definition FD_WRITE : Z := 0xC5.
Definition FD_SENSEI : Z := 0x08.
Definition FD_SPECIFY : Z := 0x03.
Definition DMA_READ : Z := 0x46.
Definition DMA_WRITE : Z := 0x4A.

Record floppy_struct := mk_floppy {
  fl_size : Z; fl_sect : Z; fl_head : Z; fl_track : Z; fl_stretch : Z; fl_gap : Z; fl_rate : Z; fl_spec1 : Z
}.

Definition floppy_type : list floppy_struct :=
  [mk_floppy 0 0 0 0 0 0x00 0x00 0x00;
   mk_floppy 720 9 2 40 0 0x2A 0x02 0xDF;
   mk_floppy 2400 15 2 80 0 0x1B 0x00 0xDF;
   mk_floppy 720 9 2 40 1 0x2A 0x02 0xDF;
   mk_floppy 1440 9 2 80 0 0x2A 0x02 0xDF;
   mk_floppy 720 9 2 40 1 0x23 0x01 0xDF;
   mk_floppy 1440 9 2 80 0 0x23 0x01 0xDF;
   mk_floppy 2880 18 2 80 0 0x1B 0x00 0xCF].

(** What [do_floppy] points to. *)
Inductive fd_intr := rw_interrupt_p | seek_interrupt_p | recal_interrupt_p | reset_interrupt_p.

(** Accesses to the ports. *)
Inductive fd_io := FIn (port : Z) | FOut (v port : Z).

Record fdst := mk_fdst {
  f_k : kst; f_blk : blk; f_mem : gmap Z Z;
  fd_recalibrate : Z; fd_reset : Z; fd_seek : Z; reply_buffer : list Z; cur_spec1 : Z; cur_rate : Z;
  floppy_p : Z; current_drive : Z; fd_sector : Z; fd_head : Z; fd_track : Z; seek_track : Z; current_track : Z;
  fd_command : Z; do_floppy : option fd_intr; f_io : list fd_io
}.

#[export] Instance eta_fdst : Eta fdst := fun s =>
  mk_fdst (f_k s) (f_blk s) (f_mem s) (fd_recalibrate s) (fd_reset s) (fd_seek s) (reply_buffer s) (cur_spec1 s) (cur_rate s)
    (floppy_p s) (current_drive s) (fd_sector s) (fd_head s) (fd_track s) (seek_track s) (current_track s)
    (fd_command s) (do_floppy s) (f_io s).

Class FdEnv := {
  fd_in : list fd_io -> Z -> Z;
  tmp_floppy_area : Z;
  fd_others : kst -> kst;
  fd_fuel : nat;
  fd_depth : nat
}.

(** The timer functions, and the queue of [wait_on_floppy_select]. *)
Definition floppy_on_fn : Z := 1.
Definition transfer_fn : Z := 2.
Definition wait_on_floppy_select : Z := 1004.

(** [rep ; movsl], [n] long words. *)
Fixpoint copy_longs (n : nat) (from to : Z) (m : gmap Z Z) : gmap Z Z :=
  match n with
  | O => m
  | S n => copy_longs n (from + 4) (to + 4) (store_mem to (map (fun k => load_byte m (from + k)) [0; 1; 2; 3]) m)
  end.

Section Floppy.
Context `{FdEnv}.

Definition on_fblk {A} (m : M blk A) : M fdst A := fun s => let '(r, b) := m (f_blk s) in (r, s <| f_blk := b |>).

(** A routine of the scheduler; its new port writes are entered into the history. *)
Definition on_kst {A} (m : M kst A) : M fdst A := fun s =>
  let '(r, k) := m (f_k s) in
  let new := take (length (ports k) - length (ports (f_k s))) (ports k) in
  (r, s <| f_k := k |> <| f_io ::= app (map (fun '(v, p) => FOut v p) new) |>).

Definition fd_inb (port : Z) : M fdst Z :=
  s ← get; modify (fun s => s <| f_io ::= cons (FIn port) |>);; mret (u8 (fd_in (f_io s) port)).
Definition fd_outb (v port : Z) : M fdst unit := modify (fun s => s <| f_io ::= cons (FOut (u8 v) port) |>).
Definition fd_printk (m : string) : M fdst unit := on_fblk (message m).

Definition fd_current : M fdst request := on_fblk (CURRENT FD_MAJOR).
Definition upd_fd_current (f : request -> request) : M fdst unit := on_fblk (upd_CURRENT FD_MAJOR f).

(** [floppy->...] *)
Definition get_floppy : M fdst floppy_struct := s ← get; of_option "floppy_type" (floppy_type !! Z.to_nat (floppy_p s)).

(** [end_request], whose [DEVICE_OFF] is [floppy_off] here. *)
Definition fd_end_request (uptodate : Z) : M fdst unit :=
  r ← fd_current;
  on_kst (floppy_off (Z.land (r_dev r) 3));;
  on_fblk (end_request FD_MAJOR uptodate).

Definition floppy_deselect (nr : Z) : M fdst unit :=
  s ← get;
  when (negb (nr =? Z.land (current_DOR (floppy (f_k s))) 3)) (fd_printk "floppy_deselect: drive not selected");;
  on_kst (upd_floppy (fun m => m <| selected := 0 |>));;
  on_kst (Sched.wake_up wait_on_floppy_select).

(** [while ((current_DOR & 3) != nr && selected) interruptible_sleep_on(&wait_on_floppy_select);] *)
Fixpoint select_loop (n : nat) (nr : Z) : M fdst unit :=
  match n with
  | O => nofuel
  | S n =>
      s ← get;
      let m := floppy (f_k s) in
      if negb (Z.land (current_DOR m) 3 =? nr) && istrue (selected m) then
        on_kst (interruptible_sleep_on fd_others fd_fuel wait_on_floppy_select);; select_loop n nr
      else mret tt
  end.

Fixpoint change_loop (n : nat) (nr : Z) : M fdst Z :=
  match n with
  | O => nofuel
  | S n =>
      on_kst (floppy_on fd_others fd_fuel nr);;
      select_loop fd_fuel nr;;
      s ← get;
      if negb (Z.land (current_DOR (floppy (f_k s))) 3 =? nr) then change_loop n nr else
      v ← fd_inb FD_DIR;
      on_kst (floppy_off nr);;
      mret (if istrue (Z.land v 0x80) then 1 else 0)
  end.

Definition floppy_change (nr : Z) : M fdst Z := change_loop fd_fuel nr.

(** ** Programming the DMA channel and talking to the controller *)

Definition copy_buffer (from to : Z) : M fdst unit := modify (fun s => s <| f_mem ::= copy_longs 256 from to |>).

Definition setup_DMA : M fdst unit :=
  r ← fd_current;
  let addr := r_buffer r in
  s ← get;
  let high := 0x100000 <=? addr in
  when (high && (fd_command s =? FD_WRITE)) (copy_buffer (r_buffer r) tmp_floppy_area);;
  let addr := if high then tmp_floppy_area else addr in
  fd_outb (Z.lor 4 2) 10;;
  let mode := if fd_command s =? FD_READ then DMA_READ else DMA_WRITE in
  fd_outb mode 12;;
  fd_outb mode 11;;
  fd_outb addr 4;;
  fd_outb (Z.shiftr addr 8) 4;;
  fd_outb (Z.shiftr (Z.shiftr addr 8) 8) 0x81;;
  fd_outb 0xff 5;;
  fd_outb 3 5;;
  fd_outb (Z.lor 0 2) 10.

Fixpoint send_loop (n : nat) (byte : Z) : M fdst unit :=
  match n with
  | O =>
      modify (fun s => s <| fd_reset := 1 |>);;
      fd_printk "Unable to send byte to FDC"
  | S n =>
      v ← fd_inb FD_STATUS;
      if Z.land v (Z.lor STATUS_READY STATUS_DIR) =? STATUS_READY then fd_outb byte FD_DATA else send_loop n byte
  end.

Definition output_byte (byte : Z) : M fdst unit :=
  s ← get; if istrue (fd_reset s) then mret tt else send_loop (Z.to_nat 10000) byte.

Definition status_timeout : M fdst Z :=
  modify (fun s => s <| fd_reset := 1 |>);;
  fd_printk "Getstatus times out";;
  mret (-1).

Fixpoint result_loop (n : nat) (i : Z) : M fdst Z :=
  match n with
  | O => status_timeout
  | S n =>
      v ← fd_inb FD_STATUS;
      let status := Z.land v (Z.lor STATUS_DIR (Z.lor STATUS_READY STATUS_BUSY)) in
      if status =? STATUS_READY then mret i else
      if status =? Z.lor STATUS_DIR (Z.lor STATUS_READY STATUS_BUSY) then
        if MAX_REPLIES <=? i then status_timeout else
        b ← fd_inb FD_DATA;
        modify (fun s => s <| reply_buffer ::= <[Z.to_nat i := b]> |>);;
        result_loop n (i + 1)
      else result_loop n i
  end.

Definition result : M fdst Z :=
  s ← get; if istrue (fd_reset s) then mret (-1) else result_loop (Z.to_nat 10000) 0.

(** [ST0], [ST1], [ST2] *)
Definition ST (k : nat) : M fdst Z := gets (fun s => nth k (reply_buffer s) 0).

Definition bad_flp_intr : M fdst unit :=
  upd_fd_current (fun r => r <| r_errors ::= Z.succ |>);;
  r ← fd_current;
  when (FD_MAX_ERRORS <? r_errors r) (
    s ← get;
    floppy_deselect (current_drive s);;
    fd_end_request 0);;
  r ← fd_current;
  if Z.quot FD_MAX_ERRORS 2 <? r_errors r then modify (fun s => s <| fd_reset := 1 |>)
  else modify (fun s => s <| fd_recalibrate := 1 |>).

(** ** The routines that call do_fd_request *)

Section Again.
Context (do_fd_request : M fdst unit).

Definition again_if_reset : M fdst unit := s ← get; when (istrue (fd_reset s)) do_fd_request.

Definition rw_interrupt : M fdst unit :=
  n ← result;
  st0 ← ST 0; st1 ← ST 1; st2 ← ST 2;
  if negb (n =? 7) || istrue (Z.land st0 0xf8) || istrue (Z.land st1 0xbf) || istrue (Z.land st2 0x73) then
    (if istrue (Z.land st1 0x02) then
       fd_printk "Drive is write protected";;
       s ← get;
       floppy_deselect (current_drive s);;
       fd_end_request 0
     else bad_flp_intr);;
    do_fd_request
  else
  s ← get;
  when (fd_command s =? FD_READ) (
    r ← fd_current;
    when (0x100000 <=? u32 (r_buffer r)) (copy_buffer tmp_floppy_area (r_buffer r)));;
  floppy_deselect (current_drive s);;
  fd_end_request 1;;
  do_fd_request.

Definition head_drive (s : fdst) : Z := Z.lor (Z.shiftl (fd_head s) 2) (current_drive s).

Definition setup_rw_floppy : M fdst unit :=
  setup_DMA;;
  modify (fun s => s <| do_floppy := Some rw_interrupt_p |>);;
  s ← get;
  output_byte (fd_command s);;
  output_byte (head_drive s);;
  output_byte (fd_track s);;
  output_byte (fd_head s);;
  output_byte (fd_sector s);;
  output_byte 2;;
  f ← get_floppy;
  output_byte (fl_sect f);;
  output_byte (fl_gap f);;
  output_byte 0xFF;;
  again_if_reset.

Definition seek_interrupt : M fdst unit :=
  output_byte FD_SENSEI;;
  n ← result;
  st0 ← ST 0; st1 ← ST 1;
  s ← get;
  if negb (n =? 2) || negb (Z.land st0 0xF8 =? 0x20) || negb (st1 =? seek_track s) then
    bad_flp_intr;;
    do_fd_request
  else
  modify (fun s => s <| current_track := st1 |>);;
  setup_rw_floppy.

Definition transfer : M fdst unit :=
  f ← get_floppy;
  s ← get;
  when (negb (cur_spec1 s =? fl_spec1 f)) (
    modify (fun s => s <| cur_spec1 := fl_spec1 f |>);;
    output_byte FD_SPECIFY;;
    output_byte (fl_spec1 f);;
    output_byte 6);;
  s ← get;
  when (negb (cur_rate s =? fl_rate f)) (
    modify (fun s => s <| cur_rate := fl_rate f |>);;
    fd_outb (fl_rate f) FD_DCR);;
  s ← get;
  if istrue (fd_reset s) then do_fd_request else
  if negb (istrue (fd_seek s)) then setup_rw_floppy else
  modify (fun s => s <| do_floppy := Some seek_interrupt_p |>);;
  (if istrue (seek_track s) then
     output_byte FD_SEEK;;
     output_byte (head_drive s);;
     output_byte (seek_track s)
   else
     output_byte FD_RECALIBRATE;;
     output_byte (head_drive s));;
  again_if_reset.

Definition recal_interrupt : M fdst unit :=
  output_byte FD_SENSEI;;
  n ← result;
  st0 ← ST 0;
  (if negb (n =? 2) || (Z.land st0 0xE0 =? 0x60) then modify (fun s => s <| fd_reset := 1 |>)
   else modify (fun s => s <| fd_recalibrate := 0 |>));;
  do_fd_request.

Definition recalibrate_floppy : M fdst unit :=
  modify (fun s => s <| fd_recalibrate := 0 |> <| current_track := 0 |> <| do_floppy := Some recal_interrupt_p |>);;
  s ← get;
  output_byte FD_RECALIBRATE;;
  output_byte (head_drive s);;
  again_if_reset.

Definition reset_interrupt : M fdst unit :=
  output_byte FD_SENSEI;;
  result;;
  output_byte FD_SPECIFY;;
  s ← get;
  output_byte (cur_spec1 s);;
  output_byte 6;;
  do_fd_request.

(** [add_timer], which calls the function at once when there is nothing to wait for. *)
Definition add_timer_call (jiffies fn : Z) (call : M fdst unit) : M fdst unit :=
  on_kst (add_timer jiffies fn);;
  when (jiffies <=? 0) call.

Definition floppy_on_interrupt : M fdst unit :=
  on_kst (upd_floppy (fun m => m <| selected := 1 |>));;
  s ← get;
  let dor := current_DOR (floppy (f_k s)) in
  if negb (current_drive s =? Z.land dor 3) then
    let dor := Z.lor (Z.land dor 0xFC) (current_drive s) in
    on_kst (upd_floppy (fun m => m <| current_DOR := dor |>));;
    fd_outb dor FD_DOR;;
    add_timer_call 2 transfer_fn transfer
  else transfer.
End Again.

Definition unexpected_floppy_interrupt : M fdst unit :=
  output_byte FD_SENSEI;;
  n ← result;
  st0 ← ST 0;
  if negb (n =? 2) || (Z.land st0 0xE0 =? 0x60) then modify (fun s => s <| fd_reset := 1 |>)
  else modify (fun s => s <| fd_recalibrate := 1 |>).

Definition reset_floppy : M fdst unit :=
  modify (fun s => s <| fd_reset := 0 |> <| cur_spec1 := -1 |> <| cur_rate := -1 |> <| fd_recalibrate := 1 |>);;
  fd_printk "Reset-floppy called";;
  modify (fun s => s <| do_floppy := Some reset_interrupt_p |>);;
  s ← get;
  let dor := current_DOR (floppy (f_k s)) in
  fd_outb (Z.land dor (Z.lnot 0x04)) FD_DOR;;
  fd_outb dor FD_DOR.

(** ** Requests *)

(** Track, head and sector of a block; dividing by zero is a trap. *)
Definition fd_place (block : Z) (f : floppy_struct) : option (Z * Z * Z) :=
  if (fl_sect f =? 0) || (fl_head f =? 0) then None else
  let sector := block mod fl_sect f in
  let block := block / fl_sect f in
  Some (u8 (block / fl_head f), u8 (block mod fl_head f), u8 (u8 sector + 1)).

(** From the label [repeat:] on. *)
Fixpoint do_fd_loop (again : M fdst unit) (n : nat) : M fdst unit :=
  match n with
  | O => nofuel
  | S n =>
      c ← on_fblk (INIT_REQUEST FD_MAJOR);
      match c with
      | None => mret tt
      | Some r =>
          let drive := Z.land (r_dev r) 3 in
          modify (fun s => s <| floppy_p := TYPE (MINOR (r_dev r)) |>);;
          s ← get;
          when (negb (current_drive s =? drive)) (modify (fun s => s <| fd_seek := 1 |>));;
          modify (fun s => s <| current_drive := drive |>);;
          f ← get_floppy;
          let block := r_sector r in
          if fl_size f <? u32 (block + 2) then fd_end_request 0;; do_fd_loop again n else
          '(track, head, sector) ← of_option "divide error" (fd_place block f);
          let seek_tr := u8 (Z.shiftl track (fl_stretch f)) in
          modify (fun s => s <| fd_sector := sector |> <| fd_head := head |> <| fd_track := track |> <| seek_track := seek_tr |>);;
          s ← get;
          when (negb (seek_tr =? current_track s)) (modify (fun s => s <| fd_seek := 1 |>));;
          (if r_cmd r =? READ then modify (fun s => s <| fd_command := FD_READ |>)
           else if r_cmd r =? WRITE then modify (fun s => s <| fd_command := FD_WRITE |>)
           else panic "do_fd_request: unknown command");;
          t ← on_kst (ticks_to_floppy_on drive);
          add_timer_call t floppy_on_fn (floppy_on_interrupt again)
      end
  end.

Definition do_fd_with (again : M fdst unit) : M fdst unit :=
  modify (fun s => s <| fd_seek := 0 |>);;
  s ← get;
  if istrue (fd_reset s) then reset_floppy else
  if istrue (fd_recalibrate s) then recalibrate_floppy again else
  do_fd_loop again fd_fuel.

Fixpoint do_fd_nested (depth : nat) : M fdst unit :=
  match depth with O => nofuel | S depth => do_fd_with (do_fd_nested depth) end.

Definition do_fd_request : M fdst unit := do_fd_nested fd_depth.

(** [_floppy_interrupt]: the handler is taken out of [do_floppy]. *)
Definition floppy_interrupt : M fdst unit :=
  fd_outb 0x20 0x20;;
  s ← get;
  modify (fun s => s <| do_floppy := None |>);;
  match do_floppy s with
  | None => unexpected_floppy_interrupt
  | Some rw_interrupt_p => rw_interrupt do_fd_request
  | Some seek_interrupt_p => seek_interrupt do_fd_request
  | Some recal_interrupt_p => recal_interrupt do_fd_request
  | Some reset_interrupt_p => reset_interrupt do_fd_request
  end.

(** The timer functions. *)
Definition floppy_timer (fn : Z) : M fdst unit :=
  if fn =? floppy_on_fn then floppy_on_interrupt do_fd_request
  else if fn =? transfer_fn then transfer do_fd_request else mret tt.

Definition floppy_init : M fdst unit :=
  v ← fd_inb 0x21;
  fd_outb (Z.land v (Z.lnot 0x40)) 0x21.
End Floppy.
