(* ===== verification/Ramdisk.v ===== *)
(** The ram disk ([linux-0.11/kernel/blk_drv/ramdisk.c]): a part of memory as a block device.

    The state is the request queues, the bytes of memory and the two variables of the file;
    [rd_load], which reads the image through the buffer cache, is in [Setup].  Addresses are 32
    bits wide.  The jumps to [repeat:] take fuel. *)

From S2P Require Import Prelude FsDefs BlkReq.

Definition RD_MAJOR : Z := 1.

Record rdst := mk_rdst { rd_blk : blk; rd_mem : gmap Z Z; rd_start : Z; rd_length : Z }.

#[export] Instance eta_rdst : Eta rdst := fun s => mk_rdst (rd_blk s) (rd_mem s) (rd_start s) (rd_length s).

(** [cld; rep; movsb] *)
Fixpoint memcpy (n : nat) (dest src : Z) (m : gmap Z Z) : gmap Z Z :=
  match n with O => m | S n => memcpy n (dest + 1) (src + 1) (<[dest := load_byte m src]> m) end.

Definition on_rd {A} (m : M blk A) : M rdst A := fun s => let '(r, b) := m (rd_blk s) in (r, s <| rd_blk := b |>).

Definition rd_copy (len dest src : Z) : M rdst unit := modify (fun s => s <| rd_mem ::= memcpy (Z.to_nat (u32 len)) dest src |>).

Fixpoint do_rd_request (fuel : nat) : M rdst unit :=
  match fuel with
  | O => nofuel
  | S fuel =>
      c ← on_rd (INIT_REQUEST RD_MAJOR);
      match c with
      | None => mret tt
      | Some r =>
          s ← get;
          let addr := u32 (rd_start s + Z.shiftl (r_sector r) 9) in
          let len := s32 (Z.shiftl (r_nr_sectors r) 9) in
          if negb (MINOR (r_dev r) =? 1) || (u32 (rd_start s + rd_length s) <? u32 (addr + len)) then
            on_rd (end_request RD_MAJOR 0);; do_rd_request fuel
          else
            (if r_cmd r =? WRITE then rd_copy len addr (r_buffer r)
             else if r_cmd r =? READ then rd_copy len (r_buffer r) addr
             else panic "unknown ramdisk-command");;
            on_rd (end_request RD_MAJOR 1);;
            do_rd_request fuel
      end
  end.

Definition rd_init (mem_start length : Z) : M rdst Z :=
  modify (fun s => s <| rd_start := mem_start |> <| rd_length := length |>
                     <| rd_mem := store_mem mem_start (replicate (Z.to_nat length) 0) (rd_mem s) |>);;
  mret length.
