(* ===== verification/RamdiskSpec.v ===== *)
(** The ram disk serves its whole queue at once, each request in turn, and is memory: what is
    written to a block is read back from it. *)

From S2P Require Import Prelude FsDefs BlkReq BlkReqSpec Ramdisk.

(** ** Copying *)

Lemma memcpy_frame n : forall dest src m a, ~ (dest <= a < dest + Z.of_nat n) -> load_byte (memcpy n dest src m) a = load_byte m a.
Proof.
  induction n as [|n IH]; intros dest src m a Ha; [done|]. cbn [memcpy]. rewrite IH by lia. unfold load_byte. rewrite lookup_insert_ne; [done|lia].
Qed.

(** Parts of memory that do not overlap are copied byte by byte. *)
Lemma memcpy_copy n : forall dest src m k, dest + Z.of_nat n <= src \/ src + Z.of_nat n <= dest -> 0 <= k < Z.of_nat n ->
  load_byte (memcpy n dest src m) (dest + k) = load_byte m (src + k).
Proof.
  induction n as [|n IH]; intros dest src m k Hd Hk; [lia|]. cbn [memcpy]. destruct (decide (k = 0)) as [->|Hne].
  - rewrite memcpy_frame by lia. unfold load_byte. by rewrite !Z.add_0_r, lookup_insert_eq.
  - replace (dest + k) with (dest + 1 + (k - 1)) by lia. rewrite IH by lia. unfold load_byte. rewrite lookup_insert_ne by lia. by replace (src + 1 + (k - 1)) with (src + k) by lia.
Qed.

(** ** Requests *)

(** A request as [make_request] makes it, for addresses that do not wrap around. *)
Record rd_req (r : request) : Prop := {
  rq_major : MAJOR (r_dev r) = RD_MAJOR;
  rq_sector : 0 <= r_sector r < 2097152;
  rq_count : 0 <= r_nr_sectors r < 2097152;
  rq_cmd : r_cmd r = READ \/ r_cmd r = WRITE
}.

Definition rd_fits (s : rdst) (r : request) : bool :=
  (MINOR (r_dev r) =? 1) && (512 * (r_sector r + r_nr_sectors r) <=? rd_length s).

(** What a request does to memory. *)
Definition transfer (s : rdst) (m : gmap Z Z) (r : request) : gmap Z Z :=
  let block := rd_start s + 512 * r_sector r in
  let len := Z.to_nat (512 * r_nr_sectors r) in
  if rd_fits s r then if r_cmd r =? WRITE then memcpy len block (r_buffer r) m else memcpy len (r_buffer r) block m else m.

(** A request of the array that waits with its buffer locked. *)
Definition pending (s : rdst) (p : nat * request) : Prop :=
  reqs (rd_blk s) !! p.1 = Some p.2 /\ rd_req p.2 /\
  exists bh v, r_bh p.2 = Some bh /\ bufs (rd_blk s) !! bh = Some v /\ istrue (b_lock v) = true.

Definition placed (s : rdst) : Prop := 0 <= rd_start s < 1073741824 /\ 0 <= rd_length s < 1073741824.

(** A buffer that was served, with success or not. *)
Definition answered (s s' : rdst) (r : request) : Prop :=
  exists bh v, r_bh r = Some bh /\ bufs (rd_blk s') !! bh = Some v /\ b_uptodate v = b2z (rd_fits s r) /\ b_lock v = 0.

Lemma init_rd_run s i r : current_request (rd_blk s) !! RD_MAJOR = Some i -> pending s (i, r) -> on_rd (INIT_REQUEST RD_MAJOR) s = (Ret (Some r), s).
Proof.
  intros Hc (Hr & Hq & bh & v & Hbh & Hv & Hl). cbn [fst snd] in Hr, Hq, Hbh. unfold on_rd, INIT_REQUEST. rewrite bind_get, Hc. mrun (get_req_run _ _ _ Hr).
  rewrite (rq_major _ Hq), Z.eqb_refl. cbn [negb]. rewrite Hbh. mrun (get_buf_run _ _ _ Hv). rewrite Hl. by destruct s.
Qed.

(** One round of the loop. *)
Lemma rd_round fuel s i r : placed s -> current_request (rd_blk s) !! RD_MAJOR = Some i -> pending s (i, r) ->
  exists b' bh v, do_rd_request (S fuel) s = do_rd_request fuel (mk_rdst b' (transfer s (rd_mem s) r) (rd_start s) (rd_length s)) /\
    r_bh r = Some bh /\ ended RD_MAJOR (rd_blk s) b' i r bh (b2z (rd_fits s r)) v.
Proof.
  intros [Hp1 Hp2] Hc Hpd. cbn [do_rd_request]. rewrite (bind_Ret _ _ _ _ _ (init_rd_run s i r Hc Hpd)), bind_get. cbv zeta.
  destruct Hpd as (Hr & [_ Hs Hn Hcmd] & bh & v & Hbh & Hv & Hl). cbn [fst snd] in *. rewrite !Z.shiftl_mul_pow2 by lia. change (2 ^ 9) with 512.
  rewrite (u32_small (rd_start s + rd_length s)), (s32_small (r_nr_sectors r * 512)), !(u32_small (rd_start s + r_sector r * 512)) by lia.
  rewrite (u32_small (rd_start s + r_sector r * 512 + r_nr_sectors r * 512)) by lia.
  assert (negb (MINOR (r_dev r) =? 1) || (rd_start s + rd_length s <? rd_start s + r_sector r * 512 + r_nr_sectors r * 512) = negb (rd_fits s r)) as ->.
  { unfold rd_fits. rewrite negb_andb. f_equal. destruct (Z.leb_spec (512 * (r_sector r + r_nr_sectors r)) (rd_length s)); cbn; lia. }
  assert (exists b', end_request RD_MAJOR (b2z (rd_fits s r)) (rd_blk s) = (Ret tt, b') /\ ended RD_MAJOR (rd_blk s) b' i r bh (b2z (rd_fits s r)) v)
    as (b' & E & He) by (apply end_request_run; [done..|destruct (rd_fits s r); cbn; lia]).
  exists b', bh, v. split; [|done]. unfold transfer.
  assert (forall u m, u = b2z (rd_fits s r) -> on_rd (end_request RD_MAJOR u) (mk_rdst (rd_blk s) m (rd_start s) (rd_length s)) = (Ret tt, mk_rdst b' m (rd_start s) (rd_length s)))
    as Ee by (intros u m ->; unfold on_rd; cbn [rd_blk]; by rewrite E).
  destruct (rd_fits s r); cbn [negb].
  - rewrite (Z.mul_comm (r_sector r)), (Z.mul_comm (r_nr_sectors r)). destruct Hcmd as [-> | ->]; change (READ =? WRITE) with false; change (READ =? READ) with true; change (WRITE =? WRITE) with true;
      cbn match; unfold rd_copy; rewrite bind_modify, u32_small by lia;
      exact (bind_Ret _ _ _ _ _ (Ee 1 _ eq_refl)).
  - destruct s as [sb sm st sl]. rewrite (bind_Ret _ _ _ _ _ (Ee 0 sm eq_refl)). reflexivity.
Qed.

Lemma rd_done fuel s : current_request (rd_blk s) !! RD_MAJOR = None -> do_rd_request (S fuel) s = (Ret tt, s).
Proof.
  intros Hc. cbn [do_rd_request]. assert (on_rd (INIT_REQUEST RD_MAJOR) s = (Ret None, s)) as E by (unfold on_rd, INIT_REQUEST; rewrite bind_get, Hc; by destruct s).
  by mrun E.
Qed.

Lemma transfer_same s s' m r : rd_start s' = rd_start s -> rd_length s' = rd_length s -> transfer s' m r = transfer s m r /\ rd_fits s' r = rd_fits s r.
Proof. intros E1 E2. unfold transfer, rd_fits. by rewrite E1, E2. Qed.

(** The rest of the queue still waits after a request was ended. *)
Lemma pending_after s b' m i r bh v l : ended RD_MAJOR (rd_blk s) b' i r bh (b2z (rd_fits s r)) v -> r_bh r = Some bh ->
  i ∉ map fst l -> r_bh r ∉ map (fun p => r_bh p.2) l -> Forall (pending s) l -> Forall (pending (mk_rdst b' m (rd_start s) (rd_length s))) l.
Proof.
  intros [R _ B _] Hbh Hi Hb Hl. rewrite Forall_forall in *. intros p Hp. destruct (Hl p Hp) as (Hr & Hq & bh' & v' & Hbh' & Hv' & Hlk).
  split; [|split; [done|exists bh', v'; split; [done|split; [|done]]]].
  - cbn. rewrite R, list_lookup_insert_ne; [done|]. intros ->. apply Hi, list_elem_of_fmap. eauto.
  - cbn. rewrite B, lookup_insert_ne; [done|]. intros ->. apply Hb, list_elem_of_fmap. exists p. by rewrite Hbh, Hbh'.
Qed.

Lemma rd_queue_ok l : forall fuel s, placed s -> queue (reqs (rd_blk s)) (current_request (rd_blk s) !! RD_MAJOR) (map fst l) ->
  NoDup (map fst l) -> NoDup (map (fun p => r_bh p.2) l) -> Forall (pending s) l -> (length l < fuel)%nat ->
  exists s', do_rd_request fuel s = (Ret tt, s') /\ current_request (rd_blk s') !! RD_MAJOR = None /\
    rd_mem s' = foldl (transfer s) (rd_mem s) (map snd l) /\ Forall (fun p => answered s s' p.2) l /\
    (forall b, Some b ∉ map (fun p => r_bh p.2) l -> bufs (rd_blk s') !! b = bufs (rd_blk s) !! b).
Proof.
  induction l as [|[i r] l IH]; intros fuel s Hpl Hq Hni Hnb Hp Hf; (destruct fuel as [|fuel]; [cbn in Hf; lia|]).
  { cbn in Hq. exists s. split; [by apply rd_done|]. by repeat split; [|apply Forall_nil]. }
  cbn [map fst snd queue] in Hq, Hni, Hnb. destruct Hq as (Hc & r' & Hr' & Hq). apply NoDup_cons in Hni as [Hi Hni]. apply NoDup_cons in Hnb as [Hb Hnb].
  apply Forall_cons in Hp as [Hp Hl]. pose proof Hp as (Hr & _). cbn [fst snd] in Hr. rewrite Hr in Hr'. injection Hr' as <-.
  destruct (rd_round fuel s i r Hpl Hc Hp) as (b' & bh & v & E & Hbh & He). rewrite E. set (s1 := mk_rdst b' _ _ _).
  destruct (IH fuel s1) as (s' & E' & Hc' & Hm' & Ha' & Hfr); [done| |done|done|by eapply pending_after|cbn in Hf; lia|].
  { destruct He as [R C _ _]. cbn [s1 rd_blk]. rewrite R, C.
    replace (_ !! RD_MAJOR) with (r_next r) by (destruct (r_next r); [by rewrite lookup_insert_eq|by rewrite lookup_delete_eq]).
    apply (queue_frame (reqs (rd_blk s))); [|done]. intros j Hj. rewrite list_lookup_insert_ne; [done|]. by intros ->. }
  exists s'. split; [done|]. split; [done|]. split; [|split].
  - rewrite Hm'. cbn [map snd foldl s1 rd_mem]. done.
  - apply Forall_cons. split; [|exact Ha']. destruct He as [_ _ B _]. exists bh, (v <| b_uptodate := b2z (rd_fits s r) |> <| b_lock := 0 |>).
    split; [done|]. split; [|done].
    rewrite Hfr by (by rewrite <- Hbh). cbn [s1 rd_blk]. rewrite B. by rewrite lookup_insert_eq.
  - intros b Hnin. rewrite Hfr by (intros Hx; apply Hnin; by right). destruct He as [_ _ B _]. cbn [s1 rd_blk]. rewrite B, lookup_insert_ne; [done|].
    intros ->. apply Hnin. cbn [map snd]. rewrite Hbh. left.
Qed.

(** C29: the ram disk.  However long its queue, [do_rd_request] serves every request of it, in
    order: each that lies inside the disk copies between its buffer and its blocks, each other
    one fails without touching memory; every buffer is unlocked and marked accordingly, no other
    buffer changes, and the queue is empty. *)
Theorem do_rd_request_ok l s fuel : placed s ->
  queue (reqs (rd_blk s)) (current_request (rd_blk s) !! RD_MAJOR) (map fst l) -> NoDup (map fst l) -> NoDup (map (fun p => r_bh p.2) l) ->
  Forall (pending s) l -> (length l < fuel)%nat ->
  exists s', do_rd_request fuel s = (Ret tt, s') /\ current_request (rd_blk s') !! RD_MAJOR = None /\
    rd_mem s' = foldl (transfer s) (rd_mem s) (map snd l) /\ Forall (fun p => answered s s' p.2) l /\
    (forall b, Some b ∉ map (fun p => r_bh p.2) l -> bufs (rd_blk s') !! b = bufs (rd_blk s) !! b).
Proof. intros. by apply rd_queue_ok. Qed.

(** What is written to a block is what a later request reads from it. *)
Lemma transfer_roundtrip s m w r k :
  rd_fits s w = true -> rd_fits s r = true -> r_cmd w = WRITE -> r_cmd r = READ -> r_sector r = r_sector w -> r_nr_sectors r = r_nr_sectors w ->
  (forall q, q = w \/ q = r -> r_buffer q + 512 * r_nr_sectors q <= rd_start s + 512 * r_sector q \/
    rd_start s + 512 * (r_sector q + r_nr_sectors q) <= r_buffer q) ->
  0 <= k < 512 * r_nr_sectors w ->
  load_byte (transfer s (transfer s m w) r) (r_buffer r + k) = load_byte m (r_buffer w + k).
Proof.
  intros Fw Fr Cw Cr Es En Hd Hk. unfold transfer at 1. rewrite Fr, Cr. change (READ =? WRITE) with false. cbn match. pose proof (Hd r (or_intror eq_refl)) as Hdr.
  pose proof (Hd w (or_introl eq_refl)) as Hdw. rewrite memcpy_copy by lia. unfold transfer. rewrite Fw, Cw. change (WRITE =? WRITE) with true. cbn match.
  rewrite Es. rewrite memcpy_copy by lia. done.
Qed.

(** ** Witness *)

(** A disk of two blocks; block 1 is written from one buffer and read into another, and a third
    request is for a block that does not exist. *)
Definition rd_demo : rdst :=
  let req cmd sector buffer bh next := mk_request 0x101 cmd 0 sector 2 buffer None (Some bh) next in
  let b := mk_buffer 0 0 0x101 0 0 1 in
  mk_rdst (mk_blk [req WRITE 2 100 1 (Some 1%nat); req READ 2 5000 2 (Some 2%nat); req READ 8 9000 3 None] {[RD_MAJOR := 0%nat]} {[1 := b; 2 := b; 3 := b]} [] [])
    (store_mem 100 [7] ∅) 100000 2048.

Definition rd_list : list (nat * request) := imap (fun i r => (i, r)) (reqs (rd_blk rd_demo)).

Lemma do_rd_request_ok_witness : exists s', do_rd_request 4 rd_demo = (Ret tt, s') /\ load_byte (rd_mem s') 5000 = 7 /\ load_byte (rd_mem s') 101024 = 7 /\
  option_map b_uptodate (bufs (rd_blk s') !! 3) = Some 0.
Proof.
  destruct (do_rd_request_ok rd_list rd_demo 4) as (s' & E & _ & Hm & Ha & _).
  - split; cbn; lia.
  - cbn. repeat (split; [reflexivity|]; eexists; split; [reflexivity|]). reflexivity.
  - refine (bool_decide_unpack _ _). vm_compute. exact I.
  - refine (bool_decide_unpack _ _). vm_compute. exact I.
  - repeat (apply Forall_cons; split; [split; [reflexivity|]; split; [split; cbn; (done || lia || (by left) || (by right))|eexists _, _; split; [reflexivity|]; split; reflexivity]|]).
    apply Forall_nil. done.
  - cbn. lia.
  - exists s'. split; [exact E|]. rewrite Hm. split; [vm_compute; reflexivity|]. split; [vm_compute; reflexivity|].
    do 2 apply Forall_cons in Ha as [_ Ha]. apply Forall_cons in Ha as [(bh & v & Hbh & Hv & Hu & _) _]. injection Hbh as <-. rewrite Hv. cbn. by rewrite Hu.
Defined.
