(* ===== verification/FloppySpec.v ===== *)
(** The floppy driver moves the right block.

    [Fdc] is what the driver relies on: a controller that takes the bytes of a command one by one
    and gives back the bytes of its result.  Against it, a request is turned into the commands
    that the controller needs, with the DMA channel set to the request's buffer or to the buffer
    below one megabyte that stands in for it, and the interrupt at the end completes the request. *)

From S2P Require Import Prelude Memory Task Sched SchedSpec FsDefs BlkReq BlkReqSpec Floppy.

(** ** The controller *)

(** The controller has got some bytes of a command, or has bytes of a result left. *)
Inductive fdc_phase := FCmd (got : list Z) | FRes (left : list Z).

Definition cmd_len (c : Z) : nat :=
  if c =? FD_SPECIFY then 3 else if c =? FD_SEEK then 3 else if c =? FD_RECALIBRATE then 2
  else if c =? FD_SENSEI then 1 else 9.
Definition res_len (c : Z) : nat :=
  if (c =? FD_SPECIFY) || (c =? FD_SEEK) || (c =? FD_RECALIBRATE) then 0 else if c =? FD_SENSEI then 2 else 7.

Definition results (l : list Z) : fdc_phase := match l with [] => FCmd [] | _ => FRes l end.

Definition opcode (l : list Z) : Z := nth 0 l 0.

Class Fdc `{FdEnv} := {
  fdc : list fd_io -> fdc_phase;
  reply : list fd_io -> list Z -> list Z;
  fdc_reply_len : forall h c l, length (reply h (c :: l)) = res_len c;
  (** the main status register: ready, the direction, and busy inside a command *)
  fdc_status : forall h, Z.land (u8 (fd_in h FD_STATUS)) 0xD0 =
    match fdc h with FCmd [] => 0x80 | FCmd (_ :: _) => 0x90 | FRes _ => 0xD0 end;
  fdc_aside_in : forall h p, p <> FD_DATA -> fdc (FIn p :: h) = fdc h;
  fdc_aside_out : forall h v p, p <> FD_DATA -> p <> FD_DOR -> fdc (FOut v p :: h) = fdc h;
  fdc_byte : forall h got v, fdc h = FCmd got ->
    fdc (FOut v FD_DATA :: h) =
      let got := got ++ [v] in
      if (length got =? cmd_len (opcode got))%nat then results (reply h got) else FCmd got;
  fdc_data : forall h x l, fdc h = FRes (x :: l) ->
    u8 (fd_in h FD_DATA) = x /\ fdc (FIn FD_DATA :: h) = results l
}.

(** What was written to the ports, newest first. *)
Definition outs (h : list fd_io) : list (Z * Z) := omap (fun e => match e with FOut v p => Some (v, p) | FIn _ => None end) h.

(** The history after a byte was sent, and after all the bytes of a command. *)
Definition sent (h : list fd_io) (b : Z) : list fd_io := FOut (u8 b) FD_DATA :: FIn FD_STATUS :: h.
Definition sent_all (h : list fd_io) (c : list Z) : list fd_io := foldl sent h c.
Definition io_to (h : list fd_io) (s : fdst) : fdst := s <| f_io := h |>.

Lemma outs_sent_all h c : outs (sent_all h c) = rev ((fun b => (u8 b, FD_DATA)) <$> c) ++ outs h.
Proof.
  revert h. induction c as [|b c IH]; intros h; [done|]. cbn [sent_all foldl fmap list_fmap rev]. fold (sent_all (sent h b) c).
  rewrite IH, <- app_assoc. done.
Qed.

(** Where a command leaves the head: a seek on the track it names, a recalibration on track 0. *)
Definition moved (c : list Z) (cyl : Z) : Z :=
  match c with
  | [op; _] => if op =? FD_RECALIBRATE then 0 else cyl
  | [op; _; t] => if op =? FD_SEEK then t else cyl
  | _ => cyl
  end.

(** The track of the head after a history, from the bytes that the controller was given; it was on
    [start] at first. *)
Fixpoint head_at `{Fdc} (start : Z) (h : list fd_io) : Z :=
  match h with
  | [] => start
  | FIn _ :: h => head_at start h
  | FOut v p :: h =>
      match fdc h with
      | FCmd got => if p =? FD_DATA then moved (got ++ [v]) (head_at start h) else head_at start h
      | FRes _ => head_at start h
      end
  end.

Section Fdc.
Context `{Fdc}.

Lemma head_aside start h v p : p <> FD_DATA -> head_at start (FOut v p :: h) = head_at start h.
Proof. intros Hp. cbn [head_at]. rewrite (proj2 (Z.eqb_neq _ _) Hp). by destruct (fdc h). Qed.

Lemma head_sent start h b got :
  fdc h = FCmd got -> 0 <= b < 256 -> head_at start (sent h b) = moved (got ++ [b]) (head_at start h).
Proof.
  intros Hf Hb. unfold sent. cbn [head_at]. rewrite fdc_aside_in, Hf, Z.eqb_refl, u8_small by (done || discriminate). reflexivity.
Qed.

Lemma moved_other c cyl : opcode c <> FD_SEEK -> opcode c <> FD_RECALIBRATE -> moved c cyl = cyl.
Proof.
  intros H1 H2. unfold opcode in *. destruct c as [|op [|a [|t [|]]]]; try done; cbn in *; by rewrite (proj2 (Z.eqb_neq _ _)).
Qed.

Lemma output_byte_run s b got :
  fd_reset s = 0 -> fdc (f_io s) = FCmd got -> output_byte b s = (Ret tt, io_to (sent (f_io s) b) s).
Proof.
  intros Hr Hf. unfold output_byte. rewrite bind_get, Hr. change (istrue 0) with false. cbv iota.
  replace (Z.to_nat 10000) with (S (Z.to_nat 9999)) by lia. cbn [send_loop]. unfold fd_inb. rewrite bind_assoc, bind_get, bind_assoc, bind_modify, bind_ret.
  change (Z.lor STATUS_READY STATUS_DIR) with (Z.land 0xD0 0xC0). rewrite Z.land_assoc, fdc_status, Hf.
  by destruct got.
Qed.

(** A command goes to the controller as a whole. *)
Lemma fdc_command_from h got c :
  fdc h = FCmd got -> (length got + length c = cmd_len (opcode (got ++ c)))%nat -> c <> [] -> Forall (fun b => 0 <= b < 256) c ->
  exists h0, fdc (sent_all h c) = results (reply h0 (got ++ c)).
Proof.
  revert h got. induction c as [|b c IH]; intros h got Hf Hl Hne Hb; [done|]. apply Forall_cons in Hb as [Hb Hc]. cbn [sent_all foldl].
  assert (fdc (FIn FD_STATUS :: h) = FCmd got) as Hf1 by (rewrite fdc_aside_in; [done|discriminate]).
  pose proof (fdc_byte _ _ (u8 b) Hf1) as Hs. change (FOut (u8 b) FD_DATA :: FIn FD_STATUS :: h) with (sent h b) in Hs.
  rewrite u8_small in Hs by done.
  assert (opcode (got ++ [b]) = opcode (got ++ b :: c)) as Hn by by destruct got.
  cbn zeta in Hs. rewrite Hn, <- Hl, length_app in Hs. cbn [length] in Hs, Hl. fold (sent_all (sent h b) c). destruct c as [|b' c].
  - exists (FIn FD_STATUS :: h). cbn [sent_all foldl]. rewrite Hs. cbn [length]. by rewrite Nat.eqb_refl.
  - destruct (Nat.eqb_spec (length got + 1) (length got + S (length (b' :: c)))) as [E|_]; [cbn in E; lia|].
    destruct (IH _ (got ++ [b]) Hs) as [h0 E0]; [|done|done|exists h0; by rewrite E0, <- app_assoc].
    rewrite <- app_assoc, length_app. cbn [app length] in *. lia.
Qed.

Lemma fdc_command h c l :
  fdc h = FCmd [] -> S (length l) = cmd_len c -> Forall (fun b => 0 <= b < 256) (c :: l) ->
  exists h0, fdc (sent_all h (c :: l)) = results (reply h0 (c :: l)).
Proof. intros Hf Hl Hb. by apply (fdc_command_from h [] (c :: l)). Qed.

(** Bytes of a command in a row; the command may end with them. *)
Definition send_all {A} (c : list Z) (k : M fdst A) : M fdst A := foldr (fun b m => output_byte b;; m) k c.

Lemma fdc_prefix h got b :
  fdc h = FCmd got -> 0 <= b < 256 -> (S (length got) < cmd_len (opcode (got ++ [b])))%nat -> fdc (sent h b) = FCmd (got ++ [b]).
Proof.
  intros Hf Hb Hl. unfold sent. rewrite (fdc_byte _ got) by (rewrite fdc_aside_in; [done|discriminate]).
  rewrite u8_small by done. cbn zeta. destruct (Nat.eqb_spec (length (got ++ [b])) (cmd_len (opcode (got ++ [b])))) as [E|_]; [|done].
  rewrite length_app in E. cbn in E. lia.
Qed.

Lemma send_all_run {A} c (k : M fdst A) s h got :
  fd_reset s = 0 -> fdc h = FCmd got -> Forall (fun b => 0 <= b < 256) c ->
  (length got + length c <= cmd_len (opcode (got ++ c)))%nat ->
  send_all c k (io_to h s) = k (io_to (sent_all h c) s) /\
  ((length got + length c < cmd_len (opcode (got ++ c)))%nat -> fdc (sent_all h c) = FCmd (got ++ c)).
Proof.
  intros Hr. revert h got. induction c as [|b c IH]; intros h got Hf Hb Hl; [by rewrite app_nil_r|].
  apply Forall_cons in Hb as [Hb Hc]. cbn [send_all foldr sent_all foldl]. fold (send_all c k). fold (sent_all (sent h b) c).
  assert ((output_byte b;; send_all c k) (io_to h s) = send_all c k (io_to (sent h b) s)) as ->.
  { mrun (output_byte_run (io_to h s) b got Hr Hf). reflexivity. }
  assert (opcode (got ++ [b]) = opcode (got ++ b :: c)) as Hn by by destruct got. cbn [length] in Hl.
  destruct c as [|b' c].
  - split; [done|]. intros Hlt. cbn [sent_all foldl]. apply fdc_prefix; [done|done|]. cbn [length] in Hlt. lia.
  - assert (fdc (sent h b) = FCmd (got ++ [b])) as Hf' by (apply fdc_prefix; [done|done|]; rewrite Hn; cbn [length] in Hl; lia).
    destruct (IH (sent h b) (got ++ [b]) Hf' Hc) as [E1 E2].
    + rewrite length_app, <- app_assoc. cbn [app length] in *. lia.
    + split; [exact E1|]. intros Hlt. rewrite <- app_assoc in E2. apply E2. rewrite length_app. cbn [app length] in *. lia.
Qed.

(** A command that does not move the head. *)
Lemma head_command start h got c :
  fdc h = FCmd got -> Forall (fun b => 0 <= b < 256) c -> (length got + length c <= cmd_len (opcode (got ++ c)))%nat ->
  opcode (got ++ c) <> FD_SEEK -> opcode (got ++ c) <> FD_RECALIBRATE -> head_at start (sent_all h c) = head_at start h.
Proof.
  revert h got. induction c as [|b c IH]; intros h got Hf Hb Hl H1 H2; [done|]. apply Forall_cons in Hb as [Hb Hc].
  assert (opcode (got ++ [b]) = opcode (got ++ b :: c)) as Hn by by destruct got.
  cbn [sent_all foldl]. fold (sent_all (sent h b) c). cbn [length] in Hl.
  assert (head_at start (sent h b) = head_at start h) as E by (rewrite (head_sent start h b got Hf Hb); apply moved_other; by rewrite Hn).
  destruct c as [|b' c]; [exact E|]. rewrite <- E. apply (IH _ (got ++ [b])).
  - apply fdc_prefix; [done|done|]. rewrite Hn. cbn [length] in Hl. lia.
  - done.
  - rewrite length_app, <- app_assoc. cbn [app length] in *. lia.
  - by rewrite <- app_assoc.
  - by rewrite <- app_assoc.
Qed.

(** The history after the result was read. *)
Fixpoint drained (n : nat) (h : list fd_io) : list fd_io :=
  match n with O => FIn FD_STATUS :: h | S n => drained n (FIn FD_DATA :: FIn FD_STATUS :: h) end.

Lemma outs_drained n h : outs (drained n h) = outs h.
Proof. revert h. induction n as [|n IH]; intros h; cbn [drained]; [done|by rewrite IH]. Qed.

Lemma head_drained start n h : head_at start (drained n h) = head_at start h.
Proof. revert h. induction n as [|n IH]; intros h; cbn [drained]; [done|by rewrite IH]. Qed.

Fixpoint put_replies (i : nat) (l : list Z) (buf : list Z) : list Z :=
  match l with [] => buf | b :: l => put_replies (S i) l (<[i := b]> buf) end.

Lemma fd_inb_run s h p : fd_inb p (io_to h s) = (Ret (u8 (fd_in h p)), io_to (FIn p :: h) s).
Proof. reflexivity. Qed.

Lemma result_loop_run n i l s h :
  fdc h = results l -> (length l < n)%nat -> (i + length l <= 7)%nat ->
  result_loop n (Z.of_nat i) (io_to h s) =
    (Ret (Z.of_nat (i + length l)), io_to (drained (length l) h) (s <| reply_buffer ::= put_replies i l |>)) /\
  fdc (drained (length l) h) = FCmd [].
Proof.
  revert n i s h. induction l as [|b l IH]; intros n i s h Hf Hn Hi; (destruct n as [|n]; [cbn in Hn; lia|]); cbn [result_loop];
    mrun (fd_inb_run s h FD_STATUS); change (Z.lor STATUS_DIR (Z.lor STATUS_READY STATUS_BUSY)) with 0xD0; rewrite fdc_status, Hf; cbn [results].
  - change (0x80 =? STATUS_READY) with true. cbv iota. cbn [length drained]. rewrite Nat.add_0_r. split; [|by rewrite fdc_aside_in].
    by destruct s.
  - change (0xD0 =? STATUS_READY) with false. change (0xD0 =? 0xD0) with true. cbv iota. change MAX_REPLIES with 7. cbn [length] in *.
    destruct (Z.leb_spec 7 (Z.of_nat i)); [lia|]. mrun (fd_inb_run s (FIn FD_STATUS :: h) FD_DATA). rewrite bind_modify.
    assert (fdc (FIn FD_STATUS :: h) = FRes (b :: l)) as Hf1 by (rewrite fdc_aside_in; [done|discriminate]).
    destruct (fdc_data _ _ _ Hf1) as [Eb Hl]. rewrite Eb, Nat2Z.id.
    replace (Z.of_nat i + 1) with (Z.of_nat (S i)) by lia.
    destruct (IH n (S i) (s <| reply_buffer ::= <[i := b]> |>) (FIn FD_DATA :: FIn FD_STATUS :: h) Hl ltac:(lia) ltac:(lia)) as [E1 E2].
    replace (i + S (length l))%nat with (S i + length l)%nat by lia. split; [exact E1|exact E2].
Qed.

Lemma result_run s h l :
  fd_reset s = 0 -> fdc h = results l -> (length l <= 7)%nat ->
  result (io_to h s) = (Ret (Z.of_nat (length l)), io_to (drained (length l) h) (s <| reply_buffer ::= put_replies 0 l |>)) /\
  fdc (drained (length l) h) = FCmd [].
Proof.
  intros Hr Hf Hl. unfold result. rewrite bind_get. change (fd_reset (io_to h s)) with (fd_reset s). rewrite Hr.
  change (istrue 0) with false. cbv iota. apply (result_loop_run (Z.to_nat 10000) 0 l s h Hf); lia.
Qed.
End Fdc.

(** ** Where a block is *)

(** Every type has room for its blocks, and the numbers that the controller is given are in range
    and name the block; the second sector of a block is on the same cylinder. *)
Lemma fd_place_ok t f block :
  floppy_type !! t = Some f -> 0 <= block -> block + 2 <= fl_size f ->
  exists track head sector, fd_place block f = Some (track, head, sector) /\
    0 <= track < fl_track f /\ 0 <= head < 2 /\ 1 <= sector <= fl_sect f /\
    (track * fl_head f + head) * fl_sect f + (sector - 1) = block /\
    (block mod 2 = 0 -> (block + 1) / (fl_sect f * fl_head f) = track) /\
    0 <= Z.shiftl track (fl_stretch f) < 256.
Proof.
  intros Ht Hb Hs.
  assert (exists p q, fl_sect f = p /\ fl_head f = 2 /\ fl_track f = q /\ fl_size f = 2 * p * q /\ 9 <= p <= 18 /\ 40 <= q <= 80 /\
    (fl_stretch f = 0 \/ fl_stretch f = 1 /\ q = 40) /\ (p = 9 \/ p = 15 \/ p = 18)) as (p & q & Ep & Eh & Eq & Es & Hp & Hq & Hst & Hp9).
  { do 8 (destruct t as [|t]; [injection Ht as <-; try (cbn in Hs; lia); eexists _, _; repeat split; cbn; try reflexivity; lia|]). discriminate Ht. }
  unfold fd_place. rewrite Ep, Eh. destruct (Z.eqb_spec p 0); [lia|]. cbn [orb]. change (2 =? 0) with false. cbv iota. rewrite Es in Hs.
  pose proof (Z.mod_pos_bound block p ltac:(lia)) as Hm. pose proof (Z.div_mod block p ltac:(lia)) as Hd.
  set (b1 := block / p) in *. pose proof (Z.mod_pos_bound b1 2 ltac:(lia)) as Hm1. pose proof (Z.div_mod b1 2 ltac:(lia)) as Hd1.
  assert (0 <= b1) by (apply Z.div_pos; lia). assert (b1 < 2 * q) by nia. assert (0 <= b1 / 2 < q) by lia.
  exists (b1 / 2), (b1 mod 2), (block mod p + 1). rewrite (u8_small (block mod p)), !u8_small by lia. rewrite Eq. split; [done|]. split; [lia|]. split; [lia|].
  split; [lia|]. split; [nia|]. split.
  - intros He. symmetry. pose proof (Z.div_mod block 2 ltac:(lia)).
    apply Z.div_unique with (block + 1 - p * 2 * (b1 / 2)); [|lia]. left. destruct Hp9 as [->|[->| ->]]; lia.
  - rewrite Z.shiftl_mul_pow2 by lia. destruct Hst as [->|[-> ->]]; cbn; lia.
Qed.

(** ** Steps of the driver *)

(** Memory after [rep ; movsl] between places that do not overlap. *)
Lemma copy_longs_load n from to m a :
  from + 4 * Z.of_nat n <= to \/ to + 4 * Z.of_nat n <= from ->
  load_byte (copy_longs n from to m) a = if decide (to <= a < to + 4 * Z.of_nat n) then load_byte m (from + (a - to)) else load_byte m a.
Proof.
  revert from to m. induction n as [|n IH]; intros from to m Hd; cbn [copy_longs]; [by rewrite decide_False by lia|].
  rewrite IH by lia. rewrite !load_store. cbn [map length]. repeat case_decide; try lia; try done.
  - f_equal. lia.
  - assert (a - to = 0 \/ a - to = 1 \/ a - to = 2 \/ a - to = 3) as [E|[E|[E|E]]] by lia; rewrite E; done.
Qed.

#[local] Opaque copy_longs.

Definition fd_serving (s : fdst) (i : nat) (r : request) : Prop :=
  current_request (f_blk s) !! FD_MAJOR = Some i /\ reqs (f_blk s) !! i = Some r.

(** The place that the DMA channel works on, and the writes that set it up, newest first. *)
Definition dma_addr `{FdEnv} (r : request) : Z := if 0x100000 <=? r_buffer r then tmp_floppy_area else r_buffer r.
Definition dma_io (cmd addr : Z) : list fd_io :=
  let mode := if cmd =? FD_READ then DMA_READ else DMA_WRITE in
  [FOut 2 10; FOut 3 5; FOut 0xff 5; FOut (u8 (Z.shiftr addr 16)) 0x81; FOut (u8 (Z.shiftr addr 8)) 4; FOut (u8 addr) 4;
   FOut mode 11; FOut mode 12; FOut 6 10].

(** What is written is put into the buffer below one megabyte first, when it has to be. *)
Definition dma_mem `{FdEnv} (cmd : Z) (r : request) (m : gmap Z Z) : gmap Z Z :=
  if (0x100000 <=? r_buffer r) && (cmd =? FD_WRITE) then copy_longs 256 (r_buffer r) tmp_floppy_area m else m.

(** The nine bytes of the command that moves a block. *)
Definition rw_command (s : fdst) (f : floppy_struct) : list Z :=
  [fd_command s; head_drive s; fd_track s; fd_head s; fd_sector s; 2; fl_sect f; fl_gap f; 0xFF].

Section Steps.
Context `{Fdc}.

Lemma fd_current_run s i r : fd_serving s i r -> fd_current s = (Ret r, s).
Proof.
  intros [Hc Hr]. unfold fd_current, on_fblk, CURRENT. rewrite bind_get, Hc. cbn [of_option]. rewrite bind_ret, (get_req_run _ _ _ Hr). by destruct s.
Qed.

Lemma setup_DMA_run s h i r :
  fd_serving s i r ->
  setup_DMA (io_to h s) = (Ret tt, io_to (dma_io (fd_command s) (dma_addr r) ++ h) (s <| f_mem ::= dma_mem (fd_command s) r |>)).
Proof.
  intros Hs. unfold setup_DMA. mrun (fd_current_run (io_to h s) i r Hs). rewrite bind_get. change (fd_command (io_to h s)) with (fd_command s).
  set (copy := when _ _).
  assert (copy (io_to h s) = (Ret tt, io_to h (s <| f_mem ::= dma_mem (fd_command s) r |>))) as E.
  { unfold copy, dma_mem. destruct ((0x100000 <=? r_buffer r) && (fd_command s =? FD_WRITE)); cbn [when]; [reflexivity|]. destruct s; reflexivity. }
  mrun E. unfold dma_addr, dma_io. replace 16 with (8 + 8) by done. rewrite <- Z.shiftr_shiftr by lia.
  destruct (fd_command s =? FD_READ); reflexivity.
Qed.

Lemma fdc_dma cmd addr h : fdc (dma_io cmd addr ++ h) = fdc h.
Proof. unfold dma_io. cbn [app]. do 9 (rewrite fdc_aside_out; [|discriminate..]). done. Qed.

Lemma head_dma start cmd addr h : head_at start (dma_io cmd addr ++ h) = head_at start h.
Proof. unfold dma_io. cbn [app]. do 9 (rewrite head_aside by discriminate). done. Qed.

Lemma get_floppy_run s h f : floppy_type !! Z.to_nat (floppy_p s) = Some f -> get_floppy (io_to h s) = (Ret f, io_to h s).
Proof. intros Hf. unfold get_floppy. rewrite bind_get. change (floppy_p (io_to h s)) with (floppy_p s). by rewrite Hf. Qed.

(** The nine bytes are bytes, of a read or a write. *)
Record rw_ready (s : fdst) (f : floppy_struct) : Prop := {
  rr_steady : fd_reset s = 0;
  rr_type : floppy_type !! Z.to_nat (floppy_p s) = Some f;
  rr_cmd : fd_command s = FD_READ \/ fd_command s = FD_WRITE;
  rr_bytes : Forall (fun b => 0 <= b < 256) (rw_command s f)
}.

Lemma setup_rw_run again s h i r f :
  fd_serving s i r -> rw_ready s f -> fdc h = FCmd [] ->
  let h' := sent_all (dma_io (fd_command s) (dma_addr r) ++ h) (rw_command s f) in
  setup_rw_floppy again (io_to h s) =
    (Ret tt, io_to h' (s <| f_mem ::= dma_mem (fd_command s) r |> <| do_floppy := Some rw_interrupt_p |>)) /\
  exists h0, fdc h' = FRes (reply h0 (rw_command s f)) /\ length (reply h0 (rw_command s f)) = 7%nat.
Proof.
  intros Hs [Hr Hf Hcmd Hb] Hh h'.
  assert (cmd_len (fd_command s) = 9%nat) as Hlen by (destruct Hcmd as [-> | ->]; done).
  assert (res_len (fd_command s) = 7%nat) as Hres by (destruct Hcmd as [-> | ->]; done).
  set (h1 := dma_io _ _ ++ h) in *. assert (fdc h1 = FCmd []) as Hh1 by (unfold h1; by rewrite fdc_dma).
  set (s1 := s <| f_mem ::= dma_mem (fd_command s) r |> <| do_floppy := Some rw_interrupt_p |>).
  set (c6 := [fd_command s; head_drive s; fd_track s; fd_head s; fd_sector s; 2]).
  set (c3 := [fl_sect f; fl_gap f; 0xFF]). change (rw_command s f) with (c6 ++ c3) in *. apply Forall_app in Hb as [Hb6 Hb3].
  split.
  - unfold setup_rw_floppy. mrun (setup_DMA_run s h i r Hs). fold h1. rewrite bind_modify, bind_get.
    destruct (send_all_run c6 (f ← get_floppy; output_byte (fl_sect f);; output_byte (fl_gap f);; output_byte 0xFF;; again_if_reset again)
      s1 h1 [] Hr Hh1 Hb6) as [E6 P6]; [cbn [app opcode nth c6]; rewrite Hlen; cbn; lia|].
    etransitivity; [exact E6|]. mrun (get_floppy_run s1 (sent_all h1 c6) f Hf).
    destruct (send_all_run c3 (again_if_reset again) s1 (sent_all h1 c6) c6 Hr) as [E3 _]; [apply P6; cbn [app opcode nth c6]; rewrite Hlen; cbn; lia|done| |].
    { cbn [app opcode nth c6 c3]. rewrite Hlen. cbn. lia. }
    etransitivity; [exact E3|]. unfold again_if_reset. rewrite bind_get. change (fd_reset (io_to _ _)) with (fd_reset s). rewrite Hr.
    change (istrue 0) with false. cbn [when]. unfold h', sent_all. by rewrite foldl_app.
  - destruct (fdc_command h1 (fd_command s) (tl (c6 ++ c3)) Hh1) as [h0 E0]; [by rewrite Hlen|exact (Forall_app_2 _ _ _ Hb6 Hb3)|].
    exists h0. change (fd_command s :: tl (c6 ++ c3)) with (c6 ++ c3) in E0. fold h' in E0.
    assert (length (reply h0 (c6 ++ c3)) = 7%nat) as Hl by (change (c6 ++ c3) with (fd_command s :: tl (c6 ++ c3)); by rewrite fdc_reply_len).
    split; [|done]. rewrite E0. by destruct (reply h0 (c6 ++ c3)).
Qed.

(** *** Before a transfer *)

(** The controller is told the type of the disk when it has changed. *)
Definition spec_io (s : fdst) (f : floppy_struct) (h : list fd_io) : list fd_io :=
  if cur_spec1 s =? fl_spec1 f then h else sent_all h [FD_SPECIFY; fl_spec1 f; 6].
Definition rate_io (s : fdst) (f : floppy_struct) (h : list fd_io) : list fd_io :=
  if cur_rate s =? fl_rate f then h else FOut (u8 (fl_rate f)) FD_DCR :: h.
Definition tuned (s : fdst) (f : floppy_struct) : fdst := s <| cur_spec1 := fl_spec1 f |> <| cur_rate := fl_rate f |>.

Definition seek_command (s : fdst) : list Z :=
  if istrue (seek_track s) then [FD_SEEK; head_drive s; seek_track s] else [FD_RECALIBRATE; head_drive s].

Lemma floppy_type_bytes t f : floppy_type !! t = Some f ->
  0 <= fl_spec1 f < 256 /\ 0 <= fl_rate f < 256 /\ 0 <= fl_sect f < 256 /\ 0 <= fl_gap f < 256.
Proof. intros Ht. do 8 (destruct t as [|t]; [injection Ht as <-; cbn; lia|]). discriminate Ht. Qed.

(** A command without a result leaves the controller ready for the next one. *)
Lemma fdc_plain h c l :
  fdc h = FCmd [] -> S (length l) = cmd_len c -> res_len c = 0%nat -> Forall (fun b => 0 <= b < 256) (c :: l) ->
  fdc (sent_all h (c :: l)) = FCmd [].
Proof.
  intros Hf Hl Hr Hb. destruct (fdc_command h c l Hf Hl Hb) as [h0 ->].
  pose proof (fdc_reply_len h0 c l) as E. rewrite Hr in E. by apply nil_length_inv in E as ->.
Qed.

(** Bytes in a row with which a routine goes on, or ends. *)
Lemma plain_command {A} c (k : M fdst A) s h :
  fd_reset s = 0 -> fdc h = FCmd [] -> (length c <= cmd_len (opcode c))%nat -> Forall (fun b => 0 <= b < 256) c ->
  send_all c k (io_to h s) = k (io_to (sent_all h c) s).
Proof. intros Hr Hf Hl Hb. by apply (send_all_run c k s h [] Hr Hf Hb). Qed.

Lemma send_end c b s h :
  fd_reset s = 0 -> fdc h = FCmd [] -> (length c < cmd_len (opcode c))%nat -> Forall (fun b => 0 <= b < 256) c ->
  send_all c (output_byte b) (io_to h s) = (Ret tt, io_to (sent_all h (c ++ [b])) s).
Proof.
  intros Hr Hf Hl Hb. destruct (send_all_run c (output_byte b) s h [] Hr Hf Hb ltac:(cbn [app length]; lia)) as [-> P].
  rewrite (output_byte_run (io_to (sent_all h c) s) b c Hr (P Hl)). unfold sent_all. by rewrite foldl_app.
Qed.

Lemma spec_ready s f h t :
  floppy_type !! t = Some f -> fdc h = FCmd [] -> fdc (rate_io s f (spec_io s f h)) = FCmd [].
Proof.
  intros Ht Hh. destruct (floppy_type_bytes t f Ht) as (H1 & _).
  assert (fdc (spec_io s f h) = FCmd []) as E.
  { unfold spec_io. destruct (_ =? _); [done|]. apply fdc_plain; [done|done|done|]. repeat constructor; try lia; done. }
  unfold rate_io. destruct (_ =? _); [done|]. rewrite fdc_aside_out; [done|discriminate..].
Qed.

(** What tells the controller the type of the disk, newest first. *)
Definition tune_outs (s : fdst) (f : floppy_struct) : list (Z * Z) :=
  (if cur_rate s =? fl_rate f then [] else [(fl_rate f, FD_DCR)]) ++
  (if cur_spec1 s =? fl_spec1 f then [] else [(6, FD_DATA); (fl_spec1 f, FD_DATA); (FD_SPECIFY, FD_DATA)]).

Lemma tune_done start s f h t :
  floppy_type !! t = Some f -> fdc h = FCmd [] ->
  outs (rate_io s f (spec_io s f h)) = tune_outs s f ++ outs h /\ head_at start (rate_io s f (spec_io s f h)) = head_at start h.
Proof.
  intros Ht Hh. destruct (floppy_type_bytes t f Ht) as (H1 & H2 & _).
  assert (outs (spec_io s f h) = (if cur_spec1 s =? fl_spec1 f then [] else [(6, FD_DATA); (fl_spec1 f, FD_DATA); (FD_SPECIFY, FD_DATA)]) ++ outs h /\
    head_at start (spec_io s f h) = head_at start h) as [E1 E2].
  { unfold spec_io. destruct (_ =? _); [done|]. split; [rewrite outs_sent_all; cbn; by rewrite (u8_small (fl_spec1 f))|].
    apply (head_command start h [] [FD_SPECIFY; fl_spec1 f; 6] Hh); [repeat constructor; try lia; done|cbn; lia|discriminate|discriminate]. }
  unfold rate_io, tune_outs. destruct (cur_rate s =? fl_rate f); [by split|]. rewrite head_aside by discriminate. split; [|exact E2].
  cbn [outs omap list_omap]. fold (outs (spec_io s f h)). by rewrite u8_small, E1.
Qed.

Lemma seek_command_bytes s : 0 <= head_drive s < 256 -> 0 <= seek_track s < 256 -> Forall (fun b => 0 <= b < 256) (seek_command s).
Proof.
  intros Hd Ht. unfold seek_command. destruct (istrue _); repeat (apply Forall_cons; split; [first [assumption|by vm_compute]|]); by apply Forall_nil.
Qed.

(** After a seek the head is on the track that was asked for. *)
Lemma head_seek start s h :
  fdc h = FCmd [] -> 0 <= head_drive s < 256 -> 0 <= seek_track s < 256 -> head_at start (sent_all h (seek_command s)) = seek_track s.
Proof.
  intros Hh Hd Ht. unfold seek_command, istrue. destruct (Z.eqb_spec (seek_track s) 0) as [E|E]; cbn [negb sent_all foldl].
  - assert (fdc (sent h FD_RECALIBRATE) = FCmd [FD_RECALIBRATE]) as H1 by (apply (fdc_prefix h []); [done|done|cbn; lia]).
    rewrite (head_sent start _ (head_drive s) _ H1 Hd). by rewrite E.
  - assert (fdc (sent h FD_SEEK) = FCmd [FD_SEEK]) as H1 by (apply (fdc_prefix h []); [done|done|cbn; lia]).
    assert (fdc (sent (sent h FD_SEEK) (head_drive s)) = FCmd [FD_SEEK; head_drive s]) as H2
      by (apply (fdc_prefix _ [FD_SEEK]); [done|done|cbn; lia]).
    by rewrite (head_sent start _ (seek_track s) _ H2 Ht).
Qed.

Lemma seek_command_ready s h :
  fdc h = FCmd [] -> 0 <= head_drive s < 256 -> 0 <= seek_track s < 256 -> fdc (sent_all h (seek_command s)) = FCmd [].
Proof.
  intros Hh Hd Ht. unfold seek_command. destruct (istrue _); apply fdc_plain; try done; repeat constructor; try lia; done.
Qed.

Lemma send_seek unit track s h :
  fd_reset s = 0 -> fdc h = FCmd [] -> 0 <= unit < 256 ->
  (output_byte FD_SEEK;; output_byte unit;; output_byte track) (io_to h s) = (Ret tt, io_to (sent_all h [FD_SEEK; unit; track]) s).
Proof. intros Hr Hh Hu. apply (send_end [FD_SEEK; unit] track s h Hr Hh); [cbn; lia|]. repeat constructor; try lia; done. Qed.

#[local] Opaque output_byte.

Lemma transfer_run again s h f :
  rw_ready s f -> 0 <= seek_track s < 256 -> fdc h = FCmd [] ->
  let h2 := rate_io s f (spec_io s f h) in
  transfer again (io_to h s) =
    if istrue (fd_seek s) then (Ret tt, io_to (sent_all h2 (seek_command s)) ((tuned s f) <| do_floppy := Some seek_interrupt_p |>))
    else setup_rw_floppy again (io_to h2 (tuned s f)).
Proof.
  intros [Hr Hf Hcmd Hb] Hst Hh h2. destruct (floppy_type_bytes _ f Hf) as (Hspec & Hrate & _).
  pose proof (spec_ready s f h _ Hf Hh) as Hh2. fold h2 in Hh2.
  assert (0 <= head_drive s < 256) as Hhd by (inversion_clear Hb as [|??? Hb']; by inversion_clear Hb').
  unfold transfer. mrun (get_floppy_run s h f Hf). rewrite bind_get. change (cur_spec1 (io_to h s)) with (cur_spec1 s).
  set (spec := when _ _). set (s1 := s <| cur_spec1 := fl_spec1 f |>).
  assert (spec (io_to h s) = (Ret tt, io_to (spec_io s f h) s1)) as Espec.
  { unfold spec, spec_io, s1. destruct (Z.eqb_spec (cur_spec1 s) (fl_spec1 f)) as [E|_]; cbn [negb when].
    - rewrite <- E. by destruct s.
    - rewrite bind_modify. apply (send_end [FD_SPECIFY; fl_spec1 f] 6 s1 h Hr Hh); [cbn; lia|]. repeat constructor; try lia; done. }
  mrun Espec. rewrite bind_get. change (cur_rate (io_to _ s1)) with (cur_rate s).
  set (rate := when _ _). set (s2 := tuned s f).
  assert (rate (io_to (spec_io s f h) s1) = (Ret tt, io_to h2 s2)) as Erate.
  { unfold rate, h2, rate_io, s2, tuned. fold s1. destruct (Z.eqb_spec (cur_rate s) (fl_rate f)) as [E|_]; cbn [negb when]; [|done].
    rewrite <- E. unfold s1. by destruct s. }
  mrun Erate. rewrite bind_get. change (fd_reset (io_to h2 s2)) with (fd_reset s). rewrite Hr. change (istrue 0) with false. cbv iota.
  change (fd_seek (io_to h2 s2)) with (fd_seek s). destruct (istrue (fd_seek s)); cbn [negb]; [|done].
  rewrite bind_modify. set (s3 := s2 <| do_floppy := Some seek_interrupt_p |>).
  set (cmd := if istrue (seek_track _) then _ else _).
  assert (cmd (io_to h2 s3) = (Ret tt, io_to (sent_all h2 (seek_command s)) s3)) as Ecmd.
  { unfold cmd, seek_command. change (seek_track (io_to h2 s2)) with (seek_track s). change (head_drive (io_to h2 s2)) with (head_drive s).
    destruct (istrue (seek_track s)).
    - simple apply (send_seek (head_drive s) (seek_track s) s3 h2 Hr Hh2 Hhd).
    - apply (send_end [FD_RECALIBRATE] (head_drive s) s3 h2 Hr Hh2); [cbn; lia|]. repeat constructor; try lia; done. }
  etransitivity; [exact (bind_Ret _ _ _ _ _ Ecmd)|]. unfold again_if_reset. rewrite bind_get.
  change (fd_reset (io_to _ s3)) with (fd_reset s). rewrite Hr. reflexivity.
Qed.

#[local] Transparent output_byte.

(** *** From a request to the transfer *)

Definition drive_nr (r : request) : Z := Z.land (r_dev r) 3.

(** The drive is selected and its motor runs at speed. *)
Record motor_on (m : motor) (nr : Z) : Prop := {
  mo_dor : 0 <= current_DOR m < 256;
  mo_bit : Z.lor (Z.shiftl 0x10 nr) (current_DOR m) = current_DOR m;
  mo_drive : Z.land (current_DOR m) 3 = nr;
  mo_speed : nthZ (mon_timer m) nr = 0
}.

(** A request that can be served, and nothing is left to reset. *)
Record fd_wanted (s : fdst) (i : nat) (r : request) (bh : Z) (v : buffer) (f : floppy_struct) : Prop := {
  fw_serving : fd_serving s i r;
  fw_major : MAJOR (r_dev r) = FD_MAJOR;
  fw_type : floppy_type !! Z.to_nat (TYPE (MINOR (r_dev r))) = Some f;
  fw_room : 0 <= r_sector r /\ r_sector r + 2 <= fl_size f;
  fw_buffer : r_bh r = Some bh /\ bufs (f_blk s) !! bh = Some v /\ istrue (b_lock v) = true;
  fw_cmd : r_cmd r = READ \/ r_cmd r = WRITE;
  fw_steady : fd_reset s = 0 /\ fd_recalibrate s = 0;
  fw_motor : motor_on (floppy (f_k s)) (drive_nr r)
}.

Definition spun (k : kst) (nr : Z) : kst :=
  k <| floppy ::= fun m => m <| moff_timer ::= fun l => setZ l nr 10000 |> <| selected := 1 |> |>
    <| fired ::= fun l => l ++ [floppy_on_fn] |>.

(** The variables of the driver for a request. *)
Definition seek_needed (s : fdst) (r : request) (cyl : Z) : bool :=
  negb (current_drive s =? drive_nr r) || negb (cyl =? current_track s).
Definition armed (s : fdst) (r : request) (f : floppy_struct) (track head sector : Z) : fdst :=
  let cyl := Z.shiftl track (fl_stretch f) in
  s <| f_k := spun (f_k s) (drive_nr r) |> <| fd_seek := b2z (seek_needed s r cyl) |> <| floppy_p := TYPE (MINOR (r_dev r)) |>
    <| current_drive := drive_nr r |> <| fd_sector := sector |> <| fd_head := head |> <| fd_track := track |> <| seek_track := cyl |>
    <| fd_command := if r_cmd r =? READ then FD_READ else FD_WRITE |>.

Lemma on_kst_run {A} (m : M kst A) s a k :
  m (f_k s) = (Ret a, k) -> ports k = ports (f_k s) -> on_kst m s = (Ret a, s <| f_k := k |>).
Proof. intros E Hp. unfold on_kst. rewrite E, Hp, Nat.sub_diag. by destruct s. Qed.

Lemma drive_nr_range r : 0 <= drive_nr r < 4.
Proof. unfold drive_nr. change 3 with (Z.ones 2). rewrite Z.land_ones by lia. by apply Z.mod_pos_bound. Qed.

Lemma dor_parts d : 0 <= d < 256 -> Z.lor (Z.land d 0xFC) (Z.land d 3) = d.
Proof.
  intros Hd. rewrite <- Z.land_lor_distr_r. change (Z.lor 0xFC 3) with (Z.ones 8). rewrite Z.land_ones by lia. by apply Z.mod_small.
Qed.

Lemma ticks_run k nr :
  0 <= nr < 4 -> motor_on (floppy k) nr ->
  ticks_to_floppy_on nr k = (Ret 0, k <| floppy ::= fun m => m <| moff_timer ::= fun l => setZ l nr 10000 |> |>).
Proof.
  intros Hn [Hd Hbit Hdr Hsp]. unfold ticks_to_floppy_on. destruct (Z.ltb_spec 3 nr); [lia|]. unfold upd_floppy. rewrite bind_modify, bind_gets.
  set (k1 := k <| floppy ::= _ |>). change (current_DOR (floppy k1)) with (current_DOR (floppy k)). change (selected (floppy k1)) with (selected (floppy k)).
  assert (0 <= Z.shiftl 0x10 nr < 256) as Hs.
  { rewrite Z.shiftl_mul_pow2 by lia. pose proof (Z.pow_pos_nonneg 2 nr ltac:(lia) ltac:(lia)).
    pose proof (Z.pow_le_mono_r 2 nr 3 ltac:(lia) ltac:(lia)). lia. }
  rewrite (u8_small (Z.shiftl _ _)), Hbit, u8_small by done.
  assert ((if selected (floppy k) =? 0 then Z.lor (Z.land (current_DOR (floppy k)) 252) nr else current_DOR (floppy k)) = current_DOR (floppy k)) as ->.
  { destruct (_ =? _); [|done]. rewrite <- Hdr at 1. by apply dor_parts. }
  rewrite Z.eqb_refl, bind_ret, bind_gets. change (mon_timer (floppy k1)) with (mon_timer (floppy k)). by rewrite Hsp.
Qed.

Lemma init_fd_run s i r bh v f : fd_wanted s i r bh v f -> on_fblk (INIT_REQUEST FD_MAJOR) s = (Ret (Some r), s).
Proof.
  intros [[Hc Hr] Hm _ _ (Hbh & Hv & Hl) _ _ _]. unfold on_fblk, INIT_REQUEST. rewrite bind_get, Hc. mrun (get_req_run _ _ _ Hr).
  rewrite Hm. cbn [negb]. change (FD_MAJOR =? FD_MAJOR) with true. cbn [negb]. cbv iota. rewrite Hbh. mrun (get_buf_run _ _ _ Hv). rewrite Hl. by destruct s.
Qed.

Lemma do_fd_transfer again s i r bh v f track head sector :
  fd_fuel <> O -> fd_wanted s i r bh v f -> fl_size f < 4294967296 -> fd_place (r_sector r) f = Some (track, head, sector) ->
  0 <= Z.shiftl track (fl_stretch f) < 256 ->
  do_fd_with again s = transfer again (armed s r f track head sector).
Proof.
  intros Hfuel W Hsz Hp Hcyl. pose proof W as [Hs Hm Ht [Hpos Hroom] Hbuf Hcmd [Hrs Hrc] Hmot]. pose proof (drive_nr_range r) as Hdr.
  unfold do_fd_with. rewrite bind_modify, bind_get. set (s0 := s <| fd_seek := 0 |>).
  change (fd_reset s0) with (fd_reset s). rewrite Hrs. change (istrue 0) with false. cbv iota.
  change (fd_recalibrate s0) with (fd_recalibrate s). rewrite Hrc. change (istrue 0) with false. cbv iota.
  destruct fd_fuel as [|n]; [done|]. cbn [do_fd_loop].
  assert (fd_wanted s0 i r bh v f) as W0 by by split. mrun (init_fd_run s0 i r bh v f W0). fold (drive_nr r).
  rewrite bind_modify, bind_get. set (s1 := s0 <| floppy_p := _ |>). change (current_drive s1) with (current_drive s).
  set (q1 := negb (current_drive s =? drive_nr r)).
  assert (when q1 (modify (fun s => s <| fd_seek := 1 |>)) s1 = (Ret tt, s1 <| fd_seek := b2z q1 |>)) as Eq1 by by destruct q1.
  mrun Eq1. rewrite bind_modify. set (s2 := s1 <| fd_seek := b2z q1 |> <| current_drive := drive_nr r |>).
  assert (get_floppy s2 = (Ret f, s2)) as Ef by (unfold get_floppy; rewrite bind_get; change (floppy_p s2) with (TYPE (MINOR (r_dev r))); by rewrite Ht).
  mrun Ef. rewrite u32_small by lia. destruct (Z.ltb_spec (fl_size f) (r_sector r + 2)); [lia|]. rewrite Hp. cbn [of_option]. rewrite bind_ret.
  cbn match. rewrite (u8_small (Z.shiftl _ _)) by done. set (cyl := Z.shiftl track (fl_stretch f)).
  rewrite bind_modify, bind_get.
  set (s3 := s2 <| fd_sector := sector |> <| fd_head := head |> <| fd_track := track |> <| seek_track := cyl |>). change (current_track s3) with (current_track s).
  set (q2 := negb (cyl =? current_track s)).
  assert (when q2 (modify (fun s => s <| fd_seek := 1 |>)) s3 = (Ret tt, s3 <| fd_seek := b2z (q1 || q2) |>)) as Eq2.
  { destruct q2; cbn [when orb]; [by rewrite orb_true_r|]. by rewrite orb_false_r. }
  mrun Eq2. set (s4 := s3 <| fd_seek := _ |>). set (cmd := if r_cmd r =? READ then _ else _).
  assert (cmd s4 = (Ret tt, s4 <| fd_command := if r_cmd r =? READ then FD_READ else FD_WRITE |>)) as Ecmd by (unfold cmd; by destruct Hcmd as [-> | ->]).
  mrun Ecmd. set (s5 := s4 <| fd_command := _ |>).
  mrun (on_kst_run (ticks_to_floppy_on (drive_nr r)) s5 0 _ (ticks_run (f_k s5) (drive_nr r) Hdr Hmot) eq_refl). set (k1 := _ <| floppy ::= _ |>).
  set (s6 := s5 <| f_k := k1 |>). unfold add_timer_call.
  mrun (on_kst_run (add_timer 0 floppy_on_fn) s6 tt (k1 <| fired ::= fun l => l ++ [floppy_on_fn] |>) eq_refl eq_refl). set (k2 := k1 <| fired ::= _ |>).
  change (0 <=? 0) with true. cbn [when]. unfold floppy_on_interrupt.
  assert (on_kst (upd_floppy (fun m => m <| selected := 1 |>)) (s6 <| f_k := k2 |>) =
    (Ret tt, s6 <| f_k := k2 |> <| f_k := k2 <| floppy ::= fun m => m <| selected := 1 |> |> |>)) as Esel by (apply on_kst_run; reflexivity).
  mrun Esel.
  rewrite bind_get. set (s7 := s6 <| f_k := k2 |> <| f_k := k2 <| floppy ::= fun m => m <| selected := 1 |> |> |>). change (current_DOR (floppy (f_k s7))) with (current_DOR (floppy (f_k s))). change (current_drive s7) with (drive_nr r).
  rewrite (mo_drive _ _ Hmot), Z.eqb_refl. cbn [negb]. f_equal.
Qed.

(** *** Interrupts *)

(** The controller reports that a seek ended normally, and the track that the head is on. *)
Definition seeks_succeed (start : Z) : Prop :=
  forall h, exists st0, Z.land st0 0xF8 = 0x20 /\ reply h [FD_SENSEI] = [st0; u8 (head_at start h)].

(** Going on with the transfer when the seek has ended on the right track. *)
Lemma seek_interrupt_run again start s h :
  fd_reset s = 0 -> fdc h = FCmd [] -> length (reply_buffer s) = 7%nat -> head_at start h = seek_track s ->
  0 <= seek_track s < 256 -> seeks_succeed start ->
  exists st0, let h' := drained 2 (sent_all h [FD_SENSEI]) in
  seek_interrupt again (io_to h s) =
    setup_rw_floppy again (io_to h' (s <| reply_buffer ::= put_replies 0 [st0; seek_track s] |> <| current_track := seek_track s |>)) /\
  fdc h' = FCmd [].
Proof.
  intros Hr Hh Hlen Hhead Hcyl Hrep. destruct (Hrep (FIn FD_STATUS :: h)) as (st0 & Hst & Erep). exists st0.
  set (h' := drained 2 (sent_all h [FD_SENSEI])). cbv zeta. unfold seek_interrupt. mrun (output_byte_run (io_to h s) FD_SENSEI [] Hr Hh).
  change (io_to _ (io_to h s)) with (io_to (sent_all h [FD_SENSEI]) s).
  assert (fdc (sent_all h [FD_SENSEI]) = results [st0; seek_track s]) as Eh.
  { cbn [sent_all foldl]. unfold sent. rewrite (fdc_byte _ []) by (rewrite fdc_aside_in; [done|discriminate]). cbn zeta. cbn [app length].
    change (opcode [u8 FD_SENSEI]) with FD_SENSEI. change ((1 =? cmd_len FD_SENSEI)%nat) with true. cbv iota.
    change (u8 FD_SENSEI) with FD_SENSEI. rewrite Erep. cbn [head_at]. by rewrite Hhead, u8_small. }
  destruct (result_run s (sent_all h [FD_SENSEI]) _ Hr Eh ltac:(cbn; lia)) as [Eres Hd]. split; [|exact Hd].
  mrun Eres. cbn [length]. fold h'. unfold ST. rewrite !bind_gets, bind_get. set (s1 := s <| reply_buffer ::= _ |>).
  assert (nth 0 (reply_buffer s1) 0 = st0 /\ nth 1 (reply_buffer s1) 0 = seek_track s) as [E0 E1].
  { unfold s1. destruct (reply_buffer s) as [|a [|b rest]] eqn:Eb; [done|done|]. cbn. rewrite Eb. done. }
  change (reply_buffer (io_to h' s1)) with (reply_buffer s1). rewrite E0, E1, Hst. change (seek_track (io_to h' s1)) with (seek_track s).
  rewrite !Z.eqb_refl. reflexivity.
Qed.

Lemma put_replies_lookup i l buf k :
  (i + length l <= length buf)%nat ->
  put_replies i l buf !! k = if decide (i <= k < i + length l)%nat then l !! (k - i)%nat else buf !! k.
Proof.
  revert i buf. induction l as [|b l IH]; intros i buf Hl; cbn [put_replies length] in *; [by rewrite decide_False by lia|].
  rewrite IH by (rewrite length_insert; lia). repeat case_decide; try lia.
  - by replace (k - i)%nat with (S (k - S i)) by lia.
  - replace k with i by lia. rewrite list_lookup_insert_eq, Nat.sub_diag by lia. done.
  - by rewrite list_lookup_insert_ne by lia.
Qed.

Lemma put_replies_all l buf : length l = length buf -> put_replies 0 l buf = l.
Proof.
  intros Hl. apply list_eq. intros k. rewrite put_replies_lookup by lia. case_decide; [by rewrite Nat.sub_0_r|].
  rewrite !(proj2 (lookup_ge_None _ _)) by lia. done.
Qed.

(** The status bytes of a transfer without errors. *)
Definition good_result (l : list Z) : Prop :=
  exists st0 st1 st2 c h r n, l = [st0; st1; st2; c; h; r; n] /\ Z.land st0 0xf8 = 0 /\ Z.land st1 0xbf = 0 /\ Z.land st2 0x73 = 0.

Lemma wake_up_run k q :
  (forall t, wait_queue k !! q = Some t -> is_Some (tasks k !! t)) ->
  exists k', Sched.wake_up q k = (Ret tt, k') /\ floppy k' = floppy k /\ ports k' = ports k.
Proof.
  intros Hq. unfold Sched.wake_up. rewrite bind_get. destruct (wait_queue k !! q) as [t|] eqn:Et; [|by eexists].
  destruct (Hq t eq_refl) as [tk Htk]. unfold upd_task, get_task. rewrite !bind_assoc, bind_get, Htk. by eexists.
Qed.

Lemma deselect_run s nr :
  Z.land (current_DOR (floppy (f_k s))) 3 = nr ->
  (forall t, wait_queue (f_k s) !! wait_on_floppy_select = Some t -> is_Some (tasks (f_k s) !! t)) ->
  exists k, floppy_deselect nr s = (Ret tt, s <| f_k := k |>) /\ floppy k = (floppy (f_k s)) <| selected := 0 |>.
Proof.
  intros Hnr Hq. unfold floppy_deselect. rewrite bind_get, Hnr, Z.eqb_refl. cbn [negb when]. rewrite bind_ret.
  set (k1 := (f_k s) <| floppy ::= fun m => m <| selected := 0 |> |>).
  assert (on_kst (upd_floppy (fun m => m <| selected := 0 |>)) s = (Ret tt, s <| f_k := k1 |>)) as E1 by (apply on_kst_run; reflexivity).
  mrun E1. destruct (wake_up_run k1 wait_on_floppy_select Hq) as (k & E & Ef & Ep). exists k.
  set (s1 := s <| f_k := k1 |>). change k1 with (f_k s1) in E, Ep.
  split; [|exact Ef]. rewrite (on_kst_run (Sched.wake_up wait_on_floppy_select) s1 tt k E Ep). reflexivity.
Qed.

(** The memory when a read is over. *)
Definition read_mem (cmd : Z) (r : request) (m : gmap Z Z) : gmap Z Z :=
  if (cmd =? FD_READ) && (0x100000 <=? r_buffer r) then copy_longs 256 tmp_floppy_area (r_buffer r) m else m.

(** The end of a request that went well. *)
Lemma finish_run again s i r bh v nr :
  fd_serving s i r -> r_bh r = Some bh -> bufs (f_blk s) !! bh = Some v -> istrue (b_lock v) = true ->
  Z.land (current_DOR (floppy (f_k s))) 3 = nr ->
  (forall t, wait_queue (f_k s) !! wait_on_floppy_select = Some t -> is_Some (tasks (f_k s) !! t)) ->
  exists s3, (floppy_deselect nr;; fd_end_request 1;; again) s = (again : M fdst unit) s3 /\ f_mem s3 = f_mem s /\
    ended FD_MAJOR (f_blk s) (f_blk s3) i r bh 1 v /\ f_io s3 = f_io s /\
    fd_reset s3 = fd_reset s /\ fd_recalibrate s3 = fd_recalibrate s /\ selected (floppy (f_k s3)) = 0.
Proof.
  intros Hs Hbh Hv Hlock Hdr Hq. destruct (deselect_run s nr Hdr Hq) as (k & Edes & Ek). mrun Edes. set (s4 := s <| f_k := k |>).
  unfold fd_end_request. rewrite bind_assoc. mrun (fd_current_run s4 i r Hs). rewrite bind_assoc.
  set (k5 := k <| floppy ::= fun m => m <| moff_timer ::= fun l => setZ l (Z.land (r_dev r) 3) (3 * HZ) |> |>).
  assert (on_kst (floppy_off (Z.land (r_dev r) 3)) s4 = (Ret tt, s4 <| f_k := k5 |>)) as Eoff by (apply on_kst_run; reflexivity).
  mrun Eoff. set (s5 := s4 <| f_k := k5 |>). destruct Hs as [Hc Hri].
  destruct (end_request_run FD_MAJOR (f_blk s5) i r bh v 1 Hc Hri Hbh Hv Hlock ltac:(lia)) as (b' & Eend & Hend).
  assert (on_fblk (end_request FD_MAJOR 1) s5 = (Ret tt, s5 <| f_blk := b' |>)) as Eb by (unfold on_fblk; by rewrite Eend).
  mrun Eb. exists (s5 <| f_blk := b' |>). split; [reflexivity|]. split; [reflexivity|]. split; [exact Hend|].
  split; [reflexivity|]. split; [reflexivity|]. split; [reflexivity|]. change (selected (floppy k) = 0). by rewrite Ek.
Qed.

(** A block that was read into the buffer below one megabyte is copied to its place. *)
Definition copy_back (cmd : Z) : M fdst unit :=
  when (cmd =? FD_READ) (
    r ← fd_current;
    when (0x100000 <=? u32 (r_buffer r)) (copy_buffer tmp_floppy_area (r_buffer r))).

Lemma copy_back_run s h i r :
  fd_serving s i r -> 0 <= r_buffer r < 4294967296 ->
  copy_back (fd_command s) (io_to h s) = (Ret tt, io_to h (s <| f_mem ::= read_mem (fd_command s) r |>)).
Proof.
  intros Hs Hbuf. unfold copy_back, read_mem. destruct (fd_command s =? FD_READ); cbn [when andb]; [|by destruct s].
  mrun (fd_current_run (io_to h s) i r Hs). rewrite u32_small by done. destruct (0x100000 <=? r_buffer r); cbn [when]; [reflexivity|].
  by destruct s.
Qed.

Lemma rw_interrupt_run again s h l i r bh v :
  fd_reset s = 0 -> fdc h = FRes l -> good_result l -> length (reply_buffer s) = 7%nat ->
  fd_serving s i r -> r_bh r = Some bh -> bufs (f_blk s) !! bh = Some v -> istrue (b_lock v) = true -> 0 <= r_buffer r < 4294967296 ->
  Z.land (current_DOR (floppy (f_k s))) 3 = current_drive s ->
  (forall t, wait_queue (f_k s) !! wait_on_floppy_select = Some t -> is_Some (tasks (f_k s) !! t)) ->
  exists s3, rw_interrupt again (io_to h s) = again s3 /\ f_mem s3 = read_mem (fd_command s) r (f_mem s) /\
    ended FD_MAJOR (f_blk s) (f_blk s3) i r bh 1 v /\ outs (f_io s3) = outs h /\ fdc (f_io s3) = FCmd [] /\
    fd_reset s3 = 0 /\ fd_recalibrate s3 = fd_recalibrate s /\ selected (floppy (f_k s3)) = 0.
Proof.
  intros Hr Hh (st0 & st1 & st2 & c & hd & rr & n & -> & H1 & H2 & H3) Hlen Hs Hbh Hv Hlock Hbuf Hdr Hq.
  set (l := [st0; st1; st2; c; hd; rr; n]) in *. set (h' := drained 7 h).
  destruct (result_run s h l Hr Hh ltac:(cbn; lia)) as [Eres Hd]. unfold rw_interrupt. mrun Eres. change (length l) with 7%nat in *. fold h' in Hd |- *.
  unfold ST. rewrite !bind_gets. set (s1 := s <| reply_buffer ::= _ |>).
  assert (reply_buffer s1 = l) as El.
  { exact (put_replies_all l (reply_buffer s) (eq_sym Hlen)). }
  change (reply_buffer (io_to h' s1)) with (reply_buffer s1). rewrite El. cbn [nth l]. rewrite H1, H2, H3.
  change (negb (Z.of_nat 7 =? 7) || istrue 0 || istrue 0 || istrue 0) with false. cbv iota. rewrite bind_get.
  change (fd_command (io_to h' s1)) with (fd_command s). change (current_drive (io_to h' s1)) with (current_drive s).
  set (copy := when _ _). set (s2 := io_to h' (s1 <| f_mem ::= read_mem (fd_command s) r |>)).
  assert (copy (io_to h' s1) = (Ret tt, s2)) as Ecopy.
  { exact (copy_back_run s1 h' i r Hs Hbuf). }
  mrun Ecopy. clear copy Ecopy.
  assert (f_mem s2 = read_mem (fd_command s) r (f_mem s) /\ f_blk s2 = f_blk s /\ f_k s2 = f_k s /\ f_io s2 = h' /\
    fd_reset s2 = fd_reset s /\ fd_recalibrate s2 = fd_recalibrate s) as (Em & Ebk & Ekk & Eio & Ers & Erc) by (split_and!; reflexivity).
  clearbody s2. assert (fd_serving s2 i r) as [Hc Hri] by (unfold fd_serving; by rewrite Ebk). rewrite <- Ekk in Hdr, Hq. rewrite <- Ebk in Hv.
  destruct (finish_run again s2 i r bh v (current_drive s) (conj Hc Hri) Hbh Hv Hlock Hdr Hq) as (s3 & E & E1 & E2 & E3 & E4 & E5 & E6).
  exists s3. split; [exact E|]. rewrite E1, Em, E3, Eio, E4, Ers, E5, Erc. rewrite Ebk in E2. unfold h'. by rewrite outs_drained.
Qed.

(** *** A request from beginning to end *)

Lemma head_drive_range head drive : 0 <= head < 2 -> 0 <= drive < 4 -> 0 <= Z.lor (Z.shiftl head 2) drive < 256.
Proof.
  intros Hh Hd. assert (head = 0 \/ head = 1) as [-> | ->] by lia; assert (drive = 0 \/ drive = 1 \/ drive = 2 \/ drive = 3) as [->|[->|[->| ->]]] by lia;
    by vm_compute.
Qed.

Lemma floppy_type_heads t f : floppy_type !! t = Some f -> fl_head f = 2 \/ fl_size f = 0.
Proof. intros Ht. do 8 (destruct t as [|t]; [injection Ht as <-; cbn; auto|]). discriminate Ht. Qed.

Lemma floppy_type_size t f : floppy_type !! t = Some f -> fl_size f < 4294967296 /\ fl_track f <= 80.
Proof. intros Ht. do 8 (destruct t as [|t]; [injection Ht as <-; cbn; lia|]). discriminate Ht. Qed.

Lemma no_track t f track : floppy_type !! t = Some f -> 0 <= track < fl_track f -> Z.shiftl track (fl_stretch f) <> 255.
Proof.
  intros Ht Hr. do 8 (destruct t as [|t]; [injection Ht as <-; cbn [fl_track fl_stretch] in *; rewrite Z.shiftl_mul_pow2; cbn; lia|]). discriminate Ht.
Qed.

Lemma armed_ready s r f track head sector :
  fd_reset s = 0 -> floppy_type !! Z.to_nat (TYPE (MINOR (r_dev r))) = Some f -> 0 <= track < 256 -> 0 <= head < 2 -> 1 <= sector <= fl_sect f ->
  rw_ready (armed s r f track head sector) f.
Proof.
  intros Hr Ht Htr Hh Hse. destruct (floppy_type_bytes _ _ Ht) as (_ & _ & Hs & Hg). split; [exact Hr|exact Ht| |].
  - unfold armed. cbn. destruct (_ =? _); auto.
  - pose proof (head_drive_range head (drive_nr r) Hh (drive_nr_range r)) as Hhd.
    change (Forall (fun b => 0 <= b < 256) [if r_cmd r =? READ then FD_READ else FD_WRITE; Z.lor (Z.shiftl head 2) (drive_nr r); track; head; sector; 2;
      fl_sect f; fl_gap f; 0xFF]).
    repeat (apply Forall_cons; split; [first [lia|destruct (_ =? _); by vm_compute]|]). apply Forall_nil. done.
Qed.

Lemma armed_facts s r f track head sector :
  let sA := armed s r f track head sector in
  rw_command sA f = [if r_cmd r =? READ then FD_READ else FD_WRITE; Z.lor (Z.shiftl head 2) (drive_nr r); track; head; sector; 2; fl_sect f; fl_gap f; 0xFF] /\
  f_io sA = f_io s /\ fd_seek sA = b2z (seek_needed s r (Z.shiftl track (fl_stretch f))) /\ seek_track sA = Z.shiftl track (fl_stretch f) /\
  fd_recalibrate sA = fd_recalibrate s /\ f_blk sA = f_blk s /\ f_mem sA = f_mem s /\ current_drive sA = drive_nr r /\
  f_k sA = spun (f_k s) (drive_nr r) /\ reply_buffer sA = reply_buffer s.
Proof. unfold armed. split_and!; reflexivity. Qed.

(** Ready to transfer: the state in which the nine bytes of the command have been sent. *)
Definition started (s0 : fdst) (r : request) (f : floppy_struct) (track head sector : Z) (h0 : list fd_io) (s : fdst) : Prop :=
  let cmd := if r_cmd r =? READ then FD_READ else FD_WRITE in
  exists h, s = io_to h s /\ (forall start, head_at start h = head_at start h0) /\
    outs h = rev ((fun b => (b, FD_DATA)) <$> [cmd; Z.lor (Z.shiftl head 2) (drive_nr r); track; head; sector; 2; fl_sect f; fl_gap f; 0xFF]) ++
             outs (dma_io cmd (dma_addr r)) ++ outs h0 /\
    do_floppy s = Some rw_interrupt_p /\ fd_command s = cmd /\ current_drive s = drive_nr r /\ f_blk s = f_blk s0 /\
    f_mem s = dma_mem cmd r (f_mem s0) /\ fd_reset s = 0 /\ fd_recalibrate s = 0 /\ length (reply_buffer s) = length (reply_buffer s0) /\
    f_k s = spun (f_k s0) (drive_nr r) /\ (exists h1 c, length c = 9%nat /\ opcode c = cmd /\ fdc h = FRes (reply h1 c)).

Lemma length_put_replies i l buf : length (put_replies i l buf) = length buf.
Proof. revert i buf. induction l as [|b l IH]; intros i buf; cbn [put_replies]; [done|]. by rewrite IH, length_insert. Qed.

(** [setup_rw_floppy] on a state that differs from the armed one only where it does not matter. *)
Lemma start_run again s0 r f track head sector s h i :
  fd_serving s0 i r -> rw_ready s f -> fdc h = FCmd [] -> fd_recalibrate s = 0 -> f_blk s = f_blk s0 -> f_mem s = f_mem s0 ->
  rw_command s f = [if r_cmd r =? READ then FD_READ else FD_WRITE; Z.lor (Z.shiftl head 2) (drive_nr r); track; head; sector; 2; fl_sect f; fl_gap f; 0xFF] ->
  current_drive s = drive_nr r -> f_k s = spun (f_k s0) (drive_nr r) -> length (reply_buffer s) = length (reply_buffer s0) ->
  exists s', setup_rw_floppy again (io_to h s) = (Ret tt, s') /\ started s0 r f track head sector h s' /\ current_track s' = current_track s.
Proof.
  intros Hs Hrr Hh Hrc Eb Em Ec Ed Ek El. assert (fd_serving s i r) as Hs1 by (unfold fd_serving; by rewrite Eb).
  destruct (setup_rw_run again s h i r f Hs1 Hrr Hh) as [E (h1 & Hres & Hlen)]. set (h' := sent_all _ _) in *.
  assert (fd_command s = if r_cmd r =? READ then FD_READ else FD_WRITE) as Ecmd by exact (f_equal (fun l => nth 0 l 0) Ec).
  eexists. split; [exact E|]. split; [|reflexivity]. exists h'. split; [reflexivity|].
  assert (outs h' = rev ((fun b => (b, FD_DATA)) <$> rw_command s f) ++ outs (dma_io (fd_command s) (dma_addr r)) ++ outs h) as Eout.
  { unfold h'. rewrite outs_sent_all. f_equal. f_equal. apply list_fmap_ext. intros k b Hb.
    by rewrite u8_small by (pose proof (rr_bytes _ _ Hrr) as Hall; rewrite Forall_lookup in Hall; exact (Hall k b Hb)). }
  split.
  { intros start. unfold h'. assert (cmd_len (fd_command s) = 9%nat) as Hl9 by (destruct (rr_cmd _ _ Hrr) as [-> | ->]; done).
    rewrite (head_command start (dma_io (fd_command s) (dma_addr r) ++ h) [] (rw_command s f)); [apply head_dma|by rewrite fdc_dma|apply Hrr| |..].
    - change (opcode ([] ++ rw_command s f)) with (fd_command s). rewrite Hl9. cbn. lia.
    - change (fd_command s <> FD_SEEK). destruct (rr_cmd _ _ Hrr) as [-> | ->]; discriminate.
    - change (fd_command s <> FD_RECALIBRATE). destruct (rr_cmd _ _ Hrr) as [-> | ->]; discriminate. }
  split; [by rewrite Eout, Ec, Ecmd|]. split; [reflexivity|]. split; [exact Ecmd|]. split; [exact Ed|]. split; [exact Eb|].
  split; [change (dma_mem (fd_command s) r (f_mem s) = dma_mem (if r_cmd r =? READ then FD_READ else FD_WRITE) r (f_mem s0)); by rewrite Em, Ecmd|].
  split; [exact (rr_steady _ _ Hrr)|]. split; [exact Hrc|]. split; [exact El|]. split; [exact Ek|].
  exists h1, (rw_command s f). split; [reflexivity|]. split; [exact Ecmd|exact Hres].
Qed.

Lemma io_to_self s : io_to (f_io s) s = s.
Proof. by destruct s. Qed.

Lemma fdc_ack h : fdc (FOut 0x20 0x20 :: h) = fdc h.
Proof. apply fdc_aside_out; discriminate. Qed.

(** The interrupt entry with a handler in place. *)
Lemma floppy_interrupt_run h s p :
  do_floppy s = Some p ->
  floppy_interrupt (io_to h s) =
    (match p with
     | rw_interrupt_p => rw_interrupt do_fd_request | seek_interrupt_p => seek_interrupt do_fd_request
     | recal_interrupt_p => recal_interrupt do_fd_request | reset_interrupt_p => reset_interrupt do_fd_request
     end) (io_to (FOut 0x20 0x20 :: h) (s <| do_floppy := None |>)).
Proof.
  intros Hp. unfold floppy_interrupt, fd_outb. rewrite bind_modify, bind_get, bind_modify. cbn [upd]. change (do_floppy (upd _ _)) with (do_floppy s).
  rewrite Hp. by destruct p.
Qed.

(** The interrupt after the seek sends the command for the transfer. *)
Lemma seek_started start s0 r f track head sector sA h2 i :
  fd_serving s0 i r -> rw_ready (tuned sA f) f -> fdc h2 = FCmd [] -> fd_recalibrate sA = 0 -> f_blk sA = f_blk s0 -> f_mem sA = f_mem s0 ->
  rw_command sA f = [if r_cmd r =? READ then FD_READ else FD_WRITE; Z.lor (Z.shiftl head 2) (drive_nr r); track; head; sector; 2; fl_sect f; fl_gap f; 0xFF] ->
  current_drive sA = drive_nr r -> f_k sA = spun (f_k s0) (drive_nr r) -> reply_buffer sA = reply_buffer s0 -> length (reply_buffer sA) = 7%nat ->
  0 <= head_drive sA < 256 -> 0 <= seek_track sA < 256 -> seeks_succeed start ->
  exists s', floppy_interrupt (io_to (sent_all h2 (seek_command sA)) ((tuned sA f) <| do_floppy := Some seek_interrupt_p |>)) = (Ret tt, s') /\
    started s0 r f track head sector (drained 2 (sent_all (FOut 0x20 0x20 :: sent_all h2 (seek_command sA)) [FD_SENSEI])) s' /\
    current_track s' = seek_track sA.
Proof.
  intros Hs Hready Hh2 Arc Ab Am Ecmd Ad Ak Ar Hlen Hhdr Hcyl Hsense. set (h3 := sent_all h2 (seek_command sA)).
  assert (fdc (FOut 0x20 0x20 :: h3) = FCmd []) as Hh3 by (rewrite fdc_ack; by apply seek_command_ready).
  set (s3 := (tuned sA f) <| do_floppy := Some seek_interrupt_p |>). rewrite (floppy_interrupt_run h3 s3 seek_interrupt_p eq_refl). set (s4 := (tuned sA f) <| do_floppy := None |>).
  change (s3 <| do_floppy := None |>) with s4.
  assert (head_at start (FOut 0x20 0x20 :: h3) = seek_track s4) as Hhead by (rewrite head_aside by discriminate; exact (head_seek start sA h2 Hh2 Hhdr Hcyl)).
  destruct (seek_interrupt_run do_fd_request start s4 (FOut 0x20 0x20 :: h3) (rr_steady _ _ Hready) Hh3 Hlen Hhead Hcyl Hsense) as (st0 & Eseek & Hh5). rewrite Eseek.
  change (seek_track s4) with (seek_track sA). set (s5 := s4 <| reply_buffer ::= _ |> <| current_track := _ |>).
  assert (rw_ready s5 f) as Hready5 by (destruct Hready as [R1 R2 R3 R4]; split; [exact R1|exact R2|exact R3|exact R4]).
  apply (start_run do_fd_request s0 r f track head sector s5 _ i Hs Hready5 Hh5 Arc Ab Am Ecmd Ad Ak).
  rewrite <- Ar. exact (length_put_replies 0 [st0; seek_track sA] _).
Qed.

Lemma transfer_started again start s0 r f track head sector sA i :
  fd_serving s0 i r -> rw_ready sA f -> floppy_type !! Z.to_nat (TYPE (MINOR (r_dev r))) = Some f -> fdc (f_io sA) = FCmd [] ->
  fd_recalibrate sA = 0 -> f_blk sA = f_blk s0 -> f_mem sA = f_mem s0 ->
  rw_command sA f = [if r_cmd r =? READ then FD_READ else FD_WRITE; Z.lor (Z.shiftl head 2) (drive_nr r); track; head; sector; 2; fl_sect f; fl_gap f; 0xFF] ->
  current_drive sA = drive_nr r -> f_k sA = spun (f_k s0) (drive_nr r) -> reply_buffer sA = reply_buffer s0 -> length (reply_buffer sA) = 7%nat ->
  0 <= seek_track sA < 256 -> seeks_succeed start -> (fd_seek sA = 0 -> head_at start (f_io sA) = seek_track sA) ->
  exists s1 s2 h0, transfer again sA = (Ret tt, s1) /\
    (if istrue (fd_seek sA) then do_floppy s1 = Some seek_interrupt_p /\ floppy_interrupt s1 = (Ret tt, s2) /\ current_track s2 = seek_track sA else s2 = s1) /\
    started s0 r f track head sector h0 s2 /\ head_at start h0 = seek_track sA /\
    outs h0 = (if istrue (fd_seek sA) then (FD_SENSEI, FD_DATA) :: (0x20, 0x20) :: rev ((fun b => (b, FD_DATA)) <$> seek_command sA) else []) ++
              tune_outs sA f ++ outs (f_io sA).
Proof.
  intros Hs Hready Ht Hh Arc Ab Am Ecmd Ad Ak Ar Hlen Hcyl Hsense Hstay.
  assert (0 <= head_drive sA < 256) as Hhdr.
  { pose proof (rr_bytes _ _ Hready) as Hb. inversion_clear Hb as [|??? Hb']. by inversion_clear Hb'. }
  assert (rw_ready (tuned sA f) f) as HreadyT by (destruct Hready as [R1 R2 R3 R4]; split; [exact R1|exact R2|exact R3|exact R4]).
  pose proof (transfer_run again sA (f_io sA) f Hready Hcyl Hh) as E. cbn zeta in E. rewrite io_to_self in E. rewrite E. clear E.
  set (h2 := rate_io sA f (spec_io sA f (f_io sA))). pose proof (spec_ready sA f (f_io sA) _ Ht Hh) as Hh2. fold h2 in Hh2.
  destruct (tune_done start sA f (f_io sA) _ Ht Hh) as [Eouts Ehead]. fold h2 in Eouts, Ehead. clearbody h2.
  destruct (istrue (fd_seek sA)) eqn:Eseek.
  - destruct (seek_started start s0 r f track head sector sA h2 i Hs HreadyT Hh2 Arc Ab Am Ecmd Ad Ak Ar Hlen Hhdr Hcyl Hsense) as (s' & E & Hstart & Etr).
    eexists _, s', _. split; [reflexivity|]. split; [split; [reflexivity|]; split; [exact E|exact Etr]|]. split; [exact Hstart|]. split.
    + rewrite head_drained, (head_command start _ [] [FD_SENSEI]);
        [rewrite head_aside by discriminate; by apply head_seek|rewrite fdc_ack; by apply seek_command_ready|by repeat constructor|cbn; lia|discriminate|discriminate].
    + rewrite outs_drained. cbn [sent_all foldl sent outs omap list_omap]. fold (outs (sent_all h2 (seek_command sA))).
      rewrite outs_sent_all, Eouts. change (u8 FD_SENSEI) with FD_SENSEI. do 2 (rewrite <- app_comm_cons; f_equal). f_equal. f_equal.
      apply list_fmap_ext. intros k b Hb. by rewrite (u8_small b) by exact (proj1 (Forall_lookup _ _) (seek_command_bytes sA Hhdr Hcyl) k b Hb).
  - destruct (start_run again s0 r f track head sector (tuned sA f) h2 i Hs HreadyT Hh2 Arc Ab Am Ecmd Ad Ak (f_equal length Ar)) as (s' & Es' & Hstart & _).
    exists s', s', h2. split; [exact Es'|]. split; [done|]. split; [exact Hstart|]. split; [|exact Eouts].
    rewrite Ehead. apply Hstay. unfold istrue in Eseek. by apply negb_false_iff, Z.eqb_eq in Eseek.
Qed.

(** The bytes of a seek, or of the recalibration that stands for a seek to track 0. *)
Definition seek_bytes (r : request) (head cyl : Z) : list Z :=
  let unit := Z.lor (Z.shiftl head 2) (drive_nr r) in
  if cyl =? 0 then [FD_RECALIBRATE; unit] else [FD_SEEK; unit; cyl].

(** The commands of a request go out, with a seek and its interrupt when the head is elsewhere. *)
Lemma request_started start s i r bh v f track head sector :
  fd_fuel <> O -> fd_depth <> O -> fd_wanted s i r bh v f -> fdc (f_io s) = FCmd [] -> length (reply_buffer s) = 7%nat ->
  fd_place (r_sector r) f = Some (track, head, sector) -> 0 <= track < 256 -> 0 <= head < 2 -> 1 <= sector <= fl_sect f ->
  let cyl := Z.shiftl track (fl_stretch f) in
  0 <= cyl < 256 -> seeks_succeed start -> (seek_needed s r cyl = false -> head_at start (f_io s) = cyl) ->
  exists s1 s2 h0, do_fd_request s = (Ret tt, s1) /\
    (if seek_needed s r cyl then do_floppy s1 = Some seek_interrupt_p /\ floppy_interrupt s1 = (Ret tt, s2) /\ current_track s2 = cyl else s2 = s1) /\
    started s r f track head sector h0 s2 /\ head_at start h0 = cyl /\
    outs h0 = (if seek_needed s r cyl then (FD_SENSEI, FD_DATA) :: (0x20, 0x20) :: rev ((fun b => (b, FD_DATA)) <$> seek_bytes r head cyl) else []) ++
              tune_outs s f ++ outs (f_io s).
Proof.
  intros Hfuel Hdepth W Hh Hlen Hp Htr Hhd Hse cyl Hcyl Hsense Hstay. pose proof W as [Hs _ Ht _ _ _ [Hrs Hrc] _].
  unfold do_fd_request. destruct fd_depth as [|d] eqn:Ed; [done|]. cbn [do_fd_nested]. set (again := do_fd_nested d).
  rewrite (do_fd_transfer again s i r bh v f track head sector Hfuel W (proj1 (floppy_type_size _ _ Ht)) Hp Hcyl).
  set (sA := armed s r f track head sector). pose proof (armed_ready s r f track head sector Hrs Ht Htr Hhd Hse) as Hready. fold sA in Hready.
  destruct (armed_facts s r f track head sector) as (Ecmd & Aio & Aseek & Ast & Arc & Ab & Am & Ad & Ak & Ar).
  fold sA in Ecmd, Aio, Aseek, Ast, Arc, Ab, Am, Ad, Ak, Ar. rewrite Hrc in Arc. change (Z.shiftl track (fl_stretch f)) with cyl in Ast, Aseek.
  rewrite <- Aio in Hh. rewrite <- Ar in Hlen. rewrite <- Ast in Hcyl.
  assert (fd_seek sA = 0 -> head_at start (f_io sA) = seek_track sA) as Hstay'.
  { rewrite Aseek, Aio, Ast. intros Hz. apply Hstay. by destruct (seek_needed s r cyl). }
  destruct (transfer_started again start s r f track head sector sA i Hs Hready Ht Hh Arc Ab Am Ecmd Ad Ak Ar Hlen Hcyl Hsense Hstay')
    as (s1 & s2 & h0 & E1 & E2 & E3 & E4 & E5).
  rewrite Aseek, Ast in E2. rewrite Ast in E4. rewrite Aseek, Aio in E5. exists s1, s2, h0. split; [exact E1|]. split; [by destruct (seek_needed s r cyl)|].
  split; [exact E3|]. split; [exact E4|]. rewrite E5.
  assert (seek_command sA = seek_bytes r head cyl) as ->.
  { unfold seek_command, seek_bytes, istrue. rewrite Ast. by destruct (cyl =? 0). }
  by destruct (seek_needed s r cyl).
Qed.

(** The interrupt at the end of the transfer completes the request and goes on with the next. *)
Lemma started_finish s0 r f track head sector h0 s h i bh v :
  fd_serving s0 i r -> r_bh r = Some bh -> bufs (f_blk s0) !! bh = Some v -> istrue (b_lock v) = true -> 0 <= r_buffer r < 4294967296 ->
  motor_on (floppy (f_k s0)) (drive_nr r) -> length (reply_buffer s0) = 7%nat ->
  (forall t, wait_queue (f_k s0) !! wait_on_floppy_select = Some t -> is_Some (tasks (f_k s0) !! t)) ->
  (forall h c, length c = 9%nat -> opcode c = (if r_cmd r =? READ then FD_READ else FD_WRITE) -> good_result (reply h c)) ->
  started s0 r f track head sector h0 s -> f_io s = h ->
  forall m, exists s3, floppy_interrupt (s <| f_mem := m |>) = do_fd_request s3 /\ f_mem s3 = read_mem (if r_cmd r =? READ then FD_READ else FD_WRITE) r m /\
    ended FD_MAJOR (f_blk s0) (f_blk s3) i r bh 1 v /\ fdc (f_io s3) = FCmd [] /\ fd_reset s3 = 0 /\ fd_recalibrate s3 = 0.
Proof.
  intros Hs Hbh Hv Hlock Hbuf Hmot Hlen Hq Hgood (h' & Es & _ & _ & Hp & Ec & Ed & Eb & _ & Hr & Hrc & El & Ek & h1 & c & Hc & Hop & Hres) Hio m.
  assert (h' = h) as -> by (rewrite <- Hio, Es; reflexivity). clear Es.
  set (s1 := s <| f_mem := m |>). assert (io_to h s1 = s1) as Eself by (rewrite <- Hio; exact (io_to_self s1)). rewrite <- Eself.
  rewrite (floppy_interrupt_run h s1 rw_interrupt_p Hp). set (s2 := s1 <| do_floppy := None |>).
  assert (fd_serving s2 i r) as Hs2 by (destruct Hs as [Hs1 Hs2]; split; [by rewrite <- Eb in Hs1|by rewrite <- Eb in Hs2]).
  assert (fdc (FOut 0x20 0x20 :: h) = FRes (reply h1 c)) as Hh by (by rewrite fdc_ack).
  assert (length (reply_buffer s2) = 7%nat) as Hl2 by (rewrite <- Hlen, <- El; reflexivity).
  assert (bufs (f_blk s2) !! bh = Some v) as Hv2 by (rewrite <- Hv, <- Eb; reflexivity).
  assert (Z.land (current_DOR (floppy (f_k s2))) 3 = current_drive s2) as Hd2.
  { change (f_k s2) with (f_k s). change (current_drive s2) with (current_drive s). rewrite Ek, Ed. exact (mo_drive _ _ Hmot). }
  assert (forall t, wait_queue (f_k s2) !! wait_on_floppy_select = Some t -> is_Some (tasks (f_k s2) !! t)) as Hq2
    by (change (f_k s2) with (f_k s); rewrite Ek; exact Hq).
  destruct (rw_interrupt_run do_fd_request s2 (FOut 0x20 0x20 :: h) (reply h1 c) i r bh v Hr Hh (Hgood h1 c Hc Hop) Hl2 Hs2 Hbh Hv2 Hlock Hbuf Hd2 Hq2)
    as (s3 & E & E1 & E2 & _ & E4 & E5 & E6 & _).
  exists s3. split; [exact E|]. change (fd_command s2) with (fd_command s) in E1. change (f_mem s2) with m in E1. rewrite Ec in E1.
  change (f_blk s2) with (f_blk s) in E2. rewrite Eb in E2. change (fd_recalibrate s2) with (fd_recalibrate s) in E6. rewrite Hrc in E6.
  split; [exact E1|]. split; [exact E2|]. split; [exact E4|]. split; [exact E5|exact E6].
Qed.

Lemma dma_write_mem r m k :
  tmp_floppy_area + 1024 <= 0x100000 -> 0 <= k < 1024 ->
  load_byte (dma_mem FD_WRITE r m) (dma_addr r + k) = load_byte m (r_buffer r + k).
Proof.
  intros Ht Hk. unfold dma_mem, dma_addr. destruct (Z.leb_spec 0x100000 (r_buffer r)); [|done]. cbn [andb]. change (FD_WRITE =? FD_WRITE) with true. cbv iota.
  rewrite copy_longs_load by lia. rewrite decide_True by lia. f_equal. lia.
Qed.

Lemma dma_read_mem r m data k :
  tmp_floppy_area + 1024 <= 0x100000 -> 0 <= k < 1024 -> length data = 1024%nat ->
  load_byte (read_mem FD_READ r (store_mem (dma_addr r) data m)) (r_buffer r + k) = nth (Z.to_nat k) data 0.
Proof.
  intros Ht Hk Hl. unfold read_mem, dma_addr. change (FD_READ =? FD_READ) with true. cbn [andb].
  destruct (Z.leb_spec 0x100000 (r_buffer r)); cbn [andb].
  - rewrite copy_longs_load by lia. rewrite decide_True by lia. rewrite load_store, decide_True by lia. f_equal. lia.
  - rewrite load_store, decide_True by lia. f_equal. lia.
Qed.
End Steps.

(** ** Property *)

(** C28: the floppy driver turns a request into the commands that move the right block, and ends it.
    For a request that fits the disk, with the drive's motor running and a controller that
    reports success, [do_fd_request] tells the controller the type of the disk when it has changed
    and sends, after a seek and its interrupt when the head is on another track or the drive another
    one, the nine bytes of the read or write command: their track, head and sector name the
    block of the request, in range for every type of disk, both sectors of a block on one track,
    and the head is on that track.  Before them the DMA channel was set to the request's buffer,
    or to the buffer below one megabyte when the request's is above; what is to be written is there.
    All that went to the ports is listed.  When the interrupt comes, what was read is in the
    request's buffer, the request is ended with success and the driver goes on to the next one.
    The controller answers a SENSEI with the track that the bytes it was given have moved the
    head to; the driver's own idea of the track was right, or 255, which is no track. *)
Theorem fd_request_ok `{Fdc} start s i r bh v f :
  fd_fuel <> O -> fd_depth <> O -> fd_wanted s i r bh v f -> fdc (f_io s) = FCmd [] -> length (reply_buffer s) = 7%nat ->
  tmp_floppy_area + 1024 <= 0x100000 -> 0 <= r_buffer r < 4294967296 ->
  (forall t, wait_queue (f_k s) !! wait_on_floppy_select = Some t -> is_Some (tasks (f_k s) !! t)) ->
  seeks_succeed start ->
  (current_drive s = drive_nr r -> current_track s = 255 \/ current_track s = head_at start (f_io s)) ->
  let cmd := if r_cmd r =? READ then FD_READ else FD_WRITE in
  (forall h c, length c = 9%nat -> opcode c = cmd -> good_result (reply h c)) ->
  exists track head sector s1 s2,
    0 <= track < fl_track f /\ 0 <= head < fl_head f /\ 1 <= sector <= fl_sect f /\
    (track * fl_head f + head) * fl_sect f + (sector - 1) = r_sector r /\
    (r_sector r mod 2 = 0 -> (r_sector r + 1) / (fl_sect f * fl_head f) = track) /\
    let cyl := Z.shiftl track (fl_stretch f) in
    do_fd_request s = (Ret tt, s1) /\
    (if seek_needed s r cyl then do_floppy s1 = Some seek_interrupt_p /\ floppy_interrupt s1 = (Ret tt, s2) else s2 = s1) /\
    do_floppy s2 = Some rw_interrupt_p /\ head_at start (f_io s2) = cyl /\
    outs (f_io s2) =
      rev ((fun b => (b, FD_DATA)) <$> [cmd; Z.lor (Z.shiftl head 2) (drive_nr r); track; head; sector; 2; fl_sect f; fl_gap f; 0xFF]) ++
      outs (dma_io cmd (dma_addr r)) ++
      (if seek_needed s r cyl then (FD_SENSEI, FD_DATA) :: (0x20, 0x20) :: rev ((fun b => (b, FD_DATA)) <$> seek_bytes r head cyl) else []) ++
      tune_outs s f ++ outs (f_io s) /\
    (r_cmd r = WRITE -> forall k, 0 <= k < 1024 -> load_byte (f_mem s2) (dma_addr r + k) = load_byte (f_mem s) (r_buffer r + k)) /\
    (forall data, length data = 1024%nat ->
     let done := s2 <| f_mem := if r_cmd r =? READ then store_mem (dma_addr r) data (f_mem s2) else f_mem s2 |> in
     exists s3, floppy_interrupt done = do_fd_request s3 /\ ended FD_MAJOR (f_blk s) (f_blk s3) i r bh 1 v /\
       (r_cmd r = READ -> forall k, 0 <= k < 1024 -> load_byte (f_mem s3) (r_buffer r + k) = nth (Z.to_nat k) data 0)).
Proof.
  intros Hfuel Hdepth W Hh Hlen Htmp Hbuf Hq Hsense Hhead cmd Hgood. pose proof W as [Hs Hm Ht [Hpos Hroom] (Hbh & Hv & Hlock) Hcmd _ Hmot].
  destruct (fd_place_ok _ f (r_sector r) Ht Hpos Hroom) as (track & head & sector & Hp & Htr & Hhd & Hse & Hblk & Hcyl1 & Hcyl).
  destruct (floppy_type_size _ _ Ht) as [_ Htrk]. assert (Z.shiftl track (fl_stretch f) <> 255) as Hno by exact (no_track _ f _ Ht Htr).
  destruct (request_started start s i r bh v f track head sector Hfuel Hdepth W Hh Hlen Hp ltac:(lia) Hhd Hse Hcyl Hsense)
    as (s1 & s2 & h0 & E1 & E2 & Hstart & Hat & Hbefore).
  { unfold seek_needed. intros [Hdr Htk]%orb_false_iff. apply negb_false_iff, Z.eqb_eq in Hdr, Htk. destruct (Hhead Hdr); congruence. }
  pose proof (fun m => started_finish s r f track head sector h0 s2 (f_io s2) i bh v Hs Hbh Hv Hlock Hbuf Hmot Hlen Hq Hgood Hstart eq_refl m) as Hfin.
  destruct Hstart as (h & Es & Ehead & Eout & Hdo & _ & _ & _ & Emem & _). assert (f_io s2 = h) as <- by (rewrite Es; reflexivity). clear Es.
  assert (fl_head f = 2) as Eh by (clear - Ht Hroom Hpos; destruct (floppy_type_heads _ _ Ht) as [|]; [done|lia]).
  exists track, head, sector, s1, s2. split; [exact Htr|]. split; [by rewrite Eh|]. split; [exact Hse|]. split; [exact Hblk|]. split; [exact Hcyl1|].
  cbv zeta. split; [exact E1|]. split; [by destruct (seek_needed _ _ _); [destruct E2 as (? & ? & _)|]|]. split; [exact Hdo|].
  split; [by rewrite Ehead|]. split; [by rewrite Eout, Hbefore|]. split.
  - intros Hw k Hk. rewrite Emem, Hw. by apply dma_write_mem.
  - intros data Hd. destruct (Hfin (if r_cmd r =? READ then store_mem (dma_addr r) data (f_mem s2) else f_mem s2)) as (s3 & E3 & Em3 & Hend & _).
    exists s3. split; [exact E3|]. split; [exact Hend|]. intros Hrd k Hk. rewrite Hrd in Em3. change (READ =? READ) with true in Em3. cbv iota in Em3.
    rewrite Em3. by apply dma_read_mem.
Qed.

(** ** How deep the calls go

    A routine that calls [do_fd_request] while a request is being started does so only to reset
    the controller, which starts nothing: two levels are enough. *)

Section Depth.
Context `{FdEnv} (a b : M fdst unit).
Hypothesis Hab : forall s, istrue (fd_reset s) = true -> a s = b s.

Lemma again_ext s : again_if_reset a s = again_if_reset b s.
Proof. unfold again_if_reset. rewrite !bind_get. destruct (istrue (fd_reset s)) eqn:E; cbn [when]; [by apply Hab|done]. Qed.

Lemma setup_rw_ext s : setup_rw_floppy a s = setup_rw_floppy b s.
Proof. unfold setup_rw_floppy. repeat first [apply again_ext|apply bind_ext; intros ? ?]. Qed.

Lemma transfer_ext s : transfer a s = transfer b s.
Proof.
  unfold transfer. do 5 (apply bind_ext; intros ? ?). rewrite !bind_get. match goal with |- context [istrue (fd_reset ?x)] => destruct (istrue (fd_reset x)) eqn:E end; [by apply Hab|].
  destruct (negb _); [apply setup_rw_ext|]. repeat first [apply again_ext|apply bind_ext; intros ? ?].
Qed.

Lemma recalibrate_ext s : recalibrate_floppy a s = recalibrate_floppy b s.
Proof. unfold recalibrate_floppy. repeat first [apply again_ext|apply bind_ext; intros ? ?]. Qed.

Lemma floppy_on_ext s : floppy_on_interrupt a s = floppy_on_interrupt b s.
Proof.
  unfold floppy_on_interrupt, add_timer_call. do 2 (apply bind_ext; intros ? ?). destruct (negb _); [|apply transfer_ext].
  repeat (apply bind_ext; intros ? ?). destruct (2 <=? 0); cbn [when]; [apply transfer_ext|done].
Qed.

Lemma do_fd_loop_ext n s : do_fd_loop a n s = do_fd_loop b n s.
Proof.
  revert s. induction n as [|n IH]; intros s; [done|]. cbn [do_fd_loop]. apply bind_ext. intros [r|] s1; [|done]. do 5 (apply bind_ext; intros ? ?).
  destruct (_ <? _); [apply bind_ext; intros _ ?; apply IH|]. apply bind_ext. intros [[? ?] ?] ?. do 5 (apply bind_ext; intros ? ?).
  unfold add_timer_call. apply bind_ext. intros _ ?. destruct (_ <=? 0); cbn [when]; [apply floppy_on_ext|done].
Qed.

Lemma do_fd_with_ext s : do_fd_with a s = do_fd_with b s.
Proof.
  unfold do_fd_with. do 2 (apply bind_ext; intros ? ?). destruct (istrue _); [done|]. destruct (istrue _); [apply recalibrate_ext|apply do_fd_loop_ext].
Qed.
End Depth.

Lemma do_fd_two_levels `{FdEnv} n s : do_fd_nested (2 + n) s = do_fd_nested 2 s.
Proof.
  apply (do_fd_with_ext (do_fd_nested (1 + n)) (do_fd_nested 1)). clear s. intros s Hr. cbn [Nat.add do_fd_nested]. unfold do_fd_with. rewrite !bind_modify, !bind_get.
  change (fd_reset (s <| fd_seek := 0 |>)) with (fd_reset s). by rewrite Hr.
Qed.

(** ** A fault

    When the last request of the queue has failed for the ninth time, [bad_flp_intr] ends it and
    then reads the error count of a request that is not there. *)
Lemma fd_last_error `{FdEnv} s i r bh v :
  fd_serving s i r -> r_errors r = 8 -> r_next r = None -> r_bh r = Some bh -> bufs (f_blk s) !! bh = Some v -> istrue (b_lock v) = true ->
  Z.land (current_DOR (floppy (f_k s))) 3 = current_drive s ->
  (forall t, wait_queue (f_k s) !! wait_on_floppy_select = Some t -> is_Some (tasks (f_k s) !! t)) ->
  exists s', bad_flp_intr s = (Undef "CURRENT", s') /\ current_request (f_blk s') !! FD_MAJOR = None.
Proof.
  intros [Hc Hr] He Hn Hbh Hv Hlock Hd Hq. unfold bad_flp_intr. set (r1 := r <| r_errors ::= Z.succ |>).
  set (s1 := s <| f_blk := (f_blk s) <| reqs := <[i := r1]> (reqs (f_blk s)) |> |>).
  assert (upd_fd_current (fun r => r <| r_errors ::= Z.succ |>) s = (Ret tt, s1)) as E1.
  { unfold upd_fd_current, on_fblk, upd_CURRENT. rewrite bind_get, Hc. cbn [of_option]. by rewrite bind_ret, (upd_req_run _ _ _ _ Hr). }
  mrun E1. assert (fd_serving s1 i r1) as Hs1 by (split; [exact Hc|exact (list_lookup_insert_eq _ _ _ (lookup_lt_Some _ _ _ Hr))]).
  mrun (fd_current_run s1 i r1 Hs1). assert (r_errors r1 = 9) as -> by (change (Z.succ (r_errors r) = 9); lia).
  change (FD_MAX_ERRORS <? 9) with true. cbn [when]. rewrite bind_assoc, bind_get, bind_assoc.
  destruct (deselect_run s1 (current_drive s1) Hd Hq) as (k & Edes & _). mrun Edes. set (s2 := s1 <| f_k := k |>).
  unfold fd_end_request. rewrite bind_assoc. mrun (fd_current_run s2 i r1 Hs1). rewrite bind_assoc.
  set (k3 := k <| floppy ::= fun m => m <| moff_timer ::= fun l => setZ l (Z.land (r_dev r1) 3) (3 * HZ) |> |>).
  assert (on_kst (floppy_off (Z.land (r_dev r1) 3)) s2 = (Ret tt, s2 <| f_k := k3 |>)) as Eoff by (apply on_kst_run; reflexivity).
  mrun Eoff. set (s3 := s2 <| f_k := k3 |>). destruct Hs1 as [Hc1 Hr1].
  destruct (end_request_run FD_MAJOR (f_blk s3) i r1 bh v 0 Hc1 Hr1 Hbh Hv Hlock ltac:(lia)) as (b' & Eend & Hend).
  assert (on_fblk (end_request FD_MAJOR 0) s3 = (Ret tt, s3 <| f_blk := b' |>)) as Eb by (unfold on_fblk; by rewrite Eend).
  mrun Eb. pose proof (en_current _ _ _ _ _ _ _ _ Hend) as Ecur. change (r_next r1) with (r_next r) in Ecur. rewrite Hn in Ecur.
  assert (current_request b' !! FD_MAJOR = None) as Hnone by (rewrite Ecur; apply lookup_delete_eq).
  exists (s3 <| f_blk := b' |>). split; [|exact Hnone]. unfold fd_current, on_fblk, CURRENT, mbind, M_bind, get. cbn [f_blk].
  change (f_blk (s3 <| f_blk := b' |>)) with b'. by rewrite Hnone.
Qed.

(** ** A controller *)

(** It always succeeds; the head begins on track 0.  Its state is its phase and the track. *)
Definition demo_reply (cyl : Z) (c : list Z) : list Z :=
  match res_len (opcode c) with 0%nat => [] | 2%nat => [0x20; cyl] | _ => replicate 7 0 end.

Definition demo_step (e : fd_io) (x : fdc_phase * Z) : fdc_phase * Z :=
  match e, x.1 with
  | FOut v q, FCmd got =>
      if q =? FD_DATA then
        let got := got ++ [v] in
        (if (length got =? cmd_len (opcode got))%nat then results (demo_reply (u8 x.2) got) else FCmd got, moved got x.2)
      else x
  | FIn q, FRes (_ :: l) => (if q =? FD_DATA then results l else x.1, x.2)
  | _, _ => x
  end.
Definition demo_state : list fd_io -> fdc_phase * Z := foldr demo_step (FCmd [], 0).
Definition demo_fdc (h : list fd_io) : fdc_phase := (demo_state h).1.

#[local] Instance demo_env : FdEnv := {|
  fd_in := fun h p =>
    if p =? FD_STATUS then match demo_fdc h with FCmd [] => 0x80 | FCmd (_ :: _) => 0x90 | FRes _ => 0xD0 end
    else match demo_fdc h with FRes (x :: _) => x | _ => 0 end;
  tmp_floppy_area := 0x5000; fd_others := fun k => k; fd_fuel := 40; fd_depth := 3
|}.

Lemma results_bytes l : Forall (fun b => 0 <= b < 256) l -> match results l with FRes l => Forall (fun b => 0 <= b < 256) l | _ => True end.
Proof. by destruct l. Qed.

Lemma demo_bytes h : match demo_fdc h with FRes l => Forall (fun b => 0 <= b < 256) l | _ => True end.
Proof.
  induction h as [|e h IH]; [done|]. unfold demo_fdc in *. cbn [demo_state foldr]. fold (demo_state h).
  destruct (demo_state h) as [[got|[|x l]] cyl], e as [q|v q]; cbn [demo_step fst snd] in *; try done.
  - destruct (q =? FD_DATA); [|done]. cbn zeta. cbn [fst]. destruct (_ =? _)%nat; [|done]. apply results_bytes. unfold demo_reply.
    destruct (res_len _) as [|[|[|]]]; repeat constructor; try lia; apply u8_range.
  - destruct (q =? FD_DATA); [|done]. apply results_bytes. by inversion_clear IH.
Qed.

#[local] Instance demo_ctl : Fdc.
Proof.
  refine {| fdc := demo_fdc; reply := fun h c => demo_reply (u8 (demo_state h).2) c |}.
  - intros h c l. unfold demo_reply. cbn [opcode nth]. unfold res_len. destruct (_ || _); [done|]. by destruct (_ =? _).
  - intros h. cbn [fd_in demo_env]. change (FD_STATUS =? FD_STATUS) with true. cbv iota. by destruct (demo_fdc h) as [[|]|].
  - intros h p Hp. unfold demo_fdc. cbn [demo_state foldr]. fold (demo_state h). destruct (demo_state h) as [[|[|]] ?]; cbn [demo_step fst]; try done. by destruct (Z.eqb_spec p FD_DATA).
  - intros h v p Hp _. unfold demo_fdc. cbn [demo_state foldr]. fold (demo_state h). destruct (demo_state h) as [[|[|]] ?]; cbn [demo_step fst]; try done. by destruct (Z.eqb_spec p FD_DATA).
  - intros h got v Hf. unfold demo_fdc in *. cbn [demo_state foldr]. fold (demo_state h). unfold demo_step. rewrite Hf. reflexivity.
  - intros h x l Hf. cbn [fd_in demo_env]. change (FD_DATA =? FD_STATUS) with false. cbv iota. pose proof (demo_bytes h) as Hb. rewrite Hf in *.
    split; [apply u8_small; by inversion_clear Hb|]. unfold demo_fdc in *. cbn [demo_state foldr]. fold (demo_state h). unfold demo_step. by rewrite Hf.
Defined.

(** The track that the controller keeps is where the head is. *)
Lemma demo_head h : (demo_state h).2 = head_at 0 h.
Proof.
  induction h as [|e h IH]; [done|]. cbn [demo_state foldr]. fold (demo_state h). change (fdc (H := demo_env)) with demo_fdc in *.
  destruct e as [p|v p]; cbn [head_at]; change (fdc h) with (demo_state h).1; rewrite <- IH; unfold demo_step; destruct (demo_state h) as [[got|[|x l]] cyl]; cbn [fst snd]; try done.
  by destruct (p =? FD_DATA).
Qed.

(** ** A concrete request *)

(** Block 45 of a 1.44 MB disk in drive 0, for a buffer at two megabytes. *)
Definition fd_req : request := mk_request 0x21C READ 0 90 2 0x200000 None (Some 7) None.
Definition fd_buf : buffer := mk_buffer 0x200000 45 0x21C 0 0 1.
Definition fd_demo : fdst :=
  mk_fdst (demo <| floppy := mk_motor [0; 0; 0; 0] [0; 0; 0; 0] 0x1C 0 |>)
    (mk_blk [fd_req] {[FD_MAJOR := 0%nat]} {[7 := fd_buf]} [] []) ∅ 0 0 0 (replicate 7 0) (-1) (-1) 0 0 0 0 0 0 255 0 None [].
Definition fd_144 : floppy_struct := mk_floppy 2880 18 2 80 0 0x1B 0x00 0xCF.

Lemma fd_demo_wanted : fd_wanted fd_demo 0 fd_req 7 fd_buf fd_144.
Proof. split; [by split|reflexivity|reflexivity|cbn; lia|done|by left|by split|]. split; [cbn; lia|reflexivity..]. Qed.

Lemma demo_seeks : seeks_succeed 0.
Proof. intros h. exists 0x20. split; [reflexivity|]. rewrite <- demo_head. reflexivity. Qed.

Lemma fd_request_ok_witness :
  exists s1 s2, do_fd_request fd_demo = (Ret tt, s1) /\ floppy_interrupt s1 = (Ret tt, s2) /\ head_at 0 (f_io s2) = 2 /\
    outs (f_io s2) =
      rev ((fun b => (b, FD_DATA)) <$> [FD_READ; 4; 2; 1; 1; 2; 18; 0x1B; 0xFF]) ++ outs (dma_io FD_READ 0x5000) ++
      [(FD_SENSEI, FD_DATA); (0x20, 0x20); (2, FD_DATA); (4, FD_DATA); (FD_SEEK, FD_DATA)] ++
      [(0, FD_DCR); (6, FD_DATA); (0xCF, FD_DATA); (FD_SPECIFY, FD_DATA)] /\
    exists s3, floppy_interrupt (s2 <| f_mem := store_mem 0x5000 (replicate 1024 9) (f_mem s2) |>) = do_fd_request s3 /\
      load_byte (f_mem s3) 0x200005 = 9.
Proof.
  assert (fdc (f_io fd_demo) = FCmd []) as Hidle by reflexivity. assert (tmp_floppy_area + 1024 <= 0x100000) as Htmp by (cbn; lia).
  assert (fd_fuel <> O /\ fd_depth <> O) as [Hf Hd] by (split; vm_compute; discriminate).
  destruct (fd_request_ok 0 fd_demo 0 fd_req 7 fd_buf fd_144 Hf Hd fd_demo_wanted Hidle eq_refl Htmp ltac:(cbn; lia))
    as (track & head & sector & s1 & s2 & Htr & Hhd & Hse & Hblk & _ & E1 & E2 & _ & Ehead & Eout & _ & Hdone).
  - intros t Ht. discriminate Ht.
  - exact demo_seeks.
  - intros _. left. reflexivity.
  - intros h c Hc Hop. change (opcode c = FD_READ) in Hop. exists 0, 0, 0, 0, 0, 0, 0. split; [|split; [reflexivity|split; reflexivity]].
    change (demo_reply (u8 (demo_state h).2) c = replicate 7 0). unfold demo_reply. rewrite Hop. reflexivity.
  - cbn in Htr, Hhd, Hse, Hblk. assert (track = 2 /\ head = 1 /\ sector = 1) as (-> & -> & ->) by lia.
    assert (seek_needed fd_demo fd_req (Z.shiftl 2 (fl_stretch fd_144)) = true) as Hsk by reflexivity. rewrite Hsk in E2, Eout. destruct E2 as [_ E2].
    exists s1, s2. split; [exact E1|]. split; [exact E2|]. split; [exact Ehead|]. split; [exact Eout|].
    destruct (Hdone (replicate 1024 9) ltac:(reflexivity)) as (s3 & E3 & _ & Hm). exists s3. split; [exact E3|].
    exact (Hm eq_refl 5 ltac:(lia)).
Defined.
