(* ===== verification/Buffer.v ===== *)
(** The buffer cache ([linux-0.11/fs/buffer.c]), with the routines of [fs/inode.c] and
    [fs/super.c] that writing back an inode needs.

    [getblk] calls [sync_dev] when all free buffers are dirty, [sync_dev] writes inodes
    back, and [write_inode] reads a block through [getblk]: the recursion is bounded by a
    depth.  A hash chain and the free list have no more members than there are buffers. *)

From S2P Require Import Prelude FsDefs.

Section Buffer.
Context `{FsEnv}.

(** ** Waiting *)

Fixpoint wait_buffer (n : nat) (bh : Z) : M fs unit :=
  match n with
  | O => nofuel
  | S n => b ← get_bh bh; if istrue (b_lock b) then sleep;; wait_buffer n bh else mret tt
  end.
Definition wait_on_buffer (bh : Z) : M fs unit := wait_buffer fuel bh.

(** The buffers in the order of their array. *)
Definition all_buffers : M fs (list Z) := gets (fun s => seqZ 0 (nr_buffers s)).

(** ** Queues *)

Definition _hashfn (dev block : Z) : Z := u32 (Z.lxor dev block) mod NR_HASH.

Definition hash (dev block : Z) : M fs (option Z) :=
  gets (fun s => default None (hash_table s !! Z.to_nat (_hashfn dev block))).
Definition set_hash (dev block : Z) (v : option Z) : M fs unit :=
  modify (fun s => s <| hash_table ::= <[Z.to_nat (_hashfn dev block) := v]> |>).

(** [p->b_prev = v] and the like; [p] may be null only in [insert_into_queues]. *)
Definition opt_upd (p : option Z) (f : buffer_head -> buffer_head) : M fs unit :=
  match p with Some b => upd_bh b f | None => mret tt end.

Definition remove_from_queues (bh : Z) : M fs unit :=
  b ← get_bh bh;
  opt_upd (b_next b) (fun x => x <| b_prev := b_prev b |>);;
  b ← get_bh bh;
  opt_upd (b_prev b) (fun x => x <| b_next := b_next b |>);;
  b ← get_bh bh;
  h ← hash (b_dev b) (b_blocknr b);
  when (bool_decide (h = Some bh)) (set_hash (b_dev b) (b_blocknr b) (b_next b));;
  match b_prev_free b, b_next_free b with
  | Some p, Some n =>
      upd_bh p (fun x => x <| b_next_free := Some n |>);;
      b ← get_bh bh;
      n ← of_option "b_next_free" (b_next_free b);
      upd_bh n (fun x => x <| b_prev_free := b_prev_free b |>);;
      b ← get_bh bh;
      s ← get;
      when (bool_decide (free_list s = Some bh)) (modify (fun s => s <| free_list := b_next_free b |>))
  | _, _ => panic "Free block list corrupted"
  end.

Definition insert_into_queues (bh : Z) : M fs unit :=
  s ← get;
  fl ← of_option "free_list" (free_list s);
  upd_bh bh (fun x => x <| b_next_free := Some fl |>);;
  f ← get_bh fl;
  upd_bh bh (fun x => x <| b_prev_free := b_prev_free f |>);;
  f ← get_bh fl;
  p ← of_option "b_prev_free" (b_prev_free f);
  upd_bh p (fun x => x <| b_next_free := Some bh |>);;
  upd_bh fl (fun x => x <| b_prev_free := Some bh |>);;
  upd_bh bh (fun x => x <| b_prev := None |>);;
  upd_bh bh (fun x => x <| b_next := None |>);;
  b ← get_bh bh;
  if b_dev b =? 0 then mret tt else
  h ← hash (b_dev b) (b_blocknr b);
  upd_bh bh (fun x => x <| b_next := h |>);;
  set_hash (b_dev b) (b_blocknr b) (Some bh);;
  match h with
  | Some n => upd_bh n (fun x => x <| b_prev := Some bh |>)
  | None => modify (fun s => s <| null_prev := Some bh |>)
  end.

Fixpoint find_in_chain (n : nat) (tmp : option Z) (dev block : Z) : M fs (option Z) :=
  match tmp with
  | None => mret None
  | Some t =>
      match n with
      | O => nofuel
      | S n =>
          b ← get_bh t;
          if (b_dev b =? dev) && (b_blocknr b =? block) then mret (Some t)
          else find_in_chain n (b_next b) dev block
      end
  end.

Definition find_buffer (dev block : Z) : M fs (option Z) :=
  s ← get;
  h ← hash dev block;
  find_in_chain (size (bufs s)) h dev block.

Fixpoint get_hash_loop (n : nat) (dev block : Z) : M fs (option Z) :=
  match n with
  | O => nofuel
  | S n =>
      r ← find_buffer dev block;
      match r with
      | None => mret None
      | Some bh =>
          upd_bh bh (fun b => b <| b_count := u8 (b_count b + 1) |>);;
          wait_on_buffer bh;;
          b ← get_bh bh;
          if (b_dev b =? dev) && (b_blocknr b =? block) then mret (Some bh) else
          upd_bh bh (fun b => b <| b_count := u8 (b_count b - 1) |>);;
          get_hash_loop n dev block
      end
  end.
Definition get_hash_table (dev block : Z) : M fs (option Z) := get_hash_loop fuel dev block.

(** ** Releasing and reading, over a [getblk] *)

Definition brelse (buf : option Z) : M fs unit :=
  match buf with
  | None => mret tt
  | Some buf =>
      wait_on_buffer buf;;
      b ← get_bh buf;
      upd_bh buf (fun b => b <| b_count := u8 (b_count b - 1) |>);;
      if b_count b =? 0 then panic "Trying to free free buffer" else
      wake_up QBuffer
  end.

Definition bread_with (getblk : Z -> Z -> M fs (option Z)) (dev block : Z) : M fs (option Z) :=
  r ← getblk dev block;
  match r with
  | None => panic "bread: getblk returned NULL"
  | Some bh =>
      b ← get_bh bh;
      if istrue (b_uptodate b) then mret (Some bh) else
      ll_rw_block READ bh;;
      wait_on_buffer bh;;
      b ← get_bh bh;
      if istrue (b_uptodate b) then mret (Some bh) else
      brelse (Some bh);;
      mret None
  end.

(** ** Super blocks and inodes, as far as synchronising needs them *)

Fixpoint wait_super (n : nat) (sb : Z) : M fs unit :=
  match n with
  | O => nofuel
  | S n => v ← get_sb sb; if istrue (s_lock v) then sleep;; wait_super n sb else mret tt
  end.
Definition wait_on_super (sb : Z) : M fs unit := wait_super fuel sb.

(** The [while] loop of [get_super] from slot [s]. *)
Fixpoint super_loop (n : nat) (s dev : Z) : M fs (option Z) :=
  match n with
  | O => nofuel
  | S n =>
      if NR_SUPER <=? s then mret None else
      v ← get_sb s;
      if s_dev v =? dev then
        wait_on_super s;;
        v ← get_sb s;
        if s_dev v =? dev then mret (Some s) else super_loop n 0 dev
      else super_loop n (s + 1) dev
  end.

Definition get_super (dev : Z) : M fs (option Z) :=
  if dev =? 0 then mret None else super_loop (fuel + Z.to_nat NR_SUPER) 0 dev.

Fixpoint wait_inode (n : nat) (i : Z) : M fs unit :=
  match n with
  | O => nofuel
  | S n => v ← get_inode i; if istrue (i_lock v) then sleep;; wait_inode n i else mret tt
  end.
Definition wait_on_inode (i : Z) : M fs unit := wait_inode fuel i.

Definition lock_inode (i : Z) : M fs unit :=
  wait_inode fuel i;;
  upd_inode i (fun v => v <| i_lock := 1 |>).

Definition unlock_inode (i : Z) : M fs unit :=
  upd_inode i (fun v => v <| i_lock := 0 |>);;
  wake_up (QInode i).

(** The 32 bytes of a [struct d_inode] at place [k] of a block. *)
Definition put_d_inode (v : m_inode) (k : Z) (data : list Z) : list Z :=
  let o := 16 * k in
  let data := st16 o (i_mode v) data in
  let data := st16 (o + 1) (i_uid v) data in
  let data := st32 (o + 2) (i_size v) data in
  let data := st32 (o + 4) (i_mtime v) data in
  let data := st16 (o + 6) (i_gid v + 256 * i_nlinks v) data in
  foldl (fun d j => st16 (o + 7 + j) (zone v j) d) data (seqZ 0 9).

Definition get_d_inode (data : list Z) (k : Z) (v : m_inode) : m_inode :=
  let o := 16 * k in
  v <| i_mode := ld16 data o |> <| i_uid := ld16 data (o + 1) |>
    <| i_size := ld32 data (o + 2) |> <| i_mtime := ld32 data (o + 4) |>
    <| i_gid := u8 (ld16 data (o + 6)) |> <| i_nlinks := Z.shiftr (ld16 data (o + 6)) 8 |>
    <| i_zone := (fun j => ld16 data (o + 7 + j)) <$> seqZ 0 9 |>.

(** The block of an inode; the division is of an int by an unsigned. *)
Definition inode_block (sb : super_block) (num : Z) : Z :=
  2 + s_imap_blocks sb + s_zmap_blocks sb + u32 (num - 1) / INODES_PER_BLOCK.

Definition write_inode_with (bread : Z -> Z -> M fs (option Z)) (i : Z) : M fs unit :=
  lock_inode i;;
  v ← get_inode i;
  if negb (istrue (i_dirt v)) || (i_dev v =? 0) then unlock_inode i else
  sb ← get_super (i_dev v);
  match sb with
  | None => panic "trying to write inode without device"
  | Some sb =>
      sb ← get_sb sb;
      r ← bread (i_dev v) (inode_block sb (i_num v));
      match r with
      | None => panic "unable to read i-node block"
      | Some bh =>
          v ← get_inode i;
          upd_bh bh (fun b => b <| b_data ::= put_d_inode v (u32 (i_num v - 1) mod INODES_PER_BLOCK) |>);;
          upd_bh bh (fun b => b <| b_dirt := 1 |>);;
          upd_inode i (fun v => v <| i_dirt := 0 |>);;
          brelse (Some bh);;
          unlock_inode i
      end
  end.

Definition sync_inodes_with (write_inode : Z -> M fs unit) : M fs unit :=
  for_each (seqZ 0 NR_INODE) (fun i =>
    wait_on_inode i;;
    v ← get_inode i;
    when (istrue (i_dirt v) && negb (istrue (i_pipe v))) (write_inode i)).

(** ** Synchronising *)

(** The loop over the buffers of a device, which [sync_dev] has twice. *)
Definition write_buffers (dev : Z) : M fs unit :=
  l ← all_buffers;
  for_each l (fun bh =>
    b ← get_bh bh;
    when (b_dev b =? dev) (
      wait_on_buffer bh;;
      b ← get_bh bh;
      when ((b_dev b =? dev) && istrue (b_dirt b)) (ll_rw_block WRITE bh))).

Definition sync_dev_with (sync_inodes : M fs unit) (dev : Z) : M fs Z :=
  write_buffers dev;;
  sync_inodes;;
  write_buffers dev;;
  mret 0.

(** ** getblk *)

Definition BADNESS (b : buffer_head) : Z := Z.shiftl (b_dirt b) 1 + b_lock b.

(** The [do ... while] loop over the free list from [tmp], with the best buffer so far. *)
Fixpoint scan_free (n : nat) (tmp : Z) (best : option Z) : M fs (option Z) :=
  match n with
  | O => nofuel
  | S n =>
      t ← get_bh tmp;
      b ← (match best with None => mret None | Some x => v ← get_bh x; mret (Some v) end);
      let better := (b_count t =? 0) &&
                    match b with None => true | Some v => BADNESS t <? BADNESS v end in
      let best := if better then Some tmp else best in
      if better && (BADNESS t =? 0) then mret best else
      nx ← of_option "b_next_free" (b_next_free t);
      s ← get;
      if bool_decide (free_list s = Some nx) then mret best else scan_free n nx best
  end.

(** [while (bh->b_dirt)]: true when the search has to start again. *)
Fixpoint flush (n : nat) (sync_dev : Z -> M fs Z) (bh : Z) : M fs bool :=
  match n with
  | O => nofuel
  | S n =>
      b ← get_bh bh;
      if negb (istrue (b_dirt b)) then mret false else
      sync_dev (b_dev b);;
      wait_on_buffer bh;;
      b ← get_bh bh;
      if istrue (b_count b) then mret true else flush n sync_dev bh
  end.

(** The end of [getblk]: the buffer is given to the block. *)
Definition take_buffer (bh dev block : Z) : M fs unit :=
  upd_bh bh (fun b => b <| b_count := 1 |>);;
  upd_bh bh (fun b => b <| b_dirt := 0 |>);;
  upd_bh bh (fun b => b <| b_uptodate := 0 |>);;
  remove_from_queues bh;;
  upd_bh bh (fun b => b <| b_dev := u16 dev |>);;
  upd_bh bh (fun b => b <| b_blocknr := u32 block |>);;
  insert_into_queues bh.

(** From the label [repeat:]. *)
Fixpoint getblk_loop (n : nat) (sync_dev : Z -> M fs Z) (dev block : Z) : M fs (option Z) :=
  match n with
  | O => nofuel
  | S n =>
      r ← get_hash_table dev block;
      match r with
      | Some bh => mret (Some bh)
      | None =>
          s ← get;
          fl ← of_option "free_list" (free_list s);
          c ← scan_free (size (bufs s)) fl None;
          match c with
          | None => sleep;; getblk_loop n sync_dev dev block
          | Some bh =>
              wait_on_buffer bh;;
              b ← get_bh bh;
              if istrue (b_count b) then getblk_loop n sync_dev dev block else
              again ← flush fuel sync_dev bh;
              if (again : bool) then getblk_loop n sync_dev dev block else
              f ← find_buffer dev block;
              match f with
              | Some _ => getblk_loop n sync_dev dev block
              | None => take_buffer bh dev block;; mret (Some bh)
              end
          end
      end
  end.

(** [getblk] with at most [depth] calls nested through [sync_dev]. *)
Fixpoint getblk_depth (depth : nat) (dev block : Z) : M fs (option Z) :=
  match depth with
  | O => nofuel
  | S depth =>
      getblk_loop fuel
        (sync_dev_with (sync_inodes_with (write_inode_with (bread_with (getblk_depth depth))))) dev block
  end.

Definition getblk : Z -> Z -> M fs (option Z) := getblk_depth fuel.
Definition bread : Z -> Z -> M fs (option Z) := bread_with getblk.
Definition write_inode : Z -> M fs unit := write_inode_with bread.
Definition sync_inodes : M fs unit := sync_inodes_with write_inode.
Definition sync_dev : Z -> M fs Z := sync_dev_with sync_inodes.

Definition sys_sync : M fs Z :=
  sync_inodes;;
  l ← all_buffers;
  for_each l (fun bh =>
    wait_on_buffer bh;;
    b ← get_bh bh;
    when (istrue (b_dirt b)) (ll_rw_block WRITE bh));;
  mret 0.

Definition invalidate_buffers (dev : Z) : M fs unit :=
  l ← all_buffers;
  for_each l (fun bh =>
    b ← get_bh bh;
    when (b_dev b =? dev) (
      wait_on_buffer bh;;
      b ← get_bh bh;
      when (b_dev b =? dev) (
        upd_bh bh (fun b => b <| b_dirt := 0 |>);;
        upd_bh bh (fun b => b <| b_uptodate := 0 |>)))).

(** ** Reading ahead and reading pages *)

(** The bytes of a block copied to a page. *)
Definition COPYBLK (bh page offset : Z) : M fs unit :=
  b ← get_bh bh;
  modify (fun s => s <| pages ::= fun p =>
    <[page := list_inserts (Z.to_nat offset) (take 1024 (b_data b)) (default [] (p !! page))]> p |>).

Definition start_read (dev b : Z) : M fs (option Z) :=
  if istrue b then
    r ← getblk dev b;
    match r with
    | Some bh =>
        v ← get_bh bh;
        when (negb (istrue (b_uptodate v))) (ll_rw_block READ bh);;
        mret (Some bh)
    | None => mret None
    end
  else mret None.

Fixpoint start_reads (dev : Z) (l : list Z) : M fs (list (option Z)) :=
  match l with
  | [] => mret []
  | b :: l => r ← start_read dev b; rs ← start_reads dev l; mret (r :: rs)
  end.

Fixpoint copy_blocks (l : list (option Z)) (page offset : Z) : M fs unit :=
  match l with
  | [] => mret tt
  | r :: l =>
      (match r with
       | None => mret tt
       | Some bh =>
           wait_on_buffer bh;;
           b ← get_bh bh;
           when (istrue (b_uptodate b)) (COPYBLK bh page offset);;
           brelse (Some bh)
       end);;
      copy_blocks l page (offset + BLOCK_SIZE)
  end.

Definition bread_page (page dev : Z) (b : list Z) : M fs unit :=
  l ← start_reads dev b;
  copy_blocks l page 0.

(** The blocks to read ahead; the code asks for [bh], not for [tmp]. *)
Fixpoint read_ahead (dev bh : Z) (l : list Z) : M fs unit :=
  match l with
  | [] => mret tt
  | first :: l =>
      if first <? 0 then mret tt else
      r ← getblk dev first;
      (match r with
       | Some tmp =>
           t ← get_bh tmp;
           when (negb (istrue (b_uptodate t))) (ll_rw_block READA bh);;
           upd_bh tmp (fun t => t <| b_count := u8 (b_count t - 1) |>)
       | None => mret tt
       end);;
      read_ahead dev bh l
  end.

Definition breada (dev first : Z) (rest : list Z) : M fs (option Z) :=
  r ← getblk dev first;
  match r with
  | None => panic "bread: getblk returned NULL"
  | Some bh =>
      b ← get_bh bh;
      when (negb (istrue (b_uptodate b))) (ll_rw_block READ bh);;
      read_ahead dev bh rest;;
      wait_on_buffer bh;;
      b ← get_bh bh;
      if istrue (b_uptodate b) then mret (Some bh) else
      brelse (Some bh);;
      mret None
  end.
End Buffer.

(** ** Initialisation

    [buffer_init] places the heads from [start_buffer] up and the blocks from the end of
    the buffer memory down; [head_size] is the size of a buffer head.  Head [h] is the one at
    [start_buffer + head_size * h].  The pointer [b_data] of a head is kept in [block_addr] and
    the bytes it points to in the head.  What the memory holds at boot is arbitrary: [raw_head h]
    is read as the head [h], [raw_block b] are the 1024 bytes at address [b]. *)

Definition head_size : Z := 36.

Section Init.
Context (raw_head : Z -> buffer_head) (raw_block : Z -> list Z) (start_buffer : Z).

(** The assignments to [*h] in the loop. *)
Definition init_head (h b : Z) : buffer_head :=
  (raw_head h) <| b_dev := 0 |> <| b_dirt := 0 |> <| b_count := 0 |> <| b_lock := 0 |> <| b_uptodate := 0 |>
    <| b_next := None |> <| b_prev := None |> <| b_data := raw_block b |>
    <| b_prev_free := Some (h - 1) |> <| b_next_free := Some (h + 1) |>.

(** The [while] loop, from head [h] and the address [b] on; the result is [h] after it. *)
Fixpoint place_buffers (n : nat) (h b : Z) : M fs Z :=
  match n with
  | O => nofuel
  | S n =>
      let b := u32 (b - BLOCK_SIZE) in
      if b <? start_buffer + head_size * (h + 1) then mret h else
      modify (fun s => s <| bufs ::= <[h := init_head h b]> |> <| block_addr ::= <[h := b]> |>);;
      modify (fun s => s <| nr_buffers ::= Z.succ |>);;
      place_buffers n (h + 1) (if b =? 0x100000 then 0xA0000 else b)
  end.

Definition buffer_init (buffer_end : Z) : M fs unit :=
  let b := if buffer_end =? Z.shiftl 1 20 then 640 * 1024 else buffer_end in
  h ← place_buffers (S (Z.to_nat (b / BLOCK_SIZE))) 0 b;
  let h := h - 1 in
  modify (fun s => s <| free_list := Some 0 |>);;
  upd_bh 0 (fun v => v <| b_prev_free := Some h |>);;
  upd_bh h (fun v => v <| b_next_free := Some 0 |>);;
  for_each (seqZ 0 NR_HASH) (fun i => modify (fun s => s <| hash_table ::= <[Z.to_nat i := None]> |>)).
End Init.
