(* ===== verification/Bitmap.v ===== *)
(** Allocation of blocks and inodes in the bitmaps ([linux-0.11/fs/bitmap.c]); [new_inode]
    is in [Inode.v], after the routines that it calls. *)

From S2P Require Import Prelude FsDefs Buffer.

(** ** Bits of a block *)

Definition byte_at (data : list Z) (k : Z) : Z := nth (Z.to_nat k) data 0.
Definition bit (data : list Z) (nr : Z) : bool := Z.testbit (byte_at data (nr / 8)) (nr mod 8).

(** [set_bit(nr, addr)] and [clear_bit(nr, addr)]: the result register and the new data. *)
Definition set_bit (nr : Z) (data : list Z) : Z * list Z :=
  (b2z (bit data nr), <[Z.to_nat (nr / 8) := Z.lor (byte_at data (nr / 8)) (Z.shiftl 1 (nr mod 8))]> data).
Definition clear_bit (nr : Z) (data : list Z) : Z * list Z :=
  (b2z (negb (bit data nr)),
   <[Z.to_nat (nr / 8) := Z.land (byte_at data (nr / 8)) (Z.lnot (Z.shiftl 1 (nr mod 8)))]> data).

(** [bsfl]: the lowest bit that is set, among [n] bits from [k]. *)
Fixpoint bsf (n : nat) (k w : Z) : Z :=
  match n with O => k | S n => if Z.testbit w k then k else bsf n (k + 1) w end.

(** The loop of [find_first_zero] from word [i]; 256 words make 8192 bits. *)
Fixpoint first_zero_word (n : nat) (i : Z) (data : list Z) : Z :=
  match n with
  | O => 32 * i
  | S n =>
      let eax := Z.lxor (ld32 data (2 * i)) 0xffffffff in
      if eax =? 0 then first_zero_word n (i + 1) data else 32 * i + bsf 32 0 eax
  end.
Definition find_first_zero (data : list Z) : Z := first_zero_word 256 0 data.

Section Bitmap.
Context `{FsEnv}.

(** [clear_block(addr)] *)
Definition clear_block (bh : Z) : M fs unit := upd_bh bh (fun b => b <| b_data := replicate 1024 0 |>).

(** [s_zmap[k]], a buffer that must be there. *)
Definition map_buffer (l : list (option Z)) (k : Z) : M fs Z :=
  of_option "bitmap buffer" (default None (l !! Z.to_nat k)).

Definition free_block (dev block : Z) : M fs unit :=
  r ← get_super dev;
  match r with
  | None => panic "trying to free block on nonexistent device"
  | Some sbi =>
      sb ← get_sb sbi;
      if (block <? s_firstdatazone sb) || (s_nzones sb <=? block) then
        panic "trying to free block not in datazone"
      else
      r ← get_hash_table dev block;
      go ← (match r with
            | None => mret true
            | Some bh =>
                b ← get_bh bh;
                if negb (b_count b =? 1) then printk "trying to free block";; mret false else
                upd_bh bh (fun b => b <| b_dirt := 0 |>);;
                upd_bh bh (fun b => b <| b_uptodate := 0 |>);;
                brelse (Some bh);;
                mret true
            end);
      if negb go then mret tt else
      sb ← get_sb sbi;
      let block := block - (s_firstdatazone sb - 1) in
      zb ← map_buffer (s_zmap sb) (Z.quot block 8192);
      b ← get_bh zb;
      let '(res, data) := clear_bit (Z.land block 8191) (b_data b) in
      upd_bh zb (fun b => b <| b_data := data |>);;
      if istrue res then panic "free_block: bit already cleared" else
      upd_bh zb (fun b => b <| b_dirt := 1 |>)
  end.

(** [for (i = 0; i < 8; i++) if (bh = map[i]) if ((j = find_first_zero(bh->b_data)) < 8192)
    break;] from slot [i]: the values of [i], [j] and [bh] afterwards. *)
Fixpoint search_map (n : nat) (map : list (option Z)) (i j : Z) (bh : option Z) : M fs (Z * Z * option Z) :=
  match n with
  | O => mret (i, j, bh)
  | S n =>
      match default None (map !! Z.to_nat i) with
      | None => search_map n map (i + 1) j None
      | Some b =>
          v ← get_bh b;
          let j := find_first_zero (b_data v) in
          if j <? 8192 then mret (i, j, Some b) else search_map n map (i + 1) j (Some b)
      end
  end.

Definition new_block (dev : Z) : M fs Z :=
  r ← get_super dev;
  match r with
  | None => panic "trying to get new block from nonexistant device"
  | Some sbi =>
      sb ← get_sb sbi;
      '(i, j, bh) ← search_map 8 (s_zmap sb) 0 8192 None;
      match bh with
      | None => mret 0
      | Some bh =>
          if (8 <=? i) || (8192 <=? j) then mret 0 else
          v ← get_bh bh;
          let '(res, data) := set_bit j (b_data v) in
          upd_bh bh (fun b => b <| b_data := data |>);;
          if istrue res then panic "new_block: bit already set" else
          upd_bh bh (fun b => b <| b_dirt := 1 |>);;
          let j := j + i * 8192 + s_firstdatazone sb - 1 in
          if s_nzones sb <=? j then mret 0 else
          r ← getblk dev j;
          match r with
          | None => panic "new_block: cannot get block"
          | Some bh =>
              v ← get_bh bh;
              if negb (b_count v =? 1) then panic "new block: count is != 1" else
              clear_block bh;;
              upd_bh bh (fun b => b <| b_uptodate := 1 |>);;
              upd_bh bh (fun b => b <| b_dirt := 1 |>);;
              brelse (Some bh);;
              mret j
          end
      end
  end.

Definition free_inode (inode : option Z) : M fs unit :=
  match inode with
  | None => mret tt
  | Some i =>
      v ← get_inode i;
      if i_dev v =? 0 then upd_inode i (fun _ => zero_inode) else
      if 1 <? i_count v then printk "trying to free inode with count";; panic "free_inode" else
      if istrue (i_nlinks v) then panic "trying to free inode with links" else
      r ← get_super (i_dev v);
      match r with
      | None => panic "trying to free inode on nonexistent device"
      | Some sb =>
          sb ← get_sb sb;
          if (i_num v <? 1) || (s_ninodes sb <? i_num v) then
            panic "trying to free inode 0 or nonexistant inode"
          else
          match default None (s_imap sb !! Z.to_nat (Z.shiftr (i_num v) 13)) with
          | None => panic "nonexistent imap in superblock"
          | Some bh =>
              b ← get_bh bh;
              let '(res, data) := clear_bit (Z.land (i_num v) 8191) (b_data b) in
              upd_bh bh (fun b => b <| b_data := data |>);;
              when (istrue res) (printk "free_inode: bit already cleared.");;
              upd_bh bh (fun b => b <| b_dirt := 1 |>);;
              upd_inode i (fun _ => zero_inode)
          end
      end
  end.
End Bitmap.
