(* ===== verification/Inode.v ===== *)
(** Inodes ([linux-0.11/fs/inode.c]), freeing their blocks ([fs/truncate.c]), [new_inode]
    ([fs/bitmap.c]), and super blocks ([fs/super.c], without the calls that look up
    names). *)

From S2P Require Import Prelude FsDefs Buffer Bitmap.

Section Inode.
Context `{FsEnv}.

Definition CURRENT_TIME : M fs Z := gets fs_time.

Definition invalidate_inodes (dev : Z) : M fs unit :=
  for_each (seqZ 0 NR_INODE) (fun i =>
    wait_on_inode i;;
    v ← get_inode i;
    when (i_dev v =? dev) (
      when (istrue (i_count v)) (printk "inode in use on removed disk");;
      upd_inode i (fun v => v <| i_dirt := 0 |>);;
      upd_inode i (fun v => v <| i_dev := 0 |>))).

(** ** Mapping the blocks of a file *)

(** [if (create && !inode->i_zone[k]) if (inode->i_zone[k] = new_block(...)) ...] *)
Definition grow_zone (inode k : Z) (create : bool) : M fs unit :=
  v ← get_inode inode;
  when (create && (zone v k =? 0)) (
    b ← new_block (i_dev v);
    upd_inode inode (set_zone k b);;
    v ← get_inode inode;
    when (istrue (zone v k)) (
      t ← CURRENT_TIME;
      upd_inode inode (fun v => v <| i_ctime := t |>);;
      upd_inode inode (fun v => v <| i_dirt := 1 |>))).

(** The entry [k] of the indirect block [bh] of a device, created when asked for. *)
Definition ind_entry (dev bh k : Z) (create : bool) : M fs Z :=
  b ← get_bh bh;
  let i := ld16 (b_data b) k in
  if create && (i =? 0) then
    i ← new_block dev;
    when (istrue i) (
      upd_bh bh (fun b => b <| b_data ::= st16 k i |>);;
      upd_bh bh (fun b => b <| b_dirt := 1 |>));;
    mret i
  else mret i.

Definition _bmap (inode block : Z) (create : bool) : M fs Z :=
  if block <? 0 then panic "_bmap: block<0" else
  if 7 + 512 + 512 * 512 <=? block then panic "_bmap: block>big" else
  if block <? 7 then
    grow_zone inode block create;;
    v ← get_inode inode;
    mret (zone v block)
  else
  let block := block - 7 in
  if block <? 512 then
    grow_zone inode 7 create;;
    v ← get_inode inode;
    if zone v 7 =? 0 then mret 0 else
    r ← bread (i_dev v) (zone v 7);
    match r with
    | None => mret 0
    | Some bh =>
        i ← ind_entry (i_dev v) bh block create;
        brelse (Some bh);;
        mret i
    end
  else
  let block := block - 512 in
  grow_zone inode 8 create;;
  v ← get_inode inode;
  if zone v 8 =? 0 then mret 0 else
  r ← bread (i_dev v) (zone v 8);
  match r with
  | None => mret 0
  | Some bh =>
      i ← ind_entry (i_dev v) bh (Z.shiftr block 9) create;
      brelse (Some bh);;
      if i =? 0 then mret 0 else
      r ← bread (i_dev v) i;
      match r with
      | None => mret 0
      | Some bh =>
          i ← ind_entry (i_dev v) bh (Z.land block 511) create;
          brelse (Some bh);;
          mret i
      end
  end.

Definition bmap (inode block : Z) : M fs Z := _bmap inode block false.
Definition create_block (inode block : Z) : M fs Z := _bmap inode block true.

(** ** Freeing the blocks of a file *)

(** [for (i = 0; i < 512; i++, p++) if ( *p) free(dev, *p)], reading the buffer each time. *)
Definition free_entries16 (bh : Z) (free : Z -> M fs unit) : M fs unit :=
  for_each (seqZ 0 512) (fun i =>
    b ← get_bh bh;
    let p := ld16 (b_data b) i in
    when (istrue p) (free p)).

Definition free_ind (dev block : Z) : M fs unit :=
  if block =? 0 then mret tt else
  r ← bread dev block;
  (match r with
   | Some bh => free_entries16 bh (free_block dev);; brelse (Some bh)
   | None => mret tt
   end);;
  free_block dev block.

Definition free_dind (dev block : Z) : M fs unit :=
  if block =? 0 then mret tt else
  r ← bread dev block;
  (match r with
   | Some bh => free_entries16 bh (free_ind dev);; brelse (Some bh)
   | None => mret tt
   end);;
  free_block dev block.

Definition truncate (inode : Z) : M fs unit :=
  v ← get_inode inode;
  if negb (S_ISREG (i_mode v) || S_ISDIR (i_mode v)) then mret tt else
  for_each (seqZ 0 7) (fun i =>
    v ← get_inode inode;
    when (istrue (zone v i)) (
      free_block (i_dev v) (zone v i);;
      upd_inode inode (set_zone i 0)));;
  v ← get_inode inode;
  free_ind (i_dev v) (zone v 7);;
  v ← get_inode inode;
  free_dind (i_dev v) (zone v 8);;
  upd_inode inode (set_zone 8 0);;
  upd_inode inode (set_zone 7 0);;
  upd_inode inode (fun v => v <| i_size := 0 |>);;
  upd_inode inode (fun v => v <| i_dirt := 1 |>);;
  t ← CURRENT_TIME;
  upd_inode inode (fun v => v <| i_ctime := t |>);;
  upd_inode inode (fun v => v <| i_mtime := t |>).

(** ** The inode table *)

Definition drop_inode (i : Z) : M fs unit := upd_inode i (fun v => v <| i_count := u16 (i_count v - 1) |>).

(** From the label [repeat:] of [iput]. *)
Fixpoint iput_loop (n : nat) (i : Z) : M fs unit :=
  match n with
  | O => nofuel
  | S n =>
      v ← get_inode i;
      if 1 <? i_count v then drop_inode i else
      if i_nlinks v =? 0 then truncate i;; free_inode (Some i) else
      if istrue (i_dirt v) then
        write_inode i;;
        wait_on_inode i;;
        iput_loop n i
      else drop_inode i
  end.

Definition iput (inode : option Z) : M fs unit :=
  match inode with
  | None => mret tt
  | Some i =>
      wait_on_inode i;;
      v ← get_inode i;
      if i_count v =? 0 then panic "iput: trying to free free inode" else
      if istrue (i_pipe v) then
        wake_up (QInode i);;
        drop_inode i;;
        v ← get_inode i;
        if istrue (i_count v) then mret tt else
        free_page (i_size v);;
        upd_inode i (fun v => v <| i_count := 0 |>);;
        upd_inode i (fun v => v <| i_dirt := 0 |>);;
        upd_inode i (fun v => v <| i_pipe := 0 |>)
      else if i_dev v =? 0 then drop_inode i
      else
      when (S_ISBLK (i_mode v)) (
        sync_dev (zone v 0);;
        wait_on_inode i);;
      iput_loop fuel i
  end.

(** The [for] loop of [get_empty_inode] for [n] more inodes. *)
Fixpoint find_empty (n : nat) (found : option Z) : M fs (option Z) :=
  match n with
  | O => mret found
  | S n =>
      modify (fun s => s <| last_inode ::= fun l => if NR_INODE <=? l + 1 then 0 else l + 1 |>);;
      s ← get;
      let li := last_inode s in
      v ← get_inode li;
      if i_count v =? 0 then
        if negb (istrue (i_dirt v)) && negb (istrue (i_lock v)) then mret (Some li)
        else find_empty n (Some li)
      else find_empty n found
  end.

Fixpoint clean_inode (n : nat) (i : Z) : M fs unit :=
  match n with
  | O => nofuel
  | S n =>
      v ← get_inode i;
      if istrue (i_dirt v) then write_inode i;; wait_on_inode i;; clean_inode n i else mret tt
  end.

(** The [do ... while (inode->i_count)] loop. *)
Fixpoint empty_loop (n : nat) : M fs Z :=
  match n with
  | O => nofuel
  | S n =>
      r ← find_empty (Z.to_nat NR_INODE) None;
      match r with
      | None =>
          for_each (seqZ 0 NR_INODE) (fun _ => printk "%04x: %6d");;
          panic "No free inodes in mem"
      | Some i =>
          wait_on_inode i;;
          clean_inode fuel i;;
          v ← get_inode i;
          if istrue (i_count v) then empty_loop n else mret i
      end
  end.

Definition get_empty_inode : M fs (option Z) :=
  i ← empty_loop fuel;
  upd_inode i (fun _ => zero_inode);;
  upd_inode i (fun v => v <| i_count := 1 |>);;
  mret (Some i).

Definition get_pipe_inode : M fs (option Z) :=
  r ← get_empty_inode;
  match r with
  | None => mret None
  | Some i =>
      p ← get_free_page;
      upd_inode i (fun v => v <| i_size := p |>);;
      if p =? 0 then
        upd_inode i (fun v => v <| i_count := 0 |>);;
        mret None
      else
      upd_inode i (fun v => v <| i_count := 2 |>);;
      upd_inode i (set_zone 1 0);;
      upd_inode i (set_zone 0 0);;
      upd_inode i (fun v => v <| i_pipe := 1 |>);;
      mret (Some i)
  end.

Definition new_inode (dev : Z) : M fs (option Z) :=
  r ← get_empty_inode;
  match r with
  | None => mret None
  | Some inode =>
      r ← get_super dev;
      match r with
      | None => panic "new_inode with unknown device"
      | Some sb =>
          sb ← get_sb sb;
          '(i, j, bh) ← search_map 8 (s_imap sb) 0 8192 None;
          match bh with
          | None => iput (Some inode);; mret None
          | Some bh =>
              if (8192 <=? j) || (s_ninodes sb <? j + i * 8192) then iput (Some inode);; mret None else
              v ← get_bh bh;
              let '(res, data) := set_bit j (b_data v) in
              upd_bh bh (fun b => b <| b_data := data |>);;
              if istrue res then panic "new_inode: bit already set" else
              upd_bh bh (fun b => b <| b_dirt := 1 |>);;
              s ← get;
              upd_inode inode (fun v => v <| i_count := 1 |> <| i_nlinks := 1 |> <| i_dev := u16 dev |>
                <| i_uid := u16 (p_euid (current s)) |> <| i_gid := u8 (p_egid (current s)) |>
                <| i_dirt := 1 |> <| i_num := u16 (j + i * 8192) |>
                <| i_ctime := fs_time s |> <| i_atime := fs_time s |> <| i_mtime := fs_time s |>);;
              mret (Some inode)
          end
      end
  end.

Definition read_inode (i : Z) : M fs unit :=
  lock_inode i;;
  v ← get_inode i;
  r ← get_super (i_dev v);
  match r with
  | None => panic "trying to read inode without dev"
  | Some sb =>
      sb ← get_sb sb;
      r ← bread (i_dev v) (inode_block sb (i_num v));
      match r with
      | None => panic "unable to read i-node block"
      | Some bh =>
          b ← get_bh bh;
          upd_inode i (get_d_inode (b_data b) (u32 (i_num v - 1) mod INODES_PER_BLOCK));;
          brelse (Some bh);;
          unlock_inode i
      end
  end.

(** The super block mounted on an inode. *)
Definition mounted_on (i : Z) : M fs (option Z) :=
  s ← get;
  mret (match list_find (fun sb => s_imount sb = Some i) (supers s) with
        | Some (k, _) => Some (Z.of_nat k)
        | None => None
        end).

(** The [while] loop of [iget] from the inode [inode]. *)
Fixpoint iget_loop (n : nat) (inode dev nr : Z) (empty : option Z) : M fs (option Z) :=
  match n with
  | O => nofuel
  | S n =>
      if NR_INODE <=? inode then
        match empty with
        | None => mret None
        | Some e =>
            upd_inode e (fun v => v <| i_dev := u16 dev |>);;
            upd_inode e (fun v => v <| i_num := u16 nr |>);;
            read_inode e;;
            mret (Some e)
        end
      else
      v ← get_inode inode;
      if negb (i_dev v =? dev) || negb (i_num v =? nr) then iget_loop n (inode + 1) dev nr empty else
      wait_on_inode inode;;
      v ← get_inode inode;
      if negb (i_dev v =? dev) || negb (i_num v =? nr) then iget_loop n 0 dev nr empty else
      upd_inode inode (fun v => v <| i_count := u16 (i_count v + 1) |>);;
      if istrue (i_mount v) then
        sb ← mounted_on inode;
        match sb with
        | None =>
            printk "Mounted inode hasn't got sb";;
            iput empty;;
            mret (Some inode)
        | Some k =>
            iput (Some inode);;
            sb ← get_sb k;
            iget_loop n 0 (s_dev sb) ROOT_INO empty
        end
      else
      iput empty;;
      mret (Some inode)
  end.

Definition iget (dev nr : Z) : M fs (option Z) :=
  if dev =? 0 then panic "iget with dev==0" else
  empty ← get_empty_inode;
  iget_loop (fuel * Z.to_nat NR_INODE) 0 dev nr empty.

(** ** Super blocks *)

Definition lock_super (sb : Z) : M fs unit :=
  wait_super fuel sb;;
  upd_sb sb (fun v => v <| s_lock := 1 |>).

Definition free_super (sb : Z) : M fs unit :=
  upd_sb sb (fun v => v <| s_lock := 0 |>);;
  wake_up (QSuper sb).

Definition put_super (dev : Z) : M fs unit :=
  s ← get;
  if dev =? ROOT_DEV s then printk "root diskette changed: prepare for armageddon" else
  r ← get_super dev;
  match r with
  | None => mret tt
  | Some k =>
      sb ← get_sb k;
      match s_imount sb with
      | Some _ => printk "Mounted disk changed - tssk, tssk"
      | None =>
          lock_super k;;
          upd_sb k (fun v => v <| s_dev := 0 |>);;
          sb ← get_sb k;
          for_each (s_imap sb) brelse;;
          for_each (s_zmap sb) brelse;;
          free_super k
      end
  end.

Definition check_disk_change (dev : Z) : M fs unit :=
  if negb (MAJOR dev =? 2) then mret tt else
  c ← floppy_change (Z.land dev 3);
  if negb (istrue c) then mret tt else
  for_each (seqZ 0 NR_SUPER) (fun i =>
    sb ← get_sb i;
    when (s_dev sb =? dev) (put_super (s_dev sb)));;
  invalidate_inodes dev;;
  invalidate_buffers dev.

(** [for (i = 0; i < n; i++) if (map[i] = bread(dev, block)) block++; else break;] from [i];
    the result is [block]. *)
Fixpoint read_map (n : nat) (set : Z -> option Z -> super_block -> super_block) (k dev i block : Z) : M fs Z :=
  match n with
  | O => mret block
  | S n =>
      r ← bread dev block;
      if 8 <=? i then undef "bitmap slot" else
      upd_sb k (set i r);;
      match r with
      | Some _ => read_map n set k dev (i + 1) (block + 1)
      | None => mret block
      end
  end.

Definition set_imap (i : Z) (r : option Z) (v : super_block) : super_block :=
  v <| s_imap ::= <[Z.to_nat i := r]> |>.
Definition set_zmap (i : Z) (r : option Z) (v : super_block) : super_block :=
  v <| s_zmap ::= <[Z.to_nat i := r]> |>.

(** The [struct d_super_block] at the start of a block. *)
Definition get_d_super (data : list Z) (v : super_block) : super_block :=
  v <| s_ninodes := ld16 data 0 |> <| s_nzones := ld16 data 1 |>
    <| s_imap_blocks := ld16 data 2 |> <| s_zmap_blocks := ld16 data 3 |>
    <| s_firstdatazone := ld16 data 4 |> <| s_log_zone_size := ld16 data 5 |>
    <| s_max_size := ld32 data 6 |> <| s_magic := ld16 data 8 |>.

(** Giving a super block up again. *)
Definition drop_super (k : Z) : M fs (option Z) :=
  upd_sb k (fun v => v <| s_dev := 0 |>);;
  free_super k;;
  mret None.

(** The first bit of a map's first block is always in use. *)
Definition mark_first (b : option Z) : M fs unit :=
  b ← of_option "bitmap buffer" b;
  upd_bh b (fun v => v <| b_data := <[0%nat := Z.lor (byte_at (b_data v) 0) 1]> (b_data v) |>).

Definition read_super (dev : Z) : M fs (option Z) :=
  if dev =? 0 then mret None else
  check_disk_change dev;;
  r ← get_super dev;
  match r with
  | Some k => mret (Some k)
  | None =>
      s ← get;
      match list_find (fun sb => s_dev sb = 0) (supers s) with
      | None => mret None
      | Some (k, _) =>
          let k := Z.of_nat k in
          upd_sb k (fun v => v <| s_dev := u16 dev |> <| s_isup := None |> <| s_imount := None |>
                               <| s_time := 0 |> <| s_rd_only := 0 |> <| s_dirt := 0 |>);;
          lock_super k;;
          r ← bread dev 1;
          match r with
          | None => drop_super k
          | Some bh =>
              b ← get_bh bh;
              upd_sb k (get_d_super (b_data b));;
              brelse (Some bh);;
              sb ← get_sb k;
              if negb (s_magic sb =? SUPER_MAGIC) then drop_super k else
              upd_sb k (fun v => v <| s_imap := replicate 8 None |> <| s_zmap := replicate 8 None |>);;
              block ← read_map (Z.to_nat (s_imap_blocks sb)) set_imap k dev 0 2;
              block ← read_map (Z.to_nat (s_zmap_blocks sb)) set_zmap k dev 0 block;
              sb ← get_sb k;
              if negb (block =? 2 + s_imap_blocks sb + s_zmap_blocks sb) then
                for_each (s_imap sb) brelse;;
                for_each (s_zmap sb) brelse;;
                drop_super k
              else
              mark_first (default None (s_imap sb !! 0%nat));;
              mark_first (default None (s_zmap sb !! 0%nat));;
              free_super k;;
              mret (Some k)
          end
      end
  end.

(** [while (--i >= 0) if (!set_bit(i & 8191, map[i >> 13]->b_data)) free++]; this file's
    [set_bit] only tests the bit. *)
Fixpoint count_free (n : nat) (map : list (option Z)) (free : Z) : M fs Z :=
  match n with
  | O => mret free
  | S n =>
      let i := Z.of_nat n in
      bh ← map_buffer map (Z.shiftr i 13);
      b ← get_bh bh;
      count_free n map (if bit (b_data b) (Z.land i 8191) then free else free + 1)
  end.

Definition mount_root : M fs (Z * Z) :=
  for_each (seqZ 0 NR_FILE) (fun i => upd_file i (fun f => f <| f_count := 0 |>));;
  s ← get;
  when (MAJOR (ROOT_DEV s) =? 2) (printk "Insert root floppy and press ENTER";; sleep);;
  for_each (seqZ 0 NR_SUPER) (fun i => upd_sb i (fun v => v <| s_dev := 0 |> <| s_lock := 0 |>));;
  p ← read_super (ROOT_DEV s);
  match p with
  | None => panic "Unable to mount root"
  | Some p =>
      mi ← iget (ROOT_DEV s) ROOT_INO;
      match mi with
      | None => panic "Unable to read root i-node"
      | Some mi =>
          upd_inode mi (fun v => v <| i_count := u16 (i_count v + 3) |>);;
          upd_sb p (fun v => v <| s_imount := Some mi |>);;
          upd_sb p (fun v => v <| s_isup := Some mi |>);;
          upd_current (fun c => c <| p_pwd := Some mi |> <| p_root := Some mi |>);;
          sb ← get_sb p;
          zfree ← count_free (Z.to_nat (s_nzones sb)) (s_zmap sb) 0;
          printk "free blocks";;
          ifree ← count_free (Z.to_nat (s_ninodes sb + 1)) (s_imap sb) 0;
          printk "free inodes";;
          mret (zfree, ifree)
      end
  end.
End Inode.
