(* ===== verification/Pipe.v ===== *)
(** Pipes ([linux-0.11/fs/pipe.c]): a page used as a ring of 4096 bytes, its head in
    [i_zone[0]] and its tail in [i_zone[1]]. *)

From S2P Require Import Prelude FsDefs Buffer Bitmap Inode.

Definition PIPE_HEAD (v : m_inode) : Z := zone v 0.
Definition PIPE_TAIL (v : m_inode) : Z := zone v 1.
Definition PIPE_SIZE (v : m_inode) : Z := Z.land (PIPE_HEAD v - PIPE_TAIL v) (PAGE_SIZE - 1).

(** The bytes of a page. *)
Definition page_bytes (p off n : Z) : M fs (list Z) :=
  gets (fun s => take (Z.to_nat n) (drop (Z.to_nat off) (default [] (pages s !! p)))).
Definition set_page_bytes (p off : Z) (l : list Z) : M fs unit :=
  modify (fun s => s <| pages ::= fun m => <[p := list_inserts (Z.to_nat off) l (default [] (m !! p))]> m |>).

Section Pipe.
Context `{FsEnv}.

(** [while (!(size = PIPE_SIZE( *inode)))]: the size, or [None] when there is no writer. *)
Fixpoint wait_data (n : nat) (inode : Z) : M fs (option Z) :=
  match n with
  | O => nofuel
  | S n =>
      v ← get_inode inode;
      let size := PIPE_SIZE v in
      if negb (size =? 0) then mret (Some size) else
      wake_up (QInode inode);;
      if negb (i_count v =? 2) then mret None else
      sleep;;
      wait_data n inode
  end.

(** One round of the outer loop of [read_pipe]: how many bytes were moved. *)
Definition read_some (inode buf count size : Z) : M fs Z :=
  v ← get_inode inode;
  let chars := PAGE_SIZE - PIPE_TAIL v in
  let chars := Z.min chars count in
  let chars := Z.min chars size in
  let tail := PIPE_TAIL v in
  upd_inode inode (set_zone 1 (PIPE_TAIL v + chars));;
  v ← get_inode inode;
  upd_inode inode (set_zone 1 (Z.land (PIPE_TAIL v) (PAGE_SIZE - 1)));;
  l ← page_bytes (i_size v) tail chars;
  put_fs_bytes l buf;;
  mret chars.

Fixpoint read_loop (n : nat) (inode buf count read : Z) : M fs Z :=
  if count <=? 0 then wake_up (QInode inode);; mret read else
  match n with
  | O => nofuel
  | S n =>
      r ← wait_data fuel inode;
      match r with
      | None => mret read
      | Some size =>
          chars ← read_some inode buf count size;
          read_loop n inode (buf + chars) (count - chars) (read + chars)
      end
  end.

(** Every round moves a byte: [count] rounds are enough. *)
Definition read_pipe (inode buf count : Z) : M fs Z := read_loop (Z.to_nat count) inode buf count 0.

Fixpoint wait_room (n : nat) (inode : Z) : M fs (option Z) :=
  match n with
  | O => nofuel
  | S n =>
      v ← get_inode inode;
      let size := (PAGE_SIZE - 1) - PIPE_SIZE v in
      if negb (size =? 0) then mret (Some size) else
      wake_up (QInode inode);;
      if negb (i_count v =? 2) then mret None else
      sleep;;
      wait_room n inode
  end.

Definition write_some (inode buf count size : Z) : M fs Z :=
  v ← get_inode inode;
  let chars := PAGE_SIZE - PIPE_HEAD v in
  let chars := Z.min chars count in
  let chars := Z.min chars size in
  let head := PIPE_HEAD v in
  upd_inode inode (set_zone 0 (PIPE_HEAD v + chars));;
  v ← get_inode inode;
  upd_inode inode (set_zone 0 (Z.land (PIPE_HEAD v) (PAGE_SIZE - 1)));;
  l ← get_fs_bytes (Z.to_nat chars) buf;
  set_page_bytes (i_size v) head l;;
  mret chars.

Fixpoint write_loop (n : nat) (inode buf count written : Z) : M fs Z :=
  if count <=? 0 then wake_up (QInode inode);; mret written else
  match n with
  | O => nofuel
  | S n =>
      r ← wait_room fuel inode;
      match r with
      | None =>
          upd_current (fun c => c <| p_signal ::= fun x => Z.lor x (Z.shiftl 1 (SIGPIPE - 1)) |>);;
          mret (if istrue written then written else -1)
      | Some size =>
          chars ← write_some inode buf count size;
          write_loop n inode (buf + chars) (count - chars) (written + chars)
      end
  end.

Definition write_pipe (inode buf count : Z) : M fs Z := write_loop (Z.to_nat count) inode buf count 0.

(** ** sys_pipe *)

(** The first free entries of the file table, at most two. *)
Fixpoint take_files (n : nat) (i : Z) (acc : list Z) : M fs (list Z) :=
  match n with
  | O => mret acc
  | S n =>
      if (2 <=? length acc)%nat then mret acc else
      f ← get_file i;
      if f_count f =? 0 then
        upd_file i (fun f => f <| f_count := u16 (f_count f + 1) |>);;
        take_files n (i + 1) (acc ++ [i])
      else take_files n (i + 1) acc
  end.

(** The first free descriptors, given to the files in turn. *)
Fixpoint take_fds (n : nat) (i : Z) (files : list Z) (acc : list Z) : M fs (list Z) :=
  match n with
  | O => mret acc
  | S n =>
      match files with
      | [] => mret acc
      | f :: rest =>
          c ← get_filp i;
          match c with
          | Some _ => take_fds n (i + 1) files acc
          | None => set_filp i (Some f);; take_fds n (i + 1) rest (acc ++ [i])
          end
      end
  end.

Definition drop_files (l : list Z) : M fs unit := for_each l (fun f => upd_file f (fun v => v <| f_count := 0 |>)).

Definition sys_pipe (fildes : Z) : M fs Z :=
  fl ← take_files (Z.to_nat NR_FILE) 0 [];
  match fl with
  | [f0; f1] =>
      fds ← take_fds (Z.to_nat NR_OPEN) 0 [f0; f1] [];
      match fds with
      | [fd0; fd1] =>
          r ← get_pipe_inode;
          match r with
          | None =>
              set_filp fd1 None;; set_filp fd0 None;;
              drop_files [f1; f0];;
              mret (-1)
          | Some inode =>
              upd_file f1 (fun f => f <| f_inode := Some inode |>);;
              upd_file f0 (fun f => f <| f_inode := Some inode |>);;
              upd_file f1 (fun f => f <| f_pos := 0 |>);;
              upd_file f0 (fun f => f <| f_pos := 0 |>);;
              upd_file f0 (fun f => f <| f_mode := 1 |>);;
              upd_file f1 (fun f => f <| f_mode := 2 |>);;
              put_fs_long fd0 fildes;;
              put_fs_long fd1 (fildes + 4);;
              mret 0
          end
      | _ =>
          for_each fds (fun fd => set_filp fd None);;
          drop_files [f1; f0];;
          mret (-1)
      end
  | _ => drop_files fl;; mret (-1)
  end.
End Pipe.
