(* ===== verification/FileIo.v ===== *)
(** Reading and writing: regular files ([fs/file_dev.c]), block devices ([fs/block_dev.c]),
    character devices ([fs/char_dev.c]), and the system calls of [fs/read_write.c],
    [fs/fcntl.c] and [fs/ioctl.c]. *)

From S2P Require Import Prelude FsDefs Buffer Bitmap Inode Pipe.

Section FileIo.
Context `{FsEnv}.

(** ** Regular files *)

(** The [while (left)] loop of [file_read]; every round moves at least a byte. *)
Fixpoint file_read_loop (n : nat) (inode filp buf left : Z) : M fs Z :=
  if left =? 0 then mret 0 else
  match n with
  | O => nofuel
  | S n =>
      f ← get_file filp;
      nr ← bmap inode (Z.quot (f_pos f) BLOCK_SIZE);
      v ← get_inode inode;
      bh ← (if istrue nr then b ← bread (i_dev v) nr; mret (b, bool_decide (b = None)) else mret (None, false));
      let '(bh, failed) := bh in
      if (failed : bool) then mret left else
      f ← get_file filp;
      let nr := Z.rem (f_pos f) BLOCK_SIZE in
      let chars := Z.min (BLOCK_SIZE - nr) left in
      upd_file filp (fun f => f <| f_pos := f_pos f + chars |>);;
      (match bh with
       | Some b =>
           v ← get_bh b;
           put_fs_bytes (take (Z.to_nat chars) (drop (Z.to_nat nr) (b_data v))) buf;;
           brelse (Some b)
       | None => put_fs_bytes (replicate (Z.to_nat chars) 0) buf
       end);;
      file_read_loop n inode filp (buf + chars) (left - chars)
  end.

Definition file_read (inode filp buf count : Z) : M fs Z :=
  if count <=? 0 then mret 0 else
  left ← file_read_loop (Z.to_nat count) inode filp buf count;
  t ← CURRENT_TIME;
  upd_inode inode (fun v => v <| i_atime := t |>);;
  mret (if istrue (count - left) then count - left else - ERROR).

(** The [while (i < count)] loop of [file_write]: the values of [pos] and [i] at its end. *)
Fixpoint file_write_loop (n : nat) (inode buf count pos i : Z) : M fs (Z * Z) :=
  if count <=? i then mret (pos, i) else
  match n with
  | O => nofuel
  | S n =>
      block ← create_block inode (Z.quot pos BLOCK_SIZE);
      if block =? 0 then mret (pos, i) else
      v ← get_inode inode;
      r ← bread (i_dev v) block;
      match r with
      | None => mret (pos, i)
      | Some bh =>
          let c := Z.rem pos BLOCK_SIZE in
          upd_bh bh (fun b => b <| b_dirt := 1 |>);;
          let p := c in
          let c := Z.min (BLOCK_SIZE - c) (count - i) in
          let pos := pos + c in
          v ← get_inode inode;
          when (i_size v <? u32 pos) (
            upd_inode inode (fun v => v <| i_size := u32 pos |>);;
            upd_inode inode (fun v => v <| i_dirt := 1 |>));;
          l ← get_fs_bytes (Z.to_nat c) buf;
          upd_bh bh (fun b => b <| b_data ::= list_inserts (Z.to_nat p) l |>);;
          brelse (Some bh);;
          file_write_loop n inode (buf + c) count pos (i + c)
      end
  end.

Definition file_write (inode filp buf count : Z) : M fs Z :=
  f ← get_file filp;
  v ← get_inode inode;
  let pos := if istrue (Z.land (f_flags f) O_APPEND) then s32 (i_size v) else f_pos f in
  '(pos, i) ← file_write_loop (Z.to_nat count) inode buf count pos 0;
  t ← CURRENT_TIME;
  upd_inode inode (fun v => v <| i_mtime := t |>);;
  f ← get_file filp;
  when (Z.land (f_flags f) O_APPEND =? 0) (
    upd_file filp (fun f => f <| f_pos := pos |>);;
    upd_inode inode (fun v => v <| i_ctime := t |>));;
  mret (if istrue i then i else -1).

(** ** Block devices

    The position is that of the open file [filp]. *)

Fixpoint block_write_loop (n : nat) (dev filp buf count block offset written : Z) : M fs Z :=
  if count <=? 0 then mret written else
  match n with
  | O => nofuel
  | S n =>
      let chars := Z.min (BLOCK_SIZE - offset) count in
      r ← (if chars =? BLOCK_SIZE then getblk dev block
           else breada dev block [block + 1; block + 2; -1]);
      match r with
      | None => mret (if istrue written then written else - EIO)
      | Some bh =>
          upd_file filp (fun f => f <| f_pos := f_pos f + chars |>);;
          l ← get_fs_bytes (Z.to_nat chars) buf;
          upd_bh bh (fun b => b <| b_data ::= list_inserts (Z.to_nat offset) l |>);;
          upd_bh bh (fun b => b <| b_dirt := 1 |>);;
          brelse (Some bh);;
          block_write_loop n dev filp (buf + chars) (count - chars) (block + 1) 0 (written + chars)
      end
  end.

Definition block_write (dev filp buf count : Z) : M fs Z :=
  f ← get_file filp;
  block_write_loop (Z.to_nat count) dev filp buf count (Z.shiftr (f_pos f) 10) (Z.land (f_pos f) (BLOCK_SIZE - 1)) 0.

Fixpoint block_read_loop (n : nat) (dev filp buf count block offset read : Z) : M fs Z :=
  if count <=? 0 then mret read else
  match n with
  | O => nofuel
  | S n =>
      let chars := Z.min (BLOCK_SIZE - offset) count in
      r ← breada dev block [block + 1; block + 2; -1];
      match r with
      | None => mret (if istrue read then read else - EIO)
      | Some bh =>
          upd_file filp (fun f => f <| f_pos := f_pos f + chars |>);;
          b ← get_bh bh;
          put_fs_bytes (take (Z.to_nat chars) (drop (Z.to_nat offset) (b_data b))) buf;;
          brelse (Some bh);;
          block_read_loop n dev filp (buf + chars) (count - chars) (block + 1) 0 (read + chars)
      end
  end.

Definition block_read (dev filp buf count : Z) : M fs Z :=
  f ← get_file filp;
  block_read_loop (Z.to_nat count) dev filp buf count (Z.shiftr (f_pos f) 10) (Z.land (f_pos f) (BLOCK_SIZE - 1)) 0.

(** ** Character devices *)

Definition rw_ttyx (rw minor buf count : Z) : M fs Z :=
  if rw =? READ then tty_read minor buf count else tty_write minor buf count.

Definition rw_tty (rw buf count : Z) : M fs Z :=
  c ← gets current;
  if p_tty c <? 0 then mret (- EPERM) else rw_ttyx rw (p_tty c) buf count.

Definition rw_ram : M fs Z := mret (- EIO).
Definition rw_mem : M fs Z := mret (- EIO).
Definition rw_kmem : M fs Z := mret (- EIO).

Fixpoint port_loop (n : nat) (rw buf i : Z) : M fs Z :=
  match n with
  | O => mret i
  | S n =>
      if 65536 <=? i then mret i else
      (if rw =? READ then v ← inb i; put_fs_byte v buf else v ← get_fs_byte buf; outb v i);;
      port_loop n rw (buf + 1) (i + 1)
  end.

Definition rw_port (rw filp buf count : Z) : M fs Z :=
  f ← get_file filp;
  i ← port_loop (Z.to_nat count) rw buf (f_pos f);
  upd_file filp (fun g => g <| f_pos := f_pos g + (i - f_pos f) |>);;
  mret (i - f_pos f).

Definition rw_memory (rw minor filp buf count : Z) : M fs Z :=
  if minor =? 0 then rw_ram
  else if minor =? 1 then rw_mem
  else if minor =? 2 then rw_kmem
  else if minor =? 3 then mret (if rw =? READ then 0 else count)
  else if minor =? 4 then rw_port rw filp buf count
  else mret (- EIO).

Definition rw_char (rw dev filp buf count : Z) : M fs Z :=
  if 8 <=? MAJOR dev then mret (- ENODEV)
  else if MAJOR dev =? 1 then rw_memory rw (MINOR dev) filp buf count
  else if MAJOR dev =? 4 then rw_ttyx rw (MINOR dev) buf count
  else if MAJOR dev =? 5 then rw_tty rw buf count
  else mret (- ENODEV).

(** ** System calls *)

Definition IS_SEEKABLE (x : Z) : bool := (1 <=? x) && (x <=? 3).

Definition sys_lseek (fd offset origin : Z) : M fs Z :=
  r ← get_filp fd;
  if NR_OPEN <=? fd then mret (- EBADF) else
  match r with
  | None => mret (- EBADF)
  | Some filp =>
      f ← get_file filp;
      match f_inode f with
      | None => mret (- EBADF)
      | Some i =>
          v ← get_inode i;
          if negb (IS_SEEKABLE (MAJOR (i_dev v))) then mret (- EBADF) else
          if istrue (i_pipe v) then mret (- ESPIPE) else
          let set pos := upd_file filp (fun f => f <| f_pos := pos |>);; mret pos in
          if origin =? 0 then if offset <? 0 then mret (- EINVAL) else set offset
          else if origin =? 1 then
            let tmp := s32 (f_pos f + offset) in if tmp <? 0 then mret (- EINVAL) else set tmp
          else if origin =? 2 then
            let tmp := s32 (i_size v + offset) in if tmp <? 0 then mret (- EINVAL) else set tmp
          else mret (- EINVAL)
      end
  end.

Definition sys_read (fd buf count : Z) : M fs Z :=
  r ← get_filp fd;
  if (NR_OPEN <=? fd) || (count <? 0) then mret (- EINVAL) else
  match r with
  | None => mret (- EINVAL)
  | Some filp =>
      if count =? 0 then mret 0 else
      verify_area buf count;;
      f ← get_file filp;
      i ← of_option "f_inode" (f_inode f);
      v ← get_inode i;
      if istrue (i_pipe v) then
        (if istrue (Z.land (f_mode f) 1) then read_pipe i buf count else mret (- EIO))
      else if S_ISCHR (i_mode v) then rw_char READ (zone v 0) filp buf count
      else if S_ISBLK (i_mode v) then block_read (zone v 0) filp buf count
      else if S_ISDIR (i_mode v) || S_ISREG (i_mode v) then
        let count := if i_size v <? u32 (count + f_pos f) then s32 (i_size v - f_pos f) else count in
        if count <=? 0 then mret 0 else file_read i filp buf count
      else printk "(Read)inode->i_mode";; mret (- EINVAL)
  end.

Definition sys_write (fd buf count : Z) : M fs Z :=
  r ← get_filp fd;
  if (NR_OPEN <=? fd) || (count <? 0) then mret (- EINVAL) else
  match r with
  | None => mret (- EINVAL)
  | Some filp =>
      if count =? 0 then mret 0 else
      f ← get_file filp;
      i ← of_option "f_inode" (f_inode f);
      v ← get_inode i;
      if istrue (i_pipe v) then
        (if istrue (Z.land (f_mode f) 2) then write_pipe i buf count else mret (- EIO))
      else if S_ISCHR (i_mode v) then rw_char WRITE (zone v 0) filp buf count
      else if S_ISBLK (i_mode v) then block_write (zone v 0) filp buf count
      else if S_ISREG (i_mode v) then file_write i filp buf count
      else printk "(Write)inode->i_mode";; mret (- EINVAL)
  end.

(** [sys_close] of [fs/open.c]; the calls of [fs/fcntl.c] use it. *)
Definition sys_close (fd : Z) : M fs Z :=
  if (fd <? 0) || (NR_OPEN <=? fd) then mret (- EINVAL) else
  upd_current (fun c => c <| p_close_on_exec ::= fun x => Z.land x (Z.lnot (Z.shiftl 1 fd)) |>);;
  r ← get_filp fd;
  match r with
  | None => mret (- EINVAL)
  | Some filp =>
      set_filp fd None;;
      f ← get_file filp;
      if f_count f =? 0 then panic "Close: file count is 0" else
      upd_file filp (fun f => f <| f_count := u16 (f_count f - 1) |>);;
      f ← get_file filp;
      if istrue (f_count f) then mret 0 else
      iput (f_inode f);;
      mret 0
  end.

(** [while (arg < NR_OPEN) if (current->filp[arg]) arg++; else break;] *)
Fixpoint free_fd (n : nat) (arg : Z) : M fs Z :=
  match n with
  | O => mret arg
  | S n =>
      r ← get_filp arg;
      match r with Some _ => free_fd n (arg + 1) | None => mret arg end
  end.

Definition dupfd (fd arg : Z) : M fs Z :=
  r ← get_filp fd;
  if (fd <? 0) || (NR_OPEN <=? fd) then mret (- EBADF) else
  match r with
  | None => mret (- EBADF)
  | Some f =>
      if (arg <? 0) || (NR_OPEN <=? arg) then mret (- EINVAL) else
      arg ← free_fd (Z.to_nat (NR_OPEN - arg)) arg;
      if NR_OPEN <=? arg then mret (- EMFILE) else
      upd_current (fun c => c <| p_close_on_exec ::= fun x => Z.land x (Z.lnot (Z.shiftl 1 arg)) |>);;
      set_filp arg (Some f);;
      upd_file f (fun f => f <| f_count := u16 (f_count f + 1) |>);;
      mret arg
  end.

Definition sys_dup2 (oldfd newfd : Z) : M fs Z :=
  sys_close newfd;;
  dupfd oldfd newfd.

Definition sys_dup (fildes : Z) : M fs Z := dupfd fildes 0.

Definition sys_fcntl (fd cmd arg : Z) : M fs Z :=
  r ← get_filp fd;
  if (fd <? 0) || (NR_OPEN <=? fd) then mret (- EBADF) else
  match r with
  | None => mret (- EBADF)
  | Some filp =>
      if cmd =? 0 then dupfd fd arg
      else if cmd =? 1 then c ← gets current; mret (Z.land (Z.shiftr (p_close_on_exec c) fd) 1)
      else if cmd =? 2 then
        upd_current (fun c => c <| p_close_on_exec ::= fun x =>
          if istrue (Z.land arg 1) then Z.lor x (Z.shiftl 1 fd) else Z.land x (Z.lnot (Z.shiftl 1 fd)) |>);;
        mret 0
      else if cmd =? 3 then f ← get_file filp; mret (f_flags f)
      else if cmd =? 4 then
        upd_file filp (fun f => f <| f_flags ::= fun x =>
          Z.lor (Z.land x (Z.lnot (Z.lor O_APPEND O_NONBLOCK))) (Z.land arg (Z.lor O_APPEND O_NONBLOCK)) |>);;
        mret 0
      else mret (-1)
  end.

Definition sys_ioctl (fd cmd arg : Z) : M fs Z :=
  r ← get_filp fd;
  if (fd <? 0) || (NR_OPEN <=? fd) then mret (- EBADF) else
  match r with
  | None => mret (- EBADF)
  | Some filp =>
      f ← get_file filp;
      i ← of_option "f_inode" (f_inode f);
      v ← get_inode i;
      if negb (S_ISCHR (i_mode v)) && negb (S_ISBLK (i_mode v)) then mret (- EINVAL) else
      let dev := zone v 0 in
      if 8 <=? MAJOR dev then mret (- ENODEV) else
      if (MAJOR dev =? 4) || (MAJOR dev =? 5) then tty_ioctl dev cmd arg else mret (- ENOTTY)
  end.
End FileIo.
