(* ===== verification/Namei.v ===== *)
(** Path names and directories ([linux-0.11/fs/namei.c]).

    A directory entry is named by its buffer and its index in it; its inode number is the
    16-bit word [8 * de] of the buffer and its name the 14 bytes after it.  A path is the
    address of its bytes in the user's memory. *)

From S2P Require Import Prelude FsDefs Buffer Bitmap Inode Pipe FileIo.

Definition MAY_EXEC : Z := 1.
Definition MAY_WRITE : Z := 2.
Definition MAY_READ : Z := 4.

(** The characters of the string literal are signed. *)
Definition ACC_MODE (x : Z) : Z := nth (Z.to_nat (Z.land x O_ACCMODE)) [4; 2; 6; -1] 0.

Definition slash : Z := 47.
Definition dot : Z := 46.

(** [de->inode], [de->name[k]] and the assignments to them. *)
Definition de_inode (data : list Z) (de : Z) : Z := ld16 data (8 * de).
Definition de_name (data : list Z) (de k : Z) : Z := byte_at data (16 * de + 2 + k).
Definition set_de_inode (de nr : Z) (data : list Z) : list Z := st16 (8 * de) nr data.
Definition set_de_name (de k c : Z) (data : list Z) : list Z := <[Z.to_nat (16 * de + 2 + k) := c]> data.

(** [match] on the bytes of the name. *)
Definition match_name (name : list Z) (data : list Z) (de : Z) : bool :=
  let len := Z.of_nat (length name) in
  negb (de_inode data de =? 0) && (len <=? NAME_LEN) &&
  negb ((len <? NAME_LEN) && istrue (de_name data de len)) &&
  forallb (fun k => nth (Z.to_nat k) name 0 =? de_name data de k) (seqZ 0 len).

Section Namei.
Context `{FsEnv}.

Definition permission (inode mask : Z) : M fs bool :=
  v ← get_inode inode;
  c ← gets current;
  if istrue (i_dev v) && (i_nlinks v =? 0) then mret false else
  let mode := if p_euid c =? i_uid v then Z.shiftr (i_mode v) 6
              else if p_egid c =? i_gid v then Z.shiftr (i_mode v) 3 else i_mode v in
  su ← suser;
  mret ((Z.land (Z.land mode mask) 7 =? mask) || su).

(** [match(len, name, de)] *)
Definition match_entry (len name bh de : Z) : M fs bool :=
  l ← get_fs_bytes (Z.to_nat len) name;
  b ← get_bh bh;
  mret (match_name l (b_data b) de).

(** The magic for "..": the directory to search and the length to compare. *)
Definition dotdot (dir name namelen : Z) : M fs (Z * Z) :=
  c0 ← get_fs_byte name;
  c1 ← get_fs_byte (name + 1);
  if (namelen =? 2) && (c0 =? dot) && (c1 =? dot) then
    c ← gets current;
    v ← get_inode dir;
    if bool_decide (p_root c = Some dir) then mret (dir, 1)
    else if i_num v =? ROOT_INO then
      r ← get_super (i_dev v);
      k ← of_option "super block" r;
      sb ← get_sb k;
      match s_imount sb with
      | Some _ =>
          iput (Some dir);;
          sb ← get_sb k;
          m ← of_option "s_imount" (s_imount sb);
          upd_inode m (fun v => v <| i_count := u16 (i_count v + 1) |>);;
          mret (m, namelen)
      | None => mret (dir, namelen)
      end
    else mret (dir, namelen)
  else mret (dir, namelen).

(** The [while (i < entries)] loop; every round raises [i]. *)
Fixpoint find_loop (n : nat) (dir name namelen entries i : Z) (bh : option Z) (de : Z) : M fs (option (Z * Z)) :=
  if entries <=? i then brelse bh;; mret None else
  match n with
  | O => nofuel
  | S n =>
      b ← of_option "directory buffer" bh;
      cur ← (if DIR_ENTRIES_PER_BLOCK <=? de then
               brelse (Some b);;
               block ← bmap dir (Z.quot i DIR_ENTRIES_PER_BLOCK);
               v ← get_inode dir;
               (if istrue block then r ← bread (i_dev v) block; mret (option_map (fun b => (b, 0)) r)
                else mret None)
             else mret (Some (b, de)));
      match cur with
      | None => find_loop n dir name namelen entries (i + DIR_ENTRIES_PER_BLOCK) None de
      | Some (b, de) =>
          m ← match_entry namelen name b de;
          if (m : bool) then mret (Some (b, de))
          else find_loop n dir name namelen entries (i + 1) (Some b) (de + 1)
      end
  end.

(** The directory comes back because ".." over a mount point exchanges it. *)
Definition find_entry (dir name namelen : Z) : M fs (option (Z * Z) * Z) :=
  let namelen := Z.min namelen NAME_LEN in
  v ← get_inode dir;
  let entries := Z.quot (i_size v) 16 in
  if namelen =? 0 then mret (None, dir) else
  '(dir, namelen) ← dotdot dir name namelen;
  v ← get_inode dir;
  if zone v 0 =? 0 then mret (None, dir) else
  r ← bread (i_dev v) (zone v 0);
  match r with
  | None => mret (None, dir)
  | Some bh =>
      res ← find_loop (Z.to_nat entries) dir name namelen entries 0 (Some bh) 0;
      mret (res, dir)
  end.

(** [for (i = 0; i < NAME_LEN; i++) de->name[i] = (i < namelen) ? get_fs_byte(name + i) : 0] *)
Definition copy_name (name namelen bh de : Z) : M fs unit :=
  for_each (seqZ 0 NAME_LEN) (fun i =>
    c ← (if i <? namelen then get_fs_byte (name + i) else mret 0);
    upd_bh bh (fun b => b <| b_data ::= set_de_name de i c |>)).

Fixpoint add_loop (n : nat) (dir name namelen i : Z) (bh : option Z) (de : Z) : M fs (option (Z * Z)) :=
  match n with
  | O => nofuel
  | S n =>
      b ← of_option "directory buffer" bh;
      cur ← (if DIR_ENTRIES_PER_BLOCK <=? de then
               brelse (Some b);;
               block ← create_block dir (Z.quot i DIR_ENTRIES_PER_BLOCK);
               if block =? 0 then mret (inl None) else
               v ← get_inode dir;
               r ← bread (i_dev v) block;
               mret (match r with Some b => inr (b, 0) | None => inl (Some tt) end)
             else mret (inr (b, de)));
      match cur with
      | inl None => mret None
      | inl (Some _) => add_loop n dir name namelen (i + DIR_ENTRIES_PER_BLOCK) None de
      | inr (b, de) =>
          v ← get_inode dir;
          when (i_size v <=? i * 16) (
            upd_bh b (fun x => x <| b_data ::= set_de_inode de 0 |>);;
            t ← CURRENT_TIME;
            upd_inode dir (fun v => v <| i_size := (i + 1) * 16 |> <| i_dirt := 1 |> <| i_ctime := t |>));;
          x ← get_bh b;
          if de_inode (b_data x) de =? 0 then
            t ← CURRENT_TIME;
            upd_inode dir (fun v => v <| i_mtime := t |>);;
            copy_name name namelen b de;;
            upd_bh b (fun x => x <| b_dirt := 1 |>);;
            mret (Some (b, de))
          else add_loop n dir name namelen (i + 1) (Some b) (de + 1)
      end
  end.

Definition add_entry (dir name namelen : Z) : M fs (option (Z * Z)) :=
  let namelen := Z.min namelen NAME_LEN in
  if namelen =? 0 then mret None else
  v ← get_inode dir;
  if zone v 0 =? 0 then mret None else
  r ← bread (i_dev v) (zone v 0);
  match r with
  | None => mret None
  | Some bh => add_loop fuel dir name namelen 0 (Some bh) 0
  end.

(** ** Walking a path *)

(** [for (namelen = 0; (c = get_fs_byte(pathname++)) && (c != '/'); namelen++)]: the length,
    the last character and the address after it. *)
Fixpoint component (n : nat) (pathname namelen : Z) : M fs (Z * Z * Z) :=
  match n with
  | O => nofuel
  | S n =>
      c ← get_fs_byte pathname;
      if (c =? 0) || (c =? slash) then mret (namelen, c, pathname + 1) else component n (pathname + 1) (namelen + 1)
  end.

Fixpoint get_dir_loop (n : nat) (inode pathname : Z) : M fs (option Z) :=
  match n with
  | O => nofuel
  | S n =>
      let thisname := pathname in
      v ← get_inode inode;
      ok ← (if S_ISDIR (i_mode v) then permission inode MAY_EXEC else mret false);
      if negb ok then iput (Some inode);; mret None else
      '(namelen, c, pathname) ← component fuel pathname 0;
      if c =? 0 then mret (Some inode) else
      '(r, inode) ← find_entry inode thisname namelen;
      match r with
      | None => iput (Some inode);; mret None
      | Some (bh, de) =>
          b ← get_bh bh;
          let inr := de_inode (b_data b) de in
          v ← get_inode inode;
          let idev := i_dev v in
          brelse (Some bh);;
          iput (Some inode);;
          r ← iget idev inr;
          match r with
          | None => mret None
          | Some inode => get_dir_loop n inode pathname
          end
      end
  end.

(** A directory of the task that is in use. *)
Definition task_dir (d : option Z) (msg : string) : M fs Z :=
  match d with
  | None => panic msg
  | Some i => v ← get_inode i; if i_count v =? 0 then panic msg else mret i
  end.

Definition get_dir (pathname : Z) : M fs (option Z) :=
  p ← gets current;
  root ← task_dir (p_root p) "No root inode";
  pwd ← task_dir (p_pwd p) "No cwd inode";
  c ← get_fs_byte pathname;
  if c =? 0 then mret None else
  let inode := if c =? slash then root else pwd in
  let pathname := if c =? slash then pathname + 1 else pathname in
  upd_inode inode (fun v => v <| i_count := u16 (i_count v + 1) |>);;
  get_dir_loop fuel inode pathname.

(** [while (c = get_fs_byte(pathname++)) if (c == '/') basename = pathname;] *)
Fixpoint base_loop (n : nat) (pathname basename : Z) : M fs (Z * Z) :=
  match n with
  | O => nofuel
  | S n =>
      c ← get_fs_byte pathname;
      if c =? 0 then mret (pathname + 1, basename)
      else base_loop n (pathname + 1) (if c =? slash then pathname + 1 else basename)
  end.

(** The directory, the length of the name in it and the name's address. *)
Definition dir_namei (pathname : Z) : M fs (option (Z * Z * Z)) :=
  r ← get_dir pathname;
  match r with
  | None => mret None
  | Some dir =>
      '(pathname, basename) ← base_loop fuel pathname pathname;
      mret (Some (dir, pathname - basename - 1, basename))
  end.

Definition namei (pathname : Z) : M fs (option Z) :=
  r ← dir_namei pathname;
  match r with
  | None => mret None
  | Some (dir, namelen, basename) =>
      if namelen =? 0 then mret (Some dir) else
      '(r, dir) ← find_entry dir basename namelen;
      match r with
      | None => iput (Some dir);; mret None
      | Some (bh, de) =>
          b ← get_bh bh;
          let inr := de_inode (b_data b) de in
          v ← get_inode dir;
          let dev := i_dev v in
          brelse (Some bh);;
          iput (Some dir);;
          r ← iget dev inr;
          match r with
          | None => mret None
          | Some i =>
              t ← CURRENT_TIME;
              upd_inode i (fun v => v <| i_atime := t |> <| i_dirt := 1 |>);;
              mret (Some i)
          end
      end
  end.
End Namei.
