(* ===== verification/NameOps.v ===== *)
(** The system calls on names: [open_namei], [sys_mknod], [sys_mkdir], [sys_rmdir],
    [sys_unlink] and [sys_link] ([linux-0.11/fs/namei.c]). *)

From S2P Require Import Prelude FsDefs Buffer Bitmap Inode Pipe FileIo Namei.

Definition I_REGULAR : Z := 0x8000.
Definition I_DIRECTORY : Z := 0x4000.

Section NameOps.
Context `{FsEnv}.

(** [de->inode = nr; bh->b_dirt = 1] *)
Definition set_entry (bh de nr : Z) : M fs unit :=
  upd_bh bh (fun b => b <| b_data ::= set_de_inode de nr |>);;
  upd_bh bh (fun b => b <| b_dirt := 1 |>).

(** [iput(a); iput(b); return e] *)
Definition put2 (a b e : Z) : M fs Z := iput (Some a);; iput (Some b);; mret e.
(** [iput(a); iput(b); brelse(bh); return e] *)
Definition put2_brelse (a b bh e : Z) : M fs Z := iput (Some a);; iput (Some b);; brelse (Some bh);; mret e.

(** The error code, or the inode. *)
Definition open_namei (pathname flag mode : Z) : M fs (Z + Z) :=
  let flag := if istrue (Z.land flag O_TRUNC) && negb (istrue (Z.land flag O_ACCMODE))
              then Z.lor flag O_WRONLY else flag in
  p ← gets current;
  let mode := Z.lor (Z.land mode (Z.land 0x1ff (Z.lnot (p_umask p)))) I_REGULAR in
  r ← dir_namei pathname;
  match r with
  | None => mret (inl (- ENOENT))
  | Some (dir, namelen, basename) =>
      if namelen =? 0 then
        (if Z.land flag (Z.lor O_ACCMODE (Z.lor O_CREAT O_TRUNC)) =? 0 then mret (inr dir)
         else iput (Some dir);; mret (inl (- EISDIR)))
      else
      '(r, dir) ← find_entry dir basename namelen;
      match r with
      | None =>
          if Z.land flag O_CREAT =? 0 then iput (Some dir);; mret (inl (- ENOENT)) else
          ok ← permission dir MAY_WRITE;
          if negb ok then iput (Some dir);; mret (inl (- EACCES)) else
          d ← get_inode dir;
          r ← new_inode (i_dev d);
          match r with
          | None => iput (Some dir);; mret (inl (- ENOSPC))
          | Some inode =>
              c ← gets current;
              upd_inode inode (fun v => v <| i_uid := p_euid c |> <| i_mode := u16 mode |> <| i_dirt := 1 |>);;
              r ← add_entry dir basename namelen;
              match r with
              | None =>
                  upd_inode inode (fun v => v <| i_nlinks := u8 (i_nlinks v - 1) |>);;
                  iput (Some inode);;
                  iput (Some dir);;
                  mret (inl (- ENOSPC))
              | Some (bh, de) =>
                  v ← get_inode inode;
                  set_entry bh de (i_num v);;
                  brelse (Some bh);;
                  iput (Some dir);;
                  mret (inr inode)
              end
          end
      | Some (bh, de) =>
          b ← get_bh bh;
          let inr' := de_inode (b_data b) de in
          d ← get_inode dir;
          brelse (Some bh);;
          iput (Some dir);;
          if istrue (Z.land flag O_EXCL) then mret (inl (- EEXIST)) else
          r ← iget (i_dev d) inr';
          match r with
          | None => mret (inl (- EACCES))
          | Some inode =>
              v ← get_inode inode;
              bad ← (if S_ISDIR (i_mode v) && istrue (Z.land flag O_ACCMODE) then mret true
                     else ok ← permission inode (ACC_MODE flag); mret (negb ok));
              if (bad : bool) then iput (Some inode);; mret (inl (- EPERM)) else
              t ← CURRENT_TIME;
              upd_inode inode (fun v => v <| i_atime := t |>);;
              when (istrue (Z.land flag O_TRUNC)) (truncate inode);;
              mret (inr inode)
          end
      end
  end.

(** The beginning that the calls share: the directory of [name], which must have a last
    part and be writable, and the entry found there; or the error to return. *)
Definition lookup_parent (name : Z) : M fs (Z + Z * Z * Z * option (Z * Z)) :=
  r ← dir_namei name;
  match r with
  | None => mret (inl (- ENOENT))
  | Some (dir, namelen, basename) =>
      if namelen =? 0 then iput (Some dir);; mret (inl (- ENOENT)) else
      ok ← permission dir MAY_WRITE;
      if negb ok then iput (Some dir);; mret (inl (- EPERM)) else
      '(r, dir) ← find_entry dir basename namelen;
      mret (inr (dir, namelen, basename, r))
  end.

Definition sys_mknod (filename mode dev : Z) : M fs Z :=
  su ← suser;
  if negb su then mret (- EPERM) else
  r ← lookup_parent filename;
  match r with
  | inl e => mret e
  | inr (dir, _, _, Some (bh, _)) => brelse (Some bh);; iput (Some dir);; mret (- EEXIST)
  | inr (dir, namelen, basename, None) =>
      d ← get_inode dir;
      r ← new_inode (i_dev d);
      match r with
      | None => iput (Some dir);; mret (- ENOSPC)
      | Some inode =>
          upd_inode inode (fun v => v <| i_mode := u16 mode |>);;
          when (S_ISBLK mode || S_ISCHR mode) (upd_inode inode (set_zone 0 dev));;
          t ← CURRENT_TIME;
          upd_inode inode (fun v => v <| i_atime := t |> <| i_mtime := t |> <| i_dirt := 1 |>);;
          r ← add_entry dir basename namelen;
          match r with
          | None =>
              iput (Some dir);;
              upd_inode inode (fun v => v <| i_nlinks := 0 |>);;
              iput (Some inode);;
              mret (- ENOSPC)
          | Some (bh, de) =>
              v ← get_inode inode;
              set_entry bh de (i_num v);;
              put2_brelse dir inode bh 0
          end
      end
  end.

(** The entries "." and ".." of a new directory. *)
Definition fill_dir (inode dir bh : Z) : M fs unit :=
  v ← get_inode inode;
  upd_bh bh (fun b => b <| b_data ::= set_de_inode 0 (i_num v) |>);;
  upd_bh bh (fun b => b <| b_data ::= fun l => set_de_name 0 1 0 (set_de_name 0 0 dot l) |>);;
  d ← get_inode dir;
  upd_bh bh (fun b => b <| b_data ::= set_de_inode 1 (i_num d) |>);;
  upd_bh bh (fun b => b <| b_data ::= fun l => set_de_name 1 2 0 (set_de_name 1 1 dot (set_de_name 1 0 dot l)) |>).

Definition sys_mkdir (pathname mode : Z) : M fs Z :=
  su ← suser;
  if negb su then mret (- EPERM) else
  r ← lookup_parent pathname;
  match r with
  | inl e => mret e
  | inr (dir, _, _, Some (bh, _)) => brelse (Some bh);; iput (Some dir);; mret (- EEXIST)
  | inr (dir, namelen, basename, None) =>
      d ← get_inode dir;
      r ← new_inode (i_dev d);
      match r with
      | None => iput (Some dir);; mret (- ENOSPC)
      | Some inode =>
          t ← CURRENT_TIME;
          upd_inode inode (fun v => v <| i_size := 32 |> <| i_dirt := 1 |> <| i_atime := t |> <| i_mtime := t |>);;
          v ← get_inode inode;
          z ← new_block (i_dev v);
          upd_inode inode (set_zone 0 z);;
          v ← get_inode inode;
          if zone v 0 =? 0 then
            iput (Some dir);;
            upd_inode inode (fun v => v <| i_nlinks := u8 (i_nlinks v - 1) |>);;
            iput (Some inode);;
            mret (- ENOSPC)
          else
          upd_inode inode (fun v => v <| i_dirt := 1 |>);;
          r ← bread (i_dev v) (zone v 0);
          match r with
          | None =>
              iput (Some dir);;
              v ← get_inode inode;
              free_block (i_dev v) (zone v 0);;
              upd_inode inode (fun v => v <| i_nlinks := u8 (i_nlinks v - 1) |>);;
              iput (Some inode);;
              mret (- ERROR)
          | Some dir_block =>
              fill_dir inode dir dir_block;;
              upd_inode inode (fun v => v <| i_nlinks := 2 |>);;
              upd_bh dir_block (fun b => b <| b_dirt := 1 |>);;
              brelse (Some dir_block);;
              c ← gets current;
              upd_inode inode (fun v =>
                v <| i_mode := u16 (Z.lor I_DIRECTORY (Z.land mode (Z.land 0x1ff (Z.lnot (p_umask c))))) |>
                  <| i_dirt := 1 |>);;
              r ← add_entry dir basename namelen;
              match r with
              | None =>
                  iput (Some dir);;
                  v ← get_inode inode;
                  free_block (i_dev v) (zone v 0);;
                  upd_inode inode (fun v => v <| i_nlinks := 0 |>);;
                  iput (Some inode);;
                  mret (- ENOSPC)
              | Some (bh, de) =>
                  v ← get_inode inode;
                  set_entry bh de (i_num v);;
                  upd_inode dir (fun v => v <| i_nlinks := u8 (i_nlinks v + 1) |> <| i_dirt := 1 |>);;
                  put2_brelse dir inode bh 0
              end
          end
      end
  end.

(** The [while (nr < len)] loop.  A hole in the directory leaves [bh] as it was, released;
    every round raises [nr]. *)
Fixpoint empty_loop2 (n : nat) (inode len nr bh de : Z) : M fs bool :=
  if len <=? nr then brelse (Some bh);; mret true else
  match n with
  | O => nofuel
  | S n =>
      cur ← (if DIR_ENTRIES_PER_BLOCK <=? de then
               brelse (Some bh);;
               block ← bmap inode (Z.quot nr DIR_ENTRIES_PER_BLOCK);
               if block =? 0 then mret (inl true) else
               v ← get_inode inode;
               r ← bread (i_dev v) block;
               mret (match r with Some b => inr (b, 0) | None => inl false end)
             else mret (inr (bh, de)));
      match cur with
      | inl true => empty_loop2 n inode len (nr + DIR_ENTRIES_PER_BLOCK) bh de
      | inl false => mret false
      | inr (bh, de) =>
          b ← get_bh bh;
          if istrue (de_inode (b_data b) de) then brelse (Some bh);; mret false
          else empty_loop2 n inode len (nr + 1) bh (de + 1)
      end
  end.

(** The first two entries are "." and "..". *)
Definition dots_ok (v : m_inode) (data : list Z) : bool :=
  (de_inode data 0 =? i_num v) && istrue (de_inode data 1) &&
  (de_name data 0 0 =? dot) && (de_name data 0 1 =? 0) &&
  (de_name data 1 0 =? dot) && (de_name data 1 1 =? dot) && (de_name data 1 2 =? 0).

Definition empty_dir (inode : Z) : M fs bool :=
  let bad := printk "warning - bad directory";; mret false in
  v ← get_inode inode;
  let len := Z.quot (i_size v) 16 in
  if (len <? 2) || (zone v 0 =? 0) then bad else
  r ← bread (i_dev v) (zone v 0);
  match r with
  | None => bad
  | Some bh =>
      b ← get_bh bh;
      v ← get_inode inode;
      if negb (dots_ok v (b_data b)) then bad else
      empty_loop2 (Z.to_nat len) inode len 2 bh 2
  end.

(** [de->inode] of the entry that was found. *)
Definition entry_inode (dir bh de : Z) : M fs (option Z) :=
  d ← get_inode dir;
  b ← get_bh bh;
  iget (i_dev d) (de_inode (b_data b) de).

Definition sys_rmdir (name : Z) : M fs Z :=
  su ← suser;
  if negb su then mret (- EPERM) else
  r ← lookup_parent name;
  match r with
  | inl e => mret e
  | inr (dir, _, _, None) => iput (Some dir);; mret (- ENOENT)
  | inr (dir, _, _, Some (bh, de)) =>
      r ← entry_inode dir bh de;
      match r with
      | None => iput (Some dir);; brelse (Some bh);; mret (- EPERM)
      | Some inode =>
          c ← gets current;
          d ← get_inode dir;
          v ← get_inode inode;
          if istrue (Z.land (i_mode d) S_ISVTX) && istrue (p_euid c) && negb (i_uid v =? p_euid c) then
            put2_brelse dir inode bh (- EPERM)
          else if negb (i_dev v =? i_dev d) || (1 <? i_count v) then put2_brelse dir inode bh (- EPERM)
          else if inode =? dir then put2_brelse inode dir bh (- EPERM)
          else if negb (S_ISDIR (i_mode v)) then put2_brelse inode dir bh (- ENOTDIR)
          else
          e ← empty_dir inode;
          if negb e then put2_brelse inode dir bh (- ENOTEMPTY) else
          v ← get_inode inode;
          when (negb (i_nlinks v =? 2)) (printk "empty directory has nlink!=2");;
          set_entry bh de 0;;
          brelse (Some bh);;
          upd_inode inode (fun v => v <| i_nlinks := 0 |> <| i_dirt := 1 |>);;
          t ← CURRENT_TIME;
          upd_inode dir (fun v => v <| i_nlinks := u8 (i_nlinks v - 1) |> <| i_mtime := t |> <| i_ctime := t |>
                                    <| i_dirt := 1 |>);;
          put2 dir inode 0
      end
  end.

Definition sys_unlink (name : Z) : M fs Z :=
  r ← lookup_parent name;
  match r with
  | inl e => mret e
  | inr (dir, _, _, None) => iput (Some dir);; mret (- ENOENT)
  | inr (dir, _, _, Some (bh, de)) =>
      r ← entry_inode dir bh de;
      match r with
      | None => iput (Some dir);; brelse (Some bh);; mret (- ENOENT)
      | Some inode =>
          c ← gets current;
          d ← get_inode dir;
          v ← get_inode inode;
          su ← suser;
          if istrue (Z.land (i_mode d) S_ISVTX) && negb su && negb (p_euid c =? i_uid v) && negb (p_euid c =? i_uid d)
          then put2_brelse dir inode bh (- EPERM)
          else if S_ISDIR (i_mode v) then put2_brelse inode dir bh (- EPERM)
          else
          when (i_nlinks v =? 0) (
            printk "Deleting nonexistent file";;
            upd_inode inode (fun v => v <| i_nlinks := 1 |>));;
          set_entry bh de 0;;
          brelse (Some bh);;
          t ← CURRENT_TIME;
          upd_inode inode (fun v => v <| i_nlinks := u8 (i_nlinks v - 1) |> <| i_dirt := 1 |> <| i_ctime := t |>);;
          put2 inode dir 0
      end
  end.

Definition sys_link (oldname newname : Z) : M fs Z :=
  r ← namei oldname;
  match r with
  | None => mret (- ENOENT)
  | Some oldinode =>
      o ← get_inode oldinode;
      if S_ISDIR (i_mode o) then iput (Some oldinode);; mret (- EPERM) else
      r ← dir_namei newname;
      match r with
      | None => iput (Some oldinode);; mret (- EACCES)
      | Some (dir, namelen, basename) =>
          if namelen =? 0 then put2 oldinode dir (- EPERM) else
          d ← get_inode dir;
          o ← get_inode oldinode;
          if negb (i_dev d =? i_dev o) then put2 dir oldinode (- EXDEV) else
          ok ← permission dir MAY_WRITE;
          if negb ok then put2 dir oldinode (- EACCES) else
          '(r, dir) ← find_entry dir basename namelen;
          match r with
          | Some (bh, _) => brelse (Some bh);; put2 dir oldinode (- EEXIST)
          | None =>
              r ← add_entry dir basename namelen;
              match r with
              | None => put2 dir oldinode (- ENOSPC)
              | Some (bh, de) =>
                  o ← get_inode oldinode;
                  set_entry bh de (i_num o);;
                  brelse (Some bh);;
                  iput (Some dir);;
                  t ← CURRENT_TIME;
                  upd_inode oldinode (fun v => v <| i_nlinks := u8 (i_nlinks v + 1) |> <| i_ctime := t |>
                                                 <| i_dirt := 1 |>);;
                  iput (Some oldinode);;
                  mret 0
              end
          end
      end
  end.
End NameOps.
