(* ===== verification/Open.v ===== *)
(** Opening files and their attributes ([linux-0.11/fs/open.c], [fs/stat.c]), mounting
    ([fs/super.c]). *)

From S2P Require Import Prelude FsDefs Buffer Bitmap Inode Pipe FileIo Namei NameOps.

Section Open.
Context `{FsEnv}.

Definition sys_ustat (dev ubuf : Z) : M fs Z := mret (- ENOSYS).

(** [times] is an address of the user, null when the current time is wanted. *)
Definition sys_utime (filename times : Z) : M fs Z :=
  r ← namei filename;
  match r with
  | None => mret (- ENOENT)
  | Some inode =>
      '(actime, modtime) ← (if istrue times then a ← get_fs_long times; m ← get_fs_long (times + 4); mret (a, m)
                            else t ← CURRENT_TIME; mret (t, t));
      upd_inode inode (fun v => v <| i_atime := actime |> <| i_mtime := modtime |> <| i_dirt := 1 |>);;
      iput (Some inode);;
      mret 0
  end.

Definition sys_access (filename mode : Z) : M fs Z :=
  let mode := Z.land mode 7 in
  r ← namei filename;
  match r with
  | None => mret (- EACCES)
  | Some inode =>
      v ← get_inode inode;
      let i_mode := Z.land (i_mode v) 0x1ff in
      iput (Some inode);;
      v ← get_inode inode;
      c ← gets current;
      let res := if p_uid c =? i_uid v then Z.shiftr i_mode 6
                 else if p_gid c =? i_gid v then Z.shiftr i_mode 6 else i_mode in
      if Z.land (Z.land res 7) mode =? mode then mret 0 else
      if (p_uid c =? 0) && ((Z.land mode 1 =? 0) || istrue (Z.land i_mode 0x49)) then mret 0 else
      mret (- EACCES)
  end.

(** The directory [filename], or the error. *)
Definition named_dir (filename : Z) : M fs (Z + Z) :=
  r ← namei filename;
  match r with
  | None => mret (inl (- ENOENT))
  | Some inode =>
      v ← get_inode inode;
      if negb (S_ISDIR (i_mode v)) then iput (Some inode);; mret (inl (- ENOTDIR)) else mret (inr inode)
  end.

Definition sys_chdir (filename : Z) : M fs Z :=
  r ← named_dir filename;
  match r with
  | inl e => mret e
  | inr inode =>
      c ← gets current;
      iput (p_pwd c);;
      upd_current (fun c => c <| p_pwd := Some inode |>);;
      mret 0
  end.

Definition sys_chroot (filename : Z) : M fs Z :=
  r ← named_dir filename;
  match r with
  | inl e => mret e
  | inr inode =>
      c ← gets current;
      iput (p_root c);;
      upd_current (fun c => c <| p_root := Some inode |>);;
      mret 0
  end.

Definition sys_chmod (filename mode : Z) : M fs Z :=
  r ← namei filename;
  match r with
  | None => mret (- ENOENT)
  | Some inode =>
      v ← get_inode inode;
      c ← gets current;
      su ← suser;
      if negb (p_euid c =? i_uid v) && negb su then iput (Some inode);; mret (- EACCES) else
      upd_inode inode (fun v =>
        v <| i_mode := u16 (Z.lor (Z.land mode 0xfff) (Z.land (i_mode v) (Z.lnot 0xfff))) |> <| i_dirt := 1 |>);;
      iput (Some inode);;
      mret 0
  end.

Definition sys_chown (filename uid gid : Z) : M fs Z :=
  r ← namei filename;
  match r with
  | None => mret (- ENOENT)
  | Some inode =>
      su ← suser;
      if negb su then iput (Some inode);; mret (- EACCES) else
      upd_inode inode (fun v => v <| i_uid := u16 uid |> <| i_gid := u8 gid |> <| i_dirt := 1 |>);;
      iput (Some inode);;
      mret 0
  end.

(** [for (i = 0; i < NR_FILE; i++, f++) if (!f->f_count) break;] *)
Fixpoint free_file (n : nat) (i : Z) : M fs Z :=
  match n with
  | O => mret i
  | S n => f ← get_file i; if f_count f =? 0 then mret i else free_file n (i + 1)
  end.

(** The special treatment of terminals; [true] when the file may be opened. *)
Definition open_tty (inode : Z) : M fs bool :=
  v ← get_inode inode;
  c ← gets current;
  if negb (S_ISCHR (i_mode v)) then mret true else
  if MAJOR (zone v 0) =? 4 then
    when (istrue (p_leader c) && (p_tty c <? 0)) (
      upd_current (fun c => c <| p_tty := MINOR (zone v 0) |>);;
      set_tty_pgrp (MINOR (zone v 0)) (p_pgrp c));;
    mret true
  else mret (negb ((MAJOR (zone v 0) =? 5) && (p_tty c <? 0))).

Definition sys_open (filename flag mode : Z) : M fs Z :=
  p ← gets current;
  let mode := Z.land mode (Z.land 0x1ff (Z.lnot (p_umask p))) in
  fd ← free_fd (Z.to_nat NR_OPEN) 0;
  if NR_OPEN <=? fd then mret (- EINVAL) else
  upd_current (fun c => c <| p_close_on_exec ::= fun x => Z.land x (Z.lnot (Z.shiftl 1 fd)) |>);;
  f ← free_file (Z.to_nat NR_FILE) 0;
  if NR_FILE <=? f then mret (- EINVAL) else
  set_filp fd (Some f);;
  upd_file f (fun v => v <| f_count := u16 (f_count v + 1) |>);;
  r ← open_namei filename flag mode;
  match r with
  | inl i =>
      set_filp fd None;;
      upd_file f (fun v => v <| f_count := 0 |>);;
      mret i
  | inr inode =>
      ok ← open_tty inode;
      if negb ok then
        iput (Some inode);;
        set_filp fd None;;
        upd_file f (fun v => v <| f_count := 0 |>);;
        mret (- EPERM)
      else
      v ← get_inode inode;
      when (S_ISBLK (i_mode v)) (check_disk_change (zone v 0));;
      v ← get_inode inode;
      upd_file f (fun _ => mk_file (i_mode v) (u16 flag) 1 (Some inode) 0);;
      mret fd
  end.

Definition sys_creat (pathname mode : Z) : M fs Z := sys_open pathname (Z.lor O_CREAT O_TRUNC) mode.

(** ** Attributes *)

(** The bytes of [struct stat]; the padding is what the stack held. *)
Definition stat_bytes (v : m_inode) : list Z :=
  let le16 x := [u8 x; u8 (Z.shiftr x 8)] in
  let le32 x := le16 x ++ le16 (Z.shiftr x 16) in
  let pad k := nth k stat_pad 0 in
  le16 (i_dev v) ++ le16 (i_num v) ++ le16 (i_mode v) ++ [u8 (i_nlinks v); pad 0%nat] ++ le16 (i_uid v) ++
  [u8 (i_gid v); pad 1%nat] ++ le16 (zone v 0) ++ [pad 2%nat; pad 3%nat] ++ le32 (i_size v) ++ le32 (i_atime v) ++
  le32 (i_mtime v) ++ le32 (i_ctime v).

Definition cp_stat (inode statbuf : Z) : M fs unit :=
  verify_area statbuf 32;;
  v ← get_inode inode;
  put_fs_bytes (stat_bytes v) statbuf.

Definition sys_stat (filename statbuf : Z) : M fs Z :=
  r ← namei filename;
  match r with
  | None => mret (- ENOENT)
  | Some inode =>
      cp_stat inode statbuf;;
      iput (Some inode);;
      mret 0
  end.

Definition sys_fstat (fd statbuf : Z) : M fs Z :=
  r ← get_filp fd;
  if NR_OPEN <=? fd then mret (- EBADF) else
  match r with
  | None => mret (- EBADF)
  | Some f =>
      f ← get_file f;
      match f_inode f with
      | None => mret (- EBADF)
      | Some inode => cp_stat inode statbuf;; mret 0
      end
  end.

(** ** Mounting *)

(** Whether an inode of the device is in use. *)
Definition dev_in_use (dev : Z) : M fs bool :=
  gets (fun s => existsb (fun v => (i_dev v =? dev) && istrue (i_count v)) (inode_table s)).

Definition sys_umount (dev_name : Z) : M fs Z :=
  r ← namei dev_name;
  match r with
  | None => mret (- ENOENT)
  | Some inode =>
      v ← get_inode inode;
      let dev := zone v 0 in
      if negb (S_ISBLK (i_mode v)) then iput (Some inode);; mret (- ENOTBLK) else
      iput (Some inode);;
      s ← get;
      if dev =? ROOT_DEV s then mret (- EBUSY) else
      r ← get_super dev;
      match r with
      | None => mret (- ENOENT)
      | Some k =>
          sb ← get_sb k;
          match s_imount sb with
          | None => mret (- ENOENT)
          | Some m =>
              v ← get_inode m;
              when (i_mount v =? 0) (printk "Mounted inode has i_mount=0");;
              busy ← dev_in_use dev;
              if (busy : bool) then mret (- EBUSY) else
              upd_inode m (fun v => v <| i_mount := 0 |>);;
              iput (Some m);;
              upd_sb k (fun v => v <| s_imount := None |>);;
              sb ← get_sb k;
              iput (s_isup sb);;
              upd_sb k (fun v => v <| s_isup := None |>);;
              put_super dev;;
              sync_dev dev;;
              mret 0
          end
      end
  end.

Definition sys_mount (dev_name dir_name rw_flag : Z) : M fs Z :=
  r ← namei dev_name;
  match r with
  | None => mret (- ENOENT)
  | Some dev_i =>
      v ← get_inode dev_i;
      let dev := zone v 0 in
      if negb (S_ISBLK (i_mode v)) then iput (Some dev_i);; mret (- EPERM) else
      iput (Some dev_i);;
      r ← namei dir_name;
      match r with
      | None => mret (- ENOENT)
      | Some dir_i =>
          let fail e := iput (Some dir_i);; mret e in
          v ← get_inode dir_i;
          if negb (i_count v =? 1) || (i_num v =? ROOT_INO) then fail (- EBUSY) else
          if negb (S_ISDIR (i_mode v)) then fail (- EPERM) else
          r ← read_super dev;
          match r with
          | None => fail (- EBUSY)
          | Some k =>
              sb ← get_sb k;
              match s_imount sb with
              | Some _ => fail (- EBUSY)
              | None =>
                  v ← get_inode dir_i;
                  if istrue (i_mount v) then fail (- EPERM) else
                  upd_sb k (fun v => v <| s_imount := Some dir_i |>);;
                  upd_inode dir_i (fun v => v <| i_mount := 1 |> <| i_dirt := 1 |>);;
                  mret 0
              end
          end
      end
  end.
End Open.
