(* ===== verification/Setup.v ===== *)
(** Setting up the disks: [sys_setup] of [linux-0.11/kernel/blk_drv/hd.c], which finds the drives
    and reads their partition tables, and [rd_load] of [ramdisk.c], which fills the ram disk from
    the root floppy.

    Both read blocks through the buffer cache and change variables of the drivers: the state is
    the file system's with the states of the two drivers and the variable [callable].  The
    parameters that the BIOS left are bytes of memory ([h_mem]). *)

From S2P Require Import Prelude BlkReq Hd Ramdisk FsDefs Buffer Inode.

Record sst := mk_sst { u_fs : fs; u_hd : hst; u_rd : rdst; callable : Z }.

#[export] Instance eta_sst : Eta sst := fun s => mk_sst (u_fs s) (u_hd s) (u_rd s) (callable s).

Definition in_fs {A} (m : M fs A) : M sst A := fun s => let '(r, x) := m (u_fs s) in (r, s <| u_fs := x |>).
Definition in_hd {A} (m : M hst A) : M sst A := fun s => let '(r, x) := m (u_hd s) in (r, s <| u_hd := x |>).
Definition in_rd {A} (m : M rdst A) : M sst A := fun s => let '(r, x) := m (u_rd s) in (r, s <| u_rd := x |>).

Section Setup.
Context `{FsEnv} `{HdEnv}.

(** ** The ram disk *)

Definition BLOCK_SIZE_BITS : Z := 10.

(** The loop of [rd_load] over [nblocks] blocks from [block] on, to [cp]; false when a block
    cannot be read. *)
Fixpoint load_blocks (nblocks : nat) (block cp : Z) : M sst bool :=
  match nblocks with
  | O => mret true
  | S n =>
      dev ← gets (fun s => ROOT_DEV (u_fs s));
      r ← in_fs (if 2 <? s32 (Z.of_nat nblocks) then breada dev block [block + 1; block + 2] else bread dev block);
      match r with
      | None => in_fs (printk "I/O error on block, aborting load");; mret false
      | Some bh =>
          b ← in_fs (get_bh bh);
          in_rd (modify (fun s => s <| rd_mem ::= store_mem cp (take (Z.to_nat BLOCK_SIZE) (b_data b)) |>));;
          in_fs (brelse (Some bh));;
          in_fs (printk "k");;
          load_blocks n (block + 1) (cp + BLOCK_SIZE)
      end
  end.

Definition rd_load : M sst unit :=
  s ← get;
  if rd_length (u_rd s) =? 0 then mret tt else
  in_fs (printk "Ram disk");;
  if negb (MAJOR (ROOT_DEV (u_fs s)) =? 2) then mret tt else
  r ← in_fs (breada (ROOT_DEV (u_fs s)) 257 [256; 258]);
  match r with
  | None => in_fs (printk "Disk error while looking for ramdisk!")
  | Some bh =>
      b ← in_fs (get_bh bh);
      in_fs (brelse (Some bh));;
      if negb (ld16 (b_data b) 8 =? SUPER_MAGIC) then mret tt else
      let nblocks := s32 (Z.shiftl (ld16 (b_data b) 1) (ld16 (b_data b) 5)) in
      if Z.shiftr (rd_length (u_rd s)) BLOCK_SIZE_BITS <? nblocks then in_fs (printk "Ram disk image too big!") else
      in_fs (printk "Loading bytes into ram disk...");;
      ok ← load_blocks (Z.to_nat (u32 nblocks)) 256 (rd_start (u_rd s));
      if (ok : bool) then
        in_fs (printk "done");;
        in_fs (modify (fun s => s <| ROOT_DEV := 0x0101 |>))
      else mret tt
  end.

(** ** The hard disks *)

Definition word_at (m : gmap Z Z) (a : Z) : Z := load_byte m a + 256 * load_byte m (a + 1).

(** The entry of the BIOS table at [bios]. *)
Definition bios_drive (m : gmap Z Z) (bios : Z) : hd_i_struct :=
  mk_hd_i (load_byte m (bios + 2)) (load_byte m (bios + 14)) (word_at m bios) (word_at m (bios + 5)) (word_at m (bios + 12)) (load_byte m (bios + 8)).

Definition set_hd (i : Z) (v : hd_struct) : M sst unit := in_hd (modify (fun s => s <| hd ::= <[Z.to_nat i := v]> |>)).

(** The whole of a drive. *)
Definition whole (d : hd_i_struct) : hd_struct := mk_hd 0 (s32 (hi_head d * hi_sect d * hi_cyl d)).

Definition CMOS_READ (addr : Z) : M hst Z := hd_outb (Z.lor 0x80 addr) 0x70;; hd_inb 0x71.

(** Partition [i], 1 to 4, of a partition table. *)
Definition partition (data : list Z) (i : Z) : hd_struct :=
  mk_hd (s32 (ld32 data (227 + 8 * (i - 1)))) (s32 (ld32 data (229 + 8 * (i - 1)))).

Definition read_table (drive : Z) : M sst unit :=
  r ← in_fs (bread (0x300 + drive * 5) 0);
  match r with
  | None => in_fs (printk "Unable to read partition table of drive");; panic ""
  | Some bh =>
      b ← in_fs (get_bh bh);
      if negb (nth 510 (b_data b) 0 =? 0x55) || negb (nth 511 (b_data b) 0 =? 0xAA) then
        in_fs (printk "Bad partition table on drive");; panic ""
      else
      for_each [1; 2; 3; 4] (fun i => set_hd (i + 5 * drive) (partition (b_data b) i));;
      in_fs (brelse (Some bh))
  end.

Definition sys_setup (BIOS : Z) : M sst Z :=
  s ← get;
  if negb (istrue (callable s)) then mret (-1) else
  modify (fun s => s <| callable := 0 |>);;
  let m := h_mem (u_hd s) in
  let info := [bios_drive m BIOS; bios_drive m (BIOS + 16)] in
  let nr := if istrue (hi_cyl (bios_drive m (BIOS + 16))) then 2 else 1 in
  in_hd (modify (fun s => s <| hd_info := info |> <| NR_HD := nr |>));;
  for_each (seqZ 0 nr) (fun i => set_hd (i * 5) (whole (nth (Z.to_nat i) info (mk_hd_i 0 0 0 0 0 0))));;
  cmos_disks ← in_hd (CMOS_READ 0x12);
  let nr := if istrue (Z.land cmos_disks 0xf0) then if istrue (Z.land cmos_disks 0x0f) then 2 else 1 else 0 in
  in_hd (modify (fun s => s <| NR_HD := nr |>));;
  for_each (seqZ nr (2 - nr)) (fun i => set_hd (i * 5) (mk_hd 0 0));;
  for_each (seqZ 0 nr) read_table;;
  when (istrue nr) (in_fs (printk "Partition table ok."));;
  rd_load;;
  in_fs mount_root;;
  mret 0.
End Setup.
