(* ===== verification/FsLemmas.v ===== *)
(** Running the file system's routines symbolically: what an access to a table entry does
    when the entry is there, and how copying between the kernel and the user's memory
    changes that memory. *)

From S2P Require Import Prelude FsDefs.

Create Rewrite HintDb fstep.
#[export] Hint Rewrite @bind_assoc @bind_ret @bind_get @bind_gets @bind_modify : fstep.

(** ** Table entries *)

Lemma get_inode_run i v s : 0 <= i -> inode_table s !! Z.to_nat i = Some v -> get_inode i s = (Ret v, s).
Proof.
  intros Hi Hv. unfold get_inode. rewrite bind_get.
  destruct (Z.ltb_spec i 0); [lia|]. by rewrite Hv.
Qed.

Lemma upd_inode_run i v f s :
  0 <= i -> inode_table s !! Z.to_nat i = Some v ->
  upd_inode i f s = (Ret tt, s <| inode_table ::= <[Z.to_nat i := f v]> |>).
Proof. intros Hi Hv. unfold upd_inode. by mrun (get_inode_run i v s Hi Hv). Qed.

Lemma get_file_run i v s : 0 <= i -> file_table s !! Z.to_nat i = Some v -> get_file i s = (Ret v, s).
Proof.
  intros Hi Hv. unfold get_file. rewrite bind_get.
  destruct (Z.ltb_spec i 0); [lia|]. by rewrite Hv.
Qed.

Lemma upd_file_run i v f s :
  0 <= i -> file_table s !! Z.to_nat i = Some v ->
  upd_file i f s = (Ret tt, s <| file_table ::= <[Z.to_nat i := f v]> |>).
Proof. intros Hi Hv. unfold upd_file. by mrun (get_file_run i v s Hi Hv). Qed.

Lemma get_bh_run b v s : bufs s !! b = Some v -> get_bh b s = (Ret v, s).
Proof. intros Hv. unfold get_bh. rewrite bind_get. by rewrite Hv. Qed.

Lemma upd_bh_run b v f s :
  bufs s !! b = Some v -> upd_bh b f s = (Ret tt, s <| bufs ::= <[b := f v]> |>).
Proof. intros Hv. unfold upd_bh. by mrun (get_bh_run b v s Hv). Qed.

Lemma get_sb_run i v s : 0 <= i -> supers s !! Z.to_nat i = Some v -> get_sb i s = (Ret v, s).
Proof.
  intros Hi Hv. unfold get_sb. rewrite bind_get.
  destruct (Z.ltb_spec i 0); [lia|]. by rewrite Hv.
Qed.

(** ** User memory *)

(** The bytes at an address. *)
Definition user_bytes (m : gmap Z Z) (addr n : Z) : list Z :=
  (fun k => default 0 (m !! (addr + k))) <$> seqZ 0 n.

(** Memory after storing bytes at an address. *)
Fixpoint store_bytes (l : list Z) (addr : Z) (m : gmap Z Z) : gmap Z Z :=
  match l with [] => m | b :: l => store_bytes l (addr + 1) (<[addr := u8 b]> m) end.

Lemma length_user_bytes m addr n : 0 <= n -> Z.of_nat (length (user_bytes m addr n)) = n.
Proof. intros. unfold user_bytes. rewrite length_fmap, length_seqZ. lia. Qed.

Lemma user_bytes_app m addr a b :
  0 <= a -> 0 <= b -> user_bytes m addr (a + b) = user_bytes m addr a ++ user_bytes m (addr + a) b.
Proof.
  intros Ha Hb. unfold user_bytes. rewrite seqZ_app by done. rewrite fmap_app. f_equal.
  replace (0 + a) with (a + 0) by lia. rewrite <- (fmap_add_seqZ a 0 b), <- list_fmap_compose. apply list_fmap_ext. intros i x _. unfold compose.
  do 2 f_equal. lia.
Qed.

Lemma store_bytes_frame l addr m x :
  ~ (addr <= x < addr + Z.of_nat (length l)) -> store_bytes l addr m !! x = m !! x.
Proof.
  revert addr m. induction l as [|b l IH]; intros addr m Hx; [done|].
  cbn [store_bytes length] in *. rewrite IH by lia. apply lookup_insert_ne. lia.
Qed.

Lemma store_bytes_app l l' addr m :
  store_bytes (l ++ l') addr m = store_bytes l' (addr + Z.of_nat (length l)) (store_bytes l addr m).
Proof.
  revert addr m. induction l as [|b l IH]; intros addr m.
  - cbn. by rewrite Z.add_0_r.
  - cbn [app store_bytes length]. rewrite IH. f_equal. lia.
Qed.

Lemma store_bytes_read l addr m :
  Forall (fun b => 0 <= b < 256) l -> user_bytes (store_bytes l addr m) addr (Z.of_nat (length l)) = l.
Proof.
  revert addr m. induction l as [|b l IH]; intros addr m Hl; [done|].
  apply Forall_cons in Hl as [Hb Hl].
  replace (Z.of_nat (length (b :: l))) with (1 + Z.of_nat (length l)) by (cbn [length]; lia).
  rewrite user_bytes_app by lia. cbn [store_bytes]. rewrite IH by done.
  unfold user_bytes. change (seqZ 0 1) with [0]. cbn [fmap list_fmap app].
  rewrite Z.add_0_r, store_bytes_frame by lia.
  rewrite lookup_insert_eq. cbn. by rewrite u8_small.
Qed.

Lemma put_fs_bytes_run l addr s :
  put_fs_bytes l addr s = (Ret tt, s <| umem ::= store_bytes l addr |>).
Proof.
  revert addr s. induction l as [|b l IH]; intros addr s.
  - by destruct s.
  - cbn [put_fs_bytes]. unfold put_fs_byte. rewrite bind_modify, IH. by destruct s.
Qed.

Lemma get_fs_bytes_run n addr s :
  get_fs_bytes n addr s = (Ret (user_bytes (umem s) addr (Z.of_nat n)), s).
Proof.
  revert addr. induction n as [|n IH]; intros addr; [done|].
  cbn [get_fs_bytes]. unfold get_fs_byte. rewrite bind_gets.
  mrun (IH (addr + 1)). unfold mret, M_ret. do 2 f_equal.
  replace (Z.of_nat (S n)) with (1 + Z.of_nat n) by lia. rewrite user_bytes_app by lia.
  unfold user_bytes at 2. change (seqZ 0 1) with [0]. cbn. by rewrite Z.add_0_r.
Qed.

(** ** A quiet system

    An environment in which nothing happens while a task sleeps, every block is read at once
    from the disk of the state, and there are no devices; concrete runs use it. *)

Definition quiet_rw (rw bh : Z) : M fs unit :=
  b ← get_bh bh;
  s ← get;
  let key := (b_dev b, b_blocknr b) in
  if rw =? READ then
    upd_bh bh (fun b => b <| b_data := default (replicate 1024 0) (disk s !! key) |> <| b_uptodate := 1 |>)
  else
    modify (fun s => s <| disk ::= <[key := b_data b]> |>);;
    upd_bh bh (fun b => b <| b_dirt := 0 |>).

Definition quiet : FsEnv := {|
  env := fun s => s; fuel := 100; ll_rw_block := quiet_rw; floppy_change := fun _ => mret 0;
  get_free_page := mret 0; free_page := fun _ => mret tt; verify_area := fun _ _ => mret tt;
  tty_read := fun _ _ _ => mret 0; tty_write := fun _ _ _ => mret 0; tty_ioctl := fun _ _ _ => mret 0;
  set_tty_pgrp := fun _ _ => mret tt; stat_pad := []; inb := fun _ => mret 0; outb := fun _ _ => mret tt
|}.

Definition demo_proc : proc := mk_proc 0 0 0 0 18 0 0 (-1) 0 None None 0 (replicate 20 None).

Definition empty_fs : fs :=
  mk_fs ∅ ∅ 0 (replicate 307 None) None None (replicate 32 zero_inode) 0 [] 769 (replicate 64 (mk_file 0 0 0 None 0))
    demo_proc 0 ∅ ∅ ∅ [] [].
