(* ===== verification/PipeSpec.v ===== *)
(** Pipes are queues of bytes: [write_pipe] appends, [read_pipe] takes from the front, and
    neither waits when the bytes or the room are there or the other end is closed. *)

From S2P Require Import Prelude FsDefs FsLemmas Buffer Bitmap Inode Pipe.

(** ** The ring *)

(** The [n] bytes of a page from [tail] on, around its end. *)
Definition ring (page : list Z) (tail n : Z) : list Z :=
  (fun k => nth (Z.to_nat ((tail + k) mod 4096)) page 0) <$> seqZ 0 n.

Lemma length_ring page tail n : 0 <= n -> Z.of_nat (length (ring page tail n)) = n.
Proof. intros. unfold ring. rewrite length_fmap, length_seqZ. lia. Qed.

Lemma ring_app page tail a b :
  0 <= a -> 0 <= b -> ring page tail (a + b) = ring page tail a ++ ring page ((tail + a) mod 4096) b.
Proof.
  intros Ha Hb. unfold ring. rewrite seqZ_app by done. rewrite fmap_app. f_equal.
  replace (0 + a) with (a + 0) by lia.
  rewrite <- (fmap_add_seqZ a 0 b), <- list_fmap_compose. apply list_fmap_ext. intros i x _. unfold compose.
  rewrite Zplus_mod_idemp_l. do 3 f_equal. lia.
Qed.

Lemma ring_ext page page' tail n :
  (forall k, 0 <= k < n -> nth (Z.to_nat ((tail + k) mod 4096)) page 0 = nth (Z.to_nat ((tail + k) mod 4096)) page' 0) ->
  ring page tail n = ring page' tail n.
Proof.
  intros Hk. unfold ring. apply list_fmap_ext. intros i x Hx. apply Hk.
  apply lookup_seqZ in Hx. lia.
Qed.

(** A part that does not go around the end. *)
Lemma ring_straight page tail n :
  Z.of_nat (length page) = 4096 -> 0 <= tail -> 0 <= n -> tail + n <= 4096 ->
  ring page tail n = take (Z.to_nat n) (drop (Z.to_nat tail) page).
Proof.
  intros Hp Ht Hn Hle. apply list_eq. intros i. unfold ring. rewrite list_lookup_fmap.
  destruct (decide (Z.of_nat i < n)).
  - rewrite lookup_seqZ_lt by lia. cbn. rewrite Z.mod_small by lia.
    rewrite lookup_take_lt, lookup_drop by lia.
    replace (Z.to_nat (tail + (0 + Z.of_nat i))) with (Z.to_nat tail + i)%nat by lia.
    destruct (page !! (Z.to_nat tail + i)%nat) eqn:E; [by rewrite (nth_lookup_Some _ _ _ _ E)|].
    apply lookup_ge_None in E. lia.
  - rewrite lookup_seqZ_ge by lia. symmetry. apply lookup_ge_None. rewrite length_take, length_drop. lia.
Qed.

Lemma nth_inserts_outside off l page k :
  ~ (off <= k < off + length l)%nat -> nth k (list_inserts off l page) 0 = nth k page 0.
Proof.
  intros Hk. rewrite !nth_lookup. f_equal.
  destruct (decide (k < off)%nat); [by apply list_lookup_inserts_lt|apply list_lookup_inserts_ge; lia].
Qed.

(** Writing bytes that do not reach the window leaves it alone. *)
Lemma ring_inserts_old page tail n off l :
  0 <= tail < 4096 -> 0 <= n -> off = (tail + n) mod 4096 -> n + Z.of_nat (length l) <= 4096 ->
  ring (list_inserts (Z.to_nat off) l page) tail n = ring page tail n.
Proof.
  intros Ht Hn -> Hl. apply ring_ext. intros k Hk. apply nth_inserts_outside.
  pose proof (Z.mod_pos_bound (tail + n) 4096 ltac:(lia)).
  pose proof (Z.mod_pos_bound (tail + k) 4096 ltac:(lia)).
  intros Hin.
  pose proof (Z.div_mod (tail + n) 4096 ltac:(lia)). pose proof (Z.div_mod (tail + k) 4096 ltac:(lia)).
  lia.
Qed.

Lemma ring_inserts_new page off l :
  Z.of_nat (length page) = 4096 -> 0 <= off -> off + Z.of_nat (length l) <= 4096 ->
  ring (list_inserts (Z.to_nat off) l page) off (Z.of_nat (length l)) = l.
Proof.
  intros Hp Ho Hl. rewrite ring_straight by (rewrite ?length_inserts; lia).
  apply list_eq. intros i. destruct (decide (i < length l)%nat).
  - rewrite lookup_take_lt, lookup_drop by lia. rewrite list_lookup_inserts by lia.
    f_equal. lia.
  - rewrite lookup_take_ge by lia. symmetry. apply lookup_ge_None. lia.
Qed.

Lemma pipe_size_mod v : PIPE_SIZE v = (PIPE_HEAD v - PIPE_TAIL v) mod 4096.
Proof. unfold PIPE_SIZE. change (PAGE_SIZE - 1) with (2 ^ 12 - 1). by rewrite land_mask_mod. Qed.

Lemma ring_size head tail n :
  0 <= tail -> 0 <= n < 4096 -> head = (tail + n) mod 4096 -> (head - tail) mod 4096 = n.
Proof.
  intros Ht Hn ->. rewrite Zminus_mod_idemp_l. replace (tail + n - tail) with n by lia.
  by apply Z.mod_small.
Qed.

(** ** The pipe as a queue *)

Lemma zone_set_zone k x v : (Z.to_nat k < length (i_zone v))%nat -> zone (set_zone k x v) k = u16 x.
Proof.
  intros Hk. unfold zone, set_zone, upd. cbn. rewrite nth_lookup, list_lookup_insert_eq by done. done.
Qed.

Lemma zone_set_zone_ne k j x v : Z.to_nat k <> Z.to_nat j -> zone (set_zone k x v) j = zone v j.
Proof. intros Hk. unfold zone, set_zone, upd. cbn. by rewrite !nth_lookup, list_lookup_insert_ne. Qed.

Lemma length_set_zone k x v : length (i_zone (set_zone k x v)) = length (i_zone v).
Proof. unfold set_zone, upd. cbn. apply length_insert. Qed.

(** The inode [i] is a pipe with page [p], [c] open ends and the bytes [q] in it. *)
Record pipe_at (s : fs) (i p c : Z) (q : list Z) : Prop := {
  pa_inode : exists v, inode_table s !! Z.to_nat i = Some v /\ i_size v = p /\ i_count v = c /\
    (2 <= length (i_zone v))%nat /\ 0 <= PIPE_TAIL v < 4096 /\
    PIPE_HEAD v = (PIPE_TAIL v + Z.of_nat (length q)) mod 4096 /\
    exists page, pages s !! p = Some page /\ Z.of_nat (length page) = 4096 /\
      q = ring page (PIPE_TAIL v) (Z.of_nat (length q));
  pa_index : 0 <= i;
  pa_size : Z.of_nat (length q) < 4096;
  pa_bytes : Forall (fun b => 0 <= b < 256) q
}.

(** What an operation on the pipe leaves alone. *)
Definition outside (i p : Z) (s s' : fs) : Prop :=
  s' = s <| inode_table := inode_table s' |> <| pages := pages s' |> <| umem := umem s' |>
         <| current := current s' |> <| fs_woken := fs_woken s' |> /\
  (forall j, j <> Z.to_nat i -> inode_table s' !! j = inode_table s !! j) /\
  (forall x, x <> p -> pages s' !! x = pages s !! x).

Lemma outside_refl i p s : outside i p s s.
Proof. split; [by destruct s|done]. Qed.

Lemma outside_trans i p s s1 s2 : outside i p s s1 -> outside i p s1 s2 -> outside i p s s2.
Proof.
  intros (E & I & P) (E' & I' & P'). split; [rewrite E', E; by destruct s|]. split.
  - intros j Hj. by rewrite I', I.
  - intros x Hx. by rewrite P', P.
Qed.

(** Bytes of the user's memory are bytes. *)
Definition umem_ok (m : gmap Z Z) : Prop := map_Forall (fun _ b => 0 <= b < 256) m.

Lemma user_bytes_ok m addr n : umem_ok m -> Forall (fun b => 0 <= b < 256) (user_bytes m addr n).
Proof.
  intros Hm. apply Forall_fmap, Forall_forall. intros k _. cbn.
  destruct (m !! (addr + k)) as [b|] eqn:E; cbn; [exact (Hm _ _ E)|lia].
Qed.

Section Steps.
Context `{FsEnv}.

(** Moving the end [k] of the ring (head 0, tail 1) by [c] bytes, in two assignments. *)
Definition advance (k c : Z) (v : m_inode) : m_inode :=
  let v1 := set_zone k (zone v k + c) v in set_zone k (Z.land (zone v1 k) (PAGE_SIZE - 1)) v1.

Lemma zone_advance k c v :
  (Z.to_nat k < length (i_zone v))%nat -> 0 <= zone v k + c <= 4096 ->
  zone (advance k c v) k = (zone v k + c) mod 4096.
Proof.
  intros Hk Hc. unfold advance. rewrite !zone_set_zone by (rewrite ?length_set_zone; done).
  rewrite (u16_small (zone v k + c)) by lia. change (PAGE_SIZE - 1) with (2 ^ 12 - 1).
  rewrite land_mask_mod by lia. change (2 ^ 12) with 4096. apply u16_small.
  pose proof (Z.mod_pos_bound (zone v k + c) 4096 ltac:(lia)). lia.
Qed.

Lemma zone_advance_ne k j c v : Z.to_nat k <> Z.to_nat j -> zone (advance k c v) j = zone v j.
Proof. intros Hk. unfold advance. by rewrite !zone_set_zone_ne. Qed.

Lemma length_advance k c v : length (i_zone (advance k c v)) = length (i_zone v).
Proof. unfold advance. by rewrite !length_set_zone. Qed.

Lemma advance_run {A} i k c v s (rest : m_inode -> M fs A) :
  0 <= i -> inode_table s !! Z.to_nat i = Some v ->
  (upd_inode i (set_zone k (zone v k + c));;
   v1 ← get_inode i; upd_inode i (set_zone k (Z.land (zone v1 k) (PAGE_SIZE - 1)));; rest v1) s =
  rest (set_zone k (zone v k + c) v) (s <| inode_table ::= <[Z.to_nat i := advance k c v]> |>).
Proof.
  intros Hi Hv. mrun (upd_inode_run i v (set_zone k (zone v k + c)) s Hi Hv).
  set (s1 := s <| inode_table ::= _ |>). set (v1 := set_zone k (zone v k + c) v).
  assert (inode_table s1 !! Z.to_nat i = Some v1) as Hv1
    by (apply list_lookup_insert_eq; by apply lookup_lt_Some in Hv).
  mrun (get_inode_run i v1 s1 Hi Hv1).
  mrun (upd_inode_run i v1 (set_zone k (Z.land (zone v1 k) (PAGE_SIZE - 1))) s1 Hi Hv1).
  f_equal. unfold s1, upd. destruct s. cbn. by rewrite list_insert_insert_eq.
Qed.

Lemma write_some_ok s i p c q buf count :
  pipe_at s i p c q -> umem_ok (umem s) -> 0 < count -> Z.of_nat (length q) < 4095 ->
  exists chars s', write_some i buf count (4095 - Z.of_nat (length q)) s = (Ret chars, s') /\
    0 < chars <= count /\ Z.of_nat (length q) + chars <= 4095 /\
    pipe_at s' i p c (q ++ user_bytes (umem s) buf chars) /\
    umem s' = umem s /\ current s' = current s /\ outside i p s s'.
Proof.
  intros [(v & Hv & Hp & Hc & Hz & Ht & Hh & page & Hpg & Hlen & Hq) Hi Hs Hb] Hm Hcount Hroom.
  set (h := PIPE_HEAD v) in *. assert (0 <= h < 4096) as Hh' by (rewrite Hh; apply Z.mod_pos_bound; lia).
  set (chars := Z.min (Z.min (4096 - h) count) (4095 - Z.of_nat (length q))).
  assert (0 < chars <= count) as Hch by (unfold chars; lia).
  set (w := user_bytes (umem s) buf chars).
  assert (Z.of_nat (length w) = chars) as Hw by (apply length_user_bytes; lia).
  eexists chars, _. split; [|split; [done|split; [unfold chars; lia|]]].
  - unfold write_some. mrun (get_inode_run i v s Hi Hv).
    rewrite (advance_run i 0 chars v s _ Hi Hv).
    rewrite (bind_Ret _ _ _ _ _ (get_fs_bytes_run _ _ _)). reflexivity.
  - change (Z.min (Z.min (PAGE_SIZE - PIPE_HEAD v) count) (4095 - Z.of_nat (length q))) with chars.
    rewrite (Z2Nat.id chars) by lia. fold w. change (PIPE_HEAD v) with h.
    split; [|split; [done|split; [done|]]].
    + split; [|done|rewrite length_app; lia|apply Forall_app; split; [done|by apply user_bytes_ok]].
      exists (advance 0 chars v). split; [cbn; apply list_lookup_insert_eq; by apply lookup_lt_Some in Hv|].
      split; [done|]. split; [done|]. split; [by rewrite length_advance|].
      unfold PIPE_TAIL, PIPE_HEAD. rewrite (zone_advance_ne 0 1) by done.
      rewrite zone_advance by (fold (PIPE_HEAD v); fold h; unfold chars; lia).
      fold (PIPE_TAIL v) (PIPE_HEAD v). split; [done|]. rewrite length_app, Nat2Z.inj_add, Hw. fold h.
      split; [rewrite Hh, Zplus_mod_idemp_l; f_equal; lia|].
      exists (list_inserts (Z.to_nat h) w page). cbn. rewrite Hp, Hpg. cbn.
      split; [by rewrite lookup_insert_eq|]. split; [by rewrite length_inserts|].
      rewrite ring_app by lia. rewrite <- Hh. rewrite ring_inserts_old by (try done; unfold chars in *; lia).
      rewrite <- Hq. f_equal. rewrite <- Hw. rewrite ring_inserts_new; [done|done|lia|unfold chars in *; lia].
    + split; [by destruct s|]. split; cbn; intros x Hx.
      * by rewrite list_lookup_insert_ne.
      * rewrite Hp, lookup_insert_ne; done.
Qed.

Lemma read_some_ok s i p c q buf count :
  pipe_at s i p c q -> 0 < count -> 0 < Z.of_nat (length q) ->
  exists chars s', read_some i buf count (Z.of_nat (length q)) s = (Ret chars, s') /\
    0 < chars <= count /\ chars <= Z.of_nat (length q) /\
    pipe_at s' i p c (drop (Z.to_nat chars) q) /\
    umem s' = store_bytes (take (Z.to_nat chars) q) buf (umem s) /\
    current s' = current s /\ outside i p s s'.
Proof.
  intros [(v & Hv & Hp & Hc & Hz & Ht & Hh & page & Hpg & Hlen & Hq) Hi Hs Hb] Hcount Hsome.
  set (t := PIPE_TAIL v) in *.
  set (chars := Z.min (Z.min (4096 - t) count) (Z.of_nat (length q))).
  assert (0 < chars <= count /\ chars <= Z.of_nat (length q)) as [Hch Hcq] by (unfold chars; lia).
  assert (q = take (Z.to_nat chars) (drop (Z.to_nat t) page) ++
              ring page ((t + chars) mod 4096) (Z.of_nat (length q) - chars)) as Hsplit.
  { rewrite Hq at 1. replace (Z.of_nat (length q)) with (chars + (Z.of_nat (length q) - chars)) at 1 by lia.
    rewrite ring_app, ring_straight by (unfold chars in *; lia). done. }
  set (w := take (Z.to_nat chars) (drop (Z.to_nat t) page)) in *.
  assert (length w = Z.to_nat chars) as Hw by (unfold w; rewrite length_take, length_drop; unfold chars in *; lia).
  assert (take (Z.to_nat chars) q = w) as Htake by (rewrite Hsplit, <- Hw; apply take_app_length).
  assert (drop (Z.to_nat chars) q = ring page ((t + chars) mod 4096) (Z.of_nat (length q) - chars)) as Hdrop
    by (rewrite Hsplit at 1; rewrite <- Hw; apply drop_app_length).
  eexists chars, _. split; [|split; [done|split; [done|]]].
  - unfold read_some. mrun (get_inode_run i v s Hi Hv).
    rewrite (advance_run i 1 chars v s _ Hi Hv).
    unfold page_bytes. rewrite bind_gets, (bind_Ret _ _ _ _ _ (put_fs_bytes_run _ _ _)). reflexivity.
  - cbn. rewrite Hp, Hpg. cbn. fold t. fold chars. change (PAGE_SIZE - t) with (4096 - t). fold chars. fold w.
    rewrite Htake. split; [|split; [done|split; [done|]]].
    + split; [|done|rewrite length_drop; lia|by apply Forall_drop].
      exists (advance 1 chars v). split; [cbn; apply list_lookup_insert_eq; by apply lookup_lt_Some in Hv|].
      split; [done|]. split; [done|]. split; [by rewrite length_advance|].
      unfold PIPE_TAIL, PIPE_HEAD. rewrite (zone_advance_ne 1 0) by done.
      rewrite zone_advance by (fold (PIPE_TAIL v); fold t; unfold chars in *; lia).
      fold (PIPE_TAIL v) (PIPE_HEAD v). fold t. split; [apply Z.mod_pos_bound; lia|].
      rewrite length_drop, Nat2Z.inj_sub, Z2Nat.id by lia.
      split; [rewrite Hh, Zplus_mod_idemp_l; f_equal; lia|]. exists page. done.
    + split; [by destruct s|]. split; cbn; intros x Hx; [by rewrite list_lookup_insert_ne|done].
Qed.

(** Waking the sleepers changes nothing that a pipe is made of. *)
Lemma pipe_at_woken s i p c q f : pipe_at s i p c q -> pipe_at (s <| fs_woken ::= f |>) i p c q.
Proof. intros [Hv Hi Hs Hb]. split; [exact Hv|done..]. Qed.

Lemma outside_woken i p s s' f : outside i p s s' -> outside i p s (s' <| fs_woken ::= f |>).
Proof. intros (E & I & P). split; [rewrite E; by destruct s|done]. Qed.

Lemma pipe_at_size s i p c q v : pipe_at s i p c q -> inode_table s !! Z.to_nat i = Some v ->
  PIPE_SIZE v = Z.of_nat (length q) /\ i_count v = c.
Proof.
  intros [(v' & Hv & _ & Hc & _ & Ht & Hh & _) _ Hs _] Hv'. rewrite Hv' in Hv. injection Hv as <-.
  split; [|done]. rewrite pipe_size_mod. apply ring_size; [lia|lia|done].
Qed.

Lemma wait_data_ok n s i p c q :
  pipe_at s i p c q ->
  (q <> [] -> wait_data (S n) i s = (Ret (Some (Z.of_nat (length q))), s)) /\
  (q = [] -> c <> 2 -> wait_data (S n) i s = (Ret None, s <| fs_woken ::= cons (QInode i) |>)).
Proof.
  intros HP. pose proof HP as [(v & Hv & _) Hi _ _]. destruct (pipe_at_size _ _ _ _ _ v HP Hv) as [Hsz Hc].
  cbn [wait_data]. rewrite (bind_Ret _ _ _ _ _ (get_inode_run i v s Hi Hv)), Hsz, Hc. split.
  - intros Hq. destruct q; [done|]. cbn [length].
    destruct (Z.eqb_spec (Z.of_nat (S (length q))) 0); [lia|done].
  - intros Hq Hc2. rewrite (proj2 (Z.eqb_eq _ 0)) by (rewrite Hq; done). cbn [negb].
    apply Z.eqb_neq in Hc2. unfold wake_up. by rewrite bind_modify, Hc2.
Qed.

Lemma wait_room_ok n s i p c q :
  pipe_at s i p c q ->
  (Z.of_nat (length q) < 4095 -> wait_room (S n) i s = (Ret (Some (4095 - Z.of_nat (length q))), s)) /\
  (Z.of_nat (length q) = 4095 -> c <> 2 -> wait_room (S n) i s = (Ret None, s <| fs_woken ::= cons (QInode i) |>)).
Proof.
  intros HP. pose proof HP as [(v & Hv & _) Hi _ _]. destruct (pipe_at_size _ _ _ _ _ v HP Hv) as [Hsz Hc].
  cbn [wait_room]. rewrite (bind_Ret _ _ _ _ _ (get_inode_run i v s Hi Hv)), Hsz, Hc.
  change (PAGE_SIZE - 1) with 4095. split.
  - intros Hq. destruct (Z.eqb_spec (4095 - Z.of_nat (length q)) 0); [lia|done].
  - intros Hq Hc2. rewrite (proj2 (Z.eqb_eq _ 0)) by (rewrite Hq; done). cbn [negb].
    apply Z.eqb_neq in Hc2. unfold wake_up. by rewrite bind_modify, Hc2.
Qed.

(** ** The loops *)

Lemma read_loop_ok n s i p c q buf count read :
  fuel <> O -> pipe_at s i p c q -> 0 <= count -> (Z.to_nat count <= n)%nat ->
  count <= Z.of_nat (length q) \/ c <> 2 ->
  let k := Z.min count (Z.of_nat (length q)) in
  exists s', read_loop n i buf count read s = (Ret (read + k), s') /\
    pipe_at s' i p c (drop (Z.to_nat k) q) /\ umem s' = store_bytes (take (Z.to_nat k) q) buf (umem s) /\
    current s' = current s /\ outside i p s s'.
Proof.
  intros Hfuel. revert s q buf count read. induction n as [|n IH]; intros s q buf count read HP Hc0 Hn Henough;
    cbn [read_loop]; destruct (Z.leb_spec count 0) as [Hle|Hgt]; try lia.
  1, 2: unfold wake_up; rewrite bind_modify; replace (Z.min count _) with 0 by lia; rewrite Z.add_0_r; cbn;
    eexists; split; [reflexivity|]; split; [by apply pipe_at_woken|]; split; [done|split; [done|]];
    apply outside_woken, outside_refl.
  destruct fuel as [|fu]; [done|]. destruct (wait_data_ok fu s i p c q HP) as [Hsome Hnone].
  destruct (decide (q = [])) as [->|Hq].
  - cbn in *. destruct Henough as [|Hc2]; [lia|].
    rewrite (bind_Ret _ _ _ _ _ (Hnone eq_refl Hc2)). rewrite Z.min_r, Z.add_0_r by lia. cbn.
    eexists. split; [reflexivity|]. split; [by apply pipe_at_woken|]. split; [done|split; [done|]].
    apply outside_woken, outside_refl.
  - rewrite (bind_Ret _ _ _ _ _ (Hsome Hq)).
    destruct (read_some_ok s i p c q buf count HP Hgt) as (m & s1 & E & Hm & Hmq & HP1 & Hu1 & Hcur1 & Ho1);
      [destruct q; [done|cbn; lia]|].
    rewrite (bind_Ret _ _ _ _ _ E).
    destruct (IH s1 (drop (Z.to_nat m) q) (buf + m) (count - m) (read + m) HP1) as (s2 & E2 & HP2 & Hu2 & Hcur2 & Ho2);
      [lia|lia|rewrite length_drop; lia|].
    rewrite length_drop in *. exists s2. rewrite E2.
    replace (Z.min (count - m) (Z.of_nat (length q - Z.to_nat m)))
      with (Z.min count (Z.of_nat (length q)) - m) in * by lia.
    split; [do 2 f_equal; lia|]. set (k := Z.min count (Z.of_nat (length q))) in *.
    replace (Z.to_nat k) with (Z.to_nat m + Z.to_nat (k - m))%nat by lia.
    split; [by rewrite <- drop_drop|]. rewrite <- take_take_drop, store_bytes_app, length_take, <- Hu1.
    replace (buf + Z.of_nat (Z.to_nat m `min` length q)) with (buf + m) by lia.
    split; [done|]. split; [congruence|by eapply outside_trans].
Qed.

(** The current task gets SIGPIPE. *)
Definition sigpipe (c : proc) : proc := c <| p_signal ::= fun x => Z.lor x (Z.shiftl 1 (SIGPIPE - 1)) |>.

Lemma pipe_at_current s i p c q f : pipe_at s i p c q -> pipe_at (s <| current ::= f |>) i p c q.
Proof. intros [Hv Hi Hs Hb]. split; [exact Hv|done..]. Qed.

Lemma outside_current i p s s' f : outside i p s s' -> outside i p s (s' <| current ::= f |>).
Proof. intros (E & I & P). split; [rewrite E; by destruct s|done]. Qed.

Lemma write_loop_ok n s i p c q buf count written :
  fuel <> O -> pipe_at s i p c q -> umem_ok (umem s) -> 0 <= count -> 0 <= written -> (Z.to_nat count <= n)%nat ->
  let k := Z.min count (4095 - Z.of_nat (length q)) in
  k = count \/ c <> 2 ->
  exists s', write_loop n i buf count written s =
      (Ret (if decide (k = count) then written + k else if written + k =? 0 then -1 else written + k), s') /\
    pipe_at s' i p c (q ++ user_bytes (umem s) buf k) /\ umem s' = umem s /\
    current s' = (if decide (k = count) then current s else sigpipe (current s)) /\ outside i p s s'.
Proof.
  intros Hfuel. revert s q buf count written.
  induction n as [|n IH]; intros s q buf count written HP Hm Hc0 Hw0 Hn k Henough; cbn [write_loop];
    pose proof (pa_size _ _ _ _ _ HP) as Hlt; destruct (Z.leb_spec count 0) as [Hle|Hgt]; try lia.
  1, 2: unfold wake_up; rewrite bind_modify; replace k with 0 by (unfold k; lia); rewrite !decide_True by lia;
    rewrite app_nil_r; rewrite Z.add_0_r;
    eexists; split; [reflexivity|]; split; [by apply pipe_at_woken|]; split; [done|split; [done|]];
    apply outside_woken, outside_refl.
  destruct fuel as [|fu]; [done|]. destruct (wait_room_ok fu s i p c q HP) as [Hsome Hnone].
  destruct (decide (Z.of_nat (length q) = 4095)) as [Hq|Hq].
  - destruct Henough as [|Hc2]; [lia|].
    rewrite (bind_Ret _ _ _ _ _ (Hnone Hq Hc2)). unfold k. rewrite Z.min_r by lia.
    rewrite !decide_False by lia. rewrite Hq. change (4095 - 4095) with 0. rewrite Z.add_0_r, app_nil_r.
    unfold upd_current. rewrite bind_modify. unfold istrue.
    eexists. split; [by destruct (written =? 0)|]. split; [by apply pipe_at_current, pipe_at_woken|].
    split; [done|]. split; [done|]. apply outside_current, outside_woken, outside_refl.
  - rewrite (bind_Ret _ _ _ _ _ (Hsome ltac:(lia))).
    destruct (write_some_ok s i p c q buf count HP Hm Hgt) as (m & s1 & E & Hmc & Hmq & HP1 & Hu1 & Hcur1 & Ho1);
      [lia|].
    rewrite (bind_Ret _ _ _ _ _ E).
    pose proof (length_user_bytes (umem s) buf m ltac:(lia)) as Hlen.
    destruct (IH s1 _ (buf + m) (count - m) (written + m) HP1) as (s2 & E2 & HP2 & Hu2 & Hcur2 & Ho2);
      [by rewrite Hu1|lia|lia|lia|rewrite length_app; lia|].
    rewrite length_app in *. exists s2. rewrite E2.
    replace (Z.min (count - m) _) with (k - m) in * by (unfold k in *; lia).
    replace (written + m + (k - m)) with (written + k) by lia.
    rewrite (decide_ext (k - m = count - m) (k = count)) by lia.
    rewrite (decide_ext (k - m = count - m) (k = count)) in Hcur2 by lia.
    split; [done|]. rewrite Hu1 in *. rewrite <- app_assoc, <- user_bytes_app in HP2 by (unfold k; lia).
    replace (m + (k - m)) with k in HP2 by lia. rewrite Hcur1 in Hcur2.
    split; [done|]. split; [congruence|split; [done|by eapply outside_trans]].
Qed.
End Steps.

(** ** Properties *)

(** C16: [write_pipe] appends to the queue: with room for all the bytes, or no reader, it
    returns without waiting; the bytes at [buf], as many as there is room for, are behind
    those that were in the pipe, in order.  A writer that finds no room and no reader gets
    SIGPIPE and the number of bytes written, or -1 if there were none.  The pipe never holds
    more than 4095 bytes, and nothing but the pipe changes. *)
Theorem write_pipe_ok `{FsEnv} s i p c q buf count :
  fuel <> O -> pipe_at s i p c q -> umem_ok (umem s) -> 0 <= count ->
  let k := Z.min count (4095 - Z.of_nat (length q)) in
  k = count \/ c <> 2 ->
  exists s', write_pipe i buf count s =
      (Ret (if decide (k = count) then count else if k =? 0 then -1 else k), s') /\
    pipe_at s' i p c (q ++ user_bytes (umem s) buf k) /\ umem s' = umem s /\
    current s' = (if decide (k = count) then current s else sigpipe (current s)) /\ outside i p s s'.
Proof.
  intros Hf HP Hm Hc k Hk. unfold write_pipe.
  destruct (write_loop_ok (Z.to_nat count) s i p c q buf count 0 Hf HP Hm Hc ltac:(lia) ltac:(lia) Hk)
    as (s' & E & Hrest).
  exists s'. split; [|exact Hrest]. rewrite E. fold k. rewrite !Z.add_0_l.
  destruct (decide (k = count)) as [Ek|]; [by rewrite Ek|done].
Qed.

(** C17: [read_pipe] takes from the front of the queue: with enough bytes in the pipe, or no
    writer, it returns without waiting the number of bytes it got, which are the first ones
    of the queue, in order, at [buf]; they are no longer in the pipe.  A reader of an empty
    pipe without a writer gets 0.  Nothing but the pipe and the bytes at [buf] changes. *)
Theorem read_pipe_ok `{FsEnv} s i p c q buf count :
  fuel <> O -> pipe_at s i p c q -> 0 <= count ->
  let k := Z.min count (Z.of_nat (length q)) in
  k = count \/ c <> 2 ->
  exists s', read_pipe i buf count s = (Ret k, s') /\
    pipe_at s' i p c (drop (Z.to_nat k) q) /\
    user_bytes (umem s') buf k = take (Z.to_nat k) q /\
    (forall a, ~ (buf <= a < buf + k) -> umem s' !! a = umem s !! a) /\
    current s' = current s /\ outside i p s s'.
Proof.
  intros Hf HP Hc k Hk. unfold read_pipe.
  destruct (read_loop_ok (Z.to_nat count) s i p c q buf count 0 Hf HP Hc ltac:(lia) ltac:(lia))
    as (s' & E & HP' & Hu & Hrest).
  assert (Z.of_nat (length (take (Z.to_nat k) q)) = k) as Hlen by (rewrite length_take; lia).
  exists s'. split; [by rewrite E|]. split; [done|]. fold k in Hu. rewrite Hu. split; [|split; [|done]].
  - rewrite <- Hlen at 2. apply store_bytes_read, Forall_take. by destruct HP.
  - intros a Ha. apply store_bytes_frame. by rewrite Hlen.
Qed.

(** ** Witnesses *)

(** A pipe whose three bytes lie around the end of the page. *)
Definition demo_page : list Z := [7] ++ replicate 4093 0 ++ [5; 6].
Definition demo_inode : m_inode :=
  zero_inode <| i_pipe := 1 |> <| i_count := 1 |> <| i_size := 8192 |> <| i_zone := [1; 4094; 0; 0; 0; 0; 0; 0; 0] |>.
Definition demo_pipe : fs :=
  empty_fs <| inode_table := [demo_inode] |> <| pages := {[8192 := demo_page]} |>
           <| umem := {[100 := 1; 101 := 2]} |>.

Lemma demo_pipe_at : pipe_at demo_pipe 0 8192 1 [5; 6; 7].
Proof.
  split; [|lia|cbn; lia|repeat constructor; lia].
  exists demo_inode. split; [done|]. split; [done|]. split; [done|]. split; [cbn; lia|].
  split; [by vm_compute|]. split; [done|]. exists demo_page. split; [done|].
  split; [by vm_compute|by vm_compute].
Qed.

Lemma demo_umem_ok : umem_ok (umem demo_pipe).
Proof. apply map_Forall_insert_2; [lia|]. apply map_Forall_singleton. lia. Qed.

Lemma write_pipe_ok_witness :
  exists s', write_pipe (H := quiet) 0 100 2 demo_pipe = (Ret 2, s') /\ pipe_at s' 0 8192 1 [5; 6; 7; 1; 2].
Proof.
  destruct (write_pipe_ok (H := quiet) demo_pipe 0 8192 1 [5; 6; 7] 100 2 ltac:(done) demo_pipe_at demo_umem_ok
    ltac:(lia) (or_introl eq_refl)) as (s' & E & HP & _).
  exists s'. split; [exact E|exact HP].
Defined.

Lemma read_pipe_ok_witness :
  exists s', read_pipe (H := quiet) 0 200 5 demo_pipe = (Ret 3, s') /\ pipe_at s' 0 8192 1 [] /\
    user_bytes (umem s') 200 3 = [5; 6; 7].
Proof.
  destruct (read_pipe_ok (H := quiet) demo_pipe 0 8192 1 [5; 6; 7] 200 5 ltac:(done) demo_pipe_at
    ltac:(lia) (or_intror (ltac:(done) : 1 <> 2))) as (s' & E & HP & Hu & _).
  exists s'. split; [exact E|]. split; [exact HP|exact Hu].
Defined.
