(* ===== verification/DList.v ===== *)
(** Doubly linked lists over a map of links: segments, rings and what relinking does to them.
    The buffer cache keeps its hash queues as segments and its free list as a ring. *)

From S2P Require Import Prelude.

(** A node's links: its predecessor and its successor. *)
Abbreviation links := (gmap Z (option Z * option Z)).

Definition set_prev (p : option Z) (m : links) (b : Z) : links := alter (fun v => (p, snd v)) b m.
Definition set_next (n : option Z) (m : links) (b : Z) : links := alter (fun v => (fst v, n)) b m.

(** The first node of [l], or [q] when there is none; the last one, or [p]. *)
Definition first_or (l : list Z) (q : option Z) : option Z := match l with [] => q | b :: _ => Some b end.
Definition last_or (p : option Z) (l : list Z) : option Z := match last l with None => p | Some b => Some b end.

(** The nodes [l] are linked, after [p] and before [q]. *)
Fixpoint dseg (m : links) (p : option Z) (l : list Z) (q : option Z) : Prop :=
  match l with
  | [] => True
  | b :: l' => m !! b = Some (p, first_or l' q) /\ dseg m (Some b) l' q
  end.

(** The nodes [l] are linked in a circle. *)
Definition ring_of (m : links) (l : list Z) : Prop := dseg m (last l) l (head l).

Lemma first_or_app l1 l2 q : first_or (l1 ++ l2) q = first_or l1 (first_or l2 q).
Proof. by destruct l1. Qed.

Lemma last_or_cons p b l : last_or p (b :: l) = last_or (Some b) l.
Proof. unfold last_or. rewrite last_cons. by destruct (last l). Qed.

Lemma dseg_app m p l1 l2 q :
  dseg m p (l1 ++ l2) q <-> dseg m p l1 (first_or l2 q) /\ dseg m (last_or p l1) l2 q.
Proof.
  revert p. induction l1 as [|b l1 IH]; intros p; cbn [app dseg]; [naive_solver|].
  rewrite IH, first_or_app, last_or_cons. naive_solver.
Qed.

Lemma dseg_snoc m p l b q : dseg m p (l ++ [b]) q <-> dseg m p l (Some b) /\ m !! b = Some (last_or p l, q).
Proof. rewrite dseg_app. cbn. naive_solver. Qed.

Lemma dseg_frame m m' p l q : (forall b, b ∈ l -> m' !! b = m !! b) -> dseg m p l q -> dseg m' p l q.
Proof.
  revert p. induction l as [|b l IH]; intros p Hm; [done|]. cbn. intros [Hb Hl].
  split; [rewrite Hm; set_solver|apply IH; set_solver].
Qed.

Lemma dseg_set_prev_out m p l q b x : b ∉ l -> dseg m p l q -> dseg (set_prev x m b) p l q.
Proof. intros Hb. apply dseg_frame. intros c Hc. apply lookup_alter_ne. set_solver. Qed.

Lemma dseg_set_next_out m p l q b x : b ∉ l -> dseg m p l q -> dseg (set_next x m b) p l q.
Proof. intros Hb. apply dseg_frame. intros c Hc. apply lookup_alter_ne. set_solver. Qed.

Lemma dseg_insert_out m p l q b v : b ∉ l -> dseg m p l q -> dseg (<[b := v]> m) p l q.
Proof. intros Hb. apply dseg_frame. intros c Hc. apply lookup_insert_ne. set_solver. Qed.

Lemma dseg_set_first m p p' b l q : b ∉ l -> dseg m p (b :: l) q -> dseg (set_prev p' m b) p' (b :: l) q.
Proof.
  intros Hb [E Hl]. split; [unfold set_prev; by rewrite lookup_alter_eq, E|by apply dseg_set_prev_out].
Qed.

Lemma dseg_set_last m p b l q q' : b ∉ l -> dseg m p (l ++ [b]) q -> dseg (set_next q' m b) p (l ++ [b]) q'.
Proof.
  intros Hb. rewrite !dseg_snoc. intros [Hl E].
  split; [by apply dseg_set_next_out|unfold set_next; by rewrite lookup_alter_eq, E].
Qed.

Lemma dseg_lookup m p l1 b l2 q :
  dseg m p (l1 ++ b :: l2) q -> m !! b = Some (last_or p l1, first_or l2 q).
Proof. rewrite dseg_app. cbn. naive_solver. Qed.

Lemma dseg_in m p l q b : dseg m p l q -> b ∈ l -> is_Some (m !! b).
Proof. intros Hd (l1 & l2 & ->)%list_elem_of_split. rewrite (dseg_lookup _ _ _ _ _ _ Hd). eauto. Qed.

(** ** Queues with two ends *)

(** Taking [b] out of a queue: its neighbours are linked to each other. *)
Definition unlink (p n : option Z) (m : links) : links :=
  let m := match n with Some c => set_prev p m c | None => m end in
  match p with Some a => set_next n m a | None => m end.

Lemma dseg_unlink m l1 b l2 :
  NoDup (l1 ++ b :: l2) -> dseg m None (l1 ++ b :: l2) None ->
  dseg (unlink (last_or None l1) (first_or l2 None) m) None (l1 ++ l2) None.
Proof.
  intros (Hnd1 & Hdis & Hnd2)%NoDup_app [H1 [_ H2]]%dseg_app. apply NoDup_cons in Hnd2 as [Hb Hnd2].
  assert (dseg (match first_or l2 None with Some c => set_prev (last_or None l1) m c | None => m end)
            (last_or None l1) l2 None /\
          dseg (match first_or l2 None with Some c => set_prev (last_or None l1) m c | None => m end)
            None l1 (Some b)) as [H2' H1'].
  { destruct l2 as [|c l2]; [done|]. cbn [first_or]. apply NoDup_cons in Hnd2 as [Hc _].
    split; [by eapply dseg_set_first|]. apply dseg_set_prev_out; [set_solver|done]. }
  unfold unlink. revert H1' H2'. generalize (match first_or l2 None with
    Some c => set_prev (last_or None l1) m c | None => m end) as m1. intros m1 H1' H2'.
  apply dseg_app. destruct l1 as [|a l1 _] using rev_ind; [done|].
  unfold last_or in *. rewrite last_snoc in *. split.
  - eapply dseg_set_last; [|done]. apply NoDup_app in Hnd1 as (_ & Hd & _). set_solver.
  - apply dseg_set_next_out; [|done]. set_solver.
Qed.

(** Putting [b] in front of a queue. *)
Definition push (b : Z) (l : list Z) (m : links) : links :=
  let m := <[b := (None, first_or l None)]> m in
  match l with c :: _ => set_prev (Some b) m c | [] => m end.

Lemma dseg_push m b l :
  b ∉ l -> NoDup l -> dseg m None l None -> dseg (push b l m) None (b :: l) None.
Proof.
  intros Hb Hnd Hl. unfold push. destruct l as [|c l]; cbn [dseg first_or].
  - by rewrite lookup_insert_eq.
  - split.
    + unfold set_prev. rewrite lookup_alter_ne by set_solver. by rewrite lookup_insert_eq.
    + apply NoDup_cons in Hnd as [Hc _]. apply (dseg_set_first _ None); [done|].
      by apply dseg_insert_out.
Qed.

(** ** Rings *)

Lemma ring_rotate m l1 l2 : ring_of m (l1 ++ l2) -> ring_of m (l2 ++ l1).
Proof.
  destruct l1 as [|a l1]; [by rewrite app_nil_r|]. destruct l2 as [|b l2]; [by rewrite app_nil_r|].
  unfold ring_of. rewrite !dseg_app, !last_app. cbn [first_or head app]. unfold last_or.
  destruct (last (a :: l1)) eqn:E1; [|by apply last_None in E1].
  destruct (last (b :: l2)) eqn:E2; [|by apply last_None in E2]. naive_solver.
Qed.

(** Taking the first node out of a ring. *)
Lemma ring_unlink m b r :
  r <> [] -> NoDup (b :: r) -> ring_of m (b :: r) ->
  exists p n, m !! b = Some (Some p, Some n) /\ last r = Some p /\ head r = Some n /\
    p <> b /\ n <> b /\ ring_of (set_prev (Some p) (set_next (Some n) m p) n) r.
Proof.
  intros Hr [Hb Hnd]%NoDup_cons [E Hd]. destruct r as [|n r]; [done|]. clear Hr. cbn [first_or head] in *.
  destruct (last (n :: r)) as [p|] eqn:Hlast; [|by apply last_None in Hlast].
  rewrite last_cons, Hlast in E. exists p, n. apply last_Some in Hlast as [l El].
  assert (p ∈ n :: r) by (rewrite El; set_solver).
  split; [done|]. split; [done|]. split; [done|]. split; [set_solver|]. split; [set_solver|].
  unfold ring_of. rewrite El, last_snoc, <- El. cbn [head]. apply NoDup_cons in Hnd as Hnd'.
  apply (dseg_set_first _ (Some b)); [naive_solver|]. rewrite El in *.
  eapply dseg_set_last; [|done]. apply NoDup_app in Hnd as (_ & Hdis & _). set_solver.
Qed.

(** Putting a node at the end of a ring. *)
Lemma ring_append m b r p n :
  b ∉ r -> NoDup r -> ring_of m r -> last r = Some p -> head r = Some n ->
  ring_of (set_prev (Some b) (set_next (Some b) (<[b := (Some p, Some n)]> m) p) n) (r ++ [b]).
Proof.
  intros Hb Hnd Hr Hp Hn. unfold ring_of in *. rewrite last_snoc, head_app, Hn. rewrite Hp, Hn in Hr.
  destruct r as [|n' r]; [done|]. injection Hn as ->.
  assert (p ∈ n :: r) as Hpr by (apply last_Some in Hp as [l ->]; set_solver).
  apply dseg_snoc. split.
  - apply NoDup_cons in Hnd as Hnd'. apply (dseg_set_first _ (Some p)); [naive_solver|].
    apply last_Some in Hp as [l El]. rewrite El in *. eapply dseg_set_last; [apply NoDup_app in Hnd; set_solver|].
    apply dseg_insert_out; [set_solver|done].
  - unfold set_prev, set_next. rewrite !lookup_alter_ne by set_solver.
    rewrite lookup_insert_eq. unfold last_or. by rewrite Hp.
Qed.
