(* ===== verification/BufferSpec.v ===== *)
(** The buffer cache's queues ([remove_from_queues], [insert_into_queues], [find_buffer],
    [getblk]): the free list is a ring of all buffers in the order of their last use, every
    buffer with a device is on the hash queue of its block and no two are for the same
    block. *)

From S2P Require Import Prelude FsDefs FsLemmas Buffer DList.

(** ** Views of the buffers *)

Definition hlinks (m : gmap Z buffer_head) : links := (fun v => (b_prev v, b_next v)) <$> m.
Definition flinks (m : gmap Z buffer_head) : links := (fun v => (b_prev_free v, b_next_free v)) <$> m.

(** Everything but the links. *)
Definition core (v : buffer_head) : list Z * Z * Z * Z * Z * Z * Z :=
  (b_data v, b_blocknr v, b_dev v, b_uptodate v, b_dirt v, b_count v, b_lock v).
Definition cores (m : gmap Z buffer_head) : gmap Z (list Z * Z * Z * Z * Z * Z * Z) := core <$> m.

Lemma fmap_alter_with {A B} (g : A -> B) (f : A -> A) (f' : B -> B) (m : gmap Z A) b :
  (forall v, g (f v) = f' (g v)) -> g <$> alter f b m = alter f' b (g <$> m).
Proof.
  intros Hg. apply map_eq. intros c. rewrite lookup_fmap. destruct (decide (b = c)) as [->|].
  - rewrite !lookup_alter_eq, lookup_fmap. destruct (m !! c); cbn; [by rewrite Hg|done].
  - by rewrite !lookup_alter_ne, lookup_fmap.
Qed.

Lemma fmap_alter_same {A B} (g : A -> B) (f : A -> A) (m : gmap Z A) b :
  (forall v, g (f v) = g v) -> g <$> alter f b m = g <$> m.
Proof.
  intros Hg. rewrite (fmap_alter_with g f (fun x => x)) by done. apply map_eq. intros c.
  destruct (decide (b = c)) as [->|]; [rewrite lookup_alter_eq|by rewrite lookup_alter_ne].
  by destruct ((g <$> m) !! c).
Qed.

(** An update of a buffer that may be null. *)
Definition opt_alter (f : buffer_head -> buffer_head) (p : option Z) (m : gmap Z buffer_head) : gmap Z buffer_head :=
  match p with Some b => alter f b m | None => m end.

Lemma upd_bh_alter b f s : is_Some (bufs s !! b) -> upd_bh b f s = (Ret tt, s <| bufs ::= alter f b |>).
Proof.
  intros [v Hv]. rewrite (upd_bh_run b v) by done.
  assert (<[b := f v]> (bufs s) = alter f b (bufs s)) as E.
  { apply map_eq. intros c. destruct (decide (b = c)) as [->|].
    - by rewrite lookup_insert_eq, lookup_alter_eq, Hv.
    - by rewrite lookup_insert_ne, lookup_alter_ne. }
  unfold upd. destruct s. cbn in *. by rewrite E.
Qed.

Lemma opt_upd_alter p f s :
  (forall b, p = Some b -> is_Some (bufs s !! b)) -> opt_upd p f s = (Ret tt, s <| bufs ::= opt_alter f p |>).
Proof. destruct p; intros Hp; [by apply upd_bh_alter, Hp|by destruct s]. Qed.

Lemma lookup_opt_alter_ne p f m b : p <> Some b -> opt_alter f p m !! b = m !! b.
Proof. destruct p; [|done]. intros. apply lookup_alter_ne. naive_solver. Qed.

Lemma opt_alter_is_Some p f m b : is_Some (m !! b) -> is_Some (opt_alter f p m !! b).
Proof. destruct p; [|done]. apply lookup_alter_is_Some. Qed.

Lemma alter_is_Some (f : buffer_head -> buffer_head) (m : gmap Z buffer_head) b c :
  is_Some (m !! b) -> is_Some (alter f c m !! b).
Proof. apply lookup_alter_is_Some. Qed.

(** ** What an assignment to a link does to the views *)

Lemma hlinks_prev y b m : hlinks (alter (fun x => x <| b_prev := y |>) b m) = set_prev y (hlinks m) b.
Proof. by apply fmap_alter_with. Qed.
Lemma hlinks_next y b m : hlinks (alter (fun x => x <| b_next := y |>) b m) = set_next y (hlinks m) b.
Proof. by apply fmap_alter_with. Qed.
Lemma hlinks_prev_free y b m : hlinks (alter (fun x => x <| b_prev_free := y |>) b m) = hlinks m.
Proof. by apply fmap_alter_same. Qed.
Lemma hlinks_next_free y b m : hlinks (alter (fun x => x <| b_next_free := y |>) b m) = hlinks m.
Proof. by apply fmap_alter_same. Qed.
Lemma flinks_prev y b m : flinks (alter (fun x => x <| b_prev := y |>) b m) = flinks m.
Proof. by apply fmap_alter_same. Qed.
Lemma flinks_next y b m : flinks (alter (fun x => x <| b_next := y |>) b m) = flinks m.
Proof. by apply fmap_alter_same. Qed.
Lemma flinks_prev_free y b m : flinks (alter (fun x => x <| b_prev_free := y |>) b m) = set_prev y (flinks m) b.
Proof. by apply fmap_alter_with. Qed.
Lemma flinks_next_free y b m : flinks (alter (fun x => x <| b_next_free := y |>) b m) = set_next y (flinks m) b.
Proof. by apply fmap_alter_with. Qed.
Lemma cores_prev y b m : cores (alter (fun x => x <| b_prev := y |>) b m) = cores m.
Proof. by apply fmap_alter_same. Qed.
Lemma cores_next y b m : cores (alter (fun x => x <| b_next := y |>) b m) = cores m.
Proof. by apply fmap_alter_same. Qed.
Lemma cores_prev_free y b m : cores (alter (fun x => x <| b_prev_free := y |>) b m) = cores m.
Proof. by apply fmap_alter_same. Qed.
Lemma cores_next_free y b m : cores (alter (fun x => x <| b_next_free := y |>) b m) = cores m.
Proof. by apply fmap_alter_same. Qed.

Create Rewrite HintDb views.
#[export] Hint Rewrite hlinks_prev hlinks_next hlinks_prev_free hlinks_next_free flinks_prev flinks_next
  flinks_prev_free flinks_next_free cores_prev cores_next cores_prev_free cores_next_free : views.

(** ** Running the queue operations *)

Section Run.
Context `{FsEnv}.

(** The buffers after one with the neighbours [pv] and [nx] on its hash queue and [p] and [n]
    on the free list was taken out. *)
Definition removed (pv nx : option Z) (p n : Z) (m : gmap Z buffer_head) : gmap Z buffer_head :=
  alter (fun x => x <| b_prev_free := Some p |>) n (alter (fun x => x <| b_next_free := Some n |>) p
    (opt_alter (fun x => x <| b_next := nx |>) pv (opt_alter (fun x => x <| b_prev := pv |>) nx m))).

Lemma removed_views pv nx p n m :
  hlinks (removed pv nx p n m) = unlink pv nx (hlinks m) /\
  flinks (removed pv nx p n m) = set_prev (Some p) (set_next (Some n) (flinks m) p) n /\
  cores (removed pv nx p n m) = cores m.
Proof.
  unfold removed, unlink. destruct pv, nx; cbn [opt_alter]; autorewrite with views; done.
Qed.

Lemma remove_run s bh v p n :
  bufs s !! bh = Some v -> b_prev_free v = Some p -> b_next_free v = Some n -> p <> bh -> n <> bh ->
  is_Some (bufs s !! p) -> is_Some (bufs s !! n) -> b_next v <> Some bh -> b_prev v <> Some bh ->
  (forall c, b_next v = Some c -> is_Some (bufs s !! c)) -> (forall c, b_prev v = Some c -> is_Some (bufs s !! c)) ->
  let hh := Z.to_nat (_hashfn (b_dev v) (b_blocknr v)) in
  remove_from_queues bh s =
    (Ret tt, s <| bufs ::= removed (b_prev v) (b_next v) p n |>
               <| hash_table ::= fun t => if bool_decide (default None (t !! hh) = Some bh) then <[hh := b_next v]> t else t |>
               <| free_list ::= fun f => if bool_decide (f = Some bh) then Some n else f |>).
Proof.
  intros Hv Hpf Hnf Hp Hn Hsp Hsn Hnx Hpv Hsnx Hspv hh. unfold remove_from_queues.
  mrun (get_bh_run bh v s Hv). mrun (opt_upd_alter (b_next v) (fun x => x <| b_prev := b_prev v |>) s Hsnx).
  set (s1 := s <| bufs ::= _ |>).
  assert (bufs s1 !! bh = Some v) as Hv1 by (unfold s1; cbn; by rewrite lookup_opt_alter_ne).
  mrun (get_bh_run bh v s1 Hv1).
  rewrite (bind_Ret _ _ _ _ _ (opt_upd_alter (b_prev v) (fun x => x <| b_next := b_next v |>) s1
    (fun c Hc => opt_alter_is_Some _ _ _ _ (Hspv c Hc)))).
  set (s2 := s1 <| bufs ::= _ |>).
  assert (bufs s2 !! bh = Some v) as Hv2 by (unfold s2; cbn; by rewrite lookup_opt_alter_ne).
  mrun (get_bh_run bh v s2 Hv2). unfold hash. rewrite bind_gets.
  fold hh. rewrite Hpf, Hnf.
  set (s3 := s2 <| hash_table ::= fun t =>
    if bool_decide (default None (t !! hh) = Some bh) then <[hh := b_next v]> t else t |>).
  assert (when (bool_decide (default None (hash_table s2 !! hh) = Some bh)) (set_hash (b_dev v) (b_blocknr v) (b_next v)) s2
    = (Ret tt, s3)) as Ew.
  { unfold s3, set_hash. fold hh. clearbody s2 hh. unfold when, upd, modify. destruct s2; cbn.
    by destruct (bool_decide _). }
  mrun Ew. assert (is_Some (bufs s3 !! p)) as Hsp3 by by repeat apply opt_alter_is_Some.
  mrun (upd_bh_alter p (fun x => x <| b_next_free := Some n |>) s3 Hsp3). set (s4 := s3 <| bufs ::= _ |>).
  assert (bufs s4 !! bh = Some v) as Hv4 by (unfold s4; cbn; by rewrite lookup_alter_ne).
  mrun (get_bh_run bh v s4 Hv4). rewrite Hnf, Hpf. unfold of_option. rewrite bind_ret.
  assert (is_Some (bufs s4 !! n)) as Hsn4 by (apply alter_is_Some; by repeat apply opt_alter_is_Some).
  mrun (upd_bh_alter n (fun x => x <| b_prev_free := Some p |>) s4 Hsn4). set (s5 := s4 <| bufs ::= _ |>).
  assert (bufs s5 !! bh = Some v) as Hv5 by (unfold s5; cbn; by rewrite lookup_alter_ne).
  mrun (get_bh_run bh v s5 Hv5). rewrite bind_get, Hnf.
  transitivity (Ret tt, s5 <| free_list ::= fun f => if bool_decide (f = Some bh) then Some n else f |>).
  - clear. clearbody s5. destruct s5. unfold when, modify, upd. cbn. by destruct (bool_decide _).
  - by destruct s.
Qed.

(** The buffers after [bh] was put at the end of the free list, between [p] and [fl]. *)
Definition appended (bh p fl : Z) (m : gmap Z buffer_head) : gmap Z buffer_head :=
  alter (fun x => x <| b_next := None |>) bh (alter (fun x => x <| b_prev := None |>) bh
    (alter (fun x => x <| b_prev_free := Some bh |>) fl (alter (fun x => x <| b_next_free := Some bh |>) p
    (alter (fun x => x <| b_prev_free := Some p |>) bh (alter (fun x => x <| b_next_free := Some fl |>) bh m))))).

Lemma insert_run s bh v fl p f :
  bufs s !! bh = Some v -> free_list s = Some fl -> bufs s !! fl = Some f -> b_prev_free f = Some p ->
  fl <> bh -> p <> bh -> is_Some (bufs s !! p) ->
  let hh := Z.to_nat (_hashfn (b_dev v) (b_blocknr v)) in
  let h := default None (hash_table s !! hh) in
  (forall c, h = Some c -> is_Some (bufs s !! c)) ->
  insert_into_queues bh s =
    (Ret tt, if b_dev v =? 0 then s <| bufs ::= appended bh p fl |> else
             s <| bufs ::= fun m => opt_alter (fun x => x <| b_prev := Some bh |>) h
                             (alter (fun x => x <| b_next := h |>) bh (appended bh p fl m)) |>
               <| hash_table ::= <[hh := Some bh]> |>
               <| null_prev ::= fun x => match h with None => Some bh | Some _ => x end |>).
Proof.
  intros Hv Hfl Hf Hpf Hne Hpne Hsp hh h Hsh. unfold insert_into_queues. rewrite bind_get, Hfl.
  rewrite (bind_Ret _ _ s fl s) by done.
  mrun (upd_bh_alter bh (fun x => x <| b_next_free := Some fl |>) s ltac:(eauto)). set (s1 := s <| bufs ::= _ |>).
  assert (bufs s1 !! fl = Some f) as Hf1 by (unfold s1; cbn; by rewrite lookup_alter_ne).
  mrun (get_bh_run fl f s1 Hf1).
  assert (is_Some (bufs s1 !! bh)) as Hb1 by (apply alter_is_Some; eauto).
  mrun (upd_bh_alter bh (fun x => x <| b_prev_free := b_prev_free f |>) s1 Hb1). set (s2 := s1 <| bufs ::= _ |>).
  assert (bufs s2 !! fl = Some f) as Hf2 by (unfold s2; cbn; by rewrite lookup_alter_ne).
  mrun (get_bh_run fl f s2 Hf2). rewrite Hpf. rewrite (bind_Ret _ _ s2 p s2) by done.
  assert (is_Some (bufs s2 !! p)) as Hp2 by by do 2 apply alter_is_Some.
  mrun (upd_bh_alter p (fun x => x <| b_next_free := Some bh |>) s2 Hp2). set (s3 := s2 <| bufs ::= _ |>).
  assert (is_Some (bufs s3 !! fl)) as Hf3 by (apply alter_is_Some; eauto).
  mrun (upd_bh_alter fl (fun x => x <| b_prev_free := Some bh |>) s3 Hf3). set (s4 := s3 <| bufs ::= _ |>).
  assert (is_Some (bufs s4 !! bh)) as Hb4 by by do 3 apply alter_is_Some.
  mrun (upd_bh_alter bh (fun x => x <| b_prev := None |>) s4 Hb4). set (s5 := s4 <| bufs ::= _ |>).
  assert (is_Some (bufs s5 !! bh)) as Hb5 by by apply alter_is_Some.
  mrun (upd_bh_alter bh (fun x => x <| b_next := None |>) s5 Hb5). set (s6 := s5 <| bufs ::= _ |>).
  assert (s6 = s <| bufs ::= appended bh p fl |>) as E6 by (unfold s6, s5, s4, s3, s2, s1; rewrite Hpf; by destruct s).
  assert (core <$> bufs s6 !! bh = Some (core v)) as Hc6.
  { rewrite E6, <- lookup_fmap. unfold upd, appended. cbn. rewrite !(fmap_alter_same core) by done.
    by rewrite lookup_fmap, Hv. }
  destruct (bufs s6 !! bh) as [v6|] eqn:Hv6; [|done]. injection Hc6 as _ Eb Ed _ _ _ _.
  mrun (get_bh_run bh v6 s6 Hv6). rewrite Ed, Eb. destruct (b_dev v =? 0); [by rewrite E6|].
  unfold hash. rewrite bind_gets. replace (hash_table s6) with (hash_table s) by (by rewrite E6).
  change (default None (hash_table s !! Z.to_nat (_hashfn (b_dev v) (b_blocknr v)))) with h.
  mrun (upd_bh_alter bh (fun x => x <| b_next := h |>) s6 ltac:(eauto)).
  unfold set_hash. rewrite bind_modify. fold hh. clearbody hh h. rewrite E6. destruct h as [c|].
  - rewrite upd_bh_alter; [by destruct s|]. do 7 apply alter_is_Some. by apply Hsh.
  - by destruct s.
Qed.
End Run.

(** ** The invariant *)

(** [order] are the buffers of the free list from its head on and [chains h] those of hash
    queue [h]; the buffer [out] may be outside of the queues. *)
Record queues (s : fs) (order : list Z) (chains : Z -> list Z) (out : option Z) : Prop := {
  q_ring : ring_of (flinks (bufs s)) order;
  q_order : NoDup order /\ order <> [];
  q_all : forall b, b ∈ order <-> is_Some (bufs s !! b) /\ out <> Some b;
  q_head : free_list s = head order;
  q_table : length (hash_table s) = 307%nat;
  q_chain : forall h, 0 <= h < 307 -> hash_table s !! Z.to_nat h = Some (head (chains h)) /\
    NoDup (chains h) /\ dseg (hlinks (bufs s)) None (chains h) None;
  q_in : forall h b, 0 <= h < 307 -> b ∈ chains h <->
    out <> Some b /\ exists v, bufs s !! b = Some v /\ b_dev v <> 0 /\ _hashfn (b_dev v) (b_blocknr v) = h;
  q_idle : forall b v, bufs s !! b = Some v -> b_dev v = 0 -> out <> Some b -> b_prev v = None /\ b_next v = None;
  q_unique : forall b b' v v', bufs s !! b = Some v -> bufs s !! b' = Some v' -> out <> Some b -> out <> Some b' ->
    b_dev v <> 0 -> b_dev v' = b_dev v -> b_blocknr v' = b_blocknr v -> b' = b
}.

Lemma hashfn_range dev block : 0 <= _hashfn dev block < 307.
Proof. apply Z.mod_pos_bound. done. Qed.

(** A list without one of its elements. *)
Definition without (b : Z) (l : list Z) : list Z := filter (fun x => x <> b) l.

Lemma without_id b l : b ∉ l -> without b l = l.
Proof.
  induction l as [|x l IH]; [done|]. intros Hb. unfold without. rewrite filter_cons_True by set_solver.
  f_equal. apply IH. set_solver.
Qed.

Lemma without_split b l1 l2 : NoDup (l1 ++ b :: l2) -> without b (l1 ++ b :: l2) = l1 ++ l2.
Proof.
  intros (_ & Hd & [Hb _]%NoDup_cons)%NoDup_app. unfold without. rewrite filter_app, filter_cons_False by (intros Hbb; by apply Hbb).
  f_equal; apply without_id; set_solver.
Qed.

Lemma elem_of_without b c l : c ∈ without b l <-> c ∈ l /\ c <> b.
Proof. unfold without. rewrite list_elem_of_filter. naive_solver. Qed.

Lemma head_in (b : Z) l : head l = Some b -> b ∈ l.
Proof. destruct l; [done|]. cbn. intros [= ->]. set_solver. Qed.

Lemma NoDup_without b l : NoDup l -> NoDup (without b l).
Proof. apply NoDup_filter. Qed.

(** The views determine what a buffer is. *)
Lemma cores_lookup m m' b v :
  cores m' = cores m -> m' !! b = Some v -> exists v0, m !! b = Some v0 /\ core v0 = core v.
Proof.
  intros E Hv. assert (cores m !! b = Some (core v)) as H by (rewrite <- E; unfold cores; by rewrite lookup_fmap, Hv).
  unfold cores in H. rewrite lookup_fmap in H. destruct (m !! b) as [v0|]; [|done].
  exists v0. split; [done|]. cbn [fmap option_fmap option_map] in H. congruence.
Qed.

Lemma cores_is_Some m m' b : cores m' = cores m -> is_Some (m' !! b) <-> is_Some (m !! b).
Proof. intros E. rewrite <- !(fmap_is_Some core), <- !lookup_fmap. fold (cores m) (cores m'). by rewrite E. Qed.

Lemma core_exists m m' b (P : Z -> Z -> Prop) :
  cores m' = cores m ->
  (exists w, m' !! b = Some w /\ P (b_dev w) (b_blocknr w)) <-> (exists w, m !! b = Some w /\ P (b_dev w) (b_blocknr w)).
Proof.
  intros E. split; intros (w & Hw & HP).
  - destruct (cores_lookup _ _ _ _ E Hw) as (w' & Hw' & Ew). injection Ew as _ E1 E2 _ _ _ _. exists w'. by rewrite E1, E2.
  - destruct (cores_lookup _ _ _ _ (eq_sym E) Hw) as (w' & Hw' & Ew). injection Ew as _ E1 E2 _ _ _ _.
    exists w'. by rewrite E1, E2.
Qed.

(** ** Taking a buffer out of its queues *)

Section Queues.
Context `{FsEnv}.

Lemma hlinks_lookup m b v : m !! b = Some v -> hlinks m !! b = Some (b_prev v, b_next v).
Proof. intros Hv. unfold hlinks. by rewrite lookup_fmap, Hv. Qed.

Lemma flinks_lookup m b v : m !! b = Some v -> flinks m !! b = Some (b_prev_free v, b_next_free v).
Proof. intros Hv. unfold flinks. by rewrite lookup_fmap, Hv. Qed.

Lemma links_is_Some m b : is_Some (hlinks m !! b) -> is_Some (m !! b).
Proof. unfold hlinks. by rewrite lookup_fmap, fmap_is_Some. Qed.

(** A buffer and its neighbours on the hash queues. *)
Lemma chain_split s order chains b v :
  queues s order chains None -> bufs s !! b = Some v -> b_dev v <> 0 ->
  exists l1 l2, chains (_hashfn (b_dev v) (b_blocknr v)) = l1 ++ b :: l2 /\
    b_prev v = last_or None l1 /\ b_next v = first_or l2 None.
Proof.
  intros Q Hv Hd. assert (b ∈ chains (_hashfn (b_dev v) (b_blocknr v))) as Hb.
  { apply (q_in _ _ _ _ Q); [apply hashfn_range|]. split; [done|]. eauto. }
  apply list_elem_of_split in Hb as (l1 & l2 & E). exists l1, l2. split; [done|].
  destruct (q_chain _ _ _ _ Q _ (hashfn_range (b_dev v) (b_blocknr v))) as (_ & _ & D).
  rewrite E in D. apply dseg_lookup in D. rewrite (hlinks_lookup _ _ _ Hv) in D. naive_solver.
Qed.

(** The neighbours of a buffer, also of one that is on no hash queue. *)
Lemma hash_neighbours s order chains b v :
  queues s order chains None -> bufs s !! b = Some v ->
  b_next v <> Some b /\ b_prev v <> Some b /\
  forall c, b_next v = Some c \/ b_prev v = Some c -> exists w, bufs s !! c = Some w /\ b_dev w <> 0.
Proof.
  intros Q Hv. destruct (decide (b_dev v = 0)) as [Hd|Hd].
  { destruct (q_idle _ _ _ _ Q b v Hv Hd ltac:(done)) as [-> ->]. naive_solver. }
  destruct (chain_split _ _ _ _ _ Q Hv Hd) as (l1 & l2 & E & -> & ->).
  pose proof (hashfn_range (b_dev v) (b_blocknr v)) as Hr.
  destruct (q_chain _ _ _ _ Q _ Hr) as (_ & Hnd & _).
  assert (forall c, c ∈ l1 ++ b :: l2 -> exists w, bufs s !! c = Some w /\ b_dev w <> 0) as Hin.
  { intros c Hc. rewrite <- E in Hc. apply (q_in _ _ _ _ Q) in Hc as (_ & w & Hw & Hdw & _); eauto. }
  rewrite E in Hnd. apply NoDup_app in Hnd as (_ & Hdis & [Hb2 _]%NoDup_cons).
  unfold last_or. split; [|split].
  - destruct l2; cbn; [done|]. set_solver.
  - destruct (last l1) as [a|] eqn:E1; [|done]. apply last_Some in E1 as [l1' ->]. set_solver.
  - intros c [Hc|Hc]; apply Hin.
    + destruct l2; [done|]. injection Hc as ->. set_solver.
    + destruct (last l1) as [a|] eqn:E1; [|done]. apply last_Some in E1 as [l1' ->]. injection Hc as ->. set_solver.
Qed.

(** What taking [b] out does to the hash queue [h]. *)
Lemma chain_without s order chains b v h :
  queues s order chains None -> bufs s !! b = Some v -> 0 <= h < 307 ->
  let hh := Z.to_nat (_hashfn (b_dev v) (b_blocknr v)) in
  (if bool_decide (default None (hash_table s !! hh) = Some b) then <[hh := b_next v]> (hash_table s)
   else hash_table s) !! Z.to_nat h = Some (head (without b (chains h))) /\
  dseg (unlink (b_prev v) (b_next v) (hlinks (bufs s))) None (without b (chains h)) None.
Proof.
  intros Q Hv Hh hh. destruct (q_chain _ _ _ _ Q h Hh) as (Et & Hnd & D).
  pose proof (hashfn_range (b_dev v) (b_blocknr v)) as Hr.
  destruct (q_chain _ _ _ _ Q _ Hr) as (Et0 & Hnd0 & D0). fold hh in Et0. rewrite Et0. cbn [default].
  destruct (decide (b_dev v = 0)) as [Hd|Hd].
  { assert (forall k, 0 <= k < 307 -> b ∉ chains k) as Hb.
    { intros k Hk Hb. apply (q_in _ _ _ _ Q) in Hb as (_ & v' & Hv' & Hd' & _); [|done]. congruence. }
    rewrite bool_decide_false by (intros Hh0; exact (Hb _ Hr (head_in _ _ Hh0))).
    rewrite without_id by by apply Hb. by destruct (q_idle _ _ _ _ Q b v Hv Hd ltac:(done)) as [-> ->]. }
  destruct (chain_split _ _ _ _ _ Q Hv Hd) as (l1 & l2 & E & Ep & En).
  destruct (decide (h = _hashfn (b_dev v) (b_blocknr v))) as [->|Hne].
  - rewrite E in *. rewrite without_split by done. split.
    + destruct l1 as [|a l1].
      * rewrite bool_decide_true by done. rewrite list_lookup_insert_eq; [rewrite En; by destruct l2|].
        rewrite (q_table _ _ _ _ Q). lia.
      * rewrite bool_decide_false; [done|]. cbn. intros [= ->]. by apply NoDup_cons in Hnd0 as [Ha _]; set_solver.
    + rewrite Ep, En. by apply (dseg_unlink _ l1 b l2).
  - assert (forall c, c ∈ chains (_hashfn (b_dev v) (b_blocknr v)) -> c ∉ chains h) as Hdis.
    { intros c Hc Hc'. apply (q_in _ _ _ _ Q) in Hc as (_ & v1 & Hv1 & _ & E1); [|done].
      apply (q_in _ _ _ _ Q) in Hc' as (_ & v2 & Hv2 & _ & E2); [|done]. congruence. }
    rewrite E in *. rewrite without_id by (apply Hdis; set_solver). split.
    + case_bool_decide; [|done]. rewrite list_lookup_insert_ne; [done|]. unfold hh. lia.
    + rewrite Ep, En. unfold unlink, last_or. destruct (last l1) as [a|] eqn:E1; destruct l2 as [|c l2]; cbn [first_or];
        try (apply last_Some in E1 as [l1' ->]); try done;
        repeat first [apply dseg_set_next_out; [apply Hdis; set_solver|]
                     |apply dseg_set_prev_out; [apply Hdis; set_solver|]]; done.
Qed.

(** Operations on the queues change nothing else. *)
Definition only_queues (s s' : fs) : Prop :=
  s' = s <| bufs := bufs s' |> <| hash_table := hash_table s' |> <| free_list := free_list s' |>
         <| null_prev := null_prev s' |>.

(** The parts of the invariant about the buffers themselves, when no core has changed. *)
Lemma unlink_other pv nx m b : pv <> Some b -> nx <> Some b -> unlink pv nx m !! b = m !! b.
Proof.
  intros Hp Hn. unfold unlink, set_prev, set_next.
  destruct pv, nx; rewrite ?lookup_alter_ne by congruence; done.
Qed.

Lemma core_fields v w : core v = core w -> b_dev v = b_dev w /\ b_blocknr v = b_blocknr w.
Proof. intros E. injection E as _ ? ? _ _ _ _. done. Qed.

Lemma remove_ok s order chains bh :
  queues s order chains None -> bh ∈ order -> (2 <= length order)%nat ->
  exists s', remove_from_queues bh s = (Ret tt, s') /\
    queues s' (without bh order) (fun h => without bh (chains h)) (Some bh) /\
    cores (bufs s') = cores (bufs s) /\ only_queues s s'.
Proof.
  intros Q Hin Hlen. pose proof Hin as [[v Hv] _]%(q_all _ _ _ _ Q).
  destruct (hash_neighbours _ _ _ _ _ Q Hv) as (Hnx & Hpv & Hnb).
  pose proof (q_order _ _ _ _ Q) as [Hnd _]. pose proof (q_ring _ _ _ _ Q) as R.
  apply list_elem_of_split in Hin as (l1 & l2 & Eo).
  assert (l2 ++ l1 <> []) as Hne.
  { intros [-> ->]%app_nil. rewrite Eo in Hlen. cbn in Hlen. lia. }
  rewrite Eo in R, Hnd. pose proof Hnd as Hnd'. apply ring_rotate in R. rewrite Permutation_app_comm in Hnd'.
  cbn [app] in R, Hnd'. destruct (ring_unlink _ _ _ Hne Hnd' R) as (p & n & Ebh & Hp & Hn & Hpb & Hnbh & R').
  rewrite (flinks_lookup _ _ _ Hv) in Ebh. injection Ebh as Epf Enf.
  assert (forall c, c ∈ l2 ++ l1 -> is_Some (bufs s !! c)) as Hex.
  { intros c Hc. apply (q_all _ _ _ _ Q c). rewrite Eo. set_solver. }
  assert (p ∈ l2 ++ l1) as Hpin by (apply last_Some in Hp as [l ->]; set_solver).
  assert (forall c, b_next v = Some c \/ b_prev v = Some c -> is_Some (bufs s !! c)) as Hnb'
    by (intros c Hc; destruct (Hnb c Hc) as (w & -> & _); done).
  rewrite (remove_run s bh v p n Hv Epf Enf Hpb Hnbh (Hex p Hpin) (Hex n (head_in _ _ Hn)) Hnx Hpv
    (fun c Hc => Hnb' c (or_introl Hc)) (fun c Hc => Hnb' c (or_intror Hc))).
  eexists. split; [reflexivity|].
  destruct (removed_views (b_prev v) (b_next v) p n (bufs s)) as (Eh & Ef & Ec).
  split; [|split; [exact Ec|by destruct s]].
  set (m' := removed (b_prev v) (b_next v) p n (bufs s)) in *.
  split; cbn [bufs hash_table free_list upd]; fold m'.
  - change (ring_of (flinks m') (without bh order)). rewrite Ef, Eo, without_split by done. by apply ring_rotate.
  - split; [apply NoDup_without, (q_order _ _ _ _ Q)|]. rewrite Eo, without_split by done.
    intros [-> ->]%app_nil. done.
  - intros b. change (b ∈ without bh order <-> is_Some (m' !! b) /\ Some bh <> Some b).
    rewrite elem_of_without, (q_all _ _ _ _ Q), (cores_is_Some _ _ b Ec). naive_solver.
  - change ((if bool_decide (free_list s = Some bh) then Some n else free_list s) = head (without bh order)).
    rewrite (q_head _ _ _ _ Q), Eo, without_split by done. destruct l1 as [|a l1]; cbn [app head].
    + rewrite bool_decide_true, app_nil_r in * by done. done.
    + rewrite bool_decide_false; [done|]. intros [= ->]. apply NoDup_cons in Hnd as [Ha _]. set_solver.
  - change (length (if bool_decide (default None (hash_table s !! Z.to_nat (_hashfn (b_dev v) (b_blocknr v))) = Some bh)
      then <[Z.to_nat (_hashfn (b_dev v) (b_blocknr v)) := b_next v]> (hash_table s) else hash_table s) = 307%nat).
    rewrite <- (q_table _ _ _ _ Q). destruct (bool_decide _); [apply length_insert|done].
  - intros h Hh. destruct (chain_without _ _ _ _ _ h Q Hv Hh) as [Et D].
    split; [exact Et|]. split; [apply NoDup_without, (q_chain _ _ _ _ Q h Hh)|].
    change (dseg (hlinks m') None (without bh (chains h)) None). by rewrite Eh.
  - intros h b Hh. rewrite elem_of_without, (q_in _ _ _ _ Q h b Hh). split.
    + intros [(_ & w & Hw & Hd & E) Hb]. split; [congruence|].
      destruct (cores_lookup _ _ _ _ (eq_sym Ec) Hw) as (w' & Hw' & (E1 & E2)%core_fields).
      exists w'. split; [exact Hw'|]. by rewrite E1, E2.
    + intros (Hb & w & Hw & Hd & E). split; [|congruence]. split; [done|].
      destruct (cores_lookup _ _ _ _ Ec Hw) as (w' & Hw' & (E1 & E2)%core_fields).
      exists w'. split; [exact Hw'|]. by rewrite E1, E2.
  - intros b w Hw Hd Hb. destruct (cores_lookup _ _ _ _ Ec Hw) as (w' & Hw' & (E1 & _)%core_fields).
    destruct (q_idle _ _ _ _ Q b w' Hw') as [Ep En]; [congruence|done|].
    assert (hlinks m' !! b = hlinks (bufs s) !! b) as El.
    { rewrite Eh. apply unlink_other; intros Hc; destruct (Hnb b) as (x & Hx & Hxd); auto; congruence. }
    rewrite (hlinks_lookup _ _ _ Hw), (hlinks_lookup _ _ _ Hw') in El. injection El as -> ->. done.
  - intros b b' w w' Hw Hw' Hb Hb' Hd E1 E2.
    destruct (cores_lookup _ _ _ _ Ec Hw) as (x & Hx & (F1 & F2)%core_fields).
    destruct (cores_lookup _ _ _ _ Ec Hw') as (x' & Hx' & (F1' & F2')%core_fields).
    eapply (q_unique _ _ _ _ Q b b' x x'); [done|done|done|done|congruence..].
Qed.

(** ** Putting a buffer into its queues *)

Lemma set_both x y m b : is_Some (m !! b) -> set_prev x (set_next y m b) b = <[b := (x, y)]> m.
Proof.
  intros [v Hv]. apply map_eq. intros c. unfold set_prev, set_next. destruct (decide (b = c)) as [->|].
  - by rewrite !lookup_alter_eq, lookup_insert_eq, Hv.
  - by rewrite !lookup_alter_ne, lookup_insert_ne.
Qed.

Lemma set_both' x y m b : is_Some (m !! b) -> set_next y (set_prev x m b) b = <[b := (x, y)]> m.
Proof.
  intros [v Hv]. apply map_eq. intros c. unfold set_prev, set_next. destruct (decide (b = c)) as [->|].
  - by rewrite !lookup_alter_eq, lookup_insert_eq, Hv.
  - by rewrite !lookup_alter_ne, lookup_insert_ne.
Qed.

Lemma set_next_insert x y z m b : set_next z (<[b := (x, y)]> m) b = <[b := (x, z)]> m.
Proof.
  apply map_eq. intros c. unfold set_next. destruct (decide (b = c)) as [->|].
  - by rewrite lookup_alter_eq, !lookup_insert_eq.
  - by rewrite lookup_alter_ne, !lookup_insert_ne.
Qed.

Lemma links_exist m b : is_Some (m !! b) -> is_Some (hlinks m !! b) /\ is_Some (flinks m !! b).
Proof. intros [v Hv]. rewrite (hlinks_lookup _ _ _ Hv), (flinks_lookup _ _ _ Hv). eauto. Qed.

Lemma appended_views bh p fl m :
  is_Some (m !! bh) ->
  hlinks (appended bh p fl m) = <[bh := (None, None)]> (hlinks m) /\
  flinks (appended bh p fl m) =
    set_prev (Some bh) (set_next (Some bh) (<[bh := (Some p, Some fl)]> (flinks m)) p) fl /\
  cores (appended bh p fl m) = cores m.
Proof.
  intros [Hh Hf]%links_exist. unfold appended. autorewrite with views.
  rewrite set_both by done. rewrite set_both' by done. done.
Qed.

(** The buffers after an insertion, for a device or without. *)
Definition inserted (bh p fl : Z) (dev : Z) (h : option Z) (m : gmap Z buffer_head) : gmap Z buffer_head :=
  if dev =? 0 then appended bh p fl m
  else opt_alter (fun x => x <| b_prev := Some bh |>) h (alter (fun x => x <| b_next := h |>) bh (appended bh p fl m)).

Lemma inserted_views bh p fl dev l m :
  is_Some (m !! bh) ->
  hlinks (inserted bh p fl dev (head l) m) =
    (if dev =? 0 then <[bh := (None, None)]> (hlinks m) else push bh l (hlinks m)) /\
  flinks (inserted bh p fl dev (head l) m) =
    set_prev (Some bh) (set_next (Some bh) (<[bh := (Some p, Some fl)]> (flinks m)) p) fl /\
  cores (inserted bh p fl dev (head l) m) = cores m.
Proof.
  intros Hm. destruct (appended_views bh p fl m Hm) as (Eh & Ef & Ec). unfold inserted.
  destruct (dev =? 0); [done|]. unfold push. destruct l as [|c l]; cbn [head opt_alter first_or];
    autorewrite with views; rewrite Eh, Ef, Ec, set_next_insert; done.
Qed.

Lemma chains_disjoint s order chains out h h' c :
  queues s order chains out -> 0 <= h < 307 -> 0 <= h' < 307 -> h <> h' -> c ∈ chains h -> c ∉ chains h'.
Proof.
  intros Q Hh Hh' Hne Hc Hc'. apply (q_in _ _ _ _ Q) in Hc as (_ & v & Hv & _ & E); [|done].
  apply (q_in _ _ _ _ Q) in Hc' as (_ & v' & Hv' & _ & E'); [|done]. congruence.
Qed.

Lemma dseg_push_out m b l p l' q : b ∉ l' -> (forall c, c ∈ l -> c ∉ l') -> dseg m p l' q -> dseg (push b l m) p l' q.
Proof.
  intros Hb Hl D. unfold push. destruct l as [|c l]; [by apply dseg_insert_out|].
  apply dseg_set_prev_out; [apply Hl; set_solver|]. by apply dseg_insert_out.
Qed.

Lemma push_other m b l c : c <> b -> c ∉ l -> push b l m !! c = m !! c.
Proof.
  intros Hc Hl. unfold push. destruct l as [|d l]; [by rewrite lookup_insert_ne|].
  unfold set_prev. rewrite lookup_alter_ne, lookup_insert_ne by set_solver. done.
Qed.

Lemma insert_exec s order chains bh v :
  queues s order chains (Some bh) -> bufs s !! bh = Some v ->
  let hh := _hashfn (b_dev v) (b_blocknr v) in
  exists p fl, last order = Some p /\ head order = Some fl /\
  insert_into_queues bh s =
    (Ret tt, s <| bufs ::= inserted bh p fl (b_dev v) (head (chains hh)) |>
               <| hash_table ::= fun t => if b_dev v =? 0 then t else <[Z.to_nat hh := Some bh]> t |>
               <| null_prev ::= fun x => if decide (b_dev v <> 0 /\ chains hh = []) then Some bh else x |>).
Proof.
  intros Q Hv hh. pose proof (hashfn_range (b_dev v) (b_blocknr v)) as Hr. fold hh in Hr.
  destruct (q_order _ _ _ _ Q) as [Hnd Hne]. pose proof (q_ring _ _ _ _ Q) as R.
  assert (bh ∉ order) as Hbo by (rewrite (q_all _ _ _ _ Q); naive_solver).
  destruct (head order) as [fl|] eqn:Efl; [|by destruct order].
  destruct (last order) as [p|] eqn:Ep; [|by apply last_None in Ep].
  exists p, fl. split; [done|]. split; [done|].
  assert (fl ∈ order) as Hfl by by apply head_in.
  assert (p ∈ order) as Hp by (apply last_Some in Ep as [l ->]; set_solver).
  pose proof Hfl as [[f Hf] _]%(q_all _ _ _ _ Q). pose proof Hp as [Hsp _]%(q_all _ _ _ _ Q).
  assert (b_prev_free f = Some p) as Epf.
  { destruct order as [|fl' order]; [done|]. injection Efl as ->. destruct R as [R _].
    rewrite (flinks_lookup _ _ _ Hf), Ep in R. naive_solver. }
  destruct (q_chain _ _ _ _ Q hh Hr) as (Et & _ & _).
  pose proof (q_head _ _ _ _ Q) as Ehd. rewrite Efl in Ehd.
  rewrite (insert_run s bh v fl p f Hv Ehd Hf Epf); [|set_solver|set_solver|done|].
  2:{ fold hh. rewrite Et. cbn. intros c Hc%head_in. apply (q_in _ _ _ _ Q) in Hc as (_ & w & Hw & _); [eauto|done]. }
  fold hh. rewrite Et. cbn [default]. unfold inserted, upd.
  destruct (Z.eqb_spec (b_dev v) 0) as [Hd|Hd].
  - rewrite decide_False by naive_solver. by destruct s.
  - destruct (chains hh); cbn [head]; [rewrite decide_True by done|rewrite decide_False by naive_solver]; by destruct s.
Qed.

Lemma insert_ok s order chains bh v :
  queues s order chains (Some bh) -> bufs s !! bh = Some v ->
  (forall b w, bufs s !! b = Some w -> b <> bh -> b_dev v <> 0 -> b_dev w = b_dev v -> b_blocknr w <> b_blocknr v) ->
  let hh := _hashfn (b_dev v) (b_blocknr v) in
  exists s', insert_into_queues bh s = (Ret tt, s') /\
    queues s' (order ++ [bh]) (fun h => if decide (b_dev v <> 0 /\ h = hh) then bh :: chains h else chains h) None /\
    cores (bufs s') = cores (bufs s) /\ only_queues s s' /\
    null_prev s' = (if decide (b_dev v <> 0 /\ chains hh = []) then Some bh else null_prev s).
Proof.
  intros Q Hv Hfresh hh. pose proof (hashfn_range (b_dev v) (b_blocknr v)) as Hr. fold hh in Hr.
  destruct (insert_exec s order chains bh v Q Hv) as (p & fl & Ep & Efl & ->). fold hh.
  destruct (inserted_views bh p fl (b_dev v) (chains hh) (bufs s) ltac:(eauto)) as (Eh & Ef & Ec).
  match goal with |- context [(Ret tt, ?x)] => set (s' := x) end. exists s'. split; [done|].
  change (inserted bh p fl (b_dev v) (head (chains hh)) (bufs s)) with (bufs s') in *.
  assert (hash_table s' = if b_dev v =? 0 then hash_table s else <[Z.to_nat hh := Some bh]> (hash_table s)) as Et' by done.
  assert (free_list s' = free_list s) as Efr by done.
  split; [|split; [exact Ec|split; [unfold s'; by destruct s|done]]]. clearbody s'.
  destruct (q_order _ _ _ _ Q) as [Hnd Hne].
  assert (bh ∉ order) as Hbo by (rewrite (q_all _ _ _ _ Q); naive_solver).
  assert (forall h, 0 <= h < 307 -> bh ∉ chains h) as Hbc
    by (intros h Hh; rewrite (q_in _ _ _ _ Q) by done; naive_solver).
  destruct (cores_lookup _ _ _ _ (eq_sym Ec) Hv) as (v' & Hv' & (Ed & Eb)%core_fields).
  split.
  - rewrite Ef. apply ring_append; [done|done|apply (q_ring _ _ _ _ Q)|done..].
  - split; [apply NoDup_app; split; [done|split; [set_solver|apply NoDup_singleton]]|by destruct order].
  - intros b. rewrite elem_of_app, list_elem_of_singleton, (q_all _ _ _ _ Q), (cores_is_Some _ _ b Ec).
    destruct (decide (b = bh)) as [->|]; [rewrite Hv|]; naive_solver.
  - rewrite Efr, (q_head _ _ _ _ Q). by destruct order.
  - rewrite Et', <- (q_table _ _ _ _ Q). destruct (_ =? _); [done|apply length_insert].
  - intros h Hh. rewrite Et', Eh. destruct (q_chain _ _ _ _ Q h Hh) as (Et & Hc & D).
    destruct (Z.eqb_spec (b_dev v) 0) as [Hd|Hd].
    + rewrite decide_False by naive_solver. split; [done|]. split; [done|]. by apply dseg_insert_out; [apply Hbc|].
    + destruct (decide (h = hh)) as [->|Hhh].
      * rewrite decide_True by done. cbn [head]. rewrite list_lookup_insert_eq by (rewrite (q_table _ _ _ _ Q); lia).
        split; [done|]. split; [by apply NoDup_cons; split; [apply Hbc|]|]. by apply dseg_push; [apply Hbc|..].
      * rewrite decide_False by naive_solver. rewrite list_lookup_insert_ne by lia. split; [done|]. split; [done|].
        apply dseg_push_out; [by apply Hbc| |done]. intros c Hc1. by eapply (chains_disjoint s _ _ _ hh h).
  - intros h b Hh. pose proof (q_in _ _ _ _ Q h b Hh) as Hin. rewrite (core_exists _ _ b (fun d k => d <> 0 /\ _hashfn d k = h) Ec).
    destruct (decide (b = bh)) as [->|Hb].
    + destruct (decide _) as [[Hd ->]|Hn]; [split; [naive_solver|set_solver]|].
      split; [intros Hc; by apply Hbc in Hc|]. rewrite Hv. naive_solver.
    + destruct (decide _) as [[Hd ->]|Hn]; rewrite ?elem_of_cons, Hin; naive_solver.
  - intros b w Hw Hd _. destruct (cores_lookup _ _ _ _ Ec Hw) as (w' & Hw' & (E1 & _)%core_fields).
    destruct (decide (b = bh)) as [->|Hb].
    + assert (b_dev v = 0) as Hd0 by congruence. rewrite Hd0 in Eh. cbn in Eh.
      apply hlinks_lookup in Hw. rewrite Eh, lookup_insert_eq in Hw. naive_solver.
    + destruct (q_idle _ _ _ _ Q b w' Hw') as [Ep' En]; [congruence|naive_solver|].
      assert (hlinks (bufs s') !! b = hlinks (bufs s) !! b) as El.
      { rewrite Eh. destruct (_ =? 0); [by rewrite lookup_insert_ne|]. apply push_other; [done|].
        intros Hc. apply (q_in _ _ _ _ Q) in Hc as (_ & x & Hx & Hxd & _); [|done]. congruence. }
      rewrite (hlinks_lookup _ _ _ Hw), (hlinks_lookup _ _ _ Hw') in El. injection El as -> ->. done.
  - intros b b' w w' Hw Hw' _ _ Hd E1 E2.
    destruct (cores_lookup _ _ _ _ Ec Hw) as (x & Hx & (F1 & F2)%core_fields).
    destruct (cores_lookup _ _ _ _ Ec Hw') as (x' & Hx' & (F1' & F2')%core_fields).
    destruct (decide (b = bh)) as [->|Hb]; destruct (decide (b' = bh)) as [->|Hb']; [done| | |].
    + exfalso. apply (Hfresh b' x' Hx' Hb'); congruence.
    + exfalso. apply (Hfresh b x Hx Hb); congruence.
    + eapply (q_unique _ _ _ _ Q b b' x x'); [done|done|naive_solver|naive_solver|congruence..].
Qed.

(** ** Looking for a block *)

Lemma find_in_chain_ok s dev block n p l :
  dseg (hlinks (bufs s)) p l None -> (length l <= n)%nat ->
  exists r, find_in_chain n (head l) dev block s = (Ret r, s) /\
    match r with
    | Some b => b ∈ l /\ exists v, bufs s !! b = Some v /\ b_dev v = dev /\ b_blocknr v = block
    | None => forall b v, b ∈ l -> bufs s !! b = Some v -> b_dev v = dev -> b_blocknr v <> block
    end.
Proof.
  revert n p. induction l as [|b l IH]; intros n p D Hn.
  - exists None. destruct n; (split; [done|]); set_solver.
  - destruct n as [|n]; cbn [length] in Hn; [lia|]. destruct D as [E D].
    destruct (bufs s !! b) as [v|] eqn:Hv; [|unfold hlinks in E; by rewrite lookup_fmap, Hv in E].
    rewrite (hlinks_lookup _ _ _ Hv) in E. injection E as _ En.
    cbn [find_in_chain head]. mrun (get_bh_run b v s Hv).
    destruct ((b_dev v =? dev) && (b_blocknr v =? block)) eqn:Ek.
    + apply andb_true_iff in Ek as [E1%Z.eqb_eq E2%Z.eqb_eq]. exists (Some b). split; [done|]. set_solver.
    + destruct (IH n (Some b) D ltac:(lia)) as (r & Er & Hr). rewrite En.
      replace (first_or l None) with (head l) by by destruct l. exists r. split; [done|].
      apply andb_false_iff in Ek. rewrite !Z.eqb_neq in Ek.
      destruct r as [c|]; [set_solver|]. intros c w [->|Hc]%elem_of_cons Hw; [|by apply (Hr c w)].
      rewrite Hv in Hw. injection Hw as <-. naive_solver.
Qed.

Lemma length_le_size (l : list Z) (m : gmap Z buffer_head) :
  NoDup l -> (forall b, b ∈ l -> is_Some (m !! b)) -> (length l <= size m)%nat.
Proof.
  intros Hnd Hin. rewrite <- (size_dom (D := gset Z)). rewrite <- (size_list_to_set (C := gset Z) l) by done.
  apply subseteq_size. intros b Hb. apply elem_of_dom, Hin. by apply elem_of_list_to_set in Hb.
Qed.

Lemma find_buffer_ok s order chains dev block :
  queues s order chains None -> dev <> 0 ->
  exists r, find_buffer dev block s = (Ret r, s) /\
    forall b, r = Some b <-> exists v, bufs s !! b = Some v /\ b_dev v = dev /\ b_blocknr v = block.
Proof.
  intros Q Hdev. pose proof (hashfn_range dev block) as Hr.
  destruct (q_chain _ _ _ _ Q _ Hr) as (Et & Hnd & D).
  destruct (find_in_chain_ok s dev block (size (bufs s)) None _ D) as (r & Er & Hres).
  { apply length_le_size; [done|]. intros b Hb. apply (q_in _ _ _ _ Q) in Hb as (_ & v & Hv & _); [eauto|done]. }
  exists r. unfold find_buffer, hash. rewrite bind_get, bind_gets, Et. split; [done|].
  intros b. split.
  - intros ->. naive_solver.
  - intros (v & Hv & Ed & Eb). destruct r as [c|].
    + destruct Hres as (_ & w & Hw & Ed' & Eb'). f_equal.
      apply (q_unique _ _ _ _ Q b c v w Hv Hw); congruence.
    + exfalso. apply (Hres b v); [|done..]. apply (q_in _ _ _ _ Q); [done|]. split; [done|].
      exists v. rewrite Ed, Eb. done.
Qed.

(** ** Giving a buffer to another block *)

Lemma queues_upd s order chains out b f :
  queues s order chains out ->
  (forall v, (b_prev (f v), b_next (f v)) = (b_prev v, b_next v)) ->
  (forall v, (b_prev_free (f v), b_next_free (f v)) = (b_prev_free v, b_next_free v)) ->
  (forall v, (b_dev (f v), b_blocknr (f v)) = (b_dev v, b_blocknr v)) \/ out = Some b ->
  queues (s <| bufs ::= alter f b |>) order chains out.
Proof.
  intros Q Hh Hf Hk.
  assert (hlinks (alter f b (bufs s)) = hlinks (bufs s)) as Eh by by apply fmap_alter_same.
  assert (flinks (alter f b (bufs s)) = flinks (bufs s)) as Ef by by apply fmap_alter_same.
  assert (forall c v, alter f b (bufs s) !! c = Some v -> exists v0, bufs s !! c = Some v0 /\
    (out <> Some c -> b_dev v0 = b_dev v /\ b_blocknr v0 = b_blocknr v)) as Hback.
  { intros c v. destruct (decide (b = c)) as [->|]; [|rewrite lookup_alter_ne by done; eauto].
    rewrite lookup_alter_eq. destruct (bufs s !! c) as [v0|]; [|done]. cbn. intros [= <-]. exists v0. split; [done|].
    intros Ho. destruct Hk as [Hk|]; [|done]. pose proof (Hk v0). naive_solver. }
  assert (forall c v0, bufs s !! c = Some v0 -> exists v, alter f b (bufs s) !! c = Some v /\
    (out <> Some c -> b_dev v0 = b_dev v /\ b_blocknr v0 = b_blocknr v)) as Hforth.
  { intros c v0 Hv0. destruct (decide (b = c)) as [->|]; [|rewrite lookup_alter_ne by done; eauto].
    rewrite lookup_alter_eq, Hv0. cbn. eexists. split; [done|]. intros Ho. destruct Hk as [Hk|]; [|done].
    pose proof (Hk v0). naive_solver. }
  split; try apply Q.
  - change (ring_of (flinks (alter f b (bufs s))) order). rewrite Ef. apply Q.
  - intros c. change (c ∈ order <-> is_Some (alter f b (bufs s) !! c) /\ out <> Some c).
    rewrite lookup_alter_is_Some. apply Q.
  - intros h Hr. destruct (q_chain _ _ _ _ Q h Hr) as (E1 & E2 & E3). split; [done|]. split; [done|].
    change (dseg (hlinks (alter f b (bufs s))) None (chains h) None). by rewrite Eh.
  - intros h c Hr. rewrite (q_in _ _ _ _ Q h c Hr). split; intros (Ho & v & Hv & Hd & E); split; try done.
    + destruct (Hforth c v Hv) as (w & Hw & Hsame). destruct (Hsame Ho) as [E1 E2]. exists w. split; [exact Hw|].
      by rewrite <- E1, <- E2.
    + destruct (Hback c v Hv) as (w & Hw & Hsame). destruct (Hsame Ho) as [E1 E2]. exists w. split; [exact Hw|].
      by rewrite E1, E2.
  - intros c v Hv Hd Ho. destruct (Hback c v Hv) as (w & Hw & Hsame). destruct (Hsame Ho) as [E1 E2].
    apply hlinks_lookup in Hv. change (hlinks (alter f b (bufs s)) !! c = Some (b_prev v, b_next v)) in Hv.
    rewrite Eh, (hlinks_lookup _ _ _ Hw) in Hv. injection Hv as <- <-. apply (q_idle _ _ _ _ Q c w Hw); congruence.
  - intros c c' v v' Hv Hv' Ho Ho' Hd E1 E2.
    destruct (Hback c v Hv) as (w & Hw & Hs). destruct (Hback c' v' Hv') as (w' & Hw' & Hs').
    destruct (Hs Ho), (Hs' Ho'). eapply (q_unique _ _ _ _ Q c c' w w'); congruence.
Qed.

Lemma alter_at (f : buffer_head -> buffer_head) b (m : gmap Z buffer_head) v :
  m !! b = Some v -> alter f b m !! b = Some (f v).
Proof. intros Hv. by rewrite lookup_alter_eq, Hv. Qed.

Lemma cores_alter f b m v : m !! b = Some v -> cores (alter f b m) = <[b := core (f v)]> (cores m).
Proof.
  intros Hv. apply map_eq. intros c. unfold cores. rewrite lookup_fmap. destruct (decide (b = c)) as [->|].
  - by rewrite lookup_alter_eq, lookup_insert_eq, Hv.
  - by rewrite lookup_alter_ne, lookup_insert_ne, lookup_fmap.
Qed.

Lemma only_queues_trans s s1 s2 : only_queues s s1 -> only_queues s1 s2 -> only_queues s s2.
Proof. unfold only_queues. intros E1 E2. rewrite E2, E1. by destruct s. Qed.

Lemma only_queues_bufs s f : only_queues s (s <| bufs ::= f |>).
Proof. by destruct s. Qed.

(** The core of a buffer that was just given to a block. *)
Definition fresh_core (v : buffer_head) (dev block : Z) : list Z * Z * Z * Z * Z * Z * Z :=
  (b_data v, block, dev, 0, 0, 1, b_lock v).

Lemma take_buffer_ok s order chains bh v dev block :
  queues s order chains None -> bufs s !! bh = Some v -> (2 <= length order)%nat ->
  0 < dev < 65536 -> 0 <= block < 4294967296 ->
  (forall b w, bufs s !! b = Some w -> b_dev w = dev -> b_blocknr w <> block) ->
  exists s' chains', take_buffer bh dev block s = (Ret tt, s') /\
    queues s' (without bh order ++ [bh]) chains' None /\
    cores (bufs s') = <[bh := fresh_core v dev block]> (cores (bufs s)) /\ only_queues s s'.
Proof.
  intros Q Hv Hlen Hdev Hblock Hfresh. unfold take_buffer.
  set (f1 := fun b => b <| b_count := 1 |>). set (f2 := fun b => b <| b_dirt := 0 |>).
  set (f3 := fun b => b <| b_uptodate := 0 |>).
  mrun (upd_bh_alter bh f1 s ltac:(eauto)). set (s1 := s <| bufs ::= _ |>).
  assert (bufs s1 !! bh = Some (f1 v)) as Hv1 by exact (alter_at _ _ _ _ Hv).
  mrun (upd_bh_alter bh f2 s1 ltac:(eauto)). set (s2 := s1 <| bufs ::= _ |>).
  assert (bufs s2 !! bh = Some (f2 (f1 v))) as Hv2 by exact (alter_at _ _ _ _ Hv1).
  mrun (upd_bh_alter bh f3 s2 ltac:(eauto)). set (s3 := s2 <| bufs ::= _ |>).
  assert (bufs s3 !! bh = Some (f3 (f2 (f1 v)))) as Hv3 by exact (alter_at _ _ _ _ Hv2).
  assert (cores (bufs s3) = <[bh := core (f3 (f2 (f1 v)))]> (cores (bufs s))) as E3.
  { change (bufs s3) with (alter f3 bh (bufs s2)). rewrite (cores_alter _ _ _ _ Hv2).
    change (bufs s2) with (alter f2 bh (bufs s1)). rewrite (cores_alter _ _ _ _ Hv1).
    change (bufs s1) with (alter f1 bh (bufs s)). rewrite (cores_alter _ _ _ _ Hv). by rewrite !insert_insert_eq. }
  assert (queues s3 order chains None) as Q3 by (repeat (apply queues_upd; [|done|done|by left]); exact Q).
  assert (only_queues s s3) as O3 by by destruct s.
  assert (bh ∈ order) as Hin by (apply (q_all _ _ _ _ Q); eauto).
  clearbody s3. destruct (remove_ok s3 order chains bh Q3 Hin Hlen) as (s4 & E4 & Q4 & Ec4 & O4). mrun E4.
  destruct (cores_lookup _ _ _ _ (eq_sym Ec4) Hv3) as (v4 & Hv4 & Ev4).
  mrun (upd_bh_alter bh (fun b => b <| b_dev := u16 dev |>) s4 ltac:(eauto)). set (s5 := s4 <| bufs ::= _ |>).
  assert (bufs s5 !! bh = Some (v4 <| b_dev := u16 dev |>)) as Hv5 by exact (alter_at _ _ _ _ Hv4).
  mrun (upd_bh_alter bh (fun b => b <| b_blocknr := u32 block |>) s5 ltac:(eauto)). set (s6 := s5 <| bufs ::= _ |>).
  set (v6 := v4 <| b_dev := u16 dev |> <| b_blocknr := u32 block |>).
  assert (bufs s6 !! bh = Some v6) as Hv6 by exact (alter_at _ _ _ _ Hv5).
  assert (cores (bufs s6) = <[bh := core v6]> (cores (bufs s))) as E6.
  { change (bufs s6) with (alter (fun b => b <| b_blocknr := u32 block |>) bh (bufs s5)).
    rewrite (cores_alter _ _ _ _ Hv5). change (bufs s5) with (alter (fun b => b <| b_dev := u16 dev |>) bh (bufs s4)).
    rewrite (cores_alter _ _ _ _ Hv4), Ec4, E3. by rewrite !insert_insert_eq. }
  assert (core v6 = fresh_core v dev block) as Ev6.
  { injection Ev4 as X1 _ _ X4 X5 X6 X7. unfold core, fresh_core, v6, upd. cbn -[u16 u32].
    rewrite X1, X4, X5, X6, X7, u16_small, u32_small by lia. done. }
  rewrite Ev6 in E6. assert (queues s6 (without bh order) (fun h => without bh (chains h)) (Some bh)) as Q6
    by (repeat (apply queues_upd; [|done|done|by right]); exact Q4).
  assert (b_dev v6 = dev) as Ed by (apply u16_small; lia).
  assert (b_blocknr v6 = block) as Eb by (apply u32_small; lia). clearbody v6.
  destruct (insert_ok s6 _ _ bh v6 Q6 Hv6) as (s7 & E7 & Q7 & Ec7 & O7 & _).
  { intros b w Hw Hb _ Ewd Ewb. assert (cores (bufs s6) !! b = Some (core w)) as Hcw by (unfold cores; by rewrite lookup_fmap, Hw).
    rewrite E6, lookup_insert_ne in Hcw by done. unfold cores in Hcw. rewrite lookup_fmap in Hcw.
    destruct (bufs s !! b) as [w0|] eqn:Hw0; [|done]. injection Hcw as _ F1 F2 _ _ _ _.
    apply (Hfresh b w0 Hw0); congruence. }
  eexists s7, _. split; [exact E7|]. split; [exact Q7|]. split; [by rewrite Ec7|].
  eapply only_queues_trans; [exact O3|]. eapply only_queues_trans; [exact O4|].
  eapply only_queues_trans; [|exact O7]. by destruct s4.
Qed.
End Queues.
