(* ===== verification/GetblkSpec.v ===== *)
(** [getblk] finds the buffer of a block, or gives it the least recently used one that is
    free and clean; [bread] then reads it. *)

From S2P Require Import Prelude FsDefs FsLemmas Buffer DList BufferSpec.

Section Getblk.
Context `{FsEnv}.

Lemma wait_unlocked n s b v : bufs s !! b = Some v -> b_lock v = 0 -> wait_buffer (S n) b s = (Ret tt, s).
Proof. intros Hv Hl. cbn [wait_buffer]. mrun (get_bh_run b v s Hv). by rewrite Hl. Qed.

Lemma wait_on_unlocked s b v : fuel <> O -> bufs s !! b = Some v -> b_lock v = 0 -> wait_on_buffer b s = (Ret tt, s).
Proof. intros Hf Hv Hl. unfold wait_on_buffer. destruct fuel; [done|]. by eapply wait_unlocked. Qed.

(** ** The search of the free list *)

(** A buffer that the search takes at once, and one that it passes over for it. *)
Definition ready (v : buffer_head) : Prop := b_count v = 0 /\ b_dirt v = 0 /\ b_lock v = 0.
Definition passed (v : buffer_head) : Prop := b_count v <> 0 \/ 0 < BADNESS v.

Lemma ready_badness v : ready v -> BADNESS v = 0.
Proof. intros (_ & Hd & Hl). unfold BADNESS. by rewrite Hd, Hl. Qed.

Lemma scan_free_ok s order pre suf b v n best :
  ring_of (flinks (bufs s)) order -> NoDup order -> free_list s = head order -> order = pre ++ suf ->
  match best with None => True | Some x => exists w, bufs s !! x = Some w /\ 0 < BADNESS w end ->
  (exists l1 l2, suf = l1 ++ b :: l2 /\ (length l1 < n)%nat /\
     forall c, c ∈ l1 -> exists w, bufs s !! c = Some w /\ passed w) ->
  bufs s !! b = Some v -> ready v ->
  exists c, head suf = Some c /\ scan_free n c best s = (Ret (Some b), s).
Proof.
  intros R Hnd Hfl Eo Hbest (l1 & l2 & -> & Hn & Hl1) Hv Hready. revert pre n best Eo Hbest Hn.
  induction l1 as [|c l1 IH]; intros pre n best Eo Hbest Hn; (destruct n as [|n]; [cbn in Hn; lia|]); cbn [app head].
  - exists b. split; [done|]. cbn [scan_free]. mrun (get_bh_run b v s Hv).
    pose proof (ready_badness v Hready) as Hbad. destruct Hready as (-> & _ & _). rewrite Hbad.
    destruct best as [x|].
    + destruct Hbest as (w & Hw & Hpos). rewrite bind_assoc. mrun (get_bh_run x w s Hw). rewrite bind_ret.
      destruct (Z.ltb_spec 0 (BADNESS w)); [done|lia].
    + done.
  - exists c. split; [done|]. destruct (Hl1 c ltac:(set_solver)) as (w & Hw & Hpass).
    assert (exists nx, b_next_free w = Some nx /\ head (l1 ++ b :: l2) = Some nx /\ free_list s <> Some nx) as (nx & Enx & Hnx & Hfn).
    { unfold ring_of in R. rewrite Eo in R. apply dseg_app in R as [_ R]. destruct R as [R _].
      rewrite (flinks_lookup _ _ _ Hw) in R. injection R as _ Enx.
      destruct (l1 ++ b :: l2) as [|nx rest] eqn:El; [by destruct l1|]. exists nx. split; [done|]. split; [done|].
      rewrite Eo in Hnd, Hfl. cbn [app] in Hnd. rewrite El in Hnd. rewrite Hfl.
      destruct pre as [|y pre]; cbn [app head]; intros [= ->]; apply NoDup_cons in Hnd as [Hc _]; apply Hc.
      - apply list_elem_of_here.
      - apply elem_of_app. right. apply list_elem_of_further, list_elem_of_here. }
    cbn [scan_free]. mrun (get_bh_run c w s Hw).
    set (old := match best with None => mret None | Some x => v ← get_bh x; mret (Some v) end).
    assert (exists o, old s = (Ret o, s)) as [o Eold].
    { unfold old. destruct best as [x|]; [|by eexists]. destruct Hbest as (w' & Hw' & _).
      mrun (get_bh_run x w' s Hw'). by eexists. }
    mrun Eold. clear Eold old. set (better := (b_count w =? 0) && _).
    assert (better && (BADNESS w =? 0) = false) as ->.
    { unfold better. destruct Hpass as [Hc|Hpos]; [by rewrite (proj2 (Z.eqb_neq _ _) Hc)|].
      rewrite (proj2 (Z.eqb_neq (BADNESS w) 0)) by lia. apply andb_false_r. }
    rewrite Enx. unfold of_option. rewrite bind_ret, bind_get, bool_decide_false by done.
    destruct (IH ltac:(intros x Hx; apply Hl1; set_solver) (pre ++ [c]) n (if better then Some c else best))
      as (nx' & Hnx' & E); [by rewrite <- app_assoc| |cbn in Hn; lia|].
    + unfold better. destruct (b_count w =? 0) eqn:Ec; [|done]. cbn [andb].
      destruct Hpass as [Hc|Hpos]; [by apply Z.eqb_eq in Ec|].
      destruct o as [v'|]; [destruct (_ <? _)|]; eauto.
    + rewrite Hnx in Hnx'. injection Hnx' as <-. exact E.
Qed.

(** ** getblk *)

Definition count_up (v : buffer_head) : buffer_head := v <| b_count := u8 (b_count v + 1) |>.

Lemma hash_hit s order chains b v dev block :
  fuel <> O -> queues s order chains None -> dev <> 0 ->
  bufs s !! b = Some v -> b_dev v = dev -> b_blocknr v = block -> b_lock v = 0 ->
  get_hash_table dev block s = (Ret (Some b), s <| bufs ::= alter count_up b |>).
Proof.
  intros Hf Q Hdev Hv Ed Eb Hl. destruct (find_buffer_ok s order chains dev block Q Hdev) as (r & Er & Hr).
  rewrite (proj2 (Hr b)) in Er by eauto. unfold get_hash_table. destruct fuel as [|n] eqn:En; [done|].
  cbn [get_hash_loop]. mrun Er. mrun (upd_bh_alter b count_up s ltac:(eauto)). set (s1 := s <| bufs ::= _ |>).
  assert (bufs s1 !! b = Some (count_up v)) as Hv1 by exact (alter_at _ _ _ _ Hv).
  rewrite (bind_Ret _ _ _ _ _ (wait_on_unlocked s1 b (count_up v) ltac:(by rewrite En) Hv1 Hl)).
  mrun (get_bh_run b _ s1 Hv1). change (b_dev (count_up v)) with (b_dev v).
  change (b_blocknr (count_up v)) with (b_blocknr v). by rewrite Ed, Eb, !Z.eqb_refl.
Qed.

Lemma hash_miss s order chains dev block :
  fuel <> O -> queues s order chains None -> dev <> 0 ->
  (forall b w, bufs s !! b = Some w -> b_dev w = dev -> b_blocknr w <> block) ->
  find_buffer dev block s = (Ret None, s) /\ get_hash_table dev block s = (Ret None, s).
Proof.
  intros Hf Q Hdev Hno. destruct (find_buffer_ok s order chains dev block Q Hdev) as (r & Er & Hr).
  assert (r = None) as ->.
  { destruct r as [b|]; [|done]. destruct (proj1 (Hr b) eq_refl) as (v & Hv & E1 & E2). by destruct (Hno b v Hv E1). }
  split; [done|]. unfold get_hash_table. destruct fuel; [done|]. cbn [get_hash_loop]. by mrun Er.
Qed.

Lemma getblk_hit s order chains b v dev block :
  fuel <> O -> queues s order chains None -> dev <> 0 ->
  bufs s !! b = Some v -> b_dev v = dev -> b_blocknr v = block -> b_lock v = 0 ->
  getblk dev block s = (Ret (Some b), s <| bufs ::= alter count_up b |>).
Proof.
  intros Hf Q Hdev Hv Ed Eb Hl. pose proof (hash_hit _ _ _ _ _ _ _ Hf Q Hdev Hv Ed Eb Hl) as E.
  unfold getblk. destruct fuel as [|n] eqn:En; [done|]. cbn [getblk_depth]. rewrite En. cbn [getblk_loop]. by mrun E.
Qed.

Lemma getblk_miss s order chains l1 b l2 v dev block :
  fuel <> O -> queues s order chains None -> 0 < dev < 65536 -> 0 <= block < 4294967296 ->
  (forall c w, bufs s !! c = Some w -> b_dev w = dev -> b_blocknr w <> block) ->
  order = l1 ++ b :: l2 -> (2 <= length order)%nat -> bufs s !! b = Some v -> ready v ->
  (forall c w, c ∈ l1 -> bufs s !! c = Some w -> passed w) ->
  exists s' chains', getblk dev block s = (Ret (Some b), s') /\ queues s' (l1 ++ l2 ++ [b]) chains' None /\
    cores (bufs s') = <[b := fresh_core v dev block]> (cores (bufs s)) /\ only_queues s s'.
Proof.
  intros Hf Q Hdev Hblock Hno Eo Hlen Hv Hready Hpass.
  destruct (hash_miss s order chains dev block Hf Q ltac:(lia) Hno) as [Efind Ehash].
  destruct (take_buffer_ok s order chains b v dev block Q Hv Hlen Hdev Hblock Hno) as (s' & chains' & E & Q' & Ec & O).
  pose proof (q_order _ _ _ _ Q) as [Hnd _]. rewrite Eo, without_split, <- app_assoc in Q' by (by rewrite <- Eo).
  exists s', chains'. split; [|done].
  assert (forall c, c ∈ order -> is_Some (bufs s !! c)) as Hex by (intros c Hc; by apply (q_all _ _ _ _ Q)).
  destruct (scan_free_ok s order [] order b v (size (bufs s)) None) as (fl & Efl & Escan);
    [apply Q|done|apply Q|done|done| |done|done|].
  { exists l1, l2. split; [done|]. split.
    - pose proof (length_le_size order (bufs s) Hnd Hex) as Hle. rewrite Eo, length_app in Hle. cbn in Hle. lia.
    - intros c Hc. destruct (Hex c) as [w Hw]; [rewrite Eo; set_solver|]. eauto. }
  pose proof Hready as (Hcount & Hdirt & Hlock).
  unfold getblk. destruct fuel as [|n] eqn:En; [done|]. cbn [getblk_depth]. rewrite En. cbn [getblk_loop].
  mrun Ehash. rewrite bind_get, (q_head _ _ _ _ Q), Efl. unfold of_option. rewrite bind_ret. mrun Escan.
  rewrite (bind_Ret _ _ _ _ _ (wait_on_unlocked s b v ltac:(by rewrite En) Hv Hlock)).
  mrun (get_bh_run b v s Hv). rewrite Hcount. cbn [istrue negb Z.eqb]. rewrite En. cbn [flush].
  rewrite bind_assoc. mrun (get_bh_run b v s Hv). rewrite Hdirt. cbn [istrue negb Z.eqb]. rewrite bind_ret.
  mrun Efind. by mrun E.
Qed.
End Getblk.

(** ** Initialisation *)

(** Where the blocks lie when the buffer memory ends at [e]: from [e] down to 1 MB, then from
    640 KB down. *)
Definition block_at (e k : Z) : Z :=
  let high := (e - 0x100000) / 1024 in
  if k <? high then e - 1024 * (k + 1) else 0xA0000 - 1024 * (k + 1 - high).

(** The value of [b] before block [k] is placed. *)
Definition cursor (e k : Z) : Z := block_at e k + 1024.

Lemma cursor_step e k :
  0 <= k -> 0x100000 <= e -> e mod 1024 = 0 ->
  (if block_at e k =? 0x100000 then 0xA0000 else block_at e k) = cursor e (k + 1).
Proof.
  intros Hk He Hm. unfold cursor, block_at. pose proof (Z.div_mod (e - 0x100000) 1024 ltac:(lia)) as Hd.
  assert ((e - 0x100000) mod 1024 = 0) as E0 by (rewrite Zminus_mod, Hm; reflexivity). rewrite E0 in Hd.
  set (q := (e - 0x100000) / 1024) in *. destruct (Z.ltb_spec k q), (Z.ltb_spec (k + 1) q); match goal with |- context [?a =? 0x100000] => destruct (Z.eqb_spec a 0x100000) end; lia.
Qed.

Lemma cursor_first e : 0x100000 <= e -> e mod 1024 = 0 -> (if e =? 0x100000 then 640 * 1024 else e) = cursor e 0.
Proof.
  intros He Hm. unfold cursor, block_at. pose proof (Z.div_mod (e - 0x100000) 1024 ltac:(lia)) as Hd.
  assert ((e - 0x100000) mod 1024 = 0) as E0 by (rewrite Zminus_mod, Hm; reflexivity). rewrite E0 in Hd.
  set (q := (e - 0x100000) / 1024) in *. destruct (Z.eqb_spec e 0x100000), (Z.ltb_spec 0 q); lia.
Qed.

(** The blocks lie apart, below [e] and outside the memory of the display and the BIOS. *)
Lemma block_at_apart e j k : 0 <= j < k -> 0x100000 <= e -> block_at e k + 1024 <= block_at e j.
Proof.
  intros Hj He. unfold block_at. pose proof (Z.div_mod (e - 0x100000) 1024 ltac:(lia)).
  pose proof (Z.mod_pos_bound (e - 0x100000) 1024 ltac:(lia)). set (q := (e - 0x100000) / 1024) in *.
  destruct (Z.ltb_spec k q), (Z.ltb_spec j q); lia.
Qed.

Lemma block_at_hole e k :
  0 <= k -> 0x100000 <= e -> block_at e k + 1024 <= e /\ (block_at e k + 1024 <= 0xA0000 \/ 0x100000 <= block_at e k).
Proof.
  intros Hk He. unfold block_at. pose proof (Z.div_mod (e - 0x100000) 1024 ltac:(lia)).
  pose proof (Z.mod_pos_bound (e - 0x100000) 1024 ltac:(lia)). set (q := (e - 0x100000) / 1024) in *.
  destruct (Z.ltb_spec k q); lia.
Qed.

(** [s'] is [s] with the heads [k] to [n - 1] filled in. *)
Record filled (rh : Z -> buffer_head) (rb : Z -> list Z) (e k n : Z) (s s' : fs) : Prop := {
  fi_bufs : forall i, bufs s' !! i = if decide (k <= i < n) then Some (init_head rh rb i (block_at e i)) else bufs s !! i;
  fi_addr : forall i, block_addr s' !! i = if decide (k <= i < n) then Some (block_at e i) else block_addr s !! i;
  fi_rest : s' = s <| bufs := bufs s' |> <| block_addr := block_addr s' |> <| nr_buffers := nr_buffers s + (n - k) |>
}.

Lemma filled_none rh rb e k s : filled rh rb e k k s s.
Proof.
  split; [intros i; by rewrite decide_False by lia..|]. rewrite Z.sub_diag, Z.add_0_r. by destruct s.
Qed.

Lemma filled_step rh rb e k n s s1 s' :
  k < n -> s1 = s <| bufs ::= <[k := init_head rh rb k (block_at e k)]> |> <| block_addr ::= <[k := block_at e k]> |> <| nr_buffers ::= Z.succ |> ->
  filled rh rb e (k + 1) n s1 s' -> filled rh rb e k n s s'.
Proof.
  intros Hk -> [Hb Ha Hr]. split.
  - intros i. rewrite Hb. change (bufs (_ <| nr_buffers ::= Z.succ |>)) with (<[k := init_head rh rb k (block_at e k)]> (bufs s)).
    destruct (decide (k = i)) as [<-|]; [rewrite decide_False, decide_True by lia; apply lookup_insert_eq|].
    rewrite lookup_insert_ne by done. repeat case_decide; (done || lia).
  - intros i. rewrite Ha. change (block_addr (_ <| nr_buffers ::= Z.succ |>)) with (<[k := block_at e k]> (block_addr s)).
    destruct (decide (k = i)) as [<-|]; [rewrite decide_False, decide_True by lia; apply lookup_insert_eq|].
    rewrite lookup_insert_ne by done. repeat case_decide; (done || lia).
  - replace (nr_buffers s + (n - k)) with (Z.succ (nr_buffers s) + (n - (k + 1))) by lia. exact Hr.
Qed.

Lemma place_buffers_run rh rb start e fuel k s :
  1024 <= start -> 0x100000 <= e < 4294967296 -> e mod 1024 = 0 -> 0 <= k ->
  1024 <= cursor e k -> cursor e k < 1024 * Z.of_nat fuel ->
  exists n s', place_buffers rh rb start fuel k (cursor e k) s = (Ret n, s') /\ k <= n /\ filled rh rb e k n s s' /\
    (forall i, k <= i < n -> start + head_size * (i + 1) <= block_at e i) /\ block_at e n < start + head_size * (n + 1).
Proof.
  intros Hs He Hm. change head_size with 36. revert k s. induction fuel as [|fuel IH]; intros k s Hk Hlo Hf; [lia|].
  cbn [place_buffers]. change BLOCK_SIZE with 1024. change head_size with 36.
  pose proof (block_at_hole e k Hk (proj1 He)) as [Htop _]. unfold cursor in Hlo, Hf.
  assert (u32 (cursor e k - 1024) = block_at e k) as -> by (unfold cursor; rewrite u32_small; lia).
  destruct (Z.ltb_spec (block_at e k) (start + 36 * (k + 1))) as [Hlt|Hge].
  { exists k, s. split; [reflexivity|]. split; [lia|]. split; [apply filled_none|]. split; [lia|exact Hlt]. }
  rewrite !bind_modify, (cursor_step e k Hk (proj1 He) Hm).
  assert (block_at e (k + 1) + 1024 <= block_at e k) as Hnext by (apply block_at_apart; lia).
  assert (1024 <= cursor e (k + 1)) as Hc1 by (rewrite <- cursor_step by lia; destruct (_ =? _); lia).
  destruct (IH (k + 1) (s <| bufs ::= <[k := init_head rh rb k (block_at e k)]> |> <| block_addr ::= <[k := block_at e k]> |>
    <| nr_buffers ::= Z.succ |>)) as (n & s' & E & Hn & Hfill & Hroom & Hlast); [lia|exact Hc1|unfold cursor; lia|].
  exists n, s'. split; [exact E|]. split; [lia|]. split; [eapply (filled_step rh rb e k n s); [lia|reflexivity|exact Hfill]|].
  split; [|exact Hlast]. intros i Hi. destruct (decide (i = k)) as [->|]; [exact Hge|]. apply Hroom. lia.
Qed.

(** The hash table after its loop. *)
Lemma clear_table n k s :
  for_each (seqZ k n) (fun i => modify (fun s : fs => s <| hash_table ::= <[Z.to_nat i := None]> |>)) s =
  (Ret tt, s <| hash_table ::= fun t => foldl (fun t i => <[Z.to_nat i := None]> t) t (seqZ k n) |>).
Proof.
  generalize (seqZ k n) as l. intros l. revert s. induction l as [|i l IH]; intros s; cbn [for_each foldl]; [by destruct s|].
  rewrite bind_modify. exact (IH (s <| hash_table ::= <[Z.to_nat i := None]> |>)).
Qed.

Lemma cleared (t : list (option Z)) :
  length t = 307%nat -> foldl (fun t i => <[Z.to_nat i := None]> t) t (seqZ 0 NR_HASH) = replicate 307 None.
Proof.
  intros Hl. do 307 (destruct t as [|? t]; [discriminate Hl|]). destruct t; [reflexivity|discriminate Hl].
Qed.

(** The heads [0] to [n - 1], in a ring of the free list and on no hash queue. *)
Definition fresh (m : gmap Z buffer_head) (n : Z) : Prop :=
  forall k, match m !! k with
  | Some v => 0 <= k < n /\ b_dev v = 0 /\ b_prev v = None /\ b_next v = None /\
      b_prev_free v = Some (if k =? 0 then n - 1 else k - 1) /\ b_next_free v = Some (if k =? n - 1 then 0 else k + 1)
  | None => ~ 0 <= k < n
  end.

Lemma fresh_at m n k : fresh m n -> 0 <= k < n -> exists v, m !! k = Some v /\
  b_prev_free v = Some (if k =? 0 then n - 1 else k - 1) /\ b_next_free v = Some (if k =? n - 1 then 0 else k + 1).
Proof. intros F Hk. specialize (F k). destruct (m !! k) as [v|]; [|done]. exists v. split; [done|]. apply F. Qed.

Lemma fresh_ring m n j k :
  fresh m n -> 0 <= k -> k + j = n -> 0 <= j ->
  dseg (flinks m) (Some (if k =? 0 then n - 1 else k - 1)) (seqZ k j) (Some 0).
Proof.
  intros F Hk Hj Hj0. remember (Z.to_nat j) as i eqn:Ei. revert k j Hk Hj Hj0 Ei.
  induction i as [|i IH]; intros k j Hk Hj Hj0 Ei.
  - replace j with 0 by lia. done.
  - rewrite seqZ_cons by lia. split.
    + destruct (fresh_at m n k F ltac:(lia)) as (v & Hv & Hp & Hn). unfold flinks. rewrite lookup_fmap, Hv. cbn -[seqZ]. rewrite Hp, Hn.
      destruct (Z.eqb_spec k (n - 1)); [by replace (Z.pred j) with 0 by lia|]. by rewrite seqZ_cons by lia.
    + specialize (IH (Z.succ k) (Z.pred j) ltac:(lia) ltac:(lia) ltac:(lia) ltac:(lia)).
      destruct (Z.eqb_spec (Z.succ k) 0); [lia|]. by replace (Z.succ k - 1) with k in IH by lia.
Qed.

Lemma fresh_queues s n :
  1 <= n -> fresh (bufs s) n -> free_list s = Some 0 -> hash_table s = replicate 307 None ->
  queues s (seqZ 0 n) (fun _ => []) None.
Proof.
  intros Hn F Ef Eh.
  assert (forall b v, bufs s !! b = Some v -> b_dev v = 0 /\ b_prev v = None /\ b_next v = None) as Hinit.
  { intros b v Hv. specialize (F b). rewrite Hv in F. by destruct F as (_ & ? & ? & ? & _). }
  assert (seqZ 0 n = 0 :: seqZ 1 (n - 1)) as Es by (rewrite seqZ_cons by lia; do 2 f_equal; lia).
  assert (last (seqZ 0 n) = Some (n - 1)) as El.
  { replace n with ((n - 1) + 1) at 1 by lia. rewrite seqZ_app by lia. by rewrite last_app. }
  split.
  - unfold ring_of. rewrite El. rewrite Es at 2. apply (fresh_ring _ n n 0 F); lia.
  - split; [apply NoDup_seqZ|by rewrite Es].
  - intros b. rewrite elem_of_seqZ. specialize (F b). destruct (bufs s !! b) as [v|].
    + split; [intros _; split; [eauto|done]|intros _; lia].
    + split; [lia|]. intros [[? ?] _]. done.
  - by rewrite Es, Ef.
  - by rewrite Eh.
  - intros h Hh. rewrite Eh. split; [apply lookup_replicate_2; lia|]. split; [constructor|done].
  - intros h b Hh. split; [set_solver|]. intros (_ & v & Hv & Hd & _). by destruct (Hinit b v Hv).
  - intros b v Hv _ _. by apply Hinit in Hv as (_ & ? & ?).
  - intros b b' v v' Hv _ _ _ Hd. by destruct (Hinit b v Hv).
Qed.

(** The last assignments close the ring. *)
Definition closed (n : Z) (m : gmap Z buffer_head) (v0 vl : buffer_head) : gmap Z buffer_head :=
  <[n - 1 := vl <| b_next_free := Some 0 |>]> (<[0 := v0 <| b_prev_free := Some (n - 1) |>]> m).

Lemma close_ring n s v0 :
  1 <= n -> bufs s !! 0 = Some v0 -> is_Some (bufs s !! (n - 1)) ->
  exists vl, <[0 := v0 <| b_prev_free := Some (n - 1) |>]> (bufs s) !! (n - 1) = Some vl /\
    (upd_bh 0 (fun v => v <| b_prev_free := Some (n - 1) |>);; upd_bh (n - 1) (fun v => v <| b_next_free := Some 0 |>)) s =
    (Ret tt, s <| bufs := closed n (bufs s) v0 vl |>).
Proof.
  intros Hn H0 [v1 Hl]. mrun (upd_bh_run 0 v0 (fun v => v <| b_prev_free := Some (n - 1) |>) s H0).
  set (s1 := s <| bufs ::= _ |>). assert (is_Some (bufs s1 !! (n - 1))) as [vl Hvl].
  { change (is_Some (<[0 := v0 <| b_prev_free := Some (n - 1) |>]> (bufs s) !! (n - 1))). rewrite lookup_insert_is_Some'. right. eauto. }
  exists vl. split; [exact Hvl|]. exact (upd_bh_run (n - 1) vl (fun v => v <| b_next_free := Some 0 |>) s1 Hvl).
Qed.

Lemma closed_fresh rh rb e n m v0 vl :
  1 <= n -> (forall i, m !! i = if decide (0 <= i < n) then Some (init_head rh rb i (block_at e i)) else None) ->
  m !! 0 = Some v0 -> <[0 := v0 <| b_prev_free := Some (n - 1) |>]> m !! (n - 1) = Some vl ->
  fresh (closed n m v0 vl) n /\
  forall k, 0 <= k < n -> exists v, closed n m v0 vl !! k = Some v /\ b_data v = rb (block_at e k) /\ ready v /\ b_uptodate v = 0.
Proof.
  intros Hn Hm H0 Hl. rewrite Hm, decide_True in H0 by lia. injection H0 as <-.
  assert (forall k, closed n m (init_head rh rb 0 (block_at e 0)) vl !! k = if decide (0 <= k < n) then Some ((init_head rh rb k (block_at e k))
    <| b_prev_free := Some (if k =? 0 then n - 1 else k - 1) |> <| b_next_free := Some (if k =? n - 1 then 0 else k + 1) |>) else None) as E.
  { intros k. unfold closed. destruct (decide (k = n - 1)) as [->|Hk].
    - rewrite lookup_insert_eq, decide_True, Z.eqb_refl by lia. destruct (Z.eqb_spec (n - 1) 0) as [E0|E0].
      + rewrite E0, lookup_insert_eq in Hl. injection Hl as <-. rewrite E0. reflexivity.
      + rewrite lookup_insert_ne, Hm, decide_True in Hl by lia. injection Hl as <-. reflexivity.
    - rewrite lookup_insert_ne by lia. rewrite (proj2 (Z.eqb_neq k (n - 1))) by lia. destruct (Z.eqb_spec k 0) as [->|].
      + rewrite lookup_insert_eq, decide_True by lia. reflexivity.
      + rewrite lookup_insert_ne, Hm by lia. destruct (decide _); reflexivity. }
  split.
  - intros k. rewrite E. destruct (decide (0 <= k < n)) as [Hk|Hk]; [|exact Hk]. by split.
  - intros k Hk. rewrite E, decide_True by done. eexists. split; [reflexivity|]. by repeat split.
Qed.

(** ** Properties *)


(** C10: [getblk] keeps the queues right and gives out the right buffer.  When a buffer holds
    the block and is not locked, that one is returned, used once more.  When none does, the
    first buffer of the free list that is unused, clean and unlocked is taken: it now holds
    the block, with one user, not up to date, is the last one of the free list, and no other
    buffer changes, nor anything outside the queues. *)
Theorem getblk_ok `{FsEnv} s order chains dev block :
  fuel <> O -> queues s order chains None -> (2 <= length order)%nat ->
  0 < dev < 65536 -> 0 <= block < 4294967296 ->
  (forall b v, bufs s !! b = Some v -> b_dev v = dev -> b_blocknr v = block -> b_lock v = 0 ->
    exists s', getblk dev block s = (Ret (Some b), s') /\ queues s' order chains None /\
      s' = s <| bufs ::= alter count_up b |>) /\
  ((forall c w, bufs s !! c = Some w -> b_dev w = dev -> b_blocknr w <> block) ->
   forall l1 b l2 v, order = l1 ++ b :: l2 -> bufs s !! b = Some v -> ready v ->
     (forall c w, c ∈ l1 -> bufs s !! c = Some w -> passed w) ->
   exists s' chains', getblk dev block s = (Ret (Some b), s') /\ queues s' (l1 ++ l2 ++ [b]) chains' None /\
     cores (bufs s') = <[b := fresh_core v dev block]> (cores (bufs s)) /\ only_queues s s').
Proof.
  intros Hf Q Hlen Hdev Hblock. split.
  - intros b v Hv Ed Eb Hl. exists (s <| bufs ::= alter count_up b |>).
    split; [by apply (getblk_hit s order chains b v); [| |lia|..]|]. split; [|done]. by apply queues_upd; [..|left].
  - intros Hno l1 b l2 v Eo Hv Hready Hpass. by eapply getblk_miss.
Qed.

(** Putting a buffer of a device onto an empty hash queue writes through a null pointer:
    the word that [NULL->b_prev] names, at address 20, receives the buffer's address.  The
    queues come out right all the same. *)
Lemma insert_null_write s order chains bh v :
  queues s order chains (Some bh) -> bufs s !! bh = Some v -> b_dev v <> 0 ->
  (forall b w, bufs s !! b = Some w -> b <> bh -> b_dev w = b_dev v -> b_blocknr w <> b_blocknr v) ->
  chains (_hashfn (b_dev v) (b_blocknr v)) = [] ->
  exists s' chains', insert_into_queues bh s = (Ret tt, s') /\ queues s' (order ++ [bh]) chains' None /\
    null_prev s' = Some bh.
Proof.
  intros Q Hv Hd Hfresh Hempty. destruct (insert_ok s order chains bh v Q Hv) as (s' & E & Q' & _ & _ & Hnull);
    [naive_solver|].
  eexists s', _. split; [exact E|]. split; [exact Q'|]. by rewrite Hnull, decide_True.
Qed.

(** ** Witnesses *)

(** A cache of [n] buffers as it is after [buffer_init], on memory of zeros. *)
Definition ring_head (k last : Z) : buffer_head :=
  mk_bh (replicate 1024 0) 0 0 0 0 0 0 None None
    (Some (if k =? 0 then last else k - 1)) (Some (if k =? last then 0 else k + 1)).
Definition fresh_bufs (n : Z) : gmap Z buffer_head := list_to_map ((fun k => (k, ring_head k (n - 1))) <$> seqZ 0 n).

Lemma fresh_bufs_lookup n k : fresh_bufs n !! k = if decide (0 <= k < n) then Some (ring_head k (n - 1)) else None.
Proof.
  unfold fresh_bufs. destruct (decide (0 <= k < n)) as [Hk|Hk].
  - apply elem_of_list_to_map_1.
    + rewrite <- list_fmap_compose. unfold compose. cbn. rewrite list_fmap_id. apply NoDup_seqZ.
    + apply list_elem_of_fmap. exists k. split; [done|]. apply elem_of_seqZ. lia.
  - apply not_elem_of_list_to_map_1. rewrite <- list_fmap_compose. unfold compose. cbn. rewrite list_fmap_id.
    rewrite elem_of_seqZ. lia.
Qed.

Lemma fresh_bufs_fresh n : fresh (fresh_bufs n) n.
Proof. intros k. rewrite fresh_bufs_lookup. destruct (decide (0 <= k < n)); [by split|done]. Qed.

Definition demo_cache : fs := empty_fs <| bufs := fresh_bufs 3 |> <| free_list := Some 0 |>.

Lemma demo_cache_queues : queues demo_cache (seqZ 0 3) (fun _ => []) None.
Proof. apply fresh_queues; [lia|exact (fresh_bufs_fresh 3)|done..]. Qed.

Lemma demo_cache_init b v : bufs demo_cache !! b = Some v -> exists k, v = ring_head k 2.
Proof.
  change (bufs demo_cache) with (fresh_bufs 3). rewrite fresh_bufs_lookup.
  destruct (decide _); [|done]. intros [= <-]. by eexists.
Qed.


Lemma getblk_ok_witness :
  exists s' chains', getblk (H := quiet) 769 5 demo_cache = (Ret (Some 0), s') /\ queues s' [1; 2; 0] chains' None.
Proof.
  destruct (getblk_ok (H := quiet) demo_cache (seqZ 0 3) (fun _ => []) 769 5 ltac:(done) demo_cache_queues
    ltac:(vm_compute; lia) ltac:(lia) ltac:(lia)) as [_ Hmiss].
  destruct (Hmiss ltac:(intros c w [k ->]%demo_cache_init; done) [] 0 [1; 2] (ring_head 0 2) eq_refl eq_refl)
    as (s' & chains' & E & Q & _); [done|set_solver|]. exists s', chains'. split; [exact E|exact Q].
Defined.

(** A cache whose first buffer was taken out and given to block 5 of device 769. *)
Definition to_block (b : buffer_head) : buffer_head := b <| b_dev := 769 |> <| b_blocknr := 5 |>.
Definition demo_out : fs := (snd (remove_from_queues 0 demo_cache)) <| bufs ::= alter to_block 0 |>.

Lemma demo_out_queues :
  queues demo_out [1; 2] (fun _ => []) (Some 0) /\
  (exists v, bufs demo_out !! 0 = Some v /\ b_dev v = 769 /\ b_blocknr v = 5) /\
  (forall b w, bufs demo_out !! b = Some w -> b <> 0 -> b_dev w = 0).
Proof.
  destruct (remove_ok demo_cache (seqZ 0 3) (fun _ => []) 0 demo_cache_queues) as (s & E & Q & Ec & _);
    [apply elem_of_seqZ; lia|vm_compute; lia|].
  unfold demo_out. rewrite E. cbn [snd]. split; [|split].
  - by apply queues_upd; [exact Q|..|right].
  - destruct (cores_lookup (bufs s) (bufs demo_cache) 0 (ring_head 0 2) (eq_sym Ec) eq_refl) as (v & Hv & _).
    exists (to_block v). split; [exact (alter_at _ _ _ _ Hv)|done].
  - intros b w. change (alter to_block 0 (bufs s) !! b = Some w -> b <> 0 -> b_dev w = 0).
    intros Hw Hb. rewrite lookup_alter_ne in Hw by done.
    destruct (cores_lookup _ _ _ _ Ec Hw) as (w' & [k ->]%demo_cache_init & [Ed _]%core_fields). by rewrite <- Ed.
Qed.

Lemma insert_null_write_witness :
  exists s' chains', insert_into_queues 0 demo_out = (Ret tt, s') /\ queues s' [1; 2; 0] chains' None /\
    null_prev s' = Some 0.
Proof.
  destruct demo_out_queues as (Q & (v & Hv & Ed & Eb) & Hother).
  apply (insert_null_write demo_out [1; 2] (fun _ => []) 0 v Q Hv); [by rewrite Ed| |done].
  intros b w Hw Hb Hd. rewrite (Hother b w Hw Hb), Ed in Hd. done.
Defined.
