(* ===== verification/BitmapSpec.v ===== *)
(** The bitmaps of blocks and inodes: [find_first_zero] finds the first clear bit of a block,
    [set_bit] and [clear_bit] change one bit, and [new_block] hands out only free blocks of
    the data zone. *)

From S2P Require Import Prelude FsDefs FsLemmas Buffer Bitmap DList BufferSpec GetblkSpec.

Definition bytes_ok (data : list Z) : Prop := Forall (fun b => 0 <= b < 256) data.

Lemma byte_at_range data k : bytes_ok data -> 0 <= byte_at data k < 256.
Proof.
  intros Hd. unfold byte_at. rewrite nth_lookup. destruct (data !! Z.to_nat k) as [b|] eqn:E; cbn; [|lia].
  exact (Forall_lookup_1 _ _ _ _ Hd E).
Qed.

(** ** Words and bits *)

(** A bit of a number that is put together from two parts. *)
Lemma testbit_join a b n k :
  0 <= n -> 0 <= a < 2 ^ n -> 0 <= k -> Z.testbit (a + 2 ^ n * b) k = if k <? n then Z.testbit a k else Z.testbit b (k - n).
Proof.
  intros Hn Ha Hk. replace (a + 2 ^ n * b) with (b * 2 ^ n + a) by lia.
  rewrite <- (lor_add_disjoint (b * 2 ^ n) n a) by (try done; apply Z_mod_mult).
  rewrite Z.lor_spec. destruct (Z.ltb_spec k n).
  - by rewrite Z.mul_pow2_bits_low.
  - rewrite Z.mul_pow2_bits by lia. destruct (decide (a = 0)) as [->|]; [by rewrite Z.bits_0, orb_false_r|].
    rewrite (Z.bits_above_log2 a), orb_false_r; [done|lia|]. apply Z.log2_lt_pow2; [lia|].
    eapply Z.lt_le_trans; [apply Ha|]. by apply Z.pow_le_mono_r.
Qed.

Lemma ld16_bytes data k : ld16 data k = byte_at data (2 * k) + 2 ^ 8 * byte_at data (2 * k + 1).
Proof. reflexivity. Qed.

Lemma ld16_range data k : bytes_ok data -> 0 <= ld16 data k < 2 ^ 16.
Proof.
  intros Hd. rewrite ld16_bytes. pose proof (byte_at_range data (2 * k) Hd).
  pose proof (byte_at_range data (2 * k + 1) Hd). lia.
Qed.

Lemma testbit_ld16 data w k : bytes_ok data -> 0 <= w -> 0 <= k < 16 -> Z.testbit (ld16 data w) k = bit data (16 * w + k).
Proof.
  intros Hd Hw Hk. rewrite ld16_bytes, testbit_join by (try apply byte_at_range; done || lia). unfold bit.
  destruct (Z.ltb_spec k 8).
  - replace ((16 * w + k) / 8) with (2 * w) by (apply Z.div_unique with k; lia).
    replace ((16 * w + k) mod 8) with k by (apply Z.mod_unique with (2 * w); lia). done.
  - replace ((16 * w + k) / 8) with (2 * w + 1) by (apply Z.div_unique with (k - 8); lia).
    replace ((16 * w + k) mod 8) with (k - 8) by (apply Z.mod_unique with (2 * w + 1); lia). done.
Qed.

Lemma testbit_ld32 data w k :
  bytes_ok data -> 0 <= w -> 0 <= k < 32 -> Z.testbit (ld32 data (2 * w)) k = bit data (32 * w + k).
Proof.
  intros Hd Hw Hk. unfold ld32. change 65536 with (2 ^ 16).
  rewrite testbit_join by (try apply ld16_range; done || lia). destruct (Z.ltb_spec k 16).
  - rewrite testbit_ld16 by (done || lia). f_equal. lia.
  - rewrite testbit_ld16 by (done || lia). f_equal. lia.
Qed.

Lemma ld32_range data k : bytes_ok data -> 0 <= ld32 data k < 2 ^ 32.
Proof.
  intros Hd. unfold ld32. pose proof (ld16_range data k Hd). pose proof (ld16_range data (k + 1) Hd). lia.
Qed.

(** ** find_first_zero *)

Lemma bsf_ok n k w :
  (exists i, k <= i < k + Z.of_nat n /\ Z.testbit w i = true) ->
  k <= bsf n k w < k + Z.of_nat n /\ Z.testbit w (bsf n k w) = true /\
  forall j, k <= j < bsf n k w -> Z.testbit w j = false.
Proof.
  revert k. induction n as [|n IH]; intros k (i & Hi & Ei); [lia|]. cbn [bsf].
  destruct (Z.testbit w k) eqn:Ek; [split; [lia|split; [done|intros; lia]]|].
  destruct (IH (k + 1)) as (Hr & Hb & Hl).
  { exists i. split; [|done]. destruct (decide (i = k)) as [->|]; [congruence|lia]. }
  split; [lia|]. split; [done|]. intros j Hj. destruct (decide (j = k)) as [->|]; [done|]. apply Hl. lia.
Qed.

Lemma testbit_not32 x k : 0 <= k < 32 -> Z.testbit (Z.lxor x 0xffffffff) k = negb (Z.testbit x k).
Proof.
  intros Hk. rewrite Z.lxor_spec. change 0xffffffff with (Z.ones 32).
  rewrite Z.ones_spec_low by lia. by destruct (Z.testbit x k).
Qed.

Lemma full_word data w :
  bytes_ok data -> 0 <= w -> Z.lxor (ld32 data (2 * w)) 0xffffffff = 0 ->
  forall k, 32 * w <= k < 32 * w + 32 -> bit data k = true.
Proof.
  intros Hd Hw E k Hk. replace k with (32 * w + (k - 32 * w)) by lia.
  rewrite <- testbit_ld32 by (done || lia). apply Z.lxor_eq in E. rewrite E. change 0xffffffff with (Z.ones 32).
  apply Z.ones_spec_low. lia.
Qed.

Lemma open_word data w :
  bytes_ok data -> 0 <= w -> Z.lxor (ld32 data (2 * w)) 0xffffffff <> 0 ->
  exists k, 0 <= k < 32 /\ Z.testbit (Z.lxor (ld32 data (2 * w)) 0xffffffff) k = true.
Proof.
  intros Hd Hw E. set (x := Z.lxor _ _) in *. pose proof (ld32_range data (2 * w) Hd) as Hr.
  assert (0 <= x) as Hx by (apply Z.lxor_nonneg; lia).
  assert (x < 2 ^ 32) as Hlt.
  { destruct (decide (x = 0)); [lia|]. apply Z.log2_lt_pow2; [lia|]. eapply Z.le_lt_trans; [apply Z.log2_lxor; lia|].
    apply Z.max_lub_lt; [|done]. destruct (decide (ld32 data (2 * w) = 0)) as [->|]; [done|]. apply Z.log2_lt_pow2; lia. }
  exists (Z.log2 x). split; [split; [apply Z.log2_nonneg|apply Z.log2_lt_pow2; lia]|]. apply Z.bit_log2. lia.
Qed.

Lemma first_zero_word_ok n i data :
  bytes_ok data -> 0 <= i -> (forall j, 0 <= j < 32 * i -> bit data j = true) ->
  let r := first_zero_word n i data in
  0 <= r <= 32 * (i + Z.of_nat n) /\ (forall j, 0 <= j < r -> bit data j = true) /\
  (r < 32 * (i + Z.of_nat n) -> bit data r = false).
Proof.
  revert i. induction n as [|n IH]; intros i Hd Hi Hbefore; cbn [first_zero_word].
  - split; [lia|]. split; [intros j Hj; apply Hbefore; lia|lia].
  - destruct (Z.eqb_spec (Z.lxor (ld32 data (2 * i)) 0xffffffff) 0) as [E|E].
    + destruct (IH (i + 1) Hd ltac:(lia)) as (Hr & Hones & Hzero).
      { intros j Hj. destruct (decide (j < 32 * i)); [apply Hbefore; lia|].
        apply (full_word data i Hd Hi E). lia. }
      split; [lia|]. split; [done|]. intros Hlt. apply Hzero. lia.
    + destruct (bsf_ok 32 0 _ (open_word data i Hd Hi E)) as (Hr & Hb & Hl). set (k := bsf 32 0 _) in *.
      rewrite testbit_not32, testbit_ld32 in Hb by (done || lia).
      split; [lia|]. split; [|intros _; by apply negb_true_iff].
      intros j Hj. destruct (decide (j < 32 * i)); [apply Hbefore; lia|].
      specialize (Hl (j - 32 * i) ltac:(lia)). rewrite testbit_not32, testbit_ld32 in Hl by (done || lia).
      replace (32 * i + (j - 32 * i)) with j in Hl by lia. by apply negb_false_iff.
Qed.

Lemma find_first_zero_spec data :
  bytes_ok data ->
  let r := find_first_zero data in
  0 <= r <= 8192 /\ (forall j, 0 <= j < r -> bit data j = true) /\ (r < 8192 -> bit data r = false).
Proof. intros Hd. apply (first_zero_word_ok 256 0 data Hd); [lia|lia]. Qed.

(** Every bit of a block of a map is set. *)
Definition all_set (data : list Z) : Prop := bytes_ok data /\ forall j, 0 <= j < 8192 -> bit data j = true.

(** Bit [j] is the first of the block that is clear. *)
Definition first_clear (data : list Z) (j : Z) : Prop :=
  bytes_ok data /\ 0 <= j < 8192 /\ bit data j = false /\ forall j', 0 <= j' < j -> bit data j' = true.

Lemma find_first_zero_at data j : first_clear data j -> find_first_zero data = j.
Proof.
  intros (Hd & Hj & Hb & Hones). destruct (find_first_zero_spec data Hd) as (Hr & Hset & Hclear).
  set (r := find_first_zero data) in *. destruct (Z.lt_trichotomy r j) as [Hlt|[->|Hgt]]; [|reflexivity|].
  - rewrite (Hones r) in Hclear by lia. discriminate Hclear. lia.
  - rewrite (Hset j) in Hb by lia. discriminate Hb.
Qed.

Lemma find_first_zero_full data : all_set data -> find_first_zero data = 8192.
Proof.
  intros [Hd Hset]. destruct (find_first_zero_spec data Hd) as (Hr & _ & Hclear). set (r := find_first_zero data) in *.
  destruct (decide (r = 8192)) as [->|]; [reflexivity|]. rewrite (Hset r) in Hclear by lia. discriminate Hclear. lia.
Qed.

(** ** set_bit and clear_bit *)

Lemma byte_bit_write data nr (x : Z) j :
  0 <= nr < 8 * Z.of_nat (length data) -> 0 <= j ->
  bit (<[Z.to_nat (nr / 8) := x]> data) j = if j / 8 =? nr / 8 then Z.testbit x (j mod 8) else bit data j.
Proof.
  intros Hn Hj. unfold bit, byte_at. rewrite !nth_lookup.
  pose proof (Z.div_pos j 8 Hj ltac:(lia)). pose proof (Z.div_pos nr 8 ltac:(lia) ltac:(lia)).
  destruct (Z.eqb_spec (j / 8) (nr / 8)) as [->|E].
  - rewrite list_lookup_insert_eq; [done|]. pose proof (Z.div_mod nr 8 ltac:(lia)).
    pose proof (Z.mod_pos_bound nr 8 ltac:(lia)). lia.
  - by rewrite list_lookup_insert_ne by lia.
Qed.

Lemma same_bit j nr : j / 8 = nr / 8 -> (j mod 8 =? nr mod 8) = (j =? nr).
Proof.
  intros E. pose proof (Z.div_mod j 8 ltac:(lia)). pose proof (Z.div_mod nr 8 ltac:(lia)).
  destruct (Z.eqb_spec (j mod 8) (nr mod 8)), (Z.eqb_spec j nr); lia || congruence || done.
Qed.

Lemma set_bit_bit data nr j :
  0 <= nr < 8 * Z.of_nat (length data) -> 0 <= j ->
  bit (snd (set_bit nr data)) j = (j =? nr) || bit data j.
Proof.
  intros Hn Hj. cbn [snd set_bit]. rewrite byte_bit_write by done.
  pose proof (Z.mod_pos_bound nr 8 ltac:(lia)). pose proof (Z.mod_pos_bound j 8 ltac:(lia)).
  destruct (Z.eqb_spec (j / 8) (nr / 8)) as [E|E].
  - rewrite Z.lor_spec, Z.shiftl_1_l, Z.pow2_bits_eqb by lia. rewrite <- (same_bit j nr E), <- E.
    rewrite orb_comm. f_equal. apply Z.eqb_sym.
  - destruct (Z.eqb_spec j nr); [congruence|done].
Qed.

Lemma clear_bit_bit data nr j :
  0 <= nr < 8 * Z.of_nat (length data) -> 0 <= j ->
  bit (snd (clear_bit nr data)) j = negb (j =? nr) && bit data j.
Proof.
  intros Hn Hj. cbn [snd clear_bit]. rewrite byte_bit_write by done.
  pose proof (Z.mod_pos_bound nr 8 ltac:(lia)). pose proof (Z.mod_pos_bound j 8 ltac:(lia)).
  destruct (Z.eqb_spec (j / 8) (nr / 8)) as [E|E].
  - rewrite Z.land_spec, Z.lnot_spec, Z.shiftl_1_l, Z.pow2_bits_eqb by lia. rewrite <- (same_bit j nr E), <- E.
    rewrite andb_comm. do 2 f_equal. apply Z.eqb_sym.
  - destruct (Z.eqb_spec j nr); [congruence|done].
Qed.

(** [find_first_zero] returns the number of the first clear bit of a block of a bitmap,
    and 8192 when every bit is set. *)
Lemma find_first_zero_ok data :
  bytes_ok data ->
  let r := find_first_zero data in
  0 <= r <= 8192 /\ (forall j, 0 <= j < r -> bit data j = true) /\ (r < 8192 -> bit data r = false).
Proof. apply find_first_zero_spec. Qed.

(** Marking a bit and clearing it again: [set_bit] sets its bit and no other and reports
    whether it was set; [clear_bit] clears its bit and no other and reports whether it was
    clear; a bit that was clear and is set and cleared leaves every bit as it was. *)
Lemma set_clear_roundtrip data nr :
  0 <= nr < 8 * Z.of_nat (length data) ->
  let '(was, data1) := set_bit nr data in
  let '(was_clear, data2) := clear_bit nr data1 in
  was = b2z (bit data nr) /\ was_clear = 0 /\
  (forall j, 0 <= j -> bit data1 j = (j =? nr) || bit data j) /\
  (bit data nr = false -> forall j, 0 <= j -> bit data2 j = bit data j).
Proof.
  intros Hn. destruct (set_bit nr data) as [was data1] eqn:E1. destruct (clear_bit nr data1) as [wc data2] eqn:E2.
  assert (data1 = snd (set_bit nr data)) as D1 by by rewrite E1.
  assert (data2 = snd (clear_bit nr data1)) as D2 by by rewrite E2.
  assert (Z.of_nat (length data1) = Z.of_nat (length data)) as Hlen by (injection E1 as _ <-; by rewrite length_insert).
  assert (forall j, 0 <= j -> bit data1 j = (j =? nr) || bit data j) as H1
    by (intros j Hj; rewrite D1; by apply set_bit_bit).
  split; [by injection E1|]. split; [|split; [done|]].
  - injection E2 as <- _. rewrite H1, Z.eqb_refl by lia. done.
  - intros Hclear j Hj. rewrite D2, clear_bit_bit, H1 by lia. destruct (Z.eqb_spec j nr) as [->|]; [done|done].
Qed.

(** ** Allocating a block *)

Section NewBlock.
Context `{FsEnv}.

(** The super block of a device is in slot [k], unlocked. *)
Record super_of (s : fs) (dev k : Z) (sb : super_block) : Prop := {
  so_slot : 0 <= k < 8 /\ supers s !! Z.to_nat k = Some sb;
  so_dev : s_dev sb = dev /\ s_lock sb = 0;
  so_first : forall j, 0 <= j < k -> exists v, supers s !! Z.to_nat j = Some v /\ s_dev v <> dev
}.

Lemma super_loop_found s dev k sb n j :
  fuel <> O -> super_of s dev k sb -> 0 <= j <= k -> k - j < Z.of_nat n -> super_loop n j dev s = (Ret (Some k), s).
Proof.
  intros Hf [[Hk Hsb] [Hd Hl] Hfirst]. revert j. induction n as [|n IH]; intros j Hj Hn; [lia|].
  cbn [super_loop]. change NR_SUPER with 8. destruct (Z.leb_spec 8 j); [lia|].
  destruct (decide (j = k)) as [->|Hjk].
  - mrun (get_sb_run k sb s ltac:(lia) Hsb). rewrite Hd, Z.eqb_refl.
    assert (wait_on_super k s = (Ret tt, s)) as Ew.
    { unfold wait_on_super. destruct fuel; [done|]. cbn [wait_super]. mrun (get_sb_run k sb s ltac:(lia) Hsb). by rewrite Hl. }
    mrun Ew. mrun (get_sb_run k sb s ltac:(lia) Hsb). by rewrite Hd, Z.eqb_refl.
  - destruct (Hfirst j ltac:(lia)) as (v & Hv & Hvd). mrun (get_sb_run j v s ltac:(lia) Hv).
    rewrite (proj2 (Z.eqb_neq _ _) Hvd). apply IH; lia.
Qed.

Lemma get_super_found s dev k sb : fuel <> O -> dev <> 0 -> super_of s dev k sb -> get_super dev s = (Ret (Some k), s).
Proof.
  intros Hf Hd Hs. unfold get_super. rewrite (proj2 (Z.eqb_neq _ _) Hd).
  apply (super_loop_found s dev k sb); [done|done| |]; pose proof (so_slot _ _ _ _ Hs); change NR_SUPER with 8; lia.
Qed.

(** Slot [i] of a map is its first with a clear bit, which is bit [j] of the block in buffer
    [zb]. *)
Record first_free (s : fs) (map : list (option Z)) (i : nat) (zb : Z) (v : buffer_head) (j : Z) : Prop := {
  ff_slot : map !! i = Some (Some zb) /\ bufs s !! zb = Some v;
  ff_data : length (b_data v) = 1024%nat;
  ff_bit : first_clear (b_data v) j;
  ff_before : forall i', (i' < i)%nat -> default None (map !! i') = None \/
    exists b w, map !! i' = Some (Some b) /\ bufs s !! b = Some w /\ all_set (b_data w)
}.

Lemma search_map_found s map i zb v j n i0 j0 bh :
  first_free s map i zb v j -> (i0 <= i)%nat -> (i - i0 < n)%nat ->
  search_map n map (Z.of_nat i0) j0 bh s = (Ret (Z.of_nat i, j, Some zb), s).
Proof.
  intros [[Hslot Hv] _ Hfirst Hbefore]. pose proof (find_first_zero_at _ _ Hfirst) as Ej. destruct Hfirst as (_ & Hj & _). revert i0 j0 bh. induction n as [|n IH]; intros i0 j0 bh Hle Hn; [lia|].
  cbn [search_map]. rewrite Nat2Z.id. destruct (decide (i0 = i)) as [->|Hne].
  - rewrite Hslot. change (default None (Some (Some zb))) with (Some zb). cbv iota. mrun (get_bh_run zb v s Hv). rewrite Ej.
    destruct (Z.ltb_spec j 8192); [done|lia].
  - replace (Z.of_nat i0 + 1) with (Z.of_nat (S i0)) by lia.
    destruct (Hbefore i0 ltac:(lia)) as [->|(b & w & -> & Hw & Hfull)]; [apply IH; lia|].
    change (default None (Some (Some b))) with (Some b). cbv iota. mrun (get_bh_run b w s Hw). rewrite (find_first_zero_full _ Hfull). apply IH; lia.
Qed.

(** Releasing the last use of an unlocked buffer. *)
Lemma brelse_run s b v :
  fuel <> O -> bufs s !! b = Some v -> b_lock v = 0 -> b_count v <> 0 ->
  brelse (Some b) s = (Ret tt, s <| bufs ::= alter (fun b => b <| b_count := u8 (b_count b - 1) |>) b |>
                                 <| fs_woken ::= cons QBuffer |>).
Proof.
  intros Hf Hv Hl Hc. cbn [brelse]. rewrite (bind_Ret _ _ _ _ _ (wait_on_unlocked s b v Hf Hv Hl)).
  mrun (get_bh_run b v s Hv). rewrite (bind_Ret _ _ _ _ _ (upd_bh_alter b _ s ltac:(eauto))).
  by rewrite (proj2 (Z.eqb_neq _ _) Hc).
Qed.

Lemma search_map_full s map n i0 j0 bh :
  (forall i, default None (map !! i) = None \/
    exists b w, map !! i = Some (Some b) /\ bufs s !! b = Some w /\ all_set (b_data w)) ->
  j0 = 8192 -> exists bh', search_map n map (Z.of_nat i0) j0 bh s = (Ret (Z.of_nat (i0 + n), 8192, bh'), s).
Proof.
  intros Hfull ->. revert i0 bh. induction n as [|n IH]; intros i0 bh; cbn [search_map].
  - exists bh. by rewrite Nat.add_0_r.
  - rewrite Nat2Z.id, Nat.add_succ_r, <- Nat.add_succ_l. replace (Z.of_nat i0 + 1) with (Z.of_nat (S i0)) by lia.
    destruct (Hfull i0) as [->|(b & w & -> & Hw & Hf)]; [apply IH|].
    change (default None (Some (Some b))) with (Some b). cbv iota. mrun (get_bh_run b w s Hw). rewrite (find_first_zero_full _ Hf). apply IH.
Qed.

(** The map block [zb] after bit [j] was set. *)
Definition marked (j : Z) (v : buffer_head) : buffer_head :=
  v <| b_data := snd (set_bit j (b_data v)) |> <| b_dirt := 1 |>.

(** Setting the bit: [new_block] as far as the call of [getblk]. *)
Lemma new_block_mark s dev k sb i zb v j :
  fuel <> O -> dev <> 0 -> super_of s dev k sb -> first_free s (s_zmap sb) i zb v j -> (i < 8)%nat ->
  let nr := j + Z.of_nat i * 8192 + s_firstdatazone sb - 1 in
  new_block dev s =
    (if s_nzones sb <=? nr then mret 0 else
     r ← getblk dev nr;
     match r with
     | None => panic "new_block: cannot get block"
     | Some bh =>
         v ← get_bh bh;
         if negb (b_count v =? 1) then panic "new block: count is != 1" else
         clear_block bh;;
         upd_bh bh (fun b => b <| b_uptodate := 1 |>);;
         upd_bh bh (fun b => b <| b_dirt := 1 |>);;
         brelse (Some bh);;
         mret nr
     end) (s <| bufs ::= alter (marked j) zb |>).
Proof.
  intros Hf Hd Hs HF Hi nr. unfold new_block. mrun (get_super_found s dev k sb Hf Hd Hs).
  destruct (so_slot _ _ _ _ Hs) as [Hk Hsb]. mrun (get_sb_run k sb s ltac:(lia) Hsb).
  pose proof HF as [[_ Hv] _ (Hbytes & Hj & Hclear & _) _].
  rewrite (bind_Ret _ _ _ _ _ (search_map_found s _ i zb v j 8 0 8192 None HF ltac:(lia) ltac:(lia))).
  destruct (Z.leb_spec 8 (Z.of_nat i)); [lia|]. destruct (Z.leb_spec 8192 j); [lia|]. cbn [orb].
  mrun (get_bh_run zb v s Hv). destruct (set_bit j (b_data v)) as [was data] eqn:Es.
  assert (was = 0) as -> by (injection Es as <- _; by rewrite Hclear).
  rewrite (bind_Ret _ _ _ _ _ (upd_bh_alter zb _ s ltac:(eauto))). set (s1 := s <| bufs ::= _ |>).
  change (istrue 0) with false. cbv iota.
  assert (is_Some (bufs s1 !! zb)) as Hz1 by (apply lookup_alter_is_Some; eauto).
  rewrite (bind_Ret _ _ _ _ _ (upd_bh_alter zb _ s1 Hz1)). fold nr.
  f_equal.
  unfold s1, upd. destruct s as [m]; cbn in *. f_equal. apply map_eq. intros c. destruct (decide (zb = c)) as [<-|].
  - rewrite !lookup_alter_eq, Hv. cbn. unfold marked. by rewrite Es.
  - by rewrite !lookup_alter_ne.
Qed.

(** The rest of [new_block], on the buffer that [getblk] gave it. *)
Lemma new_block_fill s b vb nr dev order chains :
  fuel <> O -> queues s order chains None ->
  cores (bufs s) !! b = Some (fresh_core vb dev nr) -> b_lock vb = 0 ->
  exists s', (v ← get_bh b;
     if negb (b_count v =? 1) then panic "new block: count is != 1" else
     clear_block b;;
     upd_bh b (fun b => b <| b_uptodate := 1 |>);;
     upd_bh b (fun b => b <| b_dirt := 1 |>);;
     brelse (Some b);;
     mret nr) s = (Ret nr, s') /\ queues s' order chains None /\
    cores (bufs s') = <[b := (replicate 1024 0, nr, dev, 1, 1, 0, 0)]> (cores (bufs s)).
Proof.
  intros Hf Q Hb Hl. unfold cores in Hb. rewrite lookup_fmap in Hb.
  destruct (bufs s !! b) as [v|] eqn:Hv; [|done]. injection Hb as Edata Enr Edev Eup Edirt Ecount Elock.
  mrun (get_bh_run b v s Hv). rewrite Ecount. cbn [Z.eqb Pos.eqb negb]. unfold clear_block.
  set (f1 := fun b => b <| b_data := replicate 1024 0 |>). set (f2 := fun b => b <| b_uptodate := 1 |>).
  set (f3 := fun b => b <| b_dirt := 1 |>).
  mrun (upd_bh_alter b f1 s ltac:(eauto)). set (s1 := s <| bufs ::= _ |>).
  assert (bufs s1 !! b = Some (f1 v)) as Hv1 by exact (alter_at _ _ _ _ Hv).
  mrun (upd_bh_alter b f2 s1 ltac:(eauto)). set (s2 := s1 <| bufs ::= _ |>).
  assert (bufs s2 !! b = Some (f2 (f1 v))) as Hv2 by exact (alter_at _ _ _ _ Hv1).
  mrun (upd_bh_alter b f3 s2 ltac:(eauto)). set (s3 := s2 <| bufs ::= _ |>).
  assert (bufs s3 !! b = Some (f3 (f2 (f1 v)))) as Hv3 by exact (alter_at _ _ _ _ Hv2).
  rewrite (bind_Ret _ _ _ _ _ (brelse_run s3 b _ Hf Hv3 (eq_trans Elock Hl) ltac:(change (b_count v <> 0); lia))).
  eexists. split; [reflexivity|]. set (f4 := fun b : buffer_head => b <| b_count := u8 (b_count b - 1) |>). split.
  - assert (queues (s3 <| bufs ::= alter f4 b |>) order chains None) as Q4
      by (repeat (apply queues_upd; [|done|done|by left]); exact Q).
    by destruct Q4; split.
  - change (cores (alter f4 b (bufs s3)) = <[b := (replicate 1024 0, nr, dev, 1, 1, 0, 0)]> (cores (bufs s))).
    rewrite (cores_alter _ _ _ _ Hv3). change (bufs s3) with (alter f3 b (bufs s2)).
    rewrite (cores_alter _ _ _ _ Hv2). change (bufs s2) with (alter f2 b (bufs s1)).
    rewrite (cores_alter _ _ _ _ Hv1). change (bufs s1) with (alter f1 b (bufs s)).
    rewrite (cores_alter _ _ _ _ Hv), !insert_insert_eq. f_equal.
    unfold f4, core. cbn -[replicate]. by rewrite Enr, Edev, Ecount, Elock, Hl.
Qed.
End NewBlock.

(** C12: [new_block] allocates: when the first clear bit of the zone map stands for a block of
    the data zone, that block's bit is set and no other, its map block is dirty, and the
    block is in the cache, all zeros, to be written, not in use; the cache's queues are right
    and no other buffer changes.  When the bit stands for a block behind the end of the device
    the result is 0, with the bit set all the same.  When every bit of the map is set the result
    is 0 and nothing changes. *)
Theorem new_block_ok `{FsEnv} s dev k sb :
  fuel <> O -> 0 < dev < 65536 -> super_of s dev k sb ->
  (forall order chains i zb v j l1 b l2 vb,
    queues s order chains None -> (2 <= length order)%nat ->
    first_free s (s_zmap sb) i zb v j -> (i < 8)%nat -> b_count v <> 0 ->
    let nr := j + Z.of_nat i * 8192 + s_firstdatazone sb - 1 in
    0 <= nr < s_nzones sb -> s_nzones sb < 65536 ->
    (forall c w, bufs s !! c = Some w -> b_dev w = dev -> b_blocknr w <> nr) ->
    order = l1 ++ b :: l2 -> bufs s !! b = Some vb -> ready vb ->
    (forall c w, c ∈ l1 -> bufs s !! c = Some w -> passed w) ->
    exists s' chains', new_block dev s = (Ret nr, s') /\ queues s' (l1 ++ l2 ++ [b]) chains' None /\
      cores (bufs s') = <[b := (replicate 1024 0, nr, dev, 1, 1, 0, 0)]> (<[zb := core (marked j v)]> (cores (bufs s))) /\
      (forall n, 0 <= n -> bit (b_data (marked j v)) n = (n =? j) || bit (b_data v) n)) /\
  ((forall i, default None (s_zmap sb !! i) = None \/
     exists b w, s_zmap sb !! i = Some (Some b) /\ bufs s !! b = Some w /\ all_set (b_data w)) ->
   new_block dev s = (Ret 0, s)) /\
  (forall i zb v j, first_free s (s_zmap sb) i zb v j -> (i < 8)%nat ->
     s_nzones sb <= j + Z.of_nat i * 8192 + s_firstdatazone sb - 1 ->
     new_block dev s = (Ret 0, s <| bufs ::= alter (marked j) zb |>)).
Proof.
  intros Hf Hdev Hs. split; [|split].
  - intros order chains i zb v j l1 b l2 vb Q Hlen HF Hi Hc nr Hnr Hnz Hno Eo Hb Hready Hpass.
    rewrite (new_block_mark s dev k sb i zb v j Hf ltac:(lia) Hs HF Hi). fold nr.
    rewrite (proj2 (Z.leb_gt _ _) (proj2 Hnr)). pose proof HF as [[_ Hv] Hlen' (_ & Hj & _) _]. set (s1 := s <| bufs ::= _ |>).
    assert (queues s1 order chains None) as Q1 by (by apply queues_upd; [..|left]).
    assert (forall c w, bufs s1 !! c = Some w -> (c = zb /\ w = marked j v) \/ (c <> zb /\ bufs s !! c = Some w)) as H1.
    { intros c w. change (bufs s1) with (alter (marked j) zb (bufs s)). destruct (decide (zb = c)) as [<-|];
        [rewrite lookup_alter_eq, Hv; naive_solver|rewrite lookup_alter_ne by done; naive_solver]. }
    assert (b <> zb) as Hbz by (intros ->; destruct Hready; congruence).
    assert (bufs s1 !! b = Some vb) as Hb1 by (change (alter (marked j) zb (bufs s) !! b = Some vb); by rewrite lookup_alter_ne).
    destruct (getblk_miss s1 order chains l1 b l2 vb dev nr Hf Q1 Hdev ltac:(lia)) as (s2 & chains2 & E2 & Q2 & Ec2 & _);
      [|done|done|done|done| |].
    { intros c w [[-> ->]|[_ Hw]]%H1; [apply (Hno zb v Hv)|by apply (Hno c w)]. }
    { intros c w Hin [[-> ->]|[_ Hw]]%H1; [by left|by apply (Hpass c w)]. }
    mrun E2. destruct Hready as (_ & _ & Hl).
    destruct (new_block_fill s2 b vb nr dev _ _ Hf Q2) as (s3 & E3 & Q3 & Ec3); [by rewrite Ec2, lookup_insert_eq|done|].
    exists s3, chains2. split; [exact E3|]. split; [done|]. split.
    + rewrite Ec3, Ec2, insert_insert_eq. change (bufs s1) with (alter (marked j) zb (bufs s)).
      by rewrite (cores_alter _ _ _ _ Hv).
    + intros n Hn. apply set_bit_bit; [|done]. rewrite Hlen'. lia.
  - intros Hfull. unfold new_block. mrun (get_super_found s dev k sb Hf ltac:(lia) Hs).
    destruct (so_slot _ _ _ _ Hs) as [Hk Hsb]. mrun (get_sb_run k sb s ltac:(lia) Hsb).
    destruct (search_map_full s (s_zmap sb) 8 0 8192 None Hfull eq_refl) as (bh' & E).
    rewrite (bind_Ret _ _ _ _ _ E). by destruct bh'.
  - intros i zb v j HF Hi Hend. rewrite (new_block_mark s dev k sb i zb v j Hf ltac:(lia) Hs HF Hi).
    by rewrite (proj2 (Z.leb_le _ _) Hend).
Qed.

(** ** Witnesses *)

Definition demo_map : list Z := 7 :: replicate 1023 0.

Lemma demo_map_ok : bytes_ok demo_map /\ length demo_map = 1024%nat /\ find_first_zero demo_map = 3.
Proof.
  split; [|split; by vm_compute]. apply Forall_cons. split; [lia|]. apply Forall_replicate. lia.
Qed.

Lemma demo_map_first : first_clear demo_map 3.
Proof.
  destruct demo_map_ok as (Hd & _ & E). destruct (find_first_zero_spec demo_map Hd) as (_ & Hones & Hzero). rewrite E in *.
  split; [exact Hd|]. split; [lia|]. split; [by apply Hzero|exact Hones].
Qed.

Lemma find_first_zero_ok_witness : bit demo_map 3 = false /\ forall j, 0 <= j < 3 -> bit demo_map j = true.
Proof.
  destruct demo_map_ok as (Hd & _ & E). destruct (find_first_zero_ok demo_map Hd) as (_ & Hones & Hzero).
  rewrite E in *. split; [by apply Hzero|exact Hones].
Defined.

Lemma set_clear_roundtrip_witness :
  let '(was, data1) := set_bit 3 demo_map in
  let '(was_clear, data2) := clear_bit 3 data1 in
  was = b2z (bit demo_map 3) /\ was_clear = 0 /\
  (forall j, 0 <= j -> bit data1 j = (j =? 3) || bit demo_map j) /\
  (bit demo_map 3 = false -> forall j, 0 <= j -> bit data2 j = bit demo_map j).
Proof. apply (set_clear_roundtrip demo_map 3). vm_compute. split; congruence. Defined.

(** A device whose zone map, in block 3, is in buffer 2. *)
Definition demo_super : super_block :=
  mk_super 32 100 1 1 10 0 1000 SUPER_MAGIC (replicate 8 None) (Some 2 :: replicate 7 None) 769 None None 0 0 0 0.
Definition load_map (b : buffer_head) : buffer_head := b <| b_data := demo_map |>.
Definition demo_disk : fs :=
  (snd (take_buffer 2 769 3 demo_cache)) <| bufs ::= alter load_map 2 |> <| supers := [demo_super] |>.

(** Buffer 2 of the three taken for a block. *)
Lemma demo_taken block :
  0 <= block < 4294967296 ->
  exists s chains v, take_buffer 2 769 block demo_cache = (Ret tt, s) /\ queues s [0; 1; 2] chains None /\
    bufs s !! 2 = Some v /\ (b_count v = 1 /\ b_dev v = 769 /\ b_blocknr v = block /\ b_lock v = 0) /\
    forall b w, b <> 2 -> bufs s !! b = Some w -> ready w /\ b_dev w = 0.
Proof.
  intros Hb.
  destruct (take_buffer_ok demo_cache (seqZ 0 3) (fun _ => []) 2 (ring_head 2 2) 769 block demo_cache_queues)
    as (s & chains & E & Q & Ec & _); [done|vm_compute; lia|lia|lia|by intros c w [k ->]%demo_cache_init|].
  destruct (cores_lookup (bufs s) (<[2 := mk_bh (replicate 1024 0) block 769 0 0 1 0 None None None None]> (bufs demo_cache)) 2
    (mk_bh (replicate 1024 0) block 769 0 0 1 0 None None None None)) as (v & Hv & Ev).
  { rewrite Ec. unfold cores. by rewrite fmap_insert. }
  { by rewrite lookup_insert_eq. }
  injection Ev as _ Eb Ed _ _ Ecount El. exists s, chains, v. split; [exact E|]. split; [exact Q|]. split; [exact Hv|].
  split; [done|]. intros b w Hne Hw.
  assert (cores (bufs s) !! b = Some (core w)) as Hcw by (unfold cores; by rewrite lookup_fmap, Hw).
  rewrite Ec, lookup_insert_ne in Hcw by done. unfold cores in Hcw. rewrite lookup_fmap in Hcw.
  destruct (bufs demo_cache !! b) as [w0|] eqn:Hw0; [|done]. apply demo_cache_init in Hw0 as [k ->].
  injection Hcw as _ _ Fd _ Fdirt Fcount Flock. done.
Qed.

Lemma demo_disk_ok :
  exists chains v, queues demo_disk [0; 1; 2] chains None /\ bufs demo_disk !! 2 = Some v /\
    b_data v = demo_map /\ b_count v = 1 /\ b_dev v = 769 /\ b_blocknr v = 3 /\
    forall b w, b <> 2 -> bufs demo_disk !! b = Some w -> ready w /\ b_dev w = 0.
Proof.
  destruct (demo_taken 3) as (s & chains & v & E & Q & Hv & (Ecount & Ed & Eb & _) & Hother); [lia|].
  unfold demo_disk. rewrite E. cbn [snd]. exists chains, (load_map v).
  split; [|split; [exact (alter_at _ _ _ _ Hv)|split; [done|split; [done|split; [done|split; [done|]]]]]].
  - assert (queues (s <| bufs ::= alter load_map 2 |>) [0; 1; 2] chains None) as Q'
      by (apply queues_upd; [exact Q|done|done|by left]). by destruct Q'; split.
  - intros b w Hb. change (alter load_map 2 (bufs s) !! b = Some w -> ready w /\ b_dev w = 0).
    rewrite lookup_alter_ne by done. by apply Hother.
Qed.

Lemma demo_super_of : super_of demo_disk 769 0 demo_super.
Proof. split; [split; [lia|done]|done|intros j Hj; lia]. Qed.

#[local] Opaque demo_disk.

(** The map is in buffer 2 of a cache, and the device has super block [sb]. *)
Lemma demo_on s v nz (sb := demo_super <| s_nzones := nz |>) (t := s <| supers := [sb] |>) :
  bufs s !! 2 = Some v -> b_data v = demo_map -> super_of t 769 0 sb /\ first_free t (s_zmap sb) 0 2 v 3.
Proof.
  intros Hv Ed. split; [split; [split; [lia|done]|done|intros j Hj; lia]|].
  split; [by split|by rewrite Ed|rewrite Ed; exact demo_map_first|intros; lia].
Qed.

(** Bits 0 to 2 of the map are set: the block of bit 3 is taken.  On a device of 11 blocks the
    bit stands for no block. *)
Definition small_disk : fs := demo_disk <| supers := [demo_super <| s_nzones := 11 |>] |>.

Lemma demo_disk_free v : bufs demo_disk !! 2 = Some v -> b_data v = demo_map -> first_free demo_disk (s_zmap demo_super) 0 2 v 3.
Proof. intros Hv Ed. split; [by split|by rewrite Ed|rewrite Ed; exact demo_map_first|intros; lia]. Qed.

Lemma small_disk_ok : exists v, super_of small_disk 769 0 (demo_super <| s_nzones := 11 |>) /\ first_free small_disk [Some 2; None; None; None; None; None; None; None] 0 2 v 3.
Proof.
  destruct demo_disk_ok as (_ & v & _ & Hv & Edata & _). exists v. exact (demo_on demo_disk v 11 Hv Edata).
Qed.
#[local] Opaque small_disk.

Lemma new_block_ok_witness :
  (exists s' chains, new_block (H := quiet) 769 demo_disk = (Ret 12, s') /\ queues s' [1; 2; 0] chains None) /\
  new_block (H := quiet) 769 small_disk = (Ret 0, small_disk <| bufs ::= alter (marked 3) 2 |>).
Proof.
  split.
  - destruct demo_disk_ok as (chains & v & Q & Hv & Edata & Ecount & Edev & Eblock & Hother).
    destruct (new_block_ok (H := quiet) demo_disk 769 0 demo_super ltac:(done) ltac:(lia) demo_super_of) as [Halloc _].
    assert (is_Some (bufs demo_disk !! 0)) as [v0 Hv0] by (apply (q_all _ _ _ _ Q 0), list_elem_of_here).
    destruct (Halloc [0; 1; 2] chains 0%nat 2 v 3 [] 0 [1; 2] v0) as (s' & chains' & E & Q' & _);
      [done|cbn; lia|by apply demo_disk_free|lia|by rewrite Ecount|vm_compute; split; congruence|done| |done|exact Hv0| |by intros c w Hc%not_elem_of_nil|].
    + intros c w Hw Hd. destruct (decide (c = 2)) as [->|Hc].
      * rewrite Hv in Hw. injection Hw as <-. rewrite Eblock. done.
      * destruct (Hother c w Hc Hw) as [_ Hz]. congruence.
    + by apply (Hother 0 v0).
    + exists s', chains'. split; [exact E|exact Q'].
  - destruct small_disk_ok as (v & Hs & HF).
    destruct (new_block_ok (H := quiet) small_disk 769 0 _ ltac:(done) ltac:(lia) Hs) as (_ & _ & Hend).
    apply (Hend 0%nat 2 v 3 HF ltac:(lia)). cbn. lia.
Defined.
