(* ===== verification/InodeSpec.v ===== *)
(** Inodes on disk: the 32 bytes of an inode hold its fields, and an inode that [write_inode]
    put into its block is what [read_inode] gets back. *)

From S2P Require Import Prelude FsDefs FsLemmas Buffer Bitmap Inode DList BufferSpec GetblkSpec BitmapSpec.

(** ** Words of a block *)

Lemma u16_bytes x : u8 x + 256 * u8 (Z.shiftr x 8) = u16 x.
Proof.
  unfold u8, u16. rewrite Z.shiftr_div_pow2 by lia. change (2 ^ 8) with 256. change 65536 with (256 * 256).
  rewrite Z.rem_mul_r by lia. lia.
Qed.

Lemma length_st16 k x data : length (st16 k x data) = length data.
Proof. unfold st16. by rewrite !length_insert. Qed.

Lemma length_st32 k x data : length (st32 k x data) = length data.
Proof. unfold st32. by rewrite !length_st16. Qed.

Lemma ld16_st16 k x data : 0 <= k -> 2 * k + 1 < Z.of_nat (length data) -> ld16 (st16 k x data) k = u16 x.
Proof.
  intros Hk Hl. unfold ld16, st16. rewrite !nth_lookup. rewrite list_lookup_insert_ne by lia.
  rewrite !list_lookup_insert_eq by (rewrite ?length_insert; lia). cbn. apply u16_bytes.
Qed.

Lemma ld16_st16_ne k j x data : 0 <= k -> 0 <= j -> k <> j -> ld16 (st16 k x data) j = ld16 data j.
Proof. intros Hk Hj Hne. unfold ld16, st16. rewrite !nth_lookup. by rewrite !list_lookup_insert_ne by lia. Qed.

(** Consecutive words. *)
Fixpoint put_words (o : Z) (ws : list Z) (data : list Z) : list Z :=
  match ws with [] => data | w :: ws => put_words (o + 1) ws (st16 o w data) end.

Lemma length_put_words o ws data : length (put_words o ws data) = length data.
Proof. revert o data. induction ws as [|w ws IH]; intros o data; [done|]. cbn. by rewrite IH, length_st16. Qed.

Lemma ld16_put_words_out o ws data j :
  0 <= o -> 0 <= j -> ~ (o <= j < o + Z.of_nat (length ws)) -> ld16 (put_words o ws data) j = ld16 data j.
Proof.
  revert o data. induction ws as [|w ws IH]; intros o data Ho Hj Hout; [done|]. cbn [put_words length] in *.
  rewrite IH by lia. apply ld16_st16_ne; lia.
Qed.

Lemma ld16_put_words o ws data t :
  0 <= o -> 2 * (o + Z.of_nat (length ws)) <= Z.of_nat (length data) -> 0 <= t < Z.of_nat (length ws) ->
  ld16 (put_words o ws data) (o + t) = u16 (nth (Z.to_nat t) ws 0).
Proof.
  revert o data t. induction ws as [|w ws IH]; intros o data t Ho Hl Ht; cbn [length] in *; [lia|].
  cbn [put_words]. destruct (decide (t = 0)) as [->|].
  - rewrite Z.add_0_r, ld16_put_words_out by lia. cbn. apply ld16_st16; lia.
  - replace (o + t) with (o + 1 + (t - 1)) by lia. rewrite IH by (rewrite ?length_st16; lia).
    replace (Z.to_nat t) with (S (Z.to_nat (t - 1))) by lia. done.
Qed.

(** ** The disk inode *)

Definition d_words (v : m_inode) : list Z :=
  [i_mode v; i_uid v; i_size v; Z.shiftr (i_size v) 16; i_mtime v; Z.shiftr (i_mtime v) 16;
   i_gid v + 256 * i_nlinks v] ++ (zone v <$> seqZ 0 9).

Lemma put_d_inode_words v k data : put_d_inode v k data = put_words (16 * k) (d_words v) data.
Proof.
  unfold put_d_inode, d_words, st32. change (seqZ 0 9) with [0; 1; 2; 3; 4; 5; 6; 7; 8].
  cbn [foldl fmap list_fmap app put_words]. repeat (f_equal; try lia).
Qed.

(** The widths of the fields that are kept on disk. *)
Record d_ok (v : m_inode) : Prop := {
  do_16 : 0 <= i_mode v < 65536 /\ 0 <= i_uid v < 65536;
  do_32 : 0 <= i_size v < 4294967296 /\ 0 <= i_mtime v < 4294967296;
  do_8 : 0 <= i_gid v < 256 /\ 0 <= i_nlinks v < 256;
  do_zone : length (i_zone v) = 9%nat /\ Forall (fun z => 0 <= z < 65536) (i_zone v)
}.

(** [v] with the fields of [w] that are kept on disk. *)
Definition d_copy (w v : m_inode) : m_inode :=
  v <| i_mode := i_mode w |> <| i_uid := i_uid w |> <| i_size := i_size w |> <| i_mtime := i_mtime w |>
    <| i_gid := i_gid w |> <| i_nlinks := i_nlinks w |> <| i_zone := i_zone w |>.

Lemma u32_words x : 0 <= x < 4294967296 -> u16 x + 65536 * u16 (Z.shiftr x 16) = x.
Proof.
  intros Hx. unfold u16. rewrite Z.shiftr_div_pow2 by lia. change (2 ^ 16) with 65536.
  rewrite (Z.mod_small (x / 65536)); [pose proof (Z.div_mod x 65536 ltac:(lia)); lia|].
  split; [apply Z.div_pos; lia|apply Z.div_lt_upper_bound; lia].
Qed.

Lemma ld16_put_d_inode w k data t :
  0 <= k < 32 -> length data = 1024%nat -> 0 <= t < 16 ->
  ld16 (put_d_inode w k data) (16 * k + t) = u16 (nth (Z.to_nat t) (d_words w) 0).
Proof.
  intros Hk Hl Ht. rewrite put_d_inode_words.
  apply ld16_put_words; change (length (d_words w)) with 16%nat; rewrite ?Hl; lia.
Qed.

Lemma zones_eq w :
  length (i_zone w) = 9%nat -> Forall (fun z => 0 <= z < 65536) (i_zone w) ->
  (fun j => u16 (zone w j)) <$> seqZ 0 9 = i_zone w.
Proof.
  intros Hl Hr. apply list_eq_same_length with 9%nat; [done|by rewrite length_fmap|].
  intros i x y Hi Hx Hy. rewrite list_lookup_fmap, lookup_seqZ_lt in Hx by lia. injection Hx as <-.
  pose proof (Forall_lookup_1 _ _ _ _ Hr Hy) as Hxr. cbn in Hxr. unfold zone. rewrite Z.add_0_l, Nat2Z.id, nth_lookup, Hy.
  by apply u16_small.
Qed.

Lemma get_put_d_inode w v k data :
  d_ok w -> 0 <= k < 32 -> length data = 1024%nat -> get_d_inode (put_d_inode w k data) k v = d_copy w v.
Proof.
  intros [[Hm Hu] [Hs Ht] [Hg Hn] [Hz Hzr]] Hk Hl.
  pose proof (fun t => ld16_put_d_inode w k data t Hk Hl) as Hld.
  unfold get_d_inode, ld32. set (d := put_d_inode w k data) in *. clearbody d.
  pose proof (Hld 0 ltac:(lia)) as H0. pose proof (Hld 1 ltac:(lia)) as H1. pose proof (Hld 2 ltac:(lia)) as H2.
  pose proof (Hld 3 ltac:(lia)) as H3. pose proof (Hld 4 ltac:(lia)) as H4. pose proof (Hld 5 ltac:(lia)) as H5.
  pose proof (Hld 6 ltac:(lia)) as H6. rewrite Z.add_0_r in H0. rewrite <- !Z.add_assoc.
  change (2 + 1) with 3. change (4 + 1) with 5. rewrite H0, H1, H2, H3, H4, H5, H6.
  change (nth (Z.to_nat 0) (d_words w) 0) with (i_mode w). change (nth (Z.to_nat 1) (d_words w) 0) with (i_uid w).
  change (nth (Z.to_nat 2) (d_words w) 0) with (i_size w). change (nth (Z.to_nat 3) (d_words w) 0) with (Z.shiftr (i_size w) 16).
  change (nth (Z.to_nat 4) (d_words w) 0) with (i_mtime w). change (nth (Z.to_nat 5) (d_words w) 0) with (Z.shiftr (i_mtime w) 16).
  change (nth (Z.to_nat 6) (d_words w) 0) with (i_gid w + 256 * i_nlinks w).
  rewrite !u32_words, (u16_small (i_mode w)), (u16_small (i_uid w)), (u16_small (_ + _)) by lia.
  assert ((fun j => ld16 d (16 * k + 7 + j)) <$> seqZ 0 9 = i_zone w) as Ez.
  { rewrite <- (zones_eq w Hz Hzr). apply list_fmap_ext. intros j x Hx. apply lookup_seqZ in Hx as [-> Hj].
    rewrite <- Z.add_assoc, Hld by lia. f_equal. unfold d_words. rewrite nth_lookup, lookup_app_r by (cbn; lia).
    replace (Z.to_nat (7 + (0 + Z.of_nat j)) - _)%nat with j by (cbn [length]; lia).
    rewrite list_lookup_fmap, lookup_seqZ_lt by lia. done. }
  replace (u8 (i_gid w + 256 * i_nlinks w)) with (i_gid w)
    by (unfold u8; rewrite Z.mul_comm, Z_mod_plus_full; symmetry; by apply Z.mod_small).
  replace (Z.shiftr (i_gid w + 256 * i_nlinks w) 8) with (i_nlinks w)
    by (rewrite Z.shiftr_div_pow2 by lia; apply Z.div_unique with (i_gid w); lia).
  rewrite Ez. reflexivity.
Qed.

Lemma get_put_d_inode_ne w v k k' data :
  0 <= k -> 0 <= k' -> k <> k' -> get_d_inode (put_d_inode w k data) k' v = get_d_inode data k' v.
Proof.
  intros Hk Hk' Hne. rewrite put_d_inode_words.
  assert (forall t, 0 <= t < 16 -> ld16 (put_words (16 * k) (d_words w) data) (16 * k' + t) = ld16 data (16 * k' + t)) as Hld.
  { intros t Ht. apply ld16_put_words_out; change (length (d_words w)) with 16%nat; lia. }
  set (d := put_words _ _ _) in *. clearbody d. unfold get_d_inode, ld32.
  pose proof (Hld 0 ltac:(lia)) as H0. rewrite Z.add_0_r in H0. rewrite <- !Z.add_assoc, H0, !Hld by lia.
  replace ((fun j => ld16 d (16 * k' + 7 + j)) <$> seqZ 0 9) with ((fun j => ld16 data (16 * k' + 7 + j)) <$> seqZ 0 9); [done|].
  apply list_fmap_ext. intros j x Hx. apply lookup_seqZ in Hx as [-> Hj]. rewrite <- !Z.add_assoc. symmetry. apply Hld. lia.
Qed.

(** ** Reading and writing through the cache *)

(** Block [block] of [dev] is in buffer [b], which is valid and idle or shared. *)
Record cached (s : fs) (dev block b : Z) (v : buffer_head) : Prop := {
  ca_buf : bufs s !! b = Some v;
  ca_key : b_dev v = dev /\ b_blocknr v = block;
  ca_state : b_lock v = 0 /\ b_uptodate v <> 0 /\ 0 <= b_count v < 255
}.

Definition count_down (v : buffer_head) : buffer_head := v <| b_count := u8 (b_count v - 1) |>.

(** The inode's place in its block. *)
Definition inode_place (num : Z) : Z := u32 (num - 1) mod INODES_PER_BLOCK.

Lemma inode_place_range num : 0 <= inode_place num < 32.
Proof. apply Z.mod_pos_bound. done. Qed.

(** The buffer after an inode was stored in it. *)
Definition stored (v : m_inode) (b : buffer_head) : buffer_head :=
  b <| b_data ::= put_d_inode v (inode_place (i_num v)) |> <| b_dirt := 1 |>.

Lemma queues_same s s' order chains out :
  bufs s' = bufs s -> hash_table s' = hash_table s -> free_list s' = free_list s ->
  queues s order chains out -> queues s' order chains out.
Proof. intros Eb Eh Ef Q. destruct Q; split; rewrite ?Eb, ?Eh, ?Ef; done. Qed.

Lemma super_same s s' dev k sb : supers s' = supers s -> super_of s dev k sb -> super_of s' dev k sb.
Proof. intros E S. destruct S; split; rewrite ?E; done. Qed.

Section Cache.
Context `{FsEnv}.
Hypothesis Hfuel : fuel <> O.

Lemma bread_hit s order chains dev block b v :
  queues s order chains None -> dev <> 0 -> cached s dev block b v ->
  bread dev block s = (Ret (Some b), s <| bufs ::= alter count_up b |>).
Proof.
  intros Q Hd [Hv [Ed Eb] (Hl & Hu & _)]. unfold bread, bread_with.
  mrun (getblk_hit s order chains b v dev block Hfuel Q Hd Hv Ed Eb Hl). set (s1 := s <| bufs ::= _ |>).
  mrun (get_bh_run b (count_up v) s1 (alter_at _ _ _ _ Hv)).
  change (b_uptodate (count_up v)) with (b_uptodate v). unfold istrue. by rewrite (proj2 (Z.eqb_neq _ _) Hu).
Qed.

Lemma lock_inode_run s i v :
  0 <= i -> inode_table s !! Z.to_nat i = Some v -> i_lock v = 0 ->
  lock_inode i s = (Ret tt, s <| inode_table ::= <[Z.to_nat i := v <| i_lock := 1 |>]> |>).
Proof.
  intros Hi Hv Hl. unfold lock_inode. destruct fuel as [|n]; [done|]. cbn [wait_inode].
  rewrite bind_assoc. mrun (get_inode_run i v s Hi Hv). rewrite Hl.
  change (istrue 0) with false. cbv iota. rewrite bind_ret. by apply upd_inode_run.
Qed.

Lemma unlock_inode_run s i v :
  0 <= i -> inode_table s !! Z.to_nat i = Some v ->
  unlock_inode i s =
    (Ret tt, s <| inode_table ::= <[Z.to_nat i := v <| i_lock := 0 |>]> |> <| fs_woken ::= cons (QInode i) |>).
Proof. intros Hi Hv. unfold unlock_inode. by mrun (upd_inode_run i v (fun v => v <| i_lock := 0 |>) s Hi Hv). Qed.

Lemma alter_value (f : buffer_head -> buffer_head) b (m : gmap Z buffer_head) v : m !! b = Some v -> alter f b m = <[b := f v]> m.
Proof.
  intros Hv. apply map_eq. intros c. destruct (decide (b = c)) as [->|].
  - by rewrite lookup_insert_eq, (alter_at _ _ _ _ Hv).
  - by rewrite lookup_alter_ne, lookup_insert_ne.
Qed.

Lemma counted v : 0 <= b_count v < 255 -> count_down (count_up v) = v.
Proof.
  intros Hc. assert (u8 (u8 (b_count v + 1) - 1) = b_count v) as E by (rewrite (u8_small (_ + 1)), u8_small by lia; lia).
  destruct v. unfold count_down, count_up. cbn in *. by rewrite E.
Qed.

(** What [write_inode] and [read_inode] begin with: the inode is locked and its block found. *)
Definition locked (i : Z) (v : m_inode) (s : fs) : fs := s <| inode_table ::= <[Z.to_nat i := v <| i_lock := 1 |>]> |>.

Record on_disk (s : fs) (order : list Z) (chains : Z -> list Z) (sb : super_block) (i : Z) (v : m_inode) (b : Z)
    (bv : buffer_head) : Prop := {
  od_queues : queues s order chains None;
  od_inode : 0 <= i /\ inode_table s !! Z.to_nat i = Some v;
  od_free : i_lock v = 0 /\ i_dev v <> 0;
  od_super : exists k, super_of s (i_dev v) k sb;
  od_block : cached s (i_dev v) (inode_block sb (i_num v)) b bv
}.

Lemma locate s order chains sb i v b bv :
  on_disk s order chains sb i v b bv ->
  let s1 := locked i v s in
  lock_inode i s = (Ret tt, s1) /\ inode_table s1 !! Z.to_nat i = Some (v <| i_lock := 1 |>) /\
  (exists k, get_super (i_dev v) s1 = (Ret (Some k), s1) /\ get_sb k s1 = (Ret sb, s1)) /\
  bread (i_dev v) (inode_block sb (i_num v)) s1 = (Ret (Some b), s1 <| bufs ::= alter count_up b |>).
Proof.
  intros [Q [Hi Hv] [Hl Hdev] [k Hs] Hb] s1.
  split; [exact (lock_inode_run s i v Hi Hv Hl)|]. split; [apply list_lookup_insert_eq, (lookup_lt_Some _ _ _ Hv)|].
  assert (super_of s1 (i_dev v) k sb) as Hs1 by by apply (super_same s). split.
  - exists k. split; [exact (get_super_found s1 (i_dev v) k sb Hfuel Hdev Hs1)|].
    destruct (so_slot _ _ _ _ Hs1) as [Hk Hsb]. apply get_sb_run; [lia|done].
  - apply (bread_hit s1 order chains _ _ b bv); [by apply (queues_same s)|done|by destruct Hb; split].
Qed.

(** ... and end with: the block is released and the inode unlocked. *)
Lemma release s i v b bv :
  0 <= i -> inode_table s !! Z.to_nat i = Some v -> bufs s !! b = Some (count_up bv) ->
  b_lock bv = 0 -> 0 <= b_count bv < 255 ->
  exists s', (brelse (Some b);; unlock_inode i) s = (Ret tt, s') /\
    inode_table s' = <[Z.to_nat i := v <| i_lock := 0 |>]> (inode_table s) /\ bufs s' = <[b := bv]> (bufs s) /\
    supers s' = supers s /\ hash_table s' = hash_table s /\ free_list s' = free_list s.
Proof.
  intros Hi Hv Hb Hl Hc.
  assert (b_count (count_up bv) <> 0) as Hc1 by (cbn; rewrite u8_small by lia; lia).
  mrun (brelse_run s b _ Hfuel Hb Hl Hc1). set (s1 := s <| bufs ::= _ |> <| fs_woken ::= _ |>).
  rewrite (unlock_inode_run s1 i v Hi Hv). eexists. split; [reflexivity|]. split; [done|]. split; [|done].
  cbn. change (alter _ b (bufs s)) with (alter count_down b (bufs s)). by rewrite (alter_value _ _ _ _ Hb), counted.
Qed.

(** A dirty inode goes into its block, which becomes dirty in its place. *)
Lemma write_inode_run s order chains sb i v b bv :
  on_disk s order chains sb i v b bv -> i_dirt v <> 0 ->
  exists s', write_inode i s = (Ret tt, s') /\ queues s' order chains None /\
    inode_table s' = <[Z.to_nat i := v <| i_dirt := 0 |> <| i_lock := 0 |>]> (inode_table s) /\
    bufs s' = <[b := stored v bv]> (bufs s) /\ supers s' = supers s.
Proof.
  intros D Hdirt. destruct (locate _ _ _ _ _ _ _ _ D) as (Elock & Hv1 & (k & Ek & Esb) & Eread).
  destruct D as [Q [Hi Hv] [_ Hdev] _ [Hbv _ (Hbl & _ & Hc)]]. pose proof (lookup_lt_Some _ _ _ Hv) as Hlt.
  unfold write_inode, write_inode_with. set (v1 := v <| i_lock := 1 |>) in *. set (s1 := locked i v s) in *.
  mrun Elock. mrun (get_inode_run i v1 s1 Hi Hv1). change (i_dirt v1) with (i_dirt v). change (i_dev v1) with (i_dev v).
  unfold istrue. rewrite (proj2 (Z.eqb_neq _ _) Hdirt), (proj2 (Z.eqb_neq _ _) Hdev). cbn [negb orb].
  mrun Ek. mrun Esb. mrun Eread. set (s2 := s1 <| bufs ::= _ |>). mrun (get_inode_run i v1 s2 Hi Hv1).
  assert (bufs s2 !! b = Some (count_up bv)) as Hb2 by exact (alter_at _ _ _ _ Hbv).
  mrun (upd_bh_run b _ (fun x => x <| b_data ::= put_d_inode v1 (u32 (i_num v1 - 1) mod INODES_PER_BLOCK) |>) s2 Hb2).
  set (s3 := s2 <| bufs ::= _ |>). mrun (upd_bh_run b _ (fun x => x <| b_dirt := 1 |>) s3 (lookup_insert_eq _ b _)). set (s4 := s3 <| bufs ::= _ |>).
  mrun (upd_inode_run i v1 (fun v => v <| i_dirt := 0 |>) s4 Hi Hv1). set (s5 := s4 <| inode_table ::= _ |>).
  assert (bufs s5 !! b = Some (count_up (stored v bv))) as Hb5 by apply lookup_insert_eq.
  assert (inode_table s5 !! Z.to_nat i = Some (v1 <| i_dirt := 0 |>)) as Hv5
    by exact (list_lookup_insert_eq _ _ _ (lookup_lt_Some _ _ _ Hv1)).
  destruct (release s5 i _ b (stored v bv) Hi Hv5 Hb5 Hbl Hc) as (s' & E & Ei & Eb & Es & Eh & Ef).
  assert (bufs s' = <[b := stored v bv]> (bufs s)) as Ebufs.
  { rewrite Eb. unfold s5, s4, s3, s2, s1, locked. cbn -[alter insert].
    rewrite (alter_value _ _ _ _ Hbv). by rewrite !insert_insert_eq. }
  exists s'. split; [exact E|]. split; [|split; [|split; [done|exact Es]]].
  - apply (queues_same (s <| bufs ::= alter (stored v) b |>)); [|done|done|by apply queues_upd; [..|left]].
    rewrite Ebufs. cbn. by rewrite (alter_value _ _ _ _ Hbv).
  - rewrite Ei. unfold s5, s4, s3, s2, s1, locked. cbn -[alter insert]. by rewrite !list_insert_insert_eq.
Qed.

(** The fields on disk are read into an inode. *)
Lemma read_inode_run s order chains sb j v b bv :
  on_disk s order chains sb j v b bv ->
  exists s', read_inode j s = (Ret tt, s') /\ queues s' order chains None /\
    inode_table s' = <[Z.to_nat j := get_d_inode (b_data bv) (inode_place (i_num v)) v]> (inode_table s) /\
    bufs s' = bufs s /\ supers s' = supers s.
Proof.
  intros D. destruct (locate _ _ _ _ _ _ _ _ D) as (Elock & Hv1 & (k & Ek & Esb) & Eread).
  destruct D as [Q [Hi Hv] [Hl _] _ [Hbv _ (Hbl & _ & Hc)]]. pose proof (lookup_lt_Some _ _ _ Hv) as Hlt.
  unfold read_inode. set (v1 := v <| i_lock := 1 |>) in *. set (s1 := locked j v s) in *.
  mrun Elock. mrun (get_inode_run j v1 s1 Hi Hv1). change (i_dev v1) with (i_dev v).
  mrun Ek. mrun Esb. mrun Eread. set (s2 := s1 <| bufs ::= _ |>).
  assert (bufs s2 !! b = Some (count_up bv)) as Hb2 by exact (alter_at _ _ _ _ Hbv).
  mrun (get_bh_run b _ s2 Hb2).
  mrun (upd_inode_run j v1 (get_d_inode (b_data (count_up bv)) (u32 (i_num v1 - 1) mod INODES_PER_BLOCK)) s2 Hi Hv1).
  set (v3 := get_d_inode _ _ _). set (s3 := s2 <| inode_table ::= _ |>).
  assert (inode_table s3 !! Z.to_nat j = Some v3) as Hv3
    by exact (list_lookup_insert_eq _ _ _ (lookup_lt_Some _ _ _ Hv1)).
  destruct (release s3 j v3 b bv Hi Hv3 Hb2 Hbl Hc) as (s' & E & Ei & Eb & Es & Eh & Ef).
  assert (bufs s' = bufs s) as Ebufs.
  { rewrite Eb. unfold s3, s2, s1, locked. cbn -[alter insert]. rewrite (alter_value _ _ _ _ Hbv), insert_insert_eq.
    by apply insert_id. }
  exists s'. split; [exact E|]. split; [by apply (queues_same s)|]. split; [|by split].
  rewrite Ei. unfold s3, s2, s1, locked. cbn -[alter insert]. rewrite !list_insert_insert_eq. f_equal.
  unfold v3, get_d_inode. destruct v. cbn in Hl. by subst.
Qed.
End Cache.

Lemma inode_place_ne sb a b :
  0 < a < 65536 -> 0 < b < 65536 -> a <> b -> inode_block sb a = inode_block sb b -> inode_place a <> inode_place b.
Proof.
  unfold inode_block, inode_place. intros Ha Hb Hne Heq Hp. rewrite !(u32_small (_ - 1)) in * by lia.
  change INODES_PER_BLOCK with 32 in *. pose proof (Z.div_mod (a - 1) 32 ltac:(lia)). pose proof (Z.div_mod (b - 1) 32 ltac:(lia)). lia.
Qed.

(** C13: an inode that [write_inode] put into its block is what [read_inode] gets back.  Writing a
    dirty inode always succeeds when its block is in the cache: the inode is clean and unlocked,
    its block is dirty, and nothing else has changed.  Reading the same inode number into
    another slot of the inode table then gives that slot all the fields that are kept on disk
    (mode, owner, size, time, links, zones), and reading a neighbour, an inode of the same block,
    gives what the block held before the write. *)
Theorem inode_roundtrip `{FsEnv} s order chains sb i v b bv j w :
  fuel <> O -> on_disk s order chains sb i v b bv -> i_dirt v <> 0 -> d_ok v -> length (b_data bv) = 1024%nat ->
  0 <= j -> j <> i -> inode_table s !! Z.to_nat j = Some w -> i_lock w = 0 -> i_dev w = i_dev v ->
  0 < i_num v < 65536 -> 0 < i_num w < 65536 -> inode_block sb (i_num w) = inode_block sb (i_num v) ->
  exists s1 s2, write_inode i s = (Ret tt, s1) /\
    inode_table s1 = <[Z.to_nat i := v <| i_dirt := 0 |> <| i_lock := 0 |>]> (inode_table s) /\
    (exists bv', bufs s1 = <[b := bv']> (bufs s) /\ b_dirt bv' = 1 /\ b_count bv' = b_count bv) /\
    read_inode j s1 = (Ret tt, s2) /\ bufs s2 = bufs s1 /\
    inode_table s2 !! Z.to_nat j =
      Some (if i_num w =? i_num v then d_copy v w else get_d_inode (b_data bv) (inode_place (i_num w)) w).
Proof.
  intros Hfuel D Hdirt Hok Hlen Hj Hji Hw Hlw Hdw Hnv Hnw Hblk.
  destruct (write_inode_run Hfuel _ _ _ _ _ _ _ _ D Hdirt) as (s1 & E1 & Q1 & Ei1 & Eb1 & Es1).
  destruct D as [Q [Hi Hv] [_ Hdev] [k Hs] [Hbv Hkey Hst]].
  assert (inode_table s1 !! Z.to_nat j = Some w) as Hw1 by (rewrite Ei1, list_lookup_insert_ne by lia; done).
  destruct (read_inode_run Hfuel s1 order chains sb j w b (stored v bv)) as (s2 & E2 & _ & Ei2 & Eb2 & _).
  { split; [done|done|by rewrite Hdw|exists k; rewrite Hdw; by apply (super_same s)|].
    split; [by rewrite Eb1, lookup_insert_eq|by rewrite Hdw, Hblk|done]. }
  exists s1, s2. split; [done|]. split; [done|]. split; [by exists (stored v bv)|]. split; [done|]. split; [done|].
  rewrite Ei2, list_lookup_insert_eq by (by eapply lookup_lt_Some). f_equal.
  change (b_data (stored v bv)) with (put_d_inode v (inode_place (i_num v)) (b_data bv)).
  destruct (Z.eqb_spec (i_num w) (i_num v)) as [->|Hne].
  - by apply get_put_d_inode; [..|apply inode_place_range|].
  - apply get_put_d_inode_ne; [apply inode_place_range..|]. by apply not_eq_sym, (inode_place_ne sb).
Qed.

(** ** Witness *)

(** Inode 1, changed, in slot 0 of the table; the slot 1 is to hold inode 1 again.  Its block, 4,
    is in buffer 2. *)
Definition demo_inode : m_inode :=
  mk_inode 0x81a4 3 70000 1700000000 5 2 [11; 12; 13; 14; 15; 16; 17; 18; 0] 0 0 769 1 1 0 1 0 0 0 0.
Definition demo_slot : m_inode := zero_inode <| i_dev := 769 |> <| i_num := 1 |>.
Definition read_in (b : buffer_head) : buffer_head := b <| b_uptodate := 1 |> <| b_data := replicate 1024 7 |>.
Definition demo_inodes : fs :=
  (snd (take_buffer 2 769 4 demo_cache)) <| bufs ::= alter read_in 2 |> <| supers := [demo_super] |>
    <| inode_table := [demo_inode; demo_slot] |>.

Lemma demo_inodes_ok :
  exists chains v, queues demo_inodes [0; 1; 2] chains None /\ bufs demo_inodes !! 2 = Some v /\
    b_data v = replicate 1024 7 /\ b_count v = 1 /\ b_dev v = 769 /\ b_blocknr v = 4 /\ b_uptodate v = 1 /\ b_lock v = 0.
Proof.
  destruct (demo_taken 4) as (s & chains & v & E & Q & Hv & (Ecount & Ed & Eb & El) & _); [lia|].
  unfold demo_inodes. rewrite E. cbn [snd]. exists chains, (read_in v).
  split; [|split; [exact (alter_at _ _ _ _ Hv)|by repeat split]].
  apply (queues_same (s <| bufs ::= alter read_in 2 |>)); [done..|]. apply queues_upd; [exact Q|done|done|by left].
Qed.

Lemma demo_inodes_tables : inode_table demo_inodes = [demo_inode; demo_slot] /\ supers demo_inodes = [demo_super].
Proof. by split. Qed.

#[local] Opaque demo_inodes.

Lemma inode_roundtrip_witness :
  exists s1 s2, write_inode (H := quiet) 0 demo_inodes = (Ret tt, s1) /\ read_inode (H := quiet) 1 s1 = (Ret tt, s2) /\
    inode_table s2 !! 1%nat = Some (d_copy demo_inode demo_slot).
Proof.
  destruct demo_inodes_ok as (chains & v & Q & Hv & Edata & Ecount & Edev & Eblock & Eup & Elock).
  destruct demo_inodes_tables as [Etable Esuper].
  destruct (inode_roundtrip (H := quiet) demo_inodes [0; 1; 2] chains demo_super 0 demo_inode 2 v 1 demo_slot)
    as (s1 & s2 & E1 & _ & _ & E2 & _ & E3); [done| |done| |by rewrite Edata|lia|lia|by rewrite Etable|done|done|cbn; lia|cbn; lia|done|].
  - split; [exact Q|by rewrite Etable|done| |split; [exact Hv|by rewrite Edev, Eblock|rewrite Elock, Eup, Ecount; done]].
    exists 0. split; [rewrite Esuper; by split|done|intros j Hj; lia].
  - split; [cbn; lia|cbn; lia|cbn; lia|]. split; [done|]. repeat (apply Forall_cons; split; [lia|]). apply Forall_nil. done.
  - exists s1, s2. split; [exact E1|]. split; [exact E2|exact E3].
Defined.
