(* ===== verification/Exec.v ===== *)
(** Program loading ([linux-0.11/fs/exec.c], the header of [include/a.out.h]).

    The state puts the kernel's state and the file system's together.  The task that makes
    the call is in the kernel's task table; the file system's routines see its fields through
    [proc_of] and write them back ([on_fs]).  [fs_sel] is the segment register [fs]: with the
    kernel's selector [0x10] the user access routines read the kernel's own data ([kdata]),
    otherwise the data segment of the task ([Task.umem]).  [arg_page] is the local array
    [page], [regs] the words of the stack frame that the argument [eip] points to.
    The class [ExecFrame] gives the addresses of the local variables of [do_execve] whose
    address is taken.  A scan of user memory for a terminating zero is bounded by the field
    [fuel] of [FsEnv].

    The frames of the argument pages are memory of [kmm]; [map_page] makes the bytes of a page
    that [put_page] could map visible at its user address. *)

From S2P Require Import Prelude Memory Task Fork FsDefs Buffer Inode FileIo Namei.

(** ** Constants and the header of an executable *)

Definition MAX_ARG_PAGES : Z := 32.
Definition ENOEXEC : Z := 8.
Definition S_ISUID : Z := 0x800.
Definition S_ISGID : Z := 0x400.
Definition ZMAGIC : Z := 0x10b.
Definition SEGMENT_SIZE : Z := 1024.
Definition SIZEOF_EXEC : Z := 32.

Record exec := mk_exec {
  a_magic : Z; a_text : Z; a_data : Z; a_bss : Z; a_syms : Z; a_entry : Z; a_trsize : Z; a_drsize : Z
}.

(** [*((struct exec * ) data)] *)
Definition get_exec (data : list Z) : exec :=
  mk_exec (ld32 data 0) (ld32 data 2) (ld32 data 4) (ld32 data 6)
    (ld32 data 8) (ld32 data 10) (ld32 data 12) (ld32 data 14).

Definition N_MAGIC (x : exec) : Z := a_magic x.
Definition _N_HDROFF (x : exec) : Z := SEGMENT_SIZE - SIZEOF_EXEC.
Definition N_TXTOFF (x : exec) : Z :=
  if N_MAGIC x =? ZMAGIC then _N_HDROFF x + SIZEOF_EXEC else SIZEOF_EXEC.

(** ** State *)

Record xst := mk_xst {
  xk : kst;
  xfs : fs;
  kdata : gmap Z Z;
  fs_sel : Z;
  arg_page : list Z;
  regs : list Z
}.

#[export] Instance eta_xst : Eta xst := fun s =>
  mk_xst (xk s) (xfs s) (kdata s) (fs_sel s) (arg_page s) (regs s).

Class ExecFrame := { a_filename : Z; a_buf : Z; a_i_arg : Z; a_i_name : Z }.

Definition KERNEL_DS : Z := 0x10.
Definition USER_DS : Z := 0x17.

(** The memory that the register [fs] selects. *)
Definition seg (s : xst) : gmap Z Z := if fs_sel s =? KERNEL_DS then kdata s else Task.umem (xk s).
Definition set_seg (m : gmap Z Z) (s : xst) : xst :=
  if fs_sel s =? KERNEL_DS then s <| kdata := m |> else s <| xk ::= fun k => k <| Task.umem := m |> |>.

Definition get_fs : M xst Z := gets fs_sel.
Definition get_ds : M xst Z := mret KERNEL_DS.
Definition set_fs (v : Z) : M xst unit := modify (fun s => s <| fs_sel := v |>).

Definition get_fs_byte (a : Z) : M xst Z := gets (fun s => ld_byte (seg s) a).
Definition get_fs_long (a : Z) : M xst Z := gets (fun s => ld_long (seg s) a).
Definition put_fs_byte (v a : Z) : M xst unit := modify (fun s => set_seg (<[a := u8 v]> (seg s)) s).
Definition put_fs_long (v a : Z) : M xst unit := modify (fun s => set_seg (st_long v a (seg s)) s).

(** *** The two parts of the state *)

Definition on_k {A} (m : M kst A) : M xst A := fun s =>
  let '(r, k) := m (xk s) in (r, s <| xk := k |>).

Definition on_memory {A} (m : M mm A) : M xst A := on_k (on_mm m).

Definition proc_of (t : task_struct) : proc :=
  mk_proc (t_uid t) (t_euid t) (t_gid t) (t_egid t) (t_umask t) (t_signal t) (t_leader t) (t_tty t) (t_pgrp t)
    (t_pwd t) (t_root t) (t_close_on_exec t) (t_filp t).

Definition with_proc (p : proc) (t : task_struct) : task_struct :=
  t <| t_uid := p_uid p |> <| t_euid := p_euid p |> <| t_gid := p_gid p |> <| t_egid := p_egid p |>
    <| t_umask := p_umask p |> <| t_signal := p_signal p |> <| t_leader := p_leader p |>
    <| t_tty := p_tty p |> <| t_pgrp := p_pgrp p |> <| t_pwd := p_pwd p |> <| t_root := p_root p |>
    <| t_close_on_exec := p_close_on_exec p |> <| t_filp := p_filp p |>.

(** A routine of the file system, called by the current task [t]. *)
Definition on_fs {A} (m : M fs A) : M xst A := fun s =>
  match tasks (xk s) !! cur (xk s) with
  | None => undef "current" s
  | Some t =>
      let '(r, f) := m ((xfs s) <| FsDefs.current := proc_of t |> <| FsDefs.umem := seg s |>) in
      (r, set_seg (FsDefs.umem f)
            (s <| xfs := f |>
               <| xk ::= fun k => k <| tasks ::= <[cur k := with_proc (FsDefs.current f) t]> |> |>))
  end.

(** [page[i]] *)
Definition get_page (i : Z) : M xst Z :=
  s ← get; of_option "page" (if i <? 0 then None else arg_page s !! Z.to_nat i).
Definition set_page (i v : Z) : M xst unit :=
  modify (fun s => s <| arg_page ::= <[Z.to_nat i := v]> |>).

Section Exec.
Context `{FsEnv} `{ExecFrame}.

(** ** The pointer tables *)

(** [while (get_fs_byte(p++));] *)
Fixpoint skip_string (n : nat) (p : Z) : M xst Z :=
  match n with
  | O => nofuel
  | S n => b ← get_fs_byte p; if istrue b then skip_string n (p + 1) else mret (p + 1)
  end.

(** [while (argc-->0) { put_fs_long(p,argv++); ... }]: the string after the last one and
    the place after the last pointer. *)
Fixpoint put_pointers (argc : nat) (p argv : Z) : M xst (Z * Z) :=
  match argc with
  | O => mret (p, argv)
  | S argc =>
      put_fs_long p argv;;
      p ← skip_string fuel p;
      put_pointers argc p (argv + 4)
  end.

Definition create_tables (p argc envc : Z) : M xst Z :=
  let sp := Z.land 0xfffffffc p in
  let sp := sp - 4 * (envc + 1) in
  let envp := sp in
  let sp := sp - 4 * (argc + 1) in
  let argv := sp in
  let sp := sp - 4 in
  put_fs_long envp sp;;
  let sp := sp - 4 in
  put_fs_long argv sp;;
  let sp := sp - 4 in
  put_fs_long argc sp;;
  '(p, argv) ← put_pointers (Z.to_nat argc) p argv;
  put_fs_long 0 argv;;
  '(_, envp) ← put_pointers (Z.to_nat envc) p envp;
  put_fs_long 0 envp;;
  mret sp.

Fixpoint count_from (n : nat) (tmp i : Z) : M xst Z :=
  match n with
  | O => nofuel
  | S n => v ← get_fs_long tmp; if istrue v then count_from n (tmp + 4) (i + 1) else mret i
  end.

Definition count (argv : Z) : M xst Z :=
  if istrue argv then count_from fuel argv 0 else mret 0.

(** ** Copying the strings *)

(** [do { len++; } while (get_fs_byte(tmp++));] *)
Fixpoint string_end (n : nat) (tmp len : Z) : M xst (Z * Z) :=
  match n with
  | O => nofuel
  | S n =>
      b ← get_fs_byte tmp;
      if istrue b then string_end n (tmp + 1) (len + 1) else mret (tmp + 1, len + 1)
  end.

(** [page[p/PAGE_SIZE]], allocated at its first use; 0 when no frame is free. *)
Definition arg_frame (p : Z) : M xst Z :=
  pag ← get_page (p / PAGE_SIZE);
  if istrue pag then mret pag else
  pag ← on_memory Memory.get_free_page;
  set_page (p / PAGE_SIZE) pag;;
  mret pag.

(** [while (len) ...]: [None] is the [return 0] when memory runs out. *)
Fixpoint copy_bytes (len : nat) (old_fs new_fs from_kmem p tmp offset pag : Z) : M xst (option (Z * Z * Z)) :=
  match len with
  | O => mret (Some (p, offset, pag))
  | S len =>
      let p := u32 (p - 1) in
      let tmp := tmp - 1 in
      let offset := offset - 1 in
      r ← (if offset <? 0 then
             let offset := p mod PAGE_SIZE in
             when (from_kmem =? 2) (set_fs old_fs);;
             pag ← arg_frame p;
             if pag =? 0 then mret None else
             when (from_kmem =? 2) (set_fs new_fs);;
             mret (Some (offset, pag))
           else mret (Some (offset, pag)));
      match r with
      | None => mret None
      | Some (offset, pag) =>
          b ← get_fs_byte tmp;
          on_memory (stb (pag + offset) b);;
          copy_bytes len old_fs new_fs from_kmem p tmp offset pag
      end
  end.

(** [while (argc-- > 0) ...]: [None] is a [return 0]. *)
Fixpoint copy_each (argc : nat) (old_fs new_fs from_kmem argv p offset pag : Z) : M xst (option Z) :=
  match argc with
  | O => mret (Some p)
  | S argc =>
      when (from_kmem =? 1) (set_fs new_fs);;
      tmp ← get_fs_long (argv + 4 * Z.of_nat argc);
      if tmp =? 0 then panic "argc is wrong" else
      when (from_kmem =? 1) (set_fs old_fs);;
      '(tmp, len) ← string_end fuel tmp 0;
      if u32 (p - len) <? 0 then set_fs old_fs;; mret None else
      r ← copy_bytes (Z.to_nat len) old_fs new_fs from_kmem p tmp offset pag;
      match r with
      | None => mret None
      | Some (p, offset, pag) => copy_each argc old_fs new_fs from_kmem argv p offset pag
      end
  end.

Definition copy_strings (argc argv p from_kmem : Z) : M xst Z :=
  if p =? 0 then mret 0 else
  new_fs ← get_ds;
  old_fs ← get_fs;
  when (from_kmem =? 2) (set_fs new_fs);;
  r ← copy_each (Z.to_nat argc) old_fs new_fs from_kmem argv p 0 0;
  match r with
  | None => mret 0
  | Some p => when (from_kmem =? 2) (set_fs old_fs);; mret p
  end.

(** ** The new address space *)

(** [set_limit] stores the number of pages less one; the length is one page more. *)
Definition limit_of (limit : Z) : Z := u32 ((Z.shiftr (u32 (limit - 1)) 12 + 1) * 4096).
Definition set_limit1 (l : Z) (t : task_struct) : task_struct :=
  t <| t_ldt ::= fun '(d0, d1, d2) => (d0, mk_desc (d_base d1) (limit_of l), d2) |>.
Definition set_limit2 (l : Z) (t : task_struct) : task_struct :=
  t <| t_ldt ::= fun '(d0, d1, d2) => (d0, d1, mk_desc (d_base d2) (limit_of l)) |>.

(** The byte of memory at a physical address. *)
Definition ldb (m : gmap Z Z) (a : Z) : Z := u8 (Z.shiftr (ld m (4 * (a / 4))) (8 * (a mod 4))).

(** The bytes of the frame [page], at the user addresses from [a] on. *)
Definition page_bytes (m : gmap Z Z) (page a : Z) : gmap Z Z :=
  list_to_map ((fun j => (a + j, ldb m (page + j))) <$> seqZ 0 4096).

Definition map_page (page a : Z) : M xst unit :=
  modify (fun s => s <| xk ::= fun k => k <| Task.umem ::= union (page_bytes (mem (kmm k)) page a) |> |>).

(** [for (i=MAX_ARG_PAGES-1 ; i>=0 ; i--)]; [base] is the start of the segment. *)
Fixpoint put_pages (i : nat) (base data_base : Z) : M xst unit :=
  match i with
  | O => mret tt
  | S i =>
      let data_base := u32 (data_base - PAGE_SIZE) in
      page ← get_page (Z.of_nat i);
      (if istrue page then
         r ← on_memory (put_page page data_base);
         when (istrue r) (map_page page (u32 (data_base - base)))
       else mret tt);;
      put_pages i base data_base
  end.

Definition change_ldt (text_size : Z) : M xst Z :=
  let code_limit := Z.land (u32 (text_size + PAGE_SIZE - 1)) 0xFFFFF000 in
  let data_limit := 0x4000000 in
  t ← on_k current_task;
  let code_base := d_base (ldt1 t) in
  let data_base := code_base in
  on_k (Task.upd_current (set_base1 code_base));;
  on_k (Task.upd_current (set_limit1 code_limit));;
  on_k (Task.upd_current (set_base2 data_base));;
  on_k (Task.upd_current (set_limit2 data_limit));;
  set_fs USER_DS;;
  put_pages (Z.to_nat MAX_ARG_PAGES) data_base (u32 (data_base + data_limit));;
  mret data_limit.

(** ** The first line of a script *)

(** [strncpy(buf, data, n)] *)
Fixpoint strncpy (n : nat) (data : list Z) : list Z :=
  match n with
  | O => []
  | S n => match data with
           | c :: data => if c =? 0 then replicate (S n) 0 else c :: strncpy n data
           | [] => replicate (S n) 0
           end
  end.

(** [strchr(buf, c)], as an index into [buf]. *)
Fixpoint strchr (buf : list Z) (c : Z) (i : nat) : option nat :=
  match buf with
  | [] => None
  | x :: buf => if x =? c then Some i else if x =? 0 then None else strchr buf c (S i)
  end.

Definition blank (c : Z) : bool := (c =? 32) || (c =? 9).

(** [for (cp = buf; blank( *cp); cp++);] *)
Fixpoint skip_blanks (buf : list Z) (cp : nat) : nat :=
  match buf with
  | c :: buf => if blank c then skip_blanks buf (S cp) else cp
  | [] => cp
  end.

(** [for ( ; *cp && !blank( *cp); cp++) if ( *cp == '/') i_name = cp+1;] *)
Fixpoint interp_name (buf : list Z) (cp i_name : nat) : nat * nat :=
  match buf with
  | c :: buf =>
      if istrue c && negb (blank c) then interp_name buf (S cp) (if c =? 47 then S cp else i_name)
      else (cp, i_name)
  | [] => (cp, i_name)
  end.

(** The buffer with its terminators, and the indices [interp], [i_name] and [i_arg];
    [None] when there is no interpreter. *)
Definition parse_bang (data : list Z) : option (list Z * nat * nat * option nat) :=
  let buf := strncpy 1022 (drop 2 data) ++ [0] in
  match strchr buf 10 0 with
  | None => None
  | Some cp =>
      let buf := <[cp := 0]> buf in
      let cp := skip_blanks buf 0 in
      if nth cp buf 0 =? 0 then None else
      let interp := cp in
      let '(cp, i_name) := interp_name (drop interp buf) interp interp in
      if istrue (nth cp buf 0) then Some (<[cp := 0]> buf, interp, i_name, Some (S cp))
      else Some (buf, interp, i_name, None)
  end.

(** A store into the local variables of [do_execve]. *)
Definition put_kbytes (l : list Z) (a : Z) : M xst unit :=
  modify (fun s => s <| kdata ::= union (list_to_map (imap (fun j b => (a + Z.of_nat j, b)) l)) |>).
Definition put_klong (v a : Z) : M xst unit := modify (fun s => s <| kdata ::= st_long v a |>).

(** ** do_execve *)

(** [exec_error1] *)
Definition exec_error1 (retval : Z) : M xst Z :=
  for_each (seqZ 0 MAX_ARG_PAGES) (fun i => page ← get_page i; on_memory (Memory.free_page page));;
  mret retval.

(** [exec_error2] *)
Definition exec_error2 (inode retval : Z) : M xst Z :=
  on_fs (iput (Some inode));;
  exec_error1 retval.

(** May the current task [t] execute the file? *)
Definition may_exec (v : m_inode) (t : task_struct) : bool :=
  let i := i_mode v in
  let i := if t_euid t =? i_uid v then Z.shiftr i 6
           else if t_egid t =? i_gid v then Z.shiftr i 3 else i in
  istrue (Z.land i 1) || (istrue (Z.land (i_mode v) 0x49) && (t_euid t =? 0)).

(** The header that an executable must have. *)
Definition bad_header (ex : exec) (size : Z) : bool :=
  negb (N_MAGIC ex =? ZMAGIC) || istrue (a_trsize ex) || istrue (a_drsize ex) ||
  (0x3000000 <? u32 (a_text ex + a_data ex + a_bss ex)) ||
  (size <? u32 (a_text ex + a_data ex + a_syms ex + N_TXTOFF ex)).

(** [while (i&0xfff) put_fs_byte(0,(char * ) (i++));] ends within a page. *)
Fixpoint clear_rest (n : nat) (i : Z) : M xst unit :=
  match n with
  | O => nofuel
  | S n => if istrue (Z.land i 0xfff) then put_fs_byte 0 i;; clear_rest n (i + 1) else mret tt
  end.

(** Giving up the files of the old program. *)
Definition exec_release (inode : Z) : M xst unit :=
  t ← on_k current_task;
  (match t_executable t with Some e => on_fs (iput (Some e)) | None => mret tt end);;
  on_k (Task.upd_current (fun t => t <| t_executable := Some inode |>));;
  on_k (Task.upd_current (fun t =>
    t <| t_sigaction ::= fmap (fun a => a <| sa_handler := 0 |>) |>));;
  for_each (seqZ 0 NR_OPEN) (fun i =>
    t ← on_k current_task;
    when (istrue (Z.land (Z.shiftr (t_close_on_exec t) i) 1)) (on_fs (sys_close i);; mret tt));;
  on_k (Task.upd_current (fun t => t <| t_close_on_exec := 0 |>)).

(** Both segments of the old program are unmapped: no byte of it can be read any more. *)
Definition exec_unmap : M xst unit :=
  t ← on_k current_task;
  on_memory (free_page_tables (d_base (ldt1 t)) (d_limit (ldt1 t)));;
  on_memory (free_page_tables (d_base (ldt2 t)) (d_limit (ldt2 t)));;
  modify (fun s => s <| xk ::= fun k => k <| Task.umem := ∅ |> |>).

Definition forget_math : M xst unit :=
  modify (fun s => s <| xk ::= fun k =>
    if bool_decide (last_task_used_math k = Some (cur k)) then k <| last_task_used_math := None |> else k |>);;
  on_k (Task.upd_current (fun t => t <| t_used_math := 0 |>)).

(** From the point of no return on. *)
Definition exec_commit (inode : Z) (ex : exec) (e_uid e_gid argc envc p : Z) : M xst Z :=
  exec_release inode;;
  exec_unmap;;
  forget_math;;
  n ← change_ldt (a_text ex);
  let p := u32 (p + u32 (n - MAX_ARG_PAGES * PAGE_SIZE)) in
  p ← create_tables p argc envc;
  on_k (Task.upd_current (fun t =>
    let end_data := u32 (a_data ex + a_text ex) in
    t <| t_brk := u32 (a_bss ex + end_data) |> <| t_end_data := end_data |> <| t_end_code := a_text ex |>
      <| t_start_stack := Z.land p 0xfffff000 |>
      <| t_euid := u16 e_uid |> <| t_egid := u16 e_gid |>));;
  clear_rest (Z.to_nat PAGE_SIZE) (s32 (a_text ex + a_data ex));;
  modify (fun s => s <| regs ::= <[0%nat := a_entry ex]> |> <| regs ::= <[3%nat := p]> |>);;
  mret 0.

(** Once the header is checked: the strings of a plain call are copied here. *)
Definition load_image (inode : Z) (ex : exec) (e_uid e_gid argv envp argc envc p : Z) (sh_bang : bool) : M xst Z :=
  if sh_bang then exec_commit inode ex e_uid e_gid argc envc p else
  p ← copy_strings envc envp p 0;
  p ← copy_strings argc argv p 0;
  if p =? 0 then exec_error2 inode (- ENOMEM) else
  exec_commit inode ex e_uid e_gid argc envc p.

(** The strings of a script's call: the name of the interpreter, its argument and the name
    of the script in place of the first argument. *)
Definition splice (filename argv envp argc envc p : Z) (sh_bang : bool)
    (buf : list Z) (i_name : nat) (i_arg : option nat) : M xst (Z * Z) :=
  put_kbytes buf a_buf;;
  '(argc, p) ← (if sh_bang then mret (argc, p) else
    p ← copy_strings envc envp p 0;
    let argc := argc - 1 in
    p ← copy_strings argc (argv + 4) p 0;
    mret (argc, p));
  put_klong filename a_filename;;
  p ← copy_strings 1 a_filename p 1;
  let argc := argc + 1 in
  '(argc, p) ← (match i_arg with
    | None => mret (argc, p)
    | Some i =>
        put_klong (a_buf + Z.of_nat i) a_i_arg;;
        p ← copy_strings 1 a_i_arg p 2;
        mret (argc + 1, p)
    end);
  put_klong (a_buf + Z.of_nat i_name) a_i_name;;
  p ← copy_strings 1 a_i_name p 2;
  mret (argc + 1, p).

(** From the label [restart_interp] on; a script restarts it once. *)
Fixpoint restart_interp (n : nat) (filename argv envp inode argc envc p : Z) (sh_bang : bool) : M xst Z :=
  match n with
  | O => nofuel
  | S n =>
      v ← on_fs (get_inode inode);
      if negb (S_ISREG (i_mode v)) then exec_error2 inode (- EACCES) else
      t ← on_k current_task;
      let e_uid := if istrue (Z.land (i_mode v) S_ISUID) then i_uid v else t_euid t in
      let e_gid := if istrue (Z.land (i_mode v) S_ISGID) then i_gid v else t_egid t in
      if negb (may_exec v t) then exec_error2 inode (- ENOEXEC) else
      r ← on_fs (bread (i_dev v) (zone v 0));
      match r with
      | None => exec_error2 inode (- EACCES)
      | Some bh =>
          b ← on_fs (get_bh bh);
          let ex := get_exec (b_data b) in
          if (nth 0 (b_data b) 0 =? 35) && (nth 1 (b_data b) 0 =? 33) && negb sh_bang then
            on_fs (brelse (Some bh));;
            on_fs (iput (Some inode));;
            match parse_bang (b_data b) with
            | None => exec_error1 (- ENOEXEC)
            | Some (buf, interp, i_name, i_arg) =>
                '(argc, p) ← splice filename argv envp argc envc p sh_bang buf i_name i_arg;
                if p =? 0 then exec_error1 (- ENOMEM) else
                old_fs ← get_fs;
                ds ← get_ds;
                set_fs ds;;
                r ← on_fs (namei (a_buf + Z.of_nat interp));
                match r with
                | None => set_fs old_fs;; exec_error1 (- ENOENT)
                | Some inode =>
                    set_fs old_fs;;
                    restart_interp n filename argv envp inode argc envc p true
                end
            end
          else
            on_fs (brelse (Some bh));;
            v ← on_fs (get_inode inode);
            if bad_header ex (i_size v) then exec_error2 inode (- ENOEXEC) else
            if negb (N_TXTOFF ex =? BLOCK_SIZE) then
              on_fs (FsDefs.printk "N_TXTOFF != BLOCK_SIZE. See a.out.h.");;
              exec_error2 inode (- ENOEXEC)
            else
            load_image inode ex e_uid e_gid argv envp argc envc p sh_bang
      end
  end.

Definition do_execve (filename argv envp : Z) : M xst Z :=
  s ← get;
  cs ← of_option "eip" (regs s !! 1%nat);
  if negb (Z.land 0xffff cs =? 0x000f) then panic "execve called from supervisor mode" else
  modify (fun s => s <| arg_page := replicate (Z.to_nat MAX_ARG_PAGES) 0 |>);;
  r ← on_fs (namei filename);
  match r with
  | None => mret (- ENOENT)
  | Some inode =>
      argc ← count argv;
      envc ← count envp;
      restart_interp 2 filename argv envp inode argc envc (PAGE_SIZE * MAX_ARG_PAGES - 4) false
  end.

End Exec.
