(* ===== verification/ExecArgs.v ===== *)
(** The argument pages of [do_execve]: bytes of memory words, the invariant [args_ok] of the
    pages that [copy_strings] fills, and what it writes.

    [area m pg o] is the byte at offset [o] of the 128 KB that the pages [pg] stand for. *)

From S2P Require Import Prelude Memory MemoryInv MemoryOps MemoryFault Task Fork ForkSpec FsDefs Exec.

(** ** Bytes of words *)

Lemma u8_land x : u8 x = Z.land x 255.
Proof. change 255 with (Z.ones 8). by rewrite Z.land_ones by lia. Qed.

(** Storing the byte lane at bit [sh] and reading the one at bit [l]. *)
Lemma lane_set x v sh l :
  (sh = 0 \/ sh = 8 \/ sh = 16 \/ sh = 24) -> (l = 0 \/ l = 8 \/ l = 16 \/ l = 24) -> 0 <= v < 256 ->
  Z.land (Z.shiftr (Z.lor (Z.land x (0xffffffff - Z.shiftl 255 sh)) (Z.shiftl v sh)) l) 255 =
  if decide (l = sh) then v else Z.land (Z.shiftr x l) 255.
Proof.
  intros Hs Hl Hv.
  assert (Z.land v 255 = v) as Hv' by (rewrite <- u8_land; by apply u8_small).
  rewrite Z.shiftr_lor, Z.shiftr_land, Z.land_lor_distr_l, <- Z.land_assoc.
  assert (Z.land (Z.shiftr (Z.shiftl v sh) l) 255 = if decide (l = sh) then v else 0) as ->.
  { case_decide as E.
    - subst l. rewrite Z.shiftr_shiftl_l, Z.sub_diag by lia. by rewrite Z.shiftl_0_r.
    - destruct (decide (l < sh)).
      + rewrite Z.shiftr_shiftl_l by lia. rewrite <- u8_land. unfold u8. rewrite Z.shiftl_mul_pow2 by lia.
        assert (sh - l = 8 \/ sh - l = 16 \/ sh - l = 24) as Hd by lia.
        replace (2 ^ (sh - l)) with (2 ^ (sh - l - 8) * 256) by (destruct Hd as [->|[->| ->]]; reflexivity).
        rewrite Z.mul_assoc. apply Z.mod_mul. lia.
      + rewrite Z.shiftr_shiftl_r by lia. rewrite Z.shiftr_div_pow2 by lia.
        rewrite Z.div_small; [done|]. split; [lia|].
        assert (2 ^ 8 <= 2 ^ (l - sh)) by (apply Z.pow_le_mono_r; lia). lia. }
  case_decide as E.
  - subst l. destruct Hs as [->|[->|[->| ->]]]; cbn; by rewrite Z.land_0_r.
  - rewrite Z.lor_0_r. f_equal. destruct Hs as [->|[->|[->| ->]]], Hl as [->|[->|[->| ->]]]; done.
Qed.

Definition st_byte (a v : Z) (m : gmap Z Z) : gmap Z Z :=
  <[4 * (a / 4) := Z.lor (Z.land (ld m (4 * (a / 4))) (0xffffffff - Z.shiftl 255 (8 * (a mod 4))))
                     (Z.shiftl (u8 v) (8 * (a mod 4)))]> m.

Lemma ldb_st_byte m a v b : ldb (st_byte a v m) b = if decide (b = a) then u8 v else ldb m b.
Proof.
  unfold ldb, st_byte. destruct (decide (4 * (b / 4) = 4 * (a / 4))) as [E|E].
  - rewrite E. rewrite ld_insert_eq, u8_land, lane_set.
    + pose proof (Z_div_mod_eq_full a 4). pose proof (Z_div_mod_eq_full b 4).
      repeat case_decide; first [lia | done | by rewrite u8_land].
    + pose proof (Z.mod_pos_bound a 4). lia.
    + pose proof (Z.mod_pos_bound b 4). lia.
    + apply u8_range.
  - rewrite ld_insert_ne by done. case_decide; [subst; done|done].
Qed.

Lemma st_byte_out m a v p x :
  p mod 4096 = 0 -> p <= a < p + 4096 -> ~ (p <= x < p + 4096) -> ld (st_byte a v m) x = ld m x.
Proof.
  intros Hp Ha Hx. apply ld_insert_ne. pose proof (Z_div_mod_eq_full a 4). pose proof (Z.mod_pos_bound a 4).
  pose proof (Z_div_mod_eq_full p 4096). lia.
Qed.

Lemma ldb_ext m m' a : ld m' (4 * (a / 4)) = ld m (4 * (a / 4)) -> ldb m' a = ldb m a.
Proof. unfold ldb. by intros ->. Qed.

(** A byte of a page, in terms of the page's words. *)
Lemma ldb_page m m' p a :
  p mod 4096 = 0 -> p <= a < p + 4096 -> (forall x, p <= x < p + 4096 -> ld m' x = ld m x) -> ldb m' a = ldb m a.
Proof.
  intros Hp Ha Hx. apply ldb_ext, Hx. pose proof (Z_div_mod_eq_full a 4). pose proof (Z.mod_pos_bound a 4).
  pose proof (Z_div_mod_eq_full p 4096). lia.
Qed.

(** ** The argument pages *)

(** How often a frame is named by the array [page]. *)
Definition held (pg : list Z) (f : Z) : Z := sumZ (fun x => b2z (negb (x =? 0) && (x =? f))) pg.

Lemma sumZ_insert {A} (g : A -> Z) l i old v :
  l !! i = Some old -> sumZ g (<[i := v]> l) = sumZ g l - g old + g v.
Proof.
  revert i. induction l as [|x l IH]; intros [|i] Hi; try discriminate; cbn in Hi.
  - injection Hi as ->. change (g v + sumZ g l = g old + sumZ g l - g old + g v). lia.
  - change (g x + sumZ g (<[i := v]> l) = g x + sumZ g l - g old + g v). rewrite (IH i Hi). lia.
Qed.

Lemma sumZ_lookup {A} (g : A -> Z) l i x : (forall y, 0 <= g y) -> l !! i = Some x -> g x <= sumZ g l.
Proof. intros Hg Hi. apply sumZ_elem; [auto|]. by eapply list_elem_of_lookup_2. Qed.

Lemma held_nonneg pg f : 0 <= held pg f.
Proof. apply sumZ_nonneg. intros. apply b2z_range. Qed.

Lemma held_in pg i p : pg !! i = Some p -> p <> 0 -> 1 <= held pg p.
Proof.
  intros Hi Hp. pose proof (sumZ_lookup (fun x => b2z (negb (x =? 0) && (x =? p))) pg i p
    ltac:(intros; apply b2z_range) Hi) as Hle. cbn beta in Hle.
  rewrite Z.eqb_refl, (proj2 (Z.eqb_neq p 0) Hp) in Hle. exact Hle.
Qed.

(** Entering a page into an empty place of the array. *)
Lemma held_insert pg i p f :
  pg !! i = Some 0 -> p <> 0 -> held (<[i := p]> pg) f = bump (held pg) p 1 f.
Proof.
  intros Hi Hp. unfold held, bump. rewrite (sumZ_insert _ pg i 0 p Hi). rewrite (proj2 (Z.eqb_neq p 0) Hp).
  rewrite (Z.eqb_sym p f). cbn. destruct (f =? p); cbn; lia.
Qed.

(** Taking it out again. *)
Lemma held_remove pg i p f :
  pg !! i = Some p -> p <> 0 -> held (<[i := 0]> pg) f = bump (held pg) p (-1) f.
Proof.
  intros Hi Hp. unfold held, bump. rewrite (sumZ_insert _ pg i p 0 Hi). rewrite (proj2 (Z.eqb_neq p 0) Hp).
  rewrite (Z.eqb_sym p f). cbn. destruct (f =? p); cbn; lia.
Qed.

Definition with_held (own : Z -> Z) (pg : list Z) : Z -> Z := fun f => own f + held pg f.

Record args_ok (own : Z -> Z) (k : mm) (pg : list Z) : Prop := {
  ao_own : forall f, 0 <= own f;
  ao_len : length pg = 32%nat;
  ao_main : forall i p, pg !! i = Some p -> p <> 0 -> main k p;
  ao_cnt : forall i p, pg !! i = Some p -> p <> 0 -> cnt k p = 1;
  ao_diff : forall i j p, pg !! i = Some p -> pg !! j = Some p -> p <> 0 -> i = j;
  ao_wf : wf (with_held own pg) k
}.

(** An argument page is the kernel's alone. *)
Lemma arg_private own k pg i p :
  args_ok own k pg -> pg !! i = Some p -> p <> 0 -> with_held own pg p = 1 /\ refs (mem k) p = 0.
Proof.
  intros A Hi Hp. pose proof (wf_cnt _ k (ao_wf _ _ _ A) p (ao_main _ _ _ A i p Hi Hp)) as Hc.
  rewrite (ao_cnt _ _ _ A i p Hi Hp) in Hc. pose proof (refs_nonneg (mem k) p). pose proof (held_in pg i p Hi Hp).
  pose proof (ao_own _ _ _ A p). unfold with_held in *. lia.
Qed.

(** The argument pages do not depend on what the memory manager sees of the tasks. *)
Lemma args_view own k pg : args_ok own (kmm k) pg -> args_ok own (mm_view k) pg.
Proof. intros []. constructor; try done. by apply wf_view. Qed.

(** Writing within an argument page. *)
Lemma args_write own k pg i p m' :
  args_ok own k pg -> pg !! i = Some p -> p <> 0 ->
  (forall x, ~ (p <= x < p + 4096) -> ld m' x = ld (mem k) x) -> args_ok own (k <| mem := m' |>) pg.
Proof.
  intros A Hi Hp Hout. pose proof (ao_wf _ _ _ A) as W. pose proof (ao_main _ _ _ A i p Hi Hp) as Hm.
  destruct (arg_private own k pg i p A Hi Hp) as [H1 _]. destruct A. constructor; try done.
  apply (wf_same_tables (with_held own pg) _ k); try done; try apply W.
  apply (same_tables_outside (with_held own pg) k m' p); [done|done| |done].
  apply (not_table (with_held own pg)); [done|done|right; lia].
Qed.

(** Allocating a page into an empty place. *)
Lemma cnt_alloc own k p f :
  wf own k -> main k p -> main k f -> cnt (alloc_state k p) f = if decide (f = p) then 1 else cnt k f.
Proof. intros W Hp Hf. by apply (cnt_insert own k _ p 1 f). Qed.

Lemma args_alloc own k pg i p :
  args_ok own k pg -> pg !! i = Some 0 -> main k p -> cnt k p = 0 -> args_ok own (alloc_state k p) (<[i := p]> pg).
Proof.
  intros A Hi Hm Hc. pose proof (ao_wf _ _ _ A) as W.
  assert (p <> 0) as Hp0 by (destruct Hm; unfold LOW_MEM in *; lia).
  assert (forall j, pg !! j <> Some p) as Hnew.
  { intros j Hj. pose proof (ao_cnt _ _ _ A j p Hj Hp0). lia. }
  assert (forall j q, <[i := p]> pg !! j = Some q -> j = i /\ q = p \/ j <> i /\ pg !! j = Some q) as Hl.
  { intros j q. destruct (decide (j = i)) as [->|Hne].
    - rewrite list_lookup_insert_eq by (by eapply lookup_lt_Some). intros [= <-]. auto.
    - rewrite list_lookup_insert_ne by done. auto. }
  constructor.
  - apply A.
  - rewrite length_insert. apply A.
  - intros j q [[-> ->]|[_ Hj]]%Hl Hq; [done|]. exact (ao_main _ _ _ A j q Hj Hq).
  - intros j q [[-> ->]|[_ Hj]]%Hl Hq.
    + rewrite (cnt_alloc (with_held own pg)), decide_True by done. done.
    + pose proof (ao_main _ _ _ A j q Hj Hq). rewrite (cnt_alloc (with_held own pg)), decide_False; try done.
      * exact (ao_cnt _ _ _ A j q Hj Hq).
      * intros ->. by apply (Hnew j).
  - intros j j' q [[-> ->]|[_ Hj]]%Hl [[-> He]|[_ Hj']]%Hl Hq; subst; try done.
    + by destruct (Hnew j').
    + by destruct (Hnew j).
    + exact (ao_diff _ _ _ A j j' q Hj Hj' Hq).
  - apply (wf_own_ext (bump (with_held own pg) p 1)); [|by apply alloc_wf].
    intros f. unfold with_held at 1. rewrite held_insert by done. unfold bump, with_held. destruct (f =? p); lia.
Qed.

(** ** What copying changes *)

(** The array's page of an offset, and the byte there. *)
Definition pnth (pg : list Z) (o : Z) : Z := nth (Z.to_nat (o / 4096)) pg 0.
Definition area (m : gmap Z Z) (pg : list Z) (o : Z) : Z := ldb m (pnth pg o + o mod 4096).

Definition ARG_MAX : Z := 131072.

Definition xmem (s : xst) : gmap Z Z := mem (kmm (xk s)).
Definition args (own : Z -> Z) (s : xst) : Prop := args_ok own (kmm (xk s)) (arg_page s).
Definition in_page (s : xst) (o : Z) : Z := pnth (arg_page s) o.
Definition area_of (s : xst) (o : Z) : Z := area (xmem s) (arg_page s) o.

(** Only the memory manager's state and the array have changed. *)
Definition only_args (s s' : xst) : Prop :=
  s' = s <| xk ::= fun k => k <| kmm := kmm (xk s') |> |> <| arg_page := arg_page s' |>.

Lemma only_args_refl s : only_args s s.
Proof. unfold only_args. by destruct s as [[] ? ? ? ? ?]. Qed.

Lemma only_args_trans s1 s2 s3 : only_args s1 s2 -> only_args s2 s3 -> only_args s1 s3.
Proof. unfold only_args. intros H1 H2. rewrite H2. rewrite H1. reflexivity. Qed.

Lemma only_args_seg s s' : only_args s s' -> seg s' = seg s.
Proof. unfold only_args. intros ->. reflexivity. Qed.

Lemma only_args_sel s s' : only_args s s' -> fs_sel s' = fs_sel s.
Proof. unfold only_args. intros ->. reflexivity. Qed.

Lemma only_args_kdata s s' : only_args s s' -> kdata s' = kdata s.
Proof. unfold only_args. intros ->. reflexivity. Qed.

(** [wrote s s' lo bs]: the bytes [bs] are at the offsets from [lo] on, every other byte of a
    page that was there is as before, and the pages that were there are still in place. *)
Record wrote (s s' : xst) (lo : Z) (bs : list Z) : Prop := {
  wr_only : only_args s s';
  wr_in : forall k b, bs !! k = Some b ->
    in_page s' (lo + Z.of_nat k) <> 0 /\ area_of s' (lo + Z.of_nat k) = b;
  wr_page : forall o, 0 <= o < ARG_MAX -> in_page s o <> 0 -> in_page s' o = in_page s o;
  wr_out : forall o, 0 <= o < ARG_MAX -> in_page s o <> 0 -> ~ (lo <= o < lo + Z.of_nat (length bs)) ->
    area_of s' o = area_of s o;
  wr_low : forall x, x < LOW_MEM -> ld (xmem s') x = ld (xmem s) x
}.

Lemma wrote_refl s lo : wrote s s lo [].
Proof. split; [apply only_args_refl|done|done|done|done]. Qed.

(** Copying goes downwards: the later bytes are written first. *)
Lemma wrote_join s s1 s2 lo bs bs' :
  0 <= lo -> lo + Z.of_nat (length (bs ++ bs')) <= ARG_MAX ->
  wrote s s1 (lo + Z.of_nat (length bs)) bs' -> wrote s1 s2 lo bs -> wrote s s2 lo (bs ++ bs').
Proof.
  rewrite length_app. intros Hlo Hhi W1 W2. split.
  - eapply only_args_trans; [apply W1|apply W2].
  - intros k b [Hk|[Hl Hk]]%lookup_app_Some; [by apply W2|].
    destruct (wr_in _ _ _ _ W1 _ _ Hk) as [Hp Ha]. apply lookup_lt_Some in Hk.
    replace (lo + Z.of_nat (length bs) + Z.of_nat (k - length bs)) with (lo + Z.of_nat k) in * by lia.
    rewrite (wr_page _ _ _ _ W2) by lia. split; [done|]. rewrite <- Ha. apply (wr_out _ _ _ _ W2); lia.
  - intros o Ho Hp. rewrite (wr_page _ _ _ _ W2) by (rewrite ?(wr_page _ _ _ _ W1); done). by apply W1.
  - intros o Ho Hp Hn. rewrite (wr_out _ _ _ _ W2); [|done| |rewrite ?length_app in *; lia].
    + apply (wr_out _ _ _ _ W1); [done|done|rewrite ?length_app in *; lia].
    + by rewrite (wr_page _ _ _ _ W1).
  - intros x Hx. rewrite (wr_low _ _ _ _ W2) by done. by apply W1.
Qed.

(** ** One byte *)

Lemma on_memory_run {A} (m : M mm A) s r m' :
  m (mm_view (xk s)) = (r, m') -> on_memory m s = (r, s <| xk ::= fun k => k <| kmm := m' |> |>).
Proof. intros Hm. unfold on_memory, on_k. by rewrite (on_mm_run _ _ _ _ Hm). Qed.

Definition full (k : mm) : Prop := forall f, main k f -> cnt k f <> 0.

Lemma page_index o : 0 <= o < ARG_MAX -> 0 <= o / 4096 < 32.
Proof. unfold ARG_MAX. intros Ho. split; [apply Z.div_pos; lia|apply Z.div_lt_upper_bound; lia]. Qed.

Lemma pnth_lookup pg o : length pg = 32%nat -> 0 <= o < ARG_MAX -> pg !! Z.to_nat (o / 4096) = Some (pnth pg o).
Proof. intros Hl Ho%page_index. unfold pnth. destruct (nth_lookup_or_length pg (Z.to_nat (o / 4096)) 0); [done|lia]. Qed.

Lemma get_page_run s o :
  length (arg_page s) = 32%nat -> 0 <= o < ARG_MAX -> get_page (o / PAGE_SIZE) s = (Ret (in_page s o), s).
Proof.
  intros Hl Ho. pose proof (page_index o Ho). unfold get_page. rewrite bind_get. change PAGE_SIZE with 4096.
  rewrite (proj2 (Z.ltb_ge _ _)) by lia. by rewrite (pnth_lookup _ o Hl Ho).
Qed.

(** Two offsets of different places of the array have different pages. *)
Lemma in_page_ne own s o o' :
  args own s -> 0 <= o < ARG_MAX -> 0 <= o' < ARG_MAX -> in_page s o <> 0 -> o / 4096 <> o' / 4096 ->
  in_page s o' <> in_page s o.
Proof.
  intros A Ho Ho' Hp Hne He. apply Hne. pose proof (page_index o Ho). pose proof (page_index o' Ho').
  apply Z2Nat.inj; [lia|lia|].
  apply (ao_diff _ _ _ A _ _ (in_page s o)); [|rewrite <- He|done]; apply pnth_lookup; done || apply A.
Qed.

Lemma in_page_main own s o :
  args own s -> 0 <= o < ARG_MAX -> in_page s o <> 0 -> main (kmm (xk s)) (in_page s o).
Proof. intros A Ho. apply (ao_main _ _ _ A (Z.to_nat (o / 4096))), pnth_lookup; [apply A|done]. Qed.

(** The address of a byte, and bytes of other offsets. *)
Lemma addr_ne own s o o' :
  args own s -> 0 <= o < ARG_MAX -> 0 <= o' < ARG_MAX -> in_page s o <> 0 -> in_page s o' <> 0 -> o <> o' ->
  in_page s o' + o' mod 4096 <> in_page s o + o mod 4096.
Proof.
  intros A Ho Ho' Hp Hp' Hne. pose proof (in_page_main own s o A Ho Hp) as [Hm _].
  pose proof (in_page_main own s o' A Ho' Hp') as [Hm' _].
  pose proof (Z_div_mod_eq_full (in_page s o) 4096). pose proof (Z_div_mod_eq_full (in_page s o') 4096).
  pose proof (Z_div_mod_eq_full o 4096). pose proof (Z_div_mod_eq_full o' 4096).
  pose proof (Z.mod_pos_bound o 4096). pose proof (Z.mod_pos_bound o' 4096).
  destruct (decide (o / 4096 = o' / 4096)) as [E|E].
  - assert (in_page s o' = in_page s o) by (unfold in_page, pnth; by rewrite E). lia.
  - pose proof (in_page_ne own s o o' A Ho Ho' Hp E). lia.
Qed.

Lemma put_byte_ok own s p b :
  args own s -> 0 <= p < ARG_MAX -> in_page s p <> 0 -> 0 <= b < 256 ->
  exists s', on_memory (stb (in_page s p + p mod 4096) b) s = (Ret tt, s') /\ args own s' /\ wrote s s' p [b].
Proof.
  intros A Hp Hpg Hb. pose proof (Z.mod_pos_bound p 4096 ltac:(lia)) as Hmod.
  pose proof (in_page_main own s p A Hp Hpg) as Hm.
  eexists. split; [apply on_memory_run; reflexivity|]. split.
  - unfold args; cbn. eapply (args_write own (mm_view (xk s)) _ _ (in_page s p)).
    + by apply args_view.
    + apply pnth_lookup; [apply A|exact Hp].
    + done.
    + intros x Hx. refine (st_byte_out (xmem s) _ _ (in_page s p) x _ _ Hx); [apply Hm|lia].
  - split; [reflexivity| |done| |].
    + intros k c Hk. apply list_lookup_singleton_Some in Hk as [-> <-]. rewrite Z.add_0_r. split; [done|].
      etransitivity; [apply (ldb_st_byte (xmem s))|]. rewrite decide_True by done. by apply u8_small.
    + intros o Ho Hpo Hn. cbn in Hn. etransitivity; [apply (ldb_st_byte (xmem s))|]. rewrite decide_False; [done|].
      apply (addr_ne own s p o A); try done. lia.
    + intros x Hx. destruct Hm as [Hal Hlo].
      apply (st_byte_out (xmem s) _ _ (in_page s p)); [done|lia|lia].
Qed.

(** Keeping the bytes of a page keeps the argument area. *)
Lemma area_kept own s (s' : xst) o :
  args own s -> 0 <= o < ARG_MAX -> in_page s o <> 0 -> in_page s' o = in_page s o ->
  (forall x, in_page s o <= x < in_page s o + 4096 -> ld (xmem s') x = ld (xmem s) x) ->
  area_of s' o = area_of s o.
Proof.
  intros A Ho Hp He Hx. unfold area_of, area. change (pnth (arg_page s') o) with (in_page s' o). rewrite He.
  pose proof (Z.mod_pos_bound o 4096 ltac:(lia)).
  apply (ldb_page _ _ (in_page s o)); [apply (in_page_main own s o A Ho Hp)| |exact Hx].
  change (pnth (arg_page s) o) with (in_page s o). lia.
Qed.

(** The state with a fresh page [p] at the place [i] of the array. *)
Definition with_page (s : xst) (i : nat) (p : Z) : xst :=
  s <| xk ::= fun k => k <| kmm := alloc_state (mm_view k) p |> |> <| arg_page ::= <[i := p]> |>.

Lemma with_page_wrote own s o p :
  args own s -> 0 <= o < ARG_MAX -> in_page s o = 0 -> main (kmm (xk s)) p -> cnt (kmm (xk s)) p = 0 ->
  args own (with_page s (Z.to_nat (o / 4096)) p) /\ wrote s (with_page s (Z.to_nat (o / 4096)) p) o [] /\
  in_page (with_page s (Z.to_nat (o / 4096)) p) o = p.
Proof.
  intros A Ho H0 Hm Hc. pose proof (page_index o Ho) as Hi.
  assert (arg_page s !! Z.to_nat (o / 4096) = Some 0) as Hl
    by (rewrite <- H0; apply pnth_lookup; [apply A|done]).
  assert (in_page (with_page s (Z.to_nat (o / 4096)) p) o = p) as Hin.
  { unfold in_page, pnth. apply nth_lookup_Some. apply list_lookup_insert_eq. by eapply lookup_lt_Some. }
  assert (forall o', 0 <= o' < ARG_MAX -> in_page s o' <> 0 ->
    in_page (with_page s (Z.to_nat (o / 4096)) p) o' = in_page s o') as Hkeep.
  { intros o' Ho' Hp'. unfold in_page, pnth. rewrite !nth_lookup. cbn. rewrite list_lookup_insert_ne; [done|].
    intros E. apply Hp'. rewrite <- H0. unfold in_page, pnth. by rewrite E. }
  split; [|split; [|exact Hin]].
  - apply (args_alloc own (mm_view (xk s)) (arg_page s)); [by apply args_view|done|done|done].
  - split; [reflexivity|done|exact Hkeep| |].
    2: { intros x Hx. apply (stosl_page_other p x (xmem s)). destruct Hm. lia. }
    intros o' Ho' Hp' _. apply (area_kept own s); try done; [by apply Hkeep|].
    intros x Hx. apply (stosl_page_other p x (xmem s)).
    pose proof (in_page_main own s o' A Ho' Hp') as Hm'.
    assert (p <> in_page s o') as Hne.
    { intros ->. pose proof (ao_cnt _ _ _ A _ _ (pnth_lookup _ o' (ao_len _ _ _ A) Ho') Hp') as Hc'.
      change (pnth (arg_page s) o') with (in_page s o') in Hc'. lia. }
    destruct Hm as [Ha _], Hm' as [Ha' _].
    pose proof (Z_div_mod_eq_full p 4096). pose proof (Z_div_mod_eq_full (in_page s o') 4096). lia.
Qed.

Lemma arg_frame_ok own s o :
  args own s -> 0 <= o < ARG_MAX ->
  exists r s', arg_frame o s = (Ret r, s') /\ args own s' /\ wrote s s' o [] /\
    ((r = 0 /\ full (kmm (xk s'))) \/ (r <> 0 /\ in_page s' o = r)).
Proof.
  intros A Ho. unfold arg_frame. mrun (get_page_run s o (ao_len _ _ _ A) Ho).
  destruct (decide (in_page s o = 0)) as [H0|H0]; last first.
  { unfold istrue. rewrite (proj2 (Z.eqb_neq _ _) H0). cbn [negb]. exists (in_page s o), s.
    split; [done|]. split; [done|]. split; [apply wrote_refl|]. by right. }
  rewrite H0. change (istrue 0) with false. cbv iota.
  destruct (get_free_page_cases (with_held own (arg_page s)) (mm_view (xk s))) as [[Hr Hf]|(p & Hr & Hm & Hc & _)].
  { apply wf_view, A. }
  - mrun (on_memory_run _ s _ _ Hr). unfold set_page. rewrite bind_modify.
    eexists 0, _. split; [reflexivity|].
    assert (<[Z.to_nat (o / PAGE_SIZE) := 0]> (arg_page s) = arg_page s) as Hid.
    { apply list_insert_id. rewrite <- H0. apply pnth_lookup; [apply A|done]. }
    set (s' := upd _ _). assert (arg_page s' = arg_page s) as Ha by exact Hid.
    assert (kmm (xk s') = mm_view (xk s)) as Hk by reflexivity.
    assert (only_args s s') as Hos by (subst s'; reflexivity). clearbody s'. split; [|split].
    + unfold args. rewrite Ha, Hk. by apply args_view.
    + split; [done|done|unfold in_page; by rewrite Ha| |]; intros; unfold area_of, xmem; by rewrite ?Ha, Hk.
    + left. split; [done|]. unfold full. rewrite Hk. exact Hf.
  - mrun (on_memory_run _ s _ _ Hr). unfold set_page. rewrite bind_modify.
    destruct (with_page_wrote own s o p A Ho H0 Hm Hc) as (A' & W' & Hin).
    exists p, (with_page s (Z.to_nat (o / 4096)) p). split; [reflexivity|]. split; [done|]. split; [done|].
    right. split; [|done]. destruct Hm. unfold LOW_MEM in *. lia.
Qed.

(** ** A string *)

Definition bytes_at (m : gmap Z Z) (a : Z) (bs : list Z) : Prop :=
  forall k b, bs !! k = Some b -> ld_byte m (a + Z.of_nat k) = b.

Lemma bytes_at_app m a bs bs' :
  bytes_at m a (bs ++ bs') <-> bytes_at m a bs /\ bytes_at m (a + Z.of_nat (length bs)) bs'.
Proof.
  split.
  - intros Hb. split; intros k b Hk.
    + apply Hb. by apply lookup_app_l_Some.
    + rewrite <- (Hb (length bs + k)%nat b); [f_equal; lia|]. rewrite lookup_app_r by lia. rewrite <- Hk. f_equal. lia.
  - intros [H1 H2] k b [Hk|[Hl Hk]]%lookup_app_Some; [by apply H1|].
    rewrite <- (H2 _ _ Hk). f_equal. lia.
Qed.

Definition is_byte (b : Z) : Prop := 0 <= b < 256.

Lemma wrote_sel s s' lo bs c d :
  wrote (s <| fs_sel := c |>) s' lo bs -> wrote (s <| fs_sel := d |>) (s' <| fs_sel := d |>) lo bs.
Proof.
  intros [Ho Hi Hp Hu Hw]. split; try done. unfold only_args in *. rewrite Ho. reflexivity.
Qed.

Lemma sel_id s : s <| fs_sel := fs_sel s |> = s.
Proof. by destruct s. Qed.

Lemma only_args_sel_id s s' : only_args s s' -> s' <| fs_sel := fs_sel s |> = s'.
Proof. intros H. rewrite <- (only_args_sel _ _ H). apply sel_id. Qed.

(** The local variables [offset] and [pag] at the offset [p]. *)
Definition at_page (s : xst) (p offset pag : Z) : Prop :=
  0 <= offset /\ (0 < offset -> offset = p mod 4096 /\ pag = in_page s p /\ pag <> 0).

Lemma at_page_prev s p offset pag :
  1 <= p -> at_page s p offset pag -> 0 < offset ->
  offset - 1 = (p - 1) mod 4096 /\ pag = in_page s (p - 1) /\ in_page s (p - 1) <> 0.
Proof.
  intros Hp [_ Hc] Ho. destruct (Hc Ho) as (E & -> & Hpg).
  pose proof (Z_div_mod_eq_full p 4096). pose proof (Z.mod_pos_bound p 4096 ltac:(lia)).
  assert ((p - 1) / 4096 = p / 4096) as Hd by (symmetry; apply (Z.div_unique _ _ _ (p mod 4096 - 1)); lia).
  assert (in_page s (p - 1) = in_page s p) as Hi by (unfold in_page, pnth; by rewrite Hd).
  rewrite Hi. split; [|done]. pose proof (Z_div_mod_eq_full (p - 1) 4096). lia.
Qed.

Section Copy.
Context `{FsEnv} (own : Z -> Z) (old_fs new_fs from_kmem : Z).

(** The selector while the bytes of a string are read. *)
Definition string_sel : Z := if from_kmem =? 2 then new_fs else old_fs.

(** Finding the page of the next byte. *)
Definition next_page (p offset pag : Z) : M xst (option (Z * Z)) :=
  if offset <? 0 then
    let offset := p mod PAGE_SIZE in
    when (from_kmem =? 2) (set_fs old_fs);;
    pag ← arg_frame p;
    if pag =? 0 then mret None else
    when (from_kmem =? 2) (set_fs new_fs);;
    mret (Some (offset, pag))
  else mret (Some (offset, pag)).

Lemma copy_bytes_S n p tmp offset pag :
  copy_bytes (S n) old_fs new_fs from_kmem p tmp offset pag =
  (r ← next_page (u32 (p - 1)) (offset - 1) pag;
   match r with
   | None => mret None
   | Some (offset, pag) =>
       b ← get_fs_byte (tmp - 1);
       on_memory (stb (pag + offset) b);;
       copy_bytes n old_fs new_fs from_kmem (u32 (p - 1)) (tmp - 1) offset pag
   end).
Proof. reflexivity. Qed.

Lemma next_page_ok s p offset pag :
  args own s -> 1 <= p <= ARG_MAX -> fs_sel s = string_sel -> at_page s p offset pag ->
  exists r s', next_page (p - 1) (offset - 1) pag s = (Ret r, s') /\ args own s' /\
    match r with
    | None => only_args (s <| fs_sel := old_fs |>) s' /\ full (kmm (xk s'))
    | Some (offset, pag) =>
        wrote s s' (p - 1) [] /\ offset = (p - 1) mod 4096 /\ pag = in_page s' (p - 1) /\ pag <> 0
    end.
Proof.
  intros A Hp Hsel Hat. unfold next_page. destruct (Z.ltb_spec (offset - 1) 0) as [Hlt|Hge]; last first.
  { destruct (at_page_prev s p offset pag) as (E & Hpag & Hne); [lia|done|lia|].
    exists (Some (offset - 1, pag)), s. split; [done|]. split; [done|]. split; [apply wrote_refl|].
    split; [done|]. split; [done|]. by rewrite Hpag. }
  assert (when (from_kmem =? 2) (set_fs old_fs) s = (Ret tt, s <| fs_sel := old_fs |>)) as H1.
  { unfold string_sel in Hsel. destruct (from_kmem =? 2); [reflexivity|]. rewrite <- Hsel. by rewrite sel_id. }
  mrun H1. destruct (arg_frame_ok own (s <| fs_sel := old_fs |>) (p - 1)) as (r & s1 & Hr & A1 & W1 & Hc);
    [done|lia|]. mrun Hr. destruct Hc as [[-> Hf]|[Hne Hin]].
  - exists None, s1. split; [done|]. split; [done|]. split; [apply W1|done].
  - rewrite (proj2 (Z.eqb_neq _ _) Hne).
    assert (when (from_kmem =? 2) (set_fs new_fs) s1 = (Ret tt, s1 <| fs_sel := fs_sel s |>)) as H2.
    { rewrite Hsel. unfold string_sel in *. destruct (from_kmem =? 2); [reflexivity|].
      pose proof (only_args_sel_id _ _ (wr_only _ _ _ _ W1)) as E. cbn in E. by rewrite E. }
    mrun H2. eexists (Some _), _. split; [reflexivity|]. split; [done|].
    split; [|split; [done|split; [by rewrite <- Hin|done]]].
    apply (wrote_sel s s1 _ _ old_fs (fs_sel s)) in W1. by rewrite sel_id in W1.
Qed.

(** [while (len) ...]: the string goes to the offsets below [p]; it fails only when no frame
    is left. *)
Lemma copy_bytes_ok bs : forall s p tmp offset pag,
  args own s -> Z.of_nat (length bs) <= p <= ARG_MAX -> fs_sel s = string_sel ->
  bytes_at (seg s) (tmp - Z.of_nat (length bs)) bs -> Forall is_byte bs -> at_page s p offset pag ->
  exists r s', copy_bytes (length bs) old_fs new_fs from_kmem p tmp offset pag s = (Ret r, s') /\ args own s' /\
    match r with
    | None => only_args (s <| fs_sel := old_fs |>) s' /\ full (kmm (xk s'))
    | Some (p', offset', pag') =>
        p' = p - Z.of_nat (length bs) /\ wrote s s' p' bs /\ at_page s' p' offset' pag'
    end.
Proof.
  induction bs as [|b bs IH] using rev_ind; intros s p tmp offset pag A Hp Hsel Hb Hby Hat.
  { eexists (Some (p, offset, pag)), s. split; [reflexivity|]. split; [done|].
    cbn [length]. replace (p - Z.of_nat 0) with p by lia. split; [done|]. split; [apply wrote_refl|done]. }
  rewrite length_app in *. cbn [length] in *. apply bytes_at_app in Hb as [Hb1 Hb2].
  apply Forall_app in Hby as [Hby1 [Hby2 _]%Forall_cons].
  replace (length bs + 1)%nat with (S (length bs)) by lia. rewrite copy_bytes_S.
  rewrite u32_small by (unfold ARG_MAX in *; lia).
  destruct (next_page_ok s p offset pag) as (r & s1 & Hr & A1 & Hc); [done|lia|done|done|]. mrun Hr.
  destruct r as [[offset1 pag1]|]; [|by exists None, s1].
  destruct Hc as (W1 & -> & -> & Hne). unfold get_fs_byte. rewrite bind_gets.
  pose proof (wr_only _ _ _ _ W1) as O1. rewrite (only_args_seg _ _ O1).
  specialize (Hb2 0%nat b eq_refl). replace (_ + Z.of_nat 0) with (tmp - 1) in Hb2 by lia. rewrite Hb2.
  destruct (put_byte_ok own s1 (p - 1) b) as (s2 & H2 & A2 & W2); [done|lia|done|exact Hby2|]. mrun H2.
  pose proof (only_args_trans _ _ _ O1 (wr_only _ _ _ _ W2)) as O2.
  assert (wrote s s2 (p - 1) [b]) as W12.
  { apply (wrote_join s s1 s2 (p - 1) [b] []); [lia|cbn; lia| |done].
    cbn. split; [done|done|apply W1| |apply W1]. intros o Ho Hpo _. apply (wr_out _ _ _ _ W1 o Ho Hpo). cbn. lia. }
  destruct (IH s2 (p - 1) (tmp - 1) ((p - 1) mod 4096) (in_page s1 (p - 1))) as (r & s3 & H3 & A3 & Hc3).
  - done.
  - lia.
  - by rewrite (only_args_sel _ _ O2).
  - rewrite (only_args_seg _ _ O2). by replace (tmp - 1 - _) with (tmp - Z.of_nat (length bs + 1)) by lia.
  - done.
  - pose proof (Z.mod_pos_bound (p - 1) 4096). split; [lia|]. intros _. split; [done|].
    split; [|done]. symmetry. apply W2; [lia|done].
  - exists r, s3. split; [exact H3|]. split; [done|]. destruct r as [[[p' offset'] pag']|].
    + destruct Hc3 as (-> & W3 & Hat3). split; [lia|]. split; [|done].
      apply (wrote_join s s2 s3 _ bs [b]); [lia|rewrite length_app; cbn [length]; lia| |done].
      by replace (p - 1 - _ + _) with (p - 1) by lia.
    + destruct Hc3 as [O3 Hf]. split; [|done]. unfold only_args in *. rewrite O3, O2. reflexivity.
Qed.

(** ** The strings of an array *)

(** A string of non-zero bytes at [a], with its terminator. *)
Definition cstr (m : gmap Z Z) (a : Z) (str : list Z) : Prop :=
  bytes_at m a (str ++ [0]) /\ Forall (fun b => 0 < b < 256) str.

(** The array at [a] of the memory [m] points to the strings [ss] of the memory [ms]. *)
Definition vector (m ms : gmap Z Z) (a : Z) (ss : list (list Z)) : Prop :=
  forall i str, ss !! i = Some str ->
    let q := ld_long m (a + 4 * Z.of_nat i) in q <> 0 /\ cstr ms q str.

(** The strings one after the other, each with its terminator. *)
Definition strings (ss : list (list Z)) : list Z := mjoin ((fun s => s ++ [0]) <$> ss).

Lemma strings_snoc ss str : strings (ss ++ [str]) = strings ss ++ str ++ [0].
Proof. unfold strings. rewrite fmap_app, join_app. cbn. by rewrite app_nil_r. Qed.

Lemma strings_cons str ss : strings (str :: ss) = str ++ [0] ++ strings ss.
Proof. unfold strings. cbn. by rewrite <- app_assoc. Qed.

Lemma vector_snoc m ms a ss str :
  vector m ms a (ss ++ [str]) ->
  vector m ms a ss /\
  let q := ld_long m (a + 4 * Z.of_nat (length ss)) in q <> 0 /\ cstr ms q str.
Proof.
  intros Hv. split.
  - intros i x Hi. apply (Hv i). by apply lookup_app_l_Some.
  - apply (Hv (length ss)). by rewrite lookup_app_r, Nat.sub_diag by lia.
Qed.

Lemma string_end_ok str : forall n a len s,
  cstr (seg s) a str -> (length str < n)%nat ->
  string_end n a len s = (Ret (a + Z.of_nat (length str) + 1, len + Z.of_nat (length str) + 1), s).
Proof.
  induction str as [|b str IH]; intros [|n] a len s [Hb Hz] Hn; cbn in Hn; try lia; cbn [string_end].
  - unfold get_fs_byte. rewrite bind_gets. specialize (Hb 0%nat 0 eq_refl). rewrite Z.add_0_r in Hb. rewrite Hb.
    change (istrue 0) with false. apply (f_equal (fun x => (Ret x, s))). cbn [length]. f_equal; lia.
  - unfold get_fs_byte. rewrite bind_gets. pose proof (Hb 0%nat b eq_refl) as H0. rewrite Z.add_0_r in H0. rewrite H0.
    apply Forall_cons in Hz as [Hb0 Hz]. unfold istrue. rewrite (proj2 (Z.eqb_neq b 0)) by lia. cbn [negb].
    rewrite (IH n (a + 1)); [apply (f_equal (fun x => (Ret x, s))); cbn [length]; f_equal; lia| |lia].
    split; [|done]. apply (bytes_at_app _ a [b] (str ++ [0])) in Hb as [_ Hb]. exact Hb.
Qed.

Lemma cstr_bytes m a str : cstr m a str -> Forall is_byte (str ++ [0]).
Proof.
  intros [_ Hz]. apply Forall_app. split; [|apply Forall_cons; split; [unfold is_byte; lia|done]].
  eapply Forall_impl; [exact Hz|]. unfold is_byte. cbn. lia.
Qed.

(** The selector while a pointer of the array is read. *)
Definition array_sel : Z := if from_kmem =? 1 then new_fs else string_sel.

Definition sel_mem (sel : Z) (s : xst) : gmap Z Z := seg (s <| fs_sel := sel |>).

Lemma only_args_sel_mem sel s s' : only_args s s' -> sel_mem sel s' = sel_mem sel s.
Proof. unfold only_args. intros ->. reflexivity. Qed.

Lemma sel_mem_id s sel : fs_sel s = sel -> sel_mem sel s = seg s.
Proof. intros <-. unfold sel_mem. by rewrite sel_id. Qed.

(** Reading a pointer of the array, with the selector switched and back. *)
Lemma read_pointer {B} s a q (k : Z -> M xst B) :
  fs_sel s = string_sel -> ld_long (sel_mem array_sel s) a = q -> q <> 0 ->
  (when (from_kmem =? 1) (set_fs new_fs);;
   tmp ← get_fs_long a;
   if tmp =? 0 then panic "argc is wrong" else
   when (from_kmem =? 1) (set_fs old_fs);;
   k tmp) s = k q s.
Proof.
  unfold array_sel, string_sel, get_fs_long. intros Hsel Hl Hq.
  destruct (Z.eqb_spec from_kmem 1) as [E|E]; cbn [when].
  - rewrite E in Hsel. cbn in Hsel. unfold set_fs. rewrite bind_modify, bind_gets.
    change (seg _) with (sel_mem new_fs s). rewrite Hl, (proj2 (Z.eqb_neq q 0) Hq).
    rewrite bind_modify. f_equal. rewrite <- Hsel. by destruct s.
  - rewrite bind_ret, bind_gets. rewrite sel_mem_id in Hl by done.
    rewrite Hl, (proj2 (Z.eqb_neq q 0) Hq). by rewrite bind_ret.
Qed.

(** [while (argc-- > 0) ...]: the strings end up in order below [p]. *)
Lemma copy_each_ok argv ss : forall s p offset pag,
  args own s -> Z.of_nat (length (strings ss)) <= p <= ARG_MAX -> fs_sel s = string_sel ->
  vector (sel_mem array_sel s) (sel_mem string_sel s) argv ss ->
  Forall (fun str => length str < fuel)%nat ss -> at_page s p offset pag ->
  exists r s', copy_each (length ss) old_fs new_fs from_kmem argv p offset pag s = (Ret r, s') /\ args own s' /\
    match r with
    | None => only_args (s <| fs_sel := old_fs |>) s' /\ full (kmm (xk s'))
    | Some p' => p' = p - Z.of_nat (length (strings ss)) /\ wrote s s' p' (strings ss)
    end.
Proof.
  induction ss as [|str ss IH] using rev_ind; intros s p offset pag A Hp Hsel Hv Hf Hat.
  { eexists (Some p), s. split; [reflexivity|]. split; [done|].
    cbn [strings mjoin fmap list_fmap length]. split; [cbn; lia|apply wrote_refl]. }
  rewrite strings_snoc in *. rewrite length_app in Hp.
  rewrite length_app. cbn [length]. replace (length ss + 1)%nat with (S (length ss)) by lia.
  apply vector_snoc in Hv as [Hv [Hq Hstr]]. apply Forall_app in Hf as [Hf [Hfs _]%Forall_cons].
  cbn [copy_each]. rewrite (read_pointer s _ _ _ Hsel eq_refl Hq).
  set (q := ld_long _ _) in *. rewrite (sel_mem_id s string_sel Hsel) in Hstr.
  mrun (string_end_ok str fuel q 0 s Hstr Hfs). cbv beta iota.
  set (len := 0 + Z.of_nat (length str) + 1).
  rewrite (proj2 (Z.ltb_ge _ _)) by (apply u32_range).
  assert (len = Z.of_nat (length (str ++ [0]))) as Hlen by (rewrite length_app; cbn; lia).
  rewrite Hlen, Nat2Z.id. clearbody len.
  destruct (copy_bytes_ok (str ++ [0]) s p (q + Z.of_nat (length str) + 1) offset pag) as (r & s1 & H1 & A1 & Hc).
  - done.
  - lia.
  - done.
  - destruct Hstr as [Hstr _]. rewrite length_app. cbn [length].
    by replace (_ - _) with q by lia.
  - by eapply cstr_bytes.
  - done.
  - mrun H1. destruct r as [[[p1 offset1] pag1]|]; [|by exists None, s1].
    destruct Hc as (-> & W1 & Hat1). pose proof (wr_only _ _ _ _ W1) as O1.
    destruct (IH s1 (p - Z.of_nat (length (str ++ [0]))) offset1 pag1) as (r & s2 & H2 & A2 & Hc2).
    + done.
    + lia.
    + by rewrite (only_args_sel _ _ O1).
    + by rewrite !(only_args_sel_mem _ _ _ O1).
    + done.
    + done.
    + exists r, s2. split; [exact H2|]. split; [done|]. destruct r as [p'|].
      * destruct Hc2 as (-> & W2). split; [rewrite (length_app (strings ss)); lia|].
        apply (wrote_join s s1 s2); [lia|rewrite (length_app (strings ss)); lia| |done].
        by replace (_ - _ - _ + _) with (p - Z.of_nat (length (str ++ [0]))) by lia.
      * destruct Hc2 as [O2 Hfl]. split; [|done]. unfold only_args in *. rewrite O2, O1. reflexivity.
Qed.

End Copy.

(** ** copy_strings *)

(** Where the array and the strings are, as the comment above [copy_strings] tabulates it. *)
Definition array_mem (from_kmem : Z) (s : xst) : gmap Z Z := if from_kmem =? 0 then seg s else kdata s.
Definition string_mem (from_kmem : Z) (s : xst) : gmap Z Z := if from_kmem =? 2 then kdata s else seg s.

Lemma array_mem_sel from_kmem s :
  0 <= from_kmem <= 2 -> sel_mem (array_sel (fs_sel s) KERNEL_DS from_kmem) s = array_mem from_kmem s.
Proof.
  intros Hk. unfold array_sel, string_sel, array_mem.
  assert (from_kmem = 0 \/ from_kmem = 1 \/ from_kmem = 2) as [->|[->| ->]] by lia; cbn;
    [by apply sel_mem_id|reflexivity|reflexivity].
Qed.

Lemma string_mem_sel from_kmem s :
  sel_mem (string_sel (fs_sel s) KERNEL_DS from_kmem) s = string_mem from_kmem s.
Proof. unfold string_sel, string_mem. destruct (from_kmem =? 2); [reflexivity|by apply sel_mem_id]. Qed.

Lemma copy_strings_cases `{FsEnv} own s argv p from_kmem ss :
  args own s -> 0 < p -> Z.of_nat (length (strings ss)) <= p <= ARG_MAX -> 0 <= from_kmem <= 2 ->
  vector (array_mem from_kmem s) (string_mem from_kmem s) argv ss ->
  Forall (fun str => length str < fuel)%nat ss ->
  exists r s', copy_strings (Z.of_nat (length ss)) argv p from_kmem s = (Ret r, s') /\ args own s' /\
    ((r = p - Z.of_nat (length (strings ss)) /\ wrote s s' r (strings ss)) \/
     (r = 0 /\ only_args s s' /\ full (kmm (xk s')))).
Proof.
  intros A Hp0 Hp Hk Hv Hf. unfold copy_strings. rewrite (proj2 (Z.eqb_neq p 0)) by lia.
  unfold get_ds, get_fs. rewrite bind_ret, bind_gets, Nat2Z.id.
  set (sel := string_sel (fs_sel s) KERNEL_DS from_kmem).
  assert (when (from_kmem =? 2) (set_fs KERNEL_DS) s = (Ret tt, s <| fs_sel := sel |>)) as H1.
  { unfold sel, string_sel. destruct (from_kmem =? 2); [reflexivity|]. by rewrite sel_id. }
  mrun H1. destruct (copy_each_ok own (fs_sel s) KERNEL_DS from_kmem argv ss (s <| fs_sel := sel |>) p 0 0)
    as (r & s1 & Hr & A1 & Hc).
  - done.
  - done.
  - done.
  - change (sel_mem ?x (s <| fs_sel := ?y |>)) with (sel_mem x s).
    by rewrite array_mem_sel, string_mem_sel.
  - done.
  - split; [lia|]. lia.
  - mrun Hr. destruct r as [p'|].
    + destruct Hc as [-> W].
      assert (when (from_kmem =? 2) (set_fs (fs_sel s)) s1 = (Ret tt, s1 <| fs_sel := fs_sel s |>)) as H2.
      { pose proof (only_args_sel _ _ (wr_only _ _ _ _ W)) as Hs1. cbn in Hs1. unfold sel, string_sel in Hs1.
        destruct (from_kmem =? 2); [reflexivity|]. by rewrite <- Hs1, sel_id. }
      mrun H2. eexists _, _. split; [reflexivity|]. split; [done|]. left. split; [done|].
      apply (wrote_sel s s1 _ _ sel (fs_sel s)) in W. by rewrite sel_id in W.
    + destruct Hc as [O Hfl]. exists 0, s1. split; [reflexivity|]. split; [done|]. right. split; [done|].
      split; [|done]. unfold only_args in O. cbn in O. unfold only_args. rewrite O at 1. by destruct s.
Qed.
