(* ===== verification/ExecStack.v ===== *)
(** The stack of a new program: counting the arguments ([count]) and building the pointer
    tables ([create_tables] of [fs/exec.c]).

    [table m a ss] says that the null-terminated array at [a] points to the strings [ss]; the
    same predicate describes what the caller of [execve] passes and what the new program
    finds. *)

From S2P Require Import Prelude Memory Task FsDefs Exec ExecArgs.

Definition table (m : gmap Z Z) (a : Z) (ss : list (list Z)) : Prop :=
  vector m m a ss /\ ld_long m (a + 4 * Z.of_nat (length ss)) = 0.

(** A table that lies, with its strings, at [lo] or above. *)
Definition table_above (lo : Z) (m : gmap Z Z) (a : Z) (ss : list (list Z)) : Prop :=
  lo <= a /\ table m a ss /\ forall i str, ss !! i = Some str -> lo <= ld_long m (a + 4 * Z.of_nat i).

(** ** Memory that has not changed *)

Lemma ld_long_ext m m' a : (forall x, a <= x < a + 4 -> m' !! x = m !! x) -> ld_long m' a = ld_long m a.
Proof. intros E. unfold ld_long, ld_byte. rewrite !E by lia. done. Qed.

Lemma st_long_frame v a m x : ~ (a <= x < a + 4) -> st_long v a m !! x = m !! x.
Proof. intros Hx. unfold st_long. rewrite !lookup_insert_ne by lia. done. Qed.

Lemma bytes_at_ext m m' a bs :
  (forall x, a <= x < a + Z.of_nat (length bs) -> m' !! x = m !! x) -> bytes_at m a bs -> bytes_at m' a bs.
Proof.
  intros E Hb k b Hk. pose proof (lookup_lt_Some _ _ _ Hk). unfold ld_byte. rewrite E by lia. by apply Hb.
Qed.

Lemma cstr_ext m m' a str :
  (forall x, a <= x < a + Z.of_nat (length str) + 1 -> m' !! x = m !! x) -> cstr m a str -> cstr m' a str.
Proof.
  intros E [Hb Hz]. split; [|done]. eapply bytes_at_ext; [|exact Hb]. intros x. rewrite length_app. cbn [length].
  intros Hx. apply E. lia.
Qed.

(** The bytes of several strings are strings. *)
Definition text (ss : list (list Z)) : Prop := Forall (Forall (fun b => 0 < b < 256)) ss.

Lemma strings_split m p str ss :
  bytes_at m p (strings (str :: ss)) -> text (str :: ss) ->
  cstr m p str /\ bytes_at m (p + Z.of_nat (length str) + 1) (strings ss) /\ text ss.
Proof.
  intros Hb [Hs Ht]%Forall_cons. rewrite strings_cons, app_assoc in Hb. apply bytes_at_app in Hb as [H1 H2].
  split; [done|]. split; [|done]. rewrite length_app in H2. cbn [length] in H2.
  by replace (p + Z.of_nat (length str) + 1) with (p + Z.of_nat (length str + 1)) by lia.
Qed.

Lemma strings_length str ss : Z.of_nat (length (strings (str :: ss))) = Z.of_nat (length str) + 1 + Z.of_nat (length (strings ss)).
Proof. rewrite strings_cons, !length_app. cbn. lia. Qed.

(** ** Running in user memory *)

Definition with_umem (s : xst) (m : gmap Z Z) : xst := s <| xk ::= fun k => k <| Task.umem := m |> |>.

Section Stack.
Context `{FsEnv} (s : xst).
Hypothesis user : fs_sel s <> KERNEL_DS.

Lemma seg_umem m : seg (with_umem s m) = m.
Proof. unfold seg. cbn. by rewrite (proj2 (Z.eqb_neq _ _) user). Qed.

Lemma put_long_run v a m : put_fs_long v a (with_umem s m) = (Ret tt, with_umem s (st_long v a m)).
Proof.
  unfold put_fs_long, modify. rewrite seg_umem. unfold set_seg. cbn. by rewrite (proj2 (Z.eqb_neq _ _) user).
Qed.

Lemma put_byte_run v a m : put_fs_byte v a (with_umem s m) = (Ret tt, with_umem s (<[a := u8 v]> m)).
Proof.
  unfold put_fs_byte, modify. rewrite seg_umem. unfold set_seg. cbn. by rewrite (proj2 (Z.eqb_neq _ _) user).
Qed.

Lemma skip_string_ok str : forall n p m,
  cstr m p str -> (length str < n)%nat ->
  skip_string n p (with_umem s m) = (Ret (p + Z.of_nat (length str) + 1), with_umem s m).
Proof.
  induction str as [|b str IH]; intros [|n] p m [Hb Hz] Hn; cbn in Hn; try lia; cbn [skip_string];
    unfold get_fs_byte; rewrite bind_gets, seg_umem.
  - specialize (Hb 0%nat 0 eq_refl). rewrite Z.add_0_r in Hb. rewrite Hb. change (istrue 0) with false.
    cbv iota. unfold mret, M_ret. cbn [length]. do 2 f_equal. lia.
  - pose proof (Hb 0%nat b eq_refl) as H0. rewrite Z.add_0_r in H0. rewrite H0.
    apply Forall_cons in Hz as [Hb0 Hz]. unfold istrue. rewrite (proj2 (Z.eqb_neq b 0)) by lia. cbn [negb].
    rewrite (IH n (p + 1)); [cbn [length]; do 2 f_equal; lia| |lia].
    split; [|done]. by apply (bytes_at_app _ p [b] (str ++ [0])) in Hb as [_ Hb].
Qed.

Lemma put_pointers_ok ss : forall p a m,
  bytes_at m p (strings ss) -> text ss -> Forall (fun str => length str < fuel)%nat ss ->
  0 < p -> p + Z.of_nat (length (strings ss)) < 4294967296 -> a + 4 * Z.of_nat (length ss) <= p ->
  exists m', put_pointers (length ss) p a (with_umem s m) =
      (Ret (p + Z.of_nat (length (strings ss)), a + 4 * Z.of_nat (length ss)), with_umem s m') /\
    vector m' m' a ss /\ (forall i str, ss !! i = Some str -> p <= ld_long m' (a + 4 * Z.of_nat i)) /\
    forall x, ~ (a <= x < a + 4 * Z.of_nat (length ss)) -> m' !! x = m !! x.
Proof.
  induction ss as [|str ss IH]; intros p a m Hb Ht Hf Hp Hhi Ha.
  { exists m. split; [cbn; by rewrite !Z.add_0_r|]. split; [|split; [|done]]; by intros i x Hi. }
  rewrite strings_length in *. cbn [length] in *. apply Forall_cons in Hf as [Hf0 Hf].
  destruct (strings_split m p str ss Hb Ht) as (Hc & Hb' & Ht').
  set (m1 := st_long p a m). assert (forall x, ~ (a <= x < a + 4) -> m1 !! x = m !! x) as H1 by (intros; by apply st_long_frame).
  assert (cstr m1 p str) as Hc1 by (eapply cstr_ext; [|exact Hc]; intros x Hx; apply H1; lia).
  destruct (IH (p + Z.of_nat (length str) + 1) (a + 4) m1) as (m' & Hr & Hv & Hge & Hout); try done; try lia.
  { eapply bytes_at_ext; [|exact Hb']. intros x Hx. apply H1. lia. }
  assert (ld_long m' (a + 4 * Z.of_nat 0) = p) as H0.
  { rewrite Z.add_0_r. rewrite (ld_long_ext m1 m') by (intros; apply Hout; lia). apply ld_st_long. lia. }
  exists m'. split; [|split; [|split]].
  - cbn [put_pointers]. mrun (put_long_run p a m). mrun (skip_string_ok str fuel p m1 Hc1 Hf0). rewrite Hr.
    do 3 f_equal; lia.
  - intros [|i] x Hi.
    + injection Hi as <-. rewrite H0. split; [lia|].
      eapply cstr_ext; [|exact Hc1]. intros y Hy. apply Hout. lia.
    + specialize (Hv i x Hi). by replace (a + 4 * Z.of_nat (S i)) with (a + 4 + 4 * Z.of_nat i) by lia.
  - intros [|i] x Hi; [by rewrite H0|]. specialize (Hge i x Hi).
    replace (a + 4 * Z.of_nat (S i)) with (a + 4 + 4 * Z.of_nat i) by lia. lia.
  - intros x Hx. rewrite Hout by lia. apply H1. lia.
Qed.

Lemma vector_ext (m m' : gmap Z Z) (a : Z) ss (lo hi : Z) :
  vector m m a ss -> (forall x, ~ (lo <= x < hi) -> m' !! x = m !! x) ->
  (hi <= a \/ a + 4 * Z.of_nat (length ss) <= lo) ->
  (forall i str, ss !! i = Some str -> hi <= ld_long m (a + 4 * Z.of_nat i)) -> vector m' m' a ss.
Proof.
  intros Hv Hout Ha Hs i str Hi. destruct (Hv i str Hi) as [Hq Hc]. pose proof (lookup_lt_Some _ _ _ Hi).
  rewrite (ld_long_ext m m') by (intros x Hx; apply Hout; lia). split; [done|].
  eapply cstr_ext; [|exact Hc]. intros x Hx. apply Hout. specialize (Hs i str Hi). lia.
Qed.

Lemma align4 p : 0 <= p < 4294967296 -> Z.land 0xfffffffc p = p - p mod 4.
Proof.
  intros Hp. transitivity (Z.shiftl (Z.land (Z.shiftr p 2) (Z.ones 30)) 2).
  - change 0xfffffffc with (Z.shiftl (Z.ones 30) 2). apply Z.bits_inj'. intros n Hn.
    rewrite Z.land_spec, !Z.shiftl_spec, Z.land_spec by lia. destruct (decide (n < 2)).
    + rewrite !(Z.testbit_neg_r _ (n - 2)) by lia. done.
    + rewrite Z.shiftr_spec by lia. replace (n - 2 + 2) with n by lia. apply andb_comm.
  - rewrite Z.land_ones, Z.shiftl_mul_pow2, Z.shiftr_div_pow2 by lia. change (2 ^ 2) with 4.
    rewrite Z.mod_small by (split; [apply Z.div_pos; lia|apply Z.div_lt_upper_bound; lia]).
    pose proof (Z_div_mod_eq_full p 4). lia.
Qed.

(** [create_tables]: the three words that [main] starts with, and both tables. *)
Lemma create_tables_ok av ev p m :
  bytes_at m p (strings av ++ strings ev) -> text av -> text ev ->
  Forall (fun str => length str < fuel)%nat av -> Forall (fun str => length str < fuel)%nat ev ->
  let argc := Z.of_nat (length av) in
  let envc := Z.of_nat (length ev) in
  let sp := p - p mod 4 - 4 * (envc + 1) - 4 * (argc + 1) - 12 in
  0 <= sp -> p + Z.of_nat (length (strings av ++ strings ev)) < 4294967296 ->
  exists m', create_tables p argc envc (with_umem s m) = (Ret sp, with_umem s m') /\
    ld_long m' sp = argc /\ ld_long m' (sp + 4) = sp + 12 /\ ld_long m' (sp + 8) = sp + 12 + 4 * (argc + 1) /\
    table_above sp m' (sp + 12) av /\ table_above sp m' (sp + 12 + 4 * (argc + 1)) ev /\
    forall x, ~ (sp <= x < p) -> m' !! x = m !! x.
Proof.
  intros Hb Hta Hte Hfa Hfe argc envc sp Hsp Hhi. pose proof (Z.mod_pos_bound p 4 ltac:(lia)) as Hmod.
  assert (0 <= argc /\ 0 <= envc) as [Hac Hec] by lia. rewrite length_app in Hhi.
  apply bytes_at_app in Hb as [Hba Hbe].
  set (argv := sp + 12). set (envp := argv + 4 * (argc + 1)). assert (envp + 4 * (envc + 1) <= p) as Htop by lia.
  set (m1 := st_long argc sp (st_long argv (sp + 4) (st_long envp (sp + 8) m))).
  assert (forall x, ~ (sp <= x < argv) -> m1 !! x = m !! x) as H1.
  { intros x Hx. unfold m1. rewrite !st_long_frame by lia. done. }
  assert (ld_long m1 sp = argc /\ ld_long m1 (sp + 4) = argv /\ ld_long m1 (sp + 8) = envp) as (Hl0 & Hl1 & Hl2).
  { unfold m1. split; [apply ld_st_long; lia|]. rewrite !(ld_st_long_ne argc) by lia.
    split; [apply ld_st_long; lia|]. rewrite !(ld_st_long_ne argv) by lia. apply ld_st_long. lia. }
  destruct (put_pointers_ok av p argv m1) as (m2 & Hr2 & Hv2 & Hge2 & Hout2); try done; try lia.
  { eapply bytes_at_ext; [|exact Hba]. intros x Hx. apply H1. lia. }
  set (m3 := st_long 0 (argv + 4 * argc) m2).
  assert (forall x, ~ (argv <= x < envp) -> m3 !! x = m1 !! x) as H3.
  { intros x Hx. unfold m3. rewrite st_long_frame by lia. apply Hout2. lia. }
  destruct (put_pointers_ok ev (p + Z.of_nat (length (strings av))) envp m3) as (m4 & Hr4 & Hv4 & Hge4 & Hout4);
    try done; try lia.
  { eapply bytes_at_ext; [|exact Hbe]. intros x Hx. rewrite H3 by lia. apply H1. lia. }
  set (m5 := st_long 0 (envp + 4 * envc) m4).
  assert (forall x, ~ (envp <= x < envp + 4 * (envc + 1)) -> m5 !! x = m3 !! x) as H5.
  { intros x Hx. unfold m5. rewrite st_long_frame by lia. apply Hout4. lia. }
  exists m5. split; [|split; [|split; [|split; [|split; [|split]]]]].
  - unfold create_tables. rewrite align4 by lia.
    replace (p - p mod 4 - 4 * (envc + 1)) with envp by lia. replace (envp - 4 * (argc + 1)) with argv by lia.
    replace (argv - 4) with (sp + 8) by lia. replace (sp + 8 - 4) with (sp + 4) by lia.
    replace (sp + 4 - 4) with sp by lia.
    mrun (put_long_run envp (sp + 8) m). mrun (put_long_run argv (sp + 4) (st_long envp (sp + 8) m)).
    mrun (put_long_run argc sp (st_long argv (sp + 4) (st_long envp (sp + 8) m))). fold m1.
    unfold argc at 1, envc at 1. rewrite !Nat2Z.id. mrun Hr2. cbv beta iota. mrun (put_long_run 0 (argv + 4 * argc) m2).
    fold m3. mrun Hr4. cbv beta iota. mrun (put_long_run 0 (envp + 4 * envc) m4). reflexivity.
  - rewrite (ld_long_ext m1 m5); [done|]. intros x Hx. rewrite H5 by lia. apply H3. lia.
  - rewrite (ld_long_ext m1 m5); [done|]. intros x Hx. rewrite H5 by lia. apply H3. lia.
  - rewrite (ld_long_ext m1 m5); [done|]. intros x Hx. rewrite H5 by lia. apply H3. lia.
  - assert (forall x, ~ (argv + 4 * argc <= x < p) -> m5 !! x = m2 !! x) as H52.
    { intros x Hx. rewrite H5 by lia. unfold m3. apply st_long_frame. lia. }
    split; [fold argv; lia|]. split; [split|].
    + by apply (vector_ext m2 m5 argv av (argv + 4 * argc) p); [| |lia|].
    + fold argc argv. rewrite (ld_long_ext m3 m5) by (intros x Hx; apply H5; lia). apply ld_st_long. lia.
    + intros i str Hi. pose proof (lookup_lt_Some _ _ _ Hi). fold argv.
      rewrite (ld_long_ext m2 m5) by (intros x Hx; apply H52; lia). specialize (Hge2 i str Hi). lia.
  - assert (forall x, ~ (envp + 4 * envc <= x < p) -> m5 !! x = m4 !! x) as H54
      by (intros x Hx; apply st_long_frame; lia).
    split; [fold argv envp; lia|]. split; [split|].
    + apply (vector_ext m4 m5 envp ev (envp + 4 * envc) p); [done|done|lia|].
      intros i str Hi. specialize (Hge4 i str Hi). lia.
    + fold argc argv envp envc. apply ld_st_long. lia.
    + intros i str Hi. pose proof (lookup_lt_Some _ _ _ Hi). fold argv envp.
      rewrite (ld_long_ext m4 m5) by (intros x Hx; apply H54; lia). specialize (Hge4 i str Hi). lia.
  - intros x Hx. rewrite H5, H3 by lia. apply H1. lia.
Qed.

End Stack.

(** ** Counting *)

Lemma vector_cons m ms a str ss :
  vector m ms a (str :: ss) ->
  ld_long m a <> 0 /\ vector m ms (a + 4) ss.
Proof.
  intros Hv. split.
  - destruct (Hv 0%nat str eq_refl) as [Hq _]. by rewrite Z.add_0_r in Hq.
  - intros i x Hi. specialize (Hv (S i) x Hi). by replace (a + 4 + 4 * Z.of_nat i) with (a + 4 * Z.of_nat (S i)) by lia.
Qed.

Lemma count_from_ok s ss : forall n a i,
  table (seg s) a ss -> (length ss < n)%nat -> count_from n a i s = (Ret (i + Z.of_nat (length ss)), s).
Proof.
  induction ss as [|str ss IH]; intros [|n] a i [Hv H0] Hn; cbn in Hn; try lia; cbn [count_from];
    unfold get_fs_long; rewrite bind_gets.
  - cbn [length] in H0. rewrite Z.add_0_r in H0. rewrite H0. change (istrue 0) with false. cbv iota.
    unfold mret, M_ret. cbn [length]. do 2 f_equal. lia.
  - apply vector_cons in Hv as [Hq Hv]. unfold istrue. rewrite (proj2 (Z.eqb_neq _ _) Hq). cbn [negb].
    rewrite (IH n (a + 4) (i + 1)); [cbn [length]; do 2 f_equal; lia| |lia]. split; [done|].
    rewrite <- H0. f_equal. cbn [length]. lia.
Qed.

Lemma count_ok `{FsEnv} s a ss :
  table (seg s) a ss -> (length ss < fuel)%nat -> a <> 0 -> count a s = (Ret (Z.of_nat (length ss)), s).
Proof.
  intros Ht Hn Ha. unfold count, istrue. rewrite (proj2 (Z.eqb_neq _ _) Ha). cbn [negb].
  exact (count_from_ok s ss fuel a 0 Ht Hn).
Qed.
