(* ===== verification/ExecSpec.v ===== *)
(** What [do_execve] does with arguments, pages and the old address space: [copy_strings] with
    every kind of source, the missing length check, giving the pages back on an error, and the
    stack of the new program. *)

From S2P Require Import Prelude Memory MemoryInv MemoryOps MemoryFault Task Fork ForkSpec FsDefs Inode Exec ExecArgs.

(** ** Too long an argument *)

(** Copying in two parts, from the end. *)
Lemma copy_bytes_app `{FsEnv} n m old new km p tmp offset pag s :
  copy_bytes (n + m) old new km p tmp offset pag s =
  (r ← copy_bytes n old new km p tmp offset pag;
   match r with
   | None => mret None
   | Some (p, offset, pag) => copy_bytes m old new km p (tmp - Z.of_nat n) offset pag
   end) s.
Proof.
  revert p tmp offset pag s. induction n as [|n IH]; intros p tmp offset pag s.
  { cbn [Nat.add copy_bytes]. rewrite bind_ret. by rewrite Z.sub_0_r. }
  cbn [Nat.add]. rewrite !copy_bytes_S, bind_assoc. apply bind_ext. intros [[offset1 pag1]|] s1; [|reflexivity].
  rewrite bind_assoc. apply bind_ext. intros b s2. rewrite bind_assoc. apply bind_ext. intros [] s3.
  rewrite IH. by replace (tmp - 1 - Z.of_nat n) with (tmp - Z.of_nat (S n)) by lia.
Qed.

(** Below the first page there is no page: [page[0xfffff]] is out of the array. *)
Lemma copy_bytes_wraps `{FsEnv} n old new km tmp pag s :
  length (arg_page s) = 32%nat ->
  exists s', copy_bytes (S n) old new km 0 tmp 0 pag s = (Undef "page", s').
Proof.
  intros Hl. rewrite copy_bytes_S. change (u32 (0 - 1)) with 4294967295.
  assert (forall s1, arg_page s1 = arg_page s -> arg_frame 4294967295 s1 = (Undef "page", s1)) as Hfr.
  { intros s1 E. unfold arg_frame. unfold mbind, M_bind at 1. unfold get_page. rewrite bind_get.
    change (4294967295 / PAGE_SIZE) with 1048575. change (1048575 <? 0) with false. cbv iota.
    rewrite (proj2 (lookup_ge_None (arg_page s1) _)) by (rewrite E, Hl; lia). reflexivity. }
  unfold next_page. change (0 - 1 <? 0) with true. cbv iota. rewrite bind_assoc.
  destruct (km =? 2); cbn [when].
  - unfold set_fs. rewrite bind_modify. unfold mbind, M_bind. rewrite Hfr by reflexivity. by eexists.
  - rewrite bind_ret. unfold mbind, M_bind. rewrite Hfr by reflexivity. by eexists.
Qed.

Lemma copy_bytes_overrun `{FsEnv} own bs old new km s p tmp :
  args own s -> 0 < p <= ARG_MAX -> p < Z.of_nat (length bs) -> fs_sel s = string_sel old new km ->
  bytes_at (seg s) (tmp - Z.of_nat (length bs)) bs -> Forall is_byte bs ->
  exists s', copy_bytes (length bs) old new km p tmp 0 0 s = (Undef "page", s') \/
    (copy_bytes (length bs) old new km p tmp 0 0 s = (Ret None, s') /\ full (kmm (xk s'))).
Proof.
  intros A Hp Hlen Hsel Hb Hby.
  set (n := (length bs - Z.to_nat p)%nat).
  rewrite <- (take_drop n bs), bytes_at_app in Hb. destruct Hb as [_ Hb].
  rewrite length_app, length_take, length_drop in Hb.
  assert (length (drop n bs) = Z.to_nat p) as Hd by (rewrite length_drop; lia).
  pose proof (copy_bytes_app (length (drop n bs)) (S (n - 1)) old new km p tmp 0 0 s) as Happ.
  replace (length (drop n bs) + S (n - 1))%nat with (length bs) in Happ by lia.
  destruct (copy_bytes_ok own old new km (drop n bs) s p tmp 0 0) as (r & s1 & Hr & A1 & Hc).
  - done.
  - lia.
  - done.
  - rewrite Hd. replace (tmp - Z.of_nat (Z.to_nat p)) with (tmp - Z.of_nat (n `min` length bs + (length bs - n)) + Z.of_nat (n `min` length bs)) by lia.
    done.
  - by apply Forall_drop.
  - split; lia.
  - rewrite (bind_Ret _ _ _ _ _ Hr) in Happ. rewrite Happ. destruct r as [[[p1 offset1] pag1]|].
    + destruct Hc as (Hp1 & _ & Hat). replace p1 with 0 in * by lia.
      assert (offset1 = 0) as -> by (destruct Hat as [? Hat]; destruct (decide (0 < offset1)) as [Ho|]; [destruct (Hat Ho) as [-> _]; done|lia]).
      destruct (copy_bytes_wraps (n - 1) old new km (tmp - Z.of_nat (length (drop n bs))) pag1 s1) as [s2 H2].
      * apply A1.
      * exists s2. left. exact H2.
    + exists s1. right. split; [done|apply Hc].
Qed.

(** C22: [copy_strings] copies the strings of an array, in order and with their terminators,
    to the offsets below [p] of the argument pages and returns the offset of the first; this
    holds for each row of the table in its comment (array and strings in user memory, array in
    the kernel, or both in the kernel), nothing but the pages changes, and bytes that were
    copied before are kept.  It returns 0 only when no frame of memory is free. *)
Theorem copy_strings_ok `{FsEnv} own s argv p from_kmem ss :
  args own s -> 0 < p -> Z.of_nat (length (strings ss)) <= p <= ARG_MAX -> 0 <= from_kmem <= 2 ->
  vector (array_mem from_kmem s) (string_mem from_kmem s) argv ss ->
  Forall (fun str => length str < fuel)%nat ss ->
  exists r s', copy_strings (Z.of_nat (length ss)) argv p from_kmem s = (Ret r, s') /\ args own s' /\ only_args s s' /\
    ((r = p - Z.of_nat (length (strings ss)) /\
      (forall k b, strings ss !! k = Some b -> area_of s' (r + Z.of_nat k) = b) /\
      (forall o, p <= o < ARG_MAX -> in_page s o <> 0 -> area_of s' o = area_of s o)) \/
     (r = 0 /\ full (kmm (xk s')))).
Proof.
  intros A Hp0 Hp Hk Hv Hf.
  destruct (copy_strings_cases own s argv p from_kmem ss A Hp0 Hp Hk Hv Hf) as (r & s' & Hr & A' & [[-> W]|(-> & O & Hfl)]).
  - eexists _, s'. split; [exact Hr|]. split; [done|]. split; [apply W|]. left. split; [done|]. split.
    + intros k b Hkb. by apply W.
    + intros o Ho Hpo. apply (wr_out _ _ _ _ W); [lia|done|lia].
  - exists 0, s'. split; [done|]. split; [done|]. split; [done|]. by right.
Qed.

(** C40: The test [p-len < 0] of [copy_strings] never succeeds, since [p] is unsigned: a string
    longer than the room that is left does not make the call fail but runs below the first
    page, to a page number outside the array (unless memory runs out before). *)
Theorem copy_strings_overrun `{FsEnv} own s argv p from_kmem str :
  args own s -> 0 < p <= ARG_MAX -> p < Z.of_nat (length str) + 1 -> 0 <= from_kmem <= 2 ->
  vector (array_mem from_kmem s) (string_mem from_kmem s) argv [str] -> (length str < fuel)%nat ->
  exists s', copy_strings 1 argv p from_kmem s = (Undef "page", s') \/
    (copy_strings 1 argv p from_kmem s = (Ret 0, s') /\ full (kmm (xk s'))).
Proof.
  intros A Hp Hlen Hk Hv Hf. unfold copy_strings. rewrite (proj2 (Z.eqb_neq p 0)) by lia.
  unfold get_ds, get_fs. rewrite bind_ret, bind_gets. change (Z.to_nat 1) with 1%nat.
  set (sel := string_sel (fs_sel s) KERNEL_DS from_kmem). set (s1 := s <| fs_sel := sel |>).
  assert (when (from_kmem =? 2) (set_fs KERNEL_DS) s = (Ret tt, s1)) as H1.
  { unfold s1, sel, string_sel. destruct (from_kmem =? 2); [reflexivity|]. by rewrite sel_id. }
  mrun H1. destruct (Hv 0%nat str eq_refl) as [Hq Hstr].
  rewrite <- array_mem_sel in Hq, Hstr by done. rewrite <- string_mem_sel in Hstr.
  set (q := ld_long _ _) in *.
  assert (fs_sel s1 = sel) as Hs1 by reflexivity.
  assert (seg s1 = sel_mem sel s) as Hseg by reflexivity. fold sel in Hstr. rewrite <- Hseg in Hstr.
  destruct (copy_bytes_overrun own (str ++ [0]) (fs_sel s) KERNEL_DS from_kmem s1 p (q + Z.of_nat (length str) + 1))
    as [s2 H2]; [done|done|rewrite length_app; cbn; lia|done| |by eapply cstr_bytes|].
  { destruct Hstr as [Hb _]. rewrite length_app. cbn [length]. by replace (_ - _) with q by lia. }
  pose proof (string_end_ok str fuel q 0 s1 Hstr Hf) as Hend.
  replace (0 + Z.of_nat (length str) + 1) with (Z.of_nat (length (str ++ [0]))) in Hend
    by (rewrite length_app; cbn; lia).
  assert (copy_each 1 (fs_sel s) KERNEL_DS from_kmem argv p 0 0 s1 =
    (r ← copy_bytes (length (str ++ [0])) (fs_sel s) KERNEL_DS from_kmem p (q + Z.of_nat (length str) + 1) 0 0;
     match r with None => mret None | Some (p, _, _) => mret (Some p) end) s1) as Heach.
  { cbn [copy_each]. rewrite (read_pointer (fs_sel s) KERNEL_DS from_kmem s1 _ q _ Hs1 eq_refl Hq).
    mrun Hend. cbv beta iota. rewrite (proj2 (Z.ltb_ge _ _)) by apply u32_range. by rewrite Nat2Z.id. }
  exists s2. destruct H2 as [H2|[H2 Hfl]].
  - left. unfold mbind at 1, M_bind at 1. rewrite Heach. unfold mbind at 1, M_bind at 1. by rewrite H2.
  - right. split; [|done]. rewrite (bind_Ret _ _ _ _ _ H2) in Heach. by mrun Heach.
Qed.

(** ** Giving the pages back *)

Lemma held_cons p l f : held (p :: l) f = b2z (negb (p =? 0) && (p =? f)) + held l f.
Proof. reflexivity. Qed.

Lemma free_pages_ok own l : forall i s,
  (forall f, 0 <= own f) -> wf (with_held own l) (kmm (xk s)) ->
  (forall p, p ∈ l -> p <> 0 -> main (kmm (xk s)) p) -> 0 <= i ->
  (forall j p, l !! j = Some p -> arg_page s !! (Z.to_nat i + j)%nat = Some p) ->
  exists s', for_each (seqZ i (Z.of_nat (length l)))
      (fun i => page ← get_page i; on_memory (Memory.free_page page)) s = (Ret tt, s') /\
    wf own (kmm (xk s')) /\ xmem s' = xmem s /\ only_args s s' /\
    HIGH_MEMORY (kmm (xk s')) = HIGH_MEMORY (kmm (xk s)) /\ arg_page s' = arg_page s.
Proof.
  induction l as [|p l IH]; intros i s Hown W Hm Hi Hl.
  { exists s. split; [done|]. split; [|split; [done|split; [apply only_args_refl|by split]]].
    eapply wf_own_ext; [|exact W]. intros f. unfold with_held, held. change (sumZ _ []) with 0. lia. }
  cbn [length]. rewrite seqZ_cons by lia. cbn [for_each].
  replace (Z.pred (Z.of_nat (S (length l)))) with (Z.of_nat (length l)) by lia.
  assert (get_page i s = (Ret p, s)) as Hg.
  { unfold get_page. rewrite bind_get, (proj2 (Z.ltb_ge i 0)) by lia.
    pose proof (Hl 0%nat p eq_refl) as H0. rewrite Nat.add_0_r in H0. by rewrite H0. }
  assert (exists s1, on_memory (Memory.free_page p) s = (Ret tt, s1) /\ wf (with_held own l) (kmm (xk s1)) /\
    xmem s1 = xmem s /\ only_args s s1 /\ arg_page s1 = arg_page s /\ HIGH_MEMORY (kmm (xk s1)) = HIGH_MEMORY (kmm (xk s)))
    as (s1 & H1 & W1 & Hx1 & O1 & Ha1 & Hh1).
  { destruct (decide (p = 0)) as [->|Hp].
    - eexists. split; [apply on_memory_run, free_page_low; unfold LOW_MEM; lia|].
      split; [|done]. apply wf_view. eapply wf_own_ext; [|exact W]. intros f. unfold with_held. rewrite held_cons. cbn. lia.
    - destruct (free_page_held (with_held own (p :: l)) (mm_view (xk s)) p) as [Hr W1].
      + by apply wf_view.
      + apply Hm; [left|done].
      + pose proof (held_in (p :: l) 0 p eq_refl Hp). unfold with_held. pose proof (Hown p). lia.
      + eexists. split; [apply on_memory_run, Hr|]. split; [|done].
        eapply wf_own_ext; [|exact W1]. intros f. unfold with_held, bump. rewrite held_cons.
        rewrite (proj2 (Z.eqb_neq p 0) Hp), (Z.eqb_sym p f). cbn. destruct (f =? p); cbn; lia. }
  destruct (IH (Z.succ i) s1 Hown W1) as (s' & H' & W' & Hx' & O' & Hh' & Ha').
  - intros q Hq Hq0. destruct (Hm q ltac:(by right) Hq0) as [Hq1 Hq2]. split; [done|by rewrite Hh1].
  - lia.
  - intros j q Hj. rewrite Ha1. rewrite <- (Hl (S j) q Hj). f_equal. lia.
  - exists s'. split; [|split; [done|split; [by rewrite Hx'|split; [by eapply only_args_trans|split; [by rewrite Hh'|by rewrite Ha']]]]].
    rewrite bind_assoc. mrun Hg. mrun H1. exact H'.
Qed.

(** A call into the file system changes neither the memory manager's state nor the array. *)
Lemma on_fs_memory {A} (m : M fs A) r s s1 :
  on_fs m s = (r, s1) -> kmm (xk s1) = kmm (xk s) /\ arg_page s1 = arg_page s.
Proof.
  unfold on_fs. destruct (tasks (xk s) !! cur (xk s)) as [t|]; [|by intros [= _ <-]].
  destruct (m _) as [x f]. intros [= _ <-]. unfold set_seg. cbn. by destruct (_ =? _).
Qed.

(** [s'] is [s] with the argument pages given back: each page is free, every other page of main
    memory has the count it had, and no word of memory has changed. *)
Definition given_back (own : Z -> Z) (s s' : xst) : Prop :=
  only_args s s' /\ wf own (kmm (xk s')) /\ xmem s' = xmem s /\
  forall f, main (kmm (xk s)) f -> cnt (kmm (xk s')) f = cnt (kmm (xk s)) f - held (arg_page s) f.

Lemma exec_error1_run own s retval :
  args own s -> exists s', exec_error1 retval s = (Ret retval, s') /\ given_back own s s'.
Proof.
  intros A. destruct (free_pages_ok own (arg_page s) 0 s) as (s' & H' & W' & Hx' & O' & Hh' & _).
  - apply A.
  - apply A.
  - intros p [i Hi]%list_elem_of_lookup_1. by apply (ao_main _ _ _ A i).
  - lia.
  - done.
  - exists s'. split.
    + unfold exec_error1. rewrite (ao_len _ _ _ A) in H'. by mrun H'.
    + split; [exact O'|]. split; [exact W'|]. split; [exact Hx'|]. intros f Hf.
      rewrite (wf_cnt _ _ (ao_wf _ _ _ A) f Hf), (wf_cnt _ _ W' f) by (unfold main in *; by rewrite Hh').
      change (mem (kmm (xk s'))) with (xmem s'). rewrite Hx'. unfold with_held. change (xmem s) with (mem (kmm (xk s))). lia.
Qed.

(** C23: the exits of an [execve] that failed give every argument page back.  [exec_error1]
    returns the error, each argument page is free again, every other page has the count it had,
    and nothing else changes; [exec_error2] does the same after it has given the program's inode
    back. *)
Theorem exec_error1_ok `{FsEnv} own s retval :
  args own s ->
  (exists s', exec_error1 retval s = (Ret retval, s') /\ given_back own s s') /\
  (forall inode s1, on_fs (iput (Some inode)) s = (Ret tt, s1) ->
     exists s', exec_error2 inode retval s = (Ret retval, s') /\ given_back own s1 s' /\
       kmm (xk s1) = kmm (xk s) /\ arg_page s1 = arg_page s).
Proof.
  intros A. split; [by apply exec_error1_run|]. intros inode s1 E. destruct (on_fs_memory _ _ _ _ E) as [Ek Ea].
  destruct (exec_error1_run own s1 retval) as (s' & E' & G); [unfold args; by rewrite Ek, Ea|].
  exists s'. split; [|by split]. unfold exec_error2. by mrun E.
Qed.
