(* ===== verification/ExecLoad.v ===== *)
(** Loading a program ([fs/exec.c]): the old address space is freed without touching the
    argument pages, [change_ldt] maps them at the top of the data segment, [create_tables]
    builds the pointer tables, and [load_image] hands the new program exactly the arguments and
    the environment of the call. *)

From S2P Require Import Prelude Memory MemoryInv MemoryOps MemoryFault Task Fork ForkSpec FsDefs Exec ExecArgs ExecStack.

(** ** Freeing page tables keeps the pages that the kernel holds *)

Lemma free_page_mem f s r s' : Memory.free_page f s = (r, s') -> mem s' = mem s.
Proof.
  unfold Memory.free_page, get_map, set_map, of_option, mbind, M_bind, gets, panic, undef, mret, M_ret. intros E.
  repeat (case_match; simplify_eq; try done).
Qed.

Lemma free_entries_mem n : forall a s s',
  free_entries n a s = (Ret tt, s') -> forall x, ~ (a <= x < a + 4 * Z.of_nat n) -> ld (mem s') x = ld (mem s) x.
Proof.
  induction n as [|n IH]; intros a s s' E x Hx; [by injection E as ->|].
  cbn [free_entries] in E. rewrite bind_ldw in E. apply bind_inv in E as ([] & s1 & H1 & E).
  rewrite bind_stw in E. rewrite (IH _ _ _ E x) by lia. cbn. rewrite ld_insert_ne by lia.
  f_equal. destruct (istrue _); [by eapply free_page_mem|by injection H1 as ->].
Qed.

Lemma free_dirs_keeps own n : forall i s s' q x,
  wf own s -> FIRST_USER_DIR <= i -> i + Z.of_nat n <= 1024 -> free_dirs n (4 * i) s = (Ret tt, s') ->
  main s q -> own q <> 0 -> q <= x < q + 4096 -> ld (mem s') x = ld (mem s) x.
Proof.
  induction n as [|n IH]; intros i s s' q x W Hi Hn E Hq Hown Hx; [by injection E as ->|].
  cbn [free_dirs] in E. rewrite bind_ldw in E. fold (dirent (mem s) i) in E. rewrite land_1_odd in E.
  assert (user_dir i) as Hu by (unfold user_dir; lia).
  apply bind_inv in E as ([] & s1 & H1 & E). replace (4 * i + 4) with (4 * (i + 1)) in E by lia.
  destruct (Z.odd (dirent (mem s) i)) eqn:Ho; cbn [negb] in H1; last first.
  { injection H1 as <-. apply (IH (i + 1) s s' q); done || lia. }
  destruct (free_one_dir own s i W Hu Ho) as (s1' & H1' & W1 & Hh1 & _).
  rewrite H1 in H1'. injection H1' as <-.
  rewrite (IH (i + 1) s1 s' q x) by (done || lia || (split; [apply Hq|rewrite Hh1; apply Hq])).
  apply bind_inv in H1 as ([] & s2 & H2 & H1). rewrite bind_ldw in H1.
  apply bind_inv in H1 as ([] & s3 & H3 & H1). injection H1 as <-. cbn.
  rewrite ld_insert_ne by (destruct Hq as [_ Hq]; unfold LOW_MEM, user_dir in *; lia).
  rewrite (free_page_mem _ _ _ _ H3). apply (free_entries_mem _ _ _ _ H2).
  pose proof (outside_table own s i 0 q W Hu Ho ltac:(lia) Hq Hown).
  pose proof (outside_table own s i 1023 q W Hu Ho ltac:(lia) Hq Hown). unfold pte_addr, frame in *.
  change (4 * Z.of_nat 1024) with 4096. destruct Hq as [Hq _].
  pose proof (frame_aligned (dirent (mem s) i)) as Hal. unfold frame in Hal.
  pose proof (Z_div_mod_eq_full q 4096). pose proof (Z_div_mod_eq_full (Z.land PAGE_MASK (dirent (mem s) i)) 4096). lia.
Qed.

(** ** References after freeing *)

Lemma refs_freed m m' lo hi f :
  (forall k, lo <= k < hi -> Z.odd (dirent m' k) = false) -> untouched m m' (fun k => lo <= k < hi) ->
  refs m' f <= refs m f /\
  forall i, lo <= i < hi -> user_dir i -> refs m' f <= refs m f - table_refs m f i.
Proof.
  intros Hz Hu.
  assert (forall k, user_dir k -> table_refs m' f k = if decide (lo <= k < hi) then 0 else table_refs m f k) as Ht.
  { intros k Hk. case_decide as Hr.
    - unfold table_refs. by rewrite Hz.
    - destruct (Hu k Hk Hr) as [Hd Hp]. by apply table_refs_ext. }
  split.
  { apply sumZ_le. intros k Hk%elem_user. rewrite Ht by done. pose proof (table_refs_nonneg m f k). case_decide; lia. }
  intros i Hi Hui. unfold refs. set (g := fun k => if decide (k = i) then 0 else table_refs m f k).
  assert (sumZ g user_dirs = sumZ (table_refs m f) user_dirs - table_refs m f i) as <-.
  { rewrite (sumZ_upd g (table_refs m f) user_dirs i).
    - unfold g. rewrite decide_True by done. lia.
    - apply NoDup_seqZ.
    - by apply elem_user.
    - intros y _ Hy. unfold g. by rewrite decide_False. }
  apply sumZ_le. intros k Hk%elem_user. rewrite Ht by done. unfold g.
  pose proof (table_refs_nonneg m f k). repeat case_decide; lia.
Qed.

Lemma free_page_tables_keeps own s from size s' q x :
  wf own s -> 0 <= from < 4294967296 -> FIRST_USER_DIR <= dir_ix from -> dir_ix from + nr_dirs size <= 1024 ->
  free_page_tables from size s = (Ret 0, s') ->
  main s q -> own q <> 0 -> q <= x < q + 4096 -> ld (mem s') x = ld (mem s) x.
Proof.
  intros W Hf Hlo Hhi E Hq Hown Hx. unfold free_page_tables in E.
  destruct (istrue _); [discriminate|]. destruct (from =? 0); [discriminate|].
  apply bind_inv in E as ([] & s1 & H1 & E). rewrite dir_addr in H1 by done. fold (nr_dirs size) in H1.
  pose proof (nr_dirs_nonneg size).
  assert (mem s' = mem s1) as -> by (injection E as <-; reflexivity).
  apply (free_dirs_keeps own _ _ _ _ q x W Hlo) in H1; done || lia.
Qed.

(** The whole of freeing, for argument pages. *)
Lemma free_args own k pg from size :
  args_ok own k pg -> 0 <= from < 4294967296 -> from mod 4194304 = 0 ->
  FIRST_USER_DIR <= dir_ix from -> dir_ix from + nr_dirs size <= 1024 ->
  exists k', free_page_tables from size k = (Ret 0, k') /\ args_ok own k' pg /\ HIGH_MEMORY k' = HIGH_MEMORY k /\
    (forall i p x, pg !! i = Some p -> p <> 0 -> p <= x < p + 4096 -> ld (mem k') x = ld (mem k) x) /\
    (forall i, dir_ix from <= i < dir_ix from + nr_dirs size -> Z.odd (dirent (mem k') i) = false) /\
    untouched (mem k) (mem k') (fun i => dir_ix from <= i < dir_ix from + nr_dirs size).
Proof.
  intros A Hf Hal Hlo Hhi. pose proof (ao_wf _ _ _ A) as W.
  destruct (free_page_tables_cases _ k from size W Hf Hal Hlo Hhi) as (k' & Hr & W' & Hh & Hz & Hu).
  exists k'. split; [done|]. split; [|split; [done|split; [|done]]].
  - assert (forall i p, pg !! i = Some p -> p <> 0 -> main k' p) as Hm.
    { intros i p Hi Hp. destruct (ao_main _ _ _ A i p Hi Hp). split; [done|by rewrite Hh]. }
    constructor; try apply A; [done| |done].
    intros i p Hi Hp. destruct (arg_private own k pg i p A Hi Hp) as [H1 H0].
    pose proof (wf_cnt _ k' W' p (Hm i p Hi Hp)). pose proof (proj1 (refs_freed _ _ _ _ p Hz Hu)).
    pose proof (refs_nonneg (mem k') p). lia.
  - intros i p x Hi Hp Hx. destruct (arg_private own k pg i p A Hi Hp) as [H1 _].
    apply (free_page_tables_keeps (with_held own pg) k from size k' p x); try done.
    + by apply (ao_main _ _ _ A i).
    + lia.
Qed.

(** A page table that is freed leaves a free frame. *)
Lemma table_freed own k k' i lo hi :
  wf own k -> wf own k' -> HIGH_MEMORY k' = HIGH_MEMORY k ->
  (forall j, lo <= j < hi -> Z.odd (dirent (mem k') j) = false) ->
  untouched (mem k) (mem k') (fun j => lo <= j < hi) ->
  lo <= i < hi -> user_dir i -> Z.odd (dirent (mem k) i) = true -> ~ full k'.
Proof.
  intros W W' Hh Hz Hu Hi Hui Ho Hfull. destruct (wf_dir own k W i Hui Ho) as [Hm Hc].
  set (f := frame (dirent (mem k) i)) in *.
  assert (main k' f) as Hm' by (destruct Hm; split; [done|by rewrite Hh]).
  pose proof (table_refs_self (mem k) i Ho). fold f in H.
  pose proof (proj2 (refs_freed _ _ _ _ f Hz Hu) i Hi Hui).
  pose proof (wf_cnt own k W f Hm). pose proof (wf_cnt own k' W' f Hm'). pose proof (wf_own own k W f).
  pose proof (refs_nonneg (mem k') f). apply (Hfull f Hm'). lia.
Qed.

Lemma full_freed own k k' lo hi :
  wf own k -> wf own k' -> HIGH_MEMORY k' = HIGH_MEMORY k ->
  (forall j, lo <= j < hi -> Z.odd (dirent (mem k') j) = false) ->
  untouched (mem k) (mem k') (fun j => lo <= j < hi) -> ~ full k -> ~ full k'.
Proof.
  intros W W' Hh Hz Hu Hn Hfull. apply Hn. intros f Hm Hc.
  assert (main k' f) as Hm' by (destruct Hm; split; [done|by rewrite Hh]).
  apply (Hfull f Hm'). pose proof (wf_cnt own k W f Hm). pose proof (wf_cnt own k' W' f Hm').
  pose proof (proj1 (refs_freed _ _ _ _ f Hz Hu)). pose proof (refs_nonneg (mem k') f). pose proof (wf_own own k W f). 
  pose proof (refs_nonneg (mem k) f). lia.
Qed.

(** ** Unmapping the old program *)

Definition the_task (s : xst) (t : task_struct) : Prop := tasks (xk s) !! cur (xk s) = Some t.

Lemma task_run s t : the_task s t -> on_k current_task s = (Ret t, s).
Proof.
  intros Ht. unfold on_k, current_task. rewrite bind_get. unfold get_task. rewrite bind_get.
  rewrite Ht. by destruct s.
Qed.

(** The segments of a task: code and data in the 64 MB region number [n] of its own. *)
Record region (t : task_struct) (n : Z) : Prop := {
  rg_n : 1 <= n < NR_TASKS;
  rg_code : d_base (ldt1 t) = n * 0x4000000;
  rg_data : d_base (ldt2 t) = n * 0x4000000;
  rg_clim : 0 <= d_limit (ldt1 t) <= d_limit (ldt2 t);
  rg_dlim : d_limit (ldt2 t) <= 0x4000000
}.

Definition unmapped (s : xst) (k : mm) : xst := s <| xk ::= fun x => x <| kmm := k |> <| Task.umem := ∅ |> |>.

Lemma nr_dirs_mono a b : 0 <= a <= b -> b <= 0x4000000 -> nr_dirs a <= nr_dirs b.
Proof.
  intros Ha Hb. unfold nr_dirs, u32. rewrite !Z.mod_small, !Z.shiftr_div_pow2 by lia. apply Z.div_le_mono; lia.
Qed.

Lemma exec_unmap_ok own s t n i :
  args own s -> the_task s t -> region t n ->
  16 * n <= i < 16 * n + nr_dirs (d_limit (ldt2 t)) -> Z.odd (dirent (xmem s) i) = true ->
  (forall j, 16 * n + nr_dirs (d_limit (ldt2 t)) <= j < 16 * n + 16 -> Z.odd (dirent (xmem s) j) = false) ->
  exists k, exec_unmap s = (Ret tt, unmapped s k) /\ args_ok own k (arg_page s) /\
    HIGH_MEMORY k = HIGH_MEMORY (kmm (xk s)) /\ ~ full k /\
    (forall j p x, arg_page s !! j = Some p -> p <> 0 -> p <= x < p + 4096 -> ld (mem k) x = ld (xmem s) x) /\
    (forall j, 16 * n <= j < 16 * n + 16 -> Z.odd (dirent (mem k) j) = false).
Proof.
  intros A Ht [Hn Hcb Hdb Hcl Hdl] Hi Ho Hbey. unfold NR_TASKS in Hn.
  pose proof (nr_dirs_region (d_limit (ldt2 t)) ltac:(lia)). pose proof (nr_dirs_mono _ _ Hcl Hdl).
  pose proof (region_dir n) as Hdir. pose proof (region_mod n) as Hal.
  assert (user_dir i) as Hui by (unfold user_dir, FIRST_USER_DIR; lia).
  destruct (free_args own (mm_view (xk s)) (arg_page s) (n * 0x4000000) (d_limit (ldt1 t)))
    as (k1 & H1 & A1 & Hh1 & Hx1 & Hz1 & Hu1); [by apply args_view|lia|done|unfold FIRST_USER_DIR; lia|lia|].
  set (s1 := s <| xk ::= fun k => k <| kmm := k1 |> |>).
  destruct (free_args own (mm_view (xk s1)) (arg_page s) (n * 0x4000000) (d_limit (ldt2 t)))
    as (k2 & H2 & A2 & Hh2 & Hx2 & Hz2 & Hu2); [by apply args_view|lia|done|unfold FIRST_USER_DIR; lia|lia|].
  exists k2. rewrite Hdir in *. split; [|split; [done|split; [by rewrite Hh2|split; [|split]]]].
  - unfold exec_unmap. mrun (task_run s t Ht). rewrite Hcb, Hdb. mrun (on_memory_run _ s _ _ H1).
    fold s1. mrun (on_memory_run _ s1 _ _ H2). reflexivity.
  - pose proof (ao_wf _ _ _ A1) as W1. pose proof (ao_wf _ _ _ A2) as W2.
    pose proof (wf_view _ (xk s1) W1) as W1v.
    destruct (decide (i < 16 * n + nr_dirs (d_limit (ldt1 t)))) as [Hlt|Hge].
    + apply (full_freed (with_held own (arg_page s)) (mm_view (xk s1)) k2 _ _ W1v W2 Hh2 Hz2 Hu2).
      apply (table_freed (with_held own (arg_page s)) (mm_view (xk s)) k1 i _ _ (wf_view _ _ (ao_wf _ _ _ A)) W1 Hh1 Hz1 Hu1);
        [lia|done|exact Ho].
    + apply (table_freed (with_held own (arg_page s)) (mm_view (xk s1)) k2 i _ _ W1v W2 Hh2 Hz2 Hu2); [lia|done|].
      change (mem (mm_view (xk s1))) with (mem k1). rewrite (proj1 (Hu1 i Hui ltac:(cbv beta; lia))). exact Ho.
  - intros j p x Hj Hp Hx. rewrite (Hx2 j p x Hj Hp Hx). exact (Hx1 j p x Hj Hp Hx).
  - intros j Hj. destruct (decide (j < 16 * n + nr_dirs (d_limit (ldt2 t)))) as [Hlt|Hge]; [apply Hz2; lia|].
    assert (user_dir j) as Huj by (unfold user_dir, FIRST_USER_DIR; lia).
    rewrite (proj1 (Hu2 j Huj ltac:(cbv beta; lia))). change (mem (mm_view (xk s1))) with (mem k1).
    rewrite (proj1 (Hu1 j Huj ltac:(cbv beta; lia))). apply Hbey. lia.
Qed.

(** ** Mapping the argument pages *)

Lemma held_cnt own k q : wf own k -> main k q -> own q <> 0 -> cnt k q <> 0.
Proof.
  intros W Hm Ho. pose proof (wf_cnt own k W q Hm). pose proof (wf_own own k W q).
  pose proof (refs_nonneg (mem k) q). lia.
Qed.

Lemma pages_apart p q x : p mod 4096 = 0 -> q mod 4096 = 0 -> p <> q -> p <= x < p + 4096 -> ~ (q <= x < q + 4096).
Proof. intros. pose proof (Z_div_mod_eq_full p 4096). pose proof (Z_div_mod_eq_full q 4096). lia. Qed.

(** [put_page] leaves the pages that the kernel holds alone. *)
Lemma put_page_keeps own k page a k' q :
  wf own k -> user_addr a -> main k page -> cnt k page = 1 -> put_page page a k = (Ret page, k') -> page <> 0 ->
  main k q -> own q <> 0 ->
  (forall x, q <= x < q + 4096 -> ld (mem k') x = ld (mem k) x) /\ cnt k' q = cnt k q.
Proof.
  intros W Ha Hm Hc E Hp0 Hq Hown. rewrite (put_page_run own) in E by done.
  pose proof (tbl_ix_range a) as Hj. pose proof Ha as [_ Hui].
  destruct (Z.odd (dirent (mem k) (dir_ix a))) eqn:Ho.
  - injection E as <-. split; [|done]. intros x Hx. apply ld_insert_ne.
    pose proof (outside_table own k (dir_ix a) (tbl_ix a) q W Hui Ho Hj Hq Hown). lia.
  - destruct (get_free_page_cases own k W) as [[Hg _]|(f & Hg & Hfm & Hfc & _)]; rewrite Hg in E; [by injection E|].
    pose proof (held_cnt own k q W Hq Hown) as Hcq. assert (f <> q) as Hne by congruence.
    rewrite (proj2 (Z.eqb_neq f 0)) in E by (destruct Hfm; unfold LOW_MEM in *; lia). injection E as <-. split.
    + intros x Hx. etransitivity; [|exact (alloc_link_page k (dir_ix a) f q x Hfm Hq Hne Hui Hx)].
      apply ld_insert_ne. intros <-. apply (pages_apart q f (f + 4 * tbl_ix a)); try (apply Hq || apply Hfm || done || lia).
    + etransitivity; [exact (cnt_alloc own k f q W Hfm Hq)|]. by rewrite decide_False by congruence.
Qed.

Lemma put_page_ok own k page a :
  wf own k -> user_addr a -> main k page -> cnt k page = 1 -> own page = 1 -> xlate (mem k) a = None ->
  Z.odd (dirent (mem k) (dir_ix a)) = true \/ ~ full k ->
  exists k', put_page page a k = (Ret page, k') /\ wf (bump own page (-1)) k' /\
    Z.odd (dirent (mem k') (dir_ix a)) = true /\ HIGH_MEMORY k' = HIGH_MEMORY k /\
    (forall b, user_addr b -> ~ same_slot a b -> xlate (mem k') b = xlate (mem k) b) /\
    (forall q, main k q -> own q <> 0 ->
       (forall x, q <= x < q + 4096 -> ld (mem k') x = ld (mem k) x) /\ cnt k' q = cnt k q).
Proof.
  intros W Ha Hm Hc Hown Hx Hroom.
  assert (page <> 0) as Hp0 by (destruct Hm; unfold LOW_MEM in *; lia).
  destruct (put_page_cases own k page a W Ha Hm Hc Hown Hx) as (r & k' & Hr & [(-> & -> & Hf)|(-> & W' & Hxa & Hh & _ & Hxb)]).
  - destruct Hroom as [Ho|Hn]; [|by destruct Hn]. rewrite (put_page_run own) in Hr by done. rewrite Ho in Hr.
    by injection Hr.
  - exists k'. split; [done|]. split; [done|]. split; [|split; [done|split; [done|]]].
    + unfold xlate in Hxa. by destruct (Z.odd (dirent (mem k') (dir_ix a))).
    + intros q Hq Hoq. by apply (put_page_keeps own k page a k' q).
Qed.

Lemma page_bytes_lookup m p a x :
  page_bytes m p a !! x = if decide (a <= x < a + 4096) then Some (ldb m (p + (x - a))) else None.
Proof.
  unfold page_bytes.
  assert ((fun j => (a + j, ldb m (p + j))) <$> seqZ 0 4096 = (fun y => (y, ldb m (p + (y - a)))) <$> seqZ a 4096) as ->.
  { replace (seqZ a 4096) with (Z.add a <$> seqZ 0 4096) by (rewrite fmap_add_seqZ; f_equal; lia).
    rewrite <- list_fmap_compose. apply list_fmap_ext. intros i y _.
    unfold compose. by replace (a + y - a) with y by lia. }
  assert (fst <$> ((fun y => (y, ldb m (p + (y - a)))) <$> seqZ a 4096) = seqZ a 4096) as Hk.
  { rewrite <- list_fmap_compose. apply list_fmap_id. }
  case_decide as Hx.
  - apply elem_of_list_to_map_1; [rewrite Hk; apply NoDup_seqZ|].
    apply list_elem_of_fmap. exists x. split; [done|]. by apply elem_of_seqZ.
  - apply not_elem_of_list_to_map_1. rewrite Hk, elem_of_seqZ. done.
Qed.

(** Where the argument pages begin in the data segment of 64 MB. *)
Definition ARG_TOP : Z := 0x4000000 - ARG_MAX.

Lemma arg_addr n j :
  1 <= n < NR_TASKS -> 0 <= j < 32 ->
  let a := n * 0x4000000 + (ARG_TOP + 4096 * j) in
  user_addr a /\ dir_ix a = 16 * n + 15 /\ tbl_ix a = 992 + j.
Proof.
  intros Hn Hj a. unfold NR_TASKS, ARG_TOP, ARG_MAX in *.
  assert (dir_ix a = 16 * n + 15) as Hd.
  { unfold dir_ix, a. symmetry. apply (Z.div_unique _ _ _ (4063232 + 4096 * j)); lia. }
  assert (tbl_ix a = 992 + j) as Ht.
  { unfold tbl_ix, a. replace (n * 0x4000000 + _) with ((992 + j + (16 * n + 15) * 1024) * 4096) by lia.
    rewrite Z.div_mul, Z_mod_plus_full by lia. apply Z.mod_small. lia. }
  split; [|done]. split; [lia|]. rewrite Hd. unfold user_dir, FIRST_USER_DIR. lia.
Qed.

(** Before the pages below number [i] are mapped; [n] is the number of the task's region. *)
Record put_ready (own : Z -> Z) (n : Z) (i : nat) (k : mm) (pg : list Z) : Prop := {
  pr_own : forall f, 0 <= own f;
  pr_n : 1 <= n < NR_TASKS;
  pr_len : length pg = 32%nat;
  pr_i : (i <= 32)%nat;
  pr_wf : wf (with_held own (take i pg)) k;
  pr_page : forall j p, (j < i)%nat -> pg !! j = Some p -> p <> 0 ->
    main k p /\ cnt k p = 1 /\ with_held own (take i pg) p = 1;
  pr_free : forall j, 0 <= j < Z.of_nat i -> xlate (mem k) (n * 0x4000000 + (ARG_TOP + 4096 * j)) = None;
  pr_room : Z.odd (dirent (mem k) (16 * n + 15)) = true \/ ~ full k
}.

Lemma held_take_S pg i p f :
  pg !! i = Some p -> held (take (S i) pg) f = held (take i pg) f + b2z (negb (p =? 0) && (p =? f)).
Proof.
  intros Hi. rewrite (take_S_r pg i p Hi). unfold held. rewrite sumZ_app, sumZ_cons. cbn beta.
  change (sumZ _ []) with 0. lia.
Qed.

Lemma with_held_0 own pg i p f :
  pg !! i = Some p -> with_held own (take i pg) f = 
    if (p =? 0) then with_held own (take (S i) pg) f else bump (with_held own (take (S i) pg)) p (-1) f.
Proof.
  intros Hi. unfold with_held, bump. rewrite (held_take_S pg i p f Hi). rewrite (Z.eqb_sym p f).
  destruct (p =? 0); cbn; [lia|]. destruct (f =? p); cbn; lia.
Qed.

(** A page that is not there is passed over. *)
Lemma put_ready_skip own n i k pg : put_ready own n (S i) k pg -> pg !! i = Some 0 -> put_ready own n i k pg.
Proof.
  intros [Hown Hn Hl Hi W Hp Hf Hr] H0. constructor; try done.
  - lia.
  - eapply wf_own_ext; [|exact W]. intros f. by rewrite (with_held_0 own pg i 0 f H0).
  - intros j p Hj Hpj Hp0. rewrite (with_held_0 own pg i 0 p H0). apply (Hp j p); [lia|done|done].
  - intros j Hj. apply Hf. lia.
Qed.

(** The next page is mapped, and the pages below it are still as they were. *)
Lemma put_ready_put own n i k pg p (a := n * 0x4000000 + (ARG_TOP + 4096 * Z.of_nat i)) :
  put_ready own n (S i) k pg -> pg !! i = Some p -> p <> 0 ->
  exists k', put_page p a k = (Ret p, k') /\ put_ready own n i k' pg /\ HIGH_MEMORY k' = HIGH_MEMORY k /\
    forall j q x, (j <= i)%nat -> pg !! j = Some q -> q <> 0 -> q <= x < q + 4096 -> ld (mem k') x = ld (mem k) x.
Proof.
  intros [Hown Hn Hl Hi W Hp Hf Hr] Hpi Hp0. destruct (Hp i p ltac:(lia) Hpi Hp0) as (Hm & Hc & H1).
  destruct (arg_addr n (Z.of_nat i) Hn ltac:(lia)) as (Hua & Hda & Hta). fold a in Hua, Hda, Hta.
  destruct (put_page_ok (with_held own (take (S i) pg)) k p a W Hua Hm Hc H1) as (k' & Hr' & W' & Ho' & Hh' & Hx' & Hk').
  { apply Hf. lia. }
  { by rewrite Hda. }
  exists k'. split; [done|]. split; [|split; [done|]].
  - constructor; try done.
    + lia.
    + eapply wf_own_ext; [|exact W']. intros f. rewrite (with_held_0 own pg i p f Hpi).
      by rewrite (proj2 (Z.eqb_neq p 0) Hp0).
    + intros j q Hj Hq Hq0. destruct (Hp j q ltac:(lia) Hq Hq0) as (Hmq & Hcq & H1q).
      destruct (Hk' q Hmq ltac:(lia)) as [_ Hcq']. split; [split; [apply Hmq|rewrite Hh'; apply Hmq]|].
      split; [by rewrite Hcq'|]. rewrite (with_held_0 own pg i p q Hpi), (proj2 (Z.eqb_neq p 0) Hp0). unfold bump.
      destruct (Z.eqb_spec q p) as [->|]; [|done].
      assert (take i pg !! j = Some p) as Htk by (by rewrite lookup_take_lt by lia).
      pose proof (held_in (take i pg) j p Htk Hp0). unfold with_held in H1q.
      rewrite (held_take_S pg i p p Hpi), (proj2 (Z.eqb_neq p 0) Hp0), Z.eqb_refl in H1q. cbn in H1q.
      pose proof (Hown p). lia.
    + intros j Hj. destruct (arg_addr n j Hn ltac:(lia)) as (Huj & _ & Htj).
      rewrite Hx'; [apply Hf; lia|done|]. intros [_ Ht]. rewrite Hta, Htj in Ht. lia.
    + left. by rewrite <- Hda.
  - intros j q x Hj Hq Hq0 Hx. destruct (Hp j q ltac:(lia) Hq Hq0) as (Hmq & _ & H1q).
    by apply (Hk' q Hmq ltac:(lia)).
Qed.

Lemma u32_cong_sub a b c : u32 a = u32 b -> u32 (a - c) = u32 (b - c).
Proof. unfold u32. intros E. by rewrite Zminus_mod, E, <- Zminus_mod. Qed.

(** The state with other memory and other user bytes. *)
Definition remapped (s : xst) (k : mm) (m : gmap Z Z) : xst :=
  s <| xk ::= fun x => x <| kmm := k |> <| Task.umem := m |> |>.

(** What the data segment shows of the pages below number [i]: the argument area. *)
Definition shows (m0 : gmap Z Z) (pg : list Z) (i : nat) (m m' : gmap Z Z) : Prop :=
  (forall o, 0 <= o < 4096 * Z.of_nat i -> pnth pg o <> 0 -> m' !! (ARG_TOP + o) = Some (area m0 pg o)) /\
  (forall x, ~ (ARG_TOP <= x < ARG_TOP + 4096 * Z.of_nat i) -> m' !! x = m !! x).

Lemma div_block i o : 4096 * i <= o < 4096 * (i + 1) -> o / 4096 = i /\ o mod 4096 = o - 4096 * i.
Proof.
  intros Ho. assert (o / 4096 = i) as E by (symmetry; apply (Z.div_unique _ _ _ (o - 4096 * i)); lia).
  split; [done|]. pose proof (Z_div_mod_eq_full o 4096). lia.
Qed.

(** One page more. *)
Lemma shows_step m0 m1 pg (i : nat) p m m' :
  pg !! i = Some p ->
  (forall o, 0 <= o < 4096 * Z.of_nat i -> pnth pg o <> 0 -> area m1 pg o = area m0 pg o) ->
  (p <> 0 -> p mod 4096 = 0 /\ forall x, p <= x < p + 4096 -> ld m1 x = ld m0 x) ->
  shows m1 pg i (if decide (p = 0) then m else page_bytes m1 p (ARG_TOP + 4096 * Z.of_nat i) ∪ m) m' ->
  shows m0 pg (S i) m m'.
Proof.
  intros Hi Ha Hp [H1 H2]. split.
  - intros o Ho Hpo. destruct (decide (o < 4096 * Z.of_nat i)) as [Hlt|Hge].
    { rewrite H1 by (done || lia). f_equal. apply Ha; done || lia. }
    destruct (div_block (Z.of_nat i) o ltac:(lia)) as [Hd Hr].
    assert (pnth pg o = p) as Hpp by (unfold pnth; rewrite Hd, Nat2Z.id; by apply nth_lookup_Some).
    rewrite Hpp in Hpo. destruct (Hp Hpo) as [Hal Hx]. rewrite H2 by lia. rewrite decide_False by done.
    rewrite lookup_union, page_bytes_lookup, decide_True by lia. rewrite union_Some_l. f_equal.
    unfold area. rewrite Hpp, Hr. replace (_ + o - _) with (o - 4096 * Z.of_nat i) by lia.
    apply (ldb_page m0 m1 p); [done|lia|done].
  - intros x Hx. rewrite H2 by lia. case_decide; [done|].
    rewrite lookup_union, page_bytes_lookup, decide_False by lia. apply (left_id_L None _).
Qed.

Lemma put_pages_ok own n (base := n * 0x4000000) : forall i s db,
  put_ready own n i (kmm (xk s)) (arg_page s) -> u32 db = u32 (base + (ARG_TOP + 4096 * Z.of_nat i)) ->
  exists k m, put_pages i base db s = (Ret tt, remapped s k m) /\ wf own k /\
    HIGH_MEMORY k = HIGH_MEMORY (kmm (xk s)) /\ shows (xmem s) (arg_page s) i (Task.umem (xk s)) m.
Proof.
  induction i as [|i IH]; intros s db R Hdb.
  { exists (kmm (xk s)), (Task.umem (xk s)). split; [by destruct s as [[] ? ? ? ? ?]|].
    split; [|split; [done|split; [lia|done]]].
    eapply wf_own_ext; [|apply R]. intros f. unfold with_held, held. rewrite take_0. change (sumZ _ []) with 0. lia. }
  pose proof (pr_n _ _ _ _ _ R) as Hn. unfold NR_TASKS in Hn. pose proof (pr_i _ _ _ _ _ R) as Hi.
  pose proof (pr_len _ _ _ _ _ R) as Hl.
  set (a := base + (ARG_TOP + 4096 * Z.of_nat i)).
  assert (u32 (db - PAGE_SIZE) = a) as Ha.
  { rewrite (u32_cong_sub _ _ _ Hdb). change PAGE_SIZE with 4096. unfold a, base, ARG_TOP, ARG_MAX.
    replace (_ - 4096) with (n * 67108864 + (67108864 - 131072 + 4096 * Z.of_nat i)) by lia. apply u32_small. lia. }
  destruct (lookup_lt_is_Some_2 (arg_page s) i ltac:(lia)) as [p Hp].
  assert (get_page (Z.of_nat i) s = (Ret p, s)) as Hg.
  { unfold get_page. rewrite bind_get, (proj2 (Z.ltb_ge _ _)), Nat2Z.id, Hp by lia. done. }
  cbn [put_pages]. rewrite Ha. mrun Hg. destruct (decide (p = 0)) as [->|Hp0].
  - change (istrue 0) with false. cbv iota. rewrite bind_ret.
    destruct (IH s a (put_ready_skip _ _ _ _ _ R Hp) eq_refl) as (k & m & Hr & Wk & Hh & Hs).
    exists k, m. split; [done|]. split; [done|]. split; [done|]. by eapply (shows_step _ (xmem s) _ i 0).
  - unfold istrue at 1. rewrite (proj2 (Z.eqb_neq p 0) Hp0). cbn [negb].
    assert (put_ready own n (S i) (mm_view (xk s)) (arg_page s)) as Rv
      by (destruct R; constructor; try done; by apply wf_view).
    destruct (put_ready_put own n i (mm_view (xk s)) (arg_page s) p Rv Hp Hp0) as (k1 & H1 & R1 & Hh1 & Hx1).
    rewrite bind_assoc. mrun (on_memory_run _ s _ _ H1). unfold istrue. rewrite (proj2 (Z.eqb_neq p 0) Hp0).
    cbn [negb when]. unfold map_page. rewrite bind_modify.
    assert (u32 (a - base) = ARG_TOP + 4096 * Z.of_nat i) as Hub
      by (unfold a, ARG_TOP, ARG_MAX; replace (_ - base) with (67108864 - 131072 + 4096 * Z.of_nat i) by lia; apply u32_small; lia).
    rewrite Hub. set (s1 := upd _ (upd _ s)).
    assert (xmem s1 = mem k1) as Em by reflexivity. assert (arg_page s1 = arg_page s) as Ep by reflexivity.
    assert (Task.umem (xk s1) = page_bytes (mem k1) p (ARG_TOP + 4096 * Z.of_nat i) ∪ Task.umem (xk s)) as Eu
      by reflexivity.
    destruct (IH s1 a R1 eq_refl) as (k & m & Hr & Wk & Hh & Hs).
    exists k, m. split; [exact Hr|]. split; [done|]. split; [by rewrite Hh|].
    apply (shows_step _ (mem k1) _ i p); [done| | |]; last first.
    { rewrite decide_False by done. rewrite <- Eu, <- Em, <- Ep. exact Hs. }
    { intros _. split; [by apply (pr_page _ _ _ _ _ R i p ltac:(lia))|].
      intros x Hx. by apply (Hx1 i p x). }
    intros o Ho Hpo. assert (0 <= o < ARG_MAX) as Ho' by (unfold ARG_MAX; lia).
    pose proof (pnth_lookup (arg_page s) o Hl Ho') as Hlo.
    assert (o / 4096 < Z.of_nat i) by (apply Z.div_lt_upper_bound; lia). pose proof (Z.div_pos o 4096).
    pose proof (Z.mod_pos_bound o 4096 ltac:(lia)).
    apply (ldb_page _ _ (pnth (arg_page s) o)); [|lia|].
    + by apply (pr_page _ _ _ _ _ R (Z.to_nat (o / 4096)) _ ltac:(lia) Hlo).
    + intros x Hx. exact (Hx1 (Z.to_nat (o / 4096)) (pnth (arg_page s) o) x ltac:(lia) Hlo Hpo Hx).
Qed.

(** ** The new descriptors *)

Definition with_task (s : xst) (t : task_struct) : xst := s <| xk ::= fun k => k <| tasks ::= <[cur k := t]> |> |>.

Lemma upd_current_run s t f : the_task s t -> on_k (Task.upd_current f) s = (Ret tt, with_task s (f t)).
Proof.
  intros Ht. unfold on_k, Task.upd_current. rewrite bind_get. unfold upd_task.
  assert (get_task (cur (xk s)) (xk s) = (Ret t, xk s)) as Hg by (unfold get_task; rewrite bind_get, Ht; reflexivity).
  mrun Hg. reflexivity.
Qed.

Lemma with_task_the s t : the_task (with_task s t) t.
Proof. apply lookup_insert_eq. Qed.

Lemma with_task_twice s t t' : with_task (with_task s t) t' = with_task s t'.
Proof. unfold with_task, upd. cbn. f_equal. f_equal. apply insert_insert_eq. Qed.

Definition new_ldt (text_size : Z) (t : task_struct) : task_struct :=
  set_limit2 0x4000000 (set_base2 (d_base (ldt1 t))
    (set_limit1 (Z.land (u32 (text_size + PAGE_SIZE - 1)) 0xFFFFF000) (set_base1 (d_base (ldt1 t)) t))).

Lemma put_ready_all own n k pg :
  args_ok own k pg -> 1 <= n < NR_TASKS -> ~ full k ->
  (forall j, 16 * n <= j < 16 * n + 16 -> Z.odd (dirent (mem k) j) = false) -> put_ready own n 32 k pg.
Proof.
  intros A Hn Hf Hz. assert (take 32 pg = pg) as E by (apply take_ge; by rewrite (ao_len _ _ _ A)).
  constructor; rewrite ?E; try done; try apply A.
  - intros j p _ Hj Hp. split; [by apply (ao_main _ _ _ A j)|]. split; [by apply (ao_cnt _ _ _ A j)|].
    by apply (arg_private own k pg j p A Hj Hp).
  - intros j Hj. destruct (arg_addr n j Hn ltac:(lia)) as (_ & Hd & _). unfold xlate. rewrite Hd, Hz by lia. done.
  - by right.
Qed.

Lemma change_ldt_ok own s t n text_size :
  the_task s t -> region t n -> put_ready own n 32 (kmm (xk s)) (arg_page s) ->
  exists k m, change_ldt text_size s =
      (Ret 0x4000000, remapped ((with_task s (new_ldt text_size t)) <| fs_sel := USER_DS |>) k m) /\
    wf own k /\ shows (xmem s) (arg_page s) 32 (Task.umem (xk s)) m.
Proof.
  intros Ht Hr R. unfold change_ldt. mrun (task_run s t Ht). rewrite (rg_code _ _ Hr).
  set (t1 := set_base1 (n * 0x4000000) t).
  set (t2 := set_limit1 (Z.land (u32 (text_size + PAGE_SIZE - 1)) 0xFFFFF000) t1).
  set (t3 := set_base2 (n * 0x4000000) t2).
  mrun (upd_current_run s t (set_base1 (n * 0x4000000)) Ht).
  mrun (upd_current_run _ t1 (set_limit1 (Z.land (u32 (text_size + PAGE_SIZE - 1)) 0xFFFFF000)) (with_task_the s t1)).
  rewrite with_task_twice. mrun (upd_current_run _ t2 (set_base2 (n * 0x4000000)) (with_task_the s t2)).
  rewrite with_task_twice. mrun (upd_current_run _ t3 (set_limit2 0x4000000) (with_task_the s t3)).
  rewrite with_task_twice. unfold set_fs. rewrite bind_modify.
  set (s1 := upd _ (with_task s _)).
  destruct (put_pages_ok own n 32 s1 (u32 (n * 0x4000000 + 0x4000000))) as (k & m & Hp & Wk & _ & Hs).
  - exact R.
  - unfold u32. rewrite Z.mod_mod by lia. reflexivity.
  - exists k, m. split; [|split; [done|exact Hs]]. change (Z.to_nat MAX_ARG_PAGES) with 32%nat.
    mrun Hp. unfold s1, new_ldt. rewrite (rg_code _ _ Hr). reflexivity.
Qed.

(** ** Giving up the old program's files *)

(** A call of the file system leaves memory, the argument pages and the call's frame alone. *)
Record kept (s s' : xst) : Prop := {
  kp_mm : kmm (xk s') = kmm (xk s);
  kp_page : arg_page s' = arg_page s;
  kp_regs : regs s' = regs s;
  kp_sel : fs_sel s' = fs_sel s;
  kp_task : forall t, the_task s t -> exists t', the_task s' t' /\
    t_ldt t' = t_ldt t /\ t_executable t' = t_executable t /\ t_sigaction t' = t_sigaction t
}.

Lemma kept_refl s : kept s s.
Proof. split; try done. intros t Ht. by exists t. Qed.

Lemma kept_trans s1 s2 s3 : kept s1 s2 -> kept s2 s3 -> kept s1 s3.
Proof.
  intros [A1 B1 C1 D1 T1] [A2 B2 C2 D2 T2]. split; try congruence.
  intros t Ht. destruct (T1 t Ht) as (t1 & Ht1 & E1). destruct (T2 t1 Ht1) as (t2 & Ht2 & E2).
  exists t2. split; [done|]. intuition congruence.
Qed.

Lemma on_fs_kept {A} (m : M fs A) s r s' : on_fs m s = (r, s') -> kept s s'.
Proof.
  unfold on_fs. destruct (tasks (xk s) !! cur (xk s)) as [t|] eqn:Ht; last first.
  { intros [= <- <-]. apply kept_refl. }
  destruct (m _) as [r0 f]. intros [= <- <-]. unfold set_seg.
  split; try (by case_match).
  intros t0 Ht0. unfold the_task in Ht0. rewrite Ht in Ht0. injection Ht0 as <-.
  exists (with_proc (FsDefs.current f) t). split; [|done].
  unfold the_task. case_match; apply lookup_insert_eq.
Qed.

Lemma for_each_kept {A} (l : list A) (body : A -> M xst unit) :
  (forall x s s', body x s = (Ret tt, s') -> kept s s') ->
  forall s s', for_each l body s = (Ret tt, s') -> kept s s'.
Proof.
  intros Hb. induction l as [|x l IH]; intros s s' E; [injection E as <-; apply kept_refl|].
  cbn in E. apply bind_inv in E as ([] & s1 & H1 & E). eapply kept_trans; eauto.
Qed.

Definition reset_handlers (l : list sigaction) : list sigaction := (fun a => a <| sa_handler := 0 |>) <$> l.

(** What [exec_release] leaves when it returns. *)
Lemma exec_release_kept `{FsEnv} inode s s' t :
  the_task s t -> exec_release inode s = (Ret tt, s') ->
  kmm (xk s') = kmm (xk s) /\ arg_page s' = arg_page s /\ regs s' = regs s /\ fs_sel s' = fs_sel s /\
  exists t', the_task s' t' /\ t_ldt t' = t_ldt t /\ t_executable t' = Some inode /\
    t_sigaction t' = reset_handlers (t_sigaction t) /\ t_close_on_exec t' = 0.
Proof.
  intros Ht E. unfold exec_release in E. rewrite (bind_Ret _ _ _ _ _ (task_run s t Ht)) in E.
  apply bind_inv in E as ([] & s1 & H1 & E).
  assert (kept s s1) as K1 by (destruct (t_executable t); [by eapply on_fs_kept|injection H1 as <-; apply kept_refl]).
  destruct (kp_task _ _ K1 t Ht) as (t1 & Ht1 & L1 & _ & S1).
  rewrite (bind_Ret _ _ _ _ _ (upd_current_run s1 t1 _ Ht1)) in E.
  rewrite (bind_Ret _ _ _ _ _ (upd_current_run _ _ _ (with_task_the s1 _))) in E. rewrite with_task_twice in E.
  set (s2 := with_task s1 _) in E.
  apply bind_inv in E as ([] & s3 & H3 & E).
  assert (kept s2 s3) as K3.
  { eapply for_each_kept; [|exact H3]. intros i u u' Hu. apply bind_inv in Hu as (tu & u1 & Hu1 & Hu).
    assert (u1 = u) as ->.
    { unfold on_k, current_task, get_task in Hu1. rewrite !bind_get in Hu1.
      destruct (tasks (xk u) !! cur (xk u)); [|discriminate]. injection Hu1 as _ <-. by destruct u. }
    destruct (istrue _); [|injection Hu as <-; apply kept_refl].
    apply bind_inv in Hu as (r & u2 & Hu2 & Hu). injection Hu as <-. by eapply on_fs_kept. }
  destruct (kp_task _ _ K3 _ (with_task_the s1 _)) as (t3 & Ht3 & L3 & X3 & S3).
  rewrite (upd_current_run s3 t3 _ Ht3) in E. injection E as <-.
  destruct K1 as [A1 B1 C1 D1 _], K3 as [A3 B3 C3 D3 _].
  split; [transitivity (kmm (xk s3)); [done|]; rewrite A3; exact A1|].
  split; [transitivity (arg_page s3); [done|]; rewrite B3; exact B1|].
  split; [transitivity (regs s3); [done|]; rewrite C3; exact C1|].
  split; [transitivity (fs_sel s3); [done|]; rewrite D3; exact D1|].
  eexists. split; [apply with_task_the|]. cbn. rewrite L3, X3, S3. cbn. rewrite L1, S1. done.
Qed.

(** ** The rest of the point of no return *)

Definition math_lost (k : kst) : kst :=
  if bool_decide (last_task_used_math k = Some (cur k)) then k <| last_task_used_math := None |> else k.

Lemma forget_math_run s t :
  the_task s t -> forget_math s = (Ret tt, with_task (s <| xk ::= math_lost |>) (t <| t_used_math := 0 |>)).
Proof.
  intros Ht. unfold forget_math. rewrite bind_modify. apply (upd_current_run _ t).
  unfold the_task in *. cbn. by case_bool_decide.
Qed.

Lemma land_fff i : Z.land i 0xfff = i mod 4096.
Proof. exact (land_mask_mod i 12 ltac:(lia)). Qed.

(** The bytes from [i] to the end of its page become zero. *)
Lemma clear_rest_ok s (user : fs_sel s <> KERNEL_DS) n : forall i m,
  (4096 - i mod 4096) mod 4096 < Z.of_nat n ->
  exists m', clear_rest n i (with_umem s m) = (Ret tt, with_umem s m') /\
    forall x, m' !! x = if decide (i <= x < i + (4096 - i mod 4096) mod 4096) then Some 0 else m !! x.
Proof.
  induction n as [|n IH]; intros i m Hn; pose proof (Z.mod_pos_bound i 4096 ltac:(lia));
    pose proof (Z.mod_pos_bound (4096 - i mod 4096) 4096 ltac:(lia)); [lia|].
  cbn [clear_rest]. rewrite land_fff. unfold istrue. destruct (Z.eqb_spec (i mod 4096) 0) as [E|E]; cbn [negb].
  - exists m. split; [done|]. rewrite E. change ((4096 - 0) mod 4096) with 0. intros x. rewrite decide_False by lia. done.
  - mrun (put_byte_run s user 0 i m).
    assert ((4096 - (i + 1) mod 4096) mod 4096 = (4096 - i mod 4096) mod 4096 - 1) as Hr.
    { rewrite (Z.mod_small (4096 - i mod 4096)) by lia. pose proof (Z_div_mod_eq_full i 4096).
      destruct (decide (i mod 4096 = 4095)) as [E5|E5].
      - replace (i + 1) with ((i / 4096 + 1) * 4096) by lia. rewrite Z.mod_mul by lia. rewrite E5. done.
      - replace (i + 1) with (i mod 4096 + 1 + i / 4096 * 4096) by lia. rewrite Z_mod_plus_full, (Z.mod_small (i mod 4096 + 1)) by lia.
        rewrite Z.mod_small by lia. lia. }
    destruct (IH (i + 1) (<[i := u8 0]> m)) as (m' & Hm' & Hx); [lia|]. exists m'. split; [done|].
    rewrite (Z.mod_small (4096 - i mod 4096)) in * by lia.
    intros x. rewrite Hx, Hr. destruct (decide (x = i)) as [->|Hne].
    + rewrite decide_False, decide_True by lia. by rewrite lookup_insert_eq.
    + rewrite lookup_insert_ne by done. repeat case_decide; try done; lia.
Qed.

(** The state in which the new program starts: its stack pointer is [sp] and its first
    instruction [a_entry]; the words at [sp] are the number of arguments and the addresses of
    the two tables, from which exactly the strings [av] and [ev] can be read. *)
Record started (s : xst) (old : list Z) (acts : list sigaction) (inode : Z) (ex : exec) (e_uid e_gid : Z)
    (av ev : list (list Z)) (sp : Z) (t : task_struct) (m : gmap Z Z) : Prop := {
  sd_task : the_task s t;
  sd_umem : Task.umem (xk s) = m;
  sd_regs : regs s = <[3%nat := sp]> (<[0%nat := a_entry ex]> old);
  sd_align : sp mod 4 = 0;
  sd_argc : ld_long m sp = Z.of_nat (length av);
  sd_argv : table m (ld_long m (sp + 4)) av;
  sd_envp : table m (ld_long m (sp + 8)) ev;
  sd_bss : forall x, a_text ex + a_data ex <= x < a_text ex + a_data ex + (4096 - (a_text ex + a_data ex) mod 4096) mod 4096 ->
    m !! x = Some 0;
  sd_exe : t_executable t = Some inode;
  sd_acts : t_sigaction t = reset_handlers acts;
  sd_coe : t_close_on_exec t = 0;
  sd_math : t_used_math t = 0;
  sd_code : t_end_code t = a_text ex;
  sd_data : t_end_data t = a_text ex + a_data ex;
  sd_brk : t_brk t = u32 (a_text ex + a_data ex + a_bss ex);
  sd_stack : t_start_stack t = Z.land sp 0xfffff000;
  sd_euid : t_euid t = u16 e_uid;
  sd_egid : t_egid t = u16 e_gid
}.

Lemma shows_bytes m0 pg m m' p bs :
  shows m0 pg 32 m m' -> 0 <= p -> p + Z.of_nat (length bs) <= ARG_MAX ->
  (forall k b, bs !! k = Some b -> pnth pg (p + Z.of_nat k) <> 0 /\ area m0 pg (p + Z.of_nat k) = b) ->
  bytes_at m' (ARG_TOP + p) bs.
Proof.
  intros [Hs _] Hp Hl Hb k b Hk. destruct (Hb k b Hk) as [Hpg Ha]. pose proof (lookup_lt_Some _ _ _ Hk).
  unfold ld_byte. rewrite <- Z.add_assoc, Hs; [done|unfold ARG_MAX in *; lia|done].
Qed.

Lemma strings_count ss : Z.of_nat (length ss) <= Z.of_nat (length (strings ss)).
Proof. induction ss as [|str ss IH]; [done|]. rewrite strings_length. cbn [length]. lia. Qed.

(** The argument area holds the strings of both arrays from the offset [p] on. *)
Definition area_holds (s : xst) (p : Z) (bs : list Z) : Prop :=
  forall k b, bs !! k = Some b -> in_page s (p + Z.of_nat k) <> 0 /\ area_of s (p + Z.of_nat k) = b.

Lemma area_moved own s k p bs :
  args own s -> 0 <= p -> p + Z.of_nat (length bs) <= ARG_MAX -> area_holds s p bs ->
  (forall j q x, arg_page s !! j = Some q -> q <> 0 -> q <= x < q + 4096 -> ld (mem k) x = ld (xmem s) x) ->
  forall i b, bs !! i = Some b ->
    pnth (arg_page s) (p + Z.of_nat i) <> 0 /\ area (mem k) (arg_page s) (p + Z.of_nat i) = b.
Proof.
  intros A Hp Hl Hb Hx i b Hi. destruct (Hb i b Hi) as [Hpg Ha]. split; [exact Hpg|]. rewrite <- Ha.
  pose proof (lookup_lt_Some _ _ _ Hi). set (o := p + Z.of_nat i) in *. assert (0 <= o < ARG_MAX) as Ho by lia.
  pose proof (Z.mod_pos_bound o 4096 ltac:(lia)).
  apply (ldb_page _ _ (in_page s o)); [apply (in_page_main own s o A Ho Hpg)|change (pnth (arg_page s) o) with (in_page s o); lia|].
  intros x Hxr. apply (Hx (Z.to_nat (o / 4096)) (in_page s o)); [|done|done]. apply pnth_lookup; [apply A|done].
Qed.

Lemma region_ldt t t' n : t_ldt t' = t_ldt t -> region t n -> region t' n.
Proof. intros E []. unfold ldt1, ldt2 in *. constructor; unfold ldt1, ldt2; rewrite ?E; done. Qed.

(** The old program has a page table, and nothing is mapped behind its data segment. *)
Definition mapped_region (m : gmap Z Z) (t : task_struct) (n : Z) : Prop :=
  (exists i, 16 * n <= i < 16 * n + nr_dirs (d_limit (ldt2 t)) /\ Z.odd (dirent m i) = true) /\
  forall j, 16 * n + nr_dirs (d_limit (ldt2 t)) <= j < 16 * n + 16 -> Z.odd (dirent m j) = false.

Lemma with_umem_remapped s k m m' : with_umem (remapped s k m) m' = remapped s k m'.
Proof. reflexivity. Qed.

Lemma remapped_regs s k m : regs (remapped s k m) = regs s.
Proof. reflexivity. Qed.

Lemma forget_math_kept s t (s' := with_task (s <| xk ::= math_lost |>) t) :
  the_task s' t /\ kmm (xk s') = kmm (xk s) /\ arg_page s' = arg_page s /\ regs s' = regs s.
Proof. split; [apply with_task_the|]. cbn. unfold math_lost. by case_bool_decide. Qed.

Lemma new_seg_kept s t (s' := (with_task s t) <| fs_sel := USER_DS |>) :
  the_task s' t /\ fs_sel s' = USER_DS /\ regs s' = regs s.
Proof. split; [exact (with_task_the s t)|done]. Qed.

Lemma remapped_task s k m t : the_task s t -> the_task (remapped s k m) t.
Proof. done. Qed.

(** From the freed address space to the finished stack. *)
Lemma enter_image `{FsEnv} own s t n text_size av ev p bs (argc := Z.of_nat (length av)) (envc := Z.of_nat (length ev)) :
  bs = strings av ++ strings ev ->
  args own s -> the_task s t -> region t n -> mapped_region (xmem s) t n ->
  0 < p -> p + Z.of_nat (length bs) <= ARG_MAX -> area_holds s p bs ->
  text av -> text ev -> Forall (fun str => length str < fuel)%nat av -> Forall (fun str => length str < fuel)%nat ev ->
  exists s4 m sp t4,
    (exec_unmap;; forget_math;;
     n ← change_ldt text_size;
     create_tables (u32 (p + u32 (n - MAX_ARG_PAGES * PAGE_SIZE))) argc envc) s = (Ret sp, with_umem s4 m) /\
    wf own (kmm (xk s4)) /\ the_task s4 t4 /\ fs_sel s4 = USER_DS /\ regs s4 = regs s /\
    t4 = new_ldt text_size (t <| t_used_math := 0 |>) /\
    0x3100000 <= sp /\ sp mod 4 = 0 /\ ld_long m sp = argc /\
    table_above sp m (ld_long m (sp + 4)) av /\ table_above sp m (ld_long m (sp + 8)) ev.
Proof.
  intros Ebs A Ht Hrg ((i & Hi & Ho) & Hbey) Hp Hl Hb Hta Hte Hfa Hfe.
  destruct (exec_unmap_ok own s t n i A Ht Hrg Hi Ho Hbey) as (k & Hr & Ak & Hh & Hf & Hx & Hz).
  set (s2 := unmapped s k) in *. assert (the_task s2 t) as Ht2 by exact Ht.
  assert (kmm (xk s2) = k /\ arg_page s2 = arg_page s /\ regs s2 = regs s) as (Ek2 & Ep2 & Er2) by done. clearbody s2.
  pose proof (forget_math_run s2 t Ht2) as H3. set (t3 := t <| t_used_math := 0 |>) in *.
  destruct (forget_math_kept s2 t3) as (Ht3 & Ek3 & Ep3 & Er3). set (s3 := with_task _ t3) in *. clearbody s3.
  destruct (change_ldt_ok own s3 t3 n text_size Ht3) as (k4 & m4 & H4 & W4 & Hs4).
  { by apply (region_ldt t). }
  { rewrite Ek3, Ep3, Ek2, Ep2. by apply put_ready_all; [|apply Hrg|..]. }
  destruct (new_seg_kept s3 (new_ldt text_size t3)) as (Ht4 & Esel4 & Er4).
  set (s4 := (with_task s3 (new_ldt text_size t3)) <| fs_sel := USER_DS |>) in *. clearbody s4.
  unfold xmem in Hs4. rewrite Ek3, Ep3, Ek2, Ep2 in Hs4.
  pose proof (shows_bytes _ _ _ _ p bs Hs4 ltac:(lia) Hl (area_moved own s k p bs A ltac:(lia) Hl Hb Hx)) as Hm4.
  assert (u32 (p + u32 (0x4000000 - MAX_ARG_PAGES * PAGE_SIZE)) = ARG_TOP + p) as Epp.
  { change (u32 (0x4000000 - MAX_ARG_PAGES * PAGE_SIZE)) with ARG_TOP. rewrite Z.add_comm. apply u32_small.
    unfold ARG_TOP, ARG_MAX in *. lia. }
  set (q := ARG_TOP + p) in *. rewrite Ebs in Hm4. pose proof (Z.mod_pos_bound q 4 ltac:(lia)).
  pose proof (strings_count av). pose proof (strings_count ev). rewrite Ebs, length_app in Hl.
  set (sp := q - q mod 4 - 4 * (envc + 1) - 4 * (argc + 1) - 12).
  assert (0x3100000 <= sp) as Hsp by (unfold sp, argc, envc, q, ARG_TOP, ARG_MAX in *; lia).
  destruct (create_tables_ok (remapped s4 k4 m4) ltac:(cbn; by rewrite Esel4) av ev q m4 Hm4 Hta Hte Hfa Hfe) as (m5 & H5 & Hl0 & Hl1 & Hl2 & Ht1 & Ht2' & _).
  { fold argc envc sp. lia. }
  { rewrite length_app. unfold q, ARG_TOP, ARG_MAX in *. lia. }
  fold argc envc sp in H5, Hl0, Hl1, Hl2, Ht1, Ht2'.
  exists (remapped s4 k4 m4), m5, sp, (new_ldt text_size t3). split.
  { mrun Hr. mrun H3. mrun H4. rewrite Epp.
    rewrite (with_umem_remapped s4 k4 m4 m4) in H5. exact H5. }
  split; [exact W4|]. split; [by apply remapped_task|]. split; [exact Esel4|]. split; [by rewrite (remapped_regs s4), Er4, Er3|]. split; [done|].
  split; [done|]. split; [|by rewrite Hl1, Hl2].
  unfold sp. pose proof (Z_div_mod_eq_full q 4).
  replace (_ - 12) with ((q / 4 - (envc + 1) - (argc + 1) - 3) * 4) by lia. apply Z.mod_mul. lia.
Qed.

(** The fields that [exec_commit] sets at its end. *)
Definition new_fields (ex : exec) (e_uid e_gid p : Z) (t : task_struct) : task_struct :=
  let end_data := u32 (a_data ex + a_text ex) in
  t <| t_brk := u32 (a_bss ex + end_data) |> <| t_end_data := end_data |> <| t_end_code := a_text ex |>
    <| t_start_stack := Z.land p 0xfffff000 |>
    <| t_euid := u16 e_uid |> <| t_egid := u16 e_gid |>.

Lemma table_above_ext sp m m' a ss lo hi :
  (forall x, ~ (lo <= x < hi) -> m' !! x = m !! x) -> hi <= sp -> table_above sp m a ss -> table m' a ss.
Proof.
  intros E Hhi (Ha & [Hv H0] & Hq). split.
  - apply (vector_ext m m' a ss lo hi Hv E); [lia|]. intros i str Hi. specialize (Hq i str Hi). lia.
  - rewrite (ld_long_ext m m'); [done|]. intros x Hx. apply E. lia.
Qed.

Lemma bind_assoc4 {S A B C D E} (m1 : M S A) (m2 : M S B) (m3 : M S C) (f : C -> M S D) (k : D -> M S E) s :
  (m1;; m2;; x ← m3; y ← f x; k y) s = ((m1;; m2;; x ← m3; f x) ≫= k) s.
Proof.
  rewrite bind_assoc. apply bind_ext. intros a s1. rewrite bind_assoc. apply bind_ext. intros b s2.
  by rewrite bind_assoc.
Qed.

Lemma with_task_umem s m t : with_task (with_umem s m) t = with_umem (with_task s t) m.
Proof. reflexivity. Qed.

(** The last steps: the task's fields, the rest of the last data page and the registers. *)
Lemma finish_image s t m ex e_uid e_gid sp :
  the_task s t -> fs_sel s = USER_DS -> 0 <= a_text ex -> 0 <= a_data ex -> a_text ex + a_data ex <= 0x3000000 ->
  exists m',
    (on_k (Task.upd_current (new_fields ex e_uid e_gid sp));;
     clear_rest (Z.to_nat PAGE_SIZE) (s32 (a_text ex + a_data ex));;
     modify (fun s => s <| regs ::= <[0%nat := a_entry ex]> |> <| regs ::= <[3%nat := sp]> |>);;
     mret 0) (with_umem s m) =
    (Ret 0, (with_umem (with_task s (new_fields ex e_uid e_gid sp t)) m') <| regs ::= <[0%nat := a_entry ex]> |> <| regs ::= <[3%nat := sp]> |>) /\
    let i := a_text ex + a_data ex in
    forall x, m' !! x = if decide (i <= x < i + (4096 - i mod 4096) mod 4096) then Some 0 else m !! x.
Proof.
  intros Ht Hsel H1 H2 H3. rewrite s32_small by lia.
  assert (the_task (with_umem s m) t) as Ht' by exact Ht.
  mrun (upd_current_run (with_umem s m) t (new_fields ex e_uid e_gid sp) Ht'). rewrite with_task_umem.
  pose proof (Z.mod_pos_bound (4096 - (a_text ex + a_data ex) mod 4096) 4096 ltac:(lia)).
  destruct (clear_rest_ok (with_task s (new_fields ex e_uid e_gid sp t)) ltac:(cbn; by rewrite Hsel)
    (Z.to_nat PAGE_SIZE) (a_text ex + a_data ex) m) as (m' & Hc & Hx).
  { change PAGE_SIZE with 4096. lia. }
  exists m'. split; [|done]. by mrun Hc.
Qed.

Lemma finish_kept s t m ex sp
    (s' := (with_umem (with_task s t) m) <| regs ::= <[0%nat := a_entry ex]> |> <| regs ::= <[3%nat := sp]> |>) :
  the_task s' t /\ Task.umem (xk s') = m /\ regs s' = <[3%nat := sp]> (<[0%nat := a_entry ex]> (regs s)) /\
  kmm (xk s') = kmm (xk s).
Proof. split; [exact (with_task_the s t)|done]. Qed.

Lemma final_task text_size ex e_uid e_gid sp t
    (t' := new_fields ex e_uid e_gid sp (new_ldt text_size (t <| t_used_math := 0 |>))) :
  0 <= a_text ex + a_data ex < 4294967296 ->
  (t_executable t' = t_executable t /\ t_sigaction t' = t_sigaction t /\ t_close_on_exec t' = t_close_on_exec t) /\
  (t_used_math t' = 0 /\ t_end_code t' = a_text ex /\ t_end_data t' = a_text ex + a_data ex) /\
  (t_brk t' = u32 (a_text ex + a_data ex + a_bss ex) /\ t_start_stack t' = Z.land sp 0xfffff000) /\
  t_euid t' = u16 e_uid /\ t_egid t' = u16 e_gid.
Proof.
  intros Hr. assert (u32 (a_data ex + a_text ex) = a_text ex + a_data ex) as E by (rewrite Z.add_comm; by apply u32_small).
  split; [done|]. split; [split; [done|split; [done|exact E]]|]. split; [|done]. split; [|done].
  change (u32 (a_bss ex + u32 (a_data ex + a_text ex)) = u32 (a_text ex + a_data ex + a_bss ex)).
  rewrite E. f_equal. lia.
Qed.

Lemma exec_commit_ok `{FsEnv} own s s1 t n inode ex e_uid e_gid av ev p bs :
  bs = strings av ++ strings ev ->
  args own s -> the_task s t -> region t n -> mapped_region (xmem s) t n ->
  0 < p -> p + Z.of_nat (length bs) <= ARG_MAX -> area_holds s p bs ->
  text av -> text ev -> Forall (fun str => length str < fuel)%nat av -> Forall (fun str => length str < fuel)%nat ev ->
  0 <= a_text ex -> 0 <= a_data ex -> a_text ex + a_data ex <= 0x3000000 ->
  exec_release inode s = (Ret tt, s1) ->
  exists s' sp t' m,
    exec_commit inode ex e_uid e_gid (Z.of_nat (length av)) (Z.of_nat (length ev)) p s = (Ret 0, s') /\
    wf own (kmm (xk s')) /\ started s' (regs s) (t_sigaction t) inode ex e_uid e_gid av ev sp t' m.
Proof.
  intros Ebs A Ht Hrg Hmp Hp Hl Hb Hta Hte Hfa Hfe Htx Hdt Hsz Hrel.
  destruct (exec_release_kept inode s s1 t Ht Hrel) as (Ek & Ep & Er & _ & t1 & Ht1 & El & Ex & Es & Ec).
  destruct (enter_image own s1 t1 n (a_text ex) av ev p bs) as (s4 & m & sp & t4 & Hr & W & Ht4 & Hsel & Hregs & E4 & Hsp & Hal & Hargc & Hargv & Henvp);
    try done.
  - unfold args. by rewrite Ek, Ep.
  - by apply (region_ldt t).
  - unfold mapped_region, xmem, ldt2 in *. by rewrite Ek, El.
  - unfold area_holds, in_page, area_of, xmem in *. by rewrite Ek, Ep.
  - destruct (finish_image s4 t4 m ex e_uid e_gid sp Ht4 Hsel Htx Hdt Hsz) as (m' & Hf & Hx). cbv zeta in Hx.
    pose proof (Z.mod_pos_bound (4096 - (a_text ex + a_data ex) mod 4096) 4096 ltac:(lia)).
    assert (forall x, ~ (a_text ex + a_data ex <= x < sp) -> m' !! x = m !! x) as Hout.
    { intros x Hxr. rewrite Hx, decide_False by lia. done. }
    assert (forall k, 0 <= k <= 8 -> ld_long m' (sp + k) = ld_long m (sp + k)) as Hw
      by (intros k Hk; apply ld_long_ext; intros x Hxr; apply Hout; lia).
    subst t4. destruct (final_task (a_text ex) ex e_uid e_gid sp t1) as ((F1 & F2 & F3) & (F4 & F5 & F6) & (F7 & F8) & F9 & F10); [lia|].
    set (t5 := new_fields _ _ _ _ _) in *. destruct (finish_kept s4 t5 m' ex sp) as (G1 & G2 & G3 & G4).
    set (s5 := upd _ (upd _ (with_umem _ m'))) in *.
    exists s5, sp, t5, m'. split; [|split].
    + unfold exec_commit. mrun Hrel. rewrite bind_assoc4, (bind_Ret _ _ _ _ _ Hr). exact Hf.
    + rewrite G4. exact W.
    + clearbody s5 t5. pose proof (Hw 0 ltac:(lia)) as Hw0. rewrite Z.add_0_r in Hw0.
      constructor; rewrite ?Hw0, ?(Hw 4), ?(Hw 8) by lia; try assumption; try congruence.
      * by apply (table_above_ext sp m m' _ av _ _ Hout).
      * by apply (table_above_ext sp m m' _ ev _ _ Hout).
      * intros x Hxr. rewrite Hx, decide_True by lia. done.
Qed.

(** ** The whole of loading *)

Lemma held_zero l f : Forall (fun p => p = 0) l -> held l f = 0.
Proof.
  intros Hl. apply sumZ_zero. intros p Hp. rewrite Forall_forall in Hl. by rewrite (Hl p Hp).
Qed.

Lemma fresh_args own s :
  (forall f, 0 <= own f) -> wf own (kmm (xk s)) -> arg_page s = replicate 32 0 -> args own s.
Proof.
  intros Ho W Hp. unfold args. rewrite Hp.
  constructor; try done; try (intros ? ? Hl Hne; apply lookup_replicate in Hl as [-> _]; done).
  - intros i j p Hl _ Hne. apply lookup_replicate in Hl as [-> _]. done.
  - eapply wf_own_ext; [|exact W]. intros f. unfold with_held. rewrite held_zero; [lia|].
    apply Forall_replicate. done.
Qed.

Lemma vector_text m ms a ss : vector m ms a ss -> text ss.
Proof.
  intros Hv. apply Forall_lookup. intros i str Hi. destruct (Hv i str Hi) as [_ [_ Hz]]. exact Hz.
Qed.

Lemma mapped_region_low m m' t n :
  1 <= n < NR_TASKS -> (forall x, x < LOW_MEM -> ld m' x = ld m x) -> region t n ->
  mapped_region m t n -> mapped_region m' t n.
Proof.
  intros Hn Hlow Hrg ((i & Hi & Ho) & Hbey). unfold NR_TASKS in Hn.
  pose proof (nr_dirs_region (d_limit (ldt2 t)) ltac:(destruct Hrg; lia)).
  assert (forall j, j < 1024 -> dirent m' j = dirent m j) as Hd
    by (intros j Hj; apply Hlow; unfold LOW_MEM; lia).
  split; [exists i; rewrite Hd by lia; done|]. intros j Hj. rewrite Hd by lia. by apply Hbey.
Qed.

(** The two calls of [copy_strings], environment first: both arrays in one piece. *)
Lemma copy_both `{FsEnv} own s argv envp av ev (p0 := PAGE_SIZE * MAX_ARG_PAGES - 4) (bs := strings av ++ strings ev) :
  args own s -> fs_sel s = USER_DS -> vector (seg s) (seg s) argv av -> vector (seg s) (seg s) envp ev ->
  Forall (fun str => length str < fuel)%nat av -> Forall (fun str => length str < fuel)%nat ev ->
  Z.of_nat (length bs) < p0 ->
  exists r s2,
    (p ← copy_strings (Z.of_nat (length ev)) envp p0 0; copy_strings (Z.of_nat (length av)) argv p 0) s = (Ret r, s2) /\
    args own s2 /\ only_args s s2 /\
    ((r = 0 /\ full (kmm (xk s2))) \/
     (r = p0 - Z.of_nat (length bs) /\ area_holds s2 r bs /\ forall x, x < LOW_MEM -> ld (xmem s2) x = ld (xmem s) x)).
Proof.
  intros A Hsel Hva Hve Hfa Hfe Hl. unfold bs in *. rewrite length_app in *.
  change p0 with 131068 in *. clear p0.
  destruct (copy_strings_cases own s envp 131068 0 ev A) as (r1 & s1 & H1 & A1 & Hc1); try done; try lia.
  { unfold ARG_MAX. lia. }
  mrun H1. destruct Hc1 as [[-> W1]|(-> & O1 & Hf)]; last first.
  { exists 0, s1. split; [done|]. split; [done|]. split; [done|]. by left. }
  pose proof (wr_only _ _ _ _ W1) as O1.
  destruct (copy_strings_cases own s1 argv (131068 - Z.of_nat (length (strings ev))) 0 av A1) as (r2 & s2 & H2 & A2 & Hc2);
    try done; try lia.
  { unfold ARG_MAX. lia. }
  { unfold array_mem, string_mem. cbn. by rewrite (only_args_seg _ _ O1). }
  exists r2, s2. split; [done|]. split; [done|]. destruct Hc2 as [[-> W2]|(-> & O2 & Hf)]; last first.
  { split; [by eapply only_args_trans|]. by left. }
  split; [eapply only_args_trans; [exact O1|apply W2]|]. right. split; [lia|].
  set (r := 131068 - Z.of_nat (length (strings ev)) - Z.of_nat (length (strings av))) in *.
  assert (wrote s s2 r (strings av ++ strings ev)) as W.
  { apply (wrote_join s s1 s2); [lia|rewrite length_app; unfold ARG_MAX; lia| |done].
    by replace (r + Z.of_nat (length (strings av))) with (131068 - Z.of_nat (length (strings ev))) by lia. }
  split; [|by apply W]. intros k b Hk. by apply W.
Qed.

(** What [load_image] needs: right page counts, an empty array of argument pages, the current
    task's segments in its region, a header whose text and data fit, arguments that fit into
    128 KB, and files of the old program that can be given up. *)
Record loadable `{FsEnv} (own : Z -> Z) (s : xst) (t : task_struct) (n inode : Z) (ex : exec)
    (argv envp : Z) (av ev : list (list Z)) : Prop := {
  la_own : forall f, 0 <= own f;
  la_wf : wf own (kmm (xk s));
  la_page : arg_page s = replicate 32 0;
  la_sel : fs_sel s = USER_DS;
  la_task : the_task s t;
  la_region : region t n;
  la_mapped : mapped_region (xmem s) t n;
  la_argv : table (Task.umem (xk s)) argv av;
  la_envp : table (Task.umem (xk s)) envp ev;
  la_size : Z.of_nat (length (strings av ++ strings ev)) < PAGE_SIZE * MAX_ARG_PAGES - 4;
  la_fuel : Forall (fun str => length str < fuel)%nat (av ++ ev);
  la_text : 0 <= a_text ex /\ 0 <= a_data ex /\ a_text ex + a_data ex <= 0x3000000;
  la_release : forall s2, only_args s s2 -> exists s3, exec_release inode s2 = (Ret tt, s3)
}.

(** C21: Loading a program either succeeds or finds memory exhausted, and then goes to the error
    exit with the argument pages intact.  On success the page counts are right, the stack
    pointer and the first instruction are set, the words on the stack are the number of
    arguments and the addresses of two tables from which exactly the arguments and the
    environment that the caller passed can be read; the rest of the last data page is zero,
    handlers are reset, and the task has the new program's sizes, ids and file. *)
Theorem load_image_ok `{FsEnv} own s t n inode ex e_uid e_gid argv envp av ev :
  loadable own s t n inode ex argv envp av ev ->
  let run := load_image inode ex e_uid e_gid argv envp (Z.of_nat (length av)) (Z.of_nat (length ev))
               (PAGE_SIZE * MAX_ARG_PAGES - 4) false s in
  (exists s', run = exec_error2 inode (- ENOMEM) s' /\ args own s' /\ only_args s s' /\ full (kmm (xk s'))) \/
  (exists s' sp t' m, run = (Ret 0, s') /\ wf own (kmm (xk s')) /\
     started s' (regs s) (t_sigaction t) inode ex e_uid e_gid av ev sp t' m).
Proof.
  intros [Ho W Hp Hsel Ht Hrg Hmp [Hva _] [Hve _] Hl [Hfa Hfe]%Forall_app (Htx & Hdt & Hsz) Hrel] run.
  assert (seg s = Task.umem (xk s)) as Hseg by (unfold seg; by rewrite Hsel).
  destruct (copy_both own s argv envp av ev (fresh_args own s Ho W Hp) Hsel) as (r & s2 & H2 & A2 & O2 & Hc);
    rewrite ?Hseg; try done.
  assert (run = (if r =? 0 then exec_error2 inode (- ENOMEM)
                 else exec_commit inode ex e_uid e_gid (Z.of_nat (length av)) (Z.of_nat (length ev)) r) s2) as Hrun.
  { unfold run, load_image. rewrite <- bind_assoc. by mrun H2. }
  rewrite Hrun. clearbody run. destruct Hc as [[-> Hf]|(-> & Hb & Hlow)].
  { left. by exists s2. }
  right. destruct (Hrel s2 O2) as [s3 H3]. rewrite (proj2 (Z.eqb_neq _ 0)) by lia.
  assert (the_task s2 t /\ regs s2 = regs s) as [Ht2 Er2] by (unfold only_args in O2; rewrite O2; done).
  rewrite <- Er2. apply (exec_commit_ok own s2 s3 t n inode ex e_uid e_gid av ev _ _ eq_refl); try done.
  - by apply (mapped_region_low (xmem s)); [apply Hrg|..].
  - lia.
  - change (PAGE_SIZE * MAX_ARG_PAGES - 4) with 131068. unfold ARG_MAX. lia.
  - by eapply vector_text.
  - by eapply vector_text.
Qed.
