(* ===== verification/ExecDemo.v ===== *)
(** Concrete runs of program loading: a machine on which [ls -l] is started with a small
    environment, and the witnesses of the theorems on [fs/exec.c]. *)

From S2P Require Import Prelude Memory MemoryInv MemoryOps MemoryFault MemoryInit Task Sched SchedSpec Fork ForkSpec FsDefs Buffer Inode FsLemmas GetblkSpec BitmapSpec Exec ExecArgs ExecSpec ExecStack ExecLoad.

(** ** The machine *)

Definition ls : list Z := [108; 115].
Definition dash_l : list Z := [45; 108].
Definition home : list Z := [72; 61; 47].

Definition demo_argv : list (list Z) := [ls; dash_l].
Definition demo_envp : list (list Z) := [home].

(** The caller's data: the array of arguments at 4096, the environment at 4112, the strings
    from 4128 on. *)
Definition demo_umem : gmap Z Z :=
  st_long 4128 4096 (st_long 4131 4100 (st_long 0 4104 (st_long 4134 4112 (st_long 0 4116
    (store_bytes (strings (demo_argv ++ demo_envp)) 4128 ∅))))).

Definition caller : task_struct :=
  (demo_task 1 0 3) <| t_ldt := (mk_desc 0 0, mk_desc 0x4000000 0x400000, mk_desc 0x4000000 0x400000) |>.

Definition exec_demo : xst :=
  mk_xst (demo <| kmm := mapped |> <| tasks ::= <[1 := caller]> |> <| Task.umem := demo_umem |>)
    empty_fs ∅ USER_DS (replicate 32 0) [0x100; 0xf; 0x200; 0x3fff000; 0x17].

Definition demo_ex : exec := mk_exec ZMAGIC 0x1000 0x800 0x100 0 0x20 0 0.

Example demo_loads :
  let '(r, s) := @load_image quiet 5 demo_ex 0 0 4096 4112 2 1 (PAGE_SIZE * MAX_ARG_PAGES - 4) false exec_demo in
  let m := Task.umem (xk s) in
  let sp := nth 3 (regs s) 0 in
  (r, ld_long m sp, (fun j => ld_byte m (ld_long m (ld_long m (sp + 4)) + j)) <$> [0; 1; 2],
   (fun j => ld_byte m (ld_long m (ld_long m (sp + 8)) + j)) <$> [0; 1; 2; 3])
  = (Ret 0, 2, ls ++ [0], home ++ [0]).
Proof. vm_compute. reflexivity. Qed.

(** A string that is longer than the room leaves the array of pages. *)
Example demo_overruns : fst (@copy_strings quiet 1 4096 2 0 exec_demo) = Undef "page".
Proof. vm_compute. reflexivity. Qed.

(** *** A disk with an executable and a script *)

(** An entry of a directory: the number of the inode and the name, in 16 bytes. *)
Definition dir_entry (ino : Z) (name : list Z) : list Z := [ino; 0] ++ take 14 (name ++ replicate 14 0).
Definition block (l : list Z) : list Z := take 1024 (l ++ replicate 1024 0).
Definition header_bytes : list Z :=
  [11; 1; 0; 0;  0; 16; 0; 0;  0; 8; 0; 0;  0; 1; 0; 0;  0; 0; 0; 0;  32; 0; 0; 0;  0; 0; 0; 0;  0; 0; 0; 0].
Definition script : list Z := [35; 33; 32; 47; 108; 115; 32; 45; 97; 10].
Definition run : list Z := [114; 117; 110].

Definition file_inode (mode num size zone0 count : Z) : m_inode :=
  mk_inode mode 0 size 0 0 1 [zone0; 0; 0; 0; 0; 0; 0; 0; 0] 0 0 769 num count 0 0 0 0 0 0.

Definition demo_files : fs :=
  empty_fs <| bufs := fresh_bufs 4 |> <| free_list := Some 0 |> <| supers := [demo_super] |>
    <| inode_table := [file_inode 0x41ed 1 64 20 2; file_inode 0x81ed 2 0x2000 21 1; file_inode 0x81ed 3 10 22 1] ++
                      replicate 29 zero_inode |>
    <| disk := {[ (769, 20) := block (dir_entry 1 [46] ++ dir_entry 1 [46; 46] ++ dir_entry 2 ls ++ dir_entry 3 run);
                  (769, 21) := block header_bytes; (769, 22) := block script ]} |>.

Definition exec_files : xst :=
  mk_xst (demo <| kmm := mapped |> <| tasks ::= <[1 := caller <| t_root := Some 0 |> <| t_pwd := Some 0 |>]> |>
               <| Task.umem := store_bytes ([47] ++ ls ++ [0] ++ run ++ [0]) 4200 demo_umem |>)
    demo_files ∅ USER_DS (replicate 32 0) [0x100; 0xf; 0x200; 0x3fff000; 0x17].

Definition demo_frame : ExecFrame := {| a_filename := 0xfff800; a_buf := 0xfff900; a_i_arg := 0xfff808; a_i_name := 0xfff804 |}.

(** The arguments that the program started by a run finds on its stack. *)
Definition arguments (run : outcome Z * xst) : outcome Z * list (list Z) :=
  let m := Task.umem (xk (snd run)) in
  let sp := nth 3 (regs (snd run)) 0 in
  (fst run, (fun i => (fun j => ld_byte m (ld_long m (ld_long m (sp + 4) + 4 * i) + j)) <$> [0; 1; 2; 3]) <$>
              seqZ 0 (ld_long m sp)).

(** [execve("/ls", ...)] *)
Example demo_execve :
  arguments (@do_execve quiet demo_frame 4200 4096 4112 exec_files) = (Ret 0, [[108; 115; 0; 45]; [45; 108; 0; 72]]).
Proof. vm_compute. reflexivity. Qed.

(** [execve("run", ...)], a script whose first line names [/ls -a]: the arguments are the
    interpreter, its argument, the name of the script and the arguments after the first. *)
Example demo_script :
  arguments (@do_execve quiet demo_frame 4204 4096 4112 exec_files) =
  (Ret 0, [[108; 115; 0; 45]; [45; 97; 0; 114]; [114; 117; 110; 0]; [45; 108; 0; 72]]).
Proof. vm_compute. reflexivity. Qed.

(** ** The hypotheses hold *)

(** A small table, checked pointer by pointer. *)
Fixpoint check_bytes (m : gmap Z Z) (a : Z) (l : list Z) : bool :=
  match l with [] => true | b :: l => (ld_byte m a =? b) && check_bytes m (a + 1) l end.

Fixpoint check_vector (m : gmap Z Z) (a : Z) (ss : list (list Z)) : bool :=
  match ss with
  | [] => true
  | str :: ss =>
      let q := ld_long m a in
      istrue q && check_bytes m q (str ++ [0]) && forallb (fun b => (0 <? b) && (b <? 256)) str &&
      check_vector m (a + 4) ss
  end.

Lemma check_bytes_ok m l : forall a, check_bytes m a l = true -> bytes_at m a l.
Proof.
  induction l as [|b l IH]; intros a Hc k c Hk; [done|]. cbn in Hc. apply andb_true_iff in Hc as [Hb Hc].
  destruct k as [|k]; cbn in Hk.
  - injection Hk as <-. rewrite Z.add_0_r. by apply Z.eqb_eq.
  - rewrite <- (IH _ Hc k c Hk). f_equal. lia.
Qed.

Lemma check_vector_ok m ss : forall a, check_vector m a ss = true -> vector m m a ss.
Proof.
  induction ss as [|str ss IH]; intros a Hc i x Hi; [done|]. cbn in Hc.
  apply andb_true_iff in Hc as [Hc Hr]. apply andb_true_iff in Hc as [Hc Hz]. apply andb_true_iff in Hc as [Hq Hb].
  destruct i as [|i]; cbn in Hi.
  - injection Hi as <-. rewrite Z.add_0_r. cbv zeta. split; [unfold istrue in Hq; intros E; by rewrite E in Hq|].
    split; [by apply check_bytes_ok|]. apply Forall_forall. intros b Hin.
    pose proof (proj1 (forallb_forall _ _) Hz b ltac:(by apply list_elem_of_In)) as Hb'. cbv beta in Hb'. lia.
  - specialize (IH _ Hr i x Hi). by replace (a + 4 * Z.of_nat (S i)) with (a + 4 + 4 * Z.of_nat i) by lia.
Qed.

Lemma release_nothing `{FsEnv} inode s t :
  the_task s t -> t_executable t = None -> t_close_on_exec t = 0 -> exists s', exec_release inode s = (Ret tt, s').
Proof.
  intros Ht He Hc. unfold exec_release. mrun (task_run s t Ht). rewrite He, bind_ret.
  rewrite (bind_Ret _ _ _ _ _ (upd_current_run s t _ Ht)).
  rewrite (bind_Ret _ _ _ _ _ (upd_current_run _ _ _ (with_task_the s _))), with_task_twice.
  set (t1 := upd _ (upd _ t)). set (s1 := with_task s t1). assert (the_task s1 t1) as Ht1 by apply with_task_the.
  assert (t_close_on_exec t1 = 0) as Hc1 by exact Hc. clearbody t1 s1.
  assert (forall l : list Z, for_each l (fun i => t ← on_k current_task;
    when (istrue (Z.land (Z.shiftr (t_close_on_exec t) i) 1)) (on_fs (FileIo.sys_close i);; mret tt)) s1 = (Ret tt, s1)) as Hl.
  { induction l as [|i l IH]; [done|]. cbn [for_each]. rewrite bind_assoc. mrun (task_run s1 t1 Ht1).
    rewrite Hc1, Z.shiftr_0_l, Z.land_0_l. change (istrue 0) with false. cbn [when]. by rewrite bind_ret. }
  mrun (Hl (seqZ 0 NR_OPEN)). rewrite (upd_current_run s1 t1 _ Ht1). by eexists.
Qed.

Lemma demo_task_the : the_task exec_demo caller.
Proof. apply lookup_insert_eq. Qed.

Lemma demo_own f : 0 <= boot_own START f.
Proof. apply (wf_own _ _ mapped_wf). Qed.

Lemma demo_args : args (boot_own START) exec_demo.
Proof. apply fresh_args; [exact demo_own|exact mapped_wf|reflexivity]. Qed.

Lemma demo_vector a ss : check_vector demo_umem a ss = true -> vector demo_umem demo_umem a ss.
Proof. apply check_vector_ok. Qed.

Lemma demo_loadable : @loadable quiet (boot_own START) exec_demo caller 1 5 demo_ex 4096 4112 demo_argv demo_envp.
Proof.
  constructor.
  - exact demo_own.
  - exact mapped_wf.
  - reflexivity.
  - reflexivity.
  - exact demo_task_the.
  - constructor; vm_compute; intuition congruence.
  - split; [exists 16; split; [vm_compute; intuition congruence|vm_compute; reflexivity]|].
    change (16 * 1) with 16. intros j Hj.
    assert (j ∈ seqZ 17 15) as Hin by (apply elem_of_seqZ; change (nr_dirs (d_limit (ldt2 caller))) with 1 in Hj; lia).
    revert j Hj Hin. enough (Forall (fun j => Z.odd (dirent (xmem exec_demo) j) = false) (seqZ 17 15)) as Hall
      by (intros j _ Hin; by apply (proj1 (Forall_forall _ _) Hall)).
    vm_compute. repeat constructor.
  - split; [apply demo_vector; vm_compute; reflexivity|vm_compute; reflexivity].
  - split; [apply demo_vector; vm_compute; reflexivity|vm_compute; reflexivity].
  - vm_compute. reflexivity.
  - repeat constructor; vm_compute; lia.
  - vm_compute. intuition congruence.
  - intros s2 O. apply (release_nothing 5 s2 caller); [|reflexivity|reflexivity].
    unfold only_args in O. rewrite O. exact demo_task_the.
Qed.

(** ** Witnesses *)

Lemma load_image_ok_witness :
  let run := @load_image quiet 5 demo_ex 0 0 4096 4112 2 1 (PAGE_SIZE * MAX_ARG_PAGES - 4) false exec_demo in
  (exists s', run = @exec_error2 quiet 5 (- ENOMEM) s' /\ args (boot_own START) s' /\ only_args exec_demo s' /\
     full (kmm (xk s'))) \/
  (exists s' sp t' m, run = (Ret 0, s') /\ wf (boot_own START) (kmm (xk s')) /\
     started s' (regs exec_demo) (t_sigaction caller) 5 demo_ex 0 0 demo_argv demo_envp sp t' m).
Proof. exact (@load_image_ok quiet (boot_own START) exec_demo caller 1 5 demo_ex 0 0 4096 4112 demo_argv demo_envp demo_loadable). Defined.

Lemma copy_strings_ok_witness :
  exists r s', @copy_strings quiet 2 4096 1000 0 exec_demo = (Ret r, s') /\ args (boot_own START) s'.
Proof.
  destruct (@copy_strings_ok quiet (boot_own START) exec_demo 4096 1000 0 demo_argv demo_args) as (r & s' & Hr & A & _).
  - lia.
  - vm_compute. intuition congruence.
  - lia.
  - apply demo_vector. vm_compute. reflexivity.
  - repeat constructor; vm_compute; lia.
  - exists r, s'. split; [exact Hr|exact A].
Defined.

Lemma copy_strings_overrun_witness :
  exists s', @copy_strings quiet 1 4096 2 0 exec_demo = (Undef "page", s') \/
    (@copy_strings quiet 1 4096 2 0 exec_demo = (Ret 0, s') /\ full (kmm (xk s'))).
Proof.
  apply (@copy_strings_overrun quiet (boot_own START) exec_demo 4096 2 0 ls demo_args).
  - vm_compute. intuition congruence.
  - vm_compute. reflexivity.
  - lia.
  - apply demo_vector. vm_compute. reflexivity.
  - vm_compute. lia.
Defined.

(** The program's arguments were copied, to one page; the program is inode 1, in use once. *)
Definition copied_demo : xst := snd (@copy_strings quiet 2 4096 1000 0 exec_files).

Lemma copied_page : arg_page copied_demo !! 0%nat = Some 0xffd000.
Proof. vm_compute. reflexivity. Qed.

Lemma copied_iput : fst (on_fs (@iput quiet (Some 1)) copied_demo) = Ret tt.
Proof. vm_compute. reflexivity. Qed.

Lemma copied_args : args (boot_own START) copied_demo.
Proof.
  destruct (@copy_strings_cases quiet (boot_own START) exec_files 4096 1000 0 demo_argv) as (r & s' & Hr & A & _).
  - apply fresh_args; [exact demo_own|exact mapped_wf|reflexivity].
  - lia.
  - vm_compute. intuition congruence.
  - lia.
  - apply check_vector_ok. vm_compute. reflexivity.
  - repeat constructor; vm_compute; lia.
  - unfold copied_demo. change 2 with (Z.of_nat (length demo_argv)). by rewrite Hr.
Qed.

Lemma copied_cnt : main (kmm (xk copied_demo)) 0xffd000 /\ cnt (kmm (xk copied_demo)) 0xffd000 = 1 /\ held (arg_page copied_demo) 0xffd000 = 1.
Proof. split; [vm_compute; intuition congruence|]. split; vm_compute; reflexivity. Qed.

#[local] Opaque copied_demo.

Lemma exec_error1_ok_witness :
  (exists s', exec_error1 (- ENOMEM) copied_demo = (Ret (- ENOMEM), s') /\ cnt (kmm (xk s')) 0xffd000 = 0) /\
  (exists s', @exec_error2 quiet 1 (- ENOEXEC) copied_demo = (Ret (- ENOEXEC), s') /\ cnt (kmm (xk s')) 0xffd000 = 0).
Proof.
  destruct copied_cnt as (Hm & Hc & Hh). split.
  - destruct (proj1 (@exec_error1_ok quiet (boot_own START) copied_demo (- ENOMEM) copied_args)) as (s' & Hr & _ & _ & _ & Hcnt).
    exists s'. split; [exact Hr|]. by rewrite Hcnt, Hc, Hh.
  - destruct (on_fs (@iput quiet (Some 1)) copied_demo) as [r s1] eqn:E. pose proof copied_iput as Er. rewrite E in Er. cbn [fst] in Er. subst r.
    destruct (proj2 (@exec_error1_ok quiet (boot_own START) copied_demo (- ENOEXEC) copied_args) 1 s1 E) as (s' & Hr & (_ & _ & _ & Hcnt) & Ek & Ea).
    exists s'. split; [exact Hr|]. rewrite Hcnt, Ek, Ea, Hc, Hh by (by rewrite Ek). reflexivity.
Defined.
