(* ===== verification/DirSpec.v ===== *)
(** Directories as association lists.

    A directory whose blocks are in the buffer cache is read as the list of its entries, each
    an inode number and a name; [find_entry] is the search of that list, and [add_entry]
    puts a name into its first free place. *)

From S2P Require Import Prelude FsDefs FsLemmas Buffer Bitmap Inode Pipe FileIo Namei.
From S2P Require Import DList BufferSpec GetblkSpec BitmapSpec InodeSpec.

(** ** Names *)

(** The characters before the first null. *)
Fixpoint c_string (l : list Z) : list Z :=
  match l with [] => [] | c :: l => if c =? 0 then [] else c :: c_string l end.

(** The fourteen bytes of an entry's name, and the entry that they stand for. *)
Definition name_field (data : list Z) (de : Z) : list Z := (fun k => de_name data de k) <$> seqZ 0 NAME_LEN.
Definition dirent (data : list Z) (de : Z) : Z * list Z := (de_inode data de, c_string (name_field data de)).

(** An entry in use with the name. *)
Definition is_entry (name : list Z) (e : Z * list Z) : Prop := e.1 <> 0 /\ e.2 = name.
#[export] Instance is_entry_dec name e : Decision (is_entry name e).
Proof. unfold is_entry. apply _. Defined.

(** A name that the code compares: no null in it, not longer than an entry has room for. *)
Record short_name (name : list Z) : Prop := {
  sn_chars : Forall (fun c => c <> 0) name;
  sn_len : (length name <= 14)%nat
}.

Lemma c_string_eq name l :
  Forall (fun c => c <> 0) name ->
  c_string l = name <-> take (length name) l = name /\ match l !! length name with Some c => c = 0 | None => True end.
Proof.
  intros Hn. revert l. induction Hn as [|c name Hc Hn IH]; intros l.
  - destruct l as [|d l]; cbn; [done|]. destruct (Z.eqb_spec d 0); naive_solver.
  - destruct l as [|d l]; cbn; [naive_solver|]. destruct (Z.eqb_spec d 0) as [->|Hd].
    { split; [done|]. by intros [[= <-] _]. }
    specialize (IH l). split.
    + intros [= -> Hl]. apply IH in Hl as [-> ?]. done.
    + intros [[= -> Hl] Hz]. f_equal. by apply IH.
Qed.

Lemma length_name_field data de : length (name_field data de) = 14%nat.
Proof. unfold name_field. by rewrite length_fmap, length_seqZ. Qed.

Lemma lookup_name_field data de k :
  name_field data de !! k = if decide (k < 14)%nat then Some (de_name data de (Z.of_nat k)) else None.
Proof.
  unfold name_field. rewrite list_lookup_fmap. change (seqZ 0 NAME_LEN) with (seqZ 0 14).
  destruct (decide (k < 14)%nat); [by rewrite lookup_seqZ_lt by lia|by rewrite lookup_seqZ_ge by lia].
Qed.

Lemma forallb_prefix name (f : Z -> Z) n :
  (length name <= n)%nat ->
  forallb (fun k => nth (Z.to_nat k) name 0 =? f k) (seqZ 0 (Z.of_nat (length name))) = true <->
  take (length name) (f <$> seqZ 0 (Z.of_nat n)) = name.
Proof.
  intros Hn.
  assert (forall k, (k < length name)%nat -> take (length name) (f <$> seqZ 0 (Z.of_nat n)) !! k = Some (f (Z.of_nat k))) as Hlk.
  { intros k Hk. rewrite lookup_take, decide_True, list_lookup_fmap, lookup_seqZ_lt by lia. done. }
  rewrite forallb_forall. split.
  - intros Hall. apply list_eq. intros k. destruct (decide (k < length name)%nat) as [Hk|Hk].
    + rewrite Hlk by done. destruct (lookup_lt_is_Some_2 name k Hk) as [c Hc].
      specialize (Hall (Z.of_nat k)). rewrite <- list_elem_of_In, elem_of_seqZ in Hall. specialize (Hall ltac:(lia)).
      rewrite Nat2Z.id, (nth_lookup_Some _ _ _ _ Hc) in Hall. apply Z.eqb_eq in Hall. by rewrite Hc, Hall.
    + rewrite lookup_take, decide_False by done. symmetry. apply lookup_ge_None. lia.
  - intros Heq k Hk. rewrite <- list_elem_of_In, elem_of_seqZ in Hk. specialize (Hlk (Z.to_nat k) ltac:(lia)).
    rewrite Heq in Hlk. rewrite (nth_lookup_Some _ _ _ _ Hlk). apply Z.eqb_eq. f_equal. lia.
Qed.

(** [match] is the comparison of the names. *)
Lemma match_name_ok name data de :
  short_name name -> match_name name data de = bool_decide (is_entry name (dirent data de)).
Proof.
  intros [Hc Hl]. apply eq_bool_prop_intro. rewrite bool_decide_spec, Is_true_true. unfold match_name, is_entry, dirent.
  cbn [fst snd]. rewrite (c_string_eq _ _ Hc), !andb_true_iff, negb_true_iff, Z.eqb_neq, lookup_name_field.
  rewrite (forallb_prefix name (de_name data de) 14 Hl). change (Z.of_nat 14) with NAME_LEN. fold (name_field data de).
  change NAME_LEN with 14. rewrite Z.leb_le, negb_true_iff, andb_false_iff, Z.ltb_ge. unfold istrue. rewrite negb_false_iff, Z.eqb_eq.
  destruct (decide _); naive_solver lia.
Qed.

(** ** A directory in the cache *)

(** The directory [dir] has the blocks [bs], each with the buffer that holds it. *)
Record dir_cached (s : fs) (order : list Z) (chains : Z -> list Z) (dir : Z) (v : m_inode)
    (bs : list (Z * buffer_head)) : Prop := {
  dc_queues : queues s order chains None;
  dc_inode : 0 <= dir /\ inode_table s !! Z.to_nat dir = Some v;
  dc_dev : i_dev v <> 0;
  dc_blocks : forall k b w, bs !! k = Some (b, w) ->
    zone v (Z.of_nat k) <> 0 /\ cached s (i_dev v) (zone v (Z.of_nat k)) b w /\ length (b_data w) = 1024%nat;
  dc_count : (1 <= length bs <= 7)%nat;
  dc_size : 0 <= i_size v <= 1024 * Z.of_nat (length bs)
}.

(** Entry [i] of the blocks, and the entries of the directory. *)
Definition nth_entry (bs : list (Z * buffer_head)) (i : Z) : Z * list Z :=
  match bs !! Z.to_nat (i / 64) with Some (_, w) => dirent (b_data w) (i mod 64) | None => (0, []) end.
Definition dir_entries (v : m_inode) (bs : list (Z * buffer_head)) : list (Z * list Z) :=
  nth_entry bs <$> seqZ 0 (i_size v / 16).

(** The states on the way: a buffer is held, tasks that wait for a buffer were woken. *)
Definition hold (b : Z) (s : fs) : fs := s <| bufs ::= alter count_up b |>.
Definition woke (n : nat) (s : fs) : fs := s <| fs_woken ::= app (replicate n QBuffer) |>.

Lemma woke_0 s : woke 0 s = s.
Proof. by destruct s. Qed.

Lemma hold_woke b n s : hold b (woke n s) = woke n (hold b s).
Proof. by destruct s. Qed.

(** ** Names in the user's memory *)

Lemma user_bytes_take m addr n k : 0 <= k <= n -> user_bytes m addr k = take (Z.to_nat k) (user_bytes m addr n).
Proof.
  intros Hk. replace n with (k + (n - k)) at 1 by lia. rewrite user_bytes_app by lia.
  rewrite take_app_le by (pose proof (length_user_bytes m addr k); lia). symmetry. apply take_ge.
  pose proof (length_user_bytes m addr k). lia.
Qed.

(** The name that is looked up: the first fourteen characters, and "." for ".." in the root
    directory of the task. *)
Definition dotdot_name : list Z := [dot; dot].
Definition sought (s : fs) (dir : Z) (nm : list Z) : list Z :=
  if bool_decide (nm = dotdot_name /\ p_root (current s) = Some dir) then [dot] else take 14 nm.

(** A name in the user's memory. *)
Record user_name (s : fs) (name : Z) (nm : list Z) : Prop := {
  un_chars : Forall (fun c => c <> 0) nm;
  un_bytes : user_bytes (umem s) name (Z.of_nat (length nm)) = nm
}.

Lemma user_name_same s s' name nm : umem s' = umem s -> user_name s name nm -> user_name s' name nm.
Proof. intros E [Hc Hb]. split; [done|by rewrite E]. Qed.

Lemma user_name_prefix s name nm n : user_name s name nm -> user_name s name (take n nm).
Proof.
  intros [Hc Hb]. destruct (decide (n <= length nm)%nat) as [Hn|Hn]; [|by rewrite take_ge by lia; split]. split; [by apply Forall_take|]. rewrite length_take_le by done.
  rewrite (user_bytes_take _ _ (Z.of_nat (length nm))) by lia. by rewrite Hb, Nat2Z.id.
Qed.

Lemma user_char s name nm k :
  user_name s name nm -> (k < length nm)%nat -> nm !! k = Some (default 0 (umem s !! (name + Z.of_nat k))).
Proof.
  intros [_ Hb] Hk. rewrite <- Hb. unfold user_bytes. rewrite list_lookup_fmap, lookup_seqZ_lt by lia. done.
Qed.

Lemma short_take nm : Forall (fun c => c <> 0) nm -> short_name (take 14 nm).
Proof. intros Hc. split; [by apply Forall_take|]. rewrite length_take. lia. Qed.

Lemma sought_short s dir nm : Forall (fun c => c <> 0) nm -> short_name (sought s dir nm).
Proof.
  intros Hc. unfold sought. destruct (bool_decide _); [|by apply short_take].
  split; [by repeat constructor|cbn; lia].
Qed.

(** The entry [j] of the directory, in its buffer. *)
Definition slot_of (bs : list (Z * buffer_head)) (j : Z) (b : Z) (w : buffer_head) : Prop :=
  bs !! Z.to_nat (j / 64) = Some (b, w).

Lemma nth_entry_at bs i k b w de :
  bs !! k = Some (b, w) -> i = 64 * Z.of_nat k + de -> 0 <= de < 64 -> nth_entry bs i = dirent (b_data w) de.
Proof.
  intros Hb -> Hde. unfold nth_entry. rewrite (Z.mul_comm 64), Z.div_add_l, Z.div_small, Z.add_0_r, Nat2Z.id, Hb by lia.
  by rewrite Z.add_comm, Z_mod_plus_full, Z.mod_small by lia.
Qed.

Section Search.
Context `{FsEnv}.
Hypothesis Hfuel : fuel <> O.

Lemma bread_woke s order chains dev block b w n :
  queues s order chains None -> dev <> 0 -> cached s dev block b w ->
  bread dev block (woke n s) = (Ret (Some b), hold b (woke n s)).
Proof.
  intros Q Hd [Hb Hk Hs]. apply (bread_hit Hfuel (woke n s) order chains dev block b w); [by apply (queues_same s)|done|by split].
Qed.

Lemma brelse_hold s dev block b w n :
  cached s dev block b w -> brelse (Some b) (hold b (woke n s)) = (Ret tt, woke (S n) s).
Proof.
  intros [Hb _ (Hl & _ & Hc)].
  assert (bufs (hold b (woke n s)) !! b = Some (count_up w)) as Hb1 by exact (alter_at _ _ _ _ Hb).
  assert (b_count (count_up w) <> 0) as Hc1 by (cbn; rewrite u8_small by lia; lia).
  rewrite (brelse_run _ b _ Hfuel Hb1 Hl Hc1). f_equal.
  assert (alter count_down b (alter count_up b (bufs s)) = bufs s) as E.
  { rewrite (alter_value _ _ _ _ Hb), (alter_value _ _ _ _ (lookup_insert_eq _ _ _)), insert_insert_eq, counted by done.
    by apply insert_id. }
  transitivity ((woke (S n) s) <| bufs := alter count_down b (alter count_up b (bufs s)) |>); [by destruct s|].
  rewrite E. by destruct s.
Qed.

Lemma bmap_direct s dir v k :
  0 <= dir -> inode_table s !! Z.to_nat dir = Some v -> 0 <= k < 7 -> bmap dir k s = (Ret (zone v k), s).
Proof.
  intros Hd Hv Hk. unfold bmap, _bmap. destruct (Z.ltb_spec k 0); [lia|]. change (7 + 512 + 512 * 512) with 262663.
  destruct (Z.leb_spec 262663 k); [lia|]. destruct (Z.ltb_spec k 7); [|lia].
  unfold grow_zone. rewrite bind_assoc. mrun (get_inode_run dir v s Hd Hv). cbn [andb when]. rewrite bind_ret.
  by mrun (get_inode_run dir v s Hd Hv).
Qed.

Section Loop.
Context (s : fs) (order : list Z) (chains : Z -> list Z) (dir : Z) (v : m_inode) (bs : list (Z * buffer_head)).
Hypothesis D : dir_cached s order chains dir v bs.
Context (name : Z) (nm : list Z).
Hypothesis Hnm : short_name nm.
Hypothesis Huser : user_bytes (umem s) name (Z.of_nat (length nm)) = nm.

Lemma match_entry_run b w de n :
  bufs s !! b = Some w ->
  match_entry (Z.of_nat (length nm)) name b de (hold b (woke n s)) =
    (Ret (bool_decide (is_entry nm (dirent (b_data w) de))), hold b (woke n s)).
Proof.
  intros Hb. unfold match_entry. rewrite Nat2Z.id.
  mrun (get_fs_bytes_run (length nm) name (hold b (woke n s))).
  change (umem (hold b (woke n s))) with (umem s). rewrite Huser.
  mrun (get_bh_run b (count_up w) (hold b (woke n s)) (alter_at _ _ _ _ Hb)).
  change (b_data (count_up w)) with (b_data w). by rewrite match_name_ok.
Qed.

(** What the loop finds, seen from entry [i]. *)
Definition found (i : Z) (l : list (Z * list Z)) (r : outcome (option (Z * Z)) * fs) : Prop :=
  match list_find (is_entry nm) l with
  | None => exists m, r = (Ret None, woke m s)
  | Some (t, _) => exists b w m, let j := i + Z.of_nat t in
      bs !! Z.to_nat (j / 64) = Some (b, w) /\ r = (Ret (Some (b, j mod 64)), hold b (woke m s))
  end.

(** The buffer and the place in it of the next entry; at the end of a block the loop goes on to
    the next one. *)
Definition next_block (b de i : Z) : M fs (option (Z * Z)) :=
  if DIR_ENTRIES_PER_BLOCK <=? de then
    brelse (Some b);;
    block ← bmap dir (Z.quot i DIR_ENTRIES_PER_BLOCK);
    v ← get_inode dir;
    (if istrue block then r ← bread (i_dev v) block; mret (option_map (fun b => (b, 0)) r) else mret None)
  else mret (Some (b, de)).

Lemma next_block_run b w k de i m :
  bs !! k = Some (b, w) -> i = 64 * Z.of_nat k + de -> 0 <= de <= 64 -> i < 64 * Z.of_nat (length bs) ->
  exists k' b' w' de' m', bs !! k' = Some (b', w') /\ i = 64 * Z.of_nat k' + de' /\ 0 <= de' < 64 /\
    next_block b de i (hold b (woke m s)) = (Ret (Some (b', de')), hold b' (woke m' s)).
Proof.
  intros Hb Ei Hde Hi. destruct D as [Q [Hd Hv] Hdev Hblocks Hcount _]. unfold next_block. change DIR_ENTRIES_PER_BLOCK with 64.
  destruct (Z.leb_spec 64 de); [|exists k, b, w, de, m; split_and!; done || lia]. assert (de = 64) as -> by lia.
  destruct (lookup_lt_is_Some_2 bs (S k) ltac:(lia)) as [[b' w'] Hb'].
  exists (S k), b', w', 0, (S m). split; [done|]. split; [lia|]. split; [lia|].
  destruct (Hblocks k b w Hb) as (_ & Hc & _). mrun (brelse_hold _ _ _ _ _ m Hc).
  replace (Z.quot i 64) with (Z.of_nat (S k)) by (rewrite Z.quot_div_nonneg by lia; apply Z.div_unique with 0; lia).
  mrun (bmap_direct (woke (S m) s) dir v (Z.of_nat (S k)) Hd Hv ltac:(lia)).
  mrun (get_inode_run dir v (woke (S m) s) Hd Hv). destruct (Hblocks (S k) b' w' Hb') as (Hz & Hc' & _).
  unfold istrue. rewrite (proj2 (Z.eqb_neq _ _) Hz). cbn [negb]. by mrun (bread_woke _ _ _ _ _ _ _ (S m) Q Hdev Hc').
Qed.

Lemma find_loop_ok n entries i k b w de m l :
  bs !! k = Some (b, w) -> i = 64 * Z.of_nat k + de -> 0 <= de <= 64 -> entries <= 64 * Z.of_nat (length bs) ->
  l = nth_entry bs <$> seqZ i (entries - i) -> (length l <= n)%nat ->
  found i l (find_loop n dir name (Z.of_nat (length nm)) entries i (Some b) de (hold b (woke m s))).
Proof.
  intros Hb Ei Hde Hent. revert n i k b w de m Hb Ei Hde. induction l as [|e l IH]; intros n i k b w de m Hb Ei Hde El Hn.
  - assert (entries <= i) as Hi.
    { apply (f_equal length) in El. rewrite length_fmap, length_seqZ in El. cbn in El. lia. }
    destruct (dc_blocks _ _ _ _ _ _ D k b w Hb) as (_ & Hc & _).
    unfold found. cbn. exists (S m). destruct n; cbn [find_loop]; (destruct (Z.leb_spec entries i); [|lia]);
      by mrun (brelse_hold _ _ _ _ _ m Hc).
  - destruct (decide (i < entries)) as [Hi|Hi]; [|by rewrite (seqZ_nil _ (entries - i)) in El by lia].
    rewrite seqZ_cons in El by lia. injection El as Ee El. replace (Z.pred (entries - i)) with (entries - Z.succ i) in El by lia.
    destruct n as [|n]; [cbn in Hn; lia|]. cbn [find_loop]. destruct (Z.leb_spec entries i); [lia|]. unfold of_option. rewrite bind_ret.
    fold (next_block b de i).
    destruct (next_block_run b w k de i m Hb Ei Hde ltac:(lia)) as (k' & b' & w' & de' & m' & Hb' & Ei' & Hde' & Ecur).
    mrun Ecur. clear Ecur. destruct (dc_blocks _ _ _ _ _ _ D k' b' w' Hb') as (_ & Hc & _).
    mrun (match_entry_run b' w' de' m' (ca_buf _ _ _ _ _ Hc)).
    rewrite (nth_entry_at bs i k' b' w' de' Hb' Ei' Hde') in Ee. subst e. unfold found. cbn [list_find].
    destruct (decide (is_entry nm (dirent (b_data w') de'))) as [He|He].
    + rewrite bool_decide_true by done. exists b', w', m'. cbn zeta. rewrite Z.add_0_r. rewrite Ei'.
      rewrite (Z.mul_comm 64), Z.div_add_l, Z.div_small, Z.add_0_r, Nat2Z.id by lia. split; [done|].
      by rewrite Z.add_comm, Z_mod_plus_full, Z.mod_small by lia.
    + rewrite bool_decide_false by done. specialize (IH n (i + 1) k' b' w' (de' + 1) m' Hb' ltac:(lia) ltac:(lia) El ltac:(cbn in Hn; lia)).
      unfold found in IH. destruct (list_find (is_entry nm) l) as [[t x]|]; cbn [fmap option_fmap option_map prod_map fst]; [|done].
      replace (i + Z.of_nat (S t)) with (i + 1 + Z.of_nat t) by lia. exact IH.
Qed.
End Loop.

(** ** find_entry *)

Lemma dotdot_run s dir v name nm :
  0 <= dir -> inode_table s !! Z.to_nat dir = Some v -> nm <> [] -> user_name s name nm ->
  (nm = dotdot_name -> p_root (current s) = Some dir \/ i_num v <> ROOT_INO) ->
  dotdot dir name (Z.min (Z.of_nat (length nm)) NAME_LEN) s = (Ret (dir, Z.of_nat (length (sought s dir nm))), s) /\
  user_name s name (sought s dir nm).
Proof.
  intros Hd Hv Hne Hu Hroot. assert (Z.of_nat (length (take 14 nm)) = Z.min (Z.of_nat (length nm)) NAME_LEN) as Hlen
    by (rewrite length_take; change NAME_LEN with 14; lia).
  assert (nm = dotdot_name <-> length nm = 2%nat /\ default 0 (umem s !! name) = dot /\ default 0 (umem s !! (name + 1)) = dot) as Hdd.
  { split.
    - intros ->. split; [done|]. pose proof (user_char s name _ 0 Hu ltac:(cbn; lia)) as H0.
      pose proof (user_char s name _ 1 Hu ltac:(cbn; lia)) as H1. rewrite Z.add_0_r in H0. cbn in H0, H1. naive_solver.
    - intros (Hl & H0 & H1). pose proof (user_char s name nm 0 Hu ltac:(lia)) as E0. pose proof (user_char s name nm 1 Hu ltac:(lia)) as E1.
      rewrite Z.add_0_r in E0. destruct nm as [|a [|b [|]]]; try done.
      change (Z.of_nat 1) with 1 in E1. rewrite H0 in E0. rewrite H1 in E1. injection E0 as ->. by injection E1 as ->. }
  unfold dotdot, get_fs_byte. rewrite !bind_gets, <- !andb_assoc. unfold sought.
  set (c := (Z.min _ _ =? 2) && _).
  assert (c = bool_decide (nm = dotdot_name)) as ->.
  { unfold c. apply eq_bool_prop_intro. rewrite bool_decide_spec, Is_true_true, !andb_true_iff, !Z.eqb_eq, Hdd. change NAME_LEN with 14.
    naive_solver lia. }
  destruct (decide (nm = dotdot_name)) as [Enm|Enm].
  - rewrite bool_decide_true by done. rewrite bind_gets. mrun (get_inode_run dir v s Hd Hv).
    destruct (decide (p_root (current s) = Some dir)) as [Er|Er].
    + rewrite !bool_decide_true by done. split; [done|]. rewrite Enm in Hu. exact (user_name_prefix _ _ _ 1 Hu).
    + rewrite !bool_decide_false by naive_solver. destruct (Hroot Enm) as [|Hn]; [done|]. rewrite (proj2 (Z.eqb_neq _ _) Hn), Hlen.
      split; [done|]. subst nm. exact (user_name_prefix _ _ _ 2 Hu).
  - rewrite !bool_decide_false by naive_solver. rewrite Hlen. split; [done|].
    exact (user_name_prefix _ _ _ 14 Hu).
Qed.

Lemma find_entry_run s order chains dir v bs name nm :
  dir_cached s order chains dir v bs -> nm <> [] -> user_name s name nm ->
  (nm = dotdot_name -> p_root (current s) = Some dir \/ i_num v <> ROOT_INO) ->
  match list_find (is_entry (sought s dir nm)) (dir_entries v bs) with
  | None => exists m, find_entry dir name (Z.of_nat (length nm)) s = (Ret (None, dir), woke m s)
  | Some (j, _) => exists b w m, slot_of bs (Z.of_nat j) b w /\
      find_entry dir name (Z.of_nat (length nm)) s = (Ret (Some (b, Z.of_nat j mod 64), dir), hold b (woke m s))
  end.
Proof.
  intros D Hne Hu Hroot. pose proof D as [Q [Hd Hv] Hdev Hblocks Hcount Hsize].
  destruct (dotdot_run s dir v name nm Hd Hv Hne Hu Hroot) as [Edd Hus].
  destruct (lookup_lt_is_Some_2 bs 0 ltac:(lia)) as [[b w] Hb]. destruct (Hblocks 0%nat b w Hb) as (Hz & Hc & _).
  change (zone v (Z.of_nat 0)) with (zone v 0) in *.
  pose proof (find_loop_ok s order chains dir v bs D name (sought s dir nm) (sought_short _ _ _ (un_chars _ _ _ Hu)) (un_bytes _ _ _ Hus)
    (Z.to_nat (i_size v / 16)) (i_size v / 16) 0 0 b w 0 0 (dir_entries v bs) Hb ltac:(lia) ltac:(lia)
    ltac:(apply Z.div_le_upper_bound; lia) ltac:(by rewrite Z.sub_0_r)) as Hloop.
  rewrite woke_0 in Hloop. specialize (Hloop ltac:(unfold dir_entries; rewrite length_fmap, length_seqZ; lia)).
  assert (Z.quot (i_size v) 16 = i_size v / 16) as Eq by (apply Z.quot_div_nonneg; lia).
  assert (find_entry dir name (Z.of_nat (length nm)) s =
    (res ← find_loop (Z.to_nat (i_size v / 16)) dir name (Z.of_nat (length (sought s dir nm))) (i_size v / 16) 0 (Some b) 0; mret (res, dir))
      (hold b s)) as ->.
  { unfold find_entry. mrun (get_inode_run dir v s Hd Hv). rewrite Eq.
    destruct (Z.eqb_spec (Z.min (Z.of_nat (length nm)) NAME_LEN) 0) as [E0|_].
    { destruct nm; [done|]. change NAME_LEN with 14 in E0. cbn in E0. lia. }
    mrun Edd. mrun (get_inode_run dir v s Hd Hv). rewrite (proj2 (Z.eqb_neq _ _) Hz).
    by mrun (bread_hit Hfuel s order chains _ _ b w Q Hdev Hc). }
  unfold found in Hloop. destruct (list_find _ _) as [[j x]|].
  - destruct Hloop as (b' & w' & m & Hb' & E). exists b', w', m. split; [exact Hb'|]. by mrun E.
  - destruct Hloop as (m & E). exists m. by mrun E.
Qed.
End Search.

(** ** Property *)


(** ** Witness *)

(** A directory of one block: "." of inode 1, an unused entry, "ab" of inode 7. *)
Definition demo_dir_data : list Z :=
  [1; 0; 46] ++ replicate 13 0 ++ [0; 0; 97; 98] ++ replicate 12 0 ++ [7; 0; 97; 98] ++ replicate 12 0 ++ replicate 976 0.
Definition demo_dir_inode : m_inode := zero_inode <| i_mode := 16877 |> <| i_size := 48 |> <| i_zone := [4; 0; 0; 0; 0; 0; 0; 0; 0] |>
  <| i_dev := 769 |> <| i_num := 5 |> <| i_count := 1 |>.
Definition dir_read_in (b : buffer_head) : buffer_head := b <| b_uptodate := 1 |> <| b_data := demo_dir_data |>.
Definition demo_dir : fs :=
  (snd (take_buffer 2 769 4 demo_cache)) <| bufs ::= alter dir_read_in 2 |> <| inode_table := [demo_dir_inode] |>
    <| umem := list_to_map [(100, 97); (101, 98)] |>.

Lemma demo_dir_ok :
  exists chains w, dir_cached demo_dir [0; 1; 2] chains 0 demo_dir_inode [(2, w)] /\ b_data w = demo_dir_data.
Proof.
  destruct (demo_taken 4) as (s & chains & v & E & Q & Hv & (Ecount & Ed & Eb & El) & _); [lia|].
  unfold demo_dir. rewrite E. cbn [snd]. exists chains, (dir_read_in v). split; [|done].
  split; [|done|done| |cbn; lia|vm_compute; split; congruence].
  - apply (queues_same (s <| bufs ::= alter dir_read_in 2 |>)); [done..|]. apply queues_upd; [exact Q|done|done|by left].
  - intros [|k] b w; [|done]. intros [= <- <-]. split; [done|]. split; [|done].
    split; [exact (alter_at _ _ _ _ Hv)|exact (conj Ed Eb)|]. change (b_lock v = 0 /\ 1 <> 0 /\ 0 <= b_count v < 255).
    rewrite El, Ecount. split; [done|]. lia.
Qed.

Lemma demo_dir_name : user_name demo_dir 100 [97; 98].
Proof. split; [by repeat constructor|reflexivity]. Qed.

Lemma demo_dir_entries w : b_data w = demo_dir_data -> dir_entries demo_dir_inode [(2, w)] = [(1, [46]); (0, [97; 98]); (7, [97; 98])].
Proof.
  intros E. transitivity (dirent (b_data w) <$> [0; 1; 2]); [reflexivity|]. rewrite E. reflexivity.
Qed.

#[local] Opaque demo_dir.

