(* ===== verification/DirAdd.v ===== *)
(** Adding to a directory: [add_entry] puts the name into the first free place, a place whose
    inode number is zero or the one after the last, and leaves the other entries alone. *)

From S2P Require Import Prelude FsDefs FsLemmas Buffer Bitmap Inode Pipe FileIo Namei NameOps.
From S2P Require Import DList BufferSpec GetblkSpec BitmapSpec InodeSpec DirSpec.

(** ** The bytes of an entry *)

(** The name written into the entry, as far as character [n]. *)
Definition put_name (de : Z) (nm : list Z) (n : Z) (data : list Z) : list Z :=
  foldl (fun d k => set_de_name de k (nth (Z.to_nat k) nm 0) d) data (seqZ 0 n).

Lemma put_name_succ de nm n data :
  0 <= n -> put_name de nm (n + 1) data = set_de_name de n (nth (Z.to_nat n) nm 0) (put_name de nm n data).
Proof. intros Hn. unfold put_name. by rewrite seqZ_app, foldl_app by lia. Qed.

Lemma length_put_name de nm n data : 0 <= n -> length (put_name de nm n data) = length data.
Proof.
  intros Hn. pattern n. apply natlike_ind; [done| |done]. intros k Hk IH. rewrite <- Z.add_1_r, put_name_succ by done.
  unfold set_de_name. by rewrite length_insert.
Qed.

Lemma byte_put_name de nm n data p :
  0 <= de -> 0 <= n -> 0 <= p -> 16 * de + 2 + n <= Z.of_nat (length data) ->
  byte_at (put_name de nm n data) p =
    if decide (16 * de + 2 <= p < 16 * de + 2 + n) then nth (Z.to_nat (p - (16 * de + 2))) nm 0 else byte_at data p.
Proof.
  intros Hde Hn Hp Hl. revert Hl. pattern n. apply natlike_ind; [| |done].
  - intros _. rewrite decide_False by lia. done.
  - intros k Hk IH Hl. rewrite <- Z.add_1_r, put_name_succ by done. unfold set_de_name, byte_at in *. rewrite nth_lookup.
    destruct (decide (p = 16 * de + 2 + k)) as [->|Hne].
    + rewrite list_lookup_insert_eq, decide_True by (rewrite ?length_put_name; lia). cbn. f_equal. f_equal. lia.
    + rewrite list_lookup_insert_ne, <- nth_lookup, IH by lia. repeat case_decide; done || lia.
Qed.

Lemma byte_st16 k x data p :
  0 <= k -> 0 <= p -> p <> 2 * k -> p <> 2 * k + 1 -> byte_at (st16 k x data) p = byte_at data p.
Proof. intros. unfold byte_at, st16. rewrite !nth_lookup, !list_lookup_insert_ne by lia. done. Qed.

(** Only the entry's own bytes matter. *)
Lemma dirent_ext data data' de :
  0 <= de -> (forall p, 16 * de <= p < 16 * de + 16 -> byte_at data p = byte_at data' p) -> dirent data de = dirent data' de.
Proof.
  intros Hde Hb. unfold dirent. f_equal.
  - unfold de_inode, ld16. change (byte_at data (2 * (8 * de)) + 256 * byte_at data (2 * (8 * de) + 1) =
      byte_at data' (2 * (8 * de)) + 256 * byte_at data' (2 * (8 * de) + 1)). by rewrite !Hb by lia.
  - f_equal. unfold name_field. apply list_fmap_ext. intros k x Hx. apply lookup_seqZ in Hx as [-> Hk].
    change NAME_LEN with 14 in Hk. unfold de_name. apply Hb. lia.
Qed.

Lemma c_string_prefix nm l : Forall (fun c => c <> 0) nm -> c_string (nm ++ 0 :: l) = nm /\ c_string nm = nm.
Proof.
  intros Hn. split; apply (c_string_eq nm); try done.
  - by rewrite take_app_length, list_lookup_middle.
  - rewrite take_ge by lia. split; [done|]. by rewrite (proj2 (lookup_ge_None _ _)) by lia.
Qed.

(** The entry that was filled in, and the others. *)
Definition filled (de : Z) (nm : list Z) (ino : Z) (data : list Z) : list Z := set_de_inode de ino (put_name de nm 14 data).

Lemma length_filled de nm ino data : length (filled de nm ino data) = length data.
Proof. unfold filled, set_de_inode. by rewrite length_st16, length_put_name. Qed.

Lemma dirent_filled de nm ino data :
  0 <= de < 64 -> length data = 1024%nat -> short_name nm -> dirent (filled de nm ino data) de = (u16 ino, nm).
Proof.
  intros Hde Hl [Hc Hn]. unfold dirent. f_equal.
  - unfold filled, de_inode, set_de_inode. apply ld16_st16; [lia|]. rewrite length_put_name by lia. lia.
  - assert (name_field (filled de nm ino data) de = nm ++ replicate (14 - length nm) 0) as ->.
    { apply list_eq. intros k. rewrite lookup_name_field. case_decide as Hk.
      - unfold de_name, filled, set_de_inode. rewrite byte_st16, byte_put_name, decide_True by lia.
        replace (Z.to_nat _) with k by lia. rewrite nth_lookup. destruct (decide (k < length nm)%nat).
        + rewrite lookup_app_l by done. by destruct (lookup_lt_is_Some_2 nm k) as [c ->].
        + rewrite lookup_app_r, lookup_replicate_2 by lia. by rewrite (proj2 (lookup_ge_None _ _)) by lia.
      - symmetry. apply lookup_ge_None. rewrite length_app, length_replicate. lia. }
    destruct (14 - length nm)%nat as [|n] eqn:En; cbn [replicate]; [rewrite app_nil_r|]; by apply c_string_prefix.
Qed.

Lemma dirent_filled_ne de de' nm ino data :
  0 <= de < 64 -> 0 <= de' < 64 -> de' <> de -> length data = 1024%nat ->
  dirent (filled de nm ino data) de' = dirent data de'.
Proof.
  intros Hde Hde' Hne Hl. apply dirent_ext; [lia|]. intros p Hp. unfold filled, set_de_inode.
  rewrite byte_st16, byte_put_name, decide_False by lia. done.
Qed.

Lemma dirent_cleared_ne de de' data :
  0 <= de -> 0 <= de' -> de' <> de -> dirent (set_de_inode de 0 data) de' = dirent data de'.
Proof. intros Hde Hde' Hne. apply dirent_ext; [lia|]. intros p Hp. unfold set_de_inode. apply byte_st16; lia. Qed.

(** ** The steps of add_entry *)

(** The state in which buffer [b] and inode [dir] have these values. *)
Definition at_place (b : Z) (x : buffer_head) (dir : Z) (v : m_inode) (s : fs) : fs :=
  s <| bufs ::= <[b := x]> |> <| inode_table ::= <[Z.to_nat dir := v]> |>.

Section Place.
Context `{FsEnv} (s : fs) (b dir : Z) (v0 : m_inode).
Hypothesis Hdir : 0 <= dir /\ inode_table s !! Z.to_nat dir = Some v0.

Lemma place_inode x v : inode_table (at_place b x dir v s) !! Z.to_nat dir = Some v.
Proof. exact (list_lookup_insert_eq _ _ _ (lookup_lt_Some _ _ _ (proj2 Hdir))). Qed.

Lemma place_bh x v : bufs (at_place b x dir v s) !! b = Some x.
Proof. exact (lookup_insert_eq _ _ _). Qed.

Lemma upd_bh_place x v f : upd_bh b f (at_place b x dir v s) = (Ret tt, at_place b (f x) dir v s).
Proof.
  rewrite (upd_bh_run b x f _ (place_bh x v)). f_equal.
  transitivity ((at_place b x dir v s) <| bufs := <[b := f x]> (<[b := x]> (bufs s)) |>); [reflexivity|].
  rewrite insert_insert_eq. reflexivity.
Qed.

Lemma upd_inode_place x v f : upd_inode dir f (at_place b x dir v s) = (Ret tt, at_place b x dir (f v) s).
Proof.
  rewrite (upd_inode_run dir v f _ (proj1 Hdir) (place_inode x v)). f_equal.
  transitivity ((at_place b x dir v s)
    <| inode_table := <[Z.to_nat dir := f v]> (<[Z.to_nat dir := v]> (inode_table s)) |>); [reflexivity|].
  rewrite list_insert_insert_eq. reflexivity.
Qed.

Lemma copy_name_place name nm de n x v :
  user_name s name nm -> 0 <= n ->
  for_each (seqZ 0 n) (fun i =>
    c ← (if i <? Z.of_nat (length nm) then get_fs_byte (name + i) else mret 0);
    upd_bh b (fun b => b <| b_data ::= set_de_name de i c |>)) (at_place b x dir v s) =
  (Ret tt, at_place b (x <| b_data ::= put_name de nm n |>) dir v s).
Proof.
  intros Hu Hn. pattern n. apply natlike_ind; [by destruct x| |done]. clear n Hn. intros n Hn IH.
  assert (forall {S A} (l : list A) x (f : A -> M S unit) t t1 t2,
    for_each l f t = (Ret tt, t1) -> f x t1 = (Ret tt, t2) -> for_each (l ++ [x]) f t = (Ret tt, t2)) as Hsnoc.
  { intros S A l. induction l as [|a l IHl]; intros y f t t1 t2 E1 E2.
    - injection E1 as ->. cbn. by mrun E2.
    - cbn [app for_each] in *. apply bind_inv in E1 as ([] & t' & E & E1). mrun E. by eapply IHl. }
  rewrite <- Z.add_1_r, seqZ_app by lia. eapply Hsnoc; [exact IH|]. cbn beta. rewrite Z.add_0_l.
  set (s1 := at_place b _ dir v s).
  assert ((if n <? Z.of_nat (length nm) then get_fs_byte (name + n) else mret 0) s1 = (Ret (nth (Z.to_nat n) nm 0), s1)) as Ec.
  { destruct (Z.ltb_spec n (Z.of_nat (length nm))) as [Hlt|Hge].
    - unfold get_fs_byte, gets. change (umem s1) with (umem s).
      pose proof (user_char s name nm (Z.to_nat n) Hu ltac:(lia)) as E. rewrite Z2Nat.id in E by lia.
      by rewrite (nth_lookup_Some _ _ _ _ E).
    - rewrite nth_overflow by lia. done. }
  mrun Ec. unfold s1. rewrite upd_bh_place. f_equal. f_equal.
  transitivity (x <| b_data := set_de_name de n (nth (Z.to_nat n) nm 0) (put_name de nm n (b_data x)) |>); [reflexivity|].
  rewrite <- put_name_succ by done. reflexivity.
Qed.
End Place.

(** ** The first free place *)

(** A place that [add_entry] takes. *)
Definition free_at (v : m_inode) (bs : list (Z * buffer_head)) (j : Z) : Prop := i_size v <= 16 * j \/ (nth_entry bs j).1 = 0.

(** The first free place: an unused entry, or the place after the last one. *)
Definition first_free (l : list (Z * list Z)) : nat :=
  match list_find (fun e => e.1 = 0) l with Some (j, _) => j | None => length l end.

Lemma length_dir_entries v bs : 0 <= i_size v -> Z.of_nat (length (dir_entries v bs)) = i_size v / 16.
Proof. intros. unfold dir_entries. rewrite length_fmap, length_seqZ. pose proof (Z.div_pos (i_size v) 16). lia. Qed.

Lemma lookup_dir_entries v bs k :
  (k < length (dir_entries v bs))%nat -> dir_entries v bs !! k = Some (nth_entry bs (Z.of_nat k)).
Proof.
  unfold dir_entries. rewrite length_fmap, length_seqZ. intros Hk. by rewrite list_lookup_fmap, lookup_seqZ_lt by lia.
Qed.

Lemma first_free_ok v bs :
  0 <= i_size v -> i_size v mod 16 = 0 ->
  let j := Z.of_nat (first_free (dir_entries v bs)) in
  free_at v bs j /\ (forall t, 0 <= t < j -> ~ free_at v bs t) /\ j <= i_size v / 16 /\
  (j = i_size v / 16 <-> i_size v <= 16 * j).
Proof.
  intros Hs Hm j. pose proof (length_dir_entries v bs Hs) as Hlen. pose proof (Z.div_mod (i_size v) 16 ltac:(lia)) as Hdm.
  assert (forall t, 0 <= t < i_size v / 16 -> (nth_entry bs t).1 <> 0 -> ~ free_at v bs t) as Hused
    by (unfold free_at; intros t Ht Hne [|]; [lia|done]).
  unfold j, first_free. destruct (list_find _ _) as [[k e]|] eqn:E.
  - apply list_find_Some in E as (Hk & He & Hbefore). pose proof (lookup_lt_Some _ _ _ Hk) as Hlt.
    rewrite lookup_dir_entries in Hk by done. injection Hk as <-. split; [by right|]. split; [|lia].
    intros t Ht. apply Hused; [lia|]. intros Ht0. apply (Hbefore (Z.to_nat t) (nth_entry bs t)); [|lia|done].
    rewrite lookup_dir_entries by lia. by rewrite Z2Nat.id by lia.
  - rewrite Hlen. split; [left; lia|]. split; [|lia]. intros t Ht. apply Hused; [done|]. intros Ht0.
    apply list_find_None in E. rewrite Forall_lookup in E. apply (E (Z.to_nat t) (nth_entry bs t)); [|done].
    rewrite lookup_dir_entries by lia. by rewrite Z2Nat.id by lia.
Qed.

Section Add.
Context `{FsEnv}.
Hypothesis Hfuel : fuel <> O.

Lemma create_block_direct s dir v k :
  0 <= dir -> inode_table s !! Z.to_nat dir = Some v -> 0 <= k < 7 -> zone v k <> 0 ->
  create_block dir k s = (Ret (zone v k), s).
Proof.
  intros Hd Hv Hk Hz. unfold create_block, _bmap. destruct (Z.ltb_spec k 0); [lia|]. change (7 + 512 + 512 * 512) with 262663.
  destruct (Z.leb_spec 262663 k); [lia|]. destruct (Z.ltb_spec k 7); [|lia].
  unfold grow_zone. rewrite bind_assoc. mrun (get_inode_run dir v s Hd Hv). rewrite (proj2 (Z.eqb_neq _ _) Hz).
  cbn [andb when]. rewrite bind_ret. by mrun (get_inode_run dir v s Hd Hv).
Qed.

Section Loop.
Context (s : fs) (order : list Z) (chains : Z -> list Z) (dir : Z) (v : m_inode) (bs : list (Z * buffer_head)).
Hypothesis D : dir_cached s order chains dir v bs.
Context (name : Z) (nm : list Z).
Hypothesis Huser : user_name s name nm.

(** The buffer and the inode when the name is in place [j]. *)
Definition named (j : Z) (w : buffer_head) : buffer_head :=
  let data := b_data w in
  let data := if i_size v <=? 16 * j then set_de_inode (j mod 64) 0 data else data in
  count_up w <| b_data := put_name (j mod 64) nm 14 data |> <| b_dirt := 1 |>.
Definition grown (j : Z) : m_inode :=
  let v' := if i_size v <=? 16 * j then v <| i_size := (j + 1) * 16 |> <| i_dirt := 1 |> <| i_ctime := fs_time s |> else v in
  v' <| i_mtime := fs_time s |>.

Definition add_next (b de i : Z) : M fs (option unit + Z * Z) :=
  if DIR_ENTRIES_PER_BLOCK <=? de then
    brelse (Some b);;
    block ← create_block dir (Z.quot i DIR_ENTRIES_PER_BLOCK);
    if block =? 0 then mret (inl None) else
    v ← get_inode dir;
    r ← bread (i_dev v) block;
    mret (match r with Some b => inr (b, 0) | None => inl (Some tt) end)
  else mret (inr (b, de)).

Lemma add_next_run b w k de i m :
  bs !! k = Some (b, w) -> i = 64 * Z.of_nat k + de -> 0 <= de <= 64 -> i < 64 * Z.of_nat (length bs) ->
  exists k' b' w' de' m', bs !! k' = Some (b', w') /\ i = 64 * Z.of_nat k' + de' /\ 0 <= de' < 64 /\
    add_next b de i (hold b (woke m s)) = (Ret (inr (b', de')), hold b' (woke m' s)).
Proof.
  intros Hb Ei Hde Hi. destruct D as [Q [Hd Hv] Hdev Hblocks Hcount _]. unfold add_next. change DIR_ENTRIES_PER_BLOCK with 64.
  destruct (Z.leb_spec 64 de); [|exists k, b, w, de, m; split_and!; done || lia]. assert (de = 64) as -> by lia.
  destruct (lookup_lt_is_Some_2 bs (S k) ltac:(lia)) as [[b' w'] Hb'].
  exists (S k), b', w', 0, (S m). split; [done|]. split; [lia|]. split; [lia|].
  destruct (Hblocks k b w Hb) as (_ & Hc & _). mrun (brelse_hold Hfuel _ _ _ _ _ m Hc).
  replace (Z.quot i 64) with (Z.of_nat (S k)) by (rewrite Z.quot_div_nonneg by lia; apply Z.div_unique with 0; lia).
  destruct (Hblocks (S k) b' w' Hb') as (Hz & Hc' & _).
  mrun (create_block_direct (woke (S m) s) dir v (Z.of_nat (S k)) Hd Hv ltac:(lia) Hz).
  rewrite (proj2 (Z.eqb_neq _ _) Hz). mrun (get_inode_run dir v (woke (S m) s) Hd Hv).
  by mrun (bread_woke Hfuel _ _ _ _ _ _ _ (S m) Q Hdev Hc').
Qed.

Lemma hold_place b w m : bufs s !! b = Some w -> hold b (woke m s) = at_place b (count_up w) dir v (woke m s).
Proof.
  intros Hb. destruct D as [_ [Hd Hv] _ _ _ _].
  transitivity ((woke m s) <| bufs := <[b := count_up w]> (bufs s) |> <| inode_table := <[Z.to_nat dir := v]> (inode_table s) |>); [|reflexivity].
  rewrite (list_insert_id _ _ _ Hv). rewrite <- (alter_value _ _ _ _ Hb). by destruct s.
Qed.

(** A round of the loop that does not take the place, and the one that does. *)
Definition add_round (n : nat) (i b de : Z) : M fs (option (Z * Z)) :=
  v ← get_inode dir;
  when (i_size v <=? i * 16) (
    upd_bh b (fun x => x <| b_data ::= set_de_inode de 0 |>);;
    t ← CURRENT_TIME;
    upd_inode dir (fun v => v <| i_size := (i + 1) * 16 |> <| i_dirt := 1 |> <| i_ctime := t |>));;
  x ← get_bh b;
  if de_inode (b_data x) de =? 0 then
    t ← CURRENT_TIME;
    upd_inode dir (fun v => v <| i_mtime := t |>);;
    copy_name name (Z.of_nat (length nm)) b de;;
    upd_bh b (fun x => x <| b_dirt := 1 |>);;
    mret (Some (b, de))
  else add_loop n dir name (Z.of_nat (length nm)) (i + 1) (Some b) (de + 1).

Lemma add_round_pass n i k b w de m :
  bs !! k = Some (b, w) -> i = 64 * Z.of_nat k + de -> 0 <= de < 64 -> ~ free_at v bs i ->
  add_round n i b de (hold b (woke m s)) =
    add_loop n dir name (Z.of_nat (length nm)) (i + 1) (Some b) (de + 1) (hold b (woke m s)).
Proof.
  intros Hb Ei Hde Hfree. unfold free_at in Hfree. rewrite (nth_entry_at bs i k b w de Hb Ei Hde) in Hfree.
  destruct D as [_ [Hd Hv] _ Hblocks _ _]. destruct (Hblocks k b w Hb) as (_ & Hc & _).
  unfold add_round. mrun (get_inode_run dir v (hold b (woke m s)) Hd Hv).
  destruct (Z.leb_spec (i_size v) (i * 16)); [lia|]. cbn [when]. rewrite bind_ret.
  mrun (get_bh_run b (count_up w) (hold b (woke m s)) (alter_at _ _ _ _ (ca_buf _ _ _ _ _ Hc))).
  change (b_data (count_up w)) with (b_data w).
  destruct (Z.eqb_spec (de_inode (b_data w) de) 0) as [E|_]; [|done]. destruct Hfree. by right.
Qed.

Lemma add_round_take n i k b w de m :
  bs !! k = Some (b, w) -> i = 64 * Z.of_nat k + de -> 0 <= de < 64 -> free_at v bs i ->
  add_round n i b de (hold b (woke m s)) = (Ret (Some (b, de)), at_place b (named i w) dir (grown i) (woke m s)).
Proof.
  intros Hb Ei Hde Hfree. unfold free_at in Hfree. rewrite (nth_entry_at bs i k b w de Hb Ei Hde) in Hfree.
  pose proof D as [_ Hdir _ Hblocks _ _]. destruct (Hblocks k b w Hb) as (_ & Hc & Hlen).
  assert (i mod 64 = de) as Emod by (rewrite Ei, Z.add_comm, Z.mul_comm, Z_mod_plus_full, Z.mod_small by lia; done).
  unfold add_round. rewrite (hold_place b w m (ca_buf _ _ _ _ _ Hc)). set (s0 := woke m s) in *.
  mrun (get_inode_run dir v _ (proj1 Hdir) (place_inode s0 b dir v Hdir (count_up w) v)).
  set (w1 := if i_size v <=? 16 * i then count_up w <| b_data ::= set_de_inode de 0 |> else count_up w).
  set (v1 := if i_size v <=? 16 * i then v <| i_size := (i + 1) * 16 |> <| i_dirt := 1 |> <| i_ctime := fs_time s |> else v).
  set (clear := when _ _).
  assert (clear (at_place b (count_up w) dir v s0) = (Ret tt, at_place b w1 dir v1 s0)) as Eclear.
  { unfold clear, w1, v1. rewrite (Z.mul_comm i 16). destruct (i_size v <=? 16 * i); [|done]. cbn [when].
    mrun (upd_bh_place s0 b dir (count_up w) v (fun x => x <| b_data ::= set_de_inode de 0 |>)).
    unfold CURRENT_TIME. rewrite bind_gets. exact (upd_inode_place s0 b dir v Hdir _ v _). }
  mrun Eclear. mrun (get_bh_run b _ _ (place_bh s0 b dir w1 v1)).
  assert (de_inode (b_data w1) de = 0) as ->.
  { unfold w1. destruct (Z.leb_spec (i_size v) (16 * i)).
    - change (de_inode (set_de_inode de 0 (b_data w)) de = 0). unfold de_inode, set_de_inode. rewrite ld16_st16 by lia. done.
    - destruct Hfree as [|E]; [lia|exact E]. }
  rewrite Z.eqb_refl. unfold CURRENT_TIME. rewrite bind_gets.
  mrun (upd_inode_place s0 b dir v Hdir w1 v1 (fun v => v <| i_mtime := fs_time s |>)). unfold copy_name.
  mrun (copy_name_place s0 b dir name nm de NAME_LEN w1 (v1 <| i_mtime := fs_time s |>) (user_name_same s s0 _ _ eq_refl Huser) ltac:(done)).
  mrun (upd_bh_place s0 b dir (w1 <| b_data ::= put_name de nm NAME_LEN |>) (v1 <| i_mtime := fs_time s |>) (fun x => x <| b_dirt := 1 |>)).
  unfold mret, M_ret. f_equal. f_equal. unfold named, w1. rewrite Emod. by destruct (i_size v <=? 16 * i).
Qed.

Lemma add_loop_ok n i k b w de m j :
  bs !! k = Some (b, w) -> i = 64 * Z.of_nat k + de -> 0 <= de <= 64 -> i <= j < 64 * Z.of_nat (length bs) ->
  (forall t, i <= t < j -> ~ free_at v bs t) -> free_at v bs j -> (Z.to_nat (j - i) < n)%nat ->
  exists b' w' m', slot_of bs j b' w' /\
    add_loop n dir name (Z.of_nat (length nm)) i (Some b) de (hold b (woke m s)) =
      (Ret (Some (b', j mod 64)), at_place b' (named j w') dir (grown j) (woke m' s)).
Proof.
  revert i k b w de m. induction n as [|n IH]; intros i k b w de m Hb Ei Hde Hj Hpass Hfree Hn; [lia|].
  destruct (add_next_run b w k de i m Hb Ei Hde ltac:(lia)) as (k' & b' & w' & de' & m' & Hb' & Ei' & Hde' & Ecur).
  assert (add_loop (S n) dir name (Z.of_nat (length nm)) i (Some b) de (hold b (woke m s)) =
    add_round n i b' de' (hold b' (woke m' s))) as ->.
  { cbn [add_loop]. unfold of_option. rewrite bind_ret. fold (add_next b de i). by mrun Ecur. }
  destruct (decide (i = j)) as [->|Hne].
  - exists b', w', m'. rewrite (add_round_take n j k' b' w' de' m' Hb' Ei' Hde' Hfree). unfold slot_of.
    replace (j / 64) with (Z.of_nat k') by (apply Z.div_unique with de'; lia). rewrite Nat2Z.id. split; [done|].
    do 4 f_equal. apply Z.mod_unique with (Z.of_nat k'); lia.
  - rewrite (add_round_pass n i k' b' w' de' m' Hb' Ei' Hde') by (apply Hpass; lia).
    apply (IH (i + 1) k' b' w' (de' + 1) m'); try done; try lia. intros t Ht. apply Hpass. lia.
Qed.
End Loop.

Lemma add_entry_run s order chains dir v bs name nm :
  dir_cached s order chains dir v bs -> i_size v mod 16 = 0 -> nm <> [] -> user_name s name nm ->
  let j := Z.of_nat (first_free (dir_entries v bs)) in
  j < 64 * Z.of_nat (length bs) -> (first_free (dir_entries v bs) < fuel)%nat ->
  exists b w m, slot_of bs j b w /\
    add_entry dir name (Z.of_nat (length nm)) s =
      (Ret (Some (b, j mod 64)), at_place b (named v (take 14 nm) j w) dir (grown s v j) (woke m s)).
Proof.
  intros D Hm Hne Hu j Hj Hf. pose proof D as [Q [Hd Hv] Hdev Hblocks Hcount Hsize].
  destruct (first_free_ok v bs ltac:(lia) Hm) as (Hfree & Hpass & _). fold j in Hfree, Hpass.
  destruct (lookup_lt_is_Some_2 bs 0 ltac:(lia)) as [[b w] Hb]. destruct (Hblocks 0%nat b w Hb) as (Hz & Hc & _).
  destruct (add_loop_ok s order chains dir v bs D name (take 14 nm) (user_name_prefix _ _ _ 14 Hu) fuel 0 0 b w 0 0 j Hb
    ltac:(lia) ltac:(lia) ltac:(lia) Hpass Hfree ltac:(lia)) as (b' & w' & m' & Hslot & E).
  exists b', w', m'. split; [done|]. rewrite woke_0 in E. rewrite <- E. unfold add_entry. change (Z.of_nat 0) with 0 in *.
  assert (Z.min (Z.of_nat (length nm)) NAME_LEN = Z.of_nat (length (take 14 nm))) as ->
    by (rewrite length_take; change NAME_LEN with 14; lia).
  destruct (Z.eqb_spec (Z.of_nat (length (take 14 nm))) 0) as [E0|_].
  { destruct nm; [done|]. cbn in E0. lia. }
  mrun (get_inode_run dir v s Hd Hv). rewrite (proj2 (Z.eqb_neq _ _) Hz).
  by mrun (bread_hit Hfuel s order chains _ _ b w Q Hdev Hc).
Qed.

(** ** Storing the inode number and releasing the block *)

(** The entry's buffer afterwards. *)
Definition linked (v : m_inode) (nm : list Z) (ino j : Z) (w : buffer_head) : buffer_head :=
  let data := b_data w in
  let data := if i_size v <=? 16 * j then set_de_inode (j mod 64) 0 data else data in
  w <| b_data := filled (j mod 64) nm ino data |> <| b_dirt := 1 |>.

Lemma set_entry_run s dir v0 v b nm ino j w v' :
  0 <= dir /\ inode_table s !! Z.to_nat dir = Some v0 ->
  set_entry b (j mod 64) ino (at_place b (named v nm j w) dir v' s) = (Ret tt, at_place b (count_up (linked v nm ino j w)) dir v' s).
Proof.
  intros Hdir. unfold set_entry. mrun (upd_bh_place s b dir (named v nm j w) v' (fun b => b <| b_data ::= set_de_inode (j mod 64) ino |>)).
  rewrite upd_bh_place. f_equal.
Qed.

Lemma brelse_place s dir v' b x n :
  b_lock x = 0 -> 0 <= b_count x < 255 ->
  brelse (Some b) (at_place b (count_up x) dir v' (woke n s)) = (Ret tt, at_place b x dir v' (woke (S n) s)).
Proof.
  intros Hl Hc. assert (b_count (count_up x) <> 0) as Hc1 by (cbn; rewrite u8_small by lia; lia).
  rewrite (brelse_run _ b _ Hfuel (place_bh (woke n s) b dir (count_up x) v') Hl Hc1). f_equal.
  transitivity ((at_place b x dir v' (woke (S n) s)) <| bufs := alter count_down b (<[b := count_up x]> (bufs s)) |>); [reflexivity|].
  rewrite (alter_value _ _ _ _ (lookup_insert_eq _ _ _)), insert_insert_eq, counted by done. reflexivity.
Qed.
End Add.

(** ** The directory afterwards *)

(** An entry in the first free place of a list. *)
Definition enter (e : Z * list Z) (l : list (Z * list Z)) : list (Z * list Z) :=
  let j := first_free l in if decide (j < length l)%nat then <[j := e]> l else l ++ [e].

Lemma slot_index (bs : list (Z * buffer_head)) j : 0 <= j < 64 * Z.of_nat (length bs) -> (Z.to_nat (j / 64) < length bs)%nat.
Proof. intros Hj. assert (j / 64 < Z.of_nat (length bs)) by (apply Z.div_lt_upper_bound; lia). pose proof (Z.div_pos j 64). lia. Qed.

Lemma nth_entry_linked v bs nm ino j b w t :
  0 <= j -> slot_of bs j b w -> length (b_data w) = 1024%nat -> short_name nm -> 0 <= t ->
  nth_entry (<[Z.to_nat (j / 64) := (b, linked v nm ino j w)]> bs) t = if decide (t = j) then (u16 ino, nm) else nth_entry bs t.
Proof.
  intros Hj Hslot Hlen Hn Ht. pose proof (lookup_lt_Some _ _ _ Hslot) as Hlt. unfold nth_entry.
  pose proof (Z.mod_pos_bound j 64 ltac:(lia)). pose proof (Z.mod_pos_bound t 64 ltac:(lia)).
  pose proof (Z.div_mod j 64 ltac:(lia)). pose proof (Z.div_mod t 64 ltac:(lia)).
  pose proof (Z.div_pos j 64 ltac:(lia)). pose proof (Z.div_pos t 64 ltac:(lia)).
  set (data1 := if i_size v <=? 16 * j then set_de_inode (j mod 64) 0 (b_data w) else b_data w).
  assert (length data1 = 1024%nat) as Hlen1.
  { unfold data1. destruct (_ <=? _); [|done]. unfold set_de_inode. by rewrite length_st16. }
  destruct (decide (Z.to_nat (t / 64) = Z.to_nat (j / 64))) as [Eb|Eb].
  - rewrite Eb, list_lookup_insert_eq by done. case_decide as Etj; [subst t; by apply dirent_filled|].
    unfold slot_of in Hslot. rewrite Hslot. cbn beta iota.
    change (b_data (linked v nm ino j w)) with (filled (j mod 64) nm ino data1).
    rewrite dirent_filled_ne by lia || done. unfold data1. destruct (_ <=? _); [|done]. apply dirent_cleared_ne; lia.
  - rewrite list_lookup_insert_ne by done. case_decide as Etj; [by subst t|done].
Qed.

Lemma grown_size s v j : i_size (grown s v j) = if i_size v <=? 16 * j then (j + 1) * 16 else i_size v.
Proof. unfold grown. by destruct (_ <=? _). Qed.

Lemma dir_entries_linked s v bs nm ino b w :
  0 <= i_size v -> i_size v mod 16 = 0 -> short_name nm ->
  let j := Z.of_nat (first_free (dir_entries v bs)) in
  slot_of bs j b w -> length (b_data w) = 1024%nat ->
  dir_entries (grown s v j) (<[Z.to_nat (j / 64) := (b, linked v nm ino j w)]> bs) = enter (u16 ino, nm) (dir_entries v bs).
Proof.
  intros Hs Hm Hn j Hslot Hlen. set (v' := grown s v j). set (bs' := <[_ := _]> bs).
  destruct (first_free_ok v bs Hs Hm) as (_ & _ & Hle & Hlast). fold j in Hle, Hlast.
  pose proof (length_dir_entries v bs Hs) as El. pose proof (Z.div_mod (i_size v) 16 ltac:(lia)) as Hdm.
  assert (0 <= i_size v') as Hs' by (unfold v'; rewrite grown_size; destruct (_ <=? _); lia).
  assert (i_size v' / 16 = Z.max (i_size v / 16) (j + 1)) as Esize.
  { unfold v'. rewrite grown_size. destruct (Z.leb_spec (i_size v) (16 * j)); [rewrite Z.div_mul by lia|]; lia. }
  pose proof (length_dir_entries v' bs' Hs') as El'. unfold enter. fold j.
  assert (first_free (dir_entries v bs) = Z.to_nat j) as -> by lia.
  assert (forall t, (t < length (dir_entries v' bs'))%nat ->
    dir_entries v' bs' !! t = Some (if decide (Z.of_nat t = j) then (u16 ino, nm) else nth_entry bs (Z.of_nat t))) as Hlk.
  { intros t Ht. rewrite lookup_dir_entries by done. f_equal. apply nth_entry_linked; done || lia. }
  apply list_eq. intros t. destruct (decide (t < length (dir_entries v' bs'))%nat) as [Ht|Ht].
  - rewrite Hlk by done. case_decide as Htj; case_decide as Hj.
    + subst j. by rewrite <- Htj, Nat2Z.id, list_lookup_insert_eq by lia.
    + rewrite lookup_app_r by lia. replace (t - length (dir_entries v bs))%nat with 0%nat by lia. done.
    + rewrite list_lookup_insert_ne by lia. rewrite lookup_dir_entries by lia. done.
    + rewrite lookup_app_l by lia. rewrite lookup_dir_entries by lia. done.
  - rewrite (proj2 (lookup_ge_None _ _)) by lia. symmetry. apply lookup_ge_None.
    case_decide; rewrite ?length_insert, ?length_app; cbn; lia.
Qed.

Lemma dir_cached_linked s order chains dir v bs nm ino m b w :
  dir_cached s order chains dir v bs -> i_size v mod 16 = 0 -> NoDup bs.*1 ->
  let j := Z.of_nat (first_free (dir_entries v bs)) in
  j < 64 * Z.of_nat (length bs) -> slot_of bs j b w ->
  dir_cached (at_place b (linked v nm ino j w) dir (grown s v j) (woke m s)) order chains dir (grown s v j)
    (<[Z.to_nat (j / 64) := (b, linked v nm ino j w)]> bs).
Proof.
  intros D Hm Hnd j Hj Hslot. pose proof D as [Q Hdir Hdev Hblocks Hcount Hsize].
  assert (i_dev (grown s v j) = i_dev v /\ forall k, zone (grown s v j) k = zone v k) as [Ed Ez]
    by (unfold grown; destruct (_ <=? _); done).
  destruct (Hblocks _ b w Hslot) as (Hz & [Hb Hkey Hst] & Hlen). set (x := linked v nm ino j w).
  assert (length (b_data x) = 1024%nat) as Hlenx.
  { change (length (filled (j mod 64) nm ino (if i_size v <=? 16 * j then set_de_inode (j mod 64) 0 (b_data w) else b_data w)) = 1024%nat).
    rewrite length_filled. destruct (_ <=? _); [|done]. unfold set_de_inode. by rewrite length_st16. }
  split.
  - apply (queues_same (s <| bufs ::= alter (fun y => y <| b_data := b_data x |> <| b_dirt := 1 |>) b |>)); [|done|done|].
    + change (<[b := x]> (bufs s) = alter (fun y => y <| b_data := b_data x |> <| b_dirt := 1 |>) b (bufs s)).
      by rewrite (alter_value _ _ _ _ Hb).
    + by apply queues_upd; [..|left].
  - split; [apply Hdir|]. exact (place_inode (woke m s) b dir v Hdir x _).
  - by rewrite Ed.
  - intros k b' w' Hk. rewrite Ed, Ez. destruct (decide (Z.to_nat (j / 64) = k)) as [<-|Hne].
    + rewrite list_lookup_insert_eq in Hk by (apply slot_index; lia). injection Hk as <- <-. split; [done|]. split; [|done].
      split; [apply place_bh|done|done].
    + rewrite list_lookup_insert_ne in Hk by done. destruct (Hblocks k b' w' Hk) as (Hz' & [Hb' Hk' Hs'] & Hl'). split; [done|].
      split; [|done]. split; [|done|done]. transitivity (bufs s !! b'); [|done]. apply lookup_insert_ne. intros <-. apply Hne.
      eapply NoDup_lookup; [exact Hnd|rewrite list_lookup_fmap, Hslot; done|by rewrite list_lookup_fmap, Hk].
  - rewrite length_insert. lia.
  - rewrite length_insert, grown_size. destruct (_ <=? _); lia.
Qed.

Lemma find_entered nm ino l :
  ino <> 0 -> list_find (is_entry nm) l = None ->
  list_find (is_entry nm) (enter (ino, nm) l) = Some (first_free l, (ino, nm)).
Proof.
  intros Hi Hl. rewrite list_find_None, Forall_lookup in Hl. unfold enter. apply list_find_Some.
  assert (first_free l <= length l)%nat as Hle.
  { unfold first_free. destruct (list_find _ l) as [[j e]|] eqn:E; [|done]. apply list_find_Some in E as (E & _).
    apply lookup_lt_Some in E. lia. }
  case_decide as Hj.
  - rewrite list_lookup_insert_eq by done. split; [done|]. split; [by split|]. intros k y Hy Hk.
    rewrite list_lookup_insert_ne in Hy by lia. by apply (Hl k).
  - assert (first_free l = length l) as -> by lia. rewrite list_lookup_middle by done. split; [done|]. split; [by split|].
    intros k y Hy Hk. rewrite lookup_app_l in Hy by done. by apply (Hl k).
Qed.

(** ** Property *)

(** C15: a name that is added is found.  When the directory has a free place in its blocks,
    [add_entry] succeeds; with the inode number stored by the caller and the block released, the
    directory's list of entries has the new entry, inode number and first fourteen characters of
    the name, in its first unused place or at its end, and all its other entries as they were,
    and the buffer cache is right.  [find_entry] then returns an entry that holds this number,
    if the name was not there before. *)
Theorem add_entry_find `{FsEnv} s order chains dir v bs name nm ino :
  dir_cached s order chains dir v bs -> i_size v mod 16 = 0 -> NoDup bs.*1 ->
  nm <> [] -> nm <> dotdot_name -> user_name s name nm -> 0 < ino < 65536 ->
  (first_free (dir_entries v bs) < 64 * length bs)%nat -> (first_free (dir_entries v bs) < fuel)%nat ->
  exists b de s1 s2 s3 v' bs',
    add_entry dir name (Z.of_nat (length nm)) s = (Ret (Some (b, de)), s1) /\
    set_entry b de ino s1 = (Ret tt, s2) /\ brelse (Some b) s2 = (Ret tt, s3) /\
    dir_cached s3 order chains dir v' bs' /\
    dir_entries v' bs' = enter (ino, take 14 nm) (dir_entries v bs) /\
    (list_find (is_entry (take 14 nm)) (dir_entries v bs) = None ->
     exists s4 w, find_entry dir name (Z.of_nat (length nm)) s3 = (Ret (Some (b, de), dir), s4) /\
       bufs s4 !! b = Some w /\ de_inode (b_data w) de = ino).
Proof.
  intros D Hm Hnd Hne Hdd Hu Hino Hroom Hfuel. assert (fuel <> O) as Hf by lia. pose proof D as [Q Hdir Hdev Hblocks Hcount Hsize].
  pose proof (short_take nm (un_chars _ _ _ Hu)) as Hshort. set (j := Z.of_nat (first_free (dir_entries v bs))).
  destruct (add_entry_run Hf s order chains dir v bs name nm D Hm Hne Hu ltac:(lia) Hfuel) as (b & w & m & Hslot & Eadd).
  fold j in Hslot, Eadd. destruct (Hblocks _ b w Hslot) as (_ & [Hb Hkey Hst] & Hlen).
  set (x := linked v (take 14 nm) ino j w). set (s3 := at_place b x dir (grown s v j) (woke (S m) s)).
  pose proof (dir_cached_linked s order chains dir v bs (take 14 nm) ino (S m) b w D Hm Hnd ltac:(lia) Hslot) as D3.
  pose proof (dir_entries_linked s v bs (take 14 nm) ino b w ltac:(lia) Hm Hshort Hslot Hlen) as Ee.
  fold j in D3, Ee. fold x in D3, Ee. fold s3 in D3. rewrite u16_small in Ee by lia. eexists b, (j mod 64), _, _, s3, _, _.
  split; [exact Eadd|]. split; [exact (set_entry_run (woke m s) dir v v b (take 14 nm) ino j w _ Hdir)|].
  split; [apply (brelse_place Hf s); apply Hst|]. split; [exact D3|]. split; [exact Ee|].
  intros Hnone. pose proof (find_entry_run Hf s3 order chains dir _ _ name nm D3 Hne (user_name_same s s3 _ _ eq_refl Hu)
    ltac:(done)) as Efind.
  assert (sought s3 dir nm = take 14 nm) as Es by (unfold sought; rewrite bool_decide_false by naive_solver; done).
  rewrite Es, Ee, find_entered in Efind by (done || lia). destruct Efind as (b' & w' & m' & Hslot' & E). fold j in E, Hslot'.
  unfold slot_of in Hslot'. rewrite list_lookup_insert_eq in Hslot' by (apply slot_index; lia). injection Hslot' as <- <-.
  eexists _, (count_up x). split; [exact E|]. split; [exact (alter_at _ _ _ _ (place_bh (woke (S m) s) b dir x _))|].
  assert (dirent (b_data x) (j mod 64) = (u16 ino, take 14 nm)) as Ed.
  { apply dirent_filled; [apply Z.mod_pos_bound; lia| |done]. destruct (_ <=? _); [|done]. unfold set_de_inode. by rewrite length_st16. }
  rewrite u16_small in Ed by lia. exact (f_equal fst Ed).
Qed.

(** ** Witness *)

(** The name "xy" goes into the unused place of the directory, and "xy" is found there. *)
Definition demo_xy : gmap Z Z := list_to_map [(100, 120); (101, 121)].
Definition demo_dir_xy : fs := demo_dir <| umem := demo_xy |>.

Lemma dir_cached_umem s order chains dir v bs m :
  dir_cached s order chains dir v bs -> dir_cached (s <| umem := m |>) order chains dir v bs.
Proof.
  intros [Q Hdir Hdev Hblocks Hcount Hsize].
  split; [by apply (queues_same s)|exact Hdir|exact Hdev| |exact Hcount|exact Hsize].
  intros k b x Hk. destruct (Hblocks k b x Hk) as (Hz & [Hb Hkey Hst] & Hl). split; [exact Hz|]. split; [|exact Hl].
  split; [exact Hb|exact Hkey|exact Hst].
Qed.

Lemma user_name_umem s m name nm :
  Forall (fun c => c <> 0) nm -> user_bytes m name (Z.of_nat (length nm)) = nm -> user_name (s <| umem := m |>) name nm.
Proof. intros Hc Hb. split; [exact Hc|exact Hb]. Qed.

#[local] Opaque demo_dir.

Lemma add_entry_find_witness :
  exists b de s1 s2 s3 v' bs' s4,
    add_entry (H := quiet) 0 100 2 demo_dir_xy = (Ret (Some (b, de)), s1) /\
    set_entry b de 9 s1 = (Ret tt, s2) /\ brelse (H := quiet) (Some b) s2 = (Ret tt, s3) /\
    dir_entries v' bs' = [(1, [46]); (9, [120; 121]); (7, [97; 98])] /\
    find_entry (H := quiet) 0 100 2 s3 = (Ret (Some (b, de), 0), s4).
Proof.
  destruct demo_dir_ok as (chains & w & D0 & Ew).
  pose proof (dir_cached_umem _ _ _ _ _ _ demo_xy D0) as D.
  assert (user_name demo_dir_xy 100 [120; 121]) as Hu by (apply user_name_umem; [by repeat constructor|reflexivity]). pose proof (demo_dir_entries w Ew) as Ee.
  assert (first_free (dir_entries demo_dir_inode [(2, w)]) = 1%nat) as Ef by (rewrite Ee; reflexivity).
  destruct (add_entry_find (H := quiet) demo_dir_xy [0; 1; 2] chains 0 demo_dir_inode [(2, w)] 100 [120; 121] 9 D
    ltac:(reflexivity) ltac:(apply NoDup_singleton) ltac:(discriminate) ltac:(discriminate) Hu ltac:(lia)
    ltac:(rewrite Ef; apply Nat.ltb_lt; reflexivity) ltac:(rewrite Ef; apply Nat.ltb_lt; reflexivity))
    as (b & de & s1 & s2 & s3 & v' & bs' & E1 & E2 & E3 & _ & E4 & E5).
  rewrite Ee in E4, E5. destruct (E5 ltac:(reflexivity)) as (s4 & w4 & E6 & _).
  exists b, de, s1, s2, s3, v', bs', s4. split; [exact E1|]. split; [exact E2|]. split; [exact E3|]. split; [exact E4|exact E6].
Defined.
